(* ===== verification/_CoqProject ===== *)
-Q . S2P
Prelude.v
Errors.v
PyTime.v
PyData.v
PyStr.v
Regex.v
RegexFacts.v
PyUrl.v
Transitions.v
Run.v
Tables.v
RunFacts.v
Step.v
StepFacts.v
Policy.v
Coverage.v
Intent.v
Lease.v
Workflow.v
WorkflowFacts.v
GraphFacts.v
GraphCodec.v
Discovery.v
DiscoveryFacts.v
Artifacts.v
Research.v
StepStore.v
StepStoreFacts.v
Repositories.v
Completion.v
Conversation.v
CompletionFacts.v
WorkflowRuns.v
Submissions.v
Chunker.v
Evidence.v
Authority.v
Sources.v
Selector.v
EvidenceRules.v
ModelGateway.v
Verifier.v
VerifierBatch.v
EvidenceFacts.v
SelectorFacts.v
Templates.v
Router.v
QueryCompiler.v
QueryFacts.v
Planner.v
PlannerFacts.v
Expansion.v
Ranking.v
Operations.v
Extraction.v
Answer.v
Claims.v
ClaimsFacts.v
Synthesizer.v
AnswerFacts.v
Answering.v
ModelGatewayFacts.v
ModelAudit.v
ModelAuditFacts.v
ModelCalls.v
Campaign.v
CampaignBudget.v
CampaignPolicy.v
Gate.v
GateFacts.v
CampaignPlan.v
CampaignPlanFacts.v
CampaignRows.v
CampaignStore.v
CampaignCreate.v
Collector.v
CampaignLedger.v
CampaignFacts.v
CampaignHistory.v
