(* ===== verification/Prelude.v ===== *)
(** * Sana: a verification development

    Sana (sana/) answers questions by searching the web. A message starts a search run: a workflow
    graph of steps (route, plan, discover, select, fetch, extract, verify, synthesize) that workers
    claim under leases, execute against search providers, sites and language models, and record in
    a database, within deadlines and budgets. A shadow campaign replays a manifest of test cases
    against a candidate deployment, with budgets on calls and money, and collects the results.
    This development models the deterministic core of both: the aggregates, the scheduler of the
    graph, the transactions of the stores, the audited calls of language models, the limits of
    concurrent discovery; what the steps do, from the plan of a message through the pages that are
    read and the evidence that is verified to the cited answer, with the regular expressions and the
    reviewed tables that decide it; and the plan, the ledger and the release gate of a campaign. This
    header describes all of it; each file opens with its own.

    ** Conventions

    - A Python object is a record, an enum an inductive type with the source's members; a field
      [x] of class [C] is the projection of a short prefix and [x]. A frozen value whose constructor
      checks is a record with a function [C_new] that runs the checks.
    - Exceptions are values ([exn], [res] in Errors). A method of a mutable object is a state
      transformer [M S A]; the state after a raise is the state at the raise, so a field that was
      assigned before a guard is modelled as assigned. A database transaction rolls back.
    - A definition that translates code carries its source file and symbol in a comment above it.
    - Strings are lists of code points ([pystr]); [strip] and case mapping are Python's on the
      characters the code uses. Dicts whose order matters are association lists ([dget], [dset]),
      the tables of a database are [gmap]s.
    - Clock readings, fresh identifiers and random choices are arguments of the operation that
      reads them. Theorems about histories quantify over them.
    - A float is a binary64 (SpecFloat) with the operations of the source; a datetime is aware or
      naive and counts microseconds, without the year limits; a timedelta is an integer number of
      microseconds, rounded as Python rounds. A database Numeric(20, 10) is an integer number of
      1e-10 units, and decimal arithmetic rounds to the 28 digits of the default context; the
      ledger theorems prove that no rounding happens within the columns' range.
    - Integers are unbounded, as in Python; the CHECK constraints and ranges of columns are
      explicit ([campaign_checks], [result_checks] in CampaignRows).
    - The only fuel is that of [excess_digits] (CampaignBudget; a bound by the number of digits,
      so always enough), of [drive] (GraphFacts), whose theorem shows that one round more than
      the graph has steps is enough, of [chunk_from] (Chunker), where the length of the text is
      enough, of [invoke_loop] (ModelGateway), which is the code's own [range], of [fit_parts]
      (QueryCompiler), where one turn for each part is enough since every turn drops one, and of the
      parser and the matcher of Regex: the parser is run when a pattern is defined, with the length of
      its text, and [re "..."] does not elaborate if that is too little; a repetition reads a
      character in each turn, so the rest of the text is enough, which the completeness theorem of the
      matcher proves.

    ** The files

    Shared:
    - Prelude: tactics, hints, strings, association lists, sums, sequences of steps ([star]).
    - Errors: [modules/shared/errors.py] and [result.py], exceptions and the method monad.
    - PyTime: [modules/shared/clock.py], floats, spans and instants.
    - PyData: JSON values, conversions between text and data ([PyText]), prefixes of texts.
    - PyStr: the methods of strings, over a Unicode database. PyUrl: [urlsplit].
    - Regex, RegexFacts: the regular expressions of Python: a parser of patterns, the backtracking
      matcher, and its soundness and completeness against a relation of matches.

    Search runs ([modules/orchestration]):
    - Transitions: the tables of [transitions.py].
    - Run, RunFacts: [SearchRun] of [domain.py] with budgets, usage and artifacts. Histories keep
      the versions, counters and outcomes sound, methods that raise leave the run alone, and every
      reachable run can be loaded again.
    - Step, StepFacts: [SearchStep] and [StepAttempt] of [domain.py], with their histories.
    - Policy: [policy.py], deadlines and the budget guard, with the reserve for synthesis.
    - Coverage: [modules/evidence/coverage.py] and the evidence values.
    - Lease: [lease.py] and [reconciler.py]; claims, recovery of expired leases, a pass of the
      reconciler.
    - Workflow, WorkflowFacts: [search_workflow.py], the reservation ledger, the graph and its
      scheduler; the ledger never commits more than the budget, and a batch of reservations is
      taken as a whole or not at all.
    - GraphFacts: every reachable graph is well formed; what a scheduling step submits, skips,
      cancels and releases, before and after the deadline; working a sealed graph off
      terminates with every step ended. GraphCodec: the stored form of a graph reads back.
    - Research: [research_workflow.py], the upgrade of a run, expansion rounds, outcomes.
    - StepStore, StepStoreFacts: [app/sql_step_execution.py], [app/reconciliation.py] and the
      repositories of [platform/db/repositories.py]; transactions over the rows of runs, steps and
      attempts, for any interleaving of workers and reconcilers. At most one attempt of a step is
      open, an ended step stays ended, and a worker whose attempt was replaced changes nothing.
      What a step's end adds to the graph is the interface [CompletionHook], a class with its laws.
    - Tables, Repositories: the rows of [platform/db/models] that conversations and step results
      live in, with their keys, and the inserts of the repositories.
    - Completion, CompletionFacts: [app/workflow_completion.py], the coordinator that adds the
      successors of a step and writes its results; an instance of [CompletionHook] for every
      answer of its artifact store, clock and identifiers. It says which steps it adds, and that a
      run it leaves open has work left.
    - Conversation: submitting, creating and cancelling ([modules/conversation/domain.py],
      [app/api/services.py]).
    - WorkflowRuns: the store with the coordinator, the conversation service and the reconciler on
      one database. From the empty database no run is ever orphaned, its stages follow each
      other, and past its hard deadline it can be ended. Submissions: a submission happens once,
      and every step has its message in the outbox.

    Discovery ([modules/discovery], [platform/search/circuit_breaker.py]):
    - Discovery, DiscoveryFacts: circuit breakers, the nested semaphores of tenants, providers and
      the process, one provider call. The limits hold for every interleaving, with cancellations;
      waiting calls do not deadlock; a breaker admits one probe at a time.

    Search planning ([modules/search_planning], [modules/discovery/official_sources.py]):
    - Intent: the values of [domain.py]. Router: [router.py], FAST or RESEARCH.
    - Templates: [reviewed_templates.py]; every reviewed template is a valid plan.
    - QueryCompiler, QueryFacts: [query_compiler.py]; a valid intent compiles to distinct queries
      within the limits of the policy, unless one of its texts holds half of a surrogate pair: UTF-8
      cannot encode it, and the digest of its query raises.
    - Planner, PlannerFacts: [planner.py], and the heuristic planner of [app/search_operations.py]
      with the fallback to it. Whatever a model answers or however it fails, a plan that is returned
      is a valid intent within its bounds, and compiles with that exception.
    - Expansion: [expansion.py] with [modules/evidence/evidence_gain.py]; another round only within
      its limits, for facts that gain from it, with new queries.
    - Sources: the reviewed pages of a fact.

    Documents ([modules/content], [platform/storage/local_artifacts.py]):
    - Chunker: [chunker.py]; chunking ends, and the chunks put together are the text again.
    - Artifacts: the store of artifacts by digest; what is put reads back, to its tenant only.

    Evidence ([modules/evidence]):
    - Evidence: the values, the builder and the parser of a model's verdicts. EvidenceRules: the
      reviewed rules that accept evidence without a model.
    - Authority, Selector, SelectorFacts: [source_authority.py] and [candidate_selector.py]. A page is
      official exactly when it is configured for the entity; a selected passage is a span of a
      document mapped to its fact, within the limits, and no fact that has a passage loses all of them;
      the selection raises only at a document whose authority or text does.
    - Verifier, VerifierBatch, EvidenceFacts: [model_verifier.py]. A batch has one record for every
      candidate, each quoting its document at the offsets it names, and keeps what a rule established.
      When the call of the model fails (a typed, value, type or key error, or no parsed answer), the
      batch says so and accepts only what a rule established; any other error goes to the caller, as
      does that of a rule on a page with a date that does not exist.

    Answers ([modules/answer]):
    - Answer: claims, citations and the validator. Claims, ClaimsFacts, Synthesizer:
      [model_synthesizer.py]. AnswerFacts: every factual claim that passes is traced by citations to
      accepted evidence of its tenant, run and fact. When the model fails, the answer states exactly
      the facts that accepted evidence supports and says that it is degraded.

    Steps ([app/search_operations.py], [step_handlers/base.py]):
    - Ranking: which found pages are read; a FAST search that found an official page reads only
      official pages, a RESEARCH search covers every fact it has slots for.
    - Operations: routing, planning, discovery, selection and fetching. Extraction: [extractor.py]
      and the extract step. Answering: the verify and synthesize steps; across both and the artifacts
      between them, every citation is a span of the stored text of a document that was extracted,
      and an answer is called complete exactly when every required fact is answered and covered and
      neither plan, verification, pipeline nor model was degraded.

    Language models ([modules/model_gateway], [platform/db/model_audit.py]):
    - ModelGateway, ModelGatewayFacts: the values, the class [ParsingGateway] its callers rely on, the
      audit port as a class, the attempt loop of the gateway with its deadline margin, retries and the
      one repair. Whatever its environment answers, a provider is called once under each reservation
      and the call is sealed.
    - ModelAudit, ModelAuditFacts: the audit of the calls as transactions over invocation rows and
      the run's usage, and the reconciler's sealing of orphans, between the steps of workers that end
      with the coordinator of Completion. The usage of a run is what its calls add up to and stays
      within its limit; a sealed call stays as it is. What the audit needs of the end of a step is the
      class [MeteredHook]; the coordinator is an instance, for every answer of its environment.
    - ModelCalls: the laws an audit promises to the gateway ([AuditLaws], and [EnvironmentLaws]
      for what others do meanwhile), the gateway proved against them, and the SQL audit as an
      instance.

    Shadow campaigns ([modules/shadow_campaign] and [platform/db/shadow_*.py]):
    - Campaign: the lifecycle aggregate of [domain.py]. CampaignBudget: [budget.py].
      CampaignPolicy: [policy.py].
    - Gate, GateFacts: [evaluator.py]; percentiles, metrics and rules, and the decision as one
      condition on the metrics.
    - CampaignPlan, CampaignPlanFacts: [manifest.py] and the run plan of [scheduler.py]. A manifest
      that passes validation has a run plan with every selected case and repetition exactly once;
      the order is fair between strata.
    - CampaignRows, CampaignStore, CampaignCreate: the rows with their constraints and every
      transaction on them: creation, materialization, claims, leases, reservations, settlements,
      bindings, failures, skips and collection.
    - CampaignLedger, CampaignFacts, CampaignHistory: the abstract specification is a ledger
      machine ([ledger_step]): one unit moves together with its campaign under [moved], a campaign
      or its plan appears, pending units are skipped and counted, a lifecycle changes. Every call
      of the store implements steps of that machine (a refinement), so in every history the
      counters are the sums over the results, committed calls and money stay within the ceilings,
      the live units stay within the concurrency limit, a settlement is applied once, and a fenced
      lease stays fenced.
    - Collector: [collector.py], what a finished run is measured to be. Its violations are exactly the
      factual claims without a citation that stands; it has no error class exactly when it is clean.

    ** How the parts interact

    The store of steps calls Run, Step, Lease and Policy under its transactions; the workflow calls
    the ledger and the run's methods; the research workflow upgrades a run and extends the graph;
    the campaign store calls the lifecycle aggregate, the admission decision and the run plan.
    The gateway calls its audit through a class; the SQL audit works on the rows of the step store
    and shares their fences, and the recovery of a step abandons its open calls.
    The planner, the verifier and the synthesizer call a gateway through [ParsingGateway]. The steps
    call the planner, the selector, the verifier and the synthesizer, and pass JSON artifacts on; what
    a step reads of an artifact is what the step before wrote, with sorted keys.
    A file requires the files of the components it calls.

    ** Parameters

    SHA-256, the canonical JSON texts, uuid5 and the sort digest of review units ([Digests] in
    CampaignFacts, section contexts in CampaignPlan and CampaignCreate); what
    the environment of the completion coordinator answers ([HookEnv]) and the conversions of text
    ([PyText]); what a search
    or model provider does, the parser of an answer, the digest of a model call and the store that
    holds responses; the token count of a chunk; the rows that other components write (those of the candidate).
    The Unicode database ([Unicode], used above code point 127 only), with two laws of it where a
    theorem needs them: the CJK characters have no case ([Caseless]), and normalizing or folding a
    text that UTF-8 can encode gives such a text ([EncodableText]); JSON texts ([JsonText]) and UTF-8
    ([Codecs]); IP literals in URLs ([IpLiterals]), the public suffix list ([PublicSuffixes]), the
    callbacks of the HTML parser ([HtmlEvents]), the reading of a decimal and the text of an instant
    (section contexts in Collector), the order of a set of strings ([SetOrder], with the
    law that it is an order of that set), and the wording of exceptions. That an identifier reads back
    from its own text is a hypothesis of the theorems that cross the artifact store.
    No theorem assumes a digest to be free of collisions.

    A transaction is one atomic step. This is what the row locks of the code give: every method
    locks the campaign or the step first; [renew_result_lease], which does not, is a single
    guarded UPDATE. SKIP LOCKED is not modelled: it only makes a claim find fewer units. Rows of
    the tables that the modelled code does not read (events, reviews) are left out.

    ** Not modelled

    HTML and HTTP, DNS and the network: the search providers and model adapters, fetching and the
    checks of its addresses. The HTTP API, Celery, Redis, telemetry and the command line, which call
    the modelled parts. The legacy agent, migrations and clients. Of the campaign: the report that
    aggregates metrics and binds the decision, reviews, the runner, and the queries that load the rows
    of a run for its collection. Of the workflow: the executor's loop and the wrapper of a step that
    ends it at its deadline. Of the artifact store: failures of the disk. These are the continuation of this development. *)

From Stdlib Require Export ZArith Lia.
From Stdlib Require Import String Ascii DecimalString DecimalZ.
From stdpp Require Export base gmap list sorting.

#[global] Open Scope Z_scope.
#[global] Set Default Proof Using "Type".

(** ** Automation shared by the whole development *)

Create HintDb sana.
Create Rewrite HintDb sana.

(** [ksplit] splits conjunctions and closes what is immediate. *)
Ltac ksplit := repeat match goal with |- _ /\ _ => split end; try done.

(** [bools] turns the boolean tests of the code into propositions. *)
Ltac bools :=
  repeat match goal with
  | H : ?b = (_ <? _) |- _ => symmetry in H
  | H : ?b = (_ <=? _) |- _ => symmetry in H
  | H : _ && _ = true |- _ => apply andb_prop in H as [??]
  | H : _ || _ = false |- _ => apply orb_false_elim in H as [??]
  | H : negb _ = true |- _ => apply negb_true_iff in H
  | H : negb _ = false |- _ => apply negb_false_iff in H
  | H : (_ <? _) = true |- _ => apply Z.ltb_lt in H
  | H : (_ <? _) = false |- _ => apply Z.ltb_ge in H
  | H : (_ <=? _) = true |- _ => apply Z.leb_le in H
  | H : (_ <=? _) = false |- _ => apply Z.leb_gt in H
  | H : (_ =? _) = true |- _ => apply Z.eqb_eq in H
  | H : (_ =? _) = false |- _ => apply Z.eqb_neq in H
  | H : bool_decide _ = true |- _ => apply bool_decide_eq_true in H
  | H : bool_decide _ = false |- _ => apply bool_decide_eq_false in H
  end.

(** [x is y] and [x is not y] for enum members. *)
Declare Scope python_scope.
#[global] Open Scope python_scope.
Notation "x 'is' y" := (bool_decide (x = y)) (at level 70, no associativity) : python_scope.
Notation "x 'isnot' y" := (negb (bool_decide (x = y))) (at level 70, no associativity) : python_scope.

(** [x is None] *)
Definition is_none {A} (o : option A) : bool := match o with None => true | Some _ => false end.

(** ** Python text

    A [str] is its sequence of code points. [u "route"] is the literal "route". *)

Abbreviation pystr := (list Z).

Definition u (s : string) : pystr :=
  map (fun a => Z.of_N (N_of_ascii a)) (list_ascii_of_string s).

(** The code points [str.strip] removes: those for which [str.isspace] holds. *)
Definition is_space (c : Z) : bool :=
  bool_decide (c ∈ [9; 10; 11; 12; 13; 28; 29; 30; 31; 32; 133; 160; 5760; 8192; 8193; 8194;
    8195; 8196; 8197; 8198; 8199; 8200; 8201; 8202; 8232; 8233; 8239; 8287; 12288]).

Fixpoint lstrip (s : pystr) : pystr :=
  match s with
  | c :: r => if is_space c then lstrip r else s
  | [] => []
  end.

Definition strip (s : pystr) : pystr := reverse (lstrip (reverse (lstrip s))).

(** [not s.strip()] *)
Definition blank (s : pystr) : bool := bool_decide (strip s = []).

Lemma lstrip_nil_iff s : lstrip s = [] <-> forallb is_space s = true.
Proof.
  induction s as [|c s IH]; simpl; [done|].
  destruct (is_space c); simpl; [done|]. split; intros; discriminate.
Qed.

Lemma lstrip_suffix s : exists p, s = p ++ lstrip s.
Proof.
  induction s as [|c s [p IH]]; simpl; [by exists []|].
  destruct (is_space c); [exists (c :: p); simpl; congruence | by exists []].
Qed.

Lemma lstrip_head s c r : lstrip s = c :: r -> is_space c = false.
Proof.
  induction s as [|d s IH]; simpl; [done|].
  destruct (is_space d) eqn:E; [done|]. intros [= -> ->]. done.
Qed.

Lemma lstrip_idem s : lstrip (lstrip s) = lstrip s.
Proof.
  destruct (lstrip s) as [|c r] eqn:E; [done|].
  simpl. by rewrite (lstrip_head _ _ _ E).
Qed.

(** A blank string has only white space. *)
Lemma blank_spec s : blank s = forallb is_space s.
Proof.
  unfold blank. apply eq_true_iff_eq. rewrite bool_decide_eq_true, <- lstrip_nil_iff.
  unfold strip. split; intros H.
  - destruct (lstrip s) as [|c r] eqn:E; [done|]. exfalso.
    apply (f_equal reverse) in H. rewrite reverse_involutive in H. simpl in H.
    apply lstrip_nil_iff in H. rewrite reverse_cons, forallb_app in H. simpl in H.
    rewrite (lstrip_head _ _ _ E) in H. by destruct (forallb _ _).
  - by rewrite H.
Qed.

Lemma blank_strip s : blank (strip s) = blank s.
Proof.
  rewrite (blank_spec (strip s)). unfold blank, strip.
  destruct (lstrip (reverse (lstrip s))) as [|c r] eqn:E; [done|].
  rewrite reverse_cons, forallb_app. simpl. rewrite (lstrip_head _ _ _ E).
  rewrite andb_false_r. symmetry. apply bool_decide_eq_false. destruct (reverse r); done.
Qed.

Lemma strip_idem s : strip (strip s) = strip s.
Proof.
  unfold strip. set (l := lstrip s). set (t := reverse (lstrip (reverse l))).
  assert (lstrip t = t) as ->.
  { destruct (lstrip_suffix (reverse l)) as [p Hp]. apply (f_equal reverse) in Hp.
    rewrite reverse_involutive, reverse_app in Hp. change (reverse (lstrip (reverse l))) with t in Hp.
    destruct t as [|c r]; [done|]. simpl in *. by rewrite (lstrip_head s c (r ++ reverse p)). }
  unfold t at 1. by rewrite reverse_involutive, lstrip_idem.
Qed.

(** [str(n)] for an int. *)
Definition str_of_Z (n : Z) : pystr := u (NilZero.string_of_int (Z.to_int n)).

Definition hex_digit (d : Z) : Z := if d <? 10 then 48 + d else 87 + d.

Fixpoint hex_digits (len : nat) (n : Z) : pystr :=
  match len with
  | O => []
  | S k => hex_digits k (n / 16) ++ [hex_digit (n mod 16)]
  end.

(** A UUID is its 128-bit integer; [str(uuid)] is the 8-4-4-4-12 grouping of its hex digits. *)
Abbreviation UUID := Z.

Definition uuid_hex (x : UUID) : pystr := hex_digits 32 (x mod 2 ^ 128).

Definition str_of_uuid (x : UUID) : pystr :=
  let h := uuid_hex x in
  take 8 h ++ u "-" ++ take 4 (drop 8 h) ++ u "-" ++ take 4 (drop 12 h) ++ u "-" ++
  take 4 (drop 16 h) ++ u "-" ++ drop 20 h.

(** [c in "0123456789abcdef"] for one character, and with the capitals. *)
Definition lower_hex_char (c : Z) : bool :=
  ((48 <=? c) && (c <=? 57)) || ((97 <=? c) && (c <=? 102)).

Definition hex_char (c : Z) : bool := lower_hex_char c || ((65 <=? c) && (c <=? 70)).

(** [str.lower] on ASCII text (the code applies it to hex digests and hosts). *)
Definition ascii_lower (s : pystr) : pystr :=
  map (fun c => if (65 <=? c) && (c <=? 90) then c + 32 else c) s.

(** [a < b] on [str]: by code points. *)
Fixpoint pystr_ltb (a b : pystr) : bool :=
  match a, b with
  | [], [] => false
  | [], _ :: _ => true
  | _ :: _, [] => false
  | x :: a, y :: b => (x <? y) || ((x =? y) && pystr_ltb a b)
  end.

(** [sorted]: stable, as an insertion sort from the right. *)
Section Sort.
Context {A : Type} (ltb : A -> A -> bool).

Fixpoint insert_sorted (x : A) (l : list A) : list A :=
  match l with
  | [] => [x]
  | y :: r => if ltb y x then y :: insert_sorted x r else x :: l
  end.

Definition py_sorted (l : list A) : list A := foldr insert_sorted [] l.

Lemma insert_sorted_perm x l : insert_sorted x l ≡ₚ x :: l.
Proof.
  induction l as [|y l IH]; simpl; [done|]. destruct (ltb y x); [|done].
  rewrite IH. apply Permutation_swap.
Qed.

Lemma py_sorted_perm l : py_sorted l ≡ₚ l.
Proof. induction l as [|x l IH]; simpl; [done|]. by rewrite insert_sorted_perm, IH. Qed.
End Sort.

(** ** Insertion-ordered dictionaries

    Python's [dict] keeps the position of a key when its value is replaced. *)

Section Dict.
Context {K V : Type} `{EqDecision K}.

Fixpoint dget (k : K) (d : list (K * V)) : option V :=
  match d with
  | [] => None
  | (k', v) :: r => if decide (k = k') then Some v else dget k r
  end.

Fixpoint dset (k : K) (v : V) (d : list (K * V)) : list (K * V) :=
  match d with
  | [] => [(k, v)]
  | (k', v') :: r => if decide (k = k') then (k', v) :: r else (k', v') :: dset k v r
  end.

(** [d.pop(k, None)] seen as the dictionary that remains. *)
Fixpoint ddel (k : K) (d : list (K * V)) : list (K * V) :=
  match d with
  | [] => []
  | (k', v') :: r => if decide (k = k') then r else (k', v') :: ddel k r
  end.

Lemma dget_None d k : dget k d = None <-> k ∉ d.*1.
Proof.
  induction d as [|[k' v] d IH]; simpl; [split; [intros _; apply not_elem_of_nil|done]|].
  rewrite not_elem_of_cons. case_decide; naive_solver.
Qed.

Lemma dget_is_Some d k : is_Some (dget k d) <-> k ∈ d.*1.
Proof.
  destruct (dget k d) eqn:E.
  - split; [|done]. intros _. destruct (decide (k ∈ d.*1)) as [|N]; [done|].
    apply dget_None in N. congruence.
  - apply dget_None in E. split; [by intros []|done].
Qed.

Lemma dget_elem d k v : dget k d = Some v -> (k, v) ∈ d.
Proof.
  induction d as [|[k' v'] d IH]; simpl; [done|].
  case_decide; intros; simplify_eq; set_solver.
Qed.

Lemma dget_NoDup d k v : NoDup d.*1 -> (k, v) ∈ d -> dget k d = Some v.
Proof.
  induction d as [|[k' v'] d IH]; simpl; [set_solver|].
  intros [Hn Hd]%NoDup_cons [He|He]%elem_of_cons; simplify_eq.
  - by rewrite decide_True.
  - rewrite decide_False; [by apply IH|]. intros ->.
    apply Hn. apply list_elem_of_fmap. by exists (k', v).
Qed.

Lemma dget_app d1 d2 k : dget k (d1 ++ d2) = match dget k d1 with Some v => Some v | None => dget k d2 end.
Proof. induction d1 as [|[k' v'] d1 IH]; simpl; [done|]. by case_decide. Qed.

Lemma dset_fresh d k v : dget k d = None -> dset k v d = d ++ [(k, v)].
Proof.
  induction d as [|[k' v'] d IH]; simpl; [done|].
  case_decide; [done|]. intros Hk. by rewrite IH.
Qed.

Lemma ddel_app d1 d2 k : dget k d1 = None -> ddel k (d1 ++ d2) = d1 ++ ddel k d2.
Proof.
  induction d1 as [|[k' v'] d1 IH]; simpl; [done|].
  case_decide; [done|]. intros Hk. by rewrite IH.
Qed.

Lemma dget_dset_eq d k v : dget k (dset k v d) = Some v.
Proof.
  induction d as [|[k' v'] d IH]; simpl; [by rewrite decide_True|].
  destruct (decide (k = k')) as [->|Hne]; simpl.
  - by rewrite decide_True.
  - by rewrite decide_False.
Qed.

Lemma dget_dset_ne d k k' v : k <> k' -> dget k' (dset k v d) = dget k' d.
Proof.
  intros. induction d as [|[k2 v2] d IH]; simpl; [by rewrite decide_False|].
  case_decide; simpl; simplify_eq; [by rewrite !decide_False|]. by case_decide.
Qed.

Lemma ddel_notin d k : dget k d = None -> ddel k d = d.
Proof. induction d as [|[k' v'] d IH]; simpl; [done|]. case_decide; [done|]. intros Hk. by rewrite IH. Qed.

Lemma ddel_dset_fresh d k v : dget k d = None -> ddel k (dset k v d) = d.
Proof.
  intros H. rewrite dset_fresh by done. rewrite ddel_app by done. simpl.
  by rewrite decide_True, app_nil_r.
Qed.

Lemma ddel_keys_sub d k x : x ∈ (ddel k d).*1 -> x ∈ d.*1.
Proof.
  induction d as [|[k' v'] d IH]; simpl; [done|].
  case_decide; simpl; set_solver.
Qed.

Lemma ddel_NoDup d k : NoDup d.*1 -> NoDup (ddel k d).*1.
Proof.
  induction d as [|[k' v'] d IH]; simpl; [done|].
  intros [Hn Hd]%NoDup_cons. case_decide; [done|]. simpl. constructor; [|auto].
  intros Hin. by apply ddel_keys_sub in Hin.
Qed.

Lemma dset_keys d k v : (dset k v d).*1 = if decide (k ∈ d.*1) then d.*1 else d.*1 ++ [k].
Proof.
  induction d as [|[k' v'] d IH]; [done|]. csimpl.
  destruct (decide (k = k')) as [->|Hne]; csimpl.
  - rewrite decide_True by set_solver. done.
  - rewrite IH. destruct (decide (k ∈ d.*1)).
    + by rewrite decide_True by set_solver.
    + by rewrite decide_False by set_solver.
Qed.

Lemma dset_NoDup d k v : NoDup d.*1 -> NoDup (dset k v d).*1.
Proof.
  intros Hd. rewrite dset_keys. case_decide; [done|].
  apply NoDup_app. ksplit; [set_solver | apply NoDup_singleton].
Qed.

(** What a removal leaves is what was there: for a predicate on the values. *)
Lemma ddel_Forall (P : K * V -> Prop) d k : Forall P d -> Forall P (ddel k d).
Proof.
  induction 1 as [|[k' v'] d HP HF IH]; simpl; [done|].
  case_decide; [done|]. by constructor.
Qed.

End Dict.

(** [tuple(dict.fromkeys(xs))]: the first occurrence of each element, in order. *)
Section Dedupe.
Context {A : Type} `{EqDecision A}.

Fixpoint dedupe_from (seen : list A) (l : list A) : list A :=
  match l with
  | [] => []
  | x :: r => if decide (x ∈ seen) then dedupe_from seen r
              else x :: dedupe_from (x :: seen) r
  end.

Definition dedupe (l : list A) : list A := dedupe_from [] l.

Lemma elem_of_dedupe_from seen l x : x ∈ dedupe_from seen l <-> x ∈ l /\ x ∉ seen.
Proof.
  revert seen. induction l as [|y l IH]; intros seen; simpl; [set_solver|].
  case_decide; [rewrite IH; set_solver|].
  rewrite elem_of_cons, IH. destruct (decide (x = y)); set_solver.
Qed.

Lemma elem_of_dedupe l x : x ∈ dedupe l <-> x ∈ l.
Proof. unfold dedupe. rewrite elem_of_dedupe_from. set_solver. Qed.

Lemma NoDup_dedupe_from seen l : NoDup (dedupe_from seen l).
Proof.
  revert seen. induction l as [|y l IH]; intros seen; simpl; [constructor|].
  case_decide; [done|]. constructor; [|done].
  rewrite elem_of_dedupe_from. set_solver.
Qed.

Lemma NoDup_dedupe l : NoDup (dedupe l).
Proof. apply NoDup_dedupe_from. Qed.

Lemma dedupe_from_NoDup seen l : NoDup l -> (forall x, x ∈ l -> x ∉ seen) -> dedupe_from seen l = l.
Proof.
  revert seen. induction l as [|y l IH]; intros seen; simpl; [done|].
  intros [Hn Hd]%NoDup_cons Hs. rewrite decide_False by set_solver.
  f_equal. apply IH; [done|]. set_solver.
Qed.

Lemma dedupe_NoDup l : NoDup l -> dedupe l = l.
Proof. intros. apply dedupe_from_NoDup; set_solver. Qed.

Lemma dedupe_nil_iff l : dedupe l = [] <-> l = [].
Proof.
  split; [|by intros ->]. destruct l as [|x l]; [done|]. intros H.
  assert (x ∈ dedupe (x :: l)) as Hx by (rewrite elem_of_dedupe; set_solver).
  rewrite H in Hx. set_solver.
Qed.
Lemma dedupe_length_NoDup l : length l = length (dedupe l) -> NoDup l.
Proof.
  intros E. assert (dedupe l ⊆+ l) as Hsub.
  { apply NoDup_submseteq; [apply NoDup_dedupe|]. intros x. by rewrite elem_of_dedupe. }
  apply submseteq_length_Permutation in Hsub; [|lia]. rewrite <- Hsub. apply NoDup_dedupe.
Qed.
End Dedupe.

#[export] Hint Resolve NoDup_dedupe dset_NoDup ddel_NoDup : sana.

(** What holds of every element of a list holds of its sublists. *)
Lemma forall_sublist {A} (P : A -> Prop) (l k : list A) : l `sublist_of` k -> Forall P k -> Forall P l.
Proof. induction 1; rewrite ?Forall_cons; naive_solver. Qed.
#[export] Hint Rewrite @dget_dset_eq @ddel_dset_fresh using done : sana.

(** ** Sums over lists of integers *)

Definition sumZ {A} (f : A -> Z) (l : list A) : Z := foldr (fun x acc => f x + acc) 0 l.

Lemma sumZ_app {A} (f : A -> Z) l k : sumZ f (l ++ k) = sumZ f l + sumZ f k.
Proof. induction l; simpl; lia. Qed.

Lemma sumZ_nonneg {A} (f : A -> Z) l : (forall x, x ∈ l -> 0 <= f x) -> 0 <= sumZ f l.
Proof.
  induction l as [|x l IH]; simpl; intros H; [lia|].
  pose proof (H x ltac:(set_solver)). assert (0 <= sumZ f l) by (apply IH; set_solver). lia.
Qed.

Lemma sumZ_perm {A} (f : A -> Z) l k : l ≡ₚ k -> sumZ f l = sumZ f k.
Proof. induction 1; simpl; lia. Qed.

Lemma sumZ_ext {A} (f g : A -> Z) l : (forall x, x ∈ l -> f x = g x) -> sumZ f l = sumZ g l.
Proof.
  induction l as [|x l IH]; simpl; intros H; [done|].
  rewrite (H x) by set_solver. rewrite IH by set_solver. done.
Qed.

Lemma sumZ_zero {A} (f : A -> Z) l : (forall x, x ∈ l -> f x = 0) -> sumZ f l = 0.
Proof. intros H. rewrite (sumZ_ext f (fun _ => 0)) by done. clear H. induction l; simpl; lia. Qed.

(** A count is a sum of ones. *)
Definition one (b : bool) : Z := if b then 1 else 0.

Lemma one_nonneg b : 0 <= one b.
Proof. destruct b; simpl; lia. Qed.

Lemma one_mono a b : (a = true -> b = true) -> one a <= one b.
Proof. destruct a, b; simpl; intros H; first [lia|by specialize (H eq_refl)]. Qed.

#[export] Instance sumZ_proper {A} (f : A -> Z) : Proper ((≡ₚ) ==> eq) (sumZ f).
Proof. intros l k. apply sumZ_perm. Qed.

(** ** Sums over the values of a finite map *)

Section SumMap.
Context `{Countable K} {A : Type} (f : A -> Z).

Definition sum_map (m : gmap K A) : Z := sumZ f (map_to_list m).*2.

Lemma sum_map_empty : sum_map ∅ = 0.
Proof. unfold sum_map. by rewrite map_to_list_empty. Qed.

Lemma sum_map_insert_new m i x : m !! i = None -> sum_map (<[i:=x]> m) = f x + sum_map m.
Proof.
  intros Hi. unfold sum_map.
  by rewrite (sumZ_perm _ _ _ (fmap_Permutation snd _ _ (map_to_list_insert m i x Hi))).
Qed.

Lemma sum_map_delete m i x : m !! i = Some x -> sum_map (delete i m) = sum_map m - f x.
Proof.
  intros Hi. rewrite <- (insert_delete_id m i x Hi) at 2. rewrite sum_map_insert_new by apply lookup_delete_eq. lia.
Qed.

Lemma sum_map_update m i x y : m !! i = Some x -> sum_map (<[i:=y]> m) = sum_map m - f x + f y.
Proof.
  intros Hi. rewrite <- insert_delete_eq, sum_map_insert_new by apply lookup_delete_eq.
  rewrite (sum_map_delete _ _ x) by done. lia.
Qed.

Lemma sum_map_nonneg m : (forall x, 0 <= f x) -> 0 <= sum_map m.
Proof. intros Hf. apply sumZ_nonneg. auto. Qed.

Lemma sum_map_zero m : (forall i x, m !! i = Some x -> f x = 0) -> sum_map m = 0.
Proof.
  intros HZ. apply sumZ_zero. intros x Hx. apply list_elem_of_fmap in Hx as ([i y] & -> & Hy).
  apply elem_of_map_to_list in Hy. by eapply HZ.
Qed.

(** A sum that is positive has a positive term. *)
Lemma sum_map_pos m : 0 < sum_map m -> exists i x, m !! i = Some x /\ 0 < f x.
Proof.
  unfold sum_map. intros HS.
  assert (exists e, e ∈ map_to_list m /\ 0 < f e.2) as ([i x] & Hx & ?).
  { revert HS. induction (map_to_list m) as [|[i x] l IH]; csimpl; [lia|]. intros HS.
    destruct (decide (0 < f x)) as [|Hn]; [exists (i, x); split; [set_solver|done]|].
    destruct IH as (e & He & ?); [lia|]. exists e. split; [set_solver|done]. }
  exists i, x. split; [by apply elem_of_map_to_list|done].
Qed.
(** Maps whose values agree on the summand, key by key. *)
Lemma sum_map_rel m m' : (forall i, option_Forall2 (fun x y => f x = f y) (m !! i) (m' !! i)) ->
  sum_map m = sum_map m'.
Proof.
  revert m'. induction m as [|i x m Hi IH] using map_ind; intros m' HR.
  - replace m' with (∅ : gmap K A); [done|]. apply map_eq. intros j. specialize (HR j).
    rewrite lookup_empty in *. by inversion HR.
  - pose proof (HR i) as Hx. rewrite lookup_insert_eq in Hx.
    inversion Hx as [? y Hxy E1 Ey|]; subst. symmetry in Ey.
    rewrite sum_map_insert_new by done. rewrite (IH (delete i m')).
    + rewrite (sum_map_delete m' i y) by done. lia.
    + intros j. specialize (HR j). destruct (decide (j = i)) as [->|Hj].
      * rewrite Hi, lookup_delete_eq. constructor.
      * rewrite lookup_insert_ne in HR by done. by rewrite lookup_delete_ne by done.
Qed.
(** A map that keeps the keys of another, with summands no smaller. *)
Lemma sum_map_mono m m' : (forall x, 0 <= f x) ->
  (forall i x, m !! i = Some x -> exists y, m' !! i = Some y /\ f x <= f y) -> sum_map m <= sum_map m'.
Proof.
  intros H0. revert m'. induction m as [|i x m Hi IH] using map_ind; intros m' HR.
  - rewrite sum_map_empty. by apply sum_map_nonneg.
  - destruct (HR i x) as (y & Hy & Hxy); [by rewrite lookup_insert_eq|].
    rewrite sum_map_insert_new by done. specialize (IH (delete i m')). rewrite (sum_map_delete m' i y) in IH by done.
    assert (sum_map m <= sum_map m' - f y); [|lia]. apply IH. intros j z Hj.
    assert (j <> i) as Hne by (intros ->; congruence).
    destruct (HR j z) as (z' & Hz & ?); [by rewrite lookup_insert_ne|]. exists z'. by rewrite lookup_delete_ne.
Qed.
End SumMap.

Lemma sum_map_le `{Countable K} {A} (f g : A -> Z) (m : gmap K A) :
  (forall x, f x <= g x) -> sum_map f m <= sum_map g m.
Proof. intros Hfg. unfold sum_map. induction (map_to_list m).*2 as [|x l IH]; simpl; [lia|]. specialize (Hfg x). lia. Qed.

(** ** Finite sequences of steps *)

Section Star.
Context {A : Type} (R : A -> A -> Prop).

Inductive star : A -> A -> Prop :=
| star_refl a : star a a
| star_step a b c : R a b -> star b c -> star a c.

Lemma star_trans a b c : star a b -> star b c -> star a c.
Proof. induction 1; eauto using star. Qed.

Lemma star_one a b : R a b -> star a b.
Proof. eauto using star. Qed.

Lemma star_invariant (P : A -> Prop) :
  (forall a b, P a -> R a b -> P b) -> forall a b, star a b -> P a -> P b.
Proof. intros HR a b H. induction H; eauto. Qed.

Lemma star_relation (Q : A -> A -> Prop) `{!PreOrder Q} :
  (forall a b, R a b -> Q a b) -> forall a b, star a b -> Q a b.
Proof.
  intros HR a b H. induction H as [|a b c H1 _ IH]; [reflexivity|].
  transitivity b; auto.
Qed.
End Star.

#[export] Hint Constructors star : sana.
