(* ===== verification/Errors.v ===== *)
(** * Errors: the error vocabulary and the exception/state monad

    [sana/modules/shared/errors.py] and [sana/modules/shared/result.py], and the two monads the
    other files are written in: [res A] is a Python call that returns or raises; [M S A] is a
    method of a mutable object of state [S], which keeps the mutations made before a raise. *)

From Stdlib Require Import String.
From S2P Require Import Prelude.

(** ** The vocabulary of errors *)

(** [@ src/sana/modules/shared/errors.py ErrorCategory] *)
Inductive ErrorCategory :=
| ErrorCategory_TRANSIENT
| ErrorCategory_PERMANENT
| ErrorCategory_BUDGET
| ErrorCategory_CONTENT
| ErrorCategory_MODEL_OUTPUT
| ErrorCategory_CANCELLED
| ErrorCategory_INTERNAL.

#[export] Instance ErrorCategory_eq_dec : EqDecision ErrorCategory.
Proof. solve_decision. Defined.

(** The fields an operational error carries. [details] and [cause] are diagnostics the modelled
    code never reads back. *)
Record TypedError := {
  te_category : ErrorCategory;
  te_code : pystr;
  te_message : pystr;
  te_retryable : bool
}.

#[export] Instance TypedError_eq_dec : EqDecision TypedError.
Proof. solve_decision. Defined.

(** The exceptions the code raises; the string is the message's text (its fixed part, where the
    source formats a value into it). *)
Inductive exn :=
| ValueError (msg : string)
| TypeError (msg : string)
| KeyError (msg : string)
| LookupError (msg : string)
| OverflowError (msg : string)
| AttributeError (msg : string)
| AssertionError (msg : string)
| RuntimeError (msg : string)
| InvalidOperation (msg : string)
| DatabaseError (msg : string)
| CancelledError
| Typed (e : TypedError).

Inductive res (A : Type) :=
| Ok (a : A)
| Raise (e : exn).
Arguments Ok {A} a.
Arguments Raise {A} e.

#[export] Instance res_ret : MRet res := fun A a => Ok a.
#[export] Instance res_bind : MBind res :=
  fun A B f m => match m with Ok a => f a | Raise e => Raise e end.
#[export] Instance res_fmap : FMap res :=
  fun A B f m => match m with Ok a => Ok (f a) | Raise e => Raise e end.

Definition is_ok {A} (r : res A) : bool := match r with Ok _ => true | Raise _ => false end.

(** [if b: raise e] *)
Definition fail_if (b : bool) (e : exn) : res unit := if b then Raise e else Ok tt.

(** [@ src/sana/modules/shared/errors.py _RETRYABLE_BY_DEFAULT] *)
Definition retryable_by_default (c : ErrorCategory) : bool :=
  match c with ErrorCategory_TRANSIENT => true | _ => false end.

(** [@ src/sana/modules/shared/errors.py TypedError/__init__] *)
Definition TypedError_new (category : ErrorCategory) (code message : pystr)
    (retryable : option bool) : res TypedError :=
  let normalized_code := strip code in
  let normalized_message := strip message in
  _ ← fail_if (bool_decide (normalized_code = [])) (ValueError "TypedError code cannot be empty");
  _ ← fail_if (bool_decide (normalized_message = [])) (ValueError "TypedError message cannot be empty");
  Ok {| te_category := category; te_code := normalized_code; te_message := normalized_message;
        te_retryable := match retryable with
                        | None => retryable_by_default category
                        | Some b => b
                        end |}.

(** [@ src/sana/modules/shared/errors.py InvariantViolation] *)
Definition InvariantViolation_code (message code : string) : exn :=
  Typed {| te_category := ErrorCategory_PERMANENT; te_code := u code; te_message := u message;
           te_retryable := false |}.

Definition InvariantViolation (message : string) : exn :=
  InvariantViolation_code message "invariant_violation".

(** Every literal code and message of the source is already stripped, so the record built
    directly above is the one the constructor would store. *)
Lemma InvariantViolation_new message code :
  strip (u code) = u code -> strip (u message) = u message ->
  u code <> [] -> u message <> [] ->
  Typed <$> TypedError_new ErrorCategory_PERMANENT (u code) (u message) (Some false)
    = Ok (InvariantViolation_code message code).
Proof.
  intros Hc Hm Hc0 Hm0. unfold TypedError_new. rewrite Hc, Hm.
  rewrite !bool_decide_eq_false_2 by done. done.
Qed.

(** ** Methods of mutable objects *)

Definition M (S A : Type) : Type := S -> S * res A.

#[export] Instance M_ret S : MRet (M S) := fun A a s => (s, Ok a).
#[export] Instance M_bind S : MBind (M S) :=
  fun A B f m s => match m s with
                   | (s', Ok a) => f a s'
                   | (s', Raise e) => (s', Raise e)
                   end.

Section Methods.
Context {S : Type}.
Implicit Types (s : S).

Definition raise {A} (e : exn) : M S A := fun s => (s, Raise e).
Definition lift {A} (r : res A) : M S A := fun s => (s, r).
Definition self : M S S := fun s => (s, Ok s).
Definition update (f : S -> S) : M S unit := fun s => (f s, Ok tt).
Definition raise_if (b : bool) (e : exn) : M S unit := fun s => (s, fail_if b e).

(** Inversion: what a call that returned did. *)
Lemma bind_ok_inv {A B} (m : M S A) (k : A -> M S B) s s' b :
  (m ≫= k) s = (s', Ok b) -> exists s1 a, m s = (s1, Ok a) /\ k a s1 = (s', Ok b).
Proof.
  unfold mbind, M_bind. destruct (m s) as [s1 [a|e]] eqn:E; [|done]. eauto.
Qed.

(** Monadic code computed forward, one operation at a time. *)
Lemma bind_ok {A B} (m : M S A) (k : A -> M S B) s s' a : m s = (s', Ok a) -> (m ≫= k) s = k a s'.
Proof. unfold mbind, M_bind. by intros ->. Qed.

Lemma bind_raise {A B} (m : M S A) (k : A -> M S B) s s' e :
  m s = (s', Raise e) -> (m ≫= k) s = (s', Raise e).
Proof. unfold mbind, M_bind. by intros ->. Qed.

(** What a call that raised did. *)
Lemma bind_raise_inv {A B} (m : M S A) (k : A -> M S B) s s' e :
  (m ≫= k) s = (s', Raise e) ->
  m s = (s', Raise e) \/ exists s1 a, m s = (s1, Ok a) /\ k a s1 = (s', Raise e).
Proof.
  unfold mbind, M_bind. destruct (m s) as [s1 [a|e1]] eqn:E; intros H; [|left; congruence].
  right. eauto.
Qed.

Lemma raise_if_ok_inv b e s s' x : raise_if b e s = (s', Ok x) -> b = false /\ s' = s.
Proof. unfold raise_if. destruct b; simpl; intros; simplify_eq; done. Qed.

Lemma lift_ok_inv {A} (r : res A) s s' a : lift r s = (s', Ok a) -> r = Ok a /\ s' = s.
Proof. unfold lift. intros; by simplify_eq. Qed.

Lemma self_ok_inv s s' x : self s = (s', Ok x) -> x = s /\ s' = s.
Proof. unfold self. intros; by simplify_eq. Qed.

Lemma update_ok_inv f s s' x : update f s = (s', Ok x) -> s' = f s.
Proof. unfold update. intros; by simplify_eq. Qed.

(** A method that only reads, and one that leaves the object alone when it raises. *)
Definition reads {A} (m : M S A) : Prop := forall s, fst (m s) = s.
Definition atomic {A} (m : M S A) : Prop := forall s s' e, m s = (s', Raise e) -> s' = s.

Lemma reads_atomic {A} (m : M S A) : reads m -> atomic m.
Proof. intros H s s' e E. specialize (H s). rewrite E in H. done. Qed.

Lemma reads_raise_if b e : reads (raise_if b e).
Proof. done. Qed.
Lemma reads_lift {A} (r : res A) : reads (lift r).
Proof. done. Qed.
Lemma reads_self : reads self.
Proof. done. Qed.
Lemma reads_raise {A} e : reads (raise (A := A) e).
Proof. done. Qed.
Lemma reads_ret {A} (a : A) : reads (mret a).
Proof. done. Qed.

Lemma reads_bind {A B} (m : M S A) (k : A -> M S B) :
  reads m -> (forall a, reads (k a)) -> reads (m ≫= k).
Proof.
  intros Hm Hk s. unfold mbind, M_bind. specialize (Hm s).
  destruct (m s) as [s1 [a|e]]; simpl in *; subst; [apply Hk | done].
Qed.

Lemma atomic_bind {A B} (m : M S A) (k : A -> M S B) :
  reads m -> (forall a, atomic (k a)) -> atomic (m ≫= k).
Proof.
  intros Hm Hk s s' e E. apply bind_raise_inv in E as [E|(s1 & a & E1 & E2)].
  - by eapply reads_atomic.
  - specialize (Hm s). rewrite E1 in Hm. simpl in Hm. subst. by eapply Hk.
Qed.

(** The last write of a method: guards first, then mutations that cannot raise. *)
Definition total {A} (m : M S A) : Prop := forall s, exists s' a, m s = (s', Ok a).

Lemma total_update f : total (update f).
Proof. intros s. by exists (f s), tt. Qed.
Lemma total_ret {A} (a : A) : total (mret a).
Proof. intros s. by exists s, a. Qed.
Lemma total_bind {A B} (m : M S A) (k : A -> M S B) :
  total m -> (forall a, total (k a)) -> total (m ≫= k).
Proof.
  intros Hm Hk s. destruct (Hm s) as (s1 & a & E). destruct (Hk a s1) as (s2 & b & E2).
  exists s2, b. unfold mbind, M_bind. by rewrite E.
Qed.
Lemma total_atomic {A} (m : M S A) : total m -> atomic m.
Proof. intros H s s' e E. destruct (H s) as (? & ? & E2). congruence. Qed.

Lemma atomic_then_total {A B} (m : M S A) (k : A -> M S B) :
  atomic m -> (forall a, total (k a)) -> atomic (m ≫= k).
Proof.
  intros Hm Hk s s' e E. apply bind_raise_inv in E as [E|(s1 & a & E1 & E2)].
  - by eapply Hm.
  - destruct (Hk a s1) as (? & ? & E3). congruence.
Qed.
End Methods.

#[export] Hint Resolve reads_raise_if reads_lift reads_self reads_raise reads_ret reads_bind
  reads_atomic total_update total_ret total_bind total_atomic : sana.

(** [atomically] proves the strong exception guarantee of a method written guards-first. *)
Ltac atomically :=
  repeat first
    [ apply reads_atomic; solve [auto 20 with sana]
    | apply total_atomic; solve [auto 20 with sana]
    | apply atomic_bind; [solve [auto 20 with sana] | intros ?]
    | apply atomic_then_total; [|intros ?; solve [auto 20 with sana]]
    | progress case_match
    | progress cbv zeta ].

(** Inversion for [res]. *)
Lemma res_bind_ok_inv {A B} (m : res A) (k : A -> res B) b :
  (m ≫= k) = Ok b -> exists a, m = Ok a /\ k a = Ok b.
Proof. destruct m; simpl; [eauto | done]. Qed.

Lemma fail_if_ok_inv b e x : fail_if b e = Ok x -> b = false.
Proof. by destruct b. Qed.

(** [minv] inverts every call that returned, down to the tests that let it through. *)
Ltac minv :=
  repeat match goal with
  | H : (_ ≫= _) _ = (_, Ok _) |- _ =>
      let s1 := fresh "s" in let a := fresh "a" in let E := fresh "E" in
      apply bind_ok_inv in H as (s1 & a & E & H)
  | H : raise_if _ _ _ = (_, Ok _) |- _ => apply raise_if_ok_inv in H as [H ->]
  | H : lift _ _ = (_, Ok _) |- _ => apply lift_ok_inv in H as [H ->]
  | H : self _ = (_, Ok _) |- _ => apply self_ok_inv in H as [-> ->]
  | H : update _ _ = (_, Ok _) |- _ => apply update_ok_inv in H; subst
  | H : mret _ _ = (_, Ok _) |- _ => unfold mret, M_ret in H; simplify_eq
  | H : raise _ _ = (_, Ok _) |- _ => discriminate H
  | H : (_ ≫= _) = Ok _ |- _ =>
      let a := fresh "a" in let E := fresh "E" in
      apply res_bind_ok_inv in H as (a & E & H)
  | H : fail_if _ _ = Ok _ |- _ => apply fail_if_ok_inv in H
  | H : Raise _ = Ok _ |- _ => discriminate H
  | H : Ok _ = Ok _ |- _ => injection H as H; subst
  | H : (_, Raise _) = (_, Ok _) |- _ => discriminate H
  | H : (_, Ok _) = (_, Ok _) |- _ => injection H as H; subst
  | a : unit |- _ => destruct a
  end.

(** ** Histories of method calls

    [after exec ops s] is the object after the calls [ops] (each keeps what it wrote before a
    raise); [all_ok] says that every one of them returned. *)

Section Histories.
Context {S Op : Type} (exec : Op -> M S unit).

Definition after (ops : list Op) (s : S) : S := foldl (fun s op => fst (exec op s)) s ops.

Fixpoint all_ok (ops : list Op) (s : S) : bool :=
  match ops with
  | [] => true
  | op :: ops => is_ok (snd (exec op s)) && all_ok ops (fst (exec op s))
  end.

Lemma after_star ops s : all_ok ops s = true ->
  star (fun s s' => exists op, exec op s = (s', Ok tt)) s (after ops s).
Proof.
  revert s. induction ops as [|op ops IH]; intros s; simpl; [constructor|].
  destruct (exec op s) as [s1 [[]|e]] eqn:E; simpl; [|done].
  intros H. econstructor; [by exists op | by apply IH].
Qed.
End Histories.

(** ** [Result]: an explicit success or failure ([sana/modules/shared/result.py]) *)

(** A missing value and a missing error are both [None]: [_MISSING] is a private sentinel. *)
Record Result (T : Type) := Result_build { r_value : option T; r_error : option TypedError }.
Arguments Result_build {T}.
Arguments r_value {T}.
Arguments r_error {T}.

(** [@ src/sana/modules/shared/result.py Result/__init__] *)
Definition Result_new {T} (value : option T) (error : option TypedError) : res (Result T) :=
  _ ← fail_if (Bool.eqb (is_none value) (is_none error))
        (ValueError "Result must contain exactly one of value or error");
  Ok (Result_build value error).

(** [@ src/sana/modules/shared/result.py Result.ok] *)
Definition Result_ok {T} (value : T) : res (Result T) := Result_new (Some value) None.

(** [@ src/sana/modules/shared/result.py Result.err] *)
Definition Result_err {T} (error : TypedError) : res (Result T) := Result_new None (Some error).

(** [@ src/sana/modules/shared/result.py Result.is_ok] *)
Definition Result_is_ok {T} (r : Result T) : bool := is_none (r_error r).

(** [@ src/sana/modules/shared/result.py Result.unwrap] *)
Definition Result_unwrap {T} (r : Result T) : res T :=
  match r_error r with
  | Some e => Raise (Typed e)
  | None => match r_value r with
            | Some v => Ok v
            | None => Raise (TypeError "the missing sentinel is not a value")
            end
  end.

(** [@ src/sana/modules/shared/result.py Result.unwrap_error] *)
Definition Result_unwrap_error {T} (r : Result T) : res TypedError :=
  match r_error r with
  | None => Raise (ValueError "Cannot unwrap an error from a successful Result")
  | Some e => Ok e
  end.

(** [@ src/sana/modules/shared/result.py Result.map] *)
Definition Result_map {T U} (transform : T -> res U) (r : Result T) : res (Result U) :=
  match r_error r with
  | Some e => Result_err e
  | None => v ← Result_unwrap r; y ← transform v; Result_ok y
  end.
