(* ===== verification/PyTime.v ===== *)
(** * PyTime: Python floats, time spans and instants

    A [float] is an IEEE-754 binary64 number (the standard library's [spec_float] at precision 53
    and exponent bound 1024, computed exactly, with round-to-nearest-even). A [timedelta] is its
    whole number of microseconds. A [datetime] is an instant in microseconds together with whether
    it carries a time zone; comparing an aware with a naive one raises [TypeError]. The calendar's
    year-9999 limit is not modelled. *)

From Stdlib Require Import SpecFloat String.
From S2P Require Import Prelude Errors.

(** ** Floats *)

Abbreviation float := spec_float.

#[export] Instance float_eq_dec : EqDecision float.
Proof. solve_decision. Defined.

Definition fadd : float -> float -> float := SFadd 53 1024.
Definition fsub : float -> float -> float := SFsub 53 1024.
Definition fmul : float -> float -> float := SFmul 53 1024.
Definition fdiv : float -> float -> float := SFdiv 53 1024.
Definition flt : float -> float -> bool := SFltb.
Definition fle : float -> float -> bool := SFleb.
Definition fzero : float := S754_zero false.

(** An int used where a float is expected, and a decimal literal [num / den] (correctly rounded). *)
Definition float_of_Z (z : Z) : float := binary_normalize 53 1024 z 0 false.

Definition flit (num den : positive) : float :=
  fdiv (S754_finite false num 0) (S754_finite false den 0).

(** [bool(x)] *)
Definition ftrue (x : float) : bool := match x with S754_zero _ => false | _ => true end.

(** [x < 0] *)
Definition fneg (x : float) : bool := flt x fzero.

(** [min(a, b)] of two floats. *)
Definition fmin (a b : float) : float := if flt b a then b else a.

Definition fle01 (x : float) : bool := fle fzero x && fle x (float_of_Z 1).

Example flit_tenth : flit 1 10 = S754_finite false 7205759403792794 (-56).
Proof. reflexivity. Qed.

(** ** Rounding a float to an integer *)

Definition half_even (m d : Z) : Z :=
  let q := m / d in
  let r := m mod d in
  if 2 * r <? d then q else if d <? 2 * r then q + 1 else if Z.even q then q else q + 1.

Definition signed (s : bool) (z : Z) : Z := if s then - z else z.

(** [round] to the nearest integer, ties to even. *)
Definition fround (x : float) : res Z :=
  match x with
  | S754_zero _ => Ok 0
  | S754_infinity _ => Raise (OverflowError "cannot convert float infinity to integer")
  | S754_nan => Raise (ValueError "cannot convert float NaN to integer")
  | S754_finite s m e =>
      Ok (signed s (if 0 <=? e then Z.pos m * 2 ^ e else half_even (Z.pos m) (2 ^ (- e))))
  end.

(** [timedelta(seconds=x)] for a float [x]: the integral seconds are exact, the fraction is
    multiplied by 1e6 as a float and rounded half to even. *)
Definition timedelta (x : float) : res Z :=
  match x with
  | S754_zero _ => Ok 0
  | S754_infinity _ => Raise (OverflowError "cannot convert float infinity to integer")
  | S754_nan => Raise (ValueError "cannot convert float NaN to integer")
  | S754_finite s m e =>
      if 0 <=? e then Ok (signed s (Z.pos m * 2 ^ e) * 1000000)
      else
        let whole := signed s (Z.pos m / 2 ^ (- e)) in
        let frac := binary_normalize 53 1024 (signed s (Z.pos m mod 2 ^ (- e))) e s in
        us ← fround (fmul frac (float_of_Z 1000000));
        Ok (whole * 1000000 + us)
  end.

(** [td.total_seconds()]: the correctly rounded quotient by a million. *)
Definition total_seconds (us : Z) : float :=
  match us with
  | Z0 => fzero
  | Zpos p => fdiv (S754_finite false p 0) (S754_finite false 1000000 0)
  | Zneg p => fdiv (S754_finite true p 0) (S754_finite false 1000000 0)
  end.

Example timedelta_tenth : timedelta (flit 1 10) = Ok 100000.
Proof. reflexivity. Qed.
Example timedelta_third : timedelta (flit 3 10) = Ok 300000.
Proof. reflexivity. Qed.
Example timedelta_half_us : timedelta (flit 15 10000000) = Ok 2 /\ timedelta (flit 25 10000000) = Ok 2.
Proof. split; reflexivity. Qed.

(** ** A span built from a non-negative float is not negative *)

Definition fsign (x : float) : bool :=
  match x with
  | S754_zero s | S754_infinity s | S754_finite s _ _ => s
  | S754_nan => false
  end.

Lemma binary_round_aux_nonneg mx ex lx :
  fsign (binary_round_aux 53 1024 false mx ex lx) = false.
Proof.
  unfold binary_round_aux. destruct (shr_fexp _ _ _ _ _) as [mrs' e'].
  destruct (shr_fexp _ _ _ _ _) as [mrs'' e'']. destruct (shr_m mrs''); auto.
  case_match; auto.
Qed.

Lemma half_even_nonneg m d : 0 <= m -> 0 < d -> 0 <= half_even m d.
Proof.
  intros. unfold half_even. assert (0 <= m / d) by (apply Z.div_pos; lia).
  repeat case_match; lia.
Qed.

Lemma fround_nonneg x z : fsign x = false -> fround x = Ok z -> 0 <= z.
Proof.
  destruct x as [s| | |s m e]; simpl; intros H1 H2; simplify_eq; [done|].
  simpl. case_match; bools; [nia|]. apply half_even_nonneg; [lia|].
  apply Z.pow_pos_nonneg; lia.
Qed.

Lemma binary_normalize_sign m e : 0 <= m ->
  fsign (binary_normalize 53 1024 m e false) = false.
Proof.
  intros. unfold binary_normalize. destruct m as [|m|m]; [done| |lia].
  unfold binary_round. destruct (shl_align _ _ _) as [mz ez].
  apply binary_round_aux_nonneg.
Qed.

Lemma fmul_sign x y : fsign x = false -> fsign y = false -> fsign (fmul x y) = false.
Proof.
  intros Hx Hy. destruct x, y; cbn [fsign] in Hx, Hy; subst; try done.
  apply binary_round_aux_nonneg.
Qed.

Lemma fneg_sign x : fneg x = false -> match x with S754_finite s _ _ => s = false | _ => True end.
Proof. unfold fneg, flt, SFltb. by destruct x as [| | |[] m e]. Qed.

Lemma timedelta_nonneg x us : fneg x = false -> timedelta x = Ok us -> 0 <= us.
Proof.
  intros Hx%fneg_sign. destruct x as [s| | |s m e]; simpl; intros; simplify_eq; [done|].
  destruct (0 <=? e) eqn:He; bools; simpl in *; [simplify_eq; nia|].
  minv. assert (0 < 2 ^ (- e)) as Hp by (apply Z.pow_pos_nonneg; lia).
  assert (0 <= Z.pos m / 2 ^ (- e)) by (apply Z.div_pos; lia).
  assert (0 <= Z.pos m mod 2 ^ (- e)) by (apply Z.mod_pos_bound; lia).
  assert (0 <= a); [|lia].
  eapply fround_nonneg; [|exact E]. apply fmul_sign; [|done].
  by apply binary_normalize_sign.
Qed.

(** ** Instants *)

Record datetime := { dt_aware : bool; dt_us : Z }.

#[export] Instance datetime_eq_dec : EqDecision datetime.
Proof. solve_decision. Defined.

Definition utc (us : Z) : datetime := {| dt_aware := true; dt_us := us |}.

(** Order comparison of two datetimes. *)
Definition dt_cmp (op : Z -> Z -> bool) (a b : datetime) : res bool :=
  if Bool.eqb (dt_aware a) (dt_aware b) then Ok (op (dt_us a) (dt_us b))
  else Raise (TypeError "can't compare offset-naive and offset-aware datetimes").

Definition dt_lt : datetime -> datetime -> res bool := dt_cmp Z.ltb.
Definition dt_le : datetime -> datetime -> res bool := dt_cmp Z.leb.

Definition dt_add (d : datetime) (us : Z) : datetime :=
  {| dt_aware := dt_aware d; dt_us := dt_us d + us |}.

(** [a - b] *)
Definition dt_sub (a b : datetime) : res Z :=
  if Bool.eqb (dt_aware a) (dt_aware b) then Ok (dt_us a - dt_us b)
  else Raise (TypeError "can't subtract offset-naive and offset-aware datetimes").

(** [min(a, b)]: [b] when [b < a], else [a]. *)
Definition dt_min (a b : datetime) : res datetime :=
  lt ← dt_lt b a; Ok (if lt : bool then b else a).

(** [@ src/sana/modules/orchestration/domain.py _require_aware] *)
Definition require_aware (d : datetime) : res unit :=
  fail_if (negb (dt_aware d)) (ValueError "must be timezone-aware").

Lemma dt_cmp_aware op a b : dt_aware a = true -> dt_aware b = true ->
  dt_cmp op a b = Ok (op (dt_us a) (dt_us b)).
Proof. intros H1 H2. unfold dt_cmp. by rewrite H1, H2. Qed.

Lemma dt_cmp_ok_inv op a b r : dt_cmp op a b = Ok r ->
  dt_aware a = dt_aware b /\ r = op (dt_us a) (dt_us b).
Proof.
  unfold dt_cmp. destruct (Bool.eqb _ _) eqn:E; [|done]. apply Bool.eqb_prop in E.
  intros; by simplify_eq.
Qed.

Lemma require_aware_ok_inv d x : require_aware d = Ok x -> dt_aware d = true.
Proof. unfold require_aware. intros H. minv. by bools. Qed.

Lemma dt_min_aware a b : dt_aware a = true -> dt_aware b = true ->
  dt_min a b = Ok (utc (Z.min (dt_us a) (dt_us b))).
Proof.
  intros Ha Hb. unfold dt_min, dt_lt. rewrite dt_cmp_aware by done. simpl.
  destruct a as [? a], b as [? b]; simpl in *; subst. unfold utc.
  destruct (b <? a) eqn:E; bools; do 2 f_equal; lia.
Qed.

(** [tinv] also inverts comparisons of instants. *)
Ltac tinv :=
  repeat (minv; match goal with
  | H : dt_lt _ _ = Ok _ |- _ => apply dt_cmp_ok_inv in H as [? ?]; subst
  | H : dt_le _ _ = Ok _ |- _ => apply dt_cmp_ok_inv in H as [? ?]; subst
  | H : require_aware _ = Ok _ |- _ => apply require_aware_ok_inv in H
  end); minv.

(** ** The test clock ([sana/modules/shared/clock.py]) *)

(** [@ src/sana/modules/shared/clock.py FrozenClock/now] *)
Definition FrozenClock_new (current : datetime) : res datetime :=
  _ ← fail_if (negb (dt_aware current)) (ValueError "FrozenClock requires a timezone-aware datetime");
  Ok current.

(** [@ src/sana/modules/shared/clock.py FrozenClock.advance] *)
Definition FrozenClock_advance (delta : Z) : M datetime datetime :=
  _ ← raise_if (delta <? 0) (ValueError "Clock cannot move backwards");
  _ ← update (fun current => dt_add current delta);
  self.
