(* ===== verification/PyData.v ===== *)
(** * PyData: JSON values and the conversions Python applies to them

    The payloads of steps are JSON objects in the artifact store. A value is what [json.loads]
    returns; the functions are the subscripts, [get], [list], [dict], [str], [int] and [float] that the
    code applies to them, with the exceptions they raise on a value of another shape. *)

From Stdlib Require Import SpecFloat String.
From S2P Require Import Prelude Errors PyTime.

(** ** Text *)

(** [str.encode("utf-8")] refuses surrogates. *)
Definition encodable (t : pystr) : bool := forallb (fun c => negb ((55296 <=? c) && (c <=? 57343))) t.

(** [hashlib.sha256(text.encode("utf-8")).hexdigest()]; the digest of a text is a parameter. *)
Definition text_digest (sha256_utf8 : pystr -> pystr) (t : pystr) : res pystr :=
  _ ← fail_if (negb (encodable t)) (ValueError "surrogates not allowed");
  Ok (sha256_utf8 t).

(** [t.startswith(sub)] *)
Definition starts_with (sub t : pystr) : bool := bool_decide (take (length sub) t = sub).

Lemma starts_with_spec sub t : starts_with sub t = true <-> exists r, t = sub ++ r.
Proof.
  unfold starts_with. rewrite bool_decide_eq_true. split.
  - intros H. exists (drop (length sub) t). by rewrite <- H at 1; rewrite take_drop.
  - intros [r ->]. by rewrite take_app_length.
Qed.

(** [sep.join(parts)] *)
Fixpoint str_join (sep : pystr) (parts : list pystr) : pystr :=
  match parts with
  | [] => []
  | [p] => p
  | p :: rest => p ++ sep ++ str_join sep rest
  end.

(** [t.replace(old, new, 1)] for a non-empty [old]. *)
Fixpoint replace_first (old new t : pystr) : pystr :=
  if starts_with old t then new ++ drop (length old) t else
  match t with
  | [] => []
  | c :: r => c :: replace_first old new r
  end.

Lemma replace_first_prefix old new r : replace_first old new (old ++ r) = new ++ r.
Proof.
  assert (starts_with old (old ++ r) = true) as H by (apply starts_with_spec; eauto).
  destruct (old ++ r) as [|c t] eqn:E; simpl; rewrite H, <- E, drop_app_length; done.
Qed.

(** ** JSON values *)

#[local] Unset Elimination Schemes.
Inductive json :=
| JNull
| JBool (b : bool)
| JInt (n : Z)
| JFloat (x : float)
| JStr (s : pystr)
| JList (l : list json)
| JObj (d : list (pystr * json)).
#[local] Set Elimination Schemes.

(** [bool(v)] *)
Definition truthy (v : json) : bool :=
  match v with
  | JNull => false
  | JBool b => b
  | JInt n => negb (n =? 0)
  | JFloat x => ftrue x
  | JStr s => negb (bool_decide (s = []))
  | JList l => match l with [] => false | _ => true end
  | JObj d => match d with [] => false | _ => true end
  end.

(** [v["key"]] *)
Definition subscript (v : json) (key : string) : res json :=
  match v with
  | JObj d => match dget (u key) d with Some x => Ok x | None => Raise (KeyError key) end
  | _ => Raise (TypeError "value is not subscriptable by a string")
  end.

(** [v.get("key", default)]: only an object has the method. *)
Definition get_default (v : json) (key : string) (fallback : json) : res json :=
  match v with
  | JObj d => Ok (default fallback (dget (u key) d))
  | _ => Raise (AttributeError "get")
  end.

(** [list(v)], and what a [for] over [v] goes through. *)
Definition items (v : json) : res (list json) :=
  match v with
  | JList l => Ok l
  | JObj d => Ok (map (fun kv => JStr kv.1) d)
  | JStr s => Ok (map (fun c => JStr [c]) s)
  | _ => Raise (TypeError "object is not iterable")
  end.

(** One element of the sequence of pairs [dict] accepts. A key that is a number, a boolean or [None]
    is legal and is left out: no lookup by a string finds it. *)
Definition dict_item (v : json) (d : list (pystr * json)) : res (list (pystr * json)) :=
  pair ← items v;
  match pair with
  | [JStr k; x] => Ok (dset k x d)
  | [JList _; _] | [JObj _; _] => Raise (TypeError "unhashable type")
  | [_; _] => Ok d
  | _ => Raise (ValueError "dictionary update sequence element has the wrong length")
  end.

(** [dict(v)]; the elements of a string are strings of length one. *)
Definition fields_of (v : json) : res (list (pystr * json)) :=
  match v with
  | JObj d => Ok d
  | JList l => foldl (fun d x => d ← d; dict_item x d) (Ok []) l
  | JStr [] => Ok []
  | JStr _ => Raise (ValueError "dictionary update sequence element has the wrong length")
  | _ => Raise (TypeError "object is not iterable")
  end.

Definition to_dict (v : json) : res json := JObj <$> fields_of v.

(** [Enum(value)] *)
Definition enum_of {E} (value : E -> pystr) (members : list E) (s : pystr) : res E :=
  match base.filter (fun m => value m = s) members with
  | m :: _ => Ok m
  | [] => Raise (ValueError "not a valid member")
  end.

(** What Python's text conversions do beyond the cases below: the [repr] of floats and containers,
    and the parsers of [int], [float], [UUID] and [datetime.fromisoformat]. *)
Class PyText := {
  repr_text : json -> pystr;
  int_of_text : pystr -> res Z;
  float_of_text : pystr -> res float;
  uuid_of_text : pystr -> res UUID;
  datetime_of_text : pystr -> res datetime
}.

Section Conversions.
Context `{PyText}.

(** [str(v)] *)
Definition to_str (v : json) : pystr :=
  match v with
  | JStr s => s
  | JInt n => str_of_Z n
  | JBool true => u "True"
  | JBool false => u "False"
  | JNull => u "None"
  | _ => repr_text v
  end.

(** [int(x)] of a float: towards zero. *)
Definition int_of_float (x : float) : res Z :=
  match x with
  | S754_zero _ => Ok 0
  | S754_infinity _ => Raise (OverflowError "cannot convert float infinity to integer")
  | S754_nan => Raise (ValueError "cannot convert float NaN to integer")
  | S754_finite s m e =>
      Ok (signed s (if 0 <=? e then Zpos m * 2 ^ e else Zpos m / 2 ^ (- e)))
  end.

(** [int(v)] *)
Definition to_int (v : json) : res Z :=
  match v with
  | JInt n => Ok n
  | JBool b => Ok (if b then 1 else 0)
  | JFloat x => int_of_float x
  | JStr s => int_of_text s
  | _ => Raise (TypeError "int() argument must be a string or a number")
  end.

(** [float(v)] *)
Definition to_float (v : json) : res float :=
  match v with
  | JFloat x => Ok x
  | JInt n => match float_of_Z n with
              | S754_infinity _ => Raise (OverflowError "int too large to convert to float")
              | x => Ok x
              end
  | JBool b => Ok (float_of_Z (if b then 1 else 0))
  | JStr s => float_of_text s
  | _ => Raise (TypeError "float() argument must be a string or a number")
  end.

(** [str(v["key"])], [int(v["key"])], and the like. *)
Definition str_at (v : json) (key : string) : res pystr := to_str <$> subscript v key.
Definition int_at (v : json) (key : string) : res Z := x ← subscript v key; to_int x.
Definition float_at (v : json) (key : string) : res float := x ← subscript v key; to_float x.
Definition uuid_at (v : json) (key : string) : res UUID := x ← subscript v key; uuid_of_text (to_str x).
Definition datetime_at (v : json) (key : string) : res datetime :=
  x ← subscript v key; datetime_of_text (to_str x).

(** [list(v.get("key", []))] *)
Definition list_at (v : json) (key : string) : res (list json) := x ← get_default v key (JList []); items x.
End Conversions.

Example to_dict_pairs :
  to_dict (JList [JList [JStr (u "a"); JInt 1]; JStr (u "bc")]) = Ok (JObj [(u "a", JInt 1); (u "b", JStr (u "c"))]).
Proof. reflexivity. Qed.

(** A text library for the examples: every conversion a computation could reach raises. *)
Definition ex_text : PyText := {|
  repr_text := fun _ => [];
  int_of_text := fun _ => Raise (ValueError "invalid literal for int()");
  float_of_text := fun _ => Raise (ValueError "could not convert string to float");
  uuid_of_text := fun _ => Raise (ValueError "badly formed hexadecimal UUID string");
  datetime_of_text := fun _ => Raise (ValueError "Invalid isoformat string")
|}.
