(* ===== verification/PyStr.v ===== *)
(** * PyStr: the string methods of Python

    Texts are sequences of code points. What the code asks about the letters outside ASCII (are
    they letters, digits, what is their lower case) is the class [Unicode], whose functions are only
    used above code point 127; the ASCII part is written out. *)

From Stdlib Require Import String Ascii.
From S2P Require Import Prelude Errors PyTime PyData.

(** ** Literals with other characters *)

(** The code points of UTF-8 bytes. *)
Fixpoint utf8_points (l : list Z) : pystr :=
  match l with
  | [] => []
  | a :: r =>
      if a <? 128 then a :: utf8_points r else
      match r with
      | b :: r1 =>
          if a <? 224 then (a - 192) * 64 + (b - 128) :: utf8_points r1 else
          match r1 with
          | c :: r2 =>
              if a <? 240 then (a - 224) * 4096 + (b - 128) * 64 + (c - 128) :: utf8_points r2 else
              match r2 with
              | d :: r3 => (a - 240) * 262144 + (b - 128) * 4096 + (c - 128) * 64 + (d - 128) :: utf8_points r3
              | [] => []
              end
          | [] => []
          end
      | [] => []
      end
  end.

(** [uu "text"]: a literal that may hold any character. *)
Definition uu (s : string) : pystr := utf8_points (u s).

Example uu_points : uu "é用途" = [233; 29992; 36884].
Proof. reflexivity. Qed.

(** ** Characters *)

Definition ascii_char (c : Z) : bool := (0 <=? c) && (c <? 128).
Definition ascii_digit (c : Z) : bool := (48 <=? c) && (c <=? 57).
Definition ascii_upper_letter (c : Z) : bool := (65 <=? c) && (c <=? 90).
Definition ascii_lower_letter (c : Z) : bool := (97 <=? c) && (c <=? 122).
Definition ascii_letter (c : Z) : bool := ascii_upper_letter c || ascii_lower_letter c.

(** The Unicode database above ASCII: [c.isalnum()], [c.isalpha()], [c.isdecimal()] and the value
    of a decimal; the code point that
    stands for the letters [c] is the same as when case is ignored (by [re]); [casefold] of a
    character; [lower] and [upper] of a text; NFKC normalization. *)
Class Unicode := {
  uni_alnum : Z -> bool;
  uni_alpha : Z -> bool;
  uni_decimal : Z -> bool;
  uni_digit : Z -> Z;
  uni_canon : Z -> Z;
  uni_casefold : Z -> pystr;
  uni_lower : pystr -> pystr;
  uni_upper : pystr -> pystr;
  uni_nfkc : pystr -> pystr
}.

Section Text.
Context `{Unicode}.

(** A character of white space is not a letter or digit, and has no case. *)
Definition char_isalpha (c : Z) : bool :=
  if c <? 128 then ascii_letter c else negb (is_space c) && uni_alpha c.
Definition char_isdecimal (c : Z) : bool :=
  if c <? 128 then ascii_digit c else negb (is_space c) && uni_decimal c.

(** [\w] *)
Definition char_word (c : Z) : bool :=
  if c <? 128 then ascii_letter c || ascii_digit c || (c =? 95) else negb (is_space c) && uni_alnum c.

Definition char_canon (c : Z) : Z :=
  if c <? 128 then if ascii_upper_letter c then c + 32 else c
  else if is_space c then c else uni_canon c.

(** [s.casefold()] *)
Definition casefold (s : pystr) : pystr :=
  flat_map (fun c => if c <? 128 then [if ascii_upper_letter c then c + 32 else c]
                     else if is_space c then [c] else uni_casefold c) s.

(** [s.isascii()], [s.isalpha()], [s.isdecimal()] *)
Definition str_isascii (s : pystr) : bool := forallb ascii_char s.
Definition str_isalpha (s : pystr) : bool := negb (bool_decide (s = [])) && forallb char_isalpha s.
Definition str_isdecimal (s : pystr) : bool := negb (bool_decide (s = [])) && forallb char_isdecimal s.

(** [int(s)] of decimal characters *)
Definition decimal_value (s : pystr) : Z :=
  foldl (fun n c => 10 * n + (if c <? 128 then c - 48 else uni_digit c)) 0 s.

(** [s.lower()] and [s.upper()] *)
Definition str_lower (s : pystr) : pystr := if str_isascii s then ascii_lower s else uni_lower s.
Definition str_upper (s : pystr) : pystr :=
  if str_isascii s then map (fun c => if ascii_lower_letter c then c - 32 else c) s else uni_upper s.
End Text.

(** A database for the examples: Chinese characters are letters without case, and the letters that
    equal [i], [s] and [k] when case is ignored are known. *)
Definition ex_unicode : Unicode := {|
  uni_alnum := fun c => (13312 <=? c) && (c <=? 40959);
  uni_alpha := fun c => (13312 <=? c) && (c <=? 40959);
  uni_decimal := fun _ => false;
  uni_digit := fun _ => 0;
  uni_canon := fun c => if (c =? 304) || (c =? 305) then 105 else if c =? 383 then 115
                        else if c =? 8490 then 107 else c;
  uni_casefold := fun c => if c =? 383 then [115] else if c =? 8490 then [107] else [c];
  uni_lower := fun t => t;
  uni_upper := fun t => t;
  uni_nfkc := fun t => t
|}.

(** [json.loads], [json.dumps(v, ensure_ascii=False, separators=(",", ":"))] and [dt.isoformat()]. *)
Class JsonText := {
  json_loads : pystr -> res json;
  json_dumps : json -> pystr;
  isoformat : datetime -> pystr
}.

(** ** Searching *)

(** [len(t)] *)
Abbreviation len t := (Z.of_nat (length t)).

(** [t.find(sub)] as an option *)
Fixpoint str_find (sub t : pystr) : option nat :=
  if starts_with sub t then Some 0%nat else
  match t with
  | [] => None
  | _ :: r => S <$> str_find sub r
  end.

(** [sub in t] *)
Definition str_in (sub t : pystr) : bool := negb (is_none (str_find sub t)).

(** [any(marker in t for marker in markers)] *)
Definition any_in (markers : list string) (t : pystr) : bool := existsb (fun m => str_in (uu m) t) markers.

(** [t.index(sub)] *)
Definition str_index (sub t : pystr) : res Z :=
  match str_find sub t with
  | Some i => Ok (Z.of_nat i)
  | None => Raise (ValueError "substring not found")
  end.

(** [t[a:b]] for [0 <= a] and [0 <= b] *)
Definition substr (a b : nat) (t : pystr) : pystr := drop a (take b t).

Definition substrZ (a b : Z) (t : pystr) : pystr := substr (Z.to_nat a) (Z.to_nat b) t.

(** [t.endswith(sub)] *)
Definition ends_with (sub t : pystr) : bool := starts_with (reverse sub) (reverse t).

(** [t.replace(old, new)] for a non-empty [old]; [skip] is what is left of an occurrence. *)
Fixpoint replace_from (skip : nat) (old new t : pystr) : pystr :=
  match t with
  | [] => []
  | c :: r =>
      match skip with
      | S k => replace_from k old new r
      | O => if starts_with old t then new ++ replace_from (length old - 1) old new r
             else c :: replace_from 0 old new r
      end
  end.

Definition str_replace (old new t : pystr) : pystr := replace_from 0 old new t.

(** [t.count(sub)] for a non-empty [sub] *)
Fixpoint count_from (skip : nat) (sub t : pystr) : Z :=
  match t with
  | [] => 0
  | _ :: r =>
      match skip with
      | S k => count_from k sub r
      | O => if starts_with sub t then 1 + count_from (length sub - 1) sub r else count_from 0 sub r
      end
  end.

Definition str_count (sub t : pystr) : Z := count_from 0 sub t.

(** [t.split(sep, 1)[0]] *)
Definition before (sep t : pystr) : pystr :=
  match str_find sep t with Some i => take i t | None => t end.

(** [t.split(sep)] for a single character *)
Fixpoint split_char (sep : Z) (t : pystr) : list pystr :=
  match t with
  | [] => [[]]
  | c :: r =>
      if c =? sep then [] :: split_char sep r
      else match split_char sep r with p :: ps => (c :: p) :: ps | [] => [[c]] end
  end.

(** [t.split()]: the parts between white space. *)
Fixpoint split_space (t : pystr) : list pystr :=
  match t with
  | [] => []
  | c :: r =>
      if is_space c then split_space r
      else match r with
           | d :: _ => if is_space d then [c] :: split_space r
                       else match split_space r with p :: ps => (c :: p) :: ps | [] => [[c]] end
           | [] => [[c]]
           end
  end.

(** [" ".join(t.split())] *)
Definition normalize_spaces (t : pystr) : pystr := str_join (u " ") (split_space t).

(** [t.lstrip(chars)], [t.rstrip(chars)], [t.strip(chars)] *)
Fixpoint lstrip_chars (chars t : pystr) : pystr :=
  match t with
  | c :: r => if bool_decide (c ∈ chars) then lstrip_chars chars r else t
  | [] => []
  end.

Definition rstrip_chars (chars t : pystr) : pystr := reverse (lstrip_chars chars (reverse t)).
Definition strip_chars (chars t : pystr) : pystr := rstrip_chars chars (lstrip_chars chars t).

Definition rstrip (t : pystr) : pystr := reverse (lstrip (reverse t)).

Example split_space_words : split_space (u "  a bc  d ") = [u "a"; u "bc"; u "d"].
Proof. reflexivity. Qed.
Example replace_all : str_replace (u "aa") (u "b") (u "aaaxaa") = u "baxb" /\ str_count (u "aa") (u "aaaxaa") = 2.
Proof. split; reflexivity. Qed.

(** ** Facts *)

(** [s] occurs in [t]. *)
Definition occurs (s t : pystr) : Prop := exists a b, t = a ++ s ++ b.

Lemma occurs_refl s : occurs s s.
Proof. exists [], []. by rewrite app_nil_r. Qed.

Lemma occurs_trans s t r : occurs s t -> occurs t r -> occurs s r.
Proof. intros (a & b & ->) (c & d & ->). exists (c ++ a), (b ++ d). by rewrite !app_assoc. Qed.

Lemma occurs_take n t : occurs (take n t) t.
Proof. exists [], (drop n t). simpl. by rewrite take_drop. Qed.

Lemma occurs_drop n t : occurs (drop n t) t.
Proof. exists (take n t), []. by rewrite app_nil_r, take_drop. Qed.

Lemma occurs_substr a b t : occurs (substr a b t) t.
Proof. eapply occurs_trans; [apply occurs_drop | apply occurs_take]. Qed.

Lemma occurs_lstrip t : occurs (lstrip t) t.
Proof. destruct (lstrip_suffix t) as [p Hp]. exists p, []. by rewrite app_nil_r. Qed.

Lemma occurs_reverse s t : occurs (reverse s) (reverse t) -> occurs s t.
Proof.
  intros (a & b & E). apply (f_equal reverse) in E.
  rewrite reverse_involutive, !reverse_app, reverse_involutive in E. exists (reverse b), (reverse a).
  by rewrite E, app_assoc.
Qed.

Lemma occurs_strip t : occurs (strip t) t.
Proof.
  unfold strip. eapply occurs_trans; [|apply occurs_lstrip].
  apply occurs_reverse. rewrite reverse_involutive. apply occurs_lstrip.
Qed.

#[export] Hint Resolve occurs_refl occurs_take occurs_drop occurs_substr occurs_strip : sana.

Lemma occurs_encodable s t : occurs s t -> encodable t = true -> encodable s = true.
Proof. intros (a & b & ->). unfold encodable. rewrite !forallb_app. intros Hb. by bools. Qed.

Lemma str_find_Some s t i : str_find s t = Some i -> t = take i t ++ s ++ drop (i + length s) t.
Proof.
  revert i. induction t as [|c t IH]; intros i; simpl; destruct (starts_with s _) eqn:E; intros H; simplify_eq.
  - apply starts_with_spec in E as [r E]. symmetry in E. apply app_eq_nil in E as [-> ->]. done.
  - apply starts_with_spec in E as [r E]. rewrite E. simpl. by rewrite drop_app_length.
  - destruct (str_find s t) as [j|] eqn:Ej; simpl in H; simplify_eq. simpl. f_equal. by apply IH.
Qed.

Lemma str_find_app s a b : is_Some (str_find s (a ++ s ++ b)).
Proof.
  induction a as [|c a IH]; simpl.
  - assert (starts_with s (s ++ b) = true) as H by (apply starts_with_spec; eauto).
    destruct (s ++ b); simpl; rewrite H; eauto.
  - destruct (starts_with s _); [eauto|]. destruct IH as [i ->]. simpl. eauto.
Qed.

Lemma str_in_occurs s t : str_in s t = true <-> occurs s t.
Proof.
  unfold str_in. split.
  - destruct (str_find s t) as [i|] eqn:E; [|done]. intros _. apply str_find_Some in E. by eexists _, _.
  - intros (a & b & ->). by destruct (str_find_app s a b) as [i ->].
Qed.

Lemma str_find_bound s t i : str_find s t = Some i -> (i + length s <= length t)%nat.
Proof.
  revert i. induction t as [|c t IH]; intros i; simpl; destruct (starts_with s _) eqn:E; intros H; simplify_eq.
  - apply starts_with_spec in E as [r E]. symmetry in E. apply app_eq_nil in E as [-> ->]. simpl. lia.
  - apply starts_with_spec in E as [r E]. apply (f_equal length) in E. rewrite length_app in E. simpl in E. lia.
  - destruct (str_find s t) as [j|] eqn:Ej; simpl in H; simplify_eq. specialize (IH _ eq_refl). lia.
Qed.

(** An occurrence is found at an offset where the substr is the text looked for. *)
Lemma str_index_occurs s t : occurs s t -> exists i, str_index s t = Ok i /\
  0 <= i /\ substrZ i (i + Z.of_nat (length s)) t = s /\ i + Z.of_nat (length s) <= Z.of_nat (length t).
Proof.
  intros (a & b & E). destruct (str_find_app s a b) as [i Hi]. rewrite <- E in Hi. exists (Z.of_nat i).
  unfold str_index. rewrite Hi. pose proof (str_find_bound _ _ _ Hi) as Hb. ksplit; [lia| |lia].
  unfold substrZ, substr. rewrite Nat2Z.id, (Z2Nat.inj_add _ _), !Nat2Z.id by lia.
  apply str_find_Some in Hi. rewrite Hi at 1. rewrite skipn_firstn_comm.
  replace (i + length s - i)%nat with (length s) by lia.
  rewrite drop_app_length' by (rewrite length_take; lia). by rewrite take_app_length.
Qed.

(** A text with a character that is not white space keeps it when stripped. *)
Lemma strip_solid t : blank t = false -> strip t <> [].
Proof. unfold blank. by intros H%bool_decide_eq_false. Qed.
