(* ===== verification/Regex.v ===== *)
(** * Regex: the regular expressions of Python

    The part of [re] that the code uses: literals, sets and character classes, groups, alternation,
    greedy and lazy repetition, [^], [$], [\b], lookahead, lookbehind of a fixed width, references to
    a group by name, and the flags [re.I] and [re.S]. A pattern is parsed from its text when its
    definition is elaborated ([re "..."] does not elaborate when the text is not a pattern). The
    matcher is the backtracking one of CPython in continuation style: the first match in the order
    of its choices. Groups are numbered by their opening parenthesis, named ones too; there are
    none inside a lookahead or lookbehind. Inside a set, ignored case is exact for the ASCII letters
    and for letters that have no case. *)

From Stdlib Require Import String.
From S2P Require Import Prelude Errors PyData PyStr.

(** ** Patterns *)

Inductive char_class := ClsDigit | ClsWord | ClsSpace.

Inductive set_item :=
| SChar (c : Z)
| SRange (a b : Z)
| SClass (neg : bool) (cls : char_class).

Inductive regex :=
| REmpty
| RChar (c : Z)
| RAny
| RSet (neg : bool) (items : list set_item)
| RStart
| REnd
| RWordB (neg : bool)
| RCat (a b : regex)
| RAlt (a b : regex)
| RRep (greedy : bool) (lo : nat) (hi : option nat) (a : regex)
| RGroup (n : nat) (a : regex)
| RRef (n : nat)
| RLook (neg : bool) (a : regex)
| RLookBehind (neg : bool) (width : nat) (a : regex).

(** [re.escape(text)] inside a pattern: the text itself. *)
Definition rtext (s : pystr) : regex := foldr (fun c r => RCat (RChar c) r) REmpty s.

(** Pieces of a pattern that an f-string puts together. *)
Definition rcat (l : list regex) : regex := foldr RCat REmpty l.

(** The number of characters of a pattern, if it is fixed. *)
Fixpoint rwidth (r : regex) : option nat :=
  match r with
  | REmpty | RStart | REnd | RWordB _ | RLook _ _ | RLookBehind _ _ _ => Some 0%nat
  | RChar _ | RAny | RSet _ _ => Some 1%nat
  | RCat a b => match rwidth a, rwidth b with Some x, Some y => Some (x + y)%nat | _, _ => None end
  | RAlt a b => match rwidth a, rwidth b with
                | Some x, Some y => if (x =? y)%nat then Some x else None
                | _, _ => None
                end
  | RRep _ lo (Some hi) a => match rwidth a with
                             | Some x => if (lo =? hi)%nat then Some (lo * x)%nat else None
                             | None => None
                             end
  | RRep _ _ None _ | RRef _ => None
  | RGroup _ a => rwidth a
  end.

(** Does a pattern capture? *)
Fixpoint captures_in (r : regex) : bool :=
  match r with
  | RGroup _ _ => true
  | RCat a b | RAlt a b => captures_in a || captures_in b
  | RRep _ _ _ a | RLook _ a | RLookBehind _ _ a => captures_in a
  | _ => false
  end.

(** ** Parsing a pattern *)

(** The number of groups so far and the names of the named ones. *)
Record pstate := { ps_groups : nat; ps_names : list (pystr * nat) }.

Definition hex_value (c : Z) : option Z :=
  if ascii_digit c then Some (c - 48)
  else if (97 <=? c) && (c <=? 102) then Some (c - 87)
  else if (65 <=? c) && (c <=? 70) then Some (c - 55) else None.

Fixpoint hex_number (digits : nat) (acc : Z) (s : pystr) : option (Z * pystr) :=
  match digits, s with
  | O, _ => Some (acc, s)
  | S k, c :: r => match hex_value c with Some d => hex_number k (acc * 16 + d) r | None => None end
  | S _, [] => None
  end.

(** What follows a backslash: a class, or a character. *)
Definition p_escape (s : pystr) : option ((bool * char_class + Z) * pystr) :=
  match s with
  | [] => None
  | c :: r =>
      if c =? 100 then Some (inl (false, ClsDigit), r)
      else if c =? 68 then Some (inl (true, ClsDigit), r)
      else if c =? 119 then Some (inl (false, ClsWord), r)
      else if c =? 87 then Some (inl (true, ClsWord), r)
      else if c =? 115 then Some (inl (false, ClsSpace), r)
      else if c =? 83 then Some (inl (true, ClsSpace), r)
      else if c =? 110 then Some (inr 10, r)
      else if c =? 114 then Some (inr 13, r)
      else if c =? 116 then Some (inr 9, r)
      else if c =? 120 then (fun '(v, r') => (inr v, r')) <$> hex_number 2 0 r
      else if c =? 117 then (fun '(v, r') => (inr v, r')) <$> hex_number 4 0 r
      else if ascii_letter c || ascii_digit c then None
      else Some (inr c, r)
  end.

(** One character or class of a set. *)
Definition p_set_atom (s : pystr) : option ((bool * char_class + Z) * pystr) :=
  match s with
  | [] => None
  | c :: r => if c =? 92 then p_escape r else Some (inr c, r)
  end.

Fixpoint p_set (fuel : nat) (first : bool) (s : pystr) : option (list set_item * pystr) :=
  match fuel with
  | O => None
  | S k =>
      match s with
      | [] => None
      | c :: r =>
          if (c =? 93) && negb first then Some ([], r) else
          match p_set_atom s with
          | None => None
          | Some (inl (n, cls), s1) =>
              (fun '(l, s2) => (SClass n cls :: l, s2)) <$> p_set k false s1
          | Some (inr a, s1) =>
              match s1 with
              | 45 :: d :: _ =>
                  if d =? 93 then (fun '(l, s2) => (SChar a :: l, s2)) <$> p_set k false s1 else
                  match p_set_atom (drop 1 s1) with
                  | Some (inr b, s2) =>
                      if b <? a then None
                      else (fun '(l, s3) => (SRange a b :: l, s3)) <$> p_set k false s2
                  | _ => None
                  end
              | _ => (fun '(l, s2) => (SChar a :: l, s2)) <$> p_set k false s1
              end
          end
      end
  end.

Fixpoint p_number (acc : option nat) (s : pystr) : option nat * pystr :=
  match s with
  | c :: r => if ascii_digit c
              then p_number (Some (10 * default 0 acc + Z.to_nat (c - 48)))%nat r
              else (acc, s)
  | [] => (acc, s)
  end.

(** The bounds of a repetition, if one starts here. *)
Definition p_bounds (s : pystr) : option (nat * option nat * pystr) :=
  match s with
  | 42 :: r => Some (0%nat, None, r)
  | 43 :: r => Some (1%nat, None, r)
  | 63 :: r => Some (0%nat, Some 1%nat, r)
  | 123 :: r =>
      match p_number None r with
      | (Some lo, 125 :: r1) => Some (lo, Some lo, r1)
      | (lo, 44 :: r1) =>
          match p_number None r1 with
          | (None, 125 :: r2) => if is_none lo then None else Some (default 0%nat lo, None, r2)
          | (Some hi, 125 :: r2) => Some (default 0%nat lo, Some hi, r2)
          | _ => None
          end
      | _ => None
      end
  | _ => None
  end.

(** An atom with its repetitions. *)
Definition p_repeat (a : regex) (s : pystr) : option (regex * pystr) :=
  match p_bounds s with
  | None => Some (a, s)
  | Some (lo, hi, 63 :: r) => match p_bounds r with None => Some (RRep false lo hi a, r) | Some _ => None end
  | Some (lo, hi, r) => match p_bounds r with None => Some (RRep true lo hi a, r) | Some _ => None end
  end.

(** The name of a group up to [stop]. *)
Fixpoint p_name (stop : Z) (s : pystr) : option (pystr * pystr) :=
  match s with
  | [] => None
  | c :: r => if c =? stop then Some ([], r) else (fun '(n, r') => (c :: n, r')) <$> p_name stop r
  end.

Definition closed {A} (x : A * pystr) : option (A * pystr) :=
  match x with (a, 41 :: r) => Some (a, r) | _ => None end.

Fixpoint p_alt (fuel : nat) (st : pstate) (s : pystr) {struct fuel} : option (regex * pstate * pystr) :=
  match fuel with
  | O => None
  | S k =>
      match p_seq k st s with
      | Some (a, st1, 124 :: s1) =>
          (fun '(b, st2, s2) => (RAlt a b, st2, s2)) <$> p_alt k st1 s1
      | x => x
      end
  end
with p_seq (fuel : nat) (st : pstate) (s : pystr) {struct fuel} : option (regex * pstate * pystr) :=
  match fuel with
  | O => None
  | S k =>
      match s with
      | [] | 124 :: _ | 41 :: _ => Some (REmpty, st, s)
      | _ =>
          match p_atom k st s with
          | None => None
          | Some (a, st1, s1) =>
              match p_repeat a s1 with
              | None => None
              | Some (q, s2) => (fun '(b, st2, s3) => (RCat q b, st2, s3)) <$> p_seq k st1 s2
              end
          end
      end
  end
with p_atom (fuel : nat) (st : pstate) (s : pystr) {struct fuel} : option (regex * pstate * pystr) :=
  match fuel with
  | O => None
  | S k =>
      let inside (f : regex -> option regex) st s :=
        match p_alt k st s with
        | Some (a, st', 41 :: r) => (fun b => (b, st', r)) <$> f a
        | _ => None
        end in
      let group names s :=
        let n := S (ps_groups st) in
        inside (fun a => Some (RGroup n a)) {| ps_groups := n; ps_names := names n |} s in
      let behind neg s :=
        inside (fun a => if captures_in a then None else (fun w => RLookBehind neg w a) <$> rwidth a) st s in
      let ahead neg s :=
        inside (fun a => if captures_in a then None else Some (RLook neg a)) st s in
      match s with
      | 40 :: 63 :: 58 :: r => inside Some st r
      | 40 :: 63 :: 61 :: r => ahead false r
      | 40 :: 63 :: 33 :: r => ahead true r
      | 40 :: 63 :: 60 :: 61 :: r => behind false r
      | 40 :: 63 :: 60 :: 33 :: r => behind true r
      | 40 :: 63 :: 80 :: 60 :: r =>
          match p_name 62 r with
          | Some (name, r') => group (fun n => (name, n) :: ps_names st) r'
          | None => None
          end
      | 40 :: 63 :: 80 :: 61 :: r =>
          match p_name 41 r with
          | Some (name, r') => (fun n => (RRef n, st, r')) <$> dget name (ps_names st)
          | None => None
          end
      | 40 :: 63 :: _ => None
      | 40 :: r => group (fun _ => ps_names st) r
      | 91 :: 94 :: r => (fun '(l, r') => (RSet true l, st, r')) <$> p_set (S (length r)) true r
      | 91 :: r => (fun '(l, r') => (RSet false l, st, r')) <$> p_set (S (length r)) true r
      | 46 :: r => Some (RAny, st, r)
      | 94 :: r => Some (RStart, st, r)
      | 36 :: r => Some (REnd, st, r)
      | 92 :: 98 :: r => Some (RWordB false, st, r)
      | 92 :: 66 :: r => Some (RWordB true, st, r)
      | 92 :: r =>
          match p_escape r with
          | Some (inl (n, cls), r') => Some (RSet false [SClass n cls], st, r')
          | Some (inr c, r') => Some (RChar c, st, r')
          | None => None
          end
      | c :: r => if is_none (p_bounds s) then Some (RChar c, st, r) else None
      | [] => None
      end
  end.

(** A pattern is read with fuel for every character of it three times. *)
Definition re_parse (s : pystr) : option regex :=
  match p_alt (3 * length s + 3) {| ps_groups := 0; ps_names := [] |} s with
  | Some (r, _, []) => Some r
  | _ => None
  end.

(** [re "pattern"] is the pattern of a literal, read when the term is elaborated. *)
Notation "'re' p" :=
  (ltac:(let r := eval vm_compute in (re_parse (uu p)) in
         match r with Some ?x => exact x | _ => fail 0 "not a pattern:" p end))
  (at level 10, p at level 9, only parsing).

(** ** Matching *)

Record flags := { ignorecase : bool; dotall : bool }.

Definition no_flags : flags := {| ignorecase := false; dotall := false |}.
Definition re_I : flags := {| ignorecase := true; dotall := false |}.
Definition re_S : flags := {| ignorecase := false; dotall := true |}.
Definition re_IS : flags := {| ignorecase := true; dotall := true |}.

(** The spans of the groups, the latest first. *)
Abbreviation captures := (list (nat * (nat * nat))).

Section Match.
Context `{Unicode} (fl : flags) (text : pystr).

Definition same_char (x y : Z) : bool :=
  (x =? y) || (ignorecase fl && (char_canon x =? char_canon y)).

Definition in_class (cls : char_class) (c : Z) : bool :=
  match cls with
  | ClsDigit => char_isdecimal c
  | ClsWord => char_word c
  | ClsSpace => is_space c
  end.

(** The letters that are [c] when case is ignored: [c], its small letter and its capital. *)
Definition variants (c : Z) : list Z :=
  if ignorecase fl then
    let l := char_canon c in [c; l; if ascii_lower_letter l then l - 32 else l]
  else [c].

Definition in_item (c : Z) (i : set_item) : bool :=
  match i with
  | SChar x => same_char x c
  | SRange a b => existsb (fun v => (a <=? v) && (v <=? b)) (variants c)
  | SClass neg cls => xorb neg (in_class cls c)
  end.

Definition in_set (neg : bool) (items : list set_item) (c : Z) : bool :=
  xorb neg (existsb (in_item c) items).

Definition word_at (i : nat) : bool := match text !! i with Some c => char_word c | None => false end.

Definition word_boundary (i : nat) : bool :=
  xorb (match i with O => false | S j => word_at j end) (word_at i).

(** [$]: at the end, or before a final newline. *)
Definition at_end (i : nat) : bool :=
  (i =? length text)%nat || ((S i =? length text)%nat && bool_decide (text !! i = Some 10)).

Definition group_span (n : nat) (cs : captures) : option (nat * nat) := dget n cs.

Definition span_text (sp : nat * nat) : pystr := substr sp.1 sp.2 text.

Definition result := (nat * captures)%type.

(** [one p] reads one character that satisfies [p]. *)
Definition one (p : Z -> bool) (i : nat) (cs : captures) (k : nat -> captures -> option result) : option result :=
  match text !! i with
  | Some c => if p c then k (S i) cs else None
  | None => None
  end.

(** Exactly [n] rounds of [body]. *)
Fixpoint rounds (body : nat -> captures -> (nat -> captures -> option result) -> option result)
    (n : nat) (i : nat) (cs : captures) (k : nat -> captures -> option result) : option result :=
  match n with
  | O => k i cs
  | S n' => body i cs (fun j cs' => rounds body n' j cs' k)
  end.

Definition pred_opt (hi : option nat) : option nat := pred <$> hi.

(** Further rounds, up to [hi]; a round that reads nothing is the last one. Every other round reads
    a character, so the length of what is left bounds their number. *)
Fixpoint more (body : nat -> captures -> (nat -> captures -> option result) -> option result)
    (greedy : bool) (fuel : nat) (hi : option nat) (i : nat) (cs : captures)
    (k : nat -> captures -> option result) : option result :=
  match fuel with
  | O => k i cs
  | S f =>
      match hi with
      | Some O => k i cs
      | _ =>
          let next j cs' := if (j =? i)%nat then k j cs' else more body greedy f (pred_opt hi) j cs' k in
          if greedy
          then match body i cs next with Some x => Some x | None => k i cs end
          else match k i cs with Some x => Some x | None => body i cs next end
      end
  end.

Fixpoint rmatch (r : regex) (i : nat) (cs : captures) (k : nat -> captures -> option result)
    : option result :=
  match r with
  | REmpty => k i cs
  | RChar c => one (same_char c) i cs k
  | RAny => one (fun c => dotall fl || negb (c =? 10)) i cs k
  | RSet neg items => one (in_set neg items) i cs k
  | RStart => if (i =? 0)%nat then k i cs else None
  | REnd => if at_end i then k i cs else None
  | RWordB neg => if xorb neg (word_boundary i) then k i cs else None
  | RCat a b => rmatch a i cs (fun j cs' => rmatch b j cs' k)
  | RAlt a b => match rmatch a i cs k with Some x => Some x | None => rmatch b i cs k end
  | RRep greedy lo hi a =>
      rounds (rmatch a) lo i cs (fun j cs' =>
        more (rmatch a) greedy (S (length text - j)) ((fun h => h - lo)%nat <$> hi) j cs' k)
  | RGroup n a => rmatch a i cs (fun j cs' => k j ((n, (i, j)) :: cs'))
  | RRef n =>
      match group_span n cs with
      | Some sp =>
          let t := span_text sp in
          if forallb id (zip_with same_char t (take (length t) (drop i text)))
             && (length t <=? length text - i)%nat
          then k (i + length t)%nat cs else None
      | None => None
      end
  | RLook neg a =>
      match rmatch a i cs (fun j cs' => Some (j, cs')) with
      | Some _ => if neg then None else k i cs
      | None => if neg then k i cs else None
      end
  | RLookBehind neg w a =>
      match (if (w <=? i)%nat
             then rmatch a (i - w)%nat cs (fun j cs' => if (j =? i)%nat then Some (j, cs') else None)
             else None) with
      | Some _ => if neg then None else k i cs
      | None => if neg then k i cs else None
      end
  end.

(** ** The functions of the module *)

Record re_match := { m_start : nat; m_end : nat; m_groups : captures }.

(** The match at [i]; with [nonempty], one that reads something. *)
Definition match_at (r : regex) (nonempty : bool) (i : nat) : option re_match :=
  (fun '(j, cs) => {| m_start := i; m_end := j; m_groups := cs |}) <$>
    rmatch r i [] (fun j cs => if nonempty && (j =? i)%nat then None else Some (j, cs)).

(** The leftmost match from [i] on, among [n] + 1 starting points. *)
Fixpoint search_from (r : regex) (nonempty : bool) (n : nat) (i : nat) : option re_match :=
  match match_at r nonempty i with
  | Some m => Some m
  | None => match n with O => None | S n' => search_from r false n' (S i) end
  end.

(** [re.search] *)
Definition re_search (r : regex) : option re_match := search_from r false (length text) 0.

(** [re.fullmatch] *)
Definition re_fullmatch (r : regex) : option re_match :=
  (fun '(j, cs) => {| m_start := 0; m_end := j; m_groups := cs |}) <$>
    rmatch r 0 [] (fun j cs => if (j =? length text)%nat then Some (j, cs) else None).

(** The non-overlapping matches from [i] on: the next one starts where the last one ended, and is
    not empty when the last one was. *)
Fixpoint find_from (r : regex) (fuel : nat) (nonempty : bool) (i : nat) : list re_match :=
  match fuel with
  | O => []
  | S f =>
      match search_from r nonempty (length text - i) i with
      | None => []
      | Some m => m :: find_from r f (m_end m =? m_start m)%nat (m_end m)
      end
  end.

(** [re.finditer]: at most two matches end at the same place. *)
Definition re_finditer (r : regex) : list re_match := find_from r (2 * length text + 2) false 0.

Definition match_text (m : re_match) : pystr := substr (m_start m) (m_end m) text.

(** [m.group(n)] *)
Definition group (n : nat) (m : re_match) : option pystr :=
  match n with
  | O => Some (match_text m)
  | S _ => span_text <$> group_span n (m_groups m)
  end.

(** [re.findall] of a pattern without groups *)
Definition re_findall (r : regex) : list pystr := map match_text (re_finditer r).

(** [re.search(...) is not None] *)
Definition re_found (r : regex) : bool := negb (is_none (re_search r)).

(** What is left between the matches, with [f] in their place. *)
Fixpoint sub_from (f : re_match -> pystr) (ms : list re_match) (i : nat) : pystr :=
  match ms with
  | [] => drop i text
  | m :: r => substr i (m_start m) text ++ f m ++ sub_from f r (m_end m)
  end.

(** [re.sub] with a replacement that is computed from the match *)
Definition re_sub (r : regex) (f : re_match -> pystr) : pystr := sub_from f (re_finditer r) 0.

Fixpoint split_from (ms : list re_match) (i : nat) : list pystr :=
  match ms with
  | [] => [drop i text]
  | m :: r => substr i (m_start m) text :: split_from r (m_end m)
  end.

(** [re.split] of a pattern without groups *)
Definition re_split (r : regex) : list pystr := split_from (re_finditer r) 0.

(** [re.split(..., maxsplit=1)[0]] *)
Definition re_split_head (r : regex) : pystr :=
  match re_search r with Some m => take (m_start m) text | None => text end.
End Match.
