(* ===== verification/RegexFacts.v ===== *)
(** * RegexFacts: what the matcher of patterns finds

    The spans a pattern matches, as a relation that does not mention the order of choices ([den]),
    and the proof that the backtracking matcher finds a match exactly when there is one: the search
    is sound, complete and leftmost. On top of it, a decidable analysis of patterns: a [solid] one
    always reads a character that is not white space. *)

From Stdlib Require Import String.
From S2P Require Import Prelude Errors PyData PyStr Regex.

(** ** The relation *)

Section Loops.
Context (R : nat -> captures -> nat -> captures -> Prop).

Inductive times : nat -> nat -> captures -> nat -> captures -> Prop :=
| times_O i cs : times 0 i cs i cs
| times_S n i cs j cs1 k cs2 : R i cs j cs1 -> times n j cs1 k cs2 -> times (S n) i cs k cs2.

(** At most [hi] further rounds; one that reads nothing is the last. *)
Inductive loop : option nat -> nat -> captures -> nat -> captures -> Prop :=
| loop_stop hi i cs : loop hi i cs i cs
| loop_last hi i cs cs1 : hi <> Some 0%nat -> R i cs i cs1 -> loop hi i cs i cs1
| loop_next hi i cs j cs1 k cs2 : hi <> Some 0%nat -> R i cs j cs1 -> j <> i ->
    loop (pred_opt hi) j cs1 k cs2 -> loop hi i cs k cs2.
End Loops.

Section Facts.
Context `{Unicode} (fl : flags) (text : pystr).

Definition reads (p : Z -> bool) (i : nat) (cs : captures) (j : nat) (cs' : captures) : Prop :=
  exists c, text !! i = Some c /\ p c = true /\ j = S i /\ cs' = cs.

Fixpoint den (r : regex) (i : nat) (cs : captures) (j : nat) (cs' : captures) : Prop :=
  match r with
  | REmpty => j = i /\ cs' = cs
  | RChar c => reads (same_char fl c) i cs j cs'
  | RAny => reads (fun c => dotall fl || negb (c =? 10)) i cs j cs'
  | RSet neg items => reads (in_set fl neg items) i cs j cs'
  | RStart => i = 0%nat /\ j = i /\ cs' = cs
  | REnd => at_end text i = true /\ j = i /\ cs' = cs
  | RWordB neg => xorb neg (word_boundary text i) = true /\ j = i /\ cs' = cs
  | RCat a b => exists m cs1, den a i cs m cs1 /\ den b m cs1 j cs'
  | RAlt a b => den a i cs j cs' \/ den b i cs j cs'
  | RRep _ lo hi a => exists m cs1, times (den a) lo i cs m cs1 /\
      loop (den a) ((fun h => h - lo)%nat <$> hi) m cs1 j cs'
  | RGroup n a => exists cs1, den a i cs j cs1 /\ cs' = (n, (i, j)) :: cs1
  | RRef n => exists sp, group_span n cs = Some sp /\ cs' = cs /\
      j = (i + length (span_text text sp))%nat /\ (j <= length text)%nat /\
      Forall2 (fun x y => same_char fl x y = true) (span_text text sp) (substr i j text)
  | RLook neg a =>
      j = i /\ if neg then cs' = cs /\ forall m cs1, ~ den a i cs m cs1
               else cs' = cs /\ exists m cs1, den a i cs m cs1
  | RLookBehind neg w a =>
      j = i /\ if neg then cs' = cs /\ forall cs1, (w <= i)%nat -> ~ den a (i - w)%nat cs i cs1
               else cs' = cs /\ (w <= i)%nat /\ exists cs1, den a (i - w)%nat cs i cs1
  end.

(** ** A matcher agrees with a relation *)

Abbreviation cont := (nat -> captures -> option (nat * captures)).

Definition agrees (m : nat -> captures -> cont -> option (nat * captures))
    (R : nat -> captures -> nat -> captures -> Prop) : Prop :=
  forall i cs (k : cont), (i <= length text)%nat ->
    match m i cs k with
    | Some x => exists j cs', R i cs j cs' /\ k j cs' = Some x
    | None => forall j cs', R i cs j cs' -> k j cs' = None
    end.

Definition advances (R : nat -> captures -> nat -> captures -> Prop) : Prop :=
  forall i cs j cs', (i <= length text)%nat -> R i cs j cs' -> (i <= j <= length text)%nat.

Lemma advances_times R n : advances R -> advances (times R n).
Proof.
  intros HR i cs j cs' Hi Ht. induction Ht as [|n i cs j cs1 k cs2 H1 H2 IH]; [lia|].
  apply HR in H1; [|done]. lia.
Qed.

Lemma advances_loop R hi : advances R -> advances (loop R hi).
Proof.
  intros HR i cs j cs' Hi Ht. induction Ht as [| |hi i cs j cs1 k cs2 Hh H1 H2 H3 IH]; [lia..|].
  apply HR in H1; [|done]. lia.
Qed.

Lemma advances_reads p : advances (reads p).
Proof. intros i cs j cs' _ (c & Hc & _ & -> & _). apply lookup_lt_Some in Hc. lia. Qed.

Lemma den_advances r : advances (den r).
Proof.
  induction r; intros i cs j cs' Hi; cbn [den].
  - intros [-> _]. lia.
  - by apply advances_reads.
  - by apply advances_reads.
  - by apply advances_reads.
  - intros (_ & -> & _). lia.
  - intros (_ & -> & _). lia.
  - intros (_ & -> & _). lia.
  - intros (m & cs1 & H1 & H2). apply IHr1 in H1; [|done]. apply IHr2 in H2; lia.
  - intros [H1|H1]; [by eapply IHr1|by eapply IHr2].
  - intros (m & cs1 & H1 & H2). apply (advances_times _ lo IHr) in H1; [|done].
    apply (advances_loop _ _ IHr) in H2; lia.
  - intros (cs1 & H1 & _). by eapply IHr.
  - intros (sp & _ & _ & -> & ? & _). lia.
  - intros [-> _]. lia.
  - intros [-> _]. lia.
Qed.

Lemma agrees_one p : agrees (one text p) (reads p).
Proof.
  intros i cs k Hi. unfold one. destruct (text !! i) as [c|] eqn:Ec.
  - destruct (p c) eqn:Ep.
    + destruct (k (S i) cs) eqn:Ek.
      * exists (S i), cs. split; [|done]. by exists c.
      * by intros j cs' (c' & ? & _ & -> & ->).
    + intros j cs' (c' & ? & ? & _). congruence.
  - intros j cs' (c' & ? & _). congruence.
Qed.

(** A test that reads nothing. *)
Lemma agrees_test (b : nat -> bool) (P : nat -> Prop) : (forall i, b i = true <-> P i) ->
  agrees (fun i cs k => if b i then k i cs else None) (fun i cs j cs' => P i /\ j = i /\ cs' = cs).
Proof.
  intros Hb i cs k Hi. destruct (b i) eqn:E.
  - destruct (k i cs) eqn:Ek; [exists i, cs; by rewrite <- Hb|]. by intros j cs' (_ & -> & ->).
  - intros j cs' (HP & _). apply Hb in HP. congruence.
Qed.

Lemma agrees_cat m1 R1 m2 R2 : advances R1 -> agrees m1 R1 -> agrees m2 R2 ->
  agrees (fun i cs k => m1 i cs (fun j cs' => m2 j cs' k))
         (fun i cs j cs' => exists m cs1, R1 i cs m cs1 /\ R2 m cs1 j cs').
Proof.
  intros Ha H1 H2 i cs k Hi. specialize (H1 i cs (fun j cs' => m2 j cs' k) Hi).
  destruct (m1 i cs _).
  - destruct H1 as (m & cs1 & Hm & Hk). specialize (H2 m cs1 k (proj2 (Ha _ _ _ _ Hi Hm))).
    rewrite Hk in H2. naive_solver.
  - intros j cs' (m & cs1 & Hm & Hj). specialize (H1 _ _ Hm). cbv beta in H1.
    specialize (H2 m cs1 k (proj2 (Ha _ _ _ _ Hi Hm))). rewrite H1 in H2. by apply H2.
Qed.

Lemma agrees_rounds m R n : advances R -> agrees m R -> agrees (rounds m n) (times R n).
Proof.
  intros Ha Hm. induction n as [|n IH]; intros i cs k Hi; cbn [rounds].
  - destruct (k i cs) eqn:E; [by exists i, cs; split; [constructor|]|]. by inversion 1; subst.
  - pose proof (agrees_cat _ _ _ _ Ha Hm IH i cs k Hi) as Hc. cbv beta in Hc.
    destruct (m i cs _).
    + destruct Hc as (j & cs' & (q & cs1 & ? & ?) & ?). exists j, cs'. split; [by econstructor|done].
    + intros j cs' Ht. inversion Ht; subst. eapply Hc; eauto.
Qed.

Lemma agrees_more m R g : advances R -> agrees m R -> forall fuel hi i cs k, (i <= length text)%nat ->
  (length text - i < fuel)%nat ->
  match more m g fuel hi i cs k with
  | Some x => exists j cs', loop R hi i cs j cs' /\ k j cs' = Some x
  | None => forall j cs', loop R hi i cs j cs' -> k j cs' = None
  end.
Proof.
  intros Ha Hm fuel. induction fuel as [|f IH]; intros hi i cs k Hi Hf; [lia|]. cbn [more].
  destruct (decide (hi = Some 0%nat)) as [->|Hh].
  { destruct (k i cs) eqn:E; [by exists i, cs; split; [constructor|]|].
    inversion 1; subst; done. }
  set (next j cs' := if (j =? i)%nat then k j cs' else more m g f (pred_opt hi) j cs' k).
  assert (match m i cs next with
          | Some x => exists j cs', loop R hi i cs j cs' /\ k j cs' = Some x
          | None => forall j cs', loop R hi i cs j cs' -> ~ (j = i /\ cs' = cs) -> k j cs' = None
          end) as Hn.
  { specialize (Hm i cs next Hi). destruct (m i cs next).
    - destruct Hm as (j & cs1 & HR & Hk). unfold next in Hk.
      destruct (Nat.eqb_spec j i) as [->|Hj]; [exists i, cs1; split; [by apply loop_last|done]|].
      pose proof (Ha _ _ _ _ Hi HR). specialize (IH (pred_opt hi) j cs1 k ltac:(lia) ltac:(lia)).
      rewrite Hk in IH. destruct IH as (j' & cs' & Hl & Hk'). exists j', cs'.
      split; [by eapply loop_next|done].
    - intros j cs' Hl Hne. inversion Hl as [|hi' i' cs0 cs1 _ HR|hi' i' cs0 j1 cs1 k' cs2 _ HR Hj Hl']; subst.
      + by destruct Hne.
      + specialize (Hm _ _ HR). unfold next in Hm. by rewrite Nat.eqb_refl in Hm.
      + specialize (Hm _ _ HR). unfold next in Hm. rewrite (proj2 (Nat.eqb_neq _ _) Hj) in Hm.
        pose proof (Ha _ _ _ _ Hi HR). specialize (IH (pred_opt hi) j1 cs1 k ltac:(lia) ltac:(lia)).
        rewrite Hm in IH. by apply IH. }
  assert (forall o : option (nat * captures), match hi with Some O => k i cs | _ => o end = o) as ->
    by (intros o; destruct hi as [[|]|]; done).
  assert (forall j cs', loop R hi i cs j cs' -> k i cs = None -> m i cs next = None -> k j cs' = None) as Hnone.
  { intros j cs' Hl Hk Hmn. rewrite Hmn in Hn.
    destruct (decide (j = i /\ cs' = cs)) as [[-> ->]|]; [done|]. by apply Hn. }
  destruct g, (m i cs next) as [x|] eqn:Em, (k i cs) as [y|] eqn:Ek; try done;
    try (by exists i, cs; split; [constructor|done]); intros; by eapply Hnone.
Qed.

Lemma agrees_ext m R R' : (forall i cs j cs', R i cs j cs' <-> R' i cs j cs') -> agrees m R -> agrees m R'.
Proof.
  intros HR Hm i cs k Hi. specialize (Hm i cs k Hi). destruct (m i cs k).
  - destruct Hm as (j & cs' & ? & ?). exists j, cs'. by rewrite <- HR.
  - intros j cs'. rewrite <- HR. apply Hm.
Qed.

Lemma agrees_ref n : agrees (rmatch fl text (RRef n)) (den (RRef n)).
Proof.
  intros i cs k Hi. cbn [rmatch den]. destruct (group_span n cs) as [sp|]; [|by intros j cs' (sp & ? & _)].
  set (t := span_text text sp).
  assert (forallb id (zip_with (same_char fl) t (take (length t) (drop i text)))
             && (length t <=? length text - i)%nat = true <->
          (i + length t <= length text)%nat /\
          Forall2 (fun x y => same_char fl x y = true) t (substr i (i + length t)%nat text)) as Ht.
  { assert ((length t <= length text - i)%nat ->
            forallb id (zip_with (same_char fl) t (take (length t) (drop i text))) = true <->
            Forall2 (fun x y => same_char fl x y = true) t (take (length t) (drop i text))) as He.
    { intros Hlen. assert (length (take (length t) (drop i text)) = length t) as El.
      { rewrite length_take, length_drop. lia. }
      generalize dependent (take (length t) (drop i text)). clear Hlen. induction t as [|x t IH]; intros [|y l] El;
        simpl in *; try done. unfold id at 1. rewrite andb_true_iff, Forall2_cons, IH by lia. done. }
    unfold substr. rewrite skipn_firstn_comm. replace (i + length t - i)%nat with (length t) by lia.
    rewrite andb_true_iff, Nat.leb_le. split; intros [? ?]; split; try lia; apply He; try lia; done. }
  destruct (_ && _); [destruct Ht as [Ht _]; specialize (Ht eq_refl) as [Hb HF]|].
  - destruct (k _ cs) eqn:Ek; [exists (i + length t)%nat, cs; split; [by exists sp|done]|].
    intros j cs' (sp' & [= <-] & -> & -> & _). done.
  - intros j cs' (sp' & [= <-] & -> & -> & Hb & HF). fold t in Hb, HF. destruct Ht as [_ Ht].
    discriminate Ht. by split.
Qed.

Lemma agrees_look neg a : agrees (rmatch fl text a) (den a) ->
  agrees (rmatch fl text (RLook neg a)) (den (RLook neg a)).
Proof.
  intros Ha i cs k Hi. cbn [rmatch den]. specialize (Ha i cs (fun j cs' => Some (j, cs')) Hi).
  destruct (rmatch fl text a i cs _) as [[j' cs']|].
  - destruct Ha as (j & cs1 & HR & _). destruct neg.
    + intros j1 cs2 (_ & _ & Hn). by apply Hn in HR.
    + destruct (k i cs) eqn:Ek; [eauto 10|]. by intros ?? (-> & -> & _).
  - destruct neg.
    + destruct (k i cs) eqn:Ek; [|by intros ?? (-> & -> & _)].
      exists i, cs. ksplit. intros m cs1 HR. by specialize (Ha _ _ HR).
    + intros j cs' (-> & _ & m & cs1 & HR). by specialize (Ha _ _ HR).
Qed.

Lemma agrees_behind neg w a : agrees (rmatch fl text a) (den a) ->
  agrees (rmatch fl text (RLookBehind neg w a)) (den (RLookBehind neg w a)).
Proof.
  intros Ha i cs k Hi. cbn [rmatch den]. destruct (Nat.leb_spec w i) as [Hw|Hw].
  - specialize (Ha (i - w)%nat cs (fun j cs' => if (j =? i)%nat then Some (j, cs') else None) ltac:(lia)).
    destruct (rmatch fl text a _ cs _) as [[j' cs']|].
    + destruct Ha as (j & cs1 & HR & Hj). destruct (Nat.eqb_spec j i) as [->|]; [|done]. destruct neg.
      * intros j1 cs2 (_ & _ & Hn). by apply Hn in HR.
      * destruct (k i cs) eqn:Ek; [eauto 10|]. by intros ?? (-> & -> & _).
    + destruct neg.
      * destruct (k i cs) eqn:Ek; [|by intros ?? (-> & -> & _)].
        exists i, cs. ksplit. intros cs1 _ HR. specialize (Ha _ _ HR). by rewrite Nat.eqb_refl in Ha.
      * intros j cs' (-> & _ & _ & cs1 & HR). specialize (Ha _ _ HR). by rewrite Nat.eqb_refl in Ha.
  - destruct neg.
    + destruct (k i cs) eqn:Ek; [|by intros ?? (-> & -> & _)]. exists i, cs. ksplit. intros; lia.
    + intros j cs' (_ & _ & ? & _). lia.
Qed.

(** The matcher finds a continuation of a match of [r] exactly when there is one. *)
Lemma rmatch_agrees r : agrees (rmatch fl text r) (den r).
Proof.
  induction r.
  - intros i cs k Hi. cbn [rmatch den]. destruct (k i cs) eqn:E; [eauto 10|]. by intros ?? [-> ->].
  - apply agrees_one.
  - apply agrees_one.
  - apply agrees_one.
  - apply (agrees_test (fun i => (i =? 0)%nat)). intros i. apply Nat.eqb_eq.
  - by apply (agrees_test (at_end text)).
  - by apply (agrees_test (fun i => xorb neg (word_boundary text i))).
  - apply (agrees_cat _ _ _ _ (den_advances r1) IHr1 IHr2).
  - intros i cs k Hi. cbn [rmatch den]. specialize (IHr1 i cs k Hi). specialize (IHr2 i cs k Hi).
    destruct (rmatch fl text r1 i cs k); [naive_solver|]. destruct (rmatch fl text r2 i cs k); naive_solver.
  - apply (agrees_cat _ (times (den r) lo) (fun j cs => more (rmatch fl text r) greedy (S (length text - j)) ((fun h => h - lo)%nat <$> hi) j cs) (loop (den r) ((fun h => h - lo)%nat <$> hi))).
    + by apply advances_times, den_advances.
    + apply agrees_rounds; [apply den_advances|done].
    + intros i cs k Hi. apply agrees_more; [apply den_advances|done|done|lia].
  - intros i cs k Hi. cbn [rmatch den]. specialize (IHr i cs (fun j cs' => k j ((n, (i, j)) :: cs')) Hi).
    destruct (rmatch fl text r i cs _); naive_solver.
  - apply agrees_ref.
  - by apply agrees_look.
  - by apply agrees_behind.
Qed.

(** ** Searching *)

(** [r] matches from [i] to [j]. *)
Definition matches (r : regex) (i j : nat) : Prop := exists cs, den r i [] j cs.

(** A match found is one of the pattern. *)
Definition match_of (r : regex) (m : re_match) : Prop :=
  den r (m_start m) [] (m_end m) (m_groups m) /\ (m_start m <= m_end m <= length text)%nat.

Lemma match_at_spec r ne i : (i <= length text)%nat ->
  match match_at fl text r ne i with
  | Some m => match_of r m /\ m_start m = i /\ (ne = true -> m_end m <> i)
  | None => forall j, matches r i j -> ne = true /\ j = i
  end.
Proof.
  intros Hi. unfold match_at, match_of.
  pose proof (rmatch_agrees r i [] (fun j cs => if ne && (j =? i)%nat then None else Some (j, cs)) Hi) as Ha.
  destruct (rmatch fl text r i [] _) as [[j cs]|]; simpl.
  - destruct Ha as (j' & cs' & HR & Hk).
    assert (j' = j /\ cs' = cs) as [-> ->] by (destruct (ne && _); simplify_eq; done).
    split; [split; [done|]|split; [done|]].
    + by apply (den_advances r _ _ _ _ Hi HR).
    + intros -> ->. by rewrite Nat.eqb_refl in Hk.
  - intros j [cs HR]. specialize (Ha _ _ HR). cbv beta in Ha.
    destruct (ne && (j =? i)%nat) eqn:E; [|done]. bools. split; [done|]. by apply Nat.eqb_eq.
Qed.

Lemma search_from_spec r n ne i : (i + n <= length text)%nat ->
  match search_from fl text r ne n i with
  | Some m => match_of r m /\ (i <= m_start m)%nat /\ (ne = true -> m_end m <> i) /\
              (forall i' j, (i <= i' < m_start m)%nat -> matches r i' j -> ne = true /\ j = i)
  | None => forall i' j, (i <= i' <= i + n)%nat -> matches r i' j -> ne = true /\ j = i
  end.
Proof.
  revert ne i. induction n as [|n IH]; intros ne i Hi; cbn [search_from];
    pose proof (match_at_spec r ne i ltac:(lia)) as Hm; destruct (match_at fl text r ne i) as [m|].
  - destruct Hm as (? & <- & ?). ksplit. intros; lia.
  - intros i' j Hi' Hj. assert (i' = i) as -> by lia. by apply Hm.
  - destruct Hm as (? & <- & ?). ksplit. intros; lia.
  - specialize (IH false (S i) ltac:(lia)). destruct (search_from fl text r false n (S i)) as [m|].
    + destruct IH as (H1 & H2 & _ & H4). ksplit; [lia| |].
      * intros _ E. destruct H1 as [_ H1]. lia.
      * intros i' j Hi' Hj. destruct (decide (i' = i)) as [->|]; [by apply Hm|].
        destruct (H4 i' j ltac:(lia) Hj). done.
    + intros i' j Hi' Hj. destruct (decide (i' = i)) as [->|]; [by apply Hm|].
      destruct (IH i' j ltac:(lia) Hj). done.
Qed.

(** [re.search]: the leftmost start at which the pattern matches. *)
Lemma re_search_spec r :
  match re_search fl text r with
  | Some m => match_of r m /\ (forall i j, (i < m_start m)%nat -> ~ matches r i j)
  | None => forall i j, (i <= length text)%nat -> ~ matches r i j
  end.
Proof.
  unfold re_search. pose proof (search_from_spec r (length text) false 0%nat ltac:(lia)) as Hs.
  destruct (search_from _ _ _ _ _ _) as [m|].
  - destruct Hs as (? & _ & _ & Hl). split; [done|]. intros i j Hi Hj. by destruct (Hl i j ltac:(lia) Hj).
  - intros i j Hi Hj. by destruct (Hs i j ltac:(lia) Hj).
Qed.

Lemma re_search_match r m : re_search fl text r = Some m -> match_of r m.
Proof. intros E. pose proof (re_search_spec r) as H1. rewrite E in H1. by destruct H1. Qed.

(** A pattern is found iff it matches somewhere. *)
Lemma re_found_iff r : re_found fl text r = true <-> exists i j, (i <= length text)%nat /\ matches r i j.
Proof.
  unfold re_found. pose proof (re_search_spec r) as Hs. destruct (re_search fl text r) as [m|]; split; try done.
  - intros _. destruct Hs as [[Hd Hb] _]. exists (m_start m), (m_end m). split; [lia|by eexists].
  - intros (i & j & Hi & Hm). by apply Hs in Hm.
Qed.

Lemma re_fullmatch_match r m : re_fullmatch fl text r = Some m -> match_of r m /\ match_text text m = text.
Proof.
  unfold re_fullmatch, match_of, match_text, substr.
  pose proof (rmatch_agrees r 0%nat [] (fun j cs => if (j =? length text)%nat then Some (j, cs) else None) ltac:(lia)) as Ha.
  destruct (rmatch fl text r 0%nat [] _) as [[j cs]|]; simpl; intros; simplify_eq. simpl.
  destruct Ha as (j' & cs' & HR & Hk). destruct (Nat.eqb_spec j' (length text)) as [->|]; simplify_eq.
  split; [split; [done|lia]|]. by rewrite drop_0, take_ge by lia.
Qed.

Lemma re_fullmatch_iff r : is_Some (re_fullmatch fl text r) <-> matches r 0%nat (length text).
Proof.
  unfold re_fullmatch.
  pose proof (rmatch_agrees r 0%nat [] (fun j cs => if (j =? length text)%nat then Some (j, cs) else None) ltac:(lia)) as Ha.
  destruct (rmatch fl text r 0%nat [] _) as [[j cs]|]; simpl; split.
  - intros _. destruct Ha as (j' & cs' & HR & Hk).
    destruct (Nat.eqb_spec j' (length text)) as [->|]; simplify_eq. by eexists.
  - by eexists.
  - by intros [].
  - intros [cs HR]. specialize (Ha _ _ HR). by rewrite Nat.eqb_refl in Ha.
Qed.

(** Every match [re.finditer] yields is one of the pattern. *)
Lemma find_from_matches r f ne i : (i <= length text)%nat -> Forall (match_of r) (find_from fl text r f ne i).
Proof.
  revert ne i. induction f as [|f IH]; intros ne i Hi; cbn [find_from]; [constructor|].
  pose proof (search_from_spec r (length text - i) ne i ltac:(lia)) as Hs.
  destruct (search_from _ _ _ _ _ _) as [m|]; [|constructor].
  destruct Hs as ((? & ?) & _). constructor; [by split|]. apply IH. lia.
Qed.

Lemma re_finditer_matches r : Forall (match_of r) (re_finditer fl text r).
Proof. apply find_from_matches. lia. Qed.

Lemma match_text_occurs m : occurs (match_text text m) text.
Proof. apply occurs_substr. Qed.

(** A pattern that reads nothing of the captures is matched by a part of a concatenation. *)
Lemma den_rcat_cons a l i cs j cs' :
  den (rcat (a :: l)) i cs j cs' <-> exists m cs1, den a i cs m cs1 /\ den (rcat l) m cs1 j cs'.
Proof. done. Qed.

(** ** Literal text *)

(** A literal reads the text itself, or the same text when case is ignored. *)
Lemma den_rtext s i cs j cs' :
  den (rtext s) i cs j cs' <->
  cs' = cs /\ j = (i + length s)%nat /\ (j <= length text \/ s = [])%nat /\
  Forall2 (fun x y => same_char fl x y = true) s (substr i (i + length s) text).
Proof.
  revert i. induction s as [|c s IH]; intros i; cbn [rtext foldr den].
  - unfold substr. rewrite Nat.add_0_r, skipn_firstn_comm, Nat.sub_diag. simpl. split.
    + intros [-> ->]. ksplit. by right.
    + by intros (-> & -> & _).
  - assert (forall k, substr i (i + S k) text = match text !! i with
              | Some x => x :: substr (S i) (S i + k) text | None => [] end) as Hs.
    { intros k. unfold substr. rewrite !skipn_firstn_comm. replace (i + S k - i)%nat with (S k) by lia.
      replace (S i + k - S i)%nat with k by lia. destruct (text !! i) as [x|] eqn:E.
      - by rewrite (drop_S _ _ _ E).
      - apply lookup_ge_None in E. rewrite (drop_ge text i) by lia. done. }
    cbn [length]. rewrite Hs. split.
    + intros (m & cs1 & (x & Ex & Hx & -> & ->) & H2). apply IH in H2 as (-> & -> & Hb & HF).
      rewrite Ex. apply lookup_lt_Some in Ex. ksplit; [lia| |by constructor].
      left. destruct Hb as [| ->]; simpl; lia.
    + intros (-> & -> & Hb & HF). destruct (text !! i) as [x|] eqn:Ex; [|by inversion HF].
      apply Forall2_cons in HF as [Hx HF]. exists (S i), cs. split; [by exists x|].
      apply IH. ksplit; [lia|left; destruct Hb; [lia|done]].
Qed.

(** ** Solid patterns

    A solid pattern reads a character that is not white space. *)

Definition solid_item (i : set_item) : bool :=
  match i with
  | SChar c => ascii_char c && negb (is_space c)
  | SRange a b => (33 <=? a) && (b <=? 126)
  | SClass neg cls => negb neg && match cls with ClsSpace => false | _ => true end
  end.

Fixpoint solid (r : regex) : bool :=
  match r with
  | RChar c => solid_item (SChar c)
  | RSet neg items => negb neg && forallb solid_item items
  | RCat a b => solid a || solid b
  | RAlt a b => solid a && solid b
  | RRep _ lo _ a => negb (lo =? 0)%nat && solid a
  | RGroup _ a => solid a
  | _ => false
  end.

Lemma space_canon c : is_space c = true -> char_canon c = c.
Proof.
  unfold char_canon. intros Hs. rewrite Hs. destruct (c <? 128) eqn:E; [|done].
  destruct (ascii_upper_letter c) eqn:Eu; [|done]. unfold ascii_upper_letter in Eu. bools.
  unfold is_space in Hs. bools. set_unfold. lia.
Qed.

Lemma space_not_mark c : is_space c = true -> c <= 32 \/ 128 <= c.
Proof. unfold is_space. intros Hs. bools. set_unfold. lia. Qed.

Lemma canon_ascii_solid c d : ascii_char c = true -> is_space c = false -> is_space d = true ->
  same_char fl c d = false.
Proof.
  intros Ha Hc Hd. unfold same_char. rewrite (space_canon _ Hd).
  assert (c <> d) by congruence. rewrite (proj2 (Z.eqb_neq _ _)) by done. simpl.
  destruct (ignorecase fl); [|done]. simpl. apply Z.eqb_neq.
  unfold char_canon, ascii_char in *. bools. rewrite (proj2 (Z.ltb_lt _ _)) by done.
  destruct (ascii_upper_letter c) eqn:Eu; [|done]. unfold ascii_upper_letter in Eu. bools.
  apply space_not_mark in Hd. lia.
Qed.

Lemma solid_item_spec i c : solid_item i = true -> in_item fl c i = true -> is_space c = false.
Proof.
  intros Hi Hc. destruct (is_space c) eqn:Hs; [|done]. exfalso. destruct i as [x|a b|neg cls]; simpl in *.
  - bools. rewrite canon_ascii_solid in Hc; done.
  - bools. apply existsb_exists in Hc as (v & Hv & Hc). bools.
    assert (v = c) as ->.
    { unfold variants in Hv. rewrite (space_canon _ Hs) in Hv.
      assert (ascii_lower_letter c = false) as El.
      { unfold ascii_lower_letter. apply space_not_mark in Hs. lia. }
      rewrite El in Hv. destruct (ignorecase fl); simpl in Hv; naive_solver. }
    apply space_not_mark in Hs. lia.
  - bools. subst neg. destruct cls; simpl in *; try done.
    + unfold char_isdecimal in Hc. rewrite Hs in Hc. destruct (c <? 128) eqn:E; [|done].
      unfold ascii_digit in Hc. bools. apply space_not_mark in Hs. lia.
    + unfold char_word in Hc. rewrite Hs in Hc. destruct (c <? 128) eqn:E; [|done].
      unfold ascii_letter, ascii_upper_letter, ascii_lower_letter, ascii_digit in Hc.
      apply space_not_mark in Hs. lia.
Qed.

Lemma solid_times R n i cs j cs' (P : nat -> nat -> Prop) :
  advances R -> (i <= length text)%nat ->
  (forall i cs j cs', (i <= length text)%nat -> R i cs j cs' -> P i j) -> times R (S n) i cs j cs' ->
  exists m, P i m /\ (i <= m <= j)%nat.
Proof.
  intros Ha Hi HP Ht. inversion Ht as [|n' i' cs0 m cs1 k cs2 HR Ht']; subst.
  exists m. split; [by eapply HP|]. pose proof (Ha _ _ _ _ Hi HR).
  apply (advances_times _ _ Ha) in Ht'; [lia|lia].
Qed.

Lemma solid_den r i cs j cs' : solid r = true -> (i <= length text)%nat -> den r i cs j cs' ->
  exists p c, (i <= p < j)%nat /\ text !! p = Some c /\ is_space c = false.
Proof.
  revert i cs j cs'. induction r; intros i cs j cs' Hs Hi Hd; cbn [solid den] in *; try done.
  - destruct Hd as (x & Hx & Hc & -> & _). exists i, x. split; [lia|]. split; [done|].
    by apply (solid_item_spec (SChar c)).
  - destruct Hd as (x & Hx & Hc & -> & _). bools. subst neg. exists i, x. split; [lia|]. split; [done|].
    unfold in_set in Hc. destruct (existsb _ _) eqn:Hex in Hc; [clear Hc; rename Hex into Hc|done].
    apply existsb_exists in Hc as (it & Hin & Hc). eapply solid_item_spec; [|done].
    match goal with HF : forallb _ _ = true |- _ => by apply (proj1 (forallb_forall _ _) HF) end.
  - destruct Hd as (m & cs1 & H1 & H2). pose proof (den_advances _ _ _ _ _ Hi H1).
    pose proof (den_advances _ _ _ _ _ (proj2 H0) H2).
    apply orb_prop in Hs as [Hs|Hs].
    + destruct (IHr1 _ _ _ _ Hs Hi H1) as (p & c & ? & ?). exists p, c. split; [lia|done].
    + destruct (IHr2 _ _ _ _ Hs (proj2 H0) H2) as (p & c & ? & ?). exists p, c. split; [lia|done].
  - apply andb_prop in Hs as [Hs1 Hs2]. destruct Hd as [Hd|Hd]; [by eapply IHr1|by eapply IHr2].
  - destruct Hd as (m & cs1 & H1 & H2). bools. destruct lo as [|lo]; [done|].
    pose proof (advances_times _ _ (den_advances r) _ _ _ _ Hi H1) as A1.
    pose proof (advances_loop _ _ (den_advances r) _ _ _ _ (proj2 A1) H2) as A2.
    destruct (solid_times (den r) lo i cs m cs1
      (fun i j => exists p c, (i <= p < j)%nat /\ text !! p = Some c /\ is_space c = false)) as (q & (p & c & ? & ?) & ?).
    + apply den_advances.
    + done.
    + intros. by eapply IHr.
    + done.
    + exists p, c. split; [lia|done].
  - destruct Hd as (cs1 & Hd & _). by eapply IHr.
Qed.

Lemma solid_substr i j p c : (i <= p < j)%nat -> text !! p = Some c -> is_space c = false ->
  blank (substr i j text) = false.
Proof.
  intros Hp Hc Hs. rewrite blank_spec. apply not_true_iff_false. intros HF.
  rewrite forallb_forall in HF. rewrite HF in Hs; [done|]. apply list_elem_of_In.
  apply list_elem_of_lookup. exists (p - i)%nat. unfold substr. rewrite lookup_drop, lookup_take_lt by lia.
  by replace (i + (p - i))%nat with p by lia.
Qed.

(** The text a solid pattern matched is not blank. *)
Lemma solid_match r m : match_of r m -> solid r = true -> blank (match_text text m) = false.
Proof.
  intros [Hd Hb] Hs. destruct (solid_den r _ _ _ _ Hs (Nat.le_trans _ _ _ (proj1 Hb) (proj2 Hb)) Hd) as (p & c & ? & ? & ?).
  by eapply solid_substr.
Qed.
End Facts.

(** ** Two databases that agree

    A match depends on the database only through the characters of the text and of the pattern. *)

(** The literal characters of a pattern. *)
Fixpoint re_chars (r : regex) : list Z :=
  match r with
  | RChar c => [c]
  | RSet _ items => flat_map (fun i => match i with SChar c => [c] | _ => [] end) items
  | RCat a b | RAlt a b => re_chars a ++ re_chars b
  | RRep _ _ _ a | RGroup _ a | RLook _ a | RLookBehind _ _ a => re_chars a
  | _ => []
  end.

Section Agree.
Context (U1 U2 : Unicode) (fl : flags) (text : pystr).

Definition same_case (c : Z) : Prop := ignorecase fl = true -> @char_canon U1 c = @char_canon U2 c.
Definition same_kind (c : Z) : Prop :=
  same_case c /\ @char_word U1 c = @char_word U2 c /\ @char_isdecimal U1 c = @char_isdecimal U2 c.

Lemma ascii_same_kind c : ascii_char c = true -> same_kind c.
Proof.
  unfold ascii_char, same_kind, same_case, char_canon, char_word, char_isdecimal. intros Hc. bools.
  by replace (c <? 128) with true by lia.
Qed.

Context (Htext : Forall same_kind text).

Lemma same_kind_at i c : text !! i = Some c -> same_kind c.
Proof using Htext. intros Hc. rewrite Forall_forall in Htext. apply Htext. by eapply list_elem_of_lookup_2. Qed.

Lemma same_char_agree x c : same_case x -> same_kind c -> @same_char U1 fl x c = @same_char U2 fl x c.
Proof.
  unfold same_char, same_kind, same_case. intros Hx (Hc & _). destruct (ignorecase fl); [by rewrite Hx, Hc|done].
Qed.

Lemma in_set_agree neg items c : Forall same_case (re_chars (RSet neg items)) -> same_kind c ->
  @in_set U1 fl neg items c = @in_set U2 fl neg items c.
Proof.
  intros Hi Hc. unfold in_set. f_equal. cbn [re_chars] in Hi. induction items as [|i items IH]; [done|].
  cbn [flat_map] in Hi. apply Forall_app in Hi as [H1 H2]. cbn [existsb]. rewrite IH by done. f_equal.
  destruct Hc as (Hcase & Hword & Hdec). destruct i as [x|a b|n []]; cbn [in_item in_class].
  - apply Forall_cons in H1 as [Hx _]. by apply same_char_agree.
  - unfold variants. unfold same_case in Hcase. destruct (ignorecase fl); [by rewrite Hcase|done].
  - by rewrite Hdec.
  - by rewrite Hword.
  - done.
Qed.

Lemma one_agree p1 p2 i cs k1 k2 : (forall c, text !! i = Some c -> p1 c = p2 c) -> (forall j cs, k1 j cs = k2 j cs) ->
  one text p1 i cs k1 = one text p2 i cs k2.
Proof. intros Hp Hk. unfold one. destruct (text !! i) as [c|]; [|done]. rewrite (Hp c eq_refl). by destruct (p2 c). Qed.

Abbreviation matcher := (nat -> captures -> (nat -> captures -> option result) -> option result).

(** Two matchers that agree on continuations that agree. *)
Definition alike (m1 m2 : matcher) : Prop :=
  forall i cs k1 k2, (forall j cs, k1 j cs = k2 j cs) -> m1 i cs k1 = m2 i cs k2.

Lemma rounds_alike m1 m2 n : alike m1 m2 -> alike (rounds m1 n) (rounds m2 n).
Proof.
  intros Hm. induction n as [|n IH]; intros i cs k1 k2 Hk; cbn [rounds]; [apply Hk|].
  apply Hm. intros j cs'. by apply IH.
Qed.

Lemma more_alike m1 m2 g fuel hi : alike m1 m2 -> alike (more m1 g fuel hi) (more m2 g fuel hi).
Proof.
  intros Hm. revert hi. induction fuel as [|f IH]; intros hi i cs k1 k2 Hk; cbn [more]; [apply Hk|].
  assert (Hnext : m1 i cs (fun j cs' => if (j =? i)%nat then k1 j cs' else more m1 g f (pred_opt hi) j cs' k1)
    = m2 i cs (fun j cs' => if (j =? i)%nat then k2 j cs' else more m2 g f (pred_opt hi) j cs' k2)).
  { apply Hm. intros j cs'. destruct (j =? i)%nat; [apply Hk|]. by apply IH. }
  destruct hi as [[|h]|]; cbv zeta; [apply Hk|by rewrite Hk, Hnext..].
Qed.

Lemma word_at_agree i : @word_at U1 text i = @word_at U2 text i.
Proof using Htext.
  unfold word_at. destruct (text !! i) as [c|] eqn:E; [|done]. by destruct (same_kind_at i c E) as (_ & -> & _).
Qed.

Lemma rmatch_alike r : Forall same_case (re_chars r) -> alike (@rmatch U1 fl text r) (@rmatch U2 fl text r).
Proof using Htext.
  induction r; intros Hr i cs k1 k2 Hk; cbn [rmatch].
  - apply Hk.
  - apply one_agree; [|done]. intros d Hd. apply same_char_agree; [by inversion Hr|by eapply same_kind_at].
  - by apply one_agree.
  - apply one_agree; [|done]. intros d Hd. apply in_set_agree; [done|by eapply same_kind_at].
  - by rewrite Hk.
  - by rewrite Hk.
  - rewrite Hk. unfold word_boundary. rewrite word_at_agree. destruct i; [done|]. by rewrite word_at_agree.
  - apply Forall_app in Hr as [H1 H2]. apply IHr1; [done|]. intros j cs'. by apply IHr2.
  - apply Forall_app in Hr as [H1 H2]. rewrite (IHr1 H1 i cs k1 k2 Hk). destruct (rmatch _ _ r1 _ _ _); [done|].
    by apply IHr2.
  - apply rounds_alike; [by apply IHr|]. intros j cs'. apply more_alike; [by apply IHr|done].
  - apply IHr; [done|]. intros j cs'. apply Hk.
  - destruct (group_span n cs) as [sp|]; [|done]. rewrite Hk.
    assert (Hz : forall a b : pystr, Forall same_kind a -> Forall same_kind b ->
      zip_with (@same_char U1 fl) a b = zip_with (@same_char U2 fl) a b).
    { induction a as [|x a IH]; intros [|y b] Ha Hb; try done. apply Forall_cons in Ha as [Hx Ha], Hb as [Hy Hb].
      cbn [zip_with]. by rewrite same_char_agree, IH by (done || apply Hx). }
    rewrite Hz; [done| |by apply Forall_take, Forall_drop].
    unfold span_text, substr. by apply Forall_drop, Forall_take.
  - rewrite (IHr Hr i cs _ (fun j cs' => Some (j, cs'))) by done. destruct (rmatch _ _ r _ _ _); by destruct neg.
  - destruct (width <=? i)%nat; [|by destruct neg].
    rewrite (IHr Hr (i - width)%nat cs _ (fun j cs' => if (j =? i)%nat then Some (j, cs') else None)) by done.
    destruct (rmatch _ _ r _ _ _); by destruct neg.
Qed.

Lemma search_from_agree r ne n i : Forall same_case (re_chars r) ->
  @search_from U1 fl text r ne n i = @search_from U2 fl text r ne n i.
Proof using Htext.
  intros Hr. revert ne i. induction n as [|n IH]; intros ne i; cbn [search_from]; unfold match_at;
    rewrite (rmatch_alike r Hr i [] _ (fun j cs => if ne && (j =? i)%nat then None else Some (j, cs))) by done; [done|].
  by rewrite IH.
Qed.

Lemma re_found_agree r : Forall same_case (re_chars r) -> @re_found U1 fl text r = @re_found U2 fl text r.
Proof using Htext. intros Hr. unfold re_found, re_search. by rewrite search_from_agree. Qed.
End Agree.
