(* ===== verification/PyUrl.v ===== *)
(** * PyUrl: [urllib.parse.urlsplit]

    The parts of a URL, as the standard library splits them, and the host name and port of a network
    location. Whether a bracketed host is an IP literal (the [ipaddress] module) is a parameter, as
    is NFKC normalization ([Unicode]). *)

From Stdlib Require Import String.
From S2P Require Import Prelude Errors PyData PyStr.

Record SplitResult := {
  ur_scheme : pystr;
  ur_netloc : pystr;
  ur_path : pystr;
  ur_query : pystr;
  ur_fragment : pystr
}.

Class IpLiterals := { bracketed_ok : pystr -> bool }.

Section Url.
Context `{Unicode} `{IpLiterals}.

Definition scheme_char (c : Z) : bool :=
  ascii_letter c || ascii_digit c || bool_decide (c ∈ u "+-.").

(** [t.partition(sep)]: before, whether it is there, after. *)
Definition partition (sep t : pystr) : pystr * bool * pystr :=
  match str_find sep t with
  | Some i => (take i t, true, drop (i + length sep) t)
  | None => (t, false, [])
  end.

(** [t.rpartition("@")[2]] *)
Definition after_last (c : Z) (t : pystr) : pystr :=
  reverse (before [c] (reverse t)).

(** [_checknetloc]: the normal form of a network location must not hide a separator. *)
Definition check_netloc (netloc : pystr) : res unit :=
  if bool_decide (netloc = []) || str_isascii netloc then Ok tt else
  let n := base.filter (fun c => c ∉ u "@:#?") netloc in
  let netloc2 := uni_nfkc n in
  if bool_decide (n = netloc2) then Ok tt else
  fail_if (existsb (fun c => bool_decide (c ∈ u "/?#@:")) netloc2)
    (ValueError "netloc contains invalid characters under NFKC normalization").

(** The network location ends at the first of [/?#]. *)
Fixpoint split_netloc (t : pystr) : pystr * pystr :=
  match t with
  | [] => ([], [])
  | c :: r => if bool_decide (c ∈ u "/?#") then ([], t) else let '(n, rest) := split_netloc r in (c :: n, rest)
  end.

(** Leading spaces and control characters are stripped since Python 3.11.4. *)
Definition urlsplit (url : pystr) : res SplitResult :=
  let url := lstrip_chars (map Z.of_nat (seq 0 33)) url in
  let url := base.filter (fun c => c ∉ [9; 10; 13]) url in
  let '(scheme, rest) :=
    match str_find (u ":") url, url with
    | Some (S i), c :: _ =>
        if ascii_letter c && forallb scheme_char (take (S i) url)
        then (ascii_lower (take (S i) url), drop (S (S i)) url) else ([], url)
    | _, _ => ([], url)
    end in
  let '(netloc, rest) := if starts_with (u "//") rest then split_netloc (drop 2 rest) else ([], rest) in
  let opened := str_in (u "[") netloc in
  let closed := str_in (u "]") netloc in
  _ ← fail_if (xorb opened closed || (opened && closed && negb (bracketed_ok netloc)))
        (ValueError "Invalid IPv6 URL");
  let '(rest, _, fragment) := partition (u "#") rest in
  let '(path, _, query) := partition (u "?") rest in
  _ ← check_netloc netloc;
  Ok {| ur_scheme := scheme; ur_netloc := netloc; ur_path := path; ur_query := query; ur_fragment := fragment |}.

(** [_hostinfo] *)
Definition hostinfo (netloc : pystr) : pystr * pystr :=
  let info := after_last 64 netloc in
  let '(_, have_open, bracketed) := partition (u "[") info in
  if have_open then
    let '(host, _, port) := partition (u "]") bracketed in
    let '(_, _, port) := partition (u ":") port in (host, port)
  else
    let '(host, _, port) := partition (u ":") info in (host, port).

(** [parsed.hostname or ""]: lower case, up to the zone of an address. *)
Definition url_hostname (r : SplitResult) : pystr :=
  let '(host, percent, zone) := partition (u "%") (hostinfo (ur_netloc r)).1 in
  str_lower host ++ (if percent then u "%" else []) ++ zone.

Fixpoint digits_value (acc : Z) (t : pystr) : Z :=
  match t with [] => acc | c :: r => digits_value (10 * acc + (c - 48)) r end.

(** [parsed.port] *)
Definition url_port (r : SplitResult) : res (option Z) :=
  let port := (hostinfo (ur_netloc r)).2 in
  if bool_decide (port = []) then Ok None else
  _ ← fail_if (negb (forallb ascii_digit port)) (ValueError "Port could not be cast to integer value");
  _ ← fail_if (65535 <? digits_value 0 port) (ValueError "Port out of range 0-65535");
  Ok (Some (digits_value 0 port)).

(** [urlunsplit] for an http URL with a network location. *)
Definition urlunsplit (r : SplitResult) : pystr :=
  let path := ur_path r in
  let url := if bool_decide (ur_netloc r = []) && negb (starts_with (u "//") path) then path
             else u "//" ++ ur_netloc r
                  ++ (if bool_decide (path = []) || starts_with (u "/") path then path else u "/" ++ path) in
  let url := if bool_decide (ur_scheme r = []) then url else ur_scheme r ++ u ":" ++ url in
  let url := if bool_decide (ur_query r = []) then url else url ++ u "?" ++ ur_query r in
  if bool_decide (ur_fragment r = []) then url else url ++ u "#" ++ ur_fragment r.
End Url.

Definition ex_ip : IpLiterals := {| bracketed_ok := fun _ => true |}.

Example urlsplit_parts :
  let r := @urlsplit ex_unicode ex_ip (u "HTTPS://user@Docs.Example.org:8080/a/b?q=1#top") in
  (fun x => (ur_scheme x, @url_hostname ex_unicode x, ur_path x, ur_query x, ur_fragment x)) <$> r
    = Ok (u "https", u "docs.example.org", u "/a/b", u "q=1", u "top")
  /\ (x ← r; url_port x) = Ok (Some 8080).
Proof. split; reflexivity. Qed.
