(* ===== verification/Transitions.v ===== *)
(** * Transitions: the transition check and the interface of a versioned state machine

    [sana/modules/orchestration/transitions.py], and the [Lifecycle] class through which search
    runs, search steps and shadow campaigns share their state-machine theorems. *)

From Stdlib Require Import String.
From S2P Require Import Prelude Errors.

(** [allowed.get(current, frozenset())] is a function with the empty list as default. *)
(** [@ src/sana/modules/orchestration/transitions.py assert_transition] *)
Definition assert_transition {St} `{EqDecision St} (current target : St)
    (allowed : St -> list St) : res unit :=
  fail_if (negb (bool_decide (target ∈ allowed current)))
    (InvariantViolation_code "Illegal transition" "illegal_state_transition").

Lemma assert_transition_ok_inv {St} `{EqDecision St} (current target : St) allowed x :
  assert_transition current target allowed = Ok x -> target ∈ allowed current.
Proof. unfold assert_transition. intros H. minv. by bools. Qed.

Lemma assert_transition_ok {St} `{EqDecision St} (current target : St) allowed :
  target ∈ allowed current -> assert_transition current target allowed = Ok tt.
Proof. intros H. unfold assert_transition. by rewrite bool_decide_eq_true_2. Qed.

(** What a versioned state machine promises: [lc_step] is one successful mutation of the object;
    it stays on an edge of the transition table (or keeps the status), adds one to the optimistic
    lock version, and is impossible in a terminal status, which has no outgoing edge. *)
Class Lifecycle (Obj St : Type) := {
  lc_status : Obj -> St;
  lc_version : Obj -> Z;
  lc_terminal : St -> bool;
  lc_allowed : St -> list St;
  lc_step : Obj -> Obj -> Prop;
  lc_terminal_sink s : lc_terminal s = true -> lc_allowed s = [];
  lc_edge o o' : lc_step o o' -> lc_status o' = lc_status o \/ lc_status o' ∈ lc_allowed (lc_status o);
  lc_bump o o' : lc_step o o' -> lc_version o' = lc_version o + 1;
  lc_frozen o o' : lc_step o o' -> lc_terminal (lc_status o) = false
}.

Section Lifecycle.
Context `{Lifecycle Obj St}.

(** The number of mutations that lead from one object to another. *)
Inductive steps : nat -> Obj -> Obj -> Prop :=
| steps_O o : steps 0 o o
| steps_S n o o1 o2 : lc_step o o1 -> steps n o1 o2 -> steps (S n) o o2.

Lemma star_steps o o' : star lc_step o o' -> exists n, steps n o o'.
Proof.
  induction 1 as [o|o o1 o2 H1 _ [n IH]]; [exists 0%nat; constructor|].
  exists (S n). by econstructor.
Qed.

Lemma steps_version n o o' : steps n o o' -> lc_version o' = lc_version o + Z.of_nat n.
Proof.
  induction 1 as [o|n o o1 o2 H1 _ IH]; [lia|]. apply lc_bump in H1. lia.
Qed.

(** No mutation history leaves a terminal status. *)
Lemma steps_terminal n o o' :
  steps n o o' -> lc_terminal (lc_status o) = true -> n = 0%nat /\ o' = o.
Proof.
  intros [|n1 o0 o1 o2 H1 _] HT; [done|]. apply lc_frozen in H1. congruence.
Qed.

(** The version tells mutation histories apart: equal versions mean no mutation happened. *)
Lemma steps_same_version n o o' :
  steps n o o' -> lc_version o' = lc_version o -> o' = o.
Proof.
  intros Hs Hv. pose proof (steps_version _ _ _ Hs). assert (n = 0%nat) as -> by lia.
  by inversion Hs.
Qed.

(** The statuses of a history form a path of the transition table. *)
Lemma steps_path n o o' : steps n o o' ->
  star (fun s s' => s' ∈ lc_allowed s) (lc_status o) (lc_status o').
Proof.
  induction 1 as [o|n o o1 o2 H1 _ IH]; [constructor|].
  apply lc_edge in H1 as [E|E]; [by rewrite E in IH|]. econstructor; eauto.
Qed.

(** A history of method calls that all returned, counted. *)
Lemma after_steps {Op} (exec : Op -> M Obj unit) ops o :
  (forall op o o', exec op o = (o', Ok tt) -> lc_step o o') ->
  all_ok exec ops o = true -> steps (length ops) o (after exec ops o).
Proof.
  intros Hx. revert o. induction ops as [|op ops IH]; intros o; simpl; [constructor|].
  destruct (exec op o) as [o1 [[]|e]] eqn:E; simpl; [|done].
  intros Hr. econstructor; [by eapply Hx | by apply IH].
Qed.
End Lifecycle.

#[export] Hint Constructors steps : sana.
