(* ===== verification/Run.v ===== *)
(** * Run: the search-run aggregate

    [sana/modules/orchestration/domain.py]: routing decisions, budget snapshots and usage,
    artifact references, and [SearchRun], the durable record of one search. A dataclass is a
    record plus a [_new] function for its [__post_init__]; a method is an [M SearchRun]. *)

From Stdlib Require Import SpecFloat String.
From S2P Require Import Prelude Errors PyTime Transitions.

(** [@ src/sana/modules/orchestration/domain.py SearchMode] *)
Inductive SearchMode := SearchMode_FAST | SearchMode_RESEARCH.

(** [@ src/sana/modules/orchestration/domain.py RunStatus] *)
Inductive RunStatus :=
| RunStatus_QUEUED | RunStatus_RUNNING | RunStatus_WAITING
| RunStatus_SUCCEEDED | RunStatus_FAILED | RunStatus_CANCELLED.

(** [@ src/sana/modules/orchestration/domain.py AnswerQuality] *)
Inductive AnswerQuality := AnswerQuality_COMPLETE | AnswerQuality_PARTIAL | AnswerQuality_NONE.

(** [@ src/sana/modules/orchestration/domain.py StopReason] *)
Inductive StopReason :=
| StopReason_FACTS_COVERED | StopReason_TIME_BUDGET | StopReason_INSUFFICIENT_EVIDENCE
| StopReason_PROVIDER_FAILURE | StopReason_POLICY_BLOCKED | StopReason_USER_CANCELLED
| StopReason_INFRASTRUCTURE_FAILURE.

#[export] Instance SearchMode_eq_dec : EqDecision SearchMode.
Proof. solve_decision. Defined.
#[export] Instance RunStatus_eq_dec : EqDecision RunStatus.
Proof. solve_decision. Defined.
#[export] Instance AnswerQuality_eq_dec : EqDecision AnswerQuality.
Proof. solve_decision. Defined.
#[export] Instance StopReason_eq_dec : EqDecision StopReason.
Proof. solve_decision. Defined.

(** [@ src/sana/modules/orchestration/domain.py _RUN_TRANSITIONS] *)
Definition run_transitions (s : RunStatus) : list RunStatus :=
  match s with
  | RunStatus_QUEUED => [RunStatus_RUNNING; RunStatus_FAILED; RunStatus_CANCELLED]
  | RunStatus_RUNNING =>
      [RunStatus_WAITING; RunStatus_SUCCEEDED; RunStatus_FAILED; RunStatus_CANCELLED]
  | RunStatus_WAITING => [RunStatus_RUNNING; RunStatus_FAILED; RunStatus_CANCELLED]
  | _ => []
  end.

(** ** Routing decisions *)

Record RoutingDecision := {
  rd_mode : SearchMode;
  rd_reason_codes : list pystr;
  rd_policy_version : pystr;
  rd_confidence : float
}.

(** [@ src/sana/modules/orchestration/domain.py RoutingDecision] *)
Definition RoutingDecision_new (mode : SearchMode) (reason_codes : list pystr)
    (policy_version : pystr) (confidence : float) : res RoutingDecision :=
  _ ← fail_if (blank policy_version) (ValueError "policy_version cannot be empty");
  _ ← fail_if (negb (fle01 confidence)) (ValueError "confidence must be between 0 and 1");
  _ ← fail_if (existsb blank reason_codes) (ValueError "reason_codes cannot contain empty values");
  Ok {| rd_mode := mode; rd_reason_codes := reason_codes; rd_policy_version := policy_version;
        rd_confidence := confidence |}.

(** ** Budget snapshots *)

Record BudgetSnapshot := {
  bs_policy_version : pystr;
  bs_created_at : datetime;
  bs_soft_deadline_at : datetime;
  bs_hard_deadline_at : datetime;
  bs_synthesis_reserve_seconds : float;
  bs_max_queries : Z;
  bs_max_providers : Z;
  bs_max_fetches : Z;
  bs_max_llm_calls : Z;
  bs_max_expansion_rounds : Z;
  bs_phase_seconds : list (pystr * float)
}.

(** [@ src/sana/modules/orchestration/domain.py BudgetSnapshot] *)
Definition BudgetSnapshot_new (policy_version : pystr)
    (created_at soft_deadline_at hard_deadline_at : datetime)
    (synthesis_reserve_seconds : float)
    (max_queries max_providers max_fetches max_llm_calls max_expansion_rounds : Z)
    (phase_seconds : list (pystr * float)) : res BudgetSnapshot :=
  _ ← require_aware created_at;
  _ ← require_aware soft_deadline_at;
  _ ← require_aware hard_deadline_at;
  c1 ← dt_le created_at soft_deadline_at;
  (* a chained comparison evaluates its second half only when the first holds *)
  c2 ← (if c1 : bool then dt_le soft_deadline_at hard_deadline_at else Ok false);
  _ ← fail_if (negb c2) (ValueError "Budget deadlines must be ordered from creation to hard stop");
  _ ← fail_if (fle synthesis_reserve_seconds fzero)
        (ValueError "synthesis_reserve_seconds must be positive");
  _ ← fail_if (existsb (fun v => v <? 0)
        [max_queries; max_providers; max_fetches; max_llm_calls; max_expansion_rounds])
        (ValueError "Budget limits cannot be negative");
  _ ← fail_if (existsb fneg phase_seconds.*2) (ValueError "Phase budgets cannot be negative");
  Ok {| bs_policy_version := policy_version; bs_created_at := created_at;
        bs_soft_deadline_at := soft_deadline_at; bs_hard_deadline_at := hard_deadline_at;
        bs_synthesis_reserve_seconds := synthesis_reserve_seconds;
        bs_max_queries := max_queries; bs_max_providers := max_providers;
        bs_max_fetches := max_fetches; bs_max_llm_calls := max_llm_calls;
        bs_max_expansion_rounds := max_expansion_rounds; bs_phase_seconds := phase_seconds |}.

(** ** Budget usage *)

Record BudgetUsage := {
  bu_query_count : Z;
  bu_provider_count : Z;
  bu_fetch_count : Z;
  bu_llm_call_count : Z;
  bu_prompt_token_count : Z;
  bu_completion_token_count : Z;
  bu_expansion_rounds : Z;
  bu_phase_seconds : list (pystr * float)
}.

(** The seven counters, in the order [record_usage] compares them. *)
Definition bu_counters (b : BudgetUsage) : list Z :=
  [bu_query_count b; bu_provider_count b; bu_fetch_count b; bu_llm_call_count b;
   bu_prompt_token_count b; bu_completion_token_count b; bu_expansion_rounds b].

(** [@ src/sana/modules/orchestration/domain.py BudgetUsage/__post_init__] *)
Definition BudgetUsage_new (b : BudgetUsage) : res BudgetUsage :=
  _ ← fail_if (existsb (fun v => v <? 0) (bu_counters b))
        (ValueError "Usage counters cannot be negative");
  _ ← fail_if (existsb fneg (bu_phase_seconds b).*2) (ValueError "Phase usage cannot be negative");
  Ok b.

Definition BudgetUsage_zero : BudgetUsage :=
  {| bu_query_count := 0; bu_provider_count := 0; bu_fetch_count := 0; bu_llm_call_count := 0;
     bu_prompt_token_count := 0; bu_completion_token_count := 0; bu_expansion_rounds := 0;
     bu_phase_seconds := [] |}.

(** The keyword arguments of [BudgetUsage.add]. *)
Record UsageIncrement := {
  ui_queries : Z;
  ui_providers : Z;
  ui_fetches : Z;
  ui_llm_calls : Z;
  ui_prompt_tokens : Z;
  ui_completion_tokens : Z;
  ui_expansion_rounds : Z;
  ui_phase : option pystr;
  ui_elapsed_seconds : float
}.

Definition ui_counters (i : UsageIncrement) : list Z :=
  [ui_queries i; ui_providers i; ui_fetches i; ui_llm_calls i; ui_prompt_tokens i;
   ui_completion_tokens i; ui_expansion_rounds i].

Definition UsageIncrement_zero : UsageIncrement :=
  {| ui_queries := 0; ui_providers := 0; ui_fetches := 0; ui_llm_calls := 0;
     ui_prompt_tokens := 0; ui_completion_tokens := 0; ui_expansion_rounds := 0;
     ui_phase := None; ui_elapsed_seconds := fzero |}.

(** [@ src/sana/modules/orchestration/domain.py BudgetUsage.add] *)
Definition BudgetUsage_add (b : BudgetUsage) (i : UsageIncrement) : res BudgetUsage :=
  _ ← fail_if (existsb (fun v => v <? 0) (ui_counters i) || fneg (ui_elapsed_seconds i))
        (ValueError "Usage increments cannot be negative");
  phase_usage ← (match ui_phase i with
                 | Some phase =>
                     let old := default fzero (dget phase (bu_phase_seconds b)) in
                     Ok (dset phase (fadd old (ui_elapsed_seconds i)) (bu_phase_seconds b))
                 | None =>
                     _ ← fail_if (ftrue (ui_elapsed_seconds i))
                           (ValueError "phase is required when elapsed_seconds is recorded");
                     Ok (bu_phase_seconds b)
                 end);
  BudgetUsage_new
    {| bu_query_count := bu_query_count b + ui_queries i;
       bu_provider_count := bu_provider_count b + ui_providers i;
       bu_fetch_count := bu_fetch_count b + ui_fetches i;
       bu_llm_call_count := bu_llm_call_count b + ui_llm_calls i;
       bu_prompt_token_count := bu_prompt_token_count b + ui_prompt_tokens i;
       bu_completion_token_count := bu_completion_token_count b + ui_completion_tokens i;
       bu_expansion_rounds := bu_expansion_rounds b + ui_expansion_rounds i;
       bu_phase_seconds := phase_usage |}.

(** ** Artifact references *)

Record ArtifactRef := { ar_uri : pystr; ar_sha256 : pystr }.

#[export] Instance ArtifactRef_eq_dec : EqDecision ArtifactRef.
Proof. solve_decision. Defined.

(** [@ src/sana/modules/orchestration/domain.py ArtifactRef] *)
Definition ArtifactRef_new (uri sha256 : pystr) : res ArtifactRef :=
  _ ← fail_if (blank uri) (ValueError "Artifact URI cannot be empty");
  _ ← fail_if (negb (Nat.eqb (length sha256) 64) || existsb (fun c => negb (hex_char c)) sha256)
        (ValueError "Artifact sha256 must be a 64-character hex digest");
  Ok {| ar_uri := uri; ar_sha256 := ascii_lower sha256 |}.

(** ** The aggregate *)

(** [_persisted_version] is the version the row had when it was loaded or saved. *)
Record SearchRun := {
  run_id : UUID;
  run_tenant_id : UUID;
  run_conversation_id : UUID;
  run_message_id : UUID;
  run_response_run_id : UUID;
  run_routing : RoutingDecision;
  run_budget : BudgetSnapshot;
  run_status : RunStatus;
  run_answer_quality : AnswerQuality;
  run_stop_reason : option StopReason;
  run_usage : BudgetUsage;
  run_started_at : option datetime;
  run_completed_at : option datetime;
  run_version : Z;
  run_persisted_version : Z
}.

(** The constructor: [_status], [_answer_quality], [_stop_reason] and [_persisted_version] are not
    parameters of [__init__]. *)
(** [@ src/sana/modules/orchestration/domain.py SearchRun/__post_init__] *)
Definition SearchRun_new (id tenant_id conversation_id message_id response_run_id : UUID)
    (routing : RoutingDecision) (budget : BudgetSnapshot) (usage : BudgetUsage)
    (started_at completed_at : option datetime) (version : Z) : res SearchRun :=
  _ ← fail_if (negb (bool_decide (rd_policy_version routing = bs_policy_version budget)))
        (ValueError "Routing and budget policy versions must match");
  Ok {| run_id := id; run_tenant_id := tenant_id; run_conversation_id := conversation_id;
        run_message_id := message_id; run_response_run_id := response_run_id;
        run_routing := routing; run_budget := budget; run_status := RunStatus_QUEUED;
        run_answer_quality := AnswerQuality_NONE; run_stop_reason := None; run_usage := usage;
        run_started_at := started_at; run_completed_at := completed_at; run_version := version;
        run_persisted_version := 0 |}.

(** [@ src/sana/modules/orchestration/domain.py SearchRun._validate_loaded_state] *)
Definition SearchRun_validate_loaded_state (r : SearchRun) : res unit :=
  let quality := run_answer_quality r in
  let reason := run_stop_reason r in
  match run_status r with
  | RunStatus_SUCCEEDED =>
      _ ← fail_if ((quality is AnswerQuality_NONE) || is_none reason)
            (InvariantViolation "Persisted successful run has no answer outcome");
      _ ← fail_if ((quality is AnswerQuality_COMPLETE) && (reason isnot Some StopReason_FACTS_COVERED))
            (InvariantViolation "Persisted complete run has an invalid stop reason");
      fail_if ((quality is AnswerQuality_PARTIAL) && (reason is Some StopReason_FACTS_COVERED))
            (InvariantViolation "Persisted partial run has an invalid stop reason")
  | RunStatus_CANCELLED =>
      fail_if (reason isnot Some StopReason_USER_CANCELLED)
            (InvariantViolation "Persisted cancelled run has an invalid stop reason")
  | RunStatus_FAILED =>
      fail_if ((quality isnot AnswerQuality_NONE) || is_none reason)
            (InvariantViolation "Persisted failed run has an invalid answer outcome")
  | _ =>
      fail_if ((quality isnot AnswerQuality_NONE) || negb (is_none reason))
            (InvariantViolation "Non-terminal run cannot have a final answer outcome")
  end.

(** [@ src/sana/modules/orchestration/domain.py SearchRun.rehydrate] *)
Definition SearchRun_rehydrate (id tenant_id conversation_id message_id response_run_id : UUID)
    (routing : RoutingDecision) (budget : BudgetSnapshot) (status : RunStatus)
    (answer_quality : AnswerQuality) (stop_reason : option StopReason) (usage : BudgetUsage)
    (started_at completed_at : option datetime) (version : Z) : res SearchRun :=
  run ← SearchRun_new id tenant_id conversation_id message_id response_run_id routing budget usage
          started_at completed_at version;
  let run := {| run_id := run_id run; run_tenant_id := run_tenant_id run;
                run_conversation_id := run_conversation_id run;
                run_message_id := run_message_id run;
                run_response_run_id := run_response_run_id run;
                run_routing := run_routing run; run_budget := run_budget run;
                run_status := status; run_answer_quality := answer_quality;
                run_stop_reason := stop_reason; run_usage := run_usage run;
                run_started_at := run_started_at run; run_completed_at := run_completed_at run;
                run_version := run_version run; run_persisted_version := version |} in
  _ ← SearchRun_validate_loaded_state run;
  Ok run.

(** [@ src/sana/modules/orchestration/domain.py SearchRun.mode] *)
Definition SearchRun_mode (r : SearchRun) : SearchMode := rd_mode (run_routing r).

(** [@ src/sana/modules/orchestration/domain.py SearchRun.is_terminal] *)
Definition SearchRun_is_terminal (r : SearchRun) : bool :=
  bool_decide (run_status r ∈ [RunStatus_SUCCEEDED; RunStatus_FAILED; RunStatus_CANCELLED]).

(** Assignments to the fields. *)
Definition run_set_status (s : RunStatus) (r : SearchRun) : SearchRun :=
  {| run_id := run_id r; run_tenant_id := run_tenant_id r;
     run_conversation_id := run_conversation_id r; run_message_id := run_message_id r;
     run_response_run_id := run_response_run_id r; run_routing := run_routing r;
     run_budget := run_budget r; run_status := s; run_answer_quality := run_answer_quality r;
     run_stop_reason := run_stop_reason r; run_usage := run_usage r;
     run_started_at := run_started_at r; run_completed_at := run_completed_at r;
     run_version := run_version r + 1; run_persisted_version := run_persisted_version r |}.

Definition run_set_outcome (q : AnswerQuality) (why : option StopReason) (at_ : option datetime)
    (r : SearchRun) : SearchRun :=
  {| run_id := run_id r; run_tenant_id := run_tenant_id r;
     run_conversation_id := run_conversation_id r; run_message_id := run_message_id r;
     run_response_run_id := run_response_run_id r; run_routing := run_routing r;
     run_budget := run_budget r; run_status := run_status r; run_answer_quality := q;
     run_stop_reason := why; run_usage := run_usage r; run_started_at := run_started_at r;
     run_completed_at := at_; run_version := run_version r;
     run_persisted_version := run_persisted_version r |}.

Definition run_set_started (at_ : option datetime) (r : SearchRun) : SearchRun :=
  {| run_id := run_id r; run_tenant_id := run_tenant_id r;
     run_conversation_id := run_conversation_id r; run_message_id := run_message_id r;
     run_response_run_id := run_response_run_id r; run_routing := run_routing r;
     run_budget := run_budget r; run_status := run_status r;
     run_answer_quality := run_answer_quality r; run_stop_reason := run_stop_reason r;
     run_usage := run_usage r; run_started_at := at_; run_completed_at := run_completed_at r;
     run_version := run_version r; run_persisted_version := run_persisted_version r |}.

Definition run_set_plan (routing : RoutingDecision) (budget : BudgetSnapshot) (usage : BudgetUsage)
    (r : SearchRun) : SearchRun :=
  {| run_id := run_id r; run_tenant_id := run_tenant_id r;
     run_conversation_id := run_conversation_id r; run_message_id := run_message_id r;
     run_response_run_id := run_response_run_id r; run_routing := routing; run_budget := budget;
     run_status := run_status r; run_answer_quality := run_answer_quality r;
     run_stop_reason := run_stop_reason r; run_usage := usage;
     run_started_at := run_started_at r; run_completed_at := run_completed_at r;
     run_version := run_version r + 1; run_persisted_version := run_persisted_version r |}.

(** [@ src/sana/modules/orchestration/domain.py SearchRun.mark_persisted] *)
Definition SearchRun_mark_persisted : M SearchRun unit := update (fun r =>
  {| run_id := run_id r; run_tenant_id := run_tenant_id r;
     run_conversation_id := run_conversation_id r; run_message_id := run_message_id r;
     run_response_run_id := run_response_run_id r; run_routing := run_routing r;
     run_budget := run_budget r; run_status := run_status r;
     run_answer_quality := run_answer_quality r; run_stop_reason := run_stop_reason r;
     run_usage := run_usage r; run_started_at := run_started_at r;
     run_completed_at := run_completed_at r; run_version := run_version r;
     run_persisted_version := run_version r |}).

(** [@ src/sana/modules/orchestration/domain.py SearchRun._transition] *)
Definition SearchRun_transition (target : RunStatus) : M SearchRun unit :=
  r ← self;
  _ ← lift (assert_transition (run_status r) target run_transitions);
  update (run_set_status target).

(** [@ src/sana/modules/orchestration/domain.py SearchRun.start] *)
Definition SearchRun_start (at_ : datetime) : M SearchRun unit :=
  _ ← lift (require_aware at_);
  _ ← SearchRun_transition RunStatus_RUNNING;
  update (fun r => run_set_started
    (match run_started_at r with Some t => Some t | None => Some at_ end) r).

(** [@ src/sana/modules/orchestration/domain.py SearchRun.wait] *)
Definition SearchRun_wait : M SearchRun unit := SearchRun_transition RunStatus_WAITING.

(** [@ src/sana/modules/orchestration/domain.py SearchRun.resume] *)
Definition SearchRun_resume : M SearchRun unit := SearchRun_transition RunStatus_RUNNING.

(** [@ src/sana/modules/orchestration/domain.py SearchRun.record_usage] *)
Definition SearchRun_record_usage (usage : BudgetUsage) : M SearchRun unit :=
  r ← self;
  _ ← raise_if (SearchRun_is_terminal r)
        (InvariantViolation "Cannot update usage for a terminal run");
  _ ← raise_if (existsb (fun '(new, old) => new <? old)
                 (zip (bu_counters usage) (bu_counters (run_usage r))))
        (InvariantViolation "Run usage counters cannot decrease");
  update (fun r => run_set_plan (run_routing r) (run_budget r) usage r).

(** [@ src/sana/modules/orchestration/domain.py SearchRun.upgrade_to_research] *)
Definition SearchRun_upgrade_to_research (routing : RoutingDecision) (budget : BudgetSnapshot)
    : M SearchRun unit :=
  r ← self;
  _ ← raise_if (SearchRun_is_terminal r) (InvariantViolation "Cannot upgrade a terminal run");
  _ ← raise_if ((SearchRun_mode r isnot SearchMode_FAST) || (rd_mode routing isnot SearchMode_RESEARCH))
        (InvariantViolation "Only a FAST run can upgrade to RESEARCH");
  _ ← raise_if (negb (bool_decide (rd_policy_version routing = bs_policy_version budget)))
        (InvariantViolation "Upgrade routing and budget versions differ");
  _ ← raise_if (negb (bool_decide (rd_policy_version routing = rd_policy_version (run_routing r))))
        (InvariantViolation "Upgrade cannot change the run policy version");
  _ ← raise_if (negb (bool_decide (bs_created_at budget = bs_created_at (run_budget r))))
        (InvariantViolation "Upgrade must retain the original run start time");
  earlier ← lift (dt_le (bs_hard_deadline_at budget) (bs_hard_deadline_at (run_budget r)));
  _ ← raise_if earlier (InvariantViolation "Research upgrade must extend the hard deadline");
  update (fun r => run_set_plan routing budget (run_usage r) r).

(** [@ src/sana/modules/orchestration/domain.py SearchRun.succeed] *)
Definition SearchRun_succeed (quality : AnswerQuality) (reason : StopReason) (at_ : datetime)
    : M SearchRun unit :=
  _ ← lift (require_aware at_);
  _ ← raise_if (quality is AnswerQuality_NONE)
        (InvariantViolation "A successful run must contain an answer");
  _ ← raise_if ((quality is AnswerQuality_COMPLETE) && (reason isnot StopReason_FACTS_COVERED))
        (InvariantViolation "A complete answer must stop because facts are covered");
  _ ← raise_if ((quality is AnswerQuality_PARTIAL) && (reason is StopReason_FACTS_COVERED))
        (InvariantViolation "A partial answer cannot claim all facts are covered");
  _ ← raise_if (reason is StopReason_USER_CANCELLED)
        (InvariantViolation "A successful run cannot be user-cancelled");
  _ ← SearchRun_transition RunStatus_SUCCEEDED;
  update (run_set_outcome quality (Some reason) (Some at_)).

(** [@ src/sana/modules/orchestration/domain.py SearchRun.fail] *)
Definition SearchRun_fail (reason : StopReason) (at_ : datetime) : M SearchRun unit :=
  _ ← lift (require_aware at_);
  _ ← raise_if (bool_decide (reason ∈ [StopReason_FACTS_COVERED; StopReason_USER_CANCELLED]))
        (InvariantViolation "Failure stop reason is inconsistent");
  _ ← SearchRun_transition RunStatus_FAILED;
  update (run_set_outcome AnswerQuality_NONE (Some reason) (Some at_)).

(** [@ src/sana/modules/orchestration/domain.py SearchRun.cancel] *)
Definition SearchRun_cancel (at_ : datetime) : M SearchRun unit :=
  _ ← lift (require_aware at_);
  _ ← SearchRun_transition RunStatus_CANCELLED;
  update (run_set_outcome AnswerQuality_NONE (Some StopReason_USER_CANCELLED) (Some at_)).
