(* ===== verification/Tables.v ===== *)
(** * Tables: the rows beside runs, steps and attempts

    [sana/platform/db/models/search.py], [models/conversation.py] and the outbox table of
    [models/orchestration.py], with the value of an outbox message ([modules/orchestration/outbox.py])
    and the trace context it carries ([modules/shared/ids.py]).

    The thirteen tables of plans, sources, evidence and answers are rows of named cells under a
    schema: column types, unique keys, foreign keys and CHECK constraints. Tenants, users and the
    run itself are rows that the transactions have locked or authenticated, so keys to them hold.
    Columns with a server default that no modelled code reads are left out. *)

From Stdlib Require Import SpecFloat String.
From S2P Require Import Prelude Errors PyTime PyData Run.

(** ** Cells and rows *)

Inductive Cell :=
| CNull
| CUuid (x : UUID)
| CInt (n : Z)
| CText (s : pystr)
| CBool (b : bool)
| CFloat (x : float)
| CTime (t : datetime)
| CJson (v : json).

Inductive ColumnType := TUuid | TInteger | TVarchar (n : Z) | TText | TBoolean | TFloat | TTimestamp | TJsonb.

(** What the driver and the server accept: text without NUL that UTF-8 can encode, 32-bit integers,
    aware timestamps, JSON without NUL. *)
Definition storable_text (s : pystr) : bool := encodable s && forallb (fun c => negb (c =? 0)) s.

Fixpoint storable_json (v : json) : bool :=
  match v with
  | JStr s => storable_text s
  | JList l => forallb storable_json l
  | JObj d => forallb (fun kv => storable_text kv.1 && storable_json kv.2) d
  | _ => true
  end.

Definition int32 (n : Z) : bool := (- 2 ^ 31 <=? n) && (n <? 2 ^ 31).

Definition fits (t : ColumnType) (c : Cell) : bool :=
  match t, c with
  | _, CNull => true
  | TUuid, CUuid _ => true
  | TInteger, CInt n => int32 n
  | TVarchar n, CText s => storable_text s && (Z.of_nat (length s) <=? n)
  | TText, CText s => storable_text s
  | TBoolean, CBool _ => true
  | TFloat, CFloat _ => true
  | TTimestamp, CTime d => dt_aware d
  | TJsonb, CJson v => storable_json v
  | _, _ => false
  end.

(** Equality in a key: NULL equals nothing. *)
Definition same_cell (a b : Cell) : bool :=
  match a, b with
  | CUuid x, CUuid y => x =? y
  | CInt x, CInt y => x =? y
  | CText x, CText y => bool_decide (x = y)
  | _, _ => false
  end.

(** The tables, by the names of their classes. *)
Inductive TableName :=
| FactRequirements | QuerySpecs | ProviderAttempts | SearchHits | FetchArtifacts | Documents
| DocumentVersions | DocumentVersionFetches | DocumentChunks | EvidenceCandidates
| VerifiedEvidences | AnswerClaims | Citations.

#[export] Instance TableName_eq_dec : EqDecision TableName.
Proof. solve_decision. Defined.

Abbreviation Cells := (list (string * Cell)).

Record Row := { rw_table : TableName; rw_cells : Cells }.

Definition cell (cells : Cells) (column : string) : Cell := default CNull (dget column cells).

Record ForeignKey := {
  fk_columns : list string;
  fk_table : TableName;
  fk_target : list string;
  fk_deferred : bool
}.

Record TableSpec := {
  ts_columns : list (string * ColumnType * bool);
  ts_unique : list (list string);
  ts_foreign : list ForeignKey;
  ts_check : Cells -> bool
}.

(** ** The schema *)

(** [nullable=False], and [Mapped[... | None]] *)
Definition req (name : string) (t : ColumnType) : string * ColumnType * bool := (name, t, false).
Definition opt (name : string) (t : ColumnType) : string * ColumnType * bool := (name, t, true).

(** A foreign key to the [id] of a table. *)
Definition references (column : string) (t : TableName) : ForeignKey :=
  {| fk_columns := [column]; fk_table := t; fk_target := ["id"%string]; fk_deferred := false |}.

Definition deferred (columns : list string) (t : TableName) (target : list string) : ForeignKey :=
  {| fk_columns := columns; fk_table := t; fk_target := target; fk_deferred := true |}.

#[local] Open Scope string_scope.

Definition owned : list (string * ColumnType * bool) :=
  [req "id" TUuid; req "tenant_id" TUuid; req "run_id" TUuid].

(** [@ src/sana/platform/db/models/search.py FactRequirement] *)
Definition FactRequirement_spec : TableSpec := {|
  ts_columns := owned ++ [req "fact_key" (TVarchar 200); req "description" TText; req "required" TBoolean;
    req "freshness" (TVarchar 32); req "consequence" (TVarchar 32); req "status" (TVarchar 32)];
  ts_unique := [["id"]; ["run_id"; "fact_key"]; ["tenant_id"; "run_id"; "id"]];
  ts_foreign := []; ts_check := fun _ => true |}.

(** [@ src/sana/platform/db/models/search.py QuerySpec] *)
Definition QuerySpec_spec : TableSpec := {|
  ts_columns := owned ++ [opt "fact_requirement_id" TUuid; req "plan_revision" TInteger;
    req "query_key" (TVarchar 200); req "query_text" TText; req "provider_class" (TVarchar 100);
    opt "locale" (TVarchar 32); opt "freshness_days" TInteger; req "query_metadata" TJsonb];
  ts_unique := [["id"]; ["run_id"; "plan_revision"; "query_key"]];
  ts_foreign := [references "fact_requirement_id" FactRequirements]; ts_check := fun _ => true |}.

(** [@ src/sana/platform/db/models/search.py ProviderAttempt] *)
Definition ProviderAttempt_spec : TableSpec := {|
  ts_columns := owned ++ [req "query_spec_id" TUuid; req "attempt_no" TInteger; req "provider" (TVarchar 100);
    req "status" (TVarchar 32); req "started_at" TTimestamp; opt "completed_at" TTimestamp;
    opt "latency_ms" TInteger; opt "error_type" (TVarchar 64); opt "error_code" (TVarchar 200)];
  ts_unique := [["id"]; ["query_spec_id"; "provider"; "attempt_no"]];
  ts_foreign := [references "query_spec_id" QuerySpecs]; ts_check := fun _ => true |}.

(** [@ src/sana/platform/db/models/search.py SearchHit] *)
Definition SearchHit_spec : TableSpec := {|
  ts_columns := owned ++ [req "provider_attempt_id" TUuid; req "rank" TInteger; req "url" TText;
    req "canonical_url" TText; req "url_hash" (TVarchar 64); req "title" TText; req "snippet" TText;
    req "score" TFloat; req "discovered_at" TTimestamp];
  ts_unique := [["id"]; ["provider_attempt_id"; "url_hash"]];
  ts_foreign := [references "provider_attempt_id" ProviderAttempts]; ts_check := fun _ => true |}.

(** [@ src/sana/platform/db/models/search.py FetchArtifact] *)
Definition FetchArtifact_spec : TableSpec := {|
  ts_columns := owned ++ [opt "search_hit_id" TUuid; req "url" TText; req "url_hash" (TVarchar 64);
    req "attempt_no" TInteger; req "fetcher" (TVarchar 100); req "status" (TVarchar 32);
    opt "http_status" TInteger; opt "media_type" (TVarchar 200); opt "content_hash" (TVarchar 64);
    opt "storage_uri" TText; opt "response_bytes" TInteger; req "fetched_at" TTimestamp;
    req "fetch_metadata" TJsonb];
  ts_unique := [["id"]; ["run_id"; "url_hash"; "attempt_no"]; ["tenant_id"; "id"]; ["tenant_id"; "run_id"; "id"]];
  ts_foreign := [references "search_hit_id" SearchHits]; ts_check := fun _ => true |}.

(** [@ src/sana/platform/db/models/search.py Document] *)
Definition Document_spec : TableSpec := {|
  ts_columns := [req "id" TUuid; req "tenant_id" TUuid; req "canonical_url" TText;
    req "canonical_url_hash" (TVarchar 64); req "title" TText; req "source_host" (TVarchar 500)];
  ts_unique := [["id"]; ["tenant_id"; "canonical_url_hash"]; ["tenant_id"; "id"]];
  ts_foreign := []; ts_check := fun _ => true |}.

(** [@ src/sana/platform/db/models/search.py DocumentVersion] *)
Definition DocumentVersion_spec : TableSpec := {|
  ts_columns := [req "id" TUuid; req "tenant_id" TUuid; req "document_id" TUuid; opt "fetch_artifact_id" TUuid;
    req "content_hash" (TVarchar 64); req "storage_uri" TText; req "media_type" (TVarchar 200);
    opt "language" (TVarchar 32); req "text_length" TInteger; req "fetched_at" TTimestamp;
    req "document_metadata" TJsonb];
  ts_unique := [["id"]; ["document_id"; "content_hash"]; ["tenant_id"; "id"]];
  ts_foreign := [references "document_id" Documents; references "fetch_artifact_id" FetchArtifacts];
  ts_check := fun _ => true |}.

(** [@ src/sana/platform/db/models/search.py DocumentVersionFetch] *)
Definition DocumentVersionFetch_spec : TableSpec := {|
  ts_columns := owned ++ [req "document_version_id" TUuid; req "fetch_artifact_id" TUuid; req "created_at" TTimestamp];
  ts_unique := [["id"]; ["tenant_id"; "id"]; ["tenant_id"; "run_id"; "document_version_id"; "fetch_artifact_id"]];
  ts_foreign := [deferred ["tenant_id"; "document_version_id"] DocumentVersions ["tenant_id"; "id"];
                 deferred ["tenant_id"; "run_id"; "fetch_artifact_id"] FetchArtifacts ["tenant_id"; "run_id"; "id"]];
  ts_check := fun _ => true |}.

(** [@ src/sana/platform/db/models/search.py DocumentChunk] *)
Definition DocumentChunk_spec : TableSpec := {|
  ts_columns := [req "id" TUuid; req "tenant_id" TUuid; req "document_version_id" TUuid; req "ordinal" TInteger;
    req "text_content" TText; req "text_hash" (TVarchar 64); req "token_count" TInteger;
    req "start_offset" TInteger; req "end_offset" TInteger];
  ts_unique := [["id"]; ["document_version_id"; "ordinal"]; ["tenant_id"; "id"]];
  ts_foreign := [references "document_version_id" DocumentVersions]; ts_check := fun _ => true |}.

(** [start_offset >= 0 AND end_offset >= start_offset] *)
Definition quote_offsets (c : Cells) : bool :=
  match cell c "start_offset", cell c "end_offset" with
  | CInt a, CInt b => (0 <=? a)%Z && (a <=? b)%Z
  | _, _ => true
  end.

(** [@ src/sana/platform/db/models/search.py EvidenceCandidate] *)
Definition EvidenceCandidate_spec : TableSpec := {|
  ts_columns := owned ++ [req "fact_requirement_id" TUuid; req "document_version_id" TUuid;
    req "document_chunk_id" TUuid; req "quote" TText; req "quote_hash" (TVarchar 64);
    req "start_offset" TInteger; req "end_offset" TInteger; req "support_type" (TVarchar 32);
    req "candidate_score" TFloat; req "source_identity" (TVarchar 500); req "source_authority" (TVarchar 32)];
  ts_unique := [["id"]; ["fact_requirement_id"; "document_chunk_id"; "quote_hash"]; ["tenant_id"; "id"]];
  ts_foreign := [references "fact_requirement_id" FactRequirements;
                 references "document_version_id" DocumentVersions;
                 references "document_chunk_id" DocumentChunks];
  ts_check := quote_offsets |}.

(** [@ src/sana/platform/db/models/search.py VerifiedEvidence] *)
Definition VerifiedEvidence_spec : TableSpec := {|
  ts_columns := owned ++ [req "candidate_id" TUuid; req "verdict" (TVarchar 32); req "confidence" TFloat;
    req "reason_codes" TJsonb; req "verifier_version" (TVarchar 100); req "verified_at" TTimestamp];
  ts_unique := [["id"]; ["candidate_id"]; ["tenant_id"; "id"]];
  ts_foreign := [references "candidate_id" EvidenceCandidates]; ts_check := fun _ => true |}.

(** The kind is one of three or NULL, and a factual claim names its fact. *)
Definition kind_fact_binding (c : Cells) : bool :=
  match cell c "claim_kind" with
  | CText k => bool_decide (k ∈ [u "FACTUAL"; u "UNCERTAINTY"; u "COMMENTARY"])
               && (negb (bool_decide (k = u "FACTUAL"))
                   || match cell c "fact_requirement_id" with CNull => false | _ => true end)
  | _ => true
  end.

(** [@ src/sana/platform/db/models/search.py AnswerClaim] *)
Definition AnswerClaim_spec : TableSpec := {|
  ts_columns := owned ++ [req "claim_key" (TVarchar 200); req "claim_text" TText;
    req "support_status" (TVarchar 32); opt "claim_kind" (TVarchar 32); opt "fact_requirement_id" TUuid];
  ts_unique := [["id"]; ["run_id"; "claim_key"]; ["tenant_id"; "id"]];
  ts_foreign := [deferred ["tenant_id"; "run_id"; "fact_requirement_id"] FactRequirements ["tenant_id"; "run_id"; "id"]];
  ts_check := kind_fact_binding |}.

(** [@ src/sana/platform/db/models/search.py Citation] *)
Definition Citation_spec : TableSpec := {|
  ts_columns := owned ++ [req "answer_claim_id" TUuid; req "verified_evidence_id" TUuid; req "ordinal" TInteger;
    req "label" (TVarchar 100); req "rendered_url" TText; req "document_version_id" TUuid;
    req "document_chunk_id" TUuid; req "quote" TText; req "start_offset" TInteger; req "end_offset" TInteger];
  ts_unique := [["id"]; ["answer_claim_id"; "ordinal"]];
  ts_foreign := [references "answer_claim_id" AnswerClaims; references "verified_evidence_id" VerifiedEvidences;
                 references "document_version_id" DocumentVersions; references "document_chunk_id" DocumentChunks];
  ts_check := fun _ => true |}.

#[local] Close Scope string_scope.

Definition schema (t : TableName) : TableSpec :=
  match t with
  | FactRequirements => FactRequirement_spec
  | QuerySpecs => QuerySpec_spec
  | ProviderAttempts => ProviderAttempt_spec
  | SearchHits => SearchHit_spec
  | FetchArtifacts => FetchArtifact_spec
  | Documents => Document_spec
  | DocumentVersions => DocumentVersion_spec
  | DocumentVersionFetches => DocumentVersionFetch_spec
  | DocumentChunks => DocumentChunk_spec
  | EvidenceCandidates => EvidenceCandidate_spec
  | VerifiedEvidences => VerifiedEvidence_spec
  | AnswerClaims => AnswerClaim_spec
  | Citations => Citation_spec
  end.

(** ** Inserting and updating rows *)

Definition fits_schema (row : Row) : bool :=
  forallb (fun '(name, t, nullable) =>
    fits t (cell (rw_cells row) name)
    && (nullable || match cell (rw_cells row) name with CNull => false | _ => true end))
    (ts_columns (schema (rw_table row)))
  && ts_check (schema (rw_table row)) (rw_cells row).

(** Two rows of a table agree on a key. *)
Definition agree (a b : Cells) (columns columns' : list string) : bool :=
  forallb (fun '(x, y) => same_cell (cell a x) (cell b y)) (zip columns columns').

Definition conflict (a b : Row) : bool :=
  (rw_table a is rw_table b)
  && existsb (fun key => agree (rw_cells a) (rw_cells b) key key) (ts_unique (schema (rw_table a))).

(** A foreign key with a NULL column is not checked. *)
Definition refers (rows : list Row) (row : Row) (k : ForeignKey) : bool :=
  existsb (fun c => match cell (rw_cells row) c with CNull => true | _ => false end) (fk_columns k)
  || existsb (fun target => (rw_table target is fk_table k)
                && agree (rw_cells row) (rw_cells target) (fk_columns k) (fk_target k)) rows.

(** [insert(T).values(...).on_conflict_do_nothing()]: types, NOT NULL and CHECK come before the
    conflict, foreign keys after it; a deferred key waits for the commit. *)
Definition insert_ignore (row : Row) : M (list Row) unit :=
  rows ← self;
  _ ← raise_if (negb (fits_schema row)) (DatabaseError "value violates the schema");
  if existsb (conflict row) rows then mret tt else
  _ ← raise_if (negb (forallb (fun k => fk_deferred k || refers rows row k)
                        (ts_foreign (schema (rw_table row)))))
        (DatabaseError "insert violates foreign key constraint");
  update (fun rows => rows ++ [row]).

(** The deferred keys of all rows hold: what a commit checks. *)
Definition deferred_hold (rows : list Row) : bool :=
  forallb (fun row => forallb (refers rows row) (ts_foreign (schema (rw_table row)))) rows.

(** Assign cells to the rows that satisfy a condition. *)
Definition update_rows (p : Row -> bool) (cells : Cells) (rows : list Row) : list Row :=
  map (fun row => if p row then {| rw_table := rw_table row;
                                   rw_cells := foldr (fun kv c => dset kv.1 kv.2 c) (rw_cells row) cells |}
                  else row) rows.

(** ** Trace contexts *)

Record TraceContext := {
  tc_trace_id : pystr;
  tc_span_id : pystr;
  tc_trace_flags : pystr;
  tc_baggage : list (pystr * pystr)
}.

(** [pattern.fullmatch(id)] for [n] lowercase hex digits, and [set(id) == {"0"}]. *)
Definition hex_id (n : nat) (t : pystr) : bool :=
  (length t =? n)%nat && forallb lower_hex_char t && negb (forallb (Z.eqb 48) t).

(** [@ src/sana/modules/shared/ids.py TraceContext/__post_init__] *)
Definition TraceContext_new (c : TraceContext) : res TraceContext :=
  let trace_id := ascii_lower (tc_trace_id c) in
  let span_id := ascii_lower (tc_span_id c) in
  _ ← fail_if (negb (hex_id 32 trace_id)) (ValueError "trace_id must be a non-zero 32-character hex string");
  _ ← fail_if (negb (hex_id 16 span_id)) (ValueError "span_id must be a non-zero 16-character hex string");
  _ ← fail_if (negb ((length (tc_trace_flags c) =? 2)%nat && forallb hex_char (tc_trace_flags c)))
        (ValueError "trace_flags must be a two-character hex string");
  Ok {| tc_trace_id := trace_id; tc_span_id := span_id; tc_trace_flags := ascii_lower (tc_trace_flags c);
        tc_baggage := tc_baggage c |}.

(** [new_span_id] is the factory's next span identifier. *)
(** [@ src/sana/modules/shared/ids.py TraceContext.child] *)
Definition TraceContext_child (new_span_id : pystr) (c : TraceContext) : res TraceContext :=
  TraceContext_new {| tc_trace_id := tc_trace_id c; tc_span_id := new_span_id;
                      tc_trace_flags := tc_trace_flags c; tc_baggage := tc_baggage c |}.

(** ** Outbox messages *)

Record OutboxMessage := {
  om_id : UUID;
  om_tenant_id : UUID;
  om_aggregate_type : pystr;
  om_aggregate_id : UUID;
  om_event_type : pystr;
  om_payload : list (pystr * pystr);
  om_trace_context : TraceContext;
  om_dedupe_key : pystr;
  om_available_at : datetime;
  om_created_at : datetime
}.

(** [@ src/sana/modules/orchestration/outbox.py OutboxMessage] *)
Definition OutboxMessage_new (m : OutboxMessage) : res OutboxMessage :=
  _ ← fail_if (negb (dt_aware (om_available_at m))) (ValueError "available_at must be timezone-aware");
  _ ← fail_if (negb (dt_aware (om_created_at m))) (ValueError "created_at must be timezone-aware");
  _ ← fail_if (blank (om_aggregate_type m) || blank (om_event_type m))
        (ValueError "Outbox aggregate and event types cannot be empty");
  _ ← fail_if (blank (om_dedupe_key m)) (ValueError "Outbox dedupe_key cannot be empty");
  _ ← fail_if (negb (forallb (fun k => bool_decide (k = u "step_id")) (om_payload m).*1
                     && bool_decide (u "step_id" ∈ (om_payload m).*1)))
        (ValueError "Step outbox payload must contain only step_id");
  Ok m.

(** The message that announces a step, as the code builds it everywhere. *)
Definition step_message (id tenant_id step_id : UUID) (event_type : pystr) (trace : TraceContext)
    (now : datetime) : OutboxMessage :=
  {| om_id := id; om_tenant_id := tenant_id; om_aggregate_type := u "search_step";
     om_aggregate_id := step_id; om_event_type := event_type;
     om_payload := [(u "step_id", str_of_uuid step_id)]; om_trace_context := trace;
     om_dedupe_key := u "step-ready:" ++ str_of_uuid step_id;
     om_available_at := now; om_created_at := now |}.

(** ** The rows *)

(** [@ src/sana/platform/db/models/orchestration.py OutboxEvent] *)
Record OutboxEvent := {
  ob_message : OutboxMessage;
  ob_published_at : option datetime;
  ob_publish_attempts : Z;
  ob_last_error : option pystr
}.

(** [creation_idempotency_key] and [creation_request_hash] are NULL together. *)
(** [@ src/sana/platform/db/models/conversation.py Conversation] *)
Record Conversation := {
  cv_id : UUID;
  cv_tenant_id : UUID;
  cv_user_id : UUID;
  cv_title : pystr;
  cv_creation : option (pystr * pystr);
  cv_created_at : datetime;
  cv_updated_at : datetime
}.

Definition cv_touch (now : datetime) (c : Conversation) : Conversation :=
  {| cv_id := cv_id c; cv_tenant_id := cv_tenant_id c; cv_user_id := cv_user_id c; cv_title := cv_title c;
     cv_creation := cv_creation c; cv_created_at := cv_created_at c; cv_updated_at := now |}.

(** [@ src/sana/modules/conversation/domain.py MessageRole] *)
Inductive AuthorRole := Author_USER | Author_ASSISTANT | Author_SYSTEM.

#[export] Instance AuthorRole_eq_dec : EqDecision AuthorRole.
Proof. solve_decision. Defined.

(** [@ src/sana/platform/db/models/conversation.py Message] *)
Record Message := {
  ms_id : UUID;
  ms_tenant_id : UUID;
  ms_conversation_id : UUID;
  ms_author_user_id : option UUID;
  ms_role : AuthorRole;
  ms_content : pystr;
  ms_idempotency_key : option pystr;
  ms_created_at : datetime
}.

(** The values of the [status] column that the code writes. *)
Inductive ResponseStatus := Response_QUEUED | Response_SUCCEEDED | Response_FAILED.

#[export] Instance ResponseStatus_eq_dec : EqDecision ResponseStatus.
Proof. solve_decision. Defined.

(** [@ src/sana/platform/db/models/conversation.py ResponseRun] *)
Record ResponseRun := {
  rp_id : UUID;
  rp_tenant_id : UUID;
  rp_conversation_id : UUID;
  rp_message_id : UUID;
  rp_status : ResponseStatus;
  rp_output_message_id : option UUID;
  rp_updated_at : datetime
}.

(** [tb_created] is the [created_at] of the rows of [search_steps], in microseconds. *)
Record Tables := {
  tb_conversations : gmap Z Conversation;
  tb_messages : gmap Z Message;
  tb_responses : gmap Z ResponseRun;
  tb_outbox : gmap Z OutboxEvent;
  tb_created : gmap Z Z;
  tb_rows : list Row
}.

Definition empty_tables : Tables :=
  {| tb_conversations := ∅; tb_messages := ∅; tb_responses := ∅; tb_outbox := ∅; tb_created := ∅; tb_rows := [] |}.

Definition set_conversations (x : gmap Z Conversation) (t : Tables) : Tables :=
  {| tb_conversations := x; tb_messages := tb_messages t; tb_responses := tb_responses t;
     tb_outbox := tb_outbox t; tb_created := tb_created t; tb_rows := tb_rows t |}.
Definition set_messages (x : gmap Z Message) (t : Tables) : Tables :=
  {| tb_conversations := tb_conversations t; tb_messages := x; tb_responses := tb_responses t;
     tb_outbox := tb_outbox t; tb_created := tb_created t; tb_rows := tb_rows t |}.
Definition set_responses (x : gmap Z ResponseRun) (t : Tables) : Tables :=
  {| tb_conversations := tb_conversations t; tb_messages := tb_messages t; tb_responses := x;
     tb_outbox := tb_outbox t; tb_created := tb_created t; tb_rows := tb_rows t |}.
Definition set_outbox (x : gmap Z OutboxEvent) (t : Tables) : Tables :=
  {| tb_conversations := tb_conversations t; tb_messages := tb_messages t; tb_responses := tb_responses t;
     tb_outbox := x; tb_created := tb_created t; tb_rows := tb_rows t |}.
Definition set_created (x : gmap Z Z) (t : Tables) : Tables :=
  {| tb_conversations := tb_conversations t; tb_messages := tb_messages t; tb_responses := tb_responses t;
     tb_outbox := tb_outbox t; tb_created := x; tb_rows := tb_rows t |}.
Definition set_rows (x : list Row) (t : Tables) : Tables :=
  {| tb_conversations := tb_conversations t; tb_messages := tb_messages t; tb_responses := tb_responses t;
     tb_outbox := tb_outbox t; tb_created := tb_created t; tb_rows := x |}.
