(* ===== verification/RunFacts.v ===== *)
(** * RunFacts: what holds of every search run

    The mutations of a [SearchRun] as one step relation, its [Lifecycle] instance, and the
    theorems about single mutations and whole mutation histories. *)

From Stdlib Require Import SpecFloat String.
From S2P Require Import Prelude Errors PyTime Transitions Run.

(** ** The mutations of a run *)

Inductive run_op :=
| RunStart (at_ : datetime)
| RunWait
| RunResume
| RunRecordUsage (usage : BudgetUsage)
| RunUpgrade (routing : RoutingDecision) (budget : BudgetSnapshot)
| RunSucceed (quality : AnswerQuality) (reason : StopReason) (at_ : datetime)
| RunFail (reason : StopReason) (at_ : datetime)
| RunCancel (at_ : datetime).

Definition run_exec (op : run_op) : M SearchRun unit :=
  match op with
  | RunStart at_ => SearchRun_start at_
  | RunWait => SearchRun_wait
  | RunResume => SearchRun_resume
  | RunRecordUsage usage => SearchRun_record_usage usage
  | RunUpgrade routing budget => SearchRun_upgrade_to_research routing budget
  | RunSucceed quality reason at_ => SearchRun_succeed quality reason at_
  | RunFail reason at_ => SearchRun_fail reason at_
  | RunCancel at_ => SearchRun_cancel at_
  end.

Definition run_step (r r' : SearchRun) : Prop := exists op, run_exec op r = (r', Ok tt).

Lemma transition_ok_inv target r r' x : SearchRun_transition target r = (r', Ok x) ->
  target ∈ run_transitions (run_status r) /\ r' = run_set_status target r.
Proof.
  unfold SearchRun_transition. intros H. minv.
  split; [by eapply assert_transition_ok_inv|done].
Qed.

Lemma transition_atomic target : atomic (SearchRun_transition target).
Proof. unfold SearchRun_transition. atomically. Qed.
#[export] Hint Resolve transition_atomic : sana.

(** [run_inv H] opens a mutation that returned. *)
Ltac run_inv H :=
  unfold SearchRun_start, SearchRun_wait, SearchRun_resume, SearchRun_record_usage,
    SearchRun_upgrade_to_research, SearchRun_succeed, SearchRun_fail, SearchRun_cancel in H;
  repeat (tinv; match goal with
  | E : SearchRun_transition _ _ = (_, Ok _) |- _ => apply transition_ok_inv in E as [? ->]
  end); tinv; bools.

Lemma terminal_cases r : SearchRun_is_terminal r = true ->
  run_transitions (run_status r) = [].
Proof. unfold SearchRun_is_terminal. by destruct (run_status r). Qed.

Lemma not_terminal r s : s ∈ run_transitions (run_status r) -> SearchRun_is_terminal r = false.
Proof.
  unfold SearchRun_is_terminal. intros H. destruct (run_status r); try done; set_solver.
Qed.

(** ** The strong exception guarantee *)

(** A mutation of a search run that raises leaves the run exactly as it was: every
    guard is evaluated before the first assignment. *)
Theorem run_exec_atomic op : atomic (run_exec op).
Proof.
  destruct op; simpl;
    unfold SearchRun_start, SearchRun_wait, SearchRun_resume, SearchRun_record_usage,
      SearchRun_upgrade_to_research, SearchRun_succeed, SearchRun_fail, SearchRun_cancel;
    repeat (apply atomic_bind; [solve [auto 20 with sana]|intros ?]);
    try (apply atomic_then_total; [|intros ?]); auto 20 with sana.
Qed.

(** ** The state machine *)

Lemma run_step_edge r r' : run_step r r' ->
  (run_status r' = run_status r \/ run_status r' ∈ run_transitions (run_status r)) /\
  run_version r' = run_version r + 1 /\ SearchRun_is_terminal r = false.
Proof.
  intros [op H]. destruct op; simpl in H; run_inv H; simpl in *;
    try (split; [by right|]; split; [done|]; by eapply not_terminal); auto.
Qed.

#[export] Program Instance run_lifecycle : Lifecycle SearchRun RunStatus := {|
  lc_status := run_status;
  lc_version := run_version;
  lc_terminal s := bool_decide (s ∈ [RunStatus_SUCCEEDED; RunStatus_FAILED; RunStatus_CANCELLED]);
  lc_allowed := run_transitions;
  lc_step := run_step
|}.
Next Obligation. intros s H. by destruct s. Qed.
Next Obligation. intros r r' H. by apply run_step_edge in H as (? & ? & ?). Qed.
Next Obligation. intros r r' H. by apply run_step_edge in H as (? & ? & ?). Qed.
Next Obligation. intros r r' H. by apply run_step_edge in H as (? & ? & ?). Qed.

(** ** Persisted runs stay loadable *)

(** What [rehydrate] demands of a row: the constructor's check and the loaded-state check. *)
Definition run_loadable (r : SearchRun) : Prop :=
  rd_policy_version (run_routing r) = bs_policy_version (run_budget r) /\
  SearchRun_validate_loaded_state r = Ok tt.

Lemma run_step_loadable r r' : run_loadable r -> run_step r r' -> run_loadable r'.
Proof.
  intros [Hp Hv] [op H].
  destruct op as [| | | | |q why at_| |]; simpl in H; run_inv H; unfold run_loadable; simpl;
    (split; [congruence|]).
  - revert Hv. unfold SearchRun_validate_loaded_state; simpl.
    destruct (run_status r); set_solver.
  - revert Hv. unfold SearchRun_validate_loaded_state; simpl.
    destruct (run_status r); set_solver.
  - revert Hv. unfold SearchRun_validate_loaded_state; simpl.
    destruct (run_status r); set_solver.
  - exact Hv.
  - exact Hv.
  - unfold SearchRun_validate_loaded_state; simpl.
    destruct q, why; naive_solver.
  - done.
  - done.
Qed.

(** [rehydrate] applied to the fields of a run, as the repository does with a saved row. *)
Definition SearchRun_reload (r : SearchRun) : res SearchRun :=
  SearchRun_rehydrate (run_id r) (run_tenant_id r) (run_conversation_id r) (run_message_id r)
    (run_response_run_id r) (run_routing r) (run_budget r) (run_status r) (run_answer_quality r)
    (run_stop_reason r) (run_usage r) (run_started_at r) (run_completed_at r) (run_version r).

Lemma reload_loadable r : run_loadable r ->
  SearchRun_reload r = Ok (fst (SearchRun_mark_persisted r)).
Proof.
  intros [Hp Hv]. unfold SearchRun_reload, SearchRun_rehydrate, SearchRun_new. simpl.
  rewrite bool_decide_eq_true_2 by done. simpl.
  unfold SearchRun_validate_loaded_state in *; simpl in *. by rewrite Hv.
Qed.

Lemma reload_ok_inv r r' : SearchRun_reload r = Ok r' -> run_loadable r.
Proof.
  unfold SearchRun_reload, SearchRun_rehydrate, SearchRun_new. intros H. minv. bools.
  by split.
Qed.

(** ** What a history of mutations can and cannot change *)

Definition usage_le (a b : BudgetUsage) : Prop := Forall2 Z.le (bu_counters a) (bu_counters b).

#[export] Instance usage_le_preorder : PreOrder usage_le.
Proof.
  split.
  - intros a. unfold usage_le, bu_counters. repeat constructor; lia.
  - intros a b c H1 H2. unfold usage_le, bu_counters in *.
    repeat match goal with H : Forall2 _ (_ :: _) (_ :: _) |- _ => apply Forall2_cons in H as [??] end.
    repeat constructor; lia.
Qed.

Lemma usage_le_of_test new old :
  existsb (fun '(n, o) => n <? o) (zip (bu_counters new) (bu_counters old)) = false ->
  usage_le old new.
Proof.
  unfold usage_le, bu_counters. simpl. intros H. bools. repeat constructor; lia.
Qed.

Definition run_evolves (r r' : SearchRun) : Prop :=
  run_id r' = run_id r /\ run_tenant_id r' = run_tenant_id r /\
  run_conversation_id r' = run_conversation_id r /\ run_message_id r' = run_message_id r /\
  run_response_run_id r' = run_response_run_id r /\
  rd_policy_version (run_routing r') = rd_policy_version (run_routing r) /\
  bs_created_at (run_budget r') = bs_created_at (run_budget r) /\
  dt_us (bs_hard_deadline_at (run_budget r)) <= dt_us (bs_hard_deadline_at (run_budget r')) /\
  (SearchRun_mode r = SearchMode_RESEARCH -> run_routing r' = run_routing r /\ run_budget r' = run_budget r) /\
  (is_Some (run_started_at r) -> run_started_at r' = run_started_at r) /\
  usage_le (run_usage r) (run_usage r').

#[export] Instance run_evolves_preorder : PreOrder run_evolves.
Proof.
  split.
  - intros r. unfold run_evolves. ksplit; first [lia | reflexivity].
  - intros a b c (A1&A2&A3&A4&A5&A6&A7&A8&A9&A10&A11) (B1&B2&B3&B4&B5&B6&B7&B8&B9&B10&B11).
    unfold run_evolves, SearchRun_mode in *. ksplit; try congruence; try lia.
    + intros Hm. destruct (A9 Hm) as [Er Eb]. rewrite Er in B9.
      destruct (B9 Hm). split; congruence.
    + intros Hs. rewrite <- (A10 Hs). apply B10. by rewrite (A10 Hs).
    + by transitivity (run_usage b).
Qed.

Lemma run_step_evolves r r' : run_step r r' -> run_evolves r r'.
Proof.
  intros [op H]. destruct op; simpl in H; run_inv H; unfold run_evolves, SearchRun_mode in *; simpl;
    ksplit; try lia; try reflexivity; try congruence; try (by apply usage_le_of_test).
  intros [t ->]. done.
Qed.

Lemma steps_star n r r' : steps n r r' -> star run_step r r'.
Proof. induction 1; eauto using star. Qed.

(** Claim C31. Along any sequence of [n] successful mutations of a search run: the optimistic-lock
    version grows by exactly [n]; the statuses form a path of the transition table; a terminal run
    accepts no mutation at all; identity, policy version and creation time never change, the hard
    deadline never moves earlier, a RESEARCH run keeps its routing and budget, the first start
    time is kept, and no usage counter ever decreases. *)
Theorem run_history n (r r' : SearchRun) :
  steps n r r' ->
  run_version r' = run_version r + Z.of_nat n /\
  star (fun s s' => s' ∈ run_transitions s) (run_status r) (run_status r') /\
  (SearchRun_is_terminal r = true -> n = 0%nat /\ r' = r) /\
  run_evolves r r'.
Proof.
  intros H. split; [|split; [|split]].
  - exact (steps_version _ _ _ H).
  - exact (steps_path _ _ _ H).
  - exact (steps_terminal _ _ _ H).
  - apply (star_relation run_step run_evolves run_step_evolves). by apply (steps_star n).
Qed.

(** A run that was loadable stays loadable: after any sequence of successful mutations
    the saved fields rehydrate to that very run (with its version marked persisted), so no
    reachable state is rejected by the loaded-state check. *)
Theorem run_history_reloads n (r r' : SearchRun) :
  run_loadable r -> steps n r r' ->
  SearchRun_reload r' = Ok (fst (SearchRun_mark_persisted r')).
Proof.
  intros Hr H. apply reload_loadable.
  apply (star_invariant run_step run_loadable) with r; [|by apply (steps_star n)|done].
  intros. by eapply run_step_loadable.
Qed.

(** ** The metered usage of a run *)

Definition meter (r : SearchRun) : Z * Z * Z :=
  (bu_llm_call_count (run_usage r), bu_prompt_token_count (run_usage r),
   bu_completion_token_count (run_usage r)).

(** The same run, with the same metered usage and no lower limit of calls. *)
Definition run_kept (r r' : SearchRun) : Prop :=
  run_id r' = run_id r /\ run_tenant_id r' = run_tenant_id r /\ meter r' = meter r /\
  bs_max_llm_calls (run_budget r) <= bs_max_llm_calls (run_budget r').

#[export] Instance run_kept_preorder : PreOrder run_kept.
Proof.
  split; unfold run_kept; [intros r; ksplit; lia|]. intros r1 r2 r3. intuition (try congruence; lia).
Qed.

Lemma kept_start now r r' : SearchRun_start now r = (r', Ok tt) -> run_kept r r'.
Proof. intros H. run_inv H. unfold run_kept. by ksplit. Qed.
Lemma kept_resume r r' : SearchRun_resume r = (r', Ok tt) -> run_kept r r'.
Proof. intros H. run_inv H. unfold run_kept. by ksplit. Qed.
Lemma kept_fail reason now r r' : SearchRun_fail reason now r = (r', Ok tt) -> run_kept r r'.
Proof. intros H. run_inv H. unfold run_kept. by ksplit. Qed.
Lemma kept_succeed quality reason now r r' : SearchRun_succeed quality reason now r = (r', Ok tt) -> run_kept r r'.
Proof. intros H. run_inv H. unfold run_kept. by ksplit. Qed.

(** ** A run to evaluate the theorems on *)

Definition ex_routing (m : SearchMode) : RoutingDecision :=
  {| rd_mode := m; rd_reason_codes := [u "single_or_low_complexity_fact"];
     rd_policy_version := u "search-v12"; rd_confidence := flit 17 20 |}.

Definition ex_budget (hard : Z) : BudgetSnapshot :=
  {| bs_policy_version := u "search-v12"; bs_created_at := utc 0; bs_soft_deadline_at := utc 14000000;
     bs_hard_deadline_at := utc hard; bs_synthesis_reserve_seconds := float_of_Z 1;
     bs_max_queries := 4; bs_max_providers := 2; bs_max_fetches := 4; bs_max_llm_calls := 4;
     bs_max_expansion_rounds := 1; bs_phase_seconds := [(u "verify", float_of_Z 2)] |}.

Definition ex_run : SearchRun :=
  {| run_id := 1; run_tenant_id := 2; run_conversation_id := 3; run_message_id := 4;
     run_response_run_id := 5; run_routing := ex_routing SearchMode_FAST;
     run_budget := ex_budget 15000000; run_status := RunStatus_QUEUED;
     run_answer_quality := AnswerQuality_NONE; run_stop_reason := None;
     run_usage := BudgetUsage_zero; run_started_at := None; run_completed_at := None;
     run_version := 0; run_persisted_version := 0 |}.

Definition ex_ops : list run_op :=
  [RunStart (utc 1); RunUpgrade (ex_routing SearchMode_RESEARCH) (ex_budget 120000000);
   RunWait; RunResume;
   RunSucceed AnswerQuality_PARTIAL StopReason_TIME_BUDGET (utc 9)].

Lemma run_after_steps ops r : all_ok run_exec ops r = true ->
  steps (length ops) r (after run_exec ops r).
Proof. apply after_steps. intros op o o' H. by exists op. Qed.

Lemma run_history_witness :
  run_version (after run_exec ex_ops ex_run) = 5 /\
  SearchRun_mode (after run_exec ex_ops ex_run) = SearchMode_RESEARCH.
Proof.
  split.
  - exact (proj1 (run_history 5 ex_run _ (run_after_steps ex_ops ex_run eq_refl))).
  - reflexivity.
Defined.

Lemma run_history_reloads_witness :
  is_ok (SearchRun_reload (after run_exec ex_ops ex_run)) = true.
Proof.
  rewrite (run_history_reloads 5 ex_run); [reflexivity | split; reflexivity |].
  exact (run_after_steps ex_ops ex_run eq_refl).
Defined.

Example run_exec_atomic_example :
  run_exec RunWait ex_run
    = (ex_run, Raise (InvariantViolation_code "Illegal transition" "illegal_state_transition")).
Proof. reflexivity. Qed.
