(* ===== verification/Step.v ===== *)
(** * Step: workflow steps and their leased attempts

    [sana/modules/orchestration/domain.py]: [SearchStep], one durable unit of work of a run, and
    [StepAttempt], one leased execution of a step; then their invariants. *)

From Stdlib Require Import String.
From S2P Require Import Prelude Errors PyTime Transitions Run.

(** [@ src/sana/modules/orchestration/domain.py StepStatus] *)
Inductive StepStatus :=
| StepStatus_READY | StepStatus_RUNNING | StepStatus_RETRY_WAIT | StepStatus_SUCCEEDED
| StepStatus_FAILED | StepStatus_SKIPPED | StepStatus_CANCELLED.

(** [@ src/sana/modules/orchestration/domain.py StepType] *)
Inductive StepType :=
| StepType_ROUTE | StepType_PLAN | StepType_DISCOVERY | StepType_SELECT | StepType_FETCH
| StepType_EXTRACT | StepType_VERIFY | StepType_SYNTHESIZE | StepType_COMPLETE.

#[export] Instance StepStatus_eq_dec : EqDecision StepStatus.
Proof. solve_decision. Defined.
#[export] Instance StepType_eq_dec : EqDecision StepType.
Proof. solve_decision. Defined.

(** [@ src/sana/modules/orchestration/domain.py _STEP_TRANSITIONS] *)
Definition step_transitions (s : StepStatus) : list StepStatus :=
  match s with
  | StepStatus_READY => [StepStatus_RUNNING; StepStatus_SKIPPED; StepStatus_CANCELLED]
  | StepStatus_RUNNING =>
      [StepStatus_READY; StepStatus_RETRY_WAIT; StepStatus_SUCCEEDED; StepStatus_FAILED;
       StepStatus_CANCELLED]
  | StepStatus_RETRY_WAIT => [StepStatus_READY; StepStatus_FAILED; StepStatus_CANCELLED]
  | _ => []
  end.

(** The values of the string enum. *)
Definition StepType_value (t : StepType) : pystr :=
  match t with
  | StepType_ROUTE => u "ROUTE" | StepType_PLAN => u "PLAN" | StepType_DISCOVERY => u "DISCOVERY"
  | StepType_SELECT => u "SELECT" | StepType_FETCH => u "FETCH" | StepType_EXTRACT => u "EXTRACT"
  | StepType_VERIFY => u "VERIFY" | StepType_SYNTHESIZE => u "SYNTHESIZE"
  | StepType_COMPLETE => u "COMPLETE"
  end.

Definition all_step_types : list StepType :=
  [StepType_ROUTE; StepType_PLAN; StepType_DISCOVERY; StepType_SELECT; StepType_FETCH;
   StepType_EXTRACT; StepType_VERIFY; StepType_SYNTHESIZE; StepType_COMPLETE].

Definition step_terminal (s : StepStatus) : bool :=
  bool_decide (s ∈ [StepStatus_SUCCEEDED; StepStatus_FAILED; StepStatus_SKIPPED;
                    StepStatus_CANCELLED]).

(** ** Steps *)

Record SearchStep := {
  step_id : UUID;
  step_tenant_id : UUID;
  step_run_id : UUID;
  step_key : pystr;
  step_type : StepType;
  step_plan_revision : Z;
  step_input_ref : ArtifactRef;
  step_status : StepStatus;
  step_output_ref : option ArtifactRef;
  step_retry_at : option datetime;
  step_version : Z;
  step_persisted_version : Z
}.

(** [@ src/sana/modules/orchestration/domain.py SearchStep/__post_init__] *)
Definition SearchStep_new (id tenant_id run_id : UUID) (key : pystr) (type : StepType)
    (plan_revision : Z) (input_ref : ArtifactRef) (retry_at : option datetime) (version : Z)
    : res SearchStep :=
  _ ← fail_if (blank key) (ValueError "step_key cannot be empty");
  _ ← fail_if (plan_revision <? 1) (ValueError "plan_revision must be at least 1");
  Ok {| step_id := id; step_tenant_id := tenant_id; step_run_id := run_id; step_key := key;
        step_type := type; step_plan_revision := plan_revision; step_input_ref := input_ref;
        step_status := StepStatus_READY; step_output_ref := None; step_retry_at := retry_at;
        step_version := version; step_persisted_version := 0 |}.

Definition step_set (status : StepStatus) (output : option ArtifactRef)
    (retry_at : option datetime) (version persisted : Z) (s : SearchStep) : SearchStep :=
  {| step_id := step_id s; step_tenant_id := step_tenant_id s; step_run_id := step_run_id s;
     step_key := step_key s; step_type := step_type s; step_plan_revision := step_plan_revision s;
     step_input_ref := step_input_ref s; step_status := status; step_output_ref := output;
     step_retry_at := retry_at; step_version := version; step_persisted_version := persisted |}.

(** [@ src/sana/modules/orchestration/domain.py SearchStep.rehydrate] *)
Definition SearchStep_rehydrate (id tenant_id run_id : UUID) (key : pystr) (type : StepType)
    (plan_revision : Z) (input_ref : ArtifactRef) (status : StepStatus)
    (output_ref : option ArtifactRef) (retry_at : option datetime) (version : Z)
    : res SearchStep :=
  step ← SearchStep_new id tenant_id run_id key type plan_revision input_ref retry_at version;
  let step := step_set status output_ref (step_retry_at step) (step_version step) version step in
  _ ← fail_if ((status is StepStatus_SUCCEEDED) && is_none output_ref)
        (InvariantViolation "Persisted successful step has no output");
  _ ← fail_if ((status isnot StepStatus_SUCCEEDED) && negb (is_none output_ref))
        (InvariantViolation "Only a successful step may have an output");
  Ok step.

Definition step_set_retry (at_ : option datetime) (s : SearchStep) : SearchStep :=
  step_set (step_status s) (step_output_ref s) at_ (step_version s) (step_persisted_version s) s.

(** [@ src/sana/modules/orchestration/domain.py SearchStep._transition] *)
Definition SearchStep_transition (target : StepStatus) : M SearchStep unit :=
  s ← self;
  _ ← lift (assert_transition (step_status s) target step_transitions);
  update (fun s => step_set target (step_output_ref s) (step_retry_at s) (step_version s + 1)
                     (step_persisted_version s) s).

(** [@ src/sana/modules/orchestration/domain.py SearchStep.mark_persisted] *)
Definition SearchStep_mark_persisted : M SearchStep unit :=
  update (fun s => step_set (step_status s) (step_output_ref s) (step_retry_at s) (step_version s)
                     (step_version s) s).

(** [@ src/sana/modules/orchestration/domain.py SearchStep.start] *)
Definition SearchStep_start : M SearchStep unit :=
  _ ← SearchStep_transition StepStatus_RUNNING;
  update (step_set_retry None).

(** [@ src/sana/modules/orchestration/domain.py SearchStep.release_expired_lease] *)
Definition SearchStep_release_expired_lease : M SearchStep unit :=
  SearchStep_transition StepStatus_READY.

(** [@ src/sana/modules/orchestration/domain.py SearchStep.retry_later] *)
Definition SearchStep_retry_later (retry_at : datetime) : M SearchStep unit :=
  _ ← lift (require_aware retry_at);
  _ ← SearchStep_transition StepStatus_RETRY_WAIT;
  update (step_set_retry (Some retry_at)).

(** [@ src/sana/modules/orchestration/domain.py SearchStep.make_ready] *)
Definition SearchStep_make_ready : M SearchStep unit :=
  _ ← SearchStep_transition StepStatus_READY;
  update (step_set_retry None).

(** [@ src/sana/modules/orchestration/domain.py SearchStep.succeed] *)
Definition SearchStep_succeed (output_ref : ArtifactRef) : M SearchStep unit :=
  s ← self;
  _ ← raise_if (negb (is_none (step_output_ref s)))
        (InvariantViolation "Successful step output is immutable");
  _ ← SearchStep_transition StepStatus_SUCCEEDED;
  update (fun s => step_set (step_status s) (Some output_ref) (step_retry_at s) (step_version s)
                     (step_persisted_version s) s).

(** [@ src/sana/modules/orchestration/domain.py SearchStep.fail] *)
Definition SearchStep_fail : M SearchStep unit := SearchStep_transition StepStatus_FAILED.

(** [@ src/sana/modules/orchestration/domain.py SearchStep.skip] *)
Definition SearchStep_skip : M SearchStep unit := SearchStep_transition StepStatus_SKIPPED.

(** [@ src/sana/modules/orchestration/domain.py SearchStep.cancel] *)
Definition SearchStep_cancel : M SearchStep unit := SearchStep_transition StepStatus_CANCELLED.

(** ** Attempts *)

Record StepAttempt := {
  at_id : UUID;
  at_tenant_id : UUID;
  at_run_id : UUID;
  at_step_id : UUID;
  at_attempt_no : Z;
  at_idempotency_key : pystr;
  at_lease_owner : pystr;
  at_leased_until : datetime;
  at_deadline_at : datetime;
  at_started_at : datetime;
  at_input_ref : ArtifactRef;
  at_completed_at : option datetime;
  at_output_ref : option ArtifactRef;
  at_error : option TypedError
}.

(** [@ src/sana/modules/orchestration/domain.py StepAttempt/__post_init__] *)
Definition StepAttempt_new (id tenant_id run_id step_id : UUID) (attempt_no : Z)
    (idempotency_key lease_owner : pystr) (leased_until deadline_at started_at : datetime)
    (input_ref : ArtifactRef) : res StepAttempt :=
  _ ← require_aware leased_until;
  _ ← require_aware deadline_at;
  _ ← require_aware started_at;
  _ ← fail_if (attempt_no <? 1) (ValueError "attempt_no must be at least 1");
  _ ← fail_if (blank idempotency_key) (ValueError "idempotency_key cannot be empty");
  _ ← fail_if (blank lease_owner) (ValueError "lease_owner cannot be empty");
  c1 ← dt_le leased_until started_at;
  _ ← fail_if c1 (ValueError "leased_until must be after started_at");
  c2 ← dt_le deadline_at started_at;
  _ ← fail_if c2 (ValueError "deadline_at must be after started_at");
  Ok {| at_id := id; at_tenant_id := tenant_id; at_run_id := run_id; at_step_id := step_id;
        at_attempt_no := attempt_no; at_idempotency_key := idempotency_key;
        at_lease_owner := lease_owner; at_leased_until := leased_until;
        at_deadline_at := deadline_at; at_started_at := started_at; at_input_ref := input_ref;
        at_completed_at := None; at_output_ref := None; at_error := None |}.

(** [@ src/sana/modules/orchestration/domain.py StepAttempt.is_complete] *)
Definition StepAttempt_is_complete (a : StepAttempt) : bool := negb (is_none (at_completed_at a)).

(** [@ src/sana/modules/orchestration/domain.py StepAttempt.lease_expired] *)
Definition StepAttempt_lease_expired (a : StepAttempt) (now : datetime) : res bool :=
  _ ← require_aware now;
  if StepAttempt_is_complete a then Ok false else dt_le (at_leased_until a) now.

Definition at_set_lease (leased_until : datetime) (a : StepAttempt) : StepAttempt :=
  {| at_id := at_id a; at_tenant_id := at_tenant_id a; at_run_id := at_run_id a;
     at_step_id := at_step_id a; at_attempt_no := at_attempt_no a;
     at_idempotency_key := at_idempotency_key a; at_lease_owner := at_lease_owner a;
     at_leased_until := leased_until; at_deadline_at := at_deadline_at a;
     at_started_at := at_started_at a; at_input_ref := at_input_ref a;
     at_completed_at := at_completed_at a; at_output_ref := at_output_ref a;
     at_error := at_error a |}.

Definition at_set_end (completed_at : option datetime) (output : option ArtifactRef)
    (error : option TypedError) (a : StepAttempt) : StepAttempt :=
  {| at_id := at_id a; at_tenant_id := at_tenant_id a; at_run_id := at_run_id a;
     at_step_id := at_step_id a; at_attempt_no := at_attempt_no a;
     at_idempotency_key := at_idempotency_key a; at_lease_owner := at_lease_owner a;
     at_leased_until := at_leased_until a; at_deadline_at := at_deadline_at a;
     at_started_at := at_started_at a; at_input_ref := at_input_ref a;
     at_completed_at := completed_at; at_output_ref := output; at_error := error |}.

(** [@ src/sana/modules/orchestration/domain.py StepAttempt.renew_lease] *)
Definition StepAttempt_renew_lease (leased_until : datetime) : M StepAttempt unit :=
  a ← self;
  _ ← lift (require_aware leased_until);
  _ ← raise_if (StepAttempt_is_complete a)
        (InvariantViolation "Cannot renew a completed attempt lease");
  shorter ← lift (dt_le leased_until (at_leased_until a));
  _ ← raise_if shorter (InvariantViolation "Renewed lease must extend the current lease");
  beyond ← lift (dt_lt (at_deadline_at a) leased_until);
  _ ← raise_if beyond (InvariantViolation "Attempt lease cannot extend beyond its deadline");
  update (at_set_lease leased_until).

(** [@ src/sana/modules/orchestration/domain.py StepAttempt._finish] *)
Definition StepAttempt_finish (now : datetime) : M StepAttempt unit :=
  a ← self;
  _ ← lift (require_aware now);
  _ ← raise_if (StepAttempt_is_complete a) (InvariantViolation "Attempt has already completed");
  early ← lift (dt_lt now (at_started_at a));
  _ ← raise_if early (InvariantViolation "Attempt cannot complete before it starts");
  update (fun a => at_set_end (Some now) (at_output_ref a) (at_error a) a).

(** [@ src/sana/modules/orchestration/domain.py StepAttempt.succeed] *)
Definition StepAttempt_succeed (output_ref : ArtifactRef) (now : datetime) : M StepAttempt unit :=
  _ ← StepAttempt_finish now;
  update (fun a => at_set_end (at_completed_at a) (Some output_ref) (at_error a) a).

(** [@ src/sana/modules/orchestration/domain.py StepAttempt.fail] *)
Definition StepAttempt_fail (error : TypedError) (now : datetime) : M StepAttempt unit :=
  _ ← StepAttempt_finish now;
  update (fun a => at_set_end (at_completed_at a) (at_output_ref a) (Some error) a).
