(* ===== verification/StepFacts.v ===== *)
(** * StepFacts: what holds of every workflow step and every leased attempt

    The mutations of [SearchStep] and [StepAttempt] as step relations; the [Lifecycle] instance of
    steps; and the theorems about their histories. *)

From Stdlib Require Import String.
From S2P Require Import Prelude Errors PyTime Transitions Run Step.

(** ** Steps *)

Inductive step_op :=
| StepStart
| StepReleaseExpiredLease
| StepRetryLater (retry_at : datetime)
| StepMakeReady
| StepSucceed (output_ref : ArtifactRef)
| StepFail
| StepSkip
| StepCancel.

Definition step_exec (op : step_op) : M SearchStep unit :=
  match op with
  | StepStart => SearchStep_start
  | StepReleaseExpiredLease => SearchStep_release_expired_lease
  | StepRetryLater retry_at => SearchStep_retry_later retry_at
  | StepMakeReady => SearchStep_make_ready
  | StepSucceed output_ref => SearchStep_succeed output_ref
  | StepFail => SearchStep_fail
  | StepSkip => SearchStep_skip
  | StepCancel => SearchStep_cancel
  end.

Definition step_mutates (s s' : SearchStep) : Prop := exists op, step_exec op s = (s', Ok tt).

Lemma step_transition_ok_inv target s s' x : SearchStep_transition target s = (s', Ok x) ->
  target ∈ step_transitions (step_status s) /\
  s' = step_set target (step_output_ref s) (step_retry_at s) (step_version s + 1)
         (step_persisted_version s) s.
Proof.
  unfold SearchStep_transition. intros H. minv.
  split; [by eapply assert_transition_ok_inv|done].
Qed.

Lemma step_transition_ok target s : target ∈ step_transitions (step_status s) ->
  SearchStep_transition target s
    = (step_set target (step_output_ref s) (step_retry_at s) (step_version s + 1)
         (step_persisted_version s) s, Ok tt).
Proof.
  intros H. unfold SearchStep_transition, mbind, M_bind, self, lift, update.
  by rewrite assert_transition_ok.
Qed.

Lemma step_transition_atomic target : atomic (SearchStep_transition target).
Proof. unfold SearchStep_transition. atomically. Qed.
#[export] Hint Resolve step_transition_atomic : sana.

(** [step_inv H] opens a mutation of a step that returned. *)
Ltac step_inv H :=
  unfold SearchStep_start, SearchStep_release_expired_lease, SearchStep_retry_later,
    SearchStep_make_ready, SearchStep_succeed, SearchStep_fail, SearchStep_skip,
    SearchStep_cancel in H;
  repeat (tinv; match goal with
  | E : SearchStep_transition _ _ = (_, Ok _) |- _ => apply step_transition_ok_inv in E as [? ->]
  end); tinv; bools.

Lemma step_edge s s' : step_mutates s s' ->
  step_status s' ∈ step_transitions (step_status s) /\ step_version s' = step_version s + 1.
Proof. intros [op H]. destruct op; simpl in H; step_inv H; simpl; done. Qed.

#[export] Program Instance step_lifecycle : Lifecycle SearchStep StepStatus := {|
  lc_status := step_status;
  lc_version := step_version;
  lc_terminal := step_terminal;
  lc_allowed := step_transitions;
  lc_step := step_mutates
|}.
Next Obligation. intros s H. by destruct s. Qed.
Next Obligation. intros s s' H. apply step_edge in H as [? _]. by right. Qed.
Next Obligation. intros s s' H. by apply step_edge in H as [_ ?]. Qed.
Next Obligation.
  intros s s' H. apply step_edge in H as [H _]. destruct (step_status s); try done; set_solver.
Qed.

(** What the constructor and [rehydrate] demand of a stored step. *)
Definition step_loadable (s : SearchStep) : Prop :=
  blank (step_key s) = false /\ 1 <= step_plan_revision s /\
  (is_Some (step_output_ref s) <-> step_status s = StepStatus_SUCCEEDED).

Lemma step_mutates_loadable s s' : step_loadable s -> step_mutates s s' -> step_loadable s'.
Proof.
  intros (Hk & Hp & Ho) [op H].
  assert (forall t, t ∈ step_transitions (step_status s) -> step_output_ref s = None) as Hn.
  { intros t Hs. destruct (step_output_ref s) eqn:E; [|done].
    rewrite (proj1 Ho) in Hs by (by eexists). set_solver. }
  destruct op; simpl in H; step_inv H; unfold step_loadable; simpl; ksplit;
    try (erewrite Hn by eassumption); 
    split; intros Hx; simplify_eq; first [by destruct Hx | by eexists].
Qed.

(** [rehydrate] applied to the fields of a step, as the repository does with its row. *)
Definition SearchStep_reload (s : SearchStep) : res SearchStep :=
  SearchStep_rehydrate (step_id s) (step_tenant_id s) (step_run_id s) (step_key s) (step_type s)
    (step_plan_revision s) (step_input_ref s) (step_status s) (step_output_ref s)
    (step_retry_at s) (step_version s).

Lemma reload_step s : step_loadable s ->
  SearchStep_reload s = Ok (fst (SearchStep_mark_persisted s)).
Proof.
  intros (Hk & Hp & Ho). unfold SearchStep_reload, SearchStep_rehydrate, SearchStep_new.
  rewrite Hk. simpl. replace (step_plan_revision s <? 1) with false by (symmetry; by apply Z.ltb_ge).
  simpl. destruct (decide (step_status s = StepStatus_SUCCEEDED)) as [E|E].
  - destruct (proj2 Ho E) as [o Eo]. rewrite E, Eo. done.
  - assert (step_output_ref s = None) as Eo.
    { destruct (step_output_ref s); [|done]. destruct E. apply Ho. by eexists. }
    rewrite Eo. by rewrite bool_decide_eq_false_2.
Qed.

Lemma step_mutates_output s s' : step_loadable s -> step_mutates s s' ->
  is_Some (step_output_ref s) -> False.
Proof.
  intros (_ & _ & Ho) H Hs. apply step_edge in H as [H _]. rewrite (proj1 Ho Hs) in H. set_solver.
Qed.

(** The fields no mutation touches. *)
Definition step_fixed (s s' : SearchStep) : Prop :=
  step_id s' = step_id s /\ step_tenant_id s' = step_tenant_id s /\ step_run_id s' = step_run_id s /\
  step_key s' = step_key s /\ step_type s' = step_type s /\
  step_plan_revision s' = step_plan_revision s /\ step_input_ref s' = step_input_ref s /\
  step_persisted_version s' = step_persisted_version s.

#[export] Instance step_fixed_preorder : PreOrder step_fixed.
Proof. split; unfold step_fixed; [done|]. intros a b c ? ?. intuition congruence. Qed.

Lemma step_mutates_fixed s s' : step_mutates s s' -> step_fixed s s'.
Proof. intros [op H]. destruct op; simpl in H; step_inv H; done. Qed.

Lemma step_star n s s' : steps n s s' -> star step_mutates s s'.
Proof. induction 1; eauto using star. Qed.

(** Along any sequence of [n] successful mutations of a stored step: the version grows by exactly
    [n] along a path of the step transition table; a step has an output exactly while it is
    SUCCEEDED, so an output once written is never replaced; a terminal step accepts no mutation;
    identity, key, type, revision and input never change; and the result rehydrates to itself. *)
Theorem step_history n (s s' : SearchStep) :
  step_loadable s -> steps n s s' ->
  step_version s' = step_version s + Z.of_nat n /\
  star (fun a b => b ∈ step_transitions a) (step_status s) (step_status s') /\
  (is_Some (step_output_ref s') <-> step_status s' = StepStatus_SUCCEEDED) /\
  (step_terminal (step_status s) = true -> n = 0%nat /\ s' = s) /\
  step_fixed s s' /\
  SearchStep_reload s' = Ok (fst (SearchStep_mark_persisted s')).
Proof.
  intros Hl H. assert (step_loadable s') as Hl'.
  { apply (star_invariant step_mutates step_loadable) with s; [|by apply (step_star n)|done].
    intros. by eapply step_mutates_loadable. }
  split; [exact (steps_version _ _ _ H)|]. split; [exact (steps_path _ _ _ H)|].
  split; [apply Hl'|]. split; [exact (steps_terminal _ _ _ H)|]. split.
  - apply (star_relation step_mutates step_fixed step_mutates_fixed). by apply (step_star n).
  - by apply reload_step.
Qed.

(** A mutation of a step that raises leaves the step exactly as it was. *)
Lemma step_exec_atomic op : atomic (step_exec op).
Proof.
  destruct op; simpl;
    unfold SearchStep_start, SearchStep_release_expired_lease, SearchStep_retry_later,
      SearchStep_make_ready, SearchStep_succeed, SearchStep_fail, SearchStep_skip,
      SearchStep_cancel;
    repeat (apply atomic_bind; [solve [auto 20 with sana]|intros ?]);
    try (apply atomic_then_total; [|intros ?]); auto 20 with sana.
Qed.

(** ** Attempts *)

Inductive attempt_op :=
| AttemptRenew (leased_until : datetime)
| AttemptSucceed (output_ref : ArtifactRef) (now : datetime)
| AttemptFail (error : TypedError) (now : datetime).

Definition attempt_exec (op : attempt_op) : M StepAttempt unit :=
  match op with
  | AttemptRenew leased_until => StepAttempt_renew_lease leased_until
  | AttemptSucceed output_ref now => StepAttempt_succeed output_ref now
  | AttemptFail error now => StepAttempt_fail error now
  end.

Definition attempt_mutates (a a' : StepAttempt) : Prop :=
  exists op, attempt_exec op a = (a', Ok tt).

(** The shape of an attempt: its instants are aware, it started before its deadline, and it holds
    an outcome (exactly one of output and error) exactly when it is complete. *)
Definition attempt_wf (a : StepAttempt) : Prop :=
  dt_aware (at_leased_until a) = true /\ dt_aware (at_deadline_at a) = true /\
  dt_aware (at_started_at a) = true /\
  dt_us (at_started_at a) < dt_us (at_leased_until a) /\
  dt_us (at_started_at a) < dt_us (at_deadline_at a) /\
  match at_completed_at a, at_output_ref a, at_error a with
  | None, None, None => True
  | Some t, Some _, None | Some t, None, Some _ =>
      dt_aware t = true /\ dt_us (at_started_at a) <= dt_us t
  | _, _, _ => False
  end.

(** What a mutation keeps: identity, and never a shorter lease; past the lease it had, never a
    lease beyond the deadline; and a completed attempt as it is. *)
Definition attempt_evolves (a a' : StepAttempt) : Prop :=
  at_id a' = at_id a /\ at_tenant_id a' = at_tenant_id a /\ at_run_id a' = at_run_id a /\
  at_step_id a' = at_step_id a /\ at_attempt_no a' = at_attempt_no a /\
  at_idempotency_key a' = at_idempotency_key a /\ at_lease_owner a' = at_lease_owner a /\
  at_deadline_at a' = at_deadline_at a /\ at_started_at a' = at_started_at a /\
  at_input_ref a' = at_input_ref a /\
  dt_us (at_leased_until a) <= dt_us (at_leased_until a')
    <= Z.max (dt_us (at_leased_until a)) (dt_us (at_deadline_at a)) /\
  (StepAttempt_is_complete a = true -> a' = a).

#[export] Instance attempt_evolves_preorder : PreOrder attempt_evolves.
Proof.
  split; unfold attempt_evolves; [intros a; ksplit; lia|].
  intros a b c (A1&A2&A3&A4&A5&A6&A7&A8&A9&A10&A11&A12) (B1&B2&B3&B4&B5&B6&B7&B8&B9&B10&B11&B12).
  ksplit; try congruence.
  - rewrite A8 in B11. lia.
  - rewrite A8 in B11. lia.
  - intros Hc. specialize (A12 Hc). subst b. auto.
Qed.

Lemma finish_ok_inv now a a' x : StepAttempt_finish now a = (a', Ok x) ->
  StepAttempt_is_complete a = false /\ dt_aware now = true /\
  dt_aware (at_started_at a) = true /\ dt_us (at_started_at a) <= dt_us now /\
  a' = at_set_end (Some now) (at_output_ref a) (at_error a) a.
Proof. unfold StepAttempt_finish. intros H. tinv. bools. ksplit. congruence. Qed.

Lemma finish_atomic now : atomic (StepAttempt_finish now).
Proof. unfold StepAttempt_finish. atomically. Qed.
#[export] Hint Resolve finish_atomic : sana.

(** [attempt_inv H] opens a mutation of an attempt that returned. *)
Ltac attempt_inv H :=
  unfold StepAttempt_renew_lease, StepAttempt_succeed, StepAttempt_fail in H;
  tinv; bools;
  repeat match goal with
  | E : StepAttempt_finish _ _ = (_, Ok _) |- _ => apply finish_ok_inv in E as (? & ? & ? & ? & ->)
  end.

Lemma attempt_mutates_evolves a a' : attempt_mutates a a' -> attempt_evolves a a'.
Proof.
  intros [op H]. destruct op; simpl in H; attempt_inv H; unfold attempt_evolves; simpl;
    ksplit; try lia; congruence.
Qed.

Lemma attempt_incomplete a : attempt_wf a -> StepAttempt_is_complete a = false ->
  at_completed_at a = None /\ at_output_ref a = None /\ at_error a = None.
Proof.
  intros (_ & _ & _ & _ & _ & H). unfold StepAttempt_is_complete.
  destruct (at_completed_at a), (at_output_ref a), (at_error a); simpl; naive_solver.
Qed.

Lemma attempt_mutates_wf a a' : attempt_wf a -> attempt_mutates a a' -> attempt_wf a'.
Proof.
  intros Hw [op H]. pose proof (attempt_incomplete a Hw) as Hi.
  destruct Hw as (H1 & H2 & H3 & H4 & H5 & H6).
  destruct op; simpl in H; attempt_inv H; unfold attempt_wf; simpl;
    destruct Hi as (Ei & Eo & Ee); try done; rewrite ?Ei, ?Eo, ?Ee in *; ksplit; lia.
Qed.

Lemma StepAttempt_new_ok_inv id tenant run step no key owner lease deadline started input a :
  StepAttempt_new id tenant run step no key owner lease deadline started input = Ok a ->
  attempt_wf a /\ at_leased_until a = lease /\ at_deadline_at a = deadline /\
  at_started_at a = started /\ at_step_id a = step /\ at_completed_at a = None /\ at_id a = id /\
  at_tenant_id a = tenant /\ at_run_id a = run /\ at_attempt_no a = no /\ at_input_ref a = input /\
  at_lease_owner a = owner /\ at_idempotency_key a = key.
Proof. unfold StepAttempt_new. intros H. tinv. bools. unfold attempt_wf; simpl. ksplit. Qed.

(** Take an attempt the constructor built and any sequence of successful lease renewals
    and completions: the lease only grows and, unless it was created beyond it, never passes the
    deadline; the attempt completes at most once, never before it starts, with exactly one of
    output and error; and once complete nothing (a late renewal, a second result) changes it. *)
Theorem attempt_history id tenant run step no key owner lease deadline started input a0 a a' :
  StepAttempt_new id tenant run step no key owner lease deadline started input = Ok a0 ->
  star attempt_mutates a0 a -> star attempt_mutates a a' ->
  attempt_wf a' /\
  dt_us (at_leased_until a) <= dt_us (at_leased_until a') /\
  dt_us (at_leased_until a') <= Z.max (dt_us lease) (dt_us deadline) /\
  (StepAttempt_is_complete a = true -> a' = a).
Proof.
  intros (Hw & E1 & E2 & _)%StepAttempt_new_ok_inv H1 H2.
  pose proof (star_relation _ attempt_evolves attempt_mutates_evolves _ _ H1) as T1.
  pose proof (star_relation _ attempt_evolves attempt_mutates_evolves _ _ H2) as T2.
  assert (attempt_evolves a0 a') as T3 by (by transitivity a).
  destruct T2 as (_&_&_&_&_&_&_&_&_&_&[L1 _]&F). destruct T3 as (_&_&_&_&_&_&_&_&_&_&[_ L2]&_).
  subst lease deadline. ksplit.
  - eapply star_invariant; [intros; by eapply attempt_mutates_wf | exact H2 |].
    by eapply star_invariant; [intros; eapply attempt_mutates_wf | exact H1 |].
Qed.

(** ** Examples *)

Definition ex_ref : ArtifactRef := {| ar_uri := u "file:///a"; ar_sha256 := replicate 64 48 |}.

Definition ex_step : SearchStep :=
  {| step_id := 10; step_tenant_id := 2; step_run_id := 1; step_key := u "route";
     step_type := StepType_ROUTE; step_plan_revision := 1; step_input_ref := ex_ref;
     step_status := StepStatus_READY; step_output_ref := None; step_retry_at := None;
     step_version := 0; step_persisted_version := 0 |}.

Definition ex_attempt : StepAttempt :=
  {| at_id := 20; at_tenant_id := 2; at_run_id := 1; at_step_id := 10; at_attempt_no := 1;
     at_idempotency_key := u "10:1"; at_lease_owner := u "w"; at_leased_until := utc 30;
     at_deadline_at := utc 60; at_started_at := utc 1; at_input_ref := ex_ref;
     at_completed_at := None; at_output_ref := None; at_error := None |}.

Lemma step_after_steps ops s : all_ok step_exec ops s = true ->
  steps (length ops) s (after step_exec ops s).
Proof. apply after_steps. intros op o o' H. by exists op. Qed.

Lemma ex_step_loadable : step_loadable ex_step.
Proof. split; [reflexivity|]. split; [done|]. split; [by intros []|done]. Qed.

Definition ex_step_ops : list step_op :=
  [StepStart; StepRetryLater (utc 9); StepMakeReady; StepStart; StepSucceed ex_ref].

Lemma step_history_witness :
  step_output_ref (after step_exec ex_step_ops ex_step) = Some ex_ref /\
  step_version (after step_exec ex_step_ops ex_step) = 5.
Proof.
  split; [reflexivity|].
  exact (proj1 (step_history 5 ex_step _ ex_step_loadable
                  (step_after_steps ex_step_ops ex_step eq_refl))).
Defined.

Definition ex_attempt_ops : list attempt_op :=
  [AttemptRenew (utc 60); AttemptSucceed ex_ref (utc 5)].

Lemma attempt_history_witness :
  attempt_exec (AttemptRenew (utc 60)) (after attempt_exec ex_attempt_ops ex_attempt)
    = (after attempt_exec ex_attempt_ops ex_attempt,
       Raise (InvariantViolation "Cannot renew a completed attempt lease")) /\
  dt_us (at_leased_until (after attempt_exec ex_attempt_ops ex_attempt)) <= 60.
Proof.
  split; [reflexivity|].
  exact (proj1 (proj2 (proj2 (attempt_history 20 2 1 10 1 (u "10:1") (u "w") (utc 30) (utc 60)
    (utc 1) ex_ref ex_attempt ex_attempt _ eq_refl (star_refl _ _)
    (after_star attempt_exec ex_attempt_ops ex_attempt eq_refl))))).
Defined.
