(* ===== verification/Policy.v ===== *)
(** * Policy: versioned limits and the budget guard

    [sana/modules/orchestration/policy.py]: the mode policies, the snapshot a run is created
    with, and [BudgetGuard], which decides whether a phase may start and whether a usage is within
    the limits. *)

From Stdlib Require Import SpecFloat String.
From S2P Require Import Prelude Errors PyTime Run.

(** [@ src/sana/modules/orchestration/policy.py BudgetPhase] *)
Inductive BudgetPhase :=
| BudgetPhase_ROUTE_PLAN | BudgetPhase_DISCOVERY | BudgetPhase_FETCH_EXTRACT
| BudgetPhase_VERIFY | BudgetPhase_SYNTHESIZE.

#[export] Instance BudgetPhase_eq_dec : EqDecision BudgetPhase.
Proof. solve_decision. Defined.

(** [phase.value] *)
Definition BudgetPhase_value (p : BudgetPhase) : pystr :=
  match p with
  | BudgetPhase_ROUTE_PLAN => u "route_plan"
  | BudgetPhase_DISCOVERY => u "discovery"
  | BudgetPhase_FETCH_EXTRACT => u "fetch_extract"
  | BudgetPhase_VERIFY => u "verify"
  | BudgetPhase_SYNTHESIZE => u "synthesize"
  end.

(** [@ src/sana/modules/orchestration/policy.py BudgetExceeded] *)
Definition BudgetExceeded (limit : pystr) : exn :=
  Typed {| te_category := ErrorCategory_BUDGET; te_code := u "budget_exceeded";
           te_message := strip (u "Budget limit exceeded: " ++ limit); te_retryable := false |}.

(** ** Mode policies *)

(** [@ src/sana/modules/orchestration/policy.py ModePolicy] *)
Record ModePolicy := {
  mp_soft_seconds : float;
  mp_hard_seconds : float;
  mp_synthesis_reserve_seconds : float;
  mp_max_queries : Z;
  mp_max_providers : Z;
  mp_max_fetches : Z;
  mp_max_llm_calls : Z;
  mp_max_expansion_rounds : Z;
  mp_phase_seconds : list (pystr * float)
}.

Record SearchPolicy := {
  sp_version : pystr;
  sp_fast : ModePolicy;
  sp_research : ModePolicy
}.

(** [@ src/sana/modules/orchestration/policy.py SearchPolicy.default] *)
Definition SearchPolicy_default : SearchPolicy := {|
  sp_version := u "search-v12";
  sp_fast := {|
    mp_soft_seconds := float_of_Z 14; mp_hard_seconds := float_of_Z 15;
    mp_synthesis_reserve_seconds := float_of_Z 1; mp_max_queries := 4; mp_max_providers := 2;
    mp_max_fetches := 4; mp_max_llm_calls := 4; mp_max_expansion_rounds := 1;
    mp_phase_seconds :=
      [(BudgetPhase_value BudgetPhase_ROUTE_PLAN, flit 12 10);
       (BudgetPhase_value BudgetPhase_DISCOVERY, flit 42 10);
       (BudgetPhase_value BudgetPhase_FETCH_EXTRACT, flit 36 10);
       (BudgetPhase_value BudgetPhase_VERIFY, float_of_Z 2);
       (BudgetPhase_value BudgetPhase_SYNTHESIZE, float_of_Z 1)] |};
  sp_research := {|
    mp_soft_seconds := float_of_Z 120; mp_hard_seconds := float_of_Z 120;
    mp_synthesis_reserve_seconds := float_of_Z 8; mp_max_queries := 12; mp_max_providers := 4;
    mp_max_fetches := 12; mp_max_llm_calls := 8; mp_max_expansion_rounds := 2;
    mp_phase_seconds :=
      [(BudgetPhase_value BudgetPhase_ROUTE_PLAN, float_of_Z 4);
       (BudgetPhase_value BudgetPhase_DISCOVERY, float_of_Z 28);
       (BudgetPhase_value BudgetPhase_FETCH_EXTRACT, float_of_Z 52);
       (BudgetPhase_value BudgetPhase_VERIFY, float_of_Z 20);
       (BudgetPhase_value BudgetPhase_SYNTHESIZE, float_of_Z 8)] |}
|}.

(** [@ src/sana/modules/orchestration/policy.py SearchPolicy.snapshot] *)
Definition SearchPolicy_snapshot (policy : SearchPolicy) (mode : SearchMode)
    (created_at : datetime) : res BudgetSnapshot :=
  _ ← fail_if (negb (dt_aware created_at)) (ValueError "created_at must be timezone-aware");
  let selected := if mode is SearchMode_FAST then sp_fast policy else sp_research policy in
  soft ← timedelta (mp_soft_seconds selected);
  hard ← timedelta (mp_hard_seconds selected);
  BudgetSnapshot_new (sp_version policy) created_at (dt_add created_at soft)
    (dt_add created_at hard) (mp_synthesis_reserve_seconds selected) (mp_max_queries selected)
    (mp_max_providers selected) (mp_max_fetches selected) (mp_max_llm_calls selected)
    (mp_max_expansion_rounds selected) (mp_phase_seconds selected).

(** ** The guard *)

(** A [BudgetGuard] is the snapshot it wraps. *)
Abbreviation BudgetGuard := BudgetSnapshot.

(** [@ src/sana/modules/orchestration/policy.py BudgetGuard.non_synthesis_deadline] *)
Definition non_synthesis_deadline (g : BudgetGuard) : res datetime :=
  reserve ← timedelta (bs_synthesis_reserve_seconds g);
  Ok (dt_add (bs_soft_deadline_at g) (- reserve)).

(** [@ src/sana/modules/orchestration/policy.py BudgetGuard.deadline_for] *)
Definition deadline_for (g : BudgetGuard) (phase : BudgetPhase) : res datetime :=
  if phase is BudgetPhase_SYNTHESIZE then Ok (bs_hard_deadline_at g) else non_synthesis_deadline g.

(** [@ src/sana/modules/orchestration/policy.py BudgetGuard.can_start] *)
Definition can_start (g : BudgetGuard) (phase : BudgetPhase) (now : datetime)
    (estimated_seconds : float) : res bool :=
  _ ← fail_if (negb (dt_aware now)) (ValueError "now must be timezone-aware");
  _ ← fail_if (fneg estimated_seconds) (ValueError "estimated_seconds cannot be negative");
  span ← timedelta estimated_seconds;
  deadline ← deadline_for g phase;
  dt_lt (dt_add now span) deadline.

(** The first loop of [validate]: the named counters, in the dictionary's order. *)
Definition counter_limits (g : BudgetGuard) (usage : BudgetUsage) : list (pystr * (Z * Z)) :=
  [(u "queries", (bu_query_count usage, bs_max_queries g));
   (u "providers", (bu_provider_count usage, bs_max_providers g));
   (u "fetches", (bu_fetch_count usage, bs_max_fetches g));
   (u "llm_calls", (bu_llm_call_count usage, bs_max_llm_calls g));
   (u "expansion_rounds", (bu_expansion_rounds usage, bs_max_expansion_rounds g))].

Fixpoint check_counters (limits : list (pystr * (Z * Z))) : res unit :=
  match limits with
  | [] => Ok tt
  | (name, (used, maximum)) :: rest =>
      if maximum <? used then Raise (BudgetExceeded name) else check_counters rest
  end.

(** The second loop: the recorded phases, against the phase budgets the snapshot has. *)
Fixpoint check_phases (g : BudgetGuard) (phases : list (pystr * float)) : res unit :=
  match phases with
  | [] => Ok tt
  | (phase, used) :: rest =>
      match dget phase (bs_phase_seconds g) with
      | Some maximum =>
          if flt maximum used then Raise (BudgetExceeded (u "phase:" ++ phase))
          else check_phases g rest
      | None => check_phases g rest
      end
  end.

(** [@ src/sana/modules/orchestration/policy.py BudgetGuard.validate] *)
Definition BudgetGuard_validate (g : BudgetGuard) (usage : BudgetUsage) : res unit :=
  _ ← check_counters (counter_limits g usage);
  check_phases g (bu_phase_seconds usage).

(** ** What the guard means *)

(** The limits, as propositions. *)
Definition phase_within (g : BudgetGuard) (p : pystr * float) : Prop :=
  match dget p.1 (bs_phase_seconds g) with
  | Some maximum => flt maximum p.2 = false
  | None => True
  end.

Definition within_limits (g : BudgetGuard) (usage : BudgetUsage) : Prop :=
  bu_query_count usage <= bs_max_queries g /\
  bu_provider_count usage <= bs_max_providers g /\
  bu_fetch_count usage <= bs_max_fetches g /\
  bu_llm_call_count usage <= bs_max_llm_calls g /\
  bu_expansion_rounds usage <= bs_max_expansion_rounds g /\
  Forall (phase_within g) (bu_phase_seconds usage).

Definition is_budget_error (e : exn) : Prop := exists limit, e = BudgetExceeded limit.

Lemma check_counters_spec limits :
  match check_counters limits with
  | Ok _ => Forall (fun '(_, (used, maximum)) => used <= maximum) limits
  | Raise e => is_budget_error e /\
               Exists (fun '(_, (used, maximum)) => maximum < used) limits
  end.
Proof.
  induction limits as [|[name [used maximum]] rest IH]; simpl; [constructor|].
  destruct (maximum <? used) eqn:E; bools.
  - split; [by eexists | by constructor].
  - destruct (check_counters rest).
    + by constructor.
    + destruct IH. split; [done|by right].
Qed.

Lemma check_phases_spec g phases :
  match check_phases g phases with
  | Ok _ => Forall (phase_within g) phases
  | Raise e => is_budget_error e /\ ~ Forall (phase_within g) phases
  end.
Proof.
  induction phases as [|[phase used] rest IH]; simpl; [constructor|].
  assert (Hw : phase_within g (phase, used) <-> match dget phase (bs_phase_seconds g) with
                 Some maximum => flt maximum used = false | None => True end) by done.
  destruct (dget phase (bs_phase_seconds g)) as [maximum|];
    [destruct (flt maximum used)|]; try (destruct (check_phases g rest));
    rewrite ?Forall_cons; try (split; [by eexists|]); naive_solver.
Qed.

Lemma validate_spec g usage :
  match BudgetGuard_validate g usage with
  | Ok _ => within_limits g usage
  | Raise e => is_budget_error e /\ ~ within_limits g usage
  end.
Proof.
  unfold BudgetGuard_validate, within_limits.
  pose proof (check_counters_spec (counter_limits g usage)) as H.
  destruct (check_counters (counter_limits g usage)); simpl.
  - pose proof (check_phases_spec g (bu_phase_seconds usage)) as Hp.
    unfold counter_limits in H. rewrite !Forall_cons in H.
    destruct (check_phases g (bu_phase_seconds usage)); naive_solver.
  - destruct H as [He H]. split; [done|]. unfold counter_limits in H.
    rewrite !Exists_cons, Exists_nil in H. lia.
Qed.

Lemma validate_ok g usage : BudgetGuard_validate g usage = Ok tt <-> within_limits g usage.
Proof.
  pose proof (validate_spec g usage) as H. destruct (BudgetGuard_validate g usage) as [[]|e].
  - split; done.
  - split; [done|]. naive_solver.
Qed.

(** ** What a snapshot guarantees *)

Definition snapshot_wf (b : BudgetSnapshot) : Prop :=
  dt_aware (bs_created_at b) = true /\ dt_aware (bs_soft_deadline_at b) = true /\
  dt_aware (bs_hard_deadline_at b) = true /\
  dt_us (bs_created_at b) <= dt_us (bs_soft_deadline_at b) <= dt_us (bs_hard_deadline_at b) /\
  fle (bs_synthesis_reserve_seconds b) fzero = false /\
  0 <= bs_max_queries b /\ 0 <= bs_max_providers b /\ 0 <= bs_max_fetches b /\
  0 <= bs_max_llm_calls b /\ 0 <= bs_max_expansion_rounds b /\
  existsb fneg (bs_phase_seconds b).*2 = false.

Lemma BudgetSnapshot_new_wf v c s h r q p f l x ph b :
  BudgetSnapshot_new v c s h r q p f l x ph = Ok b -> snapshot_wf b.
Proof.
  unfold BudgetSnapshot_new. intros H. tinv.
  destruct (dt_us c <=? dt_us s) eqn:Hcs; tinv; [|done].
  simpl in *. bools. unfold snapshot_wf; simpl. ksplit.
Qed.

Lemma fle_false_not_neg x : fle x fzero = false -> fneg x = false.
Proof. unfold fle, fneg, flt, SFleb, SFltb. by destruct x as [[]|[]| |[] m e]. Qed.

Lemma reserve_nonneg b us : snapshot_wf b ->
  timedelta (bs_synthesis_reserve_seconds b) = Ok us -> 0 <= us.
Proof.
  intros (_ & _ & _ & _ & Hr & _). apply timedelta_nonneg. by apply fle_false_not_neg.
Qed.

Lemma can_start_ok_inv g phase now est r : can_start g phase now est = Ok r ->
  dt_aware now = true /\ exists span deadline,
    timedelta est = Ok span /\ 0 <= span /\ deadline_for g phase = Ok deadline /\
    dt_aware deadline = true /\ r = (dt_us now + span <? dt_us deadline).
Proof.
  unfold can_start. intros H. tinv. bools. simpl in *. split; [done|].
  exists a1, a2. ksplit; [by eapply timedelta_nonneg | congruence].
Qed.

(** The budget guard accepts a usage exactly when every counter is within its limit and
    every recorded phase is within the phase budget the snapshot gives it (a phase the snapshot
    does not name is unlimited); when it refuses, the error is a non-retryable BUDGET error. *)
Theorem validate_iff g usage :
  (BudgetGuard_validate g usage = Ok tt <-> within_limits g usage) /\
  (~ within_limits g usage -> exists limit, BudgetGuard_validate g usage = Raise (BudgetExceeded limit)).
Proof.
  split; [apply validate_ok|]. intros Hn. pose proof (validate_spec g usage) as H.
  destruct (BudgetGuard_validate g usage); [done|]. destruct H as [[limit ->] _]. by exists limit.
Qed.

(** The synthesis reserve works: for a snapshot the constructor built, if a phase other
    than synthesis may start now with an estimate, then after that estimated time synthesis may
    still start, with any estimate that rounds to at most the reserve. *)
Theorem synthesis_reserved v c s h r q p f l x ph g phase now est span reserve est_syn span_syn :
  BudgetSnapshot_new v c s h r q p f l x ph = Ok g ->
  phase <> BudgetPhase_SYNTHESIZE ->
  can_start g phase now est = Ok true ->
  timedelta est = Ok span ->
  timedelta (bs_synthesis_reserve_seconds g) = Ok reserve ->
  fneg est_syn = false -> timedelta est_syn = Ok span_syn -> span_syn <= reserve ->
  can_start g BudgetPhase_SYNTHESIZE (dt_add now span) est_syn = Ok true.
Proof.
  intros Hw%BudgetSnapshot_new_wf Hp Hc Hs Hr Hn Hss Hle.
  apply can_start_ok_inv in Hc as (Ha & span' & d & Hs' & _ & Hd & Hda & Hlt).
  simplify_eq. bools. unfold deadline_for in Hd. rewrite bool_decide_eq_false_2 in Hd by done.
  unfold non_synthesis_deadline in Hd. rewrite Hr in Hd. simpl in Hd. simplify_eq.
  destruct Hw as (_ & _ & Hh & [_ Hsh] & _).
  unfold can_start. simpl. rewrite Ha. simpl. rewrite Hn. simpl. rewrite Hss. simpl.
  unfold dt_lt. rewrite dt_cmp_aware by done. simpl. f_equal. apply Z.ltb_lt. simpl in *.
  assert (span' = span) by congruence. lia.
Qed.

Lemma BudgetSnapshot_new_ok b : snapshot_wf b ->
  BudgetSnapshot_new (bs_policy_version b) (bs_created_at b) (bs_soft_deadline_at b)
    (bs_hard_deadline_at b) (bs_synthesis_reserve_seconds b) (bs_max_queries b)
    (bs_max_providers b) (bs_max_fetches b) (bs_max_llm_calls b) (bs_max_expansion_rounds b)
    (bs_phase_seconds b) = Ok b.
Proof.
  intros (H1 & H2 & H3 & [H4 H5] & H6 & H7 & H8 & H9 & H10 & H11 & H12).
  unfold BudgetSnapshot_new, require_aware, dt_le. rewrite H1, H2, H3, !dt_cmp_aware by done.
  apply Z.leb_le in H4, H5. simpl. rewrite H4. simpl. rewrite H5. simpl. rewrite H6. simpl.
  do 5 (match goal with |- context [?x <? 0] => replace (x <? 0) with false by lia end; simpl).
  rewrite H12. by destruct b.
Qed.

(** The snapshot of the shipped policy, field by field. *)
Definition default_snapshot (mode : SearchMode) (created_at : datetime) : BudgetSnapshot :=
  let p := if mode is SearchMode_FAST then sp_fast SearchPolicy_default
           else sp_research SearchPolicy_default in
  {| bs_policy_version := u "search-v12"; bs_created_at := created_at;
     bs_soft_deadline_at :=
       dt_add created_at (if mode is SearchMode_FAST then 14000000 else 120000000);
     bs_hard_deadline_at :=
       dt_add created_at (if mode is SearchMode_FAST then 15000000 else 120000000);
     bs_synthesis_reserve_seconds := mp_synthesis_reserve_seconds p;
     bs_max_queries := mp_max_queries p; bs_max_providers := mp_max_providers p;
     bs_max_fetches := mp_max_fetches p; bs_max_llm_calls := mp_max_llm_calls p;
     bs_max_expansion_rounds := mp_max_expansion_rounds p; bs_phase_seconds := mp_phase_seconds p |}.

Lemma default_snapshot_wf mode created_at : dt_aware created_at = true ->
  snapshot_wf (default_snapshot mode created_at).
Proof.
  intros H. unfold snapshot_wf, default_snapshot.
  destruct mode; cbv zeta; cbn [bs_created_at bs_soft_deadline_at bs_hard_deadline_at dt_add dt_us
    dt_aware bs_synthesis_reserve_seconds bs_phase_seconds]; repeat split; try done; simpl; lia.
Qed.

Lemma snapshot_default mode created_at : dt_aware created_at = true ->
  SearchPolicy_snapshot SearchPolicy_default mode created_at
    = Ok (default_snapshot mode created_at).
Proof.
  intros H. rewrite <- (BudgetSnapshot_new_ok _ (default_snapshot_wf mode created_at H)).
  unfold SearchPolicy_snapshot. rewrite H. destruct mode.
  - change (timedelta (mp_soft_seconds _)) with (timedelta (float_of_Z 14)).
    change (timedelta (mp_hard_seconds _)) with (timedelta (float_of_Z 15)).
    replace (timedelta (float_of_Z 14)) with (Ok 14000000 : res Z) by (symmetry; vm_compute; done).
    by replace (timedelta (float_of_Z 15)) with (Ok 15000000 : res Z) by (symmetry; vm_compute; done).
  - change (timedelta (mp_soft_seconds _)) with (timedelta (float_of_Z 120)).
    change (timedelta (mp_hard_seconds _)) with (timedelta (float_of_Z 120)).
    by replace (timedelta (float_of_Z 120)) with (Ok 120000000 : res Z) by (symmetry; vm_compute; done).
Qed.

Lemma default_non_synthesis mode created_at :
  non_synthesis_deadline (default_snapshot mode created_at)
    = Ok (dt_add created_at (if mode is SearchMode_FAST then 13000000 else 112000000)).
Proof.
  unfold non_synthesis_deadline. destruct mode.
  - replace (timedelta (bs_synthesis_reserve_seconds _)) with (Ok 1000000 : res Z)
      by (symmetry; vm_compute; done).
    unfold dt_add; simpl. do 2 f_equal. lia.
  - replace (timedelta (bs_synthesis_reserve_seconds _)) with (Ok 8000000 : res Z)
      by (symmetry; vm_compute; done).
    unfold dt_add; simpl. do 2 f_equal. lia.
Qed.

(** The shipped policy gives every run a valid snapshot: for any aware creation time
    both modes produce one, a FAST run may start a non-synthesis phase exactly while its estimate
    ends before second 13 and synthesis before second 15, a RESEARCH run before seconds 112 and
    120. *)
Lemma default_policy_windows mode created_at phase now est span :
  dt_aware created_at = true -> dt_aware now = true ->
  fneg est = false -> timedelta est = Ok span ->
  exists b, SearchPolicy_snapshot SearchPolicy_default mode created_at = Ok b /\
    can_start b phase now est
      = Ok (dt_us now + span <? dt_us created_at +
              match mode, phase with
              | SearchMode_FAST, BudgetPhase_SYNTHESIZE => 15000000
              | SearchMode_FAST, _ => 13000000
              | SearchMode_RESEARCH, BudgetPhase_SYNTHESIZE => 120000000
              | SearchMode_RESEARCH, _ => 112000000
              end).
Proof.
  intros Hc Hn He Hs. exists (default_snapshot mode created_at).
  split; [by apply snapshot_default|]. unfold can_start, deadline_for.
  rewrite Hn, He, Hs, default_non_synthesis. unfold dt_lt.
  destruct mode, phase; (etransitivity; [by apply dt_cmp_aware|]); reflexivity.
Qed.

(** ** Examples *)

Definition ex_usage (queries : Z) : BudgetUsage :=
  {| bu_query_count := queries; bu_provider_count := 1; bu_fetch_count := 0; bu_llm_call_count := 0;
     bu_prompt_token_count := 0; bu_completion_token_count := 0; bu_expansion_rounds := 0;
     bu_phase_seconds := [(u "discovery", float_of_Z 4)] |}.

Definition fast_snapshot : BudgetSnapshot := default_snapshot SearchMode_FAST (utc 0).

Lemma validate_iff_witness :
  exists limit, BudgetGuard_validate fast_snapshot (ex_usage 5) = Raise (BudgetExceeded limit).
Proof.
  apply (proj2 (validate_iff fast_snapshot (ex_usage 5))).
  intros [H _]. simpl in H. lia.
Defined.

Lemma synthesis_reserved_witness :
  can_start fast_snapshot BudgetPhase_SYNTHESIZE (utc 12300000) (flit 8 10) = Ok true.
Proof.
  exact (synthesis_reserved (u "search-v12") (utc 0) (utc 14000000) (utc 15000000) (float_of_Z 1)
    4 2 4 4 1 (mp_phase_seconds (sp_fast SearchPolicy_default)) fast_snapshot BudgetPhase_VERIFY
    (utc 12000000) (flit 3 10) 300000 1000000 (flit 8 10) 800000
    eq_refl ltac:(discriminate) eq_refl eq_refl eq_refl eq_refl eq_refl ltac:(lia)).
Defined.

Lemma default_policy_windows_witness :
  exists b, SearchPolicy_snapshot SearchPolicy_default SearchMode_FAST (utc 0) = Ok b /\
    can_start b BudgetPhase_VERIFY (utc 12700000) (flit 3 10) = Ok false.
Proof.
  exact (default_policy_windows SearchMode_FAST (utc 0) BudgetPhase_VERIFY (utc 12700000)
           (flit 3 10) 300000 eq_refl eq_refl eq_refl eq_refl).
Defined.
