(* ===== verification/Coverage.v ===== *)
(** * Coverage: how far the verified evidence covers a fact

    [sana/modules/evidence/domain.py] (the values), [sana/modules/evidence/coverage.py]
    (L0/L1/L2 coverage with visible conflicts) and the fact requirements of
    [sana/modules/search_planning/domain.py] they are judged against. *)

From Stdlib Require Import SpecFloat String.
From S2P Require Import Prelude Errors PyTime Run.

(** ** Requirements ([search_planning/domain.py]) *)

(** [@ src/sana/modules/search_planning/domain.py FactType] *)
Inductive FactType :=
| FactType_CHARACTER_CHANGES | FactType_VERSION | FactType_PATCH_NOTES | FactType_TEAM_META
| FactType_CURRENT_VALUE | FactType_COMPARISON | FactType_BACKGROUND.

(** [@ src/sana/modules/search_planning/domain.py Freshness] *)
Inductive Freshness := Freshness_STABLE | Freshness_RECENT | Freshness_CURRENT.

(** [@ src/sana/modules/search_planning/domain.py Consequence] *)
Inductive Consequence := Consequence_LOW | Consequence_MEDIUM | Consequence_HIGH.

#[export] Instance FactType_eq_dec : EqDecision FactType.
Proof. solve_decision. Defined.
#[export] Instance Freshness_eq_dec : EqDecision Freshness.
Proof. solve_decision. Defined.
#[export] Instance Consequence_eq_dec : EqDecision Consequence.
Proof. solve_decision. Defined.

(** The fields; the constructors are in Intent. *)
(** [@ src/sana/modules/search_planning/domain.py FactRequirement@50-58] *)
Record FactRequirement := {
  fr_key : pystr;
  fr_fact_type : FactType;
  fr_description : pystr;
  fr_subject : pystr;
  fr_required : bool;
  fr_freshness : Freshness;
  fr_consequence : Consequence;
  fr_preferred_source_kinds : list pystr
}.

(** [@ src/sana/modules/search_planning/domain.py NormalizedIntent@67-73] *)
Record NormalizedIntent := {
  ni_entity : pystr;
  ni_aliases : list pystr;
  ni_locale : pystr;
  ni_facts : list FactRequirement;
  ni_requires_comparison : bool;
  ni_requires_complete_sources : bool
}.

(** ** Evidence ([evidence/domain.py]) *)

(** [@ src/sana/modules/evidence/domain.py EvidenceLevel] *)
Inductive EvidenceLevel :=
| EvidenceLevel_L0_DISCOVERY | EvidenceLevel_L1_GROUNDED | EvidenceLevel_L2_VERIFIED.

(** [@ src/sana/modules/evidence/domain.py SupportType] *)
Inductive SupportType := SupportType_SUPPORTS | SupportType_CONTRADICTS.

(** [@ src/sana/modules/evidence/domain.py SourceAuthority] *)
Inductive SourceAuthority :=
| SourceAuthority_OFFICIAL | SourceAuthority_INDEPENDENT | SourceAuthority_UNKNOWN.

(** [@ src/sana/modules/evidence/domain.py EvidenceVerdict] *)
Inductive EvidenceVerdict := EvidenceVerdict_ACCEPTED | EvidenceVerdict_REJECTED.

#[export] Instance EvidenceLevel_eq_dec : EqDecision EvidenceLevel.
Proof. solve_decision. Defined.
#[export] Instance SupportType_eq_dec : EqDecision SupportType.
Proof. solve_decision. Defined.
#[export] Instance SourceAuthority_eq_dec : EqDecision SourceAuthority.
Proof. solve_decision. Defined.
#[export] Instance EvidenceVerdict_eq_dec : EqDecision EvidenceVerdict.
Proof. solve_decision. Defined.

Record EvidenceSource := {
  es_document_id : UUID;
  es_document_version_id : UUID;
  es_document_chunk_id : UUID;
  es_url : pystr;
  es_source_identity : pystr;
  es_authority : SourceAuthority
}.

Record EvidenceCandidate := {
  ec_id : UUID;
  ec_tenant_id : UUID;
  ec_run_id : UUID;
  ec_fact_requirement_id : UUID;
  ec_source : EvidenceSource;
  ec_quote : pystr;
  ec_quote_hash : pystr;
  ec_support_type : SupportType;
  ec_candidate_score : float;
  ec_start_offset : Z;
  ec_end_offset : Z
}.

(** [sha256] is the hex digest of the UTF-8 text (hashlib, a parameter). *)
(** [@ src/sana/modules/evidence/domain.py EvidenceCandidate] *)
Definition EvidenceCandidate_new (sha256 : pystr -> pystr) (c : EvidenceCandidate)
    : res EvidenceCandidate :=
  _ ← fail_if (bool_decide (ec_quote c = [])) (ValueError "Evidence quote cannot be empty");
  _ ← fail_if (negb (bool_decide (ec_quote_hash c = sha256 (ec_quote c))))
        (ValueError "Evidence quote hash does not match quote");
  _ ← fail_if ((ec_start_offset c <? 0) || (ec_end_offset c <=? ec_start_offset c))
        (ValueError "Evidence quote offsets are invalid");
  _ ← fail_if (negb (ec_end_offset c - ec_start_offset c =? Z.of_nat (length (ec_quote c))))
        (ValueError "Evidence quote offsets do not match quote length");
  _ ← fail_if (negb (fle01 (ec_candidate_score c)))
        (ValueError "Evidence candidate score must be between zero and one");
  Ok c.

Record VerifiedEvidence := {
  ve_id : UUID;
  ve_candidate : EvidenceCandidate;
  ve_verdict : EvidenceVerdict;
  ve_confidence : float;
  ve_reason_codes : list pystr;
  ve_verifier_version : pystr;
  ve_verified_at : datetime;
  ve_level : EvidenceLevel
}.

(** [@ src/sana/modules/evidence/domain.py VerifiedEvidence] *)
Definition VerifiedEvidence_new (v : VerifiedEvidence) : res VerifiedEvidence :=
  _ ← fail_if (negb (fle01 (ve_confidence v)))
        (ValueError "Evidence confidence must be between zero and one");
  _ ← fail_if (blank (ve_verifier_version v))
        (ValueError "Evidence verifier version cannot be empty");
  _ ← fail_if (negb (dt_aware (ve_verified_at v)))
        (ValueError "Evidence verification time must be timezone-aware");
  _ ← fail_if (ve_level v is EvidenceLevel_L0_DISCOVERY)
        (ValueError "Discovery evidence cannot be verified");
  _ ← fail_if ((ve_level v is EvidenceLevel_L2_VERIFIED)
               && (ve_verdict v isnot EvidenceVerdict_ACCEPTED))
        (ValueError "Rejected evidence cannot have L2 status");
  Ok v.

Definition ve_tenant_id (v : VerifiedEvidence) : UUID := ec_tenant_id (ve_candidate v).
Definition ve_run_id (v : VerifiedEvidence) : UUID := ec_run_id (ve_candidate v).
Definition ve_fact_requirement_id (v : VerifiedEvidence) : UUID :=
  ec_fact_requirement_id (ve_candidate v).
Definition ve_source (v : VerifiedEvidence) : EvidenceSource := ec_source (ve_candidate v).
Definition ve_support_type (v : VerifiedEvidence) : SupportType := ec_support_type (ve_candidate v).

(** Unfetched search metadata: only its identifiers matter to coverage. *)
Record DiscoveryEvidence := {
  de_tenant_id : UUID;
  de_run_id : UUID;
  de_fact_requirement_id : UUID
}.

(** ** Assessments ([evidence/coverage.py]) *)

(** [@ src/sana/modules/evidence/coverage.py FactCoverage] *)
Inductive FactCoverage :=
| FactCoverage_OPEN | FactCoverage_COVERED | FactCoverage_VERIFIED | FactCoverage_PARTIAL.

#[export] Instance FactCoverage_eq_dec : EqDecision FactCoverage.
Proof. solve_decision. Defined.

(** [@ src/sana/modules/evidence/coverage.py CoverageAssessment] *)
Record CoverageAssessment := {
  ca_tenant_id : UUID;
  ca_run_id : UUID;
  ca_fact_requirement_id : UUID;
  ca_fact_key : pystr;
  ca_status : FactCoverage;
  ca_level : option EvidenceLevel;
  ca_evidence_ids : list UUID;
  ca_supporting_ids : list UUID;
  ca_contradicting_ids : list UUID;
  ca_reason_codes : list pystr;
  ca_discovery_count : Z;
  ca_requires_research_upgrade : bool
}.

(** The filter of the first loop. *)
Definition accepts (tenant_id run_id fact_id : UUID) (item : VerifiedEvidence) : bool :=
  (ve_tenant_id item =? tenant_id) && (ve_run_id item =? run_id) &&
  (ve_fact_requirement_id item =? fact_id) && (ve_verdict item is EvidenceVerdict_ACCEPTED).

(** [accepted_by_id.setdefault(item.id, item)] for the items that pass; then its values. *)
Definition setdefault (d : list (UUID * VerifiedEvidence)) (item : VerifiedEvidence)
    : list (UUID * VerifiedEvidence) :=
  match dget (ve_id item) d with
  | Some _ => d
  | None => dset (ve_id item) item d
  end.

Definition accepted_evidence (tenant_id run_id fact_id : UUID) (evidence : list VerifiedEvidence)
    : list VerifiedEvidence :=
  (foldl (fun d item => if accepts tenant_id run_id fact_id item then setdefault d item else d)
     [] evidence).*2.

Definition supports (accepted : list VerifiedEvidence) : list VerifiedEvidence :=
  base.filter (fun item => ve_support_type item = SupportType_SUPPORTS) accepted.

Definition contradicts (accepted : list VerifiedEvidence) : list VerifiedEvidence :=
  base.filter (fun item => ve_support_type item = SupportType_CONTRADICTS) accepted.

Definition official (accepted : list VerifiedEvidence) : bool :=
  existsb (fun item => es_authority (ve_source item) is SourceAuthority_OFFICIAL) accepted.

(** The set of identities, as a list without duplicates. *)
Definition independent_sources (accepted : list VerifiedEvidence) : list pystr :=
  dedupe (map (fun item => es_source_identity (ve_source item))
    (base.filter (fun item => es_authority (ve_source item) = SourceAuthority_INDEPENDENT) accepted)).

Definition is_l2 (accepted : list VerifiedEvidence) : bool :=
  official accepted || (2 <=? Z.of_nat (length (independent_sources accepted))).

(** [@ src/sana/modules/evidence/coverage.py CoverageEvaluator.evaluate] *)
Definition CoverageEvaluator_evaluate (tenant_id run_id fact_requirement_id : UUID)
    (fact : FactRequirement) (evidence : list VerifiedEvidence)
    (discovery : list DiscoveryEvidence) : CoverageAssessment :=
  let accepted := accepted_evidence tenant_id run_id fact_requirement_id evidence in
  let supp := supports accepted in
  let contra := contradicts accepted in
  let discovery_count := sumZ (fun item =>
    if (de_fact_requirement_id item =? fact_requirement_id) && (de_tenant_id item =? tenant_id)
       && (de_run_id item =? run_id) then 1 else 0) discovery in
  if negb (bool_decide (supp = [])) && negb (bool_decide (contra = [])) then
    {| ca_tenant_id := tenant_id; ca_run_id := run_id;
       ca_fact_requirement_id := fact_requirement_id; ca_fact_key := fr_key fact;
       ca_status := FactCoverage_PARTIAL; ca_level := Some EvidenceLevel_L1_GROUNDED;
       ca_evidence_ids := map ve_id accepted; ca_supporting_ids := map ve_id supp;
       ca_contradicting_ids := map ve_id contra; ca_reason_codes := [u "support_contradiction"];
       ca_discovery_count := discovery_count;
       ca_requires_research_upgrade :=
         (fr_freshness fact isnot Freshness_STABLE) || (fr_consequence fact is Consequence_HIGH) |}
  else if bool_decide (accepted = []) then
    {| ca_tenant_id := tenant_id; ca_run_id := run_id;
       ca_fact_requirement_id := fact_requirement_id; ca_fact_key := fr_key fact;
       ca_status := FactCoverage_OPEN; ca_level := None;
       ca_evidence_ids := []; ca_supporting_ids := []; ca_contradicting_ids := [];
       ca_reason_codes := [u "no_grounded_evidence"]; ca_discovery_count := discovery_count;
       ca_requires_research_upgrade := false |}
  else
    {| ca_tenant_id := tenant_id; ca_run_id := run_id;
       ca_fact_requirement_id := fact_requirement_id; ca_fact_key := fr_key fact;
       ca_status := if is_l2 accepted then FactCoverage_VERIFIED else FactCoverage_COVERED;
       ca_level := Some (if is_l2 accepted then EvidenceLevel_L2_VERIFIED
                         else EvidenceLevel_L1_GROUNDED);
       ca_evidence_ids := map ve_id accepted; ca_supporting_ids := map ve_id supp;
       ca_contradicting_ids := map ve_id contra;
       ca_reason_codes := if official accepted then [u "official_source"]
                          else if is_l2 accepted then [u "two_independent_sources"]
                          else [u "single_grounded_source"];
       ca_discovery_count := discovery_count; ca_requires_research_upgrade := false |}.

(** ** What an assessment says *)

(** Evidence ids identify evidence (the primary key of its table). *)
Definition ids_identify (evidence : list VerifiedEvidence) : Prop :=
  forall x y, x ∈ evidence -> y ∈ evidence -> ve_id x = ve_id y -> x = y.

Section Accepted.
Context (tenant_id run_id fact_id : UUID).

Abbreviation collect := (foldl (fun d item =>
  if accepts tenant_id run_id fact_id item then setdefault d item else d)).

Lemma setdefault_elem d item k v : (k, v) ∈ setdefault d item ->
  (k, v) ∈ d \/ (k = ve_id item /\ v = item).
Proof.
  unfold setdefault. destruct (dget (ve_id item) d) eqn:E; [auto|].
  rewrite dset_fresh by done. rewrite elem_of_app, list_elem_of_singleton.
  intros [?|[= -> ->]]; auto.
Qed.

Lemma setdefault_keeps d item p : p ∈ d -> p ∈ setdefault d item.
Proof.
  unfold setdefault. destruct (dget (ve_id item) d) eqn:E; [done|].
  rewrite dset_fresh by done. set_solver.
Qed.

Lemma collect_elem l d k v : (k, v) ∈ collect d l ->
  (k, v) ∈ d \/ (k = ve_id v /\ v ∈ l /\ accepts tenant_id run_id fact_id v = true).
Proof.
  revert d. induction l as [|x l IH]; intros d; simpl; [auto|].
  intros [H|(? & ? & ?)]%IH.
  - destruct (accepts _ _ _ x) eqn:E; [|auto].
    apply setdefault_elem in H as [H|[-> ->]]; [auto|]. right. set_solver.
  - right. set_solver.
Qed.

Lemma collect_keeps l d p : p ∈ d -> p ∈ collect d l.
Proof.
  revert d. induction l as [|x l IH]; intros d; simpl; [done|]. intros H. apply IH.
  case_match; [by apply setdefault_keeps | done].
Qed.

Lemma collect_has l d v : v ∈ l -> accepts tenant_id run_id fact_id v = true ->
  exists w, (ve_id v, w) ∈ collect d l.
Proof.
  revert d. induction l as [|x l IH]; intros d; [set_solver|].
  rewrite elem_of_cons. intros [->|Hv] Ha; simpl; [|by apply IH].
  rewrite Ha. assert (exists w, (ve_id x, w) ∈ setdefault d x) as [w Hw].
  { unfold setdefault. destruct (dget (ve_id x) d) as [w|] eqn:E.
    - exists w. by apply dget_elem.
    - exists x. rewrite dset_fresh by done. set_solver. }
  exists w. by apply collect_keeps.
Qed.

Lemma accepted_elem evidence v : ids_identify evidence ->
  v ∈ accepted_evidence tenant_id run_id fact_id evidence <->
  v ∈ evidence /\ accepts tenant_id run_id fact_id v = true.
Proof.
  intros Hid. unfold accepted_evidence. rewrite list_elem_of_fmap. split.
  - intros ([k w] & -> & H). apply collect_elem in H as [H|(_ & ? & ?)]; [set_solver|done].
  - intros [Hv Ha]. destruct (collect_has evidence [] v Hv Ha) as [w Hw].
    exists (ve_id v, w). split; [|done]. simpl.
    apply collect_elem in Hw as [H|(Hk & Hw & Haw)]; [set_solver|].
    by apply Hid.
Qed.
End Accepted.

Lemma filter_not_nil_iff {A} (P : A -> Prop) `{forall x, Decision (P x)} (l : list A) :
  base.filter P l <> [] <-> exists x, x ∈ l /\ P x.
Proof.
  split.
  - intros Hn. destruct (base.filter P l) as [|x r] eqn:E; [done|].
    assert (x ∈ base.filter P l) as Hin by (rewrite E; set_solver).
    apply list_elem_of_filter in Hin as [??]. eauto.
  - intros (x & Hx & HP) E. assert (x ∈ base.filter P l) as Hin by by apply list_elem_of_filter.
    rewrite E in Hin. set_solver.
Qed.

Lemma two_distinct {A} (l : list A) : NoDup l ->
  2 <= Z.of_nat (length l) <-> exists x y, x ∈ l /\ y ∈ l /\ x <> y.
Proof.
  intros Hn. split.
  - destruct l as [|x [|y l]]; simpl; [lia..|]. intros _. exists x, y.
    apply NoDup_cons in Hn as [Hx _]. set_solver.
  - intros (x & y & Hx & Hy & Hne). destruct l as [|a [|b l]]; simpl; [set_solver| |lia].
    apply list_elem_of_singleton in Hx, Hy. congruence.
Qed.

Lemma official_spec l : official l = true <->
  exists x, x ∈ l /\ es_authority (ve_source x) = SourceAuthority_OFFICIAL.
Proof.
  unfold official. rewrite existsb_exists. setoid_rewrite <- list_elem_of_In.
  setoid_rewrite bool_decide_eq_true. done.
Qed.

Lemma is_l2_spec l : is_l2 l = true <->
  (exists x, x ∈ l /\ es_authority (ve_source x) = SourceAuthority_OFFICIAL) \/
  (exists x y, x ∈ l /\ y ∈ l /\ es_authority (ve_source x) = SourceAuthority_INDEPENDENT /\
     es_authority (ve_source y) = SourceAuthority_INDEPENDENT /\
     es_source_identity (ve_source x) <> es_source_identity (ve_source y)).
Proof.
  unfold is_l2. rewrite orb_true_iff, official_spec, Z.leb_le, two_distinct by apply NoDup_dedupe.
  unfold independent_sources. setoid_rewrite elem_of_dedupe. setoid_rewrite list_elem_of_fmap.
  setoid_rewrite list_elem_of_filter. split; intros [H|H]; auto; right.
  - destruct H as (? & ? & (x & -> & ? & ?) & (y & -> & ? & ?) & ?). by exists x, y.
  - destruct H as (x & y & ? & ? & ? & ? & ?). eauto 15.
Qed.

(** The evidence that counts for a fact. *)
Definition counts (tenant_id run_id fact_id : UUID) (evidence : list VerifiedEvidence)
    (x : VerifiedEvidence) : Prop :=
  x ∈ evidence /\ ve_tenant_id x = tenant_id /\ ve_run_id x = run_id /\
  ve_fact_requirement_id x = fact_id /\ ve_verdict x = EvidenceVerdict_ACCEPTED.

Definition conflict (C : VerifiedEvidence -> Prop) : Prop :=
  (exists x, C x /\ ve_support_type x = SupportType_SUPPORTS) /\
  (exists y, C y /\ ve_support_type y = SupportType_CONTRADICTS).

Definition corroborated (C : VerifiedEvidence -> Prop) : Prop :=
  (exists x, C x /\ es_authority (ve_source x) = SourceAuthority_OFFICIAL) \/
  (exists x y, C x /\ C y /\ es_authority (ve_source x) = SourceAuthority_INDEPENDENT /\
     es_authority (ve_source y) = SourceAuthority_INDEPENDENT /\
     es_source_identity (ve_source x) <> es_source_identity (ve_source y)).

(** The specification of the status. *)
Definition status_spec (C : VerifiedEvidence -> Prop) (s : FactCoverage) : Prop :=
  match s with
  | FactCoverage_OPEN => forall x, ~ C x
  | FactCoverage_PARTIAL => conflict C
  | FactCoverage_VERIFIED => (exists x, C x) /\ ~ conflict C /\ corroborated C
  | FactCoverage_COVERED => (exists x, C x) /\ ~ conflict C /\ ~ corroborated C
  end.

Lemma accepts_spec t r f x : accepts t r f x = true <->
  ve_tenant_id x = t /\ ve_run_id x = r /\ ve_fact_requirement_id x = f /\
  ve_verdict x = EvidenceVerdict_ACCEPTED.
Proof. unfold accepts. rewrite !andb_true_iff, !Z.eqb_eq, bool_decide_eq_true. tauto. Qed.

Lemma evaluate_status t r f fact evidence discovery : ids_identify evidence ->
  status_spec (counts t r f evidence)
    (ca_status (CoverageEvaluator_evaluate t r f fact evidence discovery)).
Proof.
  intros Hid. set (C := counts t r f evidence).
  assert (forall x, x ∈ accepted_evidence t r f evidence <-> C x) as HC.
  { intros x. rewrite accepted_elem by done. unfold C, counts. by rewrite accepts_spec. }
  unfold CoverageEvaluator_evaluate. cbv zeta. set (acc := accepted_evidence t r f evidence) in *.
  assert (conflict C <-> supports acc <> [] /\ contradicts acc <> []) as Hconf.
  { unfold conflict, supports, contradicts. rewrite !filter_not_nil_iff.
    by setoid_rewrite HC. }
  assert (corroborated C <-> is_l2 acc = true) as Hl2.
  { rewrite is_l2_spec. unfold corroborated. by setoid_rewrite HC. }
  destruct (decide (supports acc = [])) as [Es|Es], (decide (contradicts acc = [])) as [Ec|Ec];
    [rewrite (bool_decide_eq_true_2 _ Es) | rewrite (bool_decide_eq_true_2 _ Es)
    | rewrite (bool_decide_eq_false_2 _ Es), (bool_decide_eq_true_2 _ Ec)
    | rewrite (bool_decide_eq_false_2 _ Es), (bool_decide_eq_false_2 _ Ec)]; simpl;
    [..| by apply Hconf].
  all: destruct acc as [|a acc'] eqn:Ea; simpl;
    [intros x Hx%HC; set_solver|].
  all: assert (exists x, C x) as Hex by (exists a; apply HC; set_solver).
  all: destruct (is_l2 (a :: acc')) eqn:E; simpl; naive_solver.
Qed.

#[export] Instance status_spec_proper :
  Proper (pointwise_relation _ iff ==> eq ==> iff) status_spec.
Proof.
  intros C C' HC s ? <-. unfold pointwise_relation in HC.
  destruct s; simpl; unfold conflict, corroborated; setoid_rewrite HC; done.
Qed.

Lemma status_spec_unique C s s' : status_spec C s -> status_spec C s' -> s = s'.
Proof.
  destruct s, s'; simpl; try done; unfold conflict; intros; naive_solver.
Qed.

Lemma setdefault_NoDup d item : NoDup d.*1 -> NoDup (setdefault d item).*1.
Proof. unfold setdefault. case_match; [done|]. apply dset_NoDup. Qed.

Lemma accepted_ids_NoDup t r f evidence :
  NoDup (map ve_id (accepted_evidence t r f evidence)).
Proof.
  unfold accepted_evidence.
  assert (forall l d, NoDup d.*1 -> Forall (fun p => p.1 = ve_id p.2) d ->
    let d' := foldl (fun d item => if accepts t r f item then setdefault d item else d) d l in
    NoDup d'.*1 /\ Forall (fun p => p.1 = ve_id p.2) d') as H.
  { induction l as [|x l IH]; intros d Hn Hk; simpl; [done|]. apply IH; case_match; try done.
    - by apply setdefault_NoDup.
    - unfold setdefault. destruct (dget (ve_id x) d) eqn:E; [done|].
      rewrite dset_fresh by done. apply Forall_app. split; [done|]. by constructor. }
  destruct (H evidence [] ltac:(constructor) ltac:(constructor)) as [Hn Hk].
  clear H. revert Hn Hk. generalize (foldl (fun d item =>
    if accepts t r f item then setdefault d item else d) [] evidence).
  intros l Hn Hk. replace (map ve_id l.*2) with l.*1; [done|]. clear Hn.
  induction Hk as [|[k v] l Hkv _ IH]; csimpl; [done|]. simpl in Hkv. f_equal; [done|exact IH].
Qed.

(** The coverage of a fact is decided by the accepted evidence of that tenant, run and
    fact alone: OPEN when there is none; PARTIAL exactly when some supports and some contradicts;
    otherwise VERIFIED exactly with an official source or two independent sources of different
    identities, and COVERED in the remaining case. The cited ids are distinct and belong to that
    evidence. *)
Theorem coverage_status t r f fact evidence discovery :
  ids_identify evidence ->
  let a := CoverageEvaluator_evaluate t r f fact evidence discovery in
  status_spec (counts t r f evidence) (ca_status a) /\
  NoDup (ca_evidence_ids a) /\
  (forall id, id ∈ ca_evidence_ids a -> exists x, ve_id x = id /\ counts t r f evidence x) /\
  (ca_requires_research_upgrade a = true -> ca_status a = FactCoverage_PARTIAL).
Proof.
  intros Hid a. split; [by apply evaluate_status|].
  assert (ca_evidence_ids a = map ve_id (accepted_evidence t r f evidence)) as Hids.
  { unfold a, CoverageEvaluator_evaluate. cbv zeta.
    case_match; simpl; [done|]. case_match; simpl; [|done]. bools. by rewrite H0. }
  rewrite Hids. split; [apply accepted_ids_NoDup|]. split.
  - intros id (x & -> & Hx)%list_elem_of_fmap. exists x. split; [done|].
    apply accepted_elem in Hx as [? Ha]; [|done]. apply accepts_spec in Ha. by split.
  - unfold a, CoverageEvaluator_evaluate. cbv zeta. by repeat case_match.
Qed.

(** Evidence of another tenant, run or fact, rejected evidence, duplicates and the order
    of arrival never change a verdict: two evidence lists with the same accepted evidence for the
    fact get the same status. *)
Lemma coverage_isolated t r f fact evidence1 evidence2 discovery1 discovery2 :
  ids_identify evidence1 -> ids_identify evidence2 ->
  (forall x, counts t r f evidence1 x <-> counts t r f evidence2 x) ->
  ca_status (CoverageEvaluator_evaluate t r f fact evidence1 discovery1)
    = ca_status (CoverageEvaluator_evaluate t r f fact evidence2 discovery2).
Proof.
  intros H1 H2 HC. eapply status_spec_unique; [by apply evaluate_status|].
  eapply status_spec_proper; [exact HC | done |]. by apply evaluate_status.
Qed.

(** ** Examples *)

Definition ex_evidence (id tenant : UUID) (identity : string) (a : SourceAuthority)
    (s : SupportType) : VerifiedEvidence :=
  {| ve_id := id;
     ve_candidate := {| ec_id := id; ec_tenant_id := tenant; ec_run_id := 1;
       ec_fact_requirement_id := 7;
       ec_source := {| es_document_id := 1; es_document_version_id := 1; es_document_chunk_id := 1;
                       es_url := u "https://a.example"; es_source_identity := u identity;
                       es_authority := a |};
       ec_quote := u "q"; ec_quote_hash := u "h"; ec_support_type := s;
       ec_candidate_score := float_of_Z 1; ec_start_offset := 0; ec_end_offset := 1 |};
     ve_verdict := EvidenceVerdict_ACCEPTED; ve_confidence := float_of_Z 1; ve_reason_codes := [];
     ve_verifier_version := u "v"; ve_verified_at := utc 0; ve_level := EvidenceLevel_L1_GROUNDED |}.

Definition ex_fact : FactRequirement :=
  {| fr_key := u "k"; fr_fact_type := FactType_VERSION; fr_description := u "d";
     fr_subject := u "s"; fr_required := true; fr_freshness := Freshness_CURRENT;
     fr_consequence := Consequence_LOW; fr_preferred_source_kinds := [] |}.

Definition ex_item1 := ex_evidence 11 2 "a.example" SourceAuthority_INDEPENDENT SupportType_SUPPORTS.
Definition ex_item2 := ex_evidence 12 2 "b.example" SourceAuthority_INDEPENDENT SupportType_SUPPORTS.
Definition ex_foreign := ex_evidence 13 3 "c.example" SourceAuthority_OFFICIAL SupportType_CONTRADICTS.

Lemma ex_ids_identify l : l ⊆ [ex_item1; ex_item2; ex_foreign] -> ids_identify l.
Proof.
  intros Hl x y Hx%Hl Hy%Hl. rewrite !elem_of_cons, elem_of_nil in Hx, Hy.
  destruct Hx as [->|[->|[->|[]]]], Hy as [->|[->|[->|[]]]]; simpl; done.
Qed.

Lemma coverage_status_witness :
  ca_status (CoverageEvaluator_evaluate 2 1 7 ex_fact [ex_item1; ex_item2; ex_foreign] [])
    = FactCoverage_VERIFIED /\
  NoDup (ca_evidence_ids
    (CoverageEvaluator_evaluate 2 1 7 ex_fact [ex_item1; ex_item2; ex_foreign] [])).
Proof.
  split; [reflexivity|].
  exact (proj1 (proj2 (coverage_status 2 1 7 ex_fact [ex_item1; ex_item2; ex_foreign] []
    (ex_ids_identify _ ltac:(done))))).
Defined.
