(* ===== verification/Intent.v ===== *)
(** * Intent: the values of search planning

    [sana/modules/search_planning/domain.py]: the values of the enums, the check that a term of a
    search is no conversation, and the constructors of facts, intents and queries. The records of
    facts and intents are in Coverage. *)

From Stdlib Require Import String.
From S2P Require Import Prelude Errors PyData PyStr Regex RegexFacts Coverage.

(** [@ src/sana/modules/search_planning/domain.py FactType] *)
Definition FactType_value (t : FactType) : pystr :=
  u match t with
    | FactType_CHARACTER_CHANGES => "character_changes"
    | FactType_VERSION => "version"
    | FactType_PATCH_NOTES => "patch_notes"
    | FactType_TEAM_META => "team_meta"
    | FactType_CURRENT_VALUE => "current_value"
    | FactType_COMPARISON => "comparison"
    | FactType_BACKGROUND => "background"
    end.

Definition all_fact_types : list FactType :=
  [FactType_CHARACTER_CHANGES; FactType_VERSION; FactType_PATCH_NOTES; FactType_TEAM_META;
   FactType_CURRENT_VALUE; FactType_COMPARISON; FactType_BACKGROUND].

Definition Freshness_value (f : Freshness) : pystr :=
  u match f with Freshness_STABLE => "STABLE" | Freshness_RECENT => "RECENT" | Freshness_CURRENT => "CURRENT" end.
Definition all_freshness := [Freshness_STABLE; Freshness_RECENT; Freshness_CURRENT].

Definition Consequence_value (c : Consequence) : pystr :=
  u match c with Consequence_LOW => "LOW" | Consequence_MEDIUM => "MEDIUM" | Consequence_HIGH => "HIGH" end.
Definition all_consequences := [Consequence_LOW; Consequence_MEDIUM; Consequence_HIGH].

(** [@ src/sana/modules/search_planning/domain.py _CONVERSATIONAL_TERM] *)
Definition conversational_term : regex :=
  re "(可以告诉我|你不是|我好久|请问一下|please tell me|could you|i haven'?t)".

(** [@ src/sana/modules/search_planning/domain.py QuerySpec@90-98] *)
Record QuerySpec := {
  qs_key : pystr;
  qs_fact_key : pystr;
  qs_text : pystr;
  qs_signature : pystr;
  qs_locale : pystr;
  qs_freshness_days : option Z;
  qs_plan_revision : Z;
  qs_metadata : list (pystr * pystr)
}.

Section Intent.
Context `{Unicode}.

(** What is wrong with a term; [field_name] only goes into the message. *)
(** [@ src/sana/modules/search_planning/domain.py _validate_search_term] *)
Definition validate_search_term (value : pystr) (max_length : Z) : res unit :=
  let normalized := strip value in
  _ ← fail_if (bool_decide (normalized = []) || (max_length <? len normalized))
        (ValueError "must be a short semantic term");
  fail_if (re_found no_flags normalized (re "[!?！？。\r\n]") || re_found re_I normalized conversational_term)
    (ValueError "contains conversational text").

(** [@ src/sana/modules/search_planning/domain.py FactRequirement] *)
Definition FactRequirement_new (f : FactRequirement) : res FactRequirement :=
  _ ← fail_if (blank (fr_key f) || blank (fr_description f) || blank (fr_subject f))
        (ValueError "Fact key, description and subject are required");
  _ ← validate_search_term (fr_subject f) 48;
  Ok f.

Fixpoint validate_aliases (aliases : list pystr) : res unit :=
  match aliases with
  | [] => Ok tt
  | a :: r => _ ← validate_search_term a 48; validate_aliases r
  end.

(** [@ src/sana/modules/search_planning/domain.py NormalizedIntent] *)
Definition NormalizedIntent_new (i : NormalizedIntent) : res NormalizedIntent :=
  _ ← fail_if (blank (ni_entity i)) (ValueError "Normalized entity cannot be empty");
  _ ← fail_if (blank (ni_locale i)) (ValueError "Locale cannot be empty");
  _ ← fail_if (bool_decide (ni_facts i = [])) (ValueError "At least one fact requirement is required");
  _ ← validate_search_term (ni_entity i) 64;
  _ ← validate_aliases (ni_aliases i);
  let keys := map fr_key (ni_facts i) in
  _ ← fail_if (negb (Z.of_nat (length keys) =? Z.of_nat (length (dedupe keys)))) (ValueError "Fact keys must be unique");
  Ok i.

(** [@ src/sana/modules/search_planning/domain.py QuerySpec] *)
Definition QuerySpec_new (q : QuerySpec) : res QuerySpec :=
  _ ← fail_if (blank (qs_key q) || blank (qs_fact_key q) || blank (qs_text q))
        (ValueError "Query key, fact key and text are required");
  _ ← fail_if (qs_plan_revision q <? 1) (ValueError "plan_revision must be positive");
  _ ← fail_if (match qs_freshness_days q with Some d => d <? 1 | None => false end)
        (ValueError "freshness_days must be positive");
  Ok q.

(** ** Valid values *)

(** A term of a search: short, of one line, without the marks and phrases of a conversation. *)
Definition search_term (max_length : Z) (value : pystr) : Prop := validate_search_term value max_length = Ok tt.

Record valid_fact (f : FactRequirement) : Prop := {
  vf_key : blank (fr_key f) = false;
  vf_description : blank (fr_description f) = false;
  vf_subject : search_term 48 (fr_subject f)
}.

Record valid_intent (i : NormalizedIntent) : Prop := {
  vi_entity : search_term 64 (ni_entity i);
  vi_locale : blank (ni_locale i) = false;
  vi_aliases : Forall (search_term 48) (ni_aliases i);
  vi_facts : ni_facts i <> [];
  vi_keys : NoDup (map fr_key (ni_facts i))
}.

Lemma search_term_solid n t : search_term n t -> blank t = false.
Proof.
  unfold search_term, validate_search_term, blank. intros E. minv. bools. by apply bool_decide_eq_false.
Qed.

Lemma search_term_length n t : search_term n t -> len (strip t) <= n.
Proof. unfold search_term, validate_search_term. intros E. minv. bools. lia. Qed.

Lemma FactRequirement_new_spec f f' : FactRequirement_new f = Ok f' <-> f' = f /\ valid_fact f.
Proof.
  unfold FactRequirement_new. split.
  - intros E. minv. bools. ksplit.
  - intros [-> [Hk Hd Hs]]. rewrite Hk, Hd, (search_term_solid _ _ Hs). simpl. by rewrite Hs.
Qed.

Lemma validate_aliases_spec aliases : validate_aliases aliases = Ok tt <-> Forall (search_term 48) aliases.
Proof.
  induction aliases as [|a r IH]; simpl; [by split|]. rewrite Forall_cons, <- IH. unfold search_term. split.
  - intros E. minv. done.
  - intros [-> ->]. done.
Qed.

Lemma unique_keys (l : list pystr) : (Z.of_nat (length l) =? Z.of_nat (length (dedupe l))) = true <-> NoDup l.
Proof.
  split.
  - intros Hn. bools. apply dedupe_length_NoDup. lia.
  - intros Hn. rewrite dedupe_NoDup by done. by apply Z.eqb_refl.
Qed.

Lemma NormalizedIntent_new_spec i i' : NormalizedIntent_new i = Ok i' <-> i' = i /\ valid_intent i.
Proof.
  unfold NormalizedIntent_new. cbv zeta. split.
  - intros E. minv. bools. ksplit. constructor; try done; [by apply validate_aliases_spec|].
    apply unique_keys. by apply Z.eqb_eq.
  - intros [-> [He Hl Ha Hf Hk]]. rewrite (search_term_solid _ _ He), Hl, He, bool_decide_false by done. simpl.
    apply validate_aliases_spec in Ha as ->. simpl. apply unique_keys in Hk. by rewrite Hk.
Qed.
End Intent.

(** ** Terms of ASCII

    Whether an ASCII term is a search term does not depend on the database, except that no ideograph
    may equal a letter when case is ignored: they have no case. *)

Class Caseless `{Unicode} : Prop := caseless : forall c, 13312 <= c <= 40959 -> uni_canon c = c.

Section Ascii.
Context {U : Unicode} {Hcase : Caseless}.

Definition plain_char (c : Z) : bool := ascii_char c || ((13312 <=? c) && (c <=? 40959)).

Lemma plain_same_case fl c : plain_char c = true -> same_case U ex_unicode fl c.
Proof using Hcase.
  unfold plain_char. intros [Hc|Hc]%orb_prop.
  - by destruct (ascii_same_kind U ex_unicode fl c Hc).
  - intros _. unfold char_canon. bools. replace (c <? 128) with false by lia. destruct (is_space c); [done|].
    rewrite caseless by lia. cbn. by rewrite !(proj2 (Z.eqb_neq c _)) by lia.
Qed.

Lemma ascii_found fl text r : str_isascii text = true ->
  ignorecase fl = false \/ forallb plain_char (re_chars r) = true ->
  @re_found U fl text r = @re_found ex_unicode fl text r.
Proof using Hcase.
  intros Ht Hr. apply re_found_agree.
  - unfold str_isascii in Ht. rewrite forallb_forall in Ht. apply Forall_forall. intros c Hc.
    by apply ascii_same_kind, Ht, list_elem_of_In.
  - apply Forall_forall. intros c Hc. destruct Hr as [Hf|Hr]; [intros Hi; congruence|].
    rewrite forallb_forall in Hr. by apply plain_same_case, Hr, list_elem_of_In.
Qed.

Lemma ascii_strip t : str_isascii t = true -> str_isascii (strip t) = true.
Proof.
  intros Ht. destruct (occurs_strip t) as (a & b & E). unfold str_isascii in *. rewrite E, !forallb_app in Ht.
  by apply andb_prop in Ht as [_ [? _]%andb_prop].
Qed.

Lemma ascii_term value n : str_isascii value = true ->
  @validate_search_term U value n = @validate_search_term ex_unicode value n.
Proof using Hcase.
  intros Hv. unfold validate_search_term. cbv zeta.
  rewrite !(ascii_found _ (strip value)); [done|by apply ascii_strip| |by apply ascii_strip|]; [by right; vm_compute|by left].
Qed.

Lemma ascii_fact f : str_isascii (fr_subject f) = true -> @FactRequirement_new U f = @FactRequirement_new ex_unicode f.
Proof using Hcase. intros Hs. unfold FactRequirement_new. by rewrite ascii_term. Qed.

Lemma ascii_intent i : str_isascii (ni_entity i) = true -> ni_aliases i = [] ->
  @NormalizedIntent_new U i = @NormalizedIntent_new ex_unicode i.
Proof using Hcase. intros He Ha. unfold NormalizedIntent_new. by rewrite ascii_term, Ha. Qed.
End Ascii.

#[export] Instance ex_caseless : @Caseless ex_unicode.
Proof. intros c Hc. cbn. by rewrite !(proj2 (Z.eqb_neq c _)) by lia. Qed.
