(* ===== verification/Lease.v ===== *)
(** * Lease: leasing a step, recovering it, and the reconciler

    [sana/modules/orchestration/lease.py] and [sana/modules/orchestration/reconciler.py]. *)

From Stdlib Require Import SpecFloat String Ascii DecimalString DecimalFacts DecimalZ.
From S2P Require Import Prelude Errors PyTime Transitions Run Step StepFacts.

(** ** The lease service *)

(** [f"{step.id}:{attempt_no}"] *)
Definition attempt_key (step_id : UUID) (attempt_no : Z) : pystr :=
  str_of_uuid step_id ++ u ":" ++ str_of_Z attempt_no.

(** [@ src/sana/modules/orchestration/lease.py LeaseService.__init__] *)
Definition LeaseService_new (lease_seconds : float) : res float :=
  _ ← fail_if (fle lease_seconds fzero) (ValueError "lease_seconds must be positive");
  Ok lease_seconds.

(** [new_id] is what the id factory returns. *)
(** [@ src/sana/modules/orchestration/lease.py LeaseService.claim] *)
Definition LeaseService_claim (lease_seconds : float) (new_id : UUID) (attempt_no : Z)
    (worker_id : pystr) (now deadline_at : datetime) : M SearchStep StepAttempt :=
  step ← self;
  _ ← raise_if (step_status step isnot StepStatus_READY)
        (InvariantViolation "Only a READY step can be leased");
  past ← lift (dt_le deadline_at now);
  _ ← raise_if past (InvariantViolation "Cannot lease a step past its deadline");
  span ← lift (timedelta lease_seconds);
  leased_until ← lift (dt_min deadline_at (dt_add now span));
  _ ← SearchStep_start;
  step ← self;
  lift (StepAttempt_new new_id (step_tenant_id step) (step_run_id step) (step_id step) attempt_no
          (attempt_key (step_id step) attempt_no) worker_id leased_until deadline_at now
          (step_input_ref step)).

(** [@ src/sana/modules/orchestration/lease.py LeaseService.recover_expired] *)
Definition LeaseService_recover_expired (attempt : StepAttempt) (now : datetime)
    : M SearchStep bool :=
  step ← self;
  _ ← raise_if (negb (step_id step =? at_step_id attempt))
        (InvariantViolation "Attempt belongs to a different step");
  if step_status step is StepStatus_RUNNING then
    expired ← lift (StepAttempt_lease_expired attempt now);
    if expired : bool then
      _ ← SearchStep_release_expired_lease; mret true
    else mret false
  else mret false.

(** ** The reconciler *)

(** [@ src/sana/modules/orchestration/reconciler.py ReconcileAction] *)
Inductive ReconcileAction :=
| ReconcileAction_DISPATCH_READY
| ReconcileAction_RELEASE_RETRY
| ReconcileAction_RELEASE_EXPIRED_LEASE.

#[export] Instance ReconcileAction_eq_dec : EqDecision ReconcileAction.
Proof. solve_decision. Defined.

(** [@ src/sana/modules/orchestration/reconciler.py ReconcileCandidate] *)
Record ReconcileCandidate := {
  rc_tenant_id : UUID;
  rc_step_id : UUID;
  rc_status : StepStatus;
  rc_retry_at : option datetime;
  rc_leased_until : option datetime
}.

(** A [ReconcileDecision] is the candidate with its action. *)
Abbreviation ReconcileDecision := (ReconcileCandidate * ReconcileAction)%type.

(** [x is not None and x <= now] *)
Definition due (x : option datetime) (now : datetime) : res bool :=
  match x with Some t => dt_le t now | None => Ok false end.

(** [@ src/sana/modules/orchestration/reconciler.py WorkflowReconciler.decide] *)
Definition WorkflowReconciler_decide (candidate : ReconcileCandidate) (now : datetime)
    : res (option ReconcileDecision) :=
  match rc_status candidate with
  | StepStatus_READY => Ok (Some (candidate, ReconcileAction_DISPATCH_READY))
  | StepStatus_RETRY_WAIT =>
      d ← due (rc_retry_at candidate) now;
      Ok (if d : bool then Some (candidate, ReconcileAction_RELEASE_RETRY) else None)
  | StepStatus_RUNNING =>
      d ← due (rc_leased_until candidate) now;
      Ok (if d : bool then Some (candidate, ReconcileAction_RELEASE_EXPIRED_LEASE) else None)
  | _ => Ok None
  end.

(** What the reconciler needs of the database: the [ReconciliationStore] protocol. *)
Record ReconciliationStore (S : Type) := {
  rs_candidates : datetime -> Z -> M S (list ReconcileCandidate);
  rs_make_ready : UUID -> UUID -> M S unit;
  rs_enqueue : UUID -> UUID -> M S unit
}.
Arguments rs_candidates {S}.
Arguments rs_make_ready {S}.
Arguments rs_enqueue {S}.

Fixpoint decide_all (candidates : list ReconcileCandidate) (now : datetime)
    : res (list ReconcileDecision) :=
  match candidates with
  | [] => Ok []
  | c :: rest =>
      d ← WorkflowReconciler_decide c now;
      ds ← decide_all rest now;
      Ok (match d with Some d => d :: ds | None => ds end)
  end.

Fixpoint apply_decisions {S} (store : ReconciliationStore S) (decisions : list ReconcileDecision)
    : M S unit :=
  match decisions with
  | [] => mret tt
  | (c, action) :: rest =>
      _ ← (if action isnot ReconcileAction_DISPATCH_READY
           then rs_make_ready store (rc_tenant_id c) (rc_step_id c) else mret tt);
      _ ← rs_enqueue store (rc_tenant_id c) (rc_step_id c);
      apply_decisions store rest
  end.

(** [@ src/sana/modules/orchestration/reconciler.py WorkflowReconciler.run] *)
Definition WorkflowReconciler_run {S} (store : ReconciliationStore S) (now : datetime) (limit : Z)
    : M S (list ReconcileDecision) :=
  candidates ← rs_candidates store now limit;
  decisions ← lift (decide_all candidates now);
  _ ← apply_decisions store decisions;
  mret decisions.

(** ** Idempotency keys are unique *)

Lemma u_inj a b : u a = u b -> a = b.
Proof.
  unfold u. intros H. rewrite <- (string_of_list_ascii_of_string a).
  rewrite <- (string_of_list_ascii_of_string b). f_equal. revert H.
  generalize (list_ascii_of_string a) (list_ascii_of_string b). clear a b.
  induction l as [|x l IH]; intros [|y m]; simpl; try done.
  intros [= Hx Hl]. f_equal; [|by apply IH].
  rewrite <- (ascii_N_embedding x), <- (ascii_N_embedding y). f_equal. lia.
Qed.

Lemma str_of_Z_inj a b : str_of_Z a = str_of_Z b -> a = b.
Proof.
  unfold str_of_Z. intros H%u_inj. apply DecimalZ.to_int_inj.
  assert (forall z, NilZero.int_of_string (NilZero.string_of_int (Z.to_int z)) = Some (Z.to_int z)) as R.
  { intros z. apply NilZero.isi; destruct z; simpl; try done; intros [= Hn];
      by apply DecimalPos.Unsigned.to_uint_nonnil in Hn. }
  apply (f_equal NilZero.int_of_string) in H. rewrite !R in H. by injection H.
Qed.

Lemma hex_digits_length len n : length (hex_digits len n) = len.
Proof.
  revert n. induction len as [|k IH]; intros n; simpl; [done|].
  rewrite length_app, IH. simpl. lia.
Qed.

Lemma hex_digit_inj a b : 0 <= a < 16 -> 0 <= b < 16 -> hex_digit a = hex_digit b -> a = b.
Proof.
  unfold hex_digit. intros. destruct (a <? 10) eqn:E1, (b <? 10) eqn:E2; bools; lia.
Qed.

Lemma hex_digits_inj len a b : 0 <= a < 16 ^ Z.of_nat len -> 0 <= b < 16 ^ Z.of_nat len ->
  hex_digits len a = hex_digits len b -> a = b.
Proof.
  revert a b. induction len as [|k IH]; intros a b Ha Hb; [simpl in *; lia|].
  rewrite Nat2Z.inj_succ, Z.pow_succ_r in Ha, Hb by lia.
  simpl. intros H. apply app_inj_2 in H as [H1 H2]; [|done]. injection H2 as H2.
  apply hex_digit_inj in H2; [|apply Z.mod_pos_bound; lia..].
  apply IH in H1; [|split; [apply Z.div_pos|apply Z.div_lt_upper_bound]; lia..].
  rewrite (Z.div_mod a 16), (Z.div_mod b 16) by lia. congruence.
Qed.

Lemma str_of_uuid_length x : length (str_of_uuid x) = 36%nat.
Proof.
  assert (length (uuid_hex x) = 32%nat) as L by apply hex_digits_length.
  unfold str_of_uuid. cbv zeta. rewrite !length_app, !length_take, !length_drop, L. done.
Qed.

Lemma uuid_hex_inj x y : 0 <= x < 2 ^ 128 -> 0 <= y < 2 ^ 128 -> uuid_hex x = uuid_hex y -> x = y.
Proof.
  intros Hx Hy. unfold uuid_hex. rewrite !Z.mod_small by done.
  apply hex_digits_inj; change (16 ^ Z.of_nat 32) with (2 ^ 128); done.
Qed.

(** The hex digits back from the hyphenated text. *)
Lemma str_of_uuid_hex x y : str_of_uuid x = str_of_uuid y -> uuid_hex x = uuid_hex y.
Proof.
  assert (length (uuid_hex x) = 32%nat) as Lx by apply hex_digits_length.
  assert (length (uuid_hex y) = 32%nat) as Ly by apply hex_digits_length.
  unfold str_of_uuid. cbv zeta. intros H.
  repeat (apply app_inj_1 in H as [? H]; [|rewrite ?length_take, ?length_drop, ?Lx, ?Ly; done]).
  rewrite <- (take_drop 8 (uuid_hex x)), <- (take_drop 8 (uuid_hex y)).
  rewrite <- (take_drop 4 (drop 8 (uuid_hex x))), <- (take_drop 4 (drop 8 (uuid_hex y))).
  rewrite !drop_drop. simpl Nat.add.
  rewrite <- (take_drop 4 (drop 12 (uuid_hex x))), <- (take_drop 4 (drop 12 (uuid_hex y))).
  rewrite !drop_drop. simpl Nat.add.
  rewrite <- (take_drop 4 (drop 16 (uuid_hex x))), <- (take_drop 4 (drop 16 (uuid_hex y))).
  rewrite !drop_drop. simpl Nat.add. congruence.
Qed.

(** The idempotency key identifies the attempt: two attempts of (possibly different)
    steps have the same key only when both the step id and the attempt number agree. *)
Lemma attempt_key_unique s1 s2 n1 n2 :
  0 <= s1 < 2 ^ 128 -> 0 <= s2 < 2 ^ 128 ->
  attempt_key s1 n1 = attempt_key s2 n2 -> s1 = s2 /\ n1 = n2.
Proof.
  unfold attempt_key. intros H1 H2 H.
  apply app_inj_1 in H as [Hs H]; [|by rewrite !str_of_uuid_length].
  apply app_inj_1 in H as [_ H]; [|done].
  split; [apply uuid_hex_inj; [done..|by apply str_of_uuid_hex] | by apply str_of_Z_inj].
Qed.

(** ** Leasing *)

Lemma StepAttempt_new_ok id tenant run step no key owner lease deadline started input :
  dt_aware lease = true -> dt_aware deadline = true -> dt_aware started = true ->
  1 <= no -> blank key = false -> blank owner = false ->
  dt_us started < dt_us lease -> dt_us started < dt_us deadline ->
  exists a, StepAttempt_new id tenant run step no key owner lease deadline started input = Ok a.
Proof.
  intros H1 H2 H3 H4 H5 H6 H7 H8. eexists. unfold StepAttempt_new, require_aware, dt_le.
  rewrite H1, H2, H3, H5, H6, !dt_cmp_aware by done. simpl.
  replace (no <? 1) with false by lia. simpl.
  replace (dt_us lease <=? dt_us started) with false by lia. simpl.
  replace (dt_us deadline <=? dt_us started) with false by lia. reflexivity.
Qed.

Lemma attempt_key_not_blank step_id no : blank (attempt_key step_id no) = false.
Proof.
  rewrite blank_spec. unfold attempt_key. rewrite !forallb_app. apply andb_false_iff. right.
  apply andb_false_iff. by left.
Qed.

(** Leasing a READY step before its deadline succeeds: the step becomes RUNNING with its
    retry time cleared and its version bumped, and the attempt returned is a fresh, well-formed one for
    that step and attempt number, owned by the worker, with the lease
    [min(deadline, now + lease_seconds)], so never beyond the deadline. *)
Theorem claim_functional lease_seconds span new_id no worker now deadline s :
  step_status s = StepStatus_READY ->
  timedelta lease_seconds = Ok span -> 0 < span -> 1 <= no -> blank worker = false ->
  dt_aware now = true -> dt_aware deadline = true -> dt_us now < dt_us deadline ->
  exists a,
    LeaseService_claim lease_seconds new_id no worker now deadline s
      = (step_set StepStatus_RUNNING (step_output_ref s) None (step_version s + 1)
           (step_persisted_version s) s, Ok a) /\
    attempt_wf a /\ StepAttempt_is_complete a = false /\
    at_step_id a = step_id s /\ at_attempt_no a = no /\ at_lease_owner a = worker /\
    at_deadline_at a = deadline /\
    dt_us (at_leased_until a) = Z.min (dt_us deadline) (dt_us now + span) /\
    dt_us (at_leased_until a) <= dt_us (at_deadline_at a).
Proof.
  intros Hs Ht Hsp Hn Hw Ha Hd Hlt.
  destruct (StepAttempt_new_ok new_id (step_tenant_id s) (step_run_id s) (step_id s) no
    (attempt_key (step_id s) no) worker (utc (Z.min (dt_us deadline) (dt_us now + span)))
    deadline now (step_input_ref s)) as [a E]; try done; [apply attempt_key_not_blank | simpl; lia |].
  exists a. split.
  - unfold LeaseService_claim, mbind, M_bind, self, raise_if, lift, SearchStep_start.
    rewrite bool_decide_eq_true_2 by done. unfold dt_le. rewrite dt_cmp_aware by done.
    replace (dt_us deadline <=? dt_us now) with false by lia. simpl. rewrite Ht.
    rewrite dt_min_aware by done. unfold mbind, M_bind.
    rewrite step_transition_ok by (rewrite Hs; set_solver). unfold update. simpl.
    rewrite E. done.
  - apply StepAttempt_new_ok_inv in E as (Hwf & E1 & E2 & E3 & E4 & E5 & E6 & E7 & E8 & E9 & E10 & E11 & E12).
    subst. unfold StepAttempt_is_complete. rewrite E1, E5. simpl. ksplit. lia.
Qed.

(** Recovery takes exactly the dead attempts: for the attempt of a step, it returns true
    precisely when the step is RUNNING, the attempt is not complete and its lease has ended; the
    step is then READY again, and in every other case it is unchanged. *)
Theorem recover_expired_spec (a : StepAttempt) now s :
  attempt_wf a -> step_id s = at_step_id a -> dt_aware now = true ->
  LeaseService_recover_expired a now s
    = if (step_status s is StepStatus_RUNNING) && negb (StepAttempt_is_complete a)
         && (dt_us (at_leased_until a) <=? dt_us now)
      then (step_set StepStatus_READY (step_output_ref s) (step_retry_at s) (step_version s + 1)
              (step_persisted_version s) s, Ok true)
      else (s, Ok false).
Proof.
  intros Hw Hid Hn. unfold LeaseService_recover_expired, mbind, M_bind, self, raise_if, lift.
  rewrite Hid, Z.eqb_refl. simpl.
  destruct (decide (step_status s = StepStatus_RUNNING)) as [E|E];
    [rewrite bool_decide_eq_true_2 by done | by rewrite bool_decide_eq_false_2 by done].
  unfold StepAttempt_lease_expired, require_aware. rewrite Hn. simpl.
  destruct (StepAttempt_is_complete a); simpl; [done|].
  unfold dt_le. destruct Hw as [Hl _]. rewrite dt_cmp_aware by done. simpl.
  destruct (dt_us (at_leased_until a) <=? dt_us now); [|done].
  unfold SearchStep_release_expired_lease. rewrite step_transition_ok by (rewrite E; set_solver).
  done.
Qed.

(** ** Reconciling *)

(** A store that only records the calls, in order. *)
Inductive store_call := CallMakeReady (tenant_id step_id : UUID) | CallEnqueue (tenant_id step_id : UUID).

Definition log_store (rows : list ReconcileCandidate) : ReconciliationStore (list store_call) := {|
  rs_candidates now limit := mret (take (Z.to_nat limit) rows);
  rs_make_ready tenant_id step_id := update (fun log => log ++ [CallMakeReady tenant_id step_id]);
  rs_enqueue tenant_id step_id := update (fun log => log ++ [CallEnqueue tenant_id step_id])
|}.

(** The calls one decision leads to: a row that is not READY is made ready first. *)
Definition calls_of (d : ReconcileDecision) : list store_call :=
  let c := d.1 in
  match d.2 with
  | ReconcileAction_DISPATCH_READY => [CallEnqueue (rc_tenant_id c) (rc_step_id c)]
  | _ => [CallMakeReady (rc_tenant_id c) (rc_step_id c); CallEnqueue (rc_tenant_id c) (rc_step_id c)]
  end.

Definition due_at (x : option datetime) (now : datetime) : Prop :=
  exists t, x = Some t /\ dt_us t <= dt_us now.

(** When a row is recovered, and how. *)
Definition recoverable (c : ReconcileCandidate) (now : datetime) (action : ReconcileAction) : Prop :=
  match action with
  | ReconcileAction_DISPATCH_READY => rc_status c = StepStatus_READY
  | ReconcileAction_RELEASE_RETRY =>
      rc_status c = StepStatus_RETRY_WAIT /\ due_at (rc_retry_at c) now
  | ReconcileAction_RELEASE_EXPIRED_LEASE =>
      rc_status c = StepStatus_RUNNING /\ due_at (rc_leased_until c) now
  end.

Definition candidate_aware (c : ReconcileCandidate) : Prop :=
  (forall t, rc_retry_at c = Some t -> dt_aware t = true) /\
  (forall t, rc_leased_until c = Some t -> dt_aware t = true).

Lemma due_spec x now : dt_aware now = true -> (forall t, x = Some t -> dt_aware t = true) ->
  exists b, due x now = Ok b /\ (b = true <-> due_at x now).
Proof.
  intros Hn Hx. unfold due, due_at. destruct x as [t|].
  - unfold dt_le. rewrite dt_cmp_aware by auto. eexists. split; [done|].
    rewrite Z.leb_le. split; [by exists t | by intros (? & [= <-] & ?)].
  - exists false. split; [done|]. split; [done|]. by intros (? & ? & _).
Qed.

Lemma decide_spec c now : dt_aware now = true -> candidate_aware c ->
  exists d, WorkflowReconciler_decide c now = Ok d /\
    match d with
    | Some (c', action) => c' = c /\ recoverable c now action
    | None => forall action, ~ recoverable c now action
    end.
Proof.
  intros Hn [Hr Hl]. destruct (due_spec _ _ Hn Hr) as (br & Er & Br).
  destruct (due_spec _ _ Hn Hl) as (bl & El & Bl).
  unfold WorkflowReconciler_decide.
  destruct (rc_status c) eqn:E; rewrite ?Er, ?El; simpl; eexists; (split; [reflexivity|]);
    try (by split); try (destruct br); try (destruct bl); unfold recoverable; rewrite E;
    try (split; [done|split; [done|naive_solver]]);
    intros []; intros ?; naive_solver.
Qed.

Lemma decide_all_spec cs now : dt_aware now = true -> Forall candidate_aware cs ->
  exists ds, decide_all cs now = Ok ds /\
    (forall c action, (c, action) ∈ ds <-> c ∈ cs /\ recoverable c now action) /\
    sublist ds.*1 cs.
Proof.
  intros Hn. induction 1 as [|c cs Hc _ (ds & IH & Hin & Hsub)]; simpl.
  - exists []. split; [done|]. split; [set_solver|constructor].
  - destruct (decide_spec c now Hn Hc) as (d & Ed & Hd). rewrite Ed. simpl. rewrite IH. simpl.
    eexists. split; [done|]. destruct d as [[c' action']|]; simpl.
    + destruct Hd as [-> Hd]. split; [|by constructor]. intros c2 action2.
      assert (forall x y, recoverable c now x -> recoverable c now y -> x = y) as U.
      { intros [] []; unfold recoverable; intros; destruct_and?; congruence. }
      rewrite !elem_of_cons, Hin. split.
      * intros [[= -> ->]|[? ?]]; auto.
      * intros [[->|?] Hr]; [|by auto]. left. by rewrite (U _ _ Hr Hd).
    + split; [|by constructor]. intros c2 action2. rewrite elem_of_cons, Hin. split.
      * intros [? ?]; auto.
      * intros [[->|?] Hr]; [by destruct (Hd action2)|done].
Qed.

Lemma apply_decisions_log rows ds log :
  apply_decisions (log_store rows) ds log = (log ++ concat (map calls_of ds), Ok tt).
Proof.
  revert log. induction ds as [|[c action] ds IH]; intros log; simpl; [by rewrite app_nil_r|].
  unfold mbind, M_bind. destruct action; simpl; rewrite IH, <- !app_assoc; done.
Qed.

(** One reconciler pass over the rows the store returns never raises and recovers
    exactly what is dispatchable: a decision is made for a row precisely when it is READY, waits
    for a retry that is due, or runs under a lease that has ended; rows are handled in the store's
    order, every one is enqueued exactly once per decision, and one that is not READY is made
    ready before it is enqueued. *)
Theorem reconcile_pass rows now limit log :
  dt_aware now = true -> Forall candidate_aware rows ->
  exists ds,
    WorkflowReconciler_run (log_store rows) now limit log
      = (log ++ concat (map calls_of ds), Ok ds) /\
    sublist ds.*1 (take (Z.to_nat limit) rows) /\
    (forall c action, (c, action) ∈ ds <->
       c ∈ take (Z.to_nat limit) rows /\ recoverable c now action).
Proof.
  intros Hn Hr. destruct (decide_all_spec (take (Z.to_nat limit) rows) now Hn) as (ds & E & Hin & Hs).
  { by apply Forall_take. }
  exists ds. split; [|done]. unfold WorkflowReconciler_run, mbind, M_bind, lift. simpl.
  rewrite E, apply_decisions_log. done.
Qed.

(** ** Examples *)

Lemma attempt_key_unique_witness :
  attempt_key 10 1 = attempt_key 10 1 /\ (10 = 10 /\ 1 = 1).
Proof. split; [reflexivity|]. exact (attempt_key_unique 10 10 1 1 ltac:(lia) ltac:(lia) eq_refl). Defined.

Lemma claim_functional_witness :
  exists a, LeaseService_claim (float_of_Z 30) 77 1 (u "w") (utc 5) (utc 9) ex_step
    = (step_set StepStatus_RUNNING None None 1 0 ex_step, Ok a) /\ dt_us (at_leased_until a) = 9.
Proof.
  destruct (claim_functional (float_of_Z 30) 30000000 77 1 (u "w") (utc 5) (utc 9) ex_step
    eq_refl eq_refl ltac:(lia) ltac:(lia) eq_refl eq_refl eq_refl ltac:(reflexivity))
    as (a & H & _ & _ & _ & _ & _ & _ & L & _).
  exists a. split; [exact H | exact L].
Defined.

Lemma ex_attempt_wf : attempt_wf ex_attempt.
Proof. repeat split; reflexivity. Qed.

Definition ex_running : SearchStep := fst (SearchStep_start ex_step).

Lemma recover_expired_spec_witness :
  snd (LeaseService_recover_expired ex_attempt (utc 30) ex_running) = Ok true /\
  snd (LeaseService_recover_expired ex_attempt (utc 29) ex_running) = Ok false.
Proof.
  rewrite (recover_expired_spec ex_attempt (utc 30) ex_running ex_attempt_wf eq_refl eq_refl).
  rewrite (recover_expired_spec ex_attempt (utc 29) ex_running ex_attempt_wf eq_refl eq_refl).
  split; reflexivity.
Defined.

Definition ex_rows : list ReconcileCandidate :=
  [ {| rc_tenant_id := 1; rc_step_id := 1; rc_status := StepStatus_READY; rc_retry_at := None;
       rc_leased_until := None |};
    {| rc_tenant_id := 1; rc_step_id := 2; rc_status := StepStatus_RUNNING; rc_retry_at := None;
       rc_leased_until := Some (utc 30) |};
    {| rc_tenant_id := 1; rc_step_id := 3; rc_status := StepStatus_RETRY_WAIT;
       rc_retry_at := Some (utc 90); rc_leased_until := None |} ].

Lemma ex_rows_aware : Forall candidate_aware ex_rows.
Proof. repeat constructor; intros t; simpl; intros; simplify_eq; reflexivity. Qed.

Lemma reconcile_pass_witness :
  fst (WorkflowReconciler_run (log_store ex_rows) (utc 30) 100 [])
    = [CallEnqueue 1 1; CallMakeReady 1 2; CallEnqueue 1 2] /\
  exists ds, WorkflowReconciler_run (log_store ex_rows) (utc 30) 100 []
    = ([] ++ concat (map calls_of ds), Ok ds).
Proof.
  split; [reflexivity|].
  destruct (reconcile_pass ex_rows (utc 30) 100 [] eq_refl ex_rows_aware) as (ds & H & _).
  exists ds. exact H.
Defined.
