(* ===== verification/Workflow.v ===== *)
(** * Workflow: the bounded FAST workflow

    [sana/modules/orchestration/search_workflow.py]: budget costs and the reservation ledger, the
    step graph with its three stages, the scheduler [advance], and the terminal outcome. *)

From Stdlib Require Import SpecFloat String.
From S2P Require Import Prelude Errors PyTime Transitions Run Step Policy Coverage.

(** ** Costs *)

Record StepBudgetCost := {
  sc_phase : BudgetPhase;
  sc_estimated_seconds : float;
  sc_queries : Z;
  sc_providers : Z;
  sc_fetches : Z;
  sc_llm_calls : Z
}.

#[export] Instance StepBudgetCost_eq_dec : EqDecision StepBudgetCost.
Proof. solve_decision. Defined.

(** [@ src/sana/modules/orchestration/search_workflow.py StepBudgetCost/__post_init__] *)
Definition StepBudgetCost_new (c : StepBudgetCost) : res StepBudgetCost :=
  _ ← fail_if (fneg (sc_estimated_seconds c)
               || existsb (fun v => v <? 0)
                    [sc_queries c; sc_providers c; sc_fetches c; sc_llm_calls c])
        (ValueError "Step budget cost cannot be negative");
  Ok c.

(** A cost with the defaults of the dataclass. *)
Definition cost (phase : BudgetPhase) (estimated_seconds : float) (queries providers fetches : Z)
    : StepBudgetCost :=
  {| sc_phase := phase; sc_estimated_seconds := estimated_seconds; sc_queries := queries;
     sc_providers := providers; sc_fetches := fetches; sc_llm_calls := 0 |}.

(** [@ src/sana/modules/orchestration/search_workflow.py StepBudgetCost.apply] *)
Definition StepBudgetCost_apply (c : StepBudgetCost) (usage : BudgetUsage)
    (elapsed_seconds : option float) : res BudgetUsage :=
  BudgetUsage_add usage
    {| ui_queries := sc_queries c; ui_providers := sc_providers c; ui_fetches := sc_fetches c;
       ui_llm_calls := 0; ui_prompt_tokens := 0; ui_completion_tokens := 0;
       ui_expansion_rounds := 0; ui_phase := Some (BudgetPhase_value (sc_phase c));
       ui_elapsed_seconds := match elapsed_seconds with
                             | None => sc_estimated_seconds c
                             | Some e => e
                             end |}.

(** ** The reservation ledger *)

Record Ledger := {
  bl_guard : BudgetGuard;
  bl_usage : BudgetUsage;
  bl_reservations : list (pystr * StepBudgetCost)
}.

Definition bl_set_reservations (r : list (pystr * StepBudgetCost)) (l : Ledger) : Ledger :=
  {| bl_guard := bl_guard l; bl_usage := bl_usage l; bl_reservations := r |}.

Fixpoint apply_all (costs : list StepBudgetCost) (usage : BudgetUsage) : res BudgetUsage :=
  match costs with
  | [] => Ok usage
  | c :: rest => usage ← StepBudgetCost_apply c usage None; apply_all rest usage
  end.

(** [@ src/sana/modules/orchestration/search_workflow.py BudgetReservationLedger.projected_usage] *)
Definition projected_usage (l : Ledger) : res BudgetUsage :=
  apply_all (bl_reservations l).*2 (bl_usage l).

(** The loop over [pending]. *)
Fixpoint load_pending (pending d : list (pystr * StepBudgetCost))
    : res (list (pystr * StepBudgetCost)) :=
  match pending with
  | [] => Ok d
  | (k, c) :: rest =>
      _ ← fail_if (negb (is_none (dget k d)))
            (ValueError "Pending budget reservation keys must be unique");
      load_pending rest (dset k c d)
  end.

(** [@ src/sana/modules/orchestration/search_workflow.py BudgetReservationLedger.__init__] *)
Definition BudgetReservationLedger_new (guard : BudgetGuard) (usage : BudgetUsage)
    (pending : list (pystr * StepBudgetCost)) : res Ledger :=
  reservations ← load_pending pending [];
  let l := {| bl_guard := guard; bl_usage := usage; bl_reservations := reservations |} in
  projected ← projected_usage l;
  _ ← BudgetGuard_validate guard projected;
  Ok l.

(** [@ src/sana/modules/orchestration/search_workflow.py BudgetReservationLedger.reserve] *)
Definition ledger_reserve (step_key : pystr) (c : StepBudgetCost) (now : datetime)
    : M Ledger (pystr * StepBudgetCost) :=
  l ← self;
  _ ← raise_if (blank step_key || negb (is_none (dget step_key (bl_reservations l))))
        (ValueError "Step already has a reservation or has an empty key");
  startable ← lift (can_start (bl_guard l) (sc_phase c) now (sc_estimated_seconds c));
  _ ← raise_if (negb startable) (BudgetExceeded (u "deadline"));
  projected ← lift (projected_usage l);
  next ← lift (StepBudgetCost_apply c projected None);
  _ ← lift (BudgetGuard_validate (bl_guard l) next);
  _ ← update (fun l => bl_set_reservations (dset step_key c (bl_reservations l)) l);
  mret (step_key, c).

(** The reservation is popped, and the usage replaced, before the usage is validated. *)
(** [@ src/sana/modules/orchestration/search_workflow.py BudgetReservationLedger.complete] *)
Definition ledger_complete (step_key : pystr) (actual : StepBudgetCost) (elapsed_seconds : float)
    : M Ledger BudgetUsage :=
  l ← self;
  match dget step_key (bl_reservations l) with
  | None => raise (ValueError "Step has no budget reservation")
  | Some reserved =>
      _ ← raise_if (sc_phase actual isnot sc_phase reserved)
            (ValueError "Actual usage phase differs from reservation");
      _ ← update (fun l => bl_set_reservations (ddel step_key (bl_reservations l)) l);
      usage ← lift (StepBudgetCost_apply actual (bl_usage l) (Some elapsed_seconds));
      _ ← update (fun l => {| bl_guard := bl_guard l; bl_usage := usage;
                              bl_reservations := bl_reservations l |});
      _ ← lift (BudgetGuard_validate (bl_guard l) usage);
      mret usage
  end.

(** [@ src/sana/modules/orchestration/search_workflow.py BudgetReservationLedger.release_if_present] *)
Definition ledger_release_if_present (step_key : pystr) : M Ledger bool :=
  l ← self;
  _ ← update (fun l => bl_set_reservations (ddel step_key (bl_reservations l)) l);
  mret (negb (is_none (dget step_key (bl_reservations l)))).

(** [@ src/sana/modules/orchestration/search_workflow.py BudgetReservationLedger.release] *)
Definition ledger_release (step_key : pystr) : M Ledger unit :=
  present ← ledger_release_if_present step_key;
  raise_if (negb present) (ValueError "Step has no budget reservation").

(** ** Step specifications *)

Record WorkflowStepSpec := {
  ws_key : pystr;
  ws_step_type : StepType;
  ws_dependencies : list pystr;
  ws_budget : StepBudgetCost;
  ws_low_value_after_deadline : bool
}.

#[export] Instance WorkflowStepSpec_eq_dec : EqDecision WorkflowStepSpec.
Proof. solve_decision. Defined.

(** [@ src/sana/modules/orchestration/search_workflow.py WorkflowStepSpec/__post_init__] *)
Definition WorkflowStepSpec_new (key : pystr) (step_type : StepType) (dependencies : list pystr)
    (budget : StepBudgetCost) (low_value : bool) : res WorkflowStepSpec :=
  _ ← fail_if (blank key || existsb blank dependencies)
        (ValueError "Workflow step keys cannot be empty");
  _ ← fail_if (bool_decide (key ∈ dependencies))
        (ValueError "Workflow step cannot depend on itself");
  Ok {| ws_key := key; ws_step_type := step_type; ws_dependencies := dependencies;
        ws_budget := budget; ws_low_value_after_deadline := low_value |}.

(** ** The graph *)

(** [@ src/sana/modules/orchestration/search_workflow.py _GraphStage] *)
Inductive GraphStage := GraphStage_OPEN | GraphStage_DISCOVERY_SEALED | GraphStage_SYNTHESIS_SEALED.

#[export] Instance GraphStage_eq_dec : EqDecision GraphStage.
Proof. solve_decision. Defined.

Record Graph := { g_nodes : list (pystr * WorkflowStepSpec); g_stage : GraphStage }.

Definition g_set_stage (stage : GraphStage) (g : Graph) : Graph :=
  {| g_nodes := g_nodes g; g_stage := stage |}.

(** [@ src/sana/modules/orchestration/search_workflow.py FastSearchGraph._add] *)
Definition graph_add (node : WorkflowStepSpec) : M Graph unit :=
  g ← self;
  _ ← raise_if (negb (is_none (dget (ws_key node) (g_nodes g))))
        (ValueError "Duplicate workflow step key");
  _ ← raise_if (existsb (fun d => is_none (dget d (g_nodes g))) (ws_dependencies node))
        (ValueError "Workflow step has unknown dependencies");
  update (fun g => {| g_nodes := dset (ws_key node) node (g_nodes g); g_stage := g_stage g |}).

(** [self._add(WorkflowStepSpec(key, type, dependencies, StepBudgetCost(...), low))] *)
Definition graph_add_new (key : pystr) (step_type : StepType) (dependencies : list pystr)
    (c : StepBudgetCost) (low_value : bool) : M Graph unit :=
  c ← lift (StepBudgetCost_new c);
  node ← lift (WorkflowStepSpec_new key step_type dependencies c low_value);
  graph_add node.

(** [@ src/sana/modules/orchestration/search_workflow.py FastSearchGraph.__init__] *)
Definition FastSearchGraph_init : M Graph unit :=
  _ ← graph_add_new (u "route") StepType_ROUTE []
        (cost BudgetPhase_ROUTE_PLAN (flit 1 10) 0 0 0) false;
  graph_add_new (u "plan") StepType_PLAN [u "route"]
    (cost BudgetPhase_ROUTE_PLAN (flit 8 10) 0 0 0) false.

Definition FastSearchGraph_new : Graph :=
  fst (FastSearchGraph_init {| g_nodes := []; g_stage := GraphStage_OPEN |}).

(** [@ src/sana/modules/orchestration/search_workflow.py FastSearchGraph.add_discovery] *)
Definition add_discovery (query_key : pystr) (provider_slots : Z) (estimated_seconds : float)
    : M Graph pystr :=
  g ← self;
  _ ← raise_if (g_stage g isnot GraphStage_OPEN) (ValueError "Discovery fan-out is already sealed");
  _ ← raise_if (blank query_key) (ValueError "Discovery query key cannot be empty");
  let key := u "discover:" ++ query_key in
  _ ← graph_add_new key StepType_DISCOVERY [u "plan"]
        (cost BudgetPhase_DISCOVERY estimated_seconds 1 provider_slots 0) true;
  mret key.

(** The keys of one type, or the default when there is none. *)
Definition keys_of_type (t : StepType) (g : Graph) : list pystr :=
  (base.filter (fun kn => ws_step_type kn.2 = t) (g_nodes g)).*1.

Definition or_default (l : list pystr) (d : pystr) : list pystr :=
  match l with [] => [d] | _ => l end.

(** [@ src/sana/modules/orchestration/search_workflow.py FastSearchGraph.seal_discovery] *)
Definition seal_discovery : M Graph unit :=
  g ← self;
  _ ← raise_if (g_stage g isnot GraphStage_OPEN) (ValueError "Discovery fan-out is already sealed");
  _ ← graph_add_new (u "select") StepType_SELECT
        (or_default (keys_of_type StepType_DISCOVERY g) (u "plan"))
        (cost BudgetPhase_DISCOVERY (flit 2 10) 0 0 0) true;
  update (g_set_stage GraphStage_DISCOVERY_SEALED).

(** [@ src/sana/modules/orchestration/search_workflow.py FastSearchGraph.add_fetch_pipeline] *)
Definition add_fetch_pipeline (source_key : pystr) (fetch_seconds : float)
    : M Graph (pystr * pystr) :=
  g ← self;
  _ ← raise_if (g_stage g isnot GraphStage_DISCOVERY_SEALED)
        (ValueError "Fetch pipelines require sealed discovery");
  _ ← raise_if (blank source_key) (ValueError "Fetch source key cannot be empty");
  let fetch_key := u "fetch:" ++ source_key in
  let extract_key := u "extract:" ++ source_key in
  _ ← graph_add_new fetch_key StepType_FETCH [u "select"]
        (cost BudgetPhase_FETCH_EXTRACT fetch_seconds 0 0 1) true;
  _ ← graph_add_new extract_key StepType_EXTRACT [fetch_key]
        (cost BudgetPhase_FETCH_EXTRACT (flit 2 10) 0 0 0) true;
  mret (fetch_key, extract_key).

(** [@ src/sana/modules/orchestration/search_workflow.py FastSearchGraph.seal_synthesis] *)
Definition seal_synthesis : M Graph unit :=
  g ← self;
  _ ← raise_if (g_stage g isnot GraphStage_DISCOVERY_SEALED)
        (ValueError "Synthesis requires sealed discovery");
  _ ← graph_add_new (u "verify") StepType_VERIFY
        (or_default (keys_of_type StepType_EXTRACT g) (u "select"))
        (cost BudgetPhase_VERIFY (flit 3 10) 0 0 0) true;
  _ ← graph_add_new (u "synthesize") StepType_SYNTHESIZE [u "verify"]
        (cost BudgetPhase_SYNTHESIZE (flit 8 10) 0 0 0) false;
  update (g_set_stage GraphStage_SYNTHESIS_SEALED).

(** ** Scheduling *)

(** [@ src/sana/modules/orchestration/search_workflow.py WorkflowAdvance] *)
Record WorkflowAdvance := {
  wa_submit : list WorkflowStepSpec;
  wa_cancel : list pystr;
  wa_skip : list pystr;
  wa_release_reservations : list pystr;
  wa_deadline_fallback : bool
}.

Abbreviation Statuses := (list (pystr * StepStatus)).

(** [statuses.get(key, StepStatus.READY)] *)
Definition status_or_ready (statuses : Statuses) (key : pystr) : StepStatus :=
  default StepStatus_READY (dget key statuses).

(** [statuses.get(dependency) in terminal] *)
Definition dep_terminal (statuses : Statuses) (key : pystr) : bool :=
  match dget key statuses with Some s => step_terminal s | None => false end.

(** [statuses.get(dependency) is StepStatus.SUCCEEDED] *)
Definition dep_succeeded (statuses : Statuses) (key : pystr) : bool :=
  dget key statuses is Some StepStatus_SUCCEEDED.

Definition skippable (statuses : Statuses) (key : pystr) (node : WorkflowStepSpec) : bool :=
  let deps := ws_dependencies node in
  ((ws_step_type node is StepType_EXTRACT) || (ws_step_type node is StepType_VERIFY))
  && (status_or_ready statuses key is StepStatus_READY)
  && forallb (dep_terminal statuses) deps
  && (if ws_step_type node is StepType_EXTRACT
      then existsb (fun d => negb (dep_succeeded statuses d)) deps
      else forallb (fun d => negb (dep_succeeded statuses d)) deps).

(** [self._nodes[dependency].step_type in types]; [_add] only admits nodes whose dependencies are in
    the graph, so the missing case (a [KeyError]) does not arise ([graph_wf], WorkflowFacts). *)
Definition dep_type_in (g : Graph) (types : list StepType) (d : pystr) : bool :=
  match dget d (g_nodes g) with
  | Some n => bool_decide (ws_step_type n ∈ types)
  | None => false
  end.

Definition dependencies_satisfied (g : Graph) (statuses : Statuses) (node : WorkflowStepSpec)
    : bool :=
  let deps := ws_dependencies node in
  if bool_decide (ws_step_type node ∈ [StepType_SELECT; StepType_SYNTHESIZE])
     && forallb (dep_type_in g [StepType_DISCOVERY; StepType_VERIFY]) deps
  then forallb (dep_terminal statuses) deps
  else if (ws_step_type node is StepType_VERIFY)
          && forallb (dep_type_in g [StepType_EXTRACT]) deps
  then forallb (dep_terminal statuses) deps && existsb (dep_succeeded statuses) deps
  else forallb (dep_succeeded statuses) deps.

Definition cancellable (s : StepStatus) : bool :=
  bool_decide (s ∈ [StepStatus_READY; StepStatus_RUNNING; StepStatus_RETRY_WAIT]).

(** The branch taken once the non-synthesis deadline has passed. *)
Definition deadline_advance (g : Graph) (statuses : Statuses) : res WorkflowAdvance :=
  let cancel := (base.filter (fun kn =>
      Is_true (ws_low_value_after_deadline kn.2 && cancellable (status_or_ready statuses kn.1)))
    (g_nodes g)).*1 in
  match dget (u "synthesize") (g_nodes g) with
  | None => Raise (KeyError "synthesize")
  | Some synthesize =>
      Ok {| wa_submit := if status_or_ready statuses (u "synthesize") is StepStatus_READY
                         then [synthesize] else [];
            wa_cancel := cancel;
            wa_skip := [];
            wa_release_reservations := base.filter (fun key =>
              status_or_ready statuses key ∈ [StepStatus_READY; StepStatus_RETRY_WAIT]) cancel;
            wa_deadline_fallback := true |}
  end.

Definition skip_keys (g : Graph) (statuses : Statuses) : list pystr :=
  (base.filter (fun kn => Is_true (skippable statuses kn.1 kn.2)) (g_nodes g)).*1.

Definition ready_nodes (g : Graph) (statuses : Statuses) : list WorkflowStepSpec :=
  (base.filter (fun kn =>
      Is_true ((status_or_ready statuses kn.1 is StepStatus_READY)
               && negb (bool_decide (kn.1 ∈ skip_keys g statuses))
               && dependencies_satisfied g statuses kn.2))
    (g_nodes g)).*2.

(** [now] is what the clock returns. *)
(** [@ src/sana/modules/orchestration/search_workflow.py FastSearchGraph.advance] *)
Definition graph_advance (g : Graph) (statuses : Statuses) (guard : BudgetGuard) (now : datetime)
    : res WorkflowAdvance :=
  _ ← fail_if (g_stage g isnot GraphStage_SYNTHESIS_SEALED)
        (ValueError "Workflow graph must be sealed before scheduling");
  _ ← fail_if (existsb (fun ks => is_none (dget ks.1 (g_nodes g))) statuses)
        (ValueError "Statuses contain unknown steps");
  deadline ← non_synthesis_deadline guard;
  late ← dt_le deadline now;
  if late : bool then deadline_advance g statuses
  else Ok {| wa_submit := ready_nodes g statuses; wa_cancel := []; wa_skip := skip_keys g statuses;
             wa_release_reservations := []; wa_deadline_fallback := false |}.

(** ** The workflow *)

Fixpoint release_all (keys : list pystr) : M Ledger unit :=
  match keys with
  | [] => mret tt
  | k :: rest => _ ← ledger_release_if_present k; release_all rest
  end.

(** The [try] block: reserve the nodes in order, reading the clock before each ([clock i] is the
    [i]-th reading), and on any exception release the ones reserved so far before re-raising. *)
Fixpoint reserve_nodes (nodes reserved : list WorkflowStepSpec) (clock : nat -> datetime)
    : M Ledger (list WorkflowStepSpec) :=
  match nodes with
  | [] => mret reserved
  | node :: rest => fun l =>
      match ledger_reserve (ws_key node) (ws_budget node) (clock (length reserved)) l with
      | (l', Ok _) => reserve_nodes rest (reserved ++ [node]) clock l'
      | (l', Raise e) =>
          match release_all (map ws_key reserved) l' with
          | (l'', Ok _) => (l'', Raise e)
          | (l'', Raise e') => (l'', Raise e')
          end
      end
  end.

(** [@ src/sana/modules/orchestration/search_workflow.py FastSearchWorkflow.reserve_submissions] *)
Definition reserve_submissions (advance : WorkflowAdvance) (clock : nat -> datetime)
    : M Ledger (list WorkflowStepSpec) :=
  _ ← release_all (wa_release_reservations advance);
  reserve_nodes (wa_submit advance) [] clock.

(** [@ src/sana/modules/orchestration/search_workflow.py FastWorkflowOutcome] *)
Record FastWorkflowOutcome := {
  fo_quality : AnswerQuality;
  fo_reason : StopReason;
  fo_request_research_upgrade : bool
}.

(** [@ src/sana/modules/orchestration/search_workflow.py FastSearchWorkflow.outcome] *)
Definition FastSearchWorkflow_outcome (required_fact_statuses : list FactCoverage)
    (deadline_fallback : bool) : FastWorkflowOutcome :=
  let complete := negb (bool_decide (required_fact_statuses = []))
    && forallb (fun s => bool_decide (s ∈ [FactCoverage_COVERED; FactCoverage_VERIFIED]))
         required_fact_statuses in
  if complete then
    {| fo_quality := AnswerQuality_COMPLETE; fo_reason := StopReason_FACTS_COVERED;
       fo_request_research_upgrade := false |}
  else
    {| fo_quality := AnswerQuality_PARTIAL;
       fo_reason := if deadline_fallback then StopReason_TIME_BUDGET
                    else StopReason_INSUFFICIENT_EVIDENCE;
       fo_request_research_upgrade := false |}.

(** [@ src/sana/modules/orchestration/search_workflow.py FastSearchWorkflow.finish] *)
Definition FastSearchWorkflow_finish (outcome : FastWorkflowOutcome) (now : datetime)
    : M SearchRun unit :=
  run ← self;
  _ ← raise_if (SearchRun_mode run isnot SearchMode_FAST)
        (ValueError "Fast workflow cannot finish a RESEARCH run");
  SearchRun_succeed (fo_quality outcome) (fo_reason outcome) now.
