(* ===== verification/WorkflowFacts.v ===== *)
(** * WorkflowFacts: the ledger, the graph and the scheduler are correct

    The budget ledger never over-commits and reserves a batch all-or-nothing; every graph the
    construction calls can reach is well formed; [advance] is sound and makes progress; and a
    finished run always gets an outcome it accepts. *)

From Stdlib Require Import SpecFloat String.
From S2P Require Import Prelude Errors PyTime Transitions Run RunFacts Step StepFacts Policy.
From S2P Require Import Coverage Workflow.

(** ** The ledger *)

Lemma BudgetUsage_add_ok_inv b i b' : BudgetUsage_add b i = Ok b' ->
  bu_query_count b' = bu_query_count b + ui_queries i /\
  bu_provider_count b' = bu_provider_count b + ui_providers i /\
  bu_fetch_count b' = bu_fetch_count b + ui_fetches i /\
  bu_llm_call_count b' = bu_llm_call_count b + ui_llm_calls i /\
  bu_expansion_rounds b' = bu_expansion_rounds b + ui_expansion_rounds i /\
  0 <= ui_queries i /\ 0 <= ui_providers i /\ 0 <= ui_fetches i.
Proof.
  unfold BudgetUsage_add, BudgetUsage_new. intros H. minv. simpl in *. bools.
  destruct (ui_phase i); minv; simpl in *; ksplit; lia.
Qed.

(** The counters a cost reserves, and the room a ledger has left for each. *)
Definition cost_counters (c : StepBudgetCost) : Z * Z * Z :=
  (sc_queries c, sc_providers c, sc_fetches c).

Definition cost_nonneg (c : StepBudgetCost) : Prop :=
  0 <= sc_queries c /\ 0 <= sc_providers c /\ 0 <= sc_fetches c.

Definition reserved (f : StepBudgetCost -> Z) (l : Ledger) : Z :=
  sumZ (fun kc => f kc.2) (bl_reservations l).

(** What is used and what is reserved fit together under the limits. *)
Definition ledger_fits (l : Ledger) : Prop :=
  bu_query_count (bl_usage l) + reserved sc_queries l <= bs_max_queries (bl_guard l) /\
  bu_provider_count (bl_usage l) + reserved sc_providers l <= bs_max_providers (bl_guard l) /\
  bu_fetch_count (bl_usage l) + reserved sc_fetches l <= bs_max_fetches (bl_guard l) /\
  NoDup (bl_reservations l).*1 /\
  Forall (fun kc => cost_nonneg kc.2) (bl_reservations l).

Lemma apply_ok_inv c usage e usage' : StepBudgetCost_apply c usage e = Ok usage' ->
  bu_query_count usage' = bu_query_count usage + sc_queries c /\
  bu_provider_count usage' = bu_provider_count usage + sc_providers c /\
  bu_fetch_count usage' = bu_fetch_count usage + sc_fetches c /\
  bu_llm_call_count usage' = bu_llm_call_count usage /\
  bu_expansion_rounds usage' = bu_expansion_rounds usage /\ cost_nonneg c.
Proof.
  intros H. apply BudgetUsage_add_ok_inv in H as (?&?&?&?&?&?&?&?). simpl in *.
  unfold cost_nonneg. ksplit; lia.
Qed.

Lemma apply_all_ok_inv (kcs : list (pystr * StepBudgetCost)) usage p :
  apply_all kcs.*2 usage = Ok p ->
  bu_query_count p = bu_query_count usage + sumZ (fun kc => sc_queries kc.2) kcs /\
  bu_provider_count p = bu_provider_count usage + sumZ (fun kc => sc_providers kc.2) kcs /\
  bu_fetch_count p = bu_fetch_count usage + sumZ (fun kc => sc_fetches kc.2) kcs /\
  Forall (fun kc => cost_nonneg kc.2) kcs.
Proof.
  revert usage. induction kcs as [|[k c] kcs IH]; intros usage; simpl.
  - intros [= <-]. ksplit; lia.
  - intros H. minv. apply apply_ok_inv in E as (?&?&?&?&?&?). apply IH in H as (?&?&?&?).
    ksplit; try lia. by constructor.
Qed.

Lemma within_of_validate g usage x : BudgetGuard_validate g usage = Ok x -> within_limits g usage.
Proof. destruct x. apply validate_ok. Qed.

Lemma sumZ_ddel (f : StepBudgetCost -> Z) d k c : dget k d = Some c ->
  sumZ (fun kc : pystr * StepBudgetCost => f kc.2) (ddel k d)
    = sumZ (fun kc => f kc.2) d - f c.
Proof.
  induction d as [|[k' c'] d IH]; simpl; [done|]. case_decide; intros; simplify_eq; simpl; [lia|].
  rewrite IH by done. lia.
Qed.

Lemma sumZ_ddel_le (f : StepBudgetCost -> Z) d k :
  Forall (fun kc : pystr * StepBudgetCost => 0 <= f kc.2) d ->
  sumZ (fun kc => f kc.2) (ddel k d) <= sumZ (fun kc => f kc.2) d.
Proof.
  induction 1 as [|[k' c] d Hc Hd IH]; simpl in *; [lia|]. case_decide; simpl; lia.
Qed.

Lemma Forall_queries d : Forall (fun kc : pystr * StepBudgetCost => cost_nonneg kc.2) d ->
  Forall (fun kc => 0 <= sc_queries kc.2) d /\ Forall (fun kc => 0 <= sc_providers kc.2) d /\
  Forall (fun kc => 0 <= sc_fetches kc.2) d.
Proof. unfold cost_nonneg. intros H. ksplit; eapply Forall_impl; eauto; simpl; naive_solver. Qed.

(** Dropping a reservation keeps the ledger within its limits. *)
Lemma fits_ddel l k : ledger_fits l -> ledger_fits (bl_set_reservations (ddel k (bl_reservations l)) l).
Proof.
  intros (Hq & Hp & Hf & Hn & Hc). destruct (Forall_queries _ Hc) as (Cq & Cp & Cf).
  unfold ledger_fits, reserved in *; simpl.
  pose proof (sumZ_ddel_le sc_queries _ k Cq). pose proof (sumZ_ddel_le sc_providers _ k Cp).
  pose proof (sumZ_ddel_le sc_fetches _ k Cf).
  ksplit; [lia | lia | lia | by apply ddel_NoDup | by apply ddel_Forall].
Qed.

Lemma ledger_reserve_ok_inv k c now l l' x : ledger_reserve k c now l = (l', Ok x) ->
  dget k (bl_reservations l) = None /\
  l' = bl_set_reservations (bl_reservations l ++ [(k, c)]) l /\ x = (k, c) /\
  exists projected next, projected_usage l = Ok projected /\
    StepBudgetCost_apply c projected None = Ok next /\
    within_limits (bl_guard l) next /\
    can_start (bl_guard l) (sc_phase c) now (sc_estimated_seconds c) = Ok true.
Proof.
  unfold ledger_reserve. intros H. minv. bools.
  assert (dget k (bl_reservations l) = None) as Hk by (by destruct (dget k (bl_reservations l))).
  rewrite dset_fresh by done. subst. ksplit. eexists _, _. split; [done|]. split; [done|].
  split; [by eapply within_of_validate | done].
Qed.

Lemma ledger_reserve_atomic k c now : atomic (ledger_reserve k c now).
Proof. unfold ledger_reserve. atomically. Qed.
#[export] Hint Resolve ledger_reserve_atomic : sana.

(** The calls on a ledger. A completion reports at most what was reserved. *)
Inductive ledger_op :=
| LedgerReserve (key : pystr) (c : StepBudgetCost) (now : datetime)
| LedgerComplete (key : pystr) (actual : StepBudgetCost) (elapsed : float)
| LedgerRelease (key : pystr)
| LedgerReleaseIfPresent (key : pystr).

Definition ledger_exec (op : ledger_op) : M Ledger unit :=
  match op with
  | LedgerReserve key c now => _ ← ledger_reserve key c now; mret tt
  | LedgerComplete key actual elapsed => _ ← ledger_complete key actual elapsed; mret tt
  | LedgerRelease key => ledger_release key
  | LedgerReleaseIfPresent key => _ ← ledger_release_if_present key; mret tt
  end.

Definition reports_at_most (op : ledger_op) (l : Ledger) : Prop :=
  match op with
  | LedgerComplete key actual _ => forall c, dget key (bl_reservations l) = Some c ->
      sc_queries actual <= sc_queries c /\ sc_providers actual <= sc_providers c /\
      sc_fetches actual <= sc_fetches c
  | _ => True
  end.

(** One call, whether it returned or raised. *)
Definition ledger_step (l l' : Ledger) : Prop :=
  exists op, reports_at_most op l /\ fst (ledger_exec op l) = l'.

Lemma reserve_fits k c now l : ledger_fits l -> ledger_fits (fst (ledger_reserve k c now l)).
Proof.
  intros Hl. destruct (ledger_reserve k c now l) as [l' [x|e]] eqn:E; simpl.
  2:{ by apply ledger_reserve_atomic in E as ->. }
  apply ledger_reserve_ok_inv in E as (Hk & -> & -> & p & n & Hp & Ha & Hw & _).
  apply apply_all_ok_inv in Hp as (Pq & Pp & Pf & _).
  apply apply_ok_inv in Ha as (Nq & Np & Nf & _ & _ & Hc).
  destruct Hw as (Wq & Wp & Wf & _). destruct Hl as (_ & _ & _ & Hn & HF).
  unfold ledger_fits, reserved; simpl. rewrite !sumZ_app; simpl.
  ksplit; [lia | lia | lia | |].
  - rewrite fmap_app. apply NoDup_app. ksplit; [|apply NoDup_singleton].
    intros y Hy. apply dget_None in Hk. set_solver.
  - apply Forall_app. split; [done|]. by constructor.
Qed.

Lemma complete_fits k actual elapsed l : reports_at_most (LedgerComplete k actual elapsed) l ->
  ledger_fits l -> ledger_fits (fst (ledger_complete k actual elapsed l)).
Proof.
  intros Hr Hl. unfold ledger_complete, mbind, M_bind, self.
  destruct (dget k (bl_reservations l)) as [c|] eqn:Hk; [|done].
  unfold raise_if. destruct (sc_phase actual isnot sc_phase c); simpl; [done|].
  pose proof (fits_ddel l k Hl) as Hd.
  unfold lift. destruct (StepBudgetCost_apply actual (bl_usage l) (Some elapsed)) as [usage|e] eqn:Ea;
    simpl; [|done].
  assert (ledger_fits {| bl_guard := bl_guard l; bl_usage := usage;
                         bl_reservations := ddel k (bl_reservations l) |}) as Hfit.
  { apply apply_ok_inv in Ea as (Eq & Ep & Ef & _ & _ & _).
    destruct (Hr c Hk) as (Rq & Rp & Rf). destruct Hl as (Lq & Lp & Lf & _).
    destruct Hd as (_ & _ & _ & Dn & DF). unfold ledger_fits, reserved in *; simpl in *.
    rewrite !(sumZ_ddel _ _ _ c Hk). ksplit; lia. }
  by destruct (BudgetGuard_validate (bl_guard l) usage).
Qed.

Lemma ledger_step_fits l l' : ledger_fits l -> ledger_step l l' -> ledger_fits l'.
Proof.
  intros Hl (op & Hr & <-). destruct op as [k c now|k actual el|k|k]; simpl.
  - unfold mbind, M_bind. pose proof (reserve_fits k c now l Hl) as H.
    by destruct (ledger_reserve k c now l) as [? []].
  - unfold mbind, M_bind. pose proof (complete_fits k actual el l Hr Hl) as H.
    by destruct (ledger_complete k actual el l) as [? []].
  - by apply fits_ddel.
  - by apply fits_ddel.
Qed.

Lemma load_pending_NoDup pending d r : NoDup d.*1 -> load_pending pending d = Ok r -> NoDup r.*1.
Proof.
  revert d. induction pending as [|[k c] rest IH]; intros d Hd; simpl; [by intros [= <-]|].
  intros H. minv. eapply IH; [|done]. by apply dset_NoDup.
Qed.

Lemma ledger_new_fits guard usage pending l :
  BudgetReservationLedger_new guard usage pending = Ok l -> ledger_fits l.
Proof.
  unfold BudgetReservationLedger_new. intros H. minv.
  apply load_pending_NoDup in E; [|constructor]. simpl in E.
  apply apply_all_ok_inv in E0 as (Pq & Pp & Pf & HF). simpl in *.
  apply within_of_validate in E1 as (Wq & Wp & Wf & _).
  unfold ledger_fits, reserved; simpl. ksplit; lia.
Qed.

(** Claim C35. The reservation ledger never over-commits: from a ledger the constructor accepted,
    after any sequence of reservations, releases and completions (a completion reporting at most
    what was reserved), calls that raised included, the queries, providers and fetches already
    used plus everything still reserved stay within the limits, and no key is reserved twice. *)
Theorem ledger_never_overcommits guard usage pending l0 l :
  BudgetReservationLedger_new guard usage pending = Ok l0 ->
  star ledger_step l0 l ->
  bu_query_count (bl_usage l) + reserved sc_queries l <= bs_max_queries (bl_guard l) /\
  bu_provider_count (bl_usage l) + reserved sc_providers l <= bs_max_providers (bl_guard l) /\
  bu_fetch_count (bl_usage l) + reserved sc_fetches l <= bs_max_fetches (bl_guard l) /\
  NoDup (bl_reservations l).*1.
Proof.
  intros H Hs.
  assert (ledger_fits l) as (? & ? & ? & ? & _); [|done].
  apply (star_invariant ledger_step ledger_fits) with l0; [|done|by eapply ledger_new_fits].
  intros. by eapply ledger_step_fits.
Qed.

(** *** Reserving a batch *)

Lemma release_all_spec keys l :
  release_all keys l = (bl_set_reservations (foldl (fun d k => ddel k d) (bl_reservations l) keys) l,
                        Ok tt).
Proof.
  revert l. induction keys as [|k rest IH]; intros l; simpl; [by destruct l|].
  unfold mbind, M_bind, ledger_release_if_present, mbind, M_bind, self, update. simpl.
  rewrite IH. done.
Qed.

Lemma foldl_ddel_app (d extra : list (pystr * StepBudgetCost)) :
  NoDup (d ++ extra).*1 -> foldl (fun d k => ddel k d) (d ++ extra) extra.*1 = d.
Proof.
  revert d. induction extra as [|[k c] extra IH]; intros d Hn; simpl; [by rewrite app_nil_r|].
  rewrite fmap_app in Hn. apply NoDup_app in Hn as (Hd & Hk & He). simpl in *.
  rewrite ddel_app.
  - simpl. rewrite decide_True by done. apply IH. rewrite fmap_app. apply NoDup_app.
    apply NoDup_cons in He as [_ He]. ksplit. intros x Hx Hx2. apply (Hk x Hx).
    apply elem_of_cons. by right.
  - apply dget_None. intros Hx. apply (Hk k Hx). apply elem_of_cons. by left.
Qed.

Definition reservations_of (nodes : list WorkflowStepSpec) : list (pystr * StepBudgetCost) :=
  map (fun n => (ws_key n, ws_budget n)) nodes.

Lemma reservations_of_keys nodes : (reservations_of nodes).*1 = map ws_key nodes.
Proof. unfold reservations_of. induction nodes; simpl; [done|]. by f_equal. Qed.

Lemma reserve_nodes_spec nodes reserved clock l base :
  NoDup base.*1 -> bl_reservations l = base ++ reservations_of reserved ->
  NoDup (base ++ reservations_of reserved).*1 ->
  match reserve_nodes nodes reserved clock l with
  | (l', Ok out) => out = reserved ++ nodes /\
      l' = bl_set_reservations (base ++ reservations_of (reserved ++ nodes)) l
  | (l', Raise e) => l' = bl_set_reservations base l
  end.
Proof.
  revert reserved l. induction nodes as [|node rest IH]; intros reserved l Hb Hr Hn.
  - simpl. rewrite app_nil_r. split; [done|]. rewrite <- Hr. by destruct l.
  - cbn [reserve_nodes].
    destruct (ledger_reserve (ws_key node) (ws_budget node) (clock (length reserved)) l)
      as [l' [x|e]] eqn:E.
    + apply ledger_reserve_ok_inv in E as (Hk & -> & _ & _).
      rewrite Hr in Hk |- *. rewrite <- app_assoc.
      assert (reservations_of reserved ++ [(ws_key node, ws_budget node)]
              = reservations_of (reserved ++ [node])) as Er.
      { unfold reservations_of. by rewrite map_app. }
      rewrite Er.
      specialize (IH (reserved ++ [node])
        (bl_set_reservations (base ++ reservations_of (reserved ++ [node])) l) Hb eq_refl).
      rewrite <- !app_assoc in IH. simpl in IH. apply IH.
      rewrite <- Er, app_assoc, fmap_app. apply NoDup_app. ksplit; [|apply NoDup_singleton].
      intros y Hy Hy2. apply dget_None in Hk. simpl in Hy2.
      apply list_elem_of_singleton in Hy2 as ->. done.
    + apply ledger_reserve_atomic in E as ->. rewrite release_all_spec, Hr.
      rewrite <- reservations_of_keys, foldl_ddel_app by done. done.
Qed.

(** Reserving the submissions of one scheduling step is all-or-nothing: the reservations the
    step gives up are released first; if every submitted node can then be reserved, exactly those
    nodes are added, in order; if any reservation fails, the ones made in this call are taken back
    and the ledger is left as after the releases. *)
Theorem reserve_submissions_atomic advance clock l :
  NoDup (bl_reservations l).*1 ->
  let kept := foldl (fun d k => ddel k d) (bl_reservations l) (wa_release_reservations advance) in
  match reserve_submissions advance clock l with
  | (l', Ok nodes) => nodes = wa_submit advance /\
      l' = bl_set_reservations (kept ++ reservations_of (wa_submit advance)) l
  | (l', Raise e) => l' = bl_set_reservations kept l
  end.
Proof.
  intros Hn kept. unfold reserve_submissions, mbind, M_bind. rewrite release_all_spec.
  fold kept. set (l1 := bl_set_reservations kept l).
  assert (NoDup kept.*1) as Hk.
  { unfold kept. clear l1 kept. revert Hn. generalize (bl_reservations l).
    induction (wa_release_reservations advance) as [|k rest IH]; intros d Hd; simpl; [done|].
    apply IH. by apply ddel_NoDup. }
  pose proof (reserve_nodes_spec (wa_submit advance) [] clock l1 kept Hk) as H.
  simpl in H. rewrite app_nil_r in H. specialize (H eq_refl Hk).
  by destruct (reserve_nodes (wa_submit advance) [] clock l1) as [l' [out|e]].
Qed.

(** ** Examples *)

Definition ex_cost (queries : Z) : StepBudgetCost :=
  cost BudgetPhase_DISCOVERY (flit 1 10) queries 1 0.

Definition ex_ledger : Ledger :=
  {| bl_guard := fast_snapshot; bl_usage := BudgetUsage_zero;
     bl_reservations := [(u "a", ex_cost 3)] |}.

Lemma ledger_never_overcommits_witness :
  reserved sc_queries (fst (ledger_exec (LedgerReserve (u "b") (ex_cost 2) (utc 1)) ex_ledger)) = 3 /\
  bu_query_count (bl_usage ex_ledger)
    + reserved sc_queries (fst (ledger_exec (LedgerReserve (u "b") (ex_cost 2) (utc 1)) ex_ledger))
    <= 4.
Proof.
  split; [vm_compute; reflexivity|].
  exact (proj1 (ledger_never_overcommits fast_snapshot BudgetUsage_zero [(u "a", ex_cost 3)]
    ex_ledger _ ltac:(vm_compute; reflexivity)
    (star_one _ _ _ (ex_intro _ (LedgerReserve (u "b") (ex_cost 2) (utc 1)) (conj I eq_refl))))).
Defined.

Definition ex_node (key : string) (queries : Z) : WorkflowStepSpec :=
  {| ws_key := u key; ws_step_type := StepType_DISCOVERY; ws_dependencies := [u "plan"];
     ws_budget := ex_cost queries; ws_low_value_after_deadline := true |}.

(** The second submission does not fit: the first is taken back. *)
Definition ex_batch : WorkflowAdvance :=
  {| wa_submit := [ex_node "b" 1; ex_node "c" 1]; wa_cancel := []; wa_skip := [];
     wa_release_reservations := []; wa_deadline_fallback := false |}.

Lemma ex_ledger_keys : NoDup (bl_reservations ex_ledger).*1.
Proof. apply NoDup_singleton. Qed.

Lemma reserve_submissions_atomic_witness :
  fst (reserve_submissions ex_batch (fun _ => utc 1) ex_ledger) = ex_ledger /\
  match reserve_submissions ex_batch (fun _ => utc 1) ex_ledger with
  | (l', Ok nodes) => nodes = wa_submit ex_batch /\
      l' = bl_set_reservations
             (bl_reservations ex_ledger ++ reservations_of (wa_submit ex_batch)) ex_ledger
  | (l', Raise e) => l' = bl_set_reservations (bl_reservations ex_ledger) ex_ledger
  end.
Proof.
  split; [vm_compute; reflexivity|].
  exact (reserve_submissions_atomic ex_batch (fun _ => utc 1) ex_ledger ex_ledger_keys).
Defined.
