(* ===== verification/GraphFacts.v ===== *)
(** * GraphFacts: every reachable workflow graph is well formed, and scheduling it makes progress

    Then the caller's loop around [FastSearchGraph.advance]: every submitted step runs to an end, every
    skipped one is recorded, and the scheduler is asked again. However the steps end, the loop
    stops, and with nothing left to do. *)

From Stdlib Require Import SpecFloat String.
From S2P Require Import Prelude Errors PyTime Transitions Run RunFacts Step StepFacts Policy Coverage Workflow.
From S2P Require Import WorkflowFacts.

(** ** Well-formed graphs *)

Abbreviation Nodes := (list (pystr * WorkflowStepSpec)).

(** Every dependency is declared before the node that needs it. *)
Fixpoint topo (seen : list pystr) (nodes : Nodes) : Prop :=
  match nodes with
  | [] => True
  | (k, n) :: rest => Forall (fun d => d ∈ seen) (ws_dependencies n) /\ topo (seen ++ [k]) rest
  end.

Definition typed (nodes : Nodes) (t : StepType) (d : pystr) : Prop :=
  exists n, dget d nodes = Some n /\ ws_step_type n = t.

(** What each kind of node depends on. *)
Definition shape (nodes : Nodes) (n : WorkflowStepSpec) : Prop :=
  let deps := ws_dependencies n in
  match ws_step_type n with
  | StepType_ROUTE => deps = []
  | StepType_PLAN => deps = [u "route"]
  | StepType_DISCOVERY => deps = [u "plan"]
  | StepType_SELECT =>
      (deps <> [] /\ Forall (typed nodes StepType_DISCOVERY) deps) \/ deps = [u "plan"]
  | StepType_FETCH => deps = [u "select"]
  | StepType_EXTRACT => exists k, deps = [k] /\ typed nodes StepType_FETCH k
  | StepType_VERIFY =>
      (deps <> [] /\ Forall (typed nodes StepType_EXTRACT) deps) \/ deps = [u "select"]
  | StepType_SYNTHESIZE => deps = [u "verify"] /\ ws_low_value_after_deadline n = false
  | StepType_COMPLETE => False
  end.

(** The keys with a fixed meaning. *)
Definition named_type (k : pystr) : option StepType :=
  dget k [(u "route", StepType_ROUTE); (u "plan", StepType_PLAN); (u "select", StepType_SELECT);
          (u "verify", StepType_VERIFY); (u "synthesize", StepType_SYNTHESIZE)].

(** The per-node part: the key it is stored under, the constructor's checks, the shape, and the
    type its name promises. *)
Definition node_wf (nodes : Nodes) (kn : pystr * WorkflowStepSpec) : Prop :=
  kn.1 = ws_key kn.2 /\
  WorkflowStepSpec_new (ws_key kn.2) (ws_step_type kn.2) (ws_dependencies kn.2) (ws_budget kn.2)
    (ws_low_value_after_deadline kn.2) = Ok kn.2 /\
  StepBudgetCost_new (ws_budget kn.2) = Ok (ws_budget kn.2) /\
  shape nodes kn.2 /\
  (forall t, named_type kn.1 = Some t -> ws_step_type kn.2 = t).

Definition nodes_wf (nodes : Nodes) : Prop :=
  NoDup nodes.*1 /\ topo [] nodes /\ Forall (node_wf nodes) nodes.

Definition stage_ok (g : Graph) : Prop :=
  is_Some (dget (u "route") (g_nodes g)) /\ is_Some (dget (u "plan") (g_nodes g)) /\
  match g_stage g with
  | GraphStage_OPEN => True
  | GraphStage_DISCOVERY_SEALED => is_Some (dget (u "select") (g_nodes g))
  | GraphStage_SYNTHESIS_SEALED =>
      is_Some (dget (u "select") (g_nodes g)) /\ is_Some (dget (u "verify") (g_nodes g)) /\
      is_Some (dget (u "synthesize") (g_nodes g))
  end.

Definition graph_wf (g : Graph) : Prop := nodes_wf (g_nodes g) /\ stage_ok g.

Lemma topo_snoc seen nodes k n :
  topo seen (nodes ++ [(k, n)]) <->
  topo seen nodes /\ Forall (fun d => d ∈ seen ++ nodes.*1) (ws_dependencies n).
Proof.
  revert seen. induction nodes as [|[k' n'] nodes IH]; intros seen; simpl.
  - rewrite app_nil_r. tauto.
  - rewrite IH, <- app_assoc. simpl. tauto.
Qed.

Lemma dget_mono (nodes extra : Nodes) d n : dget d nodes = Some n -> dget d (nodes ++ extra) = Some n.
Proof. intros H. by rewrite dget_app, H. Qed.

Lemma is_Some_mono (nodes extra : Nodes) d :
  is_Some (dget d nodes) -> is_Some (dget d (nodes ++ extra)).
Proof. intros [n H]. exists n. by apply dget_mono. Qed.

Lemma typed_mono nodes extra t d : typed nodes t d -> typed (nodes ++ extra) t d.
Proof. intros (n & H & Ht). exists n. split; [by apply dget_mono|done]. Qed.

Lemma shape_mono nodes extra n : shape nodes n -> shape (nodes ++ extra) n.
Proof.
  unfold shape. destruct (ws_step_type n); try done.
  - intros [[? H]|?]; [left|by right]. split; [done|].
    eapply Forall_impl; [exact H|]. intros. by apply typed_mono.
  - intros (k & ? & H). exists k. split; [done|]. by apply typed_mono.
  - intros [[? H]|?]; [left|by right]. split; [done|].
    eapply Forall_impl; [exact H|]. intros. by apply typed_mono.
Qed.

Lemma node_wf_mono nodes extra kn : node_wf nodes kn -> node_wf (nodes ++ extra) kn.
Proof. intros (?&?&?&?&?). unfold node_wf. ksplit. by apply shape_mono. Qed.

(** ** Adding a node *)

Lemma StepBudgetCost_new_ok_inv c c' : StepBudgetCost_new c = Ok c' -> c' = c.
Proof. unfold StepBudgetCost_new. intros H. by minv. Qed.

Lemma graph_add_new_ok_inv k t deps c low g g' x :
  graph_add_new k t deps c low g = (g', Ok x) ->
  exists n, n = {| ws_key := k; ws_step_type := t; ws_dependencies := deps; ws_budget := c;
                   ws_low_value_after_deadline := low |} /\
    dget k (g_nodes g) = None /\ Forall (fun d => d ∈ (g_nodes g).*1) deps /\
    WorkflowStepSpec_new k t deps c low = Ok n /\ StepBudgetCost_new c = Ok c /\
    g' = {| g_nodes := g_nodes g ++ [(k, n)]; g_stage := g_stage g |}.
Proof.
  unfold graph_add_new, graph_add. intros H. minv.
  pose proof (StepBudgetCost_new_ok_inv _ _ E) as ->.
  pose proof E0 as En. unfold WorkflowStepSpec_new in E0. minv. simpl in *. bools.
  assert (dget k (g_nodes g) = None) as Hk by (by destruct (dget k (g_nodes g))).
  eexists. split; [reflexivity|]. rewrite dset_fresh by done. ksplit.
  apply Forall_forall. intros d Hd. apply dget_is_Some.
  destruct (dget d (g_nodes g)) eqn:Ed; [done|]. exfalso.
  match goal with Hex : existsb _ deps = false |- _ =>
    apply not_true_iff_false in Hex; apply Hex, existsb_exists end.
  exists d. rewrite Ed. split; [by apply list_elem_of_In|done].
Qed.

Lemma graph_add_new_atomic k t deps c low : atomic (graph_add_new k t deps c low).
Proof. unfold graph_add_new, graph_add. atomically. Qed.

(** A node of the right shape and name keeps the graph well formed. *)
Lemma graph_add_new_wf k t deps c low g g' x :
  graph_add_new k t deps c low g = (g', Ok x) -> graph_wf g ->
  shape (g_nodes g) {| ws_key := k; ws_step_type := t; ws_dependencies := deps; ws_budget := c;
                       ws_low_value_after_deadline := low |} ->
  (forall t', named_type k = Some t' -> t = t') ->
  graph_wf g' /\ g_stage g' = g_stage g /\ typed (g_nodes g') t k /\
  (forall d, is_Some (dget d (g_nodes g)) -> is_Some (dget d (g_nodes g'))).
Proof.
  intros H [(Hn & Ht & HF) (Hr & Hp & Hs)] Hsh Hnm.
  apply graph_add_new_ok_inv in H as (n & En & Hk & Hd & Hw & Hc & ->). subst n. simpl.
  assert (forall d, is_Some (dget d (g_nodes g)) ->
    is_Some (dget d (g_nodes g ++ [(k, {| ws_key := k; ws_step_type := t; ws_dependencies := deps;
      ws_budget := c; ws_low_value_after_deadline := low |})]))) as Hm
    by (intros; by apply is_Some_mono).
  split; [|split; [done|split; [|exact Hm]]].
  - split.
    + split; [|split]; simpl.
      * rewrite fmap_app. apply NoDup_app.
        split; [done|]. split; [|apply NoDup_singleton]. intros y Hy Hy2. apply dget_None in Hk. simpl in Hy2.
        apply list_elem_of_singleton in Hy2 as ->. done.
      * apply topo_snoc. split; [done|]. exact Hd.
      * apply Forall_app. split.
        -- eapply Forall_impl; [exact HF|]. intros. by apply node_wf_mono.
        -- constructor; [|constructor]. unfold node_wf; simpl. ksplit. by apply shape_mono.
    + unfold stage_ok; simpl. split; [auto|]. split; [auto|]. destruct (g_stage g); [done|auto|].
      destruct Hs as (?&?&?). auto.
  - eexists. split; [rewrite dget_app, Hk; simpl; by rewrite decide_True|done].
Qed.

(** ** The construction calls *)

Inductive graph_op :=
| GraphAddDiscovery (query_key : pystr) (provider_slots : Z) (estimated_seconds : float)
| GraphSealDiscovery
| GraphAddFetchPipeline (source_key : pystr) (fetch_seconds : float)
| GraphSealSynthesis.

Definition graph_exec (op : graph_op) : M Graph unit :=
  match op with
  | GraphAddDiscovery q p e => _ ← add_discovery q p e; mret tt
  | GraphSealDiscovery => seal_discovery
  | GraphAddFetchPipeline s f => _ ← add_fetch_pipeline s f; mret tt
  | GraphSealSynthesis => seal_synthesis
  end.

(** One call, whether it returned or raised. *)
Definition graph_step (g g' : Graph) : Prop := exists op, fst (graph_exec op g) = g'.

(** The graphs a program can hold: [FastSearchGraph()] and what the calls make of it. *)
Definition reachable (g : Graph) : Prop := star graph_step FastSearchGraph_new g.

Definition new_nodes : Nodes :=
  [(u "route", {| ws_key := u "route"; ws_step_type := StepType_ROUTE; ws_dependencies := [];
      ws_budget := cost BudgetPhase_ROUTE_PLAN (flit 1 10) 0 0 0;
      ws_low_value_after_deadline := false |});
   (u "plan", {| ws_key := u "plan"; ws_step_type := StepType_PLAN;
      ws_dependencies := [u "route"];
      ws_budget := cost BudgetPhase_ROUTE_PLAN (flit 8 10) 0 0 0;
      ws_low_value_after_deadline := false |})].

Lemma FastSearchGraph_new_eq :
  FastSearchGraph_new = {| g_nodes := new_nodes; g_stage := GraphStage_OPEN |}.
Proof. vm_compute. reflexivity. Qed.

Lemma new_wf : graph_wf FastSearchGraph_new.
Proof.
  rewrite FastSearchGraph_new_eq. split.
  - split; [|split].
    + apply (bool_decide_unpack _). vm_compute. done.
    + simpl. split; [constructor|]. split; [|done]. constructor; [|constructor].
      apply list_elem_of_singleton. done.
    + unfold new_nodes. constructor; [|constructor; [|constructor]];
        (split; [done|]; split; [vm_compute; reflexivity|]; split; [vm_compute; reflexivity|];
         split; [done|]; intros t Ht; vm_compute in Ht; by simplify_eq).
  - unfold stage_ok. simpl. ksplit; by eexists.
Qed.

(** A name with a prefix is none of the fixed ones. *)
Lemma prefixed_name (c1 c2 : Z) rest k : k = c1 :: c2 :: rest ->
  (c1, c2) <> (114, 111) -> (c1, c2) <> (112, 108) -> (c1, c2) <> (115, 101) ->
  (c1, c2) <> (118, 101) -> (c1, c2) <> (115, 121) -> named_type k = None.
Proof.
  intros -> H1 H2 H3 H4 H5. apply dget_None. simpl. rewrite !not_elem_of_cons.
  ksplit; try apply not_elem_of_nil; intros [= -> -> _]; done.
Qed.

Lemma typed_default nodes t d rest :
  Forall (typed nodes t) rest ->
  (or_default rest d <> [] /\ Forall (typed nodes t) (or_default rest d)) \/ or_default rest d = [d].
Proof. destruct rest; simpl; [by right|left; by split]. Qed.

Lemma keys_of_type_typed t g : graph_wf g -> Forall (typed (g_nodes g) t) (keys_of_type t g).
Proof.
  intros [(Hn & _ & _) _]. apply Forall_forall. intros k Hk. unfold keys_of_type in Hk.
  apply list_elem_of_fmap in Hk as ([k' n] & -> & [Ht Hin]%list_elem_of_filter). simpl in *.
  exists n. split; [by apply dget_NoDup|done].
Qed.

(** [added H] continues with the two outcomes of an addition. *)
Ltac added E :=
  match goal with |- context [graph_add_new ?k ?t ?d ?c ?l ?g] =>
    destruct (graph_add_new k t d c l g) as [? [[]|?]] eqn:E;
    [| apply graph_add_new_atomic in E; subst; simpl; auto]
  end.

Lemma set_stage_wf stage g : graph_wf g ->
  stage_ok (g_set_stage stage g) -> graph_wf (g_set_stage stage g).
Proof. by intros [? _] ?. Qed.

Lemma add_discovery_wf q p e g : graph_wf g -> graph_wf (fst (add_discovery q p e g)).
Proof.
  intros Hg. unfold add_discovery, mbind, M_bind, self, raise_if.
  destruct (g_stage g isnot GraphStage_OPEN); simpl; [done|].
  destruct (blank q); simpl; [done|].
  added E. simpl. eapply graph_add_new_wf in E; [by apply E|done|done|].
  intros t Ht. erewrite (prefixed_name 100 105) in Ht; [done|reflexivity|done..].
Qed.

Lemma seal_discovery_wf g : graph_wf g -> graph_wf (fst (seal_discovery g)).
Proof.
  intros Hg. unfold seal_discovery, mbind, M_bind, self, raise_if.
  destruct (g_stage g isnot GraphStage_OPEN); simpl; [done|].
  added E. simpl. eapply graph_add_new_wf in E as (Hw & _ & (n & Hn & _) & _); [|done| |].
  - apply set_stage_wf; [done|]. destruct Hw as [_ (Hr & Hp & _)]. unfold stage_ok; simpl.
    ksplit; by eexists.
  - unfold shape; simpl. apply typed_default. by apply keys_of_type_typed.
  - intros t Ht. vm_compute in Ht. by simplify_eq.
Qed.

Lemma add_fetch_pipeline_wf s f g : graph_wf g -> graph_wf (fst (add_fetch_pipeline s f g)).
Proof.
  intros Hg. unfold add_fetch_pipeline, mbind, M_bind, self, raise_if.
  destruct (g_stage g isnot GraphStage_DISCOVERY_SEALED); simpl; [done|].
  destruct (blank s); simpl; [done|].
  added E. eapply graph_add_new_wf in E as (Hw & _ & Ht & _); [|done|done|].
  - added E2. simpl. eapply graph_add_new_wf in E2 as [Hw2 _]; [done|done| |].
    + unfold shape; simpl. by exists (u "fetch:" ++ s).
    + intros t Ht'. erewrite (prefixed_name 101 120) in Ht'; [done|reflexivity|done..].
  - intros t Ht. erewrite (prefixed_name 102 101) in Ht; [done|reflexivity|done..].
Qed.

Lemma seal_synthesis_wf g : graph_wf g -> graph_wf (fst (seal_synthesis g)).
Proof.
  intros Hg. unfold seal_synthesis, mbind, M_bind, self, raise_if.
  destruct (decide (g_stage g = GraphStage_DISCOVERY_SEALED)) as [Hs|Hs];
    [rewrite bool_decide_eq_true_2 by done | by rewrite bool_decide_eq_false_2 by done].
  simpl. added E. eapply graph_add_new_wf in E as (Hw & Hst & (nv & Hv & _) & Hm); [|done| |].
  - added E2. simpl.
    eapply graph_add_new_wf in E2 as (Hw2 & _ & (ns & Hns & _) & Hm2); [|done|done|].
    + apply set_stage_wf; [done|]. destruct Hw2 as [_ (Hr & Hp & _)]. unfold stage_ok; simpl.
      split; [done|]. split; [done|]. split; [|split; [apply Hm2; by eexists|by eexists]].
      apply Hm2, Hm. destruct Hg as [_ (_ & _ & Hsel)]. by rewrite Hs in Hsel.
    + intros t Ht. vm_compute in Ht. by simplify_eq.
  - unfold shape; simpl. apply typed_default. by apply keys_of_type_typed.
  - intros t Ht. vm_compute in Ht. by simplify_eq.
Qed.

Lemma graph_step_wf g g' : graph_wf g -> graph_step g g' -> graph_wf g'.
Proof.
  intros Hg [op <-]. destruct op as [q p e| |s f|]; simpl.
  - unfold mbind, M_bind. pose proof (add_discovery_wf q p e g Hg).
    by destruct (add_discovery q p e g) as [? []].
  - by apply seal_discovery_wf.
  - unfold mbind, M_bind. pose proof (add_fetch_pipeline_wf s f g Hg).
    by destruct (add_fetch_pipeline s f g) as [? []].
  - by apply seal_synthesis_wf.
Qed.

Lemma reachable_wf g : reachable g -> graph_wf g.
Proof. intros H. eapply star_invariant; [apply graph_step_wf | exact H | apply new_wf]. Qed.

(** ** Scheduling *)

Lemma topo_split seen nodes l1 k n l2 : topo seen nodes -> nodes = l1 ++ (k, n) :: l2 ->
  forall d, d ∈ ws_dependencies n -> d ∈ seen ++ l1.*1.
Proof.
  revert seen nodes. induction l1 as [|[k1 n1] l1 IH]; intros seen nodes Ht -> d Hd; simpl in Ht.
  - destruct Ht as [H _]. rewrite Forall_forall in H. rewrite app_nil_r. by apply H.
  - destruct Ht as [_ Ht]. specialize (IH _ _ Ht eq_refl d Hd). rewrite <- app_assoc in IH. done.
Qed.

(** Claim C33. Whatever calls are made on a workflow graph, in whatever order and whether or not
    they raise: step keys are unique and stored under their own name, every dependency is declared
    before the node that needs it (so the graph is acyclic), every kind of step depends exactly on
    the kinds it should, and a sealed stage has its select, verify and synthesize steps. *)
Theorem graph_always_wf g :
  reachable g ->
  NoDup (g_nodes g).*1 /\
  (forall l1 k n l2, g_nodes g = l1 ++ (k, n) :: l2 ->
     k = ws_key n /\ shape (g_nodes g) n /\ (forall d, d ∈ ws_dependencies n -> d ∈ l1.*1)) /\
  stage_ok g.
Proof.
  intros Hr. destruct (reachable_wf g Hr) as [(Hn & Ht & HF) Hs]. split; [done|]. split; [|done].
  intros l1 k n l2 E. rewrite E in HF at 2. apply Forall_app in HF as [_ HF].
  apply Forall_cons in HF as [(Hk & _ & _ & Hsh & _) _]. simpl in *. ksplit.
  intros d Hd. exact (topo_split [] _ _ _ _ _ Ht E d Hd).
Qed.

Lemma skip_keys_spec g statuses k : k ∈ skip_keys g statuses <->
  exists n, (k, n) ∈ g_nodes g /\ skippable statuses k n = true.
Proof.
  unfold skip_keys. rewrite list_elem_of_fmap. split.
  - intros ([k' n] & -> & [Hs Hin]%list_elem_of_filter). exists n. split; [done|].
    by apply Is_true_eq_true.
  - intros (n & Hin & Hs). exists (k, n). split; [done|]. apply list_elem_of_filter.
    split; [|done]. by apply Is_true_eq_left.
Qed.

Lemma ready_nodes_spec g statuses n : n ∈ ready_nodes g statuses <->
  exists k, (k, n) ∈ g_nodes g /\ status_or_ready statuses k = StepStatus_READY /\
    (k ∉ skip_keys g statuses) /\ dependencies_satisfied g statuses n = true.
Proof.
  unfold ready_nodes. rewrite list_elem_of_fmap. split.
  - intros ([k n'] & -> & [Hs Hin]%list_elem_of_filter). simpl in *.
    apply Is_true_eq_true in Hs. bools. exists k. done.
  - intros (k & Hin & H1 & H2 & H3). exists (k, n). split; [done|]. apply list_elem_of_filter.
    split; [|done]. apply Is_true_eq_left. simpl.
    rewrite bool_decide_eq_true_2, bool_decide_eq_false_2, H3 by done. done.
Qed.

Lemma forallb_elem {A} (f : A -> bool) l : forallb f l = true <-> forall x, x ∈ l -> f x = true.
Proof. rewrite forallb_forall. by setoid_rewrite list_elem_of_In. Qed.

Lemma dep_succeeded_terminal statuses d : dep_succeeded statuses d = true ->
  dep_terminal statuses d = true.
Proof. unfold dep_succeeded, dep_terminal. intros H. bools. by rewrite H. Qed.

Lemma satisfied_terminal g statuses n : dependencies_satisfied g statuses n = true ->
  forall d, d ∈ ws_dependencies n -> dep_terminal statuses d = true.
Proof.
  unfold dependencies_satisfied. intros H d Hd.
  repeat case_match; bools; rewrite ?forallb_elem in *; auto using dep_succeeded_terminal.
Qed.

Lemma known_statuses g (statuses : Statuses) :
  (forall k, k ∈ statuses.*1 -> is_Some (dget k (g_nodes g))) ->
  existsb (fun ks => is_none (dget ks.1 (g_nodes g))) statuses = false.
Proof.
  intros Hk. apply not_true_iff_false. rewrite existsb_exists. intros ([k s] & Hin & Hx).
  apply list_elem_of_In in Hin. destruct (Hk k) as [n En].
  { apply list_elem_of_fmap. by exists (k, s). }
  simpl in Hx. by rewrite En in Hx.
Qed.

(** Before the deadline, scheduling a sealed graph returns a sound step: every submitted
    node is a READY node of the graph whose dependencies are all terminal; every skipped one is a
    READY EXTRACT or VERIFY step whose dependencies are all terminal and that lost its input; no
    step is both; and nothing is cancelled or released. *)
Theorem advance_sound g statuses guard now deadline :
  g_stage g = GraphStage_SYNTHESIS_SEALED ->
  (forall k, k ∈ statuses.*1 -> is_Some (dget k (g_nodes g))) ->
  non_synthesis_deadline guard = Ok deadline -> dt_aware deadline = true -> dt_aware now = true ->
  dt_us now < dt_us deadline ->
  exists a, graph_advance g statuses guard now = Ok a /\
    wa_cancel a = [] /\ wa_release_reservations a = [] /\ wa_deadline_fallback a = false /\
    (forall n, n ∈ wa_submit a -> exists k, (k, n) ∈ g_nodes g /\
       status_or_ready statuses k = StepStatus_READY /\ (k ∉ wa_skip a) /\
       (forall d, d ∈ ws_dependencies n -> dep_terminal statuses d = true)) /\
    (forall k, k ∈ wa_skip a -> exists n, (k, n) ∈ g_nodes g /\
       ws_step_type n ∈ [StepType_EXTRACT; StepType_VERIFY] /\
       status_or_ready statuses k = StepStatus_READY /\
       (forall d, d ∈ ws_dependencies n -> dep_terminal statuses d = true) /\
       (ws_dependencies n = [] \/
        exists d, d ∈ ws_dependencies n /\ dep_succeeded statuses d = false)).
Proof.
  intros Hs Hk Hd Ha Hn Hlt. unfold graph_advance. rewrite Hs. simpl.
  rewrite known_statuses by done. simpl. rewrite Hd. simpl. unfold dt_le. rewrite dt_cmp_aware by done. simpl.
  replace (dt_us deadline <=? dt_us now) with false by lia.
  eexists. split; [done|]. simpl. ksplit.
  - intros n (k & ? & ? & ? & Hdep)%ready_nodes_spec. exists k. ksplit.
    by apply (satisfied_terminal g).
  - intros k (n & Hin & Hsk)%skip_keys_spec. exists n. unfold skippable in Hsk. bools.
    apply orb_true_iff in H. rewrite !bool_decide_eq_true in H.
    split; [done|]. split; [destruct H as [->| ->]; set_solver|]. split; [done|].
    split; [by apply forallb_elem|].
    destruct (decide (ws_dependencies n = [])) as [|Hne]; [by left|right].
    case_match.
    + apply existsb_exists in H0 as (d & Hin' & Hd'). bools. exists d.
      split; [by apply list_elem_of_In|done].
    + destruct (ws_dependencies n) as [|d ds]; [done|]. simpl in H0. bools. exists d.
      split; [set_solver|done].
Qed.

Lemma graph_synthesize g : graph_wf g -> g_stage g = GraphStage_SYNTHESIS_SEALED ->
  exists n, dget (u "synthesize") (g_nodes g) = Some n /\ ws_step_type n = StepType_SYNTHESIZE /\
    ws_low_value_after_deadline n = false.
Proof.
  intros [(Hn & _ & HF) (_ & _ & Hs)] E. rewrite E in Hs. destruct Hs as (_ & _ & n & En).
  exists n. split; [done|]. rewrite Forall_forall in HF.
  destruct (HF _ (dget_elem _ _ _ En)) as (_ & _ & _ & Hsh & Hnm). simpl in *.
  specialize (Hnm StepType_SYNTHESIZE eq_refl). split; [done|].
  unfold shape in Hsh. rewrite Hnm in Hsh. by destruct Hsh.
Qed.

(** At or after the deadline, scheduling a sealed graph falls back: the only step ever
    submitted is synthesis, and it is submitted exactly when still READY; exactly the low-value
    steps that are not terminal are cancelled, never synthesis itself; and the reservations
    released are those of the cancelled steps that were not running. *)
Theorem advance_deadline g statuses guard now deadline :
  reachable g -> g_stage g = GraphStage_SYNTHESIS_SEALED ->
  (forall k, k ∈ statuses.*1 -> is_Some (dget k (g_nodes g))) ->
  non_synthesis_deadline guard = Ok deadline -> dt_aware deadline = true -> dt_aware now = true ->
  dt_us deadline <= dt_us now ->
  exists a, graph_advance g statuses guard now = Ok a /\ wa_deadline_fallback a = true /\
    wa_skip a = [] /\
    map ws_key (wa_submit a)
      = (if status_or_ready statuses (u "synthesize") is StepStatus_READY
         then [u "synthesize"] else []) /\
    (forall k, k ∈ wa_cancel a <-> exists n, (k, n) ∈ g_nodes g /\
       ws_low_value_after_deadline n = true /\ step_terminal (status_or_ready statuses k) = false) /\
    (u "synthesize" ∉ wa_cancel a) /\
    (forall k, k ∈ wa_release_reservations a <->
       k ∈ wa_cancel a /\ status_or_ready statuses k <> StepStatus_RUNNING).
Proof.
  intros Hr Hs Hk Hd Ha Hn Hle. pose proof (reachable_wf g Hr) as Hw.
  destruct (graph_synthesize g Hw Hs) as (syn & Esyn & _ & Hlow).
  unfold graph_advance. rewrite Hs. simpl.
  rewrite known_statuses by done. simpl. rewrite Hd. simpl. unfold dt_le. rewrite dt_cmp_aware by done. simpl.
  replace (dt_us deadline <=? dt_us now) with true by lia.
  unfold deadline_advance. rewrite Esyn. eexists. split; [done|].
  cbn [wa_deadline_fallback wa_skip wa_submit wa_cancel wa_release_reservations].
  assert (forall k, k ∈ (base.filter (fun kn =>
      Is_true (ws_low_value_after_deadline kn.2 && cancellable (status_or_ready statuses kn.1)))
      (g_nodes g)).*1 <-> exists n, (k, n) ∈ g_nodes g /\
       ws_low_value_after_deadline n = true /\ step_terminal (status_or_ready statuses k) = false) as Hc.
  { intros k. assert (forall s, cancellable s = negb (step_terminal s)) as Hcan by (by intros []).
    rewrite list_elem_of_fmap. split.
    - intros ([k' n] & -> & [Hx Hin]%list_elem_of_filter). apply Is_true_eq_true in Hx.
      simpl in *. rewrite Hcan in Hx. bools. by exists n.
    - intros (n & Hin & Hl & Ht). exists (k, n). split; [done|]. apply list_elem_of_filter.
      simpl. rewrite Hl, Hcan, Ht. by split. }
  split; [done|]. split; [done|]. split; [|split; [exact Hc|split]].
  - destruct Hw as [(_ & _ & HF) _]. rewrite Forall_forall in HF.
    destruct (HF _ (dget_elem _ _ _ Esyn)) as [Hkey _]. simpl in Hkey.
    case_match; simpl; [by rewrite <- Hkey|done].
  - intros (n & Hin & Hl & _)%Hc. apply (dget_NoDup _ _ _ (proj1 (proj1 Hw))) in Hin. congruence.
  - intros k. rewrite list_elem_of_filter. split.
    + intros [Hx Hin]. split; [done|]. intros E. rewrite E in Hx. set_solver.
    + intros [Hin Hx]. split; [|done]. apply Hc in Hin as (n & _ & _ & Ht).
      destruct (status_or_ready statuses k); try done; set_solver.
Qed.

(** *** Progress *)

Lemma first_failing {A} (P : A -> Prop) `{forall x, Decision (P x)} (l : list A) :
  Forall P l \/ exists l1 x l2, l = l1 ++ x :: l2 /\ Forall P l1 /\ ~ P x.
Proof.
  induction l as [|a l [IH|(l1 & x & l2 & -> & H1 & H2)]]; [by left| |].
  - destruct (decide (P a)); [left; by constructor|right]. by exists [], a, l.
  - destruct (decide (P a)); right; [|by exists [], a, (l1 ++ x :: l2)].
    exists (a :: l1), x, l2. ksplit. by constructor.
Qed.

(** A status other than READY was recorded. *)
Lemma terminal_recorded statuses k : step_terminal (status_or_ready statuses k) = true ->
  dep_terminal statuses k = true.
Proof. unfold status_or_ready, dep_terminal. by destruct (dget k statuses). Qed.

Lemma typed_named nodes k t : Forall (node_wf nodes) nodes -> named_type k = Some t ->
  forall n, dget k nodes = Some n -> ws_step_type n = t.
Proof.
  rewrite Forall_forall. intros HF Hk n Hn.
  destruct (HF _ (dget_elem _ _ _ Hn)) as (_ & _ & _ & _ & H). by apply H.
Qed.

Lemma dep_type_in_false g types d t :
  (forall n, dget d (g_nodes g) = Some n -> ws_step_type n = t) -> t ∉ types ->
  dep_type_in g types d = false.
Proof.
  intros H Ht. unfold dep_type_in. destruct (dget d (g_nodes g)) as [n|]; [|done].
  rewrite (H n eq_refl). by apply bool_decide_eq_false_2.
Qed.

Lemma typed_dep_type_in g types t d : typed (g_nodes g) t d -> t ∈ types ->
  dep_type_in g types d = true.
Proof.
  intros (n & E & <-) Ht. unfold dep_type_in. rewrite E. by apply bool_decide_eq_true_2.
Qed.

Lemma all_typed_dep_type_in g types t deps : Forall (typed (g_nodes g) t) deps -> t ∈ types ->
  forallb (dep_type_in g types) deps = true.
Proof.
  intros HF Ht. apply forallb_elem. intros d Hd. rewrite Forall_forall in HF.
  eapply typed_dep_type_in; [by apply HF|done].
Qed.

(** A READY node all of whose dependencies are terminal can be submitted or skipped, provided the
    bootstrap steps it may depend on did not fail. *)
Lemma ready_or_skipped g statuses k n :
  Forall (node_wf (g_nodes g)) (g_nodes g) -> (k, n) ∈ g_nodes g ->
  status_or_ready statuses k = StepStatus_READY ->
  (forall d, d ∈ ws_dependencies n -> is_Some (dget d (g_nodes g))) ->
  (forall d, d ∈ ws_dependencies n -> dep_terminal statuses d = true) ->
  (forall d, d ∈ [u "route"; u "plan"; u "select"] -> dep_terminal statuses d = true ->
     dep_succeeded statuses d = true) ->
  skippable statuses k n = true \/ dependencies_satisfied g statuses n = true.
Proof.
  intros HF Hin Hst Hnode Hdt Hboot. pose proof HF as HF'. rewrite Forall_forall in HF'.
  destruct (HF' _ Hin) as (_ & _ & _ & Hsh & _). simpl in Hsh. clear HF'.
  assert (forall d, ws_dependencies n = [d] -> d ∈ [u "route"; u "plan"; u "select"] ->
    forallb (dep_succeeded statuses) (ws_dependencies n) = true) as Hone.
  { intros d E Hd. rewrite E. simpl. rewrite Hboot; [done|done|]. apply Hdt. rewrite E. set_solver. }
  assert (forallb (dep_terminal statuses) (ws_dependencies n) = true) as Hall by by apply forallb_elem.
  unfold skippable, dependencies_satisfied, shape in *.
  destruct (ws_step_type n) eqn:Et; cbn [bool_decide] in *.
  - right. rewrite Hsh. done.
  - right. simpl. apply (Hone (u "route")); [done|set_solver].
  - right. simpl. apply (Hone (u "plan")); [done|set_solver].
  - right. simpl. destruct Hsh as [[_ Hd]|Hd].
    + rewrite (all_typed_dep_type_in g _ StepType_DISCOVERY) by (done || set_solver). done.
    + rewrite Hd at 1. simpl.
      rewrite (dep_type_in_false g _ _ StepType_PLAN);
        [|by eapply typed_named|set_solver].
      simpl. apply (Hone (u "plan")); [done|set_solver].
  - right. simpl. apply (Hone (u "select")); [done|set_solver].
  - destruct Hsh as (f & Hd & _). rewrite Hst, Hall, Hd. simpl.
    destruct (dep_succeeded statuses f); simpl; [by right|by left].
  - rewrite Hst, Hall. simpl. destruct Hsh as [[_ Hd]|Hd].
    + rewrite (all_typed_dep_type_in g _ StepType_EXTRACT) by (done || set_solver). simpl.
      destruct (existsb (dep_succeeded statuses) (ws_dependencies n)) eqn:E; [by right|left].
      apply forallb_elem. intros d Hin'. apply negb_true_iff, not_true_iff_false. intros Hx.
      apply not_true_iff_false in E. apply E, existsb_exists. exists d.
      split; [by apply list_elem_of_In|done].
    + right. rewrite Hd at 1. simpl.
      rewrite (dep_type_in_false g _ _ StepType_SELECT);
        [|by eapply typed_named|set_solver].
      simpl. apply (Hone (u "select")); [done|set_solver].
  - right. destruct Hsh as [Hd _]. simpl.
    destruct (forallb (dep_type_in g [StepType_DISCOVERY; StepType_VERIFY]) (ws_dependencies n)) eqn:E;
      [done|].
    exfalso. rewrite Hd in E. simpl in E. rewrite andb_true_r in E.
    assert (dep_terminal statuses (u "verify") = true) as Hv by (apply Hdt; rewrite Hd; set_solver).
    unfold dep_type_in in E. destruct (dget (u "verify") (g_nodes g)) as [v|] eqn:Ev.
    + by rewrite (typed_named _ (u "verify") StepType_VERIFY HF eq_refl v Ev) in E.
    + destruct (Hnode (u "verify")) as [v Ev']; [rewrite Hd; set_solver|congruence].
  - done.
Qed.

Lemma known_or_ready (statuses : Statuses) k : step_terminal (status_or_ready statuses k) = false ->
  status_or_ready statuses k <> StepStatus_RUNNING ->
  status_or_ready statuses k <> StepStatus_RETRY_WAIT ->
  status_or_ready statuses k = StepStatus_READY.
Proof. by destruct (status_or_ready statuses k). Qed.

(** The scheduler never stalls: for a sealed graph the construction calls built, when
    nothing is running or waiting for a retry and route, plan and select did not end without
    success, then before the deadline either every step of the graph is already terminal or the
    scheduling step submits or skips at least one step. *)
Lemma advance_progress g statuses guard now a :
  reachable g -> graph_advance g statuses guard now = Ok a -> wa_deadline_fallback a = false ->
  (forall k, status_or_ready statuses k <> StepStatus_RUNNING /\
             status_or_ready statuses k <> StepStatus_RETRY_WAIT) ->
  (forall d, d ∈ [u "route"; u "plan"; u "select"] -> dep_terminal statuses d = true ->
     dep_succeeded statuses d = true) ->
  (forall k, k ∈ (g_nodes g).*1 -> step_terminal (status_or_ready statuses k) = true) \/
  wa_submit a <> [] \/ wa_skip a <> [].
Proof.
  intros Hr Ha Hf Hidle Hboot. destruct (reachable_wf g Hr) as [(Hn & Ht & HF) _].
  unfold graph_advance in Ha. minv.
  match type of Ha with (if ?b then _ else _) = _ => destruct b end;
    [by unfold deadline_advance in Ha; case_match; simplify_eq|]. simplify_eq. simpl.
  destruct (first_failing (fun kn => step_terminal (status_or_ready statuses kn.1) = true)
              (g_nodes g)) as [Hall|(l1 & [k n] & l2 & Enodes & Hbefore & Hk)].
  { left. intros k ([k' n] & -> & Hin)%list_elem_of_fmap. rewrite Forall_forall in Hall.
    by apply (Hall (k', n)). }
  right. simpl in Hk. apply not_true_iff_false in Hk.
  assert (status_or_ready statuses k = StepStatus_READY) as Hst
    by (apply known_or_ready; [done|apply Hidle|apply Hidle]).
  assert ((k, n) ∈ g_nodes g) as Hin by (rewrite Enodes; set_solver).
  assert (forall d, d ∈ ws_dependencies n -> d ∈ l1.*1) as Hdeps
    by exact (topo_split [] _ _ _ _ _ Ht Enodes).
  destruct (ready_or_skipped g statuses k n) as [Hs|Hs]; try done.
  - intros d Hd. apply Hdeps in Hd. apply dget_is_Some in Hd. rewrite Enodes. by apply is_Some_mono.
  - intros d ([d' m] & -> & Hm)%Hdeps%list_elem_of_fmap. rewrite Forall_forall in Hbefore.
    apply terminal_recorded. by apply (Hbefore (d', m)).
  - right. intros En. assert (k ∈ skip_keys g statuses) as Hx by (apply skip_keys_spec; by exists n).
    rewrite En in Hx. set_solver.
  - destruct (decide (k ∈ skip_keys g statuses)) as [Hx|Hx].
    + right. intros En. rewrite En in Hx. set_solver.
    + left. intros En. assert (n ∈ ready_nodes g statuses) as Hy
        by (apply ready_nodes_spec; by exists k).
      rewrite En in Hy. set_solver.
Qed.

(** ** Examples *)

Lemma after_reachable ops : reachable (after graph_exec ops FastSearchGraph_new).
Proof.
  unfold reachable. generalize FastSearchGraph_new.
  induction ops as [|op ops IH]; intros g; simpl; [constructor|].
  econstructor; [by exists op|apply IH].
Qed.

Definition ex_graph_ops : list graph_op :=
  [GraphAddDiscovery (u "q1") 1 (float_of_Z 1); GraphSealDiscovery;
   GraphAddFetchPipeline (u "s1") (float_of_Z 1); GraphAddFetchPipeline (u "s1") (float_of_Z 1);
   GraphSealSynthesis].

Definition ex_graph : Graph := Eval vm_compute in after graph_exec ex_graph_ops FastSearchGraph_new.

Lemma ex_graph_reachable : reachable ex_graph.
Proof.
  replace ex_graph with (after graph_exec ex_graph_ops FastSearchGraph_new) by (vm_compute; reflexivity).
  apply after_reachable.
Qed.

(** Discovery and selection are done, the fetch failed. *)
Definition ex_statuses : Statuses :=
  [(u "route", StepStatus_SUCCEEDED); (u "plan", StepStatus_SUCCEEDED);
   (u "discover:q1", StepStatus_SUCCEEDED); (u "select", StepStatus_SUCCEEDED);
   (u "fetch:s1", StepStatus_FAILED)].

Lemma ex_statuses_known k : k ∈ ex_statuses.*1 -> is_Some (dget k (g_nodes ex_graph)).
Proof.
  intros H. apply dget_is_Some. revert k H. apply Forall_forall.
  apply (bool_decide_unpack _). vm_compute. done.
Qed.

Lemma graph_always_wf_witness : NoDup (g_nodes ex_graph).*1 /\ length (g_nodes ex_graph) = 8%nat.
Proof. split; [exact (proj1 (graph_always_wf ex_graph ex_graph_reachable)) | reflexivity]. Defined.

Lemma advance_sound_witness :
  exists a, graph_advance ex_graph ex_statuses fast_snapshot (utc 5000000) = Ok a /\
    wa_cancel a = [] /\ wa_release_reservations a = [] /\ wa_deadline_fallback a = false.
Proof.
  destruct (advance_sound ex_graph ex_statuses fast_snapshot (utc 5000000) (utc 13000000)
    eq_refl ex_statuses_known eq_refl eq_refl eq_refl ltac:(reflexivity))
    as (a & H & Hc & Hr & Hf & _).
  exists a. repeat split; assumption.
Defined.

Lemma advance_deadline_witness :
  exists a, graph_advance ex_graph ex_statuses fast_snapshot (utc 13000000) = Ok a /\
    wa_deadline_fallback a = true /\ wa_skip a = [] /\ map ws_key (wa_submit a) = [u "synthesize"].
Proof.
  destruct (advance_deadline ex_graph ex_statuses fast_snapshot (utc 13000000) (utc 13000000)
    ex_graph_reachable eq_refl ex_statuses_known eq_refl eq_refl eq_refl ltac:(discriminate))
    as (a & H & Hf & Hs & Hm & _).
  exists a. repeat split; assumption.
Defined.

Section Runs.
Context (g : Graph) (guard : BudgetGuard) (clock : nat -> datetime)
  (finish : nat -> pystr -> StepStatus).

(** The statuses after a round: [finish] says how the submitted steps ended. *)
Definition after_round (round : nat) (a : WorkflowAdvance) (statuses : Statuses) : Statuses :=
  foldl (fun s k => dset k StepStatus_SKIPPED s)
    (foldl (fun s n => dset (ws_key n) (finish round (ws_key n)) s) statuses (wa_submit a)) (wa_skip a).

(** [None] when [fuel] rounds were not enough. *)
Fixpoint drive (fuel round : nat) (statuses : Statuses) : res (option Statuses) :=
  match fuel with
  | O => Ok None
  | S fuel =>
      a ← graph_advance g statuses guard (clock round);
      if bool_decide (wa_submit a = []) && bool_decide (wa_skip a = []) then Ok (Some statuses)
      else drive fuel (S round) (after_round round a statuses)
  end.

(** What the rounds record: steps of the graph, ended, the bootstrap ones with success. *)
Definition recorded (statuses : Statuses) : Prop :=
  forall k s, dget k statuses = Some s ->
    is_Some (dget k (g_nodes g)) /\ step_terminal s = true /\
    (k ∈ [u "route"; u "plan"; u "select"] -> s = StepStatus_SUCCEEDED).

Definition todo (statuses : Statuses) : nat :=
  length (base.filter (fun kn => dget kn.1 statuses = None) (g_nodes g)).

Lemma dget_foldl {A} (key : A -> pystr) (f : A -> StepStatus) l (statuses : Statuses) k :
  dget k (foldl (fun s x => dset (key x) (f x) s) statuses l) = dget k statuses \/
  exists x, x ∈ l /\ key x = k /\ dget k (foldl (fun s x => dset (key x) (f x) s) statuses l) = Some (f x).
Proof.
  revert statuses. induction l as [|x l IH]; intros statuses; [by left|]. simpl.
  destruct (IH (dset (key x) (f x) statuses)) as [E|(y & Hy & Ek & E)]; rewrite E.
  - destruct (decide (key x = k)) as [<-|Hne].
    + right. exists x. rewrite dget_dset_eq. split; [set_solver|done].
    + left. by apply dget_dset_ne.
  - right. exists y. split; [set_solver|done].
Qed.

Lemma dget_foldl_mono {A} (key : A -> pystr) (f : A -> StepStatus) l (statuses : Statuses) k :
  (is_Some (dget k statuses) \/ k ∈ map key l) ->
  is_Some (dget k (foldl (fun s x => dset (key x) (f x) s) statuses l)).
Proof.
  revert statuses. induction l as [|x l IH]; intros statuses H; simpl; [by destruct H as [|H%elem_of_nil]|].
  apply IH. destruct (decide (key x = k)) as [<-|Hne]; [left; rewrite dget_dset_eq; by eexists|].
  rewrite dget_dset_ne by done. destruct H as [|[|]%elem_of_cons]; [by left|done|by right].
Qed.

(** How a round records a key. *)
Lemma after_round_get round a statuses k :
  dget k (after_round round a statuses) = dget k statuses \/
  (exists n, n ∈ wa_submit a /\ ws_key n = k /\
     dget k (after_round round a statuses) = Some (finish round (ws_key n))) \/
  (k ∈ wa_skip a /\ dget k (after_round round a statuses) = Some StepStatus_SKIPPED).
Proof.
  unfold after_round. destruct (dget_foldl (fun k => k) (fun _ => StepStatus_SKIPPED) (wa_skip a)
    (foldl (fun s n => dset (ws_key n) (finish round (ws_key n)) s) statuses (wa_submit a)) k)
    as [E|(x & Hx & <- & E)]; rewrite E; [|by right; right].
  destruct (dget_foldl ws_key (fun n => finish round (ws_key n)) (wa_submit a) statuses k)
    as [E'|(n & Hn & Ek & E')]; rewrite E'; [by left|right; left]. by exists n.
Qed.

Lemma after_round_done round a statuses k :
  is_Some (dget k statuses) \/ k ∈ map ws_key (wa_submit a) \/ k ∈ wa_skip a ->
  is_Some (dget k (after_round round a statuses)).
Proof.
  intros H. unfold after_round. apply (dget_foldl_mono (fun k => k)). rewrite map_id.
  destruct H as [H|[H|H]]; [left|left|by right]; apply dget_foldl_mono; [by left|by right].
Qed.

Lemma filter_shrinks {A} (P Q : A -> Prop) `{forall x, Decision (P x)} `{forall x, Decision (Q x)} l x :
  (forall y, P y -> Q y) -> x ∈ l -> Q x -> ~ P x ->
  (length (base.filter P l) < length (base.filter Q l))%nat.
Proof.
  intros HPQ. assert (forall l, length (base.filter P l) <= length (base.filter Q l))%nat as HL.
  { intros l'. induction l' as [|y l' IH]; [done|]. rewrite !filter_cons.
    destruct (decide (P y)), (decide (Q y)); simpl; try lia. exfalso. eauto. }
  intros Hx HQ HP. apply list_elem_of_split in Hx as (l1 & l2 & ->). rewrite !filter_app, !length_app.
  rewrite !filter_cons. rewrite decide_False, decide_True by done. simpl.
  pose proof (HL l1). pose proof (HL l2). lia.
Qed.

Lemma recorded_status statuses k : recorded statuses ->
  status_or_ready statuses k = StepStatus_READY -> dget k statuses = None.
Proof.
  intros HR. unfold status_or_ready. destruct (dget k statuses) as [s|] eqn:E; [|done].
  simpl. intros ->. by destruct (HR _ _ E) as (_ & ? & _).
Qed.

Lemma recorded_known statuses : recorded statuses ->
  forall k, k ∈ statuses.*1 -> is_Some (dget k (g_nodes g)).
Proof. intros HR k [s E]%dget_is_Some. by destruct (HR _ _ E). Qed.

Hypothesis Hreach : reachable g.
Hypothesis Hsealed : g_stage g = GraphStage_SYNTHESIS_SEALED.
Context (deadline : datetime).
Hypothesis Hdeadline : non_synthesis_deadline guard = Ok deadline.
Hypothesis Haware : dt_aware deadline = true.
Hypothesis Hclock : forall i, dt_aware (clock i) = true /\ dt_us (clock i) < dt_us deadline.
Hypothesis Hfinish : forall i k, step_terminal (finish i k) = true.
Hypothesis Hboot : forall i k, k ∈ [u "route"; u "plan"; u "select"] -> finish i k = StepStatus_SUCCEEDED.

(** Before the deadline, the step the scheduler returns. *)
Lemma advance_early statuses round : recorded statuses ->
  graph_advance g statuses guard (clock round) =
    Ok {| wa_submit := ready_nodes g statuses; wa_cancel := []; wa_skip := skip_keys g statuses;
          wa_release_reservations := []; wa_deadline_fallback := false |}.
Proof using All.
  intros HR. destruct (Hclock round) as [H1 H2]. unfold graph_advance. rewrite Hsealed. simpl.
  rewrite known_statuses by by apply recorded_known. simpl. rewrite Hdeadline. simpl.
  unfold dt_le. rewrite dt_cmp_aware by done. simpl.
  by replace (dt_us deadline <=? dt_us (clock round)) with false by lia.
Qed.

Lemma round_recorded statuses round a : recorded statuses ->
  graph_advance g statuses guard (clock round) = Ok a -> recorded (after_round round a statuses).
Proof using All.
  intros HR. rewrite advance_early by done. intros [= <-] k s.
  destruct (reachable_wf g Hreach) as [(Hn & _ & HF) _]. pose proof HF as HF'. rewrite Forall_forall in HF'.
  match goal with |- context [after_round round ?a statuses] =>
    destruct (after_round_get round a statuses k) as [->|[(n & Hin & Ek & ->)|[Hin ->]]] end.
  - apply HR.
  - intros [= <-]. apply ready_nodes_spec in Hin as (k' & Hin & _).
    destruct (HF' _ Hin) as [Ek' _]. simpl in Ek'. subst k'. rewrite Ek in *.
    split; [by eexists; apply dget_NoDup|]. by split; [|apply Hboot].
  - intros [= <-]. apply skip_keys_spec in Hin as (n & Hin & Hs).
    apply (dget_NoDup _ _ _ Hn) in Hin as Hg. split; [by eexists|]. split; [done|].
    intros Hk. exfalso. unfold skippable in Hs. bools.
    assert (exists t, named_type k = Some t /\ t ∉ [StepType_EXTRACT; StepType_VERIFY]) as (t & Ht & Hne).
    { rewrite !elem_of_cons, elem_of_nil in Hk. destruct Hk as [-> |[-> |[-> |[]]]]; eexists; (split; [reflexivity|set_solver]). }
    apply Hne. rewrite <- (typed_named _ _ _ HF Ht n Hg).
    match goal with HO : _ || _ = true |- _ => apply orb_true_iff in HO; rewrite !bool_decide_eq_true in HO;
      destruct HO as [-> | ->]; set_solver end.
Qed.

(** A round that does something leaves fewer steps to do. *)
Lemma round_shrinks statuses round a : recorded statuses ->
  graph_advance g statuses guard (clock round) = Ok a -> wa_submit a <> [] \/ wa_skip a <> [] ->
  (todo (after_round round a statuses) < todo statuses)%nat.
Proof using All.
  intros HR. rewrite advance_early by done. intros [= <-] Hne. cbn [wa_submit wa_skip] in Hne.
  destruct (reachable_wf g Hreach) as [(Hn & _ & HF) _]. rewrite Forall_forall in HF.
  assert (exists k n, (k, n) ∈ g_nodes g /\ status_or_ready statuses k = StepStatus_READY /\
    (k ∈ map ws_key (ready_nodes g statuses) \/ k ∈ skip_keys g statuses)) as (k & n & Hin & Hst & Hk).
  { destruct Hne as [Hne|Hne].
    - destruct (ready_nodes g statuses) as [|n l] eqn:E; [done|].
      assert (n ∈ ready_nodes g statuses) as Hx by (rewrite E; set_solver).
      apply ready_nodes_spec in Hx as (k & Hin & Hst & _). exists k, n. ksplit. left.
      destruct (HF _ Hin) as [Ek _]. simpl in *. rewrite Ek. set_solver.
    - destruct (skip_keys g statuses) as [|k l] eqn:E; [done|].
      assert (k ∈ skip_keys g statuses) as Hx by (rewrite E; set_solver).
      apply skip_keys_spec in Hx as (n & Hin & Hs). exists k, n. ksplit; [|right; set_solver].
      unfold skippable in Hs. by bools. }
  unfold todo. eapply (filter_shrinks _ _ _ (k, n)); [|done| |].
  - intros [k' n'] Hx. simpl in *. destruct (dget k' statuses) eqn:E; [|done].
    assert (is_Some (dget k' (after_round round
      {| wa_submit := ready_nodes g statuses; wa_cancel := []; wa_skip := skip_keys g statuses;
         wa_release_reservations := []; wa_deadline_fallback := false |} statuses))) as [? Hy]
      by (apply after_round_done; left; by rewrite E).
    congruence.
  - by apply recorded_status.
  - simpl. intros Hx. match type of Hx with dget k (after_round round ?a statuses) = _ =>
      destruct (after_round_done round a statuses k) as [? Hy] end; [by right|congruence].
Qed.

Lemma drive_ends fuel : forall round statuses, recorded statuses -> (todo statuses < fuel)%nat ->
  exists final, drive fuel round statuses = Ok (Some final) /\
    forall k, k ∈ (g_nodes g).*1 -> step_terminal (status_or_ready final k) = true.
Proof using All.
  induction fuel as [|fuel IH]; intros round statuses HR HT; [lia|]. simpl.
  pose proof (advance_early statuses round HR) as EA. set (a := Build_WorkflowAdvance _ _ _ _ _) in EA.
  rewrite EA. cbn [mbind res_bind].
  destruct (bool_decide (wa_submit a = []) && bool_decide (wa_skip a = [])) eqn:Eb.
  - exists statuses. split; [done|]. bools.
    destruct (advance_progress g statuses guard (clock round) a Hreach EA eq_refl) as [HA|[HA|HA]];
      [..|exact HA|done|done].
    + intros k. unfold status_or_ready. destruct (dget k statuses) as [s|] eqn:E; [|done].
      destruct (HR _ _ E) as (_ & Ht & _). by destruct s.
    + intros d Hd. unfold dep_terminal, dep_succeeded. destruct (dget d statuses) as [s|] eqn:E; [|done].
      intros _. destruct (HR _ _ E) as (_ & _ & Hb). by rewrite (Hb Hd).
  - apply IH; [by eapply round_recorded|].
    assert (wa_submit a <> [] \/ wa_skip a <> []) as Hne.
    { apply andb_false_iff in Eb as [E|E]; apply bool_decide_eq_false in E; [by left|by right]. }
    pose proof (round_shrinks statuses round a HR EA Hne). lia.
Qed.
End Runs.

(** Claim C32. Driving a sealed graph to the end terminates: however each submitted step ends (with
    success, failure, cancellation or a skip; route, plan and select with success) and whatever the
    clock reads before the deadline, at most as many rounds as the graph has steps record
    something, and when the scheduler has nothing left to submit or skip every step has ended. *)
Theorem scheduling_terminates g guard clock finish deadline :
  reachable g -> g_stage g = GraphStage_SYNTHESIS_SEALED ->
  non_synthesis_deadline guard = Ok deadline -> dt_aware deadline = true ->
  (forall i, dt_aware (clock i) = true /\ dt_us (clock i) < dt_us deadline) ->
  (forall i k, step_terminal (finish i k) = true) ->
  (forall i k, k ∈ [u "route"; u "plan"; u "select"] -> finish i k = StepStatus_SUCCEEDED) ->
  exists final, drive g guard clock finish (S (length (g_nodes g))) 0 [] = Ok (Some final) /\
    forall k, k ∈ (g_nodes g).*1 -> step_terminal (status_or_ready final k) = true.
Proof.
  intros. eapply drive_ends; try done.
  unfold todo. apply Nat.lt_succ_r, length_filter.
Qed.

(** Every fetch fails. *)
Lemma scheduling_terminates_witness : exists final,
  drive ex_graph fast_snapshot (fun _ => utc 5000000)
    (fun _ k => if bool_decide (k = u "fetch:s1") then StepStatus_FAILED else StepStatus_SUCCEEDED)
    9 0 [] = Ok (Some final) /\
  dget (u "extract:s1") final = Some StepStatus_SKIPPED /\
  step_terminal (status_or_ready final (u "synthesize")) = true.
Proof.
  destruct (scheduling_terminates ex_graph fast_snapshot (fun _ => utc 5000000)
    (fun _ k => if bool_decide (k = u "fetch:s1") then StepStatus_FAILED else StepStatus_SUCCEEDED)
    (utc 13000000) ex_graph_reachable eq_refl eq_refl eq_refl) as (final & H1 & H2).
  - intros _. split; reflexivity.
  - intros _ k. case_bool_decide; reflexivity.
  - intros _ k Hk. rewrite bool_decide_eq_false_2; [reflexivity|].
    intros ->. revert Hk. apply (bool_decide_unpack (~ _)). vm_compute. exact I.
  - exists final. split; [exact H1|]. split; [|apply H2, (bool_decide_unpack _); vm_compute; exact I].
    revert H1. vm_compute. intros [= <-]. reflexivity.
Defined.
