(* ===== verification/GraphCodec.v ===== *)
(** * GraphCodec: the stored form of a workflow graph

    [to_dict] and [from_dict] of [sana/modules/orchestration/search_workflow.py] over JSON values,
    and the round trip. The conversions of text to numbers and of containers and floats to text,
    which the loader would apply to a payload of another shape, are the class [PyText]. *)

From Stdlib Require Import SpecFloat String.
From S2P Require Import Prelude Errors PyTime PyData Transitions Run Step StepFacts Policy Coverage.
From S2P Require Import Workflow GraphFacts.

(** ** The values of the string enums *)

Definition all_phases : list BudgetPhase :=
  [BudgetPhase_ROUTE_PLAN; BudgetPhase_DISCOVERY; BudgetPhase_FETCH_EXTRACT; BudgetPhase_VERIFY;
   BudgetPhase_SYNTHESIZE].

Definition GraphStage_value (s : GraphStage) : pystr :=
  match s with
  | GraphStage_OPEN => u "OPEN"
  | GraphStage_DISCOVERY_SEALED => u "DISCOVERY_SEALED"
  | GraphStage_SYNTHESIS_SEALED => u "SYNTHESIS_SEALED"
  end.

Definition all_stages : list GraphStage :=
  [GraphStage_OPEN; GraphStage_DISCOVERY_SEALED; GraphStage_SYNTHESIS_SEALED].

(** ** Writing *)

(** [@ src/sana/modules/orchestration/search_workflow.py WorkflowStepSpec.to_dict] *)
Definition WorkflowStepSpec_to_dict (n : WorkflowStepSpec) : json :=
  JObj
    [(u "key", JStr (ws_key n));
     (u "step_type", JStr (StepType_value (ws_step_type n)));
     (u "dependencies", JList (map JStr (ws_dependencies n)));
     (u "budget", JObj
       [(u "phase", JStr (BudgetPhase_value (sc_phase (ws_budget n))));
        (u "estimated_seconds", JFloat (sc_estimated_seconds (ws_budget n)));
        (u "queries", JInt (sc_queries (ws_budget n)));
        (u "providers", JInt (sc_providers (ws_budget n)));
        (u "fetches", JInt (sc_fetches (ws_budget n)));
        (u "llm_calls", JInt (sc_llm_calls (ws_budget n)))]);
     (u "low_value_after_deadline", JBool (ws_low_value_after_deadline n))].

(** [@ src/sana/modules/orchestration/search_workflow.py FastSearchGraph.to_dict] *)
Definition FastSearchGraph_to_dict (g : Graph) : list (pystr * json) :=
  [(u "schema_version", JInt 1);
   (u "workflow", JStr (u "FAST"));
   (u "stage", JStr (GraphStage_value (g_stage g)));
   (u "nodes", JList (map (fun kn => WorkflowStepSpec_to_dict kn.2) (g_nodes g)))].

(** ** Reading *)

Section Reading.
Context `{PyText}.

(** [v == 1] *)
Definition py_eq_one (v : option json) : bool :=
  match v with
  | Some (JInt n) => n =? 1
  | Some (JBool b) => b
  | Some (JFloat x) => fle x (float_of_Z 1) && fle (float_of_Z 1) x
  | _ => false
  end.

(** [payload[k]] and [payload.get(k, d)] *)
Definition field (k : string) (payload : list (pystr * json)) : res json :=
  match dget (u k) payload with Some v => Ok v | None => Raise (KeyError k) end.

Definition get (k : string) (payload : list (pystr * json)) (d : json) : json :=
  default d (dget (u k) payload).

(** [@ src/sana/modules/orchestration/search_workflow.py WorkflowStepSpec.from_dict] *)
Definition WorkflowStepSpec_from_dict (payload : list (pystr * json)) : res WorkflowStepSpec :=
  raw ← field "budget" payload;
  budget ← fields_of raw;
  key ← field "key" payload;
  type ← field "step_type" payload;
  step_type ← enum_of StepType_value all_step_types (to_str type);
  deps ← items (get "dependencies" payload (JList []));
  phase ← field "phase" budget;
  phase ← enum_of BudgetPhase_value all_phases (to_str phase);
  estimated ← to_float (get "estimated_seconds" budget (JInt 0));
  queries ← to_int (get "queries" budget (JInt 0));
  providers ← to_int (get "providers" budget (JInt 0));
  fetches ← to_int (get "fetches" budget (JInt 0));
  llm_calls ← to_int (get "llm_calls" budget (JInt 0));
  c ← StepBudgetCost_new
        {| sc_phase := phase; sc_estimated_seconds := estimated; sc_queries := queries;
           sc_providers := providers; sc_fetches := fetches; sc_llm_calls := llm_calls |};
  low ← field "low_value_after_deadline" payload;
  WorkflowStepSpec_new (to_str key) step_type (map to_str deps) c (truthy low).

(** The loop over the stored nodes. *)
Fixpoint load_nodes (values : list json) (g : Graph) : res Graph :=
  match values with
  | [] => Ok g
  | JObj fields :: rest =>
      node ← WorkflowStepSpec_from_dict fields;
      match graph_add node g with
      | (g', Ok _) => load_nodes rest g'
      | (_, Raise e) => Raise e
      end
  | _ :: _ => Raise (ValueError "Workflow graph node must be an object")
  end.

Definition has_node (k : string) (g : Graph) : bool := negb (is_none (dget (u k) (g_nodes g))).

(** [@ src/sana/modules/orchestration/search_workflow.py FastSearchGraph.from_dict] *)
Definition FastSearchGraph_from_dict (payload : list (pystr * json)) : res Graph :=
  _ ← fail_if (negb (py_eq_one (dget (u "schema_version") payload))
               || match dget (u "workflow") payload with
                  | Some (JStr s) => negb (bool_decide (s = u "FAST"))
                  | _ => true
                  end) (ValueError "Unsupported FAST workflow graph snapshot");
  stage ← field "stage" payload;
  stage ← enum_of GraphStage_value all_stages (to_str stage);
  nodes ← (match dget (u "nodes") payload with
           | Some (JList (v :: l)) => Ok (v :: l)
           | _ => Raise (ValueError "Workflow graph snapshot has no nodes")
           end);
  g ← load_nodes nodes {| g_nodes := []; g_stage := stage |};
  _ ← fail_if (negb (has_node "route" g) || negb (has_node "plan" g))
        (ValueError "Workflow graph snapshot lacks required bootstrap steps");
  _ ← fail_if ((g_stage g isnot GraphStage_OPEN) && negb (has_node "select" g))
        (ValueError "Sealed workflow graph snapshot lacks select step");
  _ ← fail_if ((g_stage g is GraphStage_SYNTHESIS_SEALED) && negb (has_node "synthesize" g))
        (ValueError "Sealed workflow graph snapshot lacks synthesis step");
  Ok g.

(** ** The round trip *)

Lemma node_roundtrip n :
  WorkflowStepSpec_new (ws_key n) (ws_step_type n) (ws_dependencies n) (ws_budget n)
    (ws_low_value_after_deadline n) = Ok n ->
  StepBudgetCost_new (ws_budget n) = Ok (ws_budget n) ->
  match WorkflowStepSpec_to_dict n with
  | JObj fields => WorkflowStepSpec_from_dict fields = Ok n
  | _ => False
  end.
Proof.
  intros Hn Hc. unfold WorkflowStepSpec_to_dict, WorkflowStepSpec_from_dict, field, get.
  change (dget (u "budget") _) with (Some (JObj
       [(u "phase", JStr (BudgetPhase_value (sc_phase (ws_budget n))));
        (u "estimated_seconds", JFloat (sc_estimated_seconds (ws_budget n)));
        (u "queries", JInt (sc_queries (ws_budget n)));
        (u "providers", JInt (sc_providers (ws_budget n)));
        (u "fetches", JInt (sc_fetches (ws_budget n)));
        (u "llm_calls", JInt (sc_llm_calls (ws_budget n)))])).
  change (dget (u "key") _) with (Some (JStr (ws_key n))).
  change (dget (u "step_type") _) with (Some (JStr (StepType_value (ws_step_type n)))).
  change (dget (u "dependencies") _) with (Some (JList (map JStr (ws_dependencies n)))).
  change (dget (u "low_value_after_deadline") _)
    with (Some (JBool (ws_low_value_after_deadline n))).
  cbn [mbind res_bind from_option id to_str items truthy fields_of].
  change (dget (u "phase") _) with (Some (JStr (BudgetPhase_value (sc_phase (ws_budget n))))).
  change (dget (u "estimated_seconds") _) with (Some (JFloat (sc_estimated_seconds (ws_budget n)))).
  change (dget (u "queries") _) with (Some (JInt (sc_queries (ws_budget n)))).
  change (dget (u "providers") _) with (Some (JInt (sc_providers (ws_budget n)))).
  change (dget (u "fetches") _) with (Some (JInt (sc_fetches (ws_budget n)))).
  change (dget (u "llm_calls") _) with (Some (JInt (sc_llm_calls (ws_budget n)))).
  replace (enum_of StepType_value all_step_types (StepType_value (ws_step_type n)))
    with (Ok (ws_step_type n) : res StepType) by (by destruct (ws_step_type n)).
  cbn [mbind res_bind from_option id to_str items truthy to_float to_int].
  replace (enum_of BudgetPhase_value all_phases (BudgetPhase_value (sc_phase (ws_budget n))))
    with (Ok (sc_phase (ws_budget n)) : res BudgetPhase) by (by destruct (sc_phase (ws_budget n))).
  cbn [mbind res_bind].
  replace (map to_str (map JStr (ws_dependencies n))) with (ws_dependencies n).
  2:{ rewrite map_map. symmetry. apply map_id. }
  destruct (ws_budget n) as [ph es q p f l]. cbn [sc_phase sc_estimated_seconds sc_queries
    sc_providers sc_fetches sc_llm_calls] in *. rewrite Hc. exact Hn.
Qed.

Lemma load_nodes_roundtrip (before rest : Nodes) stage :
  NoDup (before ++ rest).*1 -> topo before.*1 rest -> Forall (node_wf (before ++ rest)) rest ->
  load_nodes (map (fun kn => WorkflowStepSpec_to_dict kn.2) rest)
    {| g_nodes := before; g_stage := stage |}
    = Ok {| g_nodes := before ++ rest; g_stage := stage |}.
Proof.
  revert before. induction rest as [|[k n] rest IH]; intros before Hn Ht HF; simpl.
  - by rewrite app_nil_r.
  - apply Forall_cons in HF as [(Hk & Hspec & Hc & _ & _) HF]. simpl in Hk, Hspec, Hc.
    destruct Ht as [Hd Ht]. pose proof (node_roundtrip n Hspec Hc) as Hrt.
    unfold WorkflowStepSpec_to_dict in *. rewrite Hrt. cbn [mbind res_bind].
    assert (dget k before = None) as Hfresh.
    { apply dget_None. intros Hin. rewrite fmap_app in Hn. apply NoDup_app in Hn as (_ & Hx & _).
      apply (Hx k Hin). apply elem_of_cons. by left. }
    unfold graph_add, mbind, M_bind, self, raise_if, update. simpl. rewrite <- Hk, Hfresh. simpl.
    replace (existsb (fun d => is_none (dget d before)) (ws_dependencies n)) with false; simpl.
    2:{ symmetry. apply not_true_iff_false. rewrite existsb_exists. intros (d & Hin & Hx).
        rewrite Forall_forall in Hd. apply list_elem_of_In, Hd, dget_is_Some in Hin as [m Em].
        by rewrite Em in Hx. }
    rewrite dset_fresh by done.
    replace (before ++ (k, n) :: rest) with ((before ++ [(k, n)]) ++ rest) in * by by rewrite <- app_assoc.
    apply IH; [done| |done]. rewrite fmap_app. done.
Qed.
End Reading.

(** Claim C38. A stored workflow graph loads back as itself: for every graph the construction calls
    can reach, [from_dict(to_dict(g))] is [g] (same nodes in the same order, same stage), however
    the loader would treat payloads of other shapes. *)
Theorem graph_roundtrip `{PyText} g :
  reachable g ->
  FastSearchGraph_from_dict (FastSearchGraph_to_dict g) = Ok g.
Proof.
  intros Hr. destruct (reachable_wf g Hr) as [(Hn & Ht & HF) Hs].
  unfold FastSearchGraph_from_dict, FastSearchGraph_to_dict, field.
  change (dget (u "schema_version") _) with (Some (JInt 1)).
  change (dget (u "workflow") _) with (Some (JStr (u "FAST"))).
  change (dget (u "stage") _) with (Some (JStr (GraphStage_value (g_stage g)))).
  change (dget (u "nodes") _)
    with (Some (JList (map (fun kn => WorkflowStepSpec_to_dict kn.2) (g_nodes g)))).
  pose proof (load_nodes_roundtrip [] (g_nodes g) (g_stage g)
    Hn Ht HF) as Hload. simpl app in Hload.
  destruct Hs as ([r Er] & [p Ep] & Hs).
  assert (exists v l, map (fun kn : pystr * WorkflowStepSpec => WorkflowStepSpec_to_dict kn.2)
            (g_nodes g) = v :: l) as (v & l & Em).
  { destruct (g_nodes g); [done|]. simpl. eauto. }
  rewrite Em in Hload |- *. cbn [py_eq_one negb orb fail_if].
  rewrite bool_decide_eq_true_2 by done. cbn [Z.eqb Pos.eqb negb orb fail_if mbind res_bind to_str].
  replace (enum_of GraphStage_value all_stages (GraphStage_value (g_stage g)))
    with (Ok (g_stage g) : res GraphStage) by (by destruct (g_stage g)).
  cbn [mbind res_bind]. rewrite Hload. destruct g as [nodes stage]. simpl in *.
  unfold has_node. simpl. rewrite Er, Ep. simpl.
  destruct stage; simpl; [done|..].
  - destruct Hs as [s Es]. by rewrite Es.
  - destruct Hs as ([s Es] & _ & [y Ey]). by rewrite Es, Ey.
Qed.

Lemma graph_roundtrip_witness :
  FastSearchGraph_from_dict (H := ex_text) (FastSearchGraph_to_dict ex_graph) = Ok ex_graph.
Proof. exact (graph_roundtrip ex_graph ex_graph_reachable). Defined.
