(* ===== verification/Discovery.v ===== *)
(** * Discovery: providers behind circuit breakers and concurrency limits

    [sana/modules/discovery/domain.py], [ports.py] and [service.py] and
    [sana/platform/search/circuit_breaker.py]: the values of a discovery call, the breaker of a
    provider, the nested semaphores with their registry of tenants, one provider call, and the
    fan-out. What a provider does is a parameter; the adapters are not modelled. An
    [asyncio.Semaphore] is its counter, and a segment without a suspension point is one step. *)

From Stdlib Require Import SpecFloat String.
From S2P Require Import Prelude Errors PyTime.

(** ** Values *)

Record DiscoveryQuery := {
  dq_key : pystr;
  dq_text : pystr;
  dq_locale : pystr;
  dq_freshness_days : option Z;
  dq_direct_urls : list pystr
}.

(** [@ src/sana/modules/discovery/domain.py DiscoveryQuery/__post_init__] *)
Definition DiscoveryQuery_new (q : DiscoveryQuery) : res DiscoveryQuery :=
  _ ← fail_if (blank (dq_key q) || blank (dq_text q) || blank (dq_locale q))
        (ValueError "Discovery query key, text and locale are required");
  Ok q.

Record SearchHit := {
  sh_provider : pystr;
  sh_query_key : pystr;
  sh_rank : Z;
  sh_url : pystr;
  sh_canonical_url : pystr;
  sh_title : pystr;
  sh_snippet : pystr;
  sh_score : float;
  sh_published_at : option datetime
}.

Definition finite (x : float) : bool :=
  match x with S754_zero _ | S754_finite _ _ _ => true | _ => false end.

(** [@ src/sana/modules/discovery/domain.py SearchHit/__post_init__] *)
Definition SearchHit_new (h : SearchHit) : res SearchHit :=
  _ ← fail_if (sh_rank h <? 1) (ValueError "Search hit rank must be positive");
  _ ← fail_if (blank (sh_provider h) || blank (sh_query_key h) || blank (sh_url h))
        (ValueError "Search hit provider, query and URL are required");
  _ ← fail_if (negb (finite (sh_score h)) || fneg (sh_score h))
        (ValueError "Search hit score must be finite and non-negative");
  _ ← fail_if (match sh_published_at h with Some d => negb (dt_aware d) | None => false end)
        (ValueError "Search hit publication time must be timezone-aware");
  Ok h.

Record ProviderMetrics := {
  pm_elapsed_ms : Z;
  pm_response_bytes : Z;
  pm_raw_hit_count : Z
}.

(** [@ src/sana/modules/discovery/domain.py ProviderMetrics/__post_init__] *)
Definition ProviderMetrics_new (m : ProviderMetrics) : res ProviderMetrics :=
  _ ← fail_if ((pm_elapsed_ms m <? 0) || (pm_response_bytes m <? 0) || (pm_raw_hit_count m <? 0))
        (ValueError "Provider metrics cannot be negative");
  Ok m.

Record ProviderResponse := {
  pv_provider : pystr;
  pv_query_key : pystr;
  pv_hits : list SearchHit;
  pv_metrics : ProviderMetrics;
  pv_error : option TypedError
}.

(** [@ src/sana/modules/discovery/domain.py ProviderResponse/__post_init__] *)
Definition ProviderResponse_new (r : ProviderResponse) : res ProviderResponse :=
  _ ← fail_if (blank (pv_provider r) || blank (pv_query_key r))
        (ValueError "Provider response identity is required");
  _ ← fail_if (existsb (fun h => negb (bool_decide (sh_provider h = pv_provider r))
                                 || negb (bool_decide (sh_query_key h = pv_query_key r))) (pv_hits r))
        (ValueError "Provider response contains hits from another call");
  Ok r.

(** [@ src/sana/modules/discovery/domain.py ProviderResponse.ok] *)
Definition response_ok (r : ProviderResponse) : bool := is_none (pv_error r).

(** ** The circuit breaker *)

(** [@ src/sana/platform/search/circuit_breaker.py CircuitState] *)
Inductive CircuitState := CircuitState_CLOSED | CircuitState_OPEN | CircuitState_HALF_OPEN.

#[export] Instance CircuitState_eq_dec : EqDecision CircuitState.
Proof. solve_decision. Defined.

Record CircuitBreaker := {
  br_failure_threshold : Z;
  br_recovery_seconds : float;
  br_state : CircuitState;
  br_failure_count : Z;
  br_opened_at : option datetime;
  br_probe_in_flight : bool
}.

(** [@ src/sana/platform/search/circuit_breaker.py CircuitBreaker/__post_init__] *)
Definition CircuitBreaker_new (failure_threshold : Z) (recovery_seconds : float) : res CircuitBreaker :=
  _ ← fail_if ((failure_threshold <? 1) || fle recovery_seconds fzero)
        (ValueError "Circuit breaker limits must be positive");
  Ok {| br_failure_threshold := failure_threshold; br_recovery_seconds := recovery_seconds;
        br_state := CircuitState_CLOSED; br_failure_count := 0; br_opened_at := None;
        br_probe_in_flight := false |}.

Definition br_set (state : CircuitState) (count : Z) (opened : option datetime) (probe : bool)
    (b : CircuitBreaker) : CircuitBreaker :=
  {| br_failure_threshold := br_failure_threshold b; br_recovery_seconds := br_recovery_seconds b;
     br_state := state; br_failure_count := count; br_opened_at := opened;
     br_probe_in_flight := probe |}.

(** [now] is what the clock returns. *)
(** [@ src/sana/platform/search/circuit_breaker.py CircuitBreaker.allow_request] *)
Definition allow_request (now : datetime) : M CircuitBreaker bool :=
  b ← self;
  let probe : M CircuitBreaker bool :=
    b ← self;
    if br_probe_in_flight b then mret false else
    _ ← update (fun b => br_set (br_state b) (br_failure_count b) (br_opened_at b) true b);
    mret true in
  match br_state b with
  | CircuitState_CLOSED => mret true
  | CircuitState_OPEN =>
      match br_opened_at b with
      | None => raise (AssertionError "opened_at")
      | Some opened_at =>
          recovery ← lift (timedelta (br_recovery_seconds b));
          early ← lift (dt_lt now (dt_add opened_at recovery));
          if early : bool then mret false else
          _ ← update (fun b => br_set CircuitState_HALF_OPEN (br_failure_count b) (br_opened_at b) false b);
          probe
      end
  | CircuitState_HALF_OPEN => probe
  end.

(** [@ src/sana/platform/search/circuit_breaker.py CircuitBreaker.record_success] *)
Definition record_success : M CircuitBreaker unit := update (br_set CircuitState_CLOSED 0 None false).

(** [@ src/sana/platform/search/circuit_breaker.py CircuitBreaker._open] *)
Definition breaker_open (now : datetime) : M CircuitBreaker unit :=
  update (fun b => br_set CircuitState_OPEN (br_failure_count b) (Some now) (br_probe_in_flight b) b).

(** [@ src/sana/platform/search/circuit_breaker.py CircuitBreaker.record_failure] *)
Definition record_failure (now : datetime) : M CircuitBreaker unit :=
  _ ← update (fun b => br_set (br_state b) (br_failure_count b) (br_opened_at b) false b);
  b ← self;
  if br_state b is CircuitState_HALF_OPEN then breaker_open now else
  _ ← update (fun b => br_set (br_state b) (br_failure_count b + 1) (br_opened_at b)
                         (br_probe_in_flight b) b);
  b ← self;
  if br_failure_threshold b <=? br_failure_count b then breaker_open now else mret tt.

(** ** One provider call *)

(** What [provider.search] does within its timeout. *)
Inductive search_outcome :=
| Returned (r : ProviderResponse)
| TimedOut
| RaisedTyped (e : TypedError)
| RaisedOther
| Cancelled.

(** The response that stands for an error; the literal codes and messages are stripped, and the
    name that ends the message is not blank, as [ProviderResponse] then checks. *)
Definition error_response (provider key : pystr) (elapsed : Z) (e : TypedError) : res ProviderResponse :=
  metrics ← ProviderMetrics_new {| pm_elapsed_ms := elapsed; pm_response_bytes := 0; pm_raw_hit_count := 0 |};
  ProviderResponse_new {| pv_provider := provider; pv_query_key := key; pv_hits := [];
                          pv_metrics := metrics; pv_error := Some e |}.

Definition typed (category : ErrorCategory) (code : string) (message : pystr) (retryable : bool) : TypedError :=
  {| te_category := category; te_code := u code; te_message := message; te_retryable := retryable |}.

(** [deadline - clock.now()] in seconds is positive exactly when the microseconds are. *)
(** [@ src/sana/modules/discovery/service.py DiscoveryService._remaining] *)
Definition remaining (deadline now : datetime) : res Z :=
  _ ← fail_if (negb (dt_aware deadline)) (ValueError "Discovery deadline must be timezone-aware");
  dt_sub deadline now.

(** The call up to [provider.search]: [None] when the provider is to be called. [elapsed] is the
    time measured since the call started. A provider without a breaker has [None]. *)
(** [@ src/sana/modules/discovery/service.py DiscoveryService._search_one@105-135] *)
Definition search_begin (provider : pystr) (query : DiscoveryQuery) (deadline now : datetime)
    (elapsed : Z) : M (option CircuitBreaker) (option ProviderResponse) := fun breaker =>
  match remaining deadline now with
  | Raise e => (breaker, Raise e)
  | Ok time_left =>
      if time_left <=? 0 then
        (breaker, r ← error_response provider (dq_key query) elapsed
                   (typed ErrorCategory_BUDGET "discovery_deadline_exceeded"
                      (u "Discovery deadline was exhausted before provider call") false);
                  Ok (Some r))
      else match breaker with
           | None => (None, Ok None)
           | Some b =>
               match allow_request now b with
               | (b, Ok true) => (Some b, Ok None)
               | (b, Ok false) =>
                   (Some b, r ← error_response provider (dq_key query) elapsed
                              (typed ErrorCategory_TRANSIENT "provider_circuit_open"
                                 (u "Provider circuit is open: " ++ provider) true);
                            Ok (Some r))
               | (b, Raise e) => (Some b, Raise e)
               end
           end
  end.

(** The [except] clauses; a cancellation is not an [Exception]. *)
(** [@ src/sana/modules/discovery/service.py DiscoveryService._search_one@136-177] *)
Definition response_of (provider key : pystr) (elapsed : Z) (x : search_outcome)
    : option (res ProviderResponse) :=
  match x with
  | Returned r => Some (Ok r)
  | TimedOut => Some (error_response provider key elapsed
      (typed ErrorCategory_TRANSIENT "provider_timeout" (u "Provider timed out: " ++ provider) true))
  | RaisedTyped e => Some (error_response provider key elapsed e)
  | RaisedOther => Some (error_response provider key elapsed
      (typed ErrorCategory_INTERNAL "provider_unexpected_error"
         (u "Provider failed unexpectedly: " ++ provider) false))
  | Cancelled => None
  end.

(** What the breaker is told. *)
(** [@ src/sana/modules/discovery/service.py DiscoveryService._search_one@178-186] *)
Definition tell_breaker (response : ProviderResponse) (now : datetime) : M CircuitBreaker unit :=
  match pv_error response with
  | None => record_success
  | Some e =>
      if bool_decide (te_category e ∈ [ErrorCategory_TRANSIENT; ErrorCategory_INTERNAL])
      then record_failure now else mret tt
  end.

(** The call from the outcome on: [None] is a cancelled call. *)
Definition search_end (provider : pystr) (query : DiscoveryQuery) (elapsed : Z) (x : search_outcome)
    (now : datetime) : M (option CircuitBreaker) (option ProviderResponse) := fun breaker =>
  match response_of provider (dq_key query) elapsed x with
  | None => (breaker, Ok None)
  | Some (Raise e) => (breaker, Raise e)
  | Some (Ok r) =>
      match breaker with
      | None => (None, Ok (Some r))
      | Some b =>
          match tell_breaker r now b with
          | (b, Ok _) => (Some b, Ok (Some r))
          | (b, Raise e) => (Some b, Raise e)
          end
      end
  end.

(** ** The fan-out *)

(** The calls of [discover], in the order in which [gather] returns their responses. *)
(** [@ src/sana/modules/discovery/service.py DiscoveryService.discover] *)
Definition discover_calls (registered : list pystr) (queries : list DiscoveryQuery)
    (provider_names : list pystr) : res (list (DiscoveryQuery * pystr)) :=
  _ ← fail_if (existsb (fun n => negb (bool_decide (n ∈ registered))) provider_names)
        (ValueError "Unknown discovery provider");
  Ok (concat (map (fun q => map (fun n => (q, n)) provider_names) queries)).

(** ** Concurrency

    Semaphores are objects: the registry holds references to them. [cs_value] is the heap of their
    counters. *)

Record Concurrency := {
  cs_tenant_limit : Z;
  cs_provider_limit : Z;
  cs_value : gmap Z Z;
  cs_next : Z;
  cs_global : Z;
  cs_tenants : gmap UUID Z;
  cs_references : gmap UUID Z;
  cs_providers : gmap pystr Z
}.

(** [@ src/sana/modules/discovery/service.py DiscoveryConcurrency.__init__] *)
Definition DiscoveryConcurrency_new (global_limit tenant_limit provider_limit : Z) : res Concurrency :=
  _ ← fail_if (Z.min global_limit (Z.min tenant_limit provider_limit) <? 1)
        (ValueError "Discovery concurrency limits must be positive");
  Ok {| cs_tenant_limit := tenant_limit; cs_provider_limit := provider_limit;
        cs_value := {[ 0 := global_limit ]}; cs_next := 1; cs_global := 0; cs_tenants := ∅;
        cs_references := ∅; cs_providers := ∅ |}.

Definition cs_set (value : gmap Z Z) (next : Z) (tenants references : gmap UUID Z)
    (providers : gmap pystr Z) (s : Concurrency) : Concurrency :=
  {| cs_tenant_limit := cs_tenant_limit s; cs_provider_limit := cs_provider_limit s;
     cs_value := value; cs_next := next; cs_global := cs_global s; cs_tenants := tenants;
     cs_references := references; cs_providers := providers |}.

(** [m.setdefault(key, asyncio.Semaphore(limit))]: the new object is dropped when the key is there. *)
Definition setdefault_tenant (tenant_id : UUID) : M Concurrency Z := fun s =>
  match cs_tenants s !! tenant_id with
  | Some x => (s, Ok x)
  | None => (cs_set (<[cs_next s := cs_tenant_limit s]> (cs_value s)) (cs_next s + 1)
               (<[tenant_id := cs_next s]> (cs_tenants s)) (cs_references s) (cs_providers s) s,
             Ok (cs_next s))
  end.

Definition setdefault_provider (provider : pystr) : M Concurrency Z := fun s =>
  match cs_providers s !! provider with
  | Some x => (s, Ok x)
  | None => (cs_set (<[cs_next s := cs_provider_limit s]> (cs_value s)) (cs_next s + 1)
               (cs_tenants s) (cs_references s) (<[provider := cs_next s]> (cs_providers s)) s,
             Ok (cs_next s))
  end.

(** [@ src/sana/modules/discovery/service.py DiscoveryConcurrency._semaphores] *)
Definition semaphores (tenant_id : UUID) (provider : pystr) : M Concurrency (Z * Z) :=
  tenant ← setdefault_tenant tenant_id;
  gate ← setdefault_provider provider;
  _ ← update (fun s => cs_set (cs_value s) (cs_next s) (cs_tenants s)
        (<[tenant_id := default 0 (cs_references s !! tenant_id) + 1]> (cs_references s))
        (cs_providers s) s);
  mret (tenant, gate).

(** [@ src/sana/modules/discovery/service.py DiscoveryConcurrency._release_tenant_reference] *)
Definition release_tenant_reference (tenant_id : UUID) : M Concurrency unit := fun s =>
  match cs_references s !! tenant_id with
  | None => (s, Raise (KeyError "tenant_references"))
  | Some n =>
      if n - 1 =? 0 then
        match cs_tenants s !! tenant_id with
        | None => (cs_set (cs_value s) (cs_next s) (cs_tenants s)
                     (delete tenant_id (cs_references s)) (cs_providers s) s,
                   Raise (KeyError "tenants"))
        | Some _ => (cs_set (cs_value s) (cs_next s) (delete tenant_id (cs_tenants s))
                       (delete tenant_id (cs_references s)) (cs_providers s) s, Ok tt)
        end
      else (cs_set (cs_value s) (cs_next s) (cs_tenants s)
              (<[tenant_id := n - 1]> (cs_references s)) (cs_providers s) s, Ok tt)
  end.

(** [Semaphore.acquire] when it does not wait, and [release]. *)
Definition sem_acquire (x : Z) : M Concurrency bool := fun s =>
  match cs_value s !! x with
  | Some n => if 0 <? n
              then (cs_set (<[x := n - 1]> (cs_value s)) (cs_next s) (cs_tenants s)
                      (cs_references s) (cs_providers s) s, Ok true)
              else (s, Ok false)
  | None => (s, Raise (KeyError "semaphore"))
  end.
Definition sem_release (x : Z) : M Concurrency unit := fun s =>
  match cs_value s !! x with
  | Some n => (cs_set (<[x := n + 1]> (cs_value s)) (cs_next s) (cs_tenants s)
                 (cs_references s) (cs_providers s) s, Ok tt)
  | None => (s, Raise (KeyError "semaphore"))
  end.

(** A call inside [acquire]: how many of tenant, provider and global it holds, in that order. *)
Inductive held := HoldsNone | HoldsTenant | HoldsProvider | HoldsGlobal.

#[export] Instance held_eq_dec : EqDecision held.
Proof. solve_decision. Defined.

Record DiscoveryCall := {
  dc_tenant : UUID;
  dc_provider : pystr;
  dc_tenant_gate : Z;
  dc_provider_gate : Z;
  dc_held : held
}.

Definition dc_set (h : held) (c : DiscoveryCall) : DiscoveryCall :=
  {| dc_tenant := dc_tenant c; dc_provider := dc_provider c; dc_tenant_gate := dc_tenant_gate c;
     dc_provider_gate := dc_provider_gate c; dc_held := h |}.

(** The semaphore a call waits for, and what it holds then. *)
Definition next_gate (s : Concurrency) (c : DiscoveryCall) : option (Z * held) :=
  match dc_held c with
  | HoldsNone => Some (dc_tenant_gate c, HoldsTenant)
  | HoldsTenant => Some (dc_provider_gate c, HoldsProvider)
  | HoldsProvider => Some (cs_global s, HoldsGlobal)
  | HoldsGlobal => None
  end.

(** Leaving: the semaphores in reverse order, then the tenant's reference. A call leaves when its
    work is done, or because it was cancelled while it waited. *)
(** [@ src/sana/modules/discovery/service.py DiscoveryConcurrency.acquire] *)
Definition acquire_leave (c : DiscoveryCall) : M Concurrency unit :=
  s ← self;
  _ ← (if dc_held c is HoldsGlobal then sem_release (cs_global s) else mret tt);
  _ ← (if bool_decide (dc_held c ∈ [HoldsGlobal; HoldsProvider]) then sem_release (dc_provider_gate c)
       else mret tt);
  _ ← (if dc_held c isnot HoldsNone then sem_release (dc_tenant_gate c) else mret tt);
  release_tenant_reference (dc_tenant c).
