(* ===== verification/DiscoveryFacts.v ===== *)
(** * DiscoveryFacts: the breaker's histories and the limits of concurrent discovery *)

From Stdlib Require Import SpecFloat String.
From S2P Require Import Prelude Errors PyTime Discovery.

(** ** Gates

    One name for each semaphore the registry refers to: which object it is, how many calls it
    admits, and which calls hold it. *)

Inductive gate := GGlobal | GTenant (t : UUID) | GProvider (p : pystr).

#[export] Instance gate_eq_dec : EqDecision gate.
Proof. solve_decision. Defined.

Definition gate_id (s : Concurrency) (g : gate) : option Z :=
  match g with
  | GGlobal => Some (cs_global s)
  | GTenant t => cs_tenants s !! t
  | GProvider p => cs_providers s !! p
  end.

Definition uses (g : gate) (c : DiscoveryCall) : bool :=
  match g with
  | GGlobal => dc_held c is HoldsGlobal
  | GTenant t => (dc_tenant c =? t) && (dc_held c isnot HoldsNone)
  | GProvider p => bool_decide (dc_provider c = p) && bool_decide (dc_held c ∈ [HoldsGlobal; HoldsProvider])
  end.

Abbreviation Calls := (gmap nat DiscoveryCall).

Definition holders (g : gate) (calls : Calls) : Z := sum_map (fun c => one (uses g c)) calls.
Definition members (t : UUID) (calls : Calls) : Z := sum_map (fun c => one (dc_tenant c =? t)) calls.

(** ** The calls of a process, interleaved *)

Inductive conc_step : Concurrency * Calls -> Concurrency * Calls -> Prop :=
| Enter i t p s s' tenant gate calls :
    calls !! i = None -> semaphores t p s = (s', Ok (tenant, gate)) ->
    conc_step (s, calls)
      (s', <[i := {| dc_tenant := t; dc_provider := p; dc_tenant_gate := tenant;
                     dc_provider_gate := gate; dc_held := HoldsNone |}]> calls)
| Acquire i c x h s s' calls :
    calls !! i = Some c -> next_gate s c = Some (x, h) -> sem_acquire x s = (s', Ok true) ->
    conc_step (s, calls) (s', <[i := dc_set h c]> calls)
| Leave i c s s' calls :
    calls !! i = Some c -> acquire_leave c s = (s', Ok tt) -> conc_step (s, calls) (s', delete i calls).

Section Limits.
Context (global_limit : Z).

Definition limit (s : Concurrency) (g : gate) : Z :=
  match g with
  | GGlobal => global_limit
  | GTenant _ => cs_tenant_limit s
  | GProvider _ => cs_provider_limit s
  end.

Record gates_ok (s : Concurrency) (calls : Calls) : Prop := {
  gt_limits : 1 <= global_limit /\ 1 <= cs_tenant_limit s /\ 1 <= cs_provider_limit s;
  gt_gate g x : gate_id s g = Some x ->
    x < cs_next s /\ cs_value s !! x = Some (limit s g - holders g calls) /\ holders g calls <= limit s g;
  gt_apart g g' x : gate_id s g = Some x -> gate_id s g' = Some x -> g = g';
  gt_call i c : calls !! i = Some c ->
    gate_id s (GTenant (dc_tenant c)) = Some (dc_tenant_gate c) /\
    gate_id s (GProvider (dc_provider c)) = Some (dc_provider_gate c)
}.

(** The reference counts, and that the registry knows exactly the tenants with calls. *)
Definition registry_ok (s : Concurrency) (calls : Calls) : Prop :=
  gates_ok s calls /\
  (forall t, cs_references s !! t = if members t calls =? 0 then None else Some (members t calls)) /\
  (forall t, is_Some (cs_tenants s !! t) <-> members t calls <> 0).

Lemma holders_insert g calls i c : calls !! i = None ->
  holders g (<[i:=c]> calls) = one (uses g c) + holders g calls.
Proof. apply (sum_map_insert_new (fun c => one (uses g c))). Qed.

Lemma members_zero t calls i c : members t calls = 0 -> calls !! i = Some c -> dc_tenant c <> t.
Proof.
  intros HM Hc E. pose proof (sum_map_delete (fun c => one (dc_tenant c =? t)) calls i c Hc) as HD.
  pose proof (sum_map_nonneg (fun c => one (dc_tenant c =? t)) (delete i calls) ltac:(intros; apply one_nonneg)).
  unfold members in HM. simpl in HD. rewrite E, Z.eqb_refl in HD. simpl in HD. lia.
Qed.

(** Nobody of a tenant that is not in the registry holds anything. *)
Lemma holders_zero t calls : members t calls = 0 -> holders (GTenant t) calls = 0.
Proof.
  intros HM. destruct (decide (0 < holders (GTenant t) calls)) as [H|H].
  - apply sum_map_pos in H as (i & c & Hc & H). simpl in H.
    pose proof (members_zero t calls i c HM Hc). rewrite (proj2 (Z.eqb_neq _ _)) in H by done. simpl in H. lia.
  - pose proof (sum_map_nonneg (fun c => one (uses (GTenant t) c)) calls ltac:(intros; apply one_nonneg)).
    unfold holders in *. lia.
Qed.

Lemma provider_holders_zero s calls p : gates_ok s calls -> cs_providers s !! p = None ->
  holders (GProvider p) calls = 0.
Proof.
  intros K Hp. destruct (decide (0 < holders (GProvider p) calls)) as [H|H].
  - apply sum_map_pos in H as (i & c & Hc & H). destruct (gt_call _ _ K _ _ Hc) as [_ E]. simpl in E, H.
    rewrite (bool_decide_eq_false_2 (dc_provider c = p)) in H by congruence. simpl in H. lia.
  - pose proof (sum_map_nonneg (fun c => one (uses (GProvider p) c)) calls ltac:(intros; apply one_nonneg)).
    unfold holders in *. lia.
Qed.

(** A new semaphore enters the registry. *)
Lemma add_gate s s' calls g0 : gates_ok s calls -> gate_id s g0 = None -> holders g0 calls = 0 ->
  (forall g, gate_id s' g = if decide (g = g0) then Some (cs_next s) else gate_id s g) ->
  cs_value s' = <[cs_next s := limit s g0]> (cs_value s) -> cs_next s' = cs_next s + 1 ->
  (forall g, limit s' g = limit s g) -> gates_ok s' calls.
Proof.
  intros [K1 K2 K3 K4] Hn H0 HG HV HN HL.
  assert (1 <= limit s g0) as H1 by (destruct K1 as (? & ? & ?); by destruct g0).
  constructor.
  - split; [apply K1|]. split; [exact (Z.le_trans _ _ _ (proj1 (proj2 K1)) (Z.eq_le_incl _ _ (eq_sym (HL (GTenant 0)))))|].
    exact (Z.le_trans _ _ _ (proj2 (proj2 K1)) (Z.eq_le_incl _ _ (eq_sym (HL (GProvider []))))).
  - intros g x. rewrite HG, HV, HN, HL. case_decide as E.
    + intros [= <-]. subst g. rewrite lookup_insert_eq, H0. split; [lia|]. split; [f_equal; lia|lia].
    + intros Hx. destruct (K2 _ _ Hx) as (? & ? & ?). rewrite lookup_insert_ne by lia. split; [lia|done].
  - intros g g' x. rewrite !HG. repeat case_decide; subst; try done; try by apply K3.
    + intros [= <-] Hx. destruct (K2 _ _ Hx) as (? & _). lia.
    + intros Hx [= <-]. destruct (K2 _ _ Hx) as (? & _). lia.
  - intros i c Hc. destruct (K4 _ _ Hc) as [E1 E2]. rewrite !HG.
    split; (case_decide as E; [rewrite <- E in Hn; congruence|done]).
Qed.

(** The calls change, and with them the counters of the semaphores that stay. *)
Lemma move_gates s s' calls calls' : gates_ok s calls ->
  (forall g x, gate_id s' g = Some x -> gate_id s g = Some x) ->
  cs_next s' = cs_next s -> (forall g, limit s' g = limit s g) ->
  (forall g x, gate_id s' g = Some x ->
     cs_value s' !! x = Some (limit s g - holders g calls') /\ holders g calls' <= limit s g) ->
  (forall i c, calls' !! i = Some c ->
     gate_id s' (GTenant (dc_tenant c)) = Some (dc_tenant_gate c) /\
     gate_id s' (GProvider (dc_provider c)) = Some (dc_provider_gate c)) ->
  gates_ok s' calls'.
Proof.
  intros [K1 K2 K3 K4] HG HN HL HV HC. constructor; [| |by eauto|done].
  - pose proof (HL (GTenant 0)) as L1. pose proof (HL (GProvider [])) as L2. simpl in L1, L2. lia.
  - intros g x Hx. rewrite HL, HN. destruct (K2 _ _ (HG _ _ Hx)) as (? & _). split; [done|by apply HV].
Qed.

Lemma setdefault_tenant_ok t s s' x calls : gates_ok s calls ->
  (cs_tenants s !! t = None -> members t calls = 0) -> setdefault_tenant t s = (s', Ok x) ->
  gates_ok s' calls /\ cs_tenants s' = <[t := x]> (cs_tenants s) /\
  cs_references s' = cs_references s /\ cs_providers s' = cs_providers s /\ cs_global s' = cs_global s.
Proof.
  intros K HM. unfold setdefault_tenant. destruct (cs_tenants s !! t) as [y|] eqn:E; intros [= <- <-].
  - by rewrite insert_id.
  - split; [|done]. eapply (add_gate s _ calls (GTenant t)); try done; [by apply holders_zero, HM|].
    intros g. destruct g as [|t'|p]; simpl; try done. destruct (decide (t' = t)) as [->|Hne].
    + by rewrite lookup_insert_eq, decide_True.
    + rewrite lookup_insert_ne by done. by rewrite decide_False by congruence.
Qed.

Lemma setdefault_provider_ok p s s' x calls : gates_ok s calls ->
  setdefault_provider p s = (s', Ok x) ->
  gates_ok s' calls /\ cs_providers s' !! p = Some x /\ cs_tenants s' = cs_tenants s /\
  cs_references s' = cs_references s /\ cs_global s' = cs_global s.
Proof.
  intros K. unfold setdefault_provider. destruct (cs_providers s !! p) as [y|] eqn:E; intros [= <- <-]; [done|].
  simpl. rewrite lookup_insert_eq. split; [|done].
  eapply (add_gate s _ calls (GProvider p)); try done; [by eapply provider_holders_zero|].
  intros g. destruct g as [|t'|p']; simpl; try done. destruct (decide (p' = p)) as [->|Hne].
  + by rewrite lookup_insert_eq, decide_True.
  + rewrite lookup_insert_ne by done. by rewrite decide_False by congruence.
Qed.

Lemma enter_ok i t p s s' a b calls : registry_ok s calls -> calls !! i = None ->
  semaphores t p s = (s', Ok (a, b)) ->
  registry_ok s' (<[i := {| dc_tenant := t; dc_provider := p; dc_tenant_gate := a;
                            dc_provider_gate := b; dc_held := HoldsNone |}]> calls).
Proof.
  intros (K & HR & HT) Hi H. unfold semaphores in H. minv.
  match goal with A : setdefault_tenant _ _ = _, B : setdefault_provider _ _ = (?y, _) |- _ =>
    rename y into s2;
    apply (setdefault_tenant_ok _ _ _ _ calls K) in A as (K1 & T1 & R1 & P1 & G1);
      [apply (setdefault_provider_ok _ _ _ _ calls K1) in B as (K2 & P2 & T2 & R2 & G2)|] end.
  2: { intros En. destruct (decide (members t calls = 0)) as [|Hne]; [done|].
       apply HT in Hne as [? ?]. congruence. }
  set (c := {| dc_tenant := t |}).
  assert (forall g, uses g c = false) as HU by (intros []; simpl; rewrite ?andb_false_r; done).
  assert (forall g, holders g (<[i := c]> calls) = holders g calls) as HH
    by (intros g; rewrite holders_insert, HU by done; simpl; lia).
  assert (forall t', members t' (<[i := c]> calls) = one (t =? t') + members t' calls) as HM
    by (intros t'; apply (sum_map_insert_new (fun c => one (dc_tenant c =? t'))); done).
  split; [|split].
  - eapply (move_gates s2 _ calls); try done.
    + intros g x Hx. rewrite HH. destruct (gt_gate _ _ K2 g x) as (_ & ? & ?); [by destruct g|done].
    + intros j d. intros [[<- <-]|[_ Hd]]%lookup_insert_Some.
      * simpl. split; [by rewrite T2, T1, lookup_insert_eq|done].
      * apply (gt_call _ _ K2 _ _ Hd).
  - intros t'. simpl. rewrite R2, R1, HM. pose proof (HR t) as Ht. pose proof (HR t') as Ht'.
    pose proof (sum_map_nonneg (fun c => one (dc_tenant c =? t')) calls ltac:(intros; apply one_nonneg)) as Hn.
    fold (members t' calls) in Hn. destruct (t =? t') eqn:E; bools; simpl.
    + subst t'. rewrite lookup_insert_eq, Ht. destruct (members t calls =? 0) eqn:E0; bools; simpl.
      * rewrite E0. done.
      * rewrite (proj2 (Z.eqb_neq _ _)) by lia. f_equal. lia.
    + by rewrite lookup_insert_ne.
  - intros t'. simpl. rewrite T2, T1, HM.
    pose proof (sum_map_nonneg (fun c => one (dc_tenant c =? t')) calls ltac:(intros; apply one_nonneg)) as Hn.
    fold (members t' calls) in Hn. destruct (t =? t') eqn:E; bools; simpl.
    + subst t'. rewrite lookup_insert_eq. split; [lia|by eexists].
    + rewrite lookup_insert_ne by done. apply HT.
Qed.

(** The gate a call waits for, by name. *)
Definition waits_for (c : DiscoveryCall) : option gate :=
  match dc_held c with
  | HoldsNone => Some (GTenant (dc_tenant c))
  | HoldsTenant => Some (GProvider (dc_provider c))
  | HoldsProvider => Some GGlobal
  | HoldsGlobal => None
  end.

Lemma next_gate_id s calls i c x h : gates_ok s calls -> calls !! i = Some c ->
  next_gate s c = Some (x, h) ->
  exists g, waits_for c = Some g /\ gate_id s g = Some x /\
    (forall g', uses g' (dc_set h c) = uses g' c || bool_decide (g' = g)) /\ uses g c = false.
Proof.
  intros K Hc. destruct (gt_call _ _ K _ _ Hc) as [E1 E2]. unfold next_gate, waits_for.
  destruct (dc_held c) eqn:Eh; intros [= <- <-]; eexists; (split; [reflexivity|]); (split; [done|]); split;
    try (intros [|t'|p']; simpl; rewrite Eh; simpl; rewrite ?andb_true_r, ?andb_false_r, ?orb_false_r; try done);
    simpl; rewrite ?Eh, ?andb_false_r; try done.
  all: try (apply bool_decide_ext; split; congruence).
  apply eq_true_iff_eq. rewrite Z.eqb_eq, bool_decide_eq_true. split; congruence.
Qed.

Lemma set_held_members t calls i c h : calls !! i = Some c ->
  members t (<[i := dc_set h c]> calls) = members t calls.
Proof.
  intros Hc. unfold members. rewrite (sum_map_update _ _ _ c) by done. simpl. lia.
Qed.

Lemma acquire_ok i c x h s s' calls : registry_ok s calls -> calls !! i = Some c ->
  next_gate s c = Some (x, h) -> sem_acquire x s = (s', Ok true) ->
  registry_ok s' (<[i := dc_set h c]> calls).
Proof.
  intros (K & HR & HT) Hc Hg H. destruct (next_gate_id _ _ _ _ _ _ K Hc Hg) as (g & _ & Hx & HU & HF).
  unfold sem_acquire in H. destruct (cs_value s !! x) as [n|] eqn:En; [|done].
  destruct (0 <? n) eqn:E0; [|done]. injection H as <-. bools.
  assert (forall g', holders g' (<[i := dc_set h c]> calls) = holders g' calls + one (bool_decide (g' = g))) as HH.
  { intros g'. unfold holders. rewrite (sum_map_update _ _ _ c), HU by done.
    destruct (decide (g' = g)) as [->|Hne].
    - rewrite HF, bool_decide_eq_true_2 by done. simpl. lia.
    - rewrite bool_decide_eq_false_2 by done. rewrite orb_false_r. simpl. lia. }
  split; [|split].
  - apply (move_gates s _ calls); try done.
    + intros g' x' Hx'. rewrite HH. simpl. assert (gate_id s g' = Some x') as Hg' by by destruct g'.
      destruct (gt_gate _ _ K _ _ Hg') as (_ & V1 & V2).
      destruct (decide (g' = g)) as [->|Hne].
      * rewrite bool_decide_eq_true_2 by done. simpl. assert (x' = x) as -> by congruence.
        rewrite lookup_insert_eq. split; [f_equal; congruence || (simplify_eq; lia)|simplify_eq; lia].
      * rewrite bool_decide_eq_false_2, lookup_insert_ne by (done || (intros ->; by apply Hne, (gt_apart _ _ K _ _ x'))).
        simpl. rewrite Z.add_0_r. done.
    + intros j d [[<- <-]|[_ Hd]]%lookup_insert_Some; [by apply (gt_call _ _ K _ _ Hc)|].
      by apply (gt_call _ _ K _ _ Hd).
  - intros t. simpl. by rewrite (set_held_members _ _ _ c).
  - intros t. simpl. by rewrite (set_held_members _ _ _ c).
Qed.

(** Releasing one gate. *)
Lemma sem_release_gate s g x calls : gates_ok s calls -> gate_id s g = Some x ->
  exists n, cs_value s !! x = Some n /\
    sem_release x s = (cs_set (<[x := n + 1]> (cs_value s)) (cs_next s) (cs_tenants s)
                         (cs_references s) (cs_providers s) s, Ok tt).
Proof.
  intros K Hx. destruct (gt_gate _ _ K _ _ Hx) as (_ & V & _). eexists. split; [exact V|].
  unfold sem_release. by rewrite V.
Qed.

(** What the releases of a leaving call leave behind, before its reference is dropped. *)
Definition released (c : DiscoveryCall) (s s' : Concurrency) : Prop :=
  (forall g x n, gate_id s g = Some x -> cs_value s !! x = Some n ->
     cs_value s' !! x = Some (n + one (uses g c))) /\
  cs_next s' = cs_next s /\ cs_tenants s' = cs_tenants s /\ cs_references s' = cs_references s /\
  cs_providers s' = cs_providers s /\ cs_global s' = cs_global s /\
  cs_tenant_limit s' = cs_tenant_limit s /\ cs_provider_limit s' = cs_provider_limit s.

Lemma other_unused g c : g <> GTenant (dc_tenant c) -> g <> GProvider (dc_provider c) -> g <> GGlobal ->
  one (uses g c) = 0.
Proof.
  intros G1 G2 G3. destruct g as [|t|p]; simpl; [done| |].
  - by rewrite (proj2 (Z.eqb_neq _ _)) by congruence.
  - by rewrite bool_decide_eq_false_2 by congruence.
Qed.

Lemma leave_releases s calls i c : gates_ok s calls -> calls !! i = Some c ->
  exists s', released c s s' /\ acquire_leave c s = release_tenant_reference (dc_tenant c) s'.
Proof.
  intros K Hc. destruct (gt_call _ _ K _ _ Hc) as [Et Ep].
  assert (gate_id s GGlobal = Some (cs_global s)) as Eg by done.
  pose proof (gt_apart _ _ K) as HA.
  destruct (gt_gate _ _ K _ _ Et) as (_ & Vt & _). destruct (gt_gate _ _ K _ _ Ep) as (_ & Vp & _).
  destruct (gt_gate _ _ K _ _ Eg) as (_ & Vg & _).
  assert (dc_tenant_gate c <> dc_provider_gate c) as N1
    by (intros E; rewrite E in Et; by specialize (HA _ _ _ Et Ep)).
  assert (dc_tenant_gate c <> cs_global s) as N2
    by (intros E; rewrite E in Et; by specialize (HA _ _ _ Et Eg)).
  assert (dc_provider_gate c <> cs_global s) as N3
    by (intros E; rewrite E in Ep; by specialize (HA _ _ _ Ep Eg)).
  unfold acquire_leave, mbind, M_bind, self, sem_release.
  destruct (dc_held c) eqn:Eh; simpl;
    repeat (first [rewrite lookup_insert_ne by done | rewrite Vg | rewrite Vp | rewrite Vt]; simpl).
  all: eexists; split; [|reflexivity].
  all: split; [|done].
  all: intros g x n Hx Hn; simpl.
  all: destruct (decide (g = GTenant (dc_tenant c))) as [->|G1];
    [assert (x = dc_tenant_gate c) as -> by congruence; rewrite Vt in Hn; injection Hn as <-;
     simpl; rewrite Eh, Z.eqb_refl; simpl|].
  all: try (destruct (decide (g = GProvider (dc_provider c))) as [->|G2];
    [assert (x = dc_provider_gate c) as -> by congruence; rewrite Vp in Hn; injection Hn as <-;
     simpl; rewrite Eh, bool_decide_eq_true_2 by done; simpl|]).
  all: try (destruct (decide (g = GGlobal)) as [->|G3];
    [assert (x = cs_global s) as -> by congruence; rewrite Vg in Hn; injection Hn as <-; simpl; rewrite Eh|]).
  all: try (rewrite (other_unused _ _ G1 G2 G3), Z.add_0_r).
  all: repeat (first [rewrite lookup_insert_eq | rewrite lookup_insert_ne by
    (done || (intros <-; by first [apply G1, (HA _ _ _ Hx Et) | apply G2, (HA _ _ _ Hx Ep) | apply G3, (HA _ _ _ Hx Eg)]))]).
  all: first [done | by rewrite ?Vt, ?Vp, ?Vg, Z.add_0_r].
Qed.

Lemma leave_gates s s1 s' calls i c : gates_ok s calls -> calls !! i = Some c -> released c s s1 ->
  cs_value s' = cs_value s1 -> cs_next s' = cs_next s1 -> cs_providers s' = cs_providers s1 ->
  cs_global s' = cs_global s1 -> cs_tenant_limit s' = cs_tenant_limit s1 ->
  cs_provider_limit s' = cs_provider_limit s1 ->
  (forall t x, cs_tenants s' !! t = Some x -> cs_tenants s !! t = Some x) ->
  (forall j d, delete i calls !! j = Some d -> cs_tenants s' !! dc_tenant d = cs_tenants s !! dc_tenant d) ->
  gates_ok s' (delete i calls).
Proof.
  intros K Hc (V & N1 & _ & _ & P1 & G1 & L1 & L2) EV EN EP EG E1 E2 HT HD.
  assert (forall g x, gate_id s' g = Some x -> gate_id s g = Some x) as HG.
  { intros [|t|p] x; simpl; rewrite ?EG, ?EP, ?P1, ?G1; auto. }
  assert (forall g, holders g (delete i calls) = holders g calls - one (uses g c)) as HH
    by (intros g; by apply (sum_map_delete (fun c => one (uses g c)))).
  apply (move_gates s _ calls); try done.
  - congruence.
  - intros []; simpl; congruence.
  - intros g x Hx%HG. rewrite EV, HH. destruct (gt_gate _ _ K _ _ Hx) as (_ & V1 & V2).
    pose proof (one_nonneg (uses g c)). rewrite (V _ _ _ Hx V1). split; [f_equal; lia|lia].
  - intros j d Hj. pose proof (HD _ _ Hj) as Hd. apply lookup_delete_Some in Hj as [_ Hj].
    destruct (gt_call _ _ K _ _ Hj) as [D1 D2]. simpl in *. by rewrite Hd, EP, P1.
Qed.

Lemma leave_ok s calls i c : registry_ok s calls -> calls !! i = Some c ->
  exists s', acquire_leave c s = (s', Ok tt) /\ registry_ok s' (delete i calls).
Proof.
  intros (K & HR & HT) Hc. destruct (leave_releases _ _ _ _ K Hc) as (s1 & HS & ->).
  pose proof HS as (_ & _ & T1 & R1 & _).
  assert (forall t, members t (delete i calls) = members t calls - one (dc_tenant c =? t)) as HM
    by (intros t; by apply (sum_map_delete (fun c => one (dc_tenant c =? t)))).
  assert (forall t, 0 <= members t (delete i calls)) as HN
    by (intros t; apply sum_map_nonneg; intros; apply one_nonneg).
  set (t := dc_tenant c) in *. pose proof (HM t) as HMt. rewrite Z.eqb_refl in HMt. simpl in HMt.
  pose proof (HN t) as HNt. unfold release_tenant_reference. rewrite R1, (HR t), (proj2 (Z.eqb_neq _ _)) by lia.
  destruct (proj2 (HT t)) as [x Hx]; [lia|].
  destruct (members t calls - 1 =? 0) eqn:E; bools.
  - rewrite T1, Hx. eexists. split; [reflexivity|]. split; [|split].
    + apply (leave_gates s s1 _ calls i c); try done; simpl.
      * intros t' y [_ Hy]%lookup_delete_Some. done.
      * intros j d Hd. rewrite lookup_delete_ne; [done|]. intros Et.
        apply (members_zero t (delete i calls) j d); [lia|done|done].
    + intros t'. simpl. rewrite HM, ?R1. destruct (t =? t') eqn:Et; bools; simpl.
      * subst t'. rewrite lookup_delete_eq, (proj2 (Z.eqb_eq _ _)) by lia. done.
      * rewrite lookup_delete_ne, Z.sub_0_r by done. apply HR.
    + intros t'. simpl. rewrite HM. destruct (t =? t') eqn:Et; bools; simpl.
      * subst t'. rewrite lookup_delete_eq. split; [by intros []|lia].
      * rewrite lookup_delete_ne, Z.sub_0_r by done. apply HT.
  - eexists. split; [reflexivity|]. split; [|split].
    + apply (leave_gates s s1 _ calls i c); try done; simpl; by rewrite T1.
    + intros t'. simpl. rewrite HM, ?R1. destruct (t =? t') eqn:Et; bools; simpl.
      * subst t'. rewrite lookup_insert_eq, (proj2 (Z.eqb_neq _ _)) by lia. done.
      * rewrite lookup_insert_ne, Z.sub_0_r by done. apply HR.
    + intros t'. simpl. rewrite HM, ?T1. destruct (t =? t') eqn:Et; bools; simpl.
      * subst t'. rewrite Hx. split; [lia|by eexists].
      * rewrite Z.sub_0_r. apply HT.
Qed.

Lemma conc_step_ok a b : registry_ok a.1 a.2 -> conc_step a b -> registry_ok b.1 b.2.
Proof.
  intros K H. destruct H as [i t p s s' tenant gate calls Hi HS|i c x h s s' calls Hc Hg HS|i c s s' calls Hc HS];
    simpl in *.
  - by eapply enter_ok.
  - by eapply acquire_ok.
  - destruct (leave_ok _ _ _ _ K Hc) as (s2 & E & ?). rewrite HS in E. by injection E as ->.
Qed.

Lemma new_ok tenant_limit provider_limit s :
  DiscoveryConcurrency_new global_limit tenant_limit provider_limit = Ok s -> registry_ok s ∅.
Proof.
  unfold DiscoveryConcurrency_new. intros H. minv. bools.
  assert (forall g, holders g ∅ = 0) as HH by (intros g; apply sum_map_empty).
  assert (forall t, members t ∅ = 0) as HM by (intros t; apply sum_map_empty).
  split; [constructor; simpl|split].
  - lia.
  - intros [|t|p] x; simpl; rewrite ?HH, ?lookup_empty; try done. intros [= <-].
    rewrite lookup_singleton_eq. split; [lia|]. split; [f_equal; lia|lia].
  - intros [|t|p] [|t'|p'] x; simpl; rewrite ?lookup_empty; done.
  - intros i c. by rewrite lookup_empty.
  - intros t. simpl. by rewrite HM, lookup_empty.
  - intros t. simpl. rewrite HM, lookup_empty. split; [by intros []|done].
Qed.
End Limits.

(** The limits do not change. *)
Lemma conc_step_limits a b : conc_step a b ->
  cs_tenant_limit b.1 = cs_tenant_limit a.1 /\ cs_provider_limit b.1 = cs_provider_limit a.1.
Proof.
  intros [i t p s s' tenant gate calls Hi HS|i c x h s s' calls Hc Hg HS|i c s s' calls Hc HS]; simpl.
  - unfold semaphores, setdefault_tenant, setdefault_provider in HS. minv.
    destruct (cs_tenants s !! t); minv; case_match; minv; done.
  - unfold sem_acquire in HS. repeat case_match; by simplify_eq.
  - assert (forall (b : bool) x u v y, (if b then sem_release x else mret tt) u = (v, Ok y) ->
      cs_tenant_limit v = cs_tenant_limit u /\ cs_provider_limit v = cs_provider_limit u) as HX.
    { unfold sem_release. intros b' x u v y HX. destruct b'; [case_match; by simplify_eq|by minv]. }
    unfold acquire_leave, release_tenant_reference in HS. minv.
    repeat match goal with A : (if _ then sem_release _ else _) _ = _ |- _ => apply HX in A as [<- <-] end.
    repeat case_match; by simplify_eq.
Qed.

Lemma conc_reachable global_limit tenant_limit provider_limit s0 s calls :
  DiscoveryConcurrency_new global_limit tenant_limit provider_limit = Ok s0 ->
  star conc_step (s0, ∅) (s, calls) ->
  registry_ok global_limit s calls /\ cs_tenant_limit s = tenant_limit /\ cs_provider_limit s = provider_limit.
Proof.
  intros H0 H. change s with (s, calls).1. change calls with (s, calls).2 at 2.
  apply (star_invariant conc_step (fun a => registry_ok global_limit a.1 a.2 /\
    cs_tenant_limit a.1 = tenant_limit /\ cs_provider_limit a.1 = provider_limit)) with (2 := H).
  - intros a b (K & E1 & E2) HS. destruct (conc_step_limits a b HS) as [-> ->].
    split; [by eapply conc_step_ok|done].
  - simpl. split; [by eapply new_ok|]. unfold DiscoveryConcurrency_new in H0. by minv.
Qed.

(** Every gate, in the registry or not, is held by no more calls than it admits. *)
Lemma holders_bounded global_limit s calls g : registry_ok global_limit s calls ->
  holders g calls <= limit global_limit s g.
Proof.
  intros (K & _ & HT). destruct (gate_id s g) as [x|] eqn:E; [by apply (gt_gate _ _ _ K) in E as (_ & _ & ?)|].
  assert (holders g calls = 0) as ->.
  { destruct g as [|t|p]; [done| |by eapply provider_holders_zero].
    apply holders_zero. destruct (decide (members t calls = 0)) as [|Hne]; [done|].
    apply HT in Hne as [x Hx]. simpl in E. congruence. }
  destruct (gt_limits _ _ _ K) as (? & ? & ?). destruct g; simpl; lia.
Qed.

(** However many calls of however many tenants run concurrently, and whichever are
    cancelled while they wait: at most the global limit of them call a provider at once, at most the
    tenant limit per tenant, at most the provider limit per provider; the registry refers to a
    tenant exactly while the tenant has a call, with the number of its calls; and a call that
    leaves always does so without an exception. *)
Theorem discovery_limits global_limit tenant_limit provider_limit s0 s calls :
  DiscoveryConcurrency_new global_limit tenant_limit provider_limit = Ok s0 ->
  star conc_step (s0, ∅) (s, calls) ->
  let calling f := sum_map (fun c => one ((dc_held c is HoldsGlobal) && f c)) calls in
  calling (fun _ => true) <= global_limit /\
  (forall t, calling (fun c => dc_tenant c =? t) <= tenant_limit) /\
  (forall p, calling (fun c => bool_decide (dc_provider c = p)) <= provider_limit) /\
  (forall t, cs_references s !! t = (if members t calls =? 0 then None else Some (members t calls)) /\
             (is_Some (cs_tenants s !! t) <-> members t calls <> 0)) /\
  (forall i c, calls !! i = Some c -> exists s', acquire_leave c s = (s', Ok tt)).
Proof.
  intros H0 H calling. destruct (conc_reachable _ _ _ _ _ _ H0 H) as (K & <- & <-).
  assert (forall g f, (forall c, f c = true -> dc_held c = HoldsGlobal -> uses g c = true) ->
    calling f <= limit global_limit s g) as HC.
  { intros g f Hf. etransitivity; [|by apply holders_bounded]. apply sum_map_le. intros c. apply one_mono.
    intros [Hh Hc]%andb_prop. apply bool_decide_eq_true in Hh. by apply Hf. }
  split; [|split; [|split; [|split]]].
  - apply (HC GGlobal). intros c _ Hh. by apply bool_decide_eq_true_2.
  - intros t. apply (HC (GTenant t)). intros c Hc Hh. simpl. by rewrite Hc, Hh.
  - intros p. apply (HC (GProvider p)). intros c Hc Hh. simpl. by rewrite Hc, Hh.
  - destruct K as (_ & HR & HT). intros t. by split.
  - intros i c Hc. destruct (leave_ok _ _ _ _ _ K Hc) as (s' & Hs & _). by exists s'.
Qed.

(** Concurrent discovery does not deadlock: while any call is in flight, some call is
    calling its provider or some waiting call can take the semaphore it waits for. *)
Theorem discovery_progress global_limit tenant_limit provider_limit s0 s calls :
  DiscoveryConcurrency_new global_limit tenant_limit provider_limit = Ok s0 ->
  star conc_step (s0, ∅) (s, calls) -> calls <> ∅ ->
  exists i c, calls !! i = Some c /\
    (dc_held c = HoldsGlobal \/
     exists x h s', next_gate s c = Some (x, h) /\ sem_acquire x s = (s', Ok true)).
Proof.
  intros H0 H Hne. destruct (conc_reachable _ _ _ _ _ _ H0 H) as ((K & _ & _) & _ & _).
  assert (forall h, (exists i c, calls !! i = Some c /\ dc_held c = h) \/
    forall i c, calls !! i = Some c -> dc_held c <> h) as HD.
  { intros h. destruct (decide (map_Exists (fun _ c => dc_held c = h) calls)) as [(i & c & ?)|Hn];
      [left; by exists i, c|right]. intros i c Hc Eh. apply Hn. by exists i, c. }
  assert (forall g x, gate_id s g = Some x -> (forall i c, calls !! i = Some c -> uses g c = false) ->
    exists s', sem_acquire x s = (s', Ok true)) as HA.
  { intros g x Hx HU. destruct (gt_gate _ _ _ K _ _ Hx) as (_ & V & _). unfold sem_acquire. rewrite V.
    assert (holders g calls = 0) as ->
      by (apply sum_map_zero; intros i c Hc; by rewrite (HU i c Hc)).
    destruct (gt_limits _ _ _ K) as (? & ? & ?).
    replace (0 <? limit global_limit s g - 0) with true by (destruct g; simpl; lia). by eexists. }
  destruct (HD HoldsGlobal) as [(i & c & Hc & Eh)|N3]; [exists i, c; split; [done|by left]|].
  assert (forall i c x h, calls !! i = Some c -> next_gate s c = Some (x, h) ->
    (forall j d g, calls !! j = Some d -> waits_for c = Some g -> uses g d = false) ->
    exists i c, calls !! i = Some c /\ (dc_held c = HoldsGlobal \/
     exists x h s', next_gate s c = Some (x, h) /\ sem_acquire x s = (s', Ok true))) as HW.
  { intros i c x h Hc Hg HU. destruct (next_gate_id _ _ _ _ _ _ _ K Hc Hg) as (g & Hw & Hx & _).
    destruct (HA g x Hx) as [s' Hs]; [intros j d Hd; by eapply HU|].
    exists i, c. split; [done|right]. by exists x, h, s'. }
  destruct (HD HoldsProvider) as [(i & c & Hc & Eh)|N2].
  { eapply (HW i c); [done|unfold next_gate; by rewrite Eh|]. unfold waits_for. rewrite Eh.
    intros j d g Hd [= <-]. apply bool_decide_eq_false_2. by eapply N3. }
  destruct (HD HoldsTenant) as [(i & c & Hc & Eh)|N1].
  { eapply (HW i c); [done|unfold next_gate; by rewrite Eh|]. unfold waits_for. rewrite Eh.
    intros j d g Hd [= <-]. apply andb_false_intro2, bool_decide_eq_false_2.
    specialize (N3 _ _ Hd). specialize (N2 _ _ Hd). set_solver. }
  apply map_choose in Hne as (i & c & Hc). assert (dc_held c = HoldsNone) as Eh.
  { specialize (N3 _ _ Hc). specialize (N2 _ _ Hc). specialize (N1 _ _ Hc). by destruct (dc_held c). }
  eapply (HW i c); [done|unfold next_gate; by rewrite Eh|]. unfold waits_for. rewrite Eh.
  intros j d g Hd [= <-]. apply andb_false_intro2. rewrite bool_decide_eq_true_2; [done|].
  specialize (N3 _ _ Hd). specialize (N2 _ _ Hd). specialize (N1 _ _ Hd). by destruct (dc_held d).
Qed.

(** ** The breaker *)

(** What a caller does to a breaker: asks for a request, or records how one ended. *)
Inductive breaker_op :=
| AllowRequest (now : datetime)
| RecordSuccess
| RecordFailure (now : datetime).

Definition breaker_exec (op : breaker_op) (b : CircuitBreaker) : CircuitBreaker :=
  match op with
  | AllowRequest now => (allow_request now b).1
  | RecordSuccess => (record_success b).1
  | RecordFailure now => (record_failure now b).1
  end.

Definition breaker_after (ops : list breaker_op) (b : CircuitBreaker) : CircuitBreaker :=
  foldl (fun b op => breaker_exec op b) b ops.

(** The three states, each with its columns. *)
Definition breaker_wf (b : CircuitBreaker) : Prop :=
  1 <= br_failure_threshold b /\
  match br_state b with
  | CircuitState_CLOSED => 0 <= br_failure_count b < br_failure_threshold b /\
      br_opened_at b = None /\ br_probe_in_flight b = false
  | CircuitState_OPEN => is_Some (br_opened_at b) /\ br_probe_in_flight b = false
  | CircuitState_HALF_OPEN => is_Some (br_opened_at b) /\ br_probe_in_flight b = true
  end.

Lemma breaker_exec_wf op b : breaker_wf b -> breaker_wf (breaker_exec op b).
Proof.
  intros [H1 H2]. destruct op as [now| |now]; unfold breaker_wf in *; simpl.
  - unfold allow_request, mbind, M_bind, self, lift, update. destruct (br_state b) eqn:E; simpl.
    + by rewrite E.
    + destruct H2 as [[o Ho] Hp]. rewrite Ho. destruct (timedelta _) as [r|]; simpl; [|by rewrite E, Ho].
      destruct (dt_lt _ _) as [[]|]; simpl; by rewrite ?E, ?Ho.
    + destruct H2 as [Ho Hp]. rewrite Hp. simpl. by rewrite E.
  - unfold record_success, update. simpl. split; [done|]. split; [lia|done].
  - unfold record_failure, breaker_open, mbind, M_bind, self, update. simpl.
    destruct (br_state b) eqn:E; simpl; rewrite ?E; simpl;
      try (destruct (br_failure_threshold b <=? br_failure_count b + 1) eqn:EL; simpl; rewrite ?E; bools);
      repeat match goal with |- _ /\ _ => split | |- is_Some _ => by eexists end;
      try done; try lia; by destruct_and?.
Qed.

Lemma breaker_after_wf ops b : breaker_wf b -> breaker_wf (breaker_after ops b).
Proof. revert b. induction ops as [|op ops IH]; intros b K; [done|]. by apply IH, breaker_exec_wf. Qed.

(** Asking does not disturb a probe that is in flight. *)
Lemma asking_while_probing now b : br_state b = CircuitState_HALF_OPEN -> br_probe_in_flight b = true ->
  allow_request now b = (b, Ok false).
Proof. intros E1 E2. unfold allow_request, mbind, M_bind, self. by rewrite E1, E2. Qed.

(** The configuration does not change. *)
Definition configured (threshold : Z) (recovery : float) (b : CircuitBreaker) : Prop :=
  br_failure_threshold b = threshold /\ br_recovery_seconds b = recovery.

Lemma breaker_exec_configured op b t r : configured t r b -> configured t r (breaker_exec op b).
Proof.
  intros H. destruct op as [now| |now]; simpl; [|done|].
  - unfold allow_request, mbind, M_bind, self, lift, update. destruct (br_state b); simpl; [done|..].
    + destruct (br_opened_at b); simpl; [|done]. destruct (timedelta _); simpl; [|done].
      by destruct (dt_lt _ _) as [[]|].
    + by destruct (br_probe_in_flight b).
  - unfold record_failure, breaker_open, mbind, M_bind, self, update. simpl.
    destruct (br_state b is CircuitState_HALF_OPEN); simpl; [done|]. by destruct (_ <=? _).
Qed.

Lemma breaker_after_configured ops b t r : configured t r b -> configured t r (breaker_after ops b).
Proof. revert b. induction ops as [|op ops IH]; intros b K; [done|]. by apply IH, breaker_exec_configured. Qed.

(** In every history of a breaker: it is CLOSED only with fewer recorded failures than its
    threshold; CLOSED admits every request; OPEN refuses until the recovery time has passed since it
    opened and then admits exactly one probe; and while the probe is in flight every further
    request is refused and changes nothing, until an outcome is recorded. *)
Theorem breaker_history threshold recovery b0 ops span : CircuitBreaker_new threshold recovery = Ok b0 ->
  timedelta recovery = Ok span ->
  let b := breaker_after ops b0 in
  match br_state b with
  | CircuitState_CLOSED => 0 <= br_failure_count b < threshold /\
      forall now, allow_request now b = (b, Ok true)
  | CircuitState_OPEN => exists opened, br_opened_at b = Some opened /\
      forall now, dt_aware now = dt_aware opened ->
        if dt_us now <? dt_us opened + span then allow_request now b = (b, Ok false)
        else exists b', allow_request now b = (b', Ok true) /\ br_state b' = CircuitState_HALF_OPEN /\
          forall later, allow_request later b' = (b', Ok false)
  | CircuitState_HALF_OPEN => forall now, allow_request now b = (b, Ok false)
  end.
Proof.
  intros H0 HS b. assert (breaker_wf b0 /\ configured threshold recovery b0) as [W C].
  { unfold CircuitBreaker_new in H0. minv. bools. simpl. unfold breaker_wf. simpl. ksplit; lia. }
  apply (breaker_after_wf ops) in W as [_ W]. apply (breaker_after_configured ops) in C as [C1 C2].
  fold b in W, C1, C2. destruct (br_state b) eqn:E.
  - destruct W as (W & _). rewrite C1 in W. split; [done|]. intros now.
    unfold allow_request, mbind, M_bind, self. by rewrite E.
  - destruct W as [[o Ho] Hp]. exists o. split; [done|]. intros now Ha.
    unfold allow_request, mbind, M_bind, self, lift, update, dt_lt, dt_cmp. rewrite E, Ho, C2, HS. simpl.
    rewrite Ha, Bool.eqb_reflx. destruct (dt_us now <? dt_us o + span); [done|]. simpl.
    eexists. split; [reflexivity|]. split; [done|]. intros later. by apply asking_while_probing.
  - intros now. apply asking_while_probing; [done|apply W].
Qed.

(** A probe that ends with an error that is neither transient nor internal, or that is cancelled,
    records nothing: the breaker then refuses every request for good. *)
Lemma probe_lost provider query elapsed outcome now b :
  br_state b = CircuitState_HALF_OPEN -> br_probe_in_flight b = true ->
  outcome = Cancelled \/ (exists e, outcome = RaisedTyped e /\
    te_category e ∉ [ErrorCategory_TRANSIENT; ErrorCategory_INTERNAL]) ->
  (search_end provider query elapsed outcome now (Some b)).1 = Some b /\
  forall asks, Forall (fun op => exists now, op = AllowRequest now) asks -> breaker_after asks b = b.
Proof.
  intros E1 E2 Ho. split.
  - unfold search_end. destruct Ho as [->|(e & -> & He)]; simpl; [done|].
    destruct (error_response _ _ _ _) as [r|] eqn:Er; [|done].
    assert (pv_error r = Some e) as Ee by (unfold error_response, ProviderResponse_new in Er; by minv).
    unfold tell_breaker. rewrite Ee, bool_decide_eq_false_2 by done. done.
  - intros asks HF. induction HF as [|op asks [at_ ->] _ IH]; [done|]. simpl.
    by rewrite asking_while_probing.
Qed.

(** ** Witnesses *)

Definition ex_breaker : CircuitBreaker :=
  {| br_failure_threshold := 3; br_recovery_seconds := float_of_Z 30; br_state := CircuitState_CLOSED;
     br_failure_count := 0; br_opened_at := None; br_probe_in_flight := false |}.

Lemma breaker_history_witness :
  let b := breaker_after [RecordFailure (utc 1); RecordFailure (utc 2); RecordFailure (utc 3)] ex_breaker in
  allow_request (utc 4) b = (b, Ok false) /\
  exists b', allow_request (utc 30000003) b = (b', Ok true) /\
    forall later, allow_request later b' = (b', Ok false).
Proof.
  destruct (breaker_history 3 (float_of_Z 30) ex_breaker
    [RecordFailure (utc 1); RecordFailure (utc 2); RecordFailure (utc 3)] 30000000 eq_refl eq_refl)
    as (opened & Ho & H). injection Ho as <-.
  split; [exact (H (utc 4) eq_refl)|].
  destruct (H (utc 30000003) eq_refl) as (b' & H1 & _ & H3). exists b'. split; [exact H1|exact H3].
Defined.

Definition ex_limits : Concurrency :=
  {| cs_tenant_limit := 1; cs_provider_limit := 4; cs_value := {[ 0 := 20 ]}; cs_next := 1; cs_global := 0;
     cs_tenants := ∅; cs_references := ∅; cs_providers := ∅ |}.

(** Two calls of one tenant: the first holds the tenant's only slot. *)
Definition ex_concurrent : Concurrency * Calls :=
  let s1 := (semaphores 5 (u "bing") ex_limits).1 in
  let s2 := (semaphores 5 (u "bing") s1).1 in
  let call := {| dc_tenant := 5; dc_provider := u "bing"; dc_tenant_gate := 1; dc_provider_gate := 2;
                 dc_held := HoldsNone |} in
  ((sem_acquire 1 s2).1, <[0%nat := dc_set HoldsTenant call]> (<[1%nat := call]> (<[0%nat := call]> ∅))).

Lemma ex_concurrent_reachable : star conc_step (ex_limits, ∅) ex_concurrent.
Proof.
  unfold ex_concurrent. cbv zeta. eapply star_step; [eapply (Enter 0 5 (u "bing")); [done|vm_compute; reflexivity]|].
  eapply star_step; [eapply (Enter 1 5 (u "bing")); [done|vm_compute; reflexivity]|].
  eapply star_step; [eapply (Acquire 0); [done|reflexivity|vm_compute; reflexivity]|].
  apply star_refl.
Qed.

Lemma discovery_limits_witness :
  star conc_step (ex_limits, ∅) ex_concurrent /\
  cs_references ex_concurrent.1 !! 5 = Some 2 /\
  sum_map (fun c => one ((dc_held c is HoldsGlobal) && (dc_tenant c =? 5))) ex_concurrent.2 <= 1.
Proof.
  destruct (discovery_limits 20 1 4 ex_limits ex_concurrent.1 ex_concurrent.2 eq_refl
    ex_concurrent_reachable) as (_ & HT & _ & HR & _).
  split; [exact ex_concurrent_reachable|]. split; [exact (proj1 (HR 5))|exact (HT 5)].
Defined.

Lemma discovery_progress_witness : exists i c, ex_concurrent.2 !! i = Some c /\
  (dc_held c = HoldsGlobal \/
   exists x h s', next_gate ex_concurrent.1 c = Some (x, h) /\ sem_acquire x ex_concurrent.1 = (s', Ok true)).
Proof.
  apply (discovery_progress 20 1 4 ex_limits ex_concurrent.1 ex_concurrent.2 eq_refl ex_concurrent_reachable).
  intros E. apply (f_equal (fun m : Calls => m !! 0%nat)) in E. vm_compute in E. discriminate.
Defined.
