(* ===== verification/Artifacts.v ===== *)
(** * Artifacts: what the steps hand to one another

    [LocalArtifactStore] of [sana/platform/storage/local_artifacts.py]: payloads addressed by the digest
    of their bytes, under the tenant and run that wrote them. The file tree is a map from the parts of
    a path to its bytes; SHA-256, UTF-8 and the JSON text are parameters. *)

From Stdlib Require Import String.
From S2P Require Import Prelude Errors PyTime PyData PyStr PyUrl Run Discovery.

Definition bytes := list Z.

(** [bytes.decode] and [str.encode] *)
Class Codecs := {
  utf8_encode : pystr -> res bytes;
  utf8_decode : bytes -> res pystr;
  utf8_replace : bytes -> pystr
}.

(** A JSON value whose objects have their keys in order, as [json.dumps(..., sort_keys=True)] writes it. *)
Fixpoint sorted_json (v : json) : json :=
  match v with
  | JList l => JList (map sorted_json l)
  | JObj d => JObj (py_sorted (fun a b : pystr * json => pystr_ltb a.1 b.1) (map (fun '(k, x) => (k, sorted_json x)) d))
  | _ => v
  end.

Definition typed_error (category : ErrorCategory) (code message : string) : exn :=
  Typed (typed category code (u message) false).

(** ** The store *)

(** The files by tenant, run and digest. *)
Abbreviation Files := (gmap (UUID * UUID * pystr) bytes).

Section Store.
Context {U : Unicode} {I : IpLiterals} {Text : PyText} {Codec : Codecs}
  (sha256_bytes : bytes -> pystr) (json_text : json -> pystr) (json_of_text : pystr -> res json).

(** [@ src/sana/platform/storage/local_artifacts.py LocalArtifactStore._uri] *)
Definition artifact_uri (tenant_id run_id : UUID) (digest : pystr) : pystr :=
  u "artifact://" ++ str_of_uuid tenant_id ++ u "/" ++ str_of_uuid run_id ++ u "/" ++ digest.

Definition invalid_identity : exn :=
  typed_error ErrorCategory_CONTENT "invalid_artifact_uri" "Artifact reference identity is invalid".

(** [try: UUID(t) except ValueError] *)
Definition identity_of (t : pystr) : res UUID :=
  match uuid_of_text t with Raise (ValueError _) => Raise invalid_identity | r => r end.

(** [@ src/sana/platform/storage/local_artifacts.py LocalArtifactStore._parse] *)
Definition parse_reference (reference : ArtifactRef) : res (UUID * UUID * pystr) :=
  parsed ← urlsplit (ar_uri reference);
  match bool_decide (ur_scheme parsed = u "artifact"), base.filter (fun p => p <> []) (split_char 47 (ur_path parsed)) with
  | true, [run; digest] =>
      tenant_id ← identity_of (ur_netloc parsed);
      run_id ← identity_of run;
      if bool_decide (digest = ar_sha256 reference) then Ok (tenant_id, run_id, digest)
      else Raise (typed_error ErrorCategory_CONTENT "artifact_digest_mismatch" "Artifact URI and digest do not match")
  | _, _ => Raise (typed_error ErrorCategory_CONTENT "invalid_artifact_uri" "Artifact reference URI is invalid")
  end.

(** A file that is there stays as it is, if its bytes have the digest of its name. *)
(** [@ src/sana/platform/storage/local_artifacts.py LocalArtifactStore._write_atomic] *)
Definition write_atomic (path : UUID * UUID * pystr) (payload : bytes) (digest : pystr) : M Files unit :=
  files ← self;
  match files !! path with
  | Some existing =>
      raise_if (negb (bool_decide (sha256_bytes existing = digest)))
        (typed_error ErrorCategory_CONTENT "artifact_corrupted" "Existing artifact failed its content hash check")
  | None => update (fun files => <[path := payload]> files)
  end.

(** [@ src/sana/platform/storage/local_artifacts.py LocalArtifactStore.put_bytes] *)
Definition store_put_bytes (tenant_id run_id : UUID) (payload : bytes) : M Files ArtifactRef :=
  _ ← raise_if (bool_decide (payload = [])) (ValueError "Artifact payload must be non-empty bytes");
  let digest := sha256_bytes payload in
  _ ← write_atomic (tenant_id, run_id, digest) payload digest;
  lift (ArtifactRef_new (artifact_uri tenant_id run_id digest) digest).

(** [@ src/sana/platform/storage/local_artifacts.py LocalArtifactStore.get_bytes] *)
Definition store_get_bytes (files : Files) (tenant_id : UUID) (reference : ArtifactRef) : res bytes :=
  parsed ← parse_reference reference;
  let '(reference_tenant, run_id, digest) := parsed in
  if negb (reference_tenant =? tenant_id)
  then Raise (typed_error ErrorCategory_PERMANENT "artifact_tenant_mismatch" "Artifact does not belong to the active tenant")
  else
    match files !! (reference_tenant, run_id, digest) with
    | None => Raise (Typed (typed ErrorCategory_CONTENT "artifact_not_found" (u "Artifact payload is unavailable") true))
    | Some payload =>
        if bool_decide (sha256_bytes payload = digest) then Ok payload
        else Raise (typed_error ErrorCategory_CONTENT "artifact_corrupted" "Artifact failed its content hash check")
    end.

(** [json_text] is [json.dumps] with sorted keys and no spaces. *)
(** [@ src/sana/platform/storage/local_artifacts.py LocalArtifactStore.put_json] *)
Definition store_put_json (tenant_id run_id : UUID) (payload : json) : M Files ArtifactRef :=
  encoded ← lift (utf8_encode (json_text payload));
  store_put_bytes tenant_id run_id encoded.

(** Both [UnicodeDecodeError] and [JSONDecodeError] are [ValueError]s. *)
(** [@ src/sana/platform/storage/local_artifacts.py LocalArtifactStore.get_json] *)
Definition store_get_json (files : Files) (tenant_id : UUID) (reference : ArtifactRef) : res json :=
  payload ← store_get_bytes files tenant_id reference;
  match (t ← utf8_decode payload; json_of_text t) with
  | Raise (ValueError _) =>
      Raise (typed_error ErrorCategory_CONTENT "artifact_json_invalid" "Artifact is not valid UTF-8 JSON")
  | r => r
  end.

(** ** A reference is read back *)

(** The characters of the parts of a reference. *)
Definition plain_char (c : Z) : bool := lower_hex_char c || (c =? 45).

Lemma plain_not c d : plain_char c = true -> plain_char d = false -> c <> d.
Proof. by intros Hc Hd ->; rewrite Hc in Hd. Qed.

Lemma hex_digits_plain n x : Forall (fun c => plain_char c = true) (hex_digits n x).
Proof using.
  revert x. induction n as [|n IH]; intros x; simpl; [constructor|]. apply Forall_app_2; [apply IH|]. constructor; [|constructor].
  assert (0 <= x mod 16 < 16) by (apply Z.mod_pos_bound; lia). unfold plain_char, lower_hex_char, hex_digit.
  destruct (Z.ltb_spec (x mod 16) 10).
  - replace (48 <=? 48 + x mod 16) with true by lia. by replace (48 + x mod 16 <=? 57) with true by lia.
  - replace (97 <=? 87 + x mod 16) with true by lia. replace (87 + x mod 16 <=? 102) with true by lia. by rewrite orb_true_r.
Qed.

Lemma uuid_plain i : Forall (fun c => plain_char c = true) (str_of_uuid i).
Proof using.
  assert (H := hex_digits_plain 32 (i mod 2 ^ 128)). fold (uuid_hex i) in H. unfold str_of_uuid. cbv zeta.
  repeat (apply Forall_app_2; [by apply Forall_take, Forall_drop + apply Forall_take, H|apply Forall_app_2; [by repeat constructor|]]).
  by apply Forall_drop.
Qed.

Lemma uuid_nonempty i : str_of_uuid i <> [].
Proof using. unfold str_of_uuid. cbv zeta. destruct (take 8 _); done. Qed.

(** The parts of a text without the separator. *)
Lemma split_netloc_plain a r : Forall (fun c => plain_char c = true) a -> split_netloc (a ++ 47 :: r) = (a, 47 :: r).
Proof using.
  induction 1 as [|c a Hc _ IH]; [done|]. cbn [app split_netloc]. rewrite bool_decide_eq_false_2, IH; [done|].
  intros Hin. vm_compute in Hin. apply elem_of_cons in Hin as [->|Hin]; [done|].
  apply elem_of_cons in Hin as [->|Hin]; [done|]. apply list_elem_of_singleton in Hin as ->. done.
Qed.

Lemma split_netloc_app t a r : split_netloc t = (a, r) -> t = a ++ r.
Proof using.
  revert a r. induction t as [|c t IH]; intros a r; simpl; [by intros [= <- <-]|].
  case_bool_decide; [by intros [= <- <-]|]. destruct (split_netloc t) as [n k]. intros [= <- <-]. simpl. f_equal. by apply IH.
Qed.

Lemma split_char_plain a : Forall (fun c => plain_char c = true) a -> split_char 47 a = [a].
Proof using.
  induction 1 as [|c a Hc _ IH]; [done|]. simpl. rewrite IH. rewrite (proj2 (Z.eqb_neq c 47)); [done|].
  by apply (plain_not c 47).
Qed.

Lemma split_char_plain_app a r : Forall (fun c => plain_char c = true) a -> split_char 47 (a ++ 47 :: r) = a :: split_char 47 r.
Proof using.
  induction 1 as [|c a Hc _ IH]; [done|]. cbn [app split_char]. rewrite IH. rewrite (proj2 (Z.eqb_neq c 47)); [done|].
  by apply (plain_not c 47).
Qed.

(** A character that does not occur is not found. *)
Lemma str_find_absent c t : Forall (fun d => d <> c) t -> str_find [c] t = None.
Proof using.
  induction 1 as [|d t Hd _ IH]; [done|]. simpl. unfold starts_with. simpl. rewrite bool_decide_eq_false_2 by congruence.
  by rewrite IH.
Qed.

Lemma plain_absent c t : plain_char c = false -> Forall (fun d => plain_char d = true) t -> Forall (fun d => d <> c) t.
Proof using. intros Hc Ht. eapply Forall_impl; [exact Ht|]. intros d Hd. by eapply plain_not. Qed.

Lemma plain_ascii t : Forall (fun c => plain_char c = true) t -> str_isascii t = true.
Proof using.
  intros Ht. apply forallb_forall. intros c Hc%list_elem_of_In. rewrite Forall_forall in Ht. specialize (Ht c Hc).
  unfold plain_char, lower_hex_char in Ht. unfold ascii_char.
  repeat (apply orb_prop in Ht as [Ht|Ht]); bools; apply andb_true_intro; lia.
Qed.

Definition path_text (run : UUID) (digest : pystr) : pystr := 47 :: str_of_uuid run ++ 47 :: digest.

Definition uri_char (c : Z) : bool := plain_char c || (c =? 47).

Lemma uri_not c d : uri_char c = true -> uri_char d = false -> c <> d.
Proof. by intros Hc Hd ->; rewrite Hc in Hd. Qed.

Lemma plain_uri t : Forall (fun c => plain_char c = true) t -> Forall (fun c => uri_char c = true) t.
Proof. intros Ht. eapply Forall_impl; [exact Ht|]. intros c Hc. unfold uri_char. by rewrite Hc. Qed.

Lemma artifact_uri_split tenant run digest : Forall (fun c => plain_char c = true) digest ->
  urlsplit (artifact_uri tenant run digest) =
    Ok {| ur_scheme := u "artifact"; ur_netloc := str_of_uuid tenant; ur_path := path_text run digest; ur_query := [];
          ur_fragment := [] |}.
Proof using.
  intros Hd. assert (Ht := uuid_plain tenant). assert (Hr := uuid_plain run). unfold artifact_uri, urlsplit.
  change (u "/") with [47]. set (rest := str_of_uuid tenant ++ [47] ++ str_of_uuid run ++ [47] ++ digest).
  assert (Hrest : Forall (fun c => uri_char c = true) rest).
  { unfold rest. repeat first [by apply plain_uri|by repeat constructor|apply Forall_app_2]. }
  assert (Hsplit : split_netloc rest = (str_of_uuid tenant, path_text run digest)) by by apply split_netloc_plain.
  clearbody rest.
  replace (base.filter (fun c => c ∉ [9; 10; 13]) (u "artifact://" ++ rest)) with (u "artifact://" ++ rest).
  2:{ symmetry. rewrite filter_app. f_equal.
      clear -Hrest. induction Hrest as [|c t Hc _ IH]; [done|]. rewrite filter_cons_True; [by f_equal|].
      rewrite !not_elem_of_cons. repeat split; try (by apply (uri_not c)). by apply not_elem_of_nil. }
  assert (Hnet : str_in (u "[") (str_of_uuid tenant) = false /\ str_in (u "]") (str_of_uuid tenant) = false).
  { unfold str_in. change (u "[") with [91]. change (u "]") with [93].
    by rewrite !str_find_absent by (by apply plain_absent). }
  assert (Hpath : Forall (fun c => uri_char c = true) (path_text run digest)).
  { apply split_netloc_app in Hsplit. rewrite Hsplit in Hrest. by apply Forall_app in Hrest as [_ Hp]. }
  cbv zeta.
  change (match str_find (u ":") (u "artifact://" ++ rest), u "artifact://" ++ rest with
          | Some (S i), c :: _ => if ascii_letter c && forallb scheme_char (take (S i) (u "artifact://" ++ rest))
              then (ascii_lower (take (S i) (u "artifact://" ++ rest)), drop (S (S i)) (u "artifact://" ++ rest))
              else ([], u "artifact://" ++ rest)
          | _, _ => ([], u "artifact://" ++ rest) end) with (u "artifact", u "//" ++ rest).
  cbv iota beta. change (starts_with (u "//") (u "//" ++ rest)) with true. cbv iota.
  change (drop 2 (u "//" ++ rest)) with rest. rewrite Hsplit. destruct Hnet as [-> ->]. cbn [xorb orb andb negb fail_if mbind res_bind].
  unfold partition. change (u "#") with [35]. change (u "?") with [63].
  rewrite (str_find_absent 35) by (eapply Forall_impl; [exact Hpath|]; intros c Hc; by apply (uri_not c)).
  rewrite (str_find_absent 63) by (eapply Forall_impl; [exact Hpath|]; intros c Hc; by apply (uri_not c)).
  unfold check_netloc. rewrite plain_ascii, orb_true_r by done. done.
Qed.

(** A digest is 64 lowercase hexadecimal digits. *)
Definition is_digest (digest : pystr) : Prop := length digest = 64%nat /\ Forall (fun c => lower_hex_char c = true) digest.

Lemma digest_plain digest : is_digest digest -> Forall (fun c => plain_char c = true) digest.
Proof using. intros [_ Hd]. eapply Forall_impl; [exact Hd|]. intros c Hc. unfold plain_char. by rewrite Hc. Qed.

Lemma digest_reference uri digest : blank uri = false -> is_digest digest ->
  ArtifactRef_new uri digest = Ok {| ar_uri := uri; ar_sha256 := digest |}.
Proof using.
  intros Hu [Hl Hd]. unfold ArtifactRef_new. rewrite Hu, Hl.
  assert (existsb (fun c => negb (hex_char c)) digest = false /\ ascii_lower digest = digest) as [-> ->]; [|done].
  clear Hl. induction Hd as [|c t Hc _ [IH1 IH2]]; [done|]. unfold ascii_lower in *. simpl. rewrite IH1, IH2. unfold hex_char. rewrite Hc.
  split; [done|]. f_equal. unfold lower_hex_char in Hc. destruct ((65 <=? c) && (c <=? 90)) eqn:E; [|done].
  apply orb_prop in Hc as [Hc|Hc]; bools; lia.
Qed.

Lemma artifact_uri_solid tenant run digest : blank (artifact_uri tenant run digest) = false.
Proof using. by rewrite blank_spec. Qed.

(** The two parts of a path. *)
Lemma path_parts r digest : Forall (fun c => plain_char c = true) r -> r <> [] ->
  Forall (fun c => plain_char c = true) digest -> digest <> [] ->
  base.filter (fun p : pystr => p <> []) (split_char 47 (47 :: r ++ 47 :: digest)) = [r; digest].
Proof using.
  intros Hr Hrn Hd Hdn. cbn [split_char]. rewrite Z.eqb_refl, split_char_plain_app, split_char_plain by done.
  rewrite filter_cons_False by (intros Hx; exact (Hx eq_refl)). rewrite filter_cons_True by done. by rewrite filter_cons_True.
Qed.

Lemma parse_reference_back tenant run digest : is_digest digest ->
  uuid_of_text (str_of_uuid tenant) = Ok tenant -> uuid_of_text (str_of_uuid run) = Ok run ->
  parse_reference {| ar_uri := artifact_uri tenant run digest; ar_sha256 := digest |} = Ok (tenant, run, digest).
Proof using.
  intros Hd Ht Hr. assert (Hp := digest_plain _ Hd). assert (Hn : digest <> []) by (destruct Hd as [Hl _]; by intros ->).
  unfold parse_reference. cbn [ar_uri ar_sha256]. rewrite (artifact_uri_split tenant run digest Hp). unfold identity_of, path_text.
  assert (Hparts := path_parts (str_of_uuid run) digest (uuid_plain run) (uuid_nonempty run) Hp Hn).
  cbn [mbind res_bind ur_scheme ur_path ur_netloc]. rewrite Hparts.
  generalize dependent (str_of_uuid run). generalize dependent (str_of_uuid tenant). intros t Ht r Hr _.
  rewrite bool_decide_eq_true_2 by done. cbv iota beta.
  rewrite Ht. cbn [mbind res_bind]. rewrite Hr. cbn [mbind res_bind]. by rewrite bool_decide_eq_true_2.
Qed.

Context (Hdigest : forall b, is_digest (sha256_bytes b)).

(** Every file has the digest of its name. *)
Definition intact (files : Files) : Prop := forall path b, files !! path = Some b -> sha256_bytes b = path.2.

(** What a successful write leaves: its file, which holds the payload if the name is new. *)
Lemma store_put_inv tenant run payload files files' ref :
  intact files -> store_put_bytes tenant run payload files = (files', Ok ref) ->
  let digest := sha256_bytes payload in
  ref = {| ar_uri := artifact_uri tenant run digest; ar_sha256 := digest |} /\
  ((files !! (tenant, run, digest) = None /\ files' = <[(tenant, run, digest) := payload]> files) \/
   (exists existing, files !! (tenant, run, digest) = Some existing) /\ files' = files).
Proof using Hdigest.
  intros Hi Hput. cbv zeta. unfold store_put_bytes, write_atomic in Hput. minv.
  rewrite digest_reference in * by (apply artifact_uri_solid || apply Hdigest).
  destruct (files !! (tenant, run, sha256_bytes payload)) as [existing|] eqn:Hfile; minv; (split; [done|]); [right|left]; eauto.
Qed.

Lemma store_put_fresh tenant run payload files : payload <> [] -> files !! (tenant, run, sha256_bytes payload) = None ->
  store_put_bytes tenant run payload files =
    (<[(tenant, run, sha256_bytes payload) := payload]> files,
     Ok {| ar_uri := artifact_uri tenant run (sha256_bytes payload); ar_sha256 := sha256_bytes payload |}).
Proof using Hdigest.
  intros Hp Hf. unfold store_put_bytes, write_atomic. rewrite bool_decide_eq_false_2 by done. cbv zeta.
  unfold mbind, M_bind, raise_if, self, update, lift. simpl. rewrite Hf. simpl.
  by rewrite digest_reference by (apply artifact_uri_solid || apply Hdigest).
Qed.

Lemma intact_put tenant run payload files files' ref : intact files ->
  store_put_bytes tenant run payload files = (files', Ok ref) -> intact files' /\ files ⊆ files'.
Proof using Hdigest.
  intros Hi Hput. destruct (store_put_inv _ _ _ _ _ _ Hi Hput) as (_ & [[Hn ->]|[_ ->]]); [|done].
  split; [|by apply insert_subseteq]. intros path b. destruct (decide (path = (tenant, run, sha256_bytes payload))) as [->|Hne].
  - rewrite lookup_insert_eq. by intros [= <-].
  - rewrite lookup_insert_ne by done. apply Hi.
Qed.

Lemma store_get_mono files files' tenant ref b : files ⊆ files' ->
  store_get_bytes files tenant ref = Ok b -> store_get_bytes files' tenant ref = Ok b.
Proof using.
  clear Hdigest. intros Hsub. unfold store_get_bytes. destruct (parse_reference ref) as [[[t r] d]|]; [|done]. cbn [mbind res_bind].
  destruct (negb _); [done|]. destruct (files !! (t, r, d)) as [c|] eqn:E; [|done]. by rewrite (lookup_weaken _ _ _ _ E Hsub).
Qed.

Lemma artifact_read_back tenant run payload files files' ref : intact files ->
  uuid_of_text (str_of_uuid tenant) = Ok tenant -> uuid_of_text (str_of_uuid run) = Ok run ->
  store_put_bytes tenant run payload files = (files', Ok ref) ->
  intact files' /\
  (exists b, store_get_bytes files' tenant ref = Ok b /\ sha256_bytes b = sha256_bytes payload /\
     ((forall c, files !! (tenant, run, sha256_bytes payload) = Some c -> c = payload) -> b = payload)) /\
  (forall t r b, store_get_bytes files t r = Ok b -> store_get_bytes files' t r = Ok b) /\
  (forall other, other <> tenant -> store_get_bytes files' other ref =
     Raise (typed_error ErrorCategory_PERMANENT "artifact_tenant_mismatch" "Artifact does not belong to the active tenant")).
Proof using Hdigest.
  intros Hi Ht Hr Hput. destruct (intact_put _ _ _ _ _ _ Hi Hput) as [Hi' Hsub]. split; [done|].
  destruct (store_put_inv _ _ _ _ _ _ Hi Hput) as [-> Hfiles].
  assert (Hparse := parse_reference_back tenant run _ (Hdigest payload) Ht Hr). split; [|split].
  - unfold store_get_bytes. rewrite Hparse. cbn [mbind res_bind]. rewrite Z.eqb_refl. cbn [negb].
    assert (exists b, files' !! (tenant, run, sha256_bytes payload) = Some b /\
      ((forall c, files !! (tenant, run, sha256_bytes payload) = Some c -> c = payload) -> b = payload)) as (b & Hb & Heq).
    { destruct Hfiles as [[_ ->]|[[c Hc] ->]]; [exists payload; by rewrite lookup_insert_eq|]. exists c. split; [done|]. intros Hall. by apply Hall. }
    exists b. rewrite Hb. assert (Hs := Hi' _ _ Hb). simpl in Hs. rewrite bool_decide_eq_true_2 by done. done.
  - intros t r b. by apply store_get_mono.
  - intros other Hne. unfold store_get_bytes. rewrite Hparse. cbn [mbind res_bind].
    rewrite (proj2 (Z.eqb_neq tenant other)) by done. done.
Qed.

(** Claim C39. The store is content-addressed and only grows: what is put is read back under the reference that
    put returned, by its tenant only, as bytes with the same digest, and as the payload itself unless other
    bytes with that digest were there before; every earlier reference reads as it did. *)
Theorem artifact_roundtrip tenant run payload files files' ref : intact files ->
  uuid_of_text (str_of_uuid tenant) = Ok tenant -> uuid_of_text (str_of_uuid run) = Ok run ->
  store_put_bytes tenant run payload files = (files', Ok ref) ->
  intact files' /\
  (exists b, store_get_bytes files' tenant ref = Ok b /\ sha256_bytes b = sha256_bytes payload /\
     ((forall c, files !! (tenant, run, sha256_bytes payload) = Some c -> c = payload) -> b = payload)) /\
  (forall t r b, store_get_bytes files t r = Ok b -> store_get_bytes files' t r = Ok b) /\
  (forall other, other <> tenant -> store_get_bytes files' other ref =
     Raise (typed_error ErrorCategory_PERMANENT "artifact_tenant_mismatch" "Artifact does not belong to the active tenant")).
Proof using Hdigest. apply artifact_read_back. Qed.
End Store.

(** ** Example *)

(** The identifiers 1 and 2 are read back, and a digest is the last bytes of a text. *)
Definition ex_two_ids : PyText := {|
  repr_text := fun _ => []; int_of_text := fun _ => Raise (ValueError "int"); float_of_text := fun _ => Raise (ValueError "float");
  uuid_of_text := fun t => if bool_decide (t = str_of_uuid 1) then Ok 1 else if bool_decide (t = str_of_uuid 2) then Ok 2
                           else Raise (ValueError "badly formed hexadecimal UUID string");
  datetime_of_text := fun _ => Raise (ValueError "Invalid isoformat string")
|}.

Definition ex_digest (b : bytes) : pystr := hex_digits 64 (foldl (fun n c => 256 * n + c) 0 b).

Lemma ex_is_digest b : is_digest (ex_digest b).
Proof.
  unfold ex_digest. generalize (foldl (fun n c => 256 * n + c) 0 b) as n. intros n. split.
  - generalize 64%nat as k. intros k. revert n. induction k as [|k IH]; intros n; simpl; [done|]. rewrite length_app, IH. simpl. lia.
  - generalize 64%nat as k. intros k. revert n. induction k as [|k IH]; intros n; simpl; [constructor|].
    apply Forall_app_2; [apply IH|]. constructor; [|constructor]. assert (0 <= n mod 16 < 16) by (apply Z.mod_pos_bound; lia).
    unfold lower_hex_char, hex_digit. destruct (Z.ltb_spec (n mod 16) 10); [|rewrite orb_comm]; apply orb_true_intro; left;
      apply andb_true_intro; lia.
Qed.

Definition ex_files : Files := <[(1, 2, ex_digest (u "{}")) := u "{}"]> ∅.
Definition ex_reference : ArtifactRef :=
  {| ar_uri := artifact_uri 1 2 (ex_digest (u "{}")); ar_sha256 := ex_digest (u "{}") |}.

Lemma ex_put : @store_put_bytes ex_digest 1 2 (u "{}") ∅ = (ex_files, Ok ex_reference).
Proof. apply (store_put_fresh ex_digest ex_is_digest); [done|apply lookup_empty]. Qed.

Lemma artifact_roundtrip_witness :
  exists b, @store_get_bytes ex_unicode ex_ip ex_two_ids ex_digest ex_files 1 ex_reference = Ok b.
Proof.
  assert (Hi : intact ex_digest ∅) by (intros path b Hl; rewrite lookup_empty in Hl; discriminate Hl).
  assert (H1 : @uuid_of_text ex_two_ids (str_of_uuid 1) = Ok 1) by (vm_compute; reflexivity).
  assert (H2 : @uuid_of_text ex_two_ids (str_of_uuid 2) = Ok 2) by (vm_compute; reflexivity).
  destruct (@artifact_roundtrip ex_unicode ex_ip ex_two_ids ex_digest ex_is_digest 1 2 (u "{}") ∅ ex_files ex_reference
    Hi H1 H2 ex_put) as (_ & Hread & _).
  destruct Hread as (b & Hb & _). exists b. exact Hb.
Defined.
