(* ===== verification/Research.v ===== *)
(** * Research: upgrading a FAST run, expanding it, and closing it

    [sana/modules/orchestration/research_workflow.py] with the expansion values of
    [sana/modules/search_planning/expansion.py] it uses. *)

From Stdlib Require Import SpecFloat String.
From S2P Require Import Prelude Errors PyTime Transitions Run RunFacts Step Policy Coverage.
From S2P Require Import Workflow.

(** ** When a FAST run is worth upgrading *)

Record FastUpgradeDecision := {
  fu_should_upgrade : bool;
  fu_gap_fact_ids : list UUID;
  fu_reason_codes : list pystr;
  fu_status_by_fact : list (UUID * FactCoverage)
}.

(** [@ src/sana/modules/orchestration/research_workflow.py FastUpgradeDecision] *)
Definition FastUpgradeDecision_new (d : FastUpgradeDecision) : res FastUpgradeDecision :=
  _ ← fail_if (negb (Bool.eqb (fu_should_upgrade d) (negb (bool_decide (fu_reason_codes d = [])))))
        (ValueError "FAST upgrade decision and reasons disagree");
  Ok d.

(** The tests the loop makes of one required fact. *)
Definition is_gap (intent : NormalizedIntent) (fact : FactRequirement) (status : FactCoverage)
    : bool :=
  bool_decide (status ∈ [FactCoverage_OPEN; FactCoverage_PARTIAL])
  || ((status is FactCoverage_COVERED)
      && ((fr_consequence fact is Consequence_HIGH) || ni_requires_complete_sources intent)).

Definition gap_reasons (intent : NormalizedIntent) (fact : FactRequirement) (status : FactCoverage)
    : list pystr :=
  (if status is FactCoverage_PARTIAL then [u "evidence_conflict"] else [])
  ++ (if (status is FactCoverage_OPEN) && (fr_freshness fact isnot Freshness_STABLE)
      then [u "strong_freshness_gap"] else [])
  ++ (if (fr_consequence fact is Consequence_HIGH) && (status isnot FactCoverage_VERIFIED)
      then [u "high_consequence_gap"] else [])
  ++ (if ni_requires_complete_sources intent && (status isnot FactCoverage_VERIFIED)
      then [u "complete_coverage_gap"] else []).

(** The loop, with the three accumulators. *)
Fixpoint upgrade_loop (tenant_id run_id : UUID) (intent : NormalizedIntent)
    (fact_ids : list (pystr * UUID)) (coverage : list (UUID * CoverageAssessment))
    (facts : list FactRequirement) (gaps : list UUID) (reasons : list pystr)
    (statuses : list (UUID * FactCoverage))
    : res (list UUID * list pystr * list (UUID * FactCoverage)) :=
  match facts with
  | [] => Ok (gaps, reasons, statuses)
  | fact :: rest =>
      if negb (fr_required fact) then
        upgrade_loop tenant_id run_id intent fact_ids coverage rest gaps reasons statuses
      else
        match dget (fr_key fact) fact_ids with
        | None => Raise (ValueError "Missing persisted ID for fact")
        | Some fact_id =>
            let assessment := dget fact_id coverage in
            _ ← fail_if (match assessment with
                         | Some a => negb (ca_tenant_id a =? tenant_id)
                                     || negb (ca_run_id a =? run_id)
                                     || negb (bool_decide (ca_fact_key a = fr_key fact))
                         | None => false
                         end) (ValueError "Coverage assessment tenant/run/fact mismatch");
            let status := match assessment with
                          | Some a => ca_status a
                          | None => FactCoverage_OPEN
                          end in
            let statuses := dset fact_id status statuses in
            if is_gap intent fact status then
              upgrade_loop tenant_id run_id intent fact_ids coverage rest (gaps ++ [fact_id])
                (reasons ++ gap_reasons intent fact status) statuses
            else upgrade_loop tenant_id run_id intent fact_ids coverage rest gaps reasons statuses
        end
  end.

(** [@ src/sana/modules/orchestration/research_workflow.py FastUpgradePolicy.evaluate] *)
Definition FastUpgradePolicy_evaluate (tenant_id run_id : UUID) (intent : NormalizedIntent)
    (fact_ids : list (pystr * UUID)) (coverage : list (UUID * CoverageAssessment))
    : res FastUpgradeDecision :=
  out ← upgrade_loop tenant_id run_id intent fact_ids coverage (ni_facts intent) [] [] [];
  let '(gaps, reasons, statuses) := out in
  let reason_codes := dedupe reasons in
  FastUpgradeDecision_new
    {| fu_should_upgrade := negb (bool_decide (reason_codes = [])); fu_gap_fact_ids := gaps;
       fu_reason_codes := reason_codes; fu_status_by_fact := statuses |}.

(** ** The research workflow *)

(** [@ src/sana/modules/orchestration/research_workflow.py ResearchWorkflow.upgrade_fast_run] *)
Definition upgrade_fast_run (decision : FastUpgradeDecision) (policy : SearchPolicy)
    : M SearchRun unit :=
  run ← self;
  _ ← raise_if (negb (fu_should_upgrade decision))
        (ValueError "FAST run has no valuable upgrade reason");
  _ ← raise_if (negb (bool_decide (sp_version policy = rd_policy_version (run_routing run))))
        (ValueError "Upgrade policy version differs from the run snapshot");
  routing ← lift (RoutingDecision_new SearchMode_RESEARCH
    (dedupe (rd_reason_codes (run_routing run) ++ u "fast_value_upgrade" :: fu_reason_codes decision))
    (sp_version policy) (float_of_Z 1));
  budget ← lift (SearchPolicy_snapshot policy SearchMode_RESEARCH (bs_created_at (run_budget run)));
  _ ← lift (BudgetGuard_validate budget (run_usage run));
  SearchRun_upgrade_to_research routing budget.

(** [@ src/sana/modules/orchestration/research_workflow.py ResearchWorkflow.can_schedule] *)
Definition can_schedule (run : SearchRun) (phase : BudgetPhase) (now : datetime)
    (estimated_seconds : float) : res bool :=
  if (SearchRun_mode run isnot SearchMode_RESEARCH)
     || negb (bool_decide (run_status run ∈ [RunStatus_RUNNING; RunStatus_WAITING]))
  then Ok false
  else can_start (run_budget run) phase now estimated_seconds.

(** [@ src/sana/modules/orchestration/research_workflow.py ResearchWorkflow.record_expansion] *)
Definition record_expansion : M SearchRun unit :=
  run ← self;
  _ ← raise_if ((SearchRun_mode run isnot SearchMode_RESEARCH) || SearchRun_is_terminal run)
        (InvariantViolation "Only an active RESEARCH run can expand");
  usage ← lift (BudgetUsage_add (run_usage run)
    {| ui_queries := 0; ui_providers := 0; ui_fetches := 0; ui_llm_calls := 0;
       ui_prompt_tokens := 0; ui_completion_tokens := 0; ui_expansion_rounds := 1;
       ui_phase := None; ui_elapsed_seconds := fzero |});
  _ ← lift (BudgetGuard_validate (run_budget run) usage);
  SearchRun_record_usage usage.

(** [@ src/sana/modules/search_planning/expansion.py RevisionStep] *)
Record RevisionStep := {
  rs_step_key : pystr;
  rs_step_type : StepType;
  rs_plan_revision : Z;
  rs_query_key : pystr
}.

(** [should_expand] and [steps] are the fields of an [ExpansionDecision] read here. *)
(** [@ src/sana/modules/orchestration/research_workflow.py ResearchWorkflow.recover_new_steps] *)
Definition recover_new_steps (should_expand : bool) (steps : list RevisionStep)
    (persisted_statuses : list ((Z * pystr) * StepStatus)) : list RevisionStep :=
  if negb should_expand then []
  else base.filter (fun s => dget (rs_plan_revision s, rs_step_key s) persisted_statuses = None) steps.

(** [@ src/sana/modules/orchestration/research_workflow.py ResearchWorkflow.hard_deadline_reached] *)
Definition hard_deadline_reached (run : SearchRun) (now : datetime) : res bool :=
  dt_le (bs_hard_deadline_at (run_budget run)) now.

(** [@ src/sana/modules/orchestration/research_workflow.py ResearchOutcome] *)
Record ResearchOutcome := { ro_quality : AnswerQuality; ro_reason : StopReason }.

(** [@ src/sana/modules/orchestration/research_workflow.py ResearchWorkflow.outcome] *)
Definition ResearchWorkflow_outcome (required_fact_statuses : list FactCoverage)
    (stopped_for_low_gain deadline_reached : bool) : ResearchOutcome :=
  let complete := negb (bool_decide (required_fact_statuses = []))
    && forallb (fun s => s is FactCoverage_VERIFIED) required_fact_statuses in
  if complete then {| ro_quality := AnswerQuality_COMPLETE; ro_reason := StopReason_FACTS_COVERED |}
  else if deadline_reached then
    {| ro_quality := AnswerQuality_PARTIAL; ro_reason := StopReason_TIME_BUDGET |}
  else if stopped_for_low_gain then
    {| ro_quality := AnswerQuality_PARTIAL; ro_reason := StopReason_INSUFFICIENT_EVIDENCE |}
  else {| ro_quality := AnswerQuality_PARTIAL; ro_reason := StopReason_INSUFFICIENT_EVIDENCE |}.

(** ** The upgrade decision *)

(** The status the loop sees for a fact. *)
Definition status_of (coverage : list (UUID * CoverageAssessment)) (id : UUID) : FactCoverage :=
  match dget id coverage with Some a => ca_status a | None => FactCoverage_OPEN end.

(** A gap worth research: a conflict, an unanswered fresh fact, or anything short of VERIFIED for a
    fact of high consequence or an intent that wants complete sources. *)
Definition valuable (intent : NormalizedIntent) (fact : FactRequirement) (s : FactCoverage) : Prop :=
  s = FactCoverage_PARTIAL \/
  (s = FactCoverage_OPEN /\ fr_freshness fact <> Freshness_STABLE) \/
  (s <> FactCoverage_VERIFIED /\
   (fr_consequence fact = Consequence_HIGH \/ ni_requires_complete_sources intent = true)).

Lemma gap_reasons_valuable intent fact s : is_gap intent fact s = true ->
  gap_reasons intent fact s <> [] <-> valuable intent fact s.
Proof.
  unfold is_gap, gap_reasons, valuable.
  destruct s, (fr_consequence fact), (fr_freshness fact), (ni_requires_complete_sources intent);
    simpl; intros; naive_solver.
Qed.

Lemma valuable_gap intent fact s : valuable intent fact s -> is_gap intent fact s = true.
Proof.
  unfold is_gap, valuable.
  destruct s, (fr_consequence fact), (ni_requires_complete_sources intent); simpl; naive_solver.
Qed.

Section Loop.
Context (tenant_id run_id : UUID) (intent : NormalizedIntent) (fact_ids : list (pystr * UUID))
  (coverage : list (UUID * CoverageAssessment)).

(** A required fact with the id it is stored under. *)
Definition required_with_id (facts : list FactRequirement) (f : FactRequirement) (id : UUID) : Prop :=
  f ∈ facts /\ fr_required f = true /\ dget (fr_key f) fact_ids = Some id.

Lemma required_cons f facts (P : FactRequirement -> UUID -> Prop) id :
  (exists g, required_with_id (f :: facts) g id /\ P g id) <->
  (fr_required f = true /\ dget (fr_key f) fact_ids = Some id /\ P f id) \/
  (exists g, required_with_id facts g id /\ P g id).
Proof.
  unfold required_with_id. split.
  - intros (g & ([->|Hg]%elem_of_cons & ? & ?) & ?); [by left|right]. by exists g.
  - intros [(? & ? & ?)|(g & (? & ? & ?) & ?)]; [exists f|exists g]; rewrite elem_of_cons; auto.
Qed.

Lemma required_cons_ex f facts (P : FactRequirement -> UUID -> Prop) :
  (exists id g, required_with_id (f :: facts) g id /\ P g id) <->
  (exists id, fr_required f = true /\ dget (fr_key f) fact_ids = Some id /\ P f id) \/
  (exists id g, required_with_id facts g id /\ P g id).
Proof.
  split.
  - intros [id H]. apply required_cons in H as [H|H]; [left|right]; by exists id.
  - intros [[id H]|[id H]]; exists id; apply required_cons; auto.
Qed.

Lemma upgrade_loop_spec facts gaps reasons statuses gaps' reasons' statuses' :
  upgrade_loop tenant_id run_id intent fact_ids coverage facts gaps reasons statuses
    = Ok (gaps', reasons', statuses') ->
  (forall id, id ∈ gaps' <-> id ∈ gaps \/
     exists f, required_with_id facts f id /\ is_gap intent f (status_of coverage id) = true) /\
  (reasons' <> [] <-> reasons <> [] \/
     exists id f, required_with_id facts f id /\ valuable intent f (status_of coverage id)).
Proof.
  revert gaps reasons statuses. induction facts as [|f facts IH]; intros gaps reasons statuses; simpl.
  - intros [= <- <- <-]. unfold required_with_id.
    split; [intros id|]; (split; [auto|intros [?|H]; [done|]]); exfalso;
      decompose [ex and] H; set_solver.
  - pose proof (required_cons f facts
      (fun g id => is_gap intent g (status_of coverage id) = true)) as R1.
    pose proof (required_cons_ex f facts
      (fun g id => valuable intent g (status_of coverage id))) as R2.
    cbv beta in R1, R2. rewrite R2.
    destruct (fr_required f) eqn:Er; simpl.
    2:{ intros [H1 H2]%IH. split; [intros id; rewrite H1, R1|rewrite H2]; (split; [tauto|]);
          intros [?|[H|?]]; auto; decompose [ex and] H; done. }
    destruct (dget (fr_key f) fact_ids) as [fid|] eqn:Ei; [|done]. intros H. minv.
    fold (status_of coverage fid) in H.
    assert (forall P : UUID -> Prop, (exists id, true = true /\ Some fid = Some id /\ P id) <-> P fid)
      as Hone by (intros P; split; [by intros (? & _ & [= <-] & ?)|by exists fid]).
    rewrite Hone.
    destruct (is_gap intent f (status_of coverage fid)) eqn:Eg; apply IH in H as [H1 H2].
    + pose proof (gap_reasons_valuable _ _ _ Eg) as Hv. split.
      * intros id. rewrite H1, R1, elem_of_app, list_elem_of_singleton. split.
        -- intros [[? | ->]|?]; auto.
        -- intros [?|[(_ & [= <-] & _)|?]]; auto.
      * rewrite H2, <- Hv. destruct reasons; simpl; [tauto|]. split; intros _; by left.
    + assert (~ valuable intent f (status_of coverage fid)) as Hnv.
      { intros Hval%valuable_gap. congruence. }
      split; [intros id; rewrite H1, R1|rewrite H2; tauto]. split; [tauto|].
      intros [?|[(_ & [= <-] & ?)|?]]; auto. congruence.
Qed.
End Loop.

(** A FAST run is upgraded for exactly the right reasons: when the policy returns a
    decision, its gaps are the ids of the required facts whose coverage is a gap, and it says to
    upgrade exactly when some required fact has a conflict, is fresh and unanswered, or is short of
    VERIFIED while the fact is of high consequence or the intent wants complete sources; the
    reasons are distinct, and there are some exactly when it says to upgrade. *)
Lemma upgrade_decision t r intent fact_ids coverage d :
  FastUpgradePolicy_evaluate t r intent fact_ids coverage = Ok d ->
  (forall id, id ∈ fu_gap_fact_ids d <-> exists f,
     required_with_id fact_ids (ni_facts intent) f id /\
     is_gap intent f (status_of coverage id) = true) /\
  (fu_should_upgrade d = true <-> exists id f,
     required_with_id fact_ids (ni_facts intent) f id /\
     valuable intent f (status_of coverage id)) /\
  NoDup (fu_reason_codes d) /\
  (fu_should_upgrade d = true <-> fu_reason_codes d <> []).
Proof.
  unfold FastUpgradePolicy_evaluate, FastUpgradeDecision_new. intros H. minv.
  destruct a as [[gaps reasons] statuses]. minv. simpl.
  apply upgrade_loop_spec in E as [H1 H2].
  rewrite negb_true_iff, bool_decide_eq_false, dedupe_nil_iff.
  split; [|split; [|split; [apply NoDup_dedupe|done]]].
  - intros id. rewrite H1. set_solver.
  - rewrite H2. split; [by intros [?|?]|auto].
Qed.

(** ** Upgrading *)

Lemma flt_trans a b x : flt a b = true -> flt b x = true -> flt a x = true.
Proof.
  unfold flt, SFltb, SFcompare.
  destruct a as [[]|[]| |[] ma ea], b as [[]|[]| |[] mb eb], x as [[]|[]| |[] mx ex]; try done;
    repeat match goal with |- context [Z.compare ?p ?q] => destruct (Z.compare_spec p q) end;
    try done; subst; try lia;
    rewrite ?Pos.compare_cont_spec; simpl;
    repeat match goal with |- context [Pos.compare ?p ?q] => destruct (Pos.compare_spec p q) end;
    simpl; try done; lia.
Qed.

Lemma flt_larger_limit small large x :
  flt small large = true -> flt small x = false -> flt large x = false.
Proof.
  intros Hl Hs. apply not_true_iff_false. intros Hx. rewrite (flt_trans _ _ _ Hl Hx) in Hs. done.
Qed.

(** What fits the FAST limits of the shipped policy fits its RESEARCH limits. *)
Lemma fast_within_research created_at usage :
  within_limits (default_snapshot SearchMode_FAST created_at) usage ->
  within_limits (default_snapshot SearchMode_RESEARCH created_at) usage.
Proof.
  intros (H1 & H2 & H3 & H4 & H5 & HF). unfold within_limits.
  change (bs_max_queries (default_snapshot SearchMode_FAST created_at)) with 4 in H1.
  change (bs_max_providers (default_snapshot SearchMode_FAST created_at)) with 2 in H2.
  change (bs_max_fetches (default_snapshot SearchMode_FAST created_at)) with 4 in H3.
  change (bs_max_llm_calls (default_snapshot SearchMode_FAST created_at)) with 4 in H4.
  change (bs_max_expansion_rounds (default_snapshot SearchMode_FAST created_at)) with 1 in H5.
  change (bs_max_queries (default_snapshot SearchMode_RESEARCH created_at)) with 12.
  change (bs_max_providers (default_snapshot SearchMode_RESEARCH created_at)) with 4.
  change (bs_max_fetches (default_snapshot SearchMode_RESEARCH created_at)) with 12.
  change (bs_max_llm_calls (default_snapshot SearchMode_RESEARCH created_at)) with 8.
  change (bs_max_expansion_rounds (default_snapshot SearchMode_RESEARCH created_at)) with 2.
  ksplit; [lia | lia | lia | lia | lia |].
  eapply Forall_impl; [exact HF|]. intros [p x]. unfold phase_within. simpl.
  change (bs_phase_seconds (default_snapshot SearchMode_FAST created_at))
    with (mp_phase_seconds (sp_fast SearchPolicy_default)).
  change (bs_phase_seconds (default_snapshot SearchMode_RESEARCH created_at))
    with (mp_phase_seconds (sp_research SearchPolicy_default)).
  cbn [mp_phase_seconds sp_fast sp_research SearchPolicy_default dget].
  repeat case_decide; try done; apply flt_larger_limit; vm_compute; done.
Qed.

Lemma existsb_dedupe {A} `{EqDecision A} (f : A -> bool) l :
  existsb f l = false -> existsb f (dedupe l) = false.
Proof.
  intros H. apply not_true_iff_false. rewrite existsb_exists. intros (x & Hx & Hf).
  rewrite <- list_elem_of_In, elem_of_dedupe, list_elem_of_In in Hx.
  apply not_true_iff_false in H. apply H. rewrite existsb_exists. by exists x.
Qed.

(** Under the shipped policy a FAST run can always be upgraded: if it is not terminal, was
    created with the shipped FAST budget, is within it, and the decision (with non-empty reasons)
    says to upgrade, then the upgrade returns; the run is then a RESEARCH run with the shipped
    RESEARCH budget from its original start, its status and usage are unchanged, its version is
    one higher, and its reason codes are kept and extended. *)
Theorem upgrade_succeeds run decision :
  SearchRun_is_terminal run = false -> SearchRun_mode run = SearchMode_FAST ->
  rd_policy_version (run_routing run) = u "search-v12" ->
  existsb blank (rd_reason_codes (run_routing run)) = false ->
  dt_aware (bs_created_at (run_budget run)) = true ->
  run_budget run = default_snapshot SearchMode_FAST (bs_created_at (run_budget run)) ->
  within_limits (run_budget run) (run_usage run) ->
  fu_should_upgrade decision = true -> existsb blank (fu_reason_codes decision) = false ->
  exists run', upgrade_fast_run decision SearchPolicy_default run = (run', Ok tt) /\
    SearchRun_mode run' = SearchMode_RESEARCH /\
    run_budget run' = default_snapshot SearchMode_RESEARCH (bs_created_at (run_budget run)) /\
    run_status run' = run_status run /\ run_usage run' = run_usage run /\
    run_version run' = run_version run + 1 /\
    (forall c, c ∈ rd_reason_codes (run_routing run') <->
       c ∈ rd_reason_codes (run_routing run) \/ c = u "fast_value_upgrade" \/
       c ∈ fu_reason_codes decision).
Proof.
  intros Hterm Hmode Hpol Hrc Hcr Hb Hw Hup Hdc.
  assert (existsb blank (rd_reason_codes (run_routing run) ++
            u "fast_value_upgrade" :: fu_reason_codes decision) = false) as Hblank.
  { rewrite existsb_app, Hrc. simpl. rewrite Hdc. vm_compute. done. }
  rewrite Hb in Hw at 1.
  assert (RoutingDecision_new SearchMode_RESEARCH
    (dedupe (rd_reason_codes (run_routing run) ++ u "fast_value_upgrade" :: fu_reason_codes decision))
    (u "search-v12") (float_of_Z 1) =
    Ok {| rd_mode := SearchMode_RESEARCH;
          rd_reason_codes := dedupe (rd_reason_codes (run_routing run) ++
            u "fast_value_upgrade" :: fu_reason_codes decision);
          rd_policy_version := u "search-v12"; rd_confidence := float_of_Z 1 |}) as Hrd.
  { unfold RoutingDecision_new. rewrite existsb_dedupe by done. reflexivity. }
  pose proof (snapshot_default SearchMode_RESEARCH _ Hcr) as Hsnap.
  apply fast_within_research, validate_ok in Hw.
  eexists. split.
  - unfold upgrade_fast_run, mbind, M_bind, self, raise_if, lift.
    rewrite Hup, Hpol, bool_decide_eq_true_2 by done. cbn [negb fail_if].
    change (sp_version SearchPolicy_default) with (u "search-v12").
    rewrite Hrd, Hsnap, Hw. unfold SearchRun_upgrade_to_research, mbind, M_bind, self, raise_if, lift.
    rewrite Hterm, Hmode. cbn [rd_mode rd_policy_version].
    rewrite !bool_decide_eq_true_2 by (done || by rewrite Hpol). cbn [negb orb fail_if].
    rewrite Hb at 2. unfold default_snapshot at 1 2. cbn [bs_hard_deadline_at].
    unfold dt_le. rewrite dt_cmp_aware by done.
    replace (_ <=? _) with false; [reflexivity|]. symmetry. apply Z.leb_gt. simpl. lia.
  - cbn [run_set_plan run_routing run_budget run_status run_usage run_version rd_reason_codes].
    ksplit. intros c. rewrite elem_of_dedupe, elem_of_app, elem_of_cons. done.
Qed.

(** ** Expanding *)

Definition usage_plus_round (b : BudgetUsage) : BudgetUsage :=
  {| bu_query_count := bu_query_count b; bu_provider_count := bu_provider_count b;
     bu_fetch_count := bu_fetch_count b; bu_llm_call_count := bu_llm_call_count b;
     bu_prompt_token_count := bu_prompt_token_count b;
     bu_completion_token_count := bu_completion_token_count b;
     bu_expansion_rounds := bu_expansion_rounds b + 1; bu_phase_seconds := bu_phase_seconds b |}.

Lemma add_round b : BudgetUsage_new b = Ok b ->
  BudgetUsage_add b
    {| ui_queries := 0; ui_providers := 0; ui_fetches := 0; ui_llm_calls := 0;
       ui_prompt_tokens := 0; ui_completion_tokens := 0; ui_expansion_rounds := 1;
       ui_phase := None; ui_elapsed_seconds := fzero |} = Ok (usage_plus_round b).
Proof.
  unfold BudgetUsage_new. intros H. minv. simpl in E. bools.
  unfold BudgetUsage_add. simpl. unfold BudgetUsage_new, usage_plus_round. simpl.
  rewrite !Z.add_0_r. repeat match goal with |- context [?a <? 0] =>
    replace (a <? 0) with false by lia end. simpl. by rewrite E0.
Qed.

(** Expansion rounds are bounded: on an active RESEARCH run within its budget, recording
    an expansion adds exactly one round while fewer than [max_expansion_rounds] are used, and is
    refused with a BUDGET error that changes nothing once they are used up; so no history of
    recorded expansions exceeds the limit. *)
Theorem record_expansion_bounded run :
  SearchRun_mode run = SearchMode_RESEARCH -> SearchRun_is_terminal run = false ->
  BudgetUsage_new (run_usage run) = Ok (run_usage run) ->
  within_limits (run_budget run) (run_usage run) ->
  if bu_expansion_rounds (run_usage run) <? bs_max_expansion_rounds (run_budget run)
  then record_expansion run
         = (run_set_plan (run_routing run) (run_budget run) (usage_plus_round (run_usage run)) run,
            Ok tt) /\
       within_limits (run_budget run) (usage_plus_round (run_usage run))
  else exists limit, record_expansion run = (run, Raise (BudgetExceeded limit)).
Proof.
  intros Hm Ht Hu (W1 & W2 & W3 & W4 & W5 & WF).
  assert (within_limits (run_budget run) (usage_plus_round (run_usage run)) <->
    bu_expansion_rounds (run_usage run) < bs_max_expansion_rounds (run_budget run)) as Hiff.
  { unfold within_limits. simpl. split; [lia|]. intros. ksplit. lia. }
  unfold record_expansion, mbind, M_bind, self, raise_if, lift.
  rewrite Hm, Ht, add_round by done. cbn [negb orb fail_if]. simpl (negb _ || _). cbn [fail_if].
  pose proof (validate_spec (run_budget run) (usage_plus_round (run_usage run))) as Hv.
  destruct (_ <? _) eqn:E; bools.
  - apply Hiff in E as Hw. rewrite (proj2 (validate_ok _ _) Hw). split; [|done].
    unfold SearchRun_record_usage, mbind, M_bind, self, raise_if. rewrite Ht. simpl.
    rewrite !Z.ltb_irrefl. simpl.
    replace (bu_expansion_rounds (run_usage run) + 1 <? bu_expansion_rounds (run_usage run))
      with false by lia. done.
  - destruct (BudgetGuard_validate (run_budget run) (usage_plus_round (run_usage run))).
    + apply Hiff in Hv. lia.
    + destruct Hv as [[limit ->] _]. by exists limit.
Qed.

(** ** Closing *)

Lemma succeed_ok run quality reason now :
  run_status run = RunStatus_RUNNING -> dt_aware now = true ->
  (quality = AnswerQuality_COMPLETE /\ reason = StopReason_FACTS_COVERED) \/
  (quality = AnswerQuality_PARTIAL /\
   reason ∈ [StopReason_TIME_BUDGET; StopReason_INSUFFICIENT_EVIDENCE]) ->
  SearchRun_succeed quality reason now run
    = (run_set_outcome quality (Some reason) (Some now) (run_set_status RunStatus_SUCCEEDED run),
       Ok tt).
Proof.
  intros Hs Hn Hq. unfold SearchRun_succeed, SearchRun_transition, require_aware,
    assert_transition, mbind, M_bind, self, raise_if, lift, update.
  rewrite Hn, Hs. simpl.
  destruct Hq as [[-> ->]|[-> Hr]]; [done|].
  rewrite !elem_of_cons, elem_of_nil in Hr. destruct Hr as [->|[->|[]]]; done.
Qed.

Lemma complete_spec (P : FactCoverage -> Prop) `{forall s, Decision (P s)} l :
  negb (bool_decide (l = [])) && forallb (fun s => bool_decide (P s)) l = true <->
  l <> [] /\ forall s, s ∈ l -> P s.
Proof.
  rewrite andb_true_iff, negb_true_iff, bool_decide_eq_false, forallb_forall.
  setoid_rewrite <- list_elem_of_In. setoid_rewrite bool_decide_eq_true. done.
Qed.

(** A run can always be closed with the outcome its workflow computes: for any fact
    statuses and flags, a running run accepts the FAST outcome (if it is a FAST run) and the
    RESEARCH outcome; the answer is COMPLETE exactly when there are required facts and all are
    covered (FAST) or all are verified (RESEARCH), and otherwise PARTIAL. *)
Theorem outcome_accepted statuses flag low_gain deadline now run :
  run_status run = RunStatus_RUNNING -> dt_aware now = true ->
  let fast := FastSearchWorkflow_outcome statuses flag in
  let research := ResearchWorkflow_outcome statuses low_gain deadline in
  (SearchRun_mode run = SearchMode_FAST ->
   exists run', FastSearchWorkflow_finish fast now run = (run', Ok tt) /\
     run_status run' = RunStatus_SUCCEEDED /\ run_answer_quality run' = fo_quality fast) /\
  (exists run', SearchRun_succeed (ro_quality research) (ro_reason research) now run = (run', Ok tt) /\
     run_status run' = RunStatus_SUCCEEDED /\ run_answer_quality run' = ro_quality research) /\
  (fo_quality fast = AnswerQuality_COMPLETE <->
   statuses <> [] /\ forall s, s ∈ statuses -> s = FactCoverage_COVERED \/ s = FactCoverage_VERIFIED) /\
  (ro_quality research = AnswerQuality_COMPLETE <->
   statuses <> [] /\ forall s, s ∈ statuses -> s = FactCoverage_VERIFIED).
Proof.
  intros Hs Hn fast research. split; [|split; [|split]].
  - intros Hm. eexists. split.
    + unfold FastSearchWorkflow_finish, mbind, M_bind, self, raise_if.
      rewrite Hm. simpl. apply succeed_ok; [done..|]. unfold fast, FastSearchWorkflow_outcome.
      case_match; simpl; [by left|right]. split; [done|]. destruct flag; set_solver.
    + done.
  - eexists. split.
    + apply succeed_ok; [done..|]. unfold research, ResearchWorkflow_outcome.
      case_match; simpl; [by left|right]. destruct deadline, low_gain; simpl; split; set_solver.
    + done.
  - unfold fast, FastSearchWorkflow_outcome.
    pose proof (complete_spec (fun s => s ∈ [FactCoverage_COVERED; FactCoverage_VERIFIED]) statuses)
      as Hc. cbv beta in Hc.
    assert (forall s, s ∈ [FactCoverage_COVERED; FactCoverage_VERIFIED] <->
              s = FactCoverage_COVERED \/ s = FactCoverage_VERIFIED) as Hin by set_solver.
    transitivity (statuses <> [] /\
      forall s, s ∈ statuses -> s ∈ [FactCoverage_COVERED; FactCoverage_VERIFIED]).
    + rewrite <- Hc. case_match; simpl; [done|]. split; [done|congruence].
    + split; intros [? Hall]; (split; [done|]); intros s Hx; by apply Hin, Hall.
  - unfold research, ResearchWorkflow_outcome.
    rewrite <- (complete_spec (fun s => s = FactCoverage_VERIFIED)).
    case_match; simpl; [done|]. split; [by destruct deadline, low_gain|congruence].
Qed.

(** ** Examples *)

Definition ex_intent : NormalizedIntent :=
  {| ni_entity := u "e"; ni_aliases := []; ni_locale := u "en"; ni_facts := [ex_fact];
     ni_requires_comparison := false; ni_requires_complete_sources := false |}.

Definition ex_decision : FastUpgradeDecision :=
  {| fu_should_upgrade := true; fu_gap_fact_ids := [7];
     fu_reason_codes := [u "strong_freshness_gap"];
     fu_status_by_fact := [(7, FactCoverage_OPEN)] |}.

Lemma upgrade_decision_witness :
  FastUpgradePolicy_evaluate 2 1 ex_intent [(u "k", 7)] [] = Ok ex_decision /\
  NoDup (fu_reason_codes ex_decision).
Proof.
  split; [vm_compute; reflexivity|].
  exact (proj1 (proj2 (proj2 (upgrade_decision 2 1 ex_intent [(u "k", 7)] [] ex_decision
    ltac:(vm_compute; reflexivity))))).
Defined.

Definition fast_run : SearchRun :=
  run_set_plan (ex_routing SearchMode_FAST) fast_snapshot (ex_usage 1)
    (run_set_status RunStatus_RUNNING ex_run).

Lemma fast_run_within : within_limits (run_budget fast_run) (run_usage fast_run).
Proof. apply validate_ok. vm_compute. reflexivity. Qed.

Lemma upgrade_succeeds_witness :
  exists run', upgrade_fast_run ex_decision SearchPolicy_default fast_run = (run', Ok tt) /\
    SearchRun_mode run' = SearchMode_RESEARCH.
Proof.
  destruct (upgrade_succeeds fast_run ex_decision eq_refl eq_refl eq_refl
    ltac:(vm_compute; reflexivity) eq_refl eq_refl fast_run_within eq_refl
    ltac:(vm_compute; reflexivity)) as (run' & H & Hm & _).
  exists run'. exact (conj H Hm).
Defined.

Definition research_run (rounds : Z) : SearchRun :=
  run_set_plan (ex_routing SearchMode_RESEARCH) (default_snapshot SearchMode_RESEARCH (utc 0))
    {| bu_query_count := 1; bu_provider_count := 1; bu_fetch_count := 0; bu_llm_call_count := 0;
       bu_prompt_token_count := 0; bu_completion_token_count := 0; bu_expansion_rounds := rounds;
       bu_phase_seconds := [] |} (run_set_status RunStatus_RUNNING ex_run).

Lemma research_run_within : within_limits (run_budget (research_run 2)) (run_usage (research_run 2)).
Proof. apply validate_ok. vm_compute. reflexivity. Qed.

Lemma record_expansion_bounded_witness :
  exists limit, record_expansion (research_run 2) = (research_run 2, Raise (BudgetExceeded limit)).
Proof.
  exact (record_expansion_bounded (research_run 2) eq_refl eq_refl eq_refl research_run_within).
Defined.

Lemma outcome_accepted_witness :
  exists run', SearchRun_succeed AnswerQuality_PARTIAL StopReason_TIME_BUDGET (utc 9) fast_run
    = (run', Ok tt) /\ run_status run' = RunStatus_SUCCEEDED.
Proof.
  destruct (outcome_accepted [FactCoverage_OPEN] true false true (utc 9) fast_run eq_refl eq_refl)
    as (_ & (run' & H & Hs & _) & _).
  exists run'. exact (conj H Hs).
Defined.
