(* ===== verification/StepStore.v ===== *)
(** * StepStore: claiming, finishing and recovering steps in the database

    [sana/app/sql_step_execution.py] over the repositories of [sana/platform/db/repositories.py],
    and [make_ready] of [sana/app/reconciliation.py].

    A database is the rows of one deployment: runs, steps and attempts by id, the event log, and the
    tables that only the completion hook and the conversation service touch. A
    method runs as one transaction: it locks the step's row first, so two transactions on a step do
    not overlap, and an exception rolls the rows back. What a worker holds in memory (its claimed
    attempt) is not rolled back. The audit rows of model calls are in ModelAudit. *)

From Stdlib Require Import SpecFloat String.
From S2P Require Import Prelude Errors PyTime Transitions Run Tables RunFacts Step StepFacts Policy.
From S2P Require Import Lease Workflow.

(** ** Rows *)

Record RunEvent := { ev_run_id : UUID; ev_sequence : Z; ev_type : pystr }.

Record Db := {
  db_runs : gmap Z SearchRun;
  db_steps : gmap Z SearchStep;
  db_attempts : gmap Z StepAttempt;
  db_events : list RunEvent;
  db_tables : Tables
}.

Definition set_runs (r : gmap Z SearchRun) (d : Db) : Db :=
  {| db_runs := r; db_steps := db_steps d; db_attempts := db_attempts d; db_events := db_events d;
     db_tables := db_tables d |}.
Definition set_steps (s : gmap Z SearchStep) (d : Db) : Db :=
  {| db_runs := db_runs d; db_steps := s; db_attempts := db_attempts d; db_events := db_events d;
     db_tables := db_tables d |}.
Definition set_attempts (a : gmap Z StepAttempt) (d : Db) : Db :=
  {| db_runs := db_runs d; db_steps := db_steps d; db_attempts := a; db_events := db_events d;
     db_tables := db_tables d |}.
Definition set_events (e : list RunEvent) (d : Db) : Db :=
  {| db_runs := db_runs d; db_steps := db_steps d; db_attempts := db_attempts d; db_events := e;
     db_tables := db_tables d |}.
Definition set_tables (t : Tables) (d : Db) : Db :=
  {| db_runs := db_runs d; db_steps := db_steps d; db_attempts := db_attempts d; db_events := db_events d;
     db_tables := t |}.

(** [async with uow: ...; await uow.commit()]: an exception rolls back. *)
Definition transact {S A} (m : M S A) : M S A := fun d =>
  match m d with
  | (d', Ok a) => (d', Ok a)
  | (_, Raise e) => (d, Raise e)
  end.

(** A call on a local object: the new object, or the exception. *)
Definition call {S O} (m : M O unit) (o : O) : M S O := fun s =>
  match m o with
  | (o', Ok _) => (s, Ok o')
  | (_, Raise e) => (s, Raise e)
  end.

(** ** Repositories *)

(** The mappers that turn a row into an aggregate. *)
(** [@ src/sana/modules/orchestration/repository.py step_from_record] *)
Definition step_from_record (row : SearchStep) : res SearchStep := SearchStep_reload row.

(** [@ src/sana/modules/orchestration/repository.py run_from_record] *)
Definition run_from_record (row : SearchRun) : res SearchRun := SearchRun_reload row.

(** [@ src/sana/platform/db/repositories.py SqlStepRepository.get_for_update] *)
Definition steps_get_for_update (tenant_id step_id : UUID) : M Db (option SearchStep) :=
  d ← self;
  match db_steps d !! step_id with
  | Some row =>
      if step_tenant_id row =? tenant_id
      then s ← lift (step_from_record row); mret (Some s) else mret None
  | None => mret None
  end.

(** [@ src/sana/platform/db/repositories.py SqlRunRepository.get_for_update] *)
Definition runs_get_for_update (tenant_id run_id : UUID) : M Db (option SearchRun) :=
  d ← self;
  match db_runs d !! run_id with
  | Some row =>
      if run_tenant_id row =? tenant_id
      then r ← lift (run_from_record row); mret (Some r) else mret None
  | None => mret None
  end.

(** The assigned columns of [UPDATE search_steps]; then [mark_persisted]. *)
(** [@ src/sana/platform/db/repositories.py SqlStepRepository.save] *)
Definition steps_save (step : SearchStep) : M Db unit :=
  d ← self;
  match db_steps d !! step_id step with
  | Some row =>
      _ ← raise_if (negb ((step_tenant_id row =? step_tenant_id step)
                          && (step_version row =? step_persisted_version step)))
            (InvariantViolation_code "Search step was modified concurrently" "optimistic_lock_failed");
      update (fun d => set_steps (<[step_id step :=
        step_set (step_status step) (step_output_ref step) (step_retry_at step)
          (step_version step) (step_version step) row]> (db_steps d)) d)
  | None =>
      raise (InvariantViolation_code "Search step was modified concurrently" "optimistic_lock_failed")
  end.

(** [@ src/sana/platform/db/repositories.py SqlRunRepository.save] *)
Definition runs_save (run : SearchRun) : M Db unit :=
  d ← self;
  match db_runs d !! run_id run with
  | Some row =>
      _ ← raise_if (negb ((run_tenant_id row =? run_tenant_id run)
                          && (run_version row =? run_persisted_version run)))
            (InvariantViolation_code "Search run was modified concurrently" "optimistic_lock_failed");
      update (fun d => set_runs (<[run_id run :=
        {| run_id := run_id row; run_tenant_id := run_tenant_id row;
           run_conversation_id := run_conversation_id row; run_message_id := run_message_id row;
           run_response_run_id := run_response_run_id row; run_routing := run_routing run;
           run_budget := run_budget run; run_status := run_status run;
           run_answer_quality := run_answer_quality run; run_stop_reason := run_stop_reason run;
           run_usage := run_usage run; run_started_at := run_started_at run;
           run_completed_at := run_completed_at run; run_version := run_version run;
           run_persisted_version := run_version run |}]> (db_runs d)) d)
  | None =>
      raise (InvariantViolation_code "Search run was modified concurrently" "optimistic_lock_failed")
  end.

(** The attempts of a step, and [coalesce(max(attempt_no), 0)] over them. *)
Definition attempts_of (step_id : UUID) (d : Db) : list StepAttempt :=
  base.filter (fun a => at_step_id a = step_id) (map_to_list (db_attempts d)).*2.

Definition latest_attempt_no (step_id : UUID) (d : Db) : Z :=
  foldr (fun a m => Z.max (at_attempt_no a) m) 0 (attempts_of step_id d).

(** [@ src/sana/platform/db/repositories.py SqlAttemptRepository.next_attempt_no] *)
Definition next_attempt_no (step_id : UUID) : M Db Z :=
  d ← self; mret (latest_attempt_no step_id d + 1).

(** The primary key, and the foreign key to the step, are the database's checks. *)
(** [@ src/sana/platform/db/repositories.py SqlAttemptRepository.add] *)
Definition attempts_add (a : StepAttempt) : M Db unit :=
  d ← self;
  _ ← raise_if (bool_decide (is_Some (db_attempts d !! at_id a)))
        (DatabaseError "duplicate key value violates unique constraint");
  update (fun d => set_attempts (<[at_id a := a]> (db_attempts d)) d).

(** [@ src/sana/platform/db/repositories.py SqlAttemptRepository.complete] *)
Definition attempts_complete (a : StepAttempt) : M Db unit :=
  _ ← raise_if (negb (StepAttempt_is_complete a))
        (InvariantViolation_code "Cannot persist an incomplete attempt as completed"
           "attempt_not_complete");
  d ← self;
  match db_attempts d !! at_id a with
  | Some row =>
      _ ← raise_if (negb ((at_tenant_id row =? at_tenant_id a) && is_none (at_completed_at row)))
            (InvariantViolation_code "Attempt was already finalized or does not exist"
               "attempt_finalize_conflict");
      update (fun d => set_attempts (<[at_id a :=
        at_set_end (at_completed_at a) (at_output_ref a) (at_error a)
          (at_set_lease (at_leased_until a) row)]> (db_attempts d)) d)
  | None =>
      raise (InvariantViolation_code "Attempt was already finalized or does not exist"
               "attempt_finalize_conflict")
  end.

(** [@ src/sana/platform/db/repositories.py SqlAttemptRepository.renew] *)
Definition attempts_renew (a : StepAttempt) : M Db unit :=
  _ ← raise_if (StepAttempt_is_complete a)
        (InvariantViolation_code "Cannot renew a completed attempt" "attempt_already_complete");
  d ← self;
  match db_attempts d !! at_id a with
  | Some row =>
      _ ← raise_if (negb ((at_tenant_id row =? at_tenant_id a)
                          && bool_decide (at_lease_owner row = at_lease_owner a)
                          && is_none (at_completed_at row)
                          && (dt_us (at_leased_until row) <? dt_us (at_leased_until a))))
            (InvariantViolation_code "Attempt lease could not be renewed"
               "attempt_lease_renewal_conflict");
      update (fun d => set_attempts (<[at_id a := at_set_lease (at_leased_until a) row]>
                                       (db_attempts d)) d)
  | None =>
      raise (InvariantViolation_code "Attempt lease could not be renewed"
               "attempt_lease_renewal_conflict")
  end.

(** [coalesce(max(sequence), 0) + 1] over the events of the run. *)
(** [@ src/sana/platform/db/repositories.py SqlRunEventRepository.next_sequence] *)
Definition next_sequence (run_id : UUID) (d : Db) : Z :=
  foldr (fun e m => if ev_run_id e =? run_id then Z.max (ev_sequence e) m else m) 0 (db_events d) + 1.

(** [@ src/sana/app/sql_step_execution.py SqlStepExecutionStore._add_event] *)
Definition add_event (run : SearchRun) (event_type : string) : M Db unit :=
  d ← self;
  update (fun d => set_events (db_events d ++
    [{| ev_run_id := run_id run; ev_sequence := next_sequence (run_id run) d;
        ev_type := u event_type |}]) d).

(** ** The completion hook *)

(** [@ src/sana/modules/orchestration/executor.py ExecutionDisposition] *)
Inductive ExecutionDisposition :=
| Disposition_CLAIMED | Disposition_IGNORED | Disposition_SUCCEEDED | Disposition_RETRY_SCHEDULED
| Disposition_FAILED | Disposition_CANCELLED | Disposition_STALE.

#[export] Instance ExecutionDisposition_eq_dec : EqDecision ExecutionDisposition.
Proof. solve_decision. Defined.

Record StepExecutionResult := { er_output_ref : ArtifactRef; er_actual_cost : StepBudgetCost }.

(** What a hook may do to the rows: leave every existing run, attempt, event and step alone and add
    READY steps. The other tables are its own. *)
Definition hook_adds_only (d d' : Db) : Prop :=
  db_runs d' = db_runs d /\ db_attempts d' = db_attempts d /\ db_events d' = db_events d /\
  (forall i s, db_steps d !! i = Some s -> db_steps d' !! i = Some s) /\
  (forall i s, db_steps d' !! i = Some s -> db_steps d !! i = None ->
     step_id s = i /\ step_status s = StepStatus_READY /\ step_loadable s).

(** The [StepCompletionHook] protocol: it may mutate the run aggregate, by its own methods, and add
    successor records; it never commits nor saves base records. *)
Class CompletionHook := {
  on_success : SearchRun -> SearchStep -> StepExecutionResult -> Db -> res (Db * SearchRun);
  on_failure : SearchRun -> SearchStep -> TypedError -> ExecutionDisposition -> Db ->
    res (Db * SearchRun);
  on_success_rows run step result d d' run' :
    on_success run step result d = Ok (d', run') -> hook_adds_only d d' /\ star run_step run run';
  on_failure_rows run step error disposition d d' run' :
    on_failure run step error disposition d = Ok (d', run') ->
    hook_adds_only d d' /\ star run_step run run'
}.

(** A hook call inside a transaction. *)
Definition hook_call (h : Db -> res (Db * SearchRun)) : M Db SearchRun := fun d =>
  match h d with
  | Ok (d', run) => (d', Ok run)
  | Raise e => (d, Raise e)
  end.

(** ** The store *)

Record StoreConfig := {
  cf_lease_seconds : float;
  cf_retry_base_seconds : float;
  cf_retry_max_seconds : float;
  cf_max_attempts : Z;
  cf_fetch_max_attempts : Z;
  cf_lease_extension_seconds : float
}.

(** [@ src/sana/app/sql_step_execution.py SqlStepExecutionStore.__init__] *)
Definition StoreConfig_new (cf : StoreConfig) : res StoreConfig :=
  _ ← fail_if (fle (cf_retry_base_seconds cf) fzero
               || flt (cf_retry_max_seconds cf) (cf_retry_base_seconds cf))
        (ValueError "Retry delays are invalid");
  _ ← fail_if ((cf_max_attempts cf <? 1)
               || negb ((1 <=? cf_fetch_max_attempts cf)
                        && (cf_fetch_max_attempts cf <=? cf_max_attempts cf)))
        (ValueError "Retry attempt limits are invalid");
  _ ← fail_if (fle (cf_lease_extension_seconds cf) fzero)
        (ValueError "Lease extension must be positive");
  Ok cf.

(** [@ src/sana/app/sql_step_execution.py SqlStepExecutionStore._attempt_limit] *)
Definition attempt_limit (cf : StoreConfig) (t : StepType) : Z :=
  if t is StepType_FETCH then cf_fetch_max_attempts cf else cf_max_attempts cf.

(** [@ src/sana/app/sql_step_execution.py SqlStepExecutionStore._phase_for_step] *)
Definition phase_for_step (t : StepType) : BudgetPhase :=
  match t with
  | StepType_ROUTE | StepType_PLAN => BudgetPhase_ROUTE_PLAN
  | StepType_DISCOVERY | StepType_SELECT => BudgetPhase_DISCOVERY
  | StepType_FETCH | StepType_EXTRACT => BudgetPhase_FETCH_EXTRACT
  | StepType_VERIFY => BudgetPhase_VERIFY
  | _ => BudgetPhase_SYNTHESIZE
  end.

(** A claim result: the claimed attempt (whose context repeats the attempt's identifiers and
    deadline), or only a disposition. *)
Abbreviation ClaimResult := (option StepAttempt * ExecutionDisposition)%type.

(** The start or resumption of a run when one of its steps is admitted. *)
Definition admit_run (now : datetime) (run : SearchRun) : M Db SearchRun :=
  match run_status run with
  | RunStatus_QUEUED => call (SearchRun_start now) run
  | RunStatus_WAITING => call SearchRun_resume run
  | _ => mret run
  end.

Section Store.
Context `{Hook : CompletionHook} (cf : StoreConfig).

Definition phase_deadline_error : TypedError :=
  {| te_category := ErrorCategory_BUDGET; te_code := u "phase_deadline_exceeded";
     te_message := u "Step phase deadline was exhausted before admission"; te_retryable := false |}.

(** The branch for a step whose phase deadline has passed. *)
Definition claim_past_phase (now : datetime) (run : SearchRun) (step : SearchStep) : M Db ClaimResult :=
  run ← admit_run now run;
  step ← call SearchStep_start step;
  step ← call SearchStep_fail step;
  run ← hook_call (on_failure run step phase_deadline_error Disposition_FAILED);
  _ ← steps_save step;
  _ ← runs_save run;
  _ ← add_event run "STEP_PHASE_DEADLINE_EXCEEDED";
  mret (None, Disposition_FAILED).

(** The branch that leases the step. *)
Definition claim_lease (new_id : UUID) (worker_id : pystr) (now deadline : datetime)
    (run : SearchRun) (step : SearchStep) : M Db ClaimResult :=
  run ← admit_run now run;
  no ← next_attempt_no (step_id step);
  match LeaseService_claim (cf_lease_seconds cf) new_id no worker_id now deadline step with
  | (step, Ok attempt) =>
      _ ← attempts_add attempt;
      _ ← steps_save step;
      _ ← runs_save run;
      _ ← add_event run "STEP_STARTED";
      mret (Some attempt, Disposition_CLAIMED)
  | (_, Raise e) => raise e
  end.

(** [now] is the clock and [new_id] the id factory's next id. *)
(** [@ src/sana/app/sql_step_execution.py SqlStepExecutionStore.claim] *)
Definition store_claim (tenant_id step_id new_id : UUID) (worker_id : pystr) (now : datetime)
    : M Db ClaimResult := transact (
  found ← steps_get_for_update tenant_id step_id;
  match found with
  | None => mret (None, Disposition_IGNORED)
  | Some step =>
  if step_status step isnot StepStatus_READY then mret (None, Disposition_IGNORED) else
  found ← runs_get_for_update tenant_id (step_run_id step);
  match found with
  | None => mret (None, Disposition_STALE)
  | Some run =>
  if SearchRun_is_terminal run then
    step ← call SearchStep_cancel step;
    _ ← steps_save step;
    mret (None, Disposition_CANCELLED)
  else
  late ← lift (dt_le (bs_hard_deadline_at (run_budget run)) now);
  if late : bool then
    step ← call SearchStep_start step;
    step ← call SearchStep_fail step;
    run ← call (SearchRun_fail StopReason_TIME_BUDGET now) run;
    _ ← steps_save step;
    _ ← runs_save run;
    _ ← add_event run "STEP_DEADLINE_EXCEEDED";
    mret (None, Disposition_FAILED)
  else
  deadline ← lift (deadline_for (run_budget run) (phase_for_step (step_type step)));
  past ← lift (dt_le deadline now);
  if past : bool then claim_past_phase now run step
  else claim_lease new_id worker_id now deadline run step
  end end).

(** [@ src/sana/app/sql_step_execution.py SqlStepExecutionStore._is_current_attempt] *)
Definition is_current_attempt (claimed : StepAttempt) (d : Db) : bool :=
  match db_attempts d !! at_id claimed with
  | Some record =>
      (at_tenant_id record =? at_tenant_id claimed) && is_none (at_completed_at record)
      && (latest_attempt_no (at_step_id claimed) d =? at_attempt_no claimed)
      && bool_decide (at_lease_owner record = at_lease_owner claimed)
  | None => false
  end.

(** [step is None or step.status is not RUNNING or not await self._is_current_attempt(...)] *)
Definition running_step (claimed : StepAttempt) : M Db (option SearchStep) :=
  found ← steps_get_for_update (at_tenant_id claimed) (at_step_id claimed);
  d ← self;
  mret (match found with
        | Some step => if (step_status step is StepStatus_RUNNING) && is_current_attempt claimed d
                       then Some step else None
        | None => None
        end).

Definition run_terminal_error : TypedError :=
  {| te_category := ErrorCategory_CANCELLED; te_code := u "run_terminal";
     te_message := u "Run became terminal while the Step was executing"; te_retryable := false |}.

(** The worker's attempt object is mutated beside the rows: the attempt a call leaves is returned with
    its result. After a raise the rows are as before, while the object may have changed; the
    theorems below hold for a claimed attempt in whatever state ([held] compares identities only). *)
(** [@ src/sana/app/sql_step_execution.py SqlStepExecutionStore.succeed] *)
Definition store_succeed (claimed : StepAttempt) (result : StepExecutionResult) (now : datetime)
    : M Db (StepAttempt * ExecutionDisposition) := transact (
  found ← running_step claimed;
  match found with
  | None => mret (claimed, Disposition_STALE)
  | Some step =>
  found ← runs_get_for_update (at_tenant_id claimed) (at_run_id claimed);
  match found with
  | None => mret (claimed, Disposition_STALE)
  | Some run =>
  if SearchRun_is_terminal run then
    claimed ← call (StepAttempt_fail run_terminal_error now) claimed;
    step ← call SearchStep_cancel step;
    _ ← attempts_complete claimed;
    _ ← steps_save step;
    _ ← add_event run "STEP_CANCELLED";
    mret (claimed, Disposition_CANCELLED)
  else
    claimed ← call (StepAttempt_succeed (er_output_ref result) now) claimed;
    step ← call (SearchStep_succeed (er_output_ref result)) step;
    span ← lift (dt_sub now (at_started_at claimed));
    let elapsed := if flt fzero (total_seconds span) then total_seconds span else fzero in
    usage ← lift (StepBudgetCost_apply (er_actual_cost result) (run_usage run) (Some elapsed));
    run ← call (SearchRun_record_usage usage) run;
    run ← hook_call (on_success run step result);
    _ ← attempts_complete claimed;
    _ ← steps_save step;
    _ ← runs_save run;
    _ ← add_event run "STEP_SUCCEEDED";
    mret (claimed, Disposition_SUCCEEDED)
  end end).

(** [@ src/sana/app/sql_step_execution.py SqlStepExecutionStore.renew] *)
Definition store_renew (claimed : StepAttempt) (now : datetime) : M Db (StepAttempt * bool) :=
  transact (
  found ← running_step claimed;
  match found with
  | None => mret (claimed, false)
  | Some _ =>
  past ← lift (dt_le (at_deadline_at claimed) now);
  if past : bool then mret (claimed, false) else
  span ← lift (timedelta (cf_lease_extension_seconds cf));
  renewed_until ← lift (dt_min (at_deadline_at claimed) (dt_add now span));
  shorter ← lift (dt_le renewed_until (at_leased_until claimed));
  if shorter : bool then mret (claimed, true) else
  claimed ← call (StepAttempt_renew_lease renewed_until) claimed;
  _ ← attempts_renew claimed;
  mret (claimed, true)
  end).

(** The retry delay, [min(max, base * 2 ** (n - 1))], in seconds. *)
Definition retry_delay (attempt_no : Z) : float :=
  fmin (cf_retry_max_seconds cf)
    (fmul (cf_retry_base_seconds cf) (float_of_Z (2 ^ (attempt_no - 1)))).

(** What becomes of the step: a retry when the error allows one, the attempts are not used up and
    the retry would start before the hard deadline; else a failure. *)
Definition retry_or_fail (claimed : StepAttempt) (error : TypedError) (now : datetime)
    (run : SearchRun) (step : SearchStep) : M Db (SearchStep * ExecutionDisposition * string) :=
  span ← lift (timedelta (retry_delay (at_attempt_no claimed)));
  let retry_at := dt_add now span in
  again ← (if te_retryable error && (at_attempt_no claimed <? attempt_limit cf (step_type step))
           then lift (dt_lt retry_at (bs_hard_deadline_at (run_budget run))) else mret false);
  if again : bool then
    step ← call (SearchStep_retry_later retry_at) step;
    mret (step, Disposition_RETRY_SCHEDULED, "STEP_RETRY_SCHEDULED"%string)
  else
    step ← call SearchStep_fail step;
    mret (step, Disposition_FAILED, "STEP_FAILED"%string).

(** [@ src/sana/app/sql_step_execution.py SqlStepExecutionStore.fail] *)
Definition store_fail (claimed : StepAttempt) (error : TypedError) (now : datetime)
    : M Db (StepAttempt * ExecutionDisposition) := transact (
  found ← running_step claimed;
  match found with
  | None => mret (claimed, Disposition_STALE)
  | Some step =>
  found ← runs_get_for_update (at_tenant_id claimed) (at_run_id claimed);
  match found with
  | None => mret (claimed, Disposition_STALE)
  | Some run =>
  claimed ← call (StepAttempt_fail error now) claimed;
  out ← (if SearchRun_is_terminal run || (te_category error is ErrorCategory_CANCELLED) then
           step ← call SearchStep_cancel step;
           mret (step, Disposition_CANCELLED, "STEP_CANCELLED"%string)
         else retry_or_fail claimed error now run step);
  let '(step, disposition, event_type) := out in
  run ← hook_call (on_failure run step error disposition);
  _ ← attempts_complete claimed;
  _ ← steps_save step;
  _ ← runs_save run;
  _ ← add_event run event_type;
  mret (claimed, disposition)
  end end).
End Store.

(** ** Recovery *)

Definition lease_expired_error : TypedError :=
  {| te_category := ErrorCategory_TRANSIENT; te_code := u "lease_expired";
     te_message := u "Worker lease expired before the attempt completed"; te_retryable := true |}.

(** [max(leased_until)] over the incomplete attempts of a step, in microseconds. *)
Definition current_lease (step_id : UUID) (d : Db) : option Z :=
  match base.filter (fun a => at_completed_at a = None) (attempts_of step_id d) with
  | [] => None
  | a :: rest => Some (foldr (fun a m => Z.max (dt_us (at_leased_until a)) m)
                         (dt_us (at_leased_until a)) rest)
  end.

(** [UPDATE step_attempts SET completed_at = now, ... WHERE completed_at IS NULL AND leased_until <= now] *)
Definition expire_attempts (step_id : UUID) (now : datetime) (d : Db) : Db :=
  set_attempts ((fun a => if (at_step_id a =? step_id) && is_none (at_completed_at a)
                             && (dt_us (at_leased_until a) <=? dt_us now)
                          then at_set_end (Some now) (at_output_ref a) (Some lease_expired_error) a
                          else a) <$> db_attempts d) d.

(** [@ src/sana/app/reconciliation.py TenantReconciliationScanner.make_ready] *)
Definition scanner_make_ready (candidate : ReconcileCandidate) (now : datetime) : M Db bool :=
  transact (
  found ← steps_get_for_update (rc_tenant_id candidate) (rc_step_id candidate);
  match found with
  | None => mret false
  | Some step =>
  if (rc_status candidate is StepStatus_RETRY_WAIT) && (step_status step is StepStatus_RETRY_WAIT)
  then
    match step_retry_at step with
    | None => mret false
    | Some retry_at =>
        early ← lift (dt_lt now retry_at);
        if early : bool then mret false else
        step ← call SearchStep_make_ready step;
        _ ← steps_save step;
        mret true
    end
  else if (rc_status candidate is StepStatus_RUNNING) && (step_status step is StepStatus_RUNNING)
  then
    d ← self;
    match current_lease (rc_step_id candidate) d with
    | None => mret false
    | Some lease =>
        if dt_us now <? lease then mret false else
        _ ← update (expire_attempts (rc_step_id candidate) now);
        step ← call SearchStep_release_expired_lease step;
        _ ← steps_save step;
        mret true
    end
  else mret (step_status step is StepStatus_READY)
  end).
