(* ===== verification/StepStoreFacts.v ===== *)
(** * StepStoreFacts: fencing, exactly-once completion and recovery of steps

    Every transaction of the step store has one of six effects on the step and attempt rows
    ([effect]); the invariant of the rows and the theorems about all interleavings follow from
    the effects. *)

From Stdlib Require Import SpecFloat String.
From S2P Require Import Prelude Errors PyTime Transitions Run Tables RunFacts Step StepFacts Policy.
From S2P Require Import Lease Workflow StepStore.

(** ** What a successful database call did *)

Lemma call_ok_inv {S O} (m : M O unit) (o : O) (s s' : S) o' :
  call m o s = (s', Ok o') -> s' = s /\ m o = (o', Ok tt).
Proof. unfold call. destruct (m o) as [o1 [[]|e]]; intros; by simplify_eq. Qed.

Lemma hook_call_ok_inv h d d' run : hook_call h d = (d', Ok run) -> h d = Ok (d', run).
Proof. unfold hook_call. destruct (h d) as [[d1 r1]|e]; intros; by simplify_eq. Qed.

Lemma transact_ok_inv {S A} (m : M S A) d d' a : transact m d = (d', Ok a) -> m d = (d', Ok a).
Proof. unfold transact. destruct (m d) as [d1 [a1|e]]; intros; by simplify_eq. Qed.

Lemma transact_raise_inv {S A} (m : M S A) d d' e : transact m d = (d', Raise e) -> d' = d.
Proof. unfold transact. destruct (m d) as [d1 [a1|e1]]; intros; by simplify_eq. Qed.

Lemma step_reload_ok_inv row s : SearchStep_reload row = Ok s ->
  step_loadable row /\ s = fst (SearchStep_mark_persisted row).
Proof.
  intros H. assert (step_loadable row) as Hl.
  { unfold SearchStep_reload, SearchStep_rehydrate, SearchStep_new in H. minv.
    unfold step_loadable. bools. split; [done|]. split; [done|].
    destruct (step_status row), (step_output_ref row); simpl in *; try done;
      split; intros Hx; try done; try (by eexists); by destruct Hx. }
  split; [done|]. rewrite reload_step in H by done. congruence.
Qed.

Lemma steps_get_ok_inv t i d d' o : steps_get_for_update t i d = (d', Ok o) ->
  d' = d /\ match o with
            | Some s => exists row, db_steps d !! i = Some row /\ step_loadable row /\
                          step_tenant_id row = t /\ s = fst (SearchStep_mark_persisted row)
            | None => True
            end.
Proof.
  unfold steps_get_for_update. intros H. minv.
  destruct (db_steps d !! i) as [row|] eqn:E; [|by minv].
  destruct (step_tenant_id row =? t) eqn:Et; minv; bools; [|done].
  match goal with H : step_from_record row = Ok _ |- _ => apply step_reload_ok_inv in H as [??] end.
  split; [done|]. by exists row.
Qed.

Lemma runs_get_ok_inv t i d d' o : runs_get_for_update t i d = (d', Ok o) -> d' = d.
Proof.
  unfold runs_get_for_update. intros H. minv. case_match; [case_match|]; by minv.
Qed.

Lemma steps_save_ok_inv s d d' x : steps_save s d = (d', Ok x) ->
  exists row, db_steps d !! step_id s = Some row /\ step_version row = step_persisted_version s /\
    d' = set_steps (<[step_id s := step_set (step_status s) (step_output_ref s) (step_retry_at s)
                       (step_version s) (step_version s) row]> (db_steps d)) d.
Proof.
  unfold steps_save. intros H. minv. destruct (db_steps d !! step_id s) as [row|] eqn:E; [|done].
  minv. bools. by exists row.
Qed.

Lemma runs_save_ok_inv r d d' x : runs_save r d = (d', Ok x) -> exists m, d' = set_runs m d.
Proof.
  unfold runs_save. intros H. minv. destruct (db_runs d !! run_id r); minv; eauto.
Qed.

Lemma add_event_ok_inv r t d d' x : add_event r t d = (d', Ok x) -> exists e, d' = set_events e d.
Proof. unfold add_event. intros H. minv. eauto. Qed.

Lemma next_attempt_no_ok_inv i d d' n : next_attempt_no i d = (d', Ok n) ->
  d' = d /\ n = latest_attempt_no i d + 1.
Proof. unfold next_attempt_no. intros H. by minv. Qed.

Lemma attempts_add_ok_inv a d d' x : attempts_add a d = (d', Ok x) ->
  db_attempts d !! at_id a = None /\ d' = set_attempts (<[at_id a := a]> (db_attempts d)) d.
Proof.
  unfold attempts_add. intros H. minv. bools. split; [|done]. by apply eq_None_not_Some.
Qed.

Lemma attempts_complete_ok_inv a d d' x : attempts_complete a d = (d', Ok x) ->
  exists row, StepAttempt_is_complete a = true /\ db_attempts d !! at_id a = Some row /\
    at_completed_at row = None /\
    d' = set_attempts (<[at_id a := at_set_end (at_completed_at a) (at_output_ref a) (at_error a)
                           (at_set_lease (at_leased_until a) row)]> (db_attempts d)) d.
Proof.
  unfold attempts_complete. intros H. minv.
  destruct (db_attempts d !! at_id a) as [row|] eqn:Erow; [|done]. minv. bools.
  exists row. ksplit. by destruct (at_completed_at row).
Qed.

Lemma attempts_renew_ok_inv a d d' x : attempts_renew a d = (d', Ok x) ->
  exists row, db_attempts d !! at_id a = Some row /\ at_completed_at row = None /\
    dt_us (at_leased_until row) < dt_us (at_leased_until a) /\
    d' = set_attempts (<[at_id a := at_set_lease (at_leased_until a) row]> (db_attempts d)) d.
Proof.
  unfold attempts_renew. intros H. minv.
  destruct (db_attempts d !! at_id a) as [row|] eqn:Erow; [|done]. minv. bools.
  exists row. ksplit. by destruct (at_completed_at row).
Qed.

Lemma admit_run_ok_inv now r d d' r' : admit_run now r d = (d', Ok r') -> d' = d.
Proof.
  unfold admit_run. case_match; intros Ha; minv; first [done | by apply call_ok_inv in Ha as [-> _]].
Qed.

(** [dinv] also inverts the database calls. *)
Ltac dinv :=
  repeat (tinv; match goal with
  | H : call _ _ _ = (_, Ok _) |- _ => apply call_ok_inv in H as [-> H]
  | H : hook_call _ _ = (_, Ok _) |- _ => apply hook_call_ok_inv in H
  | H : transact _ _ = (_, Ok _) |- _ => apply transact_ok_inv in H
  | H : steps_get_for_update _ _ _ = (_, Ok _) |- _ => apply steps_get_ok_inv in H as [-> H]
  | H : runs_get_for_update _ _ _ = (_, Ok _) |- _ => apply runs_get_ok_inv in H as ->
  | H : runs_save _ _ = (_, Ok _) |- _ => apply runs_save_ok_inv in H as [? ->]
  | H : add_event _ _ _ = (_, Ok _) |- _ => apply add_event_ok_inv in H as [? ->]
  | H : next_attempt_no _ _ = (_, Ok _) |- _ => apply next_attempt_no_ok_inv in H as [-> ->]
  | H : admit_run _ _ _ = (_, Ok _) |- _ => apply admit_run_ok_inv in H as ->
  end); tinv.

(** ** Attempts of a step *)

Lemma attempts_of_elem i d a : a ∈ attempts_of i d <->
  at_step_id a = i /\ exists k, db_attempts d !! k = Some a.
Proof.
  unfold attempts_of. rewrite list_elem_of_filter, list_elem_of_fmap. split.
  - intros [Hi ([k b] & -> & H%elem_of_map_to_list)]. split; [done|]. by exists k.
  - intros [Hi [k H]]. split; [done|]. exists (k, a). split; [done|]. by apply elem_of_map_to_list.
Qed.

Lemma foldr_max_bound l a : a ∈ l -> at_attempt_no a <= foldr (fun a m => Z.max (at_attempt_no a) m) 0 l.
Proof.
  induction l as [|b l IH]; simpl; [set_solver|]. intros [->|H]%elem_of_cons; [lia|].
  specialize (IH H). lia.
Qed.

Lemma foldr_max_least l m : 0 <= m -> (forall a, a ∈ l -> at_attempt_no a <= m) ->
  foldr (fun a m => Z.max (at_attempt_no a) m) 0 l <= m.
Proof.
  intros Hm. induction l as [|b l IH]; simpl; intros H; [done|].
  pose proof (H b ltac:(set_solver)). assert (foldr (fun a m => Z.max (at_attempt_no a) m) 0 l <= m)
    by (apply IH; set_solver). lia.
Qed.

Lemma latest_bound i d k a : db_attempts d !! k = Some a -> at_step_id a = i ->
  at_attempt_no a <= latest_attempt_no i d.
Proof. intros. apply foldr_max_bound, attempts_of_elem. eauto. Qed.

(** ** Effects *)

(** The fields that identify an attempt. *)
Definition same_attempt (a b : StepAttempt) : Prop :=
  at_id b = at_id a /\ at_tenant_id b = at_tenant_id a /\ at_run_id b = at_run_id a /\
  at_step_id b = at_step_id a /\ at_attempt_no b = at_attempt_no a /\
  at_lease_owner b = at_lease_owner a.

(** What a worker holds: an attempt the store handed out, in whatever state its memory is in. *)
Definition held (d : Db) (c : StepAttempt) : Prop :=
  exists row, db_attempts d !! at_id c = Some row /\ same_attempt row c.

(** A saved mutation of a step row. *)
Definition row_evolves (s s' : SearchStep) : Prop :=
  step_terminal (step_status s) = false /\ step_loadable s' /\ step_id s' = step_id s /\
  step_tenant_id s' = step_tenant_id s /\ step_run_id s' = step_run_id s /\
  step_version s < step_version s'.

Definition steps_grow (m m' : gmap Z SearchStep) : Prop :=
  (forall i s, m !! i = Some s -> m' !! i = Some s) /\
  (forall i s, m' !! i = Some s -> m !! i = None ->
     step_id s = i /\ step_status s = StepStatus_READY /\ step_loadable s).

Inductive effect (d d' : Db) : Prop :=
| eff_none :
    db_steps d' = db_steps d -> db_attempts d' = db_attempts d -> effect d d'
| eff_close i s s' :
    (* a READY or RETRY_WAIT step is closed or released *)
    db_steps d !! i = Some s -> step_status s <> StepStatus_RUNNING ->
    step_status s' <> StepStatus_RUNNING -> step_status s' <> StepStatus_SUCCEEDED ->
    row_evolves s s' ->
    steps_grow (<[i := s']> (db_steps d)) (db_steps d') -> db_attempts d' = db_attempts d ->
    effect d d'
| eff_claim i s s' a :
    db_steps d !! i = Some s -> step_status s = StepStatus_READY ->
    step_status s' = StepStatus_RUNNING -> row_evolves s s' ->
    db_attempts d !! at_id a = None -> at_step_id a = i ->
    at_attempt_no a = latest_attempt_no i d + 1 -> at_completed_at a = None ->
    at_run_id a = step_run_id s -> at_tenant_id a = step_tenant_id s ->
    db_steps d' = <[i := s']> (db_steps d) -> db_attempts d' = <[at_id a := a]> (db_attempts d) ->
    effect d d'
| eff_finish i s s' r r' :
    db_steps d !! i = Some s -> step_status s = StepStatus_RUNNING ->
    step_status s' <> StepStatus_RUNNING -> row_evolves s s' ->
    db_attempts d !! at_id r = Some r -> at_step_id r = i -> at_completed_at r = None ->
    same_attempt r r' -> at_completed_at r' <> None ->
    (step_status s' = StepStatus_SUCCEEDED -> at_output_ref r' = step_output_ref s') ->
    steps_grow (<[i := s']> (db_steps d)) (db_steps d') ->
    db_attempts d' = <[at_id r := r']> (db_attempts d) ->
    effect d d'
| eff_renew r r' :
    db_attempts d !! at_id r = Some r -> at_completed_at r = None -> at_completed_at r' = None ->
    same_attempt r r' ->
    db_steps d' = db_steps d -> db_attempts d' = <[at_id r := r']> (db_attempts d) ->
    effect d d'
| eff_recover i s s' now :
    db_steps d !! i = Some s -> step_status s = StepStatus_RUNNING ->
    step_status s' = StepStatus_READY -> row_evolves s s' ->
    (forall k a, db_attempts d !! k = Some a -> at_step_id a = i -> at_completed_at a = None ->
       dt_us (at_leased_until a) <= dt_us now) ->
    db_steps d' = <[i := s']> (db_steps d) ->
    db_attempts d' = db_attempts (expire_attempts i now d) ->
    effect d d'.

(** ** The invariant of the rows *)

Definition incomplete (d : Db) (a : StepAttempt) : Prop :=
  db_attempts d !! at_id a = Some a /\ at_completed_at a = None.

Record db_inv (d : Db) : Prop := {
  inv_step_key i s : db_steps d !! i = Some s -> step_id s = i;
  inv_loadable i s : db_steps d !! i = Some s -> step_loadable s;
  inv_attempt_key k a : db_attempts d !! k = Some a -> at_id a = k;
  inv_attempt_step k a : db_attempts d !! k = Some a -> is_Some (db_steps d !! at_step_id a);
  inv_numbers k l a b : db_attempts d !! k = Some a -> db_attempts d !! l = Some b ->
    at_step_id a = at_step_id b -> at_attempt_no a = at_attempt_no b -> k = l;
  inv_incomplete a : incomplete d a -> exists s, db_steps d !! at_step_id a = Some s /\
    step_status s = StepStatus_RUNNING /\ at_attempt_no a = latest_attempt_no (at_step_id a) d;
  inv_running i s : db_steps d !! i = Some s -> step_status s = StepStatus_RUNNING ->
    exists a, incomplete d a /\ at_step_id a = i;
  inv_output i s o : db_steps d !! i = Some s -> step_status s = StepStatus_SUCCEEDED ->
    step_output_ref s = Some o ->
    exists k a, db_attempts d !! k = Some a /\ at_step_id a = i /\ at_completed_at a <> None /\
      at_output_ref a = Some o
}.

(** ** Every transaction has one of the effects *)

Definition saved (s row : SearchStep) : SearchStep :=
  step_set (step_status s) (step_output_ref s) (step_retry_at s) (step_version s) (step_version s) row.

Lemma saved_evolves n row s :
  step_loadable row -> steps (S n) (fst (SearchStep_mark_persisted row)) s ->
  row_evolves row (saved s row) /\ step_id s = step_id row /\ step_status (saved s row) = step_status s.
Proof.
  intros Hl Hs.
  assert (step_loadable (fst (SearchStep_mark_persisted row))) as Hl0 by exact Hl.
  assert (step_loadable s) as Hl1.
  { apply (star_invariant step_mutates step_loadable) with (fst (SearchStep_mark_persisted row));
      [|by apply (step_star (S n))|done]. intros. by eapply step_mutates_loadable. }
  assert (step_fixed (fst (SearchStep_mark_persisted row)) s) as Hf.
  { apply (star_relation step_mutates step_fixed step_mutates_fixed). by apply (step_star (S n)). }
  pose proof (steps_version _ _ _ Hs) as Hv. simpl in Hv.
  destruct Hf as (F1 & F2 & F3 & F4 & F5 & F6 & F7 & F8). simpl in *.
  split; [|done]. unfold row_evolves. split; [|split; [|simpl; ksplit; lia]].
  - inversion Hs as [|? ? ? ? H1 _]; subst. apply lc_frozen in H1. exact H1.
  - destruct Hl as (A1 & A2 & _). destruct Hl1 as (_ & _ & A3). unfold step_loadable. simpl. done.
Qed.

Lemma one_step s s' (op : step_op) : step_exec op s = (s', Ok tt) -> steps 1 s s'.
Proof. intros H. econstructor; [by exists op|constructor]. Qed.

Lemma two_steps s s1 s' (op op' : step_op) :
  step_exec op s = (s1, Ok tt) -> step_exec op' s1 = (s', Ok tt) -> steps 2 s s'.
Proof. intros H1 H2. econstructor; [by exists op|by eapply one_step]. Qed.

Lemma start_status s s' : SearchStep_start s = (s', Ok tt) -> step_status s' = StepStatus_RUNNING.
Proof. intros H. by step_inv H. Qed.
Lemma fail_status s s' : SearchStep_fail s = (s', Ok tt) -> step_status s' = StepStatus_FAILED.
Proof. intros H. by step_inv H. Qed.
Lemma cancel_status s s' : SearchStep_cancel s = (s', Ok tt) -> step_status s' = StepStatus_CANCELLED.
Proof. intros H. by step_inv H. Qed.
Lemma succeed_status o s s' : SearchStep_succeed o s = (s', Ok tt) ->
  step_status s' = StepStatus_SUCCEEDED /\ step_output_ref s' = Some o.
Proof. intros H. by step_inv H. Qed.
Lemma retry_status t s s' : SearchStep_retry_later t s = (s', Ok tt) ->
  step_status s' = StepStatus_RETRY_WAIT.
Proof. intros H. by step_inv H. Qed.
Lemma make_ready_status s s' : SearchStep_make_ready s = (s', Ok tt) ->
  step_status s' = StepStatus_READY.
Proof. intros H. by step_inv H. Qed.
Lemma release_status s s' : SearchStep_release_expired_lease s = (s', Ok tt) ->
  step_status s' = StepStatus_READY.
Proof. intros H. by step_inv H. Qed.

Lemma steps_grow_refl m : steps_grow m m.
Proof. split; [done|]. intros; congruence. Qed.

Lemma steps_grow_insert m m' i s s' : m !! i = Some s -> steps_grow m m' ->
  steps_grow (<[i := s']> m) (<[i := s']> m').
Proof.
  intros Hi [H1 H2]. split.
  - intros j t. destruct (decide (i = j)) as [->|Hne].
    + by rewrite !lookup_insert_eq.
    + rewrite !lookup_insert_ne by done. apply H1.
  - intros j t. destruct (decide (i = j)) as [->|Hne].
    + rewrite !lookup_insert_eq. done.
    + rewrite !lookup_insert_ne by done. apply H2.
Qed.

Lemma lease_claim_ok_inv ls id no w now dl s s' a :
  LeaseService_claim ls id no w now dl s = (s', Ok a) ->
  SearchStep_start s = (s', Ok tt) /\ at_step_id a = step_id s /\ at_attempt_no a = no /\
  at_completed_at a = None /\ at_run_id a = step_run_id s /\ at_tenant_id a = step_tenant_id s /\
  attempt_wf a.
Proof.
  unfold LeaseService_claim. intros H. minv.
  match goal with Hn : StepAttempt_new _ _ _ _ _ _ _ _ _ _ _ = Ok _ |- _ =>
    apply StepAttempt_new_ok_inv in Hn as (?&?&?&?&?&?&?&?&?&?&?&?&?) end.
  match goal with Hs : SearchStep_start s = (?x, _) |- _ =>
    assert (step_id x = step_id s /\ step_run_id x = step_run_id s /\ step_tenant_id x = step_tenant_id s)
      as (? & ? & ?) by (by step_inv Hs) end.
  ksplit; congruence.
Qed.

(** The end of every transaction that saves a step: the row it saved is the one it loaded. *)
Lemma save_effect d dh n i row s d' x :
  db_inv d -> db_steps d !! i = Some row -> step_loadable row ->
  steps (S n) (fst (SearchStep_mark_persisted row)) s ->
  steps_grow (db_steps d) (db_steps dh) -> steps_save s dh = (d', Ok x) ->
  row_evolves row (saved s row) /\
  d' = set_steps (<[i := saved s row]> (db_steps dh)) dh /\
  steps_grow (<[i := saved s row]> (db_steps d)) (<[i := saved s row]> (db_steps dh)).
Proof.
  intros Hinv Hi Hl Hs Hg H. destruct (saved_evolves n row s Hl Hs) as (He & Hid & _).
  pose proof (inv_step_key d Hinv i row Hi) as Hk.
  apply steps_save_ok_inv in H as (row' & Hr & _ & ->). rewrite Hid, Hk in Hr |- *.
  rewrite (proj1 Hg i row Hi) in Hr. simplify_eq. split; [done|]. split; [done|].
  by eapply steps_grow_insert.
Qed.

Section Effects.
Context `{Hook : CompletionHook} (cf : StoreConfig).

Lemma hook_grow d d' : hook_adds_only d d' ->
  steps_grow (db_steps d) (db_steps d') /\ db_attempts d' = db_attempts d.
Proof. intros (_ & Ha & _ & H1 & H2). by split. Qed.

Lemma claim_effect t i new_id w now d d' r : db_inv d ->
  store_claim cf t i new_id w now d = (d', r) -> effect d d'.
Proof.
  intros Hinv H. destruct r as [r|e].
  2:{ unfold store_claim in H. apply transact_raise_inv in H as ->. by apply eff_none. }
  unfold store_claim in H. dinv. destruct a as [step|]; [|dinv; by apply eff_none].
  destruct E as (row & Hrow & Hl & _ & ->).
  destruct (decide (step_status row = StepStatus_READY)) as [Hst|Hst];
    [rewrite bool_decide_eq_true_2 in H by done | rewrite bool_decide_eq_false_2 in H by done];
    cbn [negb] in H; [|dinv; by apply eff_none].
  dinv. destruct a as [run|]; [|dinv; by apply eff_none].
  assert (step_status row <> StepStatus_RUNNING) as Hnr by congruence.
  destruct (SearchRun_is_terminal run).
  { dinv. match goal with Hc : SearchStep_cancel _ = (?s, _), Hs : steps_save ?s _ = _ |- _ =>
      pose proof (cancel_status _ _ Hc) as Hcs;
      destruct (save_effect d d 0 i row s _ _ Hinv Hrow Hl (one_step _ _ StepCancel Hc)
                  (steps_grow_refl _) Hs) as (He & -> & Hg);
      apply (eff_close _ _ i row (saved s row)); try done; simpl; congruence
    end. }
  dinv. match type of H with (if ?b then _ else _) _ = _ => destruct b end.
  { dinv. match goal with Hc : SearchStep_start _ = (?s0, _), Hf : SearchStep_fail ?s0 = (?s, _),
      Hs : steps_save ?s _ = _ |- _ =>
      pose proof (fail_status _ _ Hf) as Hcs;
      destruct (save_effect d d 1 i row s _ _ Hinv Hrow Hl
                  (two_steps _ _ _ StepStart StepFail Hc Hf) (steps_grow_refl _) Hs) as (He & -> & Hg);
      apply (eff_close _ _ i row (saved s row)); try done; simpl; congruence
    end. }
  dinv. match type of H with (if ?b then _ else _) _ = _ => destruct b end.
  - unfold claim_past_phase in H. dinv.
    match goal with Hh : on_failure _ _ _ _ _ = Ok _ |- _ =>
      apply on_failure_rows in Hh as [Hh _]; apply hook_grow in Hh as [Hgr Hat] end.
    match goal with Hc : SearchStep_start _ = (?s0, _), Hf : SearchStep_fail ?s0 = (?s, _),
      Hs : steps_save ?s ?dh = _ |- _ =>
      pose proof (fail_status _ _ Hf) as Hcs;
      destruct (save_effect d dh 1 i row s _ _ Hinv Hrow Hl
                  (two_steps _ _ _ StepStart StepFail Hc Hf) Hgr Hs) as (He & -> & Hg);
      apply (eff_close _ _ i row (saved s row)); try done; simpl; congruence
    end.
  - unfold claim_lease in H. dinv.
    match type of H with (match ?m with _ => _ end) _ = _ => destruct m as [s [att|e]] eqn:Ec end;
      [|dinv].
    apply lease_claim_ok_inv in Ec as (Hc & A1 & A2 & A3 & A4 & A5 & _). simpl in A1, A2, A4, A5.
    dinv. match goal with Hadd : attempts_add _ _ = _ |- _ =>
      apply attempts_add_ok_inv in Hadd as [Hfresh ->] end.
    match goal with Hs : steps_save s ?dh = _ |- _ =>
      destruct (save_effect d dh 0 i row s _ _ Hinv Hrow Hl (one_step _ _ StepStart Hc)
                  (steps_grow_refl _) Hs) as (He & -> & Hg) end.
    pose proof (inv_step_key d Hinv i row Hrow) as Hk.
    apply (eff_claim _ _ i row (saved s row) att); try done; simpl; try congruence.
    by apply start_status in Hc.
Qed.

Lemma running_step_ok_inv c d d' o : held d c -> running_step c d = (d', Ok o) ->
  d' = d /\ match o with
            | Some s => exists row r, db_steps d !! at_step_id c = Some row /\ step_loadable row /\
                s = fst (SearchStep_mark_persisted row) /\ step_status row = StepStatus_RUNNING /\
                db_attempts d !! at_id c = Some r /\ same_attempt r c /\ at_completed_at r = None
            | None => True
            end.
Proof.
  intros (r & Hr & Hsame) H. unfold running_step in H. dinv. split; [done|].
  destruct a as [s|]; [|done].
  match goal with |- match (if ?b then _ else _) with _ => _ end => destruct b eqn:Eb; [|done] end.
  apply andb_true_iff in Eb as [Est Ecur]. apply bool_decide_eq_true in Est.
  destruct E as (row & Hrow & Hl & _ & ->). unfold is_current_attempt in Ecur. rewrite Hr in Ecur.
  bools. exists row, r. ksplit. by destruct (at_completed_at r).
Qed.

(** A finished attempt saved over its row. *)
Lemma complete_effect d dh c r x d' :
  db_attempts d !! at_id c = Some r -> same_attempt r c -> db_attempts dh = db_attempts d ->
  attempts_complete c dh = (d', Ok x) ->
  exists r', same_attempt r r' /\ at_completed_at r' <> None /\ at_output_ref r' = at_output_ref c /\
    d' = set_attempts (<[at_id r := r']> (db_attempts d)) dh.
Proof.
  intros Hr Hs Ha H. apply attempts_complete_ok_inv in H as (row & Hc & Hrow & _ & ->).
  rewrite Ha in Hrow |- *. rewrite Hr in Hrow. simplify_eq.
  assert (at_id c = at_id row) as -> by apply Hs.
  eexists. split; [|split; [|split; [|reflexivity]]]; [repeat split| |done]. simpl.
  unfold StepAttempt_is_complete in Hc. by destruct (at_completed_at c).
Qed.

Lemma attempt_succeed_ok_inv o now c c' : StepAttempt_succeed o now c = (c', Ok tt) ->
  same_attempt c c' /\ at_output_ref c' = Some o.
Proof. intros H. attempt_inv H. split; [repeat split|done]. Qed.

Lemma attempt_fail_ok_inv e now c c' : StepAttempt_fail e now c = (c', Ok tt) ->
  same_attempt c c' /\ at_output_ref c' = at_output_ref c.
Proof. intros H. attempt_inv H. split; [repeat split|done]. Qed.

Lemma same_attempt_trans a b c : same_attempt a b -> same_attempt b c -> same_attempt a c.
Proof. unfold same_attempt. intuition congruence. Qed.

(** Putting the two saves together: the shape of every finalization. *)
Lemma finalize_effect d d' i row s r r' :
  db_inv d -> db_steps d !! i = Some row -> step_status row = StepStatus_RUNNING ->
  step_status s <> StepStatus_RUNNING -> row_evolves row (saved s row) ->
  db_attempts d !! at_id r = Some r -> at_step_id r = i -> at_completed_at r = None ->
  same_attempt r r' -> at_completed_at r' <> None ->
  (step_status s = StepStatus_SUCCEEDED -> at_output_ref r' = step_output_ref s) ->
  steps_grow (<[i := saved s row]> (db_steps d)) (db_steps d') ->
  db_attempts d' = <[at_id r := r']> (db_attempts d) ->
  effect d d'.
Proof. intros. by eapply (eff_finish d d' i row (saved s row) r r'). Qed.

Lemma succeed_effect c result now d d' r : db_inv d -> held d c ->
  store_succeed c result now d = (d', r) -> effect d d'.
Proof.
  intros Hinv Hheld H. destruct r as [out|e].
  2:{ unfold store_succeed in H. apply transact_raise_inv in H as ->. by apply eff_none. }
  unfold store_succeed in H. dinv.
  match goal with Hr : running_step _ _ = _ |- _ =>
    apply (running_step_ok_inv _ _ _ _ Hheld) in Hr as [-> Hr] end.
  destruct a as [step|]; [|dinv; by apply eff_none].
  destruct E as (row & rec & Hrow & Hl & -> & Hst & Hrec & Hsame & Hinc).
  assert (at_id rec = at_id c) as Hid by (symmetry; apply Hsame).
  assert (at_step_id rec = at_step_id c) as Hsid by (symmetry; apply Hsame).
  dinv. destruct a as [run|]; [|dinv; by apply eff_none].
  destruct (SearchRun_is_terminal run).
  - dinv. match goal with Hf : StepAttempt_fail _ _ c = (?c', _), Hc : SearchStep_cancel _ = (?s, _),
      Hcomp : attempts_complete ?c' _ = _, Hs : steps_save ?s _ = _ |- _ =>
      apply attempt_fail_ok_inv in Hf as [Hcc _];
      pose proof (cancel_status _ _ Hc) as Hcs;
      pose proof (same_attempt_trans _ _ _ Hsame Hcc) as Hrc;
      assert (at_id c' = at_id c) as Hidc by apply Hcc;
      rewrite <- Hidc in Hrec;
      apply (complete_effect d d c' rec _ _ Hrec Hrc eq_refl) in Hcomp as (r' & R1 & R2 & _ & ->);
      destruct (save_effect d (set_attempts (<[at_id rec := r']> (db_attempts d)) d) 0 _ row s _ _
        Hinv Hrow Hl (one_step _ _ StepCancel Hc) (steps_grow_refl _) Hs) as (He & -> & Hg);
      apply (finalize_effect d _ (at_step_id c) row s rec r'); try done; simpl; congruence
    end.
  - dinv. 
    match goal with Hh : on_success _ _ _ _ = Ok _ |- _ =>
      apply on_success_rows in Hh as [Hh _]; apply hook_grow in Hh as [Hgr Hat] end.
    match goal with Hf : StepAttempt_succeed _ _ c = (?c', _), Hc : SearchStep_succeed ?o _ = (?s, _),
      Hcomp : attempts_complete ?c' ?dh = _, Hs : steps_save ?s _ = _ |- _ =>
      apply attempt_succeed_ok_inv in Hf as [Hcc Hco];
      destruct (succeed_status _ _ _ Hc) as [Hcs Hso];
      pose proof (same_attempt_trans _ _ _ Hsame Hcc) as Hrc;
      assert (at_id c' = at_id c) as Hidc by apply Hcc;
      rewrite <- Hidc in Hrec;
      apply (complete_effect d dh c' rec _ _ Hrec Hrc Hat) in Hcomp as (r' & R1 & R2 & R3 & ->);
      destruct (save_effect d (set_attempts (<[at_id rec := r']> (db_attempts d)) dh) 0 _ row s _ _
        Hinv Hrow Hl (one_step _ _ (StepSucceed o) Hc) Hgr Hs) as (He & -> & Hg);
      apply (finalize_effect d _ (at_step_id c) row s rec r'); try done; simpl; congruence
    end.
Qed.

Lemma renew_effect c now d d' r : db_inv d -> held d c ->
  store_renew cf c now d = (d', r) -> effect d d'.
Proof.
  intros Hinv Hheld H. destruct r as [out|e].
  2:{ unfold store_renew in H. apply transact_raise_inv in H as ->. by apply eff_none. }
  unfold store_renew in H. dinv.
  match goal with Hr : running_step _ _ = _ |- _ =>
    apply (running_step_ok_inv _ _ _ _ Hheld) in Hr as [-> Hr] end.
  destruct a as [step|]; [|dinv; by apply eff_none].
  destruct E as (row & rec & Hrow & Hl & -> & Hst & Hrec & Hsame & Hinc).
  dinv. match type of H with (if ?b then _ else _) _ = _ => destruct b end; [dinv; by apply eff_none|].
  dinv. match type of H with (if ?b then _ else _) _ = _ => destruct b end; [dinv; by apply eff_none|].
  dinv. match goal with Hn : StepAttempt_renew_lease _ c = (?c', _), Ha : attempts_renew ?c' _ = _ |- _ =>
    assert (at_id c' = at_id rec) as Hid by (attempt_inv Hn; apply Hsame);
    apply attempts_renew_ok_inv in Ha as (row' & Hr' & _ & _ & ->) end.
  assert (at_id rec = at_id c) as Hidc by (symmetry; apply Hsame).
  rewrite Hid in Hr' |- *. rewrite Hidc, Hrec in Hr'. simplify_eq.
  match goal with |- effect _ (set_attempts (<[_ := ?x]> _) _) =>
    apply (eff_renew _ _ row' x) end; try done; by rewrite Hidc.
Qed.

Lemma retry_or_fail_ok_inv c e now run s d d' s' disp ev :
  retry_or_fail cf c e now run s d = (d', Ok (s', disp, ev)) ->
  d' = d /\ steps 1 s s' /\ step_status s' ∈ [StepStatus_RETRY_WAIT; StepStatus_FAILED].
Proof.
  unfold retry_or_fail. intros H. dinv.
  match goal with Hb : (if ?b then _ else _) d = (?d1, Ok ?again) |- _ =>
    assert (d1 = d) as -> by (destruct b; by dinv); destruct again end; dinv.
  - match goal with Hr : SearchStep_retry_later _ _ = _ |- _ =>
      split; [done|]; split; [exact (one_step _ _ (StepRetryLater _) Hr)|];
      rewrite (retry_status _ _ _ Hr); set_solver end.
  - match goal with Hr : SearchStep_fail _ = _ |- _ =>
      split; [done|]; split; [by apply (one_step _ _ StepFail)|];
      rewrite (fail_status _ _ Hr); set_solver end.
Qed.

Lemma fail_effect c error now d d' r : db_inv d -> held d c ->
  store_fail cf c error now d = (d', r) -> effect d d'.
Proof.
  intros Hinv Hheld H. destruct r as [out|e].
  2:{ unfold store_fail in H. apply transact_raise_inv in H as ->. by apply eff_none. }
  unfold store_fail in H. dinv.
  match goal with Hr : running_step _ _ = _ |- _ =>
    apply (running_step_ok_inv _ _ _ _ Hheld) in Hr as [-> Hr] end.
  destruct a as [step|]; [|dinv; by apply eff_none].
  destruct E as (row & rec & Hrow & Hl & -> & Hst & Hrec & Hsame & Hinc).
  assert (at_step_id rec = at_step_id c) as Hsid by (symmetry; apply Hsame).
  dinv. destruct a as [run|]; [|dinv; by apply eff_none].
  dinv. match goal with Hf : StepAttempt_fail _ _ c = (?c', _) |- _ => rename c' into c1, Hf into Hfail end.
  match goal with Ho : (if ?b then _ else retry_or_fail _ _ _ _ _ _) d = (?d1, Ok ?o) |- _ =>
    assert (d1 = d /\ steps 1 (fst (SearchStep_mark_persisted row)) (o.1.1) /\
            step_status (o.1.1) ∈ [StepStatus_CANCELLED; StepStatus_RETRY_WAIT; StepStatus_FAILED])
      as (-> & Hsteps & Hcs);
    [destruct b; [dinv; match goal with Hc : SearchStep_cancel _ = _ |- _ =>
         split; [done|]; split; [by apply (one_step _ _ StepCancel)|];
         simpl; rewrite (cancel_status _ _ Hc); set_solver end
       | destruct o as [[s1 disp1] ev1]; apply retry_or_fail_ok_inv in Ho as (-> & ? & ?);
         split; [done|]; split; [done|set_solver]]|];
    clear Ho; destruct o as [[s1 disp1] ev1]; simpl in Hsteps, Hcs
  end.
  dinv.
  match goal with Hh : on_failure _ _ _ _ _ = Ok _ |- _ =>
      apply on_failure_rows in Hh as [Hh _]; apply hook_grow in Hh as [Hgr Hat] end.
  apply attempt_fail_ok_inv in Hfail as [Hcc _].
  pose proof (same_attempt_trans _ _ _ Hsame Hcc) as Hrc.
  assert (at_id c1 = at_id c) as Hidc by apply Hcc. rewrite <- Hidc in Hrec.
  assert (at_id rec = at_id c1) as Hid by (symmetry; apply Hrc).
  match goal with Hcomp : attempts_complete c1 ?dh = _, Hs : steps_save s1 _ = _ |- _ =>
    apply (complete_effect d dh c1 rec _ _ Hrec Hrc Hat) in Hcomp as (r' & R1 & R2 & R3 & ->);
    destruct (save_effect d (set_attempts (<[at_id rec := r']> (db_attempts d)) dh) 0 _ row s1 _ _
        Hinv Hrow Hl Hsteps Hgr Hs) as (He & -> & Hg)
  end.
  apply (finalize_effect d _ (at_step_id c) row s1 rec r'); try done; simpl; try congruence;
    intros E; rewrite E in Hcs; set_solver.
Qed.

Lemma current_lease_bound i d lease a k : current_lease i d = Some lease ->
  db_attempts d !! k = Some a -> at_step_id a = i -> at_completed_at a = None ->
  dt_us (at_leased_until a) <= lease.
Proof.
  unfold current_lease. intros H Hk Hi Hc.
  assert (a ∈ base.filter (fun a => at_completed_at a = None) (attempts_of i d)) as Hin.
  { apply list_elem_of_filter. split; [done|]. apply attempts_of_elem. eauto. }
  destruct (base.filter _ _) as [|b rest]; [done|]. simplify_eq.
  apply elem_of_cons in Hin as [->|Hin].
  - clear. induction rest; simpl; lia.
  - induction rest as [|c rest IH]; simpl; [set_solver|].
    apply elem_of_cons in Hin as [->|Hin]; [lia|]. specialize (IH Hin). lia.
Qed.

Lemma make_ready_effect cand now d d' r : db_inv d ->
  scanner_make_ready cand now d = (d', r) -> effect d d'.
Proof.
  intros Hinv H. destruct r as [out|e].
  2:{ unfold scanner_make_ready in H. apply transact_raise_inv in H as ->. by apply eff_none. }
  unfold scanner_make_ready in H. dinv. destruct a as [step|]; [|dinv; by apply eff_none].
  destruct E as (row & Hrow & Hl & _ & ->). 
  change (step_status (fst (SearchStep_mark_persisted row))) with (step_status row) in H.
  change (step_retry_at (fst (SearchStep_mark_persisted row))) with (step_retry_at row) in H.
  destruct ((rc_status cand is StepStatus_RETRY_WAIT) && (step_status row is StepStatus_RETRY_WAIT))
    eqn:E1.
  { bools. destruct (step_retry_at row) as [t|]; [|dinv; by apply eff_none].
    dinv. match type of H with (if ?b then _ else _) _ = _ => destruct b end;
      [dinv; by apply eff_none|].
    dinv. match goal with Hc : SearchStep_make_ready _ = (?s, _), Hs : steps_save ?s _ = _ |- _ =>
      pose proof (make_ready_status _ _ Hc) as Hcs;
      destruct (save_effect d d 0 _ row s _ _ Hinv Hrow Hl (one_step _ _ StepMakeReady Hc)
                  (steps_grow_refl _) Hs) as (He & -> & Hg);
      apply (eff_close _ _ (rc_step_id cand) row (saved s row)); try done; simpl; congruence
    end. }
  match type of H with (if ?b then _ else _) _ = _ => destruct b eqn:E2 end;
    [|dinv; by apply eff_none].
  bools. dinv. destruct (current_lease (rc_step_id cand) d) as [lease|] eqn:El;
    [|dinv; by apply eff_none].
  match type of H with (if ?b then _ else _) _ = _ => destruct b eqn:E3 end;
    [dinv; by apply eff_none|].
  bools. dinv. match goal with Hc : SearchStep_release_expired_lease _ = (?s, _), Hs : steps_save ?s _ = _ |- _ =>
    pose proof (release_status _ _ Hc) as Hcs;
    destruct (save_effect d (expire_attempts (rc_step_id cand) now d) 0 _ row s _ _ Hinv Hrow Hl
                (one_step _ _ StepReleaseExpiredLease Hc) (steps_grow_refl _) Hs) as (He & -> & Hg);
    apply (eff_recover _ _ (rc_step_id cand) row (saved s row) now); try done
  end.
  intros k a Hk Hi Hc. pose proof (current_lease_bound _ _ _ _ _ El Hk Hi Hc). lia.
Qed.

(** A transaction of any worker or of the reconciler, whatever it returns. *)
Inductive db_step (d d' : Db) : Prop :=
| ds_claim t i new_id w now r : store_claim cf t i new_id w now d = (d', r) -> db_step d d'
| ds_succeed c result now r : held d c -> store_succeed c result now d = (d', r) -> db_step d d'
| ds_renew c now r : held d c -> store_renew cf c now d = (d', r) -> db_step d d'
| ds_fail c error now r : held d c -> store_fail cf c error now d = (d', r) -> db_step d d'
| ds_make_ready cand now r : scanner_make_ready cand now d = (d', r) -> db_step d d'.

Lemma db_step_effect d d' : db_inv d -> db_step d d' -> effect d d'.
Proof.
  intros Hinv []; eauto using claim_effect, succeed_effect, renew_effect, fail_effect,
    make_ready_effect.
Qed.
End Effects.

(** ** What the effects preserve *)

Lemma latest_nonneg i d : 0 <= latest_attempt_no i d.
Proof. unfold latest_attempt_no. induction (attempts_of i d); simpl; lia. Qed.

Lemma latest_mono i d d' :
  (forall k a, db_attempts d !! k = Some a -> at_step_id a = i -> exists k' a',
     db_attempts d' !! k' = Some a' /\ at_step_id a' = i /\ at_attempt_no a' = at_attempt_no a) ->
  latest_attempt_no i d <= latest_attempt_no i d'.
Proof.
  intros H. apply foldr_max_least; [apply latest_nonneg|]. intros a [Hi [k Hk]]%attempts_of_elem.
  destruct (H k a Hk Hi) as (k' & a' & Hk' & Hi' & <-). by eapply latest_bound.
Qed.

(** Rows kept their identity, both ways: the attempt numbers of every step are the same. *)
Definition attempts_match (d d' : Db) : Prop :=
  forall k, match db_attempts d !! k, db_attempts d' !! k with
            | Some a, Some a' => same_attempt a a' /\ (at_completed_at a <> None -> a' = a)
            | None, None => True
            | _, _ => False
            end.

Lemma match_latest d d' i : attempts_match d d' -> latest_attempt_no i d' = latest_attempt_no i d.
Proof.
  intros Hm. apply Z.le_antisymm; apply latest_mono; intros k a Hk Hi; specialize (Hm k);
    rewrite Hk in Hm; [destruct (db_attempts d !! k) as [b|] eqn:E
                      |destruct (db_attempts d' !! k) as [b|] eqn:E]; try done;
    destruct Hm as [(_ & _ & _ & H1 & H2 & _) _]; exists k, b; ksplit; congruence.
Qed.

Lemma match_insert d d' r r' : db_attempts d !! at_id r = Some r -> at_completed_at r = None ->
  same_attempt r r' -> db_attempts d' = <[at_id r := r']> (db_attempts d) -> attempts_match d d'.
Proof.
  intros Hr Hc Hs Ha k. rewrite Ha. destruct (decide (k = at_id r)) as [->|Hne].
  - rewrite Hr, lookup_insert_eq. split; [done|congruence].
  - rewrite lookup_insert_ne by done. destruct (db_attempts d !! k); [|done].
    split; [repeat split|done].
Qed.

Lemma match_recover d d' i now : db_attempts d' = db_attempts (expire_attempts i now d) ->
  attempts_match d d'.
Proof.
  intros Ha k. rewrite Ha. unfold expire_attempts. simpl. rewrite lookup_fmap.
  destruct (db_attempts d !! k) as [a|]; simpl; [|done].
  case_match; [|split; [repeat split|done]]. split; [repeat split|]. bools. intros Hc.
  by destruct (at_completed_at a).
Qed.

Lemma match_same d d' : db_attempts d' = db_attempts d -> attempts_match d d'.
Proof. intros Ha k. rewrite Ha. destruct (db_attempts d !! k); [split; [repeat split|done]|done]. Qed.

(** A terminal step and a completed attempt never change; no row disappears. *)
Lemma effect_frozen d d' : effect d d' ->
  (forall i s, db_steps d !! i = Some s -> step_terminal (step_status s) = true ->
     db_steps d' !! i = Some s) /\
  (forall k a, db_attempts d !! k = Some a -> exists a', db_attempts d' !! k = Some a' /\
     same_attempt a a' /\ (at_completed_at a <> None -> a' = a)).
Proof.
  assert (forall d1 d2, attempts_match d1 d2 -> forall k a, db_attempts d1 !! k = Some a ->
    exists a', db_attempts d2 !! k = Some a' /\ same_attempt a a' /\
      (at_completed_at a <> None -> a' = a)) as Hmatch.
  { intros d1 d2 Hm k a Hk. specialize (Hm k). rewrite Hk in Hm.
    destruct (db_attempts d2 !! k) as [a'|]; [|done]. exists a'. done. }
  assert (forall i s s' m, db_steps d !! i = Some s -> row_evolves s s' ->
    steps_grow (<[i := s']> (db_steps d)) m -> forall j t, db_steps d !! j = Some t ->
    step_terminal (step_status t) = true -> m !! j = Some t) as Hkeep.
  { intros i s s' m Hi (Ht & _) [Hg _] j t Hj Hjt. apply Hg.
    rewrite lookup_insert_ne; [done|]. intros ->. congruence. }
  intros [Hs Ha|i s s' Hi _ _ _ He Hg Ha|i s s' a Hi Hr Hn He Hf Hsa Hno Hc _ _ Hs Ha
         |i s s' r r' Hi Hr Hn He Hrr Hsr Hc Hsm Hcc Ho Hg Ha|r r' Hrr Hc Hc' Hsm Hs Ha
         |i s s' now Hi Hr Hn He Hl Hs Ha].
  - split; [by rewrite Hs|]. by apply Hmatch, match_same.
  - split; [by eapply Hkeep|]. by apply Hmatch, match_same.
  - split; [rewrite Hs; eapply Hkeep; eauto using steps_grow_refl|].
    intros k b Hk. exists b. rewrite Ha, lookup_insert_ne by congruence.
    split; [done|]. split; [repeat split|done].
  - split; [by eapply Hkeep|]. apply Hmatch. by eapply match_insert.
  - split; [by rewrite Hs|]. apply Hmatch. by eapply match_insert.
  - split; [rewrite Hs; eapply Hkeep; eauto using steps_grow_refl|].
    apply Hmatch. by eapply match_recover.
Qed.

Lemma grow_cases S S' (i : Z) (s s' : SearchStep) : S !! i = Some s -> steps_grow (<[i := s']> S) S' ->
  forall j t, S' !! j = Some t ->
  (j = i /\ t = s') \/ (j <> i /\ S !! j = Some t) \/
  (S !! j = None /\ step_id t = j /\ step_status t = StepStatus_READY /\ step_loadable t).
Proof.
  intros Hi [G1 G2] j t Hj. destruct (decide (j = i)) as [->|Hne].
  - left. split; [done|]. specialize (G1 i s' (lookup_insert_eq S i s')). congruence.
  - right. destruct (S !! j) as [t0|] eqn:E.
    + left. split; [done|]. rewrite (G1 j t0) in Hj; [done|]. by rewrite lookup_insert_ne.
    + right. split; [done|]. apply G2; [done|]. by rewrite lookup_insert_ne.
Qed.

Lemma grow_keeps S S' (i : Z) (s' : SearchStep) j t :
  steps_grow (<[i := s']> S) S' -> S !! j = Some t -> j <> i -> S' !! j = Some t.
Proof. intros [G1 _] Hj Hne. apply G1. by rewrite lookup_insert_ne. Qed.

Lemma grow_at S S' (i : Z) (s' : SearchStep) : steps_grow (<[i := s']> S) S' -> S' !! i = Some s'.
Proof. intros [G1 _]. apply G1, lookup_insert_eq. Qed.

Lemma match_back d d' k a' : attempts_match d d' -> db_attempts d' !! k = Some a' ->
  exists a, db_attempts d !! k = Some a /\ same_attempt a a' /\ (at_completed_at a <> None -> a' = a).
Proof.
  intros Hm Hk. specialize (Hm k). rewrite Hk in Hm.
  destruct (db_attempts d !! k) as [a|]; [|done]. by exists a.
Qed.

Lemma match_forth d d' k a : attempts_match d d' -> db_attempts d !! k = Some a ->
  exists a', db_attempts d' !! k = Some a' /\ same_attempt a a' /\ (at_completed_at a <> None -> a' = a).
Proof.
  intros Hm Hk. specialize (Hm k). rewrite Hk in Hm.
  destruct (db_attempts d' !! k) as [a'|]; [|done]. by exists a'.
Qed.

(** The rows of the steps are keyed and loadable after any change of one of them. *)
Lemma rows_ok d d' i s s' : db_inv d -> db_steps d !! i = Some s -> row_evolves s s' ->
  steps_grow (<[i := s']> (db_steps d)) (db_steps d') ->
  forall j t, db_steps d' !! j = Some t -> step_id t = j /\ step_loadable t.
Proof.
  intros Hinv Hi He Hg j t Hj.
  destruct (grow_cases _ _ _ _ _ Hi Hg j t Hj) as [[-> ->]|[[Hne Ht]|(_ & ? & _ & ?)]]; [| |done].
  - destruct He as (_ & Hl & -> & _). split; [by eapply inv_step_key|done].
  - split; [by eapply inv_step_key|by eapply inv_loadable].
Qed.

(** The part of the invariant about the attempts' identities, for effects that add no attempt. *)
Lemma attempts_ok d d' : db_inv d -> attempts_match d d' ->
  (forall j, is_Some (db_steps d !! j) -> is_Some (db_steps d' !! j)) ->
  (forall k a, db_attempts d' !! k = Some a -> at_id a = k) /\
  (forall k a, db_attempts d' !! k = Some a -> is_Some (db_steps d' !! at_step_id a)) /\
  (forall k l a b, db_attempts d' !! k = Some a -> db_attempts d' !! l = Some b ->
     at_step_id a = at_step_id b -> at_attempt_no a = at_attempt_no b -> k = l).
Proof.
  intros Hinv Hm Hdom. split; [|split].
  - intros k a' Hk. apply (match_back _ _ _ _ Hm) in Hk as (a & Hk & Hs & _).
    rewrite <- (inv_attempt_key d Hinv k a Hk). apply Hs.
  - intros k a' Hk. apply (match_back _ _ _ _ Hm) in Hk as (a & Hk & Hs & _).
    destruct Hs as (_ & _ & _ & -> & _). apply Hdom. by eapply inv_attempt_step.
  - intros k l a' b' Hk Hl Hst Hno. apply (match_back _ _ _ _ Hm) in Hk as (a & Hk & Ha & _).
    apply (match_back _ _ _ _ Hm) in Hl as (b & Hl & Hb & _).
    destruct Ha as (_ & _ & _ & A1 & A2 & _), Hb as (_ & _ & _ & B1 & B2 & _).
    apply (inv_numbers d Hinv k l a b Hk Hl); congruence.
Qed.

Lemma grow_dom S S' (i : Z) (s s' : SearchStep) : S !! i = Some s -> steps_grow (<[i := s']> S) S' ->
  forall j, is_Some (S !! j) -> is_Some (S' !! j).
Proof.
  intros Hi Hg j [t Ht]. destruct (decide (j = i)) as [->|Hne].
  - exists s'. by eapply grow_at.
  - exists t. by eapply grow_keeps.
Qed.

(** An incomplete attempt of the new rows was one of the old rows. *)
Lemma incomplete_back d d' a' : db_inv d -> attempts_match d d' -> incomplete d' a' ->
  exists a, incomplete d a /\ same_attempt a a' /\ at_id a = at_id a'.
Proof.
  intros Hinv Hm [Hk Hc]. apply (match_back _ _ _ _ Hm) in Hk as (a & Hk & Hs & Hfix).
  pose proof (inv_attempt_key d Hinv _ _ Hk) as Hid. exists a. rewrite <- Hid in Hk.
  split; [|done]. split; [done|]. destruct (at_completed_at a) eqn:E; [|done].
  rewrite Hfix in Hc by done. congruence.
Qed.

(** Outputs of successful steps keep their attempt. *)
Lemma output_kept d d' i o : attempts_match d d' ->
  (exists k a, db_attempts d !! k = Some a /\ at_step_id a = i /\ at_completed_at a <> None /\
     at_output_ref a = Some o) ->
  exists k a, db_attempts d' !! k = Some a /\ at_step_id a = i /\ at_completed_at a <> None /\
     at_output_ref a = Some o.
Proof.
  intros Hm (k & a & Hk & Hi & Hc & Ho). apply (match_forth _ _ _ _ Hm) in Hk as (a' & Hk & _ & Hfix).
  rewrite (Hfix Hc) in Hk. by exists k, a.
Qed.

Lemma close_inv d d' i s s' :
  db_inv d -> db_steps d !! i = Some s -> step_status s <> StepStatus_RUNNING ->
  step_status s' <> StepStatus_RUNNING -> step_status s' <> StepStatus_SUCCEEDED -> row_evolves s s' ->
  steps_grow (<[i := s']> (db_steps d)) (db_steps d') -> db_attempts d' = db_attempts d -> db_inv d'.
Proof.
  intros Hinv Hi Hnr Hnr' Hns He Hg Ha. pose proof (match_same d d' Ha) as Hm.
  pose proof (rows_ok d d' i s s' Hinv Hi He Hg) as Hrows.
  destruct (attempts_ok d d' Hinv Hm (grow_dom _ _ _ _ _ Hi Hg)) as (A1 & A2 & A3).
  split; [by intros; eapply Hrows | by intros; eapply Hrows | exact A1 | exact A2 | exact A3 | | |].
  - intros a' Hinc. destruct (incomplete_back _ _ _ Hinv Hm Hinc) as (a & Hinc' & Hs & _).
    destruct (inv_incomplete d Hinv a Hinc') as (t & Ht & Hrun & Hno).
    destruct Hs as (_ & _ & _ & -> & -> & _). exists t. rewrite (match_latest d d') by done.
    ksplit. eapply grow_keeps; [done..|]. intros Ei. rewrite Ei in Ht. congruence.
  - intros j t Hj Hrun. destruct (grow_cases _ _ _ _ _ Hi Hg j t Hj) as [[-> ->]|[[Hne Ht]|(_ & _ & Hr & _)]];
      [done| |congruence].
    destruct (inv_running d Hinv j t Ht Hrun) as (a & [Hk Hc] & Hst). exists a.
    unfold incomplete. by rewrite Ha.
  - intros j t o Hj Hsu Ho. apply (output_kept d d'); [done|].
    destruct (grow_cases _ _ _ _ _ Hi Hg j t Hj) as [[-> ->]|[[Hne Ht]|(_ & _ & Hr & _)]];
      [done| |congruence]. by eapply inv_output.
Qed.

Lemma finish_inv d d' i s s' r r' :
  db_inv d -> db_steps d !! i = Some s -> step_status s = StepStatus_RUNNING ->
  step_status s' <> StepStatus_RUNNING -> row_evolves s s' ->
  db_attempts d !! at_id r = Some r -> at_step_id r = i -> at_completed_at r = None ->
  same_attempt r r' -> at_completed_at r' <> None ->
  (step_status s' = StepStatus_SUCCEEDED -> at_output_ref r' = step_output_ref s') ->
  steps_grow (<[i := s']> (db_steps d)) (db_steps d') ->
  db_attempts d' = <[at_id r := r']> (db_attempts d) -> db_inv d'.
Proof.
  intros Hinv Hi Hrun Hnr He Hr Hri Hrc Hsm Hrc' Hout Hg Ha.
  pose proof (match_insert d d' r r' Hr Hrc Hsm Ha) as Hm.
  pose proof (rows_ok d d' i s s' Hinv Hi He Hg) as Hrows.
  destruct (attempts_ok d d' Hinv Hm (grow_dom _ _ _ _ _ Hi Hg)) as (A1 & A2 & A3).
  assert (forall a, incomplete d a -> at_step_id a = i -> at_id a = at_id r) as Huniq.
  { intros a Hinc Hst. destruct (inv_incomplete d Hinv a Hinc) as (_ & _ & _ & Hno).
    destruct (inv_incomplete d Hinv r (conj Hr Hrc)) as (_ & _ & _ & Hno').
    eapply (inv_numbers d Hinv); [apply Hinc|exact Hr|congruence|congruence]. }
  split; [by intros; eapply Hrows | by intros; eapply Hrows | exact A1 | exact A2 | exact A3 | | |].
  - intros a' Hinc. destruct (incomplete_back _ _ _ Hinv Hm Hinc) as (a & Hinc' & Hs & Hid).
    destruct (inv_incomplete d Hinv a Hinc') as (t & Ht & Hrun' & Hno).
    assert (at_step_id a <> i) as Hne.
    { intros Ei. destruct Hinc as [Hk' Hc']. rewrite <- Hid, (Huniq a Hinc' Ei), Ha,
        lookup_insert_eq in Hk'. congruence. }
    destruct Hs as (_ & _ & _ & -> & -> & _). exists t. rewrite (match_latest d d') by done.
    ksplit. by eapply grow_keeps.
  - intros j t Hj Hrun'. destruct (grow_cases _ _ _ _ _ Hi Hg j t Hj) as [[-> ->]|[[Hne Ht]|(_ & _ & Hrd & _)]];
      [done| |congruence].
    destruct (inv_running d Hinv j t Ht Hrun') as (a & [Hk Hc] & Hst). exists a.
    split; [|done]. split; [|done]. rewrite Ha, lookup_insert_ne; [done|].
    intros Eid. rewrite <- Eid, Hr in Hk. congruence.
  - intros j t o Hj Hsu Ho.
    destruct (grow_cases _ _ _ _ _ Hi Hg j t Hj) as [[-> ->]|[[Hne Ht]|(_ & _ & Hrd & _)]];
      [| |congruence].
    + exists (at_id r), r'. rewrite Ha, lookup_insert_eq. ksplit; [|by rewrite Hout].
      rewrite <- Hri. apply Hsm.
    + apply (output_kept d d'); [done|]. by eapply inv_output.
Qed.

Lemma recover_inv d d' i s s' now :
  db_inv d -> db_steps d !! i = Some s -> step_status s = StepStatus_RUNNING ->
  step_status s' = StepStatus_READY -> row_evolves s s' ->
  (forall k a, db_attempts d !! k = Some a -> at_step_id a = i -> at_completed_at a = None ->
     dt_us (at_leased_until a) <= dt_us now) ->
  db_steps d' = <[i := s']> (db_steps d) ->
  db_attempts d' = db_attempts (expire_attempts i now d) -> db_inv d'.
Proof.
  intros Hinv Hi Hrun Hrd He Hexp Hs Ha. pose proof (match_recover d d' i now Ha) as Hm.
  assert (steps_grow (<[i := s']> (db_steps d)) (db_steps d')) as Hg
    by (rewrite Hs; apply steps_grow_refl).
  pose proof (rows_ok d d' i s s' Hinv Hi He Hg) as Hrows.
  destruct (attempts_ok d d' Hinv Hm (grow_dom _ _ _ _ _ Hi Hg)) as (A1 & A2 & A3).
  assert (forall k a, db_attempts d !! k = Some a -> at_step_id a <> i ->
    db_attempts d' !! k = Some a) as Hother.
  { intros k a Hk Hne. rewrite Ha. unfold expire_attempts. simpl. rewrite lookup_fmap, Hk. simpl.
    by replace (at_step_id a =? i) with false by (symmetry; by apply Z.eqb_neq). }
  split; [by intros; eapply Hrows | by intros; eapply Hrows | exact A1 | exact A2 | exact A3 | | |].
  - intros a' Hinc. destruct (incomplete_back _ _ _ Hinv Hm Hinc) as (a & Hinc' & Hsm & Hid).
    destruct (inv_incomplete d Hinv a Hinc') as (t & Ht & Hrun' & Hno).
    assert (at_step_id a <> i) as Hne.
    { intros Ei. destruct Hinc as [Hk' Hc'], Hinc' as [Hk Hc].
      rewrite Ha, <- Hid in Hk'. unfold expire_attempts in Hk'. simpl in Hk'.
      rewrite lookup_fmap, Hk in Hk'. simpl in Hk'. rewrite Ei, Z.eqb_refl, Hc in Hk'.
      replace (dt_us (at_leased_until a) <=? dt_us now) with true in Hk'
        by (symmetry; apply Z.leb_le; by eapply Hexp). simpl in Hk'. by simplify_eq. }
    destruct Hsm as (_ & _ & _ & -> & -> & _). exists t. rewrite (match_latest d d') by done.
    ksplit. by eapply grow_keeps.
  - intros j t Hj Hrun'. destruct (grow_cases _ _ _ _ _ Hi Hg j t Hj) as [[-> ->]|[[Hne Ht]|(_ & _ & Hx & _)]];
      [congruence| |congruence].
    destruct (inv_running d Hinv j t Ht Hrun') as (a & [Hk Hc] & Hst). exists a.
    split; [|done]. split; [|done]. apply Hother; [done|congruence].
  - intros j t o Hj Hsu Ho. apply (output_kept d d'); [done|].
    destruct (grow_cases _ _ _ _ _ Hi Hg j t Hj) as [[-> ->]|[[Hne Ht]|(_ & _ & Hx & _)]];
      [congruence| |congruence]. by eapply inv_output.
Qed.

Lemma renew_inv d d' r r' :
  db_inv d -> db_attempts d !! at_id r = Some r -> at_completed_at r = None ->
  at_completed_at r' = None -> same_attempt r r' ->
  db_steps d' = db_steps d -> db_attempts d' = <[at_id r := r']> (db_attempts d) -> db_inv d'.
Proof.
  intros Hinv Hr Hc Hc' Hsm Hs Ha. pose proof (match_insert d d' r r' Hr Hc Hsm Ha) as Hm.
  destruct (attempts_ok d d' Hinv Hm) as (A1 & A2 & A3); [by rewrite Hs|].
  assert (at_id r' = at_id r) as Hid' by apply Hsm.
  split; rewrite ?Hs; [apply Hinv | apply Hinv | exact A1 | by rewrite Hs in A2 | exact A3 | | |].
  - intros a' Hinc. destruct (incomplete_back _ _ _ Hinv Hm Hinc) as (a & Hinc' & Hsa & _).
    destruct (inv_incomplete d Hinv a Hinc') as (t & Ht & Hrun & Hno).
    destruct Hsa as (_ & _ & _ & -> & -> & _). exists t. by rewrite (match_latest d d').
  - intros j t Hj Hrun. destruct (inv_running d Hinv j t Hj Hrun) as (a & [Hk Hca] & Hst).
    destruct (decide (at_id a = at_id r)) as [Eid|Hne].
    + rewrite Eid, Hr in Hk. simplify_eq. exists r'. unfold incomplete.
      rewrite Ha, Hid', lookup_insert_eq. split; [done|]. apply Hsm.
    + exists a. unfold incomplete. by rewrite Ha, lookup_insert_ne by done.
  - intros j t o Hj Hsu Ho. apply (output_kept d d'); [done|]. by eapply inv_output.
Qed.

Lemma claim_inv d d' i s s' a :
  db_inv d -> db_steps d !! i = Some s -> step_status s = StepStatus_READY ->
  step_status s' = StepStatus_RUNNING -> row_evolves s s' ->
  db_attempts d !! at_id a = None -> at_step_id a = i ->
  at_attempt_no a = latest_attempt_no i d + 1 -> at_completed_at a = None ->
  db_steps d' = <[i := s']> (db_steps d) -> db_attempts d' = <[at_id a := a]> (db_attempts d) ->
  db_inv d'.
Proof.
  intros Hinv Hi Hrd Hrun He Hf Hst Hno Hc Hs Ha.
  assert (steps_grow (<[i := s']> (db_steps d)) (db_steps d')) as Hg
    by (rewrite Hs; apply steps_grow_refl).
  pose proof (rows_ok d d' i s s' Hinv Hi He Hg) as Hrows.
  assert (forall k b, db_attempts d' !! k = Some b ->
    (k = at_id a /\ b = a) \/ (k <> at_id a /\ db_attempts d !! k = Some b)) as Hcases.
  { intros k b Hk. rewrite Ha in Hk. apply lookup_insert_Some in Hk as [[??]|[??]]; [left|right]; done. }
  assert (forall j, j <> i -> latest_attempt_no j d' = latest_attempt_no j d) as Hlat.
  { intros j Hne. apply Z.le_antisymm; apply latest_mono; intros k b Hk Hj.
    - destruct (Hcases k b Hk) as [[-> ->]|[_ Hk']]; [congruence|]. by exists k, b.
    - exists k, b. rewrite Ha, lookup_insert_ne by congruence. done. }
  assert (latest_attempt_no i d' = latest_attempt_no i d + 1) as Hlat'.
  { pose proof (latest_nonneg i d). apply Z.le_antisymm.
    - apply foldr_max_least; [lia|]. intros b [Hb [k Hk]]%attempts_of_elem.
      destruct (Hcases k b Hk) as [[-> ->]|[_ Hk']]; [lia|]. pose proof (latest_bound i d k b Hk' Hb). lia.
    - rewrite <- Hno. apply (latest_bound i d' (at_id a)); [|done]. by rewrite Ha, lookup_insert_eq. }
  split; [by intros; eapply Hrows | by intros; eapply Hrows | | | | | |].
  - intros k b Hk. destruct (Hcases k b Hk) as [[-> ->]|[_ Hk']]; [done|]. by eapply inv_attempt_key.
  - intros k b Hk. destruct (Hcases k b Hk) as [[-> ->]|[_ Hk']].
    + rewrite Hst, Hs, lookup_insert_eq. done.
    + eapply grow_dom; [exact Hi|exact Hg|]. by eapply inv_attempt_step.
  - intros k l b c Hk Hl Hbc Hn. destruct (Hcases k b Hk) as [[-> ->]|[_ Hk']],
      (Hcases l c Hl) as [[-> ->]|[_ Hl']]; [done| | |by eapply (inv_numbers d Hinv)].
    + pose proof (latest_bound (at_step_id c) d l c Hl' eq_refl). rewrite <- Hbc, Hst in *. lia.
    + pose proof (latest_bound (at_step_id b) d k b Hk' eq_refl). rewrite Hbc, Hst in *. lia.
  - intros b [Hk Hcb]. destruct (Hcases _ b Hk) as [[_ ->]|[_ Hk']].
    + exists s'. rewrite Hst, Hs, lookup_insert_eq, Hlat'. done.
    + destruct (inv_incomplete d Hinv b (conj Hk' Hcb)) as (t & Ht & Htr & Htn).
      assert (at_step_id b <> i) as Hne by (intros E; rewrite E in Ht; congruence).
      exists t. rewrite Hs, lookup_insert_ne, Hlat by done. done.
  - intros j t Hj Htr. destruct (grow_cases _ _ _ _ _ Hi Hg j t Hj) as [[-> ->]|[[Hne Ht]|(_ & _ & Hx & _)]];
      [| |congruence].
    + exists a. unfold incomplete. by rewrite Ha, lookup_insert_eq.
    + destruct (inv_running d Hinv j t Ht Htr) as (b & [Hk Hcb] & Hb). exists b. unfold incomplete.
      rewrite Ha, lookup_insert_ne by congruence. done.
  - intros j t o Hj Hsu Ho.
    destruct (grow_cases _ _ _ _ _ Hi Hg j t Hj) as [[-> ->]|[[Hne Ht]|(_ & _ & Hx & _)]];
      [congruence| |congruence].
    destruct (inv_output d Hinv j t o Ht Hsu Ho) as (k & b & Hk & Hb). exists k, b.
    rewrite Ha, lookup_insert_ne by congruence. done.
Qed.

Lemma effect_inv d d' : db_inv d -> effect d d' -> db_inv d'.
Proof.
  intros Hinv [Hs Ha| | | | |].
  - destruct Hinv. by split; unfold incomplete, latest_attempt_no, attempts_of in *; rewrite ?Hs, ?Ha.
  - by eapply close_inv.
  - by eapply claim_inv.
  - by eapply finish_inv.
  - by eapply renew_inv.
  - by eapply recover_inv.
Qed.

(** ** The theorems *)

Lemma steps_get_ok t i d : db_inv d ->
  exists o, steps_get_for_update t i d = (d, Ok o) /\
    match o with
    | Some s => exists row, db_steps d !! i = Some row /\ s = fst (SearchStep_mark_persisted row)
    | None => True
    end.
Proof.
  intros Hinv. unfold steps_get_for_update, mbind, M_bind, self.
  destruct (db_steps d !! i) as [row|] eqn:E; [|by exists None].
  destruct (step_tenant_id row =? t); [|by exists None].
  unfold lift, step_from_record. rewrite reload_step by (by eapply inv_loadable).
  eexists. split; [reflexivity|]. by exists row.
Qed.

(** A worker whose step is not running, or whose attempt is not the current one, gets nothing. *)
Lemma running_step_none c d : db_inv d ->
  (forall row, db_steps d !! at_step_id c = Some row -> step_status row = StepStatus_RUNNING ->
     is_current_attempt c d = false) ->
  running_step c d = (d, Ok None).
Proof.
  intros Hinv Hn. destruct (steps_get_ok (at_tenant_id c) (at_step_id c) d Hinv) as (o & Ho & Hrow).
  unfold running_step, mbind, M_bind, self. rewrite Ho. destruct o as [s|]; [|done].
  destruct Hrow as (row & Hrow & ->). simpl.
  destruct (decide (step_status row = StepStatus_RUNNING)) as [E|E].
  - rewrite (Hn row Hrow E), andb_false_r. done.
  - by rewrite bool_decide_eq_false_2.
Qed.

Section Theorems.
Context `{Hook : CompletionHook} (cf : StoreConfig).

Lemma fenced_calls c d : running_step c d = (d, Ok None) ->
  (forall result now, store_succeed c result now d = (d, Ok (c, Disposition_STALE))) /\
  (forall error now, store_fail cf c error now d = (d, Ok (c, Disposition_STALE))) /\
  (forall now, store_renew cf c now d = (d, Ok (c, false))).
Proof.
  intros H. split; [|split]; intros; unfold store_succeed, store_fail, store_renew, transact,
    mbind, M_bind; by rewrite H.
Qed.

Lemma star_inv d d' : db_inv d -> star (db_step cf) d d' -> db_inv d'.
Proof.
  intros Hd Hs. apply (star_invariant (db_step cf) db_inv) with d; [|done|done].
  intros a b Ha Hb. eapply effect_inv; [exact Ha|]. by apply (db_step_effect cf).
Qed.

Lemma star_frozen d d' : db_inv d -> star (db_step cf) d d' ->
  (forall i s, db_steps d !! i = Some s -> step_terminal (step_status s) = true ->
     db_steps d' !! i = Some s) /\
  (forall k a, db_attempts d !! k = Some a -> at_completed_at a <> None ->
     db_attempts d' !! k = Some a).
Proof.
  intros Hinv H. induction H as [d|d1 d2 d3 H12 H23 IH]; [done|].
  pose proof (db_step_effect cf d1 d2 Hinv H12) as He.
  destruct (IH (effect_inv _ _ Hinv He)) as [I1 I2]. apply effect_frozen in He as [F1 F2].
  split; [auto|]. intros k a Hk Hc. destruct (F2 k a Hk) as (a' & Hk' & _ & Hfix).
  rewrite (Hfix Hc) in Hk'. by apply I2.
Qed.

(** Claim C24. Whatever workers and the reconciler do, in any interleaving of their transactions and
    whether or not they raise: a step is RUNNING exactly while it has an incomplete attempt, it
    never has two, and that attempt carries the step's highest attempt number; and the output of a
    SUCCEEDED step is the output of a completed attempt of that step. *)
Theorem step_store_invariant d0 d :
  db_inv d0 -> star (db_step cf) d0 d ->
  (forall i s, db_steps d !! i = Some s ->
     (step_status s = StepStatus_RUNNING <-> exists a, incomplete d a /\ at_step_id a = i)) /\
  (forall a b, incomplete d a -> incomplete d b -> at_step_id a = at_step_id b -> a = b) /\
  (forall a, incomplete d a -> at_attempt_no a = latest_attempt_no (at_step_id a) d) /\
  (forall i s o, db_steps d !! i = Some s -> step_status s = StepStatus_SUCCEEDED ->
     step_output_ref s = Some o -> exists k a, db_attempts d !! k = Some a /\ at_step_id a = i /\
       at_completed_at a <> None /\ at_output_ref a = Some o).
Proof.
  intros H0 Hs. pose proof (star_inv d0 d H0 Hs) as Hinv.
  assert (forall a, incomplete d a -> at_attempt_no a = latest_attempt_no (at_step_id a) d) as Hno.
  { intros a Ha. by destruct (inv_incomplete d Hinv a Ha) as (_ & _ & _ & ?). }
  split; [|split; [|split; [exact Hno|apply Hinv]]].
  - intros i s Hi. split; [by apply (inv_running d Hinv)|]. intros (a & Ha & Hst).
    destruct (inv_incomplete d Hinv a Ha) as (t & Ht & Hrun & _). congruence.
  - intros a b Ha Hb Hst. pose proof (Hno a Ha). pose proof (Hno b Hb).
    assert (at_id a = at_id b) as Hid
      by (eapply (inv_numbers d Hinv); [apply Ha|apply Hb|done|congruence]).
    destruct Ha as [Ha _], Hb as [Hb _]. rewrite Hid in Ha. congruence.
Qed.

(** A finished step is final: once a step is SUCCEEDED, FAILED, SKIPPED or CANCELLED in the
    database, no later transaction of anyone changes its row; every claim of it is IGNORED, and
    every attempt at it that some worker still holds gets STALE (or a refused renewal) and
    changes nothing. So a step is completed successfully at most once. *)
Theorem finished_step_final d d' i s c :
  db_inv d -> db_steps d !! i = Some s -> step_terminal (step_status s) = true ->
  star (db_step cf) d d' -> held d' c -> at_step_id c = i ->
  db_steps d' !! i = Some s /\
  (forall t new_id w now, store_claim cf t i new_id w now d' = (d', Ok (None, Disposition_IGNORED))) /\
  (forall result now, store_succeed c result now d' = (d', Ok (c, Disposition_STALE))) /\
  (forall error now, store_fail cf c error now d' = (d', Ok (c, Disposition_STALE))) /\
  (forall now, store_renew cf c now d' = (d', Ok (c, false))).
Proof.
  intros Hinv Hi Ht Hs Hheld Hc. pose proof (star_inv d d' Hinv Hs) as Hinv'.
  destruct (star_frozen d d' Hinv Hs) as [Hf _]. pose proof (Hf i s Hi Ht) as Hi'.
  split; [done|]. split.
  - intros t new_id w now. destruct (steps_get_ok t i d' Hinv') as (o & Ho & Hrow).
    unfold store_claim, transact, mbind, M_bind. rewrite Ho. destruct o as [x|]; [|done].
    destruct Hrow as (row & Hrow & ->). rewrite Hi' in Hrow. simplify_eq.
    rewrite bool_decide_eq_false_2; [done|]. simpl. intros E. rewrite E in Ht. done.
  - apply fenced_calls, running_step_none; [done|]. intros row Hrow E.
    rewrite Hc, Hi' in Hrow. simplify_eq. by rewrite E in Ht.
Qed.

(** Claim C25. A worker that lost its attempt is fenced for good: once the database has an attempt
    completed (finished, or expired by the reconciler), then after any further transactions the
    row is still the same, and whoever still holds that attempt gets STALE for its result and its
    failure, a refused renewal, and changes nothing. *)
Theorem stale_worker_fenced d d' k a c :
  db_inv d -> db_attempts d !! k = Some a -> at_completed_at a <> None ->
  star (db_step cf) d d' -> held d' c -> at_id c = k ->
  db_attempts d' !! k = Some a /\
  (forall result now, store_succeed c result now d' = (d', Ok (c, Disposition_STALE))) /\
  (forall error now, store_fail cf c error now d' = (d', Ok (c, Disposition_STALE))) /\
  (forall now, store_renew cf c now d' = (d', Ok (c, false))).
Proof.
  intros Hinv Hk Hc Hs Hheld Hid. pose proof (star_inv d d' Hinv Hs) as Hinv'.
  destruct (star_frozen d d' Hinv Hs) as [_ Hf]. pose proof (Hf k a Hk Hc) as Hk'.
  split; [done|]. apply fenced_calls, running_step_none; [done|]. intros _ _ _.
  unfold is_current_attempt. rewrite Hid, Hk'. destruct (at_completed_at a); [|done].
  by rewrite andb_false_r.
Qed.
End Theorems.

(** ** Examples *)

Definition ex_cf : StoreConfig :=
  {| cf_lease_seconds := float_of_Z 30; cf_retry_base_seconds := float_of_Z 1;
     cf_retry_max_seconds := float_of_Z 10; cf_max_attempts := 3; cf_fetch_max_attempts := 2;
     cf_lease_extension_seconds := float_of_Z 30 |}.

(** A hook that adds nothing, and one database with a running run and a READY step. *)
Lemma hook_adds_only_refl d : hook_adds_only d d.
Proof. unfold hook_adds_only. repeat split; auto; congruence. Qed.

Definition quiet_hook : CompletionHook := {|
  on_success run step result d := Ok (d, run);
  on_failure run step error disposition d := Ok (d, run);
  on_success_rows run step result d d' run' H :=
    match H in _ = r return match r with Ok (d1, r1) => hook_adds_only d d1 /\ star run_step run r1 | _ => True end with
    | eq_refl => conj (hook_adds_only_refl d) (star_refl _ _) end;
  on_failure_rows run step error disposition d d' run' H :=
    match H in _ = r return match r with Ok (d1, r1) => hook_adds_only d d1 /\ star run_step run r1 | _ => True end with
    | eq_refl => conj (hook_adds_only_refl d) (star_refl _ _) end
|}.

Definition ex_cost_zero : StepBudgetCost := cost BudgetPhase_ROUTE_PLAN fzero 0 0 0.

Definition ex_db : Db :=
  {| db_runs := {[ 1 := run_set_plan (ex_routing SearchMode_FAST) fast_snapshot BudgetUsage_zero
                          (run_set_status RunStatus_RUNNING ex_run) ]};
     db_steps := {[ 10 := ex_step ]}; db_attempts := ∅; db_events := [];
     db_tables := empty_tables |}.

Lemma ex_db_inv : db_inv ex_db.
Proof.
  split; unfold incomplete; simpl.
  - intros i s [<- <-]%lookup_singleton_Some. done.
  - intros i s [<- <-]%lookup_singleton_Some. apply ex_step_loadable.
  - intros k a Hk. by rewrite lookup_empty in Hk.
  - intros k a Hk. by rewrite lookup_empty in Hk.
  - intros k l a b Hk. by rewrite lookup_empty in Hk.
  - intros a [Hk _]. by rewrite lookup_empty in Hk.
  - intros i s [<- <-]%lookup_singleton_Some. done.
  - intros i s o [<- <-]%lookup_singleton_Some. done.
Qed.

(** Worker 1 claims the step and dies; the reconciler recovers it; worker 2 claims and succeeds. *)
Definition db1 : Db := fst (store_claim (Hook := quiet_hook) ex_cf 2 10 100 (u "w1") (utc 1000) ex_db).
Definition claimed1 : StepAttempt :=
  match snd (store_claim (Hook := quiet_hook) ex_cf 2 10 100 (u "w1") (utc 1000) ex_db) with
  | Ok (Some a, _) => a
  | _ => ex_attempt
  end.
Definition ex_candidate : ReconcileCandidate :=
  {| rc_tenant_id := 2; rc_step_id := 10; rc_status := StepStatus_RUNNING; rc_retry_at := None;
     rc_leased_until := Some (utc 13000000) |}.
Definition db2 : Db := fst (scanner_make_ready ex_candidate (utc 13000000) db1).

Lemma db2_reached : star (db_step (Hook := quiet_hook) ex_cf) ex_db db2.
Proof.
  econstructor; [|econstructor; [|constructor]].
  - by apply (ds_claim ex_cf ex_db db1 2 10 100 (u "w1") (utc 1000)
      (snd (store_claim (Hook := quiet_hook) ex_cf 2 10 100 (u "w1") (utc 1000) ex_db))), surjective_pairing.
  - by apply (ds_make_ready ex_cf db1 db2 ex_candidate (utc 13000000)
      (snd (scanner_make_ready ex_candidate (utc 13000000) db1))), surjective_pairing.
Qed.

(** The row of attempt 100 in [db2], completed by the reconciler. *)
Definition expired1 : StepAttempt := at_set_end (Some (utc 13000000)) None (Some lease_expired_error) claimed1.

Lemma db2_attempt : db_attempts db2 !! 100 = Some expired1.
Proof. vm_compute. reflexivity. Qed.

Lemma claimed1_held : held db2 claimed1.
Proof. exists expired1. split; [vm_compute; reflexivity|]. repeat split. Qed.

Lemma db2_inv : db_inv db2.
Proof. exact (star_inv (Hook := quiet_hook) ex_cf ex_db db2 ex_db_inv db2_reached). Qed.

Lemma step_store_invariant_witness :
  exists s, db_steps db2 !! 10 = Some s /\
    (step_status s = StepStatus_RUNNING <-> exists a, incomplete db2 a /\ at_step_id a = 10).
Proof.
  destruct (db_steps db2 !! 10) as [s|] eqn:E; [|exfalso; revert E; vm_compute; discriminate].
  exists s. split; [reflexivity|].
  exact (proj1 (step_store_invariant (Hook := quiet_hook) ex_cf ex_db db2 ex_db_inv db2_reached) 10 s E).
Defined.

(** The first worker returns too late with a result: it is fenced. *)
Lemma stale_worker_fenced_witness :
  store_succeed (Hook := quiet_hook) claimed1
    {| er_output_ref := ex_ref; er_actual_cost := ex_cost_zero |} (utc 13500000) db2
    = (db2, Ok (claimed1, Disposition_STALE)).
Proof.
  exact (proj1 (proj2 (stale_worker_fenced (Hook := quiet_hook) ex_cf db2 db2 100 expired1 claimed1
    db2_inv db2_attempt ltac:(discriminate) (star_refl _ _) claimed1_held eq_refl))
    {| er_output_ref := ex_ref; er_actual_cost := ex_cost_zero |} (utc 13500000)).
Defined.

(** The first worker finishes in time; a second result for the same attempt is STALE. *)
Definition db_done : Db :=
  fst (store_succeed (Hook := quiet_hook) claimed1
    {| er_output_ref := ex_ref; er_actual_cost := ex_cost_zero |} (utc 2000) db1).

Lemma db_done_reached : star (db_step (Hook := quiet_hook) ex_cf) ex_db db_done.
Proof.
  econstructor; [|econstructor; [|constructor]].
  - by apply (ds_claim ex_cf ex_db db1 2 10 100 (u "w1") (utc 1000)
      (snd (store_claim (Hook := quiet_hook) ex_cf 2 10 100 (u "w1") (utc 1000) ex_db))), surjective_pairing.
  - eapply (ds_succeed ex_cf db1 db_done claimed1
      {| er_output_ref := ex_ref; er_actual_cost := ex_cost_zero |} (utc 2000));
      [|apply surjective_pairing].
    exists claimed1. split; [vm_compute; reflexivity|]. repeat split.
Qed.

Definition step_done : SearchStep :=
  step_set StepStatus_SUCCEEDED (Some ex_ref) None 2 2 ex_step.

Lemma db_done_step : db_steps db_done !! 10 = Some step_done.
Proof. vm_compute. reflexivity. Qed.

Lemma db_done_held : held db_done claimed1.
Proof.
  destruct (db_attempts db_done !! 100) as [row|] eqn:E; [|by vm_compute in E].
  exists row. split; [exact E|]. vm_compute in E. injection E as <-. repeat split.
Qed.

Lemma finished_step_final_witness :
  store_fail (Hook := quiet_hook) ex_cf claimed1 lease_expired_error (utc 3000) db_done
    = (db_done, Ok (claimed1, Disposition_STALE)) /\
  db_steps db_done !! 10 = Some step_done.
Proof.
  destruct (finished_step_final (Hook := quiet_hook) ex_cf db_done db_done 10 step_done claimed1
    (star_inv (Hook := quiet_hook) ex_cf ex_db db_done ex_db_inv db_done_reached)
    db_done_step eq_refl (star_refl _ _) db_done_held eq_refl) as (Hrow & _ & _ & Hfail & _).
  exact (conj (Hfail lease_expired_error (utc 3000)) Hrow).
Defined.
