(* ===== verification/Repositories.v ===== *)
(** * Repositories: inserting the rows of a submission and of its steps

    The [add] methods of [sana/platform/db/repositories.py] and the reads of the conversation
    repository. A unique key, a foreign key or a column type that does not hold is an error of the
    database. SQLAlchemy sends some of these inserts at the next query or at the commit; they are
    checked here at once, within the same transaction. *)

From Stdlib Require Import String.
From S2P Require Import Prelude Errors PyTime PyData Run Tables Step StepStore.

Definition unique_violation : exn := DatabaseError "duplicate key value violates unique constraint".
Definition foreign_violation : exn := DatabaseError "insert violates foreign key constraint".
Definition value_error : exn := DatabaseError "value does not fit its column".

Definition update_tables (f : Tables -> Tables) : M Db unit := update (fun d => set_tables (f (db_tables d)) d).

(** [created] is the time of the transaction, the default of [created_at]. *)
(** [@ src/sana/platform/db/repositories.py SqlStepRepository.add] *)
Definition steps_add (created : Z) (s : SearchStep) : M Db unit :=
  d ← self;
  _ ← raise_if (negb (fits (TVarchar 300) (CText (step_key s)) && int32 (step_plan_revision s))) value_error;
  _ ← raise_if (bool_decide (is_Some (db_steps d !! step_id s))
                || existsb (fun row => (step_run_id row =? step_run_id s)
                     && (step_plan_revision row =? step_plan_revision s)
                     && bool_decide (step_key row = step_key s)) (map_to_list (db_steps d)).*2)
        unique_violation;
  _ ← update (fun d => set_steps (<[step_id s := s]> (db_steps d)) d);
  update_tables (fun t => set_created (<[step_id s := created]> (tb_created t)) t).

(** [@ src/sana/platform/db/repositories.py SqlOutboxRepository.add] *)
Definition outbox_add (m : OutboxMessage) : M Db unit :=
  d ← self;
  let rows := tb_outbox (db_tables d) in
  _ ← raise_if (negb (fits (TVarchar 100) (CText (om_aggregate_type m))
                      && fits (TVarchar 200) (CText (om_event_type m))
                      && fits (TVarchar 500) (CText (om_dedupe_key m)))) value_error;
  _ ← raise_if (bool_decide (is_Some (rows !! om_id m))
                || existsb (fun e => bool_decide (om_dedupe_key (ob_message e) = om_dedupe_key m))
                     (map_to_list rows).*2) unique_violation;
  update_tables (set_outbox (<[om_id m := {| ob_message := m; ob_published_at := None;
                                ob_publish_attempts := 0; ob_last_error := None |}]> rows)).

(** [SELECT conversations.id WHERE tenant, id, user FOR UPDATE] *)
(** [@ src/sana/platform/db/repositories.py SqlConversationRepository.lock_owned_by] *)
Definition lock_owned_by (tenant_id conversation_id user_id : UUID) (d : Db) : bool :=
  match tb_conversations (db_tables d) !! conversation_id with
  | Some c => (cv_tenant_id c =? tenant_id) && (cv_user_id c =? user_id)
  | None => false
  end.

(** The unique key of messages: tenant, conversation and idempotency key. *)
Definition same_message_key (a b : Message) : bool :=
  (ms_tenant_id a =? ms_tenant_id b) && (ms_conversation_id a =? ms_conversation_id b)
  && negb (is_none (ms_idempotency_key a)) && bool_decide (ms_idempotency_key a = ms_idempotency_key b).

Definition message_fits (m : Message) : bool :=
  fits TText (CText (ms_content m))
  && match ms_idempotency_key m with Some k => fits (TVarchar 200) (CText k) | None => true end
  && dt_aware (ms_created_at m).

Definition message_conflict (m : Message) (rows : gmap Z Message) : bool :=
  bool_decide (is_Some (rows !! ms_id m)) || existsb (fun r => same_message_key r m) (map_to_list rows).*2.

(** [@ src/sana/platform/db/repositories.py SqlConversationRepository.add_message] *)
Definition add_message (m : Message) : M Db unit :=
  d ← self;
  let rows := tb_messages (db_tables d) in
  _ ← raise_if (negb (message_fits m)) value_error;
  _ ← raise_if (message_conflict m rows) unique_violation;
  _ ← raise_if (is_none (tb_conversations (db_tables d) !! ms_conversation_id m)) foreign_violation;
  update_tables (set_messages (<[ms_id m := m]> rows)).

(** [@ src/sana/platform/db/repositories.py SqlResponseRunRepository.add] *)
Definition responses_add (r : ResponseRun) : M Db unit :=
  d ← self;
  let rows := tb_responses (db_tables d) in
  _ ← raise_if (bool_decide (is_Some (rows !! rp_id r))) unique_violation;
  _ ← raise_if (is_none (tb_messages (db_tables d) !! rp_message_id r)
                || is_none (tb_conversations (db_tables d) !! rp_conversation_id r)) foreign_violation;
  update_tables (set_responses (<[rp_id r := r]> rows)).

(** [@ src/sana/platform/db/repositories.py SqlRunRepository.add] *)
Definition runs_add (r : SearchRun) : M Db unit :=
  d ← self;
  _ ← raise_if (negb (forallb (fun c => fits (TVarchar 100) (CText c)) (rd_reason_codes (run_routing r))
                      && fits (TVarchar 100) (CText (rd_policy_version (run_routing r))))) value_error;
  _ ← raise_if (bool_decide (is_Some (db_runs d !! run_id r))
                || existsb (fun row => run_response_run_id row =? run_response_run_id r)
                     (map_to_list (db_runs d)).*2) unique_violation;
  _ ← raise_if (is_none (tb_responses (db_tables d) !! run_response_run_id r)
                || is_none (tb_messages (db_tables d) !! run_message_id r)
                || is_none (tb_conversations (db_tables d) !! run_conversation_id r)) foreign_violation;
  update (fun d => set_runs (<[run_id r := r]> (db_runs d)) d).

(** ** What they do when they return *)

Lemma existsb_false {A} (p : A -> bool) l : existsb p l = false -> forall x, x ∈ l -> p x = false.
Proof.
  induction l as [|y l IH]; simpl; intros H x Hx; [by apply not_elem_of_nil in Hx|].
  apply orb_false_elim in H as [H1 H2]. apply elem_of_cons in Hx as [->|Hx]; auto.
Qed.

Lemma existsb_values_false {A} (p : A -> bool) (m : gmap Z A) i x :
  existsb p (map_to_list m).*2 = false -> m !! i = Some x -> p x = false.
Proof.
  intros H Hi. apply (existsb_false p _ H). apply list_elem_of_fmap. exists (i, x).
  split; [done|]. by apply elem_of_map_to_list.
Qed.

Lemma steps_add_ok_inv c s d d' x : steps_add c s d = (d', Ok x) ->
  db_steps d !! step_id s = None /\
  (forall i row, db_steps d !! i = Some row -> step_run_id row = step_run_id s ->
     step_plan_revision row = step_plan_revision s -> step_key row <> step_key s) /\
  d' = set_tables (set_created (<[step_id s := c]> (tb_created (db_tables d))) (db_tables d))
         (set_steps (<[step_id s := s]> (db_steps d)) d).
Proof.
  unfold steps_add, update_tables. intros H. minv. bools. split; [|split; [|done]].
  - by apply eq_None_not_Some.
  - intros i row Hi Hr Hv Hk.
    match goal with Hx : existsb _ _ = false |- _ => pose proof (existsb_values_false _ _ _ _ Hx Hi) as Hf end.
    simpl in Hf. rewrite Hr, Hv, !Z.eqb_refl, bool_decide_eq_true_2 in Hf by done. done.
Qed.

Lemma outbox_add_ok_inv m d d' x : outbox_add m d = (d', Ok x) ->
  tb_outbox (db_tables d) !! om_id m = None /\
  exists e, ob_message e = m /\ ob_published_at e = None /\
    d' = set_tables (set_outbox (<[om_id m := e]> (tb_outbox (db_tables d))) (db_tables d)) d.
Proof.
  unfold outbox_add, update_tables. intros H. minv. bools.
  split; [by apply eq_None_not_Some|]. eexists. split; [|split; [|reflexivity]]; done.
Qed.

Lemma add_message_ok_inv m d d' x : add_message m d = (d', Ok x) ->
  message_conflict m (tb_messages (db_tables d)) = false /\
  d' = set_tables (set_messages (<[ms_id m := m]> (tb_messages (db_tables d))) (db_tables d)) d.
Proof. unfold add_message, update_tables. intros H. by minv. Qed.

Lemma responses_add_ok_inv r d d' x : responses_add r d = (d', Ok x) ->
  tb_responses (db_tables d) !! rp_id r = None /\
  d' = set_tables (set_responses (<[rp_id r := r]> (tb_responses (db_tables d))) (db_tables d)) d.
Proof.
  unfold responses_add, update_tables. intros H. minv. bools. split; [by apply eq_None_not_Some|done].
Qed.

Lemma runs_add_ok_inv r d d' x : runs_add r d = (d', Ok x) ->
  db_runs d !! run_id r = None /\
  (forall i row, db_runs d !! i = Some row -> run_response_run_id row <> run_response_run_id r) /\
  d' = set_runs (<[run_id r := r]> (db_runs d)) d.
Proof.
  unfold runs_add. intros H. minv. bools. split; [by apply eq_None_not_Some|]. split; [|done].
  intros i row Hi E.
  match goal with Hx : existsb _ _ = false |- _ => pose proof (existsb_values_false _ _ _ _ Hx Hi) as Hf end.
  simpl in Hf. rewrite E in Hf. lia.
Qed.
