(* ===== verification/Completion.v ===== *)
(** * Completion: the successors of a step, and the results it leaves in the database

    [WorkflowCompletionCoordinator] of [sana/app/workflow_completion.py]: what a step's end adds to
    the workflow of its run, inside the transaction of the step store and under the lock of the
    run, and the rows of plans, sources, evidence and answers it writes.

    The coordinator's collaborators answer through an environment: the n-th identifier, span, clock
    reading and artifact-store call of the hook. Its theorems hold for every environment; the local
    artifact store is a component of its own. *)

From Stdlib Require Import SpecFloat String.
From S2P Require Import Prelude Errors PyTime PyData Run Tables RunFacts Step Policy.
From S2P Require Import Workflow StepStore Repositories.

(** ** The hook's state and environment *)

Record HookEnv := {
  he_id : nat -> UUID;
  he_span : nat -> pystr;
  he_now : nat -> datetime;
  he_get : nat -> UUID -> ArtifactRef -> res json;
  he_put : nat -> UUID -> UUID -> json -> res ArtifactRef;
  he_created : Z;
  he_trace : TraceContext
}.

(** The transaction's rows, the run aggregate in memory, and the number of calls of the environment. *)
Record Hk := { hk_db : Db; hk_run : SearchRun; hk_tick : nat }.

Definition on_rows {A} (m : M Db A) : M Hk A := fun h =>
  let '(d, r) := m (hk_db h) in ({| hk_db := d; hk_run := hk_run h; hk_tick := hk_tick h |}, r).

Definition on_run (m : M SearchRun unit) : M Hk unit := fun h =>
  let '(run, r) := m (hk_run h) in ({| hk_db := hk_db h; hk_run := run; hk_tick := hk_tick h |}, r).

Definition the_db : M Hk Db := fun h => (h, Ok (hk_db h)).
Definition the_run : M Hk SearchRun := fun h => (h, Ok (hk_run h)).

(** The next answer of the environment. *)
Definition ask {A} (f : nat -> A) : M Hk A := fun h =>
  ({| hk_db := hk_db h; hk_run := hk_run h; hk_tick := S (hk_tick h) |}, Ok (f (hk_tick h))).

Definition on_evidence (m : M (list Row) unit) : M Hk unit := on_rows (fun d =>
  let '(rows, r) := m (tb_rows (db_tables d)) in (set_tables (set_rows rows (db_tables d)) d, r)).

(** [for x in l: body(x)] *)
Fixpoint each {S A} (body : A -> M S unit) (l : list A) : M S unit :=
  match l with
  | [] => mret tt
  | x :: r => _ ← body x; each body r
  end.

Fixpoint collect {S A B} (body : A -> M S B) (l : list A) : M S (list B) :=
  match l with
  | [] => mret []
  | x :: r => y ← body x; ys ← collect body r; mret (y :: ys)
  end.

(** [any(body(x) for x in l)] *)
Fixpoint any {A} (body : A -> res bool) (l : list A) : res bool :=
  match l with
  | [] => Ok false
  | x :: r => b ← body x; if b : bool then Ok true else any body r
  end.

Fixpoint traverse {A B} (body : A -> res B) (l : list A) : res (list B) :=
  match l with
  | [] => Ok []
  | x :: r => y ← body x; ys ← traverse body r; Ok (y :: ys)
  end.

Lemma traverse_ok {A B} (f : A -> res B) l l' : traverse f l = Ok l' -> Forall2 (fun x y => f x = Ok y) l l'.
Proof.
  revert l'. induction l as [|x l IH]; simpl; intros l' E; [by injection E as <-|].
  apply res_bind_ok_inv in E as (y & Ey & E). apply res_bind_ok_inv in E as (ys & Eys & E). injection E as <-.
  constructor; [done|by apply IH].
Qed.

Definition AnswerQuality_value (q : AnswerQuality) : pystr :=
  match q with
  | AnswerQuality_COMPLETE => u "COMPLETE" | AnswerQuality_PARTIAL => u "PARTIAL" | AnswerQuality_NONE => u "NONE"
  end.

Definition StopReason_value (r : StopReason) : pystr :=
  match r with
  | StopReason_FACTS_COVERED => u "FACTS_COVERED" | StopReason_TIME_BUDGET => u "TIME_BUDGET"
  | StopReason_INSUFFICIENT_EVIDENCE => u "INSUFFICIENT_EVIDENCE"
  | StopReason_PROVIDER_FAILURE => u "PROVIDER_FAILURE" | StopReason_POLICY_BLOCKED => u "POLICY_BLOCKED"
  | StopReason_USER_CANCELLED => u "USER_CANCELLED"
  | StopReason_INFRASTRUCTURE_FAILURE => u "INFRASTRUCTURE_FAILURE"
  end.

Definition all_qualities : list AnswerQuality := [AnswerQuality_COMPLETE; AnswerQuality_PARTIAL; AnswerQuality_NONE].

Definition all_reasons : list StopReason :=
  [StopReason_FACTS_COVERED; StopReason_TIME_BUDGET; StopReason_INSUFFICIENT_EVIDENCE; StopReason_PROVIDER_FAILURE;
   StopReason_POLICY_BLOCKED; StopReason_USER_CANCELLED; StopReason_INFRASTRUCTURE_FAILURE].

Definition is_mode (m : SearchMode) (r : SearchRun) : bool := SearchRun_mode r is m.

(** ** The steps of a run *)

(** [ORDER BY created_at, id] over the steps of a run. *)
Definition created_of (d : Db) (s : SearchStep) : Z := default 0 (tb_created (db_tables d) !! step_id s).

Definition steps_of (r : SearchRun) (d : Db) : list SearchStep :=
  base.filter (fun s => step_tenant_id s = run_tenant_id r /\ step_run_id s = run_id r)
    (map_to_list (db_steps d)).*2.

(** [@ src/sana/app/workflow_completion.py WorkflowCompletionCoordinator._step_rows] *)
Definition step_rows (r : SearchRun) (d : Db) : list SearchStep :=
  py_sorted (fun a b => (created_of d a <? created_of d b)
                        || ((created_of d a =? created_of d b) && (step_id a <? step_id b))) (steps_of r d).

(** The row of the step that ends still has its old status; its object has the new one. *)
(** [@ src/sana/app/workflow_completion.py WorkflowCompletionCoordinator._status] *)
Definition current_status (current row : SearchStep) : StepStatus :=
  if step_id row =? step_id current then step_status current else step_status row.

Definition ended (current row : SearchStep) : bool := step_terminal (current_status current row).

Definition of_type (t : StepType) (rows : list SearchStep) : list SearchStep :=
  base.filter (fun s => step_type s = t) rows.

(** [@ src/sana/app/workflow_completion.py WorkflowCompletionCoordinator._event_type] *)
Definition ready_event (run : SearchRun) (t : StepType) : pystr :=
  if t is StepType_FETCH then u "STEP_READY_CRAWL"
  else if is_mode SearchMode_RESEARCH run then u "STEP_READY_RESEARCH" else u "STEP_READY_FAST".

(** [@ src/sana/app/workflow_completion.py _ref_dict] *)
Definition ref_dict (r : ArtifactRef) : json :=
  JObj [(u "uri", JStr (ar_uri r)); (u "sha256", JStr (ar_sha256 r))].

(** A reference column holds what [artifact_to_dict] wrote; reading it runs the constructor again. *)
(** [@ src/sana/modules/orchestration/repository.py artifact_from_dict] *)
Definition artifact_from_row (r : ArtifactRef) : res ArtifactRef := ArtifactRef_new (ar_uri r) (ar_sha256 r).

Section Coordinator.
Context `{PyText} (uuid5 : UUID -> pystr -> UUID) (sha256_utf8 : pystr -> pystr) (env : HookEnv).

Definition new_uuid : M Hk UUID := ask (he_id env).
Definition clock_now : M Hk datetime := ask (he_now env).

(** [@ src/sana/app/workflow_completion.py WorkflowCompletionCoordinator._payload] *)
Definition load_payload (tenant_id : UUID) (reference : ArtifactRef) : M Hk json :=
  answer ← ask (fun n => he_get env n tenant_id reference);
  payload ← lift answer;
  match payload with
  | JObj _ => mret payload
  | _ => raise (TypeError "Workflow artifact must contain a JSON object")
  end.

Definition put_json (run : SearchRun) (payload : json) : M Hk ArtifactRef :=
  answer ← ask (fun n => he_put env n (run_tenant_id run) (run_id run) payload);
  lift answer.

(** [@ src/sana/app/workflow_completion.py WorkflowCompletionCoordinator._add_step] *)
Definition add_step (key : pystr) (t : StepType) (input_ref : ArtifactRef) : M Hk bool :=
  run ← the_run;
  d ← the_db;
  if existsb (fun s => (step_plan_revision s =? 1) && bool_decide (step_key s = key)) (steps_of run d)
  then mret false else
  step_id ← new_uuid;
  step ← lift (SearchStep_new step_id (run_tenant_id run) (run_id run) key t 1 input_ref None 0);
  _ ← on_rows (steps_add (he_created env) step);
  now ← clock_now;
  id ← new_uuid;
  span ← ask (he_span env);
  trace ← lift (TraceContext_child span (he_trace env));
  message ← lift (OutboxMessage_new
    (step_message id (run_tenant_id run) step_id (ready_event run t) trace now));
  _ ← on_rows (outbox_add message);
  mret true.

(** [@ src/sana/app/workflow_completion.py WorkflowCompletionCoordinator._plan_reference] *)
Definition plan_reference (current : SearchStep) : M Hk ArtifactRef :=
  match step_type current, step_status current, step_output_ref current with
  | StepType_PLAN, StepStatus_SUCCEEDED, Some o => mret o
  | _, _, _ =>
      run ← the_run;
      d ← the_db;
      match base.filter (fun s => step_key s = u "plan" /\ step_status s = StepStatus_SUCCEEDED) (steps_of run d) with
      | s :: _ => match step_output_ref s with
                  | Some o => lift (artifact_from_row o)
                  | None => raise (RuntimeError "Run cannot advance without a successful plan artifact")
                  end
      | [] => raise (RuntimeError "Run cannot advance without a successful plan artifact")
      end
  end.

(** The reference a step gives its successor: for the step that ends, its object's. *)
Definition output_of (current row : SearchStep) : option ArtifactRef :=
  if step_id row =? step_id current then step_output_ref current else step_output_ref row.

(** [@ src/sana/app/workflow_completion.py WorkflowCompletionCoordinator._maybe_select] *)
Definition maybe_select (current : SearchStep) : M Hk unit :=
  run ← the_run;
  d ← the_db;
  let rows := of_type StepType_DISCOVERY (step_rows run d) in
  if bool_decide (rows = []) || existsb (fun row => negb (ended current row)) rows then mret tt else
  let refs := omap (output_of current)
                (base.filter (fun row => current_status current row = StepStatus_SUCCEEDED) rows) in
  plan_ref ← plan_reference current;
  input_ref ← put_json run (JObj [(u "schema", JStr (u "sana.selection-input.v1"));
                                  (u "plan_ref", ref_dict plan_ref);
                                  (u "discovery_refs", JList (map ref_dict refs))]);
  _ ← add_step (u "select") StepType_SELECT input_ref;
  mret tt.

(** The outputs of the succeeded rows of a type, and the current step's unless it is among them. *)
Definition outputs (t : StepType) (current : SearchStep) (rows : list SearchStep) : list ArtifactRef :=
  let refs := omap step_output_ref
    (base.filter (fun row => current_status current row = StepStatus_SUCCEEDED) (of_type t rows)) in
  match step_type current is t, step_status current, step_output_ref current with
  | true, StepStatus_SUCCEEDED, Some o => if bool_decide (o ∈ refs) then refs else refs ++ [o]
  | _, _, _ => refs
  end.

Definition lower_status (s : StepStatus) : pystr :=
  match s with
  | StepStatus_READY => u "ready" | StepStatus_RUNNING => u "running" | StepStatus_RETRY_WAIT => u "retry_wait"
  | StepStatus_SUCCEEDED => u "succeeded" | StepStatus_FAILED => u "failed" | StepStatus_SKIPPED => u "skipped"
  | StepStatus_CANCELLED => u "cancelled"
  end.

Definition degradation_of (current row : SearchStep) : option pystr :=
  match current_status current row with
  | (StepStatus_FAILED | StepStatus_CANCELLED) as s =>
      Some (ascii_lower (StepType_value (step_type row)) ++ u "_" ++ lower_status s)
  | _ => None
  end.

(** The failures of providers that the selection counted. *)
Definition provider_failures (run : SearchRun) (current : SearchStep) (rows : list SearchStep) : M Hk Z :=
  select_ref ← lift (match step_type current, step_status current with
                     | StepType_SELECT, StepStatus_SUCCEEDED => Ok (step_output_ref current)
                     | _, _ => match of_type StepType_SELECT rows with
                               | row :: _ => match step_output_ref row with
                                             | Some o => Some <$> artifact_from_row o
                                             | None => Ok None
                                             end
                               | [] => Ok None
                               end
                     end);
  match select_ref with
  | None => mret 0
  | Some reference =>
      selection ← load_payload (run_tenant_id run) reference;
      count ← lift (get_default selection "provider_failures" (JInt 0));
      lift (to_int count)
  end.

(** [@ src/sana/app/workflow_completion.py WorkflowCompletionCoordinator._maybe_synthesize] *)
Definition maybe_synthesize (current : SearchStep) (degradation_codes : list pystr) : M Hk unit :=
  run ← the_run;
  d ← the_db;
  let rows := step_rows run d in
  let non_synthesis := base.filter (fun s => step_type s <> StepType_SYNTHESIZE) rows in
  if existsb (fun row => negb (ended current row)) non_synthesis then mret tt else
  let codes := dedupe (degradation_codes ++ omap (degradation_of current) non_synthesis) in
  plan_ref ← plan_reference current;
  let verify_refs := outputs StepType_VERIFY current rows in
  _ ← raise_if (1 <? Z.of_nat (length verify_refs)) (ValueError "Workflow produced more than one VERIFY output");
  failures ← provider_failures run current rows;
  input_ref ← put_json run (JObj [(u "schema", JStr (u "sana.synthesis-input.v2"));
      (u "plan_ref", ref_dict plan_ref);
      (u "verify_ref", match verify_refs with r :: _ => ref_dict r | [] => JNull end);
      (u "provider_failures", JInt failures);
      (u "pipeline_degradation_codes", JList (map JStr (py_sorted pystr_ltb codes)))]);
  _ ← add_step (u "synthesize") StepType_SYNTHESIZE input_ref;
  mret tt.

(** [dict(payload.get("hit", {}))] *)
Definition hit_of (payload : json) : res json := x ← get_default payload "hit" (JObj []); to_dict x.

Definition from_direct (payload : json) : res bool :=
  hit ← hit_of payload;
  provider ← get_default hit "provider" (JStr []);
  Ok (bool_decide (to_str provider = u "direct")).

Definition required_fact (fact : json) : res (option pystr) :=
  required ← get_default fact "required" (JBool true);
  if truthy required then x ← str_at fact "id"; Ok (Some x) else Ok None.

(** The identifiers of the required facts of a plan. *)
Definition required_facts (plan : json) : res (list pystr) :=
  facts ← list_at plan "facts";
  found ← traverse required_fact facts;
  Ok (omap (fun o => o) (found : list (option pystr))).

(** The facts an extraction is for: [fact_ids], or [fact_id] when there are none. *)
Definition extracted_facts (payload : json) : res (list pystr) :=
  hit ← hit_of payload;
  ids ← get_default hit "fact_ids" JNull;
  ids ← (if truthy ids then items ids else hit ← hit_of payload; x ← get_default hit "fact_id" JNull; Ok [x]);
  Ok (omap (fun x => match x with JNull => None | _ => Some (to_str x) end) (ids : list json)).

(** Whether the extractions so far, all of direct sources, cover every required fact. *)
Definition covered_early (run : SearchRun) (plan_ref : ArtifactRef) (refs : list ArtifactRef) : M Hk bool :=
  payloads ← collect (fun r => r ← lift (artifact_from_row r); load_payload (run_tenant_id run) r) refs;
  indirect ← lift (any (fun p => negb <$> from_direct p) payloads);
  if indirect : bool then mret false else
  plan ← load_payload (run_tenant_id run) plan_ref;
  required ← lift (required_facts plan);
  extracted ← lift (traverse extracted_facts payloads);
  mret (negb (bool_decide (required = [])) && forallb (fun f => bool_decide (f ∈ concat extracted)) required).

(** [@ src/sana/app/workflow_completion.py WorkflowCompletionCoordinator._maybe_verify] *)
Definition maybe_verify (current : SearchStep) (degradation_codes : list pystr) : M Hk unit :=
  run ← the_run;
  d ← the_db;
  let rows := step_rows run d in
  let all_ended := forallb (ended current)
    (base.filter (fun s => step_type s = StepType_FETCH \/ step_type s = StepType_EXTRACT) rows) in
  let extract_refs := outputs StepType_EXTRACT current rows in
  match of_type StepType_VERIFY rows with
  | verify :: _ =>
      if all_ended && ended current verify then maybe_synthesize current degradation_codes else mret tt
  | [] =>
      if bool_decide (extract_refs = []) then
        if all_ended then maybe_synthesize current degradation_codes else mret tt
      else
      plan_ref ← plan_reference current;
      go ← (if all_ended : bool then mret true
            else if is_mode SearchMode_FAST run then covered_early run plan_ref extract_refs else mret false);
      if negb go then mret tt else
      input_ref ← put_json run (JObj [(u "schema", JStr (u "sana.verify-input.v2"));
                                      (u "plan_ref", ref_dict plan_ref);
                                      (u "extract_refs", JList (map ref_dict extract_refs))]);
      _ ← add_step (u "verify") StepType_VERIFY input_ref;
      mret tt
  end.

(** ** The results of the steps *)

Definition put_row (t : TableName) (cells : Cells) : M Hk unit :=
  on_evidence (insert_ignore {| rw_table := t; rw_cells := cells |}).

Definition owned_cells (id : UUID) (run : SearchRun) : Cells :=
  [("id", CUuid id); ("tenant_id", CUuid (run_tenant_id run)); ("run_id", CUuid (run_id run))]%string.

(** A JSON value given to a column as it is. *)
Definition cell_of (v : json) : Cell :=
  match v with
  | JNull => CNull
  | JBool b => CInt (if b then 1 else 0)
  | JInt n => CInt n
  | JFloat x => CFloat x
  | JStr s => CText s
  | _ => CJson v
  end.

Definition persist_fact (run : SearchRun) (fact : json) : M Hk unit :=
  id ← lift (uuid_at fact "id");
  key ← lift (str_at fact "key");
  description ← lift (str_at fact "description");
  required ← lift (get_default fact "required" (JBool true));
  freshness ← lift (str_at fact "freshness");
  consequence ← lift (str_at fact "consequence");
  put_row FactRequirements (owned_cells id run ++
    [("fact_key", CText key); ("description", CText description); ("required", CBool (truthy required));
     ("freshness", CText freshness); ("consequence", CText consequence); ("status", CText (u "OPEN"))]%string).

(** [query.get("providers", payload.get("providers", []))] *)
Definition providers_of (payload query : json) : res json :=
  fallback ← get_default payload "providers" (JList []);
  get_default query "providers" fallback.

Definition persist_query (run : SearchRun) (payload query : json) : M Hk unit :=
  id ← lift (uuid_at query "id");
  fact_id ← lift (uuid_at query "fact_id");
  revision ← lift (int_at query "plan_revision");
  key ← lift (str_at query "key");
  text ← lift (str_at query "text");
  providers ← lift (providers_of payload query);
  providers ← lift (items providers);
  locale ← lift (str_at query "locale");
  freshness_days ← lift (get_default query "freshness_days" JNull);
  metadata ← lift (get_default query "metadata" (JObj []));
  metadata ← lift (to_dict metadata);
  put_row QuerySpecs (owned_cells id run ++
    [("fact_requirement_id", CUuid fact_id); ("plan_revision", CInt revision); ("query_key", CText key);
     ("query_text", CText text); ("provider_class", CText (str_join (u ",") (map to_str providers)));
     ("locale", CText locale); ("freshness_days", cell_of freshness_days); ("query_metadata", CJson metadata)]%string).

(** [@ src/sana/app/workflow_completion.py WorkflowCompletionCoordinator._persist_plan] *)
Definition persist_plan (run : SearchRun) (payload : json) : M Hk unit :=
  facts ← lift (list_at payload "facts");
  queries ← lift (list_at payload "queries");
  _ ← each (persist_fact run) facts;
  each (persist_query run payload) queries.

Definition persist_hit (run : SearchRun) (attempt_id : UUID) (now : datetime) (hit : json) : M Hk unit :=
  canonical ← lift (str_at hit "canonical_url");
  id ← lift (uuid_at hit "id");
  rank ← lift (int_at hit "rank");
  url ← lift (str_at hit "url");
  url_hash ← lift (text_digest sha256_utf8 canonical);
  title ← lift (get_default hit "title" (JStr []));
  snippet ← lift (get_default hit "snippet" (JStr []));
  score ← lift (float_at hit "score");
  put_row SearchHits (owned_cells id run ++
    [("provider_attempt_id", CUuid attempt_id); ("rank", CInt rank); ("url", CText url);
     ("canonical_url", CText canonical); ("url_hash", CText url_hash); ("title", CText (to_str title));
     ("snippet", CText (to_str snippet)); ("score", CFloat score); ("discovered_at", CTime now)]%string).

Definition persist_response (run : SearchRun) (step : SearchStep) (query : json) (now : datetime)
    (response : json) : M Hk unit :=
  provider ← lift (str_at response "provider");
  let attempt_id := uuid5 (run_id run) (u "provider:" ++ step_key step ++ u ":" ++ provider) in
  error ← lift (get_default response "error" JNull);
  metrics ← lift (subscript response "metrics");
  metrics ← lift (to_dict metrics);
  query_id ← lift (uuid_at query "id");
  latency ← lift (int_at metrics "elapsed_ms");
  error_type ← (if truthy error then x ← lift (str_at error "category"); mret (CText x) else mret CNull);
  error_code ← (if truthy error then x ← lift (str_at error "code"); mret (CText x) else mret CNull);
  _ ← put_row ProviderAttempts (owned_cells attempt_id run ++
    [("query_spec_id", CUuid query_id); ("attempt_no", CInt 1); ("provider", CText provider);
     ("status", CText (if truthy error then u "FAILED" else u "SUCCEEDED"));
     ("started_at", CTime now); ("completed_at", CTime now); ("latency_ms", CInt latency);
     ("error_type", error_type); ("error_code", error_code)]%string);
  hits ← lift (list_at response "hits");
  each (persist_hit run attempt_id now) hits.

(** [@ src/sana/app/workflow_completion.py WorkflowCompletionCoordinator._persist_discovery] *)
Definition persist_discovery (run : SearchRun) (step : SearchStep) (payload : json) : M Hk unit :=
  now ← clock_now;
  query ← lift (subscript payload "query");
  query ← lift (to_dict query);
  responses ← lift (list_at payload "responses");
  each (persist_response run step query now) responses.

(** [@ src/sana/app/workflow_completion.py WorkflowCompletionCoordinator._fetch_artifact_id] *)
Definition fetch_artifact_id (run_id : UUID) (fetch_step_key : pystr) : res UUID :=
  _ ← fail_if (negb (starts_with (u "fetch:") fetch_step_key))
        (ValueError "Fetch artifact identity requires a FETCH step key");
  Ok (uuid5 run_id (u "fetch:" ++ fetch_step_key)).

(** [@ src/sana/app/workflow_completion.py WorkflowCompletionCoordinator._persist_fetch] *)
Definition persist_fetch (run : SearchRun) (step : SearchStep) (payload : json) : M Hk unit :=
  hit ← lift (subscript payload "hit");
  hit ← lift (to_dict hit);
  canonical ← lift (str_at hit "canonical_url");
  record_id ← lift (fetch_artifact_id (run_id run) (step_key step));
  hit_id ← lift (uuid_at hit "id");
  url_hash ← lift (text_digest sha256_utf8 canonical);
  http_status ← lift (int_at payload "http_status");
  media_type ← lift (str_at payload "media_type");
  content_hash ← lift (str_at payload "content_hash");
  body_ref ← lift (subscript payload "body_ref");
  uri ← lift (str_at body_ref "uri");
  fetched_at ← lift (datetime_at payload "fetched_at");
  redirects ← lift (list_at payload "redirects");
  put_row FetchArtifacts (owned_cells record_id run ++
    [("search_hit_id", CUuid hit_id); ("url", CText canonical); ("url_hash", CText url_hash);
     ("attempt_no", CInt 1); ("fetcher", CText (u "http")); ("status", CText (u "SUCCEEDED"));
     ("http_status", CInt http_status); ("media_type", CText media_type);
     ("content_hash", CText content_hash); ("storage_uri", CText uri); ("response_bytes", CNull);
     ("fetched_at", CTime fetched_at);
     ("fetch_metadata", CJson (JObj [(u "redirects", JList redirects)]))]%string).

Definition persist_document (run : SearchRun) (document : json) : M Hk unit :=
  id ← lift (uuid_at document "id");
  url ← lift (str_at document "canonical_url");
  url_hash ← lift (str_at document "canonical_url_hash");
  title ← lift (str_at document "title");
  host ← lift (str_at document "source_host");
  put_row Documents
    [("id", CUuid id); ("tenant_id", CUuid (run_tenant_id run)); ("canonical_url", CText url);
     ("canonical_url_hash", CText url_hash); ("title", CText title); ("source_host", CText host)]%string.

Definition persist_version (run : SearchRun) (fetch_id : UUID) (document version : json) : M Hk unit :=
  id ← lift (uuid_at version "id");
  document_id ← lift (uuid_at document "id");
  content_hash ← lift (str_at version "content_hash");
  text_ref ← lift (subscript version "text_ref");
  uri ← lift (str_at text_ref "uri");
  media_type ← lift (str_at version "media_type");
  language ← lift (get_default version "language" JNull);
  text_length ← lift (int_at version "text_length");
  fetched_at ← lift (datetime_at version "fetched_at");
  put_row DocumentVersions
    [("id", CUuid id); ("tenant_id", CUuid (run_tenant_id run)); ("document_id", CUuid document_id);
     ("fetch_artifact_id", CUuid fetch_id); ("content_hash", CText content_hash);
     ("storage_uri", CText uri); ("media_type", CText media_type); ("language", cell_of language);
     ("text_length", CInt text_length); ("fetched_at", CTime fetched_at);
     ("document_metadata", CJson (JObj []))]%string.

Definition persist_chunk (run : SearchRun) (version chunk : json) : M Hk unit :=
  id ← lift (uuid_at chunk "id");
  version_id ← lift (uuid_at version "id");
  ordinal ← lift (int_at chunk "ordinal");
  text ← lift (str_at chunk "text");
  text_hash ← lift (str_at chunk "text_hash");
  tokens ← lift (int_at chunk "token_count");
  start ← lift (int_at chunk "start_offset");
  stop ← lift (int_at chunk "end_offset");
  put_row DocumentChunks
    [("id", CUuid id); ("tenant_id", CUuid (run_tenant_id run)); ("document_version_id", CUuid version_id);
     ("ordinal", CInt ordinal); ("text_content", CText text); ("text_hash", CText text_hash);
     ("token_count", CInt tokens); ("start_offset", CInt start); ("end_offset", CInt stop)]%string.

(** [@ src/sana/app/workflow_completion.py WorkflowCompletionCoordinator._persist_extract] *)
Definition persist_extract (run : SearchRun) (step : SearchStep) (payload : json) : M Hk unit :=
  document ← lift (subscript payload "document");
  document ← lift (to_dict document);
  version ← lift (subscript payload "version");
  version ← lift (to_dict version);
  let fetch_key := replace_first (u "extract:") (u "fetch:") (step_key step) in
  _ ← raise_if (bool_decide (fetch_key = step_key step))
        (ValueError "Extract lineage requires an EXTRACT step key");
  fetch_id ← lift (fetch_artifact_id (run_id run) fetch_key);
  _ ← persist_document run document;
  _ ← persist_version run fetch_id document version;
  version_id ← lift (uuid_at version "id");
  now ← clock_now;
  _ ← put_row DocumentVersionFetches (owned_cells
        (uuid5 (run_id run) (u "document-version-fetch:" ++ str_of_uuid version_id ++ u ":" ++ str_of_uuid fetch_id)) run ++
        [("document_version_id", CUuid version_id); ("fetch_artifact_id", CUuid fetch_id);
         ("created_at", CTime now)]%string);
  chunks ← lift (list_at payload "chunks");
  each (persist_chunk run version) chunks.

Definition persist_evidence (run : SearchRun) (evidence : json) : M Hk unit :=
  id ← lift (uuid_at evidence "candidate_id");
  fact_id ← lift (uuid_at evidence "fact_id");
  version_id ← lift (uuid_at evidence "document_version_id");
  chunk_id ← lift (uuid_at evidence "document_chunk_id");
  quote ← lift (str_at evidence "quote");
  quote_hash ← lift (str_at evidence "quote_hash");
  start ← lift (int_at evidence "start_offset");
  stop ← lift (int_at evidence "end_offset");
  support ← lift (str_at evidence "support_type");
  score ← lift (float_at evidence "candidate_score");
  identity ← lift (str_at evidence "source_identity");
  authority ← lift (str_at evidence "source_authority");
  _ ← put_row EvidenceCandidates (owned_cells id run ++
    [("fact_requirement_id", CUuid fact_id); ("document_version_id", CUuid version_id);
     ("document_chunk_id", CUuid chunk_id); ("quote", CText quote); ("quote_hash", CText quote_hash);
     ("start_offset", CInt start); ("end_offset", CInt stop); ("support_type", CText support);
     ("candidate_score", CFloat score); ("source_identity", CText identity);
     ("source_authority", CText authority)]%string);
  verified_id ← lift (uuid_at evidence "verified_id");
  verdict ← lift (str_at evidence "verdict");
  confidence ← lift (float_at evidence "confidence");
  codes ← lift (subscript evidence "reason_codes");
  codes ← lift (items codes);
  verifier ← lift (str_at evidence "verifier_version");
  verified_at ← lift (datetime_at evidence "verified_at");
  put_row VerifiedEvidences (owned_cells verified_id run ++
    [("candidate_id", CUuid id); ("verdict", CText verdict); ("confidence", CFloat confidence);
     ("reason_codes", CJson (JList codes)); ("verifier_version", CText verifier);
     ("verified_at", CTime verified_at)]%string).

(** [UPDATE fact_requirements SET status WHERE tenant, id] *)
Definition assess_fact (run : SearchRun) (assessment : json) : M Hk unit :=
  fact_id ← lift (uuid_at assessment "fact_id");
  status ← lift (str_at assessment "status");
  let chosen row := (rw_table row is FactRequirements)
    && same_cell (cell (rw_cells row) "tenant_id") (CUuid (run_tenant_id run))
    && same_cell (cell (rw_cells row) "id") (CUuid fact_id) in
  on_evidence (rows ← self;
    _ ← raise_if (negb (fits (TVarchar 32) (CText status))) value_error;
    update (update_rows chosen [("status"%string, CText status)])).

(** [@ src/sana/app/workflow_completion.py WorkflowCompletionCoordinator._persist_verification] *)
Definition persist_verification (run : SearchRun) (payload : json) : M Hk unit :=
  evidence ← lift (list_at payload "evidence");
  _ ← each (persist_evidence run) evidence;
  coverage ← lift (list_at payload "coverage");
  each (assess_fact run) coverage.

Definition persist_citation (run : SearchRun) (claim_id : UUID) (citation : json) : M Hk unit :=
  id ← lift (uuid_at citation "id");
  evidence_id ← lift (uuid_at citation "evidence_id");
  ordinal ← lift (int_at citation "ordinal");
  label ← lift (str_at citation "label");
  url ← lift (str_at citation "url");
  version_id ← lift (uuid_at citation "document_version_id");
  chunk_id ← lift (uuid_at citation "document_chunk_id");
  quote ← lift (str_at citation "quote");
  start ← lift (int_at citation "start_offset");
  stop ← lift (int_at citation "end_offset");
  put_row Citations (owned_cells id run ++
    [("answer_claim_id", CUuid claim_id); ("verified_evidence_id", CUuid evidence_id);
     ("ordinal", CInt ordinal); ("label", CText label); ("rendered_url", CText url);
     ("document_version_id", CUuid version_id); ("document_chunk_id", CUuid chunk_id);
     ("quote", CText quote); ("start_offset", CInt start); ("end_offset", CInt stop)]%string).

Definition persist_claim (run : SearchRun) (claim : json) : M Hk unit :=
  claim_id ← lift (uuid_at claim "id");
  kind ← lift (get_default claim "kind" JNull);
  key ← lift (str_at claim "claim_key");
  text ← lift (str_at claim "text");
  fact ← lift (get_default claim "fact_id" JNull);
  fact_cell ← (match fact with
               | JNull => mret CNull
               | _ => x ← lift (uuid_at claim "fact_id"); mret (CUuid x)
               end);
  support ← lift (str_at claim "support_status");
  _ ← put_row AnswerClaims (owned_cells claim_id run ++
    [("claim_key", CText key); ("claim_text", CText text);
     ("claim_kind", match kind with JNull => CNull | _ => CText (to_str kind) end);
     ("fact_requirement_id", fact_cell); ("support_status", CText support)]%string);
  citations ← lift (list_at claim "citations");
  each (persist_citation run claim_id) citations.

(** [insert(Message)...on_conflict_do_nothing()] *)
Definition message_insert_ignore (m : Message) : M Db unit :=
  d ← self;
  let rows := tb_messages (db_tables d) in
  _ ← raise_if (negb (message_fits m)) value_error;
  if message_conflict m rows then mret tt else
  _ ← raise_if (is_none (tb_conversations (db_tables d) !! ms_conversation_id m)) foreign_violation;
  update_tables (set_messages (<[ms_id m := m]> rows)).

(** [UPDATE response_runs SET status, output_message_id, updated_at WHERE tenant, id]; a failure
    leaves the output alone. *)
Definition response_update (run : SearchRun) (status : ResponseStatus) (output : option UUID)
    (now : datetime) : M Db unit :=
  d ← self;
  let rows := tb_responses (db_tables d) in
  match rows !! run_response_run_id run with
  | Some row =>
      if negb (rp_tenant_id row =? run_tenant_id run) then mret tt else
      _ ← raise_if (match output with
                    | Some m => is_none (tb_messages (db_tables d) !! m)
                    | None => false
                    end) foreign_violation;
      update_tables (set_responses (<[run_response_run_id run :=
        {| rp_id := rp_id row; rp_tenant_id := rp_tenant_id row; rp_conversation_id := rp_conversation_id row;
           rp_message_id := rp_message_id row; rp_status := status;
           rp_output_message_id := match output with Some m => Some m | None => rp_output_message_id row end;
           rp_updated_at := now |}]> rows))
  | None => mret tt
  end.

Definition conversation_touch (run : SearchRun) (now : datetime) : M Db unit :=
  d ← self;
  let rows := tb_conversations (db_tables d) in
  match rows !! run_conversation_id run with
  | Some c =>
      if negb (cv_tenant_id c =? run_tenant_id run) then mret tt else
      update_tables (set_conversations (<[run_conversation_id run :=
        cv_touch now c]> rows))
  | None => mret tt
  end.

(** [uuid5(run.id, "assistant-message")] and the key [f"assistant:{run.id}"]. *)
Definition assistant_message_id (run : SearchRun) : UUID := uuid5 (run_id run) (u "assistant-message").
Definition assistant_key (run : SearchRun) : pystr := u "assistant:" ++ str_of_uuid (run_id run).

(** [@ src/sana/app/workflow_completion.py WorkflowCompletionCoordinator._persist_answer] *)
Definition persist_answer (run : SearchRun) (payload : json) : M Hk unit :=
  claims ← lift (list_at payload "claims");
  _ ← each (persist_claim run) claims;
  now ← clock_now;
  answer ← lift (str_at payload "answer");
  _ ← on_rows (message_insert_ignore
    {| ms_id := assistant_message_id run; ms_tenant_id := run_tenant_id run;
       ms_conversation_id := run_conversation_id run; ms_author_user_id := None;
       ms_role := Author_ASSISTANT; ms_content := answer;
       ms_idempotency_key := Some (assistant_key run); ms_created_at := now |});
  _ ← on_rows (response_update run Response_SUCCEEDED (Some (assistant_message_id run)) now);
  on_rows (conversation_touch run now).

(** [@ src/sana/app/workflow_completion.py WorkflowCompletionCoordinator._fail_run] *)
Definition fail_run (reason : StopReason) : M Hk unit :=
  run ← the_run;
  _ ← (if SearchRun_is_terminal run then mret tt
       else now ← clock_now; on_run (SearchRun_fail reason now));
  now ← clock_now;
  on_rows (response_update run Response_FAILED None now).

(** ** The hook *)

(** One query of the plan: its discovery step. *)
Definition add_discovery_step (run : SearchRun) (plan_ref : ArtifactRef) (payload query : json) : M Hk unit :=
  providers ← lift (providers_of payload query);
  providers ← lift (items providers);
  input_ref ← put_json run (JObj [(u "schema", JStr (u "sana.discovery-input.v1"));
      (u "plan_ref", ref_dict plan_ref); (u "query", query); (u "providers", JList providers)]);
  key ← lift (str_at query "key");
  _ ← add_step (u "discover:" ++ key) StepType_DISCOVERY input_ref;
  mret tt.

(** One selected hit: its fetch step. *)
Definition add_fetch_step (run : SearchRun) (payload : json) (numbered : Z * json) : M Hk unit :=
  let '(index, hit) := numbered in
  plan_ref ← lift (subscript payload "plan_ref");
  input_ref ← put_json run (JObj [(u "schema", JStr (u "sana.fetch-input.v1"));
      (u "plan_ref", plan_ref); (u "hit", hit)]);
  id ← lift (str_at hit "id");
  _ ← add_step (u "fetch:" ++ str_of_Z index ++ u ":" ++ id) StepType_FETCH input_ref;
  mret tt.

(** [enumerate(l, start=n)] *)
Fixpoint enumerate {A} (n : Z) (l : list A) : list (Z * A) :=
  match l with
  | [] => []
  | x :: r => (n, x) :: enumerate (n + 1) r
  end.

(** [@ src/sana/app/workflow_completion.py WorkflowCompletionCoordinator.on_success] *)
Definition complete_success (step : SearchStep) (result : StepExecutionResult) : M Hk unit :=
  run ← the_run;
  payload ← load_payload (run_tenant_id run) (er_output_ref result);
  match step_type step with
  | StepType_ROUTE => _ ← add_step (u "plan") StepType_PLAN (er_output_ref result); mret tt
  | StepType_PLAN =>
      _ ← persist_plan run payload;
      queries ← lift (list_at payload "queries");
      _ ← each (add_discovery_step run (er_output_ref result) payload) queries;
      match queries with
      | [] => maybe_synthesize step []
      | _ => mret tt
      end
  | StepType_DISCOVERY => _ ← persist_discovery run step payload; maybe_select step
  | StepType_SELECT =>
      selected ← lift (list_at payload "selected");
      _ ← each (add_fetch_step run payload) (enumerate 1 selected);
      match selected with
      | [] => maybe_synthesize step []
      | _ => mret tt
      end
  | StepType_FETCH =>
      _ ← persist_fetch run step payload;
      _ ← add_step (replace_first (u "fetch:") (u "extract:") (step_key step)) StepType_EXTRACT
            (er_output_ref result);
      mret tt
  | StepType_EXTRACT => _ ← persist_extract run step payload; maybe_verify step []
  | StepType_VERIFY => _ ← persist_verification run payload; maybe_synthesize step []
  | StepType_SYNTHESIZE =>
      _ ← persist_answer run payload;
      quality ← lift (str_at payload "quality");
      quality ← lift (enum_of AnswerQuality_value all_qualities quality);
      reason ← lift (str_at payload "stop_reason");
      reason ← lift (enum_of StopReason_value all_reasons reason);
      now ← clock_now;
      on_run (SearchRun_succeed quality reason now)
  | StepType_COMPLETE => mret tt
  end.

(** [@ src/sana/app/workflow_completion.py WorkflowCompletionCoordinator.on_failure] *)
Definition complete_failure (step : SearchStep) (error : TypedError) (disposition : ExecutionDisposition)
    : M Hk unit :=
  run ← the_run;
  if (disposition is Disposition_RETRY_SCHEDULED) || SearchRun_is_terminal run then mret tt else
  match step_type step with
  | StepType_ROUTE | StepType_PLAN | StepType_SYNTHESIZE => fail_run StopReason_INFRASTRUCTURE_FAILURE
  | StepType_DISCOVERY => maybe_select step
  | StepType_FETCH | StepType_EXTRACT => maybe_verify step [te_code error]
  | _ => maybe_synthesize step [te_code error]
  end.

(** The hook inside its transaction. The keys that are checked at the commit are checked when the
    hook returns: nothing that follows in the transaction touches those tables. *)
Definition run_hook (m : M Hk unit) (run : SearchRun) (d : Db) : res (Db * SearchRun) :=
  match m {| hk_db := d; hk_run := run; hk_tick := 0 |} with
  | (h, Ok _) =>
      if deferred_hold (tb_rows (db_tables (hk_db h))) then Ok (hk_db h, hk_run h)
      else Raise foreign_violation
  | (_, Raise e) => Raise e
  end.
End Coordinator.
