(* ===== verification/Conversation.v ===== *)
(** * Conversation: conversations, submissions and cancellations

    [ConversationService] of [sana/modules/conversation/domain.py], which turns a message into a
    response run, a search run and its first step in one transaction, and the create and cancel
    operations of [sana/app/api/services.py]. Identifiers and clock readings are arguments; the
    digest of a text is a parameter. *)

From Stdlib Require Import String.
From S2P Require Import Prelude Errors PyTime PyData Run Tables RunFacts Step Policy.
From S2P Require Import StepStore Repositories.

(** ** Values *)

Record SubmissionReceipt := {
  sr_message_id : UUID;
  sr_response_run_id : UUID;
  sr_search_run_id : UUID;
  sr_status : RunStatus;
  sr_duplicate : bool;
  sr_request_hash : option pystr
}.

Record SubmitMessageCommand := {
  sm_tenant_id : UUID;
  sm_user_id : UUID;
  sm_conversation_id : UUID;
  sm_content : pystr;
  sm_idempotency_key : pystr;
  sm_routing : RoutingDecision;
  sm_trace_context : TraceContext
}.

(** [1 <= len(key.strip()) <= 200] *)
Definition key_length_ok (key : pystr) : bool :=
  (1 <=? Z.of_nat (length (strip key))) && (Z.of_nat (length (strip key)) <=? 200).

(** [@ src/sana/modules/conversation/domain.py SubmitMessageCommand] *)
Definition SubmitMessageCommand_new (c : SubmitMessageCommand) : res SubmitMessageCommand :=
  _ ← fail_if (blank (sm_content c)) (ValueError "Message content cannot be empty");
  _ ← fail_if (negb (key_length_ok (sm_idempotency_key c)))
        (ValueError "Idempotency-Key must contain between 1 and 200 characters");
  Ok c.

(** The identifiers a submission draws, in order. *)
Record SubmissionIds := {
  si_message : UUID;
  si_response : UUID;
  si_run : UUID;
  si_step : UUID;
  si_outbox : UUID;
  si_event : UUID
}.

Section Service.
Context (sha256_utf8 : pystr -> pystr).

(** [@ src/sana/modules/conversation/domain.py normalized_content_sha256] *)
Definition normalized_content_sha256 (content : pystr) : res pystr :=
  let normalized := strip content in
  _ ← fail_if (bool_decide (normalized = [])) (ValueError "Message content cannot be empty");
  text_digest sha256_utf8 normalized.

(** ** Looking up a submission *)

(** The join of messages with their response runs and search runs. *)
Definition submission_rows (tenant_id conversation_id : UUID) (key : pystr) (d : Db)
    : list (Message * ResponseRun * SearchRun) :=
  m ← base.filter (fun m => ms_tenant_id m = tenant_id /\ ms_conversation_id m = conversation_id
                            /\ ms_idempotency_key m = Some key) (map_to_list (tb_messages (db_tables d))).*2;
  r ← base.filter (fun r => rp_tenant_id r = ms_tenant_id m /\ rp_message_id r = ms_id m)
        (map_to_list (tb_responses (db_tables d))).*2;
  run ← base.filter (fun x => run_tenant_id x = rp_tenant_id r /\ run_response_run_id x = rp_id r)
          (map_to_list (db_runs d)).*2;
  [(m, r, run)].

(** [@ src/sana/platform/db/repositories.py SqlConversationRepository.find_submission] *)
Definition find_submission (tenant_id conversation_id : UUID) (key : pystr) (d : Db)
    : res (option SubmissionReceipt) :=
  match submission_rows tenant_id conversation_id key d with
  | [] => Ok None
  | [(m, r, run)] =>
      request_hash ← normalized_content_sha256 (ms_content m);
      Ok (Some {| sr_message_id := ms_id m; sr_response_run_id := rp_id r; sr_search_run_id := run_id run;
                  sr_status := run_status run; sr_duplicate := false; sr_request_hash := Some request_hash |})
  | _ => Raise (DatabaseError "Multiple rows were found when one or none was required")
  end.

(** ** Submitting a message *)

(** [@ src/sana/modules/orchestration/events.py RunEventData] *)
Definition RunEventData_new (e : RunEvent) (created_at : datetime) : res RunEvent :=
  _ ← fail_if (ev_sequence e <? 1) (ValueError "Run event sequence must be positive");
  _ ← fail_if (blank (ev_type e)) (ValueError "Run event type cannot be empty");
  _ ← fail_if (negb (dt_aware created_at)) (ValueError "Run event timestamp must be timezone-aware");
  Ok e.

(** A run has one event of each number. *)
(** [@ src/sana/platform/db/repositories.py SqlRunEventRepository.add] *)
Definition events_add (e : RunEvent) : M Db unit :=
  d ← self;
  _ ← raise_if (existsb (fun x => (ev_run_id x =? ev_run_id e) && (ev_sequence x =? ev_sequence e)) (db_events d))
        unique_violation;
  update (fun d => set_events (db_events d ++ [e]) d).

(** The rows of a submission, from the command and what the service drew. *)
Definition draft_message (c : SubmitMessageCommand) (ids : SubmissionIds) (created_at : datetime) : Message :=
  {| ms_id := si_message ids; ms_tenant_id := sm_tenant_id c; ms_conversation_id := sm_conversation_id c;
     ms_author_user_id := Some (sm_user_id c); ms_role := Author_USER; ms_content := strip (sm_content c);
     ms_idempotency_key := Some (strip (sm_idempotency_key c)); ms_created_at := created_at |}.

Definition draft_response (c : SubmitMessageCommand) (ids : SubmissionIds) (created_at : datetime) : ResponseRun :=
  {| rp_id := si_response ids; rp_tenant_id := sm_tenant_id c; rp_conversation_id := sm_conversation_id c;
     rp_message_id := si_message ids; rp_status := Response_QUEUED; rp_output_message_id := None;
     rp_updated_at := created_at |}.

(** [created] is the time of the transaction. *)
(** [@ src/sana/modules/conversation/domain.py ConversationService.submit_message] *)
Definition submit_message (policy : SearchPolicy) (c : SubmitMessageCommand) (ids : SubmissionIds)
    (created_at : datetime) (created : Z) : M Db SubmissionReceipt :=
  _ ← raise_if (negb (bool_decide (rd_policy_version (sm_routing c) = sp_version policy)))
        (InvariantViolation_code "Routing decision uses a different search policy version" "policy_version_mismatch");
  let normalized_content := strip (sm_content c) in
  let normalized_key := strip (sm_idempotency_key c) in
  request_hash ← lift (normalized_content_sha256 normalized_content);
  transact (
  d ← self;
  _ ← raise_if (negb (lock_owned_by (sm_tenant_id c) (sm_conversation_id c) (sm_user_id c) d))
        (InvariantViolation_code "Conversation does not belong to the authenticated user" "conversation_not_found");
  existing ← lift (find_submission (sm_tenant_id c) (sm_conversation_id c) normalized_key d);
  match existing with
  | Some e =>
      _ ← raise_if (negb (bool_decide (sr_request_hash e = Some request_hash)))
            (InvariantViolation_code "Idempotency-Key was already used for different content" "idempotency_conflict");
      mret {| sr_message_id := sr_message_id e; sr_response_run_id := sr_response_run_id e;
              sr_search_run_id := sr_search_run_id e; sr_status := sr_status e; sr_duplicate := true;
              sr_request_hash := Some request_hash |}
  | None =>
      budget ← lift (SearchPolicy_snapshot policy (rd_mode (sm_routing c)) created_at);
      run ← lift (SearchRun_new (si_run ids) (sm_tenant_id c) (sm_conversation_id c) (si_message ids)
              (si_response ids) (sm_routing c) budget BudgetUsage_zero None None 0);
      input_ref ← lift (ArtifactRef_new (u "db://messages/" ++ str_of_uuid (si_message ids)) request_hash);
      step ← lift (SearchStep_new (si_step ids) (sm_tenant_id c) (si_run ids) (u "route") StepType_ROUTE 1
               input_ref None 0);
      let event_type := if rd_mode (sm_routing c) is SearchMode_FAST then u "STEP_READY_FAST"
                        else u "STEP_READY_RESEARCH" in
      message ← lift (OutboxMessage_new (step_message (si_outbox ids) (sm_tenant_id c) (si_step ids)
                  event_type (sm_trace_context c) created_at));
      event ← lift (RunEventData_new {| ev_run_id := si_run ids; ev_sequence := 1; ev_type := u "RUN_QUEUED" |}
                created_at);
      _ ← add_message (draft_message c ids created_at);
      _ ← responses_add (draft_response c ids created_at);
      _ ← runs_add run;
      _ ← steps_add created step;
      _ ← outbox_add message;
      _ ← events_add event;
      mret {| sr_message_id := si_message ids; sr_response_run_id := si_response ids;
              sr_search_run_id := si_run ids; sr_status := run_status run; sr_duplicate := false;
              sr_request_hash := Some request_hash |}
  end).

(** ** Creating a conversation *)

(** The unique key of a creation: tenant, user and key. *)
Definition same_creation (tenant_id user_id : UUID) (key : pystr) (c : Conversation) : bool :=
  (cv_tenant_id c =? tenant_id) && (cv_user_id c =? user_id)
  && match cv_creation c with Some (k, _) => bool_decide (k = key) | None => false end.

Definition find_creation (tenant_id user_id : UUID) (key : pystr) (d : Db) : option Conversation :=
  head (base.filter (fun c => same_creation tenant_id user_id key c = true)
          (map_to_list (tb_conversations (db_tables d))).*2).

(** The title of an untitled conversation, in Chinese: "new conversation". *)
Definition default_title : pystr := [26032; 20250; 35805].

(** [title.strip() or ...] and [key.strip() if key else None] *)
(** [@ src/sana/app/api/services.py DatabaseConversationCatalogService.create] *)
Definition create_conversation (tenant_id user_id new_id : UUID) (title : pystr) (key : option pystr)
    (now : datetime) : M Db Conversation :=
  let normalized_title := if blank title then default_title else strip title in
  let normalized_key := match key with Some k => if bool_decide (k = []) then None else Some (strip k) | None => None end in
  _ ← raise_if (match normalized_key with Some k => negb (key_length_ok k) | None => false end)
        (ValueError "Idempotency-Key must contain between 1 and 200 characters");
  creation ← lift (match normalized_key with
                   | Some k => h ← text_digest sha256_utf8 normalized_title; Ok (Some (k, h))
                   | None => Ok None
                   end);
  let row := {| cv_id := new_id; cv_tenant_id := tenant_id; cv_user_id := user_id; cv_title := normalized_title;
                cv_creation := creation; cv_created_at := now; cv_updated_at := now |} in
  transact (
  d ← self;
  let rows := tb_conversations (db_tables d) in
  _ ← raise_if (negb (fits (TVarchar 500) (CText normalized_title) && dt_aware now
                      && match normalized_key with Some k => fits (TVarchar 200) (CText k) | None => true end))
        value_error;
  match creation with
  | Some (k, request_hash) =>
      match find_creation tenant_id user_id k d with
      | Some existing =>
          _ ← raise_if (negb (bool_decide (snd <$> cv_creation existing = Some request_hash)))
                (InvariantViolation_code "Idempotency-Key was already used for a different title" "idempotency_conflict");
          mret existing
      | None =>
          _ ← raise_if (bool_decide (is_Some (rows !! new_id))) unique_violation;
          _ ← update_tables (set_conversations (<[new_id := row]> rows));
          mret row
      end
  | None =>
      _ ← raise_if (bool_decide (is_Some (rows !! new_id))) unique_violation;
      _ ← update_tables (set_conversations (<[new_id := row]> rows));
      mret row
  end).

(** ** Cancelling a run *)

(** [@ src/sana/app/api/services.py DatabaseRunApplicationService.cancel] *)
Definition cancel_run (tenant_id run_id : UUID) (now : datetime) : M Db (option SearchRun) := transact (
  found ← runs_get_for_update tenant_id run_id;
  match found with
  | None => mret None
  | Some run =>
      if SearchRun_is_terminal run then mret (Some run) else
      run ← call (SearchRun_cancel now) run;
      _ ← runs_save run;
      _ ← add_event run "RUN_CANCELLED";
      mret (Some run)
  end).
End Service.
