(* ===== verification/CompletionFacts.v ===== *)
(** * CompletionFacts: what the end of a step adds to its run

    The coordinator of Completion leaves every existing run, step, attempt and event alone, adds
    steps of the next stages with keys that were free, announces each in the outbox, and changes the
    run only by its methods. So it is a [CompletionHook] of the step store. The last section says which
    steps it adds, and that a run it leaves open has work left. *)

From Stdlib Require Import SpecFloat String.
From S2P Require Import Prelude Errors PyTime PyData Run Tables RunFacts Step StepFacts Policy.
From S2P Require Import Workflow StepStore StepStoreFacts Repositories Completion.

(** ** Inversion of the hook's calls *)

Lemma on_rows_ok_inv {A} (m : M Db A) h h' a : on_rows m h = (h', Ok a) ->
  m (hk_db h) = (hk_db h', Ok a) /\ hk_run h' = hk_run h.
Proof. unfold on_rows. destruct (m (hk_db h)) as [d r]. intros. by simplify_eq. Qed.

Lemma on_run_ok_inv m h h' a : on_run m h = (h', Ok a) ->
  m (hk_run h) = (hk_run h', Ok a) /\ hk_db h' = hk_db h.
Proof. unfold on_run. destruct (m (hk_run h)) as [d r]. intros. by simplify_eq. Qed.

Lemma the_run_ok_inv h h' r : the_run h = (h', Ok r) -> h' = h /\ r = hk_run h.
Proof. unfold the_run. intros. by simplify_eq. Qed.

Lemma the_db_ok_inv h h' d : the_db h = (h', Ok d) -> h' = h /\ d = hk_db h.
Proof. unfold the_db. intros. by simplify_eq. Qed.

(** ** What calls keep of the tables *)

Definition same_response (r r' : ResponseRun) : Prop :=
  rp_id r' = rp_id r /\ rp_tenant_id r' = rp_tenant_id r /\ rp_conversation_id r' = rp_conversation_id r /\
  rp_message_id r' = rp_message_id r.

(** Messages are keyed, and a key of a conversation names one message. *)
Definition messages_ok (rows : gmap Z Message) : Prop :=
  (forall i m, rows !! i = Some m -> ms_id m = i) /\
  (forall i j a b, rows !! i = Some a -> rows !! j = Some b -> same_message_key a b = true -> i = j).

(** Messages and the messages of the outbox stay as they are; response runs keep their identity,
    conversations their owner. *)
Record tables_keep (t t' : Tables) : Prop := {
  tk_messages i m : tb_messages t !! i = Some m -> tb_messages t' !! i = Some m;
  tk_unique : messages_ok (tb_messages t) -> messages_ok (tb_messages t');
  tk_responses i : match tb_responses t !! i, tb_responses t' !! i with
                   | Some r, Some r' => same_response r r'
                   | None, None => True
                   | _, _ => False
                   end;
  tk_outbox i e : tb_outbox t !! i = Some e -> exists e', tb_outbox t' !! i = Some e' /\ ob_message e' = ob_message e;
  tk_owner i c : tb_conversations t !! i = Some c -> exists c', tb_conversations t' !! i = Some c' /\
    cv_tenant_id c' = cv_tenant_id c /\ cv_user_id c' = cv_user_id c
}.

Lemma same_responses_refl (m : gmap Z ResponseRun) i : match m !! i, m !! i with
  | Some r, Some r' => same_response r r' | None, None => True | _, _ => False end.
Proof. by destruct (m !! i). Qed.

#[export] Instance tables_keep_preorder : PreOrder tables_keep.
Proof.
  split.
  - intros t. split; try done; [intros i; apply same_responses_refl|eauto|eauto].
  - intros a b c [A1 A2 A3 A4 A5] [B1 B2 B3 B4 B5]. split; auto.
    + intros i. specialize (A3 i). specialize (B3 i).
      destruct (tb_responses a !! i), (tb_responses b !! i), (tb_responses c !! i); try done.
      unfold same_response in *. intuition congruence.
    + intros i x (y & Hy & Y1)%A4. apply B4 in Hy as (z & Hz & Z1). exists z. split; [done|congruence].
    + intros i x (y & Hy & Y1 & Y2)%A5. apply B5 in Hy as (z & Hz & Z1 & Z2). exists z. ksplit; congruence.
Qed.

Lemma same_message_key_sym a b : same_message_key a b = same_message_key b a.
Proof.
  unfold same_message_key. rewrite (Z.eqb_sym (ms_tenant_id a)), (Z.eqb_sym (ms_conversation_id a)).
  destruct (ms_idempotency_key a) as [k|], (ms_idempotency_key b) as [l|]; simpl; rewrite ?andb_false_r; try done.
  f_equal. apply eq_true_iff_eq. rewrite !bool_decide_eq_true. naive_solver.
Qed.

Lemma message_insert_ok m rows : message_conflict m rows = false -> messages_ok rows ->
  rows !! ms_id m = None /\ messages_ok (<[ms_id m := m]> rows).
Proof.
  intros Hc [K U]. unfold message_conflict in Hc. bools.
  assert (rows !! ms_id m = None) as Hn by (by apply eq_None_not_Some).
  assert (forall i x, rows !! i = Some x -> same_message_key x m = false) as Hx.
  { intros i x Hi. match goal with Hx : existsb _ _ = false |- _ => by apply (existsb_values_false _ _ _ _ Hx Hi) end. }
  split; [done|]. split.
  - intros i x [[<- <-]|[_ Hi]]%lookup_insert_Some; [done|by apply K].
  - intros i j a b [[<- <-]|[Ni Hi]]%lookup_insert_Some [[<- <-]|[Nj Hj]]%lookup_insert_Some He; try done.
    + rewrite same_message_key_sym, (Hx j b Hj) in He. done.
    + rewrite (Hx i a Hi) in He. done.
    + by apply (U i j a b).
Qed.

(** ** Rows that a quiet call leaves alone *)

Record same_base (d d' : Db) : Prop := {
  sb_runs : db_runs d' = db_runs d;
  sb_steps : db_steps d' = db_steps d;
  sb_attempts : db_attempts d' = db_attempts d;
  sb_events : db_events d' = db_events d;
  sb_outbox : tb_outbox (db_tables d') = tb_outbox (db_tables d);
  sb_created : tb_created (db_tables d') = tb_created (db_tables d);
  sb_keep : tables_keep (db_tables d) (db_tables d')
}.

#[export] Instance same_base_preorder : PreOrder same_base.
Proof. split; [by intros d|]. intros a b c [] []. split; try congruence. by etransitivity. Qed.

Definition quiet {A} (m : M Hk A) : Prop := forall h h' a, m h = (h', Ok a) ->
  same_base (hk_db h) (hk_db h') /\ hk_run h' = hk_run h.

Section Quiet.
Lemma quiet_ret {A} (a : A) : quiet (mret a).
Proof. intros h h' b H. unfold mret, M_ret in H. by simplify_eq. Qed.
Lemma quiet_lift {A} (r : res A) : quiet (lift r).
Proof. intros h h' b H. unfold lift in H. by simplify_eq. Qed.
Lemma quiet_raise {A} e : quiet (raise (A := A) e).
Proof. intros h h' b H. discriminate. Qed.
Lemma quiet_raise_if b e : quiet (raise_if b e).
Proof. intros h h' x H. apply raise_if_ok_inv in H as [_ ->]. done. Qed.
Lemma quiet_ask {A} (f : nat -> A) : quiet (ask f).
Proof. intros h h' x H. unfold ask in H. by simplify_eq. Qed.
Lemma quiet_run : quiet the_run.
Proof. intros h h' x [-> _]%the_run_ok_inv. done. Qed.
Lemma quiet_db : quiet the_db.
Proof. intros h h' x [-> _]%the_db_ok_inv. done. Qed.

Lemma quiet_bind {A B} (m : M Hk A) (k : A -> M Hk B) : quiet m -> (forall a, quiet (k a)) -> quiet (m ≫= k).
Proof.
  intros Hm Hk h h' b H. apply bind_ok_inv in H as (h1 & a & E1 & E2).
  apply Hm in E1 as [E1 R1]. apply Hk in E2 as [E2 R2]. split; [by etransitivity|congruence].
Qed.

Lemma quiet_each {A} (body : A -> M Hk unit) l : (forall x, quiet (body x)) -> quiet (each body l).
Proof. intros Hb. induction l; simpl; [apply quiet_ret|]. apply quiet_bind; auto. Qed.

Lemma quiet_collect {A B} (body : A -> M Hk B) l : (forall x, quiet (body x)) -> quiet (collect body l).
Proof.
  intros Hb. induction l; simpl; [apply quiet_ret|]. apply quiet_bind; [done|]. intros y.
  apply quiet_bind; [done|]. intros. apply quiet_ret.
Qed.

Lemma quiet_evidence m : quiet (on_evidence m).
Proof.
  intros h h' a H. unfold on_evidence in H. apply on_rows_ok_inv in H as [H Hr].
  destruct (m (tb_rows (db_tables (hk_db h)))) as [rows r].
  split; [|done]. assert (hk_db h' = set_tables (set_rows rows (db_tables (hk_db h))) (hk_db h)) as -> by congruence.
  split; try done. split; try done; [intros i; apply same_responses_refl|eauto|eauto].
Qed.

Lemma quiet_rows {A} (m : M Db A) :
  (forall d d' a, m d = (d', Ok a) -> same_base d d') -> quiet (on_rows m).
Proof. intros Hm h h' a [H Hr]%on_rows_ok_inv. split; [by eapply Hm|done]. Qed.
End Quiet.

Create HintDb quiet.
#[export] Hint Resolve quiet_ret quiet_lift quiet_raise quiet_raise_if quiet_ask quiet_run quiet_db
  quiet_evidence : quiet.

(** [quietly] proves a method quiet that only asks, computes and writes evidence. *)
Ltac quietly :=
  repeat first
    [ solve [auto with quiet]
    | apply quiet_bind; [|intros ?]
    | apply quiet_each; intros ?
    | apply quiet_collect; intros ?
    | progress case_match
    | progress cbv zeta ].

Section Persist.
Context `{PyText} (uuid5 : UUID -> pystr -> UUID) (sha256_utf8 : pystr -> pystr) (env : HookEnv).

Lemma load_payload_quiet t r : quiet (load_payload env t r).
Proof. unfold load_payload. quietly. Qed.
Lemma put_json_quiet run v : quiet (put_json env run v).
Proof. unfold put_json. quietly. Qed.
#[local] Hint Resolve load_payload_quiet put_json_quiet : quiet.

Lemma plan_reference_quiet c : quiet (plan_reference c).
Proof. unfold plan_reference. quietly. Qed.
Lemma provider_failures_quiet run c rows : quiet (provider_failures env run c rows).
Proof. unfold provider_failures. quietly. Qed.
Lemma covered_early_quiet run p refs : quiet (covered_early env run p refs).
Proof. unfold covered_early. quietly. Qed.
Lemma put_row_quiet t cells : quiet (put_row t cells).
Proof. unfold put_row. quietly. Qed.
#[local] Hint Resolve put_row_quiet : quiet.

Lemma persist_plan_quiet run p : quiet (persist_plan run p).
Proof. unfold persist_plan, persist_fact, persist_query. quietly. Qed.
Lemma persist_discovery_quiet run s p : quiet (persist_discovery uuid5 sha256_utf8 env run s p).
Proof. unfold persist_discovery, persist_response, persist_hit, clock_now. quietly. Qed.
Lemma persist_fetch_quiet run s p : quiet (persist_fetch uuid5 sha256_utf8 run s p).
Proof. unfold persist_fetch. quietly. Qed.
Lemma persist_extract_quiet run s p : quiet (persist_extract uuid5 env run s p).
Proof.
  unfold persist_extract, persist_document, persist_version, persist_chunk, clock_now. quietly.
Qed.
Lemma persist_verification_quiet run p : quiet (persist_verification run p).
Proof. unfold persist_verification, persist_evidence, assess_fact. quietly. Qed.

Lemma message_insert_quiet m : quiet (on_rows (message_insert_ignore m)).
Proof.
  apply quiet_rows. intros d d' a Hm. unfold message_insert_ignore, update_tables in Hm. minv.
  destruct (message_conflict _ _) eqn:Ec; minv; [done|]. split; try done. split; try done; simpl.
  - intros i x Hi. rewrite lookup_insert_ne; [done|]. intros <-.
    unfold message_conflict in Ec. bools. destruct H0. by rewrite Hi.
  - intros Hok. by apply message_insert_ok.
  - intros i. apply same_responses_refl.
  - eauto.
  - eauto.
Qed.
Lemma response_update_quiet run st o now : quiet (on_rows (response_update run st o now)).
Proof.
  apply quiet_rows. intros d d' a Hm. unfold response_update, update_tables in Hm. minv.
  destruct (tb_responses _ !! _) as [row|] eqn:Er; [|by minv]. destruct (negb _); [by minv|]. minv.
  split; try done. split; try done; simpl; [|eauto|eauto].
  intros i. destruct (decide (i = run_response_run_id run)) as [->|Hne].
  - by rewrite Er, lookup_insert_eq.
  - rewrite lookup_insert_ne by done. apply same_responses_refl.
Qed.
Lemma conversation_touch_quiet run now : quiet (on_rows (conversation_touch run now)).
Proof.
  apply quiet_rows. intros d d' a Hm. unfold conversation_touch, update_tables in Hm. minv.
  destruct (tb_conversations _ !! _) as [row|] eqn:Er; [|by minv]. destruct (negb _); [by minv|]. minv.
  split; try done. split; try done; simpl; [intros i; apply same_responses_refl|eauto|].
  intros i x Hi. destruct (decide (i = run_conversation_id run)) as [->|Hne].
  - rewrite lookup_insert_eq. eexists. split; [reflexivity|]. simplify_eq. done.
  - rewrite lookup_insert_ne by done. eauto.
Qed.
#[local] Hint Resolve message_insert_quiet response_update_quiet conversation_touch_quiet : quiet.

Lemma persist_answer_quiet run p : quiet (persist_answer uuid5 env run p).
Proof. unfold persist_answer, persist_claim, persist_citation, clock_now. quietly. Qed.
End Persist.

#[export] Hint Resolve load_payload_quiet put_json_quiet put_row_quiet plan_reference_quiet
  provider_failures_quiet covered_early_quiet persist_plan_quiet persist_discovery_quiet
  persist_fetch_quiet persist_extract_quiet persist_verification_quiet persist_answer_quiet
  message_insert_quiet response_update_quiet conversation_touch_quiet : quiet.

(** ** Adding a step *)

(** The step the coordinator makes for a run. *)
Definition fresh_step (run : SearchRun) (s : SearchStep) : Prop :=
  step_tenant_id s = run_tenant_id run /\ step_run_id s = run_id run /\ step_plan_revision s = 1 /\
  step_status s = StepStatus_READY /\ step_output_ref s = None /\ step_retry_at s = None /\ step_loadable s.

(** The outbox message that announces a step. *)
Definition announces (s : SearchStep) (e : OutboxEvent) : Prop :=
  om_tenant_id (ob_message e) = step_tenant_id s /\ om_aggregate_id (ob_message e) = step_id s /\
  om_payload (ob_message e) = [(u "step_id", str_of_uuid (step_id s))] /\
  om_dedupe_key (ob_message e) = u "step-ready:" ++ str_of_uuid (step_id s).

(** One new step with its message. *)
Record added (s : SearchStep) (d d' : Db) : Prop := {
  ad_new : db_steps d !! step_id s = None;
  ad_key i row : db_steps d !! i = Some row -> step_run_id row = step_run_id s ->
    step_plan_revision row = step_plan_revision s -> step_key row <> step_key s;
  ad_steps : db_steps d' = <[step_id s := s]> (db_steps d);
  ad_runs : db_runs d' = db_runs d;
  ad_attempts : db_attempts d' = db_attempts d;
  ad_events : db_events d' = db_events d;
  ad_outbox : exists e, announces s e /\ tb_outbox (db_tables d) !! om_id (ob_message e) = None /\
    tb_outbox (db_tables d') = <[om_id (ob_message e) := e]> (tb_outbox (db_tables d));
  ad_keep : tables_keep (db_tables d) (db_tables d')
}.

Lemma steps_of_elem run d s : s ∈ steps_of run d <->
  step_tenant_id s = run_tenant_id run /\ step_run_id s = run_id run /\ exists i, db_steps d !! i = Some s.
Proof.
  unfold steps_of. rewrite list_elem_of_filter, list_elem_of_fmap. split.
  - intros [[H1 H2] ([i x] & -> & Hi)]. apply elem_of_map_to_list in Hi. simpl in *. eauto.
  - intros (H1 & H2 & i & Hi). split; [done|]. exists (i, s). split; [done|]. by apply elem_of_map_to_list.
Qed.

Lemma step_rows_elem run d s : s ∈ step_rows run d <-> s ∈ steps_of run d.
Proof. unfold step_rows. by rewrite py_sorted_perm. Qed.

Lemma of_type_elem t rows s : s ∈ of_type t rows <-> step_type s = t /\ s ∈ rows.
Proof. unfold of_type. rewrite list_elem_of_filter; done. Qed.

Lemma SearchStep_new_ok_inv id t r key ty rev ref s : SearchStep_new id t r key ty rev ref None 0 = Ok s ->
  step_id s = id /\ step_tenant_id s = t /\ step_run_id s = r /\ step_key s = key /\ step_type s = ty /\
  step_plan_revision s = rev /\ step_status s = StepStatus_READY /\ step_output_ref s = None /\
  step_retry_at s = None /\ step_loadable s.
Proof.
  unfold SearchStep_new. intros H. minv. bools. unfold step_loadable. simpl. ksplit.
Qed.

Lemma OutboxMessage_new_ok_inv m m' : OutboxMessage_new m = Ok m' -> m' = m.
Proof. unfold OutboxMessage_new. intros H. by minv. Qed.

Lemma add_step_ok_inv env key t ref h h' b : add_step env key t ref h = (h', Ok b) ->
  hk_run h' = hk_run h /\
  ((b = false /\ hk_db h' = hk_db h /\
    exists s, s ∈ steps_of (hk_run h) (hk_db h) /\ step_plan_revision s = 1 /\ step_key s = key) \/
   (b = true /\ exists s, fresh_step (hk_run h) s /\ step_key s = key /\ step_type s = t /\
      added s (hk_db h) (hk_db h'))).
Proof.
  unfold add_step, new_uuid, clock_now. intros H. minv.
  apply the_run_ok_inv in E as [-> ->]. apply the_db_ok_inv in E0 as [-> ->].
  destruct (existsb _ (steps_of _ _)) eqn:Ex.
  - minv. split; [done|]. left. split; [done|]. split; [done|].
    apply existsb_exists in Ex as (s & Hs & Hb). bools. exists s. by apply list_elem_of_In in Hs.
  - minv. repeat match goal with Ha : ask _ _ = (_, Ok _) |- _ => unfold ask in Ha; simplify_eq end.
    repeat match goal with Ho : on_rows _ _ = (_, Ok _) |- _ => apply on_rows_ok_inv in Ho as [Ho ?] end.
    simpl in *.
    match goal with Hn : SearchStep_new _ _ _ _ _ _ _ _ _ = Ok _ |- _ =>
      apply SearchStep_new_ok_inv in Hn as (N1 & N2 & N3 & N4 & N5 & N6 & N7 & N8 & N9 & N10) end.
    match goal with Hm : OutboxMessage_new _ = Ok _ |- _ => apply OutboxMessage_new_ok_inv in Hm as -> end.
    match goal with Ha : steps_add _ _ _ = _ |- _ => apply steps_add_ok_inv in Ha as (A1 & A2 & A3) end.
    match goal with Ha : outbox_add _ _ = _ |- _ => apply outbox_add_ok_inv in Ha as (B1 & e & B2 & B3 & B4) end.
    split; [congruence|]. right. split; [done|].
    match goal with Ha : hk_db _ = set_tables (set_created _ _) (set_steps (<[step_id ?x := ?x]> _) _) |- _ =>
      exists x end.
    split; [done|]. split; [done|]. split; [done|].
    split; try done; rewrite ?B4, ?A3; try done.
    + exists e. unfold announces. rewrite B2, N1, N2.
      cbn [om_id om_tenant_id om_aggregate_id om_payload om_dedupe_key step_message]. rewrite A3 in B1.
      split; [done|]. split; [exact B1|done].
    + rewrite A3 in B1. split; try done; [intros i; apply same_responses_refl| |eauto].
      intros i x Hi. simpl in B1 |- *. exists x. rewrite lookup_insert_ne; [done|]. intros E. rewrite E in B1. congruence.
Qed.

(** ** Growing a run *)

(** The key of a step tells its type. *)
Definition key_for (t : StepType) (key : pystr) : Prop :=
  match t with
  | StepType_ROUTE => key = u "route"
  | StepType_PLAN => key = u "plan"
  | StepType_DISCOVERY => exists x, key = u "discover:" ++ x
  | StepType_SELECT => key = u "select"
  | StepType_FETCH => exists x, key = u "fetch:" ++ x
  | StepType_EXTRACT => exists x, key = u "extract:" ++ x
  | StepType_VERIFY => key = u "verify"
  | StepType_SYNTHESIZE => key = u "synthesize"
  | StepType_COMPLETE => False
  end.

Lemma key_for_inj t t' key : key_for t key -> key_for t' key -> t = t'.
Proof.
  destruct t, t'; simpl; intros H H'; try done; exfalso;
    repeat match goal with H : exists _, _ |- _ => destruct H as [? H] end;
    rewrite H' in H; vm_compute in H; discriminate H.
Qed.

Lemma fetch_to_extract x : replace_first (u "fetch:") (u "extract:") (u "fetch:" ++ x) = u "extract:" ++ x.
Proof. done. Qed.

(** What may follow a step. *)
Definition successor (t t' : StepType) : bool :=
  match t, t' with
  | StepType_ROUTE, StepType_PLAN => true
  | StepType_PLAN, (StepType_DISCOVERY | StepType_SYNTHESIZE) => true
  | StepType_DISCOVERY, StepType_SELECT => true
  | StepType_SELECT, (StepType_FETCH | StepType_SYNTHESIZE) => true
  | StepType_FETCH, (StepType_EXTRACT | StepType_VERIFY | StepType_SYNTHESIZE) => true
  | StepType_EXTRACT, (StepType_VERIFY | StepType_SYNTHESIZE) => true
  | StepType_VERIFY, StepType_SYNTHESIZE => true
  | _, _ => false
  end.

Section Growth.
Context (run : SearchRun).

Section Rel.
Context (P : pystr -> StepType -> Prop).

Definition grow1 (d d' : Db) : Prop :=
  same_base d d' \/ exists s, fresh_step run s /\ P (step_key s) (step_type s) /\ added s d d'.

Definition grows : Db -> Db -> Prop := star grow1.

Lemma grows_trans a b c : grows a b -> grows b c -> grows a c.
Proof. apply star_trans. Qed.

Lemma same_base_grows a b : same_base a b -> grows a b.
Proof. intros Hb. eapply star_step; [by left|constructor]. Qed.

Lemma grow1_new d d' i s : grow1 d d' -> db_steps d' !! i = Some s ->
  db_steps d !! i = Some s \/
  (db_steps d !! i = None /\ step_id s = i /\ fresh_step run s /\ P (step_key s) (step_type s)).
Proof.
  intros [Hb|(x & Hf & HP & Ha)] Hi; [left; by rewrite <- (sb_steps _ _ Hb)|].
  rewrite (ad_steps _ _ _ Ha) in Hi. apply lookup_insert_Some in Hi as [[<- <-]|[_ Hi]]; [right|by left].
  ksplit. apply Ha.
Qed.

Lemma grow1_keep d d' i s : grow1 d d' -> db_steps d !! i = Some s -> db_steps d' !! i = Some s.
Proof.
  intros [Hb|(x & Hf & HP & Ha)] Hi; [by rewrite (sb_steps _ _ Hb)|].
  rewrite (ad_steps _ _ _ Ha), lookup_insert_ne; [done|]. intros <-.
  rewrite (ad_new _ _ _ Ha) in Hi. done.
Qed.

Lemma grows_keep d d' i s : grows d d' -> db_steps d !! i = Some s -> db_steps d' !! i = Some s.
Proof. induction 1; [done|]. eauto using grow1_keep. Qed.

Lemma grows_new d d' i s : grows d d' -> db_steps d' !! i = Some s ->
  db_steps d !! i = Some s \/
  (db_steps d !! i = None /\ step_id s = i /\ fresh_step run s /\ P (step_key s) (step_type s)).
Proof.
  intros Hg Hi. induction Hg as [d|d d1 d' H1 Hg IH]; [by left|]. destruct (IH Hi) as [Hd|(Hn & ? & ? & ?)].
  - by apply (grow1_new _ _ _ _ H1).
  - right. ksplit. destruct (db_steps d !! i) eqn:E; [|done]. by rewrite (grow1_keep _ _ _ _ H1 E) in Hn.
Qed.

Lemma grow1_rest d d' : grow1 d d' ->
  db_runs d' = db_runs d /\ db_attempts d' = db_attempts d /\ db_events d' = db_events d.
Proof. intros [[]|(x & _ & _ & [])]; done. Qed.

Lemma grows_rest d d' : grows d d' ->
  db_runs d' = db_runs d /\ db_attempts d' = db_attempts d /\ db_events d' = db_events d.
Proof.
  induction 1 as [d|d d1 d' H1 _ (I1 & I2 & I3)]; [done|]. apply grow1_rest in H1 as (R1 & R2 & R3).
  ksplit; congruence.
Qed.

Lemma grows_adds_only d d' : grows d d' -> hook_adds_only d d'.
Proof.
  intros Hg. destruct (grows_rest _ _ Hg) as (H1 & H2 & H3). unfold hook_adds_only. ksplit.
  - intros i s. by apply grows_keep.
  - intros i s Hi Hn. destruct (grows_new _ _ _ _ Hg Hi) as [Hd|(_ & ? & Hf & _)]; [congruence|].
    ksplit; apply Hf.
Qed.
End Rel.

Lemma grows_mono (P Q : pystr -> StepType -> Prop) d d' : (forall k t, P k t -> Q k t) -> grows P d d' -> grows Q d d'.
Proof.
  intros HPQ. induction 1 as [|d d1 d' H1 Hg IH]; [constructor|]. econstructor; [|done].
  destruct H1 as [|(x & ? & ? & ?)]; [by left|right; eauto].
Qed.

(** Unfinished work of the run, with the current step in its new status. *)
Definition live (current : SearchStep) (d : Db) : Prop :=
  exists s, s ∈ steps_of run d /\ ended current s = false.

(** A key the coordinator wanted was taken. *)
Definition clash (P : pystr -> StepType -> Prop) (d : Db) : Prop :=
  exists key t s, P key t /\ s ∈ steps_of run d /\ step_plan_revision s = 1 /\ step_key s = key.

Lemma steps_of_same d d' : same_base d d' -> steps_of run d' = steps_of run d.
Proof. intros []. unfold steps_of. by rewrite sb_steps0. Qed.

Lemma grows_live P current d d' : grows P d d' -> live current d -> live current d'.
Proof.
  intros Hg (s & Hs & He). apply steps_of_elem in Hs as (H1 & H2 & i & Hi).
  exists s. split; [|done]. apply steps_of_elem. ksplit. exists i. by eapply grows_keep.
Qed.

Lemma new_live P current d d' i s : grows P d d' -> is_Some (db_steps d !! step_id current) ->
  db_steps d' !! i = Some s -> db_steps d !! i = None -> live current d'.
Proof.
  intros Hg Hc Hi Hn. destruct (grows_new _ _ _ _ _ Hg Hi) as [?|(_ & Hid & Hf & _)]; [congruence|].
  exists s. split; [apply steps_of_elem; split; [apply Hf|]; split; [apply Hf|by exists i]|].
  unfold ended, current_status. rewrite Hid. destruct (Z.eqb_spec i (step_id current)) as [->|_].
  - destruct Hc. congruence.
  - assert (step_status s = StepStatus_READY) as -> by apply Hf. done.
Qed.

Lemma clash_back P current d d1 : grows P d d1 -> is_Some (db_steps d !! step_id current) ->
  clash P d1 -> clash P d \/ live current d1.
Proof.
  intros Hg Hc (key & t & s & HP & Hs & Hr & Hk). apply steps_of_elem in Hs as (H1 & H2 & i & Hi).
  destruct (grows_new _ _ _ _ _ Hg Hi) as [Hd|(Hn & _)].
  - left. exists key, t, s. ksplit. apply steps_of_elem. eauto.
  - right. by eapply new_live.
Qed.
End Growth.

(** ** The coordinator as a completion hook *)

Lemma hook_adds_only_trans a b c : hook_adds_only a b -> hook_adds_only b c -> hook_adds_only a c.
Proof.
  intros (A1 & A2 & A3 & A4 & A5) (B1 & B2 & B3 & B4 & B5). unfold hook_adds_only. ksplit; try congruence; [auto|].
  intros i s Hi Hn. destruct (db_steps b !! i) as [t|] eqn:E; [|by apply B5].
  pose proof (B4 i t E) as Ht. rewrite Hi in Ht. simplify_eq. by apply A5.
Qed.

Lemma same_base_adds d d' : same_base d d' -> hook_adds_only d d'.
Proof. intros []. unfold hook_adds_only. rewrite sb_steps0. ksplit; auto; congruence. Qed.

Lemma added_adds run s d d' : fresh_step run s -> added s d d' -> hook_adds_only d d'.
Proof.
  intros Hf Ha. apply (grows_adds_only run (fun _ _ => True)). eapply star_step; [|constructor].
  right. by exists s.
Qed.

Definition lawful {A} (m : M Hk A) : Prop := forall h h' a, m h = (h', Ok a) ->
  hook_adds_only (hk_db h) (hk_db h') /\ tables_keep (db_tables (hk_db h)) (db_tables (hk_db h')) /\
  star run_step (hk_run h) (hk_run h') /\ run_kept (hk_run h) (hk_run h').

Section Lawful.
Lemma quiet_lawful {A} (m : M Hk A) : quiet m -> lawful m.
Proof. intros Hm h h' a [Hb ->]%Hm. split; [by apply same_base_adds|]. split; [apply Hb|split; [constructor|done]]. Qed.

Lemma lawful_bind {A B} (m : M Hk A) (k : A -> M Hk B) : lawful m -> (forall a, lawful (k a)) -> lawful (m ≫= k).
Proof.
  intros Hm Hk h h' b H. apply bind_ok_inv in H as (h1 & a & E1 & E2).
  apply Hm in E1 as (A1 & T1 & R1 & K1). apply Hk in E2 as (A2 & T2 & R2 & K2).
  split; [by eapply hook_adds_only_trans|]. split; [by etransitivity|]. split; [by eapply star_trans|by etransitivity].
Qed.

Lemma lawful_each {A} (body : A -> M Hk unit) l : (forall x, lawful (body x)) -> lawful (each body l).
Proof.
  intros Hb. induction l; simpl; [apply quiet_lawful, quiet_ret|]. apply lawful_bind; auto.
Qed.

(** A method of the run that leaves its metered usage alone. *)
Lemma lawful_on_run op : (forall r r', run_exec op r = (r', Ok tt) -> run_kept r r') -> lawful (on_run (run_exec op)).
Proof.
  intros Hop h h' [] [H Hd]%on_run_ok_inv. rewrite Hd. split; [by apply same_base_adds|]. split; [done|].
  split; [eapply star_step; [by exists op|constructor]|by apply Hop].
Qed.

Context (env : HookEnv).

Lemma add_step_lawful key t ref : lawful (add_step env key t ref).
Proof.
  intros h h' b H. apply add_step_ok_inv in H as (-> & [(_ & -> & _)|(_ & s & Hf & _ & _ & Ha)]);
    (split; [|split; [|split; [constructor|done]]]); [by apply same_base_adds|done|by eapply added_adds|apply Ha].
Qed.
End Lawful.

Create HintDb lawful.
#[export] Hint Resolve add_step_lawful : lawful.

(** [lawfully] is [quietly] for methods that also add steps and call methods of the run. *)
Ltac lawfully :=
  repeat first
    [ apply quiet_lawful; solve [auto with quiet]
    | solve [auto with lawful]
    | apply (lawful_on_run (RunSucceed _ _ _)); apply kept_succeed
    | apply (lawful_on_run (RunFail _ _)); apply kept_fail
    | apply lawful_bind; [|intros ?]
    | apply lawful_each; intros ?
    | progress case_match
    | progress cbv zeta ].

Section Hook.
Context `{PyText} (uuid5 : UUID -> pystr -> UUID) (sha256_utf8 : pystr -> pystr) (env : HookEnv).

Lemma maybe_synthesize_lawful current codes : lawful (maybe_synthesize env current codes).
Proof. unfold maybe_synthesize. lawfully. Qed.
#[local] Hint Resolve maybe_synthesize_lawful : lawful.
Lemma maybe_select_lawful current : lawful (maybe_select env current).
Proof. unfold maybe_select. lawfully. Qed.
Lemma maybe_verify_lawful current codes : lawful (maybe_verify env current codes).
Proof. unfold maybe_verify. lawfully. Qed.
Lemma fail_run_lawful reason : lawful (fail_run env reason).
Proof. unfold fail_run, clock_now. lawfully. Qed.
#[local] Hint Resolve maybe_select_lawful maybe_verify_lawful fail_run_lawful : lawful.

Lemma complete_success_lawful step result : lawful (complete_success uuid5 sha256_utf8 env step result).
Proof.
  unfold complete_success, add_discovery_step, add_fetch_step, clock_now. lawfully.
Qed.

Lemma complete_failure_lawful step error disposition : lawful (complete_failure env step error disposition).
Proof. unfold complete_failure. lawfully. Qed.

Lemma run_hook_ok_inv (m : M Hk unit) run d d' run' : run_hook m run d = Ok (d', run') ->
  exists h' x, m {| hk_db := d; hk_run := run; hk_tick := 0 |} = (h', Ok x) /\ hk_db h' = d' /\ hk_run h' = run'.
Proof.
  unfold run_hook. destruct (m _) as [h' [x|e]]; [|done]. destruct (deferred_hold _); [|done].
  intros. simplify_eq. eauto.
Qed.

Lemma run_hook_lawful m run d d' run' : lawful m -> run_hook m run d = Ok (d', run') ->
  hook_adds_only d d' /\ star run_step run run'.
Proof. intros Hm (h' & x & E & <- & <-)%run_hook_ok_inv. by apply Hm in E as (? & _ & ? & _). Qed.

Lemma run_hook_keeps m run d d' run' : lawful m -> run_hook m run d = Ok (d', run') ->
  tables_keep (db_tables d) (db_tables d').
Proof. intros Hm (h' & x & E & <- & <-)%run_hook_ok_inv. by apply Hm in E as (_ & ? & _). Qed.

Lemma run_hook_kept m run d d' run' : lawful m -> run_hook m run d = Ok (d', run') -> run_kept run run'.
Proof. intros Hm (h' & x & E & <- & <-)%run_hook_ok_inv. by apply Hm in E as (_ & _ & _ & ?). Qed.

(** The step store with the coordinator as its hook. *)
Definition coordinator : CompletionHook := {|
  on_success run step result := run_hook (complete_success uuid5 sha256_utf8 env step result) run;
  on_failure run step error disposition := run_hook (complete_failure env step error disposition) run;
  on_success_rows run step result d d' run' :=
    run_hook_lawful _ run d d' run' (complete_success_lawful step result);
  on_failure_rows run step error disposition d d' run' :=
    run_hook_lawful _ run d d' run' (complete_failure_lawful step error disposition)
|}.
End Hook.

(** ** Which steps it adds, and that work is left *)

Lemma forallb_false {A} (p : A -> bool) l : forallb p l = false -> existsb (fun x => negb (p x)) l = true.
Proof. induction l as [|x l IH]; simpl; [done|]. destruct (p x); simpl; auto. Qed.

Section Outcome.
Context `{PyText} (env : HookEnv) (run : SearchRun) (current row0 : SearchStep) (d0 : Db).
Context (Hid : step_id row0 = step_id current) (Hrow : db_steps d0 !! step_id current = Some row0).
Context (Htype : step_type row0 = step_type current) (Hkey : step_key row0 = step_key current).
Context (Htenant : step_tenant_id row0 = run_tenant_id run) (Hrun : step_run_id row0 = run_id run).

(** The keys and types that may follow the current step in these rows; a call of the hook adds
    steps of one type [T] only. *)
Record may_add (T : StepType) (key : pystr) (t : StepType) : Prop := {
  ma_type : t = T;
  ma_key : key_for t key;
  ma_next : successor (step_type current) t = true;
  ma_select s : t = StepType_SELECT -> s ∈ steps_of run d0 -> step_type s = StepType_DISCOVERY ->
    ended current s = true;
  ma_extract : t = StepType_EXTRACT -> exists x, step_key current = u "fetch:" ++ x /\ key = u "extract:" ++ x;
  ma_verify s : t = StepType_VERIFY -> s ∈ steps_of run d0 -> step_type s <> StepType_VERIFY;
  ma_synthesize s : t = StepType_SYNTHESIZE -> s ∈ steps_of run d0 -> step_type s <> StepType_SYNTHESIZE ->
    ended current s = true
}.

(** What a call of the hook has done: it added such steps, and either the run has unfinished work,
    or a key was taken before. *)
Definition outcome (T : StepType) (d d' : Db) : Prop :=
  grows run (may_add T) d d' /\ (live run current d' \/ clash run (may_add T) d).

(** A method that adds steps and leaves the aggregate. *)
Definition growing (T : StepType) {A} (m : M Hk A) : Prop := forall h h' a, m h = (h', Ok a) -> hk_run h = run ->
  hk_run h' = run /\ grows run (may_add T) (hk_db h) (hk_db h').

Definition at_start (h : Hk) : Prop := hk_run h = run /\ same_base d0 (hk_db h).

Definition working_as (T : StepType) {A} (m : M Hk A) : Prop := forall h h' a, m h = (h', Ok a) -> at_start h ->
  hk_run h' = run /\ outcome T (hk_db h) (hk_db h').

Definition working {A} (m : M Hk A) : Prop := forall h h' a, m h = (h', Ok a) -> at_start h ->
  exists T, hk_run h' = run /\ outcome T (hk_db h) (hk_db h').

Lemma working_as_working T {A} (m : M Hk A) : working_as T m -> working m.
Proof. intros Hm h h' a E Hs. exists T. by eapply Hm. Qed.

Lemma quiet_growing T {A} (m : M Hk A) : quiet m -> growing T m.
Proof.
  intros Hm h h' a [Hb ->]%Hm Hr. split; [done|]. by apply same_base_grows.
Qed.

Lemma growing_bind T {A B} (m : M Hk A) (k : A -> M Hk B) :
  growing T m -> (forall a, growing T (k a)) -> growing T (m ≫= k).
Proof.
  intros Hm Hk h h' b Hb Hr. apply bind_ok_inv in Hb as (h1 & a & E1 & E2).
  apply Hm in E1 as [R1 G1]; [done|]. apply Hk in E2 as [R2 G2]; [done|].
  split; [done|by eapply grows_trans].
Qed.

Lemma growing_each T {A} (body : A -> M Hk unit) l : (forall x, growing T (body x)) -> growing T (each body l).
Proof.
  intros Hb. induction l; simpl; [apply quiet_growing, quiet_ret|]. apply growing_bind; auto.
Qed.

Lemma outcome_quiet T d d1 d' : same_base d d1 -> outcome T d1 d' -> outcome T d d'.
Proof.
  intros Hb [G O]. split; [by eapply grows_trans; [apply same_base_grows|]|]. destruct O as [|Hc]; [by left|right].
  destruct Hc as (key & t & s & HP & Hs' & Hv & Hk'). exists key, t, s. ksplit.
  by rewrite (steps_of_same _ _ _ Hb) in Hs'.
Qed.

Lemma working_quiet_bind {A B} (m : M Hk A) (k : A -> M Hk B) :
  quiet m -> (forall a, working (k a)) -> working (m ≫= k).
Proof.
  intros Hm Hk h h' b Hb [Hr Hs]. apply bind_ok_inv in Hb as (h1 & a & E1 & E2).
  apply Hm in E1 as [B1 R1]. destruct (Hk a _ _ _ E2) as (T & R2 & O2).
  - split; [congruence|]. by etransitivity.
  - exists T. split; [done|]. by eapply outcome_quiet.
Qed.

Lemma working_as_quiet_bind T {A B} (m : M Hk A) (k : A -> M Hk B) :
  quiet m -> (forall a, working_as T (k a)) -> working_as T (m ≫= k).
Proof.
  intros Hm Hk h h' b Hb [Hr Hs]. apply bind_ok_inv in Hb as (h1 & a & E1 & E2).
  apply Hm in E1 as [B1 R1]. destruct (Hk a _ _ _ E2) as [R2 O2].
  - split; [congruence|]. by etransitivity.
  - split; [done|]. by eapply outcome_quiet.
Qed.

Lemma working_run {A} (k : SearchRun -> M Hk A) : working (k run) -> working (the_run ≫= k).
Proof.
  intros Hk h h' a Hm Hs. apply bind_ok_inv in Hm as (h1 & r & E1 & E2).
  apply the_run_ok_inv in E1 as [-> ->]. rewrite (proj1 Hs) in E2. by eapply Hk.
Qed.

Lemma working_ret {A B} (x : A) (k : A -> M Hk B) : working (k x) -> working (mret x ≫= k).
Proof. done. Qed.

Lemma working_db {A} (k : Db -> M Hk A) : (forall d, same_base d0 d -> working (k d)) -> working (the_db ≫= k).
Proof.
  intros Hk h h' a Hm Hs. apply bind_ok_inv in Hm as (h1 & d & E1 & E2).
  apply the_db_ok_inv in E1 as [-> ->]. by eapply Hk; [apply Hs| |].
Qed.

Lemma working_as_bind T {A B} (m : M Hk A) (k : A -> M Hk B) :
  working_as T m -> (forall a, growing T (k a)) -> working_as T (m ≫= k).
Proof.
  intros Hm Hk h h' b Hb Hs. apply bind_ok_inv in Hb as (h1 & a & E1 & E2).
  apply Hm in E1 as [R1 [G1 O1]]; [done|]. apply Hk in E2 as [R2 G2]; [done|].
  split; [done|]. split; [by eapply grows_trans|]. destruct O1; [left|by right]. by eapply grows_live.
Qed.

Lemma row0_elem : row0 ∈ steps_of run d0.
Proof using Hrow Htenant Hrun. apply steps_of_elem. eauto. Qed.

Lemma working_live {A} (m : M Hk A) s : s ∈ steps_of run d0 -> ended current s = false -> quiet m -> working m.
Proof.
  intros Hs He Hm h h' a E [Hr Hb]. apply (quiet_growing StepType_ROUTE) in Hm. apply Hm in E as [R G]; [done|].
  exists StepType_ROUTE. split; [done|]. split; [done|].
  left. eapply grows_live; [done|]. exists s. by rewrite (steps_of_same _ _ _ Hb).
Qed.

Lemma add_step_growing T key t ref : may_add T key t -> growing T (add_step env key t ref).
Proof.
  intros HP h h' b E Hr. apply add_step_ok_inv in E as (Hr' & [(_ & -> & _)|(_ & s & Hf & <- & <- & Ha)]).
  - split; [congruence|]. by apply same_base_grows.
  - split; [congruence|]. eapply star_step; [|constructor]. right. exists s. by rewrite Hr in Hf.
Qed.

Lemma add_step_working T key t ref : may_add T key t -> working_as T (add_step env key t ref).
Proof using Hrow.
  intros HP h h' b E [Hr Hb]. pose proof (add_step_growing _ _ _ _ HP _ _ _ E Hr) as [R G]. split; [done|].
  split; [done|]. apply add_step_ok_inv in E as (_ & [(_ & Ed & s & Hs & Hv & Hk)|(_ & s & Hf & _ & _ & Ha)]).
  - right. exists key, t, s. by rewrite Hr in Hs.
  - left. eapply (new_live _ _ _ _ _ (step_id s) s G).
    + rewrite (sb_steps _ _ Hb), Hrow. done.
    + by rewrite (ad_steps _ _ _ Ha), lookup_insert_eq.
    + apply Ha.
Qed.

(** [working_bind]s through the calls that only read and store. *)
Ltac work := repeat first
  [ apply working_run
  | apply working_db; let d := fresh "d" in let Hd := fresh "Hd" in intros d Hd
  | apply working_quiet_bind; [solve [auto with quiet]|intros ?] ].

Lemma working_as_add T key t ref : may_add T key t -> working_as T (_ ← add_step env key t ref; mret tt).
Proof using Hrow.
  intros HP. apply working_as_bind; [by apply add_step_working|]. intros _. apply quiet_growing, quiet_ret.
Qed.

Lemma working_add T key t ref : may_add T key t -> working (_ ← add_step env key t ref; mret tt).
Proof using Hrow. intros HP. by apply (working_as_working T), working_as_add. Qed.

Lemma growing_add T key t ref : may_add T key t -> growing T (_ ← add_step env key t ref; mret tt).
Proof.
  intros HP. apply growing_bind; [by apply add_step_growing|]. intros _. apply quiet_growing, quiet_ret.
Qed.

Lemma rows_elem d s : same_base d0 d -> s ∈ step_rows run d <-> s ∈ steps_of run d0.
Proof. intros Hb. by rewrite step_rows_elem, (steps_of_same _ _ _ Hb). Qed.

Lemma not_ended_live d (rows : list SearchStep) : same_base d0 d -> (forall s, s ∈ rows -> s ∈ step_rows run d) ->
  existsb (fun row => negb (ended current row)) rows = true -> working (mret (M := M Hk) tt).
Proof.
  intros Hb Hsub (s & Hs & He)%existsb_exists. apply list_elem_of_In, Hsub in Hs. apply (working_live _ s).
  - by apply (rows_elem d).
  - by apply negb_true_iff.
  - apply quiet_ret.
Qed.

Lemma maybe_synthesize_working codes : successor (step_type current) StepType_SYNTHESIZE = true ->
  working (maybe_synthesize env current codes).
Proof using Hrow.
  intros Hn. unfold maybe_synthesize. work. cbv zeta. case_match.
  - eapply not_ended_live; [done| |done]. intros s. rewrite list_elem_of_filter. by intros [_ ?].
  - work. apply (working_add StepType_SYNTHESIZE). split; try done. intros s _ Hs Ht.
    match goal with Hx : existsb _ _ = false |- _ => apply (existsb_false _ _) with (x := s) in Hx end.
    + by apply negb_false_iff.
    + apply list_elem_of_filter. split; [done|]. by apply (rows_elem d).
Qed.

Lemma maybe_select_working : step_type current = StepType_DISCOVERY -> working (maybe_select env current).
Proof using Hrow Hrun Htenant Htype.
  intros Ht. unfold maybe_select. work. cbv zeta. case_match eqn:Eb.
  - apply orb_true_iff in Eb as [Eb|Eb].
    + exfalso. apply bool_decide_eq_true in Eb.
      apply (not_elem_of_nil row0). rewrite <- Eb. apply of_type_elem. split; [congruence|].
      apply (rows_elem d); [done|]. apply row0_elem.
    + eapply not_ended_live; [done| |exact Eb]. intros s. rewrite of_type_elem. by intros [_ ?].
  - work. apply (working_add StepType_SELECT). apply orb_false_elim in Eb as [_ Eb].
    split; try done; [by rewrite Ht|]. intros s _ Hs Hdisc.
    apply (existsb_false _ _) with (x := s) in Eb; [by apply negb_false_iff|].
    apply of_type_elem. split; [done|]. by apply (rows_elem d).
Qed.

Lemma maybe_verify_working codes : step_type current = StepType_FETCH \/ step_type current = StepType_EXTRACT ->
  working (maybe_verify env current codes).
Proof using Hrow.
  intros Ht. assert (successor (step_type current) StepType_SYNTHESIZE = true) as Hsyn by (by destruct Ht as [-> | ->]).
  assert (successor (step_type current) StepType_VERIFY = true) as Hver by (by destruct Ht as [-> | ->]).
  unfold maybe_verify. work. cbv zeta.
  assert (forallb (ended current)
    (base.filter (fun s => step_type s = StepType_FETCH \/ step_type s = StepType_EXTRACT) (step_rows run d)) = false ->
    working (mret (M := M Hk) tt)) as Hopen.
  { intros Hf. eapply (not_ended_live d (base.filter _ (step_rows run d))); [done| |].
    - intros s. rewrite list_elem_of_filter. by intros [_ ?].
    - by apply forallb_false. }
  destruct (of_type StepType_VERIFY (step_rows run d)) as [|verify rest] eqn:Ev.
  - assert (forall key ref, key = u "verify" ->
      working (_ ← add_step env key StepType_VERIFY ref; mret tt)) as Hadd.
    { intros key ref ->. apply (working_add StepType_VERIFY). split; try done. intros s _ Hs Hty.
      apply (not_elem_of_nil s). rewrite <- Ev. apply of_type_elem. split; [done|]. by apply (rows_elem d). }
    case_match; [case_match; [by apply maybe_synthesize_working|by apply Hopen]|].
    work. destruct (forallb _ _) eqn:Hall.
    + apply working_ret. simpl. work. by apply Hadd.
    + apply working_quiet_bind; [case_match; auto with quiet|]. intros []; simpl; [work; by apply Hadd|by apply Hopen].
  - assert (verify ∈ step_rows run d) as Hv.
    { assert (verify ∈ of_type StepType_VERIFY (step_rows run d)) as Hin by (rewrite Ev; left).
      by apply of_type_elem in Hin as [_ ?]. }
    case_match eqn:Eb; [by apply maybe_synthesize_working|].
    apply andb_false_iff in Eb as [Eb|Eb]; [by apply Hopen|].
    apply (working_live _ verify); [by apply (rows_elem d)|done|apply quiet_ret].
Qed.

(** ** A whole call *)

Definition finishing {A} (m : M Hk A) : Prop := forall h h' a, m h = (h', Ok a) -> at_start h ->
  exists T, grows run (may_add T) (hk_db h) (hk_db h') /\
  (live run current (hk_db h') \/ clash run (may_add T) (hk_db h) \/ SearchRun_is_terminal (hk_run h') = true).

Lemma working_finishing {A} (m : M Hk A) : working m -> finishing m.
Proof. intros Hm h h' a E Hs. destruct (Hm _ _ _ E Hs) as (T & _ & G & [?|?]); eauto. Qed.

(** A quiet call first, and the end of the run last. *)
Lemma finishing_quiet_bind {A B} (m : M Hk A) (k : A -> M Hk B) :
  quiet m -> (forall a, finishing (k a)) -> finishing (m ≫= k).
Proof.
  intros Hm Hk h h' b Hb [Hr Hs]. apply bind_ok_inv in Hb as (h1 & a & E1 & E2).
  apply Hm in E1 as [B1 R1]. destruct (Hk a _ _ _ E2) as (T & G2 & O2); [split; [congruence|by etransitivity]|].
  exists T. split; [by eapply grows_trans; [apply same_base_grows|]|].
  destruct O2 as [|[Hc|]]; [by left| |by right; right]. right; left.
  destruct Hc as (key & t & s & HP & Hs' & Hv & Hk'). exists key, t, s. ksplit.
  by rewrite (steps_of_same _ _ _ B1) in Hs'.
Qed.

Lemma finishing_end op : (forall r r', run_exec op r = (r', Ok tt) -> SearchRun_is_terminal r' = true) ->
  finishing (on_run (run_exec op)).
Proof.
  intros Hop h h' [] [Hm Hd]%on_run_ok_inv _. rewrite Hd. exists StepType_ROUTE. split; [by apply same_base_grows|].
  right; right. by eapply Hop.
Qed.

Lemma succeed_terminal q r at_ x x' : SearchRun_succeed q r at_ x = (x', Ok tt) -> SearchRun_is_terminal x' = true.
Proof. intros Hm. run_inv Hm. done. Qed.

Lemma fail_terminal r at_ x x' : SearchRun_fail r at_ x = (x', Ok tt) -> SearchRun_is_terminal x' = true.
Proof. intros Hm. run_inv Hm. done. Qed.

Lemma finishing_run {A} (k : SearchRun -> M Hk A) : finishing (k run) -> finishing (the_run ≫= k).
Proof.
  intros Hk h h' a Hm Hs. apply bind_ok_inv in Hm as (h1 & r & E1 & E2).
  apply the_run_ok_inv in E1 as [-> ->]. rewrite (proj1 Hs) in E2. by eapply Hk.
Qed.

Lemma working_each T {A} (body : A -> M Hk unit) l :
  (forall x, working_as T (body x)) -> (forall x, growing T (body x)) -> l <> [] -> working_as T (each body l).
Proof.
  intros Hw Hg Hl. destruct l as [|x l]; [done|]. simpl. apply working_as_bind; [done|]. intros _.
  by apply growing_each.
Qed.

Lemma may_add_by key t : key_for t key -> successor (step_type current) t = true ->
  match t with StepType_SELECT | StepType_EXTRACT | StepType_VERIFY | StepType_SYNTHESIZE => False | _ => True end ->
  may_add t key t.
Proof. intros Hk Hn Ht. destruct t; try done; split; try done; intros; discriminate. Qed.

Lemma fail_run_finishing reason : finishing (fail_run env reason).
Proof.
  apply finishing_run. intros h h' a Hm [Hr Hb].
  apply bind_ok_inv in Hm as (h1 & [] & E1 & E2).
  assert (quiet (now ← clock_now env; on_rows (response_update run Response_FAILED None now))) as Hq
    by (unfold clock_now; quietly).
  apply Hq in E2 as [B2 R2].
  assert (same_base (hk_db h) (hk_db h1) /\ SearchRun_is_terminal (hk_run h1) = true) as [B1 T1].
  { destruct (SearchRun_is_terminal run) eqn:Et.
    - apply (quiet_ret tt) in E1 as [B1 R1]. rewrite R1, Hr. done.
    - apply bind_ok_inv in E1 as (h2 & now & E1 & E3). apply quiet_ask in E1 as [B1 _].
      apply on_run_ok_inv in E3 as [E3 Hd]. rewrite Hd. split; [done|]. by eapply fail_terminal. }
  exists StepType_ROUTE. split; [apply same_base_grows; by etransitivity|]. right; right. by rewrite R2.
Qed.

Context (uuid5 : UUID -> pystr -> UUID) (sha256_utf8 : pystr -> pystr).
Context (Hfor : key_for (step_type current) (step_key current)).

(** [growing_bind]s through a body that adds one step. *)
Ltac work_as := repeat (apply working_as_quiet_bind; [solve [auto with quiet]|intros ?]).
Ltac grow := repeat (apply growing_bind; [apply quiet_growing; solve [auto with quiet]|intros ?]).

Lemma add_discovery_growing plan_ref payload query : step_type current = StepType_PLAN ->
  growing StepType_DISCOVERY (add_discovery_step env run plan_ref payload query).
Proof. intros Ht. unfold add_discovery_step. grow. apply growing_add, may_add_by; rewrite ?Ht; simpl; eauto. Qed.

Lemma add_discovery_working plan_ref payload query : step_type current = StepType_PLAN ->
  working_as StepType_DISCOVERY (add_discovery_step env run plan_ref payload query).
Proof using Hrow.
  intros Ht. unfold add_discovery_step. work_as. apply working_as_add, may_add_by; rewrite ?Ht; simpl; eauto.
Qed.

Lemma add_fetch_growing payload numbered : step_type current = StepType_SELECT ->
  growing StepType_FETCH (add_fetch_step env run payload numbered).
Proof.
  intros Ht. unfold add_fetch_step. destruct numbered. grow. apply growing_add, may_add_by; rewrite ?Ht; simpl; eauto.
Qed.

Lemma add_fetch_working payload numbered : step_type current = StepType_SELECT ->
  working_as StepType_FETCH (add_fetch_step env run payload numbered).
Proof using Hrow.
  intros Ht. unfold add_fetch_step. destruct numbered. work_as. apply working_as_add, may_add_by; rewrite ?Ht; simpl; eauto.
Qed.

#[local] Opaque maybe_select maybe_verify maybe_synthesize fail_run.

Lemma complete_success_finishing result : step_type current <> StepType_COMPLETE ->
  finishing (complete_success uuid5 sha256_utf8 env current result).
Proof using Hfor Hrow Hrun Htenant Htype.
  intros Hnc. unfold complete_success. apply finishing_run.
  apply finishing_quiet_bind; [auto with quiet|intros payload].
  case_eq (step_type current); intros Ht; try done.
  - apply working_finishing, (working_add StepType_PLAN), may_add_by; by rewrite ?Ht.
  - apply working_finishing. work. destruct a0 as [|q queries].
    + apply working_ret, maybe_synthesize_working. by rewrite Ht.
    + apply (working_as_working StepType_DISCOVERY), working_as_bind; [|intros; apply quiet_growing, quiet_ret].
      apply working_each; auto using add_discovery_working, add_discovery_growing.
  - apply working_finishing. work. by apply maybe_select_working.
  - apply working_finishing. work. destruct a as [|hit selected].
    + apply working_ret, maybe_synthesize_working. by rewrite Ht.
    + apply (working_as_working StepType_FETCH), working_as_bind; [|intros; apply quiet_growing, quiet_ret].
      apply working_each; auto using add_fetch_working, add_fetch_growing.
  - apply working_finishing. work. apply (working_add StepType_EXTRACT). pose proof Hfor as Hf. rewrite Ht in Hf. destruct Hf as [x Hx]. rewrite Hx, fetch_to_extract.
    split; try done; [by exists x|by rewrite Ht|]. by exists x.
  - apply working_finishing. work. apply maybe_verify_working. auto.
  - apply working_finishing. work. apply maybe_synthesize_working. by rewrite Ht.
  - repeat (apply finishing_quiet_bind; [unfold clock_now; auto with quiet|intros ?]).
    apply (finishing_end (RunSucceed _ _ _)). intros. by eapply succeed_terminal.
Qed.

Lemma complete_failure_finishing error disposition : step_type current <> StepType_COMPLETE ->
  (disposition = Disposition_RETRY_SCHEDULED -> step_terminal (step_status current) = false) ->
  finishing (complete_failure env current error disposition).
Proof using Hid Hrow Hrun Htenant Htype.
  intros Hnc Hretry. unfold complete_failure. apply finishing_run.
  destruct (bool_decide_reflect (disposition = Disposition_RETRY_SCHEDULED)) as [->|_]; simpl.
  { apply working_finishing, (working_live _ row0); [apply row0_elem| |apply quiet_ret].
    unfold ended, current_status. rewrite Hid, Z.eqb_refl. auto. }
  destruct (SearchRun_is_terminal run) eqn:Et.
  { intros h h' a [Hb Hr]%quiet_ret [Hs _]. exists StepType_ROUTE. split; [by apply same_base_grows|]. right; right. congruence. }
  case_eq (step_type current); intros Ht; try done; try apply fail_run_finishing; apply working_finishing.
  - by apply maybe_select_working.
  - apply maybe_synthesize_working. by rewrite Ht.
  - apply maybe_verify_working. auto.
  - apply maybe_verify_working. auto.
  - apply maybe_synthesize_working. by rewrite Ht.
Qed.
End Outcome.

(** A message of the conversation with the key [assistant:<run id>], which a user may choose, makes
    the insert of the answer a silent no-op; the response run then refers to a message that does not
    exist, and the synthesis step can never end. *)
Lemma answer_key_taken run m now d : message_fits m = true ->
  message_conflict m (tb_messages (db_tables d)) = true -> tb_messages (db_tables d) !! ms_id m = None ->
  (exists row, tb_responses (db_tables d) !! run_response_run_id run = Some row /\ rp_tenant_id row = run_tenant_id run) ->
  (_ ← message_insert_ignore m; response_update run Response_SUCCEEDED (Some (ms_id m)) now) d =
    (d, Raise foreign_violation).
Proof.
  intros Hfit Hc Hn (row & Hr & Ht).
  unfold message_insert_ignore, response_update, mbind, M_bind, self, raise_if.
  rewrite Hfit, Hc. simpl. rewrite Hr, Ht, Z.eqb_refl, Hn. done.
Qed.
