(* ===== verification/WorkflowRuns.v ===== *)
(** * WorkflowRuns: a run of the workflow always has work left, until it ends

    The step store with the coordinator as its hook, the conversation service and the reconciler
    work on the same rows. [flow_inv] is what holds of runs and steps in every interleaving of
    their transactions; from it: an active run has an unfinished step, the stages of a run follow
    each other, and past its hard deadline a run can be ended. *)

From Stdlib Require Import SpecFloat String.
From S2P Require Import Prelude Errors PyTime PyData Transitions Run Tables RunFacts Step StepFacts Policy.
From S2P Require Import Lease Workflow StepStore StepStoreFacts Repositories Completion Conversation CompletionFacts.

(** ** Rows of runs *)

Definition deadline_aware (r : SearchRun) : Prop := dt_aware (bs_hard_deadline_at (run_budget r)) = true.

Definition reloaded (r : SearchRun) : SearchRun := fst (SearchRun_mark_persisted r).

(** A saved run: the row's methods were called, and it was marked persisted. *)
Definition follows (r r' : SearchRun) : Prop :=
  r' = r \/ exists x, star run_step (reloaded r) x /\ r' = reloaded x.

Lemma run_step_aware r r' : deadline_aware r -> run_step r r' -> deadline_aware r'.
Proof.
  unfold deadline_aware. intros Ha [op H]. destruct op; simpl in H; run_inv H; simpl; try done. congruence.
Qed.

Lemma star_run_step r r' : star run_step r r' ->
  run_id r' = run_id r /\ run_tenant_id r' = run_tenant_id r /\ (run_loadable r -> run_loadable r') /\
  (deadline_aware r -> deadline_aware r') /\
  (SearchRun_is_terminal r = true -> r' = r).
Proof.
  intros Hs. split; [|split; [|split; [|split]]].
  - by apply (star_relation run_step run_evolves run_step_evolves) in Hs as (? & _).
  - by apply (star_relation run_step run_evolves run_step_evolves) in Hs as (_ & ? & _).
  - intros Hl. apply (star_invariant run_step run_loadable) with r; auto. intros. by eapply run_step_loadable.
  - intros Hl. apply (star_invariant run_step deadline_aware) with r; auto. intros. by eapply run_step_aware.
  - intros Ht. destruct Hs as [|r r1 r' H1 _]; [done|]. apply run_step_edge in H1 as (_ & _ & Hn). congruence.
Qed.

Lemma follows_spec r r' : follows r r' ->
  run_id r' = run_id r /\ run_tenant_id r' = run_tenant_id r /\ (run_loadable r -> run_loadable r') /\
  (deadline_aware r -> deadline_aware r') /\
  (SearchRun_is_terminal r = true -> SearchRun_is_terminal r' = true).
Proof.
  intros [->|(x & Hs & ->)]; [done|]. apply star_run_step in Hs as (H1 & H2 & H3 & H4 & H5).
  split; [done|]. split; [done|]. split; [exact H3|]. split; [exact H4|].
  intros Ht. by rewrite (H5 Ht).
Qed.

Lemma runs_get_flow t i d d' o : runs_get_for_update t i d = (d', Ok o) ->
  d' = d /\ match o with
            | Some r => exists row, db_runs d !! i = Some row /\ run_tenant_id row = t /\ run_loadable row /\
                          r = reloaded row
            | None => True
            end.
Proof.
  unfold runs_get_for_update, run_from_record. intros H. minv.
  destruct (db_runs d !! i) as [row|] eqn:E; [|by minv].
  destruct (run_tenant_id row =? t) eqn:Et; minv; bools; [|done].
  match goal with H : SearchRun_reload row = Ok _ |- _ => pose proof (reload_ok_inv _ _ H) as Hl;
    rewrite (reload_loadable _ Hl) in H; simplify_eq end.
  split; [done|]. by exists row.
Qed.

Lemma admit_run_star now r d d' r' : admit_run now r d = (d', Ok r') -> d' = d /\ star run_step r r'.
Proof.
  unfold admit_run. intros H. destruct (run_status r); try (minv; split; [done|constructor]);
    apply call_ok_inv in H as [-> H]; (split; [done|]); apply star_one.
  - by exists (RunStart now).
  - by exists RunResume.
Qed.

Lemma runs_save_flow k row x d d' y : db_runs d !! k = Some row -> run_id row = k -> star run_step (reloaded row) x ->
  runs_save x d = (d', Ok y) -> d' = set_runs (<[k := reloaded x]> (db_runs d)) d.
Proof.
  intros Hr <- Hs H. apply (star_relation run_step run_evolves run_step_evolves) in Hs as (I1 & I2 & I3 & I4 & I5 & _).
  simpl in *. unfold runs_save in H. minv. rewrite I1, Hr in H. minv. unfold reloaded. simpl. rewrite I1, I2, I3, I4, I5. done.
Qed.

(** ** The invariant *)

(** The order of the stages; fetching, extracting and verifying overlap. *)
Definition rank (t : StepType) : Z :=
  match t with
  | StepType_ROUTE => 0 | StepType_PLAN => 1 | StepType_DISCOVERY => 2 | StepType_SELECT => 3
  | StepType_FETCH | StepType_EXTRACT | StepType_VERIFY => 4
  | StepType_SYNTHESIZE => 5 | StepType_COMPLETE => 6
  end.

(** Two rows of steps of one run. *)
Definition siblings (d : Db) (i j : Z) (s t : SearchStep) : Prop :=
  db_steps d !! i = Some s /\ db_steps d !! j = Some t /\ step_run_id s = step_run_id t.

Definition finished (s : SearchStep) : Prop := step_terminal (step_status s) = true.

Record flow_inv (d : Db) : Prop := {
  fl_db : db_inv d;
  fl_runs i r : db_runs d !! i = Some r -> run_id r = i /\ run_loadable r /\ deadline_aware r;
  fl_run i s : db_steps d !! i = Some s ->
    exists r, db_runs d !! step_run_id s = Some r /\ run_tenant_id r = step_tenant_id s;
  fl_owner k a s : db_attempts d !! k = Some a -> db_steps d !! at_step_id a = Some s ->
    at_run_id a = step_run_id s /\ at_tenant_id a = step_tenant_id s;
  fl_revision i s : db_steps d !! i = Some s -> step_plan_revision s = 1;
  fl_key i s : db_steps d !! i = Some s -> key_for (step_type s) (step_key s);
  fl_retry i s : db_steps d !! i = Some s -> step_status s = StepStatus_RETRY_WAIT ->
    exists t, step_retry_at s = Some t /\ dt_aware t = true;
  fl_unique i j s t : siblings d i j s t -> step_key s = step_key t -> i = j;
  fl_stages i j s t : siblings d i j s t -> rank (step_type s) < rank (step_type t) -> finished s;
  fl_extract i j s t x : siblings d i j s t -> step_key s = u "extract:" ++ x -> step_key t = u "fetch:" ++ x ->
    finished t;
  fl_work i r : db_runs d !! i = Some r -> SearchRun_is_terminal r = false ->
    exists j s, db_steps d !! j = Some s /\ step_run_id s = i /\ ~ finished s
}.

(** ** One step of a run moves *)

Definition same_step (s s' : SearchStep) : Prop :=
  step_id s' = step_id s /\ step_tenant_id s' = step_tenant_id s /\ step_run_id s' = step_run_id s /\
  step_key s' = step_key s /\ step_type s' = step_type s /\ step_plan_revision s' = step_plan_revision s.

(** Only the row of run [k] changes, by methods of the run. *)
Definition runs_follow (k : UUID) (d d' : Db) : Prop :=
  (forall i, i <> k -> db_runs d' !! i = db_runs d !! i) /\
  (forall r', db_runs d' !! k = Some r' -> exists r, db_runs d !! k = Some r /\ follows r r') /\
  (forall r, db_runs d !! k = Some r -> exists r', db_runs d' !! k = Some r' /\ follows r r').

(** Step [i] becomes [s'] while the hook, called with the object [cur], grows the rows to [dh]. *)
Record moved (d d' dh : Db) (i : Z) (s s' cur : SearchStep) (run : SearchRun) (T : StepType) : Prop := {
  mv_old : db_steps d !! i = Some s;
  mv_open : ~ finished s;
  mv_same : same_step s s';
  mv_retry : step_status s' = StepStatus_RETRY_WAIT -> exists t, step_retry_at s' = Some t /\ dt_aware t = true;
  mv_cur : same_step s cur /\ step_status cur = step_status s';
  mv_run : run_id run = step_run_id s /\ run_tenant_id run = step_tenant_id s;
  mv_grows : grows run (may_add run cur d T) d dh;
  mv_quiet : ~ finished s' -> db_steps dh = db_steps d;
  mv_steps : db_steps d' = <[i := s']> (db_steps dh);
  mv_runs : runs_follow (step_run_id s) d d';
  mv_work r' : db_runs d' !! step_run_id s = Some r' -> SearchRun_is_terminal r' = false ->
    live run cur dh \/ clash run (may_add run cur d T) d
}.

Lemma key_run d i s : flow_inv d -> db_steps d !! i = Some s -> step_id s = i.
Proof. intros Hf. apply (inv_step_key d (fl_db d Hf)). Qed.

(** Keys stay unique while a run grows. *)
Definition keys_unique (d : Db) : Prop := forall i j s t, siblings d i j s t ->
  step_plan_revision s = step_plan_revision t -> step_key s = step_key t -> i = j.

Lemma grows_unique run P d d' : keys_unique d -> grows run P d d' -> keys_unique d'.
Proof.
  intros Hu Hg. induction Hg as [d|d d1 d' H1 _ IH]; [done|]. apply IH. clear IH.
  destruct H1 as [[_ Hs _ _ _ _]|(x & Hf & _ & Ha)].
  - unfold keys_unique, siblings in *. by rewrite Hs.
  - intros i j s t (Hi & Hj & Hr) Hv Hk. rewrite (ad_steps _ _ _ Ha) in Hi, Hj.
    apply lookup_insert_Some in Hi as [[<- <-]|[Ni Hi]], Hj as [[<- <-]|[Nj Hj]].
    + done.
    + destruct (ad_key _ _ _ Ha j t Hj); congruence.
    + destruct (ad_key _ _ _ Ha i s Hi); congruence.
    + by apply (Hu i j s t).
Qed.

#[export] Instance same_step_preorder : PreOrder same_step.
Proof. split; unfold same_step; [done|]. intros a b c ? ?. intuition congruence. Qed.

Lemma successor_rank c t : successor c t = true ->
  rank c < rank t \/ (rank c = rank t /\ (t = StepType_EXTRACT \/ t = StepType_VERIFY)).
Proof. destruct c, t; simpl; try done; intros _; auto; left; lia. Qed.

Lemma key_type d i s t : flow_inv d -> db_steps d !! i = Some s -> key_for t (step_key s) -> step_type s = t.
Proof. intros Hf Hi Hk. by apply (key_for_inj _ _ (step_key s)); [apply (fl_key d Hf i)|]. Qed.

Section Moved.
Context (d d' dh : Db) (i : Z) (s s' cur : SearchStep) (run : SearchRun) (T : StepType).
Context (Hf : flow_inv d) (Hm : moved d d' dh i s s' cur run T).

Definition from_old (j : Z) (t : SearchStep) : Prop := exists t0, db_steps d !! j = Some t0 /\ same_step t0 t /\
  (finished t0 -> t = t0) /\ (j <> i -> t = t0) /\ (j = i -> t0 = s /\ t = s').

Definition from_hook (j : Z) (t : SearchStep) : Prop := db_steps d !! j = None /\ step_id t = j /\
  fresh_step run t /\ may_add run cur d T (step_key t) (step_type t) /\ finished s'.

Lemma mv_cases j t : db_steps d' !! j = Some t -> from_old j t \/ from_hook j t.
Proof using Hm.
  rewrite (mv_steps _ _ _ _ _ _ _ _ _ Hm). intros [[<- <-]|[Hji Hj]]%lookup_insert_Some.
  - left. exists s. split; [apply Hm|]. split; [apply Hm|]. split; [|done].
    intros Hs. by destruct (mv_open _ _ _ _ _ _ _ _ _ Hm).
  - destruct (grows_new _ _ _ _ _ _ (mv_grows _ _ _ _ _ _ _ _ _ Hm) Hj) as [Hd|(Hn & ? & ? & ?)].
    + left. exists t. by ksplit.
    + right. unfold from_hook. ksplit. unfold finished. destruct (step_terminal (step_status s')) eqn:E; [done|].
      rewrite (mv_quiet _ _ _ _ _ _ _ _ _ Hm) in Hj; [congruence|]. unfold finished. by rewrite E.
Qed.

Lemma hook_run j t : from_hook j t -> step_run_id t = step_run_id s /\ step_tenant_id t = step_tenant_id s.
Proof using Hm.
  intros (_ & _ & (Ht & Hr & _) & _). destruct (mv_run _ _ _ _ _ _ _ _ _ Hm). split; congruence.
Qed.

Lemma sibling_of_run j t : db_steps d !! j = Some t -> step_run_id t = step_run_id s -> t ∈ steps_of run d.
Proof using Hf Hm.
  intros Hj Hr. destruct (mv_run _ _ _ _ _ _ _ _ _ Hm) as [R1 R2].
  destruct (fl_run d Hf j t Hj) as (r & Hr1 & Ht1).
  destruct (fl_run d Hf i s (mv_old _ _ _ _ _ _ _ _ _ Hm)) as (r' & Hr2 & Ht2).
  apply steps_of_elem. split; [|split; [congruence|eauto]]. rewrite Hr, Hr2 in Hr1. congruence.
Qed.

Lemma ended_other j t : db_steps d !! j = Some t -> j <> i -> ended cur t = true -> finished t.
Proof using Hf Hm.
  intros Hj Hji. unfold ended, current_status. rewrite (key_run d j t Hf Hj).
  destruct (mv_cur _ _ _ _ _ _ _ _ _ Hm) as [(Hc & _) _].
  rewrite Hc, (key_run d i s Hf (mv_old _ _ _ _ _ _ _ _ _ Hm)). by rewrite (proj2 (Z.eqb_neq j i)).
Qed.

Lemma may_add_rank key t : may_add run cur d T key t -> rank (step_type s) <= rank T /\
  successor (step_type s) T = true /\ t = T.
Proof using Hm.
  intros Ha. destruct (mv_cur _ _ _ _ _ _ _ _ _ Hm) as [(_ & _ & _ & _ & Hc & _) _].
  pose proof (ma_next _ _ _ _ _ _ Ha) as Hn. rewrite Hc, (ma_type _ _ _ _ _ _ Ha) in Hn.
  pose proof (successor_rank _ _ Hn). ksplit; [lia|]. apply (ma_type _ _ _ _ _ _ Ha).
Qed.

(** No step of a later stage stands beside the open step. *)
Lemma no_later j t : db_steps d !! j = Some t -> step_run_id t = step_run_id s ->
  rank (step_type t) <= rank (step_type s).
Proof using Hf Hm.
  intros Hj Hr. destruct (Z.le_gt_cases (rank (step_type t)) (rank (step_type s))) as [|Hlt]; [done|].
  destruct (mv_open _ _ _ _ _ _ _ _ _ Hm). apply (fl_stages d Hf i j s t); [|done].
  split; [apply Hm|done].
Qed.

(** The steps before the new ones are finished. *)
Lemma earlier_finished j t0 key t : db_steps d !! j = Some t0 -> step_run_id t0 = step_run_id s -> j <> i ->
  may_add run cur d T key t -> rank (step_type t0) < rank T -> finished t0.
Proof using Hf Hm.
  intros Hj Hr Hji Ha Hlt. pose proof (may_add_rank _ _ Ha) as (_ & Hn & ->).
  pose proof (mv_old _ _ _ _ _ _ _ _ _ Hm) as Hi.
  pose proof (sibling_of_run j t0 Hj Hr) as Hin.
  destruct (Z.lt_ge_cases (rank (step_type t0)) (rank (step_type s))) as [Hlt'|Hge].
  { apply (fl_stages d Hf j i t0 s); [|done]. split; [done|]. by split. }
  assert (forall key, step_key t0 = key -> step_key s = key -> finished t0) as Hsame.
  { intros k K1 K2. destruct Hji. apply (fl_unique d Hf j i t0 s); [|congruence]. split; [done|]. by split. }
  pose proof (fl_key d Hf _ _ Hj) as K0. pose proof (fl_key d Hf _ _ Hi) as K1.
  pose proof (fun e e' => ended_other j t0 Hj Hji (ma_synthesize _ _ _ _ _ _ Ha t0 e Hin e')) as Hsyn.
  pose proof (fun e e' => ended_other j t0 Hj Hji (ma_select _ _ _ _ _ _ Ha t0 e Hin e')) as Hsel.
  clear Ha Hm Hin. destruct (step_type s), T; try done; destruct (step_type t0); simpl in *; try lia;
    first [by apply Hsyn | by apply Hsel | by eapply Hsame].
Qed.

Lemma from_old_run j t : from_old j t -> exists t0, db_steps d !! j = Some t0 /\ step_run_id t0 = step_run_id t /\
  step_key t0 = step_key t /\ step_type t0 = step_type t /\ (finished t0 -> finished t).
Proof.
  intros (t0 & H0 & (_ & _ & S3 & S4 & S5 & _) & H1 & _). exists t0. ksplit. intros Ht. by rewrite (H1 Ht).
Qed.

Lemma moved_stages j k t1 t2 : siblings d' j k t1 t2 -> rank (step_type t1) < rank (step_type t2) -> finished t1.
Proof using Hf Hm.
  intros (Hj & Hk & Hr) Hlt. apply mv_cases in Hj, Hk.
  destruct Hj as [Hj|Hj], Hk as [Hk|Hk].
  - apply from_old_run in Hj as (a & Ha & R1 & _ & T1 & F1), Hk as (b & Hb & R2 & _ & T2 & _).
    apply F1, (fl_stages d Hf j k a b); [|by rewrite T1, T2]. split; [done|]. split; [done|congruence].
  - destruct (hook_run _ _ Hk) as [R2 _]. destruct Hk as (_ & _ & _ & Ha & Hs').
    destruct Hj as (a & Hda & (_ & _ & S3 & _ & S5 & _) & F1 & F2 & F3).
    destruct (decide (j = i)) as [->|Hji]; [by destruct (F3 eq_refl) as [_ ->]|].
    rewrite (F2 Hji) in *. apply (earlier_finished j a _ _ Hda) with (3 := Ha); [congruence|done|].
    destruct (may_add_rank _ _ Ha) as (_ & _ & E). by rewrite E in Hlt.
  - destruct (hook_run _ _ Hj) as [R1 _]. destruct Hj as (_ & _ & _ & Ha & _).
    apply from_old_run in Hk as (b & Hb & R2 & _ & T2 & _).
    pose proof (no_later k b Hb) as Hle. destruct (may_add_rank _ _ Ha) as (? & _ & E).
    rewrite E, <- T2 in Hlt. rewrite R2, <- Hr, R1 in Hle. specialize (Hle eq_refl). lia.
  - destruct Hj as (_ & _ & _ & Ha & _), Hk as (_ & _ & _ & Hb & _).
    apply may_add_rank in Ha as (_ & _ & E1), Hb as (_ & _ & E2). rewrite E1, E2 in Hlt. lia.
Qed.

Lemma moved_extract j k t1 t2 x : siblings d' j k t1 t2 -> step_key t1 = u "extract:" ++ x ->
  step_key t2 = u "fetch:" ++ x -> finished t2.
Proof using Hf Hm.
  intros (Hj & Hk & Hr) K1 K2. apply mv_cases in Hj, Hk.
  assert (key_for StepType_EXTRACT (step_key t1)) as Q1 by (by exists x).
  assert (key_for StepType_FETCH (step_key t2)) as Q2 by (by exists x).
  destruct Hj as [Hj|Hj], Hk as [Hk|Hk].
  - apply from_old_run in Hj as (a & Ha & R1 & J1 & _), Hk as (b & Hb & R2 & J2 & _ & F2).
    apply F2, (fl_extract d Hf j k a b x); [|congruence..]. split; [done|]. split; [done|congruence].
  - destruct (hook_run _ _ Hk) as [R2 _]. destruct Hk as (_ & _ & _ & Hb & _).
    apply from_old_run in Hj as (a & Ha & R1 & J1 & _).
    pose proof (no_later j a Ha) as Hle. rewrite R1, Hr in Hle. specialize (Hle R2).
    destruct (may_add_rank _ _ Hb) as (_ & Hn & E).
    rewrite (key_for_inj _ _ _ (ma_key _ _ _ _ _ _ Hb) Q2) in E. rewrite <- E in Hn.
    assert (step_type a = StepType_EXTRACT) as Ea.
    { apply (key_type d j); [done|done|]. by rewrite J1. }
    rewrite Ea in Hle. by destruct (step_type s).
  - destruct (hook_run _ _ Hj) as [R1 _]. destruct Hj as (_ & _ & _ & Ha & Hs').
    destruct Hk as (b & Hb & (_ & _ & S3 & S4 & _) & _ & _ & F3).
    destruct (ma_extract _ _ _ _ _ _ Ha) as (y & C1 & C2).
    { apply (key_for_inj _ _ (step_key t1)); [apply Ha|done]. }
    rewrite K1 in C2. apply app_inv_head in C2 as <-.
    destruct (mv_cur _ _ _ _ _ _ _ _ _ Hm) as [(_ & _ & _ & Ck & _) _].
    destruct F3 as [_ ->]; [|done]. apply (fl_unique d Hf k i b s); [|congruence].
    split; [done|]. split; [apply Hm|congruence].
  - destruct Hj as (_ & _ & _ & Ha & _), Hk as (_ & _ & _ & Hb & _).
    pose proof (key_for_inj _ _ _ (ma_key _ _ _ _ _ _ Ha) Q1) as E1.
    pose proof (key_for_inj _ _ _ (ma_key _ _ _ _ _ _ Hb) Q2) as E2.
    destruct (may_add_rank _ _ Ha) as (_ & _ & E3), (may_add_rank _ _ Hb) as (_ & _ & E4). congruence.
Qed.

Lemma no_clash : ~ clash run (may_add run cur d T) d.
Proof using Hf Hm.
  intros (key & t & x & Ha & Hx & _ & Hk). pose proof (mv_old _ _ _ _ _ _ _ _ _ Hm) as Hi.
  pose proof Hx as Hx'. apply steps_of_elem in Hx' as (X1 & X2 & j & Hj).
  destruct (mv_run _ _ _ _ _ _ _ _ _ Hm) as [R1 R2].
  assert (step_run_id x = step_run_id s) as Hr by congruence.
  destruct (may_add_rank _ _ Ha) as (_ & Hn & E).
  pose proof (ma_key _ _ _ _ _ _ Ha) as Kt. rewrite <- Hk in Kt.
  pose proof (key_type d j x _ Hf Hj Kt) as Et. pose proof (no_later j x Hj Hr) as Hle.
  rewrite Et, E in Hle. destruct (successor_rank _ _ Hn) as [?|[_ [ET|ET]]]; [lia| |].
  - destruct (ma_extract _ _ _ _ _ _ Ha) as (y & C1 & C2); [congruence|].
    destruct (mv_cur _ _ _ _ _ _ _ _ _ Hm) as [(_ & _ & _ & Ck & _) _].
    destruct (mv_open _ _ _ _ _ _ _ _ _ Hm). apply (fl_extract d Hf j i x s y); [|congruence..].
    by split.
  - apply (ma_verify _ _ _ _ _ _ Ha x); congruence.
Qed.

Lemma moved_unique j k t1 t2 : siblings d' j k t1 t2 -> step_key t1 = step_key t2 -> j = k.
Proof using Hf Hm.
  intros (Hj & Hk & Hr) Hkey.
  assert (keys_unique dh) as Hu.
  { eapply grows_unique; [|apply (mv_grows _ _ _ _ _ _ _ _ _ Hm)]. intros a b x y Hs _. by apply (fl_unique d Hf a b x y). }
  assert (forall l t, db_steps d' !! l = Some t -> exists t0, db_steps dh !! l = Some t0 /\
    step_run_id t0 = step_run_id t /\ step_key t0 = step_key t /\ step_plan_revision t0 = 1) as Hback.
  { intros l t. rewrite (mv_steps _ _ _ _ _ _ _ _ _ Hm). intros [[<- <-]|[Hli Hl]]%lookup_insert_Some.
    - pose proof (mv_old _ _ _ _ _ _ _ _ _ Hm) as Hi.
      destruct (mv_same _ _ _ _ _ _ _ _ _ Hm) as (_ & _ & S3 & S4 & _).
      exists s. split; [by eapply grows_keep; [apply (mv_grows _ _ _ _ _ _ _ _ _ Hm)|]|]. ksplit.
      by apply (fl_revision d Hf i).
    - exists t. ksplit. destruct (grows_new _ _ _ _ _ _ (mv_grows _ _ _ _ _ _ _ _ _ Hm) Hl) as [Hd|(_ & _ & Hfr & _)].
      + by apply (fl_revision d Hf l).
      + apply Hfr. }
  destruct (Hback j t1 Hj) as (a & Ha & A1 & A2 & A3), (Hback k t2 Hk) as (b & Hb & B1 & B2 & B3).
  apply (Hu j k a b); [|congruence..]. split; [done|]. split; [done|congruence].
Qed.

Lemma moved_run_row k r' : db_runs d' !! k = Some r' -> exists r, db_runs d !! k = Some r /\ follows r r'.
Proof using Hm.
  destruct (mv_runs _ _ _ _ _ _ _ _ _ Hm) as (H1 & H2 & _). intros Hr.
  destruct (decide (k = step_run_id s)) as [->|Hk]; [by apply H2|]. rewrite H1 in Hr by done.
  exists r'. split; [done|by left].
Qed.

Lemma moved_run_kept k r : db_runs d !! k = Some r -> exists r', db_runs d' !! k = Some r' /\ follows r r'.
Proof using Hm.
  destruct (mv_runs _ _ _ _ _ _ _ _ _ Hm) as (H1 & _ & H3). intros Hr.
  destruct (decide (k = step_run_id s)) as [->|Hk]; [by apply H3|]. exists r. rewrite H1 by done. split; [done|by left].
Qed.

Lemma moved_work k r : db_runs d' !! k = Some r -> SearchRun_is_terminal r = false ->
  exists j t, db_steps d' !! j = Some t /\ step_run_id t = k /\ ~ finished t.
Proof using Hf Hm.
  intros Hr Ht. rewrite (mv_steps _ _ _ _ _ _ _ _ _ Hm).
  destruct (mv_run _ _ _ _ _ _ _ _ _ Hm) as [R1 R2].
  destruct (decide (k = step_run_id s)) as [->|Hk].
  - destruct (mv_work _ _ _ _ _ _ _ _ _ Hm r Hr Ht) as [(x & Hx & He)|Hc]; [|by destruct no_clash].
    apply steps_of_elem in Hx as (X1 & X2 & j & Hj).
    assert (step_id x = j) as Hid.
    { destruct (grows_new _ _ _ _ _ _ (mv_grows _ _ _ _ _ _ _ _ _ Hm) Hj) as [Hd|(_ & ? & _)]; [|done].
      by apply (key_run d). }
    destruct (mv_cur _ _ _ _ _ _ _ _ _ Hm) as [(C1 & _) C2].
    pose proof (key_run d i s Hf (mv_old _ _ _ _ _ _ _ _ _ Hm)) as Hsi.
    unfold ended, current_status in He. rewrite Hid, C1, Hsi in He.
    destruct (Z.eqb_spec j i) as [->|Hji].
    + exists i, s'. rewrite lookup_insert_eq. split; [done|].
      destruct (mv_same _ _ _ _ _ _ _ _ _ Hm) as (_ & _ & S3 & _). split; [done|].
      unfold finished. rewrite <- C2, He. done.
    + exists j, x. rewrite lookup_insert_ne by done. split; [done|]. split; [congruence|].
      unfold finished. by rewrite He.
  - destruct (mv_runs _ _ _ _ _ _ _ _ _ Hm) as (H1 & _). rewrite H1 in Hr by done.
    destruct (fl_work d Hf k r Hr Ht) as (j & t & Hj & Hrun & Hfin). exists j, t.
    assert (j <> i) as Hji.
    { intros ->. rewrite (mv_old _ _ _ _ _ _ _ _ _ Hm) in Hj. congruence. }
    rewrite lookup_insert_ne by done. split; [|done].
    by eapply grows_keep; [apply (mv_grows _ _ _ _ _ _ _ _ _ Hm)|].
Qed.

Lemma moved_inv : db_inv d' ->
  (forall k a t, db_attempts d' !! k = Some a -> db_steps d' !! at_step_id a = Some t ->
     at_run_id a = step_run_id t /\ at_tenant_id a = step_tenant_id t) -> flow_inv d'.
Proof using Hf Hm.
  intros Hdb Hown. split; [done| | |done| | | | | | |].
  - intros k r' (r & Hr & Hfo)%moved_run_row. destruct (fl_runs d Hf k r Hr) as (F1 & F2 & F3).
    apply follows_spec in Hfo as (G1 & _ & G3 & G4 & _). ksplit; [congruence|auto|auto].
  - intros j t Hj. apply mv_cases in Hj as [(t0 & H0 & (_ & S2 & S3 & _) & _)|Hk].
    + destruct (fl_run d Hf j t0 H0) as (r & Hr & Ht). destruct (moved_run_kept _ r Hr) as (r' & Hr' & Hfo).
      apply follows_spec in Hfo as (_ & G2 & _). exists r'. rewrite S3. split; [done|congruence].
    + destruct (hook_run _ _ Hk) as [K1 K2].
      destruct (fl_run d Hf i s (mv_old _ _ _ _ _ _ _ _ _ Hm)) as (r & Hr & Ht).
      destruct (moved_run_kept _ r Hr) as (r' & Hr' & Hfo). apply follows_spec in Hfo as (_ & G2 & _).
      exists r'. rewrite K1. split; [done|congruence].
  - intros j t Hj. apply mv_cases in Hj as [(t0 & H0 & (_ & _ & _ & _ & _ & S6) & _)|(_ & _ & Hfr & _)].
    + rewrite S6. by apply (fl_revision d Hf j).
    + apply Hfr.
  - intros j t Hj. apply mv_cases in Hj as [(t0 & H0 & (_ & _ & _ & S4 & S5 & _) & _)|(_ & _ & _ & Ha & _)].
    + rewrite S4, S5. by apply (fl_key d Hf j).
    + apply Ha.
  - intros j t Hj Hst. apply mv_cases in Hj as [(t0 & H0 & _ & _ & F2 & F3)|(_ & _ & (_ & _ & _ & Hre & _) & _)].
    + destruct (decide (j = i)) as [->|Hji].
      * destruct (F3 eq_refl) as [_ ->]. by apply (mv_retry _ _ _ _ _ _ _ _ _ Hm).
      * rewrite (F2 Hji) in *. by apply (fl_retry d Hf j t0).
    + congruence.
  - apply moved_unique.
  - apply moved_stages.
  - apply moved_extract.
  - apply moved_work.
Qed.
End Moved.

(** ** Attempts belong to the run of their step *)

Definition owned (d : Db) : Prop := forall k a s, db_attempts d !! k = Some a ->
  db_steps d !! at_step_id a = Some s -> at_run_id a = step_run_id s /\ at_tenant_id a = step_tenant_id s.

Lemma owned_by d d' : db_inv d -> owned d ->
  (forall j t0, db_steps d !! j = Some t0 -> exists t, db_steps d' !! j = Some t /\
     step_run_id t = step_run_id t0 /\ step_tenant_id t = step_tenant_id t0) ->
  (forall k a', db_attempts d' !! k = Some a' -> (exists a, db_attempts d !! k = Some a /\ same_attempt a a') \/
     (exists s, db_steps d !! at_step_id a' = Some s /\ at_run_id a' = step_run_id s /\
        at_tenant_id a' = step_tenant_id s)) ->
  owned d'.
Proof.
  intros Hinv Ho Hs Ha k a' t Hk Ht.
  assert (exists s, db_steps d !! at_step_id a' = Some s /\ at_run_id a' = step_run_id s /\
    at_tenant_id a' = step_tenant_id s) as (s & Hd & R1 & R2).
  { destruct (Ha k a' Hk) as [(a & Hka & _ & S2 & S3 & S4 & _)|]; [|done].
    destruct (inv_attempt_step d Hinv k a Hka) as [s Hd]. destruct (Ho k a s Hka Hd).
    exists s. rewrite S4, S3, S2. done. }
  destruct (Hs _ _ Hd) as (t' & Ht' & S1 & S2). rewrite Ht in Ht'. simplify_eq. split; congruence.
Qed.

Lemma effect_owned d d' : db_inv d -> owned d -> effect d d' -> owned d'.
Proof.
  intros Hinv Ho He.
  assert (forall i s s' m, db_steps d !! i = Some s -> row_evolves s s' -> steps_grow (<[i := s']> (db_steps d)) m ->
    forall j t0, db_steps d !! j = Some t0 -> exists t, m !! j = Some t /\
      step_run_id t = step_run_id t0 /\ step_tenant_id t = step_tenant_id t0) as Hrow.
  { intros i s s' m Hi (_ & _ & _ & E1 & E2 & _) Hg j t0 Hj. destruct (decide (j = i)) as [->|Hne].
    - exists s'. rewrite Hi in Hj. simplify_eq. split; [by eapply grow_at|done].
    - exists t0. split; [by eapply grow_keeps|done]. }
  assert (attempts_match d d' -> forall k a', db_attempts d' !! k = Some a' ->
    (exists a, db_attempts d !! k = Some a /\ same_attempt a a') \/
    (exists s, db_steps d !! at_step_id a' = Some s /\ at_run_id a' = step_run_id s /\
        at_tenant_id a' = step_tenant_id s)) as Hmatch.
  { intros Hm k a' Hk. destruct (match_back _ _ _ _ Hm Hk) as (a & ? & ? & _). left. eauto. }
  destruct He as [Hs Ha|i s s' Hi _ _ _ He Hg Ha|i s s' a Hi Hr Hn He Hfr Hsa Hno Hc R1 R2 Hs Ha
         |i s s' r r' Hi Hr Hn He Hrr Hsr Hc Hsm Hcc Hout Hg Ha|r r' Hrr Hc Hc' Hsm Hs Ha
         |i s s' now Hi Hr Hn He Hl Hs Ha]; apply (owned_by d d' Hinv Ho).
  - rewrite Hs. eauto.
  - by apply Hmatch, match_same.
  - by eapply Hrow.
  - by apply Hmatch, match_same.
  - rewrite Hs. eapply Hrow; eauto using steps_grow_refl.
  - intros k b. rewrite Ha. intros [[<- <-]|[_ Hk]]%lookup_insert_Some.
    + right. exists s. by rewrite Hsa.
    + left. exists b. split; [done|]. repeat split.
  - by eapply Hrow.
  - by apply Hmatch; eapply match_insert.
  - rewrite Hs. eauto.
  - by apply Hmatch; eapply match_insert.
  - rewrite Hs. eapply Hrow; eauto using steps_grow_refl.
  - by apply Hmatch; eapply match_recover.
Qed.

Lemma owned_same d d' : db_attempts d' = db_attempts d -> db_steps d' = db_steps d -> owned d -> owned d'.
Proof. unfold owned. intros -> ->. done. Qed.

(** ** Moves of the step store *)

(** [finv] is [dinv] with the rows of the runs kept. *)
Ltac finv :=
  repeat (tinv; match goal with
  | H : call _ _ _ = (_, Ok _) |- _ => apply call_ok_inv in H as [-> H]
  | H : hook_call _ _ = (_, Ok _) |- _ => apply hook_call_ok_inv in H
  | H : transact _ _ = (_, Ok _) |- _ => apply transact_ok_inv in H
  | H : steps_get_for_update _ _ _ = (_, Ok _) |- _ => apply steps_get_ok_inv in H as [-> H]
  | H : runs_get_for_update _ _ _ = (_, Ok _) |- _ => apply runs_get_flow in H as [-> H]
  | H : add_event _ _ _ = (_, Ok _) |- _ => apply add_event_ok_inv in H as [? ->]
  | H : next_attempt_no _ _ = (_, Ok _) |- _ => apply next_attempt_no_ok_inv in H as [-> ->]
  | H : admit_run _ _ _ = (_, Ok _) |- _ => apply admit_run_star in H as [-> H]
  end); tinv.

Lemma same_step_saved row s : same_step row (saved s row).
Proof. done. Qed.

(** Every step has its message in the outbox. *)
Definition announced (d : Db) : Prop := forall i s, db_steps d !! i = Some s ->
  exists e, tb_outbox (db_tables d) !! om_id (ob_message e) = Some e /\ announces s e.

(** What a transaction carries over: every run by its methods, the tables of the conversations, and
    the messages of the steps. *)
Record carried (d d' : Db) : Prop := {
  ca_runs i : match db_runs d !! i, db_runs d' !! i with
              | Some r, Some r' => follows r r'
              | None, None => True
              | _, _ => False
              end;
  ca_tables : tables_keep (db_tables d) (db_tables d');
  ca_announced : announced d -> announced d'
}.

Lemma announced_kept d d' : (forall i s, db_steps d' !! i = Some s -> exists j s0, db_steps d !! j = Some s0 /\
    step_id s = step_id s0 /\ step_tenant_id s = step_tenant_id s0) ->
  tables_keep (db_tables d) (db_tables d') -> announced d -> announced d'.
Proof.
  intros Hs Ht Ha i s Hi. destruct (Hs i s Hi) as (j & s0 & Hj & S1 & S2). destruct (Ha j s0 Hj) as (e & He & A1 & A2 & A3 & A4).
  destruct (tk_outbox _ _ Ht _ e He) as (e' & He' & Hm). exists e'. rewrite Hm. split; [done|].
  unfold announces. rewrite Hm, S1, S2. done.
Qed.

Lemma grows_announced run P d d' : grows run P d d' -> announced d -> announced d'.
Proof.
  intros Hg Ha. induction Hg as [d|d d1 d' H1 _ IH]; [done|]. apply IH. clear IH.
  destruct H1 as [Hb|(x & _ & _ & Hx)].
  - eapply announced_kept; [|apply Hb|done]. intros i s Hi. rewrite (sb_steps _ _ Hb) in Hi. eauto.
  - intros i s Hi. rewrite (ad_steps _ _ _ Hx) in Hi. apply lookup_insert_Some in Hi as [[<- <-]|[_ Hi]].
    + destruct (ad_outbox _ _ _ Hx) as (e & He & _ & ->). exists e. by rewrite lookup_insert_eq.
    + destruct (Ha i s Hi) as (e & He & Hann). destruct (ad_outbox _ _ _ Hx) as (e1 & _ & Hn & ->).
      exists e. rewrite lookup_insert_ne; [done|]. intros E. rewrite E in Hn. congruence.
Qed.

Definition flows (d d' : Db) : Prop := flow_inv d' /\ carried d d'.

Lemma runs_carried k d d' i : runs_follow k d d' -> match db_runs d !! i, db_runs d' !! i with
  | Some r, Some r' => follows r r' | None, None => True | _, _ => False end.
Proof.
  intros (H1 & H2 & H3). destruct (decide (i = k)) as [->|Hne].
  - destruct (db_runs d !! k) as [r|] eqn:E.
    + destruct (H3 r eq_refl) as (r' & -> & ?). done.
    + destruct (db_runs d' !! k) as [r'|] eqn:E'; [|done]. by destruct (H2 r' eq_refl) as (? & ? & _).
  - rewrite H1 by done. destruct (db_runs d !! i); [by left|done].
Qed.

Lemma carried_same d d' : db_runs d' = db_runs d -> db_steps d' = db_steps d ->
  tables_keep (db_tables d) (db_tables d') -> carried d d'.
Proof.
  intros E Es Ht. split; [|done|].
  - intros i. rewrite E. destruct (db_runs d !! i); [by left|done].
  - apply announced_kept; [|done]. rewrite Es. eauto.
Qed.

Lemma flows_refl d : flow_inv d -> flows d d.
Proof. intros Hf. split; [done|]. by apply carried_same. Qed.
#[local] Hint Extern 0 (flows _ _) => apply flows_refl; assumption : core.

Lemma steps_same n row s : steps n (fst (SearchStep_mark_persisted row)) s -> same_step row s.
Proof.
  intros Hs. apply step_star in Hs.
  apply (star_relation step_mutates step_fixed step_mutates_fixed) in Hs as (? & ? & ? & ? & ? & ? & _).
  done.
Qed.

Lemma runs_follow_same k d d' : db_runs d' = db_runs d -> runs_follow k d d'.
Proof. intros E. unfold runs_follow. rewrite E. split; [done|]. split; intros r Hr; exists r; (split; [done|by left]). Qed.

Lemma runs_follow_insert k d d' r x : db_runs d !! k = Some r -> star run_step (reloaded r) x ->
  db_runs d' = <[k := reloaded x]> (db_runs d) -> runs_follow k d d'.
Proof.
  intros Hr Hs E. unfold runs_follow. rewrite E. split; [intros; by rewrite lookup_insert_ne|].
  rewrite lookup_insert_eq. split.
  - intros y [= <-]. exists r. split; [done|]. right. by exists x.
  - intros y Hy. simplify_eq. exists (reloaded x). split; [done|]. right. by exists x.
Qed.

Lemma quick_move d d' i n row cur : flow_inv d -> db_steps d !! i = Some row -> ~ finished row ->
  steps n (fst (SearchStep_mark_persisted row)) cur ->
  (step_status cur = StepStatus_RETRY_WAIT -> exists t, step_retry_at cur = Some t /\ dt_aware t = true) ->
  db_steps d' = <[i := saved cur row]> (db_steps d) -> runs_follow (step_run_id row) d d' ->
  (finished cur -> forall r', db_runs d' !! step_run_id row = Some r' -> SearchRun_is_terminal r' = true) ->
  db_tables d' = db_tables d -> db_inv d' -> owned d' -> flows d d'.
Proof.
  intros Hf Hi Ho Hs Hre Hd Hr Hend Htab Hdb Hown.
  split; [|split; [intros; by eapply runs_carried|by rewrite Htab|]]; cycle 1.
  { apply announced_kept; [|by rewrite Htab]. intros k t. rewrite Hd.
    intros [[<- <-]|[_ Hk]]%lookup_insert_Some; [exists i, row|exists k, t]; done. }
  destruct (fl_run d Hf i row Hi) as (r & Hrun & Hten).
  destruct (fl_runs d Hf _ r Hrun) as (Hid & _).
  apply (moved_inv d d' d i row (saved cur row) cur r StepType_ROUTE Hf); [|done|exact Hown]. split; try done.
  - split; [by eapply steps_same|done].
  - constructor.
  - intros r' Hr' Ht. left. exists row. split; [apply steps_of_elem; eauto|].
    unfold ended, current_status. rewrite (proj1 (steps_same _ _ _ Hs)), Z.eqb_refl.
    destruct (step_terminal (step_status cur)) eqn:E; [|done]. by rewrite (Hend E r' Hr') in Ht.
Qed.

(** What a call of the hook gives the step that ends. *)
Definition advanced (run : SearchRun) (cur : SearchStep) (d dh : Db) (run' : SearchRun) : Prop :=
  (exists T, grows run (may_add run cur d T) d dh /\
     (live run cur dh \/ clash run (may_add run cur d T) d \/ SearchRun_is_terminal run' = true)) /\
  star run_step run run' /\ (~ finished cur -> db_steps dh = db_steps d) /\ tables_keep (db_tables d) (db_tables dh).

Lemma hook_move d d' dh i n row cur r0 run run' : flow_inv d -> db_steps d !! i = Some row -> ~ finished row ->
  steps n (fst (SearchStep_mark_persisted row)) cur ->
  (step_status cur = StepStatus_RETRY_WAIT -> exists t, step_retry_at cur = Some t /\ dt_aware t = true) ->
  db_runs d !! step_run_id row = Some r0 -> star run_step (reloaded r0) run -> advanced run cur d dh run' ->
  db_steps d' = <[i := saved cur row]> (db_steps dh) ->
  db_runs d' = <[step_run_id row := reloaded run']> (db_runs d) -> db_tables d' = db_tables dh ->
  db_inv d' -> owned d' -> flows d d'.
Proof.
  intros Hf Hi Ho Hs Hre Hr0 Hsr ((T & Hg & Hw) & Hsr' & Hq & Hk) Hd Hruns Htab Hdb Hown.
  assert (runs_follow (step_run_id row) d d') as Hfollow
    by (eapply runs_follow_insert; [done| |exact Hruns]; by eapply star_trans).
  split; [|split; [intros; by eapply runs_carried|by rewrite Htab|]]; cycle 1.
  { intros Ha. pose proof (grows_announced _ _ _ _ Hg Ha) as Hah. revert Hah.
    apply announced_kept; [|by rewrite Htab]. intros k t. rewrite Hd.
    assert (db_steps dh !! i = Some row) as Hih by (by eapply grows_keep).
    intros [[<- <-]|[_ Hkk]]%lookup_insert_Some; [exists i, row|exists k, t]; done. }
  destruct (fl_run d Hf i row Hi) as (r & Hrun & Hten). rewrite Hr0 in Hrun. simplify_eq.
  destruct (fl_runs d Hf _ r Hr0) as (Hid & _). destruct (star_run_step _ _ Hsr) as (I1 & I2 & _).
  apply (moved_inv d d' dh i row (saved cur row) cur run T Hf); [|done|exact Hown]. split; try done.
  - split; [by eapply steps_same|done].
  - split; [rewrite I1; exact Hid|rewrite I2; exact Hten].
  - intros r' Hr' Ht. rewrite Hruns, lookup_insert_eq in Hr'. injection Hr' as <-.
    destruct Hw as [|[|Hterm]]; [by left|by right|]. change (SearchRun_is_terminal run' = false) in Ht. congruence.
Qed.

(** [save_run] opens the save of a run, [save_step] that of a step. *)
Ltac save_run Hr0 Hid Hstar Hv :=
  let Hsv := fresh "Hsv" in
  pose proof (fun A => runs_save_flow _ _ _ _ _ _ A Hid Hstar Hv) as Hsv; specialize (Hsv Hr0);
  clear Hv; match type of Hsv with ?v = _ => subst v end.

Ltac save_step Hf Hrow Hl Hsteps Hgrow Hs :=
  let Hsv := fresh "Hsv" in
  pose proof (fun G => save_effect _ _ _ _ _ _ _ _ (fl_db _ Hf) Hrow Hl Hsteps G Hs) as Hsv;
  specialize (Hsv Hgrow); destruct Hsv as (_ & Hsv & _); clear Hs; match type of Hsv with ?v = _ => subst v end.

Section Coordinated.
Context `{PyText} (uuid5 : UUID -> pystr -> UUID) (sha256_utf8 : pystr -> pystr) (env : HookEnv) (cf : StoreConfig).
#[local] Abbreviation hook := (coordinator uuid5 sha256_utf8 env).

(** The hypotheses of the hook's outcome, from the invariant. *)
Lemma hook_context d i row cur r0 run : flow_inv d -> db_steps d !! i = Some row -> same_step row cur ->
  db_runs d !! step_run_id row = Some r0 -> star run_step (reloaded r0) run ->
  step_id row = step_id cur /\ db_steps d !! step_id cur = Some row /\ step_type row = step_type cur /\
  step_tenant_id row = run_tenant_id run /\ step_run_id row = run_id run /\
  key_for (step_type cur) (step_key cur) /\ step_type cur <> StepType_COMPLETE.
Proof.
  intros Hf Hi (C1 & C2 & C3 & C4 & C5 & _) Hr0 Hsr.
  destruct (fl_run d Hf i row Hi) as (r & Hrun & Hten). rewrite Hr0 in Hrun. simplify_eq.
  destruct (fl_runs d Hf _ r Hr0) as (Hid & _). destruct (star_run_step _ _ Hsr) as (I1 & I2 & _).
  pose proof (fl_key d Hf i row Hi) as Hk. pose proof (key_run d i row Hf Hi) as Hki.
  simpl in I1, I2. ksplit; try congruence.
  intros E. rewrite E in C5. by rewrite <- C5 in Hk.
Qed.

Lemma success_advanced d i n row cur r0 run result dh run' : flow_inv d -> db_steps d !! i = Some row ->
  steps n (fst (SearchStep_mark_persisted row)) cur -> finished cur ->
  db_runs d !! step_run_id row = Some r0 -> star run_step (reloaded r0) run ->
  on_success (CompletionHook := hook) run cur result d = Ok (dh, run') -> advanced run cur d dh run'.
Proof.
  intros Hf Hi Hs Hfin Hr0 Hsr Hh. pose proof (steps_same _ _ _ Hs) as Hsame.
  pose proof (hook_context d i row cur r0 run Hf Hi Hsame Hr0 Hsr) as (H1 & H2 & H3 & H4 & H5 & H6 & H7).
  pose proof (on_success_rows (CompletionHook := hook) _ _ _ _ _ _ Hh) as [_ Hst].
  pose proof (run_hook_keeps _ _ _ _ _ (complete_success_lawful uuid5 sha256_utf8 env cur result) Hh) as Hkeep.
  split; [|done]. apply run_hook_ok_inv in Hh as (h' & [] & E & <- & <-).
  apply (complete_success_finishing env run cur row d H2 H3 H4 H5 uuid5 sha256_utf8 H6 result H7 _ _ _ E).
  by split.
Qed.

Lemma failure_advanced d i n row cur r0 run error disposition dh run' : flow_inv d -> db_steps d !! i = Some row ->
  steps n (fst (SearchStep_mark_persisted row)) cur ->
  (disposition = Disposition_RETRY_SCHEDULED \/ finished cur) ->
  (disposition = Disposition_RETRY_SCHEDULED -> ~ finished cur) ->
  db_runs d !! step_run_id row = Some r0 -> star run_step (reloaded r0) run ->
  on_failure (CompletionHook := hook) run cur error disposition d = Ok (dh, run') -> advanced run cur d dh run'.
Proof.
  intros Hf Hi Hs Hdis Hret Hr0 Hsr Hh. pose proof (steps_same _ _ _ Hs) as Hsame.
  pose proof (hook_context d i row cur r0 run Hf Hi Hsame Hr0 Hsr) as (H1 & H2 & H3 & H4 & H5 & H6 & H7).
  pose proof (on_failure_rows (CompletionHook := hook) _ _ _ _ _ _ _ Hh) as [_ Hst].
  pose proof (run_hook_keeps _ _ _ _ _ (complete_failure_lawful env cur error disposition) Hh) as Hkeep.
  split; [|split; [done|split; [|done]]].
  - apply run_hook_ok_inv in Hh as (h' & [] & E & <- & <-).
    assert (disposition = Disposition_RETRY_SCHEDULED -> step_terminal (step_status cur) = false) as Hopen.
    { intros Hr. apply Hret in Hr. unfold finished in Hr. by destruct (step_terminal _). }
    by apply (complete_failure_finishing env run cur row d H1 H2 H3 H4 H5 error disposition H7 Hopen _ _ _ E).
  - intros Hn. destruct Hdis as [->|]; [|done]. apply run_hook_ok_inv in Hh as (h' & [] & E & <- & _).
    unfold complete_failure in E. simpl in E. unfold mbind, M_bind, the_run, mret, M_ret in E. by simplify_eq.
Qed.

(** Past the hard deadline a claim ends the run. *)
Lemma late_flow d d' i now row s0 s r0 x e y z d1 d2 : flow_inv d -> db_steps d !! i = Some row -> step_loadable row ->
  ~ finished row -> db_runs d !! step_run_id row = Some r0 ->
  SearchStep_start (fst (SearchStep_mark_persisted row)) = (s0, Ok tt) -> SearchStep_fail s0 = (s, Ok tt) ->
  SearchRun_fail StopReason_TIME_BUDGET now (reloaded r0) = (x, Ok tt) ->
  steps_save s d = (d1, Ok y) -> runs_save x d1 = (d2, Ok z) -> d' = set_events e d2 ->
  db_inv d' -> owned d' -> flows d d'.
Proof.
  intros Hf Hrow Hl Hopen Hr0 Hx Hy Hz Hs Hv -> Hdb Hown.
  pose proof (fail_status _ _ Hy) as Hcs. pose proof (fail_terminal _ _ _ _ Hz) as Hterm.
  assert (star run_step (reloaded r0) x) as Hstar by (apply star_one; by exists (RunFail StopReason_TIME_BUDGET now)).
  assert (run_id r0 = step_run_id row) as Hid by apply (fl_runs d Hf _ r0 Hr0).
  pose proof (two_steps _ _ _ StepStart StepFail Hx Hy) as Hsteps.
  save_step Hf Hrow Hl Hsteps (steps_grow_refl (db_steps d)) Hs. save_run Hr0 Hid Hstar Hv.
  apply (quick_move d _ i 2 row s Hf Hrow Hopen Hsteps); try done; try congruence.
  - by eapply runs_follow_insert.
  - intros _ r'. simpl. rewrite lookup_insert_eq. by intros [= <-].
Qed.

(** A step that ends with the hook: its row, the run's row and an event are saved. *)
Lemma hook_flow d d' dh d0 d1 d2 i n row s r0 run run' e y z : flow_inv d -> db_steps d !! i = Some row ->
  step_loadable row -> ~ finished row -> steps (S n) (fst (SearchStep_mark_persisted row)) s ->
  (step_status s = StepStatus_RETRY_WAIT -> exists t, step_retry_at s = Some t /\ dt_aware t = true) ->
  db_runs d !! step_run_id row = Some r0 -> star run_step (reloaded r0) run -> advanced run s d dh run' ->
  hook_adds_only d dh -> db_steps d0 = db_steps dh -> db_runs d0 = db_runs dh ->
  db_tables d0 = db_tables dh ->
  steps_save s d0 = (d1, Ok y) -> runs_save run' d1 = (d2, Ok z) -> d' = set_events e d2 ->
  db_inv d' -> owned d' -> flows d d'.
Proof.
  intros Hf Hrow Hl Hopen Hsteps Hre Hr0 Hsr Hadv (A1 & _ & _ & A4 & A5) E1 E2 E3 Hs Hv -> Hdb Hown.
  assert (steps_grow (db_steps d) (db_steps d0)) as Hgrow by (rewrite E1; by split).
  assert (run_id r0 = step_run_id row) as Hid by apply (fl_runs d Hf _ r0 Hr0).
  assert (star run_step (reloaded r0) run') as Hstar by (eapply star_trans; [done|apply Hadv]).
  save_step Hf Hrow Hl Hsteps Hgrow Hs.
  assert (db_runs d0 !! step_run_id row = Some r0) as Hr0' by (by rewrite E2, A1).
  save_run Hr0' Hid Hstar Hv.
  apply (hook_move d _ dh i (S n) row s r0 run run' Hf Hrow Hopen Hsteps Hre Hr0 Hsr Hadv); try done; simpl.
  - by rewrite E1.
  - by rewrite E2, A1.
Qed.

(** A step that stays open needs no hook. *)
Lemma open_advanced d i n row s r0 run : flow_inv d -> db_steps d !! i = Some row -> ~ finished s ->
  steps n (fst (SearchStep_mark_persisted row)) s -> db_runs d !! step_run_id row = Some r0 ->
  star run_step (reloaded r0) run -> advanced run s d d run.
Proof.
  intros Hf Hrow Hopen Hsteps Hr0 Hsr.
  pose proof (hook_context d i row s r0 run Hf Hrow (steps_same _ _ _ Hsteps) Hr0 Hsr) as (H1 & H2 & _ & H4 & H5 & _).
  split; [|split; [constructor|by split]]. exists StepType_ROUTE. split; [constructor|]. left.
  exists row. split; [apply steps_of_elem; eauto|]. unfold ended, current_status. rewrite H1, Z.eqb_refl.
  unfold finished in Hopen. by destruct (step_terminal _).
Qed.

Lemma claim_flow t i new_id w now d d' r : flow_inv d ->
  store_claim (Hook := hook) cf t i new_id w now d = (d', r) -> flows d d'.
Proof.
  intros Hf Hc. pose proof (claim_effect (Hook := hook) cf _ _ _ _ _ _ _ _ (fl_db d Hf) Hc) as He.
  pose proof (effect_inv _ _ (fl_db d Hf) He) as Hdb.
  pose proof (effect_owned _ _ (fl_db d Hf) (fl_owner d Hf) He) as Hown. clear He.
  destruct r as [r|e]; [|unfold store_claim in Hc; apply transact_raise_inv in Hc as ->; by apply flows_refl].
  unfold store_claim in Hc. finv. destruct a as [step|]; [|by finv].
  destruct E as (row & Hrow & Hl & Ht & ->).
  destruct (decide (step_status row = StepStatus_READY)) as [Hst|Hst];
    [rewrite bool_decide_eq_true_2 in Hc by done | rewrite bool_decide_eq_false_2 in Hc by done];
    cbn [negb] in Hc; [|by finv].
  assert (~ finished row) as Hopen by (unfold finished; by rewrite Hst).
  finv. destruct a as [run|]; [|by finv].
  match goal with Hr : exists _, _ |- _ => destruct Hr as (r0 & Hr0 & Hten & Hrl & ->) end.
  simpl in Hr0. destruct (SearchRun_is_terminal (reloaded r0)) eqn:Eterm.
  { finv. match goal with Hx : SearchStep_cancel _ = (?s, _), Hs : steps_save ?s _ = _ |- _ =>
      pose proof (cancel_status _ _ Hx) as Hcs;
      destruct (save_effect d d 0 i row s _ _ (fl_db d Hf) Hrow Hl (one_step _ _ StepCancel Hx)
                  (steps_grow_refl _) Hs) as (_ & -> & _);
      apply (quick_move d _ i 1 row s Hf Hrow Hopen (one_step _ _ StepCancel Hx)); try done; try congruence
    end.
    - by apply runs_follow_same.
    - intros _ r' Hr'. simpl in Hr'. rewrite Hr0 in Hr'. by simplify_eq. }
  finv. match type of Hc with (if ?b then _ else _) _ = _ => destruct b end.
  { finv. by eapply late_flow. }
  finv. match type of Hc with (if ?b then _ else _) _ = _ => destruct b end.
  - unfold claim_past_phase in Hc. finv.
    match goal with Hx : SearchStep_start _ = (?s0, _), Hy : SearchStep_fail ?s0 = (?s, _),
      Hsr : star run_step _ ?run, Hh : @on_failure _ ?run ?s _ _ _ = Ok _ |- _ =>
      pose proof (fail_status _ _ Hy) as Hcs;
      pose proof (two_steps _ _ _ StepStart StepFail Hx Hy) as Hsteps;
      assert (finished s) as Hfin by (unfold finished; by rewrite Hcs);
      pose proof (on_failure_rows (CompletionHook := hook) _ _ _ _ _ _ _ Hh) as [Hadds _];
      pose proof (failure_advanced d i 2 row s r0 run _ Disposition_FAILED _ _ Hf Hrow Hsteps (or_intror Hfin)
        ltac:(discriminate) Hr0 Hsr Hh) as Hadv
    end.
    eapply (hook_flow d _ _ _ _ _ i 1 row); try done. congruence.
  - unfold claim_lease in Hc. finv.
    match type of Hc with (match ?m with _ => _ end) _ = _ => destruct m as [s [att|e]] eqn:Ec end; [|finv].
    apply lease_claim_ok_inv in Ec as (Hx & _). finv.
    match goal with Ha : attempts_add _ _ = _ |- _ => apply attempts_add_ok_inv in Ha as [_ ->] end.
    pose proof (start_status _ _ Hx) as Hcs. pose proof (one_step _ _ StepStart Hx) as Hsteps.
    assert (~ finished s) as Hopen' by (unfold finished; by rewrite Hcs).
    match goal with Hsr : star run_step _ ?run |- _ =>
      pose proof (open_advanced d i 1 row s r0 run Hf Hrow Hopen' Hsteps Hr0 Hsr) as Hadv end.
    match goal with Hs : steps_save s ?d0 = _ |- _ => eapply (hook_flow d _ d d0 _ _ i 0 row s) end;
      try done; [congruence|apply hook_adds_only_refl].
Qed.

(** What a worker that still owns its attempt works on. *)
Lemma running_facts c d s : flow_inv d -> held d c -> running_step c d = (d, Ok (Some s)) ->
  exists row, db_steps d !! at_step_id c = Some row /\ step_loadable row /\
    s = fst (SearchStep_mark_persisted row) /\ ~ finished row /\ at_run_id c = step_run_id row.
Proof.
  intros Hf Hh Hr. apply (running_step_ok_inv _ _ _ _ Hh) in Hr as (_ & row & r & H1 & H2 & H3 & H4 & H5 & H6 & H7).
  exists row. ksplit; [unfold finished; by rewrite H4|].
  destruct H6 as (_ & _ & S3 & S4 & _). rewrite S4 in H1. destruct (fl_owner d Hf _ r row H5 H1). congruence.
Qed.

Lemma attempts_complete_rows a d d' x : attempts_complete a d = (d', Ok x) -> exists m, d' = set_attempts m d.
Proof. intros (row & _ & _ & _ & ->)%attempts_complete_ok_inv. eauto. Qed.

Lemma succeed_flow c result now d d' r : flow_inv d -> held d c ->
  store_succeed (Hook := hook) c result now d = (d', r) -> flows d d'.
Proof.
  intros Hf Hheld Hc. pose proof (succeed_effect (Hook := hook) _ _ _ _ _ _ (fl_db d Hf) Hheld Hc) as He.
  pose proof (effect_inv _ _ (fl_db d Hf) He) as Hdb.
  pose proof (effect_owned _ _ (fl_db d Hf) (fl_owner d Hf) He) as Hown. clear He.
  destruct r as [r|e]; [|unfold store_succeed in Hc; apply transact_raise_inv in Hc as ->; by apply flows_refl].
  unfold store_succeed in Hc. finv.
  match goal with Hr : running_step _ _ = _ |- _ =>
    pose proof (running_step_ok_inv _ _ _ _ Hheld Hr) as [-> _];
    destruct a as [step|]; [|by finv];
    apply (running_facts _ _ _ Hf Hheld) in Hr as (row & Hrow & Hl & -> & Hopen & Howner) end.
  finv. destruct a as [run|]; [|by finv].
  match goal with Hr : exists _, _ |- _ => destruct Hr as (r0 & Hr0 & Hten & Hrl & ->) end.
  rewrite Howner in Hr0. destruct (SearchRun_is_terminal (reloaded r0)) eqn:Eterm.
  - finv. match goal with Ha : attempts_complete _ _ = _ |- _ => apply attempts_complete_rows in Ha as [m ->] end.
    match goal with Hx : SearchStep_cancel _ = (?s, _), Hs : steps_save ?s _ = _ |- _ =>
      pose proof (cancel_status _ _ Hx) as Hcs; pose proof (one_step _ _ StepCancel Hx) as Hsteps;
      save_step Hf Hrow Hl Hsteps (steps_grow_refl (db_steps d)) Hs;
      apply (quick_move d _ _ 1 row s Hf Hrow Hopen Hsteps); try done; try congruence end.
    + by apply runs_follow_same.
    + intros _ r'. simpl. rewrite Hr0. by intros [= <-].
  - finv. match goal with Ha : attempts_complete _ _ = _ |- _ => apply attempts_complete_rows in Ha as [m ->] end.
    match goal with Hx : SearchStep_succeed ?o _ = (?s, _), Hu : SearchRun_record_usage ?us _ = (?run, _),
      Hh : @on_success _ ?run ?s _ _ = Ok _ |- _ =>
      destruct (succeed_status _ _ _ Hx) as [Hcs _]; pose proof (one_step _ _ (StepSucceed o) Hx) as Hsteps;
      assert (finished s) as Hfin by (unfold finished; by rewrite Hcs);
      assert (star run_step (reloaded r0) run) as Hsr by (apply star_one; by exists (RunRecordUsage us));
      pose proof (on_success_rows (CompletionHook := hook) _ _ _ _ _ _ Hh) as [Hadds _];
      pose proof (success_advanced d _ 1 row s r0 run _ _ _ Hf Hrow Hsteps Hfin Hr0 Hsr Hh) as Hadv end.
    match goal with Hs : steps_save ?s (set_attempts ?m ?dh) = _ |- _ =>
      eapply (hook_flow d _ dh (set_attempts m dh) _ _ _ 0 row s) end; try done. congruence.
Qed.

Lemma flow_same d d' : flow_inv d -> db_inv d' -> owned d' -> db_steps d' = db_steps d -> db_runs d' = db_runs d ->
  tables_keep (db_tables d) (db_tables d') -> flows d d'.
Proof.
  intros Hf Hdb Hown Es Er Ht. split; [|by apply carried_same]. revert Hf Hdb Hown Es Er. clear Ht.
  intros [F1 F2 F3 F4 F5 F6 F7 F8 F9 F10 F11] Hdb Hown Es Er. unfold owned in Hown. rewrite Es in Hown.
  split; unfold siblings in *; rewrite ?Es, ?Er; done.
Qed.

Lemma renew_flow c now d d' r : flow_inv d -> held d c ->
  store_renew cf c now d = (d', r) -> flows d d'.
Proof.
  intros Hf Hheld Hc. pose proof (renew_effect cf _ _ _ _ _ (fl_db d Hf) Hheld Hc) as He.
  pose proof (effect_inv _ _ (fl_db d Hf) He) as Hdb.
  pose proof (effect_owned _ _ (fl_db d Hf) (fl_owner d Hf) He) as Hown. clear He.
  destruct r as [r|e]; [|unfold store_renew in Hc; by apply transact_raise_inv in Hc as ->].
  unfold store_renew in Hc. finv.
  match goal with Hr : running_step _ _ = _ |- _ =>
    pose proof (running_step_ok_inv _ _ _ _ Hheld Hr) as [-> _] end.
  destruct a as [step|]; [|by finv]. finv.
  do 2 (match goal with Hx : (if ?b then _ else _) _ = _ |- _ => destruct b end; [by finv|finv]).
  match goal with Ha : attempts_renew _ _ = _ |- _ => apply attempts_renew_ok_inv in Ha as (? & _ & _ & _ & ->) end.
  by apply (flow_same d).
Qed.

Lemma retry_later_aware t s s' : SearchStep_retry_later t s = (s', Ok tt) ->
  exists t', step_retry_at s' = Some t' /\ dt_aware t' = true.
Proof. unfold SearchStep_retry_later. intros Hr. tinv. simpl. eauto. Qed.

(** How a failed attempt leaves its step. *)
Lemma retry_or_fail_cases c e now run s d d' s' disp ev : retry_or_fail cf c e now run s d = (d', Ok (s', disp, ev)) ->
  d' = d /\ steps 1 s s' /\
  ((disp = Disposition_RETRY_SCHEDULED /\ ~ finished s' /\ exists t, step_retry_at s' = Some t /\ dt_aware t = true) \/
   (disp = Disposition_FAILED /\ step_status s' = StepStatus_FAILED)).
Proof.
  unfold retry_or_fail. intros Hr. finv.
  match goal with Hb : (if ?b then _ else _) d = (?d1, Ok ?again) |- _ =>
    assert (d1 = d) as -> by (destruct b; by finv); destruct again end; finv.
  - match goal with Hr : SearchStep_retry_later _ _ = _ |- _ =>
      pose proof (retry_status _ _ _ Hr) as Hs; pose proof (retry_later_aware _ _ _ Hr);
      apply (one_step _ _ (StepRetryLater _)) in Hr end.
    split; [done|]. split; [done|]. left. ksplit. unfold finished. by rewrite Hs.
  - match goal with Hr : SearchStep_fail _ = _ |- _ =>
      pose proof (fail_status _ _ Hr) as Hs; apply (one_step _ _ StepFail) in Hr end.
    split; [done|]. split; [done|]. by right.
Qed.

Lemma fail_flow c error now d d' r : flow_inv d -> held d c ->
  store_fail (Hook := hook) cf c error now d = (d', r) -> flows d d'.
Proof.
  intros Hf Hheld Hc. pose proof (fail_effect (Hook := hook) cf _ _ _ _ _ _ (fl_db d Hf) Hheld Hc) as He.
  pose proof (effect_inv _ _ (fl_db d Hf) He) as Hdb.
  pose proof (effect_owned _ _ (fl_db d Hf) (fl_owner d Hf) He) as Hown. clear He.
  destruct r as [r|e]; [|unfold store_fail in Hc; apply transact_raise_inv in Hc as ->; by apply flows_refl].
  unfold store_fail in Hc. finv.
  match goal with Hr : running_step _ _ = _ |- _ =>
    pose proof (running_step_ok_inv _ _ _ _ Hheld Hr) as [-> _];
    destruct a as [step|]; [|by finv];
    apply (running_facts _ _ _ Hf Hheld) in Hr as (row & Hrow & Hl & -> & Hopen & Howner) end.
  finv. destruct a as [run|]; [|by finv].
  match goal with Hr : exists _, _ |- _ => destruct Hr as (r0 & Hr0 & Hten & Hrl & ->) end.
  rewrite Howner in Hr0. finv.
  match goal with Ho : (if ?b then _ else retry_or_fail _ _ _ _ _ _) d = (?d1, Ok ?o) |- _ =>
    assert (d1 = d /\ steps 1 (fst (SearchStep_mark_persisted row)) (o.1.1) /\
      ((o.1.2 = Disposition_RETRY_SCHEDULED /\ ~ finished o.1.1 /\
          exists t, step_retry_at o.1.1 = Some t /\ dt_aware t = true) \/
       (o.1.2 <> Disposition_RETRY_SCHEDULED /\ finished o.1.1 /\ step_status o.1.1 <> StepStatus_RETRY_WAIT)))
      as (-> & Hsteps & Hcase);
    [destruct b; [finv; match goal with Hx : SearchStep_cancel _ = _ |- _ =>
         pose proof (cancel_status _ _ Hx) as Hs; apply (one_step _ _ StepCancel) in Hx end;
         (split; [done|]); (split; [done|]); right; simpl; unfold finished; rewrite Hs; done
       | destruct o as [[s1 disp1] ev1]; apply retry_or_fail_cases in Ho as (-> & ? & [?|[-> Hs]]);
         (split; [done|]); (split; [done|]); [by left|right; simpl; unfold finished; rewrite Hs; done]]|];
    clear Ho; destruct o as [[s disp] ev]; simpl in Hsteps, Hcase
  end.
  finv. match goal with Ha : attempts_complete _ _ = _ |- _ => apply attempts_complete_rows in Ha as [m ->] end.
  match goal with Hh : @on_failure _ _ s _ _ _ = Ok _ |- _ =>
    pose proof (on_failure_rows (CompletionHook := hook) _ _ _ _ _ _ _ Hh) as [Hadds _];
    assert (disp = Disposition_RETRY_SCHEDULED \/ finished s) as D1 by (destruct Hcase as [(? & _)|(_ & ? & _)]; auto);
    assert (disp = Disposition_RETRY_SCHEDULED -> ~ finished s) as D2
      by (destruct Hcase as [(_ & ? & _)|(? & _)]; [done|intros; congruence]);
    pose proof (failure_advanced d _ 1 row s r0 _ _ disp _ _ Hf Hrow Hsteps D1 D2 Hr0 (star_refl _ _) Hh) as Hadv end.
  match goal with Hs : steps_save s (set_attempts ?m ?dh) = _ |- _ =>
    eapply (hook_flow d _ dh (set_attempts m dh) _ _ _ 0 row s) end; try done; [|constructor].
  intros Hst. destruct Hcase as [(_ & _ & ?)|(_ & _ & ?)]; [done|congruence].
Qed.

Lemma make_ready_flow cand now d d' r : flow_inv d -> scanner_make_ready cand now d = (d', r) -> flows d d'.
Proof.
  intros Hf Hc. pose proof (make_ready_effect _ _ _ _ _ (fl_db d Hf) Hc) as He.
  pose proof (effect_inv _ _ (fl_db d Hf) He) as Hdb.
  pose proof (effect_owned _ _ (fl_db d Hf) (fl_owner d Hf) He) as Hown. clear He.
  destruct r as [r|e]; [|unfold scanner_make_ready in Hc; apply transact_raise_inv in Hc as ->; by apply flows_refl].
  unfold scanner_make_ready in Hc. finv. destruct a as [step|]; [|by finv].
  destruct E as (row & Hrow & Hl & _ & ->).
  change (step_status (fst (SearchStep_mark_persisted row))) with (step_status row) in Hc.
  change (step_retry_at (fst (SearchStep_mark_persisted row))) with (step_retry_at row) in Hc.
  destruct ((rc_status cand is StepStatus_RETRY_WAIT) && (step_status row is StepStatus_RETRY_WAIT)) eqn:E1.
  - bools. assert (~ finished row) as Hopen by (unfold finished; by rewrite H1).
    destruct (step_retry_at row) as [t|]; [|by finv].
    finv. match type of Hc with (if ?b then _ else _) _ = _ => destruct b end; [by finv|].
    finv. match goal with Hx : SearchStep_make_ready _ = (?s, _), Hs : steps_save ?s _ = _ |- _ =>
      pose proof (make_ready_status _ _ Hx) as Hcs; pose proof (one_step _ _ StepMakeReady Hx) as Hsteps;
      save_step Hf Hrow Hl Hsteps (steps_grow_refl (db_steps d)) Hs;
      apply (quick_move d _ _ 1 row s Hf Hrow Hopen Hsteps); try done; try congruence end.
    + by apply runs_follow_same.
    + unfold finished. rewrite Hcs. done.
  - match type of Hc with (if ?b then _ else _) _ = _ => destruct b eqn:E2 end; [|by finv].
    bools. assert (~ finished row) as Hopen by (unfold finished; by rewrite H1).
    finv. destruct (current_lease (rc_step_id cand) d) as [lease|]; [|by finv].
    match type of Hc with (if ?b then _ else _) _ = _ => destruct b end; [by finv|].
    finv. match goal with Hx : SearchStep_release_expired_lease _ = (?s, _), Hs : steps_save ?s _ = _ |- _ =>
      pose proof (release_status _ _ Hx) as Hcs; pose proof (one_step _ _ StepReleaseExpiredLease Hx) as Hsteps;
      save_step Hf Hrow Hl Hsteps (steps_grow_refl (db_steps d)) Hs;
      apply (quick_move d _ _ 1 row s Hf Hrow Hopen Hsteps); try done; try congruence end.
    + by apply runs_follow_same.
    + unfold finished. rewrite Hcs. done.
Qed.

Lemma store_flow d d' : flow_inv d -> db_step (Hook := hook) cf d d' -> flows d d'.
Proof. intros Hf []; eauto using claim_flow, succeed_flow, renew_flow, fail_flow, make_ready_flow. Qed.
End Coordinated.

(** ** Submissions and cancellations *)

Lemma ready_inv d d' : db_inv d -> steps_grow (db_steps d) (db_steps d') -> db_attempts d' = db_attempts d -> db_inv d'.
Proof.
  intros Hinv [G1 G2] Ha. pose proof (match_same d d' Ha) as Hm.
  assert (forall i s, db_steps d' !! i = Some s -> db_steps d !! i = Some s \/
    (step_id s = i /\ step_status s = StepStatus_READY /\ step_loadable s)) as Hcases.
  { intros i s Hi. destruct (db_steps d !! i) as [t|] eqn:E; [left|right; by apply G2].
    by rewrite <- Hi, (G1 i t E). }
  destruct (attempts_ok d d' Hinv Hm) as (A1 & A2 & A3); [intros j [t Ht]; eauto|].
  split; [| |exact A1|exact A2|exact A3| | |].
  - intros i s [Hi|(? & _)]%Hcases; [by eapply inv_step_key|done].
  - intros i s [Hi|(_ & _ & ?)]%Hcases; [by eapply inv_loadable|done].
  - intros a [Hk Hc]. rewrite Ha in Hk. destruct (inv_incomplete d Hinv a (conj Hk Hc)) as (t & Ht & Hr & Hn).
    exists t. rewrite (match_latest d d' _ Hm). auto.
  - intros i s [Hi|(_ & Hs & _)]%Hcases Hr; [|congruence].
    destruct (inv_running d Hinv i s Hi Hr) as (a & [Hk Hc] & Hst). exists a. unfold incomplete. by rewrite Ha.
  - intros i s o [Hi|(_ & Hs & _)]%Hcases Hsu Ho; [|congruence].
    apply (output_kept d d'); [done|]. by eapply inv_output.
Qed.

Lemma snapshot_aware policy mode created_at b : SearchPolicy_snapshot policy mode created_at = Ok b ->
  dt_aware (bs_hard_deadline_at b) = true.
Proof.
  unfold SearchPolicy_snapshot, BudgetSnapshot_new. intros Hs. tinv. simpl. bools.
  by destruct (dt_aware created_at).
Qed.

Lemma SearchRun_new_ok_inv id t c m rr routing b r :
  SearchRun_new id t c m rr routing b BudgetUsage_zero None None 0 = Ok r ->
  run_id r = id /\ run_tenant_id r = t /\ run_response_run_id r = rr /\ run_message_id r = m /\
  run_conversation_id r = c /\ run_status r = RunStatus_QUEUED /\ run_budget r = b /\ run_loadable r.
Proof. unfold SearchRun_new. intros Hs. minv. bools. ksplit. Qed.

(** The first step of a run. *)
Definition first_step (run : SearchRun) (s : SearchStep) : Prop :=
  step_tenant_id s = run_tenant_id run /\ step_run_id s = run_id run /\ step_key s = u "route" /\
  step_type s = StepType_ROUTE /\ step_plan_revision s = 1 /\ step_status s = StepStatus_READY /\ step_loadable s.

(** The rows of an accepted submission. *)
Record submitted (c : SubmitMessageCommand) (ids : SubmissionIds) (created_at : datetime) (d d' : Db)
    (run : SearchRun) (s : SearchStep) : Prop := {
  sb_message : message_conflict (draft_message c ids created_at) (tb_messages (db_tables d)) = false /\
    tb_messages (db_tables d') = <[si_message ids := draft_message c ids created_at]> (tb_messages (db_tables d));
  sb_response : tb_responses (db_tables d) !! si_response ids = None /\
    tb_responses (db_tables d') = <[si_response ids := draft_response c ids created_at]> (tb_responses (db_tables d));
  sb_run : run_id run = si_run ids /\ run_tenant_id run = sm_tenant_id c /\ run_message_id run = si_message ids /\
    run_response_run_id run = si_response ids /\ run_status run = RunStatus_QUEUED /\ run_loadable run /\
    deadline_aware run;
  sb_runs_new : db_runs d !! si_run ids = None /\ db_runs d' = <[si_run ids := run]> (db_runs d) /\
    (forall i row, db_runs d !! i = Some row -> run_response_run_id row <> si_response ids);
  sb_step : step_id s = si_step ids /\ first_step run s;
  sb_steps_new : db_steps d !! si_step ids = None /\ db_steps d' = <[si_step ids := s]> (db_steps d);
  sb_attempts_same : db_attempts d' = db_attempts d;
  sb_outbox_new : exists e, announces s e /\ tb_outbox (db_tables d) !! om_id (ob_message e) = None /\
    tb_outbox (db_tables d') = <[om_id (ob_message e) := e]> (tb_outbox (db_tables d));
  sb_conversations : tb_conversations (db_tables d') = tb_conversations (db_tables d)
}.

Section Service.
Context (sha256_utf8 : pystr -> pystr).

Lemma submit_ok_inv policy c ids created_at created d d' r :
  submit_message sha256_utf8 policy c ids created_at created d = (d', Ok r) ->
  exists h, normalized_content_sha256 sha256_utf8 (sm_content c) = Ok h /\ sr_request_hash r = Some h /\
  ((exists e, find_submission sha256_utf8 (sm_tenant_id c) (sm_conversation_id c) (strip (sm_idempotency_key c)) d = Ok (Some e) /\
      d' = d /\ sr_request_hash e = Some h /\
      r = {| sr_message_id := sr_message_id e; sr_response_run_id := sr_response_run_id e;
             sr_search_run_id := sr_search_run_id e; sr_status := sr_status e; sr_duplicate := true;
             sr_request_hash := Some h |}) \/
   (find_submission sha256_utf8 (sm_tenant_id c) (sm_conversation_id c) (strip (sm_idempotency_key c)) d = Ok None /\
      (exists run s, submitted c ids created_at d d' run s) /\
      r = {| sr_message_id := si_message ids; sr_response_run_id := si_response ids; sr_search_run_id := si_run ids;
             sr_status := RunStatus_QUEUED; sr_duplicate := false; sr_request_hash := Some h |})).
Proof.
  unfold submit_message. intros Hs. minv.
  match goal with Hh : normalized_content_sha256 _ _ = Ok ?h |- _ => rename Hh into Hhash; exists h end.
  unfold normalized_content_sha256 in Hhash. rewrite strip_idem in Hhash. split; [exact Hhash|].
  apply transact_ok_inv in Hs. minv.
  match goal with Hx : find_submission _ _ _ _ _ = Ok ?o |- _ => rename Hx into Hfound; destruct o as [e|] end.
  - minv. bools. split; [done|]. left. exists e. ksplit.
  - minv. split; [done|]. right. split; [done|].
    repeat match goal with
    | Hx : OutboxMessage_new _ = Ok _ |- _ => apply OutboxMessage_new_ok_inv in Hx as ->
    | Hx : SearchStep_new _ _ _ _ _ _ _ _ _ = Ok _ |- _ => apply SearchStep_new_ok_inv in Hx as (N1 & N2 & N3 & N4 & N5 & N6 & N7 & _ & _ & N8)
    | Hx : SearchRun_new _ _ _ _ _ _ _ _ _ _ _ = Ok _ |- _ => apply SearchRun_new_ok_inv in Hx as (R1 & R2 & R3 & R4 & R5 & R6 & R7 & R8)
    | Hx : SearchPolicy_snapshot _ _ _ = Ok _ |- _ => apply snapshot_aware in Hx
    | Hx : add_message _ _ = _ |- _ => apply add_message_ok_inv in Hx as (A1 & ->)
    | Hx : responses_add _ _ = _ |- _ => apply responses_add_ok_inv in Hx as (A2 & ->)
    | Hx : runs_add _ _ = _ |- _ => apply runs_add_ok_inv in Hx as (A3 & A4 & ->)
    | Hx : steps_add _ _ _ = _ |- _ => apply steps_add_ok_inv in Hx as (A5 & A6 & ->)
    | Hx : outbox_add _ _ = _ |- _ => apply outbox_add_ok_inv in Hx as (A7 & e & A8 & A9 & ->)
    | Hx : events_add _ _ = _ |- _ => unfold events_add in Hx; minv
    end.
    match goal with Hx : run_id ?run = _, Hy : step_id ?s = _ |- _ => split; [exists run, s|] end; [|by rewrite R6].
    rewrite ?N1, ?R1, ?R3 in *. split; simpl; ksplit.
    + unfold first_step. rewrite R1, R2. ksplit.
    + exists e. unfold announces. rewrite A8, N1, N2. simpl. ksplit.
Qed.
End Service.

Lemma submitted_flow c ids created_at d d' run s : flow_inv d -> submitted c ids created_at d d' run s -> flow_inv d'.
Proof.
  intros Hf [_ _ (R1 & R2 & _ & _ & R5 & R6 & R7) (N1 & N2 & _) (I1 & S1 & S2 & S3 & S4 & S5 & S6 & S7) (N3 & N4) N5 _ _].
  assert (forall i t, db_steps d !! i = Some t -> step_run_id t <> si_run ids) as Hother.
  { intros i t Hi E. destruct (fl_run d Hf i t Hi) as (r & Hr & _). rewrite E in Hr. congruence. }
  assert (forall i t, db_steps d' !! i = Some t -> (i = si_step ids /\ t = s) \/ db_steps d !! i = Some t) as Hcases.
  { intros i t. rewrite N4. intros [[<- <-]|[_ ?]]%lookup_insert_Some; [by left|by right]. }
  assert (steps_grow (db_steps d) (db_steps d')) as Hgrow.
  { split.
    - intros i t Hi. rewrite N4, lookup_insert_ne; [done|]. intros E. congruence.
    - intros i t [[-> ->]|Hi]%Hcases Hn; [|congruence]. done. }
  assert (forall i j t1 t2, siblings d' i j t1 t2 -> siblings d i j t1 t2 \/ (i = j /\ t1 = s /\ t2 = s)) as Hsib.
  { intros i j t1 t2 (Hi & Hj & Hr). destruct (Hcases i t1 Hi) as [[-> ->]|Hi'], (Hcases j t2 Hj) as [[-> ->]|Hj'].
    - by right.
    - destruct (Hother j t2 Hj'). congruence.
    - destruct (Hother i t1 Hi'). congruence.
    - left. by split. }
  split.
  - eapply ready_inv; [apply Hf|done|done].
  - intros i r. rewrite N2. intros [[<- <-]|[_ Hi]]%lookup_insert_Some; [done|by apply (fl_runs d Hf)].
  - intros i t [[-> ->]|Hi]%Hcases; rewrite N2.
    + exists run. rewrite S2, R1, lookup_insert_eq, S1. done.
    + destruct (fl_run d Hf i t Hi) as (r & Hr & Ht). exists r.
      rewrite lookup_insert_ne; [done|]. intros E. by apply (Hother i t).
  - intros k a t Hk Ht. rewrite N5 in Hk. apply (fl_owner d Hf k a t Hk).
    destruct (inv_attempt_step d (fl_db d Hf) k a Hk) as [t0 Ht0]. rewrite (proj1 Hgrow _ _ Ht0) in Ht. congruence.
  - intros i t [[-> ->]|Hi]%Hcases; [done|by apply (fl_revision d Hf i)].
  - intros i t [[-> ->]|Hi]%Hcases; [by rewrite S4|by apply (fl_key d Hf i)].
  - intros i t [[-> ->]|Hi]%Hcases Hst; [congruence|by apply (fl_retry d Hf i)].
  - intros i j t1 t2 [Hs|(? & _)]%Hsib; [by eapply fl_unique|done].
  - intros i j t1 t2 [Hs|(_ & -> & ->)]%Hsib Hlt; [by eapply fl_stages|lia].
  - intros i j t1 t2 x [Hs|(_ & -> & ->)]%Hsib K1 K2; [by eapply fl_extract|]. rewrite S3 in K1. discriminate.
  - intros i r. rewrite N2. intros [[<- <-]|[_ Hi]]%lookup_insert_Some Ht.
    + exists (si_step ids), s. rewrite N4, lookup_insert_eq. split; [done|]. split; [congruence|].
      unfold finished. by rewrite S6.
    + destruct (fl_work d Hf i r Hi Ht) as (j & t & Hj & Hr & Hn). exists j, t. split; [|done]. by apply Hgrow.
Qed.

Lemma cancel_flow t i now d d' r : flow_inv d -> cancel_run t i now d = (d', r) -> flows d d'.
Proof.
  intros Hf Hc. destruct r as [r|e]; [|unfold cancel_run in Hc; apply transact_raise_inv in Hc as ->; by apply flows_refl].
  unfold cancel_run in Hc. finv. destruct a as [run|]; [|by finv]. destruct E as (r0 & Hr0 & _ & _ & ->).
  destruct (SearchRun_is_terminal (reloaded r0)); [by finv|]. finv.
  match goal with Hx : SearchRun_cancel _ _ = (?x, _), Hv : runs_save ?x _ = _ |- _ =>
    assert (star run_step (reloaded r0) x) as Hstar by (apply star_one; by exists (RunCancel now));
    assert (SearchRun_is_terminal x = true) as Hterm by (run_inv Hx; done);
    assert (run_id r0 = i) as Hid by apply (fl_runs d Hf _ r0 Hr0); save_run Hr0 Hid Hstar Hv; clear Hx;
    rename x into x0 end.
  split; [|split; [intros k; by eapply runs_carried, runs_follow_insert|done|by apply announced_kept; [eauto|]]].
  pose proof (follows_spec r0 (reloaded x0)) as Hfo.
  destruct Hfo as (G1 & G2 & G3 & G4 & _); [right; by exists x0|].
  destruct Hf as [F1 F2 F3 F4 F5 F6 F7 F8 F9 F10 F11].
  split; simpl; try done.
  - by destruct F1.
  - intros k r1 [[<- <-]|[_ Hk]]%lookup_insert_Some; [|by apply F2].
    destruct (F2 _ _ Hr0) as (? & ? & ?). ksplit; [congruence|auto|auto].
  - intros j s Hj. destruct (F3 j s Hj) as (r1 & Hr1 & Ht1). destruct (decide (step_run_id s = i)) as [E|E].
    + rewrite E, lookup_insert_eq in *. exists (reloaded x0). split; [done|]. congruence.
    + exists r1. by rewrite lookup_insert_ne.
  - intros k r1 [[<- <-]|[_ Hk]]%lookup_insert_Some Ht; [|by apply (F11 k r1)].
    change (SearchRun_is_terminal x0 = false) in Ht. congruence.
Qed.

(** ** Every transaction *)

Definition empty_db : Db :=
  {| db_runs := ∅; db_steps := ∅; db_attempts := ∅; db_events := []; db_tables := empty_tables |}.

Lemma empty_flow : flow_inv empty_db.
Proof.
  split; [split|..]; unfold siblings, incomplete; simpl; intros *;
    rewrite ?lookup_empty; try done; naive_solver.
Qed.

Section Flow.
Context `{PyText} (uuid5 : UUID -> pystr -> UUID) (sha256_utf8 : pystr -> pystr) (cf : StoreConfig).

(** A transaction of a worker or of the reconciler, with any environment of the hook, or of the
    conversation service. *)
Inductive wf_step (d d' : Db) : Prop :=
| wf_store env : db_step (Hook := coordinator uuid5 sha256_utf8 env) cf d d' -> wf_step d d'
| wf_submit policy c ids created_at created r :
    submit_message sha256_utf8 policy c ids created_at created d = (d', r) -> wf_step d d'
| wf_create t user id title key now r :
    create_conversation sha256_utf8 t user id title key now d = (d', r) -> wf_step d d'
| wf_cancel t i now r : cancel_run t i now d = (d', r) -> wf_step d d'.

Lemma transact_atomic {S A} (m : M S A) : atomic (transact m).
Proof. intros d d' e. apply transact_raise_inv. Qed.

Lemma create_atomic t user id title key now : atomic (create_conversation sha256_utf8 t user id title key now).
Proof.
  unfold create_conversation. cbv zeta. apply atomic_bind; [auto with sana|intros _].
  apply atomic_bind; [auto with sana|intros ?]. apply transact_atomic.
Qed.

Lemma submit_atomic policy c ids created_at created : atomic (submit_message sha256_utf8 policy c ids created_at created).
Proof.
  unfold submit_message. cbv zeta. apply atomic_bind; [auto with sana|intros _].
  apply atomic_bind; [auto with sana|intros ?]. apply transact_atomic.
Qed.

Lemma create_same t user id title key now d d' r :
  create_conversation sha256_utf8 t user id title key now d = (d', r) ->
  db_steps d' = db_steps d /\ db_runs d' = db_runs d /\ db_attempts d' = db_attempts d /\
  tables_keep (db_tables d) (db_tables d').
Proof.
  intros Hc. destruct r as [r|e]; [|by apply create_atomic in Hc as ->].
  unfold create_conversation in Hc. minv. apply transact_ok_inv in Hc. minv. unfold update_tables in Hc.
  assert (forall row, tb_conversations (db_tables d) !! id = None ->
    tables_keep (db_tables d) (set_conversations (<[id := row]> (tb_conversations (db_tables d))) (db_tables d))) as Hk.
  { intros row Hn. split; try done; [intros i; apply same_responses_refl|eauto|]. intros i x Hi. simpl.
    exists x. rewrite lookup_insert_ne; [done|]. intros Ei. rewrite Ei in Hn. congruence. }
  destruct a0 as [[k h]|]; [destruct (find_creation _ _ _ _)|]; minv; bools; ksplit;
    by apply Hk, eq_None_not_Some.
Qed.

(** A transaction carries everything over, or is a new submission. *)
Lemma wf_step_cases d d' : flow_inv d -> wf_step d d' ->
  flows d d' \/ exists c ids created_at run s, submitted c ids created_at d d' run s.
Proof.
  intros Hf [env Hs|policy c ids created_at created r Hs|t user id title key now r Hs|t i now r Hs].
  - left. by eapply store_flow.
  - destruct r as [r|e]; [|apply submit_atomic in Hs as ->; left; by apply flows_refl].
    apply submit_ok_inv in Hs as (h & _ & _ & [(e & _ & -> & _)|(_ & (run & s & Hsub) & _)]);
      [left; by apply flows_refl|]. right. eauto 6.
  - left. apply create_same in Hs as (E1 & E2 & E3 & E4).
    assert (owned d') as Hown by (apply (owned_same d); [done|done|exact (fl_owner d Hf)]).
    apply (flow_same d); try done. apply (ready_inv d); [apply Hf|rewrite E1; split; [done|congruence]|done].
  - left. by eapply cancel_flow.
Qed.

Lemma wf_step_flow d d' : flow_inv d -> wf_step d d' -> flow_inv d'.
Proof.
  intros Hf Hs. destruct (wf_step_cases d d' Hf Hs) as [[? _]|(c & ids & at_ & run & s & Hsub)]; [done|].
  by eapply submitted_flow.
Qed.

Lemma reachable_flow d : star wf_step empty_db d -> flow_inv d.
Proof.
  intros Hs. apply (star_invariant wf_step flow_inv) with empty_db; [|done|apply empty_flow].
  intros a b Ha Hb. by eapply wf_step_flow.
Qed.

(** Claim C21. No run is orphaned. From the empty database, whatever users submit or cancel and whatever
    workers and the reconciler do, in any interleaving and with any answers of the hook's clock,
    artifact store and identifiers: a run that has not ended always has a step of its tenant that
    has not ended; the stages of a run follow each other, so a step of a later stage exists only
    when every step of the earlier stages has ended; and no key of a run is scheduled twice. *)
Theorem no_orphaned_run d : star wf_step empty_db d ->
  (forall i r, db_runs d !! i = Some r -> SearchRun_is_terminal r = false ->
     exists j s, db_steps d !! j = Some s /\ step_run_id s = i /\ step_tenant_id s = run_tenant_id r /\
       step_terminal (step_status s) = false) /\
  (forall i j s t, siblings d i j s t -> rank (step_type s) < rank (step_type t) ->
     step_terminal (step_status s) = true) /\
  (forall i j s t, siblings d i j s t -> step_key s = step_key t -> i = j).
Proof.
  intros Hs. pose proof (reachable_flow d Hs) as Hf. split; [|split].
  - intros i r Hr Ht. destruct (fl_work d Hf i r Hr Ht) as (j & s & Hj & Hrun & Hn). exists j, s.
    destruct (fl_run d Hf j s Hj) as (r' & Hr' & Hten). rewrite Hrun, Hr in Hr'. simplify_eq. ksplit.
    unfold finished in Hn. by destruct (step_terminal _).
  - apply (fl_stages d Hf).
  - apply (fl_unique d Hf).
Qed.
End Flow.

(** ** An active run can be ended *)

(** Past the time of everything the run waits for: its hard deadline, retries and leases. *)
Definition waits_over (d : Db) (i : UUID) (now : datetime) : Prop :=
  dt_aware now = true /\
  (forall r, db_runs d !! i = Some r -> dt_us (bs_hard_deadline_at (run_budget r)) <= dt_us now) /\
  (forall j s t, db_steps d !! j = Some s -> step_run_id s = i -> step_retry_at s = Some t -> dt_us t <= dt_us now) /\
  (forall k a, db_attempts d !! k = Some a -> at_run_id a = i -> dt_us (at_leased_until a) <= dt_us now).

Lemma call_ok {S O} (m : M O unit) (o o' : O) (s : S) : m o = (o', Ok tt) -> call m o s = (s, Ok o').
Proof. unfold call. by intros ->. Qed.

Lemma steps_get_row d i row : step_loadable row -> db_steps d !! i = Some row ->
  steps_get_for_update (step_tenant_id row) i d = (d, Ok (Some (fst (SearchStep_mark_persisted row)))).
Proof.
  intros Hl Hi. unfold steps_get_for_update. rewrite (bind_ok _ _ _ d d) by done. rewrite Hi, Z.eqb_refl.
  unfold step_from_record. rewrite reload_step by done. done.
Qed.

Lemma runs_get_ok d i r : run_loadable r -> db_runs d !! i = Some r ->
  runs_get_for_update (run_tenant_id r) i d = (d, Ok (Some (reloaded r))).
Proof.
  intros Hl Hi. unfold runs_get_for_update. rewrite (bind_ok _ _ _ d d) by done. rewrite Hi, Z.eqb_refl.
  unfold run_from_record. rewrite reload_loadable by done. done.
Qed.

Lemma steps_save_ok d row s : db_steps d !! step_id row = Some row -> same_step row s ->
  step_persisted_version s = step_version row ->
  steps_save s d = (set_steps (<[step_id row := saved s row]> (db_steps d)) d, Ok tt).
Proof.
  intros Hi (S1 & S2 & _) Hv. unfold steps_save. rewrite (bind_ok _ _ _ d d) by done. rewrite S1, Hi, S2, Hv, !Z.eqb_refl.
  done.
Qed.

Lemma runs_save_ok d r x : db_runs d !! run_id r = Some r -> star run_step (reloaded r) x ->
  run_persisted_version x = run_version r -> exists d', runs_save x d = (d', Ok tt).
Proof.
  intros Hi Hs Hv. apply star_run_step in Hs as (H1 & H2 & _). simpl in *.
  unfold runs_save. rewrite (bind_ok _ _ _ d d) by done. rewrite H1, Hi, H2, Hv, !Z.eqb_refl. eexists. reflexivity.
Qed.

(** The steps of the methods a late claim and a recovery call. *)
Lemma step_start_ok s : step_status s = StepStatus_READY -> exists s', SearchStep_start s = (s', Ok tt) /\
  step_persisted_version s' = step_persisted_version s.
Proof.
  intros Hs. unfold SearchStep_start, SearchStep_transition, mbind, M_bind, self, lift, update. rewrite Hs. simpl.
  eexists. split; [reflexivity|done].
Qed.

Lemma step_fail_ok s : step_status s = StepStatus_RUNNING -> exists s', SearchStep_fail s = (s', Ok tt) /\
  step_persisted_version s' = step_persisted_version s.
Proof.
  intros Hs. unfold SearchStep_fail, SearchStep_transition, mbind, M_bind, self, lift, update. rewrite Hs. simpl.
  eexists. split; [reflexivity|done].
Qed.

Lemma run_fail_ok r now : SearchRun_is_terminal r = false -> dt_aware now = true ->
  exists r', SearchRun_fail StopReason_TIME_BUDGET now r = (r', Ok tt) /\
    run_persisted_version r' = run_persisted_version r /\ run_status r' = RunStatus_FAILED /\
    run_stop_reason r' = Some StopReason_TIME_BUDGET.
Proof.
  intros Ht Ha. unfold SearchRun_fail, SearchRun_transition, require_aware, mbind, M_bind, self, lift, update, raise_if.
  rewrite Ha. simpl. unfold SearchRun_is_terminal in Ht.
  destruct (run_status r); try (by apply bool_decide_eq_false in Ht; destruct Ht; set_solver);
    simpl; (eexists; split; [reflexivity|done]).
Qed.

Section Late.
Context `{Hook : CompletionHook} (cf : StoreConfig).

Lemma late_claim d i row r new_id w now : flow_inv d -> db_steps d !! i = Some row ->
  step_status row = StepStatus_READY -> db_runs d !! step_run_id row = Some r -> SearchRun_is_terminal r = false ->
  dt_aware now = true -> dt_us (bs_hard_deadline_at (run_budget r)) <= dt_us now ->
  exists d' r', store_claim cf (step_tenant_id row) i new_id w now d = (d', Ok (None, Disposition_FAILED)) /\
    db_runs d' !! step_run_id row = Some r' /\ run_status r' = RunStatus_FAILED /\
    run_stop_reason r' = Some StopReason_TIME_BUDGET.
Proof.
  intros Hf Hi Hst Hr Hterm Ha Hlate. pose proof (inv_loadable d (fl_db d Hf) i row Hi) as Hl.
  destruct (fl_runs d Hf _ r Hr) as (Hid & Hrl & Hra). destruct (fl_run d Hf i row Hi) as (r2 & Hr2 & Hten).
  assert (r2 = r) as -> by congruence. clear Hr2.
  pose proof (key_run d i row Hf Hi) as Hki.
  destruct (step_start_ok (fst (SearchStep_mark_persisted row)) Hst) as (s1 & E1 & V1).
  destruct (step_fail_ok s1) as (s2 & E2 & V2); [by apply (start_status _ _ E1)|].
  destruct (run_fail_ok (reloaded r) now Hterm Ha) as (x & E3 & V3 & X1 & X2).
  pose proof (two_steps _ _ _ StepStart StepFail E1 E2) as Hsteps.
  assert (star run_step (reloaded r) x) as Hstar by (apply star_one; by exists (RunFail StopReason_TIME_BUDGET now)).
  assert (steps_save s2 d = (set_steps (<[i := saved s2 row]> (db_steps d)) d, Ok tt)) as E4.
  { rewrite <- Hki. apply steps_save_ok; [by rewrite Hki|by eapply steps_same|by rewrite V2, V1]. }
  destruct (runs_save_ok (set_steps (<[i := saved s2 row]> (db_steps d)) d) r x) as [d2 E5];
    [by simpl; rewrite Hid|done|done|].
  pose proof (runs_save_flow (step_run_id row) r x (set_steps (<[i := saved s2 row]> (db_steps d)) d) d2 tt
    Hr Hid Hstar E5) as ->.
  assert (dt_le (bs_hard_deadline_at (run_budget r)) now = Ok true) as E0.
  { unfold dt_le. rewrite dt_cmp_aware by done. by rewrite (proj2 (Z.leb_le _ _) Hlate). }
  unfold store_claim, transact. rewrite (bind_ok _ _ _ _ _ (steps_get_row d i row Hl Hi)).
  rewrite bool_decide_eq_true_2 by done. cbn [negb].
  change (step_run_id (fst (SearchStep_mark_persisted row))) with (step_run_id row).
  rewrite <- Hten, (bind_ok _ _ _ _ _ (runs_get_ok d _ r Hrl Hr)).
  change (SearchRun_is_terminal (reloaded r)) with (SearchRun_is_terminal r). rewrite Hterm.
  change (bs_hard_deadline_at (run_budget (reloaded r))) with (bs_hard_deadline_at (run_budget r)).
  rewrite E0. rewrite (bind_ok (lift (Ok true)) _ d d true) by done. cbn iota.
  rewrite (bind_ok _ _ d d s1) by (by apply call_ok).
  rewrite (bind_ok _ _ d d s2) by (by apply call_ok).
  rewrite (bind_ok _ _ d d x) by (by apply call_ok).
  rewrite (bind_ok _ _ _ _ _ E4), (bind_ok _ _ _ _ _ E5).
  eexists _, (reloaded x). split; [reflexivity|]. simpl. by rewrite lookup_insert_eq.
Qed.
End Late.

Lemma step_make_ready_ok s : step_status s = StepStatus_RETRY_WAIT -> exists s', SearchStep_make_ready s = (s', Ok tt) /\
  step_persisted_version s' = step_persisted_version s /\ step_status s' = StepStatus_READY.
Proof.
  intros Hs. unfold SearchStep_make_ready, SearchStep_transition, mbind, M_bind, self, lift, update. rewrite Hs. simpl.
  eexists. split; [reflexivity|done].
Qed.

Lemma step_release_ok s : step_status s = StepStatus_RUNNING ->
  exists s', SearchStep_release_expired_lease s = (s', Ok tt) /\
  step_persisted_version s' = step_persisted_version s /\ step_status s' = StepStatus_READY.
Proof.
  intros Hs. unfold SearchStep_release_expired_lease, SearchStep_transition, mbind, M_bind, self, lift, update. rewrite Hs. simpl.
  eexists. split; [reflexivity|done].
Qed.

Lemma lease_over d i now : db_inv d -> (forall k a, db_attempts d !! k = Some a -> at_step_id a = i ->
    dt_us (at_leased_until a) <= dt_us now) ->
  (exists a, incomplete d a /\ at_step_id a = i) -> exists l, current_lease i d = Some l /\ l <= dt_us now.
Proof.
  intros Hinv Hall (a & [Ha Hc] & Hst). unfold current_lease.
  assert (forall b, b ∈ base.filter (fun b => at_completed_at b = None) (attempts_of i d) ->
    dt_us (at_leased_until b) <= dt_us now) as Hle.
  { intros b [_ [Hb [k Hk]]%attempts_of_elem]%list_elem_of_filter. by apply (Hall k). }
  assert (a ∈ base.filter (fun b => at_completed_at b = None) (attempts_of i d)) as Hin.
  { apply list_elem_of_filter. split; [done|]. apply attempts_of_elem. eauto. }
  destruct (base.filter _ _) as [|b rest]; [by apply not_elem_of_nil in Hin|]. eexists. split; [reflexivity|].
  assert (dt_us (at_leased_until b) <= dt_us now) as Hb by (apply Hle; left).
  assert (forall c, c ∈ rest -> dt_us (at_leased_until c) <= dt_us now) as Hrest by (intros c ?; apply Hle; by right).
  clear Hin Hle. induction rest as [|c rest IH]; simpl; [done|].
  specialize (Hrest c) as Hcc. specialize (IH ltac:(intros; apply Hrest; by right)).
  specialize (Hcc ltac:(left)). lia.
Qed.

(** Every unfinished step can be made READY once what it waits for is over. *)
Lemma recover_step d j row now : flow_inv d -> db_steps d !! j = Some row -> ~ finished row ->
  waits_over d (step_run_id row) now ->
  exists cand d1 row1, rc_step_id cand = j /\ scanner_make_ready cand now d = (d1, Ok true) /\
    db_steps d1 !! j = Some row1 /\ same_step row row1 /\ step_status row1 = StepStatus_READY /\ db_runs d1 = db_runs d.
Proof.
  intros Hf Hj Hopen (Haware & _ & Hretry & Hlease).
  pose proof (inv_loadable d (fl_db d Hf) j row Hj) as Hl. pose proof (key_run d j row Hf Hj) as Hkj.
  exists {| rc_tenant_id := step_tenant_id row; rc_step_id := j; rc_status := step_status row;
            rc_retry_at := None; rc_leased_until := None |}.
  unfold scanner_make_ready, transact. cbn [rc_tenant_id rc_step_id rc_status].
  rewrite (bind_ok _ _ _ _ _ (steps_get_row d j row Hl Hj)).
  change (step_status (fst (SearchStep_mark_persisted row))) with (step_status row).
  change (step_retry_at (fst (SearchStep_mark_persisted row))) with (step_retry_at row).
  assert (forall d0 s, db_steps d0 = db_steps d -> steps 1 (fst (SearchStep_mark_persisted row)) s ->
    step_persisted_version s = step_version row ->
    steps_save s d0 = (set_steps (<[j := saved s row]> (db_steps d)) d0, Ok tt)) as Hsave.
  { intros d0 s Ed Hs Hv. rewrite <- Ed, <- Hkj. apply steps_save_ok; [by rewrite Ed, Hkj|by eapply steps_same|done]. }
  destruct (step_status row) eqn:Est; try (by destruct Hopen; unfold finished; rewrite Est).
  - eexists d, row. split; [done|]. ksplit.
  - destruct (inv_running d (fl_db d Hf) j row Hj Est) as (a & Hinc & Hst).
    destruct (lease_over d j now (fl_db d Hf)) as (l & El & Hle); [|by exists a|].
    { intros k b Hk Hb. apply (Hlease k); [done|]. rewrite <- Hb in Hj. by apply (fl_owner d Hf k b). }
    destruct (step_release_ok (fst (SearchStep_mark_persisted row)) Est) as (s & E1 & V1 & Hrd).
    change (bool_decide (StepStatus_RUNNING = StepStatus_RETRY_WAIT)) with false.
    change (bool_decide (StepStatus_RUNNING = StepStatus_RUNNING)) with true. cbn [andb].
    rewrite (bind_ok _ _ d d d) by done. rewrite El, (proj2 (Z.ltb_ge _ _) Hle).
    rewrite (bind_ok _ _ d (expire_attempts j now d) tt) by done.
    rewrite (bind_ok _ _ _ (expire_attempts j now d) s) by (by apply call_ok).
    rewrite (bind_ok _ _ _ _ _ (Hsave (expire_attempts j now d) s eq_refl (one_step _ _ StepReleaseExpiredLease E1) V1)).
    eexists _, (saved s row). split; [done|]. split; [reflexivity|]. simpl. rewrite lookup_insert_eq. done.
  - destruct (fl_retry d Hf j row Hj Est) as (t & Et & Hta).
    destruct (step_make_ready_ok (fst (SearchStep_mark_persisted row)) Est) as (s & E1 & V1 & Hrd).
    change (bool_decide (StepStatus_RETRY_WAIT = StepStatus_RETRY_WAIT)) with true. cbn [andb].
    rewrite Et. unfold dt_lt at 1. rewrite dt_cmp_aware by done.
    rewrite (proj2 (Z.ltb_ge _ _) (Hretry j row t Hj eq_refl Et)).
    rewrite (bind_ok (lift (Ok false)) _ d d false) by done. cbn iota.
    rewrite (bind_ok _ _ _ d s) by (by apply call_ok).
    rewrite (bind_ok _ _ _ _ _ (Hsave d s eq_refl (one_step _ _ StepMakeReady E1) V1)).
    eexists _, (saved s row). split; [done|]. split; [reflexivity|]. simpl. rewrite lookup_insert_eq. done.
Qed.

Section Finish.
Context `{PyText} (uuid5 : UUID -> pystr -> UUID) (sha256_utf8 : pystr -> pystr) (cf : StoreConfig).

(** Claim C22. An active run can always be ended. Once the time of its hard deadline, of its retries
    and of its leases is over, one reconciliation of one of its steps and one claim of that step, by
    any worker, make the run FAILED for its time budget, whatever the steps were doing. *)
Theorem run_can_finish d i r now : star (wf_step uuid5 sha256_utf8 cf) empty_db d ->
  db_runs d !! i = Some r -> SearchRun_is_terminal r = false -> waits_over d i now ->
  exists cand, forall env new_id w,
    let claim := store_claim (Hook := coordinator uuid5 sha256_utf8 env) cf (run_tenant_id r) (rc_step_id cand) new_id w now in
    let '(d1, ready) := scanner_make_ready cand now d in
    let '(d2, claimed) := claim d1 in
    ready = Ok true /\ claimed = Ok (None, Disposition_FAILED) /\
    exists r', db_runs d2 !! i = Some r' /\ run_status r' = RunStatus_FAILED /\
      run_stop_reason r' = Some StopReason_TIME_BUDGET.
Proof.
  intros Hs Hr Ht Hw. pose proof (reachable_flow uuid5 sha256_utf8 cf d Hs) as Hf.
  destruct (fl_work d Hf i r Hr Ht) as (j & s & Hj & Hrun & Hopen). rewrite <- Hrun in Hw.
  destruct (recover_step d j s now Hf Hj Hopen Hw) as (cand & d1 & s1 & Hc & E1 & Hj1 & Hsame & Hst & Hruns).
  exists cand. intros env new_id w. cbv zeta. rewrite E1, Hc.
  pose proof (make_ready_flow _ _ _ _ _ Hf E1) as [Hf1 _].
  destruct Hsame as (_ & S2 & S3 & _).
  destruct (fl_run d Hf j s Hj) as (r2 & Hr2 & Hten). assert (r2 = r) as -> by congruence. clear Hr2.
  rewrite <- S2 in Hten. assert (db_runs d1 !! step_run_id s1 = Some r) as Hr1 by (by rewrite S3, Hrun, Hruns).
  destruct (late_claim (Hook := coordinator uuid5 sha256_utf8 env) cf d1 j s1 r new_id w now Hf1 Hj1 Hst Hr1 Ht)
    as (d2 & r' & E2 & Hr' & R1 & R2); [apply Hw|by apply Hw; rewrite Hrun|].
  rewrite Hten, E2. split; [done|]. split; [done|]. exists r'. rewrite S3, Hrun in Hr'. done.
Qed.
End Finish.

(** ** A run to evaluate the theorems on *)

Definition ex_sha (t : pystr) : pystr := u "e3b0c44298fc1c149afbf4c8996fb92427ae41e4649b934ca495991b7852b855".
Definition ex_uuid5 (ns : UUID) (name : pystr) : UUID := ns + 10 ^ 6 * Z.of_nat (length name).
Definition ex_trace : TraceContext :=
  {| tc_trace_id := u "4bf92f3577b34da6a3ce929d0e0e4736"; tc_span_id := u "00f067aa0ba902b7";
     tc_trace_flags := u "01"; tc_baggage := [] |}.
Definition ex_env : HookEnv :=
  {| he_id n := 1000 + Z.of_nat n; he_span _ := u "00f067aa0ba902b8"; he_now _ := utc 2000;
     he_get _ _ _ := Ok (JObj []); he_put _ _ _ _ := Ok ex_ref; he_created := 5; he_trace := ex_trace |}.
Definition ex_command : SubmitMessageCommand :=
  {| sm_tenant_id := 2; sm_user_id := 7; sm_conversation_id := 3; sm_content := u " What is Rocq? ";
     sm_idempotency_key := u "k1"; sm_routing := ex_routing SearchMode_FAST; sm_trace_context := ex_trace |}.
Definition ex_ids : SubmissionIds :=
  {| si_message := 20; si_response := 21; si_run := 22; si_step := 10; si_outbox := 24; si_event := 25 |}.

Definition wf1 : Db := fst (create_conversation ex_sha 2 7 3 (u "t") None (utc 0) empty_db).
Definition wf2 : Db := fst (submit_message ex_sha SearchPolicy_default ex_command ex_ids (utc 0) 1 wf1).
Definition wf3 : Db := fst (store_claim (Hook := coordinator (H := ex_text) ex_uuid5 ex_sha ex_env) ex_cf 2 10 100 (u "w1") (utc 1000) wf2).
Definition wf_claimed : StepAttempt :=
  match snd (store_claim (Hook := coordinator (H := ex_text) ex_uuid5 ex_sha ex_env) ex_cf 2 10 100 (u "w1") (utc 1000) wf2) with
  | Ok (Some a, _) => a
  | _ => ex_attempt
  end.
Definition wf4 : Db := fst (store_succeed (Hook := coordinator (H := ex_text) ex_uuid5 ex_sha ex_env) wf_claimed
  {| er_output_ref := ex_ref; er_actual_cost := ex_cost_zero |} (utc 2000) wf3).

Abbreviation ex_wf := (wf_step (H := ex_text) ex_uuid5 ex_sha ex_cf).

Lemma wf2_reached : star ex_wf empty_db wf2.
Proof.
  econstructor; [|econstructor; [|constructor]].
  - eapply (wf_create (H := ex_text) _ _ _ empty_db wf1), surjective_pairing.
  - eapply (wf_submit (H := ex_text) _ _ _ wf1 wf2), surjective_pairing.
Qed.

Lemma wf_claimed_held : held wf3 wf_claimed.
Proof. exists wf_claimed. split; [vm_compute; reflexivity|repeat split]. Qed.

Lemma wf4_reached : star ex_wf empty_db wf4.
Proof.
  eapply star_trans; [apply wf2_reached|]. econstructor; [|econstructor; [|constructor]].
  - eapply (wf_store (H := ex_text) _ _ _ wf2 wf3 ex_env), ds_claim, surjective_pairing.
  - eapply (wf_store (H := ex_text) _ _ _ wf3 wf4 ex_env), ds_succeed, surjective_pairing. apply wf_claimed_held.
Qed.

(** After the ROUTE step succeeded, the run's work is its PLAN step. *)
Lemma no_orphaned_run_witness : exists r,
  db_runs wf4 !! 22 = Some r /\ SearchRun_is_terminal r = false /\
  exists j s, db_steps wf4 !! j = Some s /\ step_run_id s = 22 /\ step_tenant_id s = run_tenant_id r /\
    step_terminal (step_status s) = false.
Proof.
  destruct (db_runs wf4 !! 22) as [r|] eqn:E; [|exfalso; revert E; vm_compute; discriminate].
  assert (SearchRun_is_terminal r = false) as Ht by (revert E; vm_compute; by intros [= <-]).
  exists r. split; [reflexivity|]. split; [exact Ht|].
  exact (proj1 (no_orphaned_run (H := ex_text) ex_uuid5 ex_sha ex_cf wf4 wf4_reached) 22 r E Ht).
Defined.

Lemma wf4_waits_over : waits_over wf4 22 (utc 20000000).
Proof.
  split; [done|]. split; [|split].
  - intros r E.
    assert ((fun r => dt_us (bs_hard_deadline_at (run_budget r))) <$> db_runs wf4 !! 22 = Some 15000000) as Eh
      by (vm_compute; reflexivity).
    rewrite E in Eh. injection Eh as ->. simpl. lia.
  - intros j s t Hj _ Ht. exfalso.
    assert (map_to_list (step_retry_at <$> db_steps wf4) = [(1001, None); (10, None)]) as E by (vm_compute; reflexivity).
    assert ((j, Some t) ∈ map_to_list (step_retry_at <$> db_steps wf4)) as Hin.
    { apply elem_of_map_to_list. by rewrite lookup_fmap, Hj, <- Ht. }
    rewrite E in Hin. clear -Hin. by apply elem_of_cons in Hin as [?|?%list_elem_of_singleton].
  - intros k a Hk _.
    assert (map_to_list ((fun a => dt_us (at_leased_until a)) <$> db_attempts wf4) = [(100, 13000000)]) as E
      by (vm_compute; reflexivity).
    assert ((k, dt_us (at_leased_until a)) ∈ map_to_list ((fun a => dt_us (at_leased_until a)) <$> db_attempts wf4)) as Hin.
    { apply elem_of_map_to_list. by rewrite lookup_fmap, Hk. }
    rewrite E in Hin. apply list_elem_of_singleton in Hin. injection Hin as _ ->. simpl. lia.
Qed.

Lemma run_can_finish_witness : exists r cand,
  db_runs wf4 !! 22 = Some r /\
  let '(d1, ready) := scanner_make_ready cand (utc 20000000) wf4 in
  let '(d2, claimed) := store_claim (Hook := coordinator (H := ex_text) ex_uuid5 ex_sha ex_env) ex_cf
    (run_tenant_id r) (rc_step_id cand) 200 (u "w2") (utc 20000000) d1 in
  ready = Ok true /\ claimed = Ok (None, Disposition_FAILED) /\
  exists r', db_runs d2 !! 22 = Some r' /\ run_status r' = RunStatus_FAILED /\
    run_stop_reason r' = Some StopReason_TIME_BUDGET.
Proof.
  destruct (db_runs wf4 !! 22) as [r|] eqn:E; [|exfalso; revert E; vm_compute; discriminate].
  assert (SearchRun_is_terminal r = false) as Ht by (revert E; vm_compute; by intros [= <-]).
  destruct (run_can_finish (H := ex_text) ex_uuid5 ex_sha ex_cf wf4 22 r (utc 20000000) wf4_reached E Ht wf4_waits_over)
    as [cand Hc].
  exists r, cand. split; [reflexivity|]. exact (Hc ex_env 200 (u "w2")).
Defined.
