(* ===== verification/Submissions.v ===== *)
(** * Submissions: one message is one run

    What a submission leaves in the database stays findable by its key through every later
    transaction of workers, reconcilers and users, so that the same request gets the same answer;
    and every step has its message in the outbox. *)

From Stdlib Require Import SpecFloat String.
From S2P Require Import Prelude Errors PyTime PyData Transitions Run Tables RunFacts Step StepFacts Policy.
From S2P Require Import Lease Workflow StepStore StepStoreFacts Repositories Completion Conversation CompletionFacts WorkflowRuns.

(** ** Queries that find one row *)

Lemma filter_values_none {A} (P : A -> Prop) `{!forall x, Decision (P x)} (m : gmap Z A) :
  (forall j y, m !! j = Some y -> ~ P y) -> base.filter P (map_to_list m).*2 = [].
Proof.
  intros Hn. destruct (base.filter P (map_to_list m).*2) as [|y l] eqn:E; [done|]. exfalso.
  assert (y ∈ base.filter P (map_to_list m).*2) as Hy by (rewrite E; left).
  apply list_elem_of_filter in Hy as [Hp Hy]. apply list_elem_of_fmap in Hy as ([j z] & -> & Hz).
  apply elem_of_map_to_list in Hz. by eapply Hn.
Qed.

Lemma filter_values_single {A} (P : A -> Prop) `{!forall x, Decision (P x)} (m : gmap Z A) i x :
  m !! i = Some x -> P x -> (forall j y, m !! j = Some y -> P y -> j = i) ->
  base.filter P (map_to_list m).*2 = [x].
Proof.
  intros Hi Hx Hu. apply Permutation_singleton_r.
  rewrite <- (map_to_list_delete m i x Hi), fmap_cons, filter_cons_True by done.
  rewrite (filter_values_none P (delete i m)); [done|].
  intros j y Hz Hp. apply lookup_delete_Some in Hz as [Hne Hz]. by specialize (Hu j y Hz Hp).
Qed.

(** ** The invariant of submissions *)

Record talk_inv (d : Db) : Prop := {
  tv_messages : messages_ok (tb_messages (db_tables d));
  tv_key i r : tb_responses (db_tables d) !! i = Some r -> rp_id r = i;
  tv_message i r : tb_responses (db_tables d) !! i = Some r ->
    is_Some (tb_messages (db_tables d) !! rp_message_id r);
  tv_response i j a b : tb_responses (db_tables d) !! i = Some a -> tb_responses (db_tables d) !! j = Some b ->
    rp_message_id a = rp_message_id b -> i = j;
  tv_run i j a b : db_runs d !! i = Some a -> db_runs d !! j = Some b ->
    run_response_run_id a = run_response_run_id b -> i = j;
  tv_announced : announced d
}.

Lemma follows_response r r' : follows r r' ->
  run_id r' = run_id r /\ run_tenant_id r' = run_tenant_id r /\ run_response_run_id r' = run_response_run_id r.
Proof.
  intros [->|(x & Hs & ->)]; [done|].
  by apply (star_relation run_step run_evolves run_step_evolves) in Hs as (? & ? & _ & _ & ? & _).
Qed.

Lemma carried_run d d' i r' : carried d d' -> db_runs d' !! i = Some r' ->
  exists r, db_runs d !! i = Some r /\ follows r r'.
Proof.
  intros Hc Hi. pose proof (ca_runs _ _ Hc i) as Hr. rewrite Hi in Hr.
  destruct (db_runs d !! i) as [r|]; [|done]. eauto.
Qed.

Lemma carried_response d d' i r' : carried d d' -> tb_responses (db_tables d') !! i = Some r' ->
  exists r, tb_responses (db_tables d) !! i = Some r /\ same_response r r'.
Proof.
  intros Hc Hi. pose proof (tk_responses _ _ (ca_tables _ _ Hc) i) as Hr. rewrite Hi in Hr.
  destruct (tb_responses (db_tables d) !! i) as [r|]; [|done]. eauto.
Qed.

Lemma carried_talk d d' : talk_inv d -> carried d d' -> talk_inv d'.
Proof.
  intros [T1 T2 T3 T4 T5 T6] Hc. split.
  - by apply (ca_tables _ _ Hc).
  - intros i r' (r & Hr & (S1 & _))%(carried_response d); [|done]. rewrite S1. by apply T2.
  - intros i r' (r & Hr & (_ & _ & _ & S4))%(carried_response d); [|done]. rewrite S4.
    destruct (T3 i r Hr) as [m Hm]. exists m. by apply (ca_tables _ _ Hc).
  - intros i j a b Ha Hb He. apply (carried_response d) in Ha as (a0 & Ha & (_ & _ & _ & A4)), Hb as (b0 & Hb & (_ & _ & _ & B4));
      [|done|done]. apply (T4 i j a0 b0); congruence.
  - intros i j a b Ha Hb He. apply (carried_run d) in Ha as (a0 & Ha & Fa), Hb as (b0 & Hb & Fb); [|done|done].
    apply follows_response in Fa as (_ & _ & Fa), Fb as (_ & _ & Fb). apply (T5 i j a0 b0); congruence.
  - by apply Hc.
Qed.

Lemma submitted_talk c ids created_at d d' run s : talk_inv d -> submitted c ids created_at d d' run s -> talk_inv d'.
Proof.
  intros [T1 T2 T3 T4 T5 T6] [(M1 & M2) (P1 & P2) (_ & _ & R3 & R4 & _) (N1 & N2 & N3) (S0 & _) (S1 & S2) _ (e & A1 & A2 & A3) _].
  pose proof (message_insert_ok _ _ M1 T1) as [M0 M3]. change (ms_id (draft_message c ids created_at)) with (si_message ids) in *.
  split.
  - by rewrite M2.
  - intros i r. rewrite P2. intros [[<- <-]|[_ Hi]]%lookup_insert_Some; [done|by apply T2].
  - intros i r. rewrite P2, M2. intros [[<- <-]|[_ Hi]]%lookup_insert_Some; simpl.
    + rewrite lookup_insert_eq. eauto.
    + apply lookup_insert_is_Some'. right. by eapply T3.
  - assert (forall i r, tb_responses (db_tables d) !! i = Some r -> rp_message_id r <> si_message ids) as Hne.
    { intros i r Hi E. destruct (T3 i r Hi) as [m Hm]. rewrite E in Hm. congruence. }
    intros i j a b. rewrite P2. intros [[<- <-]|[_ Hi]]%lookup_insert_Some [[<- <-]|[_ Hj]]%lookup_insert_Some He; try done.
    + symmetry in He. by apply Hne in Hj.
    + by apply Hne in Hi.
    + by eapply T4.
  - intros i j a b. rewrite N2. intros [[<- <-]|[_ Hi]]%lookup_insert_Some [[<- <-]|[_ Hj]]%lookup_insert_Some He; try done.
    + rewrite R4 in He. symmetry in He. by apply N3 in Hj.
    + rewrite R4 in He. by apply N3 in Hi.
    + by eapply T5.
  - intros i t. rewrite S2, A3. intros [[<- <-]|[_ Hi]]%lookup_insert_Some.
    + exists e. by rewrite lookup_insert_eq.
    + destruct (T6 i t Hi) as (e0 & He0 & Hann). exists e0. rewrite lookup_insert_ne; [done|].
      intros E. rewrite E in A2. congruence.
Qed.

(** ** An accepted submission stays *)

Record accepted (tenant conversation : UUID) (key content : pystr) (m r x : UUID) (d : Db) : Prop := {
  ac_message : exists row, tb_messages (db_tables d) !! m = Some row /\ ms_tenant_id row = tenant /\
    ms_conversation_id row = conversation /\ ms_idempotency_key row = Some key /\ ms_content row = content;
  ac_response : exists row, tb_responses (db_tables d) !! r = Some row /\ rp_tenant_id row = tenant /\
    rp_message_id row = m;
  ac_run : exists row, db_runs d !! x = Some row /\ run_tenant_id row = tenant /\ run_response_run_id row = r
}.

Lemma carried_accepted tenant conversation key content m r x d d' :
  accepted tenant conversation key content m r x d -> carried d d' ->
  accepted tenant conversation key content m r x d'.
Proof.
  intros [(a & A1 & A2) (b & B1 & B2 & B3) (y & Y1 & Y2 & Y3)] Hc. split.
  - exists a. split; [by apply (ca_tables _ _ Hc)|done].
  - pose proof (tk_responses _ _ (ca_tables _ _ Hc) r) as Hr. rewrite B1 in Hr.
    destruct (tb_responses (db_tables d') !! r) as [b'|]; [|done]. destruct Hr as (_ & R2 & _ & R4).
    exists b'. ksplit; congruence.
  - pose proof (ca_runs _ _ Hc x) as Hr. rewrite Y1 in Hr. destruct (db_runs d' !! x) as [y'|]; [|done].
    apply follows_response in Hr as (_ & F2 & F3). exists y'. ksplit; congruence.
Qed.

Lemma submitted_accepted c ids created_at d d' run s : talk_inv d -> submitted c ids created_at d d' run s ->
  accepted (sm_tenant_id c) (sm_conversation_id c) (strip (sm_idempotency_key c)) (strip (sm_content c))
    (si_message ids) (si_response ids) (si_run ids) d'.
Proof.
  intros Ht [(M1 & M2) (P1 & P2) (R1 & R2 & R3 & R4 & _) (N1 & N2 & N3) _ _ _ _ _]. split.
  - eexists. rewrite M2, lookup_insert_eq. ksplit.
  - eexists. rewrite P2, lookup_insert_eq. ksplit.
  - exists run. rewrite N2, lookup_insert_eq. ksplit.
Qed.

Lemma other_accepted tenant conversation key content m r x c ids created_at d d' run s :
  talk_inv d -> accepted tenant conversation key content m r x d -> submitted c ids created_at d d' run s ->
  accepted tenant conversation key content m r x d'.
Proof.
  intros Ht [(a & A1 & A2) (b & B1 & B2) (y & Y1 & Y2)] [(M1 & M2) (P1 & P2) _ (N1 & N2 & N3) _ _ _ _ _].
  pose proof (message_insert_ok _ _ M1 (tv_messages d Ht)) as [M0 _].
  change (ms_id (draft_message c ids created_at)) with (si_message ids) in *. split.
  - exists a. rewrite M2, lookup_insert_ne by congruence. done.
  - exists b. rewrite P2, lookup_insert_ne by congruence. done.
  - exists y. rewrite N2, lookup_insert_ne by congruence. done.
Qed.

Lemma owned_tables t conversation user d d' : lock_owned_by t conversation user d = true ->
  tables_keep (db_tables d) (db_tables d') -> lock_owned_by t conversation user d' = true.
Proof.
  unfold lock_owned_by. intros Hl Hk. destruct (tb_conversations (db_tables d) !! conversation) as [c|] eqn:E; [|done].
  destruct (tk_owner _ _ Hk _ c E) as (c' & -> & -> & ->). done.
Qed.

Section Service.
Context (sha256_utf8 : pystr -> pystr).

Lemma find_accepted tenant conversation key content m r x d h : flow_inv d -> talk_inv d ->
  accepted tenant conversation key content m r x d -> normalized_content_sha256 sha256_utf8 content = Ok h ->
  exists status, find_submission sha256_utf8 tenant conversation key d =
    Ok (Some {| sr_message_id := m; sr_response_run_id := r; sr_search_run_id := x; sr_status := status;
                sr_duplicate := false; sr_request_hash := Some h |}) /\
    status = from_option run_status RunStatus_QUEUED (db_runs d !! x).
Proof.
  intros Hf [[K U] T2 T3 T4 T5 _] [(a & A1 & A2 & A3 & A4 & A5) (b & B1 & B2 & B3) (y & Y1 & Y2 & Y3)] Hh.
  unfold find_submission, submission_rows.
  rewrite (filter_values_single _ _ m a A1).
  2:{ done. }
  2:{ intros j z Hz (Z1 & Z2 & Z3). apply (U j m z a); [done|done|]. unfold same_message_key.
      rewrite Z1, A2, Z2, A3, Z3, A4, !Z.eqb_refl. simpl. by apply bool_decide_eq_true. }
  cbn [mbind list_bind]. rewrite (filter_values_single _ _ r b B1).
  2:{ pose proof (K m a A1). split; congruence. }
  2:{ intros j z Hz (Z1 & Z2). apply (T4 j r z b); [done|done|]. pose proof (K m a A1). congruence. }
  cbn [mbind list_bind]. rewrite (filter_values_single _ _ x y Y1).
  2:{ pose proof (T2 r b B1). split; congruence. }
  2:{ intros j z Hz (Z1 & Z2). apply (T5 j x z y); [done|done|]. pose proof (T2 r b B1). congruence. }
  simpl. rewrite A5. unfold mbind, res_bind. rewrite Hh. eexists. split; [|reflexivity].
  rewrite (K m a A1), (T2 r b B1), Y1. destruct (fl_runs d Hf x y Y1) as (-> & _). done.
Qed.

Lemma content_hash_strip content : normalized_content_sha256 sha256_utf8 (strip content) = normalized_content_sha256 sha256_utf8 content.
Proof. unfold normalized_content_sha256. by rewrite strip_idem. Qed.

Lemma find_accepted_inv tenant conversation key d e h : flow_inv d -> talk_inv d ->
  find_submission sha256_utf8 tenant conversation key d = Ok (Some e) -> sr_request_hash e = Some h ->
  exists content, normalized_content_sha256 sha256_utf8 content = Ok h /\
    accepted tenant conversation key content (sr_message_id e) (sr_response_run_id e) (sr_search_run_id e) d.
Proof.
  intros Hf Ht Hfind Hh. unfold find_submission in Hfind.
  destruct (submission_rows tenant conversation key d) as [|[[m r] x] [|? ?]] eqn:Erows; try done.
  minv. simpl in Hh. simplify_eq. exists (ms_content m). split; [done|].
  assert ((m, r, x) ∈ submission_rows tenant conversation key d) as Hin by (rewrite Erows; left).
  unfold submission_rows in Hin.
  apply list_elem_of_bind in Hin as (m1 & Hin & Hm). apply list_elem_of_bind in Hin as (r1 & Hin & Hr).
  apply list_elem_of_bind in Hin as (x1 & Hin & Hx). apply list_elem_of_singleton in Hin. simplify_eq.
  apply list_elem_of_filter in Hm as [(M1 & M2 & M3) Hm], Hr as [(R1 & R2) Hr], Hx as [(X1 & X2) Hx].
  apply list_elem_of_fmap in Hm as ([i y] & -> & Hm), Hr as ([j z] & -> & Hr), Hx as ([k w] & -> & Hx).
  apply elem_of_map_to_list in Hm, Hr, Hx. simpl in *.
  destruct (tv_messages d Ht) as [K _]. pose proof (K i y Hm) as Ki. pose proof (tv_key d Ht j z Hr) as Kj.
  destruct (fl_runs d Hf k w Hx) as (Kk & _). rewrite Ki, Kj, Kk in *. split.
  - exists y. ksplit.
  - exists z. ksplit; congruence.
  - exists w. ksplit; congruence.
Qed.
End Service.

Lemma submit_owned sha256_utf8 policy c ids created_at created d d' r :
  submit_message sha256_utf8 policy c ids created_at created d = (d', Ok r) ->
  lock_owned_by (sm_tenant_id c) (sm_conversation_id c) (sm_user_id c) d = true.
Proof.
  unfold submit_message. intros Hs. minv. apply transact_ok_inv in Hs. minv. by bools.
Qed.

Section Idempotence.
Context `{PyText} (uuid5 : UUID -> pystr -> UUID) (sha256_utf8 : pystr -> pystr) (cf : StoreConfig).
#[local] Abbreviation step := (wf_step uuid5 sha256_utf8 cf).

Lemma empty_talk : talk_inv empty_db.
Proof.
  split; try (intros i j a b Ha; simpl in Ha; rewrite lookup_empty in Ha; done);
    try (intros i r Hr; simpl in Hr; rewrite lookup_empty in Hr; done).
  split; intros i; [intros m Hm|intros j a b Hm]; simpl in Hm; by rewrite lookup_empty in Hm.
Qed.

Lemma step_talk d d' : flow_inv d -> talk_inv d -> step d d' -> talk_inv d'.
Proof.
  intros Hf Ht Hs. destruct (wf_step_cases _ _ _ d d' Hf Hs) as [[_ Hc]|(c & ids & at_ & run & s & Hsub)].
  - by eapply carried_talk.
  - by eapply submitted_talk.
Qed.

Lemma reachable_talk d : star step empty_db d -> flow_inv d /\ talk_inv d.
Proof.
  intros Hs. apply (star_invariant step (fun d => flow_inv d /\ talk_inv d)) with empty_db; [|done|].
  - intros a b [Ha Hb] Hab. split; [by eapply wf_step_flow|by eapply step_talk].
  - split; [apply empty_flow|apply empty_talk].
Qed.

(** What later transactions keep of an accepted submission. *)
Lemma later_accepted tenant conversation user key content m r x d d' : flow_inv d -> talk_inv d -> star step d d' ->
  accepted tenant conversation key content m r x d -> lock_owned_by tenant conversation user d = true ->
  flow_inv d' /\ talk_inv d' /\ accepted tenant conversation key content m r x d' /\
  lock_owned_by tenant conversation user d' = true.
Proof.
  intros Hf Ht Hs Ha Hl. induction Hs as [d|d d1 d' H1 _ IH]; [done|].
  pose proof (wf_step_flow _ _ _ _ _ Hf H1) as Hf1. pose proof (step_talk _ _ Hf Ht H1) as Ht1.
  destruct (wf_step_cases _ _ _ d d1 Hf H1) as [[_ Hc]|(c & ids & at_ & run & s & Hsub)]; apply IH; try done.
  - by eapply carried_accepted.
  - eapply owned_tables; [done|apply Hc].
  - by eapply (other_accepted _ _ _ _ _ _ _ _ _ _ d).
  - unfold lock_owned_by in *. by rewrite (sb_conversations _ _ _ _ _ _ _ Hsub).
Qed.

(** Claim C23. A submission happens once. After a message was accepted, and after any further
    transactions of anyone, a submission of the same user with the same key to the same
    conversation changes nothing: with the same content (up to white space around it) it returns
    the identifiers of the first, marked as a duplicate and with the run's present status; with
    content of another hash it is refused as an idempotency conflict. *)
Theorem submission_idempotent policy c ids created_at created receipt d d1 d2 policy' c' ids' created_at' created' h :
  star step empty_db d ->
  submit_message sha256_utf8 policy c ids created_at created d = (d1, Ok receipt) -> star step d1 d2 ->
  sm_tenant_id c' = sm_tenant_id c -> sm_user_id c' = sm_user_id c ->
  sm_conversation_id c' = sm_conversation_id c -> strip (sm_idempotency_key c') = strip (sm_idempotency_key c) ->
  rd_policy_version (sm_routing c') = sp_version policy' ->
  normalized_content_sha256 sha256_utf8 (sm_content c') = Ok h ->
  submit_message sha256_utf8 policy' c' ids' created_at' created' d2 = (d2,
    if decide (sr_request_hash receipt = Some h) then
      Ok {| sr_message_id := sr_message_id receipt; sr_response_run_id := sr_response_run_id receipt;
            sr_search_run_id := sr_search_run_id receipt;
            sr_status := from_option run_status RunStatus_QUEUED (db_runs d2 !! sr_search_run_id receipt);
            sr_duplicate := true; sr_request_hash := Some h |}
    else Raise (InvariantViolation_code "Idempotency-Key was already used for different content" "idempotency_conflict")).
Proof.
  intros H0 Hsub Hlater E1 E2 E3 E4 Hv Hh. destruct (reachable_talk d H0) as [Hf Ht].
  pose proof (wf_submit uuid5 sha256_utf8 cf d d1 _ _ _ _ _ _ Hsub) as Hstep.
  pose proof (wf_step_flow _ _ _ _ _ Hf Hstep) as Hf1. pose proof (step_talk _ _ Hf Ht Hstep) as Ht1.
  assert (exists content h0, normalized_content_sha256 sha256_utf8 content = Ok h0 /\ sr_request_hash receipt = Some h0 /\
    accepted (sm_tenant_id c) (sm_conversation_id c) (strip (sm_idempotency_key c)) content
      (sr_message_id receipt) (sr_response_run_id receipt) (sr_search_run_id receipt) d1) as (content & h0 & Hc & Hr & Hacc).
  { apply submit_ok_inv in Hsub as (h0 & Hn & Hr & [(e & Hfind & -> & He & ->)|(_ & (run & s & Hs) & ->)]); simpl in *.
    - destruct (find_accepted_inv _ _ _ _ d e h0 Hf Ht Hfind He) as (content & ? & ?). eauto.
    - exists (strip (sm_content c)), h0. rewrite content_hash_strip. split; [done|]. split; [done|].
      by eapply (submitted_accepted _ _ _ d). }
  assert (lock_owned_by (sm_tenant_id c) (sm_conversation_id c) (sm_user_id c) d1 = true) as Hl.
  { pose proof (submit_owned _ _ _ _ _ _ _ _ _ Hsub) as Hl.
    apply submit_ok_inv in Hsub as (? & _ & _ & [(e & _ & -> & _)|(_ & (run & s & Hs) & _)]); [done|].
    unfold lock_owned_by in *. by rewrite (sb_conversations _ _ _ _ _ _ _ Hs). }
  destruct (later_accepted _ _ _ _ _ _ _ _ d1 d2 Hf1 Ht1 Hlater Hacc Hl) as (Hf2 & Ht2 & Hacc2 & Hl2).
  destruct (find_accepted sha256_utf8 _ _ _ _ _ _ _ d2 h0 Hf2 Ht2 Hacc2 Hc) as (status & Hfind & ->).
  unfold submit_message. rewrite E1, E2, E3, E4.
  rewrite (bool_decide_eq_true_2 (rd_policy_version (sm_routing c') = sp_version policy')) by exact Hv. cbn [negb].
  rewrite (bind_ok (raise_if false _) _ d2 d2 tt) by done.
  rewrite (bind_ok (lift _) _ d2 d2 h) by (by rewrite content_hash_strip, Hh).
  unfold transact. rewrite (bind_ok _ _ d2 d2 d2) by done. rewrite Hl2. cbn [negb].
  rewrite (bind_ok (raise_if false _) _ d2 d2 tt) by done. rewrite Hfind.
  rewrite (bind_ok (lift (Ok _)) _ d2 d2 _) by reflexivity. cbn [sr_request_hash].
  rewrite Hr. destruct (decide (Some h0 = Some h)) as [E|E].
  - by rewrite bool_decide_eq_true_2.
  - by rewrite bool_decide_eq_false_2.
Qed.
End Idempotence.

(** ** Examples *)

Definition ex_receipt : SubmissionReceipt :=
  {| sr_message_id := 20; sr_response_run_id := 21; sr_search_run_id := 22; sr_status := RunStatus_QUEUED;
     sr_duplicate := false; sr_request_hash := Some (ex_sha []) |}.

Lemma ex_submit : submit_message ex_sha SearchPolicy_default ex_command ex_ids (utc 0) 1 wf1 = (wf2, Ok ex_receipt).
Proof.
  rewrite (surjective_pairing (submit_message _ _ _ _ _ _ wf1)). unfold wf2. by f_equal.
Qed.

Lemma wf1_reached : star ex_wf empty_db wf1.
Proof. econstructor; [|constructor]. eapply (wf_create (H := ex_text) _ _ _ empty_db wf1), surjective_pairing. Qed.

Lemma wf2_wf4 : star ex_wf wf2 wf4.
Proof.
  econstructor; [|econstructor; [|constructor]].
  - eapply (wf_store (H := ex_text) _ _ _ wf2 wf3 ex_env), ds_claim, surjective_pairing.
  - eapply (wf_store (H := ex_text) _ _ _ wf3 wf4 ex_env), ds_succeed, surjective_pairing. apply wf_claimed_held.
Qed.

(** The same request again, while the run is running. *)
Lemma submission_idempotent_witness :
  submit_message ex_sha SearchPolicy_default ex_command ex_ids (utc 9) 9 wf4 = (wf4,
    Ok {| sr_message_id := 20; sr_response_run_id := 21; sr_search_run_id := 22; sr_status := RunStatus_RUNNING;
          sr_duplicate := true; sr_request_hash := Some (ex_sha []) |}).
Proof.
  rewrite (submission_idempotent (H := ex_text) ex_uuid5 ex_sha ex_cf SearchPolicy_default ex_command ex_ids (utc 0) 1
    ex_receipt wf1 wf2 wf4 SearchPolicy_default ex_command ex_ids (utc 9) 9 (ex_sha []) wf1_reached ex_submit wf2_wf4
    eq_refl eq_refl eq_refl eq_refl eq_refl eq_refl).
  f_equal.
Defined.
