(* ===== verification/Chunker.v ===== *)
(** * Chunker: cutting a document into chunks

    [DocumentChunker] of [sana/modules/content/chunker.py] with the chunk value of
    [content/domain.py]. The hash of a text (SHA-256 of its UTF-8) and the number of tokens a
    regular expression finds are parameters. The chunks of a text are slices of it that overlap, and
    the text is read back from them. *)

From Stdlib Require Import String.
From S2P Require Import Prelude Errors PyTime PyData.

(** ** Text primitives *)

(** [t[a:b]] for [0 <= a <= b]. *)
Definition slice (t : pystr) (a b : Z) : pystr := take (Z.to_nat (b - a)) (drop (Z.to_nat a) t).

(** [t.rfind(sub, start, stop)] for [0 <= start]: candidates from the last one down. *)
Definition rfind (t sub : pystr) (start stop : Z) : Z :=
  (fix search (n : nat) : Z :=
     match n with
     | O => -1
     | S k => let i := start + Z.of_nat k in
              if starts_with sub (drop (Z.to_nat i) t) then i else search k
     end) (Z.to_nat (Z.min stop (Z.of_nat (length t)) - start - Z.of_nat (length sub) + 1)).

Section Chunker.
Context (sha256_utf8 : pystr -> pystr) (token_count : pystr -> Z).

Record DocumentChunk := {
  dk_ordinal : Z;
  dk_text : pystr;
  dk_text_hash : pystr;
  dk_token_count : Z;
  dk_start_offset : Z;
  dk_end_offset : Z
}.

(** [@ src/sana/modules/content/domain.py DocumentChunk] *)
Definition DocumentChunk_new (c : DocumentChunk) : res DocumentChunk :=
  _ ← fail_if ((dk_ordinal c <? 0) || (dk_start_offset c <? 0)
               || (dk_end_offset c <=? dk_start_offset c))
        (ValueError "Document chunk offsets are invalid");
  digest ← text_digest sha256_utf8 (dk_text c);
  _ ← fail_if (negb (bool_decide (dk_text_hash c = digest)))
        (ValueError "Document chunk hash does not match text");
  Ok c.

Record DocumentChunker := { dc_max : Z; dc_overlap : Z }.

(** [@ src/sana/modules/content/chunker.py DocumentChunker.__init__] *)
Definition DocumentChunker_new (max_characters overlap : Z) : res DocumentChunker :=
  _ ← fail_if ((max_characters <? 100) || (overlap <? 0) || (max_characters <=? overlap))
        (ValueError "Chunk size or overlap is invalid");
  Ok {| dc_max := max_characters; dc_overlap := overlap |}.

(** The end of the chunk that starts at [start]: after the last line or sentence end of its second
    half, when there is one. *)
(** [@ src/sana/modules/content/chunker.py DocumentChunker.chunk@29-38] *)
Definition chunk_end (k : DocumentChunker) (t : pystr) (start : Z) : Z :=
  let len := Z.of_nat (length t) in
  let hard_end := Z.min len (start + dc_max k) in
  if hard_end <? len then
    let half := start + dc_max k / 2 in
    let boundary := Z.max (Z.max (rfind t [10] half hard_end) (rfind t [12290] half hard_end))
                      (rfind t (u ". ") half hard_end) in
    if start <? boundary then boundary + 1 else hard_end
  else hard_end.

(** The loop, one chunk per turn; [fuel] bounds the turns. *)
(** [@ src/sana/modules/content/chunker.py DocumentChunker.chunk@25-54] *)
Fixpoint chunk_from (k : DocumentChunker) (t : pystr) (fuel : nat) (start ordinal : Z)
    : res (list DocumentChunk) :=
  match fuel with
  | O => Raise (AssertionError "out of fuel")
  | S fuel =>
      if Z.of_nat (length t) <=? start then Ok [] else
      let stop := chunk_end k t start in
      let chunk_text := slice t start stop in
      digest ← text_digest sha256_utf8 chunk_text;
      chunk ← DocumentChunk_new
                {| dk_ordinal := ordinal; dk_text := chunk_text; dk_text_hash := digest;
                   dk_token_count := token_count chunk_text; dk_start_offset := start;
                   dk_end_offset := stop |};
      if stop =? Z.of_nat (length t) then Ok [chunk] else
      rest ← chunk_from k t fuel (Z.max (start + 1) (stop - dc_overlap k)) (ordinal + 1);
      Ok (chunk :: rest)
  end.

(** [@ src/sana/modules/content/chunker.py DocumentChunker.chunk] *)
Definition chunker_chunk (k : DocumentChunker) (t : pystr) : res (list DocumentChunk) :=
  if bool_decide (t = []) then Ok [] else chunk_from k t (length t) 0 0.
End Chunker.

(** ** Searching and slicing *)

Lemma rfind_found t sub start stop : 0 <= start ->
  rfind t sub start stop = -1 \/
  (start <= rfind t sub start stop /\ rfind t sub start stop + Z.of_nat (length sub) <= stop).
Proof.
  intros H0. unfold rfind.
  set (top := Z.to_nat (Z.min stop (Z.of_nat (length t)) - start - Z.of_nat (length sub) + 1)).
  assert (forall n, (n <= top)%nat -> Z.of_nat n + start + Z.of_nat (length sub) <= stop + 1 \/ n = 0%nat) as HT
    by (intros; unfold top in *; lia).
  induction top as [|n IH]; [by left|]. destruct (starts_with _ _) eqn:E.
  - right. destruct (HT (S n)) as [?|?]; lia.
  - apply IH. intros m Hm. apply HT. lia.
Qed.

Lemma slice_length t a b : 0 <= a <= b -> b <= Z.of_nat (length t) ->
  Z.of_nat (length (slice t a b)) = b - a.
Proof. intros. unfold slice. rewrite length_take, length_drop. lia. Qed.

Lemma encodable_slice t a b : encodable t = true -> encodable (slice t a b) = true.
Proof.
  unfold encodable. rewrite <- !Is_true_true, !forallb_True. intros H.
  by apply Forall_take, Forall_drop.
Qed.

(** A prefix of a slice, followed by the text from its end. *)
Lemma take_slice t a b c : 0 <= a <= b -> b <= c ->
  take (Z.to_nat (b - a)) (slice t a c) ++ drop (Z.to_nat b) t = drop (Z.to_nat a) t.
Proof.
  intros. unfold slice. rewrite take_take, Nat.min_l by lia.
  replace (Z.to_nat b) with (Z.to_nat a + Z.to_nat (b - a))%nat by lia.
  by rewrite <- drop_drop, take_drop.
Qed.

Section ChunkEnd.
Context (k : DocumentChunker) (t : pystr).
Hypothesis (Hmax : 100 <= dc_max k).

Lemma chunk_end_bounds start : 0 <= start < Z.of_nat (length t) ->
  start < chunk_end k t start /\ chunk_end k t start <= start + dc_max k /\
  chunk_end k t start <= Z.of_nat (length t).
Proof using Hmax.
  intros Hs. unfold chunk_end. set (hard_end := Z.min _ _). set (half := start + _).
  assert (start <= half) by (unfold half; pose proof (Z.div_pos (dc_max k) 2); lia).
  pose proof (rfind_found t [10] half hard_end ltac:(lia)) as H1.
  pose proof (rfind_found t [12290] half hard_end ltac:(lia)) as H2.
  pose proof (rfind_found t (u ". ") half hard_end ltac:(lia)) as H3.
  simpl length in *. assert (start < hard_end <= Z.of_nat (length t)) by (unfold hard_end; lia).
  assert (hard_end <= start + dc_max k) by (unfold hard_end; lia).
  destruct (hard_end <? _); [|lia]. destruct (start <? _) eqn:E; bools; lia.
Qed.
End ChunkEnd.

(** ** The text from its chunks *)

(** What a chunk adds before the next one starts, and the whole last chunk. *)
Fixpoint stitch (cs : list DocumentChunk) : pystr :=
  match cs with
  | [] => []
  | c :: rest =>
      match rest with
      | [] => dk_text c
      | c' :: _ => take (Z.to_nat (dk_start_offset c' - dk_start_offset c)) (dk_text c) ++ stitch rest
      end
  end.

Section Theorems.
Context (sha256_utf8 : pystr -> pystr) (token_count : pystr -> Z).

(** A chunk is a slice of the text, hashed and counted, of at most the configured length. *)
Definition chunk_ok (k : DocumentChunker) (t : pystr) (c : DocumentChunk) : Prop :=
  dk_text c = slice t (dk_start_offset c) (dk_end_offset c) /\
  dk_text_hash c = sha256_utf8 (dk_text c) /\ dk_token_count c = token_count (dk_text c) /\
  0 <= dk_start_offset c < dk_end_offset c /\ dk_end_offset c <= Z.of_nat (length t) /\
  dk_end_offset c - dk_start_offset c <= dc_max k.

(** The next chunk starts after this one's start, no later than its end, and repeats at most the
    configured overlap. *)
Definition consecutive (k : DocumentChunker) (c c' : DocumentChunk) : Prop :=
  dk_start_offset c < dk_start_offset c' <= dk_end_offset c /\
  dk_end_offset c - dk_start_offset c' <= dc_overlap k.

(** The chunks of the text from [start] on, numbered from [ordinal]. *)
Record chunks_from (k : DocumentChunker) (t : pystr) (start ordinal : Z) (cs : list DocumentChunk)
    : Prop := {
  cf_first : exists c rest, cs = c :: rest /\ dk_start_offset c = start;
  cf_stitch : stitch cs = drop (Z.to_nat start) t;
  cf_last : exists c, last cs = Some c /\ dk_end_offset c = Z.of_nat (length t);
  cf_ok : Forall (chunk_ok k t) cs;
  cf_ordinals : forall i c, cs !! i = Some c -> dk_ordinal c = ordinal + Z.of_nat i;
  cf_chain : forall i c c', cs !! i = Some c -> cs !! S i = Some c' -> consecutive k c c'
}.

Lemma chunks_last k t c :
  chunk_ok k t c -> dk_end_offset c = Z.of_nat (length t) ->
  chunks_from k t (dk_start_offset c) (dk_ordinal c) [c].
Proof.
  intros Hc He. split.
  - eauto.
  - simpl. destruct Hc as (Ht & _ & _ & ? & ? & _). rewrite Ht, He. unfold slice.
    apply take_ge. rewrite length_drop. lia.
  - eauto.
  - by constructor.
  - intros i x Hx. apply list_lookup_singleton_Some in Hx as [-> ->]. lia.
  - by intros i x y _ ?.
Qed.

Lemma chunks_cons k t c start cs : chunk_ok k t c -> chunks_from k t start (dk_ordinal c + 1) cs ->
  dk_start_offset c < start <= dk_end_offset c -> dk_end_offset c - start <= dc_overlap k ->
  chunks_from k t (dk_start_offset c) (dk_ordinal c) (c :: cs).
Proof.
  intros Hc [(c' & rest & -> & <-) Hst Hl Hok Hord Hch] Hs Ho. split.
  - eauto.
  - simpl in *. rewrite Hst. destruct Hc as (Ht & _ & _ & ? & _). rewrite Ht. apply take_slice; lia.
  - destruct Hl as (x & Hx & Hxe). exists x. by rewrite last_cons, Hx.
  - by constructor.
  - intros [|i] x Hx; simpl in Hx; [simplify_eq; lia|]. rewrite (Hord i x Hx). lia.
  - intros [|i] x y Hx Hy; simpl in Hx, Hy; [by simplify_eq|]. by eapply Hch.
Qed.

Lemma chunk_from_spec k t fuel start ordinal : 100 <= dc_max k -> 0 <= dc_overlap k ->
  encodable t = true -> 0 <= ordinal -> 0 <= start < Z.of_nat (length t) ->
  Z.of_nat (length t) - start <= Z.of_nat fuel ->
  exists cs, chunk_from sha256_utf8 token_count k t fuel start ordinal = Ok cs /\
    chunks_from k t start ordinal cs.
Proof.
  intros Hm Ho He. revert start ordinal. induction fuel as [|fuel IH]; intros start ordinal Hord Hs Hf; [lia|].
  simpl. destruct (Z.leb_spec (Z.of_nat (length t)) start) as [|_]; [lia|].
  destruct (chunk_end_bounds k t Hm start Hs) as (H1 & H2 & H3). set (stop := chunk_end k t start) in *.
  unfold text_digest. rewrite encodable_slice by done. simpl.
  set (chunk := {| dk_ordinal := ordinal |}).
  assert (DocumentChunk_new sha256_utf8 chunk = Ok chunk) as ->.
  { unfold DocumentChunk_new, text_digest. simpl. rewrite encodable_slice by done.
    replace (ordinal <? 0) with false by lia. replace (start <? 0) with false by lia.
    replace (stop <=? start) with false by lia. simpl. by rewrite bool_decide_eq_true_2. }
  assert (chunk_ok k t chunk) as Hc by (repeat split; simpl; lia).
  simpl. destruct (stop =? _) eqn:E; bools.
  - eexists. split; [reflexivity|]. by apply (chunks_last k t chunk).
  - destruct (IH (Z.max (start + 1) (stop - dc_overlap k)) (ordinal + 1)) as (cs & Ecs & Hcs); [lia..|].
    rewrite Ecs. eexists. split; [reflexivity|]. apply (chunks_cons k t chunk _ cs Hc Hcs); simpl; lia.
Qed.

(** Claim C40. Chunking loses nothing. For every chunker the constructor accepts and every text
    that UTF-8 can encode, chunking terminates, no fuel is missing, and stitching the chunks together (of
    each, what it adds before the next one starts) gives back the text. Each chunk is the slice of the text at its
    offsets, with its own hash, at most as long as configured; the ordinals count from zero; each
    chunk starts strictly after the one before and no later than its end, repeating at most the
    configured overlap; an empty text has no chunk. *)
Theorem chunking_roundtrip (max_characters overlap : Z) k (t : pystr) :
  DocumentChunker_new max_characters overlap = Ok k -> encodable t = true ->
  exists cs, chunker_chunk sha256_utf8 token_count k t = Ok cs /\
    stitch cs = t /\
    Forall (chunk_ok k t) cs /\
    (forall i c, cs !! i = Some c -> dk_ordinal c = Z.of_nat i) /\
    (forall i c c', cs !! i = Some c -> cs !! S i = Some c' -> consecutive k c c') /\
    (cs = [] <-> t = []).
Proof.
  unfold DocumentChunker_new. intros Hk He. minv. bools. unfold chunker_chunk. case_bool_decide as Et.
  - exists []. subst. by repeat split; try constructor.
  - assert (0 < Z.of_nat (length t)) by (destruct t; simpl; [done|lia]).
    match goal with |- context [chunk_from _ _ ?k' _ _ _ _] => destruct (chunk_from_spec k' t (length t) 0 0)
      as (cs & Ecs & [(c & rest & Hcs & _) Hst _ Hok Hord Hch]); simpl; try done; try lia end.
    exists cs. split; [done|]. split; [done|]. split; [done|]. split; [done|]. split; [done|]. by subst cs.
Qed.
End Theorems.

(** ** An example *)

(** Two sentences and a run of letters: the first chunk ends after the sentence end of its second half. *)
Definition ex_text : pystr := repeat 97 30 ++ u ". " ++ repeat 98 40 ++ u ". " ++ repeat 99 96.
Definition ex_chunker : DocumentChunker := {| dc_max := 100; dc_overlap := 10 |}.

Example ex_chunks :
  (fun cs => map (fun c => (dk_start_offset c, dk_end_offset c)) cs)
    <$> chunker_chunk (fun t => t) (fun t => Z.of_nat (length t)) ex_chunker ex_text
  = Ok [(0, 73); (63, 163); (153, 170)].
Proof. reflexivity. Qed.

Lemma chunking_roundtrip_witness :
  exists cs, chunker_chunk (fun t => t) (fun t => Z.of_nat (length t)) ex_chunker ex_text = Ok cs /\
    stitch cs = ex_text /\
    Forall (chunk_ok (fun t => t) (fun t => Z.of_nat (length t)) ex_chunker ex_text) cs /\
    (forall i c, cs !! i = Some c -> dk_ordinal c = Z.of_nat i) /\
    (forall i c c', cs !! i = Some c -> cs !! S i = Some c' -> consecutive ex_chunker c c') /\
    (cs = [] <-> ex_text = []).
Proof. apply (chunking_roundtrip _ _ 100 10); reflexivity. Defined.
