(* ===== verification/Evidence.v ===== *)
(** * Evidence: grounded quotes, their verification records and the parser of model verdicts

    [sana/modules/evidence/domain.py] (the constructors), [builder.py] and [verifier.py] (from a
    quote of a chunk to a verified record), the selected candidates of [candidate_selector.py], and
    of [model_verifier.py] the values, the parser of a model's answer, the record of a proposal and
    its stored form. *)

From Stdlib Require Import SpecFloat String.
From S2P Require Import Prelude Errors PyTime PyData PyStr PyUrl Coverage Chunker.

(** ** Documents *)

(** [@ src/sana/modules/content/domain.py DocumentVersion@107-116] *)
Record DocumentVersion := {
  dv_id : UUID;
  dv_tenant_id : UUID;
  dv_document_id : UUID;
  dv_content_hash : pystr;
  dv_text : pystr;
  dv_media_type : pystr;
  dv_language : option pystr;
  dv_fetched_at : datetime
}.

(** [@ src/sana/modules/evidence/candidate_selector.py SelectedCandidate] *)
Record SelectedCandidate := {
  sc_id : UUID;
  sc_fact_id : UUID;
  sc_fact : FactRequirement;
  sc_document_id : UUID;
  sc_version : DocumentVersion;
  sc_chunk_id : UUID;
  sc_chunk : DocumentChunk;
  sc_url : pystr;
  sc_title : pystr;
  sc_source_identity : pystr;
  sc_source_authority : SourceAuthority;
  sc_quote : pystr;
  sc_score : float
}.

(** [@ src/sana/modules/evidence/model_verifier.py ProposedVerification] *)
Record ProposedVerification := {
  pv_fact_id : UUID;
  pv_candidate_id : UUID;
  pv_support_type : SupportType;
  pv_quote : pystr;
  pv_confidence : float;
  pv_reason_codes : list pystr
}.

(** [@ src/sana/modules/evidence/model_verifier.py VerifiedBatch] *)
Record VerifiedBatch := {
  vb_evidence : list VerifiedEvidence;
  vb_degraded : bool;
  vb_degradation_code : option pystr
}.

(** The members of the enums as their values. *)
Definition SupportType_value (s : SupportType) : pystr :=
  u match s with SupportType_SUPPORTS => "SUPPORTS" | SupportType_CONTRADICTS => "CONTRADICTS" end.
Definition SourceAuthority_value (a : SourceAuthority) : pystr :=
  u match a with
    | SourceAuthority_OFFICIAL => "OFFICIAL" | SourceAuthority_INDEPENDENT => "INDEPENDENT"
    | SourceAuthority_UNKNOWN => "UNKNOWN"
    end.
Definition EvidenceVerdict_value (v : EvidenceVerdict) : pystr :=
  u match v with EvidenceVerdict_ACCEPTED => "ACCEPTED" | EvidenceVerdict_REJECTED => "REJECTED" end.

Definition all_supports := [SupportType_SUPPORTS; SupportType_CONTRADICTS].
Definition all_authorities := [SourceAuthority_OFFICIAL; SourceAuthority_INDEPENDENT; SourceAuthority_UNKNOWN].
Definition all_verdicts := [EvidenceVerdict_ACCEPTED; EvidenceVerdict_REJECTED].

(** [NAMESPACE_URL] *)
Definition NAMESPACE_URL : UUID := 143098242404177361603877621312831893704.

Section Evidence.
Context `{Unicode} `{IpLiterals} `{PyText} `{JsonText}
  (sha256_utf8 : pystr -> pystr) (uuid5 : UUID -> pystr -> UUID).

(** The n-th identifier of a deterministic factory. *)
(** [@ src/sana/modules/shared/ids.py DeterministicIdFactory._next] *)
Definition deterministic_id (seed : pystr) (kind : string) (counter : Z) : UUID :=
  uuid5 NAMESPACE_URL (seed ++ u ":" ++ u kind ++ u ":" ++ str_of_Z counter).

(** [@ src/sana/modules/content/domain.py DocumentVersion] *)
Definition DocumentVersion_new (v : DocumentVersion) : res DocumentVersion :=
  expected ← text_digest sha256_utf8 (dv_text v);
  _ ← fail_if (negb (bool_decide (dv_content_hash v = expected)))
        (ValueError "DocumentVersion content hash does not match extracted text");
  Ok v.

(** ** Sources and candidates *)

(** [@ src/sana/modules/evidence/domain.py EvidenceSource] *)
Definition EvidenceSource_new (s : EvidenceSource) : res EvidenceSource :=
  parsed ← urlsplit (es_url s);
  _ ← fail_if (negb (bool_decide (str_lower (ur_scheme parsed) ∈ [u "http"; u "https"]))
               || bool_decide (url_hostname parsed = []))
        (ValueError "Evidence source requires an HTTP(S) URL");
  _ ← fail_if (blank (es_source_identity s)) (ValueError "Evidence source identity cannot be empty");
  Ok {| es_document_id := es_document_id s; es_document_version_id := es_document_version_id s;
        es_document_chunk_id := es_document_chunk_id s; es_url := es_url s;
        es_source_identity := str_lower (strip (es_source_identity s)); es_authority := es_authority s |}.

(** [@ src/sana/modules/evidence/builder.py EvidenceBuilder.build] *)
Definition EvidenceBuilder_build (new_id tenant_id run_id fact_requirement_id : UUID)
    (document_version : DocumentVersion) (document_chunk_id : UUID) (document_chunk : DocumentChunk)
    (document_id : UUID) (source_url source_identity : pystr) (support_type : SupportType) (quote : pystr)
    (quote_start_in_chunk : Z) (candidate_score : float) (authority : SourceAuthority) : res EvidenceCandidate :=
  _ ← fail_if (negb (dv_tenant_id document_version =? tenant_id))
        (ValueError "Evidence tenant does not match document version");
  _ ← fail_if (negb (dv_document_id document_version =? document_id))
        (ValueError "Evidence document does not match document version");
  _ ← fail_if (negb (bool_decide (substrZ (dk_start_offset document_chunk) (dk_end_offset document_chunk)
                                    (dv_text document_version) = dk_text document_chunk)))
        (ValueError "Document chunk is not an exact span of the version");
  let relative_end := quote_start_in_chunk + len quote in
  _ ← fail_if ((quote_start_in_chunk <? 0)
               || negb (bool_decide (substrZ quote_start_in_chunk relative_end (dk_text document_chunk) = quote)))
        (ValueError "Evidence quote is not at the declared chunk offset");
  let start_offset := dk_start_offset document_chunk + quote_start_in_chunk in
  let end_offset := start_offset + len quote in
  _ ← fail_if (negb (bool_decide (substrZ start_offset end_offset (dv_text document_version) = quote)))
        (ValueError "Evidence quote is not present in the document version");
  source ← EvidenceSource_new
    {| es_document_id := document_id; es_document_version_id := dv_id document_version;
       es_document_chunk_id := document_chunk_id; es_url := source_url;
       es_source_identity := source_identity; es_authority := authority |};
  digest ← text_digest sha256_utf8 quote;
  EvidenceCandidate_new sha256_utf8
    {| ec_id := new_id; ec_tenant_id := tenant_id; ec_run_id := run_id;
       ec_fact_requirement_id := fact_requirement_id; ec_source := source; ec_quote := quote;
       ec_quote_hash := digest; ec_support_type := support_type; ec_candidate_score := candidate_score;
       ec_start_offset := start_offset; ec_end_offset := end_offset |}.

(** [replace(candidate, id=...)] runs the constructor again. *)
Definition with_candidate_id (i : UUID) (c : EvidenceCandidate) : res EvidenceCandidate :=
  EvidenceCandidate_new sha256_utf8
    {| ec_id := i; ec_tenant_id := ec_tenant_id c; ec_run_id := ec_run_id c;
       ec_fact_requirement_id := ec_fact_requirement_id c; ec_source := ec_source c; ec_quote := ec_quote c;
       ec_quote_hash := ec_quote_hash c; ec_support_type := ec_support_type c;
       ec_candidate_score := ec_candidate_score c; ec_start_offset := ec_start_offset c;
       ec_end_offset := ec_end_offset c |}.

Definition with_verified_id (i : UUID) (v : VerifiedEvidence) : res VerifiedEvidence :=
  VerifiedEvidence_new
    {| ve_id := i; ve_candidate := ve_candidate v; ve_verdict := ve_verdict v; ve_confidence := ve_confidence v;
       ve_reason_codes := ve_reason_codes v; ve_verifier_version := ve_verifier_version v;
       ve_verified_at := ve_verified_at v; ve_level := ve_level v |}.

(** [@ src/sana/modules/evidence/verifier.py EvidenceVerifier] *)
Definition EvidenceVerifier_record (new_id : UUID) (verifier_version : pystr) (candidate : EvidenceCandidate)
    (verdict : EvidenceVerdict) (confidence : float) (reason_codes : list pystr) (verified_at : datetime)
    : res VerifiedEvidence :=
  _ ← fail_if (blank verifier_version) (ValueError "Verifier version cannot be empty");
  VerifiedEvidence_new
    {| ve_id := new_id; ve_candidate := candidate; ve_verdict := verdict; ve_confidence := confidence;
       ve_reason_codes := dedupe reason_codes; ve_verifier_version := verifier_version;
       ve_verified_at := verified_at; ve_level := EvidenceLevel_L1_GROUNDED |}.

(** ** From a proposal to a record *)

(** [@ src/sana/modules/evidence/model_verifier.py ModelEvidenceVerifier._record] *)
Definition verifier_record (run_id : UUID) (verified_at : datetime) (verifier_version : pystr)
    (verdict : EvidenceVerdict) (candidate : SelectedCandidate) (proposed : ProposedVerification)
    : res VerifiedEvidence :=
  quote_start ← str_index (pv_quote proposed) (dk_text (sc_chunk candidate));
  let seed (suffix : string) := str_of_uuid run_id ++ u ":" ++ str_of_uuid (sc_id candidate) ++ u suffix in
  grounded ← EvidenceBuilder_build (deterministic_id (seed ":candidate"%string) "uuid" 1)
    (dv_tenant_id (sc_version candidate)) run_id (sc_fact_id candidate) (sc_version candidate)
    (sc_chunk_id candidate) (sc_chunk candidate) (sc_document_id candidate) (sc_url candidate)
    (sc_source_identity candidate) (pv_support_type proposed) (pv_quote proposed) quote_start
    (sc_score candidate) (sc_source_authority candidate);
  grounded ← with_candidate_id (sc_id candidate) grounded;
  verified ← EvidenceVerifier_record (deterministic_id (seed ":verified"%string) "uuid" 1) verifier_version grounded
    verdict (pv_confidence proposed) (u "exact_source_span" :: pv_reason_codes proposed) verified_at;
  with_verified_id (uuid5 (sc_id candidate) (u "verified:" ++ verifier_version)) verified.

(** ** The parser of a model's verdicts *)

(** [@ src/sana/modules/evidence/model_verifier.py _ALLOWED_REASON_CODES] *)
Definition allowed_reason_codes : list pystr :=
  map u ["direct_support"; "direct_contradiction"; "current_source"; "explicit_value"; "definition_match";
         "context_match"]%string.

(** What the loop carries: the verdicts so far, the candidates seen and the count of each fact. *)
Record ParseState := {
  pa_parsed : list ProposedVerification;
  pa_seen : list UUID;
  pa_per_fact : list (UUID * Z)
}.

Definition is_object (v : json) : bool := match v with JObj _ => true | _ => false end.
Definition is_list (v : json) : bool := match v with JList _ => true | _ => false end.

(** One turn of the loop. *)
(** [@ src/sana/modules/evidence/model_verifier.py VerificationParser.parse@79-114] *)
Definition parse_verdict (candidates : list (UUID * SelectedCandidate)) (st : ParseState) (raw : json)
    : res ParseState :=
  _ ← fail_if (negb (is_object raw)) (ValueError "verdict must be an object");
  candidate_id ← uuid_at raw "candidate_id";
  fact_id ← uuid_at raw "fact_id";
  match dget candidate_id candidates with
  | None => Raise (ValueError "verdict references an unknown candidate/fact pair")
  | Some candidate =>
      _ ← fail_if (negb (sc_fact_id candidate =? fact_id))
            (ValueError "verdict references an unknown candidate/fact pair");
      if bool_decide (candidate_id ∈ pa_seen st) then Ok st else
      quote ← str_at raw "quote";
      _ ← fail_if (bool_decide (quote = []) || (240 <? len quote) || negb (str_in quote (dk_text (sc_chunk candidate))))
            (ValueError "verdict quote is not an exact candidate span");
      let count := default 0 (dget fact_id (pa_per_fact st)) + 1 in
      let per_fact := dset fact_id count (pa_per_fact st) in
      _ ← fail_if (1 <? count) (ValueError "verdicts contain more than one item for one fact");
      confidence ← float_at raw "confidence";
      _ ← fail_if (negb (fle01 confidence)) (ValueError "verdict confidence is out of range");
      reason_values ← list_at raw "reason_codes";
      let reasons := dedupe (map to_str reason_values) in
      _ ← fail_if (bool_decide (reasons = []) || negb (forallb (fun r => bool_decide (r ∈ allowed_reason_codes)) reasons))
            (ValueError "verdict contains unsupported reason codes");
      support ← str_at raw "support_type";
      support_type ← enum_of SupportType_value all_supports support;
      Ok {| pa_parsed := pa_parsed st ++
              [{| pv_fact_id := fact_id; pv_candidate_id := candidate_id; pv_support_type := support_type;
                  pv_quote := quote; pv_confidence := confidence; pv_reason_codes := reasons |}];
            pa_seen := candidate_id :: pa_seen st; pa_per_fact := per_fact |}
  end.

Definition parse_verdicts (candidates : list (UUID * SelectedCandidate)) : ParseState -> list json -> res ParseState :=
  foldl (fun st raw => st ← st; parse_verdict candidates st raw) ∘ Ok.

(** [{item.id: item for item in items}] *)
Definition dict_by {A} (key : A -> UUID) (items : list A) : list (UUID * A) :=
  foldl (fun d x => dset (key x) x d) [] items.

(** [@ src/sana/modules/evidence/model_verifier.py VerificationParser] *)
Definition VerificationParser_parse (items : list SelectedCandidate) (text : pystr)
    : res (list ProposedVerification) :=
  let candidates := dict_by sc_id items in
  payload ← json_loads text;
  verdicts ← subscript payload "verdicts";
  match verdicts with
  | JList l =>
      _ ← fail_if (Z.of_nat (length candidates) <? Z.of_nat (length l)) (ValueError "verdicts must be a bounded list");
      st ← parse_verdicts candidates {| pa_parsed := []; pa_seen := []; pa_per_fact := [] |} l;
      Ok (pa_parsed st)
  | _ => Raise (ValueError "verdicts must be a bounded list")
  end.

(** ** The stored form *)

(** [@ src/sana/modules/evidence/model_verifier.py evidence_to_payload] *)
Definition evidence_to_payload (e : VerifiedEvidence) : json :=
  let c := ve_candidate e in
  let s := ec_source c in
  let text := fun x => JStr x in
  let uuid := fun x => JStr (str_of_uuid x) in
  JObj [(u "candidate_id", uuid (ec_id c)); (u "verified_id", uuid (ve_id e));
        (u "fact_id", uuid (ec_fact_requirement_id c)); (u "document_id", uuid (es_document_id s));
        (u "document_version_id", uuid (es_document_version_id s));
        (u "document_chunk_id", uuid (es_document_chunk_id s)); (u "quote", text (ec_quote c));
        (u "quote_hash", text (ec_quote_hash c)); (u "start_offset", JInt (ec_start_offset c));
        (u "end_offset", JInt (ec_end_offset c)); (u "support_type", text (SupportType_value (ec_support_type c)));
        (u "candidate_score", JFloat (ec_candidate_score c)); (u "source_identity", text (es_source_identity s));
        (u "source_authority", text (SourceAuthority_value (es_authority s)));
        (u "verdict", text (EvidenceVerdict_value (ve_verdict e))); (u "confidence", JFloat (ve_confidence e));
        (u "reason_codes", JList (map JStr (ve_reason_codes e)));
        (u "verifier_version", text (ve_verifier_version e)); (u "verified_at", text (isoformat (ve_verified_at e)));
        (u "url", text (es_url s))].

(** [@ src/sana/modules/evidence/model_verifier.py evidence_from_payload] *)
Definition evidence_from_payload (tenant_id run_id : UUID) (payload : json) : res VerifiedEvidence :=
  document_id ← uuid_at payload "document_id";
  document_version_id ← uuid_at payload "document_version_id";
  document_chunk_id ← uuid_at payload "document_chunk_id";
  url ← str_at payload "url";
  source_identity ← str_at payload "source_identity";
  authority_text ← str_at payload "source_authority";
  authority ← enum_of SourceAuthority_value all_authorities authority_text;
  source ← EvidenceSource_new
    {| es_document_id := document_id; es_document_version_id := document_version_id;
       es_document_chunk_id := document_chunk_id; es_url := url; es_source_identity := source_identity;
       es_authority := authority |};
  candidate_id ← uuid_at payload "candidate_id";
  fact_id ← uuid_at payload "fact_id";
  quote ← str_at payload "quote";
  quote_hash ← str_at payload "quote_hash";
  support_text ← str_at payload "support_type";
  support_type ← enum_of SupportType_value all_supports support_text;
  candidate_score ← float_at payload "candidate_score";
  start_offset ← int_at payload "start_offset";
  end_offset ← int_at payload "end_offset";
  candidate ← EvidenceCandidate_new sha256_utf8
    {| ec_id := candidate_id; ec_tenant_id := tenant_id; ec_run_id := run_id; ec_fact_requirement_id := fact_id;
       ec_source := source; ec_quote := quote; ec_quote_hash := quote_hash; ec_support_type := support_type;
       ec_candidate_score := candidate_score; ec_start_offset := start_offset; ec_end_offset := end_offset |};
  verified_id ← uuid_at payload "verified_id";
  verdict_text ← str_at payload "verdict";
  verdict ← enum_of EvidenceVerdict_value all_verdicts verdict_text;
  confidence ← float_at payload "confidence";
  codes ← subscript payload "reason_codes";
  reason_values ← items codes;
  verifier_version ← str_at payload "verifier_version";
  verified_at ← datetime_at payload "verified_at";
  VerifiedEvidence_new
    {| ve_id := verified_id; ve_candidate := candidate; ve_verdict := verdict; ve_confidence := confidence;
       ve_reason_codes := map to_str reason_values; ve_verifier_version := verifier_version;
       ve_verified_at := verified_at; ve_level := EvidenceLevel_L1_GROUNDED |}.
End Evidence.
