(* ===== verification/Authority.v ===== *)
(** * Authority: whose site a page is on

    [sana/modules/shared/entity_matching.py] and [sana/modules/evidence/source_authority.py]: a page
    is official when its registrable domain, or the start of its URL, is configured for the entity
    the question is about. The public suffix list (tldextract) is a parameter. *)

From Stdlib Require Import String.
From S2P Require Import Prelude Errors PyData PyStr Regex RegexFacts PyUrl Coverage.

(** [_PSL(host).top_domain_under_public_suffix] *)
Class PublicSuffixes := { top_domain : pystr -> pystr }.

(** ** Entities inside labels *)

Section Matching.
Context `{Unicode}.

(** The greatest text by length, then by code points; the first one of equals. *)
Definition longer (a b : pystr) : bool := (len a <? len b) || ((len a =? len b) && pystr_ltb a b).

Fixpoint longest (best : pystr) (l : list pystr) : pystr :=
  match l with
  | [] => best
  | x :: r => longest (if longer best x then x else best) r
  end.

Definition entity_pattern (configured : pystr) : regex :=
  rcat [re "(?<![0-9a-z])"; rtext configured; re "(?![0-9a-z])"].

Definition folded_words (t : pystr) : pystr := normalize_spaces (casefold t).

(** The configured entities that a label names. *)
Definition entity_matches (value : pystr) (configured_entities : list pystr) : list pystr :=
  base.filter (fun c => c <> [] /\ re_found no_flags (folded_words value) (entity_pattern c) = true)
    (map folded_words configured_entities).

(** [@ src/sana/modules/shared/entity_matching.py match_configured_entity] *)
Definition match_configured_entity (value : pystr) (configured_entities : list pystr) : option pystr :=
  match entity_matches value configured_entities with
  | [] => None
  | x :: r => Some (longest x r)
  end.
End Matching.

(** ** The policy *)

(** [@ src/sana/modules/evidence/source_authority.py SourceAuthorityPolicy@55-79] *)
Record SourceAuthorityPolicy := {
  sa_version : pystr;
  sa_domains : list (pystr * list pystr);
  sa_prefixes : list (pystr * list pystr)
}.

(** [@ src/sana/modules/evidence/source_authority.py SourceAuthorityPolicy@55-79] *)
Definition default_authority : SourceAuthorityPolicy := {|
  sa_version := u "source-authority-v6";
  sa_domains := map (fun '(k, l) => (u k, map u l))
    [("apex legends", ["ea.com"; "respawn.com"]); ("deepseek", ["deepseek.com"]); ("openai", ["openai.com"]);
     ("python", ["python.org"]); ("http", ["iana.org"; "rfc-editor.org"]); ("git", ["git-scm.com"]);
     ("json", ["iana.org"; "rfc-editor.org"]); ("sha-256", ["rfc-editor.org"]);
     ("dns", ["iana.org"; "rfc-editor.org"]); ("tls 1.3", ["rfc-editor.org"]); ("rfc 3339", ["rfc-editor.org"]);
     ("sql transaction isolation", ["postgresql.org"]); ("postgresql", ["postgresql.org"]);
     ("sqlite", ["sqlite.org"]); ("node.js", ["nodejs.org"]); ("rust", ["rust-lang.org"])]%string;
  sa_prefixes := [(u "git", [u "https://www.kernel.org/pub/software/scm/git/docs/"])]
|}.

Section Authority.
Context `{Unicode} `{IpLiterals} `{PublicSuffixes}.

(** [(urlsplit(url).hostname or "").strip(".").casefold()] *)
Definition source_host (parsed : SplitResult) : pystr := casefold (strip_chars (u ".") (url_hostname parsed)).

(** [@ src/sana/modules/evidence/source_authority.py registrable_domain] *)
Definition registrable_domain (url : pystr) : res pystr :=
  parsed ← urlsplit url;
  let host := source_host parsed in
  _ ← fail_if (bool_decide (host = [])) (ValueError "Source URL has no hostname");
  let identity := top_domain host in
  Ok (casefold (if bool_decide (identity = []) then host else identity)).

(** [@ src/sana/modules/evidence/source_authority.py _normalized_url] *)
Definition normalized_url (url : pystr) : res pystr :=
  parsed ← urlsplit url;
  let host := source_host parsed in
  _ ← fail_if (bool_decide (host = [])) (ValueError "Source URL has no hostname");
  port ← url_port parsed;
  let port_text := match port with Some p => u ":" ++ str_of_Z p | None => [] end in
  Ok (urlunsplit {| ur_scheme := casefold (ur_scheme parsed); ur_netloc := host ++ port_text;
                    ur_path := if bool_decide (ur_path parsed = []) then u "/" else ur_path parsed;
                    ur_query := ur_query parsed; ur_fragment := [] |}).

(** [entity.strip().casefold()] *)
Definition entity_key (entity : pystr) : pystr := casefold (strip entity).

(** [{entity.strip().casefold(): f(values) for entity, values in d.items() if entity.strip()}] *)
Definition normalized_table (f : list pystr -> list pystr) (d : list (pystr * list pystr)) : list (pystr * list pystr) :=
  foldl (fun t kv => if blank kv.1 then t else dset (entity_key kv.1) (f kv.2) t) [] d.

Fixpoint normalized_prefixes (prefixes : list pystr) : res (list pystr) :=
  match prefixes with
  | [] => Ok []
  | p :: r => if blank p then normalized_prefixes r
              else x ← normalized_url p; xs ← normalized_prefixes r; Ok (x :: xs)
  end.

Fixpoint normalized_prefix_table (d : list (pystr * list pystr)) (t : list (pystr * list pystr))
    : res (list (pystr * list pystr)) :=
  match d with
  | [] => Ok t
  | (entity, prefixes) :: r =>
      if blank entity then normalized_prefix_table r t
      else x ← normalized_prefixes prefixes; normalized_prefix_table r (dset (entity_key entity) x t)
  end.

(** [@ src/sana/modules/evidence/source_authority.py SourceAuthorityPolicy.__post_init__] *)
Definition SourceAuthorityPolicy_new (p : SourceAuthorityPolicy) : res SourceAuthorityPolicy :=
  _ ← fail_if (blank (sa_version p)) (ValueError "Source authority policy version cannot be empty");
  let domains := normalized_table
    (fun l => map (fun d => casefold (strip d)) (base.filter (fun d => blank d = false) l)) (sa_domains p) in
  prefixes ← normalized_prefix_table (sa_prefixes p) [];
  Ok {| sa_version := sa_version p; sa_domains := domains; sa_prefixes := prefixes |}.

(** [table[key] if key is not None else ()] for the entity that matches. *)
Definition configured_for (entity : pystr) (table : list (pystr * list pystr)) : res (list pystr) :=
  match match_configured_entity entity (map fst table) with
  | None => Ok []
  | Some key => match dget key table with
                | Some values => Ok values
                | None => Raise (KeyError "configured entity")
                end
  end.

(** [@ src/sana/modules/evidence/source_authority.py SourceAuthorityPolicy.classify] *)
Definition classify (p : SourceAuthorityPolicy) (url entity : pystr) : res (pystr * SourceAuthority) :=
  identity ← registrable_domain url;
  official ← configured_for entity (sa_domains p);
  prefixes ← configured_for entity (sa_prefixes p);
  normalized ← normalized_url url;
  Ok (identity, if bool_decide (identity ∈ official) || existsb (fun x => starts_with x normalized) prefixes
                then SourceAuthority_OFFICIAL else SourceAuthority_INDEPENDENT).
End Authority.

(** ** Facts *)

Section MatchingFacts.
Context `{Unicode}.

(** The characters that may not touch the name of an entity. *)
Definition name_char (c : Z) : bool := ascii_digit c || ascii_lower_letter c.

(** A label names an entity: the folded name stands in the folded label between other characters. *)
Definition names (value entity : pystr) : Prop := exists a b,
  folded_words value = a ++ entity ++ b /\
  (forall a' c, a = a' ++ [c] -> name_char c = false) /\ (forall c b', b = c :: b' -> name_char c = false).

Lemma in_name_set c : in_set no_flags false [SRange 48 57; SRange 97 122] c = name_char c.
Proof. unfold in_set, in_item, variants, name_char, ascii_digit, ascii_lower_letter. simpl. rewrite !orb_false_r. by destruct (_ || _). Qed.

Lemma same_text s t : Forall2 (fun x y => same_char no_flags x y = true) s t <-> s = t.
Proof.
  split; [|intros ->; induction t; constructor; [by unfold same_char; rewrite Z.eqb_refl|done]].
  induction 1 as [|x y s t Hxy _ ->]; [done|]. unfold same_char in Hxy. simpl in Hxy. rewrite orb_false_r in Hxy.
  by bools; subst.
Qed.

Lemma entity_found value entity :
  re_found no_flags (folded_words value) (entity_pattern entity) = true <-> names value entity.
Proof.
  set (t := folded_words value). rewrite re_found_iff. unfold names, matches, entity_pattern. fold t.
  assert (Hone : forall i cs j cs', den no_flags t (RCat (RSet false [SRange 48 57; SRange 97 122]) REmpty) i cs j cs' <->
    j = S i /\ cs' = cs /\ exists c, t !! i = Some c /\ name_char c = true).
  { intros i cs j cs'. cbn [den]. unfold RegexFacts.reads. split.
    - intros (m & cs1 & (c & Hc & Hp & -> & ->) & -> & ->). rewrite in_name_set in Hp. eauto.
    - intros (-> & -> & c & Hc & Hp). exists (S i), cs. ksplit. exists c. by rewrite in_name_set. }
  split.
  - intros (i & j & Hi & cs & m1 & c1 & (m0 & c0 & (-> & -> & Hbehind) & -> & ->) & m2 & c2 & Htext & Hrest).
    apply den_rtext in Htext as (-> & -> & Hb & HF). apply same_text in HF.
    destruct Hrest as (m3 & c3 & (m4 & c4 & (-> & -> & Hahead) & -> & ->) & -> & ->).
    exists (take i t), (drop (i + length entity) t). ksplit.
    + rewrite <- (take_drop i t) at 1. f_equal. rewrite <- (take_drop (length entity) (drop i t)), drop_drop.
      f_equal. rewrite HF at 2. unfold substr. by rewrite skipn_firstn_comm, Nat.add_sub_swap, Nat.sub_diag by lia.
    + intros a c E. destruct (name_char c) eqn:Hc; [|done]. exfalso.
      assert (Hl : length (take i t) = i) by (rewrite length_take; lia).
      rewrite E, length_app in Hl. simpl in Hl. apply (Hbehind [] ltac:(lia)). apply Hone. ksplit; [lia|].
      exists c. split; [|done]. rewrite <- (lookup_take_lt t i) by lia. rewrite E.
      replace (i - 1)%nat with (length a) by lia. by rewrite lookup_app_r, Nat.sub_diag by lia.
    + intros c b E. destruct (name_char c) eqn:Hc; [|done]. exfalso.
      apply (Hahead (S (i + length entity)) []). apply Hone. ksplit. exists c. split; [|done].
      rewrite <- (Nat.add_0_r (i + length entity)), <- lookup_drop, E. done.
  - intros (a & b & E & Ha & Hb). exists (length a), (length a + length entity)%nat.
    assert (length t = (length a + length entity + length b)%nat) by (by rewrite E, !length_app; lia).
    split; [lia|]. exists []. exists (length a), []. split.
    { exists (length a), []. cbn [den]. ksplit. intros cs1 Hle HR. apply Hone in HR as (_ & _ & c & Hc & Hn).
      destruct (exists_last (l := a)) as (a' & c' & ->); [by intros ->; simpl in Hle; lia|]. rewrite E in Hc.
      rewrite length_app in Hc. simpl in Hc. rewrite <- app_assoc in Hc. replace (length a' + 1 - 1)%nat with (length a') in Hc by lia.
      rewrite lookup_app_r, Nat.sub_diag in Hc by lia. simpl in Hc. simplify_eq. by rewrite (Ha a' c) in Hn. }
    exists (length a + length entity)%nat, []. split.
    { apply den_rtext. ksplit; [left; lia|]. apply same_text. unfold substr. rewrite E.
      rewrite skipn_firstn_comm, drop_app_length, Nat.add_comm, Nat.add_sub, take_app_length. done. }
    exists (length a + length entity)%nat, []. split; [|done]. exists (length a + length entity)%nat, []. split; [|done]. split; [done|]. split; [done|].
    intros m cs1 HR. apply Hone in HR as (_ & _ & c & Hc & Hn). rewrite E, app_assoc, lookup_app_r in Hc by (rewrite length_app; lia).
    rewrite length_app, Nat.sub_diag in Hc. destruct b as [|c' b]; [done|]. simpl in Hc. simplify_eq. by rewrite (Hb c b) in Hn.
Qed.

(** [longest] is the maximum of a total preorder. *)
Lemma pystr_ltb_neg_trans a b c : pystr_ltb a b = false -> pystr_ltb b c = false -> pystr_ltb a c = false.
Proof using.
  revert b c. induction a as [|x a IH]; intros [|y b] [|z c]; simpl; try done.
  intros H1 H2. bools. apply orb_false_intro; [lia|].
  destruct (Z.eqb_spec x z) as [->|]; [|done]. simpl.
  destruct (Z.eqb_spec z y) as [->|]; simpl in *; [|lia]. rewrite Z.eqb_refl in *. simpl in *. eauto.
Qed.

Lemma pystr_ltb_irrefl a : pystr_ltb a a = false.
Proof using. induction a as [|x a IH]; simpl; [done|]. by rewrite Z.ltb_irrefl, IH, andb_false_r. Qed.

Lemma pystr_ltb_asym a b : pystr_ltb a b = true -> pystr_ltb b a = false.
Proof using.
  revert b. induction a as [|x a IH]; intros [|y b]; simpl; try done. intros [|]%orb_prop; bools.
  - apply orb_false_intro; [lia|]. by rewrite (proj2 (Z.eqb_neq y x)) by lia.
  - subst. rewrite Z.ltb_irrefl, Z.eqb_refl. simpl. auto.
Qed.

Lemma longer_neg_trans a b c : longer a b = false -> longer b c = false -> longer a c = false.
Proof using.
  unfold longer. intros H1 H2. bools. apply orb_false_intro; [lia|].
  destruct (Z.eqb_spec (len a) (len c)) as [Hac|]; [|done]. simpl.
  rewrite (proj2 (Z.eqb_eq (len a) (len b))) in * by lia. rewrite (proj2 (Z.eqb_eq (len b) (len c))) in * by lia.
  simpl in *. by eapply pystr_ltb_neg_trans.
Qed.

Lemma longer_asym a b : longer a b = true -> longer b a = false.
Proof using.
  unfold longer. intros [|]%orb_prop; bools.
  - rewrite (proj2 (Z.eqb_neq _ _)) by lia. apply orb_false_intro; [lia|done].
  - rewrite pystr_ltb_asym, andb_false_r by done. apply orb_false_intro; [lia|done].
Qed.

Lemma longest_spec best l : longest best l ∈ best :: l /\ Forall (fun x => longer (longest best l) x = false) (best :: l).
Proof using.
  revert best. induction l as [|y l IH]; intros best; simpl.
  - split; [by left|]. constructor; [|done]. unfold longer. by rewrite Z.ltb_irrefl, pystr_ltb_irrefl, andb_false_r.
  - destruct (longer best y) eqn:E.
    + destruct (IH y) as [Hin HF]. split; [set_solver|]. constructor; [|done].
      apply Forall_cons in HF as [Hy _]. eapply longer_neg_trans; [exact Hy|]. by apply longer_asym.
    + destruct (IH best) as [Hin HF]. apply Forall_cons in HF as [Hb HF]. split; [set_solver|].
      repeat constructor; try done. by eapply longer_neg_trans.
Qed.

(** The most specific of the configured entities that a label names. *)
Definition most_specific (value key : pystr) (configured : list pystr) : Prop :=
  key <> [] /\ key ∈ map folded_words configured /\ names value key /\
  forall k, k ∈ map folded_words configured -> k <> [] -> names value k -> longer key k = false.

Lemma elem_of_matches value configured k :
  k ∈ entity_matches value configured <-> k <> [] /\ k ∈ map folded_words configured /\ names value k.
Proof. unfold entity_matches. rewrite list_elem_of_filter, entity_found. naive_solver. Qed.

Lemma match_configured_entity_Some value configured key :
  match_configured_entity value configured = Some key -> most_specific value key configured.
Proof.
  unfold match_configured_entity, most_specific. destruct (entity_matches value configured) as [|x r] eqn:E; [done|].
  intros [= <-]. destruct (longest_spec x r) as [Hin HF]. rewrite <- E in Hin, HF.
  apply elem_of_matches in Hin as (? & ? & ?). ksplit. intros k Hk Hne Hn. rewrite Forall_forall in HF.
  apply HF. by apply elem_of_matches.
Qed.

Lemma match_configured_entity_None value configured k :
  match_configured_entity value configured = None -> k ∈ map folded_words configured -> k <> [] -> ~ names value k.
Proof.
  unfold match_configured_entity. destruct (entity_matches value configured) as [|x r] eqn:E; [|done].
  intros _ Hk Hne Hn. assert (k ∈ entity_matches value configured) as Hin by by apply elem_of_matches.
  rewrite E in Hin. set_solver.
Qed.

(** Two most specific entities are the same. *)
Lemma longer_total a b : longer a b = false -> longer b a = false -> a = b.
Proof using.
  unfold longer. intros [L1 P1]%orb_false_elim [L2 P2]%orb_false_elim. bools.
  assert (len a = len b) as Hl by lia. rewrite Hl, Z.eqb_refl in P1, P2. simpl in *.
  clear -P1 P2. revert b P1 P2. induction a as [|x a IH]; intros [|y b]; simpl; try done.
  intros Ha Hb. bools. assert (x = y) as -> by lia. rewrite Z.eqb_refl in *. simpl in *. f_equal. auto.
Qed.
End MatchingFacts.

Section Policy.
Context `{Unicode} `{IpLiterals} `{PublicSuffixes}.

(** The default configuration is in its stored form, so the keys a match returns are in its tables. *)
Lemma default_stored : SourceAuthorityPolicy_new default_authority = Ok default_authority.
Proof. vm_compute. reflexivity. Qed.

Lemma default_folded : map folded_words (map fst (sa_domains default_authority)) = map fst (sa_domains default_authority)
  /\ map folded_words (map fst (sa_prefixes default_authority)) = map fst (sa_prefixes default_authority).
Proof. split; vm_compute; reflexivity. Qed.

Lemma default_keys : NoDup (map fst (sa_domains default_authority)) /\ NoDup (map fst (sa_prefixes default_authority)).
Proof. split; apply (bool_decide_unpack _); by vm_compute. Qed.

(** What is configured for an entity: the values of its most specific name. *)
Definition configured (entity : pystr) (table : list (pystr * list pystr)) (value : pystr) : Prop :=
  exists key values, most_specific entity key (map fst table) /\ (key, values) ∈ table /\ value ∈ values.

Lemma configured_for_stored entity table : map folded_words (map fst table) = map fst table -> NoDup (map fst table) ->
  exists values, configured_for entity table = Ok values /\ forall v, v ∈ values <-> configured entity table v.
Proof.
  intros Hfold Hnd. unfold configured_for, configured. destruct (match_configured_entity entity (map fst table)) as [key|] eqn:E.
  - apply match_configured_entity_Some in E as Hm. destruct Hm as (Hne & Hk & Hn & Hbest). rewrite Hfold in Hk.
    destruct (proj2 (dget_is_Some table key) Hk) as [values Hv]. rewrite Hv. exists values. split; [done|].
    intros v. split.
    + intros Hin. exists key, values. ksplit; [by apply match_configured_entity_Some|by apply dget_elem].
    + intros (key' & values' & (Hne' & Hk' & Hn' & Hbest') & Hin' & Hv').
      assert (key = key') as <-.
      { apply longer_total; [by apply Hbest|]. apply Hbest'; [by rewrite Hfold|done|done]. }
      rewrite (dget_NoDup _ _ _ Hnd Hin') in Hv. by simplify_eq.
  - exists []. split; [done|]. intros v. split; [set_solver|].
    intros (key & values & (Hne & Hk & Hn & _) & _). exfalso. eapply match_configured_entity_None; [exact E|exact Hk|done|done].
Qed.

Lemma either_official (b1 b2 : bool) (P Q : Prop) : (b1 = true <-> P) -> (b2 = true <-> Q) ->
  let authority := if b1 || b2 then SourceAuthority_OFFICIAL else SourceAuthority_INDEPENDENT in
  (authority = SourceAuthority_OFFICIAL \/ authority = SourceAuthority_INDEPENDENT) /\
  (authority = SourceAuthority_OFFICIAL <-> P \/ Q).
Proof using. destruct b1, b2; simpl; naive_solver. Qed.

(** A page of a known host is classified, and it is official exactly when its registrable domain is
    configured for the entity, or its URL starts with a configured prefix. *)
Lemma default_classified url entity identity normalized :
  registrable_domain url = Ok identity -> normalized_url url = Ok normalized ->
  exists authority, classify default_authority url entity = Ok (identity, authority) /\
    (authority = SourceAuthority_OFFICIAL \/ authority = SourceAuthority_INDEPENDENT) /\
    (authority = SourceAuthority_OFFICIAL <->
      configured entity (sa_domains default_authority) identity \/
      exists prefix rest, configured entity (sa_prefixes default_authority) prefix /\ normalized = prefix ++ rest).
Proof.
  intros Hd Hn. destruct default_folded as [F1 F2], default_keys as [K1 K2].
  destruct (configured_for_stored entity (sa_domains default_authority) F1 K1) as (domains & Ed & Hdom).
  destruct (configured_for_stored entity (sa_prefixes default_authority) F2 K2) as (prefixes & Ep & Hpre).
  unfold classify. rewrite Hd, Hn, Ed, Ep. cbv [mbind res_bind]. eexists. split; [done|].
  assert (Hb : existsb (fun x => starts_with x normalized) prefixes = true <->
    exists prefix rest, configured entity (sa_prefixes default_authority) prefix /\ normalized = prefix ++ rest).
  { rewrite existsb_exists. split.
    - intros (x & Hx%list_elem_of_In & (r & Hr)%starts_with_spec). exists x, r. by rewrite <- Hpre.
    - intros (x & r & Hx%Hpre & ->). exists x. split; [by apply list_elem_of_In|]. apply starts_with_spec; eauto. }
  apply either_official; [|done]. by rewrite bool_decide_eq_true.
Qed.

(** Claim C13. Authority is configured, never claimed: with the default configuration a page of a known host is
    always classified, as the site of its registrable domain, and it is official exactly when that domain
    is configured for the most specific entity the label names, or its URL starts with a prefix that is. *)
Theorem official_is_configured url entity identity normalized :
  registrable_domain url = Ok identity -> normalized_url url = Ok normalized ->
  exists authority, classify default_authority url entity = Ok (identity, authority) /\
    (authority = SourceAuthority_OFFICIAL \/ authority = SourceAuthority_INDEPENDENT) /\
    (authority = SourceAuthority_OFFICIAL <->
      configured entity (sa_domains default_authority) identity \/
      exists prefix rest, configured entity (sa_prefixes default_authority) prefix /\ normalized = prefix ++ rest).
Proof. apply default_classified. Qed.
End Policy.

(** ** Examples *)

(** A suffix list for the examples: the last two labels of a host. *)
Definition ex_suffixes : PublicSuffixes := {|
  top_domain := fun host => match rev (split_char 46 host) with
                            | tld :: name :: _ => name ++ u "." ++ tld
                            | _ => []
                            end
|}.

Example classify_examples :
  let classify url entity := @classify ex_unicode ex_ip ex_suffixes default_authority (u url) (u entity) in
  classify "https://docs.python.org/3/"%string "the Python language"%string = Ok (u "python.org", SourceAuthority_OFFICIAL)
  /\ classify "https://docs.python.org/3/"%string "Pythonic"%string = Ok (u "python.org", SourceAuthority_INDEPENDENT)
  /\ classify "https://www.kernel.org/pub/software/scm/git/docs/git.html"%string "Git"%string
       = Ok (u "kernel.org", SourceAuthority_OFFICIAL)
  /\ is_ok (classify "mailto:x"%string "Git"%string) = false.
Proof. vm_compute. repeat split. Qed.

(** A configured name with two spaces in it matches, and then its table has no such key. *)
Lemma spaced_name_escapes :
  (p ← @SourceAuthorityPolicy_new ex_unicode ex_ip
     {| sa_version := u "v"; sa_domains := [(u "apex  legends", [u "ea.com"])]; sa_prefixes := [] |};
   @classify ex_unicode ex_ip ex_suffixes p (u "https://ea.com/") (u "apex legends")) = Raise (KeyError "configured entity").
Proof. vm_compute. reflexivity. Qed.

Lemma official_is_configured_witness :
  @registrable_domain ex_unicode ex_ip ex_suffixes (u "https://docs.python.org/3/") = Ok (u "python.org") /\
  exists authority, @classify ex_unicode ex_ip ex_suffixes default_authority (u "https://docs.python.org/3/") (u "Python")
    = Ok (u "python.org", authority).
Proof.
  assert (Hd : @registrable_domain ex_unicode ex_ip ex_suffixes (u "https://docs.python.org/3/") = Ok (u "python.org"))
    by (vm_compute; reflexivity).
  assert (Hn : @normalized_url ex_unicode ex_ip (u "https://docs.python.org/3/") = Ok (u "https://docs.python.org/3/"))
    by (vm_compute; reflexivity).
  split; [exact Hd|].
  destruct (@official_is_configured ex_unicode ex_ip ex_suffixes (u "https://docs.python.org/3/") (u "Python") _ _ Hd Hn)
    as (authority & E & _).
  exists authority. exact E.
Defined.
