(* ===== verification/Sources.v ===== *)
(** * Sources: the reviewed pages a search reads directly

    [sana/modules/discovery/official_sources.py]: the tables of reviewed pages, and which of them
    answer a fact of an entity. Whose site a page is on is decided by Authority. *)

From Stdlib Require Import String.
From S2P Require Import Prelude Errors PyData PyStr Regex RegexFacts PyUrl Coverage Intent Authority.

(** [@ src/sana/modules/discovery/official_sources.py DirectSourceRule@17-19] *)
Record DirectSourceRule := {
  dr_fact_types : list FactType;
  dr_any_terms : list pystr;
  dr_urls : list pystr
}.

(** [@ src/sana/modules/discovery/official_sources.py DirectSourcePolicy@30-34] *)
Record DirectSourcePolicy := {
  ds_version : pystr;
  ds_sources : list (pystr * list (pystr * list pystr));
  ds_rules : list (pystr * list DirectSourceRule)
}.

(** ** The configuration *)

Definition table (l : list (string * list (FactType * list string))) : list (pystr * list (pystr * list pystr)) :=
  map (fun '(entity, rows) => (u entity, map (fun '(t, urls) => (FactType_value t, map u urls)) rows)) l.

Definition rule (types : list FactType) (terms urls : list string) : DirectSourceRule :=
  {| dr_fact_types := types; dr_any_terms := map uu terms; dr_urls := map u urls |}.

(** The pages of products and of HTTP. *)
(** [@ src/sana/modules/discovery/official_sources.py DirectSourcePolicy@35-135] *)
Definition product_sources : list (pystr * list (pystr * list pystr)) :=
  table [
    ("python",
     [(FactType_VERSION, ["https://www.python.org/downloads/"]);
      (FactType_CURRENT_VALUE, ["https://www.python.org/downloads/"]);
      (FactType_BACKGROUND, ["https://docs.python.org/3/license.html#history-of-the-software"])]);
    ("deepseek",
     [(FactType_BACKGROUND, ["https://api-docs.deepseek.com/quick_start/pricing/"]);
      (FactType_VERSION, ["https://api-docs.deepseek.com/news/"]);
      (FactType_CURRENT_VALUE, ["https://api-docs.deepseek.com/quick_start/pricing/"]);
      (FactType_COMPARISON, ["https://api-docs.deepseek.com/quick_start/pricing/"])]);
    ("apex legends",
     [(FactType_VERSION, ["https://www.ea.com/games/apex-legends/apex-legends/news/overclocked-patch-notes"]);
      (FactType_PATCH_NOTES, ["https://www.ea.com/games/apex-legends/apex-legends/news/overclocked-midseason-patch-notes"]);
      (FactType_CHARACTER_CHANGES, ["https://www.ea.com/games/apex-legends/apex-legends/news/breach-patch-notes"]);
      (FactType_TEAM_META, ["https://apexranked.com/meta"; "https://games.gg/apex-legends/guides/apex-legends-season-29-tier-list/"]);
      (FactType_CURRENT_VALUE, ["https://www.ea.com/games/apex-legends/apex-legends/news/overclocked-patch-notes"]);
      (FactType_BACKGROUND, ["https://www.ea.com/games/apex-legends/apex-legends/news/overclocked-patch-notes";
       "https://apexranked.com/meta"; "https://games.gg/apex-legends/guides/apex-legends-season-29-tier-list/"]);
      (FactType_COMPARISON, ["https://www.ea.com/games/apex-legends/apex-legends/news/overclocked-patch-notes";
       "https://apexranked.com/meta"])]);
    ("http",
     [(FactType_BACKGROUND, ["https://www.rfc-editor.org/rfc/rfc9110.html"]);
      (FactType_COMPARISON, ["https://www.rfc-editor.org/rfc/rfc9110.html"]);
      (FactType_CURRENT_VALUE, ["https://www.iana.org/assignments/http-status-codes/http-status-codes-1.csv";
       "https://www.rfc-editor.org/rfc/rfc9110.html#name-404-not-found"])]);
    ("git",
     [(FactType_BACKGROUND, ["https://git-scm.com/docs/gitdatamodel.html"]);
      (FactType_VERSION, ["https://git-scm.com/"]);
      (FactType_CURRENT_VALUE, ["https://git-scm.com/"])]);
    ("rust",
     [(FactType_VERSION, ["https://doc.rust-lang.org/stable/releases.html"]);
      (FactType_CURRENT_VALUE, ["https://doc.rust-lang.org/stable/releases.html"]);
      (FactType_BACKGROUND, ["https://doc.rust-lang.org/stable/releases.html"])]);
    ("openai",
     [(FactType_BACKGROUND, ["https://developers.openai.com/api/docs/models/all"]);
      (FactType_VERSION, ["https://developers.openai.com/api/docs/models/all"]);
      (FactType_CURRENT_VALUE, ["https://developers.openai.com/api/docs/models/all"]);
      (FactType_COMPARISON, ["https://developers.openai.com/api/docs/models/all"])])]%string.

(** The pages of standards and databases. *)
(** [@ src/sana/modules/discovery/official_sources.py DirectSourcePolicy@136-242] *)
Definition standard_sources : list (pystr * list (pystr * list pystr)) :=
  table [
    ("json",
     [(FactType_BACKGROUND, ["https://www.rfc-editor.org/rfc/rfc8259.html"]);
      (FactType_CURRENT_VALUE, ["https://www.rfc-editor.org/rfc/rfc8259.html"])]);
    ("sha-256",
     [(FactType_BACKGROUND, ["https://www.rfc-editor.org/rfc/rfc6234.html"]);
      (FactType_CURRENT_VALUE, ["https://www.rfc-editor.org/rfc/rfc6234.html"])]);
    ("dns",
     [(FactType_BACKGROUND, ["https://www.iana.org/assignments/service-names-port-numbers/service-names-port-numbers.csv"]);
      (FactType_CURRENT_VALUE, ["https://www.iana.org/assignments/service-names-port-numbers/service-names-port-numbers.csv"])]);
    ("tls 1.3",
     [(FactType_BACKGROUND, ["https://www.rfc-editor.org/rfc/rfc8446.txt"]);
      (FactType_VERSION, ["https://www.rfc-editor.org/rfc/rfc8446.txt"]);
      (FactType_CURRENT_VALUE, ["https://www.rfc-editor.org/rfc/rfc8446.txt"])]);
    ("rfc 3339",
     [(FactType_BACKGROUND, ["https://www.rfc-editor.org/rfc/rfc3339.html"]);
      (FactType_COMPARISON, ["https://www.rfc-editor.org/rfc/rfc3339.html"])]);
    ("sql transaction isolation",
     [(FactType_BACKGROUND, ["https://www.postgresql.org/docs/current/transaction-iso.html"]);
      (FactType_COMPARISON, ["https://www.postgresql.org/docs/current/transaction-iso.html"]);
      (FactType_CURRENT_VALUE, ["https://www.postgresql.org/docs/current/transaction-iso.html"])]);
    ("postgresql",
     [(FactType_BACKGROUND, ["https://www.postgresql.org/support/versioning/"]);
      (FactType_VERSION, ["https://www.postgresql.org/support/versioning/"]);
      (FactType_CURRENT_VALUE, ["https://www.postgresql.org/support/versioning/"]);
      (FactType_COMPARISON, ["https://www.postgresql.org/support/versioning/"])]);
    ("sqlite",
     [(FactType_BACKGROUND, ["https://www.sqlite.org/copyright.html"]);
      (FactType_CURRENT_VALUE, ["https://www.sqlite.org/copyright.html"]);
      (FactType_COMPARISON, ["https://www.sqlite.org/copyright.html"])]);
    ("cap theorem",
     [(FactType_BACKGROUND, ["https://www.ibm.com/think/topics/cap-theorem"]);
      (FactType_COMPARISON, ["https://www.ibm.com/think/topics/cap-theorem"])]);
    ("database acid",
     [(FactType_BACKGROUND, ["https://www.ibm.com/think/topics/transaction-management"])]);
    ("acid",
     [(FactType_BACKGROUND, ["https://www.ibm.com/think/topics/transaction-management"])]);
    ("node.js",
     [(FactType_VERSION, ["https://nodejs.org/en/about/previous-releases"]);
      (FactType_CURRENT_VALUE, ["https://nodejs.org/en/about/previous-releases"])])]%string.

(** [@ src/sana/modules/discovery/official_sources.py DirectSourcePolicy@247-268] *)
Definition python_rules : list DirectSourceRule :=
  [rule [FactType_BACKGROUND; FactType_CURRENT_VALUE]
     ["creator"; "创建者"]
     ["https://www.python.org/download/releases/2.1/license/"];
   rule [FactType_BACKGROUND; FactType_CURRENT_VALUE]
     ["first_release"; "首次公开"; "release_year"]
     ["https://docs.python.org/3/license.html#history-of-the-software"];
   rule [FactType_CURRENT_VALUE; FactType_VERSION]
     ["security_support"; "security support"; "release_date"; "release date"]
     ["https://devguide.python.org/versions/"]]%string.

(** [@ src/sana/modules/discovery/official_sources.py DirectSourcePolicy@269-300] *)
Definition git_rules : list DirectSourceRule :=
  [rule [FactType_BACKGROUND]
     ["git_object_types"; "blob_purpose"; "tree_purpose"; "commit_purpose"; "tag_purpose"; "object model"]
     ["https://git-scm.com/docs/gitdatamodel.html"];
   rule [FactType_BACKGROUND]
     ["file_states"; "git_state_"; "staging_area"; "working_tree"; "directory_relation"; "modified state";
      "staged state"; "committed state"; "git directory"]
     ["https://git-scm.com/book/en/v2/Getting-Started-What-is-Git%3F"]]%string.

(** [@ src/sana/modules/discovery/official_sources.py DirectSourcePolicy@301-324] *)
Definition http_rules : list DirectSourceRule :=
  [rule [FactType_BACKGROUND; FactType_COMPARISON; FactType_CURRENT_VALUE]
     ["get_safe_idempotent"; "get_safe"; "get_idempotent"; "safe and idempotent"; "safe according";
      "idempotent according"; "http_semantics_standard"]
     ["https://www.iana.org/assignments/http-methods/http-methods.xhtml"]]%string.

(** [@ src/sana/modules/discovery/official_sources.py DirectSourcePolicy@325-354] *)
Definition dns_rules : list DirectSourceRule :=
  [rule [FactType_BACKGROUND; FactType_CURRENT_VALUE]
     ["dns_default_port"; "dns_port"; "dns_tcp"; "dns_udp"; "dns_transport_protocols"; "port number";
      "tcp transport"; "udp transport"; "transport protocols"]
     ["https://www.iana.org/assignments/service-names-port-numbers/service-names-port-numbers.xhtml?search=53"];
   rule [FactType_BACKGROUND; FactType_CURRENT_VALUE]
     ["dns_registry_authority"; "authoritative registry"]
     ["https://www.iana.org/assignments/service-names-port-numbers/service-names-port-numbers.xhtml"]]%string.

(** [@ src/sana/modules/discovery/official_sources.py DirectSourcePolicy@355-364] *)
Definition json_rules : list DirectSourceRule :=
  [rule [FactType_BACKGROUND; FactType_CURRENT_VALUE]
     ["json_media_type"; "media type"; "registered"]
     ["https://www.iana.org/assignments/media-types/application/json"]]%string.

(** [@ src/sana/modules/discovery/official_sources.py DirectSourcePolicy@365-371] *)
Definition sha_256_rules : list DirectSourceRule :=
  [rule [FactType_BACKGROUND; FactType_CURRENT_VALUE]
     ["digest"; "length"; "size"; "standard_reference"]
     ["https://www.rfc-editor.org/rfc/rfc6234.txt"]]%string.

(** [@ src/sana/modules/discovery/official_sources.py DirectSourcePolicy@372-378] *)
Definition rfc_3339_rules : list DirectSourceRule :=
  [rule [FactType_BACKGROUND; FactType_COMPARISON]
     ["semantics"; "example"; "citation"; "+00:00"; "designator"]
     ["https://www.rfc-editor.org/rfc/rfc3339.txt"]]%string.

(** [@ src/sana/modules/discovery/official_sources.py DirectSourcePolicy@379-395] *)
Definition postgresql_rules : list DirectSourceRule :=
  [rule [FactType_BACKGROUND; FactType_COMPARISON]
     ["isolation"; "anomaly"; "read_uncommitted"; "read_committed"; "repeatable_read"; "serializable"]
     ["https://www.postgresql.org/docs/current/transaction-iso.html"]]%string.

(** [@ src/sana/modules/discovery/official_sources.py DirectSourcePolicy@396-415] *)
Definition sqlite_rules : list DirectSourceRule :=
  [rule [FactType_BACKGROUND; FactType_CURRENT_VALUE; FactType_COMPARISON]
     ["public_domain"; "public domain"; "jurisdiction"; "warranty"; "license"; "licensing"]
     ["https://www.sqlite.org/copyright.html"]]%string.

(** [@ src/sana/modules/discovery/official_sources.py DirectSourcePolicy@416-433] *)
Definition deepseek_rules : list DirectSourceRule :=
  [rule all_fact_types
     ["price"; "pricing"; "cache_hit"; "cache_miss"; "context_length"; "max_output"; "maximum_output"; "json_output"]
     ["https://api-docs.deepseek.com/quick_start/pricing/"]]%string.

(** [@ src/sana/modules/discovery/official_sources.py DirectSourcePolicy@434-504] *)
Definition apex_legends_rules : list DirectSourceRule :=
  [rule all_fact_types
     ["community_bloodhound_meta"; "community_team_composition_frequency"; "community_team_composition_performance"]
     ["https://apexranked.com/meta"];
   rule all_fact_types
     ["bloodhound_tactical_changes"; "bloodhound_ultimate_changes"]
     ["https://www.ea.com/games/apex-legends/apex-legends/news/breach-patch-notes"];
   rule all_fact_types
     ["current_season_or_release"; "current_release"; "current_map_rotation"; "ranked_rules_changes"]
     ["https://www.ea.com/games/apex-legends/apex-legends/news/overclocked-midseason-patch-notes"];
   rule all_fact_types
     ["community"; "team_meta"; "team_composition"; "composition"; "阵容"; "社区"; "分析来源"]
     ["https://apexranked.com/meta"; "https://games.gg/apex-legends/guides/apex-legends-season-29-tier-list/"];
   rule all_fact_types
     ["map_rotation"; "ranked"; "current_release"; "current_season"; "balance_changes"; "patch"; "地图"; "排名"; "排位";
      "赛季"; "改动"]
     ["https://www.ea.com/games/apex-legends/apex-legends/news/overclocked-patch-notes";
      "https://www.ea.com/games/apex-legends/apex-legends/news/overclocked-midseason-patch-notes"]]%string.

(** [@ src/sana/modules/discovery/official_sources.py DirectSourcePolicy@33-34] *)
Definition default_sources : DirectSourcePolicy := {|
  ds_version := u "direct-sources-v10";
  ds_sources := product_sources ++ standard_sources;
  ds_rules := map (fun '(entity, rules) => (u entity, rules))
    [("python", python_rules); ("git", git_rules); ("http", http_rules); ("dns", dns_rules); ("json", json_rules);
     ("sha-256", sha_256_rules); ("rfc 3339", rfc_3339_rules); ("postgresql", postgresql_rules);
     ("sqlite", sqlite_rules); ("deepseek", deepseek_rules); ("apex legends", apex_legends_rules)]%string
|}.

(** ** The policy *)

Section Sources.
Context `{Unicode}.

(** [@ src/sana/modules/discovery/official_sources.py DirectSourceRule.matches] *)
Definition rule_matches (r : DirectSourceRule) (fact : FactRequirement) : bool :=
  bool_decide (fr_fact_type fact ∈ dr_fact_types r) &&
  let value := casefold (fr_key fact ++ u " " ++ fr_description fact ++ u " " ++ fr_subject fact) in
  existsb (fun term => str_in (casefold term) value) (dr_any_terms r).

(** [{fact_type.strip(): tuple(urls) for fact_type, urls in by_type.items() if fact_type.strip() and urls}] *)
Definition normalized_pages (by_type : list (pystr * list pystr)) : list (pystr * list pystr) :=
  foldl (fun t kv => if blank kv.1 || bool_decide (kv.2 = []) then t else dset (strip kv.1) kv.2 t) [] by_type.

(** [@ src/sana/modules/discovery/official_sources.py DirectSourcePolicy.__post_init__] *)
Definition DirectSourcePolicy_new (p : DirectSourcePolicy) : res DirectSourcePolicy :=
  _ ← fail_if (blank (ds_version p)) (ValueError "Official source policy version cannot be empty");
  Ok {| ds_version := ds_version p;
        ds_sources := foldl (fun t kv => if blank kv.1 then t else dset (entity_key kv.1) (normalized_pages kv.2) t) []
                        (ds_sources p);
        ds_rules := foldl (fun t kv => if blank kv.1 || bool_decide (length kv.2 = 0%nat) then t
                                       else dset (entity_key kv.1) kv.2 t) [] (ds_rules p) |}.

(** [d[key]] *)
Definition item_of {A} (key : pystr) (d : list (pystr * A)) : res A :=
  match dget key d with Some x => Ok x | None => Raise (KeyError "configured entity") end.

(** [@ src/sana/modules/discovery/official_sources.py DirectSourcePolicy.urls_for] *)
Definition urls_for (p : DirectSourcePolicy) (entity : pystr) (t : FactType) : res (list pystr) :=
  match match_configured_entity entity (map fst (ds_sources p)) with
  | None => Ok []
  | Some key => by_type ← item_of key (ds_sources p); Ok (default [] (dget (FactType_value t) by_type))
  end.

(** [@ src/sana/modules/discovery/official_sources.py DirectSourcePolicy.urls_for_fact] *)
Definition urls_for_fact (p : DirectSourcePolicy) (entity : pystr) (fact : FactRequirement) : res (list pystr) :=
  rules ← match match_configured_entity entity (map fst (ds_rules p)) with
          | None => Ok []
          | Some key => item_of key (ds_rules p)
          end;
  match List.find (fun r => rule_matches r fact) rules with
  | Some r => Ok (dr_urls r)
  | None => urls_for p entity (fr_fact_type fact)
  end.
End Sources.

(** ** What the configuration promises *)

Definition pages_of (p : DirectSourcePolicy) : list pystr :=
  flat_map (fun kv => flat_map snd kv.2) (ds_sources p) ++ flat_map (fun kv => flat_map dr_urls kv.2) (ds_rules p).

(** The reviewed pages are plain HTTPS pages of a host. *)
Definition https_page (url : pystr) : bool := starts_with (u "https://") url && negb (str_in (u " ") url).

Lemma default_pages_https : forallb https_page (pages_of default_sources) = true.
Proof. vm_compute. reflexivity. Qed.

Section SourcesFacts.
Context `{Unicode}.

(** The configuration is in its stored form. *)
Lemma default_sources_stored : DirectSourcePolicy_new default_sources = Ok default_sources.
Proof. vm_compute. reflexivity. Qed.

Lemma default_source_keys :
  map folded_words (map fst (ds_sources default_sources)) = map fst (ds_sources default_sources) /\
  map folded_words (map fst (ds_rules default_sources)) = map fst (ds_rules default_sources) /\
  NoDup (map fst (ds_sources default_sources)) /\ NoDup (map fst (ds_rules default_sources)).
Proof. repeat split; try (vm_compute; reflexivity); apply (bool_decide_unpack _); by vm_compute. Qed.
End SourcesFacts.
