(* ===== verification/Selector.v ===== *)
(** * Selector: which passages go to the verifier

    [sana/modules/evidence/candidate_selector.py]: the terms of a fact, the score of a chunk, the
    window that is quoted, and the bounded selection over facts and sources. The order in which
    Python goes through a set of strings differs between processes; it is the class [SetOrder]. *)

From Stdlib Require Import SpecFloat String.
From S2P Require Import Prelude Errors PyTime PyData PyStr Regex PyUrl Coverage Intent Chunker Evidence Authority.

(** A set of strings is a list without duplicates; [set_order] is the order of a [for] over it. *)
Class SetOrder := {
  set_order : list pystr -> list pystr;
  set_order_perm : forall s, set_order s ≡ₚ s
}.

Definition insertion_order : SetOrder := {| set_order := fun s => s; set_order_perm := @Permutation_refl pystr |}.
Definition reverse_order : SetOrder := {| set_order := @rev pystr; set_order_perm := fun s => Permutation_sym (Permutation_rev s) |}.

(** [a - b] and [a | b] *)
Definition set_minus (a b : list pystr) : list pystr := base.filter (fun x => x ∉ b) a.
Definition set_union (a b : list pystr) : list pystr := dedupe (a ++ b).

(** [@ src/sana/modules/evidence/candidate_selector.py _GENERIC_ANCHORS] *)
Definition generic_anchors : list pystr := map u
  ["advice"; "answer"; "background"; "code"; "composition"; "current"; "description"; "detail"; "evidence"; "exact";
   "fact"; "gap"; "information"; "media"; "object"; "official"; "overview"; "parameter"; "phrase"; "private"; "purpose";
   "recommendation"; "recent"; "reason"; "result"; "source"; "status"; "suggestion"; "tradeoff"; "type"]%string.

(** [@ src/sana/modules/evidence/candidate_selector.py _CONTEXT_STOPWORDS] *)
Definition context_stopwords : list pystr := generic_anchors ++ map u
  ["according"; "and"; "are"; "cite"; "for"; "from"; "include"; "into"; "preserve"; "specifie"; "specify"; "the"; "this";
   "using"; "version"; "what"; "whether"; "which"; "with"]%string.

(** [@ src/sana/modules/evidence/candidate_selector.py CandidateDocument@78-83] *)
Record CandidateDocument := {
  cd_document_id : UUID;
  cd_version : DocumentVersion;
  cd_chunks : list (UUID * DocumentChunk);
  cd_url : pystr;
  cd_title : pystr;
  cd_mapped_fact_ids : list UUID
}.

(** [@ src/sana/modules/evidence/candidate_selector.py CandidateDocument.__post_init__] *)
Definition CandidateDocument_new (d : CandidateDocument) : res CandidateDocument :=
  _ ← fail_if (bool_decide (cd_mapped_fact_ids d = []))
        (ValueError "Candidate document must remain bound to at least one fact");
  Ok {| cd_document_id := cd_document_id d; cd_version := cd_version d; cd_chunks := cd_chunks d; cd_url := cd_url d;
        cd_title := cd_title d; cd_mapped_fact_ids := dedupe (cd_mapped_fact_ids d) |}.

Record CandidateSelector := {
  cs_authority : SourceAuthorityPolicy;
  cs_per_fact : Z;
  cs_total : Z;
  cs_quote_chars : Z
}.

(** [@ src/sana/modules/evidence/candidate_selector.py CandidateSelector.__init__] *)
Definition CandidateSelector_new (authority : option SourceAuthorityPolicy) (max_per_fact max_total max_quote_chars : Z)
    : res CandidateSelector :=
  _ ← fail_if (Z.min (Z.min max_per_fact max_total) max_quote_chars <? 1)
        (ValueError "Candidate limits must be positive");
  Ok {| cs_authority := default default_authority authority; cs_per_fact := max_per_fact; cs_total := max_total;
        cs_quote_chars := max_quote_chars |}.

Section Terms.
Context `{Unicode}.

(** ** Terms *)

(** A word as a term: the singular of a plural, one name for a few families of words. *)
(** [@ src/sana/modules/evidence/candidate_selector.py CandidateSelector._tokens@148-160] *)
Definition token_of (value : pystr) : pystr :=
  let value :=
    if str_isascii value && (4 <? len value) && ends_with (u "s") value
       && negb (ends_with (u "is") value || ends_with (u "ss") value || ends_with (u "us") value)
    then take (length value - 1) value else value in
  let value := if bool_decide (value ∈ [u "created"; u "creator"; u "creates"; u "creation"]) then u "creat" else value in
  let value := if bool_decide (value = u "length") then u "size" else value in
  if bool_decide (value = u "bits") then u "bit" else value.

(** [tls1.3], [TLS 13] and the like are written [tls 1.3]. *)
(** [@ src/sana/modules/evidence/candidate_selector.py CandidateSelector._tokens@131-136] *)
Definition normalize_tls (t : pystr) : pystr :=
  re_sub re_I t (re "\btls\s*(\d)[.]?([0-9])\b") (fun m =>
    u "tls " ++ default [] (group t 1 m) ++ u "." ++ default [] (group t 2 m)).

Definition decimal_identifier : regex := re "\b\d+(?:\.\d+)+\b".

(** [@ src/sana/modules/evidence/candidate_selector.py CandidateSelector._tokens] *)
Definition tokens (values : list pystr) : list pystr :=
  let normalized := str_replace (u "-") (u " ") (str_replace (u "_") (u " ") (str_join (u " ") values)) in
  let normalized := normalize_tls normalized in
  let normalized := re_sub no_flags normalized (re "(?<=[A-Za-z])(?=\d)|(?<=\d)(?=[A-Za-z])") (fun _ => u " ") in
  let decimal_identifiers := re_findall no_flags normalized decimal_identifier in
  let without_decimals := re_sub no_flags normalized decimal_identifier (fun _ => u " ") in
  let words := re_findall no_flags (casefold without_decimals) (re "[\w\u3400-\u9fff]+") in
  dedupe (decimal_identifiers ++ map token_of (base.filter (fun w => (1 < length w)%nat) words)).

(** [@ src/sana/modules/evidence/candidate_selector.py CandidateSelector._term_sets] *)
Definition term_sets (entity : pystr) (fact : FactRequirement) : list pystr * list pystr :=
  let entity_terms := tokens [entity; FactType_value (fr_fact_type fact)] in
  let context := set_minus (tokens [entity; fr_subject fact; fr_description fact]) context_stopwords in
  let anchors := set_minus (set_minus (tokens [fr_key fact]) entity_terms) generic_anchors in
  let anchors := if negb (bool_decide (casefold (fr_subject fact) = casefold entity))
                 then set_union anchors (set_minus (tokens [fr_subject fact]) (tokens [entity])) else anchors in
  (context, set_union anchors (base.filter (fun v => str_isdecimal v = true) (tokens [fr_description fact]))).

(** [@ src/sana/modules/evidence/candidate_selector.py CandidateSelector._exact_spans] *)
Definition exact_spans (text term : pystr) : list (nat * nat) :=
  if negb (str_isascii term) then map (fun m => (m_start m, m_end m)) (re_finditer no_flags text (rtext term)) else
  let plural := if str_isalpha term && negb (ends_with (u "s") term) then re "(?:s)?" else REmpty in
  map (fun m => (m_start m, m_end m))
    (re_finditer re_I text (rcat [re "(?<![A-Za-z0-9_])"; rtext term; plural; re "(?![A-Za-z0-9_])"])).

(** [@ src/sana/modules/evidence/candidate_selector.py CandidateSelector._exact_occurrences] *)
Definition exact_occurrences (text term : pystr) : Z := Z.of_nat (length (exact_spans text term)).

(** The numbers and the words among the anchors. *)
Definition numeric (anchors : list pystr) : list pystr := base.filter (fun v => str_isdecimal v = true) anchors.
Definition semantic (anchors : list pystr) : list pystr := base.filter (fun v => str_isdecimal v = false) anchors.

(** [a / b] of two ints *)
Definition ratio (a b : Z) : float := fdiv (float_of_Z a) (float_of_Z b).

(** How many elements satisfy a test. *)
Definition count_of (p : pystr -> bool) (s : list pystr) : Z := Z.of_nat (length (base.filter (fun x => p x = true) s)).

(** Numbers next to the words of the fact: the best window of 80 characters around a number. *)
(** [@ src/sana/modules/evidence/candidate_selector.py CandidateSelector._numeric_relation_score] *)
Definition numeric_relation_score (text : pystr) (anchors : list pystr) : float :=
  let numbers := numeric anchors in
  let words := semantic anchors in
  if bool_decide (numbers = []) || bool_decide (words = []) then fzero else
  let denominator := Z.min 2 (Z.of_nat (length words)) in
  let nearby '(start, stop) :=
    let window := substr (start - 80) (Nat.min (length text) (stop + 80)) text in
    count_of (fun term => negb (bool_decide (exact_spans window term = []))) words in
  let best := foldl (fun best span => Z.max best (Z.min denominator (nearby span))) 0
                (flat_map (exact_spans text) numbers) in
  ratio best denominator.

(** ** Definitions *)

(** [@ src/sana/modules/evidence/candidate_selector.py CandidateSelector._definition_relation_score@241-262] *)
Definition reviewed_release_patterns : list (string * regex) :=
  [("rust_latest_stable_version"%string,
    re "\bRust\s+\d+[.]\d+[.]\d+\b.*?\bVersion\s+\d+[.]\d+[.]\d+\s*\(\d{4}-\d{2}-\d{2}\)");
   ("python_latest_stable_version"%string, re "\bDownload\s+Python\s+\d+[.]\d+[.]\d+\b");
   ("node_active_lts_release_line"%string,
    rcat [re "\bNode[.]js\s+Codename\s+First released\s+Last updated\s+Status\b";
          re ".*?\bv\s*\d+\s+[A-Za-z][A-Za-z0-9-]*\s+"; re "[A-Za-z]+\s+\d{1,2},\s+\d{4}\s+";
          re "[A-Za-z]+\s+\d{1,2},\s+\d{4}\s+LTS\b"]);
   ("git_latest_stable_release"%string,
    re "\bLatest\s+(?:stable\s+)?(?:source\s+)?release\b.{0,100}\b\d+[.]\d+[.]\d+\b");
   ("current_season_or_release"%string,
    re "\bApex Legends(?:\u2122)?\s*:\s*[^\n]{1,100}?Patch Notes\b|\bWelcome back to\s+[^.!]{1,80}");
   ("current_release"%string, re "\bWelcome back to\s+[^.!]{1,80}")].

(** [@ src/sana/modules/evidence/candidate_selector.py CandidateSelector._definition_relation_score@266-287] *)
Definition apex_runtime_patterns : list (string * regex) :=
  [("bloodhound_tactical_changes"%string,
    re "\bBLOODHOUND\b.*?\bTactical\b.*?Total scan duration up to\s+\d+(?:[.]\d+)?s");
   ("bloodhound_ultimate_changes"%string, re "\bBLOODHOUND\b.*?\bUltimate\s*:\s*Cooldown reduced");
   ("community_bloodhound_meta"%string, re "\bBloodhound\s+[+]\d+(?:[.]\d+)?\s+Win\s+\d+(?:[.]\d+)?%");
   ("current_map_rotation"%string, re "This split(?:'|\u2019)s map rotations are as follows:.*?\bRanked\b");
   ("ranked_rules_changes"%string,
    re "\bRANKED\b.*?Removing\s+[\x22\u201c]Champion Squad[\x22\u201d]\s+Screen");
   ("community_team_composition_frequency"%string, re "Most Common Trio Compositions\s+1\b");
   ("community_team_composition_performance"%string, re "Highest Earning Trio Compositions\s+1\b")].

(** A marker of the fact whose pattern the text matches. *)
Definition marked (table : list (string * regex)) (fact_text text : pystr) : bool :=
  existsb (fun '(marker, pattern) => str_in (u marker) fact_text && re_found re_IS text pattern) table.

(** [f"{fact.key} {fact.description}".casefold()] *)
Definition fact_words (fact : FactRequirement) : pystr := casefold (fr_key fact ++ u " " ++ fr_description fact).

(** [@ src/sana/modules/evidence/candidate_selector.py CandidateSelector._definition_relation_score@303-321] *)
Definition git_purpose (fact_text text : pystr) : bool :=
  match base.filter (fun v => str_in (u v ++ u "_purpose") fact_text = true) ["blob"; "tree"; "commit"; "tag"]%string with
  | [] => false
  | name :: _ => re_found re_IS text
      (rcat [re "\b"; rtext (u name); re "\b.{0,80}\b(?:contains?|represents?|records?|stores?)\b"])
  end.

(** [@ src/sana/modules/evidence/candidate_selector.py CandidateSelector._definition_relation_score@341-347] *)
Definition postgresql_row (text number : pystr) : bool :=
  re_found re_I text (rcat [re "(?<![.\d])"; rtext number; re "\s+"; rtext number; re "[.]\d+";
    re "\s+Yes\s+[A-Za-z]+\s+\d{1,2},\s+\d{4}\s+[A-Za-z]+\s+\d{1,2},\s+\d{4}"]).

(** [@ src/sana/modules/evidence/candidate_selector.py CandidateSelector._definition_relation_score@365-370] *)
Definition status_meaning (text number : pystr) : bool :=
  re_found re_I text (rcat [re "\bThe\s+"; rtext number; re "\s*\([^)]{1,80}\)\s+"; re "status code indicates\b"]).

(** [@ src/sana/modules/evidence/candidate_selector.py CandidateSelector._definition_relation_score@377-382] *)
Definition purpose_relation : regex :=
  re "(?:\b(?:contains?|represents?|records?|stores?|points?\s+to|refers?\s+to|used\s+for|required\s+fields)\b|\u5305\u542b|\u8868\u793a|\u8bb0\u5f55|\u5b58\u50a8|\u5f15\u7528|\u7528\u4e8e)".

(** [@ src/sana/modules/evidence/candidate_selector.py CandidateSelector._definition_relation_score@383-388] *)
Definition near_relation (text : pystr) (anchors : list pystr) : bool :=
  existsb (fun '(start, stop) =>
      re_found re_I (substr (start - 48) (Nat.min (length text) (stop + 140)) text) purpose_relation)
    (flat_map (exact_spans text) anchors).

Definition mentions (word : string) (fact_text : pystr) : bool := str_in (uu word) fact_text.

(** Whether the score is 1.0. *)
(** [@ src/sana/modules/evidence/candidate_selector.py CandidateSelector._definition_relation_score] *)
Definition definition_relation (text : pystr) (anchors : list pystr) (fact : FactRequirement) : bool :=
  let fact_text := fact_words fact in
  let numbers := numeric anchors in
  if marked reviewed_release_patterns fact_text text then true else
  if marked apex_runtime_patterns fact_text text then true else
  if mentions "git" fact_text && mentions "object_types" fact_text
     && re_found re_I text
          (re "(?:Objects\s*:\s*|There are 4 types of objects:\s*)commits\s*,\s*trees\s*,\s*blobs\s*,\s*and\s+tag objects")
  then true else
  if mentions "git" fact_text && mentions "_purpose" fact_text then git_purpose fact_text text else
  if mentions "cap" fact_text && mentions "tradeoff" fact_text
     && re_found re_I text
          (re "The CAP theorem says that a distributed system can deliver only two of three desired characteristics")
  then true else
  if mentions "postgresql" fact_text && negb (bool_decide (numbers = [])) && any_in ["support"; "final release"; "eol"]%string fact_text
     && existsb (postgresql_row text) numbers
  then true else
  if negb (bool_decide (numbers = [])) && any_in ["meaning"; "semantic"; "constraint"; "语义"; "约束"]%string fact_text
     && existsb (status_meaning text) numbers
  then true else
  if negb (mentions "purpose" fact_text) && negb (mentions "用途" fact_text) then false else near_relation text anchors.

(** ** The quoted window *)

(** The places of a term: the next one is looked for behind the last. *)
Fixpoint positions_from (skip : nat) (at_ : Z) (term t : pystr) : list Z :=
  match t with
  | [] => []
  | _ :: r =>
      match skip with
      | S k => positions_from k (at_ + 1) term r
      | O => if starts_with term t then at_ :: positions_from (length term - 1) (at_ + 1) term r
             else positions_from 0 (at_ + 1) term r
      end
  end.

Definition positions_of (t term : pystr) : list Z := positions_from 0 0 term t.

(** How often, and how densely, a window mentions the terms. *)
(** [@ src/sana/modules/evidence/candidate_selector.py CandidateSelector._quote_window@416-426] *)
Definition window_score (folded : pystr) (start size : Z) (terms anchors : list pystr) : list Z :=
  let window := substrZ start (start + size) folded in
  [count_of (fun term => str_in term window) anchors; sumZ (fun term => str_count term window) anchors;
   count_of (fun term => str_in term window) terms; sumZ (fun term => str_count term window) terms].

(** The first of the best windows; the score before the first one is [(-1, -1)]. *)
(** [@ src/sana/modules/evidence/candidate_selector.py CandidateSelector._quote_window@411-429] *)
Definition best_window (folded : pystr) (maximum_start size : Z) (terms anchors : list pystr) (positions : list Z) : Z :=
  fst (foldl (fun '(best_start, best_score) position =>
      let start := Z.min maximum_start (Z.max 0 (position - size / 3)) in
      let score := window_score folded start size terms anchors in
      if pystr_ltb best_score score then (start, score) else (best_start, best_score))
    (0, [-1; -1]) positions).

(** [@ src/sana/modules/evidence/candidate_selector.py CandidateSelector._quote_window] *)
Definition quote_window `{SetOrder} (s : CandidateSelector) (text : pystr) (terms anchors : list pystr) : pystr :=
  if len text <=? cs_quote_chars s then text else
  let folded := casefold text in
  let position_terms := if bool_decide (anchors = []) then terms else anchors in
  let positions := flat_map (positions_of folded) (set_order position_terms) in
  if bool_decide (positions = []) then substrZ 0 (cs_quote_chars s) text else
  let best_start := best_window folded (len text - cs_quote_chars s) (cs_quote_chars s) terms anchors positions in
  substrZ best_start (best_start + cs_quote_chars s) text.

(** ** The score of a chunk *)

(** Whether the score of a fact that asks for a purpose is decided by its definition. *)
Definition is_purpose (fact : FactRequirement) : bool :=
  str_in (u "purpose") (fact_words fact) || str_in (uu "用途") (fr_description fact).

(** [None] when the chunk is left out. *)
(** [@ src/sana/modules/evidence/candidate_selector.py CandidateSelector.select@452-505] *)
Definition chunk_score (text : pystr) (fact : FactRequirement) (terms anchors : list pystr) : option float :=
  let folded := casefold text in
  let chunk_terms := tokens [text] in
  let found term := str_in term folded || bool_decide (term ∈ chunk_terms) in
  let matched := count_of found terms in
  let definition := definition_relation text anchors fact in
  if (matched =? 0) && negb definition then None else
  let matched_anchors := count_of found anchors in
  if negb (bool_decide (anchors = [])) && (matched_anchors =? 0) && negb definition then None else
  let context_score := ratio matched (Z.max 1 (Z.of_nat (length terms))) in
  if bool_decide (anchors = []) then Some context_score else
  let size := Z.of_nat (length anchors) in
  let anchor_score := ratio matched_anchors size in
  let exact_anchor_score := ratio (count_of (fun term => 0 <? exact_occurrences text term) anchors) size in
  let lexical_score := fadd (fadd (fmul (flit 45 100) anchor_score) (fmul (flit 35 100) exact_anchor_score))
                         (fmul (flit 20 100) context_score) in
  let relation_score := numeric_relation_score text anchors in
  if definition then Some (float_of_Z 1)
  else if is_purpose fact
       then Some (fadd (fmul (flit 85 100) lexical_score) (fmul (flit 15 100) relation_score))
       else Some (fadd (fmul (flit 90 100) lexical_score) (fmul (flit 10 100) relation_score)).
End Terms.

(** ** The selection *)

Section Select.
Context `{Unicode} `{IpLiterals} `{PublicSuffixes} `{SetOrder}
  (sha256_utf8 : pystr -> pystr) (uuid5 : UUID -> pystr -> UUID)
  (selector : CandidateSelector) (run_id : UUID) (entity : pystr) (facts : list (UUID * FactRequirement)).

(** [@ src/sana/modules/evidence/candidate_selector.py CandidateSelector.select@506-526] *)
Definition candidate_of (d : CandidateDocument) (source : pystr * SourceAuthority) (fact_id : UUID) (fact : FactRequirement)
    (chunk_id : UUID) (chunk : DocumentChunk) (terms anchors : list pystr) (score : float) : res SelectedCandidate :=
  let quote := quote_window selector (dk_text chunk) terms anchors in
  quote_hash ← text_digest sha256_utf8 quote;
  Ok {| sc_id := uuid5 run_id (u "candidate:" ++ str_of_uuid fact_id ++ u ":" ++ str_of_uuid chunk_id ++ u ":" ++ quote_hash);
        sc_fact_id := fact_id; sc_fact := fact; sc_document_id := cd_document_id d; sc_version := cd_version d;
        sc_chunk_id := chunk_id; sc_chunk := chunk; sc_url := cd_url d; sc_title := cd_title d;
        sc_source_identity := source.1; sc_source_authority := source.2; sc_quote := quote; sc_score := score |}.

(** [@ src/sana/modules/evidence/candidate_selector.py CandidateSelector.select@451-527] *)
Fixpoint chunk_candidates (d : CandidateDocument) (source : pystr * SourceAuthority) (fact_id : UUID)
    (fact : FactRequirement) (chunks : list (UUID * DocumentChunk)) : res (list SelectedCandidate) :=
  match chunks with
  | [] => Ok []
  | (chunk_id, chunk) :: r =>
      let '(terms, anchors) := term_sets entity fact in
      match chunk_score (dk_text chunk) fact terms anchors with
      | None => chunk_candidates d source fact_id fact r
      | Some score =>
          c ← candidate_of d source fact_id fact chunk_id chunk terms anchors score;
          cs ← chunk_candidates d source fact_id fact r;
          Ok (c :: cs)
      end
  end.

(** [by_fact], the candidates of each fact. *)
Abbreviation candidates_by_fact := (list (UUID * list SelectedCandidate)).

(** [@ src/sana/modules/evidence/candidate_selector.py CandidateSelector.select@446-527] *)
Fixpoint fact_candidates (d : CandidateDocument) (source : pystr * SourceAuthority) (fact_ids : list UUID)
    (by_fact : candidates_by_fact) : res candidates_by_fact :=
  match fact_ids with
  | [] => Ok by_fact
  | fact_id :: r =>
      match dget fact_id facts with
      | None => fact_candidates d source r by_fact
      | Some fact =>
          cs ← chunk_candidates d source fact_id fact (cd_chunks d);
          fact_candidates d source r (dset fact_id (default [] (dget fact_id by_fact) ++ cs) by_fact)
      end
  end.

(** [@ src/sana/modules/evidence/candidate_selector.py CandidateSelector.select@441-527] *)
Fixpoint document_candidates (documents : list CandidateDocument) (by_fact : candidates_by_fact) : res candidates_by_fact :=
  match documents with
  | [] => Ok by_fact
  | d :: r =>
      source ← classify (cs_authority selector) (cd_url d) entity;
      by_fact ← fact_candidates d source (cd_mapped_fact_ids d) by_fact;
      document_candidates r by_fact
  end.

Definition authority_rank (c : SelectedCandidate) : Z := if sc_source_authority c is SourceAuthority_OFFICIAL then 0 else 1.

(** The order of the keys [(official first, -score, source, ordinal)]. *)
(** [@ src/sana/modules/evidence/candidate_selector.py CandidateSelector.select@533-540] *)
Definition ranks_before (a b : SelectedCandidate) : bool :=
  (authority_rank a <? authority_rank b) || ((authority_rank a =? authority_rank b) &&
    (flt (SFopp (sc_score a)) (SFopp (sc_score b)) || (SFeqb (SFopp (sc_score a)) (SFopp (sc_score b)) &&
      (pystr_ltb (sc_source_identity a) (sc_source_identity b)
       || (bool_decide (sc_source_identity a = sc_source_identity b) && (dk_ordinal (sc_chunk a) <? dk_ordinal (sc_chunk b))))))).

(** The first candidate of every source, and the others. *)
(** [@ src/sana/modules/evidence/candidate_selector.py CandidateSelector.select@542-550] *)
Fixpoint by_source (seen : list pystr) (l : list SelectedCandidate) : list SelectedCandidate * list SelectedCandidate :=
  match l with
  | [] => ([], [])
  | c :: r =>
      if bool_decide (sc_source_identity c ∈ seen)
      then let '(diverse, deferred) := by_source seen r in (diverse, c :: deferred)
      else let '(diverse, deferred) := by_source (sc_source_identity c :: seen) r in (c :: diverse, deferred)
  end.

(** [@ src/sana/modules/evidence/candidate_selector.py CandidateSelector.select@531-551] *)
Definition ranked (candidates : list SelectedCandidate) : list SelectedCandidate :=
  let '(diverse, deferred) := by_source [] (py_sorted ranks_before candidates) in
  take (Z.to_nat (cs_per_fact selector)) (diverse ++ deferred).

(** Round by round, one candidate of every fact, until there are enough. *)
(** [@ src/sana/modules/evidence/candidate_selector.py CandidateSelector.select@553-561] *)
Definition rounds_of (ranked_by_fact : list (list SelectedCandidate)) : list SelectedCandidate :=
  take (Z.to_nat (cs_total selector))
    (flat_map (fun rank => omap (fun l : list SelectedCandidate => l !! rank) ranked_by_fact)
      (seq 0 (Z.to_nat (cs_per_fact selector)))).

(** [@ src/sana/modules/evidence/candidate_selector.py CandidateSelector.select] *)
Definition select (documents : list CandidateDocument) : res (list SelectedCandidate) :=
  by_fact ← document_candidates documents (map (fun kv => (kv.1, [])) facts);
  Ok (rounds_of (map (fun kv => ranked (default [] (dget kv.1 by_fact))) facts)).
End Select.
