(* ===== verification/EvidenceRules.v ===== *)
(** * EvidenceRules: the reviewed rules that accept evidence without a model

    The class methods [_deterministic_*] of [ModelEvidenceVerifier]
    ([sana/modules/evidence/model_verifier.py]): each reads one exact span out of a page that was
    reviewed, or proposes nothing. A pattern that an f-string puts together is the concatenation of
    its pieces. Dates of a page are read by [strptime], which raises on a date that does not exist. *)

From Stdlib Require Import SpecFloat String.
From S2P Require Import Prelude Errors PyTime PyData PyStr Regex Coverage Chunker Evidence.

(** ** Dates ([datetime.date]) *)

Definition leap_year (y : Z) : bool :=
  (y mod 4 =? 0) && (negb (y mod 100 =? 0) || (y mod 400 =? 0)).

Definition month_days (y m : Z) : Z :=
  if m =? 2 then if leap_year y then 29 else 28
  else if bool_decide (m ∈ [4; 6; 9; 11]) then 30 else 31.

Definition days_before_year (y : Z) : Z :=
  let p := y - 1 in p * 365 + p / 4 - p / 100 + p / 400.

Definition days_before_month (y m : Z) : Z :=
  sumZ (fun k => month_days y k) (map Z.of_nat (seq 1 (Z.to_nat (m - 1)))).

(** [date(y, m, d).toordinal()] *)
Definition date_ordinal (y m d : Z) : res Z :=
  _ ← fail_if ((y <? 1) || (m <? 1) || (12 <? m) || (d <? 1) || (month_days y m <? d))
        (ValueError "day is out of range for month");
  Ok (days_before_year y + days_before_month y m + d).

(** [dt.date().toordinal()] of a time in UTC *)
Definition datetime_ordinal (d : datetime) : Z := dt_us d / 86400000000 + 719163.

Example ordinal_epoch : date_ordinal 1970 1 1 = Ok 719163 /\ datetime_ordinal (utc 86400000000) = 719164
  /\ date_ordinal 2024 12 31 = Ok 739251 /\ is_ok (date_ordinal 2023 2 29) = false.
Proof. by vm_compute. Qed.

(** ** What the rules share *)

Section Rules.
Context `{Unicode}.

(** [re.search(pattern, text, flags)] and its [group(0)] *)
Definition search_text (fl : flags) (text : pystr) (r : regex) : option pystr :=
  match_text text <$> re_search fl text r.

(** [re.search(...).group(n)] *)
Definition search_group (fl : flags) (text : pystr) (r : regex) (n : nat) : option pystr :=
  m ← re_search fl text r; group text n m.

(** [statement is None or len(statement.group(0)) > limit] *)
Definition at_most (limit : Z) (statement : option pystr) : option pystr :=
  t ← statement; if limit <? len t then None else Some t.

Definition page_source (c : SelectedCandidate) : pystr := before (u "?") (before (u "#") (sc_url c)).

(** [f"{fact.key} {fact.subject} {fact.description}"] *)
Definition fact_text (c : SelectedCandidate) : pystr :=
  fr_key (sc_fact c) ++ u " " ++ fr_subject (sc_fact c) ++ u " " ++ fr_description (sc_fact c).

Definition is_official (c : SelectedCandidate) : bool := sc_source_authority c is SourceAuthority_OFFICIAL.
Definition chunk_text (c : SelectedCandidate) : pystr := dk_text (sc_chunk c).

(** [ProposedVerification(candidate.fact_id, candidate.id, SUPPORTS, quote, 0.99, reasons)] *)
Definition propose (c : SelectedCandidate) (reasons : list string) (quote : pystr) : ProposedVerification :=
  {| pv_fact_id := sc_fact_id c; pv_candidate_id := sc_id c; pv_support_type := SupportType_SUPPORTS;
     pv_quote := quote; pv_confidence := flit 99 100; pv_reason_codes := map u reasons |}.

Definition explicit_value := ["direct_support"; "explicit_value"]%string.
Definition definition_match := ["direct_support"; "definition_match"]%string.

Definition min_of (x : nat) (l : list nat) : nat := foldl Nat.min x l.
Definition max_of (x : nat) (l : list nat) : nat := foldl Nat.max x l.

(** The matches of every pattern of a list, or none. *)
Fixpoint search_all (fl : flags) (text : pystr) (patterns : list regex) : option (list re_match) :=
  match patterns with
  | [] => Some []
  | r :: rest => m ← re_search fl text r; ms ← search_all fl text rest; Some (m :: ms)
  end.

(** ** Values and terms that the fact names *)

(** [@ src/sana/modules/evidence/model_verifier.py ModelEvidenceVerifier._NUMERIC_IDENTIFIER] *)
Definition NUMERIC_IDENTIFIER : regex := re "\d+(?:[.-]\d+)*".

(** [@ src/sana/modules/evidence/model_verifier.py ModelEvidenceVerifier._EXPLICIT_TOKEN] *)
Definition EXPLICIT_TOKEN : regex := re "[+-]\d{2}:\d{2}|[A-Za-z][A-Za-z0-9+._-]*".

(** [@ src/sana/modules/evidence/model_verifier.py ModelEvidenceVerifier._BOTH_TERMS] *)
Definition BOTH_TERMS : regex :=
  re ("\bboth\s+([A-Za-z][A-Za-z0-9+._-]*)\s+and\s+" ++ "([A-Za-z][A-Za-z0-9+._-]*)").

(** [@ src/sana/modules/evidence/model_verifier.py ModelEvidenceVerifier._EXPLICIT_LIST] *)
Definition EXPLICIT_LIST : regex := re "(?:\bspecifically\s+|:\s*)([^.;\n]{1,160})".

(** [@ src/sana/modules/evidence/model_verifier.py ModelEvidenceVerifier._NON_VALUE_TERMS] *)
Definition NON_VALUE_TERMS : list pystr :=
  map u ["answer"; "current"; "evidence"; "fact"; "official"; "source"; "standard"; "support"]%string.

Definition value_pattern (identifier : pystr) : regex :=
  rcat [re "(?<!\d)"; rtext identifier;
        re "(?!\d)\s*(?:,\s*|\(\s*|:\s*|=\s*|[-–—]\s*)[A-Za-z]+(?:[ -][A-Za-z]+){0,5}"].

(** [@ src/sana/modules/evidence/model_verifier.py ModelEvidenceVerifier._deterministic_explicit_value] *)
Definition deterministic_explicit_value (c : SelectedCandidate) : option ProposedVerification :=
  if (fr_fact_type (sc_fact c) isnot FactType_CURRENT_VALUE) || negb (is_official c) || flt (sc_score c) (flit 8 10)
  then None else
  let identifiers := dedupe (re_findall no_flags (fr_key (sc_fact c) ++ u " " ++ fr_description (sc_fact c))
                               NUMERIC_IDENTIFIER) in
  spans ← search_all no_flags (sc_quote c) (map value_pattern identifiers);
  match spans with
  | [] => None
  | m :: ms =>
      let quote_start := min_of (m_start m) (map m_start ms) in
      let quote_end := max_of (m_end m) (map m_end ms) in
      Some (propose c explicit_value (strip (substr quote_start quote_end (sc_quote c))))
  end.

(** The tokens of the pieces, when every piece has exactly one. *)
Fixpoint single_tokens (pieces : list pystr) : option (list pystr) :=
  match pieces with
  | [] => Some []
  | p :: ps => match re_findall no_flags p EXPLICIT_TOKEN with
               | [t] => (fun l => t :: l) <$> single_tokens ps
               | _ => None
               end
  end.

(** [@ src/sana/modules/evidence/model_verifier.py ModelEvidenceVerifier._deterministic_explicit_terms@213-232] *)
Definition explicit_terms (description : pystr) : list pystr :=
  match re_search re_I description BOTH_TERMS with
  | Some both => [default [] (group description 1 both); default [] (group description 2 both)]
  | None =>
      match search_group re_I description EXPLICIT_LIST 1 with
      | Some listed =>
          let pieces := re_split re_I (strip listed) (re "\s*,\s*(?:(?:and|or)\s+)?|\s+(?:and|or)\s+") in
          dedupe (default [] (single_tokens pieces))
      | None => []
      end
  end.

Definition term_pattern (value : pystr) : regex :=
  rcat [re "(?<![A-Za-z0-9])"; rtext (casefold value); re "(?![A-Za-z0-9])"].

(** [@ src/sana/modules/evidence/model_verifier.py ModelEvidenceVerifier._deterministic_explicit_terms] *)
Definition deterministic_explicit_terms (c : SelectedCandidate) : option ProposedVerification :=
  if negb (is_official c) || flt (sc_score c) (flit 8 10) then None else
  let values := explicit_terms (fr_description (sc_fact c)) in
  if negb ((2 <=? Z.of_nat (length values)) && (Z.of_nat (length values) <=? 8)) then None else
  if existsb (fun v => bool_decide (casefold v ∈ NON_VALUE_TERMS)) values then None else
  let folded := casefold (sc_quote c) in
  spans ← search_all no_flags folded (map term_pattern values);
  match spans with
  | [] => None
  | m :: ms =>
      let start := (min_of (m_start m) (map m_start ms) - 120)%nat in
      let stop := Nat.min (length (sc_quote c)) (max_of (m_end m) (map m_end ms) + 120) in
      Some (propose c explicit_value (strip (substr start stop (sc_quote c))))
  end.

(** ** Registries and standards *)

(** [@ src/sana/modules/evidence/model_verifier.py ModelEvidenceVerifier._deterministic_registry_boolean] *)
Definition deterministic_registry_boolean (c : SelectedCandidate) : option ProposedVerification :=
  if negb (is_official c) || flt (sc_score c) (flit 8 10)
     || negb (bool_decide (page_source c =
          u ("https://www.iana.org/assignments/http-methods/" ++ "http-methods.xhtml")))
  then None else
  _ ← re_search re_I (fact_text c) (re "(?<![A-Za-z])(safe|idempotent)(?![A-Za-z])");
  method_name ← search_group re_I (fact_text c) (re "\bHTTP\s+([A-Z][A-Z-]{1,20})\b") 1;
  let method_name := str_upper method_name in
  let compact := normalize_spaces (sc_quote c) in
  _ ← re_search re_I compact
        (rcat [re "Method Name\s+Safe\s+Idempotent\s+Reference.*?(?<![A-Z-])"; rtext method_name;
               re "\s+(?:yes|no)\s+(?:yes|no)\s+\["]);
  Some (propose c explicit_value (sc_quote c)).

(** [@ src/sana/modules/evidence/model_verifier.py ModelEvidenceVerifier._deterministic_registry_media_type] *)
Definition deterministic_registry_media_type (c : SelectedCandidate) : option ProposedVerification :=
  if negb (is_official c) || fle (sc_score c) fzero
     || negb (bool_decide (page_source c = u "https://www.iana.org/assignments/media-types/application/json"))
     || negb (str_in (u "media type") (casefold (fr_description (sc_fact c))))
  then None else
  requested_name ← search_text re_I (fr_key (sc_fact c) ++ u " " ++ fr_subject (sc_fact c)) (re "\bjson\b");
  row ← search_text re_IS (chunk_text c)
          (rcat [re "Type name:\s*application\b.*?Subtype name:\s*"; rtext requested_name;
                 re "\b.*?Published specification:\s*RFC\s*8259\b"]);
  Some (propose c explicit_value (strip row)).

(** [@ src/sana/modules/evidence/model_verifier.py ModelEvidenceVerifier._deterministic_sha_digest_size] *)
Definition deterministic_sha_digest_size (c : SelectedCandidate) : option ProposedVerification :=
  if negb (is_official c) || fle (sc_score c) fzero
     || negb (bool_decide (page_source c = u "https://www.rfc-editor.org/rfc/rfc6234.txt"))
     || negb (re_found re_I (fact_text c) (re "\bsha[-_ ]?256\b"))
     || negb (str_in (u "digest") (casefold (fact_text c)))
     || negb (re_found re_I (fact_text c) (re "\b(?:length|size|bits?)\b"))
  then None else
  statement ← search_text re_I (chunk_text c)
    (re ("The SHA-224 and SHA-256 algorithms produce 224-bit and 256-bit" ++ "(?:\s|\*)+message digests"));
  Some (propose c explicit_value statement).

(** [@ src/sana/modules/evidence/model_verifier.py ModelEvidenceVerifier._deterministic_rfc_protocol_title] *)
Definition deterministic_rfc_protocol_title (c : SelectedCandidate) : option ProposedVerification :=
  number ← (m ← re_fullmatch re_I (page_source c) (re "https://www\.rfc-editor\.org/rfc/rfc(\d+)\.txt");
            group (page_source c) 1 m);
  requested ← re_search re_I (fact_text c) (re "\b(TLS)\s*(\d)\.(\d)\b");
  if negb (is_official c) || fle (sc_score c) fzero || negb (str_in (u "rfc") (casefold (fact_text c))) then None else
  let part n := default [] (group (fact_text c) n requested) in
  header ← at_most 600 (search_text re_IS (chunk_text c)
    (rcat [re "Request for Comments:\s*"; rtext number; re "\b.*?The Transport Layer Security \(";
           rtext (part 1%nat); re "\) Protocol Version "; rtext (part 2%nat); re "\."; rtext (part 3%nat);
           re "\b"]));
  Some (propose c explicit_value header).

Definition differs_semantically : regex :=
  re ("This differs\s+semantically from an offset of \x22Z\x22 or\s+" ++
      "\x22\+00:00\x22, which imply that UTC\s+is the preferred reference " ++
      "point for the specified time\.").

Definition utc_timestamp : regex := re "\d{4}-\d{2}-\d{2}T\d{2}:\d{2}:\d{2}(?:\.\d+)?Z".

(** The statement the branches choose. *)
(** [@ src/sana/modules/evidence/model_verifier.py ModelEvidenceVerifier._deterministic_rfc3339_utc@465-499] *)
Definition rfc3339_statement (fact chunk : pystr) : option pystr :=
  let asks_example := str_in (u "example") (casefold fact) in
  let asks_plus := str_in (u "+00:00") fact in
  let asks_z := re_found no_flags fact (re "(?<![A-Za-z])Z(?![A-Za-z])") in
  let examples := str_in (u "5.8. Examples") chunk in
  if asks_example && asks_plus then
    match search_text no_flags chunk differs_semantically with
    | Some t => Some t
    | None => if examples then search_text no_flags chunk utc_timestamp else None
    end
  else if asks_example && asks_z && examples then search_text no_flags chunk utc_timestamp
  else if asks_plus then search_text no_flags chunk differs_semantically
  else if asks_z then
    search_text re_S chunk
      (re ("Z\s+A suffix which, when applied to a time, denotes a UTC\s+offset " ++
           "of 00:00;.*?representation of the letter \x22Z\x22\."))
  else None.

(** [@ src/sana/modules/evidence/model_verifier.py ModelEvidenceVerifier._deterministic_rfc3339_utc] *)
Definition deterministic_rfc3339_utc (c : SelectedCandidate) : option ProposedVerification :=
  if negb (is_official c) || fle (sc_score c) fzero
     || negb (bool_decide (page_source c = u "https://www.rfc-editor.org/rfc/rfc3339.txt"))
     || negb (str_in (u "rfc 3339") (casefold (fact_text c)))
  then None else
  statement ← at_most 600 (rfc3339_statement (fact_text c) (chunk_text c));
  Some (propose c definition_match statement).

(** [sep.join(patterns)] *)
Fixpoint rjoin (sep : regex) (l : list regex) : regex :=
  match l with
  | [] => REmpty
  | [r] => r
  | r :: rest => RCat r (RCat sep (rjoin sep rest))
  end.

(** The rows of the table of isolation levels. *)
(** [@ src/sana/modules/evidence/model_verifier.py ModelEvidenceVerifier._deterministic_postgresql_isolation@534-551] *)
Definition isolation_rows : list (string * regex) :=
  [("read uncommitted", re ("Read uncommitted\s+Allowed, but not in PG\s+Possible\s+" ++ "Possible\s+Possible"));
   ("read committed", re "Read committed\s+Not possible\s+Possible\s+Possible\s+Possible");
   ("repeatable read", re ("Repeatable read\s+Not possible\s+Not possible\s+" ++ "Allowed, but not in PG\s+Possible"));
   ("serializable", re ("Serializable\s+Not possible\s+Not possible\s+" ++ "Not possible\s+Not possible"))]%string.

(** The first pair whose name is in the text. *)
Fixpoint first_named {A} (table : list (string * A)) (t : pystr) : option A :=
  match table with
  | [] => None
  | (name, a) :: rest => if str_in (uu name) t then Some a else first_named rest t
  end.

(** [@ src/sana/modules/evidence/model_verifier.py ModelEvidenceVerifier._deterministic_postgresql_isolation] *)
Definition deterministic_postgresql_isolation (c : SelectedCandidate) : option ProposedVerification :=
  let folded := casefold (fact_text c) in
  if negb (is_official c) || fle (sc_score c) fzero
     || negb (bool_decide (page_source c = u "https://www.postgresql.org/docs/current/transaction-iso.html"))
     || negb (any_in ["isolation"; "anomaly"; "read "; "serializable"]%string folded)
  then None else
  let statement :=
    match first_named isolation_rows folded with
    | Some pattern => search_text re_I (chunk_text c) pattern
    | None =>
        if any_in ["anomaly"; "isolation_levels"]%string folded then
          search_text re_I (chunk_text c)
            (rcat [re ("Isolation Level\s+Dirty Read\s+Nonrepeatable Read\s+" ++
                       "Phantom Read\s+Serialization Anomaly\s+");
                   rjoin (re "\s+") isolation_rows.*2])
        else None
    end in
  statement ← at_most 1200 statement;
  Some (propose c explicit_value statement).

(** [@ src/sana/modules/evidence/model_verifier.py ModelEvidenceVerifier._deterministic_dns_registry] *)
Definition deterministic_dns_registry (c : SelectedCandidate) : option ProposedVerification :=
  let reviewed_sources :=
    [u ("https://www.iana.org/assignments/service-names-port-numbers/" ++ "service-names-port-numbers.xhtml");
     u ("https://www.iana.org/assignments/service-names-port-numbers/" ++ "service-names-port-numbers.csv")] in
  if negb (is_official c) || negb (bool_decide (page_source c ∈ reviewed_sources))
     || negb (str_in (u "dns") (casefold (fact_text c)))
  then None else
  rows ← at_most 600 (search_text re_IS (chunk_text c)
    (re ("domain\s*,?\s*53\s*,?\s*tcp\s*,?\s*Domain Name Server.*?" ++
         "domain\s*,?\s*53\s*,?\s*udp\s*,?\s*Domain Name Server")));
  Some (propose c explicit_value (strip rows)).

(** [@ src/sana/modules/evidence/model_verifier.py ModelEvidenceVerifier._deterministic_python_origin] *)
Definition deterministic_python_origin (c : SelectedCandidate) : option ProposedVerification :=
  let fact_text := casefold (fact_text c) in
  if negb (is_official c) || negb (str_in (u "python") fact_text)
     || negb (bool_decide (page_source c ∈ [u "https://www.python.org/download/releases/2.1/license/";
                                            u "https://docs.python.org/3/license.html"]))
  then None else
  let statement :=
    if any_in ["creator"; "created"; "创建"]%string fact_text then
      search_text re_IS (chunk_text c)
        (re ("Python was created in the early 1990s by Guido van Rossum.*?" ++ "(?:ABC\.|ABC)"))
    else if any_in ["first_public"; "first public"; "release_year"; "首次公开"]%string fact_text then
      search_text re_I (chunk_text c) (re "0\.9\.0\s+thru\s+1\.2\s+n/a\s+1991-1995\s+CWI\s+yes")
    else None in
  statement ← at_most 600 statement;
  Some (propose c explicit_value (strip statement)).

(** [@ src/sana/modules/evidence/model_verifier.py ModelEvidenceVerifier._deterministic_json_literals] *)
Definition deterministic_json_literals (c : SelectedCandidate) : option ProposedVerification :=
  let fact_text := casefold (fact_text c) in
  if negb (is_official c) || negb (bool_decide (page_source c = u "https://www.rfc-editor.org/rfc/rfc8259.html"))
     || negb (str_in (u "json") fact_text) || negb (str_in (u "literal") fact_text)
  then None else
  statement ← search_text re_I (chunk_text c)
    (re ("following three literal names:\s*false\s+null\s+true\s+" ++ "The literal names MUST be lowercase"));
  Some (propose c explicit_value (strip statement)).

(** [min(statements, key=len)]: the first of the shortest. *)
Definition shortest (x : pystr) (l : list pystr) : pystr :=
  foldl (fun best y => if len y <? len best then y else best) x l.

(** [@ src/sana/modules/evidence/model_verifier.py ModelEvidenceVerifier._deterministic_http_created_no_content@726-753] *)
Definition http_statements (fact_text chunk : pystr) : list pystr :=
  let created :=
    if str_in (u "201") fact_text then
      search_text re_IS chunk
        (re ("The 201 \(Created\) status code indicates.*?" ++ "(?:target URI|resource\(s\) created\.)"))
    else None in
  let no_content :=
    if str_in (u "204") fact_text then
      match search_text re_IS chunk
              (re ("The 204 \(No Content\) status code indicates.*?" ++
                   "(?:response content|selected representation after the requested " ++ "action was applied\.)")) with
      | Some t => Some t
      | None =>
          search_text re_I chunk
            (re ("A 204 response is terminated by the end of the header section; " ++
                 "it cannot contain content or trailers\."))
      end
    else None in
  option_list created ++ option_list no_content.

(** [@ src/sana/modules/evidence/model_verifier.py ModelEvidenceVerifier._deterministic_http_created_no_content] *)
Definition deterministic_http_created_no_content (c : SelectedCandidate) : option ProposedVerification :=
  let fact_text := casefold (fact_text c) in
  if negb (is_official c) || negb (bool_decide (page_source c = u "https://www.rfc-editor.org/rfc/rfc9110.html"))
     || negb (any_in ["201"; "204"]%string fact_text)
  then None else
  match http_statements fact_text (chunk_text c) with
  | [] => None
  | s :: rest =>
      statement ← at_most 600 (Some (shortest s rest));
      Some (propose c definition_match (strip statement))
  end.

(** The properties in order, each with the pattern of its definition. *)
(** [@ src/sana/modules/evidence/model_verifier.py ModelEvidenceVerifier._deterministic_acid_property@777-806] *)
Definition acid_patterns : list (string * regex) :=
  [("atomicity", re ("Atomicity:\s+.{20,500}?" ++ "(?=\s+Consistency:)"));
   ("consistency", re ("Consistency:\s+.{20,500}?" ++ "(?=\s+Isolation:)"));
   ("isolation", re ("Isolation:\s+.{20,500}?" ++ "(?=\s+Durability:)"));
   ("durability", re ("Durability:\s+.{20,500}?" ++ "(?=\s+(?:ACID|States|Transaction|$))"))]%string.

(** [@ src/sana/modules/evidence/model_verifier.py ModelEvidenceVerifier._deterministic_acid_property] *)
Definition deterministic_acid_property (c : SelectedCandidate) : option ProposedVerification :=
  if negb (bool_decide (sc_source_identity c = u "ibm.com")) then None else
  pattern ← first_named acid_patterns (casefold (fact_text c));
  statement ← search_text re_IS (chunk_text c) pattern;
  Some (propose c definition_match (strip statement)).

(** [@ src/sana/modules/evidence/model_verifier.py ModelEvidenceVerifier._deterministic_cap_theorem@831-844] *)
Definition cap_pattern (fact_text : pystr) : option regex :=
  if str_in (u "consistency") fact_text then
    Some (re "Consistency means that all clients see the same data.*?successful[.’']")
  else if str_in (u "availability") fact_text then
    Some (re "Availability means that any client making a request.*?without exception\.")
  else if str_in (u "partition") fact_text && str_in (u "tolerance") fact_text then
    Some (re "Partition tolerance means that the cluster must continue to work.*?system\.")
  else if str_in (u "tradeoff") fact_text then
    Some (re ("The CAP theorem says that a distributed system can deliver only two " ++
              "of three desired characteristics:\s*consistency\s*,\s*availability\s+" ++
              "and\s+partition\s+tolerance"))
  else None.

(** [@ src/sana/modules/evidence/model_verifier.py ModelEvidenceVerifier._deterministic_cap_theorem] *)
Definition deterministic_cap_theorem (c : SelectedCandidate) : option ProposedVerification :=
  let fact_text := casefold (fact_text c) in
  if negb (bool_decide (sc_source_identity c = u "ibm.com")) || negb (str_in (u "cap") fact_text) then None else
  pattern ← cap_pattern fact_text;
  statement ← at_most 600 (search_text re_IS (chunk_text c) pattern);
  Some (propose c definition_match (strip statement)).

(** [@ src/sana/modules/evidence/model_verifier.py ModelEvidenceVerifier._deterministic_sqlite_licensing] *)
Definition deterministic_sqlite_licensing (c : SelectedCandidate) : option ProposedVerification :=
  let fact_text := casefold (fact_text c) in
  if negb (is_official c) || negb (bool_decide (page_source c = u "https://www.sqlite.org/copyright.html"))
     || negb (str_in (u "sqlite") fact_text)
  then None else
  let pattern :=
    if str_in (u "public domain") fact_text
       && negb (any_in ["jurisdiction"; "option"; "alternative"]%string fact_text)
    then re "SQLite is in the public domain and does not require a license\."
    else re ("Hwaci\s*,\s*the\s+company\s+that\s+employs\s+all\s+the\s+" ++
             "developers\s+of\s+SQLite\s*,\s*will\s+sell\s+you\s+a\s+" ++
             "Warranty\s+of\s+Title\s+for\s+SQLite\s*\.") in
  statement ← search_text re_I (chunk_text c) pattern;
  Some (propose c explicit_value (strip statement)).

(** [@ src/sana/modules/evidence/model_verifier.py ModelEvidenceVerifier._deterministic_deepseek_pricing@914-939] *)
Definition pricing_patterns : list (regex * regex) :=
  [(re "cache[_ -]?hit|缓存命中", re "1M\s+INPUT\s+TOKENS\s+\(CACHE\s+HIT\)\s+\$[0-9.]+");
   (re "cache[_ -]?miss|缓存未命中", re "1M\s+INPUT\s+TOKENS\s+\(CACHE\s+MISS\)\s+\$[0-9.]+");
   (re "output[_ -]?price|输出价格", re "1M\s+OUTPUT\s+TOKENS\s+\$[0-9.]+");
   (re "context[_ -]?length|上下文长度", re "CONTEXT\s+LENGTH\s+\d+(?:K|M)");
   (re "max(?:imum)?[_ -]?output|最大输出", re "MAX\s+OUTPUT\s+MAXIMUM:\s*\d+(?:K|M)");
   (re "json[_ -]?output|json output", re "Json\s+Output\s+[✓✔]\s+[✓✔]")].

(** The pattern of the first marker that is found. *)
Fixpoint first_marked (table : list (regex * regex)) (t : pystr) : option regex :=
  match table with
  | [] => None
  | (marker, pattern) :: rest => if re_found re_I t marker then Some pattern else first_marked rest t
  end.

(** [@ src/sana/modules/evidence/model_verifier.py ModelEvidenceVerifier._deterministic_deepseek_pricing] *)
Definition deterministic_deepseek_pricing (c : SelectedCandidate) : option ProposedVerification :=
  let fact_text := casefold (fact_text c) in
  if negb (is_official c)
     || negb (bool_decide (rstrip_chars (u "/") (page_source c) = u "https://api-docs.deepseek.com/quick_start/pricing"))
     || negb (re_found re_I fact_text (re "deepseek[- _]?v4[- _]?flash"))
  then None else
  pattern ← first_marked pricing_patterns fact_text;
  statement ← at_most 600 (search_text re_IS (chunk_text c) pattern);
  Some (propose c explicit_value (strip statement)).

(** ** Pages with a date *)

Definition month_names : list string :=
  ["January"; "February"; "March"; "April"; "May"; "June"; "July"; "August"; "September"; "October"; "November";
   "December"]%string.

Definition month_of_name (t : pystr) : Z :=
  Z.of_nat (default 0%nat (fst <$> list_find (fun name => casefold (u name) = casefold t) month_names)) + 1.

(** [datetime.strptime(t, "%B %d, %Y").date()]: its pattern is the one the format stands for. *)
Definition strptime_long (t : pystr) : res Z :=
  match re_fullmatch re_I t
          (re ("(January|February|March|April|May|June|July|August|September|October|November|December)" ++
               "\s+(3[0-1]|[1-2]\d|0[1-9]|[1-9]| [1-9]),\s+(\d\d\d\d)")) with
  | Some m => date_ordinal (decimal_value (default [] (group t 3 m))) (month_of_name (default [] (group t 1 m)))
                (decimal_value (strip (default [] (group t 2 m))))
  | None => Raise (ValueError "time data does not match format")
  end.

(** [datetime.strptime(t, "%Y-%m-%d").date()] *)
Definition strptime_iso (t : pystr) : res Z :=
  match re_fullmatch re_I t (re "(\d\d\d\d)-(1[0-2]|0[1-9]|[1-9])-(3[0-1]|[1-2]\d|0[1-9]|[1-9]| [1-9])") with
  | Some m => date_ordinal (decimal_value (default [] (group t 1 m))) (decimal_value (default [] (group t 2 m)))
                (decimal_value (strip (default [] (group t 3 m))))
  | None => Raise (ValueError "time data does not match format")
  end.

(** [-1 <= (fetched_at.date() - published).days <= max_age_days] *)
Definition recent (c : SelectedCandidate) (max_age_days published : Z) : bool :=
  let age_days := datetime_ordinal (dv_fetched_at (sc_version c)) - published in
  (-1 <=? age_days) && (age_days <=? max_age_days).

(** [@ src/sana/modules/evidence/model_verifier.py ModelEvidenceVerifier._reviewed_page_date_is_recent] *)
Definition reviewed_page_date_is_recent (max_age_days : Z) (c : SelectedCandidate) : res bool :=
  match search_text no_flags (dv_text (sc_version c))
          (re ("\b(January|February|March|April|May|June|July|August|" ++
               "September|October|November|December)\s+\d{1,2},\s+\d{4}\b")) with
  | None => Ok false
  | Some t => recent c max_age_days <$> strptime_long t
  end.

(** [@ src/sana/modules/evidence/model_verifier.py ModelEvidenceVerifier._reviewed_live_table_is_recent] *)
Definition reviewed_live_table_is_recent (max_age_days : Z) (c : SelectedCandidate) : res bool :=
  match search_group re_I (dv_text (sc_version c))
          (re "\bLast updated:\s*(\d{4}-\d{2}-\d{2})T\d{2}:\d{2}:\d{2}Z") 1 with
  | None => Ok false
  | Some t => recent c max_age_days <$> strptime_iso t
  end.

Definition reviewed_source (c : SelectedCandidate) : pystr := rstrip_chars (u "/") (page_source c).

Definition overclocked_patch := u ("https://www.ea.com/games/apex-legends/apex-legends/news/" ++ "overclocked-patch-notes").
Definition official_midseason :=
  u ("https://www.ea.com/games/apex-legends/apex-legends/news/" ++ "overclocked-midseason-patch-notes").
Definition official_breach := u ("https://www.ea.com/games/apex-legends/apex-legends/news/" ++ "breach-patch-notes").
Definition apex_ranked := u "https://apexranked.com/meta".

(** The pattern the chain of tests chooses; the last test reads a date. *)
(** [@ src/sana/modules/evidence/model_verifier.py ModelEvidenceVerifier._deterministic_reviewed_release@999-1049] *)
Definition release_pattern (c : SelectedCandidate) : res (option regex) :=
  let source := reviewed_source c in
  let fact_text := casefold (fact_text c) in
  if bool_decide (source = u "https://doc.rust-lang.org/stable/releases.html")
     && str_in (u "rust_latest_stable_version") fact_text && (dk_ordinal (sc_chunk c) =? 0)
  then Ok (Some (re "\bRust\s+\d+[.]\d+[.]\d+\b"))
  else if bool_decide (source = u "https://www.python.org/downloads")
          && str_in (u "python_latest_stable_version") fact_text
  then Ok (Some (re "\bDownload\s+Python\s+\d+[.]\d+[.]\d+\b"))
  else if bool_decide (source = u "https://nodejs.org/en/about/previous-releases")
          && str_in (u "node_active_lts_release_line") fact_text
  then Ok (Some (re ("\bv\s*\d+\s+[A-Za-z][A-Za-z0-9-]*\s+" ++ "[A-Za-z]+\s+\d{1,2},\s+\d{4}\s+" ++
                     "[A-Za-z]+\s+\d{1,2},\s+\d{4}\s+LTS\b")))
  else if bool_decide (source = u "https://git-scm.com") && str_in (u "git_latest_stable_release") fact_text
  then Ok (Some (re ("\bLatest\s+(?:stable\s+)?(?:source\s+)?release\s+" ++ "\d+[.]\d+[.]\d+\b")))
  else if bool_decide (source ∈ [overclocked_patch; official_midseason])
          && any_in ["current_season_or_release"; "current_release"]%string fact_text
  then recent ← reviewed_page_date_is_recent 120 c;
       Ok (if recent : bool then Some (re "\bWelcome back to\s+[^.!]{1,80}!") else None)
  else Ok None.

(** [@ src/sana/modules/evidence/model_verifier.py ModelEvidenceVerifier._deterministic_reviewed_release] *)
Definition deterministic_reviewed_release (c : SelectedCandidate) : res (option ProposedVerification) :=
  if negb (is_official c) then Ok None else
  pattern ← release_pattern c;
  Ok (pattern ← pattern : option regex;
      statement ← at_most 240 (search_text re_I (chunk_text c) pattern);
      Some (propose c ["direct_support"; "runtime_current_value"]%string (strip statement))).

(** The three pages whose date must be recent. *)
(** [@ src/sana/modules/evidence/model_verifier.py ModelEvidenceVerifier._deterministic_apex_reviewed_fact@1074-1095] *)
Definition apex_page_stale (c : SelectedCandidate) : res bool :=
  let source := reviewed_source c in
  if bool_decide (source = official_midseason) then negb <$> reviewed_page_date_is_recent 120 c
  else if bool_decide (source = official_breach) then negb <$> reviewed_page_date_is_recent 365 c
  else if bool_decide (source = apex_ranked) then negb <$> reviewed_live_table_is_recent 14 c
  else Ok false.

(** [@ src/sana/modules/evidence/model_verifier.py ModelEvidenceVerifier._deterministic_apex_reviewed_fact@1096-1151] *)
Definition apex_pattern (c : SelectedCandidate) : option regex :=
  let source := reviewed_source c in
  let fact_text := casefold (fact_text c) in
  if is_official c && bool_decide (source = official_breach) && str_in (u "bloodhound_tactical_changes") fact_text
  then Some (re ("\bTactical\s+Total scan duration up to\s+\d+(?:[.]\d+)?s\s+" ++ "\(was\s+\d+(?:[.]\d+)?s\).*?" ++
                 "Fewer clues will pop-up on screen when your tactical successfully " ++ "scans an enemy"))
  else if is_official c && bool_decide (source = official_breach)
          && str_in (u "bloodhound_ultimate_changes") fact_text
  then Some (re "\bUltimate\s*:\s*Cooldown reduced.*?(?=\s+Upgrades\s+Level 2)")
  else if is_official c && bool_decide (source = official_midseason) && str_in (u "current_map_rotation") fact_text
  then Some (re ("This split(?:'|\u2019)s map rotations are as follows:\s+" ++
                 "Pubs\s+.*?\s+Ranked\s+.*?(?=\s+Mixtape\b)"))
  else if is_official c && bool_decide (source = official_midseason) && str_in (u "ranked_rules_changes") fact_text
  then Some (re ("Removing\s+[\x22\u201c]Champion Squad[\x22\u201d]\s+Screen\s+" ++
                 "We have removed.*?immediately load into the dropship\."))
  else if bool_decide (source = apex_ranked) && (sc_source_authority c is SourceAuthority_INDEPENDENT) then
    if str_in (u "community_bloodhound_meta") fact_text then
      Some (re ("\bBloodhound\s+[+]\d+(?:[.]\d+)?\s+Win\s+" ++
                "\d+(?:[.]\d+)?%\s+Pick\s+\d+(?:[.]\d+)?%\s+Games\s+[\d,]+"))
    else if str_in (u "community_team_composition_frequency") fact_text then
      Some (re ("Most Common Trio Compositions\s+1\s+.*?" ++ "(?=\s+2\s+[A-Z]\s+)"))
    else if str_in (u "community_team_composition_performance") fact_text then
      Some (re ("Highest Earning Trio Compositions\s+1\s+.*?" ++ "(?=\s+2\s+[A-Z]\s+)"))
    else None
  else None.

(** [@ src/sana/modules/evidence/model_verifier.py ModelEvidenceVerifier._deterministic_apex_reviewed_fact] *)
Definition deterministic_apex_reviewed_fact (c : SelectedCandidate) : res (option ProposedVerification) :=
  stale ← apex_page_stale c;
  if stale : bool then Ok None else
  Ok (pattern ← apex_pattern c;
      statement ← at_most 600 (search_text re_IS (chunk_text c) pattern);
      Some (propose c ["direct_support"; "runtime_structured_fact"]%string (strip statement))).

(** [@ src/sana/modules/evidence/model_verifier.py ModelEvidenceVerifier._is_stale_reviewed_current_candidate] *)
Definition is_stale_reviewed_current_candidate (c : SelectedCandidate) : res bool :=
  let source := reviewed_source c in
  let fact_text := casefold (fact_text c) in
  if bool_decide (source = official_midseason)
     && any_in ["current_season_or_release"; "current_release"; "current_map_rotation";
                "ranked_rules_changes"]%string fact_text
  then negb <$> reviewed_page_date_is_recent 120 c
  else if bool_decide (source = official_breach)
          && any_in ["bloodhound_tactical_changes"; "bloodhound_ultimate_changes"]%string fact_text
  then negb <$> reviewed_page_date_is_recent 365 c
  else if bool_decide (source = apex_ranked)
          && any_in ["community_bloodhound_meta"; "community_team_composition_frequency";
                     "community_team_composition_performance"]%string fact_text
  then negb <$> reviewed_live_table_is_recent 14 c
  else Ok false.

(** ** PostgreSQL and Git *)

Definition supported_row : regex :=
  re ("\d+\s+\d+[.]\d+\s+Yes\s+" ++ "[A-Za-z]+\s+\d{1,2},\s+\d{4}\s+" ++ "[A-Za-z]+\s+\d{1,2},\s+\d{4}").

(** [@ src/sana/modules/evidence/model_verifier.py ModelEvidenceVerifier._deterministic_postgresql_support@1186-1209] *)
Definition support_statement (fact_text chunk : pystr) : option pystr :=
  match search_group no_flags fact_text (re "supported_row_([1-5])") 1 with
  | Some slot =>
      let rows := match_text chunk <$> re_finditer re_I chunk supported_row in
      rows !! Z.to_nat (decimal_value slot - 1)
  | None =>
      match search_text no_flags fact_text (re "(?<![.\d])(?:1[4-9]|2\d)(?![.\d])") with
      | Some version =>
          search_text re_I chunk
            (rcat [rtext version; re ("\s+\d+[.]\d+\s+Yes\s+" ++ "[A-Za-z]+\s+\d{1,2},\s+\d{4}\s+" ++
                                      "[A-Za-z]+\s+\d{1,2},\s+\d{4}")])
      | None =>
          search_text re_I chunk
            (rcat [re "Version\s+Current minor\s+Supported\s+First Release\s+Final Release\s+";
                   RRep true 2 (Some 5%nat) (rcat [supported_row; re "\s*"])])
      end
  end.

(** [@ src/sana/modules/evidence/model_verifier.py ModelEvidenceVerifier._deterministic_postgresql_support] *)
Definition deterministic_postgresql_support (c : SelectedCandidate) : option ProposedVerification :=
  let fact_text := casefold (fact_text c) in
  if negb (is_official c) || negb (bool_decide (page_source c = u "https://www.postgresql.org/support/versioning/"))
     || negb (str_in (u "postgresql") fact_text)
     || negb (any_in ["support"; "minor"; "final release"; "eol"; "version"]%string fact_text)
  then None else
  statement ← at_most 1200 (support_statement fact_text (chunk_text c));
  Some (propose c explicit_value (strip statement)).

(** [@ src/sana/modules/evidence/model_verifier.py ModelEvidenceVerifier._deterministic_git_file_state@1241-1254] *)
Definition git_states : list (string * regex) :=
  [("modified", re ("Modified means that you have changed the file but have not " ++
                    "committed it to your database yet\."));
   ("staged", re ("Staged means that you have marked a modified file in its current " ++
                  "version to go into your next commit snapshot\."));
   ("committed", re ("Committed means that the data is safely stored in your local " ++ "database\."))]%string.

(** [@ src/sana/modules/evidence/model_verifier.py ModelEvidenceVerifier._deterministic_git_file_state] *)
Definition deterministic_git_file_state (c : SelectedCandidate) : option ProposedVerification :=
  let source := before (u "?search=") (before (u "#") (sc_url c)) in
  let fact_text := casefold (fact_text c) in
  if negb (is_official c)
     || negb (starts_with (u "https://git-scm.com/book/en/v2/getting-started-what-is-git") (casefold source))
     || negb (str_in (u "git") fact_text)
  then None else
  pattern ← first_named git_states fact_text;
  statement ← search_text re_I (chunk_text c) pattern;
  Some (propose c definition_match (strip statement)).

(** [@ src/sana/modules/evidence/model_verifier.py ModelEvidenceVerifier._deterministic_git_object_model@1290-1329] *)
Definition git_statement (c : SelectedCandidate) : option pystr :=
  let folded := casefold (fact_text c) in
  if str_in (u "object_types") folded || str_in (u "four types") folded
     || str_in (u "four types") (casefold (fr_description (sc_fact c)))
  then search_text re_I (chunk_text c)
         (re ("(?:There are 4 types of objects:\s*|Objects\s*:\s*)" ++
              "commits\s*,\s*trees\s*,\s*blobs\s*,\s*and\s*tag objects\s*\.?"))
  else if str_in (u "blob") folded
  then search_text re_I (chunk_text c) (re "A blob object contains a file(?:'|\u2019)s contents\.")
  else if str_in (u "tree") folded
  then search_text re_I (chunk_text c)
         (re ("A tree is how Git represents a directory\.\s*It can contain files " ++
              "or other trees \(which are subdirectories\)\."))
  else if str_in (u "commit") folded
  then search_text re_IS (chunk_text c) (re "A commit contains these required fields.*?\bA\s+commit message")
  else if str_in (u "tag") folded
  then search_text re_IS (chunk_text c)
         (re ("Tag objects contain these required fields.*?\bA\s+tag message\s*,\s*" ++ "similar to a commit message"))
  else None.

(** [@ src/sana/modules/evidence/model_verifier.py ModelEvidenceVerifier._deterministic_git_object_model] *)
Definition deterministic_git_object_model (c : SelectedCandidate) : option ProposedVerification :=
  if negb (is_official c) || fle (sc_score c) fzero
     || negb (bool_decide (page_source c = u "https://git-scm.com/docs/gitdatamodel.html"))
     || negb (str_in (u "git") (casefold (fact_text c)))
  then None else
  statement ← at_most 600 (git_statement c);
  Some (propose c definition_match (strip statement)).

(** ** The rules in order *)

(** [@ src/sana/modules/evidence/model_verifier.py ModelEvidenceVerifier._deterministic_proposal@1346-1386] *)
Definition adapters : list ((SelectedCandidate -> res (option ProposedVerification)) * string) :=
  [(Ok ∘ deterministic_dns_registry, "deterministic-dns-registry-v1");
   (Ok ∘ deterministic_python_origin, "deterministic-python-origin-v1");
   (Ok ∘ deterministic_json_literals, "deterministic-json-literals-v1");
   (Ok ∘ deterministic_http_created_no_content, "deterministic-http-status-v1");
   (Ok ∘ deterministic_acid_property, "deterministic-acid-v1");
   (Ok ∘ deterministic_cap_theorem, "deterministic-cap-v1");
   (Ok ∘ deterministic_sqlite_licensing, "deterministic-sqlite-v1");
   (Ok ∘ deterministic_deepseek_pricing, "deterministic-deepseek-pricing-v1");
   (deterministic_reviewed_release, "deterministic-reviewed-release-v1");
   (deterministic_apex_reviewed_fact, "deterministic-apex-reviewed-v1");
   (Ok ∘ deterministic_postgresql_support, "deterministic-postgresql-support-v1");
   (Ok ∘ deterministic_git_file_state, "deterministic-git-state-v1");
   (Ok ∘ deterministic_git_object_model, "deterministic-git-object-v1");
   (Ok ∘ deterministic_registry_boolean, "deterministic-registry-table-v1");
   (Ok ∘ deterministic_registry_media_type, "deterministic-registry-media-v1");
   (Ok ∘ deterministic_sha_digest_size, "deterministic-sha-digest-v1");
   (Ok ∘ deterministic_rfc_protocol_title, "deterministic-rfc-title-v1");
   (Ok ∘ deterministic_rfc3339_utc, "deterministic-rfc3339-utc-v1");
   (Ok ∘ deterministic_postgresql_isolation, "deterministic-postgresql-isolation-v1");
   (Ok ∘ deterministic_explicit_terms, "deterministic-explicit-terms-v1");
   (Ok ∘ deterministic_explicit_value, "deterministic-explicit-value-v1")]%string.

(** [@ src/sana/modules/evidence/model_verifier.py ModelEvidenceVerifier._deterministic_proposal@1387-1391] *)
Fixpoint first_proposal (rules : list ((SelectedCandidate -> res (option ProposedVerification)) * string))
    (c : SelectedCandidate) : res (option (ProposedVerification * string)) :=
  match rules with
  | [] => Ok None
  | (adapter, version) :: rest =>
      proposed ← adapter c;
      match proposed with
      | Some p => Ok (Some (p, version))
      | None => first_proposal rest c
      end
  end.

(** [@ src/sana/modules/evidence/model_verifier.py ModelEvidenceVerifier._deterministic_proposal] *)
Definition deterministic_proposal : SelectedCandidate -> res (option (ProposedVerification * string)) :=
  first_proposal adapters.

(** ** What no single excerpt may establish *)

(** [@ src/sana/modules/evidence/model_verifier.py ModelEvidenceVerifier._model_proposal_is_semantically_admissible] *)
Definition model_proposal_is_semantically_admissible (c : SelectedCandidate) (p : ProposedVerification) : bool :=
  let fact_text := casefold (fact_text c) in
  let quote := casefold (pv_quote p) in
  if str_in (u "evidence_gap") fact_text || str_in (u "evidence gap") fact_text
     || str_in (u "no official source discloses") fact_text
  then false
  else if str_in (u "weight") fact_text && any_in ["unreleased"; "next model"; "private"]%string fact_text then
    let target_bound := str_in (u "openai") quote && str_in (u "weight") quote
                        && any_in ["unreleased"; "next model"]%string quote in
    let availability_bound :=
      re_found no_flags quote (re "\b(?:not|never|unavailable|private|confidential|proprietary)\b") in
    target_bound && availability_bound
  else true.

(** [@ src/sana/modules/evidence/model_verifier.py ModelEvidenceVerifier._requires_source_set_absence] *)
Definition requires_source_set_absence (c : SelectedCandidate) : bool :=
  let fact_text := casefold (fact_text c) in
  str_in (u "evidence_gap") fact_text
  || any_in ["no official source discloses"; "no official public source"; "no independent public source";
             "no current public source"; "no public source can"]%string fact_text.
End Rules.
