(* ===== verification/ModelGateway.v ===== *)
(** * ModelGateway: model calls with retries, a deadline, a budget and one repair

    [sana/modules/model_gateway/domain.py] and [service.py]. The world of a gateway (its clock, its
    providers and the audit of its calls) is a state [W]: reading the clock and calling a provider
    are parameters, and the audit is the interface [AuditSink], the protocol of [ports.py], whose
    database implementation is in ModelAudit. A gateway also keeps, as a ghost, the list of what it
    did. The trace ids of a context are left out.

    The verifier, the synthesizer and the planner hand a parser to [ModelGateway.generate] and use
    the parsed value of its result ([VerificationGateway], [SynthesisGateway] and
    [PlanningModelGateway] in their modules). The class [ParsingGateway] states the one law they need:
    a parsed value is what the parser returned for some answer of the model. The gateway has it. *)

From Stdlib Require Import SpecFloat String.
From S2P Require Import Prelude Errors PyTime.

(** ** Values *)

(** [@ src/sana/modules/model_gateway/domain.py ModelRole] *)
Inductive ModelRole :=
| ModelRole_ROUTER | ModelRole_PLANNER | ModelRole_VERIFIER | ModelRole_SYNTHESIZER
| ModelRole_CONVERSATION | ModelRole_MEMORY.

#[export] Instance ModelRole_eq_dec : EqDecision ModelRole.
Proof. solve_decision. Defined.

(** [@ src/sana/modules/model_gateway/domain.py MessageRole] *)
Inductive MessageRole := MessageRole_SYSTEM | MessageRole_USER | MessageRole_ASSISTANT.

(** [@ src/sana/modules/model_gateway/domain.py OutputFormat] *)
Inductive OutputFormat := OutputFormat_TEXT | OutputFormat_JSON_OBJECT.

(** [@ src/sana/modules/model_gateway/domain.py ThinkingMode] *)
Inductive ThinkingMode := ThinkingMode_DISABLED | ThinkingMode_ENABLED.

Record ModelMessage := { mm_role : MessageRole; mm_content : pystr }.

(** [@ src/sana/modules/model_gateway/domain.py ModelMessage] *)
Definition ModelMessage_new (role : MessageRole) (content : pystr) : res ModelMessage :=
  _ ← fail_if (blank content) (ValueError "Model message content cannot be empty");
  Ok {| mm_role := role; mm_content := content |}.

Record ModelRequest := {
  mq_role : ModelRole;
  mq_model : pystr;
  mq_messages : list ModelMessage;
  mq_temperature : float;
  mq_max_output_tokens : Z;
  mq_output_format : OutputFormat;
  mq_thinking_mode : ThinkingMode;
  mq_prompt_template_version : pystr;
  mq_parser_schema_version : pystr
}.

(** [@ src/sana/modules/model_gateway/domain.py ModelRequest] *)
Definition ModelRequest_new (q : ModelRequest) : res ModelRequest :=
  _ ← fail_if (blank (mq_model q) || bool_decide (mq_messages q = []))
        (ValueError "Model and messages are required");
  _ ← fail_if (mq_max_output_tokens q <? 1) (ValueError "max_output_tokens must be positive");
  _ ← fail_if (blank (mq_prompt_template_version q))
        (ValueError "prompt_template_version cannot be empty");
  _ ← fail_if (blank (mq_parser_schema_version q))
        (ValueError "parser_schema_version cannot be empty");
  Ok q.

Record ModelInvocationContext := {
  mx_tenant_id : UUID;
  mx_run_id : UUID;
  mx_step_id : UUID;
  mx_step_key : pystr;
  mx_attempt_id : UUID;
  mx_attempt_no : Z;
  mx_input_refs : list pystr
}.

(** [@ src/sana/modules/model_gateway/domain.py ModelInvocationContext] *)
Definition ModelInvocationContext_new (x : ModelInvocationContext) : res ModelInvocationContext :=
  _ ← fail_if (blank (mx_step_key x)) (ValueError "Model invocation step key cannot be empty");
  _ ← fail_if (mx_attempt_no x <? 1)
        (ValueError "Model invocation attempt number must be positive");
  _ ← fail_if (existsb blank (mx_input_refs x))
        (ValueError "Model invocation input references cannot be empty");
  Ok x.

Record ModelInvocationReservation := { mv_id : UUID; mv_call_no : Z; mv_logical_call_key : pystr }.

(** [@ src/sana/modules/model_gateway/domain.py ModelInvocationReservation] *)
Definition ModelInvocationReservation_new (id : UUID) (call_no : Z) (logical_call_key : pystr)
    : res ModelInvocationReservation :=
  _ ← fail_if ((call_no <? 1) || blank logical_call_key)
        (ValueError "Model invocation reservation is invalid");
  Ok {| mv_id := id; mv_call_no := call_no; mv_logical_call_key := logical_call_key |}.

Record RedactedInvocationError := { rv_category : pystr; rv_code : pystr; rv_retryable : bool }.

(** [category.value] *)
Definition category_value (c : ErrorCategory) : pystr :=
  u match c with
    | ErrorCategory_TRANSIENT => "TRANSIENT" | ErrorCategory_PERMANENT => "PERMANENT"
    | ErrorCategory_BUDGET => "BUDGET" | ErrorCategory_CONTENT => "CONTENT"
    | ErrorCategory_MODEL_OUTPUT => "MODEL_OUTPUT" | ErrorCategory_CANCELLED => "CANCELLED"
    | ErrorCategory_INTERNAL => "INTERNAL"
    end.

(** The vocabulary has no category INFRASTRUCTURE: reading it raises. *)
(** [@ src/sana/modules/model_gateway/domain.py RedactedInvocationError] *)
Definition RedactedInvocationError_from_exception (e : exn) : res RedactedInvocationError :=
  match e with
  | Typed e => Ok {| rv_category := category_value (te_category e); rv_code := te_code e;
                     rv_retryable := te_retryable e |}
  | CancelledError => Ok {| rv_category := category_value ErrorCategory_CANCELLED;
                            rv_code := u "model_call_cancelled"; rv_retryable := false |}
  | _ => Raise (AttributeError "INFRASTRUCTURE")
  end.

Record ProviderResponse := {
  pr_text : pystr;
  pr_model : pystr;
  pr_prompt_tokens : Z;
  pr_completion_tokens : Z;
  pr_response_id : option pystr
}.

(** [@ src/sana/modules/model_gateway/domain.py ProviderResponse] *)
Definition ProviderResponse_new (r : ProviderResponse) : res ProviderResponse :=
  _ ← fail_if ((pr_prompt_tokens r <? 0) || (pr_completion_tokens r <? 0))
        (ValueError "Token usage cannot be negative");
  _ ← fail_if (match pr_response_id r with Some i => blank i | None => false end)
        (ValueError "response_id cannot be blank");
  Ok r.

Record ReusedModelResponse := { ru_response : ProviderResponse; ru_source_invocation_id : UUID }.

(** ** The budget of a caller without an audit *)

(** [@ src/sana/modules/model_gateway/domain.py ModelBudgetExceeded] *)
Definition ModelBudgetExceeded (limit : string) : exn :=
  Typed {| te_category := ErrorCategory_BUDGET; te_code := u "model_budget_exceeded";
           te_message := u "Model budget exceeded: " ++ u limit; te_retryable := false |}.

Record ModelCallBudget := {
  mb_max_calls : Z;
  mb_max_total_tokens : Z;
  mb_used_calls : Z;
  mb_used_prompt_tokens : Z;
  mb_used_completion_tokens : Z
}.

(** [@ src/sana/modules/model_gateway/domain.py ModelCallBudget.__post_init__] *)
Definition ModelCallBudget_new (b : ModelCallBudget) : res ModelCallBudget :=
  _ ← fail_if ((mb_max_calls b <? 0) || (mb_max_total_tokens b <? 0))
        (ValueError "Model budget limits cannot be negative");
  Ok b.

(** [@ src/sana/modules/model_gateway/domain.py ModelCallBudget.used_total_tokens] *)
Definition used_total_tokens (b : ModelCallBudget) : Z :=
  mb_used_prompt_tokens b + mb_used_completion_tokens b.

(** [@ src/sana/modules/model_gateway/domain.py ModelCallBudget.reserve_call] *)
Definition reserve_call (b : ModelCallBudget) : res ModelCallBudget :=
  let next_calls := mb_used_calls b + 1 in
  _ ← fail_if (mb_max_calls b <? next_calls) (ModelBudgetExceeded "calls");
  Ok {| mb_max_calls := mb_max_calls b; mb_max_total_tokens := mb_max_total_tokens b;
        mb_used_calls := next_calls; mb_used_prompt_tokens := mb_used_prompt_tokens b;
        mb_used_completion_tokens := mb_used_completion_tokens b |}.

(** [@ src/sana/modules/model_gateway/domain.py ModelCallBudget.record_tokens] *)
Definition record_tokens (prompt_tokens completion_tokens : Z) (b : ModelCallBudget)
    : res ModelCallBudget :=
  _ ← fail_if ((prompt_tokens <? 0) || (completion_tokens <? 0))
        (ValueError "Token usage cannot be negative");
  let next_total := used_total_tokens b + prompt_tokens + completion_tokens in
  _ ← fail_if (mb_max_total_tokens b <? next_total) (ModelBudgetExceeded "tokens");
  Ok {| mb_max_calls := mb_max_calls b; mb_max_total_tokens := mb_max_total_tokens b;
        mb_used_calls := mb_used_calls b;
        mb_used_prompt_tokens := mb_used_prompt_tokens b + prompt_tokens;
        mb_used_completion_tokens := mb_used_completion_tokens b + completion_tokens |}.

(** [@ src/sana/modules/model_gateway/domain.py ModelDeadlineExceeded] *)
Definition ModelDeadlineExceeded : exn :=
  Typed {| te_category := ErrorCategory_BUDGET; te_code := u "model_deadline_exceeded";
           te_message := u "Model call cannot start after the run deadline"; te_retryable := false |}.

(** [@ src/sana/modules/model_gateway/domain.py ModelOutputError] *)
Definition ModelOutputError : exn :=
  Typed {| te_category := ErrorCategory_MODEL_OUTPUT; te_code := u "invalid_structured_output";
           te_message := u "Structured output remained invalid after one repair";
           te_retryable := false |}.

(** [@ src/sana/modules/model_gateway/service.py ModelGateway._invoke@196-202] *)
Definition model_timeout_error : TypedError :=
  {| te_category := ErrorCategory_TRANSIENT; te_code := u "model_provider_timeout";
     te_message := u "Model provider exceeded its wall-clock budget"; te_retryable := true |}.

(** ** The audit interface *)

(** [@ src/sana/modules/model_gateway/ports.py ModelInvocationAuditSink] *)
Class AuditSink (W : Type) := {
  sink_reuse : ModelInvocationContext -> ModelRequest -> pystr -> Z -> pystr -> datetime ->
    M W (option ReusedModelResponse);
  sink_start : ModelInvocationContext -> ModelRequest -> pystr -> Z -> pystr -> datetime ->
    M W ModelInvocationReservation;
  sink_complete : ModelInvocationReservation -> ModelInvocationContext -> ProviderResponse -> M W unit;
  sink_fail : ModelInvocationReservation -> ModelInvocationContext -> RedactedInvocationError -> M W unit
}.

(** ** Configuration *)

Record RoleConfig := {
  rg_provider : pystr;
  rg_model : pystr;
  rg_temperature : float;
  rg_max_output_tokens : Z;
  rg_max_retries : Z;
  rg_request_timeout_seconds : float;
  rg_output_format : OutputFormat;
  rg_thinking_mode : ThinkingMode;
  rg_prompt_template_version : pystr;
  rg_parser_schema_version : pystr
}.

(** [@ src/sana/modules/model_gateway/service.py RoleConfig] *)
Definition RoleConfig_new (c : RoleConfig) : res RoleConfig :=
  _ ← fail_if (blank (rg_provider c) || blank (rg_model c))
        (ValueError "Role provider and model cannot be empty");
  _ ← fail_if ((rg_max_output_tokens c <? 1) || (rg_max_retries c <? 0))
        (ValueError "Role token and retry limits are invalid");
  _ ← fail_if (fle (rg_request_timeout_seconds c) fzero)
        (ValueError "Role request timeout must be positive");
  _ ← fail_if (blank (rg_prompt_template_version c) || blank (rg_parser_schema_version c))
        (ValueError "Role template and parser versions cannot be empty");
  Ok c.

(** What identifies a logical call: all of it is hashed, and no message text. *)
Record LogicalCall := {
  lc_context : UUID * UUID * UUID * pystr;
  lc_role : ModelRole;
  lc_provider : pystr;
  lc_model : pystr;
  lc_call_no : Z;
  lc_formats : OutputFormat * ThinkingMode;
  lc_versions : pystr * pystr;
  lc_input_refs : list pystr
}.

(** ** The gateway *)

(** What a provider call ends with. A cancellation is [ProviderRaised CancelledError]. *)
Inductive provider_outcome :=
| Responded (r : ProviderResponse)
| ProviderTimedOut
| ProviderRaised (e : exn).

(** What a gateway did: a response was reused, a call was reserved, a provider was called (with
    the seconds that remained and the timeout it was given), a reservation was sealed. *)
Inductive gw_event :=
| GwReused (call_no : Z)
| GwReserved (call_no : Z)
| GwInvoked (call_no : Z) (remaining timeout : float) (o : provider_outcome)
| GwCompleted (call_no : Z)
| GwFailed (call_no : Z).

Record Gw (W : Type) := { gw_world : W; gw_budget : ModelCallBudget; gw_events : list gw_event }.
Arguments gw_world {W}.
Arguments gw_budget {W}.
Arguments gw_events {W}.
Arguments Build_Gw {W}.

Record StructuredOutputParser (P : Type) := {
  so_parse : pystr -> res P;
  so_repair_instruction : exn -> pystr
}.
Arguments so_parse {P}.
Arguments so_repair_instruction {P}.

(** [@ src/sana/modules/model_gateway/domain.py ModelResult] *)
Record ModelResult (P : Type) := {
  mr_text : pystr;
  mr_model : pystr;
  mr_parsed : option P;
  mr_prompt_tokens : Z;
  mr_completion_tokens : Z;
  mr_provider_calls : Z;
  mr_repaired : bool;
  mr_reused : bool
}.
Arguments mr_text {P}.
Arguments mr_parsed {P}.
Arguments mr_prompt_tokens {P}.
Arguments mr_completion_tokens {P}.
Arguments mr_provider_calls {P}.
Arguments mr_repaired {P}.
Arguments mr_reused {P}.

(** [except (ValueError, TypeError, KeyError)] *)
Definition is_parse_error (e : exn) : bool :=
  match e with ValueError _ | TypeError _ | KeyError _ => true | _ => false end.

Definition model_completion_margin_seconds : float := float_of_Z 2.

Section Gateway.
Context {W P : Type} (audit : option (AuditSink W)) (clock_now : W -> W * datetime)
  (provider_invoke : pystr -> ModelRequest -> float -> W -> W * provider_outcome)
  (providers : list pystr) (roles : list (ModelRole * RoleConfig))
  (call_digest : LogicalCall -> pystr).

Definition on_world {A} (m : M W A) : M (Gw W) A := fun s =>
  let '(w, r) := m (gw_world s) in (Build_Gw w (gw_budget s) (gw_events s), r).

Definition on_budget (f : ModelCallBudget -> res ModelCallBudget) : M (Gw W) unit := fun s =>
  match f (gw_budget s) with
  | Ok b => (Build_Gw (gw_world s) b (gw_events s), Ok tt)
  | Raise e => (s, Raise e)
  end.

Definition emit (ev : gw_event) : M (Gw W) unit :=
  update (fun s => Build_Gw (gw_world s) (gw_budget s) (gw_events s ++ [ev])).

(** [@ src/sana/modules/model_gateway/service.py ModelGateway._remaining_seconds] *)
Definition remaining_seconds (deadline : datetime) : M (Gw W) float :=
  _ ← raise_if (negb (dt_aware deadline)) (ValueError "Model deadline must be timezone-aware");
  now ← on_world (fun w => let '(w', now) := clock_now w in (w', Ok now));
  span ← lift (dt_sub deadline now);
  let remaining := total_seconds span in
  _ ← raise_if (fle remaining fzero) ModelDeadlineExceeded;
  mret remaining.

(** [@ src/sana/modules/model_gateway/service.py ModelGateway._logical_call_key] *)
Definition logical_call_key (x : ModelInvocationContext) (q : ModelRequest) (provider : pystr)
    (call_no : Z) : pystr :=
  call_digest
    {| lc_context := (mx_tenant_id x, mx_run_id x, mx_step_id x, mx_step_key x);
       lc_role := mq_role q; lc_provider := provider; lc_model := mq_model q; lc_call_no := call_no;
       lc_formats := (mq_output_format q, mq_thinking_mode q);
       lc_versions := (mq_prompt_template_version q, mq_parser_schema_version q);
       lc_input_refs := mx_input_refs x |}.

(** A call is answered by a stored response, or open under a reservation (of the audit) or under
    the caller's budget. *)
Inductive opened := AlreadyAnswered (r : ProviderResponse) | Open (reservation : option ModelInvocationReservation).

Section Invoke.
Context (q : ModelRequest) (c : RoleConfig) (deadline : datetime)
  (invocation_context : option ModelInvocationContext) (call_no_start : Z).

(** [@ src/sana/modules/model_gateway/service.py ModelGateway._invoke@136-168] *)
Definition open_call (call_no : Z) : M (Gw W) opened :=
  match audit with
  | Some sink =>
      match invocation_context with
      | None => raise (ValueError "Model invocation context is required when audit is enabled")
      | Some x =>
          let key := logical_call_key x q (rg_provider c) call_no in
          reused ← on_world (sink_reuse x q (rg_provider c) call_no key deadline);
          match reused with
          | Some r => _ ← emit (GwReused call_no); mret (AlreadyAnswered (ru_response r))
          | None =>
              reservation ← on_world (sink_start x q (rg_provider c) call_no key deadline);
              _ ← emit (GwReserved call_no);
              mret (Open (Some reservation))
          end
      end
  | None => _ ← on_budget reserve_call; mret (Open None)
  end.

(** The body of the [try]: whatever it raises is its outcome. *)
(** [@ src/sana/modules/model_gateway/service.py ModelGateway._invoke@173-184] *)
Definition try_provider (call_no : Z) : M (Gw W) provider_outcome := fun s =>
  let body : M (Gw W) provider_outcome :=
    provider_remaining ← remaining_seconds deadline;
    _ ← raise_if (fle provider_remaining model_completion_margin_seconds) ModelDeadlineExceeded;
    let provider_timeout := fmin (rg_request_timeout_seconds c)
                              (fsub provider_remaining model_completion_margin_seconds) in
    o ← on_world (fun w => let '(w', o) := provider_invoke (rg_provider c) q provider_timeout w in
                           (w', Ok o));
    _ ← emit (GwInvoked call_no provider_remaining provider_timeout o);
    mret o in
  match body s with
  | (s', Ok o) => (s', Ok o)
  | (s', Raise e) => (s', Ok (ProviderRaised e))
  end.

(** [await self._audit.fail(reservation, ...)], when there is an audit. *)
Definition fail_call (call_no : Z) (reservation : option ModelInvocationReservation) (e : exn)
    : M (Gw W) unit :=
  match audit, reservation, invocation_context with
  | Some sink, Some r, Some x =>
      error ← lift (RedactedInvocationError_from_exception e);
      _ ← on_world (sink_fail r x error);
      emit (GwFailed call_no)
  | _, _, _ => mret tt
  end.

Definition complete_call (call_no : Z) (reservation : option ModelInvocationReservation)
    (response : ProviderResponse) : M (Gw W) unit :=
  match audit, reservation, invocation_context with
  | Some sink, Some r, Some x => _ ← on_world (sink_complete r x response); emit (GwCompleted call_no)
  | _, _, _ => on_budget (record_tokens (pr_prompt_tokens response) (pr_completion_tokens response))
  end.

(** May the call be tried again after [e]? *)
Definition retryable (e : exn) : bool := match e with Typed t => te_retryable t | _ => false end.

(** The [for] loop; [n] attempts are left. *)
(** [@ src/sana/modules/model_gateway/service.py ModelGateway._invoke] *)
Fixpoint invoke_loop (n : nat) (attempt calls : Z) : M (Gw W) (ProviderResponse * Z) :=
  match n with
  | O => raise (AssertionError "last_error is not None")
  | S n =>
      remaining ← remaining_seconds deadline;
      _ ← raise_if (fle remaining model_completion_margin_seconds) ModelDeadlineExceeded;
      let call_no := call_no_start + calls + 1 in
      o ← open_call call_no;
      match o with
      | AlreadyAnswered response => mret (response, calls)
      | Open reservation =>
          let calls := calls + 1 in
          outcome ← try_provider call_no;
          match outcome with
          | ProviderTimedOut =>
              _ ← fail_call call_no reservation (Typed model_timeout_error);
              if rg_max_retries c <=? attempt then raise (Typed model_timeout_error)
              else invoke_loop n (attempt + 1) calls
          | ProviderRaised e =>
              _ ← fail_call call_no reservation e;
              if negb (retryable e) || (rg_max_retries c <=? attempt) then raise e
              else invoke_loop n (attempt + 1) calls
          | Responded response =>
              _ ← complete_call call_no reservation response;
              mret (response, calls)
          end
      end
  end.

Definition gw_invoke : M (Gw W) (ProviderResponse * Z) :=
  _ ← raise_if (negb (bool_decide (rg_provider c ∈ providers))) (ValueError "Unknown model provider");
  invoke_loop (Z.to_nat (rg_max_retries c + 1)) 0 0.
End Invoke.

(** [@ src/sana/modules/model_gateway/service.py ModelGateway._result] *)
Definition gw_result (response : ProviderResponse) (parsed : option P) (calls : Z)
    (repaired reused : bool) (tokens : option (Z * Z)) : ModelResult P :=
  {| mr_text := pr_text response; mr_model := pr_model response; mr_parsed := parsed;
     mr_prompt_tokens := match tokens with Some (p, _) => p | None => pr_prompt_tokens response end;
     mr_completion_tokens := match tokens with Some (_, t) => t | None => pr_completion_tokens response end;
     mr_provider_calls := calls; mr_repaired := repaired; mr_reused := reused |}.

(** The request of a role, and the one that asks to repair an answer. *)
Definition role_request (role : ModelRole) (c : RoleConfig) (messages : list ModelMessage)
    (temperature : float) : res ModelRequest :=
  ModelRequest_new
    {| mq_role := role; mq_model := rg_model c; mq_messages := messages;
       mq_temperature := temperature; mq_max_output_tokens := rg_max_output_tokens c;
       mq_output_format := rg_output_format c; mq_thinking_mode := rg_thinking_mode c;
       mq_prompt_template_version := rg_prompt_template_version c;
       mq_parser_schema_version := rg_parser_schema_version c |}.

Definition repair_messages (messages : list ModelMessage) (response : ProviderResponse)
    (instruction : pystr) : res (list ModelMessage) :=
  answer ← ModelMessage_new MessageRole_ASSISTANT
             (if bool_decide (pr_text response = []) then u "<empty>" else pr_text response);
  ask ← ModelMessage_new MessageRole_USER instruction;
  Ok (messages ++ [answer; ask]).

(** [@ src/sana/modules/model_gateway/service.py ModelGateway.generate] *)
Definition gw_generate (role : ModelRole) (messages : list ModelMessage) (deadline : datetime)
    (parser : option (StructuredOutputParser P)) (x : option ModelInvocationContext)
    : M (Gw W) (ModelResult P) :=
  match list_find (fun kv => kv.1 = role) roles with
  | None => raise (ValueError "Model role is not configured")
  | Some (_, (_, c)) =>
  q ← lift (role_request role c messages (rg_temperature c));
  first ← gw_invoke q c deadline x 0;
  let '(response, calls) := (first : ProviderResponse * Z) in
  match parser with
  | None => mret (gw_result response None calls false (calls =? 0) None)
  | Some parser =>
  match so_parse parser (pr_text response) with
  | Ok parsed => mret (gw_result response (Some parsed) calls false false None)
  | Raise e =>
      if negb (is_parse_error e) then raise e else
      repair ← lift (repair_messages messages response (so_repair_instruction parser e));
      q ← lift (role_request role c repair fzero);
      second ← gw_invoke q c deadline x (Z.max calls 1);
      let '(repaired, repair_calls) := (second : ProviderResponse * Z) in
      match so_parse parser (pr_text repaired) with
      | Ok parsed =>
          mret (gw_result repaired (Some parsed) (calls + repair_calls) true false
            (Some (pr_prompt_tokens response + pr_prompt_tokens repaired,
                   pr_completion_tokens response + pr_completion_tokens repaired)))
      | Raise e => raise (if is_parse_error e then ModelOutputError else e)
      end
  end
  end
  end.
End Gateway.

Class ParsingGateway (S : Type) := {
  pg_generate {P} : ModelRole -> list ModelMessage -> datetime -> StructuredOutputParser P ->
    ModelInvocationContext -> M S (option P);
  pg_parsed {P} role messages deadline (parser : StructuredOutputParser P) x s s' v :
    pg_generate role messages deadline parser x s = (s', Ok (Some v)) ->
    exists text, so_parse parser text = Ok v
}.

(** [try: m except <caught>: handler] *)
Definition try_except {S A} (m : M S A) (caught : exn -> bool) (handler : exn -> M S A) : M S A := fun s =>
  match m s with
  | (s', Ok a) => (s', Ok a)
  | (s', Raise e) => if caught e then handler e s' else (s', Raise e)
  end.

Lemma try_except_ok_inv {S A} (m : M S A) caught handler s s' a : try_except m caught handler s = (s', Ok a) ->
  m s = (s', Ok a) \/ exists s1 e, m s = (s1, Raise e) /\ caught e = true /\ handler e s1 = (s', Ok a).
Proof.
  unfold try_except. destruct (m s) as [s1 [b|e]]; [by left|]. destruct (caught e) eqn:Ec; [|done].
  right. by exists s1, e.
Qed.

Lemma try_except_caught {S A B} (m : M S A) caught handler (k : A -> M S B) s s' e :
  m s = (s', Raise e) -> caught e = true -> (try_except m caught handler ≫= k) s = (handler e ≫= k) s'.
Proof. unfold mbind, M_bind, try_except. by intros -> ->. Qed.

(** [except (TypedError, ValueError, TypeError, KeyError)] *)
Definition is_model_failure (e : exn) : bool :=
  match e with Typed _ | ValueError _ | TypeError _ | KeyError _ => true | _ => false end.

(** What counts as a failure of the model: a typed error, or a value, type or key error of its answer. *)
Definition model_error (e : exn) : Prop :=
  (exists t, e = Typed t) \/ exists m, e = ValueError m \/ e = TypeError m \/ e = KeyError m.

Lemma is_model_failure_spec e : is_model_failure e = true <-> model_error e.
Proof.
  unfold model_error. split; [destruct e; simpl; try done; eauto 6|].
  by intros [[t ->]|[m [->|[->| ->]]]].
Qed.

Lemma is_model_failure_false e : is_model_failure e = false <-> ~ model_error e.
Proof. by rewrite <- is_model_failure_spec, not_true_iff_false. Qed.

(** A call that failed: with such an error, or without a parsed answer. *)
Definition call_failed {P} (answer : res (option P)) : Prop :=
  match answer with
  | Raise e => model_error e
  | Ok None => True
  | Ok (Some _) => False
  end.

Section Instance_of_the_gateway.
Context {W : Type} (audit : option (AuditSink W)) (clock_now : W -> W * datetime)
  (provider_invoke : pystr -> ModelRequest -> float -> W -> W * provider_outcome)
  (providers : list pystr) (roles : list (ModelRole * RoleConfig)) (call_digest : LogicalCall -> pystr).

Definition gateway_generate {P} (role : ModelRole) (messages : list ModelMessage) (deadline : datetime)
    (parser : StructuredOutputParser P) (x : ModelInvocationContext) : M (Gw W) (option P) :=
  r ← gw_generate audit clock_now provider_invoke providers roles call_digest role messages deadline
        (Some parser) (Some x);
  mret (mr_parsed r).

Lemma gateway_parsed P role messages deadline (parser : StructuredOutputParser P) x s s' v :
  gateway_generate role messages deadline parser x s = (s', Ok (Some v)) ->
  exists text, so_parse parser text = Ok v.
Proof.
  unfold gateway_generate, gw_generate. intros H. minv.
  destruct (list_find _ roles) as [[? [? c]]|]; [|by minv]. minv.
  repeat match goal with H : context [let '(_, _) := ?p in _] |- _ => destruct p as [? ?] end.
  destruct (so_parse parser (pr_text p)) as [parsed|e] eqn:Hfirst.
  - minv. subst. simpl in *. simplify_eq. eauto.
  - destruct (negb _); minv.
    repeat match goal with H : context [let '(_, _) := ?p in _] |- _ => destruct p as [? ?] end.
    match goal with H : context [so_parse parser (pr_text ?q)] |- _ =>
      tryif constr_eq q p then fail else destruct (so_parse parser (pr_text q)) as [parsed|] eqn:Hsecond end;
      minv. subst. simpl in *. simplify_eq. eauto.
Qed.

#[export] Instance model_gateway : ParsingGateway (Gw W) :=
  {| pg_generate := @gateway_generate; pg_parsed := gateway_parsed |}.
End Instance_of_the_gateway.

(** A model that always gives one answer. *)
Definition scripted_generate (answer : pystr) {P} (role : ModelRole) (messages : list ModelMessage)
    (deadline : datetime) (parser : StructuredOutputParser P) (x : ModelInvocationContext) : M unit (option P) :=
  lift (Some <$> so_parse parser answer).

Lemma scripted_parsed answer P role messages deadline (parser : StructuredOutputParser P) x s s' v :
  scripted_generate answer role messages deadline parser x s = (s', Ok (Some v)) ->
  exists text, so_parse parser text = Ok v.
Proof. unfold scripted_generate, lift. intros E. exists answer. destruct (so_parse parser answer); simpl in E; by simplify_eq. Qed.

Definition scripted_gateway (answer : pystr) : ParsingGateway unit :=
  {| pg_generate := @scripted_generate answer; pg_parsed := @scripted_parsed answer |}.
