(* ===== verification/Verifier.v ===== *)
(** * Verifier: deterministic rules first, then a model, and an audit of every candidate

    [ModelEvidenceVerifier.verify] and [deterministic] of [sana/modules/evidence/model_verifier.py].
    The gateway is any [ParsingGateway] over a state [S]; [str(error)] is a parameter. The rules
    propose spans of the chunk that are not empty. *)

From Stdlib Require Import SpecFloat String.
From S2P Require Import Prelude Errors PyTime PyData PyStr Regex RegexFacts PyUrl Coverage Chunker Evidence.
From S2P Require Import EvidenceRules ModelGateway.

Section Verifier.
Context `{Unicode} `{IpLiterals} `{PyText} `{JsonText}
  (sha256_utf8 : pystr -> pystr) (uuid5 : UUID -> pystr -> UUID) (error_text : exn -> pystr).

(** ** Prompts *)

(** [@ src/sana/modules/evidence/model_verifier.py VerificationParser.repair_instruction] *)
Definition verification_repair_instruction (error : exn) : pystr :=
  u ("Return only JSON with a verdicts array. Use only supplied fact_id and " ++
     "candidate_id values, an exact quote, SUPPORTS or CONTRADICTS, confidence " ++
     "0..1, and allowlisted reason_codes. Emit at most one strongest verdict " ++
     "per fact, keep each quote at most 180 characters, and omit unsupported " ++
     "candidates. " ++ "Validation error: ") ++ error_text error.

Definition verification_parser (items : list SelectedCandidate) : StructuredOutputParser (list ProposedVerification) :=
  {| so_parse := VerificationParser_parse items; so_repair_instruction := verification_repair_instruction |}.

(** [@ src/sana/modules/evidence/model_verifier.py ModelEvidenceVerifier._messages@1528-1538] *)
Definition verification_system : pystr :=
  u ("Judge factual support using only supplied exact excerpts grouped by " ++
     "fact. Return one compact JSON object with a verdicts array. Return at " ++
     "most one strongest verdict per fact and keep each exact quote at most " ++
     "180 characters. Every verdict must contain only " ++
     "fact_id, candidate_id, support_type, quote, confidence, and " ++
     "reason_codes. Use exact supplied IDs and quote spans; support_type is " ++
     "SUPPORTS or CONTRADICTS. Do not infer source authority and omit " ++
     "candidates that do not directly support or contradict the fact.").

(** One fact of the prompt with the quotes of its candidates. *)
(** [@ src/sana/modules/evidence/model_verifier.py ModelEvidenceVerifier._messages@1507-1522] *)
Definition fact_entry (candidates : list SelectedCandidate) (fact_id : UUID) : json :=
  let mine := base.filter (fun c => sc_fact_id c = fact_id) candidates in
  JObj [(u "fact_id", JStr (str_of_uuid fact_id));
        (u "fact", JStr (default [] (fr_description ∘ sc_fact <$> head mine)));
        (u "candidates", JList (map (fun c => JObj [(u "candidate_id", JStr (str_of_uuid (sc_id c)));
                                                    (u "quote", JStr (sc_quote c))]) mine))].

(** [@ src/sana/modules/evidence/model_verifier.py ModelEvidenceVerifier._messages] *)
Definition verification_messages (candidates : list SelectedCandidate) : res (list ModelMessage) :=
  let ordered_fact_ids := dedupe (map sc_fact_id candidates) in
  let payload := JObj [(u "facts", JList (map (fact_entry candidates) ordered_fact_ids));
                       (u "allowed_reason_codes", JList (map JStr (py_sorted pystr_ltb allowed_reason_codes)))] in
  system ← ModelMessage_new MessageRole_SYSTEM verification_system;
  user ← ModelMessage_new MessageRole_USER (json_dumps payload);
  Ok [system; user].

(** ** The audit of the candidates *)

Section Batch.
Context (run_id : UUID) (verified_at : datetime).

Abbreviation record := (verifier_record sha256_utf8 uuid5 run_id verified_at).

(** The proposal recorded for a candidate no evidence was accepted for. *)
(** [@ src/sana/modules/evidence/model_verifier.py ModelEvidenceVerifier._complete_candidate_audit@1604-1611] *)
Definition insufficient_support (c : SelectedCandidate) : ProposedVerification :=
  {| pv_fact_id := sc_fact_id c; pv_candidate_id := sc_id c; pv_support_type := SupportType_SUPPORTS;
     pv_quote := sc_quote c; pv_confidence := fzero; pv_reason_codes := [u "insufficient_direct_support"] |}.

(** [@ src/sana/modules/evidence/model_verifier.py ModelEvidenceVerifier._complete_candidate_audit@1598-1598] *)
Definition evidence_by_candidate : list VerifiedEvidence -> list (UUID * VerifiedEvidence) :=
  dict_by (fun e => ec_id (ve_candidate e)).

(** The loop that records every other candidate as rejected. *)
(** [@ src/sana/modules/evidence/model_verifier.py ModelEvidenceVerifier._complete_candidate_audit@1599-1617] *)
Fixpoint audit_rest (version : pystr) (candidates : list SelectedCandidate) (d : list (UUID * VerifiedEvidence))
    : res (list (UUID * VerifiedEvidence)) :=
  match candidates with
  | [] => Ok d
  | c :: rest =>
      match dget (sc_id c) d with
      | Some _ => audit_rest version rest d
      | None =>
          rejected ← record version EvidenceVerdict_REJECTED c (insufficient_support c);
          audit_rest version rest (dset (sc_id c) rejected d)
      end
  end.

(** [tuple(by_candidate[item.id] for item in candidates)] *)
(** [@ src/sana/modules/evidence/model_verifier.py ModelEvidenceVerifier._complete_candidate_audit@1618-1618] *)
Fixpoint by_candidates (d : list (UUID * VerifiedEvidence)) (candidates : list SelectedCandidate)
    : res (list VerifiedEvidence) :=
  match candidates with
  | [] => Ok []
  | c :: rest =>
      match dget (sc_id c) d with
      | Some e => es ← by_candidates d rest; Ok (e :: es)
      | None => Raise (KeyError "candidate")
      end
  end.

(** [@ src/sana/modules/evidence/model_verifier.py ModelEvidenceVerifier._complete_candidate_audit] *)
Definition complete_candidate_audit (version : string) (candidates : list SelectedCandidate)
    (accepted : list VerifiedEvidence) : res (list VerifiedEvidence) :=
  d ← audit_rest (u version) candidates (evidence_by_candidate accepted);
  by_candidates d candidates.

(** The evidence of the rules, in the order of the candidates. *)
(** [@ src/sana/modules/evidence/model_verifier.py ModelEvidenceVerifier.verify@1643-1656] *)
Fixpoint deterministic_values (candidates : list SelectedCandidate) : res (list VerifiedEvidence) :=
  match candidates with
  | [] => Ok []
  | c :: rest =>
      result ← deterministic_proposal c;
      match result with
      | Some (proposed, version) =>
          v ← record (u version) EvidenceVerdict_ACCEPTED c proposed;
          vs ← deterministic_values rest;
          Ok (v :: vs)
      | None => deterministic_values rest
      end
  end.

(** The candidates a model may judge. *)
(** [@ src/sana/modules/evidence/model_verifier.py ModelEvidenceVerifier.verify@1661-1667] *)
Fixpoint model_candidates (resolved_fact_ids : list UUID) (candidates : list SelectedCandidate)
    : res (list SelectedCandidate) :=
  match candidates with
  | [] => Ok []
  | c :: rest =>
      if bool_decide (sc_fact_id c ∈ resolved_fact_ids) || requires_source_set_absence c
      then model_candidates resolved_fact_ids rest
      else stale ← is_stale_reviewed_current_candidate c;
           cs ← model_candidates resolved_fact_ids rest;
           Ok (if stale : bool then cs else c :: cs)
  end.

(** The records of the verdicts that are admissible. *)
(** [@ src/sana/modules/evidence/model_verifier.py ModelEvidenceVerifier.verify@1692-1705] *)
Fixpoint model_values (by_id : list (UUID * SelectedCandidate)) (parsed : list ProposedVerification)
    : res (list VerifiedEvidence) :=
  match parsed with
  | [] => Ok []
  | p :: rest =>
      match dget (pv_candidate_id p) by_id with
      | None => Raise (KeyError "candidate_id")
      | Some c =>
          if model_proposal_is_semantically_admissible c p then
            v ← record (u "deepseek-verifier-v2") EvidenceVerdict_ACCEPTED c p;
            vs ← model_values by_id rest;
            Ok (v :: vs)
          else model_values by_id rest
      end
  end.

(** [@ src/sana/modules/evidence/model_verifier.py ModelEvidenceVerifier._fail_closed_fallback] *)
Definition fail_closed_fallback (candidates : list SelectedCandidate) : list VerifiedEvidence := [].

End Batch.

(** ** Verifying a batch *)

(** [@ src/sana/modules/evidence/model_verifier.py ModelEvidenceVerifier.verify] *)
Definition verify {S} `{ParsingGateway S} (candidates : list SelectedCandidate)
    (invocation_context : ModelInvocationContext) (deadline verified_at : datetime) : M S VerifiedBatch :=
  let run_id := mx_run_id invocation_context in
  if bool_decide (length candidates = 0%nat)
  then mret {| vb_evidence := []; vb_degraded := false; vb_degradation_code := None |} else
  deterministic ← lift (deterministic_values run_id verified_at candidates);
  let resolved_fact_ids := map ve_fact_requirement_id deterministic in
  judged ← lift (model_candidates resolved_fact_ids candidates);
  if bool_decide (length judged = 0%nat) then
    evidence ← lift (complete_candidate_audit run_id verified_at "deterministic-audit-v1" candidates deterministic);
    mret {| vb_evidence := evidence; vb_degraded := false; vb_degradation_code := None |}
  else
    try_except
      (messages ← lift (verification_messages judged);
       parsed ← pg_generate ModelRole_VERIFIER messages deadline (verification_parser judged) invocation_context;
       match parsed with
       | None => raise (TypeError "Verifier output did not contain parsed verdicts")
       | Some parsed =>
           accepted ← lift (model_values run_id verified_at (dict_by sc_id judged) parsed);
           evidence ← lift (complete_candidate_audit run_id verified_at "deepseek-verifier-v2" candidates (deterministic ++ accepted));
           mret {| vb_evidence := evidence; vb_degraded := false; vb_degradation_code := None |}
       end)
      is_model_failure
      (fun _ =>
         let accepted := deterministic ++ fail_closed_fallback judged in
         evidence ← lift (complete_candidate_audit run_id verified_at "fail-closed-audit-v1" candidates accepted);
         mret {| vb_evidence := evidence; vb_degraded := true;
                 vb_degradation_code := Some (u "model_verifier_fallback") |}).

(** [@ src/sana/modules/evidence/model_verifier.py ModelEvidenceVerifier.deterministic] *)
Definition verify_deterministic (run_id : UUID) (verified_at : datetime) (candidates : list SelectedCandidate) : res VerifiedBatch :=
  accepted ← deterministic_values run_id verified_at candidates;
  evidence ← complete_candidate_audit run_id verified_at "deterministic-audit-v1" candidates accepted;
  Ok {| vb_evidence := evidence; vb_degraded := false; vb_degradation_code := None |}.
End Verifier.

(** ** Substrings of substrings *)

Lemma substr_substr s e i n (t : pystr) : (i + n <= length (substr s e t))%nat ->
  substr (s + i) (s + i + n) t = substr i (i + n) (substr s e t).
Proof.
  unfold substr. rewrite length_drop, length_take. intros Hn.
  rewrite !skipn_firstn_comm, drop_drop, take_take. repeat (f_equal; try lia).
Qed.

Section Rules.
Context `{Unicode}.

(** ** What the rules propose *)

Definition quoted (c : SelectedCandidate) (q : pystr) : Prop := occurs q (chunk_text c) /\ blank q = false.

Lemma blank_nil (q : pystr) : blank q = false -> q <> [].
Proof. by intros Hb ->. Qed.

Lemma quoted_strip c q : quoted c q -> quoted c (strip q).
Proof.
  intros [Ho Hb]. split; [|by rewrite blank_strip].
  eapply occurs_trans; [apply occurs_strip|done].
Qed.

Lemma search_text_Some fl text r s : search_text fl text r = Some s ->
  exists m, match_of fl text r m /\ s = match_text text m.
Proof.
  unfold search_text. intros (m & E & ->)%fmap_Some. exists m. split; [by apply re_search_match|done].
Qed.

Lemma search_text_quoted fl c r s : search_text fl (chunk_text c) r = Some s -> solid r = true -> quoted c s.
Proof.
  intros (m & Hm & ->)%search_text_Some Hr. split; [apply match_text_occurs | by eapply solid_match].
Qed.

Lemma at_most_Some n o t : at_most n o = Some t -> o = Some t.
Proof. unfold at_most. destruct o as [s|]; simpl; [|done]. by destruct (n <? len s). Qed.

Lemma search_all_Some fl text patterns ms : search_all fl text patterns = Some ms ->
  Forall2 (match_of fl text) patterns ms.
Proof.
  revert ms. induction patterns as [|r rs IH]; intros ms; simpl; intros E; simplify_option_eq; [constructor|].
  constructor; [by apply re_search_match|by apply IH].
Qed.

(** A proposal that can be recorded for its candidate. *)
Definition fits (c : SelectedCandidate) (p : ProposedVerification) : Prop :=
  pv_fact_id p = sc_fact_id c /\ pv_candidate_id p = sc_id c /\ occurs (pv_quote p) (chunk_text c) /\
  pv_quote p <> [] /\ fle01 (pv_confidence p) = true.

Lemma propose_fits c reasons q : quoted c q -> fits c (propose c reasons q).
Proof. intros [Ho Hb]. unfold fits. ksplit. by apply blank_nil. Qed.

(** [rule_inv] opens the tests and searches of a rule that proposed something. *)
Ltac rule_inv :=
  cbv zeta; repeat match goal with
  | |- _ -> _ => intros
  | H : None = Some _ |- _ => discriminate H
  | H : Some _ = Some _ |- _ => injection H as H; subst
  | H : (if ?b then None else _) = Some _ |- _ => destruct b; [discriminate H|]
  | H : (if ?b then _ else None) = Some _ |- _ => destruct b; [|discriminate H]
  | H : _ ≫= _ = Some _ |- _ => apply bind_Some in H as (? & ? & H)
  | H : at_most _ _ = Some _ |- _ => apply at_most_Some in H
  | H : (if ?b then _ else _) = Some _ |- _ => destruct b
  end.

(** A rule that searches the chunk for a pattern that is solid whatever its interpolated parts are. *)
Ltac is_solid := cbn [solid rcat foldr rtext]; repeat (reflexivity || apply orb_true_r || (apply orb_true_intro; right)).

Ltac quote_rule :=
  rule_inv; apply propose_fits; try apply quoted_strip; (eapply search_text_quoted; [eassumption | is_solid]).

Lemma dns_fits c p : deterministic_dns_registry c = Some p -> fits c p.
Proof. unfold deterministic_dns_registry. quote_rule. Qed.

Lemma python_fits c p : deterministic_python_origin c = Some p -> fits c p.
Proof. unfold deterministic_python_origin. quote_rule. Qed.

Lemma json_fits c p : deterministic_json_literals c = Some p -> fits c p.
Proof. unfold deterministic_json_literals. quote_rule. Qed.

Lemma sqlite_fits c p : deterministic_sqlite_licensing c = Some p -> fits c p.
Proof.
  unfold deterministic_sqlite_licensing. rule_inv.
  apply propose_fits, quoted_strip. eapply search_text_quoted; [eassumption|]. by destruct (_ && _).
Qed.

Lemma http_statements_quoted c f : Forall (quoted c) (http_statements f (chunk_text c)).
Proof.
  unfold http_statements. cbv zeta. apply Forall_app_2; unfold option_list.
  - destruct (str_in _ f); [|constructor]. destruct (search_text _ _ _) eqn:E; [|constructor].
    constructor; [|constructor]. eapply search_text_quoted; [exact E|is_solid].
  - destruct (str_in _ f); [|constructor].
    destruct (search_text re_IS _ _) eqn:E; [|destruct (search_text re_I _ _) eqn:E2; [|constructor]];
      (constructor; [|constructor]); eapply search_text_quoted; try eassumption; is_solid.
Qed.

Lemma shortest_elem x l : shortest x l ∈ x :: l.
Proof.
  unfold shortest. revert x. induction l as [|y l IH]; intros x; simpl; [set_solver|].
  destruct (len y <? len x).
  - specialize (IH y). set_solver.
  - specialize (IH x). set_solver.
Qed.

Lemma http_fits c p : deterministic_http_created_no_content c = Some p -> fits c p.
Proof.
  unfold deterministic_http_created_no_content. pose proof (http_statements_quoted c (casefold (fact_text c))) as Hq.
  rule_inv. destruct (http_statements _ _) as [|s rest]; [done|]. rule_inv.
  apply propose_fits, quoted_strip. rewrite Forall_forall in Hq. apply Hq, shortest_elem.
Qed.

Lemma first_named_elem {A} (table : list (string * A)) t a : first_named table t = Some a -> a ∈ table.*2.
Proof.
  induction table as [|[name b] rest IH]; simpl; [done|]. destruct (str_in _ t); intros; simplify_eq; set_solver.
Qed.

Lemma first_marked_elem table t r : first_marked table t = Some r -> r ∈ table.*2.
Proof.
  induction table as [|[marker b] rest IH]; simpl; [done|]. destruct (re_found _ t _); intros; simplify_eq; set_solver.
Qed.

(** A pattern of a table whose patterns are all solid. *)
Lemma table_quoted fl c (l : list regex) r s : forallb solid l = true -> r ∈ l ->
  search_text fl (chunk_text c) r = Some s -> quoted c s.
Proof.
  intros Hl Hr Hs. eapply search_text_quoted; [done|]. rewrite forallb_forall in Hl.
  apply Hl. by apply list_elem_of_In.
Qed.

Lemma acid_fits c p : deterministic_acid_property c = Some p -> fits c p.
Proof.
  unfold deterministic_acid_property. rule_inv. apply propose_fits, quoted_strip.
  eapply (table_quoted _ _ acid_patterns.*2); [reflexivity| |eassumption]. by eapply first_named_elem.
Qed.

Lemma cap_solid f r : cap_pattern f = Some r -> solid r = true.
Proof. unfold cap_pattern. rule_inv; is_solid. Qed.

Lemma cap_fits c p : deterministic_cap_theorem c = Some p -> fits c p.
Proof.
  unfold deterministic_cap_theorem. rule_inv. apply propose_fits, quoted_strip.
  eapply search_text_quoted; [eassumption|]. by eapply cap_solid.
Qed.

Lemma deepseek_fits c p : deterministic_deepseek_pricing c = Some p -> fits c p.
Proof.
  unfold deterministic_deepseek_pricing. rule_inv. apply propose_fits, quoted_strip.
  eapply (table_quoted _ _ pricing_patterns.*2); [reflexivity| |eassumption]. by eapply first_marked_elem.
Qed.

Lemma state_fits c p : deterministic_git_file_state c = Some p -> fits c p.
Proof.
  unfold deterministic_git_file_state. rule_inv. apply propose_fits, quoted_strip.
  eapply (table_quoted _ _ git_states.*2); [reflexivity| |eassumption]. by eapply first_named_elem.
Qed.

Lemma object_fits c p : deterministic_git_object_model c = Some p -> fits c p.
Proof. unfold deterministic_git_object_model, git_statement. quote_rule. Qed.

Lemma media_fits c p : deterministic_registry_media_type c = Some p -> fits c p.
Proof. unfold deterministic_registry_media_type. quote_rule. Qed.

Lemma sha_fits c p : deterministic_sha_digest_size c = Some p -> fits c p.
Proof. unfold deterministic_sha_digest_size. quote_rule. Qed.

Lemma title_fits c p : deterministic_rfc_protocol_title c = Some p -> fits c p.
Proof. unfold deterministic_rfc_protocol_title. quote_rule. Qed.

Lemma utc_fits c p : deterministic_rfc3339_utc c = Some p -> fits c p.
Proof. unfold deterministic_rfc3339_utc, rfc3339_statement.
  rule_inv; try (destruct (search_text _ _ differs_semantically) eqn:?); rule_inv;
    apply propose_fits; (eapply search_text_quoted; [eassumption | is_solid]).
Qed.

Lemma isolation_fits c p : deterministic_postgresql_isolation c = Some p -> fits c p.
Proof.
  unfold deterministic_postgresql_isolation. rule_inv. apply propose_fits.
  destruct (first_named isolation_rows _) as [r|] eqn:E.
  - eapply (table_quoted _ _ isolation_rows.*2); [reflexivity| |eassumption]. by eapply first_named_elem.
  - rule_inv. eapply search_text_quoted; [eassumption|is_solid].
Qed.

Lemma release_solid c r : release_pattern c = Ok (Some r) -> solid r = true.
Proof.
  unfold release_pattern. cbv zeta. intros Hr.
  repeat match type of Hr with context [if ?b then _ else _] => destruct b end;
    try (injection Hr as <-; reflexivity); try done.
  minv. destruct a; simplify_eq. reflexivity.
Qed.

Lemma release_fits c p : deterministic_reviewed_release c = Ok (Some p) -> fits c p.
Proof.
  unfold deterministic_reviewed_release. destruct (negb _); intros Hr; minv; [done|].
  rule_inv. simplify_eq. rule_inv. apply propose_fits, quoted_strip.
  eapply search_text_quoted; [eassumption|]. by eapply release_solid.
Qed.

Lemma apex_solid c r : apex_pattern c = Some r -> solid r = true.
Proof. unfold apex_pattern. rule_inv; is_solid. Qed.

Lemma apex_fits c p : deterministic_apex_reviewed_fact c = Ok (Some p) -> fits c p.
Proof.
  unfold deterministic_apex_reviewed_fact. intros Hr. minv. destruct a; simplify_eq. rule_inv. simplify_eq.
  rule_inv. apply propose_fits, quoted_strip. eapply search_text_quoted; [eassumption|]. by eapply apex_solid.
Qed.

Lemma finditer_quoted fl c r (k : nat) s : (match_text (chunk_text c) <$> re_finditer fl (chunk_text c) r) !! k = Some s ->
  solid r = true -> quoted c s.
Proof.
  intros Hk Hr. rewrite list_lookup_fmap in Hk. apply fmap_Some in Hk as (m & Hm & ->).
  apply list_elem_of_lookup_2 in Hm. pose proof (re_finditer_matches fl (chunk_text c) r) as Hall.
  rewrite Forall_forall in Hall. split; [apply match_text_occurs|]. eapply solid_match; [by apply Hall|done].
Qed.

Lemma support_quoted f c s : support_statement f (chunk_text c) = Some s -> quoted c s.
Proof.
  unfold support_statement. destruct (search_group _ _ _ 1) as [slot|].
  - cbv zeta. intros Hk. eapply finditer_quoted; [exact Hk|reflexivity].
  - destruct (search_text _ f _) as [version|]; intros Hs; (eapply search_text_quoted; [exact Hs | is_solid]).
Qed.

Lemma support_fits c p : deterministic_postgresql_support c = Some p -> fits c p.
Proof.
  unfold deterministic_postgresql_support. rule_inv. apply propose_fits, quoted_strip. by eapply support_quoted.
Qed.

(** The rules that read the quote of the candidate. *)

Lemma boolean_fits c p : occurs (sc_quote c) (chunk_text c) -> sc_quote c <> [] ->
  deterministic_registry_boolean c = Some p -> fits c p.
Proof. unfold deterministic_registry_boolean, fits. intros. rule_inv. ksplit. Qed.

Lemma min_of_le x l : (min_of x l <= x)%nat.
Proof. unfold min_of. revert x. induction l as [|y l IH]; intros x; simpl; [done|]. etrans; [apply IH|]. lia. Qed.

Lemma max_of_le x l : (x <= max_of x l)%nat.
Proof. unfold max_of. revert x. induction l as [|y l IH]; intros x; simpl; [done|]. etrans; [|apply IH]. lia. Qed.

(** A window around a solid match. *)
Lemma window_solid fl text r m a b : match_of fl text r m -> solid r = true ->
  (a <= m_start m)%nat -> (m_end m <= b)%nat -> blank (substr a b text) = false.
Proof.
  intros [Hd Hb] Hs Ha Hb2.
  destruct (solid_den fl text r _ _ _ _ Hs (Nat.le_trans _ _ _ (proj1 Hb) (proj2 Hb)) Hd) as (q & x & ? & ? & ?).
  eapply solid_substr; [|done|done]. lia.
Qed.

Lemma value_fits c p : occurs (sc_quote c) (chunk_text c) ->
  deterministic_explicit_value c = Some p -> fits c p.
Proof.
  unfold deterministic_explicit_value. intros Ho. rule_inv.
  match goal with H : search_all _ _ _ = Some ?ms |- _ => destruct ms as [|m ms]; [done|];
    apply search_all_Some in H; inversion H as [|r ? rs ? Hm _ Er]; subst end.
  rule_inv. apply propose_fits, quoted_strip. split; [eapply occurs_trans; [apply occurs_substr|done]|].
  eapply window_solid; [exact Hm| |apply min_of_le|apply max_of_le].
  symmetry in Er. apply map_eq_cons in Er as (identifier & ? & _ & <- & _). unfold value_pattern. is_solid.
Qed.

(** The terms are looked for in the folded quote and cut out of the unfolded one, so this is the
    one rule whose span may come out empty. *)
Lemma terms_quote_occurs c p : deterministic_explicit_terms c = Some p -> occurs (pv_quote p) (sc_quote c).
Proof.
  unfold deterministic_explicit_terms. rule_inv.
  match goal with H : context [match ?ms with [] => _ | _ => _ end] |- _ => destruct ms as [|m ms]; [done|] end.
  rule_inv. simpl. eapply occurs_trans; [apply occurs_strip|apply occurs_substr].
Qed.

Lemma terms_fits c p : occurs (sc_quote c) (chunk_text c) ->
  deterministic_explicit_terms c = Some p -> pv_quote p <> [] -> fits c p.
Proof.
  intros Ho Hp Hne. pose proof (terms_quote_occurs _ _ Hp) as Hq. revert Hp Hne Hq.
  unfold deterministic_explicit_terms. rule_inv. destruct x as [|m ms]; [done|]. rule_inv.
  unfold fits. ksplit. by eapply occurs_trans.
Qed.

(** ** The rules in order *)

Definition rule_fits (c : SelectedCandidate) (rule : (SelectedCandidate -> res (option ProposedVerification)) * string) : Prop :=
  forall p, rule.1 c = Ok (Some p) -> pv_quote p <> [] -> fits c p.

Lemma rule_of_fits c version (rule : SelectedCandidate -> option ProposedVerification) :
  (forall p, rule c = Some p -> pv_quote p <> [] -> fits c p) -> rule_fits c (Ok ∘ rule, version).
Proof. intros Hr p Hp. simpl in Hp. simplify_eq. by apply Hr. Qed.

Lemma adapters_fit c : occurs (sc_quote c) (chunk_text c) -> sc_quote c <> [] -> Forall (rule_fits c) adapters.
Proof.
  intros Ho Hne. unfold adapters.
  repeat first
    [ apply Forall_nil_2
    | apply Forall_cons_2; [first [apply rule_of_fits|unfold rule_fits; simpl]; intros p Hp Hq;
        first [ by apply dns_fits | by apply python_fits | by apply json_fits | by apply http_fits | by apply acid_fits
              | by apply cap_fits | by apply sqlite_fits | by apply deepseek_fits | by apply release_fits
              | by apply apex_fits | by apply support_fits | by apply state_fits | by apply object_fits
              | by apply boolean_fits | by apply media_fits | by apply sha_fits | by apply title_fits
              | by apply utc_fits | by apply isolation_fits | by apply terms_fits | by apply value_fits ] |] ].
Qed.

Lemma first_proposal_Some rules c p v : first_proposal rules c = Ok (Some (p, v)) ->
  exists rule, rule ∈ rules /\ rule.1 c = Ok (Some p) /\ rule.2 = v.
Proof.
  induction rules as [|[adapter version] rules IH]; simpl; intros H0; minv; [done|].
  destruct a as [q|]; minv; [exists (adapter, v); set_solver|].
  destruct IH as (rule & ? & ? & ?); [done|]. exists rule. set_solver.
Qed.

Lemma deterministic_fits c p v : occurs (sc_quote c) (chunk_text c) -> sc_quote c <> [] ->
  deterministic_proposal c = Ok (Some (p, v)) -> pv_quote p <> [] -> fits c p.
Proof.
  intros Ho Hne (rule & Hin & Hp & _)%first_proposal_Some.
  pose proof (adapters_fit c Ho Hne) as Hall. rewrite Forall_forall in Hall. by apply (Hall rule).
Qed.
End Rules.
