(* ===== verification/VerifierBatch.v ===== *)
(** * VerifierBatch: what a verified batch contains

    Records keep the lineage of their candidate down to the offsets of the version's text, the parser
    keeps only exact quotes of known candidates, and a batch holds one record per candidate: accepted
    by a rule, accepted by an admissible verdict of the model, or rejected. *)

From Stdlib Require Import SpecFloat String.
From S2P Require Import Prelude Errors PyTime PyData PyStr PyUrl Regex RegexFacts Coverage Chunker.
From S2P Require Import Evidence EvidenceRules ModelGateway Verifier.

Lemma substrZ_length a b (t : pystr) : length (substrZ a b t) = (Nat.min (Z.to_nat b) (length t) - Z.to_nat a)%nat.
Proof. unfold substrZ, substr. rewrite length_drop, length_take. lia. Qed.

(** The n-th character of a span of a text is the character of the text the span starts at. *)
Lemma substrZ_substrZ s e i n (t : pystr) : 0 <= s -> 0 <= i -> 0 <= n -> i + n <= len (substrZ s e t) ->
  substrZ (s + i) (s + i + n) t = substrZ i (i + n) (substrZ s e t).
Proof.
  intros Hs Hi Hn Hl. unfold substrZ in *. rewrite !Z2Nat.inj_add by lia.
  apply substr_substr. lia.
Qed.

Lemma len_substrZ_le a b (t : pystr) : 0 <= a -> len (substrZ a b t) <= Z.max 0 (b - a).
Proof. intros Ha. rewrite substrZ_length. lia. Qed.

(** ** [{item.id: item for item in items}] *)

Section Dict_by.
Context {A : Type} (key : A -> UUID).

Lemma dict_by_from (items : list A) d k x : dget k (foldl (fun d x => dset (key x) x d) d items) = Some x ->
  dget k d = Some x \/ x ∈ items /\ key x = k.
Proof.
  revert d. induction items as [|y items IH]; intros d; simpl; [by left|].
  intros [Hk|[? ?]]%IH; [|right; set_solver].
  destruct (decide (key y = k)) as [<-|Hne].
  - rewrite dget_dset_eq in Hk. simplify_eq. right. set_solver.
  - rewrite dget_dset_ne in Hk by done. by left.
Qed.

Lemma dict_by_Some (items : list A) k x : dget k (dict_by key items) = Some x -> x ∈ items /\ key x = k.
Proof. unfold dict_by. by intros [|]%dict_by_from. Qed.

Lemma dict_by_grows (items : list A) d k :
  is_Some (dget k d) \/ k ∈ map key items -> is_Some (dget k (foldl (fun d x => dset (key x) x d) d items)).
Proof.
  revert d. induction items as [|y items IH]; intros d; simpl; [intros [|]; [done|set_solver]|].
  intros Hk. apply IH. destruct (decide (key y = k)) as [<-|Hne].
  - left. rewrite dget_dset_eq. by eexists.
  - rewrite dget_dset_ne by done. set_solver.
Qed.

Lemma dict_by_total (items : list A) x : x ∈ items -> is_Some (dget (key x) (dict_by key items)).
Proof. intros Hx. apply dict_by_grows. right. apply list_elem_of_In, in_map, list_elem_of_In, Hx. Qed.

Lemma dict_by_unique (items : list A) x : NoDup (map key items) -> x ∈ items -> dget (key x) (dict_by key items) = Some x.
Proof.
  intros Hnd Hx. destruct (dict_by_total items x Hx) as [y Hy]. rewrite Hy.
  apply dict_by_Some in Hy as [Hin Hk]. f_equal. revert Hnd Hin Hx Hk. clear.
  induction items as [|z items IH]; simpl; [set_solver|]. rewrite NoDup_cons. intros [Hz Hnd] Hin Hx Hk.
  assert (forall w, w ∈ items -> key w <> key z).
  { intros w Hw Hkw. apply Hz. rewrite <- Hkw. apply list_elem_of_In, in_map, list_elem_of_In, Hw. }
  apply elem_of_cons in Hin as [->|], Hx as [->|]; naive_solver.
Qed.
End Dict_by.

Section Records.
Context `{Unicode} `{IpLiterals} (sha256_utf8 : pystr -> pystr) (uuid5 : UUID -> pystr -> UUID) (run_id : UUID).

(** ** Lineage

    A record that is grounded in its candidate: every identifier is the candidate's, the quote has
    its digest, and the offsets delimit the quote in the text of the document version, within the
    chunk. *)
Record grounded (c : SelectedCandidate) (e : VerifiedEvidence) : Prop := {
  gr_candidate : ec_id (ve_candidate e) = sc_id c;
  gr_tenant : ve_tenant_id e = dv_tenant_id (sc_version c);
  gr_run : ve_run_id e = run_id;
  gr_fact : ve_fact_requirement_id e = sc_fact_id c;
  gr_document : es_document_id (ec_source (ve_candidate e)) = dv_document_id (sc_version c);
  gr_version : es_document_version_id (ec_source (ve_candidate e)) = dv_id (sc_version c);
  gr_chunk : es_document_chunk_id (ec_source (ve_candidate e)) = sc_chunk_id c;
  gr_url : es_url (ec_source (ve_candidate e)) = sc_url c;
  gr_authority : es_authority (ec_source (ve_candidate e)) = sc_source_authority c;
  gr_digest : ec_quote_hash (ve_candidate e) = sha256_utf8 (ec_quote (ve_candidate e));
  gr_exact : substrZ (ec_start_offset (ve_candidate e)) (ec_end_offset (ve_candidate e)) (dv_text (sc_version c))
             = ec_quote (ve_candidate e);
  gr_within : 0 <= ec_start_offset (ve_candidate e) < ec_end_offset (ve_candidate e)
              /\ dk_start_offset (sc_chunk c) <= ec_start_offset (ve_candidate e)
              /\ ec_end_offset (ve_candidate e) - ec_start_offset (ve_candidate e) = len (ec_quote (ve_candidate e));
  gr_chunk_quote : occurs (ec_quote (ve_candidate e)) (chunk_text c);
  gr_span : u "exact_source_span" ∈ ve_reason_codes e
}.

Lemma EvidenceSource_new_inv s s' : EvidenceSource_new s = Ok s' ->
  es_document_id s' = es_document_id s /\ es_document_version_id s' = es_document_version_id s /\
  es_document_chunk_id s' = es_document_chunk_id s /\ es_url s' = es_url s /\ es_authority s' = es_authority s.
Proof. unfold EvidenceSource_new. intros Hs. minv. by ksplit. Qed.

Lemma EvidenceCandidate_new_inv k k' : EvidenceCandidate_new sha256_utf8 k = Ok k' -> k' = k /\
  ec_quote_hash k = sha256_utf8 (ec_quote k) /\ 0 <= ec_start_offset k < ec_end_offset k /\
  ec_end_offset k - ec_start_offset k = len (ec_quote k) /\ fle01 (ec_candidate_score k) = true.
Proof. unfold EvidenceCandidate_new. intros Hk. minv. bools. ksplit; lia. Qed.

Lemma EvidenceCandidate_new_ok k : ec_quote k <> [] -> ec_quote_hash k = sha256_utf8 (ec_quote k) ->
  0 <= ec_start_offset k < ec_end_offset k -> ec_end_offset k - ec_start_offset k = len (ec_quote k) ->
  fle01 (ec_candidate_score k) = true -> EvidenceCandidate_new sha256_utf8 k = Ok k.
Proof.
  intros Hq Hd Ho Hl Hs. unfold EvidenceCandidate_new. rewrite Hs, Hl, Z.eqb_refl.
  rewrite (bool_decide_eq_false_2 _ Hq), (bool_decide_eq_true_2 _ Hd).
  replace (ec_start_offset k <? 0) with false by lia. by replace (ec_end_offset k <=? ec_start_offset k) with false by lia.
Qed.

Lemma VerifiedEvidence_new_ok v : fle01 (ve_confidence v) = true -> blank (ve_verifier_version v) = false ->
  dt_aware (ve_verified_at v) = true -> ve_level v = EvidenceLevel_L1_GROUNDED -> VerifiedEvidence_new v = Ok v.
Proof. intros Hc Hb Ha Hl. unfold VerifiedEvidence_new. by rewrite Hc, Hb, Ha, Hl. Qed.

Lemma VerifiedEvidence_new_inv v v' : VerifiedEvidence_new v = Ok v' -> v' = v /\ fle01 (ve_confidence v) = true.
Proof. unfold VerifiedEvidence_new. intros Hv. minv. bools. ksplit. Qed.

Lemma EvidenceBuilder_build_inv new_id tenant run fact v chunk_id chunk doc url identity support quote start score authority k :
  EvidenceBuilder_build sha256_utf8 new_id tenant run fact v chunk_id chunk doc url identity support quote start score
    authority = Ok k ->
  ec_tenant_id k = tenant /\ tenant = dv_tenant_id v /\ ec_run_id k = run /\ ec_fact_requirement_id k = fact /\
  ec_quote k = quote /\ ec_support_type k = support /\ 0 <= start /\
  ec_start_offset k = dk_start_offset chunk + start /\ ec_end_offset k = dk_start_offset chunk + start + len quote /\
  substrZ (ec_start_offset k) (ec_end_offset k) (dv_text v) = quote /\
  substrZ start (start + len quote) (dk_text chunk) = quote /\ es_document_id (ec_source k) = dv_document_id v /\
  es_document_version_id (ec_source k) = dv_id v /\ es_document_chunk_id (ec_source k) = chunk_id /\
  es_url (ec_source k) = url /\ es_authority (ec_source k) = authority.
Proof.
  unfold EvidenceBuilder_build. cbv zeta. intros Hk. minv.
  match goal with Hk : EvidenceCandidate_new _ _ = Ok _ |- _ => apply EvidenceCandidate_new_inv in Hk as (-> & _) end.
  match goal with Hs : EvidenceSource_new _ = Ok _ |- _ => apply EvidenceSource_new_inv in Hs as (? & ? & ? & ? & ?) end.
  simpl in *. bools. ksplit; simpl; congruence || lia.
Qed.

Lemma EvidenceBuilder_build_valid new_id tenant run fact v chunk_id chunk doc url identity support quote start score authority k :
  EvidenceBuilder_build sha256_utf8 new_id tenant run fact v chunk_id chunk doc url identity support quote start score
    authority = Ok k ->
  ec_quote_hash k = sha256_utf8 (ec_quote k) /\ 0 <= ec_start_offset k < ec_end_offset k /\
  ec_end_offset k - ec_start_offset k = len (ec_quote k) /\ fle01 (ec_candidate_score k) = true.
Proof.
  unfold EvidenceBuilder_build. cbv zeta. intros Hk. minv.
  by match goal with Hk : EvidenceCandidate_new _ _ = Ok _ |- _ => apply EvidenceCandidate_new_inv in Hk as (-> & ?) end.
Qed.

Lemma verifier_record_inv at_ version verdict c p e :
  verifier_record sha256_utf8 uuid5 run_id at_ version verdict c p = Ok e ->
  grounded c e /\ ec_quote (ve_candidate e) = pv_quote p /\ ve_verdict e = verdict /\
  ve_confidence e = pv_confidence p /\ ec_support_type (ve_candidate e) = pv_support_type p /\
  ve_verifier_version e = version /\ ve_verified_at e = at_ /\ fle01 (ve_confidence e) = true.
Proof.
  unfold verifier_record. cbv zeta. intros Hr.
  apply res_bind_ok_inv in Hr as (start & Hstart & Hr). apply res_bind_ok_inv in Hr as (k0 & Hk0 & Hr).
  apply res_bind_ok_inv in Hr as (k & Hk & Hr). apply res_bind_ok_inv in Hr as (v & Hv & Hr).
  apply EvidenceBuilder_build_inv in Hk0 as (? & _ & ? & ? & Hq & ? & ? & ? & ? & Hexact & Hchunk & ? & ? & ? & ? & ?).
  apply EvidenceCandidate_new_inv in Hk as (-> & ? & ? & ? & ?).
  unfold EvidenceVerifier_record in Hv. apply res_bind_ok_inv in Hv as ([] & _ & Hv).
  apply VerifiedEvidence_new_inv in Hv as (-> & ?). apply VerifiedEvidence_new_inv in Hr as (-> & ?).
  simpl in *. split; [|by ksplit].
  constructor; unfold ve_tenant_id, ve_run_id, ve_fact_requirement_id; simpl; try congruence; try lia.
  - rewrite Hq. unfold chunk_text. rewrite <- Hchunk. apply occurs_substr.
  - by apply elem_of_dedupe, list_elem_of_here.
Qed.
End Records.

(** ** The parser of verdicts *)

Section Parser.
Context `{Unicode} `{PyText} `{JsonText} (items : list SelectedCandidate).

(** What the parser lets through: a quote of a known candidate, with allowed reasons. *)
Definition parsed_ok (p : ProposedVerification) : Prop :=
  exists c, c ∈ items /\ fits c p /\ len (pv_quote p) <= 240 /\ pv_reason_codes p <> [] /\
    NoDup (pv_reason_codes p) /\ pv_reason_codes p ⊆ allowed_reason_codes.

Definition parse_ok (st : ParseState) : Prop :=
  Forall parsed_ok (pa_parsed st) /\ NoDup (map pv_fact_id (pa_parsed st)) /\
  NoDup (map pv_candidate_id (pa_parsed st)) /\
  (forall i, i ∈ map pv_candidate_id (pa_parsed st) -> i ∈ pa_seen st) /\
  (forall f, f ∈ map pv_fact_id (pa_parsed st) -> is_Some (dget f (pa_per_fact st))) /\
  (forall f n, dget f (pa_per_fact st) = Some n -> 1 <= n).

Lemma parse_verdict_ok st raw st' : parse_ok st -> parse_verdict (dict_by sc_id items) st raw = Ok st' -> parse_ok st'.
Proof.
  intros (Hall & Hf & Hc & Hseen & Hcount & Hpos) Hp. unfold parse_verdict in Hp. minv.
  destruct (dget _ _) as [c|] eqn:Hc0; [|done]. apply dict_by_Some in Hc0 as [Hin Hid]. minv.
  case_bool_decide as Hs; minv; [done|]. bools.
  unfold parse_ok. simpl. rewrite !map_app. simpl. ksplit.
  - apply Forall_app_2; [done|]. constructor; [|done]. exists c. unfold fits. simpl. ksplit; try lia.
    + by apply str_in_occurs.
    + apply NoDup_dedupe.
    + intros r Hr. match goal with Hall : forallb _ _ = true |- _ => rewrite forallb_forall in Hall;
        apply list_elem_of_In, Hall in Hr end. by bools.
  - apply NoDup_app. ksplit; [|apply NoDup_singleton]. intros f Hin' ->%list_elem_of_singleton.
    destruct (Hcount _ Hin') as (n & Hn). pose proof (Hpos _ _ Hn). rewrite Hn in *. simpl in *. lia.
  - apply NoDup_app. ksplit; [|apply NoDup_singleton]. intros i Hin' ->%list_elem_of_singleton. by apply Hs, Hseen.
  - intros i [Hi| ->%list_elem_of_singleton]%elem_of_app; [right; by apply Hseen|left].
  - intros f Hfs. destruct (decide (f = a1)) as [->|Hne]; [rewrite dget_dset_eq; by eexists|].
    rewrite dget_dset_ne by done. apply Hcount. set_solver.
  - intros f n. destruct (decide (f = a1)) as [->|Hne]; [|rewrite dget_dset_ne by done; apply Hpos].
    rewrite dget_dset_eq. intros [= <-]. destruct (dget a1 (pa_per_fact st)) eqn:Hn; simpl; [|lia].
    pose proof (Hpos _ _ Hn). lia.
Qed.

Lemma parse_verdicts_raised candidates raws e : foldl (fun st raw => st ← st; parse_verdict candidates st raw) (Raise e) raws = Raise e.
Proof. by induction raws. Qed.

Lemma parse_verdicts_ok raws st st' : parse_ok st -> parse_verdicts (dict_by sc_id items) st raws = Ok st' -> parse_ok st'.
Proof.
  unfold parse_verdicts. simpl. revert st. induction raws as [|raw raws IH]; intros st Hst; simpl; intros Hp; [by simplify_eq|].
  destruct (parse_verdict _ st raw) as [st1|e] eqn:E; [|rewrite parse_verdicts_raised in Hp; done].
  eapply IH; [by eapply parse_verdict_ok|done].
Qed.

Lemma parser_sound text ps : VerificationParser_parse items text = Ok ps ->
  Forall parsed_ok ps /\ NoDup (map pv_fact_id ps) /\ NoDup (map pv_candidate_id ps).
Proof.
  unfold VerificationParser_parse. cbv zeta. intros Hp. minv. destruct a0; minv.
  match goal with Hv : parse_verdicts _ _ _ = Ok _ |- _ => apply parse_verdicts_ok in Hv as (? & ? & ? & _) end; [done|].
  unfold parse_ok. simpl. ksplit; try constructor; set_solver.
Qed.
End Parser.

Lemma sublist_map {A B} (f : A -> B) (l k : list A) : l `sublist_of` k -> map f l `sublist_of` map f k.
Proof. induction 1; simpl; by constructor. Qed.

(** ** The candidates the model judges *)

Section Judged.
Context `{Unicode}.

Lemma model_candidates_inv resolved candidates judged : model_candidates resolved candidates = Ok judged ->
  forall c, c ∈ judged -> c ∈ candidates /\ requires_source_set_absence c = false /\
    is_stale_reviewed_current_candidate c = Ok false /\ sc_fact_id c ∉ resolved.
Proof.
  revert judged. induction candidates as [|c rest IH]; intros judged Hm; simpl in Hm; [minv; set_solver|].
  destruct (bool_decide _ || _) eqn:Eb.
  - intros k Hk. destruct (IH _ Hm k Hk) as (? & ? & ? & ?). ksplit. set_solver.
  - minv. bools. intros k Hk. destruct a.
    + destruct (IH _ E0 k Hk) as (? & ? & ? & ?). ksplit. set_solver.
    + apply elem_of_cons in Hk as [->|Hk]; [ksplit; left|].
      destruct (IH _ E0 k Hk) as (? & ? & ? & ?). ksplit. set_solver.
Qed.

Lemma model_candidates_sublist resolved candidates judged : model_candidates resolved candidates = Ok judged ->
  judged `sublist_of` candidates.
Proof.
  revert judged. induction candidates as [|c rest IH]; intros judged Hm; simpl in Hm; [by minv|].
  destruct (bool_decide _ || _); [by apply sublist_cons, IH|]. minv.
  destruct a; [by apply sublist_cons, IH|by apply sublist_skip, IH].
Qed.
End Judged.

(** ** The batch *)

Section Batch.
Context `{Unicode} `{IpLiterals} `{PyText} `{JsonText}
  (sha256_utf8 : pystr -> pystr) (uuid5 : UUID -> pystr -> UUID) (error_text : exn -> pystr)
  (run_id : UUID) (verified_at : datetime).

Abbreviation record := (verifier_record sha256_utf8 uuid5 run_id verified_at).

(** What an accepted record rests on: a reviewed rule, or a verdict of the model that is admissible. *)
Definition from_rule (c : SelectedCandidate) (e : VerifiedEvidence) : Prop :=
  exists p v, deterministic_proposal c = Ok (Some (p, v)) /\ ve_verifier_version e = u v /\
    ec_quote (ve_candidate e) = pv_quote p.

Definition from_model (c : SelectedCandidate) (e : VerifiedEvidence) : Prop :=
  exists p, fits c p /\ model_proposal_is_semantically_admissible c p = true /\ requires_source_set_absence c = false /\
    is_stale_reviewed_current_candidate c = Ok false /\ len (pv_quote p) <= 240 /\
    pv_reason_codes p ⊆ allowed_reason_codes /\ ec_quote (ve_candidate e) = pv_quote p /\
    ve_confidence e = pv_confidence p.

Definition accepted_for (c : SelectedCandidate) (e : VerifiedEvidence) : Prop :=
  grounded sha256_utf8 run_id c e /\ ve_verdict e = EvidenceVerdict_ACCEPTED /\ (from_rule c e \/ from_model c e).

Definition rejected_for (c : SelectedCandidate) (e : VerifiedEvidence) : Prop :=
  grounded sha256_utf8 run_id c e /\ ve_verdict e = EvidenceVerdict_REJECTED /\ ve_confidence e = fzero /\
  ec_quote (ve_candidate e) = sc_quote c.

Definition is_record_of (candidates : list SelectedCandidate) (P : SelectedCandidate -> VerifiedEvidence -> Prop)
    (e : VerifiedEvidence) : Prop := exists c, c ∈ candidates /\ P c e.

Lemma deterministic_values_inv candidates vs : deterministic_values sha256_utf8 uuid5 run_id verified_at candidates = Ok vs ->
  Forall (is_record_of candidates (fun c e => accepted_for c e /\ from_rule c e)) vs.
Proof.
  revert vs. induction candidates as [|c rest IH]; intros vs Hv; simpl in Hv; minv; [constructor|].
  assert (Hmono : forall l, Forall (is_record_of rest (fun c e => accepted_for c e /\ from_rule c e)) l ->
                  Forall (is_record_of (c :: rest) (fun c e => accepted_for c e /\ from_rule c e)) l).
  { intros l Hl. eapply Forall_impl; [exact Hl|]. intros e (k & ? & ?). exists k. set_solver. }
  destruct a as [[p v]|]; minv; [|by apply Hmono, IH].
  match goal with Hr : verifier_record _ _ _ _ _ _ _ _ = Ok _ |- _ => apply verifier_record_inv in Hr as (? & ? & ? & _ & _ & ? & _) end.
  assert (from_rule c a) by (by exists p, v).
  constructor; [|by apply Hmono, IH]. exists c. split; [left|]. split; [|done]. split; [done|]. split; [done|by left].
Qed.

Lemma model_values_inv judged parsed vs : Forall (parsed_ok judged) parsed ->
  model_values sha256_utf8 uuid5 run_id verified_at (dict_by sc_id judged) parsed = Ok vs ->
  (forall c, c ∈ judged -> requires_source_set_absence c = false /\ is_stale_reviewed_current_candidate c = Ok false) ->
  NoDup (map sc_id judged) -> Forall (is_record_of judged accepted_for) vs.
Proof.
  intros Hall Hv Hj Hnd. revert vs Hv. induction Hall as [|p parsed (c & Hc & Hfit & Hlen & _ & _ & Hr) _ IH];
    intros vs Hv; simpl in Hv; minv; [constructor|].
  destruct Hfit as (Hf & Hid & ? & ? & ?). rewrite Hid, dict_by_unique in Hv by done.
  destruct (model_proposal_is_semantically_admissible c p) eqn:Hadm; [|by apply IH]. minv.
  match goal with Hr : verifier_record _ _ _ _ _ _ _ _ = Ok _ |- _ => apply verifier_record_inv in Hr as (? & ? & ? & ? & _) end.
  constructor; [|by apply IH]. exists c. split; [done|]. split; [done|]. split; [done|]. right.
  destruct (Hj c Hc). exists p. unfold fits. by ksplit.
Qed.

Lemma verification_messages_raise items e : verification_messages items = Raise e -> is_model_failure e = true.
Proof using.
  unfold verification_messages, ModelMessage_new, fail_if. cbv zeta. intros Hm.
  destruct (blank verification_system); simpl in Hm; [by simplify_eq|].
  destruct (blank _); simpl in Hm; by simplify_eq.
Qed.

(** ** The audit *)

Lemma audit_rest_inv version candidates d d' : audit_rest sha256_utf8 uuid5 run_id verified_at version candidates d = Ok d' ->
  forall k e, dget k d' = Some e -> dget k d = Some e \/ is_record_of candidates (fun c e => rejected_for c e /\ sc_id c = k) e.
Proof.
  revert d. induction candidates as [|c rest IH]; intros d Ha k e Hk; simpl in Ha; [minv; by left|].
  destruct (dget (sc_id c) d) as [e0|] eqn:Hd.
  - destruct (IH _ Ha k e Hk) as [|(k0 & ? & ?)]; [by left|]. right. exists k0. set_solver.
  - minv. destruct (IH _ Ha k e Hk) as [Hs|(k0 & ? & ?)]; [|right; exists k0; set_solver].
    destruct (decide (sc_id c = k)) as [<-|Hne]; [|rewrite dget_dset_ne in Hs by done; by left].
    rewrite dget_dset_eq in Hs. simplify_eq. right. exists c. split; [left|]. split; [|done].
    match goal with Hr : verifier_record _ _ _ _ _ _ _ _ = Ok _ |- _ => apply verifier_record_inv in Hr as (? & ? & ? & ? & _) end.
    by ksplit.
Qed.

Lemma by_candidates_inv d candidates es : by_candidates d candidates = Ok es ->
  Forall2 (fun c e => c ∈ candidates /\ dget (sc_id c) d = Some e) candidates es.
Proof.
  revert es. induction candidates as [|c rest IH]; intros es Hb; simpl in Hb; minv; [constructor|].
  destruct (dget _ d) eqn:E; [|done]. minv. constructor; [split; [left|done]|].
  eapply Forall2_impl; [by apply IH|]. intros k e' [? ?]. split; [by right|done].
Qed.

(** What a batch holds for a candidate. *)
Definition audited (c : SelectedCandidate) (e : VerifiedEvidence) : Prop := accepted_for c e \/ rejected_for c e.

Lemma accepted_grounded c e : accepted_for c e -> grounded sha256_utf8 run_id c e.
Proof. by intros [? _]. Qed.

Lemma complete_audit_inv (P : SelectedCandidate -> VerifiedEvidence -> Prop) version candidates accepted es :
  (forall c e, P c e -> grounded sha256_utf8 run_id c e) -> NoDup (map sc_id candidates) ->
  Forall (is_record_of candidates P) accepted ->
  complete_candidate_audit sha256_utf8 uuid5 run_id verified_at version candidates accepted = Ok es ->
  Forall2 (fun c e => P c e \/ rejected_for c e) candidates es.
Proof.
  intros HP Hnd Hacc Hc. unfold complete_candidate_audit in Hc. minv. apply by_candidates_inv in Hc.
  assert (Hsame : forall c c', c ∈ candidates -> c' ∈ candidates -> sc_id c = sc_id c' -> c = c').
  { intros c c' H1' H2' Hid. pose proof (dict_by_unique sc_id _ _ Hnd H1') as D1.
    pose proof (dict_by_unique sc_id _ _ Hnd H2') as D2. rewrite Hid in D1. congruence. }
  eapply Forall2_impl; [exact Hc|]. intros c e [Hin He].
  match goal with Ha : audit_rest _ _ _ _ _ _ _ = Ok _ |- _ =>
    destruct (audit_rest_inv _ _ _ _ Ha _ _ He) as [Hd|(c' & Hin' & Hrej & Hid)] end.
  - apply dict_by_Some in Hd as [Hacc' Hid]. rewrite Forall_forall in Hacc.
    destruct (Hacc _ Hacc') as (c' & Hin' & Ha'). left.
    assert (c' = c) as <-; [|done]. apply Hsame; [done|done|].
    rewrite <- (gr_candidate _ _ _ _ (HP _ _ Ha')). done.
  - right. assert (c' = c) as <- by (by apply Hsame). done.
Qed.

(** ** Candidates that can be recorded *)

(** What the candidate selector hands over. *)
Record selectable (c : SelectedCandidate) : Prop := {
  sel_document : dv_document_id (sc_version c) = sc_document_id c;
  sel_start : 0 <= dk_start_offset (sc_chunk c);
  sel_span : substrZ (dk_start_offset (sc_chunk c)) (dk_end_offset (sc_chunk c)) (dv_text (sc_version c)) = chunk_text c;
  sel_occurs : occurs (sc_quote c) (chunk_text c);
  sel_quote : sc_quote c <> [];
  sel_encodable : encodable (chunk_text c) = true;
  sel_score : fle01 (sc_score c) = true;
  sel_source : is_ok (EvidenceSource_new
    {| es_document_id := sc_document_id c; es_document_version_id := dv_id (sc_version c);
       es_document_chunk_id := sc_chunk_id c; es_url := sc_url c;
       es_source_identity := sc_source_identity c; es_authority := sc_source_authority c |}) = true
}.

Lemma EvidenceBuilder_build_ok c q new_id support start : selectable c -> occurs q (chunk_text c) -> q <> [] ->
  str_index q (chunk_text c) = Ok start ->
  exists k, EvidenceBuilder_build sha256_utf8 new_id (dv_tenant_id (sc_version c)) run_id (sc_fact_id c) (sc_version c)
    (sc_chunk_id c) (sc_chunk c) (sc_document_id c) (sc_url c) (sc_source_identity c) support q start (sc_score c)
    (sc_source_authority c) = Ok k.
Proof.
  intros Hsel Hq Hne Hs. destruct (str_index_occurs _ _ Hq) as (i & Hi & Hpos & Hsub & Hlen).
  assert (start = i) as -> by congruence. destruct Hsel. unfold chunk_text in *.
  assert (0 < len q) by (destruct q; simpl; [done|lia]).
  assert (Hcut : substrZ (dk_start_offset (sc_chunk c) + i) (dk_start_offset (sc_chunk c) + i + len q) (dv_text (sc_version c)) = q).
  { pose proof (substrZ_substrZ (dk_start_offset (sc_chunk c)) (dk_end_offset (sc_chunk c)) i (len q) (dv_text (sc_version c))) as Hss.
    rewrite sel_span0 in Hss. rewrite Hss by lia. exact Hsub. }
  assert (Henc : encodable q = true) by (by eapply occurs_encodable).
  unfold EvidenceBuilder_build. cbv zeta. rewrite Z.eqb_refl, sel_document0, Z.eqb_refl, sel_span0.
  rewrite !bool_decide_eq_true_2 by done. replace (i <? 0) with false by lia. simpl.
  destruct (EvidenceSource_new _) as [s|] eqn:Es; [|done]. simpl. unfold text_digest. rewrite Henc. simpl.
  eexists. apply EvidenceCandidate_new_ok; simpl; try done; lia.
Qed.

Lemma verifier_record_ok version verdict c p : selectable c -> fits c p -> dt_aware verified_at = true ->
  blank version = false -> exists e, verifier_record sha256_utf8 uuid5 run_id verified_at version verdict c p = Ok e.
Proof.
  intros Hsel (_ & _ & Hq & Hne & Hconf) Haw Hver. destruct (str_index_occurs _ _ Hq) as (i & Hi & _).
  unfold verifier_record. unfold chunk_text in Hi. rewrite Hi. cbv zeta. simpl.
  edestruct EvidenceBuilder_build_ok as [k Hk]; [done|exact Hq|done|exact Hi|]. rewrite Hk. simpl.
  apply EvidenceBuilder_build_inv in Hk as Hinv. destruct Hinv as (_ & _ & _ & _ & Hkq & _ & _ & _ & _ & _).
  apply EvidenceBuilder_build_valid in Hk as (? & ? & ? & ?).
  unfold with_candidate_id. rewrite EvidenceCandidate_new_ok; simpl; [|congruence|done..]. simpl.
  unfold EvidenceVerifier_record. rewrite Hver. simpl. rewrite VerifiedEvidence_new_ok by done. simpl.
  unfold with_verified_id. eexists. by apply VerifiedEvidence_new_ok.
Qed.

(** A candidate whose page has no date that does not exist, and from which the rules cut a span. *)
Definition readable (c : SelectedCandidate) : Prop :=
  is_ok (deterministic_proposal c) = true /\ is_ok (is_stale_reviewed_current_candidate c) = true /\
  forall p v, deterministic_proposal c = Ok (Some (p, v)) -> pv_quote p <> [].

Lemma adapter_versions : Forall (fun rule => blank (u rule.2) = false) adapters.
Proof. unfold adapters. repeat constructor. Qed.

Lemma deterministic_values_ok candidates : dt_aware verified_at = true -> Forall selectable candidates ->
  Forall readable candidates -> exists vs, deterministic_values sha256_utf8 uuid5 run_id verified_at candidates = Ok vs.
Proof.
  intros Haw Hsel Hread. induction candidates as [|c rest IH]; [by exists []|].
  apply Forall_cons in Hsel as [Hc Hsel], Hread as [(Hdet & _ & Hspan) Hread]. destruct (IH Hsel Hread) as [vs Hvs].
  simpl. destruct (deterministic_proposal c) as [[[p v]|]|] eqn:Ep; simpl; [|by exists vs|done].
  destruct (first_proposal_Some _ _ _ _ Ep) as (rule & Hin & _ & Hv). pose proof adapter_versions as Hver.
  rewrite Forall_forall in Hver. specialize (Hver _ Hin). rewrite Hv in Hver.
  destruct (verifier_record_ok (u v) EvidenceVerdict_ACCEPTED c p) as [e He];
    [done|eapply deterministic_fits; [apply Hc|apply Hc|done|by eapply Hspan]|done|done|].
  rewrite He. simpl. rewrite Hvs. simpl. by eexists.
Qed.

Lemma model_candidates_ok resolved candidates : Forall readable candidates ->
  exists judged, model_candidates resolved candidates = Ok judged.
Proof using.
  induction 1 as [|c rest (_ & Hs & _) _ [cs IH]]; [by exists []|]. simpl. rewrite IH.
  destruct (bool_decide _ || _); [by exists cs|].
  destruct (is_stale_reviewed_current_candidate c) as [[]|]; simpl; [by eexists..|done].
Qed.

Lemma model_values_ok judged parsed : dt_aware verified_at = true -> Forall selectable judged ->
  NoDup (map sc_id judged) -> Forall (parsed_ok judged) parsed ->
  exists vs, model_values sha256_utf8 uuid5 run_id verified_at (dict_by sc_id judged) parsed = Ok vs.
Proof.
  intros Haw Hsel Hnd. induction 1 as [|p parsed (c & Hc & Hfit & _) _ [vs IH]]; [by exists []|]. simpl.
  pose proof Hfit as (_ & Hid & _). rewrite Hid, dict_by_unique by done.
  destruct (model_proposal_is_semantically_admissible c p); [|by exists vs].
  rewrite Forall_forall in Hsel.
  edestruct verifier_record_ok as [e He]; [by apply Hsel|exact Hfit|done| |rewrite He]; [reflexivity|].
  simpl. rewrite IH. by eexists.
Qed.

Lemma insufficient_fits c : selectable c -> fits c (insufficient_support c).
Proof using. intros []. unfold fits. by ksplit. Qed.

Lemma audit_rest_ok version candidates d : dt_aware verified_at = true -> blank version = false ->
  Forall selectable candidates ->
  exists d', audit_rest sha256_utf8 uuid5 run_id verified_at version candidates d = Ok d' /\
    (forall k, is_Some (dget k d) -> is_Some (dget k d')) /\ (forall c, c ∈ candidates -> is_Some (dget (sc_id c) d')).
Proof.
  intros Haw Hver Hsel. revert d. induction Hsel as [|c rest Hc _ IH]; intros d; [exists d; ksplit; set_solver|]. simpl.
  assert (Hgo : forall d1, (forall k, is_Some (dget k d) -> is_Some (dget k d1)) -> is_Some (dget (sc_id c) d1) ->
    exists d', audit_rest sha256_utf8 uuid5 run_id verified_at version rest d1 = Ok d' /\
      (forall k, is_Some (dget k d) -> is_Some (dget k d')) /\ (forall k, k ∈ c :: rest -> is_Some (dget (sc_id k) d'))).
  { intros d1 Hold Hnew. destruct (IH d1) as (d' & Hd' & Hk & Hr). exists d'. ksplit; [naive_solver|].
    intros k [->|Hin]%elem_of_cons; [by apply Hk|by apply Hr]. }
  destruct (dget (sc_id c) d) as [e|] eqn:Ed; [apply Hgo; [done|by eexists]|].
  destruct (verifier_record_ok version EvidenceVerdict_REJECTED c (insufficient_support c)) as [e He];
    [done|by apply insufficient_fits|done|done|]. rewrite He. simpl. apply Hgo.
  - intros k Hk. destruct (decide (sc_id c = k)) as [<-|Hne]; [rewrite dget_dset_eq; by eexists|by rewrite dget_dset_ne].
  - rewrite dget_dset_eq. by eexists.
Qed.

Lemma complete_audit_ok version candidates accepted : dt_aware verified_at = true -> blank (u version) = false ->
  Forall selectable candidates ->
  exists es, complete_candidate_audit sha256_utf8 uuid5 run_id verified_at version candidates accepted = Ok es.
Proof.
  intros Haw Hver Hsel. unfold complete_candidate_audit.
  destruct (audit_rest_ok (u version) candidates (evidence_by_candidate accepted)) as (d & Hd & _ & Hall); [done..|].
  rewrite Hd. simpl. clear Hd Hsel. induction candidates as [|c rest IH]; [by exists []|]. simpl.
  destruct (Hall c) as [e He]; [left|]. rewrite He. destruct IH as [es Hes]; [|rewrite Hes; by eexists].
  intros k Hk. apply Hall. by right.
Qed.

(** ** What verification comes to *)

(** What a rule establishes for a candidate is on its record. *)
Definition rule_kept (c : SelectedCandidate) (e : VerifiedEvidence) : Prop :=
  forall p v, deterministic_proposal c = Ok (Some (p, v)) ->
    ve_verdict e = EvidenceVerdict_ACCEPTED /\ ve_verifier_version e = u v /\ ec_quote (ve_candidate e) = pv_quote p.

Lemma from_rule_kept c e : accepted_for c e -> from_rule c e -> rule_kept c e.
Proof using. intros (_ & Ha & _) (p & v & Hp & Hv & Hq) p' v' Hp'. rewrite Hp in Hp'. by injection Hp' as <- <-. Qed.

(** The rules' records are complete: each candidate a rule proposes for has one. *)
Lemma deterministic_values_complete candidates vs c p v :
  deterministic_values sha256_utf8 uuid5 run_id verified_at candidates = Ok vs -> c ∈ candidates ->
  deterministic_proposal c = Ok (Some (p, v)) ->
  exists e, e ∈ vs /\ ec_id (ve_candidate e) = sc_id c /\ ve_fact_requirement_id e = sc_fact_id c.
Proof.
  revert vs. induction candidates as [|k rest IH]; intros vs Hv Hin Hp; [set_solver|]. cbn [deterministic_values] in Hv.
  apply res_bind_ok_inv in Hv as (o & Ho & Hv). apply elem_of_cons in Hin as [->|Hin].
  - rewrite Hp in Ho. injection Ho as <-. apply res_bind_ok_inv in Hv as (e & He & Hv).
    apply res_bind_ok_inv in Hv as (vs' & _ & Hv). injection Hv as <-. apply verifier_record_inv in He as (Hg & _).
    exists e. split; [left|]. by destruct Hg.
  - destruct o as [[p' v']|]; [|by apply IH]. apply res_bind_ok_inv in Hv as (e & _ & Hv).
    apply res_bind_ok_inv in Hv as (vs' & Hvs & Hv). injection Hv as <-.
    destruct (IH _ Hvs Hin Hp) as (e' & ? & ? & ?). exists e'. ksplit. by right.
Qed.

Lemma audit_rest_keeps version candidates d d' k e :
  audit_rest sha256_utf8 uuid5 run_id verified_at version candidates d = Ok d' -> dget k d = Some e -> dget k d' = Some e.
Proof using.
  revert d. induction candidates as [|c rest IH]; intros d Ha Hk; cbn [audit_rest] in Ha; [by injection Ha as <-|].
  destruct (dget (sc_id c) d) as [e0|] eqn:Hd; [by eapply IH|].
  apply res_bind_ok_inv in Ha as (r & _ & Ha). eapply IH; [exact Ha|]. rewrite dget_dset_ne; [done|].
  intros <-. congruence.
Qed.

(** An accepted record of a candidate is its record in the audit. *)
Lemma complete_audit_keeps version candidates accepted es :
  complete_candidate_audit sha256_utf8 uuid5 run_id verified_at version candidates accepted = Ok es ->
  Forall2 (fun c e => (exists e', e' ∈ accepted /\ ec_id (ve_candidate e') = sc_id c) ->
    e ∈ accepted /\ ec_id (ve_candidate e) = sc_id c) candidates es.
Proof.
  intros Hc. unfold complete_candidate_audit in Hc. apply res_bind_ok_inv in Hc as (d & Ha & Hb).
  eapply Forall2_impl; [by apply by_candidates_inv|]. intros c e [_ He] (e' & Hin & Hid).
  destruct (dict_by_total (fun e => ec_id (ve_candidate e)) accepted e' Hin) as [e0 He0]. rewrite Hid in He0.
  pose proof (audit_rest_keeps _ _ _ _ _ _ Ha He0) as Hk. rewrite He in Hk. injection Hk as ->.
  by apply dict_by_Some in He0.
Qed.

(** No record of the model replaces one of a rule: the model is not asked about facts the rules settled. *)
Lemma audit_keeps_rules version candidates vs judged ms es : NoDup (map sc_id candidates) ->
  deterministic_values sha256_utf8 uuid5 run_id verified_at candidates = Ok vs ->
  model_candidates (map ve_fact_requirement_id vs) candidates = Ok judged -> Forall (is_record_of judged accepted_for) ms ->
  complete_candidate_audit sha256_utf8 uuid5 run_id verified_at version candidates (vs ++ ms) = Ok es ->
  Forall2 rule_kept candidates es.
Proof.
  intros Hnd Hvs Hj Hms Hc. pose proof (complete_audit_keeps _ _ _ _ Hc) as Hk.
  pose proof (deterministic_values_inv _ _ Hvs) as Hdet. rewrite Forall_forall in Hdet, Hms.
  apply Forall2_same_length_lookup_2; [by eapply Forall2_length|]. intros i c e Hci Hei p v Hp.
  assert (Hin : c ∈ candidates) by (by eapply list_elem_of_lookup_2).
  destruct (deterministic_values_complete _ _ _ _ _ Hvs Hin Hp) as (e0 & He0 & Hid0 & Hf0).
  destruct (Forall2_lookup_lr _ _ _ _ _ _ Hk Hci Hei) as [He Hid]; [exists e0; split; [apply elem_of_app; by left|done]|].
  apply elem_of_app in He as [He|He].
  - destruct (Hdet _ He) as (c' & Hin' & Ha & Hr).
    assert (c' = c) as ->; [|by eapply from_rule_kept].
    pose proof (gr_candidate _ _ _ _ (accepted_grounded _ _ Ha)) as Hg. rewrite Hid in Hg.
    pose proof (dict_by_unique sc_id _ _ Hnd Hin) as D1. pose proof (dict_by_unique sc_id _ _ Hnd Hin') as D2.
    rewrite Hg in D1. congruence.
  - exfalso. destruct (Hms _ He) as (c' & Hin' & Ha). pose proof (accepted_grounded _ _ Ha) as Hg.
    destruct (model_candidates_inv _ _ _ Hj c' Hin') as (Hc' & _ & _ & Hfree). apply Hfree.
    assert (c' = c) as ->.
    { pose proof (gr_candidate _ _ _ _ Hg) as Hg'. rewrite Hid in Hg'.
      pose proof (dict_by_unique sc_id _ _ Hnd Hin) as D1. pose proof (dict_by_unique sc_id _ _ Hnd Hc') as D2.
      rewrite Hg' in D1. congruence. }
    rewrite <- Hf0. apply list_elem_of_In, in_map, list_elem_of_In, He0.
Qed.

(** ** The model's turn *)

Context {S : Type} {gateway : ParsingGateway S}.

(** A returned batch is the audit of the rules' records and of what the model's verdicts gave. *)
Lemma verify_ok_inv candidates x deadline s s' batch : NoDup (map sc_id candidates) -> mx_run_id x = run_id ->
  verify sha256_utf8 uuid5 error_text candidates x deadline verified_at s = (s', Ok batch) ->
  exists version vs judged ms, deterministic_values sha256_utf8 uuid5 run_id verified_at candidates = Ok vs /\
    model_candidates (map ve_fact_requirement_id vs) candidates = Ok judged /\ Forall (is_record_of judged accepted_for) ms /\
    complete_candidate_audit sha256_utf8 uuid5 run_id verified_at version candidates (vs ++ ms) = Ok (vb_evidence batch).
Proof.
  intros Hnd Hrun Hv. unfold verify in Hv. rewrite Hrun in Hv.
  case_bool_decide as Hempty; [minv; destruct candidates; [|done]; by exists "audit"%string, [], [], []|].
  minv. case_bool_decide; [minv; exists "deterministic-audit-v1"%string, a, a0, []; by rewrite app_nil_r|].
  apply try_except_ok_inv in Hv as [Hv|(s1 & e & _ & _ & Hv)]; minv;
    [|by exists "fail-closed-audit-v1"%string, a, a0, []].
  destruct a2 as [parsed|]; minv. match goal with Hm : model_values _ _ _ _ _ _ = Ok ?ms |- _ =>
    exists "deepseek-verifier-v2"%string, a, a0, ms end. split; [done|]. split; [done|]. split; [|done].
  apply pg_parsed in E2 as (text & (Hparsed & _ & _)%parser_sound).
  pose proof (model_candidates_inv _ _ _ E0) as Hjudged. pose proof (model_candidates_sublist _ _ _ E0) as Hsub.
  eapply model_values_inv; [done|done| |].
  - intros c Hc. by destruct (Hjudged c Hc) as (_ & ? & ? & _).
  - eapply sublist_NoDup; [exact Hnd|]. by apply sublist_map.
Qed.

Lemma verified_batch_audited candidates x deadline s s' batch :
  NoDup (map sc_id candidates) -> mx_run_id x = run_id ->
  verify sha256_utf8 uuid5 error_text candidates x deadline verified_at s = (s', Ok batch) ->
  Forall2 audited candidates (vb_evidence batch).
Proof.
  intros Hnd Hrun Hv. apply verify_ok_inv in Hv as (version & vs & judged & ms & Hvs & Hj & Hms & Hc); [|done..].
  eapply complete_audit_inv; [apply accepted_grounded|done| |exact Hc]. apply Forall_app_2.
  - eapply Forall_impl; [by apply deterministic_values_inv|]. intros e (c & ? & ? & _). by exists c.
  - eapply Forall_impl; [exact Hms|]. intros e (c & Hin & ?). exists c. split; [|done].
    by destruct (model_candidates_inv _ _ _ Hj c Hin).
Qed.

Lemma verified_batch_keeps_rules candidates x deadline s s' batch :
  NoDup (map sc_id candidates) -> mx_run_id x = run_id ->
  verify sha256_utf8 uuid5 error_text candidates x deadline verified_at s = (s', Ok batch) ->
  Forall2 rule_kept candidates (vb_evidence batch).
Proof.
  intros Hnd Hrun Hv. apply verify_ok_inv in Hv as (version & vs & judged & ms & Hvs & Hj & Hms & Hc); [|done..].
  by eapply audit_keeps_rules.
Qed.

(** Claim C6. A verified batch holds exactly one record per candidate, in the order of the candidates:
    each is grounded in its own candidate (identifiers, digest, and offsets that cut the quote out of
    the document version), and it is accepted only by a reviewed rule or by an admissible verdict the
    parser let through, and rejected with confidence zero otherwise. *)
Theorem verified_batch_grounded candidates x deadline s s' batch :
  NoDup (map sc_id candidates) -> mx_run_id x = run_id ->
  verify sha256_utf8 uuid5 error_text candidates x deadline verified_at s = (s', Ok batch) ->
  Forall2 audited candidates (vb_evidence batch).
Proof. apply verified_batch_audited. Qed.

Lemma audit_returns version candidates accepted degraded code (s : S) : dt_aware verified_at = true ->
  blank (u version) = false -> Forall selectable candidates ->
  exists s' batch, (lift (complete_candidate_audit sha256_utf8 uuid5 run_id verified_at version candidates accepted) ≫= fun evidence =>
    mret {| vb_evidence := evidence; vb_degraded := degraded; vb_degradation_code := code |}) s = (s', Ok batch).
Proof.
  intros Haw Hver Hsel. destruct (complete_audit_ok version candidates accepted) as [es Hes]; [done..|].
  exists s. eexists. rewrite Hes. reflexivity.
Qed.

(** An exception of a whole verification. *)
Lemma verify_raises candidates x deadline s s' e :
  NoDup (map sc_id candidates) -> mx_run_id x = run_id -> dt_aware verified_at = true ->
  Forall selectable candidates -> Forall readable candidates ->
  verify sha256_utf8 uuid5 error_text candidates x deadline verified_at s = (s', Raise e) ->
  exists judged messages,
    pg_generate ModelRole_VERIFIER messages deadline (verification_parser error_text judged) x s = (s', Raise e) /\ ~ model_error e.
Proof.
  intros Hnd Hrun Haw Hsel Hread. unfold verify. rewrite Hrun. case_bool_decide as Hempty; [done|].
  destruct (deterministic_values_ok candidates) as [vs Hvs]; [done..|]. rewrite Hvs.
  destruct (model_candidates_ok (map ve_fact_requirement_id vs) candidates) as [judged Hj]; [done|].
  rewrite (bind_ok _ _ s s vs) by done. cbv zeta. rewrite (bind_ok _ _ s s judged) by (unfold lift; by rewrite Hj).
  pose proof (model_candidates_sublist _ _ _ Hj) as Hsub.
  assert (Hret : forall version accepted degraded code (s : S), blank (u version) = false -> exists s' batch,
    (lift (complete_candidate_audit sha256_utf8 uuid5 run_id verified_at version candidates accepted) ≫= fun evidence =>
     mret {| vb_evidence := evidence; vb_degraded := degraded; vb_degradation_code := code |}) s = (s', Ok batch))
    by (intros; by apply audit_returns).
  case_bool_decide.
  { destruct (Hret "deterministic-audit-v1"%string vs false None s eq_refl) as (? & ? & ->). done. }
  unfold try_except.
  match goal with |- context [match ?m s with _ => _ end] => destruct (m s) as [s1 [b|e1]] eqn:Ei end; [done|].
  destruct (is_model_failure e1) eqn:Ef.
  { destruct (Hret "fail-closed-audit-v1"%string (vs ++ fail_closed_fallback judged) true (Some (u "model_verifier_fallback")) s1 eq_refl)
      as (? & ? & ->). done. }
  intros [= <- <-]. apply is_model_failure_false in Ef as Hne.
  apply bind_raise_inv in Ei as [Ei|(s2 & msgs & Em & Ei)].
  { injection Ei as _ Em. apply verification_messages_raise in Em. congruence. }
  apply lift_ok_inv in Em as [_ ->].
  apply bind_raise_inv in Ei as [Ei|(s3 & answer & Ea & Ei)]; [by exists judged, msgs|]. exfalso.
  destruct answer as [parsed|]; [|unfold raise in Ei; by injection Ei as _ <-].
  apply pg_parsed in Ea as (text & (Hp & _)%parser_sound).
  destruct (model_values_ok judged parsed) as [ms Hms];
    [done|by eapply forall_sublist|eapply sublist_NoDup; [exact Hnd|by apply sublist_map]|done|].
  rewrite (bind_ok _ _ s3 s3 ms) in Ei by (unfold lift; by rewrite Hms).
  destruct (Hret "deepseek-verifier-v2"%string (vs ++ ms) false None s3 eq_refl) as (? & ? & Hr). by rewrite Hr in Ei.
Qed.

Lemma readable_dec c : {readable c} + {~ readable c}.
Proof using.
  unfold readable. destruct (deterministic_proposal c) as [[[p v]|]|e] eqn:Ep; [| |right; by intros (? & _)].
  - destruct (is_ok (is_stale_reviewed_current_candidate c)) eqn:Es; [|right; by intros (_ & ? & _)].
    destruct (decide (pv_quote p = [])) as [Hq|Hq]; [right; intros (_ & _ & H'); by apply (H' p v)|].
    left. ksplit. by intros p' v' [= <- <-].
  - destruct (is_ok (is_stale_reviewed_current_candidate c)) eqn:Es; [by left; ksplit|right; by intros (_ & ? & _)].
Qed.

(** Claim C7. What comes of a verification, for the candidates a selector hands over, whatever the model
    answers and however its gateway fails. Either a batch: then it has one record per candidate, grounded
    in it, and nothing a rule established is lost: the candidate of every rule's proposal is accepted, with
    the rule's version and quote. Or an exception, and that only for two reasons: a candidate is not
    readable (a rule reads a date that does not exist, or cuts an empty span out of it), or the call of the
    model raised that very exception and it is none that counts as a failure of the model, that is no
    typed, value, type or key error; an integer too large for a float in a verdict is such a case. *)
Theorem verify_total candidates x deadline s :
  NoDup (map sc_id candidates) -> mx_run_id x = run_id -> dt_aware verified_at = true -> Forall selectable candidates ->
  match verify sha256_utf8 uuid5 error_text candidates x deadline verified_at s with
  | (_, Ok batch) =>
      Forall2 (fun c e => audited c e /\ forall p v, deterministic_proposal c = Ok (Some (p, v)) ->
        ve_verdict e = EvidenceVerdict_ACCEPTED /\ ve_verifier_version e = u v /\ ec_quote (ve_candidate e) = pv_quote p)
        candidates (vb_evidence batch)
  | (s', Raise e) =>
      (exists c, c ∈ candidates /\ ~ readable c) \/
      exists judged messages,
        pg_generate ModelRole_VERIFIER messages deadline (verification_parser error_text judged) x s = (s', Raise e) /\
        ~ model_error e
  end.
Proof.
  intros Hnd Hrun Haw Hsel.
  destruct (verify sha256_utf8 uuid5 error_text candidates x deadline verified_at s) as [s' [batch|e]] eqn:Hv.
  - apply Forall2_same_length_lookup_2; [by eapply Forall2_length, verified_batch_audited|]. intros i c r Hc Hr. split.
    + by eapply (Forall2_lookup_lr _ _ _ _ _ _ (verified_batch_audited _ _ _ _ _ _ Hnd Hrun Hv)).
    + by eapply (Forall2_lookup_lr _ _ _ _ _ _ (verified_batch_keeps_rules _ _ _ _ _ _ Hnd Hrun Hv)).
  - destruct (Forall_Exists_dec _ _ (fun c => readable_dec c) candidates) as [Hread|Hnot].
    + right. by eapply verify_raises.
    + left. apply Exists_exists in Hnot as (c & ? & ?). by exists c.
Qed.

(** The audit of what the verdicts gave, and the audit without them. *)
Definition judged_batch (candidates : list SelectedCandidate) (vs : list VerifiedEvidence) (judged : list SelectedCandidate)
    (parsed : list ProposedVerification) : M S VerifiedBatch :=
  accepted ← lift (model_values sha256_utf8 uuid5 run_id verified_at (dict_by sc_id judged) parsed);
  evidence ← lift (complete_candidate_audit sha256_utf8 uuid5 run_id verified_at "deepseek-verifier-v2" candidates (vs ++ accepted));
  mret {| vb_evidence := evidence; vb_degraded := false; vb_degradation_code := None |}.

Definition fallback_batch (candidates : list SelectedCandidate) (vs : list VerifiedEvidence) (judged : list SelectedCandidate)
    : M S VerifiedBatch :=
  evidence ← lift (complete_candidate_audit sha256_utf8 uuid5 run_id verified_at "fail-closed-audit-v1" candidates
                     (vs ++ fail_closed_fallback judged));
  mret {| vb_evidence := evidence; vb_degraded := true; vb_degradation_code := Some (u "model_verifier_fallback") |}.

(** A verification that asks the model, by the outcome of the call. *)
Lemma verify_asks candidates x deadline vs judged messages s s1 answer : mx_run_id x = run_id ->
  deterministic_values sha256_utf8 uuid5 run_id verified_at candidates = Ok vs ->
  model_candidates (map ve_fact_requirement_id vs) candidates = Ok judged -> judged <> [] ->
  verification_messages judged = Ok messages ->
  pg_generate ModelRole_VERIFIER messages deadline (verification_parser error_text judged) x s = (s1, answer) ->
  verify sha256_utf8 uuid5 error_text candidates x deadline verified_at s =
    try_except (fun _ => match answer with
                         | Ok (Some parsed) => judged_batch candidates vs judged parsed s1
                         | Ok None => (s1, Raise (TypeError "Verifier output did not contain parsed verdicts"))
                         | Raise e => (s1, Raise e)
                         end) is_model_failure (fun _ => fallback_batch candidates vs judged) s.
Proof.
  intros Hrun Hvs Hj Hne Hm Hg.
  assert (Hc0 : candidates <> []) by (intros ->; cbn in Hj; by injection Hj as <-).
  unfold verify. rewrite Hrun, bool_decide_eq_false_2 by (by destruct candidates).
  rewrite (bind_ok _ _ s s vs) by (unfold lift; by rewrite Hvs). cbv zeta.
  rewrite (bind_ok _ _ s s judged) by (unfold lift; by rewrite Hj). rewrite bool_decide_eq_false_2 by (by destruct judged).
  unfold try_except. rewrite (bind_ok _ _ s s messages) by (unfold lift; by rewrite Hm).
  unfold mbind at 1, M_bind at 1. rewrite Hg. by destruct answer as [[parsed|]|e].
Qed.

(** The batch says that the model failed, and holds what the rules established and nothing else. *)
Definition closed (candidates : list SelectedCandidate) (batch : VerifiedBatch) : Prop :=
  vb_degraded batch = true /\ vb_degradation_code batch = Some (u "model_verifier_fallback") /\
  Forall2 (fun c e => accepted_for c e /\ from_rule c e \/ rejected_for c e) candidates (vb_evidence batch).

Lemma fallback_batch_closed candidates vs judged s : NoDup (map sc_id candidates) -> dt_aware verified_at = true ->
  Forall selectable candidates -> deterministic_values sha256_utf8 uuid5 run_id verified_at candidates = Ok vs ->
  exists batch, fallback_batch candidates vs judged s = (s, Ok batch) /\ closed candidates batch.
Proof.
  intros Hnd Haw Hsel Hvs. unfold fallback_batch.
  destruct (complete_audit_ok "fail-closed-audit-v1" candidates (vs ++ fail_closed_fallback judged)) as [es Hes]; [done..|].
  eexists. unfold mbind, M_bind, lift. rewrite Hes. split; [reflexivity|]. unfold closed.
  cbn [vb_degraded vb_degradation_code vb_evidence]. ksplit. unfold fail_closed_fallback in Hes. rewrite app_nil_r in Hes.
  eapply (complete_audit_inv (fun c e => accepted_for c e /\ from_rule c e)); [by intros c e' [[? _] _]|done| |exact Hes].
  by apply deterministic_values_inv.
Qed.

(** Claim C8. Verification fails closed. For the candidates a selector hands over, when the rules leave
    candidates to the model: if the call of the model fails (with a typed, value, type or key error, or
    without a parsed answer), the batch says that it is degraded and why, and every record it accepts was
    established by a reviewed rule, every other candidate is rejected. If the call raises anything else,
    that goes to the caller. And if it returns verdicts, the batch is not degraded. *)
Theorem verify_fails_closed candidates x deadline vs judged messages s s1 answer :
  NoDup (map sc_id candidates) -> mx_run_id x = run_id -> dt_aware verified_at = true -> Forall selectable candidates ->
  deterministic_values sha256_utf8 uuid5 run_id verified_at candidates = Ok vs ->
  model_candidates (map ve_fact_requirement_id vs) candidates = Ok judged -> judged <> [] ->
  verification_messages judged = Ok messages ->
  pg_generate ModelRole_VERIFIER messages deadline (verification_parser error_text judged) x s = (s1, answer) ->
  let outcome := verify sha256_utf8 uuid5 error_text candidates x deadline verified_at s in
  (call_failed answer -> exists batch, outcome = (s1, Ok batch) /\ closed candidates batch) /\
  (forall e, answer = Raise e -> ~ model_error e -> outcome = (s1, Raise e)) /\
  (forall parsed, answer = Ok (Some parsed) -> exists batch, outcome = (s1, Ok batch) /\ vb_degraded batch = false).
Proof.
  intros Hnd Hrun Haw Hsel Hvs Hj Hne Hm Hg outcome. subst outcome.
  rewrite (verify_asks _ _ _ _ _ _ _ _ _ Hrun Hvs Hj Hne Hm Hg). unfold try_except. split; [|split].
  - intros Hf. destruct answer as [[parsed|]|e]; [done|by apply fallback_batch_closed|].
    apply is_model_failure_spec in Hf as ->. by apply fallback_batch_closed.
  - intros e -> Hn. by apply is_model_failure_false in Hn as ->.
  - intros parsed ->. pose proof (model_candidates_sublist _ _ _ Hj) as Hsub.
    apply pg_parsed in Hg as (text & (Hp & _)%parser_sound).
    destruct (model_values_ok judged parsed) as [ms Hms];
      [done|by eapply forall_sublist|eapply sublist_NoDup; [exact Hnd|by apply sublist_map]|done|].
    destruct (complete_audit_ok "deepseek-verifier-v2" candidates (vs ++ ms)) as [es Hes]; [done..|].
    eexists. unfold judged_batch, mbind, M_bind, lift. rewrite Hms, Hes. split; reflexivity.
Qed.
End Batch.

(** ** Examples *)

Definition ex_version (t : pystr) : DocumentVersion :=
  {| dv_id := 51; dv_tenant_id := 2; dv_document_id := 50; dv_content_hash := u "h"; dv_text := t;
     dv_media_type := u "text/html"; dv_language := None; dv_fetched_at := utc 0 |}.

(** A candidate whose chunk is its whole document. *)
Definition ex_candidate (id : UUID) (key url : string) (t : pystr) : SelectedCandidate :=
  {| sc_id := id; sc_fact_id := id + 100;
     sc_fact := {| fr_key := u key; fr_fact_type := FactType_BACKGROUND; fr_description := u "d"; fr_subject := u "s";
                   fr_required := true; fr_freshness := Freshness_STABLE; fr_consequence := Consequence_LOW;
                   fr_preferred_source_kinds := [] |};
     sc_document_id := 50; sc_version := ex_version t; sc_chunk_id := 52;
     sc_chunk := {| dk_ordinal := 0; dk_text := t; dk_text_hash := u "h"; dk_token_count := 1;
                    dk_start_offset := 0; dk_end_offset := len t |};
     sc_url := u url; sc_title := u "t"; sc_source_identity := u "a.example";
     sc_source_authority := SourceAuthority_OFFICIAL; sc_quote := t; sc_score := float_of_Z 1 |}.

Definition ex_git := ex_candidate 1 "git_modified" "https://git-scm.com/book/en/v2/Getting-Started-What-is-Git"
  (u ("In Git: Modified means that you have changed the file but have not committed it to your " ++ "database yet. More.")).
Definition ex_capital := ex_candidate 2 "capital" "https://a.example/france" (u "Paris is the capital of France, as ever.").
Definition ex_city := ex_candidate 3 "city" "https://a.example/italy" (u "Rome is old.").
Definition ex_candidates := [ex_git; ex_capital; ex_city].

Definition ex_ids : PyText := {|
  repr_text := fun _ => []; int_of_text := fun t => Ok (@decimal_value ex_unicode t);
  float_of_text := fun _ => Raise (ValueError "could not convert string to float");
  uuid_of_text := fun t => Ok (@decimal_value ex_unicode t);
  datetime_of_text := fun _ => Raise (ValueError "Invalid isoformat string")
|}.

(** A JSON library that reads every text as one value. *)
Definition ex_json (v : json) : JsonText :=
  {| json_loads := fun _ => Ok v; json_dumps := fun _ => u "{}"; isoformat := fun _ => u "now" |}.

Definition ex_verdicts : json := JObj [(u "verdicts", JList [JObj
  [(u "candidate_id", JInt 2); (u "fact_id", JInt 102); (u "quote", JStr (u "Paris is the capital of France"));
   (u "confidence", JInt 1); (u "reason_codes", JList [JStr (u "direct_support")]);
   (u "support_type", JStr (u "SUPPORTS"))]])].

Definition ex_context : ModelInvocationContext :=
  {| mx_tenant_id := 2; mx_run_id := 9; mx_step_id := 4; mx_step_key := u "verify"; mx_attempt_id := 5;
     mx_attempt_no := 1; mx_input_refs := [] |}.

(** The digests and identifiers of the examples: the text itself, and the sum of its characters. *)
Definition ex_uuid5 (n : UUID) (t : pystr) : UUID := n + sumZ id t.

Definition ex_verify (answer : json) : unit * res VerifiedBatch :=
  @verify ex_unicode ex_ip ex_ids (ex_json answer) id ex_uuid5 (fun _ => u "error") unit (scripted_gateway [])
    ex_candidates ex_context (utc 5) (utc 7) tt.

(** The rule accepts the first candidate, the model's verdict the second, and the third is rejected. *)
Example verified_example :
  map (fun e => (ec_id (ve_candidate e), ve_verdict e, ve_verifier_version e, ec_start_offset (ve_candidate e)))
    <$> (vb_evidence <$> snd (ex_verify ex_verdicts))
  = Ok [(1, EvidenceVerdict_ACCEPTED, u "deterministic-git-state-v1", 8);
        (2, EvidenceVerdict_ACCEPTED, u "deepseek-verifier-v2", 0);
        (3, EvidenceVerdict_REJECTED, u "deepseek-verifier-v2", 0)].
Proof. by vm_compute. Qed.

Lemma verified_batch_grounded_witness : NoDup (map sc_id ex_candidates) /\ exists batch,
  ex_verify ex_verdicts = (tt, Ok batch) /\ Forall2 (@audited ex_unicode id 9) ex_candidates (vb_evidence batch).
Proof.
  assert (Hnd : NoDup (map sc_id ex_candidates)) by (apply (bool_decide_unpack _); vm_compute; done).
  assert (Hv : exists batch, ex_verify ex_verdicts = (tt, Ok batch)) by (eexists; vm_compute; reflexivity).
  split; [exact Hnd|]. destruct Hv as [batch Hb]. exists batch. split; [exact Hb|].
  exact (verified_batch_grounded _ _ _ _ _ _ _ _ _ _ _ Hnd eq_refl Hb).
Defined.

(** An answer that is no JSON text. *)
Definition ex_no_json : JsonText :=
  {| json_loads := fun _ => Raise (ValueError "Expecting value"); json_dumps := fun _ => u "{}"; isoformat := fun _ => u "now" |}.

Definition ex_verify_broken : unit * res VerifiedBatch :=
  @verify ex_unicode ex_ip ex_ids ex_no_json id ex_uuid5 (fun _ => u "error") unit (scripted_gateway [])
    ex_candidates ex_context (utc 5) (utc 7) tt.

Lemma ex_selectable : Forall (@selectable ex_unicode ex_ip) ex_candidates.
Proof. repeat constructor; try (vm_compute; done); apply occurs_refl. Qed.

(** The answer is no JSON: the first candidate keeps what its rule established. *)
Lemma verify_total_witness : exists s' batch, ex_verify_broken = (s', Ok batch) /\ length (vb_evidence batch) = 3%nat /\
  Forall2 (fun c e => @audited ex_unicode id 9 c e /\ forall p v, @deterministic_proposal ex_unicode c = Ok (Some (p, v)) ->
    ve_verdict e = EvidenceVerdict_ACCEPTED /\ ve_verifier_version e = u v /\ ec_quote (ve_candidate e) = pv_quote p)
    ex_candidates (vb_evidence batch).
Proof.
  assert (Hnd : NoDup (map sc_id ex_candidates)) by (apply (bool_decide_unpack _); vm_compute; done).
  assert (Hv : exists batch, ex_verify_broken = (tt, Ok batch)) by (eexists; vm_compute; reflexivity).
  destruct Hv as [batch Hb]. exists tt, batch. split; [exact Hb|].
  pose proof (@verify_total ex_unicode ex_ip ex_ids ex_no_json id ex_uuid5 (fun _ => u "error") 9 (utc 7) unit (scripted_gateway [])
    ex_candidates ex_context (utc 5) tt Hnd eq_refl eq_refl ex_selectable) as H.
  unfold ex_verify_broken in Hb. rewrite Hb in H. split; [symmetry; exact (Forall2_length _ _ _ H)|exact H].
Defined.

Lemma verify_fails_closed_witness : exists batch, ex_verify_broken = (tt, Ok batch) /\ vb_degraded batch = true /\
  vb_degradation_code batch = Some (u "model_verifier_fallback").
Proof.
  assert (Hnd : NoDup (map sc_id ex_candidates)) by (apply (bool_decide_unpack _); vm_compute; done).
  destruct (@deterministic_values ex_unicode ex_ip id ex_uuid5 9 (utc 7) ex_candidates) as [vs|] eqn:Hvs;
    [|exfalso; revert Hvs; vm_compute; discriminate].
  destruct (@model_candidates ex_unicode (map ve_fact_requirement_id vs) ex_candidates) as [judged|] eqn:Hj;
    [|exfalso; revert Hvs Hj; vm_compute; intros [= <-]; discriminate].
  assert (Hne : judged <> []) by (revert Hvs Hj; vm_compute; intros [= <-] [= <-]; discriminate).
  destruct (@verification_messages ex_no_json judged) as [messages|] eqn:Hm;
    [|exfalso; revert Hvs Hj Hm; vm_compute; intros [= <-] [= <-]; discriminate].
  destruct (@verify_fails_closed ex_unicode ex_ip ex_ids ex_no_json id ex_uuid5 (fun _ => u "error") 9 (utc 7) unit (scripted_gateway [])
    ex_candidates ex_context (utc 5) vs judged messages tt tt (Raise (ValueError "Expecting value"))
    Hnd eq_refl eq_refl ex_selectable Hvs Hj Hne Hm eq_refl) as (Hf & _ & _).
  destruct Hf as (batch & Hb & Hd & Hc & _); [right; exists "Expecting value"%string; left; reflexivity|].
  exists batch. split; [exact Hb|]. split; [exact Hd|exact Hc].
Defined.
