(* ===== verification/EvidenceFacts.v ===== *)
(** * EvidenceFacts: stored evidence, what the rules trust, and where they go wrong

    The stored form of a record reads back as the record, the rules accept only what was reviewed, and
    three inputs on which the rules and the parser do not do what the code around them expects. *)

From Stdlib Require Import SpecFloat String.
From S2P Require Import Prelude Errors PyTime PyData PyStr PyUrl Regex Coverage Chunker.
From S2P Require Import Evidence EvidenceRules ModelGateway Verifier VerifierBatch.

(** ** Stored evidence *)

Section Stored.
Context `{Unicode} `{IpLiterals} `{PyText} `{JsonText} (sha256_utf8 : pystr -> pystr).

(** The texts of the identifiers and of the time read back. *)
Definition texts_read_back (e : VerifiedEvidence) : Prop :=
  let c := ve_candidate e in let s := ec_source c in
  Forall (fun i => uuid_of_text (str_of_uuid i) = Ok i)
    [ec_id c; ve_id e; ec_fact_requirement_id c; es_document_id s; es_document_version_id s; es_document_chunk_id s] /\
  datetime_of_text (isoformat (ve_verified_at e)) = Ok (ve_verified_at e).

(** A value its constructors accept as it is. *)
Definition evidence_value (e : VerifiedEvidence) : Prop :=
  EvidenceSource_new (ec_source (ve_candidate e)) = Ok (ec_source (ve_candidate e)) /\
  EvidenceCandidate_new sha256_utf8 (ve_candidate e) = Ok (ve_candidate e) /\
  VerifiedEvidence_new e = Ok e /\ ve_level e = EvidenceLevel_L1_GROUNDED.

(** Fields that are read as texts, and members of the enums. *)
Lemma authority_of_value a : enum_of SourceAuthority_value all_authorities (SourceAuthority_value a) = Ok a.
Proof. by destruct a. Qed.
Lemma support_of_value s : enum_of SupportType_value all_supports (SupportType_value s) = Ok s.
Proof. by destruct s. Qed.
Lemma verdict_of_value v : enum_of EvidenceVerdict_value all_verdicts (EvidenceVerdict_value v) = Ok v.
Proof. by destruct v. Qed.

Lemma uuid_field v key i : uuid_of_text (str_of_uuid i) = Ok i -> subscript v key = Ok (JStr (str_of_uuid i)) ->
  uuid_at v key = Ok i.
Proof. unfold uuid_at. by intros ? ->. Qed.

Lemma text_field v key s : subscript v key = Ok (JStr s) -> str_at v key = Ok s.
Proof. unfold str_at. by intros ->. Qed.

Lemma int_field v key n : subscript v key = Ok (JInt n) -> int_at v key = Ok n.
Proof. unfold int_at. by intros ->. Qed.

Lemma float_field v key x : subscript v key = Ok (JFloat x) -> float_at v key = Ok x.
Proof. unfold float_at. by intros ->. Qed.

Lemma to_str_JStr (l : list pystr) : map to_str (map JStr l) = l.
Proof. rewrite map_map. apply map_id. Qed.

(** The stored form of a grounded record reads back as the same record. *)
Theorem evidence_payload_roundtrip e : evidence_value e -> texts_read_back e ->
  evidence_from_payload sha256_utf8 (ve_tenant_id e) (ve_run_id e) (evidence_to_payload e) = Ok e.
Proof.
  intros (Hs & Hc & Hv & Hl) [Hids Hat]. cbv zeta in *. rewrite !Forall_cons in Hids.
  destruct Hids as (Hci & Hvi & Hfact & Hdoc & Hver & Hchunk & _).
  set (p := evidence_to_payload e). unfold evidence_from_payload.
  rewrite (uuid_field p "document_id" _ Hdoc eq_refl), (uuid_field p "document_version_id" _ Hver eq_refl),
    (uuid_field p "document_chunk_id" _ Hchunk eq_refl), (text_field p "url" (es_url (ec_source (ve_candidate e))) eq_refl),
    (text_field p "source_identity" (es_source_identity (ec_source (ve_candidate e))) eq_refl),
    (text_field p "source_authority" (SourceAuthority_value (es_authority (ec_source (ve_candidate e)))) eq_refl).
  cbn [mbind res_bind]. rewrite authority_of_value. cbn [mbind res_bind].
  replace (Build_EvidenceSource _ _ _ _ _ _) with (ec_source (ve_candidate e)) by (by destruct (ec_source (ve_candidate e))).
  rewrite Hs. cbn [mbind res_bind].
  rewrite (uuid_field p "candidate_id" _ Hci eq_refl), (uuid_field p "fact_id" _ Hfact eq_refl),
    (text_field p "quote" (ec_quote (ve_candidate e)) eq_refl),
    (text_field p "quote_hash" (ec_quote_hash (ve_candidate e)) eq_refl),
    (text_field p "support_type" (SupportType_value (ec_support_type (ve_candidate e))) eq_refl),
    (float_field p "candidate_score" (ec_candidate_score (ve_candidate e)) eq_refl),
    (int_field p "start_offset" (ec_start_offset (ve_candidate e)) eq_refl),
    (int_field p "end_offset" (ec_end_offset (ve_candidate e)) eq_refl).
  cbn [mbind res_bind]. rewrite support_of_value. cbn [mbind res_bind].
  replace (Build_EvidenceCandidate _ _ _ _ _ _ _ _ _ _ _) with (ve_candidate e)
    by (unfold ve_tenant_id, ve_run_id; by destruct (ve_candidate e)).
  rewrite Hc. cbn [mbind res_bind].
  rewrite (uuid_field p "verified_id" _ Hvi eq_refl), (text_field p "verdict" (EvidenceVerdict_value (ve_verdict e)) eq_refl),
    (float_field p "confidence" (ve_confidence e) eq_refl),
    (text_field p "verifier_version" (ve_verifier_version e) eq_refl).
  cbn [mbind res_bind]. rewrite verdict_of_value. cbn [mbind res_bind].
  unfold datetime_at. change (subscript p "reason_codes") with (Ok (JList (map JStr (ve_reason_codes e)))).
  change (subscript p "verified_at") with (Ok (JStr (isoformat (ve_verified_at e)))).
  cbn [mbind res_bind items to_str]. rewrite Hat, to_str_JStr. cbn [mbind res_bind].
  replace (Build_VerifiedEvidence _ _ _ _ _ _ _ _) with e by (destruct e; simpl in *; congruence).
  exact Hv.
Qed.
End Stored.

Lemma evidence_payload_roundtrip_witness :
  let e := ex_evidence 11 2 "a.example" SourceAuthority_INDEPENDENT SupportType_SUPPORTS in
  let texts : PyText := {| repr_text := fun _ => []; int_of_text := fun _ => Ok 0; float_of_text := fun _ => Ok fzero;
    uuid_of_text := fun t => if bool_decide (t = str_of_uuid 1) then Ok 1 else if bool_decide (t = str_of_uuid 7) then Ok 7 else Ok 11;
    datetime_of_text := fun _ => Ok (utc 0) |} in
  @evidence_from_payload ex_unicode ex_ip texts (fun _ => u "h") 2 1 (@evidence_to_payload (ex_json JNull) e) = Ok e.
Proof.
  intros e texts. apply (evidence_payload_roundtrip (fun _ => u "h") e).
  - repeat split; vm_compute; reflexivity.
  - split; [repeat constructor; vm_compute; reflexivity|reflexivity].
Defined.

(** ** What the rules trust *)

Section Reviewed.
Context `{Unicode}.

(** A source that was reviewed: an official page, the definitions of one vendor, or the one community
    table the rules read. *)
Definition reviewed (c : SelectedCandidate) : Prop :=
  sc_source_authority c = SourceAuthority_OFFICIAL \/ sc_source_identity c = u "ibm.com" \/
  reviewed_source c = apex_ranked /\ sc_source_authority c = SourceAuthority_INDEPENDENT.

Lemma not_official c : ~ reviewed c -> is_official c = false.
Proof. intros Hr. apply bool_decide_eq_false. intros Ho. apply Hr. by left. Qed.

Lemma unreviewed_ibm c : ~ reviewed c -> bool_decide (sc_source_identity c = u "ibm.com") = false.
Proof. intros Hr. apply bool_decide_eq_false. intros Ho. apply Hr. by right; left. Qed.

Lemma unreviewed_apex c : ~ reviewed c -> apex_pattern c = None.
Proof.
  intros Hr. unfold apex_pattern. rewrite (not_official c Hr). cbv zeta.
  destruct (bool_decide (reviewed_source c = apex_ranked)) eqn:Ea; [|done].
  rewrite (bool_decide_eq_false_2 (sc_source_authority c = _)); [done|]. intros Hi. apply Hr. right; right. by bools.
Qed.

Lemma unreviewed_title c : is_official c = false -> deterministic_rfc_protocol_title c = None.
Proof.
  intros Eo. destruct (deterministic_rfc_protocol_title c) eqn:Et; [|done].
  unfold deterministic_rfc_protocol_title in Et. rewrite Eo in Et.
  apply bind_Some in Et as (? & _ & Et). by apply bind_Some in Et as (? & _ & Et).
Qed.

Lemma adapters_reviewed c : ~ reviewed c -> Forall (fun rule => forall p, rule.1 c <> Ok (Some p)) adapters.
Proof.
  intros Hr. pose proof (not_official _ Hr) as Eo. pose proof (unreviewed_ibm _ Hr) as Ei.
  assert (Hnone : forall (o : option ProposedVerification), o = None -> forall p, Ok o <> Ok (Some p)) by naive_solver.
  unfold adapters. repeat apply Forall_cons_2; try apply Forall_nil_2; cbn [fst].
  9: { intros p. unfold deterministic_reviewed_release. by rewrite Eo. }
  9: { intros p. unfold deterministic_apex_reviewed_fact. rewrite (unreviewed_apex _ Hr).
       destruct (apex_page_stale c) as [[]|]; simpl; naive_solver. }
  all: apply Hnone.
  15: by apply unreviewed_title.
  1: unfold deterministic_dns_registry. 2: unfold deterministic_python_origin. 3: unfold deterministic_json_literals.
  4: unfold deterministic_http_created_no_content. 5: unfold deterministic_acid_property.
  6: unfold deterministic_cap_theorem. 7: unfold deterministic_sqlite_licensing. 8: unfold deterministic_deepseek_pricing.
  9: unfold deterministic_postgresql_support. 10: unfold deterministic_git_file_state.
  11: unfold deterministic_git_object_model. 12: unfold deterministic_registry_boolean.
  13: unfold deterministic_registry_media_type. 14: unfold deterministic_sha_digest_size.
  15: unfold deterministic_rfc3339_utc. 16: unfold deterministic_postgresql_isolation.
  17: unfold deterministic_explicit_terms. 18: unfold deterministic_explicit_value.
  all: rewrite ?Eo, ?Ei; reflexivity || by rewrite orb_true_r.
Qed.

(** The rules accept evidence without a model only from a source that was reviewed: an official
    page, the vendor page with the ACID and CAP definitions, or the one independent table. *)
Theorem rules_need_review c p v : deterministic_proposal c = Ok (Some (p, v)) -> reviewed c.
Proof.
  intros (rule & Hin & Hp & _)%first_proposal_Some.
  assert (Hdec : Decision (reviewed c)) by (unfold reviewed; apply _).
  destruct Hdec as [|Hr]; [done|]. pose proof (adapters_reviewed c Hr) as Hall. rewrite Forall_forall in Hall.
  by destruct (Hall _ Hin p).
Qed.
End Reviewed.

Lemma rules_need_review_witness : @reviewed ex_git.
Proof.
  assert (Hp : exists p v, @deterministic_proposal ex_unicode ex_git = Ok (Some (p, v))) by (eexists _, _; vm_compute; reflexivity).
  destruct Hp as (p & v & Hp). exact (@rules_need_review ex_unicode _ _ _ Hp).
Defined.

(** ** Where they go wrong *)

(** A page of the current season whose first date does not exist: reading it raises outside the block
    that turns failures into rejections, so no record of the batch survives. *)
Definition ex_impossible : SelectedCandidate :=
  ex_candidate 1 "current_release" "https://www.ea.com/games/apex-legends/apex-legends/news/overclocked-midseason-patch-notes"
    (u "Updated February 31, 2024. Welcome back to the arena!").

Lemma impossible_date_escapes :
  snd (@verify ex_unicode ex_ip ex_ids (ex_json ex_verdicts) id ex_uuid5 (fun _ => u "error") unit (scripted_gateway [])
    [ex_impossible; ex_city] ex_context (utc 5) (utc 7) tt) = Raise (ValueError "day is out of range for month").
Proof. by vm_compute. Qed.

(** A confidence that is an integer no float can hold: the parser, the repair and the fallback all
    catch the errors of a bad answer, and not this one. *)
Definition ex_huge_confidence : json := JObj [(u "verdicts", JList [JObj
  [(u "candidate_id", JInt 2); (u "fact_id", JInt 102); (u "quote", JStr (u "Paris is the capital of France"));
   (u "confidence", JInt (10 ^ 400)); (u "reason_codes", JList [JStr (u "direct_support")]);
   (u "support_type", JStr (u "SUPPORTS"))]])].

Lemma huge_confidence_escapes : snd (ex_verify ex_huge_confidence) = Raise (OverflowError "int too large to convert to float").
Proof. by vm_compute. Qed.

(** Folding the case of a ligature makes two letters of it. The terms of a fact are looked for in the
    folded quote and cut out of the unfolded one: here the cut is empty, and recording it raises. *)
Definition ex_ligatures : Unicode := {|
  uni_alnum := fun _ => true; uni_alpha := fun _ => true; uni_decimal := fun _ => false; uni_digit := fun _ => 0;
  uni_canon := fun c => c; uni_casefold := fun c => if c =? 64257 then [102; 105] else [c];
  uni_lower := fun t => t; uni_upper := fun t => t; uni_nfkc := fun t => t |}.

Definition ex_folded : SelectedCandidate :=
  let t := repeat 64257 200 ++ u " alpha and beta" in
  {| sc_id := 1; sc_fact_id := 101;
     sc_fact := {| fr_key := u "k"; fr_fact_type := FactType_COMPARISON; fr_description := u "compare both alpha and beta";
                   fr_subject := u "s"; fr_required := true; fr_freshness := Freshness_STABLE;
                   fr_consequence := Consequence_LOW; fr_preferred_source_kinds := [] |};
     sc_document_id := 50; sc_version := ex_version t; sc_chunk_id := 52;
     sc_chunk := {| dk_ordinal := 0; dk_text := t; dk_text_hash := u "h"; dk_token_count := 1;
                    dk_start_offset := 0; dk_end_offset := len t |};
     sc_url := u "https://a.example"; sc_title := u "t"; sc_source_identity := u "a.example";
     sc_source_authority := SourceAuthority_OFFICIAL; sc_quote := t; sc_score := float_of_Z 1 |}.

Lemma folded_terms_misplaced :
  pv_quote <$> (@deterministic_explicit_terms ex_ligatures ex_folded) = Some [] /\ snd (@verify ex_ligatures ex_ip ex_ids (ex_json ex_verdicts) id ex_uuid5 (fun _ => u "error") unit (scripted_gateway [])
    [ex_folded] ex_context (utc 5) (utc 7) tt) = Raise (ValueError "Evidence quote cannot be empty").
Proof. by vm_compute. Qed.
