(* ===== verification/SelectorFacts.v ===== *)
(** * SelectorFacts: what the selection of passages guarantees

    A selected passage is a span of a chunk of a document that was mapped to its fact; the limits
    hold; every fact that has a passage keeps one, an official one when there is one; and it raises only
    at a document whose authority or text does. *)

From Stdlib Require Import SpecFloat String.
From S2P Require Import Prelude Errors PyTime PyData PyStr Regex PyUrl Coverage Intent Chunker Evidence Authority Selector.
From S2P Require Import Verifier VerifierBatch.

(** ** The quoted window *)

Section Window.
Context `{Unicode} `{SetOrder} (s : CandidateSelector).

Lemma best_window_bounds folded maximum size terms anchors positions : 0 <= maximum ->
  0 <= best_window folded maximum size terms anchors positions <= maximum.
Proof.
  intros Hm. unfold best_window.
  assert (Hgen : forall ps b sc, 0 <= b <= maximum -> 0 <= fst (foldl (fun '(best_start, best_score) position =>
      let start := Z.min maximum (Z.max 0 (position - size / 3)) in
      let score := window_score folded start size terms anchors in
      if pystr_ltb best_score score then (start, score) else (best_start, best_score)) (b, sc) ps) <= maximum).
  { induction ps as [|p ps IH]; intros b sc Hb; cbn [foldl]; [done|]. cbv zeta.
    destruct (pystr_ltb _ _); apply IH; lia. }
  apply Hgen. lia.
Qed.

Lemma substrZ_full_length a n (t : pystr) : 0 <= a -> 0 <= n -> a + n <= len t -> len (substrZ a (a + n) t) = n.
Proof. intros. rewrite substrZ_length. lia. Qed.

Lemma quote_window_spec text terms anchors : 1 <= cs_quote_chars s ->
  let quote := quote_window s text terms anchors in
  occurs quote text /\ len quote = Z.min (len text) (cs_quote_chars s).
Proof.
  intros Hq. cbv zeta. unfold quote_window. cbv zeta. destruct (Z.leb_spec (len text) (cs_quote_chars s)).
  { split; [auto with sana|]. lia. }
  destruct (bool_decide _).
  { split; [apply occurs_substr|]. rewrite substrZ_length. lia. }
  split; [apply occurs_substr|].
  pose proof (best_window_bounds (casefold text) (len text - cs_quote_chars s) (cs_quote_chars s) terms anchors
    (flat_map (positions_of (casefold text)) (set_order (if bool_decide (anchors = []) then terms else anchors)))) as Hb.
  rewrite substrZ_full_length; lia.
Qed.
End Window.

(** ** The ranking *)

Lemma authority_rank_cases c : authority_rank c = 0 \/ authority_rank c = 1.
Proof. unfold authority_rank. case_bool_decide; auto. Qed.

Lemma ranks_before_authority a b : (ranks_before a b = true -> authority_rank a <= authority_rank b) /\
  (ranks_before a b = false -> authority_rank b <= authority_rank a).
Proof.
  unfold ranks_before. split.
  - intros [|[? _]%andb_prop]%orb_prop; bools; lia.
  - intros [? _]%orb_false_elim. bools. lia.
Qed.

(** The first of the sorted candidates is official if any is. *)
Lemma sorted_head l c r : py_sorted ranks_before l = c :: r -> Forall (fun x => authority_rank c <= authority_rank x) l.
Proof.
  revert c r. induction l as [|x l IH]; intros c r; [done|]. cbn [py_sorted foldr].
  fold (py_sorted ranks_before l). destruct (py_sorted ranks_before l) as [|y q] eqn:E.
  - pose proof (py_sorted_perm ranks_before l) as P. rewrite E in P. apply Permutation_nil in P as ->.
    intros [= -> _]. by repeat constructor.
  - specialize (IH y q eq_refl). cbn [insert_sorted]. destruct (ranks_before y x) eqn:R; intros [= <- _].
    + constructor; [by apply (proj1 (ranks_before_authority y x))|done].
    + apply (proj2 (ranks_before_authority y x)) in R. constructor; [lia|]. eapply Forall_impl; [exact IH|]. simpl. lia.
Qed.

Lemma by_source_perm seen l : let '(diverse, deferred) := by_source seen l in diverse ++ deferred ≡ₚ l.
Proof.
  revert seen. induction l as [|c l IH]; intros seen; cbn [by_source]; [done|]. case_bool_decide.
  - specialize (IH seen). destruct (by_source seen l) as [d1 d2]. by rewrite <- IH, <- Permutation_middle.
  - specialize (IH (sc_source_identity c :: seen)). destruct (by_source _ l) as [d1 d2]. simpl. by rewrite IH.
Qed.

Section Ranked.
Context (selector : CandidateSelector).

Lemma ranked_sub l c : c ∈ ranked selector l -> c ∈ l.
Proof.
  unfold ranked. pose proof (by_source_perm [] (py_sorted ranks_before l)) as Hp.
  destruct (by_source [] (py_sorted ranks_before l)) as [d1 d2]. intros Hc.
  assert (c ∈ d1 ++ d2) as Hd by (rewrite <- (take_drop (Z.to_nat (cs_per_fact selector)) (d1 ++ d2)); set_solver).
  by rewrite Hp, py_sorted_perm in Hd.
Qed.

Lemma ranked_length l : Z.of_nat (length (ranked selector l)) <= Z.max 0 (cs_per_fact selector).
Proof. unfold ranked. destruct (by_source _ _) as [d1 d2]. rewrite length_take. lia. Qed.

(** A fact with candidates has a first one, official if any of them is. *)
Lemma ranked_first l x : 1 <= cs_per_fact selector -> x ∈ l ->
  exists c, ranked selector l !! 0%nat = Some c /\ c ∈ l /\ authority_rank c <= authority_rank x.
Proof.
  intros Hk Hx. destruct (py_sorted ranks_before l) as [|c r] eqn:E.
  { pose proof (py_sorted_perm ranks_before l) as P. rewrite E in P. apply Permutation_nil in P as ->. set_solver. }
  assert (ranked selector l !! 0%nat = Some c) as Hc.
  { unfold ranked. rewrite E. cbn [by_source]. rewrite bool_decide_false by set_solver.
    destruct (by_source _ r) as [d1 d2]. rewrite lookup_take_lt by lia. done. }
  exists c. ksplit.
  - by apply ranked_sub, (list_elem_of_lookup_2 _ 0%nat).
  - apply sorted_head in E. rewrite Forall_forall in E. auto.
Qed.
End Ranked.

(** ** The rounds *)

Lemma omap_keys {A} (g : UUID * A -> option SelectedCandidate) (facts : list (UUID * A)) :
  (forall kv c, g kv = Some c -> sc_fact_id c = kv.1) -> map sc_fact_id (omap g facts) `sublist_of` map fst facts.
Proof.
  intros Hg. induction facts as [|kv facts IH]; [constructor|]. cbn [omap list_omap map].
  destruct (g kv) as [c|] eqn:E; cbn [map]; [|by constructor]. rewrite (Hg _ _ E). by constructor.
Qed.

Lemma NoDup_once (f : UUID) l : NoDup (map sc_fact_id l) -> (length (base.filter (fun c => sc_fact_id c = f) l) <= 1)%nat.
Proof.
  induction l as [|c l IH]; simpl; [lia|]. intros [Hn Hd]%NoDup_cons. rewrite filter_cons. case_decide as Hc; [|auto].
  assert (base.filter (fun c => sc_fact_id c = f) l = []) as ->; [|simpl; lia].
  destruct (base.filter (fun c => sc_fact_id c = f) l) as [|x r] eqn:E; [done|]. exfalso. apply Hn.
  assert (x ∈ base.filter (fun c => sc_fact_id c = f) l) as Hx by (rewrite E; by left).
  apply list_elem_of_filter in Hx as [Hf Hx]. rewrite Hc, <- Hf. by apply list_elem_of_fmap_2.
Qed.

Lemma filter_flat_map_bound {A B} (p : B -> Prop) `{forall x, Decision (p x)} (g : A -> list B) l :
  (forall x, length (base.filter p (g x)) <= 1)%nat -> (length (base.filter p (flat_map g l)) <= length l)%nat.
Proof.
  intros Hg. induction l as [|x l IH]; simpl; [lia|]. rewrite filter_app, length_app. specialize (Hg x). lia.
Qed.

Lemma filter_take_bound {A} (p : A -> Prop) `{forall x, Decision (p x)} n (l : list A) :
  (length (base.filter p (take n l)) <= length (base.filter p l))%nat.
Proof. rewrite <- (take_drop n l) at 2. rewrite filter_app, length_app. lia. Qed.

Section Rounds.
Context (selector : CandidateSelector) (facts : list (UUID * FactRequirement)) (chosen : UUID -> list SelectedCandidate).
Context (Hkeys : NoDup (map fst facts)) (Hown : forall f, Forall (fun c => sc_fact_id c = f) (chosen f)).

Let rounds := rounds_of selector (map (fun kv : UUID * FactRequirement => chosen kv.1) facts).

Lemma block_omap rank : omap (fun l : list SelectedCandidate => l !! rank) (map (fun kv : UUID * FactRequirement => chosen kv.1) facts)
  = omap (fun kv : UUID * FactRequirement => chosen kv.1 !! rank) facts.
Proof using. clear. induction facts as [|kv r IH]; [done|]. cbn. by rewrite IH. Qed.

Lemma rounds_total : Z.of_nat (length rounds) <= Z.max 0 (cs_total selector).
Proof using. unfold rounds, rounds_of. rewrite length_take. lia. Qed.

Lemma rounds_elem c : c ∈ rounds -> exists f fact, (f, fact) ∈ facts /\ c ∈ chosen f.
Proof using.
  clear Hkeys Hown. unfold rounds, rounds_of. intros Hc.
  match type of Hc with _ ∈ take ?n ?l => assert (c ∈ l) as Hl by (rewrite <- (take_drop n l); set_solver) end.
  apply list_elem_of_In, in_flat_map in Hl as (rank & _ & Hl). apply list_elem_of_In in Hl.
  rewrite block_omap in Hl. apply list_elem_of_omap in Hl as ([f fact] & Hf & Hr). exists f, fact. split; [done|].
  by eapply list_elem_of_lookup_2.
Qed.

Lemma rounds_per_fact f : Z.of_nat (length (base.filter (fun c => sc_fact_id c = f) rounds)) <= Z.max 0 (cs_per_fact selector).
Proof using Hkeys Hown.
  unfold rounds, rounds_of.
  match goal with |- context [take ?n ?l] => pose proof (filter_take_bound (fun c => sc_fact_id c = f) n l) as H1 end.
  match type of H1 with (_ <= length (base.filter ?p (flat_map ?g ?l)))%nat => pose proof (filter_flat_map_bound p g l) as H2 end.
  rewrite length_seq in H2. enough (forall rank, (length (base.filter (fun c => sc_fact_id c = f) (omap (fun l : list SelectedCandidate => l !! rank) (map (fun kv : UUID * FactRequirement => chosen kv.1) facts))) <= 1)%nat) as H3 by (specialize (H2 H3); lia).
  intros rank. apply NoDup_once. rewrite block_omap.
  eapply sublist_NoDup; [exact Hkeys|]. apply omap_keys.
  intros kv c Hc. apply list_elem_of_lookup_2 in Hc. specialize (Hown kv.1). rewrite Forall_forall in Hown. auto.
Qed.

(** When there is room for every fact, the first candidate of each is selected. *)
Lemma rounds_first f fact c : 1 <= cs_per_fact selector -> Z.of_nat (length facts) <= cs_total selector ->
  (f, fact) ∈ facts -> chosen f !! 0%nat = Some c -> c ∈ rounds.
Proof using.
  clear Hkeys Hown.
  intros Hk Hn Hf Hc. unfold rounds, rounds_of. replace (Z.to_nat (cs_per_fact selector)) with (S (Z.to_nat (cs_per_fact selector) - 1)) by lia.
  cbn [seq flat_map]. rewrite block_omap.
  assert (Hlen : (length (omap (fun kv : UUID * FactRequirement => chosen kv.1 !! 0%nat) facts) <= length facts)%nat) by (clear; induction facts as [|kv r IH]; cbn; [lia|]; destruct (chosen kv.1 !! 0%nat); simpl; lia).
  rewrite take_app, take_ge by lia. apply elem_of_app. left. apply list_elem_of_omap. by exists (f, fact).
Qed.
End Rounds.

(** ** The candidates *)

Section Candidates.
Context `{Unicode} `{IpLiterals} `{PublicSuffixes} `{SetOrder}
  (sha256_utf8 : pystr -> pystr) (uuid5 : UUID -> pystr -> UUID)
  (selector : CandidateSelector) (run_id : UUID) (entity : pystr) (facts : list (UUID * FactRequirement)).

(** A chunk that says something about a fact. *)
Definition relevant (fact : FactRequirement) (chunk : DocumentChunk) : Prop :=
  is_Some (chunk_score (dk_text chunk) fact (term_sets entity fact).1 (term_sets entity fact).2).

(** A candidate that quotes a chunk of a document for a fact it was mapped to. *)
Record drawn (d : CandidateDocument) (c : SelectedCandidate) : Prop := {
  dr_fact : dget (sc_fact_id c) facts = Some (sc_fact c);
  dr_mapped : sc_fact_id c ∈ cd_mapped_fact_ids d;
  dr_chunk : (sc_chunk_id c, sc_chunk c) ∈ cd_chunks d;
  dr_relevant : relevant (sc_fact c) (sc_chunk c);
  dr_document : sc_document_id c = cd_document_id d /\ sc_version c = cd_version d /\ sc_url c = cd_url d;
  dr_source : classify (cs_authority selector) (cd_url d) entity = Ok (sc_source_identity c, sc_source_authority c);
  dr_quote : 1 <= cs_quote_chars selector -> occurs (sc_quote c) (dk_text (sc_chunk c)) /\
    len (sc_quote c) = Z.min (len (dk_text (sc_chunk c))) (cs_quote_chars selector)
}.

Lemma chunk_candidates_spec d source fact_id fact chunks cs :
  dget fact_id facts = Some fact -> fact_id ∈ cd_mapped_fact_ids d ->
  classify (cs_authority selector) (cd_url d) entity = Ok source ->
  (forall x, x ∈ chunks -> x ∈ cd_chunks d) ->
  chunk_candidates sha256_utf8 uuid5 selector run_id entity d source fact_id fact chunks = Ok cs ->
  Forall (fun c => drawn d c /\ sc_fact_id c = fact_id) cs /\
  forall id chunk, (id, chunk) ∈ chunks -> relevant fact chunk -> exists c, c ∈ cs /\ sc_source_authority c = source.2.
Proof.
  intros Hf Hm Hs. revert cs. induction chunks as [|[id chunk] chunks IH]; intros cs Hsub E; cbn [chunk_candidates] in E.
  { injection E as <-. split; [constructor|set_solver]. }
  unfold relevant. destruct (term_sets entity fact) as [terms anchors] eqn:Et.
  destruct (chunk_score (dk_text chunk) fact terms anchors) as [score|] eqn:Es.
  - apply res_bind_ok_inv in E as (c & Ec & E). apply res_bind_ok_inv in E as (cs' & E' & E). injection E as <-.
    unfold candidate_of in Ec. cbv zeta in Ec. apply res_bind_ok_inv in Ec as (digest & _ & Ec). injection Ec as <-.
    destruct (IH cs') as [HF Hr]; [set_solver|done|]. split.
    + constructor; [|done]. split; [|done]. constructor; cbn; try done.
      * apply Hsub. by left.
      * unfold relevant. rewrite Et. cbn. by rewrite Es.
      * by destruct source.
      * apply quote_window_spec.
    + intros id' chunk' [Hin|Hin]%elem_of_cons Hrel; [eexists; split; [by left|done]|].
      destruct (Hr id' chunk') as (c & Hc & Ha); [done|unfold relevant; by rewrite Et|]. exists c. split; [by right|done].
  - destruct (IH cs) as [HF Hr]; [set_solver|done|]. split; [done|].
    intros id' chunk' [[= -> ->]|Hin]%elem_of_cons Hrel; [simpl in Hrel; rewrite Es in Hrel; by destruct Hrel|].
    eapply Hr; [done|]. unfold relevant. by rewrite Et.
Qed.

(** The candidates a dictionary holds for a fact. *)
Definition held (by_fact : list (UUID * list SelectedCandidate)) (f : UUID) : list SelectedCandidate :=
  default [] (dget f by_fact).

Lemma held_dset by_fact f l g : held (dset f l by_fact) g = if decide (g = f) then l else held by_fact g.
Proof. unfold held. case_decide; subst; [by rewrite dget_dset_eq|by rewrite dget_dset_ne]. Qed.

Lemma fact_candidates_spec d source ids by_fact by_fact' :
  classify (cs_authority selector) (cd_url d) entity = Ok source -> (forall f, f ∈ ids -> f ∈ cd_mapped_fact_ids d) ->
  fact_candidates sha256_utf8 uuid5 selector run_id entity facts d source ids by_fact = Ok by_fact' ->
  (forall f c, c ∈ held by_fact f -> c ∈ held by_fact' f) /\
  (forall f c, c ∈ held by_fact' f -> c ∈ held by_fact f \/ (drawn d c /\ sc_fact_id c = f)) /\
  (forall f fact id chunk, f ∈ ids -> dget f facts = Some fact -> (id, chunk) ∈ cd_chunks d -> relevant fact chunk ->
     exists c, c ∈ held by_fact' f /\ sc_source_authority c = source.2).
Proof.
  intros Hs. revert by_fact. induction ids as [|f ids IH]; intros by_fact Hsub E; cbn [fact_candidates] in E.
  { injection E as <-. ksplit; [by left|set_solver]. }
  destruct (dget f facts) as [fact|] eqn:Ef.
  - apply res_bind_ok_inv in E as (cs & Ec & E).
    destruct (chunk_candidates_spec d source f fact (cd_chunks d) cs) as [HF Hr]; [done|apply Hsub; by left|done..|].
    apply IH in E as (I1 & I2 & I3); [|set_solver]. clear IH. rewrite Forall_forall in HF.
    assert (J : forall g c, c ∈ held (dset f (held by_fact f ++ cs) by_fact) g <-> c ∈ held by_fact g \/ (g = f /\ c ∈ cs)).
    { intros g c. rewrite held_dset. case_decide; subst; [rewrite elem_of_app|]; naive_solver. }
    ksplit.
    + intros g c Hc. apply I1, J. by left.
    + intros g c Hc. apply I2 in Hc as [[Hc|[-> Hc]]%J|Hc]; auto.
    + intros g fact' id chunk Hg Hf' Hin Hrel. destruct (decide (g = f)) as [->|Hne]; [|eapply I3; set_solver].
      rewrite Ef in Hf'. injection Hf' as <-. destruct (Hr id chunk Hin Hrel) as (c & Hc & Ha). exists c.
      split; [|done]. apply I1, J. by right.
  - apply IH in E as (I1 & I2 & I3); [|set_solver]. ksplit. intros g fact' id chunk Hg Hf' Hin Hrel.
    eapply I3; try done. apply elem_of_cons in Hg as [->|Hg]; [congruence|done].
Qed.

Lemma document_candidates_spec documents by_fact by_fact' :
  document_candidates sha256_utf8 uuid5 selector run_id entity facts documents by_fact = Ok by_fact' ->
  (forall f c, c ∈ held by_fact f -> c ∈ held by_fact' f) /\
  (forall f c, c ∈ held by_fact' f -> c ∈ held by_fact f \/ (sc_fact_id c = f /\ exists d, d ∈ documents /\ drawn d c)) /\
  (forall d f fact id chunk, d ∈ documents -> f ∈ cd_mapped_fact_ids d -> dget f facts = Some fact ->
     (id, chunk) ∈ cd_chunks d -> relevant fact chunk -> exists c source, c ∈ held by_fact' f /\
     classify (cs_authority selector) (cd_url d) entity = Ok source /\ sc_source_authority c = source.2).
Proof.
  revert by_fact. induction documents as [|d documents IH]; intros by_fact E; cbn [document_candidates] in E.
  { injection E as <-. ksplit; [by left|set_solver]. }
  apply res_bind_ok_inv in E as (source & Es & E). apply res_bind_ok_inv in E as (mid & Em & E).
  destruct (fact_candidates_spec d source (cd_mapped_fact_ids d) by_fact mid) as (A1 & A2 & A3); [done..|].
  apply IH in E as (I1 & I2 & I3). clear IH. ksplit.
  - auto.
  - intros f c Hc. apply I2 in Hc as [Hc|(? & d' & Hd & Hdr)]; [|right; split; [done|]; exists d'; split; [by right|done]].
    apply A2 in Hc as [Hc|[Hc Hf]]; [by left|]. right. split; [done|]. exists d. split; [by left|done].
  - intros d' f fact id chunk [->|Hd]%elem_of_cons Hm Hf Hin Hrel; [|by eapply I3].
    destruct (A3 f fact id chunk) as (c & Hc & Ha); [done..|]. exists c, source. auto.
Qed.

Lemma held_start f : held (map (fun kv => (kv.1, [])) facts) f = [].
Proof.
  unfold held. induction facts as [|[g fact] r IH]; [done|]. cbn. by case_decide.
Qed.

(** ** The selection *)

Abbreviation selected documents := (select sha256_utf8 uuid5 selector run_id entity facts documents).

Lemma select_inv documents cs : selected documents = Ok cs -> exists by_fact,
  document_candidates sha256_utf8 uuid5 selector run_id entity facts documents (map (fun kv => (kv.1, [])) facts) = Ok by_fact /\
  cs = rounds_of selector (map (fun kv : UUID * FactRequirement => ranked selector (held by_fact kv.1)) facts) /\
  (forall f, Forall (fun c => sc_fact_id c = f) (ranked selector (held by_fact f))) /\
  (forall f c, c ∈ held by_fact f -> exists d, d ∈ documents /\ drawn d c).
Proof.
  intros E. apply res_bind_ok_inv in E as (by_fact & Eb & E). injection E as <-.
  destruct (document_candidates_spec _ _ _ Eb) as (_ & I2 & _). exists by_fact. ksplit.
  - intros f. apply Forall_forall. intros c Hc%ranked_sub. apply I2 in Hc as [Hc|[Hc _]]; [|done].
    rewrite held_start in Hc. set_solver.
  - intros f c [Hc|[_ Hd]]%I2; [|done]. rewrite held_start in Hc. set_solver.
Qed.

Lemma selection_sound documents cs : NoDup (map fst facts) -> 1 <= cs_per_fact selector -> 1 <= cs_total selector ->
  selected documents = Ok cs ->
  Z.of_nat (length cs) <= cs_total selector /\
  (forall f, Z.of_nat (length (base.filter (fun c => sc_fact_id c = f) cs)) <= cs_per_fact selector) /\
  Forall (fun c => exists d, d ∈ documents /\ drawn d c) cs.
Proof.
  intros Hk Hp Ht (by_fact & _ & -> & Hown & Hd)%select_inv. ksplit.
  - pose proof (rounds_total selector facts (fun f => ranked selector (held by_fact f))). lia.
  - intros f. pose proof (rounds_per_fact selector facts (fun f => ranked selector (held by_fact f)) Hk Hown f). lia.
  - apply Forall_forall. intros c Hc.
    apply (rounds_elem selector facts (fun f => ranked selector (held by_fact f))) in Hc as (f & fact & _ & Hc).
    apply ranked_sub in Hc. eauto.
Qed.

(** A document on which the selection stops with [e]: the authority of its page cannot be decided, or one of
    its chunks is no text that can be encoded. *)
Definition refused (e : exn) (d : CandidateDocument) : Prop :=
  classify (cs_authority selector) (cd_url d) entity = Raise e \/
  e = ValueError "surrogates not allowed" /\ exists id chunk, (id, chunk) ∈ cd_chunks d /\ encodable (dk_text chunk) = false.

Lemma chunk_candidates_raise d source f fact chunks e : 1 <= cs_quote_chars selector ->
  chunk_candidates sha256_utf8 uuid5 selector run_id entity d source f fact chunks = Raise e ->
  e = ValueError "surrogates not allowed" /\ exists id chunk, (id, chunk) ∈ chunks /\ encodable (dk_text chunk) = false.
Proof.
  intros Hq. induction chunks as [|[id chunk] chunks IH]; intros E; cbn [chunk_candidates] in E; [done|].
  assert (Hrest : chunk_candidates sha256_utf8 uuid5 selector run_id entity d source f fact chunks = Raise e ->
    e = ValueError "surrogates not allowed" /\ exists id' chunk', (id', chunk') ∈ (id, chunk) :: chunks /\ encodable (dk_text chunk') = false).
  { intros (He & id' & chunk' & ? & ?)%IH. split; [done|]. exists id', chunk'. split; [by right|done]. }
  destruct (term_sets entity fact) as [terms anchors]. destruct (chunk_score _ _ _ _); [|by apply Hrest].
  unfold candidate_of, text_digest in E. cbv zeta in E.
  destruct (encodable (quote_window selector (dk_text chunk) terms anchors)) eqn:Eq; simpl in E.
  - destruct (chunk_candidates _ _ _ _ _ _ _ _ _ chunks) as [cs|e'] eqn:Ec; [done|]. by apply Hrest.
  - injection E as <-. split; [done|]. exists id, chunk. split; [by left|]. apply not_true_iff_false. intros He.
    apply not_true_iff_false in Eq. apply Eq. eapply occurs_encodable; [|exact He]. by apply quote_window_spec.
Qed.

Lemma fact_candidates_raise d source ids by_fact e : 1 <= cs_quote_chars selector ->
  fact_candidates sha256_utf8 uuid5 selector run_id entity facts d source ids by_fact = Raise e -> refused e d.
Proof.
  intros Hq. revert by_fact. induction ids as [|f ids IH]; intros by_fact E; cbn [fact_candidates] in E; [done|].
  destruct (dget f facts) as [fact|]; [|by eapply IH].
  destruct (chunk_candidates _ _ _ _ _ _ _ _ _ _) as [cs|e'] eqn:Ec; simpl in E; [by eapply IH|].
  injection E as ->. right. by eapply chunk_candidates_raise.
Qed.

Lemma document_candidates_raise documents by_fact e : 1 <= cs_quote_chars selector ->
  document_candidates sha256_utf8 uuid5 selector run_id entity facts documents by_fact = Raise e ->
  exists d, d ∈ documents /\ refused e d.
Proof.
  intros Hq. revert by_fact. induction documents as [|d documents IH]; intros by_fact E; cbn [document_candidates] in E; [done|].
  destruct (classify _ _ _) as [source|e'] eqn:Ec; [|injection E as ->; exists d; split; [by left|by left]].
  simpl in E. destruct (fact_candidates _ _ _ _ _ _ _ _ _ _) as [mid|e'] eqn:Ef.
  - apply IH in E as (d' & ? & ?). exists d'. split; [by right|done].
  - injection E as ->. exists d. split; [by left|]. by eapply fact_candidates_raise.
Qed.

(** Of a returned selection, each fact with a relevant chunk has a candidate. *)
Lemma selection_complete documents cs : 1 <= cs_per_fact selector ->
  Z.of_nat (length facts) <= cs_total selector -> selected documents = Ok cs ->
  forall d f fact id chunk source, d ∈ documents -> f ∈ cd_mapped_fact_ids d -> dget f facts = Some fact ->
    (id, chunk) ∈ cd_chunks d -> relevant fact chunk -> classify (cs_authority selector) (cd_url d) entity = Ok source ->
    exists c, c ∈ cs /\ sc_fact_id c = f /\
      (source.2 = SourceAuthority_OFFICIAL -> sc_source_authority c = SourceAuthority_OFFICIAL).
Proof.
  intros Hp Hn Hsel. destruct (select_inv _ _ Hsel) as (by_fact & Eb & _ & Hown & _).
  destruct (document_candidates_spec _ _ _ Eb) as (_ & _ & I3).
  assert (Hcs : cs = rounds_of selector (map (fun kv : UUID * FactRequirement => ranked selector (held by_fact kv.1)) facts))
    by (unfold select in Hsel; rewrite Eb in Hsel; by injection Hsel as <-).
  intros d f fact id chunk source Hd Hm Hf Hin Hrel Hs.
  destruct (I3 d f fact id chunk Hd Hm Hf Hin Hrel) as (x & source' & Hx & Hs' & Ha). rewrite Hs in Hs'. injection Hs' as <-.
  destruct (ranked_first selector _ x Hp Hx) as (c & Hc & Hheld & Hrank). exists c. ksplit.
  - rewrite Hcs. eapply (rounds_first selector facts (fun f => ranked selector (held by_fact f))); [done..| |exact Hc].
    by apply dget_elem.
  - specialize (Hown f). rewrite Forall_forall in Hown. apply Hown. by eapply list_elem_of_lookup_2.
  - intros Ho. rewrite Ho in Ha. unfold authority_rank in Hrank. rewrite Ha in Hrank.
    repeat case_bool_decide; done || lia.
Qed.

(** Claim C11. What is selected is bounded and grounded: at most the total, at most the limit of each fact,
    and every candidate quotes a chunk of a document mapped to its fact, within the limit of a quote, with
    the authority the configuration gives the page of that document. *)
Theorem selection_grounded documents cs : NoDup (map fst facts) -> 1 <= cs_per_fact selector -> 1 <= cs_total selector ->
  selected documents = Ok cs ->
  Z.of_nat (length cs) <= cs_total selector /\
  (forall f, Z.of_nat (length (base.filter (fun c => sc_fact_id c = f) cs)) <= cs_per_fact selector) /\
  Forall (fun c => exists d, d ∈ documents /\ drawn d c) cs.
Proof. apply selection_sound. Qed.

(** Claim C12. When there is room for every fact, no fact is left without a candidate: of what the selection
    returns, each fact that a chunk of a mapped document is relevant to has a candidate, and an official one if
    such a document is official. The selection stops with an exception only at a document that causes it: the
    authority of its page cannot be decided (the address is malformed or has no host, or the entity matches a
    name that is configured with unusual white space), or one of its chunks cannot be encoded in UTF-8. *)
Theorem no_fact_starves documents : 1 <= cs_per_fact selector -> 1 <= cs_quote_chars selector ->
  Z.of_nat (length facts) <= cs_total selector ->
  match selected documents with
  | Ok cs =>
      forall d f fact id chunk source, d ∈ documents -> f ∈ cd_mapped_fact_ids d -> dget f facts = Some fact ->
        (id, chunk) ∈ cd_chunks d -> relevant fact chunk -> classify (cs_authority selector) (cd_url d) entity = Ok source ->
        exists c, c ∈ cs /\ sc_fact_id c = f /\
          (source.2 = SourceAuthority_OFFICIAL -> sc_source_authority c = SourceAuthority_OFFICIAL)
  | Raise e => exists d, d ∈ documents /\ refused e d
  end.
Proof.
  intros Hp Hq Hn. destruct (selected documents) as [cs|e] eqn:E; [by eapply selection_complete|].
  unfold select in E. destruct (document_candidates _ _ _ _ _ _ _ _) as [by_fact|e'] eqn:Eb; simpl in E; [done|]. injection E as ->.
  by eapply document_candidates_raise.
Qed.
End Candidates.

(** ** Examples *)

Definition ex_selector : CandidateSelector :=
  {| cs_authority := default_authority; cs_per_fact := 3; cs_total := 8; cs_quote_chars := 60 |}.

Definition ex_chunk (t : pystr) : DocumentChunk :=
  {| dk_ordinal := 0; dk_text := t; dk_text_hash := u "h"; dk_token_count := 1; dk_start_offset := 0; dk_end_offset := len t |}.

Definition ex_document (url text : string) : CandidateDocument :=
  {| cd_document_id := 50; cd_version := ex_version (u text); cd_chunks := [(52, ex_chunk (u text))]; cd_url := u url;
     cd_title := u "t"; cd_mapped_fact_ids := [7] |}.

Definition ex_blob_fact : FactRequirement :=
  {| fr_key := u "git_blob_storage"; fr_fact_type := FactType_BACKGROUND; fr_description := u "How Git stores a blob";
     fr_subject := u "Git"; fr_required := true; fr_freshness := Freshness_STABLE; fr_consequence := Consequence_LOW;
     fr_preferred_source_kinds := [] |}.

Definition ex_blog := ex_document "https://blog.example/git" "In Git a blob holds the bytes of one file and no name at all; storage is by hash.".
Definition ex_manual := ex_document "https://git-scm.com/book" "Git has blob storage.".
Definition ex_documents := [ex_blog; ex_manual].

Definition ex_select := @select ex_unicode ex_ip ex_suffixes insertion_order id ex_uuid5 ex_selector 9 (u "Git") [(7, ex_blob_fact)].

(** The manual is official and comes first. *)
Example select_example :
  map (fun c => (sc_source_identity c, len (sc_quote c))) <$> ex_select ex_documents
    = Ok [(u "git-scm.com", 21); (u "blog.example", 60)].
Proof. by vm_compute. Qed.

Lemma selection_grounded_witness : exists cs, ex_select ex_documents = Ok cs /\ Z.of_nat (length cs) <= 8.
Proof.
  destruct (ex_select ex_documents) as [cs|] eqn:E; [|by vm_compute in E].
  exists cs. split; [done|].
  apply (@selection_grounded ex_unicode ex_ip ex_suffixes insertion_order id ex_uuid5 ex_selector 9 (u "Git")
    [(7, ex_blob_fact)] ex_documents cs); [by apply (bool_decide_unpack _); vm_compute|done|done|exact E].
Defined.

Lemma no_fact_starves_witness : exists cs, ex_select ex_documents = Ok cs /\
  exists c, c ∈ cs /\ sc_fact_id c = 7 /\ sc_source_authority c = SourceAuthority_OFFICIAL.
Proof.
  assert (E : exists cs, ex_select ex_documents = Ok cs) by (eexists; vm_compute; reflexivity). destruct E as [cs E].
  exists cs. split; [exact E|].
  pose proof (@no_fact_starves ex_unicode ex_ip ex_suffixes insertion_order id ex_uuid5 ex_selector 9 (u "Git")
    [(7, ex_blob_fact)] ex_documents ltac:(done) ltac:(done) ltac:(done)) as Hall.
  unfold ex_select in E. rewrite E in Hall.
  destruct (Hall ex_manual 7 ex_blob_fact 52 (ex_chunk (u "Git has blob storage.")) (u "git-scm.com", SourceAuthority_OFFICIAL))
    as (c & Hc & Hf & Ho); [by right; left|by left|done|by left| |by vm_compute|].
  { unfold relevant. vm_compute. by eexists. }
  exists c. auto.
Defined.

(** The selector calls itself deterministic, but the window of a long chunk depends on the order of a
    set: two windows with the same score tie, and the first term decides. *)
Lemma window_depends_on_set_order : let text := u "alpha ................................................................................. omega" in
  @quote_window ex_unicode insertion_order ex_selector text [] [u "alpha"; u "omega"]
  <> @quote_window ex_unicode reverse_order ex_selector text [] [u "alpha"; u "omega"].
Proof. vm_compute. discriminate. Qed.
