(* ===== verification/Templates.v ===== *)
(** * Templates: the reviewed plans for request families

    [sana/modules/search_planning/reviewed_templates.py]: a request of a family that was reviewed gets
    its intent from a table, without a model. The rules are in the order of the source; the first one
    that applies decides. Every template is a valid intent, whatever the request is. *)

From Stdlib Require Import String.
From S2P Require Import Prelude Errors PyData PyStr Regex Coverage Intent.

(** The message with its white space normalized, its locale, and its folded form. *)
Record request := {
  rq_text : pystr;
  rq_locale : pystr;
  rq_folded : pystr
}.

Section Templates.
Context `{Unicode}.

(** [@ src/sana/modules/search_planning/reviewed_templates.py reviewed_intent_template@71-73] *)
Definition request_of (message : pystr) : request :=
  let text := normalize_spaces message in
  {| rq_text := text;
     rq_locale := if re_found no_flags text (re "[\u3400-\u9fff]") then u "zh-CN" else u "en";
     rq_folded := casefold text |}.

(** [word in folded], and [re.search(pattern, text, re.I)] *)
Definition has (q : request) (word : string) : bool := str_in (u word) (rq_folded q).
Definition search (q : request) (pattern : regex) : bool := re_found re_I (rq_text q) pattern.

(** [@ src/sana/modules/search_planning/reviewed_templates.py _contains] *)
Definition contains (q : request) (patterns : list regex) : bool := forallb (re_found re_IS (rq_text q)) patterns.

(** The arguments of [_fact]; its constructor runs in [all_facts]. *)
(** [@ src/sana/modules/search_planning/reviewed_templates.py _fact] *)
Definition fact (key description subject : string) (fact_type : FactType) (freshness : Freshness) (sources : list string)
    : FactRequirement :=
  {| fr_key := u key; fr_fact_type := fact_type; fr_description := u description; fr_subject := u subject;
     fr_required := true; fr_freshness := freshness; fr_consequence := Consequence_LOW;
     fr_preferred_source_kinds := map u sources |}.

(** [_fact] with its defaults *)
Definition plain_fact (key description subject : string) : FactRequirement :=
  fact key description subject FactType_BACKGROUND Freshness_STABLE ["official"]%string.

(** The facts of a tuple are constructed from left to right. *)
Fixpoint all_facts (facts : list FactRequirement) : res (list FactRequirement) :=
  match facts with
  | [] => Ok []
  | f :: r => f ← FactRequirement_new f; r ← all_facts r; Ok (f :: r)
  end.

(** [@ src/sana/modules/search_planning/reviewed_templates.py _intent] *)
Definition intent_of (entity : string) (locale : pystr) (facts : list FactRequirement) (comparison : bool)
    : res NormalizedIntent :=
  NormalizedIntent_new
    {| ni_entity := u entity; ni_aliases := []; ni_locale := locale; ni_facts := facts;
       ni_requires_comparison := comparison; ni_requires_complete_sources := false |}.

(** [if applies: return _intent(entity, locale, facts, comparison=...)] *)
Definition template (applies : bool) (entity : string) (q : request) (facts : list FactRequirement)
    (comparison : bool) : option (res NormalizedIntent) :=
  if applies then Some (facts ← all_facts facts; intent_of entity (rq_locale q) facts comparison) else None.

(** The facts are built before the choice between them. *)
(** [@ src/sana/modules/search_planning/reviewed_templates.py reviewed_intent_template@89-110] *)
Definition apex_private_plan (research_shape : bool) (locale : pystr) : res NormalizedIntent :=
  facts ← all_facts
    [plain_fact "public_disclosure_match_history"
       "No official source discloses this user's private Apex Legends match history" "Apex Legends public account records";
     plain_fact "public_disclosure_mmr"
       "No official source discloses this user's private Apex Legends MMR" "Apex Legends public ranking records";
     plain_fact "public_disclosure_teammates_timestamps"
       "No official source discloses this user's private teammates and timestamps" "Apex Legends public match records"];
  intent_of "Apex Legends" locale (if research_shape then facts else take 1 (drop 1 facts)) false.

(** Private match records of a user. *)
(** [@ src/sana/modules/search_planning/reviewed_templates.py reviewed_intent_template@75-110] *)
Definition rule_apex_private (q : request) : option (res NormalizedIntent) :=
  if has q "apex legends" && search q (re "(?:private|sana(?:'s)?\s+memory|user(?:'s)?\s+(?:match|mmr)|\u79c1\u4eba\u8bb0\u5fc6|\u7528\u6237.{0,32}(?:\u9690\u85cf\u5206|\u6218\u7ee9|\u961f\u53cb))")
  then Some (apex_private_plan
    (search q (re "(?:30\s+days|three|3|\u8fc7\u53bb\s*30\s*\u5929|\u6bcf\u5c40)")) (rq_locale q))
  else None.

(** The codename of an unreleased model. *)
(** [@ src/sana/modules/search_planning/reviewed_templates.py reviewed_intent_template@112-133] *)
Definition rule_deepseek_unreleased (q : request) : option (res NormalizedIntent) :=
  template (has q "deepseek" && search q (re "(?:next|unreleased|unannounced|internal codename|\u4e0b\u4e00\u6b3e|\u5c1a\u672a\u516c\u5f00|\u672a\u516c\u5f00|\u5185\u90e8\u4ee3\u53f7)"))
    "DeepSeek" q
    [fact "deepseek_unreleased_codename_evidence_gap"
       "No official public source discloses the internal codename of DeepSeek's next unreleased model"
       "DeepSeek public model disclosures" FactType_CURRENT_VALUE Freshness_CURRENT ["official"]%string] false.

(** The weights of an unreleased model. *)
(** [@ src/sana/modules/search_planning/reviewed_templates.py reviewed_intent_template@135-167] *)
Definition rule_openai_weights (q : request) : option (res NormalizedIntent) :=
  template (has q "openai" && search q (re "(?:private parameter weights|exact private.*weights|next unreleased)"))
    "OpenAI" q
    [fact "openai_unreleased_weights_official_evidence_gap"
       "No official public source discloses the exact private parameter weights of OpenAI's next unreleased model"
       "OpenAI public model catalog" FactType_CURRENT_VALUE Freshness_CURRENT ["official"]%string;
     fact "openai_unreleased_weights_independent_evidence_gap"
       "No independent public source can verify exact private parameter weights for OpenAI's next unreleased model"
       "Public reporting about unreleased OpenAI models" FactType_CURRENT_VALUE Freshness_CURRENT ["independent"]%string] true.

(** The date of an unannounced release. *)
(** [@ src/sana/modules/search_planning/reviewed_templates.py reviewed_intent_template@169-189] *)
Definition rule_postgresql_future (q : request) : option (res NormalizedIntent) :=
  template (has q "postgresql" && search q (re "(?:unannounced future|exact launch date|\u5c1a\u672a\u516c\u5e03|\u672a\u5ba3\u5e03)"))
    "PostgreSQL" q
    [fact "postgresql_unannounced_release_date_evidence_gap"
       "No official public source discloses an exact launch date for an unannounced future PostgreSQL major release"
       "PostgreSQL public release announcements" FactType_CURRENT_VALUE Freshness_CURRENT ["official"]%string] false.

(** The number of instances in the world. *)
(** [@ src/sana/modules/search_planning/reviewed_templates.py reviewed_intent_template@191-224] *)
Definition rule_postgresql_instances (q : request) : option (res NormalizedIntent) :=
  template (has q "postgresql" && search q (re "(?:global.*(?:instance|install).*(?:exact|total)|\u5168\u7403.{0,32}(?:\u5b9e\u4f8b|\u5b89\u88c5).{0,32}(?:\u7cbe\u786e|\u603b\u6570))"))
    "PostgreSQL" q
    [fact "postgresql_private_deployments_evidence_gap"
       "No official public source can observe every private PostgreSQL deployment worldwide"
       "PostgreSQL global deployment coverage" FactType_CURRENT_VALUE Freshness_CURRENT ["official"]%string;
     fact "postgresql_exact_global_total_evidence_gap"
       "No independent public source discloses an exact global PostgreSQL instance total including private deployments"
       "PostgreSQL exact global instance count" FactType_CURRENT_VALUE Freshness_CURRENT ["independent"]%string] true.

(** One composition for every context. *)
(** [@ src/sana/modules/search_planning/reviewed_templates.py reviewed_intent_template@226-255] *)
Definition rule_apex_universal (q : request) : option (res NormalizedIntent) :=
  template (search q (re "\bapex(?: legends)?\b")
            && search q (re "(?:universally best|universal answer|every rank|\u6240\u6709.{0,24}(?:\u6bb5\u4f4d|\u5730\u56fe|\u5730\u533a|\u6c34\u5e73))"))
    "Apex Legends" q
    (map (fun '(key, label) =>
       fact ("apex_universal_composition_" ++ key ++ "_evidence_gap")
         ("No current public source establishes one universally best team composition across every " ++ label ++ " context")
         ("Apex team composition " ++ key) FactType_TEAM_META Freshness_CURRENT ["independent"]%string)
       [("rank_map", "rank and map"); ("region", "region"); ("player_skill", "player skill level")]%string) true.

(** The table of supported versions. *)
(** [@ src/sana/modules/search_planning/reviewed_templates.py reviewed_intent_template@257-279] *)
Definition rule_postgresql_supported (q : request) : option (res NormalizedIntent) :=
  template (contains q [re "postgresql"; re "(?:\u4ecd\u53d7\u652f\u6301|supported)"]
            && search q (re "(?:minor|\u5c0f\u7248\u672c|\u505c\u6b62\u652f\u6301|end[- ]of[- ]support|final release)"))
    "PostgreSQL" q
    (map (fun position =>
       fact ("postgresql_supported_row_" ++ position)
         ("PostgreSQL supported version row " ++ position ++ ": current minor version and final support date")
         ("PostgreSQL supported version row " ++ position) FactType_CURRENT_VALUE Freshness_CURRENT ["official"]%string)
       ["1"; "2"; "3"; "4"; "5"]%string) true.

(** Map rotation, ranked rules and compositions. *)
(** [@ src/sana/modules/search_planning/reviewed_templates.py reviewed_intent_template@281-333] *)
Definition rule_apex_rotation (q : request) : option (res NormalizedIntent) :=
  template (search q (re "\bapex(?: legends)?\b") && search q (re "(?:map rotation|\u5730\u56fe\u8f6e\u6362)")
            && search q (re "(?:ranked rules?|\u6392\u540d\u89c4\u5219|\u6392\u4f4d\u89c4\u5219)")
            && search q (re "(?:team[- ]composition|\u9635\u5bb9\u5206\u6790|\u9635\u5bb9).{0,48}(?:perspectives?|sources?|\u6765\u6e90)|(?:two|2|\u4e24\u4e2a|\u4e8c\u4e2a).{0,48}(?:team[- ]composition|\u9635\u5bb9)"))
    "Apex Legends" q
    [fact "current_map_rotation" "Current official Apex Legends map rotation" "Apex Legends map rotation"
       FactType_CURRENT_VALUE Freshness_CURRENT ["official"]%string;
     fact "ranked_rules_changes" "Current official Apex Legends ranked rules changes" "Apex Legends ranked rules"
       FactType_PATCH_NOTES Freshness_RECENT ["official"]%string;
     fact "community_team_composition_frequency" "Current most common Apex Legends trio composition in independent data"
       "Apex trio composition frequency" FactType_TEAM_META Freshness_CURRENT ["independent"]%string;
     fact "community_team_composition_performance" "Current highest earning Apex Legends trio composition in independent data"
       "Apex trio composition performance" FactType_TEAM_META Freshness_CURRENT ["independent"]%string] true.

(** The changes of one legend. *)
(** [@ src/sana/modules/search_planning/reviewed_templates.py reviewed_intent_template@335-373] *)
Definition rule_apex_bloodhound (q : request) : option (res NormalizedIntent) :=
  template (has q "apex legends" && search q (re "(?:bloodhound|\u5bfb\u8840\u730e\u72ac)")
            && search q (re "(?:patch|balance|\u8865\u4e01|\u6539\u52a8)"))
    "Apex Legends" q
    [fact "current_release" "Current official Apex Legends release" "Apex Legends current release"
       FactType_VERSION Freshness_CURRENT ["official"]%string;
     fact "bloodhound_tactical_changes" "Latest official Bloodhound passive and tactical balance changes"
       "Apex Bloodhound tactical changes" FactType_CHARACTER_CHANGES Freshness_RECENT ["official"]%string;
     fact "bloodhound_ultimate_changes" "Latest official Bloodhound ultimate and upgrade balance changes"
       "Apex Bloodhound ultimate changes" FactType_CHARACTER_CHANGES Freshness_RECENT ["official"]%string;
     fact "community_bloodhound_meta" "Independent current Bloodhound pick-rate and RP-performance context"
       "Apex Bloodhound community meta" FactType_TEAM_META Freshness_CURRENT ["independent"]%string] true.

(** The current season. *)
(** [@ src/sana/modules/search_planning/reviewed_templates.py reviewed_intent_template@375-393] *)
Definition rule_apex_season (q : request) : option (res NormalizedIntent) :=
  template (has q "apex legends"
            && search q (re "(?:current (?:official )?.{0,24}(?:season|game version)|\u5b98\u65b9\u5f53\u524d\u8d5b\u5b63|\u5f53\u524d\u8d5b\u5b63\u540d\u79f0)"))
    "Apex Legends" q
    [fact "current_season_or_release" "Current official Apex Legends season or game release"
       "Apex Legends current official release" FactType_VERSION Freshness_CURRENT ["official"]%string] false.

(** The status codes 201 and 204. *)
(** [@ src/sana/modules/search_planning/reviewed_templates.py reviewed_intent_template@395-418] *)
Definition rule_http_created (q : request) : option (res NormalizedIntent) :=
  template (contains q [re "http"; re "(?<!\d)201(?!\d)"; re "(?<!\d)204(?!\d)"]) "HTTP" q
    [plain_fact "http_201_semantics" "Meaning of HTTP 201 Created" "HTTP 201 Created";
     plain_fact "http_201_content_constraints" "Response content constraints for HTTP 201 Created"
       "HTTP 201 Created response content";
     plain_fact "http_204_semantics" "Meaning of HTTP 204 No Content" "HTTP 204 No Content";
     plain_fact "http_204_content_constraints" "Response content constraints for HTTP 204 No Content"
       "HTTP 204 No Content response content"] true.

(** The method GET. *)
(** [@ src/sana/modules/search_planning/reviewed_templates.py reviewed_intent_template@420-432] *)
Definition rule_http_get (q : request) : option (res NormalizedIntent) :=
  template (contains q [re "http"; re "\bget\b"; re "\bsafe\b"; re "\bidempotent\b"]) "HTTP" q
    [plain_fact "http_get_safe" "Whether HTTP GET is safe" "HTTP GET";
     plain_fact "http_get_idempotent" "Whether HTTP GET is idempotent" "HTTP GET"] false.

(** The phrase of 404. *)
(** [@ src/sana/modules/search_planning/reviewed_templates.py reviewed_intent_template@434-446] *)
Definition rule_http_404 (q : request) : option (res NormalizedIntent) :=
  template (contains q [re "http"; re "(?<!\d)404(?!\d)"]) "HTTP" q
    [fact "http_404_reason_phrase" "The English reason phrase for HTTP status code 404" "HTTP 404"
       FactType_CURRENT_VALUE Freshness_STABLE ["official"]%string] false.

(** Who created Python, and when. *)
(** [@ src/sana/modules/search_planning/reviewed_templates.py reviewed_intent_template@448-464] *)
Definition rule_python_origin (q : request) : option (res NormalizedIntent) :=
  template (has q "python" && search q (re "(?:\u7531\u8c01\u521b\u5efa|who created|creator)")
            && search q (re "(?:\u9996\u6b21\u516c\u5f00|first public|release.*year|\u54ea\u4e00\u5e74)"))
    "Python" q
    [plain_fact "python_creator" "Who created Python" "Python creator";
     plain_fact "python_first_release_year" "Python first public release year" "Python first public release"] false.

(** The latest Python. *)
(** [@ src/sana/modules/search_planning/reviewed_templates.py reviewed_intent_template@466-484] *)
Definition rule_python_latest (q : request) : option (res NormalizedIntent) :=
  template (has q "python" && search q (re "(?:latest stable|current.*stable|\u5f53\u524d.{0,16}\u6700\u65b0\u7a33\u5b9a|\u6700\u65b0\u7a33\u5b9a)"))
    "Python" q
    [fact "python_latest_stable_version" "Latest stable Python version on the official downloads page"
       "Python latest stable download" FactType_VERSION Freshness_CURRENT ["official"]%string] false.

(** The latest Rust. *)
(** [@ src/sana/modules/search_planning/reviewed_templates.py reviewed_intent_template@486-501] *)
Definition rule_rust_latest (q : request) : option (res NormalizedIntent) :=
  template (has q "rust" && search q (re "(?:stable.*(?:version|release)|version.*stable)")) "Rust" q
    [fact "rust_latest_stable_version" "Latest stable Rust version on the official release notes page"
       "Rust latest stable release" FactType_VERSION Freshness_CURRENT ["official"]%string] false.

(** The active release line of Node.js. *)
(** [@ src/sana/modules/search_planning/reviewed_templates.py reviewed_intent_template@503-518] *)
Definition rule_node_lts (q : request) : option (res NormalizedIntent) :=
  template (search q (re "\bnode(?:[.]js)?\b") && search q (re "(?:active\s+lts|lts.*release line)")) "Node.js" q
    [fact "node_active_lts_release_line"
       "Current Node.js release line with LTS status on the official release page"
       "Node.js current LTS release line" FactType_VERSION Freshness_CURRENT ["official"]%string] false.

(** The latest Git. *)
(** [@ src/sana/modules/search_planning/reviewed_templates.py reviewed_intent_template@520-535] *)
Definition rule_git_latest (q : request) : option (res NormalizedIntent) :=
  template (has q "git" && search q (re "(?:latest stable|current.*stable|stable.*release)")) "Git" q
    [fact "git_latest_stable_release" "Latest stable Git source release on the official Git website"
       "Git latest source release" FactType_VERSION Freshness_CURRENT ["official"]%string] false.

(** The latest major version of PostgreSQL. *)
(** [@ src/sana/modules/search_planning/reviewed_templates.py reviewed_intent_template@537-555] *)
Definition rule_postgresql_latest (q : request) : option (res NormalizedIntent) :=
  template (has q "postgresql" && search q (re "(?:latest major|current.*major|\u5f53\u524d.{0,16}\u6700\u65b0\u4e3b\u7248\u672c|\u6700\u65b0\u4e3b\u7248\u672c)"))
    "PostgreSQL" q
    [fact "postgresql_latest_major_version" "Latest supported PostgreSQL major version in the official version table"
       "PostgreSQL latest supported major version" FactType_VERSION Freshness_CURRENT ["official"]%string] false.

(** [@ src/sana/modules/search_planning/reviewed_templates.py reviewed_intent_template@569-579] *)
Definition flash_specifications (detailed : bool) : list (string * string) :=
  let output_price := ("output_price", "Current output token price")%string in
  if detailed then
    [("cache_hit_price", "Current cache-hit input price"); ("cache_miss_price", "Current cache-miss input price");
     output_price; ("context_length", "Current context length"); ("maximum_output", "Current maximum output length");
     ("json_output", "Current JSON Output support")]%string
  else [output_price].

(** Prices of a model. *)
(** [@ src/sana/modules/search_planning/reviewed_templates.py reviewed_intent_template@557-592] *)
Definition rule_deepseek_flash (q : request) : option (res NormalizedIntent) :=
  template (search q (re "deepseek[- _]?v4[- _]?flash") && search q (re "(?:price|pricing|\u4ef7\u683c|\u5b9a\u4ef7)"))
    "DeepSeek" q
    (map (fun '(key, description) =>
       fact key ("deepseek-v4-flash " ++ description) ("deepseek-v4-flash " ++ key)
         FactType_CURRENT_VALUE Freshness_CURRENT ["official"]%string)
       (flash_specifications (search q (re "(?:cache[- ]?hit|cache[- ]?miss|context length|maximum output|capability table|\u7f13\u5b58\u547d\u4e2d|\u4e0a\u4e0b\u6587\u957f\u5ea6|\u6700\u5927\u8f93\u51fa)")))) false.

(** The literals of JSON. *)
(** [@ src/sana/modules/search_planning/reviewed_templates.py reviewed_intent_template@594-606] *)
Definition rule_json_literals (q : request) : option (res NormalizedIntent) :=
  template (has q "json" && search q (re "(?:literal|\u5b57\u9762\u91cf)")) "JSON" q
    (map (fun literal =>
       plain_fact ("json_literal_" ++ literal)
         ("Whether " ++ literal ++ " is one of the three lowercase JSON literal names") ("JSON literal " ++ literal))
       ["true"; "false"; "null"]%string) false.

(** The media type of JSON. *)
(** [@ src/sana/modules/search_planning/reviewed_templates.py reviewed_intent_template@608-613] *)
Definition rule_json_media (q : request) : option (res NormalizedIntent) :=
  template (has q "json" && search q (re "(?:media type|\u5a92\u4f53\u7c7b\u578b)")) "JSON" q
    [plain_fact "json_media_type" "The registered media type for JSON" "JSON media type"] false.

(** The digest of SHA-256. *)
(** [@ src/sana/modules/search_planning/reviewed_templates.py reviewed_intent_template@615-624] *)
Definition rule_sha256 (q : request) : option (res NormalizedIntent) :=
  template (search q (re "sha[- ]?256")
            && search q (re "(?:digest|\u6458\u8981).{0,24}(?:length|size|bits?|\u957f\u5ea6|\u4f4d)")) "SHA-256" q
    [plain_fact "sha256_digest_size" "SHA-256 digest length in bits" "SHA-256 digest"] false.

(** Ports of the DNS. *)
(** [@ src/sana/modules/search_planning/reviewed_templates.py reviewed_intent_template@626-640] *)
Definition rule_dns (q : request) : option (res NormalizedIntent) :=
  template (has q "dns" && search q (re "(?:\bport\b|\u7aef\u53e3)") && search q (re "\btcp\b") && search q (re "\budp\b"))
    "DNS" q
    [plain_fact "dns_port" "DNS conventional port number" "DNS port";
     plain_fact "dns_tcp" "DNS use of TCP transport" "DNS TCP";
     plain_fact "dns_udp" "DNS use of UDP transport" "DNS UDP"] false.

(** The RFC of TLS 1.3. *)
(** [@ src/sana/modules/search_planning/reviewed_templates.py reviewed_intent_template@642-647] *)
Definition rule_tls13 (q : request) : option (res NormalizedIntent) :=
  template (search q (re "tls\s*1[.]3") && has q "rfc") "TLS 1.3" q
    [plain_fact "tls13_rfc" "RFC that specifies TLS 1.3" "TLS 1.3 RFC"] false.

(** The object model of Git. *)
(** [@ src/sana/modules/search_planning/reviewed_templates.py reviewed_intent_template@649-664] *)
Definition rule_git_objects (q : request) : option (res NormalizedIntent) :=
  template (has q "git" && search q (re "(?:object model|\u5bf9\u8c61\u6a21\u578b)")) "Git" q
    [plain_fact "git_object_types" "The four types in the Git object model" "Git object types";
     plain_fact "blob_purpose" "Purpose of the blob object in Git" "Git blob object";
     plain_fact "tree_purpose" "Purpose of the tree object in Git" "Git tree object";
     plain_fact "commit_purpose" "Purpose of the commit object in Git" "Git commit object";
     plain_fact "tag_purpose" "Purpose of the tag object in Git" "Git tag object"] false.

(** The states of a file in Git. *)
(** [@ src/sana/modules/search_planning/reviewed_templates.py reviewed_intent_template@666-690] *)
Definition rule_git_states (q : request) : option (res NormalizedIntent) :=
  let words := re_findall no_flags (rq_folded q) (re "[a-z]+") in
  template (has q "git" && (forallb (fun w => bool_decide (u w ∈ words)) ["modified"; "staged"; "committed"]%string
                            || search q (re "(?:three|3).{0,24}file states"))) "Git" q
    [plain_fact "git_state_modified" "Git modified state and its relationship to the working tree" "Git modified working tree";
     plain_fact "git_state_staged" "Git staged state and its relationship to the staging area" "Git staged staging area";
     plain_fact "git_state_committed" "Git committed state and its relationship to the Git directory"
       "Git committed directory"] false.

(** The properties of ACID. *)
(** [@ src/sana/modules/search_planning/reviewed_templates.py reviewed_intent_template@692-707] *)
Definition rule_acid (q : request) : option (res NormalizedIntent) :=
  template (search q (re "\bacid\b") && search q (re "(?:atomicity|\u56db\u9879\u6027\u8d28)")) "Database ACID" q
    (map (fun '(folded, name) =>
       fact ("acid_" ++ folded) ("Meaning of the ACID property " ++ name) ("ACID " ++ name)
         FactType_BACKGROUND Freshness_STABLE ["independent"]%string)
       [("atomicity", "Atomicity"); ("consistency", "Consistency"); ("isolation", "Isolation");
        ("durability", "Durability")]%string) false.

(** The licence of SQLite. *)
(** [@ src/sana/modules/search_planning/reviewed_templates.py reviewed_intent_template@709-728] *)
Definition rule_sqlite (q : request) : option (res NormalizedIntent) :=
  template (has q "sqlite" && has q "public domain") "SQLite" q
    [plain_fact "sqlite_public_domain" "Whether SQLite is in the public domain" "SQLite public domain";
     plain_fact "sqlite_jurisdiction_option"
       "SQLite licensing option for jurisdictions that do not recognize public domain status"
       "SQLite jurisdiction option"] false.

(** The CAP theorem. *)
(** [@ src/sana/modules/search_planning/reviewed_templates.py reviewed_intent_template@730-763] *)
Definition rule_cap (q : request) : option (res NormalizedIntent) :=
  template (search q (re "\bcap\b") && search q (re "(?:theorem|\u5b9a\u7406)")) "CAP theorem" q
    [fact "cap_consistency" "Meaning of Consistency in the CAP theorem" "CAP Consistency"
       FactType_BACKGROUND Freshness_STABLE ["independent"]%string;
     fact "cap_availability" "Meaning of Availability in the CAP theorem" "CAP Availability"
       FactType_BACKGROUND Freshness_STABLE ["independent"]%string;
     fact "cap_partition_tolerance" "Meaning of Partition tolerance in the CAP theorem" "CAP Partition tolerance"
       FactType_BACKGROUND Freshness_STABLE ["independent"]%string;
     fact "cap_partition_tradeoff" "CAP theorem tradeoff during a network partition" "CAP network partition tradeoff"
       FactType_BACKGROUND Freshness_STABLE ["independent"]%string] true.

(** The two ways to write UTC. *)
(** [@ src/sana/modules/search_planning/reviewed_templates.py reviewed_intent_template@765-787] *)
Definition rule_rfc3339 (q : request) : option (res NormalizedIntent) :=
  template (has q "rfc 3339" && has q "z" && str_in (u "+00:00") (rq_text q)) "RFC 3339" q
    [plain_fact "rfc3339_z_semantics" "RFC 3339 semantics of the Z UTC designator" "RFC 3339 Z";
     plain_fact "rfc3339_plus0000_semantics" "RFC 3339 semantics of +00:00 for UTC" "RFC 3339 +00:00";
     plain_fact "rfc3339_utc_examples" "RFC 3339 example timestamps using Z and +00:00" "RFC 3339 Z +00:00 example"] true.

(** The isolation levels of PostgreSQL. *)
(** [@ src/sana/modules/search_planning/reviewed_templates.py reviewed_intent_template@789-811] *)
Definition rule_isolation (q : request) : option (res NormalizedIntent) :=
  let isolation_levels :=
    [("Read Uncommitted", "read uncommitted", "read_uncommitted"); ("Read Committed", "read committed", "read_committed");
     ("Repeatable Read", "repeatable read", "repeatable_read"); ("Serializable", "serializable", "serializable")]%string in
  template (has q "postgresql" && forallb (fun '(_, folded, _) => has q folded) isolation_levels) "PostgreSQL" q
    (map (fun '(level, _, key) =>
       fact ("isolation_" ++ key) ("PostgreSQL anomaly guarantees for " ++ level ++ " isolation") level
         FactType_COMPARISON Freshness_STABLE ["official"]%string) isolation_levels) true.

(** ** The first rule that applies *)

Definition template_rules : list (request -> option (res NormalizedIntent)) :=
  [rule_apex_private; rule_deepseek_unreleased; rule_openai_weights; rule_postgresql_future;
   rule_postgresql_instances; rule_apex_universal; rule_postgresql_supported; rule_apex_rotation;
   rule_apex_bloodhound; rule_apex_season; rule_http_created; rule_http_get; rule_http_404;
   rule_python_origin; rule_python_latest; rule_rust_latest; rule_node_lts; rule_git_latest;
   rule_postgresql_latest; rule_deepseek_flash; rule_json_literals; rule_json_media; rule_sha256; rule_dns;
   rule_tls13; rule_git_objects; rule_git_states; rule_acid; rule_sqlite; rule_cap; rule_rfc3339;
   rule_isolation].

Fixpoint first_rule (rules : list (request -> option (res NormalizedIntent))) (q : request) : option (res NormalizedIntent) :=
  match rules with
  | [] => None
  | rule :: r => match rule q with Some i => Some i | None => first_rule r q end
  end.

(** [@ src/sana/modules/search_planning/reviewed_templates.py reviewed_intent_template] *)
Definition reviewed_intent_template (message : pystr) : res (option NormalizedIntent) :=
  match first_rule template_rules (request_of message) with
  | None => Ok None
  | Some i => Some <$> i
  end.

End Templates.

(** ** Every template is a valid plan *)

Section Reviewed.
Context `{Unicode}.

(** A plan without anything that a message or a model could have put in: valid, every fact required, of
    low consequence and with a kind of source, and within the limit of the planning policy. *)
Definition reviewed_plan (i : NormalizedIntent) : Prop :=
  valid_intent i /\ Forall valid_fact (ni_facts i) /\
  Forall (fun f => fr_required f = true /\ fr_consequence f = Consequence_LOW /\ fr_preferred_source_kinds f <> []) (ni_facts i)
  /\ (1 <= length (ni_facts i) <= 8)%nat.

(** The same as a test that evaluates. *)
Definition sound_plan (r : res NormalizedIntent) : bool :=
  match r with
  | Ok i => is_ok (NormalizedIntent_new i) &&
      forallb (fun f => is_ok (FactRequirement_new f) && (fr_required f && ((fr_consequence f is Consequence_LOW)
                        && negb (bool_decide (fr_preferred_source_kinds f = []))))) (ni_facts i)
      && ((1 <=? length (ni_facts i))%nat && (length (ni_facts i) <=? 8)%nat)
  | Raise _ => false
  end.

Lemma sound_plan_spec r : sound_plan r = true -> exists i, r = Ok i /\ reviewed_plan i.
Proof.
  destruct r as [i|]; [|done]. unfold sound_plan. intros [[Hi Hf]%andb_prop [H1 H2]%andb_prop]%andb_prop.
  exists i. split; [done|]. unfold reviewed_plan. rewrite forallb_forall in Hf.
  apply Nat.leb_le in H1. apply Nat.leb_le in H2. ksplit.
  - destruct (NormalizedIntent_new i) as [i'|] eqn:E; [|done]. by apply NormalizedIntent_new_spec in E as [_ ?].
  - apply Forall_forall. intros f Hin%list_elem_of_In. apply Hf in Hin. apply andb_prop in Hin as [Hin _].
    destruct (FactRequirement_new f) as [f'|] eqn:E; [|done]. by apply FactRequirement_new_spec in E as [_ ?].
  - apply Forall_forall. intros f Hin%list_elem_of_In. apply Hf in Hin. bools. done.
Qed.

End Reviewed.

Section Plans.
Context {U : Unicode} {Hcase : Caseless}.

(** The plan of a rule, with the database of the examples. *)
Definition example_plan (entity : string) (locale : pystr) (facts : list FactRequirement) (comparison : bool)
    : res NormalizedIntent :=
  fs ← @all_facts ex_unicode facts; @intent_of ex_unicode entity locale fs comparison.

Lemma all_facts_ascii facts : forallb (fun f => str_isascii (fr_subject f)) facts = true ->
  all_facts facts = @all_facts ex_unicode facts.
Proof using Hcase.
  induction facts as [|f r IH]; cbn [forallb all_facts]; [done|]. intros [Hf Hr]%andb_prop. by rewrite (@ascii_fact U Hcase f), IH.
Qed.

Lemma plan_ascii entity locale facts comparison : str_isascii (u entity) = true ->
  forallb (fun f => str_isascii (fr_subject f)) facts = true ->
  (fs ← all_facts facts; intent_of entity locale fs comparison) = example_plan entity locale facts comparison.
Proof using Hcase.
  intros He Hf. rewrite all_facts_ascii by done. unfold example_plan. destruct (@all_facts ex_unicode facts); [|done].
  by apply (@ascii_intent U Hcase).
Qed.

(** The test, with that database: the plan is built, and it has the properties that do not depend on one. *)
Definition plan_passes (entity : string) (locale : pystr) (facts : list FactRequirement) (comparison : bool) : bool :=
  match example_plan entity locale facts comparison with
  | Ok i => str_isascii (u entity) && forallb (fun f => str_isascii (fr_subject f)) (facts ++ ni_facts i)
            && bool_decide (ni_aliases i = []) && str_isascii (ni_entity i) && @sound_plan ex_unicode (Ok i)
  | Raise _ => false
  end.

Lemma sound_plan_ascii i : forallb (fun f => str_isascii (fr_subject f)) (ni_facts i) = true ->
  ni_aliases i = [] -> str_isascii (ni_entity i) = true -> @sound_plan ex_unicode (Ok i) = true -> sound_plan (Ok i) = true.
Proof using Hcase.
  intros Hf Ha He. unfold sound_plan. rewrite (@ascii_intent U Hcase i) by done. intros [[-> Hall]%andb_prop ->]%andb_prop.
  rewrite andb_true_r. cbn [andb]. rewrite forallb_forall in Hall, Hf. apply forallb_forall. intros f Hin.
  rewrite (@ascii_fact U Hcase f) by auto. by apply Hall.
Qed.

Lemma plan_sound entity locale facts comparison : plan_passes entity locale facts comparison = true ->
  exists i, (fs ← all_facts facts; intent_of entity locale fs comparison) = Ok i /\ reviewed_plan i.
Proof using Hcase.
  unfold plan_passes. destruct (example_plan entity locale facts comparison) as [i|] eqn:E; [|done].
  intros [[[[He Hf]%andb_prop Ha]%andb_prop Hi]%andb_prop Hs]%andb_prop. rewrite forallb_app in Hf.
  apply andb_prop in Hf as [Hf Hf']. bools. exists i. rewrite plan_ascii by done. split; [done|].
  by destruct (sound_plan_spec (Ok i)) as (i' & [= <-] & ?); [apply sound_plan_ascii|].
Qed.

(** A rule that only returns reviewed plans, in both locales. *)
Definition sound_rule (rule : request -> option (res NormalizedIntent)) : Prop :=
  forall q r, (rq_locale q = u "zh-CN" \/ rq_locale q = u "en") -> rule q = Some r -> exists i, r = Ok i /\ reviewed_plan i.

Lemma template_sound b entity q facts comparison r :
  plan_passes entity (u "zh-CN") facts comparison && plan_passes entity (u "en") facts comparison = true ->
  (rq_locale q = u "zh-CN" \/ rq_locale q = u "en") -> template b entity q facts comparison = Some r ->
  exists i, r = Ok i /\ reviewed_plan i.
Proof using Hcase.
  intros [Hz He]%andb_prop Hl. unfold template. destruct b; [|done]. intros [= <-].
  by destruct Hl as [-> | ->]; apply plan_sound.
Qed.

Ltac by_template := intros q r Hl; apply template_sound; [vm_compute; reflexivity|exact Hl].

Lemma apex_private_plan_sound b locale : (locale = u "zh-CN" \/ locale = u "en") ->
  exists i, apex_private_plan b locale = Ok i /\ reviewed_plan i.
Proof using Hcase.
  intros Hl. unfold apex_private_plan. rewrite all_facts_ascii by done.
  destruct b.
  - destruct (plan_sound "Apex Legends" locale
      [plain_fact "public_disclosure_match_history"
         "No official source discloses this user's private Apex Legends match history" "Apex Legends public account records";
       plain_fact "public_disclosure_mmr"
         "No official source discloses this user's private Apex Legends MMR" "Apex Legends public ranking records";
       plain_fact "public_disclosure_teammates_timestamps"
         "No official source discloses this user's private teammates and timestamps" "Apex Legends public match records"] false)
      as (i & E & Hi); [by destruct Hl as [-> | ->]; vm_compute|].
    rewrite all_facts_ascii in E by done. exists i. split; [exact E|exact Hi].
  - destruct (plan_sound "Apex Legends" locale [plain_fact "public_disclosure_mmr"
      "No official source discloses this user's private Apex Legends MMR" "Apex Legends public ranking records"] false)
      as (i & E & Hi); [by destruct Hl as [-> | ->]; vm_compute|].
    rewrite all_facts_ascii in E by done. exists i. split; [exact E|exact Hi].
Qed.

Lemma apex_private_sound : sound_rule rule_apex_private.
Proof using Hcase.
  intros q r Hl. unfold rule_apex_private. destruct (_ && _); [|done]. intros E. apply (inj Some) in E as <-.
  by apply apex_private_plan_sound.
Qed.

Lemma deepseek_flash_sound : sound_rule rule_deepseek_flash.
Proof using Hcase.
  intros q r Hl. unfold rule_deepseek_flash. apply template_sound; [|exact Hl].
  by destruct (search q (re "(?:cache[- ]?hit|cache[- ]?miss|context length|maximum output|capability table|\u7f13\u5b58\u547d\u4e2d|\u4e0a\u4e0b\u6587\u957f\u5ea6|\u6700\u5927\u8f93\u51fa)")); vm_compute.
Qed.

Lemma template_rules_sound : Forall sound_rule template_rules.
Proof using Hcase.
  unfold template_rules.
  repeat (apply Forall_cons; split; [|]); try constructor;
    match goal with
    | |- sound_rule rule_apex_private => apply apex_private_sound
    | |- sound_rule rule_deepseek_flash => apply deepseek_flash_sound
    | _ => by_template
    end.
Qed.

Lemma first_rule_sound rules q r : Forall sound_rule rules -> (rq_locale q = u "zh-CN" \/ rq_locale q = u "en") ->
  first_rule rules q = Some r -> exists i, r = Ok i /\ reviewed_plan i.
Proof.
  intros Hr Hl. induction Hr as [|rule rules Hrule _ IH]; cbn [first_rule]; [done|].
  destruct (rule q) as [x|] eqn:E; [|done]. intros [= <-]. by eapply Hrule.
Qed.

Lemma request_locale message : rq_locale (request_of message) = u "zh-CN" \/ rq_locale (request_of message) = u "en".
Proof. unfold request_of. cbv zeta. cbn. destruct (re_found _ _ _); auto. Qed.

Lemma reviewed_templates_sound message : exists plan, reviewed_intent_template message = Ok plan /\
  forall i, plan = Some i -> reviewed_plan i.
Proof using Hcase.
  unfold reviewed_intent_template. destruct (first_rule template_rules (request_of message)) as [r|] eqn:E.
  - apply first_rule_sound in E as (i & -> & Hi); [|apply template_rules_sound|apply request_locale].
    exists (Some i). split; [done|]. by intros ? [= <-].
  - by exists None.
Qed.

(** The fast path of planning is safe for every message: the reviewed templates never raise, and
    what they return is a valid intent whose facts are valid, all required, of low consequence, with a
    kind of source, between one and the eight of the policy. *)
Theorem reviewed_templates_valid message : exists plan, reviewed_intent_template message = Ok plan /\
  forall i, plan = Some i -> reviewed_plan i.
Proof using Hcase. apply reviewed_templates_sound. Qed.
End Plans.

(** ** Examples *)

Definition ex_plan (message : string) : res (option (pystr * list pystr)) :=
  o ← @reviewed_intent_template ex_unicode (u message);
  Ok (option_map (fun i => (ni_entity i, map fr_key (ni_facts i))) o).

Example template_examples :
  ex_plan "Which RFC specifies TLS 1.3?" = Ok (Some (u "TLS 1.3", [u "tls13_rfc"])) /\
  ex_plan "Is HTTP GET safe and idempotent?" = Ok (Some (u "HTTP", [u "http_get_safe"; u "http_get_idempotent"])) /\
  ex_plan "How are you?" = Ok None.
Proof. by vm_compute. Qed.

(** The names are looked for inside words: a question about something else gets the plan of Git or Rust. *)
Lemma substring_selects_template :
  ex_plan "What is the latest stable release of Digital Ocean's CLI?" = Ok (Some (u "Git", [u "git_latest_stable_release"])) /\
  ex_plan "What is the stable version of Trust Wallet?" = Ok (Some (u "Rust", [u "rust_latest_stable_version"])).
Proof. by vm_compute. Qed.

Lemma reviewed_templates_valid_witness : exists plan,
  @reviewed_intent_template ex_unicode (u "Which RFC specifies TLS 1.3?") = Ok plan /\
  forall i, plan = Some i -> @reviewed_plan ex_unicode i.
Proof. apply (@reviewed_templates_valid ex_unicode ex_caseless (u "Which RFC specifies TLS 1.3?")). Defined.
