(* ===== verification/Router.v ===== *)
(** * Router: FAST or RESEARCH

    [sana/modules/search_planning/router.py] and [policy.py]: which kinds of facts a message asks
    about, and the reasons to do research. *)

From Stdlib Require Import SpecFloat String.
From S2P Require Import Prelude Errors PyTime PyData PyStr Regex Transitions Run Coverage Intent.

(** [@ src/sana/modules/search_planning/policy.py SearchPlanningPolicy@8-17] *)
Record SearchPlanningPolicy := {
  sp_version : pystr;
  sp_max_facts : Z;
  sp_max_query_characters : Z;
  sp_fast_max_queries_per_fact : Z;
  sp_research_max_queries_per_fact : Z;
  sp_fast_max_queries : Z;
  sp_research_initial_max_queries : Z;
  sp_research_total_max_queries : Z
}.

(** [SearchPlanningPolicy(version=version)] *)
(** [@ src/sana/modules/search_planning/policy.py SearchPlanningPolicy@8-17] *)
Definition planning_policy (version : pystr) : SearchPlanningPolicy := {|
  sp_version := version; sp_max_facts := 8; sp_max_query_characters := 64; sp_fast_max_queries_per_fact := 1;
  sp_research_max_queries_per_fact := 3; sp_fast_max_queries := 4; sp_research_initial_max_queries := 8;
  sp_research_total_max_queries := 12
|}.

Definition default_planning_policy : SearchPlanningPolicy := planning_policy (u "search-v12").

(** [@ src/sana/modules/search_planning/policy.py SearchPlanningPolicy.query_limit] *)
Definition query_limit (p : SearchPlanningPolicy) (mode : SearchMode) (expansion : bool) : Z :=
  if mode is SearchMode_FAST then sp_fast_max_queries p
  else if expansion then sp_research_total_max_queries p else sp_research_initial_max_queries p.

(** [@ src/sana/modules/search_planning/router.py AutomaticModeRouter._FACT_PATTERNS] *)
Definition fact_patterns : list (FactType * regex) :=
  [(FactType_CHARACTER_CHANGES, re "(改动|调整|削弱|加强|changes?|buff|nerf)");
   (FactType_VERSION, re "(当前版本|版本号|current version|season)");
   (FactType_PATCH_NOTES, re "(补丁|更新说明|patch notes?|changelog)");
   (FactType_TEAM_META, re "(配队|阵容|meta|team comp|lineup)");
   (FactType_COMPARISON, re "(比较|对比|versus|\bvs\.?\b|compare)");
   (FactType_CURRENT_VALUE, re "(价格|汇率|比分|current price|exchange rate|score)")].

(** [@ src/sana/modules/search_planning/router.py AutomaticModeRouter._HIGH_CONSEQUENCE] *)
Definition high_consequence_pattern : regex :=
  re "(医疗|诊断|法律|诉讼|投资|税务|medical|diagnosis|legal|investment|tax)".

(** [@ src/sana/modules/search_planning/router.py AutomaticModeRouter._COMPLETE_SOURCES] *)
Definition complete_sources_pattern : regex :=
  re "(完整来源|全部来源|逐项核实|研究报告|complete sources?|full report)".

(** [@ src/sana/modules/search_planning/router.py AutomaticModeRouter._CROSS_CHECK] *)
Definition cross_check_pattern : regex :=
  re "(交叉核实|交叉验证|多源核实|cross[- ]?check|verify across|multiple sources?)".

(** [@ src/sana/modules/search_planning/router.py AutomaticModeRouter._ENUMERATED_MULTI_FACT] *)
Definition enumerated_multi_fact_pattern : regex :=
  re "(列出.{0,24}(?:三|四|五|六|七|八|九|(?<![.\d])[3-9](?![.\d]))(?:种|个|项)?.{0,32}(?:分别|逐一)|(?:三|四|五|六|七|八|九|(?<![.\d])[3-9](?![.\d]))(?:种|个|项|类|条)(?:性质|状态|类型|术语|协议)|(?:three|four|five|six|seven|eight|nine|(?<![.\d])[3-9](?![.\d])).{0,48}(?:properties|states?|protocols?|levels?)|(?:three|four|five|six|seven|eight|nine|(?<![.\d])[3-9](?![.\d])).{0,32}(?:types?|items?|facts?).{0,32}(?:each|explain))".

(** [@ src/sana/modules/search_planning/router.py AutomaticModeRouter._CROSS_CONTEXT_UNIVERSAL] *)
Definition cross_context_universal_pattern : regex :=
  re "(?:universally|universal|every|all|所有|全部).{0,160}(?:rank|map|region|skill|段位|地图|地区|水平)".

(** [@ src/sana/modules/search_planning/router.py AutomaticModeRouter._PRIVATE_MULTI_ATTRIBUTE] *)
Definition private_multi_attribute_pattern : regex :=
  re "(?:private|memory|私人记忆|私有|隐藏分).{0,160}(?:teammates?|hidden\s+(?:rating|mmr)|exact\s+time|队友|隐藏分|精确时间).{0,100}(?:,|、|\band\b|和).{0,100}(?:teammates?|hidden\s+(?:rating|mmr)|exact\s+time|队友|隐藏分|精确时间)".

(** [@ src/sana/modules/search_planning/router.py AutomaticModeRouter._EXPLICIT_RESEARCH] *)
Definition explicit_research_pattern : regex := re "(?:研究|调研|\bresearch\b)".

(** [@ src/sana/modules/search_planning/router.py AutomaticModeRouter._FRESHNESS] *)
Definition freshness_pattern : regex := re "(最近|最新|当前|今天|recent|latest|current|today)".

Section Router.
Context `{Unicode}.

(** [@ src/sana/modules/search_planning/router.py AutomaticModeRouter.infer_fact_types] *)
Definition infer_fact_types (message : pystr) : list FactType :=
  omap (fun '(fact_type, pattern) => if re_found re_I message pattern then Some fact_type else None) fact_patterns.

Definition reason_if (b : bool) (reason : string) : list pystr := if b then [u reason] else [].

(** The reasons for research, in the order of the code. *)
(** [@ src/sana/modules/search_planning/router.py AutomaticModeRouter.route@72-93] *)
Definition route_reasons (message : pystr) : list pystr :=
  let fact_types := infer_fact_types message in
  let on r := re_found re_I message r in
  reason_if (3 <=? length fact_types)%nat "three_or_more_required_facts"
  ++ reason_if (bool_decide (FactType_COMPARISON ∈ fact_types)) "comparison_or_multi_hop"
  ++ reason_if (on freshness_pattern && (2 <=? length fact_types)%nat) "fresh_multi_fact"
  ++ reason_if (on high_consequence_pattern) "high_consequence_cross_check"
  ++ reason_if (on complete_sources_pattern) "complete_source_requirement"
  ++ reason_if (on cross_check_pattern) "explicit_cross_check"
  ++ reason_if (on enumerated_multi_fact_pattern) "enumerated_multi_fact"
  ++ reason_if (on explicit_research_pattern) "explicit_research_request"
  ++ reason_if (on cross_context_universal_pattern) "cross_context_universal_claim"
  ++ reason_if (on private_multi_attribute_pattern) "private_multi_attribute_request".

(** [@ src/sana/modules/search_planning/router.py AutomaticModeRouter.route] *)
Definition route (policy_version message : pystr) : res RoutingDecision :=
  let reasons := route_reasons message in
  if negb (bool_decide (reasons = []))
  then RoutingDecision_new SearchMode_RESEARCH (dedupe reasons) policy_version (flit 95 100)
  else
    let confidence := if bool_decide (infer_fact_types message = []) then flit 7 10 else flit 85 100 in
    RoutingDecision_new SearchMode_FAST [u "single_or_low_complexity_fact"] policy_version confidence.

(** The classifier is a port: a call that may change its own state. *)
(** [@ src/sana/modules/search_planning/router.py AutomaticModeRouter.route_with_boundary_classifier] *)
Definition route_with_boundary_classifier {S} (policy_version message : pystr)
    (classifier : option (pystr -> M S RoutingDecision)) : M S RoutingDecision :=
  decision ← lift (route policy_version message);
  match classifier with
  | None => mret decision
  | Some classify =>
      if fle (flit 8 10) (rd_confidence decision) then mret decision else
      classified ← classify message;
      _ ← raise_if (negb (bool_decide (rd_policy_version classified = policy_version)))
            (ValueError "Boundary classifier returned a different policy version");
      mret classified
  end.

(** ** Facts *)

Lemma infer_fact_types_sub message : infer_fact_types message `sublist_of` map fst fact_patterns.
Proof.
  unfold infer_fact_types. induction fact_patterns as [|[t r] l IH]; [constructor|]. cbn.
  destruct (re_found re_I message r); by constructor.
Qed.

Lemma infer_fact_types_length message : (length (infer_fact_types message) <= 6)%nat.
Proof. pose proof (sublist_length _ _ (infer_fact_types_sub message)) as Hl. exact Hl. Qed.

Lemma route_reasons_solid message : Forall (fun r => blank r = false) (route_reasons message).
Proof.
  unfold route_reasons. cbv zeta.
  repeat (apply Forall_app; split); unfold reason_if; (match goal with |- context [if ?b then _ else _] => destruct b end);
    repeat constructor.
Qed.

(** Routing always returns: research with its reasons, or a fast run that a classifier may look at
    when no kind of fact was recognized. *)
Lemma route_spec policy_version message : blank policy_version = false ->
  exists d, route policy_version message = Ok d /\ rd_policy_version d = policy_version /\
    (rd_mode d = SearchMode_RESEARCH <-> route_reasons message <> []) /\
    (rd_mode d = SearchMode_RESEARCH -> rd_reason_codes d = dedupe (route_reasons message)) /\
    (fle (flit 8 10) (rd_confidence d) = false <-> infer_fact_types message = [] /\ route_reasons message = []).
Proof.
  intros Hv. unfold route. cbv zeta. pose proof (route_reasons_solid message) as Hsolid.
  generalize dependent (route_reasons message). intros reasons Hsolid.
  generalize (infer_fact_types message). intros types. unfold RoutingDecision_new. rewrite Hv. cbv [fail_if mbind res_bind].
  assert (fle01 (flit 95 100) = true /\ fle01 (flit 7 10) = true /\ fle01 (flit 85 100) = true) as (-> & E1 & E2) by done.
  assert (fle (flit 8 10) (flit 95 100) = true /\ fle (flit 8 10) (flit 7 10) = false /\ fle (flit 8 10) (flit 85 100) = true)
    as (F1 & F2 & F3) by done.
  case_bool_decide as Hr; cbn [negb].
  - subst. case_bool_decide as Hf; rewrite ?E1, ?E2; cbn [negb existsb orb blank];
      (eexists; split; [reflexivity|]); cbn [rd_mode rd_reason_codes rd_policy_version rd_confidence];
      rewrite ?F2, ?F3; naive_solver.
  - assert (existsb blank (dedupe reasons) = false) as ->.
    { apply not_true_iff_false. rewrite existsb_exists. intros (r & Hin & Hbl). apply list_elem_of_In in Hin.
      rewrite elem_of_dedupe in Hin. rewrite Forall_forall in Hsolid. rewrite (Hsolid _ Hin) in Hbl. done. }
    cbn [negb]. eexists. split; [reflexivity|]. cbn [rd_mode rd_reason_codes rd_policy_version rd_confidence].
    rewrite F1. naive_solver.
Qed.
End Router.

Example route_examples :
  let route m := (fun d => (rd_mode d, rd_reason_codes d)) <$> @route ex_unicode (u "search-v12") (u m) in
  route "Compare the current price of A versus B today"%string
    = Ok (SearchMode_RESEARCH, [u "comparison_or_multi_hop"; u "fresh_multi_fact"]) /\
  route "Which RFC specifies TLS 1.3?"%string = Ok (SearchMode_FAST, [u "single_or_low_complexity_fact"]).
Proof. by vm_compute. Qed.
