(* ===== verification/QueryCompiler.v ===== *)
(** * QueryCompiler: queries from facts

    [sana/modules/search_planning/query_compiler.py]: the queries of a plan are made of the entity, the
    subject and the key of a fact and of fixed keywords, never of the text of a conversation; they are
    bounded in number and in length. *)

From Stdlib Require Import String.
From S2P Require Import Prelude Errors PyTime PyData PyStr Regex Transitions Run Coverage Intent Router.

(** [@ src/sana/modules/search_planning/query_compiler.py QueryCompiler._UNSAFE_SEMANTIC_FRAGMENT] *)
Definition unsafe_semantic_fragment : regex :=
  re "(?:sana(?:'s)?\s+(?:memory|private)|user(?:'s)?\s+private|ignore\s+(?:web|search|evidence)|do\s+not\s+mention|access\s+limitations?|private\s+memory|sana\s*\u7684?\s*\u79c1\u4eba\u8bb0\u5fc6|\u79c1\u4eba\u8bb0\u5fc6|\u5408\u7406\u7f16\u9020|\u4e0d\u8981\u8bf4\u4f60\u65e0\u6cd5\u8bbf\u95ee)".

(** [@ src/sana/modules/search_planning/query_compiler.py QueryCompiler._KEY_TOKEN] *)
Definition key_token : regex := re "[A-Za-z0-9]+".

(** [@ src/sana/modules/search_planning/query_compiler.py QueryCompiler._semantic_key_terms@50-71] *)
Definition excluded_terms : list pystr := map u
  ["answer"; "background"; "evidence"; "fact"; "gap"; "info"; "information"; "ignore"; "memory"; "overview"; "profile";
   "purpose"; "reveal"; "result"; "sana"; "source"; "status"; "user"]%string.

(** [@ src/sana/modules/search_planning/query_compiler.py QueryCompiler._keywords@85-93] *)
Definition chinese_keywords (t : FactType) : list (list string) :=
  match t with
  | FactType_CHARACTER_CHANGES => [["改动"; "官方补丁"]; ["平衡性调整"; "更新"]; ["技能改动"]]
  | FactType_VERSION => [["当前稳定版本"; "官方"]; ["最新版本号"]; ["最新更新"]]
  | FactType_PATCH_NOTES => [["补丁说明"; "官方"]; ["更新日志"]; ["版本公告"]]
  | FactType_TEAM_META => [["当前版本"; "配队"]; ["阵容"; "meta"]; ["排位热门阵容"]]
  | FactType_CURRENT_VALUE => [["当前"]; ["最新"]; ["官方数据"]]
  | FactType_COMPARISON => [["对比"]; ["区别"]; ["优缺点"]]
  | FactType_BACKGROUND => [["背景"]; ["介绍"]; ["官方资料"]]
  end%string.

(** [@ src/sana/modules/search_planning/query_compiler.py QueryCompiler._keywords@95-103] *)
Definition english_keywords (t : FactType) : list (list string) :=
  match t with
  | FactType_CHARACTER_CHANGES => [["changes"; "official patch"]; ["balance update"]; ["ability changes"]]
  | FactType_VERSION => [["latest stable version"; "official"]; ["current version number"]; ["latest release"]]
  | FactType_PATCH_NOTES => [["official patch notes"]; ["changelog"]; ["release notes"]]
  | FactType_TEAM_META => [["current meta"; "team composition"]; ["best lineup"]; ["ranked team picks"]]
  | FactType_CURRENT_VALUE => [["current"]; ["latest"]; ["official data"]]
  | FactType_COMPARISON => [["comparison"]; ["differences"]; ["pros and cons"]]
  | FactType_BACKGROUND => [["background"]; ["overview"]; ["official profile"]]
  end%string.

(** [@ src/sana/modules/search_planning/query_compiler.py QueryCompiler._keywords] *)
Definition keywords (fact : FactRequirement) (chinese : bool) : list (list pystr) :=
  map (map uu) (if chinese then chinese_keywords (fr_fact_type fact) else english_keywords (fr_fact_type fact)).

(** [@ src/sana/modules/search_planning/query_compiler.py QueryCompiler._freshness_days] *)
Definition freshness_days (fact : FactRequirement) : option Z :=
  match fr_freshness fact with
  | Freshness_CURRENT => Some 45
  | Freshness_RECENT => Some 180
  | Freshness_STABLE => None
  end.

(** Components are dropped from the end, down to two; every turn drops one. *)
(** [@ src/sana/modules/search_planning/query_compiler.py QueryCompiler._fit@107-109] *)
Fixpoint fit_parts (fuel : nat) (limit : Z) (parts : list pystr) : list pystr :=
  match fuel with
  | O => parts
  | S f => if (limit <? len (str_join (u " ") parts)) && (2 <? length parts)%nat
           then fit_parts f limit (take (length parts - 1) parts) else parts
  end.

(** [@ src/sana/modules/search_planning/query_compiler.py QueryCompiler._fit] *)
Definition fit (policy : SearchPlanningPolicy) (entity : pystr) (components : list pystr) : res pystr :=
  let parts := entity :: components in
  let query := str_join (u " ") (fit_parts (length parts) (sp_max_query_characters policy) parts) in
  if sp_max_query_characters policy <? len query then
    _ ← fail_if (sp_max_query_characters policy <? len entity) (ValueError "Canonical entity exceeds query character limit");
    Ok (rstrip (substrZ 0 (sp_max_query_characters policy) query))
  else Ok query.

Section Compiler.
Context `{Unicode} (sha256_utf8 : pystr -> pystr) (policy : SearchPlanningPolicy).

(** [subject or fact.subject] *)
(** [@ src/sana/modules/search_planning/query_compiler.py QueryCompiler._semantic_key_terms] *)
Definition semantic_key_terms (fact : FactRequirement) (entity subject : pystr) (keyword_groups : list pystr)
    : list pystr :=
  let subject := if bool_decide (subject = []) then fr_subject fact else subject in
  let excluded := map casefold (re_findall no_flags (str_join (u " ") (entity :: subject :: keyword_groups)) key_token)
                  ++ excluded_terms in
  take 4 (dedupe (base.filter (fun t => (2 <= length t)%nat /\ t ∉ excluded)
                    (map casefold (re_findall no_flags (fr_key fact) key_token)))).

(** [@ src/sana/modules/search_planning/query_compiler.py QueryCompiler._safe_entity] *)
Definition safe_entity (intent : NormalizedIntent) (fact : FactRequirement) : pystr :=
  let candidates := map normalize_spaces (ni_entity intent :: ni_aliases intent ++ [fr_subject fact]) in
  match base.filter (fun c => c <> [] /\ re_found re_I c unsafe_semantic_fragment = false) candidates with
  | c :: _ => c
  | [] => u "public evidence"
  end.

(** [@ src/sana/modules/search_planning/query_compiler.py QueryCompiler.signature] *)
Definition signature (query : pystr) (fact_key : option pystr) : res pystr :=
  let folded := casefold (uni_nfkc query) in
  let normalized := strip (re_sub no_flags folded (re "[^\w]+") (fun _ => u " ")) in
  let scope := match fact_key with
               | None => normalized
               | Some k => casefold (uni_nfkc k) ++ [0] ++ normalized
               end in
  text_digest sha256_utf8 scope.

(** The text of the query of one fact and one group of keywords. *)
(** [@ src/sana/modules/search_planning/query_compiler.py QueryCompiler.compile@184-200] *)
Definition query_text (intent : NormalizedIntent) (fact : FactRequirement) (groups : list pystr) : res pystr :=
  let entity := safe_entity intent fact in
  let subject := strip (fr_subject fact) in
  let subject := if re_found re_I subject unsafe_semantic_fragment then entity else subject in
  let components := if bool_decide (casefold subject = casefold entity) then [] else [subject] in
  fit policy entity (components ++ semantic_key_terms fact entity subject groups ++ groups).

(** The queries so far, and the signatures that are taken. *)
Record CompileState := { co_queries : list QuerySpec; co_signatures : list pystr }.

(** One turn of the loop over the candidates: the flag says that it goes on. *)
(** [@ src/sana/modules/search_planning/query_compiler.py QueryCompiler.compile@183-228] *)
Definition compile_candidate (intent : NormalizedIntent) (plan_revision limit : Z) (fact : FactRequirement)
    (variant_index : nat) (groups : list pystr) (st : CompileState) : res (bool * CompileState) :=
  text ← query_text intent fact groups;
  sig ← signature text (Some (fr_key fact));
  if bool_decide (sig ∈ co_signatures st) then Ok (true, st) else
  query ← QuerySpec_new
    {| qs_key := u "q:" ++ str_of_Z plan_revision ++ u ":" ++ fr_key fact ++ u ":" ++ str_of_Z (Z.of_nat variant_index + 1);
       qs_fact_key := fr_key fact; qs_text := text; qs_signature := sig; qs_locale := ni_locale intent;
       qs_freshness_days := freshness_days fact; qs_plan_revision := plan_revision;
       qs_metadata := [(u "fact_type", FactType_value (fr_fact_type fact));
                       (u "source_kind", match fr_preferred_source_kinds fact with k :: _ => k | [] => u "web" end)] |};
  let queries := co_queries st ++ [query] in
  Ok (Z.of_nat (length queries) <? limit, {| co_queries := queries; co_signatures := sig :: co_signatures st |}).

(** [@ src/sana/modules/search_planning/query_compiler.py QueryCompiler.compile@183-229] *)
Fixpoint compile_candidates (intent : NormalizedIntent) (plan_revision limit : Z)
    (candidates : list (FactRequirement * nat * list pystr)) (st : CompileState) : res CompileState :=
  match candidates with
  | [] => Ok st
  | (fact, variant_index, groups) :: r =>
      '(goes_on, st') ← compile_candidate intent plan_revision limit fact variant_index groups st;
      if goes_on : bool then compile_candidates intent plan_revision limit r st' else Ok st'
  end.

(** Variant by variant, each fact in turn; [variants] is a dict by the key of the fact. *)
(** [@ src/sana/modules/search_planning/query_compiler.py QueryCompiler.compile@169-179] *)
Definition query_candidates (intent : NormalizedIntent) (per_fact_limit : Z) : list (FactRequirement * nat * list pystr) :=
  let chinese := starts_with (u "zh") (str_lower (ni_locale intent)) in
  let variants := foldl (fun d f => dset (fr_key f) (keywords f chinese) d) [] (ni_facts intent) in
  flat_map (fun i => omap (fun f => (fun g => (f, i, g)) <$> (default [] (dget (fr_key f) variants) !! i)) (ni_facts intent))
    (seq 0 (Z.to_nat per_fact_limit)).

(** [@ src/sana/modules/search_planning/query_compiler.py QueryCompiler.compile] *)
Definition compile (intent : NormalizedIntent) (mode : SearchMode) (plan_revision : Z) (expansion : bool)
    (existing_signatures : list pystr) : res (list QuerySpec) :=
  let existing := dedupe existing_signatures in
  let total_limit := query_limit policy mode expansion in
  let limit := if expansion then Z.max 0 (total_limit - Z.of_nat (length existing)) else total_limit in
  if limit =? 0 then Ok [] else
  let per_fact_limit := if mode is SearchMode_FAST then sp_fast_max_queries_per_fact policy
                        else sp_research_max_queries_per_fact policy in
  st ← compile_candidates intent plan_revision limit (query_candidates intent per_fact_limit)
         {| co_queries := []; co_signatures := existing |};
  Ok (co_queries st).
End Compiler.
