(* ===== verification/QueryFacts.v ===== *)
(** * QueryFacts: what a compiled plan of queries guarantees

    A valid intent compiles unless one of its texts has half of a surrogate pair, which UTF-8 cannot
    encode and the signature of a query therefore cannot hash. Its queries are within the limits of the
    policy, each one belongs to a fact of the intent, and no two of them are the same. *)

From Stdlib Require Import String.
From S2P Require Import Prelude Errors PyTime PyData PyStr Regex RegexFacts Transitions Run Coverage Intent Router QueryCompiler.

(** ** White space *)

Lemma lstrip_length t : (length (lstrip t) <= length t)%nat.
Proof. destruct (lstrip_suffix t) as [p E]. apply (f_equal length) in E. rewrite length_app in E. lia. Qed.

Lemma split_space_nil_iff t : split_space t = [] <-> lstrip t = [].
Proof.
  induction t as [|c r IH]; [done|]. cbn [split_space lstrip]. destruct (is_space c); [done|].
  destruct r as [|d r]; [done|]. destruct (is_space d); [done|]. by destruct (split_space (d :: r)).
Qed.

Lemma normalize_spaces_length t : (length (normalize_spaces t) <= length (lstrip t))%nat.
Proof.
  unfold normalize_spaces. induction t as [|c r IH]; [done|]. cbn [split_space lstrip].
  destruct (is_space c) eqn:Ec; [done|]. destruct r as [|d r]; [done|].
  destruct (is_space d) eqn:Ed.
  - cbn [split_space] in IH |- *. cbn [lstrip] in IH. rewrite Ed in IH |- *. pose proof (lstrip_length r).
    destruct (split_space r) as [|p ps]; [simpl; lia|]. change (str_join (u " ") ([c] :: p :: ps)) with (c :: 32 :: str_join (u " ") (p :: ps)).
    cbn [length] in *. lia.
  - cbn [lstrip] in IH. rewrite Ed in IH. destruct (split_space (d :: r)) as [|p [|q ps]]; [simpl in *; lia..|].
    change (str_join (u " ") ((c :: p) :: q :: ps)) with (c :: str_join (u " ") (p :: q :: ps)). cbn [length] in *. lia.
Qed.

Lemma split_space_lstrip t : split_space (lstrip t) = split_space t.
Proof. induction t as [|c r IH]; [done|]. cbn [lstrip split_space]. destruct (is_space c) eqn:E; [done|]. cbn [split_space]. by rewrite E. Qed.

Lemma split_space_blank s : forallb is_space s = true -> split_space s = [].
Proof. intros Hs. by apply split_space_nil_iff, lstrip_nil_iff. Qed.

Lemma split_space_trailing t s : forallb is_space s = true -> split_space (t ++ s) = split_space t.
Proof.
  intros Hs. induction t as [|c r IH]; [by apply split_space_blank|]. cbn [app split_space].
  destruct (is_space c); [done|]. destruct r as [|d r]; cbn [app].
  - destruct s as [|d s]; [done|]. simpl in Hs. apply andb_prop in Hs as [Hd Hs']. rewrite Hd.
    by rewrite split_space_blank by (simpl; by rewrite Hd).
  - cbn [app] in IH. destruct (is_space d); by rewrite IH.
Qed.

Lemma strip_trailing t : exists s, forallb is_space s = true /\ lstrip t = strip t ++ s.
Proof.
  unfold strip. set (l := lstrip t). assert (Hgen : forall r : pystr, exists p, forallb is_space p = true /\ r = p ++ lstrip r).
  { induction r as [|c r (p & Hp & E)]; [by exists []|]. cbn [lstrip]. destruct (is_space c) eqn:Ec; [|by exists []].
    exists (c :: p). cbn [forallb app]. by rewrite Ec, Hp, <- E. }
  destruct (Hgen (reverse l)) as (p & Hp & E). exists (reverse p). split.
  - rewrite forallb_forall in Hp |- *. intros x Hx. apply Hp. apply list_elem_of_In. apply list_elem_of_In in Hx.
    by apply elem_of_reverse.
  - apply (f_equal reverse) in E. rewrite reverse_involutive, reverse_app in E. exact E.
Qed.

Lemma normalize_spaces_strip t : normalize_spaces (strip t) = normalize_spaces t.
Proof.
  unfold normalize_spaces. destruct (strip_trailing t) as (s & Hs & E).
  rewrite <- (split_space_lstrip t), E, split_space_trailing by done. done.
Qed.

(** Normalized white space makes a text no longer than stripping it. *)
Lemma normalize_spaces_strip_length t : len (normalize_spaces t) <= len (strip t).
Proof.
  rewrite <- normalize_spaces_strip. pose proof (normalize_spaces_length (strip t)). pose proof (lstrip_length (strip t)). lia.
Qed.

(** A normalized text starts with a character that is not white space. *)
Lemma normalize_spaces_head t c r : normalize_spaces t = c :: r -> is_space c = false.
Proof.
  unfold normalize_spaces. revert c r. induction t as [|a t IH]; intros c r; [done|]. cbn [split_space].
  destruct (is_space a) eqn:Ea; [apply IH|]. destruct t as [|d t].
  - intros [= <- _]. done.
  - destruct (is_space d).
    + destruct (split_space (d :: t)) as [|p ps]; intros E; injection E as <- _; done.
    + destruct (split_space (d :: t)) as [|p [|q ps]]; intros E; injection E as <- _; done.
Qed.

Lemma solid_char_blank (t : pystr) c : c ∈ t -> is_space c = false -> blank t = false.
Proof.
  intros Hc Hs. rewrite blank_spec. apply not_true_iff_false. rewrite forallb_forall. intros HF.
  rewrite HF in Hs; [done|]. by apply list_elem_of_In.
Qed.

(** Stripping the end keeps the characters that are not white space. *)
Lemma rstrip_head c t : is_space c = false -> exists r, rstrip (c :: t) = c :: r.
Proof.
  intros Hc. unfold rstrip. rewrite reverse_cons.
  assert (Hgen : forall l : pystr, exists p, lstrip (l ++ [c]) = p ++ [c]).
  { induction l as [|d l [p IH]]; cbn [app lstrip]; [rewrite Hc; by exists []|].
    destruct (is_space d); [by exists p|by exists (d :: l)]. }
  destruct (Hgen (reverse t)) as [p ->]. rewrite reverse_app. by eexists.
Qed.

Lemma rstrip_length t : len (rstrip t) <= len t.
Proof. unfold rstrip. rewrite length_reverse. pose proof (lstrip_length (reverse t)). rewrite length_reverse in *. lia. Qed.

Lemma occurs_rstrip t : occurs (rstrip t) t.
Proof. unfold rstrip. apply occurs_reverse. rewrite reverse_involutive. apply occurs_lstrip. Qed.

(** ** The text of a query *)

Lemma fit_parts_head fuel limit e parts : exists rest, fit_parts fuel limit (e :: parts) = e :: rest.
Proof.
  revert parts. induction fuel as [|f IH]; intros parts; cbn [fit_parts]; [by exists parts|].
  destruct (_ && _) eqn:E; [|by exists parts]. apply andb_prop in E as [_ E%Nat.ltb_lt]. cbn [length] in *.
  replace (S (length parts) - 1)%nat with (S (length parts - 1)) by lia. cbn [take]. apply IH.
Qed.

Lemma fit_parts_prefix fuel limit parts : exists n, fit_parts fuel limit parts = take n parts.
Proof.
  revert parts. induction fuel as [|f IH]; intros parts; cbn [fit_parts]; [exists (length parts); by rewrite take_ge|].
  destruct (_ && _); [|exists (length parts); by rewrite take_ge].
  destruct (IH (take (length parts - 1) parts)) as [n ->]. exists (n `min` (length parts - 1))%nat. by rewrite take_take.
Qed.

Lemma str_join_head (c : Z) e rest : exists r, str_join (u " ") ((c :: e) :: rest) = c :: r.
Proof. destruct rest as [|p rest]; simpl; eauto. Qed.

(** Within the limit, and it starts as the entity does. *)
Lemma fit_spec policy c e components : is_space c = false -> 1 <= sp_max_query_characters policy ->
  len (c :: e) <= sp_max_query_characters policy -> exists r, fit policy (c :: e) components = Ok (c :: r) /\
  len (c :: r) <= sp_max_query_characters policy.
Proof.
  intros Hc Hm He. unfold fit. cbv zeta.
  destruct (fit_parts_head (length ((c :: e) :: components)) (sp_max_query_characters policy) (c :: e) components) as [rest ->].
  destruct (str_join_head c e rest) as [r ->]. destruct (Z.ltb_spec (sp_max_query_characters policy) (len (c :: r))).
  - replace (sp_max_query_characters policy <? len (c :: e)) with false by lia. cbn [fail_if mbind res_bind].
    unfold substrZ, substr. replace (Z.to_nat (sp_max_query_characters policy)) with (S (Z.to_nat (sp_max_query_characters policy) - 1)) by lia.
    change (Z.to_nat 0) with 0%nat. cbn [take drop]. destruct (rstrip_head c (take (Z.to_nat (sp_max_query_characters policy) - 1) r) Hc) as [r' E].
    rewrite E. exists r'. split; [done|]. rewrite <- E. etrans; [apply rstrip_length|]. cbn [length]. rewrite length_take. lia.
  - exists r. split; [done|lia].
Qed.

(** ** Texts that can be encoded *)

(** Normalization and folding map characters to characters, never to halves of a surrogate pair. *)
Class EncodableText `{Unicode} : Prop := {
  nfkc_encodable t : encodable t = true -> encodable (uni_nfkc t) = true;
  casefold_char_encodable c : encodable [c] = true -> encodable (uni_casefold c) = true
}.

#[export] Instance ex_encodable : @EncodableText ex_unicode.
Proof.
  constructor; [done|]. intros c Hc. cbn. by repeat case_match.
Qed.

Lemma encodable_app a b : encodable (a ++ b) = encodable a && encodable b.
Proof. apply forallb_app. Qed.

Lemma encodable_cons c t : encodable (c :: t) = encodable [c] && encodable t.
Proof. apply (encodable_app [c]). Qed.

Lemma encodable_join sep parts : encodable sep = true -> Forall (fun p => encodable p = true) parts ->
  encodable (str_join sep parts) = true.
Proof.
  intros Hs. induction 1 as [|p parts Hp Hps IH]; [done|]. cbn [str_join]. destruct parts as [|q parts]; [done|].
  by rewrite !encodable_app, Hp, Hs, IH.
Qed.

Lemma split_space_encodable t : encodable t = true -> Forall (fun p => encodable p = true) (split_space t).
Proof.
  induction t as [|c r IH]; [constructor|]. rewrite encodable_cons. intros [Hc Hr]%andb_prop. cbn [split_space].
  specialize (IH Hr). destruct (is_space c); [done|]. destruct r as [|d r]; [by repeat constructor|].
  destruct (is_space d); [by constructor|]. destruct (split_space (d :: r)) as [|p ps]; [by repeat constructor|].
  apply Forall_cons in IH as [Hp Hps]. constructor; [|done]. by rewrite encodable_cons, Hc, Hp.
Qed.

Lemma normalize_spaces_encodable t : encodable t = true -> encodable (normalize_spaces t) = true.
Proof. intros Ht. by apply encodable_join, split_space_encodable. Qed.

(** What a text with half of a surrogate pair costs: [str.encode] raises [UnicodeEncodeError], which is a
    [ValueError] and no [TypedError]. *)
Definition surrogates : exn := ValueError "surrogates not allowed".

Section Encoding.
Context {U : Unicode} {Henc : EncodableText}.

Lemma casefold_encodable t : encodable t = true -> encodable (casefold t) = true.
Proof using Henc.
  induction t as [|c t IH]; [done|]. rewrite encodable_cons. intros [Hc Ht]%andb_prop.
  unfold casefold. cbn [flat_map]. fold (casefold t). rewrite encodable_app, IH, andb_true_r by done.
  destruct (Z.ltb_spec c 128).
  - destruct (ascii_upper_letter c) eqn:E; [|done]. unfold ascii_upper_letter in E. bools. unfold encodable. cbn.
    by rewrite (proj2 (Z.leb_gt _ _)) by lia.
  - destruct (is_space c); [done|]. by apply casefold_char_encodable.
Qed.

Lemma sub_encodable fl text r (f : re_match -> pystr) : encodable text = true -> (forall m, encodable (f m) = true) ->
  encodable (re_sub fl text r f) = true.
Proof using.
  intros Ht Hf. unfold re_sub. generalize 0%nat. induction (re_finditer fl text r) as [|m ms IH]; intros i; cbn [sub_from].
  - eapply occurs_encodable; [apply occurs_drop|done].
  - rewrite !encodable_app, Hf, IH, !andb_true_r. eapply occurs_encodable; [apply occurs_substr|done].
Qed.

Lemma findall_encodable fl text r : encodable text = true -> Forall (fun t => encodable t = true) (re_findall fl text r).
Proof using.
  intros Ht. unfold re_findall. apply Forall_forall. intros t Hin. apply list_elem_of_In, in_map_iff in Hin as (m & <- & _).
  eapply occurs_encodable; [apply match_text_occurs|done].
Qed.

Lemma signature_ok sha256_utf8 query k : encodable query = true -> encodable k = true ->
  exists sig, signature sha256_utf8 query (Some k) = Ok sig.
Proof using Henc.
  intros Hq Hk. unfold signature, text_digest. cbv zeta. rewrite !encodable_app.
  rewrite casefold_encodable by (by apply nfkc_encodable). cbn [andb].
  change (encodable [0]) with true. cbn [andb].
  rewrite (occurs_encodable _ (re_sub no_flags (casefold (uni_nfkc query)) (re "[^\w]+") (fun _ => u " "))).
  - cbn. by eexists.
  - apply occurs_strip.
  - apply sub_encodable; [by apply casefold_encodable, nfkc_encodable|done].
Qed.

Lemma signature_raises sha256_utf8 query k e : signature sha256_utf8 query k = Raise e -> e = surrogates.
Proof using.
  clear Henc. unfold signature, text_digest. cbv zeta. destruct (negb _); cbn; [by intros [= <-]|done].
Qed.
End Encoding.

(** ** Keywords *)

Lemma keywords_count fact chinese : length (keywords fact chinese) = 3%nat.
Proof. unfold keywords. rewrite length_map. destruct chinese, (fr_fact_type fact); done. Qed.

Lemma keywords_encodable fact chinese : Forall (Forall (fun k => encodable k = true)) (keywords fact chinese).
Proof. unfold keywords. destruct chinese, (fr_fact_type fact); repeat constructor. Qed.

(** ** The candidates *)

Section Compile.
Context {U : Unicode} {Henc : EncodableText} (sha256_utf8 : pystr -> pystr) (policy : SearchPlanningPolicy).
Context (Hchars : 64 <= sp_max_query_characters policy).

(** An intent whose texts can be hashed. *)
Record encodable_intent (i : NormalizedIntent) : Prop := {
  en_entity : encodable (ni_entity i) = true;
  en_aliases : Forall (fun a => encodable a = true) (ni_aliases i);
  en_facts : Forall (fun f => encodable (fr_subject f) = true /\ encodable (fr_key f) = true) (ni_facts i)
}.

Context (intent : NormalizedIntent) (Hvalid : valid_intent intent) (Hfacts : Forall valid_fact (ni_facts intent)).

Lemma safe_entity_spec fact : fact ∈ ni_facts intent -> exists c e, safe_entity intent fact = c :: e /\
  is_space c = false /\ len (c :: e) <= 64 /\ (encodable_intent intent -> encodable (c :: e) = true).
Proof using Hvalid Hfacts.
  intros Hf. unfold safe_entity. cbv zeta.
  match goal with |- context [base.filter ?p ?l] => destruct (base.filter p l) as [|x r] eqn:E end.
  { exists 112, (u "ublic evidence"). done. }
  assert (Hx : x ∈ x :: r) by (by left). rewrite <- E in Hx. apply list_elem_of_filter in Hx as [[Hne _] Hx].
  apply list_elem_of_In, in_map_iff in Hx as (t & Et & Ht). apply list_elem_of_In in Ht.
  assert (len (strip t) <= 64 /\ (encodable_intent intent -> encodable t = true)) as [Hlen Hent].
  { apply elem_of_cons in Ht as [->|[Ha| ->%list_elem_of_singleton]%elem_of_app].
    - split; [by apply search_term_length, Hvalid|intros He; apply He].
    - pose proof (vi_aliases _ Hvalid) as Hal. rewrite Forall_forall in Hal.
      split; [apply Hal in Ha; apply search_term_length in Ha; lia|].
      intros He. pose proof (en_aliases _ He) as Hae. rewrite Forall_forall in Hae. auto.
    - pose proof Hfacts as Hfv. rewrite Forall_forall in Hfv.
      split; [apply Hfv in Hf as [_ _ Hs]; apply search_term_length in Hs; lia|].
      intros He. pose proof (en_facts _ He) as Hfe. rewrite Forall_forall in Hfe. by apply Hfe. }
  destruct x as [|c e]; [done|]. exists c, e. ksplit.
  - by eapply normalize_spaces_head.
  - rewrite <- Et. pose proof (normalize_spaces_strip_length t). lia.
  - intros He. rewrite <- Et. by apply normalize_spaces_encodable, Hent.
Qed.

Lemma key_terms_encodable fact entity subject groups : encodable (fr_key fact) = true ->
  Forall (fun t => encodable t = true) (semantic_key_terms fact entity subject groups).
Proof using Henc.
  intros Hk. unfold semantic_key_terms. cbv zeta. apply Forall_take, Forall_forall. intros t Ht.
  rewrite elem_of_dedupe, list_elem_of_filter in Ht. destruct Ht as [_ Ht].
  apply list_elem_of_In, in_map_iff in Ht as (x & <- & Hx%list_elem_of_In). apply casefold_encodable.
  pose proof (findall_encodable no_flags (fr_key fact) key_token Hk) as HF. rewrite Forall_forall in HF. auto.
Qed.

Lemma fit_encodable entity components t : Forall (fun p => encodable p = true) (entity :: components) ->
  fit policy entity components = Ok t -> encodable t = true.
Proof using.
  clear Henc Hvalid Hfacts. intros Hp. unfold fit. cbv zeta.
  destruct (fit_parts_prefix (length (entity :: components)) (sp_max_query_characters policy) (entity :: components)) as [n ->].
  assert (encodable (str_join (u " ") (take n (entity :: components))) = true) as Hj
    by (apply encodable_join; [done|by apply Forall_take]).
  destruct (_ <? _); intros E; [|by injection E as <-].
  apply res_bind_ok_inv in E as (? & _ & E). injection E as <-. eapply occurs_encodable; [apply occurs_rstrip|].
  eapply occurs_encodable; [apply occurs_substr|exact Hj].
Qed.

(** The text of a query is short and not blank, and it can be hashed if the intent can. *)
Lemma query_text_ok fact groups : fact ∈ ni_facts intent -> Forall (fun k => encodable k = true) groups ->
  exists t, query_text policy intent fact groups = Ok t /\ blank t = false /\
    len t <= sp_max_query_characters policy /\ (encodable_intent intent -> encodable t = true).
Proof using Henc Hchars Hvalid Hfacts.
  intros Hf Hg. unfold query_text. cbv zeta.
  destruct (safe_entity_spec fact Hf) as (c & e & -> & Hc & Hl & He).
  match goal with |- context [fit _ _ ?l] => set (components := l) end.
  destruct (fit_spec policy c e components Hc) as (r & E & Hlen); [lia|lia|].
  exists (c :: r). ksplit; [by apply (solid_char_blank _ c); [left|]|].
  intros Hen. eapply fit_encodable; [|exact E]. constructor; [by apply He|].
  pose proof (en_facts _ Hen) as Hfe. rewrite Forall_forall in Hfe. destruct (Hfe _ Hf) as [Hs Hk].
  subst components. repeat apply Forall_app_2; [|by apply key_terms_encodable|done].
  case_bool_decide; [constructor|]. constructor; [|constructor]. destruct (re_found _ _ _); [by apply He|].
  eapply occurs_encodable; [apply occurs_strip|done].
Qed.

Abbreviation candidate := (FactRequirement * nat * list pystr)%type.

Definition candidate_ok (x : candidate) : Prop :=
  x.1.1 ∈ ni_facts intent /\ (x.1.2 < 3)%nat /\ Forall (fun k => encodable k = true) x.2.

Lemma variants_spec chinese facts d k v :
  (forall k v, dget k d = Some v -> exists f, v = keywords f chinese) ->
  dget k (foldl (fun d f => dset (fr_key f) (keywords f chinese) d) d facts) = Some v -> exists f, v = keywords f chinese.
Proof using.
  clear. revert d. induction facts as [|f facts IH]; intros d Hd; [apply Hd|]. cbn [foldl]. apply IH.
  intros k' v'. destruct (decide (fr_key f = k')) as [<-|Hne]; [rewrite dget_dset_eq|rewrite dget_dset_ne by done; apply Hd].
  intros [= <-]. by exists f.
Qed.

Lemma query_candidates_elem n x : x ∈ query_candidates intent n -> candidate_ok x.
Proof using.
  clear Henc Hchars Hvalid Hfacts. unfold query_candidates. cbv zeta. intros Hx.
  apply list_elem_of_In, in_flat_map in Hx as (i & _ & Hx%list_elem_of_In). apply list_elem_of_omap in Hx as (f & Hf & Hx).
  destruct (dget _ _) as [v|] eqn:Ev; cbv [default from_option id] in Hx; [|destruct i; done].
  apply variants_spec in Ev as [f' ->]; [|done].
  destruct (keywords f' (starts_with (u "zh") (str_lower (ni_locale intent))) !! i) as [g|] eqn:Eg; [|done]. cbn in Hx. injection Hx as <-. unfold candidate_ok. cbn.
  ksplit.
  - apply lookup_lt_Some in Eg. by rewrite keywords_count in Eg.
  - pose proof (keywords_encodable f' (starts_with (u "zh") (str_lower (ni_locale intent)))) as HF.
    rewrite Forall_forall in HF. apply HF. by eapply list_elem_of_lookup_2.
Qed.

(** The key of a fact and the number of its variant tell the candidates apart. *)
Definition candidate_key (x : candidate) : pystr * nat := (fr_key x.1.1, x.1.2).

Lemma NoDup_grid (keys : list pystr) (l : list nat) : NoDup keys -> NoDup l -> NoDup (flat_map (fun i => map (fun k => (k, i)) keys) l).
Proof using.
  clear. intros Hk. induction 1 as [|i l Hi Hl IH]; cbn [flat_map]; [constructor|]. apply NoDup_app. ksplit.
  - apply NoDup_fmap_2; [|done]. intros a b E. by injection E.
  - intros [k j] Hin Hin'. apply list_elem_of_In, in_map_iff in Hin as (k' & [= <- <-] & _).
    apply list_elem_of_In, in_flat_map in Hin' as (j & Hj & Hin'). apply in_map_iff in Hin' as (k'' & [= _ <-] & _).
    apply Hi. by apply list_elem_of_In.
Qed.

Lemma query_candidates_NoDup n : NoDup (map candidate_key (query_candidates intent n)).
Proof using Hvalid.
  eapply (sublist_NoDup _ (flat_map (fun i => map (fun k => (k, i)) (map fr_key (ni_facts intent))) (seq 0 (Z.to_nat n))));
    [apply NoDup_grid; [apply Hvalid|apply NoDup_seq]|]. unfold query_candidates. cbv zeta.
  induction (seq 0 (Z.to_nat n)) as [|i l IH]; cbn [flat_map]; [constructor|]. rewrite map_app. apply sublist_app; [|done].
  clear. match goal with |- context [foldl ?f ?d ?fs] => generalize (foldl f d fs) end. intros variants.
  induction (ni_facts intent) as [|f facts IH]; [constructor|]. cbn [map omap list_omap].
  destruct (default [] (dget (fr_key f) variants) !! i); cbn; by constructor.
Qed.

(** The text of a variant number. *)
Lemma variant_text i j : (i < 3)%nat -> (j < 3)%nat -> length (str_of_Z (Z.of_nat i + 1)) = 1%nat /\
  (str_of_Z (Z.of_nat i + 1) = str_of_Z (Z.of_nat j + 1) -> i = j).
Proof using. clear. intros Hi Hj. destruct i as [|[|[|i]]], j as [|[|[|j]]]; try lia; vm_compute; done. Qed.

Definition query_key (revision : Z) (x : candidate) : pystr :=
  u "q:" ++ str_of_Z revision ++ u ":" ++ fr_key x.1.1 ++ u ":" ++ str_of_Z (Z.of_nat x.1.2 + 1).

Lemma query_key_inj revision x y : candidate_ok x -> candidate_ok y -> query_key revision x = query_key revision y ->
  candidate_key x = candidate_key y.
Proof using.
  clear Henc Hchars Hvalid Hfacts. intros (_ & Hx & _) (_ & Hy & _). unfold query_key, candidate_key. intros E.
  do 3 apply app_inv_head in E. rewrite !app_assoc in E. destruct (variant_text _ _ Hx Hy) as [L1 I].
  destruct (variant_text _ _ Hy Hx) as [L2 _]. apply app_inj_2 in E as [E1 E2]; [|congruence].
  apply app_inv_tail in E1. by rewrite E1, (I E2).
Qed.

Lemma NoDup_query_keys revision l : Forall candidate_ok l -> NoDup (map candidate_key l) -> NoDup (map (query_key revision) l).
Proof using.
  clear Henc Hchars Hvalid Hfacts. induction 1 as [|x l Hx Hl IH]; cbn [map]; [constructor|].
  intros [Hn Hd]%NoDup_cons. apply NoDup_cons. split; [|auto]. intros Hin. apply Hn.
  apply list_elem_of_In, in_map_iff in Hin as (y & E & Hy). rewrite Forall_forall in Hl.
  rewrite <- (query_key_inj revision y x); [|by apply Hl, list_elem_of_In|done..].
  apply list_elem_of_In, in_map_iff. by exists y.
Qed.

(** ** The loop *)

(** What is promised of a query. *)
Record well_made (revision : Z) (q : QuerySpec) : Prop := {
  wm_fact : exists f, f ∈ ni_facts intent /\ qs_fact_key q = fr_key f /\ qs_freshness_days q = freshness_days f;
  wm_text : blank (qs_text q) = false /\ len (qs_text q) <= sp_max_query_characters policy;
  wm_signature : signature sha256_utf8 (qs_text q) (Some (qs_fact_key q)) = Ok (qs_signature q);
  wm_plan : qs_plan_revision q = revision /\ qs_locale q = ni_locale intent
}.

Lemma query_key_blank revision x : blank (query_key revision x) = false.
Proof using. by apply (solid_char_blank _ 113); [left|]. Qed.

Lemma compile_candidate_ok revision limit x st : 1 <= revision -> candidate_ok x ->
  (compile_candidate sha256_utf8 policy intent revision limit x.1.1 x.1.2 x.2 st = Raise surrogates /\ ~ encodable_intent intent) \/
  exists goes_on st', compile_candidate sha256_utf8 policy intent revision limit x.1.1 x.1.2 x.2 st = Ok (goes_on, st') /\
  ((goes_on = true /\ st' = st /\ co_signatures st <> []) \/
   (exists q, well_made revision q /\ qs_key q = query_key revision x /\ ~ (qs_signature q ∈ co_signatures st) /\
      co_queries st' = co_queries st ++ [q] /\ co_signatures st' = qs_signature q :: co_signatures st /\
      (goes_on = (Z.of_nat (length (co_queries st ++ [q])) <? limit)))).
Proof using Henc Hchars Hvalid Hfacts.
  intros Hr (Hf & Hi & Hg). destruct x as [[fact i] groups]. cbn [fst snd] in *. unfold compile_candidate.
  destruct (query_text_ok fact groups Hf Hg) as (text & -> & Hblank & Hlen & Het). cbn [mbind res_bind].
  destruct (signature sha256_utf8 text (Some (fr_key fact))) as [sig|e] eqn:Hsig; cbn [mbind res_bind].
  2:{ left. split; [by apply signature_raises in Hsig as ->|]. intros Hen.
      pose proof (en_facts _ Hen) as Hfe. rewrite Forall_forall in Hfe. destruct (Hfe _ Hf) as [_ Hek].
      destruct (signature_ok sha256_utf8 text (fr_key fact) (Het Hen) Hek) as [sig E]. congruence. }
  right.
  case_bool_decide as Hin.
  { exists true, st. split; [done|]. left. ksplit. intros E. rewrite E in Hin. set_solver. }
  pose proof Hfacts as Hfv. rewrite Forall_forall in Hfv. destruct (Hfv _ Hf) as [Hkey _ _].
  unfold QuerySpec_new. cbn [qs_key qs_fact_key qs_text qs_plan_revision qs_freshness_days].
  pose proof (query_key_blank revision (fact, i, groups)) as Hkb. unfold query_key in Hkb. cbn [fst snd] in Hkb.
  rewrite Hkb, Hkey, Hblank. cbn [orb fail_if mbind res_bind]. replace (revision <? 1) with false by lia.
  assert (match freshness_days fact with Some d => d <? 1 | None => false end = false) as ->
    by (unfold freshness_days; by destruct (fr_freshness fact)).
  cbn [fail_if mbind res_bind]. do 2 eexists. split; [reflexivity|]. right. eexists. split; [|by repeat split].
  constructor; cbn; try done. by exists fact.
Qed.

Lemma compile_candidates_ok revision limit l st : 1 <= revision -> Forall candidate_ok l ->
  Z.of_nat (length (co_queries st)) < limit ->
  (compile_candidates sha256_utf8 policy intent revision limit l st = Raise surrogates /\ ~ encodable_intent intent) \/
  exists st' new, compile_candidates sha256_utf8 policy intent revision limit l st = Ok st' /\
  co_queries st' = co_queries st ++ new /\ Z.of_nat (length (co_queries st')) <= limit /\
  Forall (well_made revision) new /\ map qs_key new `sublist_of` map (query_key revision) l /\
  NoDup (map qs_signature new) /\ (forall s, s ∈ map qs_signature new -> s ∉ co_signatures st) /\
  (co_signatures st = [] -> l <> [] -> new <> []).
Proof using Henc Hchars Hvalid Hfacts.
  intros Hr Hl. revert st. induction Hl as [|x l Hx Hl IH]; intros st Hst.
  { right. exists st, []. cbn. rewrite app_nil_r. ksplit; [lia|constructor|set_solver]. }
  destruct x as [[fact i] groups] eqn:Ex. cbn [compile_candidates].
  destruct (compile_candidate_ok revision limit x st Hr) as [[E He]|(goes_on & st1 & E & Hcase)]; [by subst| |].
  { left. subst x. cbn [fst snd] in E. by rewrite E. }
  subst x. cbn [fst snd] in E. rewrite E. cbn [mbind res_bind].
  destruct Hcase as [(-> & -> & Hne)|(q & Hq & Hk & Hfresh & Eq & Es & ->)].
  - destruct (IH st Hst) as [?|(st' & new & E' & I1 & I2 & I3 & I4 & I5 & I6 & I7)]; [by left|].
    right. exists st', new. rewrite E'. ksplit. by constructor.
  - rewrite <- Eq. destruct (Z.ltb_spec (Z.of_nat (length (co_queries st1))) limit) as [Hlt|Hge].
    + destruct (IH st1 Hlt) as [?|(st' & new & E' & I1 & I2 & I3 & I4 & I5 & I6 & _)]; [by left|].
      right. exists st', (q :: new). rewrite E'.
      rewrite I1, Eq, <- app_assoc in *. cbn [map app] in *. ksplit.
      * by constructor.
      * rewrite Hk. by constructor.
      * constructor; [|done]. intros Hin. apply I6 in Hin. rewrite Es in Hin. set_solver.
      * intros s [->|Hs]%elem_of_cons; [done|]. apply I6 in Hs. rewrite Es in Hs. set_solver.
    + right. exists st1, [q]. rewrite Eq in *. rewrite length_app in *. cbn [length map] in *. ksplit.
      * lia.
      * by constructor.
      * rewrite Hk. by constructor; apply sublist_nil_l.
      * by apply NoDup_singleton.
      * intros s ->%list_elem_of_singleton. done.
Qed.

(** The number of queries that may still be asked. *)
Definition queries_left (mode : SearchMode) (expansion : bool) (existing : list pystr) : Z :=
  if expansion then Z.max 0 (query_limit policy mode expansion - Z.of_nat (length (dedupe existing)))
  else query_limit policy mode expansion.

Definition per_fact_limit (mode : SearchMode) : Z :=
  if mode is SearchMode_FAST then sp_fast_max_queries_per_fact policy else sp_research_max_queries_per_fact policy.

Lemma query_candidates_some n : 1 <= n -> query_candidates intent n <> [].
Proof using Hvalid.
  intros Hn. clear -Hvalid Hn. destruct (ni_facts intent) as [|f facts] eqn:Ef; [by destruct Hvalid|].
  assert (Hin : exists x, x ∈ query_candidates intent n); [|destruct Hin as [x Hx]; intros E; rewrite E in Hx; set_solver].
  unfold query_candidates. cbv zeta. rewrite Ef.
  match goal with |- context [foldl ?g ?d ?fs] => set (variants := foldl g d fs) end.
  assert (exists v, dget (fr_key f) variants = Some v /\ length v = 3%nat) as (v & Ev & Lv).
  { assert (is_Some (dget (fr_key f) variants)) as [v Ev].
    { subst variants. cbn [foldl]. assert (Hkeep : forall fs (d : list (pystr * list (list pystr))) k, is_Some (dget k d) ->
        is_Some (dget k (foldl (fun d f => dset (fr_key f) (keywords f (starts_with (u "zh") (str_lower (ni_locale intent)))) d) d fs))).
      { induction fs as [|g fs IH]; intros d k Hd; [done|]. cbn [foldl]. apply IH.
        destruct (decide (fr_key g = k)) as [<-|]; [by rewrite dget_dset_eq|by rewrite dget_dset_ne]. }
      apply Hkeep. by rewrite dget_dset_eq. }
    exists v. split; [done|]. apply variants_spec in Ev as [g ->]; [apply keywords_count|done]. }
  destruct v as [|g v]; [done|]. exists (f, 0%nat, g).
  replace (Z.to_nat n) with (S (Z.to_nat n - 1)) by lia. cbn [seq flat_map]. apply elem_of_app. left.
  apply list_elem_of_omap. exists f. split; [by left|]. by rewrite Ev.
Qed.

(** What is promised of the queries of a plan. *)
Definition compiled_well (mode : SearchMode) (revision : Z) (expansion : bool) (existing : list pystr) (qs : list QuerySpec) : Prop :=
  Z.of_nat (length qs) <= queries_left mode expansion existing /\ Forall (well_made revision) qs /\
  NoDup (map qs_key qs) /\ NoDup (map qs_signature qs) /\ (forall s, s ∈ map qs_signature qs -> s ∉ existing) /\
  (existing = [] -> 1 <= queries_left mode expansion existing -> 1 <= per_fact_limit mode -> qs <> []).

Lemma compile_result mode revision expansion existing : 1 <= revision -> 0 <= queries_left mode expansion existing ->
  match compile sha256_utf8 policy intent mode revision expansion existing with
  | Ok qs => compiled_well mode revision expansion existing qs
  | Raise e => e = surrogates /\ ~ encodable_intent intent
  end.
Proof using Henc Hchars Hvalid Hfacts.
  intros Hr Hl. unfold compile. cbv zeta. fold (queries_left mode expansion existing). fold (per_fact_limit mode).
  destruct (Z.eqb_spec (queries_left mode expansion existing) 0) as [E0|Hne].
  { unfold compiled_well. cbn [map]. ksplit; first [lia | by constructor | set_solver]. }
  set (l := query_candidates intent (per_fact_limit mode)).
  assert (Hok : Forall candidate_ok l) by (apply Forall_forall; intros x; apply query_candidates_elem).
  destruct (compile_candidates_ok revision (queries_left mode expansion existing) l
    {| co_queries := []; co_signatures := dedupe existing |} Hr Hok) as [[E He]|(st' & new & E & I1 & I2 & I3 & I4 & I5 & I6 & I7)];
    [cbn; lia|by rewrite E|].
  cbn [co_queries co_signatures app] in *. rewrite E. cbn [mbind res_bind]. unfold compiled_well. rewrite I1 in *. ksplit.
  - eapply sublist_NoDup; [|exact I4]. apply NoDup_query_keys; [done|apply query_candidates_NoDup].
  - intros s Hs. apply I6 in Hs. by rewrite elem_of_dedupe in Hs.
  - intros -> Hq Hp. apply I7; [done|]. by apply query_candidates_some.
Qed.

Lemma compile_total mode revision expansion existing : encodable_intent intent -> 1 <= revision ->
  0 <= queries_left mode expansion existing ->
  exists qs, compile sha256_utf8 policy intent mode revision expansion existing = Ok qs /\
    compiled_well mode revision expansion existing qs.
Proof using Henc Hchars Hvalid Hfacts.
  intros He Hr Hl. pose proof (compile_result mode revision expansion existing Hr Hl) as H.
  destruct (compile _ _ _ _ _ _ _) as [qs|e]; [by exists qs|by destruct H].
Qed.
End Compile.

(** Claim C17. What the compiler makes of a valid intent, in both modes, for a first plan and for an
    expansion: either queries, or [UnicodeEncodeError], and that only if one of the intent's texts (its
    entity, an alias, or the key or subject of a fact) has half of a surrogate pair. The queries are
    within what is left of the limit, each one belongs to a fact of the intent, fits the length limit and
    is not blank, no two have the same key or signature, none repeats an existing signature, and a first
    plan is not empty. The laws of [EncodableText] say of the Unicode database that normalization and
    case folding make no such half. *)
Theorem valid_intent_compiles `{EncodableText} (sha256_utf8 : pystr -> pystr) (intent : NormalizedIntent) (mode : SearchMode)
    (revision : Z) (expansion : bool) (existing : list pystr) :
  valid_intent intent -> Forall valid_fact (ni_facts intent) -> 1 <= revision ->
  match compile sha256_utf8 default_planning_policy intent mode revision expansion existing with
  | Ok qs =>
      Z.of_nat (length qs) <= queries_left default_planning_policy mode expansion existing /\
      Forall (well_made sha256_utf8 default_planning_policy intent revision) qs /\
      NoDup (map qs_key qs) /\ NoDup (map qs_signature qs) /\ (forall s, s ∈ map qs_signature qs -> s ∉ existing) /\
      (existing = [] -> qs <> [])
  | Raise e => e = surrogates /\ ~ encodable_intent intent
  end.
Proof.
  intros Hv Hf Hr.
  assert (Hl : 0 <= queries_left default_planning_policy mode expansion existing)
    by (unfold queries_left; destruct expansion; [lia|destruct mode; vm_compute; discriminate]).
  assert (Hc : 64 <= sp_max_query_characters default_planning_policy) by done.
  pose proof (compile_result sha256_utf8 default_planning_policy Hc intent Hv Hf mode revision expansion existing Hr Hl) as HR.
  destruct (compile _ _ _ _ _ _ _) as [qs|e]; [|done]. destruct HR as (H1 & H2 & H3 & H4 & H5 & H6).
  ksplit. intros ->. apply H6; [done| |]; destruct mode, expansion; vm_compute; discriminate.
Qed.

(** ** Example *)

Definition ex_tls_intent : NormalizedIntent := {|
  ni_entity := u "TLS 1.3"; ni_aliases := []; ni_locale := u "en";
  ni_facts := [{| fr_key := u "tls13_rfc"; fr_fact_type := FactType_BACKGROUND;
                  fr_description := u "RFC that specifies TLS 1.3"; fr_subject := u "TLS 1.3 RFC"; fr_required := true;
                  fr_freshness := Freshness_STABLE; fr_consequence := Consequence_LOW;
                  fr_preferred_source_kinds := [u "official"] |}];
  ni_requires_comparison := false; ni_requires_complete_sources := false |}.

Example compile_example :
  map (fun q => (qs_key q, qs_text q)) <$> @compile ex_unicode id default_planning_policy ex_tls_intent SearchMode_RESEARCH 1 false []
  = Ok [(u "q:1:tls13_rfc:1", u "TLS 1.3 TLS 1.3 RFC tls13 background"); (u "q:1:tls13_rfc:2", u "TLS 1.3 TLS 1.3 RFC tls13 overview");
        (u "q:1:tls13_rfc:3", u "TLS 1.3 TLS 1.3 RFC tls13 official profile")].
Proof. by vm_compute. Qed.

Lemma ex_tls_valid : @valid_intent ex_unicode ex_tls_intent /\ Forall (@valid_fact ex_unicode) (ni_facts ex_tls_intent).
Proof.
  split.
  - apply (proj1 (@NormalizedIntent_new_spec ex_unicode ex_tls_intent ex_tls_intent)). by vm_compute.
  - repeat constructor; by vm_compute.
Qed.

Lemma valid_intent_compiles_witness : exists qs,
  @compile ex_unicode id default_planning_policy ex_tls_intent SearchMode_FAST 1 false [] = Ok qs /\ qs <> [] /\
  NoDup (map qs_signature qs).
Proof.
  destruct ex_tls_valid as [Hv Hf].
  pose proof (@valid_intent_compiles ex_unicode ex_encodable id ex_tls_intent SearchMode_FAST 1 false [] Hv Hf ltac:(lia)) as H.
  destruct (@compile ex_unicode id default_planning_policy ex_tls_intent SearchMode_FAST 1 false []) as [qs|e] eqn:E;
    [|exfalso; revert E; vm_compute; discriminate].
  destruct H as (_ & _ & _ & Hnd & _ & Hne). exists qs. split; [exact eq_refl|]. split; [exact (Hne eq_refl)|exact Hnd].
Defined.

(** Half of a surrogate pair in the key of a fact stops the compiler. *)
Definition ex_half_intent : NormalizedIntent :=
  {| ni_entity := u "TLS 1.3"; ni_aliases := []; ni_locale := u "en";
     ni_facts := [{| fr_key := 55296 :: u "tls13_rfc"; fr_fact_type := FactType_BACKGROUND;
                     fr_description := u "RFC that specifies TLS 1.3"; fr_subject := u "TLS 1.3 RFC"; fr_required := true;
                     fr_freshness := Freshness_STABLE; fr_consequence := Consequence_LOW;
                     fr_preferred_source_kinds := [] |}];
     ni_requires_comparison := false; ni_requires_complete_sources := false |}.

Lemma surrogate_key_escapes :
  @NormalizedIntent_new ex_unicode ex_half_intent = Ok ex_half_intent /\
  @compile ex_unicode id default_planning_policy ex_half_intent SearchMode_FAST 1 false [] = Raise surrogates.
Proof. split; vm_compute; reflexivity. Qed.
