(* ===== verification/Planner.v ===== *)
(** * Planner: from a message to an intent

    [sana/modules/search_planning/planner.py]: the number of facts a message asks for at least, the
    parser that a model's plan must pass, and the planner, which asks a model only when no reviewed
    template applies. Then [HeuristicIntentPlanner] and [ModelIntentPlanner] of
    [sana/app/search_operations.py]: an intent made of the message alone, and the planner of a step,
    which falls back to it when the model gives none. *)

From Stdlib Require Import String.
From S2P Require Import Prelude Errors PyTime PyData PyStr Regex Transitions Run Coverage Intent ModelGateway.
From S2P Require Import Templates Router.

(** ** Patterns *)

(** [@ src/sana/modules/search_planning/planner.py _COUNT_WORDS] *)
Definition count_words : list (pystr * Z) :=
  map (fun '(w, n) => (uu w, n))
    [("二", 2); ("两", 2); ("三", 3); ("四", 4); ("五", 5); ("六", 6); ("七", 7); ("八", 8); ("two", 2); ("three", 3);
     ("four", 4); ("five", 5); ("six", 6); ("seven", 7); ("eight", 8)]%string.

(** The groups [zh], [en], [zh_noun] and [en_noun] are the first to the fourth. *)
(** [@ src/sana/modules/search_planning/planner.py _EXPLICIT_COUNT] *)
Definition explicit_count_pattern : regex :=
  re "(?:列出|列举|说明|解释|比较|对比).{0,16}?(?P<zh>[二两三四五六七八2-8])(?:种|个|项|类|条)?|(?:list|name|explain|compare).{0,16}?(?P<en>two|three|four|five|six|seven|eight|[2-8])(?:\s+(?:types?|items?|facts?|objects?|options?))?|(?P<zh_noun>[二两三四五六七八2-8])(?:种|个|项|类|条)(?:性质|状态|类型|术语|值|协议)?|(?:the\s+)?(?P<en_noun>two|three|four|five|six|seven|eight|[2-8])(?:\s+[a-z-]+){0,2}\s+(?:types?|items?|facts?|objects?|options?|properties|states?|literals?|protocols?|levels?|terms?|representations?)".

(** [@ src/sana/modules/search_planning/planner.py _EXPLICIT_CROSS_CHECK] *)
Definition explicit_cross_check_pattern : regex :=
  re "(交叉核实|交叉验证|多源核实|cross[- ]?check|verify across|multiple sources?)".

(** [@ src/sana/modules/search_planning/planner.py _SCALAR_PLUS_ENUMERATION] *)
Definition scalar_plus_enumeration_pattern : regex :=
  re "\b(?:which|what)\b.{0,64}?(?:,|\band\b).{0,48}?\b(?:two|three|four|five|six|seven|eight|[2-8])\b".

(** [@ src/sana/modules/search_planning/planner.py _OPEN_SUPPORTED_VERSION_SET] *)
Definition open_supported_version_set_pattern : regex :=
  re "(?:当前仍受支持|currently supported).{0,48}(?:版本|versions?).{0,96}(?:停止支持|end[- ]of[- ]support|eol|final release)".

(** [@ src/sana/modules/search_planning/planner.py _EXPLICIT_SOURCE_COUNT] *)
Definition explicit_source_count_pattern : regex :=
  re "(?P<zh>[\u4e8c\u4e24\u4e09\u56db\u4e94\u516d\u4e03\u516b2-8])(?:\u4e2a|\u6761|\u4efd)?(?:\u53ef\u9760|\u72ec\u7acb|\u6743\u5a01)?(?:\u7684)?(?:\u6765\u6e90|\u5206\u6790\u6765\u6e90)|(?P<en>two|three|four|five|six|seven|eight|[2-8])\s+(?:reliable\s+|independent\s+|authoritative\s+)?sources?".

(** [@ src/sana/modules/search_planning/planner.py _SOURCE_PERSPECTIVE_SPLIT] *)
Definition source_perspective_split_pattern : regex :=
  re "(?:separate|distinguish|\u533a\u5206).{0,80}(?:official|confirmed|\u5b98\u65b9|\u786e\u8ba4).{0,80}(?:community|independent|\u793e\u533a|\u72ec\u7acb)|(?:official|confirmed|\u5b98\u65b9|\u786e\u8ba4).{0,80}(?:community|independent|\u793e\u533a|\u72ec\u7acb).{0,80}(?:separate|distinguish|\u533a\u5206)".

(** [@ src/sana/modules/search_planning/planner.py _MULTI_CONTEXT_UNIVERSAL] *)
Definition multi_context_universal_pattern : regex :=
  re "(?:universally|universal|every|all|\u6240\u6709|\u5168\u90e8).{0,120}(?:rank|map|region|skill|\u6bb5\u4f4d|\u5730\u56fe|\u5730\u533a|\u6c34\u5e73)".

(** [@ src/sana/modules/search_planning/planner.py _ENUMERATION_PLUS_RELATION] *)
Definition enumeration_plus_relation_pattern : regex :=
  re "(?:three|four|five|six|seven|eight|[3-8]).{0,48}(?:properties|states?|types?|levels?).{0,48}(?:and|plus).{0,48}(?:tradeoff|relationship|constraint)|(?:\u4e09|\u56db|\u4e94|\u516d|\u4e03|\u516b|[3-8])(?:\u79cd|\u4e2a|\u9879|\u7c7b|\u6761).{0,48}(?:\u6027\u8d28|\u72b6\u6001|\u7c7b\u578b|\u5c42\u7ea7).{0,48}(?:\u4ee5\u53ca|\u548c|\u5e76).{0,48}(?:\u53d6\u820d|\u5173\u7cfb|\u7ea6\u675f)".

(** [@ src/sana/modules/search_planning/planner.py _MAP_RANK_WITH_ANALYSIS_SOURCES] *)
Definition map_rank_with_analysis_sources_pattern : regex :=
  re "(?=.*(?:map\s+rotation|\u5730\u56fe\u8f6e\u6362))(?=.*(?:ranked\s+rules?|\u6392\u540d\u89c4\u5219|\u6392\u4f4d\u89c4\u5219))(?=.*(?:(?:two|2|\u4e8c|\u4e24).{0,32}(?:analysis\s+sources?|evidence-backed\s+team-composition\s+perspectives?|\u5206\u6790\u6765\u6e90)))".

(** [@ src/sana/modules/search_planning/planner.py _SCALAR_ONLY] *)
Definition scalar_only_pattern : regex :=
  re "(?:\u53ea(?:\u56de\u7b54|\u6838\u5bf9|\u544a\u8bc9)|\u4ec5(?:\u56de\u7b54|\u6838\u5bf9)|only\s+(?:return|answer|report|check)|return\s+one|give\s+(?:only\s+)?(?:one|a\s+single))".

(** [@ src/sana/modules/search_planning/planner.py _ORIGIN_PAIR] *)
Definition origin_pair_pattern : regex :=
  re "(?:\u7531\u8c01\u521b\u5efa|who\s+created).{0,100}(?:\u9996\u6b21\u516c\u5f00|first\s+public\s+release|\u54ea\u4e00\u5e74|what\s+year)|(?:\u9996\u6b21\u516c\u5f00|first\s+public\s+release).{0,100}(?:\u7531\u8c01\u521b\u5efa|who\s+created)".

(** [@ src/sana/modules/search_planning/planner.py _HTTP_TWO_STATUS_DIMENSIONS] *)
Definition http_two_status_dimensions_pattern : regex :=
  re "(?:compare|\u6bd4\u8f83).{0,80}(?<!\d)\d{3}(?!\d).{0,40}(?<!\d)\d{3}(?!\d).{0,100}(?:semantics?|meaning|\u8bed\u4e49).{0,80}(?:content|response|\u54cd\u5e94\u5185\u5bb9).{0,40}(?:constraint|\u7ea6\u675f)".

(** [@ src/sana/modules/search_planning/planner.py _PUBLIC_DOMAIN_OPTION_PAIR] *)
Definition public_domain_option_pair_pattern : regex :=
  re "public\s+domain.{0,160}(?:what\s+option|option|\u4ec0\u4e48\u9009\u9879|\u63d0\u4f9b\u4e86\u4ec0\u4e48)".

(** [@ src/sana/modules/search_planning/planner.py _CHECKLIST_CUE] *)
Definition checklist_cue_pattern : regex := re "(?:\u6838\u5bf9|(?:table|documentation|\u8d44\u6599)\s*[:\uff1a])".

(** [@ src/sana/modules/search_planning/planner.py _TWO_ENTITIES_FOR_EACH] *)
Definition two_entities_for_each_pattern : regex :=
  re "(?:two\s+(?:newest|latest)|\u4e24(?:\u4e2a|\u6761)?(?:\u6700\u65b0|\u5f53\u524d)).{0,180}(?:for\s+each|\u5404\u81ea|\u6bcf\u4e2a)".

(** [@ src/sana/modules/search_planning/planner.py SearchPlanner._OPTIONAL_REQUEST] *)
Definition optional_request_pattern : regex := re "(可选|非必需|如有|如果能找到|optional|if available|if possible)".

Section Planner.
(** [type(error).__name__] is a parameter. *)
Context `{Unicode} `{PyText} `{JsonText} (error_type : exn -> pystr).

(** ** How many facts *)

(** [a or b or ""] of groups *)
Fixpoint first_group (gs : list (option pystr)) : pystr :=
  match gs with
  | Some (c :: t) :: _ => c :: t
  | _ :: r => first_group r
  | [] => []
  end.

(** [int(raw) if raw.isdecimal() else _COUNT_WORDS[raw]] *)
Definition count_of_word (raw : pystr) : res Z :=
  if str_isdecimal raw then Ok (decimal_value raw) else
  match dget raw count_words with
  | Some n => Ok n
  | None => Raise (KeyError "count word")
  end.

(** The counts that the matches of a pattern name. *)
(** [@ src/sana/modules/search_planning/planner.py minimum_fact_count@181-196] *)
Fixpoint named_counts (text : pystr) (groups : list nat) (ms : list re_match) : res (list Z) :=
  match ms with
  | [] => Ok []
  | m :: r =>
      n ← count_of_word (casefold (first_group (map (fun g => group text g m) groups)));
      ns ← named_counts text groups r;
      Ok (n :: ns)
  end.

(** [[value.strip() for value in parts if value.strip()]] *)
Definition solid_parts (parts : list pystr) : list pystr :=
  map strip (base.filter (fun v => blank v = false) parts).

(** The parts of a checklist; what a leading "and" of the last part loses does not change their number. *)
(** [@ src/sana/modules/search_planning/planner.py _explicit_checklist_count] *)
Definition explicit_checklist_count (user_message : pystr) : Z :=
  match re_search re_I user_message checklist_cue_pattern with
  | None => 1
  | Some cue =>
      let segment := re_split_head re_I (drop (m_end cue) user_message)
        (re "(?:\u9010\u9879|\u5206\u522b|\u5e76\u5f15\u7528|\u8bf7\u5f15\u7528|[.\u3002;\uff1b])") in
      let bounded (n : nat) := if (2 <=? n)%nat && (n <=? 8)%nat then Z.of_nat n else 1 in
      if str_in (uu "、") segment then
        let parts := solid_parts (split_char 12289 segment) in
        match last parts with
        | None => bounded (length parts)
        | Some final =>
            let tail := solid_parts (split_char 21644 final) in
            if str_in (uu "和") final && (length tail =? 2)%nat then bounded (length parts + 1)%nat
            else bounded (length parts)
        end
      else if str_in (u ",") segment then bounded (length (solid_parts (split_char 44 segment)))
      else 1
  end.

(** The count inside a match of another pattern, plus one. *)
(** [@ src/sana/modules/search_planning/planner.py minimum_fact_count@199-211] *)
Definition scalar_enumeration_count (user_message : pystr) : res Z :=
  match re_search re_I user_message scalar_plus_enumeration_pattern with
  | None => Ok 1
  | Some scalar_match =>
      let t := match_text user_message scalar_match in
      match re_search re_I t (re "\b(two|three|four|five|six|seven|eight|[2-8])\b") with
      | None => Ok 1
      | Some raw_count => n ← count_of_word (casefold (first_group [group t 1 raw_count])); Ok (1 + n)
      end
  end.

(** [@ src/sana/modules/search_planning/planner.py minimum_fact_count@227-240] *)
Definition enumeration_relation_count (user_message : pystr) : res Z :=
  match re_search re_I user_message enumeration_plus_relation_pattern with
  | None => Ok 1
  | Some relation_match =>
      let t := match_text user_message relation_match in
      match re_search re_I t
        (re "\b(three|four|five|six|seven|eight|[3-8])\b|([\u4e09\u56db\u4e94\u516d\u4e03\u516b3-8])") with
      | None => Ok 1
      | Some count => n ← count_of_word (casefold (first_group [group t 1 count; group t 2 count])); Ok (n + 1)
      end
  end.

Definition count_if (b : bool) (n : Z) : Z := if b then n else 1.

Definition max_all (l : list Z) : Z := foldl Z.max 1 l.

(** [@ src/sana/modules/search_planning/planner.py minimum_fact_count] *)
Definition minimum_fact_count (user_message policy_version : pystr) : res Z :=
  let policy := planning_policy policy_version in
  let asks r := re_found re_I user_message r in
  if asks scalar_only_pattern then Ok 1 else
  let router_count := Z.of_nat (length (infer_fact_types user_message)) in
  explicit_counts ← named_counts user_message [1; 2; 3; 4]%nat (re_finditer re_I user_message explicit_count_pattern);
  explicit_source_counts ← named_counts user_message [1; 2]%nat (re_finditer re_I user_message explicit_source_count_pattern);
  scalar_enumeration ← scalar_enumeration_count user_message;
  let checklist_count := explicit_checklist_count user_message in
  let checklist_matrix_count :=
    count_if ((1 <? checklist_count) && asks two_entities_for_each_pattern) (Z.min (sp_max_facts policy) (checklist_count * 2)) in
  enumeration_relation ← enumeration_relation_count user_message;
  let source_additive_count :=
    count_if (negb (bool_decide (explicit_source_counts = [])) && (2 <=? router_count)) (max_all explicit_source_counts + 2) in
  Ok (Z.min (sp_max_facts policy) (max_all
    ([router_count; count_if (asks explicit_cross_check_pattern) 2; count_if (asks (re "\bboth\b")) 2; scalar_enumeration;
      count_if (asks open_supported_version_set_pattern) 5; count_if (asks origin_pair_pattern) 2;
      count_if (asks http_two_status_dimensions_pattern) 4; count_if (asks public_domain_option_pair_pattern) 2;
      checklist_count; checklist_matrix_count; count_if (asks source_perspective_split_pattern) 4;
      count_if (re_found re_IS user_message map_rank_with_analysis_sources_pattern) 4;
      count_if (asks multi_context_universal_pattern) 3; enumeration_relation; source_additive_count]
     ++ explicit_counts ++ explicit_source_counts))).

(** [@ src/sana/modules/search_planning/planner.py maximum_fact_count] *)
Definition maximum_fact_count (user_message policy_version : pystr) : res Z :=
  minimum ← minimum_fact_count user_message policy_version;
  Ok (if re_found re_I user_message scalar_only_pattern then minimum else sp_max_facts (planning_policy policy_version)).

(** ** The parser of a model's plan *)

(** [@ src/sana/modules/search_planning/planner.py IntentParser.__init__@294-298] *)
Record IntentParser := {
  ip_policy : SearchPlanningPolicy;
  ip_allow_optional_facts : bool;
  ip_allow_high_consequence : bool;
  ip_minimum_facts : Z;
  ip_maximum_facts : Z
}.

(** [@ src/sana/modules/search_planning/planner.py IntentParser.__init__] *)
Definition IntentParser_new (policy : SearchPlanningPolicy) (allow_optional_facts allow_high_consequence : bool)
    (minimum_facts : Z) (maximum_facts : option Z) : res IntentParser :=
  _ ← fail_if (negb ((1 <=? minimum_facts) && (minimum_facts <=? sp_max_facts policy)))
        (ValueError "minimum_facts must fit within the planning policy");
  let maximum := match maximum_facts with
                 | None | Some 0 => sp_max_facts policy
                 | Some n => n
                 end in
  _ ← fail_if (negb ((minimum_facts <=? maximum) && (maximum <=? sp_max_facts policy)))
        (ValueError "maximum_facts must fit the deterministic minimum");
  Ok {| ip_policy := policy; ip_allow_optional_facts := allow_optional_facts;
        ip_allow_high_consequence := allow_high_consequence; ip_minimum_facts := minimum_facts;
        ip_maximum_facts := maximum |}.

(** [raw.get("key", fallback)] of a dict *)
Definition field (raw : list (pystr * json)) (key : string) (fallback : json) : json := default fallback (dget (u key) raw).

(** [@ src/sana/modules/search_planning/planner.py IntentParser._is_source_constraint_fact] *)
Definition is_source_constraint_fact (raw : list (pystr * json)) : bool :=
  let description := to_str (field raw "description" (JStr [])) in
  let material := casefold (to_str (field raw "key" (JStr [])) ++ u " " ++ description) in
  re_found no_flags material
    (re "(?:source|citation|bibliograph|reference|url|literature|\u6765\u6e90|\u5f15\u7528|\u94fe\u63a5|\u6587\u732e)(?:[_ -]?(?:page|format|list|authority|literature|\u9875\u9762|\u6e05\u5355))?")
  && re_found re_I description (re "(?:which|what|find|identify|document|cite|\u54ea|\u4ec0\u4e48|\u627e|\u5f15\u7528)").

(** [@ src/sana/modules/search_planning/planner.py IntentParser._bounded_subject] *)
Definition bounded_subject (raw : json) (entity : pystr) : pystr :=
  let subject := normalize_spaces (if truthy raw then to_str raw else entity) in
  let subject := if 48 <? len subject then normalize_spaces entity else subject in
  if 48 <? len subject then rstrip_chars (u " -_/,:;") (take 48 subject) else subject.

(** [str(raw).strip().upper()] and [str(raw).strip().lower()] as the name of a member *)
Definition upper_member {E} (value : E -> pystr) (members : list E) (raw : json) : res E :=
  enum_of value members (str_upper (strip (to_str raw))).
Definition lower_member {E} (value : E -> pystr) (members : list E) (raw : json) : res E :=
  enum_of value members (str_lower (strip (to_str raw))).

(** [@ src/sana/modules/search_planning/planner.py IntentParser._consequence] *)
Definition parse_consequence (p : IntentParser) (raw : json) : res Consequence :=
  consequence ← upper_member Consequence_value all_consequences (if truthy raw then raw else JStr (u "LOW"));
  Ok (if (consequence is Consequence_HIGH) && negb (ip_allow_high_consequence p) then Consequence_MEDIUM else consequence).

(** [@ src/sana/modules/search_planning/planner.py IntentParser._normalize_meta_gap_fact] *)
Definition normalize_meta_gap_fact (raw : list (pystr * json)) : res (pystr * pystr * list pystr) :=
  key ← str_at (JObj raw) "key";
  description ← str_at (JObj raw) "description";
  preferred ← items (field raw "preferred_source_kinds" (JList []));
  let preferred := map to_str preferred in
  let meta_gap := re_found re_I (key ++ u " " ++ description)
    (re "evidence[_ -]?gap|note the absence|absence of (?:such )?disclosure") in
  if negb meta_gap then Ok (key, description, preferred) else
  let normalized_key := re_sub re_I key (re "evidence[_-]?gap") (fun _ => u "independent_disclosure_check") in
  let normalized_key := if bool_decide (normalized_key = key) then key ++ u "_independent_disclosure_check" else normalized_key in
  let neutral := rstrip_chars (u ". ") (strip (re_split_head re_I description (re "\bif\s+not\b"))) in
  let neutral := re_sub re_I neutral (re "\bpublic official sources?\b") (fun _ => u "independent public sources") in
  let neutral := re_sub re_I neutral (re "\bpublic official disclosure\b") (fun _ => u "independent public disclosure") in
  let neutral := if str_in (u "independent") (casefold neutral) then neutral
                 else u "Whether independent public sources explicitly disclose: " ++ neutral in
  Ok (normalized_key, neutral, [u "independent"]).

(** One fact of the payload. *)
(** [@ src/sana/modules/search_planning/planner.py IntentParser.parse@401-425] *)
Definition parse_fact (p : IntentParser) (payload : json) (raw : list (pystr * json)) : res FactRequirement :=
  '(key, description, preferred) ← normalize_meta_gap_fact raw;
  type_value ← subscript (JObj raw) "fact_type";
  fact_type ← lower_member FactType_value all_fact_types type_value;
  entity ← str_at payload "entity";
  let subject := bounded_subject (field raw "subject" JNull) entity in
  let required := if ip_allow_optional_facts p then truthy (field raw "required" (JBool true)) else true in
  freshness ← upper_member Freshness_value all_freshness (field raw "freshness" (JStr (u "STABLE")));
  consequence ← parse_consequence p (field raw "consequence" (JStr (u "LOW")));
  FactRequirement_new
    {| fr_key := key; fr_fact_type := fact_type; fr_description := description; fr_subject := subject;
       fr_required := required; fr_freshness := freshness; fr_consequence := consequence;
       fr_preferred_source_kinds := preferred |}.

Fixpoint parse_facts (p : IntentParser) (payload : json) (raws : list (list (pystr * json))) : res (list FactRequirement) :=
  match raws with
  | [] => Ok []
  | raw :: r => f ← parse_fact p payload raw; fs ← parse_facts p payload r; Ok (f :: fs)
  end.

(** The objects among the supplied facts that are not about sources. *)
(** [@ src/sana/modules/search_planning/planner.py IntentParser.parse@389-393] *)
Definition raw_facts (supplied : list json) : list (list (pystr * json)) :=
  omap (fun v => match v with
                 | JObj raw => if is_source_constraint_fact raw then None else Some raw
                 | _ => None
                 end) supplied.

(** [@ src/sana/modules/search_planning/planner.py IntentParser.parse] *)
Definition IntentParser_parse (p : IntentParser) (text : pystr) : res NormalizedIntent :=
  payload ← json_loads text;
  supplied ← subscript payload "facts";
  match supplied with
  | JList supplied =>
      let raws := raw_facts supplied in
      let count := Z.of_nat (length raws) in
      _ ← fail_if (negb ((ip_minimum_facts p <=? count) && (count <=? ip_maximum_facts p)))
            (ValueError "facts must satisfy the deterministic minimum and policy maximum");
      facts ← parse_facts p payload raws;
      entity ← str_at payload "entity";
      aliases ← list_at payload "aliases";
      locale ← get_default payload "locale" (JStr (u "en"));
      comparison ← get_default payload "requires_comparison" (JBool false);
      complete ← get_default payload "requires_complete_sources" (JBool false);
      NormalizedIntent_new
        {| ni_entity := entity; ni_aliases := map to_str aliases; ni_locale := to_str locale; ni_facts := facts;
           ni_requires_comparison := truthy comparison; ni_requires_complete_sources := truthy complete |}
  | _ => Raise (ValueError "facts must be a bounded list")
  end.

(** [@ src/sana/modules/search_planning/planner.py IntentParser.repair_instruction] *)
Definition intent_repair_instruction (p : IntentParser) (error : exn) : pystr :=
  u ("Return only one valid JSON object with entity, aliases, locale, " ++
     "requires_comparison, requires_complete_sources, and facts. Each fact " ++
     "must contain key, fact_type, description, subject, required, freshness, " ++
     "consequence, and preferred_source_kinds. fact_type must be one of " ++
     "character_changes, version, patch_notes, team_meta, current_value, " ++
     "comparison, background. freshness must be exactly STABLE, RECENT, or " ++
     "CURRENT. consequence must be exactly LOW, MEDIUM, or HIGH. Do not add " ++
     "markdown or commentary. Return at least ") ++ str_of_Z (ip_minimum_facts p)
  ++ u " distinct facts. Validation error type: " ++ error_type error ++ u ". Return no more than "
  ++ str_of_Z (ip_maximum_facts p) ++ u " facts.".

Definition intent_parser (p : IntentParser) : StructuredOutputParser NormalizedIntent :=
  {| so_parse := IntentParser_parse p; so_repair_instruction := intent_repair_instruction p |}.

(** ** The planner *)

(** [@ src/sana/modules/search_planning/planner.py SearchPlanner.plan@481-512] *)
Definition planner_system (minimum_facts maximum_facts : Z) : pystr :=
  u ("Normalize the current request into a canonical entity and atomic fact " ++
     "requirements. Do not turn conversational filler into search terms. " ++
     "Never collapse separately requested subquestions into one background " ++
     "fact. When the request names N items and asks about each, emit at least " ++
     "N distinct facts; use one fact per named or enumerated item. Cross-check " ++
     "requests need separate facts for the source perspectives being checked. " ++
     "Describe each fact as a neutral evidence question or lookup target. Never " ++
     "pre-fill an answer, invent an example, or assert protocol constraints that " ++
     "are not stated in the current request. Preserve exact identifiers and " ++
     "terms the user explicitly asks to see. " ++
     "A request to cite a source is an evidence constraint, not a separate " ++
     "fact; do not emit citation-only, bibliography-only, or source-formatting " ++
     "facts. For unavailable, private, or future information, plan concrete " ++
     "public-disclosure checks for the requested source perspectives; never " ++
     "turn the instruction to report an evidence gap into an evidence-gap " ++
     "Fact. Keep identifiers that express one relationship together, such as " ++
     "a protocol version and the RFC that specifies it. Consequence describes " ++
     "real-world harm, not answer strictness: ordinary standards and software " ++
     "facts are LOW or MEDIUM, never HIGH. " ++
     "Mark every requested fact required=true unless the user explicitly says " ++
     "that part is optional. " ++
     "Return one JSON object only with entity, aliases, locale, " ++
     "requires_comparison, requires_complete_sources, and facts. Each fact " ++
     "must contain key, fact_type, description, subject, required, freshness, " ++
     "consequence, and preferred_source_kinds. Allowed fact_type values are " ++
     "character_changes, version, patch_notes, team_meta, current_value, " ++
     "comparison, background. Use uppercase STABLE, RECENT, or CURRENT for " ++
     "freshness and uppercase LOW, MEDIUM, or HIGH for consequence. " ++
     "This request requires at least ") ++ str_of_Z minimum_facts ++ u " distinct facts."
  ++ u " Return no more than " ++ str_of_Z maximum_facts ++ u " facts.".

(** [@ src/sana/modules/search_planning/planner.py SearchPlanner.plan@513-518] *)
Definition planner_user (user_message summary : pystr) : pystr :=
  u "Current request:" ++ [10] ++ strip user_message
  ++ (if blank summary then []
      else [10] ++ u "Allowed context summary (resolve references only; never copy it as a query suffix):"
           ++ [10] ++ strip summary).

(** The parser that the model's answer to a message must pass. *)
(** [@ src/sana/modules/search_planning/planner.py SearchPlanner.plan@519-529] *)
Definition plan_parser (policy : SearchPlanningPolicy) (user_message : pystr) (minimum_facts maximum_facts : Z)
    : res IntentParser :=
  routing ← route (sp_version policy) user_message;
  IntentParser_new policy (re_found re_I user_message optional_request_pattern)
    (bool_decide (u "high_consequence_cross_check" ∈ rd_reason_codes routing)) minimum_facts (Some maximum_facts).

(** [@ src/sana/modules/search_planning/planner.py SearchPlanner.plan] *)
Definition plan {S} `{ParsingGateway S} (policy : SearchPlanningPolicy) (user_message summary : pystr) (deadline : datetime)
    (invocation_context : ModelInvocationContext) : M S NormalizedIntent :=
  reviewed ← lift (reviewed_intent_template user_message);
  match reviewed with
  | Some i => mret i
  | None =>
      minimum_facts ← lift (minimum_fact_count user_message (sp_version policy));
      maximum_facts ← lift (maximum_fact_count user_message (sp_version policy));
      parser ← lift (plan_parser policy user_message minimum_facts maximum_facts);
      system ← lift (ModelMessage_new MessageRole_SYSTEM (planner_system minimum_facts maximum_facts));
      user ← lift (ModelMessage_new MessageRole_USER (planner_user user_message summary));
      parsed ← pg_generate ModelRole_PLANNER [system; user] deadline (intent_parser parser) invocation_context;
      match parsed with
      | Some i => mret i
      | None => raise (TypeError "Planner gateway did not return a NormalizedIntent")
      end
  end.
End Planner.

(** [@ src/sana/app/search_operations.py IntentPlanningResult] *)
Record IntentPlanningResult := {
  ip_intent : NormalizedIntent;
  ip_llm_calls : Z;
  ip_degraded : bool;
  ip_strategy : pystr;
  ip_strategy_version : pystr
}.

(** ** Patterns *)

(** [@ src/sana/app/search_operations.py HeuristicIntentPlanner@157-160] *)
Definition latin_entity : regex :=
  re "(?:[A-Z][A-Za-z0-9+.-]*)(?:\s+(?:[A-Z][A-Za-z0-9+.-]*|[0-9][A-Za-z0-9+.-]*)){0,4}".

(** [@ src/sana/app/search_operations.py HeuristicIntentPlanner@161-186] *)
Definition question_words : list pystr := map u
  ["according"; "compare"; "explain"; "find"; "give"; "hey"; "how"; "list"; "name"; "please"; "prove"; "research"; "sana";
   "state"; "tell"; "under"; "what"; "when"; "where"; "which"; "who"; "why"]%string.

(** [@ src/sana/app/search_operations.py HeuristicIntentPlanner@187-187] *)
Definition quoted_entity : regex := re "[《\u0022“](.{1,48}?)[》\u0022”]".

(** [@ src/sana/app/search_operations.py HeuristicIntentPlanner@188-192] *)
Definition filler : regex :=
  re "(请问|请告诉我|告诉我|帮我|查一下|搜索|联网|最新|最近|当前|是什么|有哪些|怎么样|如何|please|tell me|search|latest|current)".

(** [@ src/sana/app/search_operations.py HeuristicIntentPlanner@193-201] *)
Definition fact_label (t : FactType) : pystr * list pystr :=
  match t with
  | FactType_CHARACTER_CHANGES => (uu "角色改动", [u "official"; u "patch_notes"])
  | FactType_VERSION => (uu "当前版本", [u "official"; u "patch_notes"])
  | FactType_PATCH_NOTES => (uu "补丁说明", [u "official"; u "patch_notes"])
  | FactType_TEAM_META => (uu "当前阵容", [u "guide"; u "official"])
  | FactType_CURRENT_VALUE => (uu "当前数值", [u "official"])
  | FactType_COMPARISON => (uu "方案比较", [u "official"; u "independent"])
  | FactType_BACKGROUND => (uu "背景资料", [u "official"; u "independent"])
  end.

Section Heuristic.
Context {U : Unicode}.

(** The first capitalized name whose first word asks no question. *)
(** [@ src/sana/app/search_operations.py HeuristicIntentPlanner._entity@212-216] *)
Fixpoint named_entity (matches : list pystr) : option pystr :=
  match matches with
  | [] => None
  | m :: r =>
      let candidate := take 64 (normalize_spaces m) in
      let first := rstrip_chars (u ".,:;!?") (casefold (default [] (head (split_space candidate)))) in
      if bool_decide (first ∉ question_words) then Some candidate else named_entity r
  end.

(** What is left of a message without its filler words and marks. *)
(** [@ src/sana/app/search_operations.py HeuristicIntentPlanner._entity@217-222] *)
Definition remaining_text (message : pystr) : pystr :=
  let cleaned := re_sub re_I message filler (fun _ => u " ") in
  let cleaned := re_sub no_flags cleaned (re "[!?！？。,.，:：;；\r\n]+") (fun _ => u " ") in
  let cleaned := strip (normalize_spaces cleaned) in
  if bool_decide (cleaned = []) then uu "公开信息" else take 48 cleaned.

(** [@ src/sana/app/search_operations.py HeuristicIntentPlanner._entity] *)
Definition entity_of_message (message : pystr) : pystr :=
  match re_search no_flags message quoted_entity with
  | Some quoted => normalize_spaces (default [] (group message 1 quoted))
  | None =>
      match named_entity (re_findall no_flags message latin_entity) with
      | Some candidate => candidate
      | None => remaining_text message
      end
  end.

Definition asks_current (message : pystr) : bool :=
  re_found re_I message (re "(最新|最近|当前|today|latest|current)").

Definition asks_high (message : pystr) : bool :=
  re_found re_I message (re "(医疗|诊断|法律|诉讼|投资|税务|medical|legal|investment|tax)").

Definition has_han (message : pystr) : bool := re_found no_flags message (re "[\u3400-\u9fff]").

Definition heuristic_freshness (message : pystr) : Freshness :=
  if asks_current message then Freshness_CURRENT else Freshness_STABLE.
Definition heuristic_consequence (message : pystr) : Consequence :=
  if asks_high message then Consequence_HIGH else Consequence_LOW.

(** The fact of a type the message asks for. *)
(** [@ src/sana/app/search_operations.py HeuristicIntentPlanner.plan@254-267] *)
Definition labelled_fact (message entity : pystr) (t : FactType) : res FactRequirement :=
  let '(label, source_kinds) := fact_label t in
  FactRequirement_new
    {| fr_key := FactType_value t; fr_fact_type := t; fr_description := entity ++ uu "的" ++ label; fr_subject := entity;
       fr_required := true; fr_freshness := heuristic_freshness message; fr_consequence := heuristic_consequence message;
       fr_preferred_source_kinds := source_kinds |}.

Fixpoint labelled_facts (message entity : pystr) (types : list FactType) : res (list FactRequirement) :=
  match types with
  | [] => Ok []
  | t :: r => f ← labelled_fact message entity t; fs ← labelled_facts message entity r; Ok (f :: fs)
  end.

(** A fact that makes up the number the message asks for. *)
(** [@ src/sana/app/search_operations.py HeuristicIntentPlanner.plan@269-286] *)
Definition numbered_fact (message entity : pystr) (index : Z) : res FactRequirement :=
  FactRequirement_new
    {| fr_key := u "requested_fact_" ++ str_of_Z index; fr_fact_type := FactType_BACKGROUND;
       fr_description := entity ++ u " requested fact " ++ str_of_Z index;
       fr_subject := if has_han message then entity ++ uu " 第" ++ str_of_Z index ++ uu "项"
                     else entity ++ u " item " ++ str_of_Z index;
       fr_required := true; fr_freshness := heuristic_freshness message; fr_consequence := heuristic_consequence message;
       fr_preferred_source_kinds := [u "official"; u "independent"] |}.

(** [while len(facts) < minimum_facts], for at most [n] more facts. *)
Fixpoint numbered_facts (n : nat) (message entity : pystr) (index : Z) : res (list FactRequirement) :=
  match n with
  | O => Ok []
  | S n => f ← numbered_fact message entity index; fs ← numbered_facts n message entity (index + 1); Ok (f :: fs)
  end.

(** The types a message asks for, ordered by their values. *)
Definition types_of_message (message : pystr) : list FactType :=
  py_sorted (fun a b => pystr_ltb (FactType_value a) (FactType_value b))
    (match infer_fact_types message with [] => [FactType_BACKGROUND] | l => l end).

(** [@ src/sana/app/search_operations.py HeuristicIntentPlanner.plan] *)
Definition heuristic_plan (policy_version message : pystr) : res IntentPlanningResult :=
  reviewed ← reviewed_intent_template message;
  match reviewed with
  | Some i => Ok {| ip_intent := i; ip_llm_calls := 0; ip_degraded := false; ip_strategy := u "reviewed_template";
                    ip_strategy_version := u "reviewed-intents-v2" |}
  | None =>
      let entity := entity_of_message message in
      facts ← labelled_facts message entity (types_of_message message);
      minimum_facts ← minimum_fact_count message policy_version;
      let count := Z.of_nat (length facts) in
      more ← numbered_facts (Z.to_nat (minimum_facts - count)) message entity (count + 1);
      intent ← NormalizedIntent_new
        {| ni_entity := entity; ni_aliases := []; ni_locale := if has_han message then u "zh-CN" else u "en";
           ni_facts := facts ++ more; ni_requires_comparison := false; ni_requires_complete_sources := false |};
      Ok {| ip_intent := intent; ip_llm_calls := 0; ip_degraded := false; ip_strategy := u "heuristic";
            ip_strategy_version := policy_version |}
  end.
End Heuristic.

(** ** The planner of a step *)

Section Planned.
(** [type(error).__name__] *)
Context {U : Unicode} `{PyText} `{JsonText} (error_type : exn -> pystr).

(** [except TypedError] *)
Definition is_typed (e : exn) : bool := match e with Typed _ => true | _ => false end.

(** [used_calls] reads the budget that the planner made for the call; the fallback has the version of the default policy. *)
(** [@ src/sana/app/search_operations.py ModelIntentPlanner.plan] *)
Definition model_intent_plan {S} `{ParsingGateway S} (used_calls : S -> Z) (policy : SearchPlanningPolicy)
    (message : pystr) (deadline : datetime) (invocation_context : ModelInvocationContext) : M S IntentPlanningResult :=
  reviewed ← lift (reviewed_intent_template message);
  match reviewed with
  | Some i => mret {| ip_intent := i; ip_llm_calls := 0; ip_degraded := false; ip_strategy := u "reviewed_template";
                      ip_strategy_version := u "reviewed-intents-v2" |}
  | None =>
      try_except
        (intent ← plan error_type policy message [] deadline invocation_context;
         s ← self;
         mret {| ip_intent := intent; ip_llm_calls := used_calls s; ip_degraded := false; ip_strategy := u "model";
                 ip_strategy_version := u "model-normalization-v1" |})
        is_typed
        (fun _ =>
           fallback ← lift (heuristic_plan (sp_version default_planning_policy) message);
           s ← self;
           mret {| ip_intent := ip_intent fallback; ip_llm_calls := used_calls s; ip_degraded := true;
                   ip_strategy := ip_strategy fallback; ip_strategy_version := ip_strategy_version fallback |})
  end.
End Planned.
