(* ===== verification/PlannerFacts.v ===== *)
(** * PlannerFacts: what the planner lets through

    A plan is a valid intent with a bounded number of facts, whatever a model answers; it claims high
    consequences or leaves facts optional only when the message itself does; and it compiles unless one
    of its texts has half of a surrogate pair. *)

From Stdlib Require Import String.
From S2P Require Import Prelude Errors PyTime PyData PyStr Regex Transitions Run Coverage Intent Router Templates.
From S2P Require Import QueryCompiler QueryFacts ModelGateway Planner.
From S2P Require Import Evidence EvidenceRules Verifier VerifierBatch.

Section Facts.
Context {U : Unicode} {Hcase : Caseless} `{PyText} `{JsonText} (error_type : exn -> pystr).

Lemma max_all_ge l : 1 <= max_all l.
Proof using.
  unfold max_all. assert (Hgen : forall b, 1 <= b -> 1 <= foldl Z.max b l); [|by apply Hgen].
  induction l as [|x l IH]; intros b Hb; cbn [foldl]; [done|]. apply IH. lia.
Qed.

Lemma minimum_fact_count_range message version n : minimum_fact_count message version = Ok n -> 1 <= n <= 8.
Proof using.
  unfold minimum_fact_count. cbv zeta. destruct (re_found re_I message scalar_only_pattern); [intros [= <-]; lia|]. intros E.
  apply res_bind_ok_inv in E as (a & _ & E). apply res_bind_ok_inv in E as (b & _ & E).
  apply res_bind_ok_inv in E as (c & _ & E). apply res_bind_ok_inv in E as (d & _ & E). injection E as <-.
  match goal with |- context [max_all ?l] => pose proof (max_all_ge l) end. cbn [sp_max_facts planning_policy]. lia.
Qed.

Lemma maximum_fact_count_range message version n m : minimum_fact_count message version = Ok n ->
  maximum_fact_count message version = Ok m -> n <= m <= 8.
Proof using.
  intros Hn E. apply res_bind_ok_inv in E as (n' & Hn' & E). rewrite Hn in Hn'. injection Hn' as <-. injection E as <-.
  pose proof (minimum_fact_count_range _ _ _ Hn). cbn [sp_max_facts planning_policy].
  destruct (re_found re_I message scalar_only_pattern); lia.
Qed.

(** ** The parser *)

(** A fact that the settings of a parser allow. *)
Definition allowed (p : IntentParser) (f : FactRequirement) : Prop :=
  valid_fact f /\ (fr_consequence f = Consequence_HIGH -> ip_allow_high_consequence p = true) /\
  (fr_required f = false -> ip_allow_optional_facts p = true).

Lemma parse_fact_allowed p payload raw f : parse_fact p payload raw = Ok f -> allowed p f.
Proof using.
  clear Hcase. unfold parse_fact. intros E. apply res_bind_ok_inv in E as ([[key description] preferred] & _ & E).
  apply res_bind_ok_inv in E as (tv & _ & E). apply res_bind_ok_inv in E as (ft & _ & E).
  apply res_bind_ok_inv in E as (entity & _ & E). apply res_bind_ok_inv in E as (freshness & _ & E).
  apply res_bind_ok_inv in E as (consequence & Ec & E). apply FactRequirement_new_spec in E as [-> Hv].
  split; [done|]. cbn [fr_consequence fr_required]. split.
  - intros ->. unfold parse_consequence in Ec. apply res_bind_ok_inv in Ec as (x & _ & Ec).
    destruct (ip_allow_high_consequence p); [done|]. cbn [negb] in Ec. rewrite andb_true_r in Ec.
    injection Ec as Ec. case_bool_decide; congruence.
  - destruct (ip_allow_optional_facts p); done.
Qed.

Lemma parse_facts_allowed p payload raws fs : parse_facts p payload raws = Ok fs ->
  Forall (allowed p) fs /\ length fs = length raws.
Proof using.
  clear Hcase. revert fs. induction raws as [|raw raws IH]; intros fs E; cbn [parse_facts] in E.
  { injection E as <-. by split. }
  apply res_bind_ok_inv in E as (f & Ef & E). apply res_bind_ok_inv in E as (r & Er & E). injection E as <-.
  destruct (IH r Er) as [HF Hl]. split; [|cbn; lia]. constructor; [by eapply parse_fact_allowed|done].
Qed.

Lemma IntentParser_parse_sound p text i : IntentParser_parse p text = Ok i ->
  valid_intent i /\ Forall (allowed p) (ni_facts i) /\
  ip_minimum_facts p <= Z.of_nat (length (ni_facts i)) <= ip_maximum_facts p.
Proof using.
  clear Hcase. unfold IntentParser_parse. intros E. apply res_bind_ok_inv in E as (payload & _ & E).
  apply res_bind_ok_inv in E as (supplied & _ & E). destruct supplied as [| | | | |supplied|]; try done. cbv zeta in E.
  apply res_bind_ok_inv in E as (? & Hc & E). apply fail_if_ok_inv in Hc.
  apply res_bind_ok_inv in E as (facts & Hf & E). apply parse_facts_allowed in Hf as [HF Hl].
  do 5 apply res_bind_ok_inv in E as (? & _ & E). apply NormalizedIntent_new_spec in E as [-> Hv]. bools.
  split; [done|]. cbn [ni_facts]. split; [done|]. lia.
Qed.

(** ** The planner *)

(** What every plan for a message satisfies. *)
Record sound_plan_for (message : pystr) (i : NormalizedIntent) : Prop := {
  pl_intent : valid_intent i;
  pl_facts : Forall valid_fact (ni_facts i);
  pl_count : 1 <= Z.of_nat (length (ni_facts i)) <= 8;
  pl_high : forall f, f ∈ ni_facts i -> fr_consequence f = Consequence_HIGH ->
    re_found re_I message high_consequence_pattern = true;
  pl_optional : forall f, f ∈ ni_facts i -> fr_required f = false -> re_found re_I message optional_request_pattern = true
}.

(** The number of facts of a plan that a model made. *)
Definition within_counts (policy : SearchPlanningPolicy) (message : pystr) (i : NormalizedIntent) : Prop :=
  exists minimum maximum, minimum_fact_count message (sp_version policy) = Ok minimum /\
    maximum_fact_count message (sp_version policy) = Ok maximum /\
    minimum <= Z.of_nat (length (ni_facts i)) <= maximum.

Lemma high_reason message : u "high_consequence_cross_check" ∈ route_reasons message ->
  re_found re_I message high_consequence_pattern = true.
Proof using.
  unfold route_reasons. cbv zeta. rewrite !elem_of_app. unfold reason_if.
  destruct (re_found re_I message high_consequence_pattern); [done|].
  intros HH. exfalso. decompose [or] HH; clear HH;
    repeat match goal with
    | Hin : _ ∈ (if ?b then _ else _) |- _ => destruct b; [apply list_elem_of_singleton in Hin; vm_compute in Hin; discriminate|by apply not_elem_of_nil in Hin]
    | Hin : _ ∈ [] |- _ => by apply not_elem_of_nil in Hin
    end.
Qed.

Lemma route_high version message d : route version message = Ok d ->
  u "high_consequence_cross_check" ∈ rd_reason_codes d -> re_found re_I message high_consequence_pattern = true.
Proof using.
  unfold route. cbv zeta. intros E Hin. apply high_reason. revert E.
  case_bool_decide as Hr; cbn [negb]; unfold RoutingDecision_new; intros E;
    do 3 apply res_bind_ok_inv in E as (? & _ & E); injection E as <-; cbn [rd_reason_codes] in Hin.
  - apply list_elem_of_singleton in Hin. vm_compute in Hin. discriminate.
  - by rewrite elem_of_dedupe in Hin.
Qed.

Lemma plan_parser_inv policy message minimum maximum p : plan_parser policy message minimum maximum = Ok p ->
  1 <= minimum -> maximum <> 0 -> ip_minimum_facts p = minimum /\ ip_maximum_facts p = maximum /\
  (ip_allow_high_consequence p = true -> re_found re_I message high_consequence_pattern = true) /\
  ip_allow_optional_facts p = re_found re_I message optional_request_pattern.
Proof using.
  unfold plan_parser. intros E Hmin Hmax. apply res_bind_ok_inv in E as (d & Hd & E).
  unfold IntentParser_new in E. apply res_bind_ok_inv in E as (? & _ & E). cbv zeta in E.
  apply res_bind_ok_inv in E as (? & _ & E). injection E as <-. cbn. ksplit.
  - by destruct maximum.
  - intros Hh. bools. by eapply route_high.
Qed.

Lemma plan_inv {S} `{ParsingGateway S} policy message summary deadline x s s' i :
  plan error_type policy message summary deadline x s = (s', Ok i) ->
  sound_plan_for message i /\
  (reviewed_intent_template message = Ok (Some i) \/ (reviewed_intent_template message = Ok None /\ within_counts policy message i)).
Proof using Hcase.
  unfold plan. intros E. apply bind_ok_inv in E as (s1 & reviewed & Er & E). apply lift_ok_inv in Er as [Er ->].
  destruct reviewed as [j|].
  - injection E as _ <-. split; [|by left]. destruct (reviewed_templates_sound message) as (o & Eo & Ho).
    rewrite Er in Eo. injection Eo as <-. destruct (Ho j eq_refl) as (Hv & Hf & Hall & L1 & L2).
    rewrite Forall_forall in Hall. constructor; try done; [lia| |];
      intros f Hin; destruct (Hall f Hin) as (Hreq & Hlow & _); congruence.
  - apply bind_ok_inv in E as (s2 & minimum & E1 & E). apply lift_ok_inv in E1 as [Hmin ->].
    apply bind_ok_inv in E as (s2 & maximum & E1 & E). apply lift_ok_inv in E1 as [Hmax ->].
    apply bind_ok_inv in E as (s2 & p & E1 & E). apply lift_ok_inv in E1 as [Hp ->].
    apply bind_ok_inv in E as (s2 & system & E1 & E). apply lift_ok_inv in E1 as [_ ->].
    apply bind_ok_inv in E as (s2 & user & E1 & E). apply lift_ok_inv in E1 as [_ ->].
    apply bind_ok_inv in E as (s2 & parsed & Eg & E). destruct parsed as [j|]; [|done]. injection E as _ <-.
    apply pg_parsed in Eg as (text & Ht). cbn [so_parse intent_parser] in Ht.
    apply IntentParser_parse_sound in Ht as (Hv & Hall & Hcount).
    pose proof (minimum_fact_count_range _ _ _ Hmin). pose proof (maximum_fact_count_range _ _ _ _ Hmin Hmax).
    apply plan_parser_inv in Hp as (Emin & Emax & Hhigh & Hopt); [|lia|lia]. rewrite Emin, Emax in Hcount.
    split; [|right; split; [done|]; by exists minimum, maximum]. rewrite Forall_forall in Hall. constructor; [done| |lia| |].
    + apply Forall_forall. intros f Hf. by apply Hall.
    + intros f Hf Hc. destruct (Hall f Hf) as (_ & K & _). auto.
    + intros f Hf Hr. rewrite <- Hopt. destruct (Hall f Hf) as (_ & _ & K). auto.
Qed.

Context {Henc : EncodableText}.

(** The compiler makes queries of a plan, unless one of its texts cannot be encoded. *)
Definition first_queries (sha256_utf8 : pystr -> pystr) (i : NormalizedIntent) (mode : SearchMode) : Prop :=
  match compile sha256_utf8 default_planning_policy i mode 1 false [] with
  | Ok qs => qs <> []
  | Raise e => e = surrogates /\ ~ encodable_intent i
  end.

Lemma valid_compiles i sha256_utf8 mode : valid_intent i -> Forall valid_fact (ni_facts i) -> first_queries sha256_utf8 i mode.
Proof using Henc.
  intros Hv Hf. unfold first_queries.
  assert (Hc : 64 <= sp_max_query_characters default_planning_policy) by done.
  pose proof (compile_result sha256_utf8 default_planning_policy Hc i Hv Hf mode 1 false [] ltac:(lia)
    ltac:(destruct mode; vm_compute; discriminate)) as HR.
  destruct (compile _ _ _ _ _ _ _) as [qs|e]; [|done]. destruct HR as (_ & _ & _ & _ & _ & Hne).
  apply Hne; [done| |]; destruct mode; vm_compute; discriminate.
Qed.

(** Claim C14. Whatever a model answers, a plan is a valid intent of one to eight valid facts; it has a fact of
    high consequence, or an optional one, only when the message itself gives the reason; it comes from
    the reviewed templates, or its number of facts lies between the bounds computed from the message. The
    compiler makes queries of it, or raises [UnicodeEncodeError], and that only if the model gave a name,
    a key or a subject with half of a surrogate pair. *)
Theorem planned_intents_sound {S} `{ParsingGateway S} policy message summary deadline x s s' i sha256_utf8 mode :
  plan error_type policy message summary deadline x s = (s', Ok i) ->
  sound_plan_for message i /\
  (reviewed_intent_template message = Ok (Some i) \/ (reviewed_intent_template message = Ok None /\ within_counts policy message i)) /\
  match compile sha256_utf8 default_planning_policy i mode 1 false [] with
  | Ok qs => qs <> []
  | Raise e => e = surrogates /\ ~ encodable_intent i
  end.
Proof using Hcase Henc.
  intros E. apply plan_inv in E as [Hs Hfrom]. split; [done|]. split; [done|]. apply valid_compiles; by destruct Hs.
Qed.

(** ** With the heuristic planner *)

Lemma labelled_facts_inv message entity types fs : labelled_facts message entity types = Ok fs ->
  Forall valid_fact fs /\ length fs = length types.
Proof using.
  clear Hcase Henc. revert fs. induction types as [|t types IH]; intros fs E; cbn [labelled_facts] in E.
  { injection E as <-. by split. }
  apply res_bind_ok_inv in E as (f & Ef & E). apply res_bind_ok_inv in E as (r & Er & E). injection E as <-.
  destruct (IH r Er) as [HF Hl]. split; [constructor; [|done]|by cbn; f_equal]. unfold labelled_fact in Ef.
  destruct (fact_label t). by apply FactRequirement_new_spec in Ef as [-> ?].
Qed.

Lemma numbered_facts_inv n message entity index fs : numbered_facts n message entity index = Ok fs ->
  Forall valid_fact fs /\ length fs = n.
Proof using.
  clear Hcase Henc. revert index fs. induction n as [|n IH]; intros index fs E; cbn [numbered_facts] in E.
  { injection E as <-. by split. }
  apply res_bind_ok_inv in E as (f & Ef & E). apply res_bind_ok_inv in E as (r & Er & E). injection E as <-.
  destruct (IH _ r Er) as [HF Hl]. split; [constructor; [|done]|by cbn; f_equal]. unfold numbered_fact in Ef.
  by apply FactRequirement_new_spec in Ef as [-> ?].
Qed.

(** A plan with as many facts as its message asks for, and no more than the policy allows. *)
Record usable_plan (version message : pystr) (i : NormalizedIntent) : Prop := {
  us_intent : valid_intent i;
  us_facts : Forall valid_fact (ni_facts i);
  us_count : 1 <= Z.of_nat (length (ni_facts i)) <= 8;
  us_minimum : reviewed_intent_template message = Ok (Some i) \/
    exists n, minimum_fact_count message version = Ok n /\ n <= Z.of_nat (length (ni_facts i))
}.

Lemma reviewed_usable version message i : reviewed_intent_template message = Ok (Some i) -> usable_plan version message i.
Proof using Hcase.
  intros Er. destruct (reviewed_templates_sound message) as (o & Eo & Ho). rewrite Er in Eo. injection Eo as <-.
  destruct (Ho i eq_refl) as (Hv & Hf & _ & L1 & L2). constructor; [done..|lia|by left].
Qed.

Lemma types_of_message_length message : (1 <= length (types_of_message message) <= 6)%nat.
Proof using.
  clear Hcase Henc. unfold types_of_message. rewrite (Permutation_length (py_sorted_perm _ _)). pose proof (infer_fact_types_length message).
  destruct (infer_fact_types message); simpl in *; lia.
Qed.

Lemma heuristic_plan_usable version message r : heuristic_plan version message = Ok r ->
  usable_plan version message (ip_intent r) /\ ip_degraded r = false /\ ip_llm_calls r = 0.
Proof using Hcase.
  unfold heuristic_plan. intros E. apply res_bind_ok_inv in E as (reviewed & Er & E). destruct reviewed as [i|].
  { injection E as <-. split; [|done]. by apply reviewed_usable. }
  cbv zeta in E. apply res_bind_ok_inv in E as (fs & Hfs & E). apply res_bind_ok_inv in E as (n & Hn & E).
  apply res_bind_ok_inv in E as (more & Hmore & E). apply res_bind_ok_inv in E as (i & Hi & E). injection E as <-.
  split; [|done]. apply NormalizedIntent_new_spec in Hi as [-> Hv]. apply labelled_facts_inv in Hfs as [Hf Hl].
  apply numbered_facts_inv in Hmore as [Hm Hml]. pose proof (types_of_message_length message).
  pose proof (minimum_fact_count_range _ _ _ Hn). cbn [ip_intent]. constructor; cbn [ni_facts]; rewrite ?length_app.
  - done.
  - by apply Forall_app_2.
  - lia.
  - right. exists n. split; [done|]. lia.
Qed.

(** Claim C15. The planner of a step, with its fallback: whatever a model answers or however its call fails, a
    plan that is returned is a valid intent of one to eight valid facts, with at least as many as the
    message asks for unless a reviewed template applies; it compiles, unless one of its names, keys or
    subjects has half of a surrogate pair, and then the compiler raises [UnicodeEncodeError]; it is marked
    as degraded exactly when the model was asked and failed with a typed error, and then it is the
    heuristic one. *)
Theorem step_plan_usable {S} `{ParsingGateway S} (used_calls : S -> Z) policy message deadline x s s' r sha256_utf8 mode :
  model_intent_plan error_type used_calls policy message deadline x s = (s', Ok r) ->
  usable_plan (sp_version (if ip_degraded r then default_planning_policy else policy)) message (ip_intent r) /\
  (ip_degraded r = true <-> reviewed_intent_template message = Ok None /\ exists e,
     plan error_type policy message [] deadline x s = (s', Raise e) /\ is_typed e = true) /\
  (ip_degraded r = true -> exists fallback, heuristic_plan (sp_version default_planning_policy) message = Ok fallback /\
     ip_intent r = ip_intent fallback) /\
  match compile sha256_utf8 default_planning_policy (ip_intent r) mode 1 false [] with
  | Ok qs => qs <> []
  | Raise e => e = surrogates /\ ~ encodable_intent (ip_intent r)
  end.
Proof using Hcase Henc.
  intros E. enough (usable_plan (sp_version (if ip_degraded r then default_planning_policy else policy)) message (ip_intent r) /\
    (ip_degraded r = true <-> reviewed_intent_template message = Ok None /\ exists e,
     plan error_type policy message [] deadline x s = (s', Raise e) /\ is_typed e = true) /\
    (ip_degraded r = true -> exists fallback, heuristic_plan (sp_version default_planning_policy) message = Ok fallback /\
     ip_intent r = ip_intent fallback)) as (Hu & Hd & Hf).
  { split; [done|]. split; [done|]. split; [done|]. apply valid_compiles; by destruct Hu. }
  unfold model_intent_plan in E. apply bind_ok_inv in E as (s1 & reviewed & Er & E). apply lift_ok_inv in Er as [Er ->].
  destruct reviewed as [i|].
  { injection E as _ <-. split; [by apply reviewed_usable|]. cbn [ip_degraded]. split; [split; [done|intros [? _]; congruence]|done]. }
  apply try_except_ok_inv in E as [E|(s2 & e & Ep & Ht & E)].
  - apply bind_ok_inv in E as (s2 & i & Ep & E). apply bind_ok_inv in E as (s3 & s4 & [-> ->]%self_ok_inv & E).
    unfold mret, M_ret in E. injection E as <- <-. cbn [ip_intent ip_degraded].
    split; [|split; [split; [done|intros (_ & e & Ee & _); congruence]|done]].
    apply plan_inv in Ep as [[Hv Hf Hc _ _] Hfrom]. constructor; [done..|]. destruct Hfrom as [Hi|[_ (n & m & Hn & _ & Hnm)]]; [by left|].
    right. exists n. split; [done|]. lia.
  - apply bind_ok_inv in E as (s3 & fallback & [Hf ->]%lift_ok_inv & E). apply bind_ok_inv in E as (s3 & s4 & [-> ->]%self_ok_inv & E).
    unfold mret, M_ret in E. injection E as <- <-. cbn [ip_intent ip_degraded].
    split; [by eapply heuristic_plan_usable|split; [|intros _; by exists fallback]]. split; [|done]. intros _. split; [done|].
    exists e. split; [|done]. apply bind_raise_inv in Ep as [Ep|(s3 & i & _ & Ep)]; [done|].
    apply bind_raise_inv in Ep as [Ep|(s4 & s5 & _ & Ep)]; unfold self, mret, M_ret in Ep; congruence.
Qed.

(** The number of facts a plan must have is between one and eight, and never above the number it may have. *)
Lemma fact_counts_bounded message version n m : minimum_fact_count message version = Ok n ->
  maximum_fact_count message version = Ok m -> 1 <= n <= m /\ m <= 8.
Proof using.
  intros Hn Hm. pose proof (minimum_fact_count_range _ _ _ Hn). pose proof (maximum_fact_count_range _ _ _ _ Hn Hm). lia.
Qed.
End Facts.

(** ** Examples *)

Definition ex_plan_payload : json := JObj
  [(u "entity", JStr (u "Moon")); (u "locale", JStr (u "en"));
   (u "facts", JList
     [JObj [(u "key", JStr (u "moon_age")); (u "fact_type", JStr (u "background"));
            (u "description", JStr (u "Age of the Moon")); (u "subject", JStr (u "Moon age"))];
      JObj [(u "key", JStr (u "moon_mass")); (u "fact_type", JStr (u "BACKGROUND"));
            (u "description", JStr (u "Mass of the Moon")); (u "consequence", JStr (u "high"));
            (u "required", JBool false)]])].

Definition ex_planned (message : string) : unit * res NormalizedIntent :=
  @plan ex_unicode ex_ids (ex_json ex_plan_payload) (fun _ => u "error") unit (scripted_gateway [])
    default_planning_policy (u message) [] (utc 7) ex_context tt.

(** The model's HIGH becomes MEDIUM, and what it marks as optional is required. *)
Example planned_example :
  map (fun f => (fr_key f, fr_consequence f, fr_required f)) <$> (ni_facts <$> snd (ex_planned "List both properties of the moon"))
  = Ok [(u "moon_age", Consequence_LOW, true); (u "moon_mass", Consequence_MEDIUM, true)].
Proof. by vm_compute. Qed.

Lemma planned_intents_sound_witness : exists i, ex_planned "List both properties of the moon" = (tt, Ok i) /\
  @sound_plan_for ex_unicode (u "List both properties of the moon") i.
Proof.
  destruct (ex_planned "List both properties of the moon") as [[] [i|]] eqn:E; [|by vm_compute in E].
  exists i. split; [done|].
  apply (@planned_intents_sound ex_unicode ex_caseless ex_ids (ex_json ex_plan_payload) (fun _ => u "error") ex_encodable unit
    (scripted_gateway []) default_planning_policy (u "List both properties of the moon") [] (utc 7) ex_context tt tt i id
    SearchMode_FAST E).
Defined.

Lemma fact_counts_bounded_witness :
  @minimum_fact_count ex_unicode (u "List the three states") (u "v") = Ok 3 /\ 1 <= 3 <= 8.
Proof.
  assert (Hn : @minimum_fact_count ex_unicode (u "List the three states") (u "v") = Ok 3) by (vm_compute; reflexivity).
  assert (Hm : @maximum_fact_count ex_unicode (u "List the three states") (u "v") = Ok 8) by (vm_compute; reflexivity).
  split; [exact Hn|]. apply (@fact_counts_bounded ex_unicode _ _ _ _ Hn Hm).
Defined.

(** A number word with a dotless i matches the pattern, which ignores case, but is no key of the table: the
    message fails planning with a KeyError. *)
Lemma dotless_count_escapes :
  @minimum_fact_count ex_unicode (uu "list fıve types") (u "v") = Raise (KeyError "count word").
Proof. vm_compute. reflexivity. Qed.

(** A gateway whose every call times out. *)
Definition ex_timeout : exn := Typed {| te_category := ErrorCategory_TRANSIENT; te_code := u "model_timeout"; te_message := u "timeout"; te_retryable := true |}.

Lemma failing_parsed {P} (role : ModelRole) (messages : list ModelMessage) (deadline : datetime) (parser : StructuredOutputParser P)
  (x : ModelInvocationContext) (s s' : unit) (v : P) :
  raise (A := option P) ex_timeout s = (s', Ok (Some v)) -> exists text, so_parse parser text = Ok v.
Proof. done. Qed.

Definition failing_gateway : ParsingGateway unit :=
  {| pg_generate P role messages deadline parser x := raise ex_timeout; pg_parsed := @failing_parsed |}.

Definition ex_fallback (message : string) : unit * res IntentPlanningResult :=
  @model_intent_plan ex_unicode ex_ids ex_no_json (fun _ => u "error") unit failing_gateway (fun _ => 2)
    default_planning_policy (u message) (utc 7) ex_context tt.

Lemma step_plan_usable_witness : exists r, ex_fallback "list three moons of Jupiter" = (tt, Ok r) /\
  ip_degraded r = true /\ length (ni_facts (ip_intent r)) = 3%nat /\
  @usable_plan ex_unicode (sp_version default_planning_policy) (u "list three moons of Jupiter") (ip_intent r).
Proof.
  assert (Hr : exists r, ex_fallback "list three moons of Jupiter" = (tt, Ok r) /\ ip_degraded r = true /\
    length (ni_facts (ip_intent r)) = 3%nat) by (eexists; split; [vm_compute; reflexivity|split; vm_compute; reflexivity]).
  destruct Hr as (r & Hr & Hd & Hl). exists r. split; [exact Hr|]. split; [exact Hd|]. split; [exact Hl|].
  unfold ex_fallback in Hr.
  pose proof (proj1 (@step_plan_usable ex_unicode ex_caseless ex_ids ex_no_json (fun _ => u "error") ex_encodable unit failing_gateway
    (fun _ => 2) default_planning_policy (u "list three moons of Jupiter") (utc 7) ex_context tt tt r id SearchMode_FAST Hr)) as Hu.
  rewrite Hd in Hu. exact Hu.
Defined.

(** A model may answer a key with half of a surrogate pair: the plan is accepted, and the compiler raises. *)
Definition ex_half_payload : json := JObj
  [(u "entity", JStr (u "Moon")); (u "locale", JStr (u "en"));
   (u "facts", JList
     [JObj [(u "key", JStr (55296 :: u "x")); (u "fact_type", JStr (u "background"));
            (u "description", JStr (u "Age of the Moon")); (u "subject", JStr (u "Moon age"))]])].

Lemma half_pair_planned :
  (i ← snd (@plan ex_unicode ex_ids (ex_json ex_half_payload) (fun _ => u "error") unit (scripted_gateway [])
              default_planning_policy (u "How old is the moon") [] (utc 7) ex_context tt);
   @compile ex_unicode id default_planning_policy i SearchMode_FAST 1 false []) = Raise surrogates.
Proof. vm_compute. reflexivity. Qed.

(** A message in the words of a conversation has no fallback: its own text becomes the entity, which the
    values of a plan refuse, and the step fails with an error that is not typed. *)
Lemma conversation_has_no_fallback :
  ex_fallback "could you explain the tides" = (tt, Raise (ValueError "contains conversational text")).
Proof. vm_compute. reflexivity. Qed.
