(* ===== verification/Expansion.v ===== *)
(** * Expansion: another round of research

    [sana/modules/evidence/evidence_gain.py] estimates what another round may bring for a fact, and
    [sana/modules/search_planning/expansion.py] decides whether to expand, for which facts, and with
    which queries. *)

From Stdlib Require Import SpecFloat String.
From S2P Require Import Prelude Errors PyTime PyData PyStr Regex Transitions Run Step Coverage Intent Router QueryCompiler.
From S2P Require Import QueryFacts Selector Research.

(** ** Expected gain *)

(** [@ src/sana/modules/evidence/evidence_gain.py ExpectedEvidenceGain@13-16] *)
Record ExpectedEvidenceGain := {
  eg_fact_key : pystr;
  eg_score : float;
  eg_reason_codes : list pystr
}.

(** [@ src/sana/modules/evidence/evidence_gain.py ExpectedEvidenceGain.__post_init__] *)
Definition ExpectedEvidenceGain_new (g : ExpectedEvidenceGain) : res ExpectedEvidenceGain :=
  _ ← fail_if (negb (fle01 (eg_score g))) (ValueError "Expected evidence gain must be between zero and one");
  Ok g.

(** What a gap starts with; a verified fact has nothing to gain. *)
(** [@ src/sana/modules/evidence/evidence_gain.py EvidenceGainEstimator.estimate@37-47] *)
Definition base_gain (status : FactCoverage) : option (float * string) :=
  match status with
  | FactCoverage_OPEN => Some (flit 35 100, "open_required_fact"%string)
  | FactCoverage_PARTIAL => Some (flit 45 100, "conflict_resolution"%string)
  | FactCoverage_COVERED => Some (flit 15 100, "l2_promotion"%string)
  | FactCoverage_VERIFIED => None
  end.

(** [@ src/sana/modules/evidence/evidence_gain.py EvidenceGainEstimator.estimate] *)
Definition estimate (fact : FactRequirement) (assessment : CoverageAssessment) (source_novelty query_novelty : float)
    (official_source_available : bool) : res ExpectedEvidenceGain :=
  _ ← fail_if (negb (fle01 source_novelty) || negb (fle01 query_novelty))
        (ValueError "Evidence novelty signals must be between zero and one");
  _ ← fail_if (negb (bool_decide (ca_fact_key assessment = fr_key fact)))
        (ValueError "Coverage assessment does not match fact");
  match base_gain (ca_status assessment) with
  | None => ExpectedEvidenceGain_new {| eg_fact_key := fr_key fact; eg_score := fzero; eg_reason_codes := [u "already_verified"] |}
  | Some (base, reason) =>
      let bonus (b : bool) (x : float) (score : float) := if b then fadd score x else score in
      let fresh := fr_freshness fact isnot Freshness_STABLE in
      let high := fr_consequence fact is Consequence_HIGH in
      let score := fadd (fadd base (fmul (flit 2 10) source_novelty)) (fmul (flit 15 100) query_novelty) in
      let score := bonus official_source_available (flit 15 100) score in
      let score := bonus fresh (flit 5 100) score in
      let score := bonus high (flit 5 100) score in
      let reasons := [u reason] ++ reason_if official_source_available "official_source_available"
        ++ reason_if fresh "freshness_value" ++ reason_if high "high_consequence_value"
        ++ reason_if (fle (flit 5 10) source_novelty) "novel_source_class"
        ++ reason_if (fle (flit 5 10) query_novelty) "novel_query" in
      ExpectedEvidenceGain_new
        {| eg_fact_key := fr_key fact; eg_score := fmin score (float_of_Z 1); eg_reason_codes := reasons |}
  end.

(** ** Decisions *)

(** [@ src/sana/modules/search_planning/expansion.py ExpansionStopReason] *)
Inductive ExpansionStopReason :=
| ExpansionStopReason_EXPAND
| ExpansionStopReason_MAX_ROUNDS
| ExpansionStopReason_LOW_EXPECTED_GAIN
| ExpansionStopReason_QUERY_BUDGET_EXHAUSTED
| ExpansionStopReason_NO_REQUIRED_GAPS.

#[export] Instance ExpansionStopReason_eq_dec : EqDecision ExpansionStopReason.
Proof. solve_decision. Defined.

(** [@ src/sana/modules/search_planning/expansion.py ExpansionDecision@32-40] *)
Record ExpansionDecision := {
  ed_should_expand : bool;
  ed_plan_revision : Z;
  ed_queries : list QuerySpec;
  ed_steps : list RevisionStep;
  ed_expected_gain : float;
  ed_reason : ExpansionStopReason;
  ed_gain_by_fact : list (pystr * float)
}.

(** [@ src/sana/modules/search_planning/expansion.py ExpansionDecision.__post_init__] *)
Definition ExpansionDecision_new (d : ExpansionDecision) : res ExpansionDecision :=
  let expands := d.(ed_should_expand) in
  _ ← fail_if (ed_plan_revision d <? 1) (ValueError "Expansion revision must be positive");
  _ ← fail_if (negb (fle01 (ed_expected_gain d))) (ValueError "Expansion expected gain must be between zero and one");
  _ ← fail_if (negb (Bool.eqb expands (negb (bool_decide (ed_queries d = [])) && negb (bool_decide (ed_steps d = []%list)))))
        (ValueError "Expansion decision does not match generated work");
  _ ← fail_if (expands && (ed_reason d isnot ExpansionStopReason_EXPAND))
        (ValueError "Expanding decision requires EXPAND reason");
  _ ← fail_if (negb expands && (ed_reason d is ExpansionStopReason_EXPAND))
        (ValueError "Stopped decision cannot use EXPAND reason");
  _ ← fail_if (negb (length (ed_queries d) =? length (ed_steps d))%nat)
        (ValueError "Every expansion query requires one discovery Step");
  _ ← fail_if (existsb (fun q => negb (qs_plan_revision q =? ed_plan_revision d)) (ed_queries d))
        (ValueError "Expansion query belongs to another revision");
  _ ← fail_if (existsb (fun '(step, query) => negb (rs_plan_revision step =? ed_plan_revision d)
                          || negb (bool_decide (rs_query_key step = qs_key query))) (zip (ed_steps d) (ed_queries d)))
        (ValueError "Expansion Step does not match its query");
  _ ← fail_if (existsb (fun kv => negb (fle01 kv.2)) (ed_gain_by_fact d))
        (ValueError "Per-fact evidence gain must be between zero and one");
  Ok d.

(** [sum] of floats, with the compensation CPython 3.12 adds (Neumaier). *)
Definition sum_step (acc : float * float) (x : float) : float * float :=
  let '(total, c) := acc in
  let t := fadd total x in
  (t, fadd c (if fle (SFabs x) (SFabs total) then fadd (fsub total t) x else fadd (fsub x t) total)).

Definition is_finite (x : float) : bool :=
  match x with S754_finite _ _ _ | S754_zero _ => true | _ => false end.

Definition py_sum (xs : list float) : float :=
  match xs with
  | [] => fzero
  | x :: r => let '(total, c) := foldl sum_step (x, fzero) r in
              if ftrue c && is_finite c then fadd total c else total
  end.

(** [@ src/sana/modules/search_planning/expansion.py ExpansionPlanner.__init__@78-80] *)
Record ExpansionPlanner := {
  xp_policy : SearchPlanningPolicy;
  xp_minimum_gain : float;
  xp_max_rounds : Z
}.

(** [@ src/sana/modules/search_planning/expansion.py ExpansionPlanner.__init__] *)
Definition ExpansionPlanner_new (policy : option SearchPlanningPolicy) (minimum_expected_gain : float)
    (max_expansion_rounds : Z) : res ExpansionPlanner :=
  _ ← fail_if (negb (fle01 minimum_expected_gain) || (max_expansion_rounds <? 1))
        (ValueError "Expansion policy values are invalid");
  Ok {| xp_policy := default default_planning_policy policy; xp_minimum_gain := minimum_expected_gain;
        xp_max_rounds := max_expansion_rounds |}.

(** [@ src/sana/modules/search_planning/expansion.py ExpansionPlanner._stop] *)
Definition stop (next_revision : Z) (reason : ExpansionStopReason) (gain_by_fact : list (pystr * float))
    : res ExpansionDecision :=
  ExpansionDecision_new
    {| ed_should_expand := false; ed_plan_revision := next_revision; ed_queries := []; ed_steps := [];
       ed_expected_gain := fzero; ed_reason := reason; ed_gain_by_fact := gain_by_fact |}.

(** The discovery step of a query. *)
(** [@ src/sana/modules/search_planning/expansion.py ExpansionPlanner.plan@149-157] *)
Definition revision_step (next_revision : Z) (q : QuerySpec) : RevisionStep :=
  {| rs_step_key := u "discover:" ++ qs_key q; rs_step_type := StepType_DISCOVERY; rs_plan_revision := next_revision;
     rs_query_key := qs_key q |}.

Section Planning.
Context `{Unicode} `{SetOrder} (sha256_utf8 : pystr -> pystr) (planner : ExpansionPlanner).

(** The gains of the gaps; a later gain of the same fact replaces an earlier one. *)
(** [@ src/sana/modules/search_planning/expansion.py ExpansionPlanner.plan@99-103] *)
Definition gains_of_gaps (gap_fact_keys : list pystr) (gains : list ExpectedEvidenceGain) : list (pystr * float) :=
  foldl (fun d g => if bool_decide (eg_fact_key g ∈ gap_fact_keys) then dset (eg_fact_key g) (eg_score g) d else d) [] gains.

(** The required facts whose gain is worth a round. *)
(** [@ src/sana/modules/search_planning/expansion.py ExpansionPlanner.plan@104-119] *)
Definition worth_expanding (gain_by_fact : list (pystr * float)) (facts : list FactRequirement) : list FactRequirement :=
  base.filter (fun f => fr_required f = true /\
    existsb (fun kv => bool_decide (kv.1 = fr_key f) && fle (xp_minimum_gain planner) kv.2) gain_by_fact = true) facts.

(** [@ src/sana/modules/search_planning/expansion.py ExpansionPlanner.plan] *)
Definition expansion_plan (intent : NormalizedIntent) (current_revision completed_expansion_rounds : Z)
    (gap_fact_keys : list pystr) (gains : list ExpectedEvidenceGain) (existing_queries : list QuerySpec)
    : res ExpansionDecision :=
  _ ← fail_if ((current_revision <? 1) || (completed_expansion_rounds <? 0))
        (ValueError "Expansion revision and round counters are invalid");
  let next_revision := current_revision + 1 in
  if xp_max_rounds planner <=? completed_expansion_rounds then stop next_revision ExpansionStopReason_MAX_ROUNDS [] else
  if bool_decide (gap_fact_keys = []) then stop next_revision ExpansionStopReason_NO_REQUIRED_GAPS [] else
  let gain_by_fact := gains_of_gaps gap_fact_keys gains in
  if negb (existsb (fun kv => fle (xp_minimum_gain planner) kv.2) gain_by_fact)
  then stop next_revision ExpansionStopReason_LOW_EXPECTED_GAIN gain_by_fact else
  let selected_facts := worth_expanding gain_by_fact (ni_facts intent) in
  if bool_decide (selected_facts = []) then stop next_revision ExpansionStopReason_NO_REQUIRED_GAPS gain_by_fact else
  let selected_keys := dedupe (map fr_key selected_facts) in
  narrowed_intent ← NormalizedIntent_new
    {| ni_entity := ni_entity intent; ni_aliases := ni_aliases intent; ni_locale := ni_locale intent;
       ni_facts := selected_facts; ni_requires_comparison := ni_requires_comparison intent;
       ni_requires_complete_sources := ni_requires_complete_sources intent |};
  queries ← compile sha256_utf8 (xp_policy planner) narrowed_intent SearchMode_RESEARCH next_revision true
              (map qs_signature existing_queries);
  if bool_decide (queries = []) then stop next_revision ExpansionStopReason_QUERY_BUDGET_EXHAUSTED gain_by_fact else
  let expected_gain := fdiv (py_sum (map (fun key => default fzero (dget key gain_by_fact)) (set_order selected_keys)))
                         (float_of_Z (Z.of_nat (length selected_keys))) in
  ExpansionDecision_new
    {| ed_should_expand := true; ed_plan_revision := next_revision; ed_queries := queries;
       ed_steps := map (revision_step next_revision) queries; ed_expected_gain := expected_gain;
       ed_reason := ExpansionStopReason_EXPAND; ed_gain_by_fact := gain_by_fact |}.
End Planning.

(** ** What a decision promises *)

Section Facts.
Context {U : Unicode} {Henc : EncodableText} `{SetOrder} (sha256_utf8 : pystr -> pystr) (planner : ExpansionPlanner).

Lemma gains_of_gaps_keys gaps gains k v : (k, v) ∈ gains_of_gaps gaps gains -> k ∈ gaps.
Proof using.
  clear. unfold gains_of_gaps.
  assert (Hgen : forall d, (forall k, k ∈ map fst d -> k ∈ gaps) ->
    forall k, k ∈ map fst (foldl (fun d g => if bool_decide (eg_fact_key g ∈ gaps) then dset (eg_fact_key g) (eg_score g) d else d) d gains) -> k ∈ gaps).
  { induction gains as [|g gains IH]; intros d Hd k'; [apply Hd|]. cbn [foldl]. apply IH. case_bool_decide as Hg; [|done].
    intros k'' Hk''. change (map fst) with (fmap (M := list) (@fst pystr float)) in Hk''. rewrite dset_keys in Hk''.
    case_decide; [by apply Hd|]. apply elem_of_app in Hk'' as [Hk''| ->%list_elem_of_singleton]; [by apply Hd|done]. }
  intros Hin. apply (Hgen []); [by intros ? ?%not_elem_of_nil|].
  apply list_elem_of_In, in_map_iff. exists (k, v). split; [done|]. by apply list_elem_of_In.
Qed.

Lemma worth_expanding_elem gaps gains facts f :
  f ∈ worth_expanding planner (gains_of_gaps gaps gains) facts -> f ∈ facts /\ fr_required f = true /\ fr_key f ∈ gaps.
Proof using.
  clear. unfold worth_expanding. rewrite list_elem_of_filter, existsb_exists. intros ((Hr & [k v] & Hin & Hk) & Hf).
  apply andb_prop in Hk as [Hk _]. apply bool_decide_eq_true in Hk. cbn in Hk. subst.
  ksplit. by eapply gains_of_gaps_keys, list_elem_of_In.
Qed.

Lemma worth_expanding_sublist d facts : worth_expanding planner d facts `sublist_of` facts.
Proof using. apply sublist_filter. Qed.

(** The intent narrowed to some of its facts is valid. *)
Lemma narrowed_valid intent facts i : valid_intent intent -> Forall valid_fact (ni_facts intent) ->
  facts `sublist_of` ni_facts intent ->
  NormalizedIntent_new
    {| ni_entity := ni_entity intent; ni_aliases := ni_aliases intent; ni_locale := ni_locale intent; ni_facts := facts;
       ni_requires_comparison := ni_requires_comparison intent;
       ni_requires_complete_sources := ni_requires_complete_sources intent |} = Ok i ->
  ni_facts i = facts /\ valid_intent i /\ Forall valid_fact (ni_facts i).
Proof using.
  clear. intros Hv Hf Hs [-> Hi]%NormalizedIntent_new_spec. cbn [ni_facts]. ksplit. by eapply forall_sublist.
Qed.

(** A stopped decision has no work. *)
Definition stopped (d : ExpansionDecision) : Prop :=
  ed_should_expand d = false /\ ed_queries d = [] /\ ed_steps d = [] /\ ed_reason d <> ExpansionStopReason_EXPAND.

Lemma ExpansionDecision_new_inv d d' : ExpansionDecision_new d = Ok d' -> d' = d.
Proof using. clear. unfold ExpansionDecision_new. cbv zeta. intros E. do 9 apply res_bind_ok_inv in E as (? & _ & E). by injection E as <-. Qed.

Lemma stop_inv revision reason gains d : reason <> ExpansionStopReason_EXPAND -> stop revision reason gains = Ok d ->
  stopped d /\ ed_plan_revision d = revision.
Proof using. intros Hr E. apply ExpansionDecision_new_inv in E as ->. by repeat split. Qed.

(** The work of an expansion. *)
Record expands (intent : NormalizedIntent) (revision rounds : Z) (gaps : list pystr) (existing : list QuerySpec)
    (d : ExpansionDecision) : Prop := {
  ex_rounds : rounds < xp_max_rounds planner;
  ex_queries : ed_queries d <> [];
  ex_budget : Z.of_nat (length (dedupe (map qs_signature existing)) + length (ed_queries d))
    <= sp_research_total_max_queries (xp_policy planner);
  ex_steps : ed_steps d = map (revision_step (ed_plan_revision d)) (ed_queries d);
  ex_distinct : NoDup (map qs_key (ed_queries d)) /\ NoDup (map qs_signature (ed_queries d));
  ex_new : forall q, q ∈ ed_queries d -> qs_signature q ∉ map qs_signature existing;
  ex_gap : forall q, q ∈ ed_queries d -> qs_plan_revision q = revision + 1 /\
    exists f, f ∈ ni_facts intent /\ fr_required f = true /\ fr_key f ∈ gaps /\ qs_fact_key q = fr_key f
}.

Lemma expansion_plan_inv intent revision rounds gaps gains existing d : xp_policy planner = default_planning_policy ->
  valid_intent intent -> Forall valid_fact (ni_facts intent) ->
  expansion_plan sha256_utf8 planner intent revision rounds gaps gains existing = Ok d ->
  ed_plan_revision d = revision + 1 /\
  ((ed_should_expand d = true /\ expands intent revision rounds gaps existing d) \/ stopped d).
Proof using Henc.
  intros Hpol Hv Hf E. unfold expansion_plan in E. apply res_bind_ok_inv in E as (? & Hguard & E).
  apply fail_if_ok_inv in Hguard. cbv zeta in E.
  destruct (Z.leb_spec (xp_max_rounds planner) rounds) as [|Hrounds]; [apply stop_inv in E as [? ?]; [split; [done|by right]|done]|].
  case_bool_decide; [apply stop_inv in E as [? ?]; [split; [done|by right]|done]|].
  destruct (negb _); [apply stop_inv in E as [? ?]; [split; [done|by right]|done]|].
  case_bool_decide as Hsel; [apply stop_inv in E as [? ?]; [split; [done|by right]|done]|].
  apply res_bind_ok_inv in E as (narrowed & En & E). apply res_bind_ok_inv in E as (queries & Eq & E).
  case_bool_decide as Hq; [apply stop_inv in E as [? ?]; [split; [done|by right]|done]|].
  apply ExpansionDecision_new_inv in E as ->. cbn [ed_plan_revision ed_should_expand]. split; [done|]. left. split; [done|].
  apply narrowed_valid in En as (Hfacts & Nv & Nf); [|done..|apply worth_expanding_sublist].
  bools. rewrite Hpol in Eq.
  assert (Hc : 64 <= sp_max_query_characters default_planning_policy) by done.
  pose proof (compile_result sha256_utf8 default_planning_policy Hc narrowed Nv Nf SearchMode_RESEARCH (revision + 1) true
    (map qs_signature existing) ltac:(lia) ltac:(unfold queries_left; lia)) as HR. rewrite Eq in HR.
  destruct HR as (Hlen & Hmade & Hkeys & Hsigs & Hnew & _). unfold queries_left in Hlen.
  constructor; cbn [ed_queries ed_steps ed_plan_revision]; try done.
  - rewrite Hpol. assert (0 < Z.of_nat (length queries)) by (destruct queries; [done|cbn; lia]).
    change (query_limit default_planning_policy SearchMode_RESEARCH true) with 12 in Hlen.
    change (sp_research_total_max_queries default_planning_policy) with 12. lia.
  - intros q Hin. apply Hnew. apply list_elem_of_In, in_map_iff. exists q. split; [done|]. by apply list_elem_of_In.
  - intros q Hin. rewrite Forall_forall in Hmade. destruct (Hmade q Hin) as [(f & Hff & Hkey & _) _ _ [Hrev _]].
    split; [done|]. exists f. rewrite Hfacts in Hff. apply worth_expanding_elem in Hff as (? & ? & ?). done.
Qed.

(** Claim C18. An expansion is bounded work for real gaps: it happens only while rounds are left, its queries
    together with the existing ones stay within the total of the policy, each is new, distinct and for a
    required fact that is a gap, and has one step; any other decision carries no work and says why. *)
Theorem expansion_sound intent revision rounds gaps gains existing d : xp_policy planner = default_planning_policy ->
  valid_intent intent -> Forall valid_fact (ni_facts intent) ->
  expansion_plan sha256_utf8 planner intent revision rounds gaps gains existing = Ok d ->
  ed_plan_revision d = revision + 1 /\
  ((ed_should_expand d = true /\ expands intent revision rounds gaps existing d) \/ stopped d).
Proof using Henc. apply expansion_plan_inv. Qed.
End Facts.

(** ** Example *)

Definition ex_expansion_planner : ExpansionPlanner :=
  {| xp_policy := default_planning_policy; xp_minimum_gain := flit 4 10; xp_max_rounds := 2 |}.

Definition ex_gain : ExpectedEvidenceGain :=
  {| eg_fact_key := u "tls13_rfc"; eg_score := flit 1 2; eg_reason_codes := [u "open_required_fact"] |}.

Definition ex_expansion (rounds : Z) : res ExpansionDecision :=
  @expansion_plan ex_unicode insertion_order id ex_expansion_planner ex_tls_intent 1 rounds [u "tls13_rfc"] [ex_gain] [].

Example expansion_example :
  (fun d => (ed_should_expand d, length (ed_queries d), map rs_step_key (ed_steps d))) <$> ex_expansion 1
    = Ok (true, 3%nat, [u "discover:q:2:tls13_rfc:1"; u "discover:q:2:tls13_rfc:2"; u "discover:q:2:tls13_rfc:3"])
  /\ (fun d => ed_reason d) <$> ex_expansion 2 = Ok ExpansionStopReason_MAX_ROUNDS.
Proof. by vm_compute. Qed.

Lemma expansion_sound_witness : exists d, ex_expansion 1 = Ok d /\ ed_plan_revision d = 2.
Proof.
  destruct (ex_expansion 1) as [d|] eqn:E; [|by vm_compute in E]. exists d. split; [done|].
  destruct ex_tls_valid as [Hv Hf].
  apply (@expansion_sound ex_unicode ex_encodable insertion_order id ex_expansion_planner ex_tls_intent 1 1 [u "tls13_rfc"]
    [ex_gain] [] d); [reflexivity|exact Hv|exact Hf|exact E].
Defined.
