(* ===== verification/Ranking.v ===== *)
(** * Ranking: which found pages are fetched

    [_select_ranked_hits] of [sana/app/search_operations.py]: the candidates of a selection, their
    order, and the two greedy choices. A FAST search takes the best pages; a RESEARCH search covers
    every planned fact before it spends a slot on another page.

    Whatever was found, the selection takes distinct candidates within its limit; a FAST search that
    found an official page reads only official pages; a RESEARCH search covers every planned fact
    that some page is about, unless it ran out of slots. *)

From Stdlib Require Import SpecFloat String.
From S2P Require Import Prelude Errors PyTime PyData PyStr Regex PyUrl Run Coverage Completion Authority.

(** ** Keys and greedy choices *)

(** The order of tuples of integers of the same length. *)
Fixpoint lex_lt (a b : list Z) : bool :=
  match a, b with
  | x :: a, y :: b => (x <? y) || ((x =? y) && lex_lt a b)
  | [], _ :: _ => true
  | _, [] => false
  end.

(** [min(l, key=key)]: the first element of the least key; the default is the first element. *)
Fixpoint min_by {A} (key : A -> list Z) (best : A) (l : list A) : A :=
  match l with
  | [] => best
  | x :: r => min_by key (if lex_lt (key x) (key best) then x else best) r
  end.

(** [max(l, key=key)] *)
Fixpoint max_by {A} (key : A -> list Z) (best : A) (l : list A) : A :=
  match l with
  | [] => best
  | x :: r => max_by key (if lex_lt (key best) (key x) then x else best) r
  end.

(** ** Candidates *)

(** A candidate is the [dict] of a hit with the key [fact_ids] bound to a list of texts. *)
Record Candidate := { ca_fields : list (pystr * json); ca_fact_ids : list pystr }.

Definition candidate_dict (c : Candidate) : json :=
  JObj (dset (u "fact_ids") (JList (map JStr (ca_fact_ids c))) (ca_fields c)).

(** A candidate with what the sort reads of it. *)
Record Ranked := {
  rk_candidate : Candidate;
  rk_identity : pystr;
  rk_official : bool;
  rk_direct : bool;
  rk_score : float;
  rk_rank : Z;
  rk_url : pystr
}.

Definition rk_facts (r : Ranked) : list pystr := ca_fact_ids (rk_candidate r).

Section Ranking.
Context `{Unicode} `{IpLiterals} `{PublicSuffixes} `{PyText} (authority_policy : SourceAuthorityPolicy) (entity : pystr).

(** A page whose URL cannot be classified is independent, and its own source. *)
(** [@ src/sana/app/search_operations.py _select_ranked_hits@374-384] *)
Definition classified (c : Candidate) : res (pystr * SourceAuthority) :=
  url ← str_at (candidate_dict c) "canonical_url";
  match classify authority_policy url entity with
  | Raise (ValueError _) => Ok (url, SourceAuthority_INDEPENDENT)
  | r => r
  end.

(** The key of the sort; [discovery_step] writes texts as URLs, another value is refused here. *)
(** [@ src/sana/app/search_operations.py _select_ranked_hits@387-393] *)
Definition sort_key (c : Candidate) (identity : pystr) (authority : SourceAuthority) : res Ranked :=
  let item := candidate_dict c in
  provider ← get_default item "provider" (JStr []);
  score ← float_at item "score";
  rank ← int_at item "rank";
  url ← subscript item "canonical_url";
  match url with
  | JStr url =>
      Ok {| rk_candidate := c; rk_identity := identity; rk_official := bool_decide (authority = SourceAuthority_OFFICIAL);
            rk_direct := bool_decide (to_str provider = u "direct"); rk_score := score; rk_rank := rank; rk_url := url |}
  | _ => Raise (TypeError "canonical_url")
  end.

(** Official pages first, then direct ones, then by score, rank and URL. *)
(** [@ src/sana/app/search_operations.py _select_ranked_hits@385-394] *)
Definition ranks_first (a b : Ranked) : bool :=
  let flags r := [if rk_official r then 0 else 1; if rk_direct r then 0 else 1] in
  lex_lt (flags a) (flags b) || (bool_decide (flags a = flags b) &&
    (flt (SFopp (rk_score a)) (SFopp (rk_score b)) || (SFeqb (SFopp (rk_score a)) (SFopp (rk_score b)) &&
      ((rk_rank a <? rk_rank b) || ((rk_rank a =? rk_rank b) && pystr_ltb (rk_url a) (rk_url b)))))).

Definition ranked_hits (candidates : list Candidate) : res (list Ranked) :=
  classes ← traverse classified candidates;
  keys ← traverse (fun '(c, (identity, authority)) => sort_key c identity authority) (combine candidates classes);
  Ok (py_sorted ranks_first keys).

(** ** The choices *)

(** [len(set(item.fact_ids) - covered)] *)
Definition gain (covered : list pystr) (r : Ranked) : Z :=
  Z.of_nat (length (base.filter (fun f => f ∉ covered) (dedupe (rk_facts r)))).

(** [enumerate(remaining)] *)
Definition indexed (remaining : list Ranked) : list (nat * Ranked) := imap pair remaining.

(** Pages that add most, the earlier one of equals. *)
(** [@ src/sana/app/search_operations.py _select_ranked_hits@414-430] *)
Fixpoint fast_cover (slots : nat) (remaining : list Ranked) (covered : list pystr) : list Ranked :=
  match slots, indexed remaining with
  | S slots, x :: r =>
      let '(i, chosen) := max_by (fun ix => [gain covered ix.2; - Z.of_nat ix.1]) x r in
      chosen :: fast_cover slots (list_delete i remaining) (covered ++ rk_facts chosen)
  | _, _ => []
  end.

(** The first page of every source, and the others. *)
(** [@ src/sana/app/search_operations.py _select_ranked_hits@438-446] *)
Fixpoint by_identity (seen : list pystr) (l : list Ranked) : list Ranked * list Ranked :=
  match l with
  | [] => ([], [])
  | x :: r =>
      if bool_decide (rk_identity x ∈ seen)
      then let '(diverse, deferred) := by_identity seen r in (diverse, x :: deferred)
      else let '(diverse, deferred) := by_identity (rk_identity x :: seen) r in (x :: diverse, deferred)
  end.

(** [@ src/sana/app/search_operations.py _select_ranked_hits@399-447] *)
Definition select_fast (max_selected_hits : Z) (ranked : list Ranked) : list Ranked :=
  let direct_official := base.filter (fun r => rk_official r && rk_direct r = true) ranked in
  let direct_official_pages := dedupe (map rk_url direct_official) in
  let pages := Z.of_nat (length direct_official_pages) in
  if 2 <=? pages
  then fast_cover (Z.to_nat (Z.min max_selected_hits 2)) direct_official []
  else
    let selection_limit :=
      if existsb rk_official ranked then Z.min max_selected_hits (if 2 <=? pages then 2 else 1)
      else Z.min 2 max_selected_hits in
    let '(diverse, deferred) := by_identity [] ranked in
    take (Z.to_nat selection_limit) (diverse ++ deferred).

(** The page of the next slot: while a page adds a fact, trusted direct pages that add one come first,
    then those that add most, with the fewest facts, official, of a new source, in order. Once none
    does, a new source comes first. *)
(** [@ src/sana/app/search_operations.py _select_ranked_hits@462-505] *)
Definition next_page (remaining : list (nat * Ranked)) (covered seen_identities : list pystr) : option (nat * Ranked) :=
  let new_source r := if bool_decide (rk_identity r ∉ seen_identities) then 0 else 1 in
  let official r := if rk_official r then 0 else 1 in
  let gains := map (fun ix => gain covered ix.2) remaining in
  let maximum_gain := foldr Z.max 0 gains in
  if negb (maximum_gain =? 0) then
    let gaining := base.filter (fun ix => (0 <? gain covered ix.2) = true) remaining in
    let trusted_direct := base.filter (fun ix => rk_official ix.2 && rk_direct ix.2 = true) gaining in
    let candidate_pool := match trusted_direct with [] => gaining | _ => trusted_direct end in
    let pool_maximum_gain := foldr Z.max 0 (map (fun ix => gain covered ix.2) candidate_pool) in
    match base.filter (fun ix => gain covered ix.2 = pool_maximum_gain) candidate_pool with
    | [] => None
    | x :: r => Some (min_by (fun ix => [Z.of_nat (length (dedupe (rk_facts ix.2))); official ix.2; new_source ix.2;
                                         Z.of_nat ix.1]) x r)
    end
  else
    match remaining with
    | [] => None
    | x :: r => Some (min_by (fun ix => [new_source ix.2; official ix.2; Z.of_nat ix.1]) x r)
    end.

(** [@ src/sana/app/search_operations.py _select_ranked_hits@452-519] *)
Fixpoint research_cover (target : list pystr) (slots : nat) (remaining : list Ranked) (covered seen_identities : list pystr)
    : list Ranked :=
  match slots, next_page (indexed remaining) covered seen_identities with
  | S slots, Some (i, chosen) =>
      let remaining := list_delete i remaining in
      let seen_identities := rk_identity chosen :: seen_identities in
      let covered := covered ++ rk_facts chosen in
      let coverage_complete := negb (bool_decide (target = [])) && forallb (fun f => bool_decide (f ∈ covered)) target in
      let unseen_identity_remains := existsb (fun r => bool_decide (rk_identity r ∉ seen_identities)) remaining in
      if coverage_complete && ((2 <=? Z.of_nat (length (dedupe seen_identities))) || negb unseen_identity_remains)
      then [chosen]
      else chosen :: research_cover target slots remaining covered seen_identities
  | _, _ => []
  end.

(** [@ src/sana/app/search_operations.py _select_ranked_hits] *)
Definition select_ranked_hits (mode : SearchMode) (max_selected_hits : Z) (candidates : list Candidate)
    : res (list Candidate) :=
  ranked ← ranked_hits candidates;
  let target := dedupe (flat_map rk_facts ranked) in
  Ok (map rk_candidate (match mode with
                        | SearchMode_FAST => select_fast max_selected_hits ranked
                        | SearchMode_RESEARCH => research_cover target (Z.to_nat max_selected_hits) ranked [] []
                        end)).
End Ranking.

(** ** The pieces *)

Lemma min_by_elem {A} (key : A -> list Z) b l : min_by key b l ∈ b :: l.
Proof. revert b. induction l as [|x l IH]; intros b; simpl; [by left|]. destruct (lex_lt _ _); set_solver. Qed.

Lemma max_by_elem {A} (key : A -> list Z) b l : max_by key b l ∈ b :: l.
Proof. revert b. induction l as [|x l IH]; intros b; simpl; [by left|]. destruct (lex_lt _ _); set_solver. Qed.

Lemma elem_of_indexed l i x : (i, x) ∈ indexed l -> l !! i = Some x.
Proof. intros (j & y & [= <- <-] & Hj)%elem_of_lookup_imap. done. Qed.

Lemma elem_of_indexed_2 l x : x ∈ l -> exists i, (i, x) ∈ indexed l.
Proof. intros [i Hi]%list_elem_of_lookup. exists i. apply elem_of_lookup_imap. eauto. Qed.

Lemma indexed_nil l : indexed l = [] -> l = [].
Proof. by destruct l. Qed.

Lemma chosen_perm (l : list Ranked) i x : (i, x) ∈ indexed l -> x :: list_delete i l ≡ₚ l.
Proof. intros Hi%elem_of_indexed. symmetry. by apply delete_Permutation. Qed.

(** What is new in a list of facts. *)
Definition fresh (covered facts : list pystr) : list pystr := base.filter (fun f => f ∉ covered) (dedupe facts).

Lemma elem_of_fresh covered facts f : f ∈ fresh covered facts <-> f ∈ facts /\ f ∉ covered.
Proof. unfold fresh. rewrite list_elem_of_filter, elem_of_dedupe. naive_solver. Qed.

Lemma NoDup_fresh covered facts : NoDup (fresh covered facts).
Proof. apply NoDup_filter, NoDup_dedupe. Qed.

Lemma gain_pos covered r : 0 < gain covered r <-> exists f, f ∈ rk_facts r /\ f ∉ covered.
Proof.
  unfold gain. fold (fresh covered (rk_facts r)). split.
  - intros Hp. destruct (fresh covered (rk_facts r)) as [|f l] eqn:E; [by simpl in Hp|]. exists f.
    apply elem_of_fresh. rewrite E. by left.
  - intros (f & Hf). assert (f ∈ fresh covered (rk_facts r)) as Hin by by apply elem_of_fresh.
    destruct (fresh covered (rk_facts r)); [by apply elem_of_nil in Hin|]. simpl. lia.
Qed.

Lemma gain_nonneg covered r : 0 <= gain covered r.
Proof. unfold gain. lia. Qed.

(** Facts that a page adds are no longer missing. *)
Lemma fresh_decreases covered target facts f : f ∈ facts -> f ∉ covered -> f ∈ target ->
  (length (fresh (covered ++ facts) target) < length (fresh covered target))%nat.
Proof.
  intros Hf Hc Ht. assert (f :: fresh (covered ++ facts) target ⊆+ fresh covered target) as Hs.
  { apply NoDup_submseteq.
    - constructor; [|apply NoDup_fresh]. rewrite elem_of_fresh. set_solver.
    - intros x. rewrite elem_of_cons, !elem_of_fresh. set_solver. }
  apply submseteq_length in Hs. simpl in Hs. lia.
Qed.

Lemma max_all_spec l : 0 <= foldr Z.max 0 l /\ Forall (fun x => x <= foldr Z.max 0 l) l /\
  (foldr Z.max 0 l = 0 \/ foldr Z.max 0 l ∈ l).
Proof.
  induction l as [|x l (H0 & HF & Hin)]; simpl; [split; [done|split; [done|by left]]|].
  split; [lia|]. split; [constructor; [lia|]; eapply Forall_impl; [exact HF|]; simpl; lia|].
  destruct (Z.max_spec x (foldr Z.max 0 l)) as [[_ ->]|[_ ->]]; set_solver.
Qed.

(** ** The order *)

(** The first of two flags decides. *)
Lemma ranks_first_official a b : rk_official a <> rk_official b -> ranks_first a b = rk_official a.
Proof. unfold ranks_first. destruct (rk_official a), (rk_official b); try done; intros _; simpl; by destruct (rk_direct a), (rk_direct b). Qed.

Lemma insert_sorted_cons (x : Ranked) l : exists (h : Ranked) (r : list Ranked), insert_sorted ranks_first x l = h :: r /\
  ((h = x /\ match l with y :: _ => ranks_first y x = false | [] => True end) \/
   exists r' : list Ranked, l = h :: r' /\ ranks_first h x = true).
Proof.
  destruct l as [|y l]; simpl; [exists x, []; split; [done|by left]|]. destruct (ranks_first y x) eqn:E.
  - exists y, (insert_sorted ranks_first x l). split; [done|]. right. by exists l.
  - exists x, (y :: l). split; [done|]. by left.
Qed.

(** An official page comes first if there is one. *)
Lemma sorted_official_first l : existsb rk_official l = true ->
  exists (h : Ranked) (r : list Ranked), py_sorted ranks_first l = h :: r /\ rk_official h = true.
Proof.
  induction l as [|x l IH]; [done|]. cbn [existsb py_sorted foldr]. change (foldr (insert_sorted ranks_first) [] l) with (py_sorted ranks_first l).
  intros Ho. destruct (insert_sorted_cons x (py_sorted ranks_first l)) as (h & r & E & Hh).
  exists h, r. split; [done|]. destruct (existsb rk_official l) eqn:El.
  - destruct (IH eq_refl) as (h' & r' & E' & Hh'). rewrite E' in Hh. destruct Hh as [[-> Hx]|(r2 & [= <- <-] & _)]; [|done].
    destruct (rk_official x) eqn:Hox; [done|]. rewrite ranks_first_official in Hx by congruence. congruence.
  - rewrite orb_false_r in Ho. destruct Hh as [[-> _]|(r2 & E2 & Hlt)]; [done|]. destruct (rk_official h) eqn:Hoh; [done|].
    rewrite ranks_first_official in Hlt by congruence. congruence.
Qed.

(** ** A FAST selection *)

Lemma fast_cover_spec slots remaining covered :
  fast_cover slots remaining covered ⊆+ remaining /\ (length (fast_cover slots remaining covered) <= slots)%nat /\
  (slots <> 0%nat -> remaining <> [] -> fast_cover slots remaining covered <> []).
Proof.
  revert remaining covered. induction slots as [|slots IH]; intros remaining covered; cbn [fast_cover].
  { split; [apply submseteq_nil_l|split; [simpl; lia|done]]. }
  destruct (indexed remaining) as [|x r] eqn:E.
  { apply indexed_nil in E as ->. split; [done|split; [simpl; lia|done]]. }
  destruct (max_by _ x r) as [i chosen] eqn:Em.
  assert ((i, chosen) ∈ indexed remaining) as Hin by (rewrite E, <- Em; apply max_by_elem).
  destruct (IH (list_delete i remaining) (covered ++ rk_facts chosen)) as (Hs & Hl & _).
  split; [|split; [simpl; lia|done]]. transitivity (chosen :: list_delete i remaining); [by apply submseteq_skip|]. by rewrite (chosen_perm _ _ _ Hin).
Qed.

Lemma by_identity_perm seen l : (by_identity seen l).1 ++ (by_identity seen l).2 ≡ₚ l.
Proof.
  revert seen. induction l as [|x l IH]; intros seen; simpl; [done|]. case_bool_decide.
  - specialize (IH seen). destruct (by_identity seen l) as [d e]. simpl in *. rewrite <- IH. by rewrite Permutation_middle.
  - specialize (IH (rk_identity x :: seen)). destruct (by_identity _ l) as [d e]. simpl in *. by rewrite IH.
Qed.

Lemma by_identity_head x l : exists d : list Ranked, (by_identity [] (x :: l)).1 = x :: d.
Proof. simpl. destruct (by_identity [rk_identity x] l) as [d e]. by exists d. Qed.

Lemma take_submseteq {A} n (l : list A) : take n l ⊆+ l.
Proof. rewrite <- (take_drop n l) at 2. apply submseteq_inserts_r. done. Qed.

(** Selected pages are candidates, at most two and at most the limit; one at least, and only official
    ones, if there are any. *)
Lemma select_fast_spec maximum l : 1 <= maximum -> let ranked := py_sorted ranks_first l in
  let selected := select_fast maximum ranked in
  selected ⊆+ ranked /\ Z.of_nat (length selected) <= Z.min 2 maximum /\ (ranked <> [] -> selected <> []) /\
  (existsb rk_official l = true -> Forall (fun r => rk_official r = true) selected).
Proof.
  intros Hmax ranked selected. unfold selected, select_fast. clear selected.
  set (direct := base.filter _ ranked). case_match eqn:Ep.
  - destruct (fast_cover_spec (Z.to_nat (Z.min maximum 2)) direct []) as (Hs & Hl & Hn).
    assert (Hd : direct ⊆+ ranked) by (apply sublist_submseteq, sublist_filter).
    ksplit; [by etrans|lia| |].
    + intros _. apply Hn; [lia|]. intros E. rewrite E in Ep. done.
    + intros _. apply Forall_forall. intros r Hr. eapply elem_of_submseteq in Hr; [|exact Hs].
      apply list_elem_of_filter in Hr as [Hr _]. by bools.
  - destruct (by_identity [] ranked) as [diverse deferred] eqn:Eb. assert (Hp := by_identity_perm [] ranked). rewrite Eb in Hp. simpl in Hp.
    assert (Hex : existsb rk_official ranked = existsb rk_official l).
    { apply eq_true_iff_eq. rewrite !existsb_exists. unfold ranked. setoid_rewrite <- list_elem_of_In. by setoid_rewrite py_sorted_perm. }
    rewrite Hex. set (limit := if existsb rk_official l then _ else _).
    assert (Hlim : 1 <= limit <= Z.min 2 maximum /\ (existsb rk_official l = true -> limit = 1)).
    { unfold limit. destruct (existsb rk_official l); [|lia]. destruct (2 <=? _); lia. }
    ksplit.
    + etrans; [apply take_submseteq|]. by rewrite Hp.
    + rewrite length_take. lia.
    + intros Hne E. assert (Hlen := f_equal length E). rewrite length_take in Hlen. apply Permutation_length in Hp.
      destruct ranked; [done|]. simpl in *. lia.
    + intros Ho. destruct (sorted_official_first l Ho) as (h & r & E & Hh). fold ranked in E. rewrite E in Eb.
      destruct (by_identity_head h r) as [d Ed]. rewrite Eb in Ed. simpl in Ed. subst. replace limit with 1 by naive_solver.
      simpl. by repeat constructor.
Qed.

(** ** A RESEARCH selection *)

Lemma pool_best (g : nat * Ranked -> Z) pool : pool <> [] -> Forall (fun ix => 0 < g ix) pool ->
  exists x r, base.filter (fun ix => g ix = foldr Z.max 0 (map g pool)) pool = x :: r.
Proof.
  intros Hne HF. destruct (max_all_spec (map g pool)) as (_ & Hle & [E|Hin]).
  - destruct pool as [|x pool]; [done|]. apply Forall_cons in HF as [Hx _]. rewrite Forall_forall in Hle.
    assert (g x <= foldr Z.max 0 (map g (x :: pool))) by (apply Hle; simpl; by left). lia.
  - apply list_elem_of_fmap in Hin as (x & E & Hx).
    destruct (base.filter _ pool) as [|y r] eqn:Ef; [|by exists y, r]. exfalso.
    assert (x ∈ base.filter (fun ix => g ix = foldr Z.max 0 (map g pool)) pool) as Hc by by apply list_elem_of_filter.
    rewrite Ef in Hc. by apply elem_of_nil in Hc.
Qed.

(** A page is found while there are pages; it adds a fact if one of them does. *)
Lemma next_page_spec l covered seen : match next_page l covered seen with
  | None => l = []
  | Some x => x ∈ l /\ forall y, y ∈ l -> 0 < gain covered y.2 -> 0 < gain covered x.2
  end.
Proof.
  unfold next_page. destruct (max_all_spec (map (fun ix => gain covered ix.2) l)) as (H0 & Hle & Hin).
  destruct (Z.eqb_spec (foldr Z.max 0 (map (fun ix => gain covered ix.2) l)) 0) as [E|Hne]; cbn [negb].
  - destruct l as [|x r]; [done|]. split; [apply min_by_elem|]. intros y Hy Hg. exfalso.
    rewrite Forall_forall in Hle. assert (gain covered y.2 <= 0); [|lia]. rewrite <- E. apply Hle.
    apply list_elem_of_fmap. by exists y.
  - set (gaining := base.filter (fun ix => (0 <? gain covered ix.2) = true) l).
    set (trusted := base.filter (fun ix => rk_official ix.2 && rk_direct ix.2 = true) gaining).
    set (pool := match trusted with [] => gaining | _ => trusted end).
    assert (Hgaining : forall x, x ∈ gaining -> x ∈ l /\ 0 < gain covered x.2).
    { intros x [Hx ?]%list_elem_of_filter. bools. split; [done|lia]. }
    assert (Hpool : forall x, x ∈ pool -> x ∈ gaining).
    { unfold pool. destruct trusted eqn:Et; [done|]. rewrite <- Et. intros x [_ ?]%list_elem_of_filter. done. }
    assert (Hne' : pool <> []).
    { unfold pool. destruct trusted eqn:Et; [|done]. intros Eg. destruct Hin as [|Hin]; [done|].
      apply list_elem_of_fmap in Hin as (x & Ex & Hx). assert (x ∈ gaining) as Hg.
      { apply list_elem_of_filter. split; [|done]. apply Z.ltb_lt. lia. }
      rewrite Eg in Hg. by apply elem_of_nil in Hg. }
    destruct (pool_best (fun ix => gain covered ix.2) pool Hne') as (x & r & Ef).
    { apply Forall_forall. intros x Hx%Hpool%Hgaining. naive_solver. }
    rewrite Ef. set (best := min_by _ x r).
    assert (best ∈ pool) as Hb.
    { assert (best ∈ x :: r) as Hb by apply min_by_elem. rewrite <- Ef in Hb. by apply list_elem_of_filter in Hb as [_ Hb]. }
    apply Hpool, Hgaining in Hb as [Hl Hg]. done.
Qed.

(** The next slot, for an induction over the slots. *)
Lemma research_step target slots remaining covered seen :
  (remaining = [] /\ research_cover target (S slots) remaining covered seen = []) \/
  exists i chosen, (i, chosen) ∈ indexed remaining /\
    (forall r, r ∈ remaining -> 0 < gain covered r -> 0 < gain covered chosen) /\
    let remaining' := list_delete i remaining in
    let seen' := rk_identity chosen :: seen in
    let covered' := covered ++ rk_facts chosen in
    (research_cover target (S slots) remaining covered seen
       = chosen :: research_cover target slots remaining' covered' seen' \/
     research_cover target (S slots) remaining covered seen = [chosen] /\ target ⊆ covered' /\
       ((2 <= length (dedupe seen'))%nat \/ forall r, r ∈ remaining' -> rk_identity r ∈ seen')).
Proof.
  cbn [research_cover]. assert (Hn := next_page_spec (indexed remaining) covered seen).
  destruct (next_page (indexed remaining) covered seen) as [[i chosen]|] eqn:En; [|left; split; [by apply indexed_nil|done]].
  right. exists i, chosen. destruct Hn as [Hin Hbest]. split; [done|]. split.
  { intros r Hr Hg. destruct (elem_of_indexed_2 _ _ Hr) as [j Hj]. exact (Hbest _ Hj Hg). }
  cbv zeta. destruct (_ && _) eqn:Estop; [right|by left]. split; [done|].
  apply andb_prop in Estop as [Hc Hd]. apply andb_prop in Hc as [_ Hc]. split.
  - intros f Hf. rewrite forallb_forall in Hc. specialize (Hc f). rewrite <- list_elem_of_In in Hc. exact (proj1 (bool_decide_eq_true _) (Hc Hf)).
  - apply orb_prop in Hd as [Hd|Hd]; [left; apply Z.leb_le in Hd; lia|right]. intros r Hr. apply negb_true_iff in Hd.
    destruct (decide (rk_identity r ∈ rk_identity chosen :: seen)) as [|Hns]; [done|]. exfalso.
    apply not_true_iff_false in Hd. apply Hd. apply existsb_exists. exists r. split; [by apply list_elem_of_In|].
    by apply bool_decide_eq_true.
Qed.

Lemma research_cover_bounded target slots remaining covered seen :
  let selected := research_cover target slots remaining covered seen in
  selected ⊆+ remaining /\ (length selected <= slots)%nat /\ (slots <> 0%nat -> remaining <> [] -> selected <> []).
Proof.
  cbv zeta. revert remaining covered seen. induction slots as [|slots IH]; intros remaining covered seen.
  { simpl. split; [apply submseteq_nil_l|split; [lia|done]]. }
  destruct (research_step target slots remaining covered seen) as [[-> ->]|(i & chosen & Hin & _ & Hr)].
  { split; [done|split; [simpl; lia|done]]. }
  cbv zeta in Hr. destruct (IH (list_delete i remaining) (covered ++ rk_facts chosen) (rk_identity chosen :: seen)) as (Hs & Hl & _).
  assert (Hp := chosen_perm _ _ _ Hin). destruct Hr as [->|[-> _]].
  - split; [|split; [simpl; lia|done]]. transitivity (chosen :: list_delete i remaining); [by apply submseteq_skip|by rewrite Hp].
  - split; [|split; [simpl; lia|done]]. rewrite <- Hp. apply submseteq_skip, submseteq_nil_l.
Qed.

Definition facts_of (l : list Ranked) : list pystr := flat_map rk_facts l.

(** The facts that are still missing are among those of the remaining pages; either they fit into the
    slots, or the slots are all used. *)
Lemma research_covers target slots remaining covered seen :
  facts_of remaining ⊆ target -> target ⊆ covered ++ facts_of remaining ->
  let selected := research_cover target slots remaining covered seen in
  (length (fresh covered target) <= slots)%nat \/ (length selected < slots)%nat -> target ⊆ covered ++ facts_of selected.
Proof.
  cbv zeta. revert remaining covered seen. induction slots as [|slots IH]; intros remaining covered seen Hsub Hcov Hfit.
  { destruct Hfit as [Hfit|Hfit]; [|simpl in Hfit; lia]. intros f Hf. destruct (decide (f ∈ covered)); [rewrite elem_of_app; by left|].
    assert (f ∈ fresh covered target) as Hin by by apply elem_of_fresh. destruct (fresh covered target); [by apply elem_of_nil in Hin|simpl in *; lia]. }
  destruct (research_step target slots remaining covered seen) as [[-> E]|(i & chosen & Hin & Hbest & Hr)].
  { rewrite E. simpl in *. done. }
  cbv zeta in Hr. assert (Hp := chosen_perm _ _ _ Hin).
  assert (Hfacts : forall f, f ∈ facts_of remaining <-> f ∈ rk_facts chosen \/ f ∈ facts_of (list_delete i remaining)).
  { intros f. unfold facts_of. rewrite <- Hp at 1. simpl. by rewrite elem_of_app. }
  destruct Hr as [E|(E & Hdone & _)]; rewrite E in Hfit |- *; cbn [facts_of flat_map]; [|by rewrite app_nil_r].
  rewrite app_assoc. apply (IH (list_delete i remaining)).
  - intros f Hf. apply Hsub, Hfacts. by right.
  - intros f [Hf|[Hf|Hf]%Hfacts]%Hcov%elem_of_app; rewrite !elem_of_app; [left; by left|left; by right|by right].
  - destruct Hfit as [Hfit|Hfit]; [|right; simpl in Hfit; lia]. left.
    destruct (fresh covered target) as [|f l] eqn:Ef.
    + assert (fresh (covered ++ rk_facts chosen) target = []) as ->; [|simpl; lia].
      apply elem_of_nil_inv. intros f [Hf Hc]%elem_of_fresh. assert (f ∈ fresh covered target) as Hx by (apply elem_of_fresh; set_solver).
      rewrite Ef in Hx. by apply elem_of_nil in Hx.
    + rewrite <- Ef in Hfit. assert (f ∈ fresh covered target) as Hx by (rewrite Ef; by left).
      apply elem_of_fresh in Hx as [Ht Hc]. assert (Hr := Hcov f Ht). apply elem_of_app in Hr as [|Hr]; [done|].
      apply list_elem_of_In, in_flat_map in Hr as (r & Hr%list_elem_of_In & Hf%list_elem_of_In).
      destruct (proj1 (gain_pos covered chosen)) as (g & Hg & Hgc); [eapply Hbest; [exact Hr|]; apply gain_pos; by exists f|].
      assert (g ∈ target) as Hgt by (apply Hsub, Hfacts; by left).
      assert (Hd := fresh_decreases covered target (rk_facts chosen) g Hg Hgc Hgt). lia.
Qed.

(** With a slot left over, the pages are of two sources, or there is no other source. *)
Lemma research_diverse target slots remaining covered seen :
  let selected := research_cover target slots remaining covered seen in
  (length selected < slots)%nat ->
  (2 <= length (dedupe (seen ++ map rk_identity selected)))%nat \/
  forall r, r ∈ remaining -> rk_identity r ∈ seen ++ map rk_identity selected.
Proof.
  cbv zeta. revert remaining covered seen. induction slots as [|slots IH]; intros remaining covered seen Hlt; [simpl in Hlt; lia|].
  destruct (research_step target slots remaining covered seen) as [[-> E]|(i & chosen & Hin & _ & Hr)].
  { right. intros r Hr. by apply elem_of_nil in Hr. }
  cbv zeta in Hr. assert (Hp := chosen_perm _ _ _ Hin).
  assert (Hsame : forall l, length (dedupe (seen ++ rk_identity chosen :: l)) = length (dedupe ((rk_identity chosen :: seen) ++ l))).
  { intros l. apply Permutation_length, NoDup_Permutation; [apply NoDup_dedupe..|]. intros x. rewrite !elem_of_dedupe. set_solver. }
  destruct Hr as [E|(E & _ & Hd)]; rewrite E in Hlt |- *; cbn [map]; rewrite Hsame.
  - destruct (IH (list_delete i remaining) (covered ++ rk_facts chosen) (rk_identity chosen :: seen)) as [|Hall]; [simpl in Hlt; lia|by left|right].
    intros r Hr. rewrite <- Hp in Hr. apply elem_of_cons in Hr as [->|Hr%Hall]; set_solver.
  - rewrite app_nil_r. destruct Hd as [|Hall]; [by left|right]. intros r Hr. rewrite <- Hp in Hr.
    apply elem_of_cons in Hr as [->|Hr%Hall]; set_solver.
Qed.

(** ** The selection *)

Section Selected.
Context `{Unicode} `{IpLiterals} `{PublicSuffixes} `{PyText} (authority_policy : SourceAuthorityPolicy) (entity : pystr).

(** A page of an official source of the entity. *)
Definition official_page (c : Candidate) : Prop := exists identity,
  classified authority_policy entity c = Ok (identity, SourceAuthority_OFFICIAL).

Lemma sort_key_inv c identity authority r : sort_key c identity authority = Ok r ->
  rk_candidate r = c /\ (rk_official r = true <-> authority = SourceAuthority_OFFICIAL).
Proof. unfold sort_key. intros E. minv. case_match; try done. minv. simpl. by rewrite bool_decide_eq_true. Qed.

Lemma keys_inv candidates classes keys :
  Forall2 (fun c class => classified authority_policy entity c = Ok class) candidates classes ->
  traverse (fun '(c, (identity, authority)) => sort_key c identity authority) (combine candidates classes) = Ok keys ->
  map rk_candidate keys = candidates /\ Forall (fun r => rk_official r = true <-> official_page (rk_candidate r)) keys.
Proof.
  intros Hc. revert keys. induction Hc as [|c [identity authority] candidates classes Hc _ IH]; intros keys E; cbn [traverse combine] in E; minv; [done|].
  match goal with Hs : sort_key _ _ _ = Ok _ |- _ => apply sort_key_inv in Hs as [Hr Ho] end.
  match goal with Ht : traverse _ _ = Ok _ |- _ => destruct (IH _ Ht) as [IH1 IH2] end. cbn [map]. rewrite Hr, IH1. split; [done|].
  constructor; [|done]. unfold official_page. rewrite Ho, Hr. split; [intros ->; by exists identity|]. intros [i Hi]. congruence.
Qed.

Lemma ranked_hits_inv candidates ranked : ranked_hits authority_policy entity candidates = Ok ranked -> exists keys,
  ranked = py_sorted ranks_first keys /\ map rk_candidate keys = candidates /\
  Forall (fun r => rk_official r = true <-> official_page (rk_candidate r)) keys.
Proof. unfold ranked_hits. intros E. minv. exists a0. split; [done|]. apply traverse_ok in E0. by eapply keys_inv. Qed.

Lemma map_nil_back {A B} (f : A -> B) l : map f l = [] -> l = [].
Proof using. by destruct l. Qed.

Lemma map_nonempty {A B} (f : A -> B) l : map f l <> [] -> l <> [].
Proof using. by destruct l. Qed.

(** Claim C16. A selection takes found pages, each at most once, at least one if there is any, and no more than its
    limit. A FAST search takes at most two, and only official ones when it found an official page. A
    RESEARCH search leaves no fact without a page that is about it, when the facts are as few as its
    slots or when it leaves a slot unused. *)
Theorem page_selection mode maximum candidates selected : 1 <= maximum ->
  select_ranked_hits authority_policy entity mode maximum candidates = Ok selected ->
  selected ⊆+ candidates /\ Z.of_nat (length selected) <= maximum /\ (candidates <> [] -> selected <> []) /\
  (mode = SearchMode_FAST -> Z.of_nat (length selected) <= 2 /\
     forall c, c ∈ candidates -> official_page c -> Forall official_page selected) /\
  (mode = SearchMode_RESEARCH ->
     Z.of_nat (length (dedupe (flat_map ca_fact_ids candidates))) <= maximum \/ Z.of_nat (length selected) < maximum ->
     forall c f, c ∈ candidates -> f ∈ ca_fact_ids c -> exists page, page ∈ selected /\ f ∈ ca_fact_ids page).
Proof.
  intros Hmax E. unfold select_ranked_hits in E. apply res_bind_ok_inv in E as (ranked' & E0 & E). injection E as <-.
  apply ranked_hits_inv in E0 as (keys & -> & <- & Ho).
  assert (Hperm := py_sorted_perm ranks_first keys). set (ranked := py_sorted ranks_first keys) in *.
  assert (Hsub : forall l, l ⊆+ ranked -> map rk_candidate l ⊆+ map rk_candidate keys).
  { intros l Hl. rewrite <- Hperm. by apply fmap_submseteq. }
  assert (Hne : keys <> [] -> ranked <> []).
  { intros Hk E. rewrite E in Hperm. by apply Permutation_nil in Hperm. }
  rewrite !length_map. destruct mode.
  - destruct (select_fast_spec maximum keys Hmax) as (Hs & Hl & Hn & Hof). fold ranked in Hs, Hl, Hn, Hof.
    set (chosen := select_fast maximum ranked) in *. ksplit; [by apply Hsub|lia| |].
    + intros Hk%map_nonempty E%map_nil_back. by apply Hn; [apply Hne|].
    + intros _. split; [lia|]. intros c (r & -> & Hr)%list_elem_of_fmap Hc. rewrite Forall_forall in Ho.
      assert (existsb rk_official keys = true) as Hex.
      { apply existsb_exists. exists r. split; [by apply list_elem_of_In|by apply Ho]. }
      apply Forall_fmap. specialize (Hof Hex). rewrite Forall_forall in Hof |- *. intros p Hp. apply Ho; [|by apply Hof].
      rewrite <- Hperm. by eapply elem_of_submseteq.
  - set (target := dedupe (flat_map rk_facts ranked)). set (slots := Z.to_nat maximum).
    destruct (research_cover_bounded target slots ranked [] []) as (Hs & Hl & Hn).
    assert (Hcov := research_covers target slots ranked [] []). cbv zeta in Hcov.
    set (chosen := research_cover target slots ranked [] []) in *. ksplit; [by apply Hsub|lia| |].
    + intros Hk%map_nonempty E%map_nil_back. apply Hn; [lia|by apply Hne|done].
    + intros _ Hfit c f (r & -> & Hr)%list_elem_of_fmap Hf.
      assert (Htarget : forall g, g ∈ target <-> g ∈ flat_map rk_facts keys).
      { intros g. unfold target. rewrite elem_of_dedupe. by rewrite Hperm. }
      assert (Hf' : f ∈ facts_of chosen).
      { apply Hcov.
        - intros g Hg. unfold target. by apply elem_of_dedupe.
        - intros g Hg. unfold target in Hg. rewrite elem_of_dedupe in Hg. exact Hg.
        - destruct Hfit as [Hfit|Hfit]; [left|right; lia].
          assert (Hlen : fresh [] target ⊆+ dedupe (flat_map ca_fact_ids (map rk_candidate keys))).
          { apply NoDup_submseteq; [apply NoDup_fresh|]. intros g [Hg%Htarget _]%elem_of_fresh. rewrite elem_of_dedupe.
            rewrite flat_map_concat_map, map_map, <- flat_map_concat_map. exact Hg. }
          apply submseteq_length in Hlen. lia.
        - apply Htarget, list_elem_of_In, in_flat_map. exists r. split; by apply list_elem_of_In. }
      apply list_elem_of_In, in_flat_map in Hf' as (p & Hp%list_elem_of_In & Hg%list_elem_of_In).
      exists (rk_candidate p). split; [by apply list_elem_of_fmap_2|done].
Qed.
End Selected.

(** ** Example *)

Definition ex_hit (url : string) (score : Z) (facts : list string) : Candidate := {|
  ca_fields := [(u "canonical_url", JStr (u url)); (u "score", JFloat (float_of_Z score)); (u "rank", JInt 1)];
  ca_fact_ids := map u facts
|}.
Definition ex_blog_hit := ex_hit "https://blog.example/git" 9 ["a"; "b"]%string.
Definition ex_git_hit := ex_hit "https://git-scm.com/book" 1 ["a"]%string.
Definition ex_tls_hit := ex_hit "https://other.example/tls" 5 ["c"]%string.
Definition ex_hits := [ex_blog_hit; ex_git_hit; ex_tls_hit].
Definition ex_selected (mode : SearchMode) : res (list Candidate) :=
  @select_ranked_hits ex_unicode ex_ip ex_suffixes ex_text default_authority (u "Git") mode 3 ex_hits.

(** A FAST search reads the manual, a RESEARCH search covers all three facts. *)
Example selected_example : ex_selected SearchMode_FAST = Ok [ex_git_hit] /\
  ex_selected SearchMode_RESEARCH = Ok [ex_blog_hit; ex_tls_hit].
Proof. split; vm_compute; reflexivity. Qed.

Lemma page_selection_witness : Forall (@official_page ex_unicode ex_ip ex_suffixes ex_text default_authority (u "Git")) [ex_git_hit] /\
  exists page, page ∈ [ex_blog_hit; ex_tls_hit] /\ u "c" ∈ ca_fact_ids page.
Proof.
  destruct selected_example as [Ef Er]. assert (Hmax : 1 <= 3) by lia. split.
  - destruct (@page_selection ex_unicode ex_ip ex_suffixes ex_text default_authority (u "Git") SearchMode_FAST 3 ex_hits _ Hmax Ef)
      as (_ & _ & _ & Hf & _).
    destruct (Hf eq_refl) as [_ Ho]. apply (Ho ex_git_hit); [right; left|]. exists (u "git-scm.com"). vm_compute. reflexivity.
  - destruct (@page_selection ex_unicode ex_ip ex_suffixes ex_text default_authority (u "Git") SearchMode_RESEARCH 3 ex_hits _ Hmax Er)
      as (_ & _ & _ & _ & Hr).
    refine (Hr eq_refl _ ex_tls_hit (u "c") _ _); [left; vm_compute; discriminate|right; right; left|left].
Defined.
