(* ===== verification/Operations.v ===== *)
(** * Operations: the steps from a message to extracted documents

    [SearchStepOperations] of [sana/app/search_operations.py] with the context of
    [step_handlers/base.py]: what each step reads from the artifacts before it, and the artifact it
    writes. Artifacts are content-addressed and never change, so reading one is a function; planning,
    discovery, fetching, the clock and the writes are the ports of a state. *)

From Stdlib Require Import SpecFloat String.
From S2P Require Import Prelude Errors PyTime PyData PyStr Regex PyUrl Transitions Run Step Policy Tables Coverage Intent.
From S2P Require Import Workflow StepStore Completion Discovery Artifacts Chunker Evidence Authority Sources Selector ModelGateway.
From S2P Require Import Router QueryCompiler Planner Ranking.

(** ** Context and ports *)

(** [@ src/sana/modules/orchestration/step_handlers/base.py StepExecutionContext@24-36] *)
Record StepExecutionContext := {
  cx_tenant_id : UUID;
  cx_run_id : UUID;
  cx_step_id : UUID;
  cx_step_key : pystr;
  cx_step_type : StepType;
  cx_attempt_id : UUID;
  cx_attempt_no : Z;
  cx_trace_context : TraceContext;
  cx_deadline_at : datetime;
  cx_input_ref : ArtifactRef
}.

(** [@ src/sana/modules/orchestration/step_handlers/base.py StepExecutionContext.__post_init__] *)
Definition StepExecutionContext_new (x : StepExecutionContext) : res StepExecutionContext :=
  _ ← fail_if (blank (cx_step_key x)) (ValueError "Step execution key cannot be empty");
  _ ← fail_if (cx_attempt_no x <? 1) (ValueError "Step execution attempt number must be positive");
  _ ← fail_if (negb (dt_aware (cx_deadline_at x))) (ValueError "Step deadline must be timezone-aware");
  Ok x.

(** [@ src/sana/modules/content/domain.py FetchStatus] *)
Inductive FetchStatus := FetchStatus_SUCCEEDED | FetchStatus_FAILED | FetchStatus_BLOCKED.

#[export] Instance FetchStatus_eq_dec : EqDecision FetchStatus.
Proof. solve_decision. Defined.

Record FetchRequest := { fq_url : pystr; fq_deadline : datetime; fq_max_response_bytes : Z; fq_max_redirects : Z }.

(** [@ src/sana/modules/content/domain.py FetchRequest] *)
Definition FetchRequest_new (url : pystr) (deadline : datetime) : res FetchRequest :=
  _ ← fail_if (blank url) (ValueError "Fetch URL cannot be empty");
  _ ← fail_if (negb (dt_aware deadline)) (ValueError "Fetch deadline must be timezone-aware");
  Ok {| fq_url := url; fq_deadline := deadline; fq_max_response_bytes := 5000000; fq_max_redirects := 3 |}.

(** [@ src/sana/modules/content/domain.py FetchArtifact@44-57] *)
Record FetchArtifact := {
  fa_request_url : pystr;
  fa_final_url : pystr;
  fa_status : FetchStatus;
  fa_http_status : option Z;
  fa_media_type : option pystr;
  fa_body : bytes;
  fa_content_hash : option pystr;
  fa_fetched_at : datetime;
  fa_redirects : list pystr;
  fa_response_headers : list (pystr * json);
  fa_error : option TypedError
}.

(** [@ src/sana/modules/content/domain.py ExtractedContent@75-85] *)
Record ExtractedContent := {
  xc_canonical_url : pystr;
  xc_title : pystr;
  xc_text : pystr;
  xc_media_type : pystr;
  xc_language : option pystr;
  xc_source_content_hash : pystr;
  xc_fetched_at : datetime
}.

(** What the operations call. *)
Record StepPorts (S : Type) := {
  po_now : M S datetime;
  po_put_json : UUID -> UUID -> json -> M S ArtifactRef;
  po_put_bytes : UUID -> UUID -> bytes -> M S ArtifactRef;
  po_plan : pystr -> datetime -> ModelInvocationContext -> M S IntentPlanningResult;
  po_discover : UUID -> list DiscoveryQuery -> list pystr -> datetime -> M S (list Discovery.ProviderResponse);
  po_fetch : FetchRequest -> M S FetchArtifact
}.
Arguments po_now {S}.
Arguments po_put_json {S}.
Arguments po_put_bytes {S}.
Arguments po_plan {S}.
Arguments po_discover {S}.
Arguments po_fetch {S}.

(** [@ src/sana/app/search_operations.py SearchStepOperations@535-551] *)
Record SearchStepOperations := {
  so_provider_names : list pystr;
  so_max_selected_hits : Z;
  so_model_verifier : bool;
  so_model_synthesizer : bool
}.

(** [@ src/sana/app/search_operations.py SearchStepOperations.__post_init__] *)
Definition SearchStepOperations_new (o : SearchStepOperations) : res SearchStepOperations :=
  _ ← fail_if (bool_decide (so_provider_names o = [])) (ValueError "At least one discovery provider is required");
  _ ← fail_if (so_max_selected_hits o <? 1) (ValueError "max_selected_hits must be positive");
  Ok o.

(** ** Small pieces *)

(** A JSON object with literal keys. *)
Definition obj (l : list (string * json)) : json := JObj (map (fun '(k, v) => (u k, v)) l).
Definition jstr (s : string) : json := JStr (u s).
Definition juuid (i : UUID) : json := JStr (str_of_uuid i).
Definition jopt {A} (f : A -> json) (o : option A) : json := match o with Some x => f x | None => JNull end.
Definition jstrs (l : list pystr) : json := JList (map JStr l).

Definition cost (phase : BudgetPhase) (queries providers fetches llm_calls : Z) : res StepBudgetCost :=
  StepBudgetCost_new {| sc_phase := phase; sc_estimated_seconds := fzero; sc_queries := queries; sc_providers := providers;
                        sc_fetches := fetches; sc_llm_calls := llm_calls |}.

Section Pieces.
Context `{U : Unicode} `{PyText} (uuid5 : UUID -> pystr -> UUID).

(** [@ src/sana/app/search_operations.py _reference] *)
Definition reference (value : json) : res ArtifactRef :=
  uri ← str_at value "uri";
  sha256 ← str_at value "sha256";
  ArtifactRef_new uri sha256.

(** [_reference(dict(payload[key]))] *)
Definition reference_at (payload : json) (key : string) : res ArtifactRef :=
  v ← subscript payload key;
  d ← to_dict v;
  reference d.

(** [@ src/sana/app/search_operations.py _typed_error] *)
Definition typed_error_json (error : option TypedError) : json :=
  match error with
  | None => JNull
  | Some e => obj [("category", JStr (category_value (te_category e))); ("code", JStr (te_code e));
                   ("message", JStr (te_message e)); ("retryable", JBool (te_retryable e))]%string
  end.

(** [@ src/sana/app/search_operations.py _fact_dict] *)
Definition fact_dict (run_id : UUID) (fact : FactRequirement) : json :=
  obj [("id", juuid (uuid5 run_id (u "fact:" ++ fr_key fact))); ("key", JStr (fr_key fact));
       ("fact_type", JStr (FactType_value (fr_fact_type fact))); ("description", JStr (fr_description fact));
       ("subject", JStr (fr_subject fact)); ("required", JBool (fr_required fact));
       ("freshness", JStr (Freshness_value (fr_freshness fact)));
       ("consequence", JStr (Consequence_value (fr_consequence fact)));
       ("preferred_source_kinds", jstrs (fr_preferred_source_kinds fact))]%string.

(** [@ src/sana/app/search_operations.py _fact_from_dict] *)
Definition fact_from_dict (payload : json) : res FactRequirement :=
  key ← str_at payload "key";
  type_value ← str_at payload "fact_type";
  fact_type ← enum_of FactType_value all_fact_types type_value;
  description ← str_at payload "description";
  subject ← str_at payload "subject";
  required ← get_default payload "required" (JBool true);
  freshness_value ← get_default payload "freshness" (jstr "STABLE");
  freshness ← enum_of Freshness_value all_freshness (to_str freshness_value);
  consequence_value ← get_default payload "consequence" (jstr "LOW");
  consequence ← enum_of Consequence_value all_consequences (to_str consequence_value);
  kinds ← list_at payload "preferred_source_kinds";
  FactRequirement_new
    {| fr_key := key; fr_fact_type := fact_type; fr_description := description; fr_subject := subject;
       fr_required := truthy required; fr_freshness := freshness; fr_consequence := consequence;
       fr_preferred_source_kinds := map to_str kinds |}.

(** [{UUID(str(raw["id"])): _fact_from_dict(dict(raw)) for raw in plan.get("facts", ())}] *)
Fixpoint facts_from (raws : list json) (facts : list (UUID * FactRequirement)) : res (list (UUID * FactRequirement)) :=
  match raws with
  | [] => Ok facts
  | raw :: r =>
      fact_id ← uuid_at raw "id";
      d ← to_dict raw;
      fact ← fact_from_dict d;
      facts_from r (dset fact_id fact facts)
  end.

Definition plan_facts (plan : json) : res (list (UUID * FactRequirement)) :=
  raws ← list_at plan "facts";
  facts_from raws [].

(** [@ src/sana/app/search_operations.py _FETCH_WINDOW_SECONDS] *)
Definition fetch_window (mode : SearchMode) : float :=
  match mode with SearchMode_FAST => float_of_Z 6 | SearchMode_RESEARCH => float_of_Z 8 end.

(** [@ src/sana/app/search_operations.py _bounded_fetch_deadline] *)
Definition bounded_fetch_deadline (mode : SearchMode) (now step_deadline : datetime) : res datetime :=
  window ← timedelta (fetch_window mode);
  dt_min step_deadline (dt_add now window).

Definition SearchMode_value (m : SearchMode) : pystr :=
  u match m with SearchMode_FAST => "FAST" | SearchMode_RESEARCH => "RESEARCH" end.

(** [SearchMode(str(plan["mode"]))] *)
Definition mode_of (plan : json) : res SearchMode :=
  m ← str_at plan "mode";
  enum_of SearchMode_value [SearchMode_FAST; SearchMode_RESEARCH] m.

(** [@ src/sana/app/search_operations.py _model_context] *)
Definition model_context (x : StepExecutionContext) : res ModelInvocationContext :=
  ModelInvocationContext_new
    {| mx_tenant_id := cx_tenant_id x; mx_run_id := cx_run_id x; mx_step_id := cx_step_id x; mx_step_key := cx_step_key x;
       mx_attempt_id := cx_attempt_id x; mx_attempt_no := cx_attempt_no x;
       mx_input_refs := [u "artifact-sha256:" ++ ar_sha256 (cx_input_ref x)] |}.
End Pieces.

(** ** The steps *)

Section Steps.
Context `{U : Unicode} `{IpLiterals} `{PublicSuffixes} `{PyText} `{JsonText}
  (sha256_utf8 : pystr -> pystr) (uuid5 : UUID -> pystr -> UUID) (get_json : UUID -> ArtifactRef -> res json).
Context {S : Type} (ports : StepPorts S) (o : SearchStepOperations) (x : StepExecutionContext).

(** [@ src/sana/app/search_operations.py SearchStepOperations._json] *)
Definition step_json : res json :=
  payload ← get_json (cx_tenant_id x) (cx_input_ref x);
  if is_object payload then Ok payload
  else Raise (typed_error ErrorCategory_CONTENT "step_input_invalid" "Step input artifact must be a JSON object").

(** [@ src/sana/app/search_operations.py SearchStepOperations._result] *)
Definition step_result (payload : json) (actual : StepBudgetCost) : M S StepExecutionResult :=
  reference ← po_put_json ports (cx_tenant_id x) (cx_run_id x) payload;
  mret {| er_output_ref := reference; er_actual_cost := actual |}.

(** *** Routing *)

(** The message whose id and digest the input names; [d] is what the transaction reads. *)
(** [@ src/sana/app/search_operations.py SearchStepOperations.route@601-644] *)
Definition routed_message (d : Db) : res Message :=
  let prefix := u "db://messages/" in
  let uri := ar_uri (cx_input_ref x) in
  _ ← (if starts_with prefix uri then Ok tt
       else Raise (typed_error ErrorCategory_CONTENT "route_input_invalid" "Route input must reference a persisted message"));
  message_id ← match uuid_of_text (drop (length prefix) uri) with
               | Raise (ValueError _) =>
                   Raise (typed_error ErrorCategory_CONTENT "route_message_id_invalid" "Route message reference is invalid")
               | r => r
               end;
  match tb_messages (db_tables d) !! message_id with
  | Some m =>
      if negb (ms_tenant_id m =? cx_tenant_id x)
      then Raise (typed_error ErrorCategory_PERMANENT "message_not_found" "The submitted message no longer exists")
      else
        digest ← text_digest sha256_utf8 (ms_content m);
        if bool_decide (digest = ar_sha256 (cx_input_ref x)) then Ok m
        else Raise (typed_error ErrorCategory_CONTENT "message_digest_mismatch"
                      "The submitted message changed after Run creation")
  | None => Raise (typed_error ErrorCategory_PERMANENT "message_not_found" "The submitted message no longer exists")
  end.

(** [@ src/sana/app/search_operations.py SearchStepOperations.route] *)
Definition route_step (d : Db) : M S StepExecutionResult :=
  m ← lift (routed_message d);
  actual ← lift (cost BudgetPhase_ROUTE_PLAN 0 0 0 0);
  step_result (obj [("schema", jstr "sana.route.v1"); ("message_id", juuid (ms_id m)); ("message", JStr (ms_content m))]%string)
    actual.

(** *** Planning *)

(** One query of the plan, with the reviewed pages of its fact. *)
(** [@ src/sana/app/search_operations.py SearchStepOperations.plan@676-703] *)
Definition query_dict (planning : IntentPlanningResult) (query : QuerySpec) : res json :=
  let intent := ip_intent planning in
  match List.find (fun f => bool_decide (fr_key f = qs_fact_key query)) (rev (ni_facts intent)) with
  | None => Raise (KeyError "fact_key")
  | Some fact =>
      direct_urls ← urls_for_fact default_sources (ni_entity intent) fact;
      Ok (obj [("id", juuid (uuid5 (cx_run_id x) (u "query:" ++ qs_key query))); ("key", JStr (qs_key query));
               ("fact_key", JStr (qs_fact_key query)); ("fact_id", juuid (uuid5 (cx_run_id x) (u "fact:" ++ fr_key fact)));
               ("text", JStr (qs_text query)); ("signature", JStr (qs_signature query)); ("locale", JStr (qs_locale query));
               ("freshness_days", jopt JInt (qs_freshness_days query)); ("plan_revision", JInt (qs_plan_revision query));
               ("metadata", JObj (map (fun '(k, v) => (k, JStr v)) (qs_metadata query)));
               ("direct_urls", jstrs direct_urls);
               ("providers", jstrs (if bool_decide (ip_strategy planning = u "reviewed_template")
                                       && negb (bool_decide (direct_urls = []))
                                    then [u "direct"] else so_provider_names o))]%string)
  end.

(** [@ src/sana/app/search_operations.py SearchStepOperations.plan@704-725] *)
Definition plan_dict (message : pystr) (mode : SearchMode) (planning : IntentPlanningResult) (queries : list json) : json :=
  let intent := ip_intent planning in
  obj [("schema", jstr "sana.plan.v1"); ("message", JStr message); ("mode", JStr (SearchMode_value mode));
       ("degraded", JBool (ip_degraded planning));
       ("planning", obj [("strategy", JStr (ip_strategy planning)); ("strategy_version", JStr (ip_strategy_version planning))]);
       ("intent", obj [("entity", JStr (ni_entity intent)); ("aliases", jstrs (ni_aliases intent));
                       ("locale", JStr (ni_locale intent)); ("requires_comparison", JBool (ni_requires_comparison intent));
                       ("requires_complete_sources", JBool (ni_requires_complete_sources intent))]);
       ("facts", JList (map (fact_dict uuid5 (cx_run_id x)) (ni_facts intent))); ("queries", JList queries);
       ("providers", jstrs (so_provider_names o))]%string.

(** [@ src/sana/app/search_operations.py SearchStepOperations.plan] *)
Definition plan_step (d : Db) : M S StepExecutionResult :=
  route ← lift step_json;
  found ← lift (runs_get_for_update (cx_tenant_id x) (cx_run_id x) d).2;
  match found with
  | None => raise (typed_error ErrorCategory_PERMANENT "run_not_found" "Search Run no longer exists")
  | Some run =>
      message ← lift (str_at route "message");
      context ← lift (model_context x);
      planning ← po_plan ports message (cx_deadline_at x) context;
      let mode := SearchRun_mode run in
      queries ← lift (compile sha256_utf8 default_planning_policy (ip_intent planning) mode 1 false []);
      query_payloads ← lift (traverse (query_dict planning) queries);
      actual ← lift (cost BudgetPhase_ROUTE_PLAN 0 0 0 (ip_llm_calls planning));
      step_result (plan_dict message mode planning query_payloads) actual
  end.

(** *** Discovery *)

(** A plan writes an integer or null; another value is refused here, where Python would pass it on. *)
Definition optional_int (v : json) : res (option Z) :=
  match v with JNull => Ok None | JInt n => Ok (Some n) | _ => Raise (TypeError "freshness_days") end.

(** [@ src/sana/app/search_operations.py SearchStepOperations.discovery_step@759-765] *)
Definition discovery_query (query : json) : res DiscoveryQuery :=
  key ← str_at query "key";
  text ← str_at query "text";
  locale ← str_at query "locale";
  days ← get_default query "freshness_days" JNull;
  days ← optional_int days;
  urls ← list_at query "direct_urls";
  DiscoveryQuery_new {| dq_key := key; dq_text := text; dq_locale := locale; dq_freshness_days := days;
                        dq_direct_urls := map to_str urls |}.

(** [@ src/sana/app/search_operations.py SearchStepOperations.discovery_step@783-806] *)
Definition hit_dict (query_id fact_id : json) (response : Discovery.ProviderResponse) (hit : SearchHit) : json :=
  obj [("id", juuid (uuid5 (cx_run_id x) (u "hit:" ++ pv_provider response ++ u ":" ++ pv_query_key response ++ u ":"
                                          ++ sh_canonical_url hit)));
       ("provider", JStr (sh_provider hit)); ("query_key", JStr (sh_query_key hit)); ("query_id", query_id);
       ("fact_id", fact_id); ("rank", JInt (sh_rank hit)); ("url", JStr (sh_url hit));
       ("canonical_url", JStr (sh_canonical_url hit)); ("title", JStr (sh_title hit)); ("snippet", JStr (sh_snippet hit));
       ("score", JFloat (sh_score hit));
       ("published_at", jopt (fun at_ => JStr (isoformat at_)) (sh_published_at hit))]%string.

(** The ids of the query are read for every hit, so only when there is one. *)
(** [@ src/sana/app/search_operations.py SearchStepOperations.discovery_step@770-810] *)
Definition response_dict (query : json) (response : Discovery.ProviderResponse) : res json :=
  hits ← traverse (fun hit => query_id ← subscript query "id"; fact_id ← subscript query "fact_id";
                              Ok (hit_dict query_id fact_id response hit)) (pv_hits response);
  let metrics := pv_metrics response in
  Ok (obj [("provider", JStr (pv_provider response)); ("query_key", JStr (pv_query_key response));
           ("metrics", obj [("elapsed_ms", JInt (pm_elapsed_ms metrics)); ("response_bytes", JInt (pm_response_bytes metrics));
                            ("raw_hit_count", JInt (pm_raw_hit_count metrics))]);
           ("error", typed_error_json (pv_error response)); ("hits", JList hits)]%string).

(** A plan or selection that must be an object. *)
Definition object_or (payload : json) (key : string) (error : exn) : res json :=
  r ← reference_at payload key;
  v ← get_json (cx_tenant_id x) r;
  if is_object v then Ok v else Raise error.

(** [@ src/sana/app/search_operations.py SearchStepOperations.discovery_step] *)
Definition discovery_step : M S StepExecutionResult :=
  payload ← lift step_json;
  raw_query ← lift (subscript payload "query");
  query ← lift (to_dict raw_query);
  plan ← lift (object_or payload "plan_ref" (typed_error ErrorCategory_CONTENT "discovery_plan_invalid"
                 "Discovery plan artifact must contain a JSON object"));
  mode ← lift (mode_of plan);
  now ← po_now ports;
  window ← lift (timedelta (match mode with SearchMode_FAST => float_of_Z 2 | SearchMode_RESEARCH => float_of_Z 8 end));
  provider_deadline ← lift (dt_min (cx_deadline_at x) (dt_add now window));
  names ← lift (providers ← get_default payload "providers" (jstrs (so_provider_names o)); map to_str <$> items providers);
  q ← lift (discovery_query query);
  responses ← po_discover ports (cx_tenant_id x) [q] names provider_deadline;
  serialized ← lift (traverse (response_dict query) responses);
  plan_ref ← lift (subscript payload "plan_ref");
  actual ← lift (cost BudgetPhase_DISCOVERY 1 (Z.of_nat (length (base.filter (fun n => n <> u "direct") names))) 0 0);
  step_result (obj [("schema", jstr "sana.discovery.v1"); ("plan_ref", plan_ref); ("query", query);
                    ("responses", JList serialized)]%string) actual.

(** *** Selection *)

(** A hit joins the candidate of its page: the facts add up, the better hit stays. *)
(** [@ src/sana/app/search_operations.py SearchStepOperations.select@852-868] *)
Definition merge_hit (candidates : list (pystr * Candidate)) (hit : json) : res (list (pystr * Candidate)) :=
  canonical ← str_at hit "canonical_url";
  fact_id ← str_at hit "fact_id";
  match dget canonical candidates with
  | None =>
      fields ← fields_of hit;
      Ok (dset canonical {| ca_fields := fields; ca_fact_ids := [fact_id] |} candidates)
  | Some previous =>
      let fact_ids := if bool_decide (fact_id ∈ ca_fact_ids previous) then ca_fact_ids previous
                      else ca_fact_ids previous ++ [fact_id] in
      score ← float_at hit "score";
      previous_score ← float_at (candidate_dict previous) "score";
      if flt previous_score score
      then fields ← fields_of hit; Ok (dset canonical {| ca_fields := fields; ca_fact_ids := fact_ids |} candidates)
      else Ok (dset canonical {| ca_fields := ca_fields previous; ca_fact_ids := fact_ids |} candidates)
  end.

Fixpoint merge_hits (candidates : list (pystr * Candidate)) (hits : list json) : res (list (pystr * Candidate)) :=
  match hits with
  | [] => Ok candidates
  | hit :: r => candidates ← merge_hit candidates hit; merge_hits candidates r
  end.

(** [@ src/sana/app/search_operations.py SearchStepOperations.select@848-868] *)
Fixpoint merge_responses (state : list (pystr * Candidate) * Z) (responses : list json)
    : res (list (pystr * Candidate) * Z) :=
  match responses with
  | [] => Ok state
  | response :: r =>
      error ← get_default response "error" JNull;
      let failures := match error with JNull => state.2 | _ => state.2 + 1 end in
      hits ← list_at response "hits";
      candidates ← merge_hits state.1 hits;
      merge_responses (candidates, failures) r
  end.

(** [@ src/sana/app/search_operations.py SearchStepOperations.select@841-868] *)
Fixpoint merge_discoveries (state : list (pystr * Candidate) * Z) (refs : list json)
    : res (list (pystr * Candidate) * Z) :=
  match refs with
  | [] => Ok state
  | raw_ref :: r =>
      d ← to_dict raw_ref;
      ref ← reference d;
      discovery ← get_json (cx_tenant_id x) ref;
      responses ← list_at discovery "responses";
      state ← merge_responses state responses;
      merge_discoveries state r
  end.

(** [@ src/sana/app/search_operations.py SearchStepOperations.select@826-875] *)
Definition selected_hits (payload : json) : res (list Candidate * Z) :=
  plan ← object_or payload "plan_ref" (typed_error ErrorCategory_CONTENT "selection_plan_invalid"
           "Selection plan artifact must contain a JSON object");
  mode ← mode_of plan;
  intent ← subscript plan "intent";
  entity ← str_at intent "entity";
  refs ← list_at payload "discovery_refs";
  merged ← merge_discoveries ([], 0) refs;
  selected ← select_ranked_hits default_authority entity mode (so_max_selected_hits o) (map snd merged.1);
  Ok (selected, merged.2).

(** [@ src/sana/app/search_operations.py SearchStepOperations.select] *)
Definition select_step : M S StepExecutionResult :=
  payload ← lift step_json;
  selected ← lift (selected_hits payload);
  plan_ref ← lift (subscript payload "plan_ref");
  actual ← lift (cost BudgetPhase_DISCOVERY 0 0 0 0);
  step_result (obj [("schema", jstr "sana.selection.v1"); ("plan_ref", plan_ref);
                    ("selected", JList (map candidate_dict selected.1)); ("provider_failures", JInt selected.2)]%string) actual.

(** *** Fetching *)

(** [@ src/sana/app/search_operations.py SearchStepOperations.fetch] *)
Definition fetch_step : M S StepExecutionResult :=
  payload ← lift step_json;
  raw_hit ← lift (subscript payload "hit");
  hit ← lift (to_dict raw_hit);
  plan ← lift (object_or payload "plan_ref" (TypeError "Fetch plan artifact must be a JSON object"));
  mode ← lift (mode_of plan);
  url ← lift (str_at hit "canonical_url");
  now ← po_now ports;
  deadline ← lift (bounded_fetch_deadline mode now (cx_deadline_at x));
  request ← lift (FetchRequest_new url deadline);
  fetched ← po_fetch ports request;
  if negb (bool_decide (fa_status fetched = FetchStatus_SUCCEEDED))
  then raise (match fa_error fetched with Some e => Typed e | None => AssertionError "fetched.error" end)
  else
    body_ref ← po_put_bytes ports (cx_tenant_id x) (cx_run_id x) (fa_body fetched);
    plan_ref ← lift (subscript payload "plan_ref");
    actual ← lift (cost BudgetPhase_FETCH_EXTRACT 0 0 1 0);
    step_result (obj [("schema", jstr "sana.fetch.v1"); ("plan_ref", plan_ref); ("hit", hit);
                      ("request_url", JStr (fa_request_url fetched)); ("final_url", JStr (fa_final_url fetched));
                      ("http_status", jopt JInt (fa_http_status fetched)); ("media_type", jopt JStr (fa_media_type fetched));
                      ("content_hash", jopt JStr (fa_content_hash fetched));
                      ("fetched_at", JStr (isoformat (fa_fetched_at fetched))); ("redirects", jstrs (fa_redirects fetched));
                      ("response_headers", JObj (fa_response_headers fetched)); ("body_ref", ref_dict body_ref)]%string) actual.
End Steps.
