(* ===== verification/Extraction.v ===== *)
(** * Extraction: the text of a fetched page

    [sana/modules/content/extractor.py] with the values of [content/domain.py], and the [extract] step of
    [sana/app/search_operations.py]. The callbacks that [html.parser] makes for a page are a
    parameter; what the parser of the extractor does with them is not. *)

From Stdlib Require Import SpecFloat String.
From S2P Require Import Prelude Errors PyTime PyData PyStr PyUrl Run Policy Coverage Workflow StepStore Completion.
From S2P Require Import Discovery Chunker Evidence ModelGateway Artifacts Operations.

(** What [HTMLParser.feed] calls, in order. *)
Inductive html_event := StartTag (tag : pystr) | EndTag (tag : pystr) | Data (data : pystr).

Class HtmlEvents := { html_events : pystr -> list html_event }.

(** [@ src/sana/modules/content/extractor.py _VisibleTextParser.__init__] *)
Record VisibleText := {
  vt_ignored_depth : Z;
  vt_text_parts : list pystr;
  vt_title_parts : list pystr;
  vt_in_title : bool
}.

(** [@ src/sana/modules/content/extractor.py _VisibleTextParser@21-22] *)
Definition ignored_tags : list pystr := map u ["script"; "style"; "noscript"; "svg"; "nav"; "footer"]%string.

(** The ends of lines of [str.splitlines]. *)
Definition line_end (c : Z) : bool :=
  bool_decide (c ∈ [10; 11; 12; 13; 28; 29; 30; 133; 8232; 8233]).

(** [t.splitlines()]; [\r\n] ends one line, and so does the end of the text when it is inside a line. *)
Fixpoint lines_from (line : pystr) (t : pystr) : list pystr :=
  match t with
  | [] => match line with [] => [] | _ => [line] end
  | c :: r =>
      if line_end c then
        line :: (match r with
                 | d :: r' => if (c =? 13) && (d =? 10) then lines_from [] r' else lines_from [] r
                 | [] => []
                 end)
      else lines_from (line ++ [c]) r
  end.

Definition splitlines (t : pystr) : list pystr := lines_from [] t.

Example splitlines_example :
  splitlines (u "a" ++ [13; 10] ++ u "b" ++ [10; 10] ++ u "c" ++ [8232]) = [u "a"; u "b"; []; u "c"].
Proof. reflexivity. Qed.

Section Extractor.
Context `{U : Unicode} `{IpLiterals} `{Codecs} `{HtmlEvents} (sha256_bytes : bytes -> pystr).

Definition is_ignored (tag : pystr) : bool := bool_decide (str_lower tag ∈ ignored_tags).
Definition is_title (tag : pystr) : bool := bool_decide (str_lower tag = u "title").

(** [@ src/sana/modules/content/extractor.py _VisibleTextParser.handle_starttag] *)
Definition handle_starttag (tag : pystr) (p : VisibleText) : VisibleText :=
  {| vt_ignored_depth := if is_ignored tag then vt_ignored_depth p + 1 else vt_ignored_depth p;
     vt_text_parts := vt_text_parts p; vt_title_parts := vt_title_parts p;
     vt_in_title := is_title tag || vt_in_title p |}.

(** [@ src/sana/modules/content/extractor.py _VisibleTextParser.handle_endtag] *)
Definition handle_endtag (tag : pystr) (p : VisibleText) : VisibleText :=
  {| vt_ignored_depth := if is_ignored tag && negb (vt_ignored_depth p =? 0) then vt_ignored_depth p - 1
                         else vt_ignored_depth p;
     vt_text_parts := vt_text_parts p; vt_title_parts := vt_title_parts p;
     vt_in_title := negb (is_title tag) && vt_in_title p |}.

(** [@ src/sana/modules/content/extractor.py _VisibleTextParser.handle_data] *)
Definition handle_data (data : pystr) (p : VisibleText) : VisibleText :=
  let normalized := normalize_spaces data in
  if bool_decide (normalized = []) then p else
  {| vt_ignored_depth := vt_ignored_depth p;
     vt_text_parts := if (vt_ignored_depth p =? 0) && negb (vt_in_title p) then vt_text_parts p ++ [normalized]
                      else vt_text_parts p;
     vt_title_parts := if vt_in_title p then vt_title_parts p ++ [normalized] else vt_title_parts p;
     vt_in_title := vt_in_title p |}.

Definition handle (p : VisibleText) (e : html_event) : VisibleText :=
  match e with StartTag tag => handle_starttag tag p | EndTag tag => handle_endtag tag p | Data data => handle_data data p end.

Definition feed (page : pystr) : VisibleText :=
  foldl handle {| vt_ignored_depth := 0; vt_text_parts := []; vt_title_parts := []; vt_in_title := false |} (html_events page).

(** [@ src/sana/modules/content/domain.py FetchArtifact.__post_init__] *)
Definition FetchArtifact_new (a : FetchArtifact) : res FetchArtifact :=
  _ ← fail_if (negb (dt_aware (fa_fetched_at a))) (ValueError "Fetch timestamp must be timezone-aware");
  _ ← (if bool_decide (fa_status a = FetchStatus_SUCCEEDED)
       then fail_if (bool_decide (fa_body a = []) || negb (bool_decide (fa_content_hash a = Some (sha256_bytes (fa_body a))))
                     || negb (is_none (fa_error a)))
              (ValueError "Successful fetch artifact has invalid content state")
       else fail_if (negb (bool_decide (fa_body a = [])) || negb (is_none (fa_content_hash a)) || is_none (fa_error a))
              (ValueError "Failed fetch artifact cannot contain successful body state"));
  Ok a.

(** [@ src/sana/modules/content/domain.py ExtractedContent.__post_init__] *)
Definition ExtractedContent_new (c : ExtractedContent) : res ExtractedContent :=
  _ ← fail_if (blank (xc_text c)) (ValueError "Extracted document text cannot be empty");
  _ ← fail_if (negb (dt_aware (xc_fetched_at c))) (ValueError "Extracted content timestamp must be timezone-aware");
  Ok c.

(** [chr(10).join(line.strip() for line in text.splitlines() if line.strip())] *)
Definition tidy (text : pystr) : pystr :=
  str_join [10] (map strip (base.filter (fun l => strip l <> []) (splitlines text))).

(** The text and the title of a body, by its media type. *)
(** [@ src/sana/modules/content/extractor.py ContentExtractor.extract@67-81] *)
Definition body_text (media_type : pystr) (body : bytes) : res (pystr * pystr) :=
  if bool_decide (media_type ∈ [u "text/html"; u "application/xhtml+xml"]) then
    let p := feed (utf8_replace body) in
    Ok (str_join [10] (vt_text_parts p), str_join (u " ") (vt_title_parts p))
  else if starts_with (u "text/") media_type || bool_decide (media_type = u "application/json")
  then Ok (utf8_replace body, [])
  else Raise (Typed (typed ErrorCategory_CONTENT "unsupported_content_type"
                       (u "No extractor for content type: " ++ media_type) false)).

(** [@ src/sana/modules/content/extractor.py ContentExtractor.extract] *)
Definition extract (a : FetchArtifact) : res ExtractedContent :=
  if negb (bool_decide (fa_status a = FetchStatus_SUCCEEDED))
  then Raise (typed_error ErrorCategory_CONTENT "fetch_not_successful" "Only a successful fetch can be extracted")
  else
    let media_type := str_lower (default [] (fa_media_type a)) in
    found ← body_text media_type (fa_body a);
    let text := tidy found.1 in
    if bool_decide (text = [])
    then Raise (typed_error ErrorCategory_CONTENT "empty_extracted_content"
                  "Fetched response contained no extractable body text")
    else
      title ← (if bool_decide (found.2 = [])
               then parsed ← urlsplit (fa_final_url a);
                    Ok (if bool_decide (url_hostname parsed = []) then fa_final_url a else url_hostname parsed)
               else Ok found.2);
      ExtractedContent_new
        {| xc_canonical_url := fa_final_url a; xc_title := title; xc_text := text; xc_media_type := media_type;
           xc_language := None; xc_source_content_hash := default [] (fa_content_hash a); xc_fetched_at := fa_fetched_at a |}.
End Extractor.

(** ** The step *)

Section Extract.
Context `{U : Unicode} `{IpLiterals} `{PyText} `{JsonText} `{Codecs} `{HtmlEvents}
  (sha256_utf8 : pystr -> pystr) (sha256_bytes : bytes -> pystr) (token_count : pystr -> Z) (uuid5 : UUID -> pystr -> UUID).
Context (get_json : UUID -> ArtifactRef -> res json) (get_bytes : UUID -> ArtifactRef -> res bytes).
Context {S : Type} (ports : StepPorts S) (x : StepExecutionContext).

(** The artifact the fetch step wrote, constructed again. *)
(** [@ src/sana/app/search_operations.py SearchStepOperations.extract@935-951] *)
Definition fetched_artifact (payload : json) : res FetchArtifact :=
  ref ← reference_at payload "body_ref";
  body ← get_bytes (cx_tenant_id x) ref;
  request_url ← str_at payload "request_url";
  final_url ← str_at payload "final_url";
  http_status ← int_at payload "http_status";
  media_type ← str_at payload "media_type";
  content_hash ← str_at payload "content_hash";
  fetched_at ← datetime_at payload "fetched_at";
  redirects ← list_at payload "redirects";
  raw_headers ← get_default payload "response_headers" (JObj []);
  headers ← fields_of raw_headers;
  FetchArtifact_new sha256_bytes
    {| fa_request_url := request_url; fa_final_url := final_url; fa_status := FetchStatus_SUCCEEDED;
       fa_http_status := Some http_status; fa_media_type := Some media_type; fa_body := body;
       fa_content_hash := Some content_hash; fa_fetched_at := fetched_at; fa_redirects := map to_str redirects;
       fa_response_headers := headers; fa_error := None |}.

(** The values of literal keys, read in order. *)
Fixpoint copied (payload : json) (keys : list string) : res (list (string * json)) :=
  match keys with
  | [] => Ok []
  | k :: r => v ← subscript payload k; l ← copied payload r; Ok ((k, v) :: l)
  end.

(** [@ src/sana/app/search_operations.py SearchStepOperations.extract@999-1010] *)
Definition chunk_dict (version_id : UUID) (c : DocumentChunk) : json :=
  obj [("id", juuid (uuid5 version_id (u "chunk:" ++ str_of_Z (dk_ordinal c)))); ("ordinal", JInt (dk_ordinal c));
       ("text", JStr (dk_text c)); ("text_hash", JStr (dk_text_hash c)); ("token_count", JInt (dk_token_count c));
       ("start_offset", JInt (dk_start_offset c)); ("end_offset", JInt (dk_end_offset c))]%string.

(** The chunker of the operations: 1800 characters with an overlap of 200. *)
Definition default_chunker : DocumentChunker := {| dc_max := 1800; dc_overlap := 200 |}.

(** The document, its version and its chunks. *)
(** [@ src/sana/app/search_operations.py SearchStepOperations.extract@958-1010] *)
Definition document_entries (extracted : ExtractedContent) (text_ref : ArtifactRef) : res (list (string * json)) :=
  canonical_hash ← text_digest sha256_utf8 (xc_canonical_url extracted);
  let document_id := uuid5 (cx_tenant_id x) (u "document:" ++ canonical_hash) in
  digest ← text_digest sha256_utf8 (xc_text extracted);
  let version_id := uuid5 document_id (u "version:" ++ digest) in
  chunks ← chunker_chunk sha256_utf8 token_count default_chunker (xc_text extracted);
  parsed ← urlsplit (xc_canonical_url extracted);
  Ok [("document", obj [("id", juuid document_id); ("canonical_url", JStr (xc_canonical_url extracted));
                        ("canonical_url_hash", JStr canonical_hash); ("title", JStr (xc_title extracted));
                        ("source_host", JStr (url_hostname parsed))]);
      ("version", obj [("id", juuid version_id); ("content_hash", JStr digest); ("text_ref", ref_dict text_ref);
                       ("media_type", JStr (xc_media_type extracted)); ("language", jopt JStr (xc_language extracted));
                       ("text_length", JInt (Z.of_nat (length (xc_text extracted))));
                       ("fetched_at", JStr (isoformat (xc_fetched_at extracted)))]);
      ("chunks", JList (map (chunk_dict version_id) chunks))]%string.

(** [@ src/sana/app/search_operations.py SearchStepOperations.extract] *)
Definition extract_step : M S StepExecutionResult :=
  payload ← lift (step_json get_json x);
  a ← lift (fetched_artifact payload);
  extracted ← lift (extract a);
  encoded ← lift (utf8_encode (xc_text extracted));
  text_ref ← po_put_bytes ports (cx_tenant_id x) (cx_run_id x) encoded;
  entries ← lift (document_entries extracted text_ref);
  from ← lift (copied payload ["plan_ref"; "hit"]%string);
  fetch ← lift (copied payload ["request_url"; "final_url"; "http_status"; "media_type"; "content_hash"; "fetched_at";
                                "body_ref"]%string);
  actual ← lift (cost BudgetPhase_FETCH_EXTRACT 0 0 0 0);
  step_result ports x
    (obj (("schema"%string, jstr "sana.extract.v1") :: from ++ ("fetch"%string, obj fetch) :: entries)) actual.
End Extract.
