(* ===== verification/Answer.v ===== *)
(** * Answer: claims, citations and the gate that lets evidence through

    [sana/modules/answer/domain.py], [citation_validator.py] and [synthesizer.py]: proposals become
    claims constrained by the coverage of their facts, and only accepted evidence of the same tenant,
    run and fact may be cited. The n-th identifier of an id factory is [new_uuid n]. *)

From Stdlib Require Import SpecFloat String.
From S2P Require Import Prelude Errors PyTime PyData PyStr Coverage Evidence.

(** ** Values *)

(** [@ src/sana/modules/answer/domain.py ClaimKind] *)
Inductive ClaimKind := ClaimKind_FACTUAL | ClaimKind_UNCERTAINTY | ClaimKind_COMMENTARY.

(** [@ src/sana/modules/answer/domain.py ClaimSupport] *)
Inductive ClaimSupport :=
| ClaimSupport_UNSUPPORTED | ClaimSupport_GROUNDED | ClaimSupport_VERIFIED | ClaimSupport_CONFLICTED
| ClaimSupport_UNCONFIRMED.

(** [@ src/sana/modules/answer/domain.py UnsupportedClaimPolicy] *)
Inductive UnsupportedClaimPolicy :=
| UnsupportedClaimPolicy_DROP | UnsupportedClaimPolicy_WEAKEN | UnsupportedClaimPolicy_MARK_UNCONFIRMED.

#[export] Instance ClaimKind_eq_dec : EqDecision ClaimKind.
Proof. solve_decision. Defined.
#[export] Instance ClaimSupport_eq_dec : EqDecision ClaimSupport.
Proof. solve_decision. Defined.
#[export] Instance UnsupportedClaimPolicy_eq_dec : EqDecision UnsupportedClaimPolicy.
Proof. solve_decision. Defined.

Definition ClaimSupport_value (s : ClaimSupport) : pystr :=
  u match s with
    | ClaimSupport_UNSUPPORTED => "UNSUPPORTED" | ClaimSupport_GROUNDED => "GROUNDED"
    | ClaimSupport_VERIFIED => "VERIFIED" | ClaimSupport_CONFLICTED => "CONFLICTED"
    | ClaimSupport_UNCONFIRMED => "UNCONFIRMED"
    end.
Definition UnsupportedClaimPolicy_value (p : UnsupportedClaimPolicy) : pystr :=
  u match p with
    | UnsupportedClaimPolicy_DROP => "DROP" | UnsupportedClaimPolicy_WEAKEN => "WEAKEN"
    | UnsupportedClaimPolicy_MARK_UNCONFIRMED => "MARK_UNCONFIRMED"
    end.

Record ProposedClaim := {
  pc_claim_key : pystr;
  pc_text : pystr;
  pc_fact_requirement_id : option UUID;
  pc_evidence_ids : list UUID;
  pc_kind : ClaimKind
}.

(** [@ src/sana/modules/answer/domain.py ProposedClaim] *)
Definition ProposedClaim_new (p : ProposedClaim) : res ProposedClaim :=
  _ ← fail_if (blank (pc_claim_key p) || blank (pc_text p))
        (ValueError "Proposed claim key and text cannot be empty");
  _ ← fail_if ((pc_kind p is ClaimKind_FACTUAL) && is_none (pc_fact_requirement_id p))
        (ValueError "Factual claims require a fact requirement");
  Ok p.

Record AnswerClaim := {
  ac_id : UUID;
  ac_tenant_id : UUID;
  ac_run_id : UUID;
  ac_claim_key : pystr;
  ac_text : pystr;
  ac_fact_requirement_id : option UUID;
  ac_kind : ClaimKind;
  ac_support : ClaimSupport;
  ac_evidence_ids : list UUID
}.

(** [@ src/sana/modules/answer/domain.py AnswerClaim] *)
Definition AnswerClaim_new (c : AnswerClaim) : res AnswerClaim :=
  _ ← fail_if (blank (ac_claim_key c) || blank (ac_text c)) (ValueError "Answer claim key and text cannot be empty");
  _ ← fail_if ((ac_kind c is ClaimKind_FACTUAL) && is_none (ac_fact_requirement_id c))
        (ValueError "Factual claims require a fact requirement");
  _ ← fail_if (bool_decide (ac_support c ∈ [ClaimSupport_GROUNDED; ClaimSupport_VERIFIED; ClaimSupport_CONFLICTED])
               && bool_decide (ac_evidence_ids c = []))
        (ValueError "Supported claims require evidence identifiers");
  Ok c.

Record Citation := {
  ci_id : UUID;
  ci_tenant_id : UUID;
  ci_run_id : UUID;
  ci_answer_claim_id : UUID;
  ci_verified_evidence_id : UUID;
  ci_document_version_id : UUID;
  ci_document_chunk_id : UUID;
  ci_ordinal : Z;
  ci_label : pystr;
  ci_rendered_url : pystr;
  ci_quote : pystr;
  ci_start_offset : Z;
  ci_end_offset : Z
}.

(** [@ src/sana/modules/answer/domain.py Citation] *)
Definition Citation_new (c : Citation) : res Citation :=
  _ ← fail_if ((ci_ordinal c <? 1) || blank (ci_label c) || blank (ci_rendered_url c))
        (ValueError "Citation ordinal, label and URL are required");
  _ ← fail_if (bool_decide (ci_quote c = []) || (ci_start_offset c <? 0) || (ci_end_offset c <=? ci_start_offset c))
        (ValueError "Citation quote offsets are invalid");
  _ ← fail_if (negb (ci_end_offset c - ci_start_offset c =? len (ci_quote c)))
        (ValueError "Citation quote offsets do not match quote");
  Ok c.

(** [@ src/sana/modules/answer/domain.py DraftAnswer] *)
Record DraftAnswer := { da_tenant_id : UUID; da_run_id : UUID; da_claims : list AnswerClaim }.

(** [@ src/sana/modules/answer/domain.py ValidationIssue] *)
Record ValidationIssue := { vi_claim_key : pystr; vi_code : pystr; vi_detail : pystr }.

(** [@ src/sana/modules/answer/domain.py ValidatedAnswer@109-115] *)
Record ValidatedAnswer := {
  va_tenant_id : UUID;
  va_run_id : UUID;
  va_claims : list AnswerClaim;
  va_citations : list Citation;
  va_issues : list ValidationIssue
}.

Definition is_factual (c : AnswerClaim) : bool := ac_kind c is ClaimKind_FACTUAL.

(** [@ src/sana/modules/answer/domain.py ValidatedAnswer.factual_traceability_rate] *)
Definition factual_traceability_rate (a : ValidatedAnswer) : float :=
  let factual := filter is_factual (va_claims a) in
  if bool_decide (factual = []) then float_of_Z 1 else
  let cited_claims := map ci_answer_claim_id (va_citations a) in
  fdiv (float_of_Z (len (filter (fun c => ac_id c ∈ cited_claims) factual))) (float_of_Z (len factual)).

(** ** The citation validator *)

Section Validator.
Context (new_uuid : Z -> UUID).

(** [evidence_by_id.get(id)], when it is verified evidence. *)
Definition EvidenceById := UUID -> option VerifiedEvidence.

(** [@ src/sana/modules/answer/citation_validator.py CitationValidator._valid_evidence] *)
Fixpoint valid_evidence_from (claim : AnswerClaim) (evidence_by_id : EvidenceById) (ids : list UUID)
    : list VerifiedEvidence :=
  match ids with
  | [] => []
  | evidence_id :: rest =>
      let next := valid_evidence_from claim evidence_by_id rest in
      match evidence_by_id evidence_id with
      | None => next
      | Some evidence =>
          if negb (ve_id evidence =? evidence_id) then next
          else if ve_verdict evidence isnot EvidenceVerdict_ACCEPTED then next
          else if negb (ve_tenant_id evidence =? ac_tenant_id claim) || negb (ve_run_id evidence =? ac_run_id claim)
          then next
          else if negb (bool_decide (Some (ve_fact_requirement_id evidence) = ac_fact_requirement_id claim)) then next
          else evidence :: next
      end
  end.

Definition valid_evidence (claim : AnswerClaim) (evidence_by_id : EvidenceById) : list VerifiedEvidence :=
  valid_evidence_from claim evidence_by_id (dedupe (ac_evidence_ids claim)).

Definition has_authority (a : SourceAuthority) (e : VerifiedEvidence) : bool :=
  es_authority (ec_source (ve_candidate e)) is a.

(** [@ src/sana/modules/answer/citation_validator.py CitationValidator._validated_support] *)
Definition validated_support (evidence : list VerifiedEvidence) : ClaimSupport :=
  let directions := map (ec_support_type ∘ ve_candidate) evidence in
  if bool_decide (SupportType_SUPPORTS ∈ directions) && bool_decide (SupportType_CONTRADICTS ∈ directions)
  then ClaimSupport_CONFLICTED
  else if existsb (has_authority SourceAuthority_OFFICIAL) evidence then ClaimSupport_VERIFIED
  else
    let independent_sources :=
      dedupe (map (es_source_identity ∘ ec_source ∘ ve_candidate) (filter (has_authority SourceAuthority_INDEPENDENT) evidence)) in
    if 2 <=? len independent_sources then ClaimSupport_VERIFIED else ClaimSupport_GROUNDED.

Definition issue (claim : AnswerClaim) (code : string) (detail : pystr) : ValidationIssue :=
  {| vi_claim_key := ac_claim_key claim; vi_code := u code; vi_detail := detail |}.

(** [replace(claim, text=..., kind=..., support=..., evidence_ids=...)] *)
Definition replace_claim (text : pystr) (kind : ClaimKind) (support : ClaimSupport) (evidence_ids : list UUID)
    (c : AnswerClaim) : res AnswerClaim :=
  AnswerClaim_new
    {| ac_id := ac_id c; ac_tenant_id := ac_tenant_id c; ac_run_id := ac_run_id c; ac_claim_key := ac_claim_key c;
       ac_text := text; ac_fact_requirement_id := ac_fact_requirement_id c; ac_kind := kind; ac_support := support;
       ac_evidence_ids := evidence_ids |}.

(** The issue, and the claim that replaces the one without evidence. *)
(** [@ src/sana/modules/answer/citation_validator.py CitationValidator._handle_unsupported] *)
Definition handle_unsupported (claim : AnswerClaim) (policy : UnsupportedClaimPolicy)
    : res (ValidationIssue * option AnswerClaim) :=
  let noted := issue claim "unsupported_factual_claim"
                 (u "Applied unsupported claim policy: " ++ UnsupportedClaimPolicy_value policy) in
  if policy is UnsupportedClaimPolicy_DROP then Ok (noted, None) else
  let prefix := if policy is UnsupportedClaimPolicy_MARK_UNCONFIRMED
                then uu "尚未确认：" else uu "现有来源仅提示、尚不能确认：" in
  c ← replace_claim (prefix ++ ac_text claim) ClaimKind_UNCERTAINTY ClaimSupport_UNCONFIRMED [] claim;
  Ok (noted, Some c).

(** The citations of a claim; [label] is the number of those made before. *)
(** [@ src/sana/modules/answer/citation_validator.py CitationValidator.validate@83-103] *)
Fixpoint cite (draft : DraftAnswer) (claim : AnswerClaim) (ordinal label : Z) (valid : list VerifiedEvidence)
    : res (list Citation) :=
  match valid with
  | [] => Ok []
  | evidence :: rest =>
      let citation_label := label + 1 in
      let candidate := ve_candidate evidence in
      c ← Citation_new
        {| ci_id := new_uuid citation_label; ci_tenant_id := da_tenant_id draft; ci_run_id := da_run_id draft;
           ci_answer_claim_id := ac_id claim; ci_verified_evidence_id := ve_id evidence;
           ci_document_version_id := es_document_version_id (ec_source candidate);
           ci_document_chunk_id := es_document_chunk_id (ec_source candidate); ci_ordinal := ordinal;
           ci_label := u "[" ++ str_of_Z citation_label ++ u "]"; ci_rendered_url := es_url (ec_source candidate);
           ci_quote := ec_quote candidate; ci_start_offset := ec_start_offset candidate;
           ci_end_offset := ec_end_offset candidate |};
      cs ← cite draft claim (ordinal + 1) citation_label rest;
      Ok (c :: cs)
  end.

(** What one claim adds: claims, citations and issues. *)
(** [@ src/sana/modules/answer/citation_validator.py CitationValidator.validate@42-103] *)
Definition validate_claim (draft : DraftAnswer) (evidence_by_id : EvidenceById) (policy : UnsupportedClaimPolicy)
    (label : Z) (claim : AnswerClaim) : res (list AnswerClaim * list Citation * list ValidationIssue) :=
  _ ← fail_if (negb (ac_tenant_id claim =? da_tenant_id draft) || negb (ac_run_id claim =? da_run_id draft))
        (ValueError "Claim tenant/run does not match draft answer");
  if ac_kind claim isnot ClaimKind_FACTUAL then Ok ([claim], [], []) else
  let valid := valid_evidence claim evidence_by_id in
  let invalid_count := len (ac_evidence_ids claim) - len valid in
  let removed := if negb (invalid_count =? 0)
                 then [issue claim "invalid_evidence_mapping"
                         (u "Removed " ++ str_of_Z invalid_count ++ u " invalid evidence mapping(s)")]
                 else [] in
  match valid with
  | [] =>
      r ← handle_unsupported claim policy;
      Ok (option_list r.2, [], removed ++ [r.1])
  | _ =>
      let support := validated_support valid in
      validated_claim ← replace_claim (ac_text claim) (ac_kind claim) support (map ve_id valid) claim;
      let recalculated := if support isnot ac_support claim
                          then [issue claim "support_recalculated"
                                  (u "Support changed from " ++ ClaimSupport_value (ac_support claim) ++ u " to "
                                   ++ ClaimSupport_value support)]
                          else [] in
      citations ← cite draft claim 1 label valid;
      Ok ([validated_claim], citations, removed ++ recalculated)
  end.

Fixpoint validate_from (draft : DraftAnswer) (evidence_by_id : EvidenceById) (policy : UnsupportedClaimPolicy)
    (label : Z) (claims : list AnswerClaim) : res (list AnswerClaim * list Citation * list ValidationIssue) :=
  match claims with
  | [] => Ok ([], [], [])
  | claim :: rest =>
      r ← validate_claim draft evidence_by_id policy label claim;
      let '(cs, cites, notes) := r in
      q ← validate_from draft evidence_by_id policy (label + len cites) rest;
      let '(cs', cites', notes') := q in
      Ok (cs ++ cs', cites ++ cites', notes ++ notes')
  end.

(** [@ src/sana/modules/answer/citation_validator.py CitationValidator.validate] *)
Definition validate (draft : DraftAnswer) (evidence_by_id : EvidenceById) (policy : UnsupportedClaimPolicy)
    : res ValidatedAnswer :=
  r ← validate_from draft evidence_by_id policy 0 (da_claims draft);
  let '(claims, citations, issues) := r in
  Ok {| va_tenant_id := da_tenant_id draft; va_run_id := da_run_id draft; va_claims := claims;
        va_citations := citations; va_issues := issues |}.

(** ** From proposals to claims *)

Definition CoverageByFact := UUID -> option CoverageAssessment.

(** [@ src/sana/modules/answer/synthesizer.py ClaimSynthesizer._support] *)
Definition claim_support (assessment : option CoverageAssessment) (evidence_ids : list UUID) (kind : ClaimKind)
    : ClaimSupport :=
  if kind isnot ClaimKind_FACTUAL then ClaimSupport_UNSUPPORTED else
  match assessment with
  | None => ClaimSupport_UNSUPPORTED
  | Some a =>
      if bool_decide (evidence_ids = []) then ClaimSupport_UNSUPPORTED else
      match ca_status a with
      | FactCoverage_VERIFIED => ClaimSupport_VERIFIED
      | FactCoverage_PARTIAL => ClaimSupport_CONFLICTED
      | FactCoverage_COVERED => ClaimSupport_GROUNDED
      | FactCoverage_OPEN => ClaimSupport_UNSUPPORTED
      end
  end.

(** One turn of the loop; [n] counts the claims made before. *)
(** [@ src/sana/modules/answer/synthesizer.py ClaimSynthesizer.synthesize@33-64] *)
Fixpoint claims_of (tenant_id run_id : UUID) (coverage_by_fact : CoverageByFact) (seen_keys : list pystr) (n : Z)
    (proposals : list ProposedClaim) : res (list AnswerClaim) :=
  match proposals with
  | [] => Ok []
  | proposal :: rest =>
      _ ← fail_if (bool_decide (pc_claim_key proposal ∈ seen_keys)) (ValueError "Answer claim keys must be unique");
      let assessment := f ← pc_fact_requirement_id proposal; coverage_by_fact f in
      _ ← fail_if (match assessment with
                   | Some a => negb (ca_tenant_id a =? tenant_id) || negb (ca_run_id a =? run_id)
                   | None => false
                   end) (ValueError "Coverage tenant/run does not match draft answer");
      let allowed_ids := match assessment with Some a => ca_evidence_ids a | None => [] end in
      let evidence_ids := filter (fun i => i ∈ allowed_ids) (dedupe (pc_evidence_ids proposal)) in
      claim ← AnswerClaim_new
        {| ac_id := new_uuid (n + 1); ac_tenant_id := tenant_id; ac_run_id := run_id;
           ac_claim_key := pc_claim_key proposal; ac_text := pc_text proposal;
           ac_fact_requirement_id := pc_fact_requirement_id proposal; ac_kind := pc_kind proposal;
           ac_support := claim_support assessment evidence_ids (pc_kind proposal); ac_evidence_ids := evidence_ids |};
      claims ← claims_of tenant_id run_id coverage_by_fact (pc_claim_key proposal :: seen_keys) (n + 1) rest;
      Ok (claim :: claims)
  end.

(** [@ src/sana/modules/answer/synthesizer.py ClaimSynthesizer.synthesize] *)
Definition draft_answer (tenant_id run_id : UUID) (proposals : list ProposedClaim) (coverage_by_fact : CoverageByFact)
    : res DraftAnswer :=
  claims ← claims_of tenant_id run_id coverage_by_fact [] 0 proposals;
  Ok {| da_tenant_id := tenant_id; da_run_id := run_id; da_claims := claims |}.
End Validator.
