(* ===== verification/Claims.v ===== *)
(** * Claims: the parser of a model's claims

    [ProposedClaimParser] of [sana/modules/answer/model_synthesizer.py]: only claims about known facts,
    citing accepted evidence of their own fact, that keep the identifiers the fact asks for. The parser's
    three dictionaries have the same keys; they are one dictionary of accepted evidence here. *)

From Stdlib Require Import SpecFloat String.
From S2P Require Import Prelude Errors PyTime PyData PyStr Regex Coverage Evidence ModelGateway Answer.

(** [dict[UUID, FactRequirement]], in the order of its insertions *)
Definition Facts := list (UUID * FactRequirement).

Section Parser.
Context `{Unicode} `{PyText} `{JsonText} (error_text : exn -> pystr).

(** ** Identifiers *)

(** [@ src/sana/modules/answer/model_synthesizer.py ProposedClaimParser._NUMERIC_IDENTIFIER] *)
Definition CLAIM_NUMERIC_IDENTIFIER : regex := re "\d+(?:[.-]\d+)*".
(** [@ src/sana/modules/answer/model_synthesizer.py ProposedClaimParser._QUOTED_IDENTIFIER] *)
Definition QUOTED_IDENTIFIER : regex := re "(?P<quote>['\x22])(?P<value>[^'\x22]{1,64})(?P=quote)".
(** [@ src/sana/modules/answer/model_synthesizer.py ProposedClaimParser._STANDARD_IDENTIFIER] *)
Definition STANDARD_IDENTIFIER : regex :=
  re "\b(?:RFC\s*\d+|TLS\s*\d+(?:\.\d+)*|SHA-?\d+|HTTP\s+[A-Z][A-Z-]+)\b".
(** [@ src/sana/modules/answer/model_synthesizer.py ProposedClaimParser._TITLE_PHRASE] *)
Definition TITLE_PHRASE : regex := re "\b[A-Z][a-z]{2,}(?:\s+[A-Z][a-z]{2,})+\b".
(** [@ src/sana/modules/answer/model_synthesizer.py ProposedClaimParser._TITLE_WORD] *)
Definition TITLE_WORD : regex := re "\b[A-Z][a-z]{3,}\b".
(** [@ src/sana/modules/answer/model_synthesizer.py ProposedClaimParser._RFC3339_Z_TIMESTAMP] *)
Definition RFC3339_Z_TIMESTAMP : regex := re "\b\d{4}-\d{2}-\d{2}T\d{2}:\d{2}:\d{2}(?:\.\d+)?Z\b".
(** [@ src/sana/modules/answer/model_synthesizer.py ProposedClaimParser._RFC3339_PLUS_ZERO_TIMESTAMP] *)
Definition RFC3339_PLUS_ZERO_TIMESTAMP : regex := re "\b\d{4}-\d{2}-\d{2}T\d{2}:\d{2}:\d{2}(?:\.\d+)?\+00:00\b".
(** [@ src/sana/modules/answer/model_synthesizer.py ProposedClaimParser._GENERIC_TITLE_WORDS] *)
Definition GENERIC_TITLE_WORDS : list pystr :=
  map u ["Anomaly"; "Definition"; "Example"; "Guarantees"; "Launch"; "Semantics"; "Standard"; "Whether"]%string.

(** [@ src/sana/modules/answer/model_synthesizer.py ProposedClaimParser._numeric_identifiers] *)
Definition numeric_identifiers (fact : FactRequirement) : list pystr :=
  let material := fr_description fact ++ u " " ++ fr_subject fact in
  let material := re_sub no_flags material QUOTED_IDENTIFIER (fun _ => u " ") in
  let material := re_sub no_flags material STANDARD_IDENTIFIER (fun _ => u " ") in
  dedupe (re_findall no_flags material CLAIM_NUMERIC_IDENTIFIER).

Definition identifier_pattern (identifier : pystr) : regex :=
  rcat [re "(?<![A-Za-z0-9])"; rtext identifier; re "(?![A-Za-z0-9])"].

(** [@ src/sana/modules/answer/model_synthesizer.py ProposedClaimParser._symbolic_identifiers] *)
Definition symbolic_identifiers (fact : FactRequirement) : list pystr :=
  let found material :=
    map (fun m => default [] (group material 2 m)) (re_finditer no_flags material QUOTED_IDENTIFIER)
    ++ re_findall no_flags material STANDARD_IDENTIFIER
    ++ re_findall no_flags material TITLE_PHRASE
    ++ base.filter (fun value => value ∉ GENERIC_TITLE_WORDS) (re_findall no_flags material TITLE_WORD) in
  let values := found (fr_description fact) ++ found (fr_subject fact) in
  let deduplicated := dedupe (map strip (base.filter (fun value => negb (blank value)) values)) in
  base.filter (fun value => negb (existsb (fun other => negb (bool_decide (value = other))
                                                 && re_found no_flags other (identifier_pattern value)) deduplicated))
    deduplicated.

(** [@ src/sana/modules/answer/model_synthesizer.py ProposedClaimParser._contains_identifier] *)
Definition contains_identifier (text identifier : pystr) (case_sensitive : bool) : bool :=
  re_found (if case_sensitive then no_flags else re_I) text (identifier_pattern identifier).

(** ** The accepted evidence of the parser *)

Definition is_accepted (e : VerifiedEvidence) : bool := ve_verdict e is EvidenceVerdict_ACCEPTED.

(** [@ src/sana/modules/answer/model_synthesizer.py ProposedClaimParser.__init__] *)
Definition accepted_by_id (evidence : list VerifiedEvidence) : list (UUID * VerifiedEvidence) :=
  dict_by ve_id (base.filter is_accepted evidence).

Definition quote_of (e : VerifiedEvidence) : pystr := ec_quote (ve_candidate e).
Definition url_of (e : VerifiedEvidence) : pystr := es_url (ec_source (ve_candidate e)).

(** [@ src/sana/modules/answer/model_synthesizer.py ProposedClaimParser._identifier_grounded] *)
Definition identifier_grounded (e : VerifiedEvidence) (identifier : pystr) : bool :=
  contains_identifier (quote_of e) identifier false ||
  match re_fullmatch re_I identifier (re "RFC\s*(\d+)") with
  | Some rfc => re_found re_I (url_of e)
                  (rcat [re "/rfc/rfc"; rtext (default [] (group identifier 1 rfc)); re "(?:[./]|$)"])
  | None => false
  end.

(** [tuple(self._evidence_quote[value] for value in evidence_ids)] *)
Fixpoint cited_evidence (accepted : list (UUID * VerifiedEvidence)) (evidence_ids : list UUID)
    : res (list VerifiedEvidence) :=
  match evidence_ids with
  | [] => Ok []
  | i :: rest =>
      match dget i accepted with
      | Some e => es ← cited_evidence accepted rest; Ok (e :: es)
      | None => Raise (KeyError "evidence")
      end
  end.

(** [@ src/sana/modules/answer/model_synthesizer.py ProposedClaimParser._self_contained_text] *)
Definition self_contained_text (accepted : list (UUID * VerifiedEvidence)) (fact : FactRequirement) (claim_text : pystr)
    (evidence_ids : list UUID) : res pystr :=
  let missing_numeric :=
    base.filter (fun i => negb (contains_identifier claim_text i false)) (numeric_identifiers fact) in
  cited ← cited_evidence accepted evidence_ids;
  _ ← fail_if (existsb (fun i => negb (existsb (fun e => contains_identifier (quote_of e) i false) cited)) missing_numeric)
        (ValueError "claim omitted a numeric identifier not grounded by citations");
  let missing_symbolic :=
    base.filter (fun i => negb (contains_identifier claim_text i true) && existsb (fun e => identifier_grounded e i) cited)
      (symbolic_identifiers fact) in
  let missing := dedupe (missing_numeric ++ missing_symbolic) in
  if bool_decide (missing = []) then Ok claim_text else
  let normalized := str_join (u ", ") missing ++ u ": " ++ claim_text in
  _ ← fail_if (1200 <? len normalized) (ValueError "self-contained claim is too long");
  Ok normalized.

(** ** Relationships some facts ask for *)

Definition object_types : list string := ["blob"; "tree"; "commit"; "tag"]%string.

Definition word_pattern (w : string) : regex := rcat [re "\b"; rtext (u w); re "\b"].

(** The words that keep the reviewed meaning of an object's purpose. *)
(** [@ src/sana/modules/answer/model_synthesizer.py ProposedClaimParser._validate_requested_relationship@236-248] *)
Definition semantic_pattern (object_type : string) : regex :=
  if String.eqb object_type "blob" then re "(?:file.{0,24}content|content.{0,24}file|\u6587\u4ef6.{0,12}\u5185\u5bb9)"
  else if String.eqb object_type "tree" then re "(?:director|subdirector|\u76ee\u5f55)"
  else if String.eqb object_type "commit" then
    re ("(?:top-level tree|parent commit|snapshot|\u9876\u5c42\u6811|" ++ "\u7236\u63d0\u4ea4|\u5feb\u7167)")
  else re ("(?:object.{0,24}(?:reference| id)|" ++ "reference.{0,24}object|\u5f15\u7528.{0,12}\u5bf9\u8c61|" ++
           "\u5bf9\u8c61.{0,12}\u6807\u8bc6)").

Definition TLS_VERSION : regex := re "\bTLS\s*(\d)\.(\d)\b".

(** [f"{fact.key} {fact.description} {fact.subject}"] *)
Definition requested_text (fact : FactRequirement) : pystr :=
  fr_key fact ++ u " " ++ fr_description fact ++ u " " ++ fr_subject fact.

(** [@ src/sana/modules/answer/model_synthesizer.py ProposedClaimParser._validate_requested_relationship@221-251] *)
Definition check_object_purpose (fact : FactRequirement) (claim_text : pystr) : res unit :=
  let key := casefold (fr_key fact) in
  match base.filter (fun value => str_in (u value) key) object_types with
  | [] => Raise (ValueError "Git object-purpose claim omitted its object type")
  | object_type :: _ =>
      _ ← fail_if (negb (re_found re_I claim_text (word_pattern object_type)))
            (ValueError "Git object-purpose claim omitted its object type");
      fail_if (negb (re_found re_I (casefold claim_text) (semantic_pattern object_type)))
        (ValueError "Git object-purpose claim lost the reviewed semantics")
  end.

(** [@ src/sana/modules/answer/model_synthesizer.py ProposedClaimParser._validate_requested_relationship] *)
Definition validate_requested_relationship (fact : FactRequirement) (claim_text : pystr) : res unit :=
  let fact_text := requested_text fact in
  let folded := casefold fact_text in
  let claim_folded := casefold claim_text in
  if str_in (u "git") folded && str_in (u "git_object_types") folded then
    fail_if (negb (forallb (fun t => re_found re_I claim_text (word_pattern t)) object_types))
      (ValueError "Git object-type claim must preserve all four types")
  else if str_in (u "git") folded && str_in (u "_purpose") (casefold (fr_key fact)) then
    check_object_purpose fact claim_text
  else if str_in (u "media type") folded && str_in (u "json") folded then
    fail_if (negb (str_in (u "application/json") claim_folded))
      (ValueError "JSON media-type claim must contain application/json")
  else
    match re_search re_I fact_text TLS_VERSION, str_in (u "rfc") folded with
    | Some tls, true =>
        let part n := default [] (group fact_text n tls) in
        fail_if (negb (re_found re_I claim_text (rcat [re "\bTLS\s*"; rtext (part 1%nat); re "\."; rtext (part 2%nat); re "\b"]))
                 || negb (re_found re_I claim_text (re "\bRFC\s*\d+\b")))
          (ValueError "TLS/RFC claim must preserve both related identifiers")
    | _, _ =>
        if re_found re_I fact_text (re "\bSHA-?256\b") && str_in (u "digest") folded then
          fail_if (negb (str_in (u "sha-256") claim_folded) || negb (re_found re_I claim_text (re "\b256\s*(?:bits?|位)\b")))
            (ValueError "SHA-256 digest claim must preserve its 256-bit size")
        else if negb (str_in (u "rfc 3339") folded) || negb (str_in (u "example") folded) then Ok tt
        else
          _ ← fail_if (str_in (u "+00:00") fact_text && negb (re_found no_flags claim_text RFC3339_PLUS_ZERO_TIMESTAMP))
                (ValueError "RFC 3339 +00:00 example must contain a timestamp ending +00:00");
          fail_if (negb (str_in (u "+00:00") fact_text) && re_found no_flags fact_text (re "(?<![A-Za-z])Z(?![A-Za-z])")
                   && negb (re_found no_flags claim_text RFC3339_Z_TIMESTAMP))
            (ValueError "RFC 3339 Z example must contain a timestamp ending Z")
    end.

(** ** Parsing *)

(** [@ src/sana/modules/answer/model_synthesizer.py ProposedClaimParser._FIELDS] *)
Definition claim_fields : list pystr := map u ["claim_key"; "text"; "fact_id"; "evidence_ids"]%string.

(** [set(raw) - self._FIELDS] is empty *)
Definition only_fields (raw : json) : bool :=
  match raw with JObj d => forallb (fun k => bool_decide (k ∈ claim_fields)) d.*1 | _ => false end.

Fixpoint uuids_of (values : list json) : res (list UUID) :=
  match values with
  | [] => Ok []
  | v :: rest => i ← uuid_of_text (to_str v); ids ← uuids_of rest; Ok (i :: ids)
  end.

(** One turn of the loop. *)
(** [@ src/sana/modules/answer/model_synthesizer.py ProposedClaimParser.parse@299-336] *)
Definition parse_claim (facts : Facts) (accepted : list (UUID * VerifiedEvidence)) (seen : list pystr) (raw : json)
    : res ProposedClaim :=
  _ ← fail_if (negb (is_object raw) || negb (only_fields raw)) (ValueError "claim contains unsupported fields");
  claim_key ← str_at raw "claim_key";
  _ ← fail_if (blank claim_key || bool_decide (claim_key ∈ seen)) (ValueError "claim keys must be non-empty and unique");
  fact_id ← uuid_at raw "fact_id";
  match dget fact_id facts with
  | None => Raise (ValueError "claim references an unknown fact")
  | Some fact =>
      text ← str_at raw "text";
      let claim_text := strip text in
      _ ← fail_if (bool_decide (claim_text = []) || (1200 <? len claim_text)) (ValueError "claim text is empty or too long");
      values ← get_default raw "evidence_ids" (JList []);
      values ← items values;
      ids ← uuids_of values;
      let evidence_ids := dedupe ids in
      _ ← fail_if (bool_decide (evidence_ids = [])) (ValueError "factual claim must reference accepted evidence");
      _ ← fail_if (existsb (fun i => negb (bool_decide (ve_fact_requirement_id <$> dget i accepted = Some fact_id))) evidence_ids)
            (ValueError "claim references unavailable or cross-fact evidence");
      claim_text ← self_contained_text accepted fact claim_text evidence_ids;
      _ ← validate_requested_relationship fact claim_text;
      ProposedClaim_new
        {| pc_claim_key := claim_key; pc_text := claim_text; pc_fact_requirement_id := Some fact_id;
           pc_evidence_ids := evidence_ids; pc_kind := ClaimKind_FACTUAL |}
  end.

Fixpoint parse_claims (facts : Facts) (accepted : list (UUID * VerifiedEvidence)) (seen : list pystr) (raws : list json)
    : res (list ProposedClaim) :=
  match raws with
  | [] => Ok []
  | raw :: rest =>
      c ← parse_claim facts accepted seen raw;
      cs ← parse_claims facts accepted (pc_claim_key c :: seen) rest;
      Ok (c :: cs)
  end.

(** [@ src/sana/modules/answer/model_synthesizer.py ProposedClaimParser.parse@338-340] *)
Definition claimed_fact_ids (parsed : list ProposedClaim) : list UUID :=
  omap pc_fact_requirement_id (base.filter (fun p => pc_evidence_ids p <> []) parsed).

(** [@ src/sana/modules/answer/model_synthesizer.py ProposedClaimParser.parse] *)
Definition ProposedClaimParser_parse (facts : Facts) (evidence : list VerifiedEvidence) (text : pystr)
    : res (list ProposedClaim) :=
  let accepted := accepted_by_id evidence in
  payload ← json_loads text;
  claims ← subscript payload "claims";
  match claims with
  | JList l =>
      _ ← fail_if (len facts * 2 <? len l) (ValueError "claims must be a bounded list");
      parsed ← parse_claims facts accepted [] l;
      let expected_fact_ids := map ve_fact_requirement_id accepted.*2 in
      let claimed := claimed_fact_ids parsed in
      _ ← fail_if (negb (forallb (fun f => bool_decide (f ∈ claimed)) expected_fact_ids))
            (ValueError "claims omitted facts with accepted evidence");
      Ok parsed
  | _ => Raise (ValueError "claims must be a bounded list")
  end.

(** [@ src/sana/modules/answer/model_synthesizer.py ProposedClaimParser.repair_instruction] *)
Definition claims_repair_instruction (error : exn) : pystr :=
  u ("Return only JSON with a claims array. Each claim may contain only " ++
     "claim_key, text, fact_id, and evidence_ids. Use only supplied IDs; do " ++
     "not emit URLs, citation labels, support status, or answer quality. Emit " ++
     "at least one claim with evidence_ids for every fact that has accepted " ++
     "evidence. " ++ "Validation error: ") ++ error_text error.

Definition claim_parser (facts : Facts) (evidence : list VerifiedEvidence) : StructuredOutputParser (list ProposedClaim) :=
  {| so_parse := ProposedClaimParser_parse facts evidence; so_repair_instruction := claims_repair_instruction |}.
End Parser.
