(* ===== verification/ClaimsFacts.v ===== *)
(** * ClaimsFacts: what a parsed claim says

    An identifier is contained in a text when it stands alone in it, and every claim the parser lets
    through cites accepted evidence of its fact and names every number the fact asks for. *)

From Stdlib Require Import SpecFloat String.
From S2P Require Import Prelude Errors PyTime PyData PyStr Regex RegexFacts Coverage Evidence ModelGateway Answer Claims.
From S2P Require Import Verifier VerifierBatch.

(** ** Identifiers that stand alone *)

Section Alone.
Context `{Unicode} (fl : flags).

(** A letter or a digit of ASCII, or, when case is ignored, what counts as one. *)
Definition ascii_alnum (c : Z) : bool := in_set fl false [SRange 65 90; SRange 97 122; SRange 48 57] c.

Definition bounded (o : option Z) : Prop := forall c, o = Some c -> ascii_alnum c = false.

(** [id] occurs in [t], up to case when that is ignored, with no letter or digit next to it. *)
Definition standalone (t id : pystr) : Prop := exists a x b, t = a ++ x ++ b /\
  Forall2 (fun c d => same_char fl c d = true) id x /\ bounded (last a) /\ bounded (head b).

Lemma bounded_none : bounded None.
Proof. done. Qed.

Lemma standalone_prefix p t id : bounded (last p) -> standalone t id -> standalone (p ++ t) id.
Proof.
  intros Hp (a & x & b & -> & Hx & Ha & Hb). exists (p ++ a), x, b. ksplit; [by rewrite !app_assoc|].
  destruct a as [|c a]; [by rewrite app_nil_r|]. rewrite last_app. by destruct (last (c :: a)) eqn:E; [|by rewrite last_None in E].
Qed.

Lemma standalone_suffix s t id : bounded (head s) -> standalone t id -> standalone (t ++ s) id.
Proof.
  intros Hs (a & x & b & -> & Hx & Ha & Hb). exists a, x, (b ++ s). ksplit; [by rewrite <- !app_assoc|].
  destruct b; [done|done].
Qed.

Lemma standalone_refl id : standalone id id.
Proof.
  exists [], id, []. ksplit; [by rewrite app_nil_r|]. induction id; constructor; [|done]. unfold same_char. by rewrite Z.eqb_refl.
Qed.

Lemma last_take_S (t : pystr) i : (S i <= length t)%nat -> last (take (S i) t) = t !! i.
Proof. intros Hi. rewrite last_lookup, length_take, Nat.min_l by lia. simpl. apply lookup_take_lt. lia. Qed.

Definition alnum_set : regex := re "[A-Za-z0-9]".

Lemma den_alnum t i cs j cs' : den fl t alnum_set i cs j cs' <->
  exists c, t !! i = Some c /\ ascii_alnum c = true /\ j = S i /\ cs' = cs.
Proof.
  unfold alnum_set. cbn [den]. split.
  - intros (m & cs1 & (c & ? & ? & -> & ->) & -> & ->). by exists c.
  - intros (c & ? & ? & -> & ->). exists (S i), cs. split; [by exists c|done].
Qed.

Lemma word_behind t i cs j cs' : (i <= length t)%nat ->
  den fl t (re "(?<![A-Za-z0-9])") i cs j cs' <-> j = i /\ cs' = cs /\ bounded (last (take i t)).
Proof.
  intros Hi. change (re "(?<![A-Za-z0-9])") with (RCat (RLookBehind true 1 alnum_set) REmpty).
  change (den fl t (RCat (RLookBehind true 1 alnum_set) REmpty) i cs j cs') with
    (exists m cs1, (m = i /\ cs1 = cs /\ forall cs2, (1 <= i)%nat -> ~ den fl t alnum_set (i - 1)%nat cs i cs2) /\ j = m /\ cs' = cs1).
  split.
  - intros (m & cs1 & (-> & -> & Hn) & -> & ->). ksplit. intros c Hc. destruct (ascii_alnum c) eqn:E; [|done].
    destruct i as [|i]; [done|]. rewrite last_take_S in Hc by lia. destruct (Hn cs ltac:(lia)).
    apply den_alnum. exists c. replace (S i - 1)%nat with i by lia. by ksplit.
  - intros (-> & -> & Hn). exists i, cs. ksplit. intros cs1 Hw (c & Hc & Hal & _)%den_alnum. destruct i as [|i]; [lia|].
    replace (S i - 1)%nat with i in Hc by lia. rewrite <- last_take_S in Hc by lia. by rewrite (Hn c Hc) in Hal.
Qed.

Lemma word_ahead t i cs j cs' :
  den fl t (re "(?![A-Za-z0-9])") i cs j cs' <-> j = i /\ cs' = cs /\ bounded (head (drop i t)).
Proof.
  change (den fl t (re "(?![A-Za-z0-9])") i cs j cs') with
    (exists m cs1, (m = i /\ cs1 = cs /\ forall k cs2, ~ den fl t alnum_set i cs k cs2) /\ j = m /\ cs' = cs1).
  rewrite head_lookup, lookup_drop, Nat.add_0_r. split.
  - intros (m & cs1 & (-> & -> & Hn) & -> & ->). ksplit. intros c Hc. destruct (ascii_alnum c) eqn:E; [|done].
    destruct (Hn (S i) cs). apply den_alnum. by exists c.
  - intros (-> & -> & Hn). exists i, cs. ksplit. intros k cs1 (c & Hc & Hal & _)%den_alnum. by rewrite (Hn c Hc) in Hal.
Qed.

(** The pattern of an identifier is found where the identifier stands alone. *)
Lemma identifier_found t id : re_found fl t (identifier_pattern id) = true <-> standalone t id.
Proof.
  rewrite re_found_iff. unfold matches, identifier_pattern. split.
  - intros (i & j & Hi & cs & Hd). apply den_rcat_cons in Hd as (m & cs1 & Hb & Hd). apply (word_behind _ _ _ _ _ Hi) in Hb as (-> & -> & Hb).
    apply den_rcat_cons in Hd as (m & cs1 & Hid & Hd). apply den_rtext in Hid as (-> & -> & Hj & Hx).
    apply den_rcat_cons in Hd as (m & cs2 & Ha & _). apply word_ahead in Ha as (-> & -> & Ha).
    exists (take i t), (substr i (i + length id) t), (drop (i + length id) t). ksplit.
    unfold substr. rewrite <- (take_drop i t) at 1. f_equal. rewrite <- (take_drop (length id) (drop i t)) at 1.
    rewrite drop_drop. f_equal. rewrite skipn_firstn_comm. f_equal. lia.
  - intros (a & x & b & -> & Hx & Ha & Hb). pose proof (Forall2_length _ _ _ Hx) as Hlen.
    exists (length a), (length a + length id)%nat. split; [rewrite length_app; lia|]. exists [].
    apply den_rcat_cons. exists (length a), []. split.
    { apply word_behind; [rewrite length_app; lia|]. by rewrite take_app_length. }
    apply den_rcat_cons. exists (length a + length id)%nat, []. split.
    { apply den_rtext. ksplit; [left; rewrite !length_app; lia|]. unfold substr. rewrite skipn_firstn_comm, drop_app_length.
      replace (length a + length id - length a)%nat with (length x) by lia. by rewrite take_app_length. }
    apply den_rcat_cons. exists (length a + length id)%nat, []. split; [|done].
    apply word_ahead. ksplit. by rewrite app_assoc, drop_app_length' by (rewrite length_app; lia).
Qed.
End Alone.

(** ** Claims keep what the fact asks for *)

Section Keep.
Context `{Unicode}.

Lemma space_bounded fl : bounded fl (Some 32).
Proof. intros c [= <-]. unfold ascii_alnum, in_set, in_item, variants. destruct (ignorecase fl); reflexivity. Qed.
Lemma comma_bounded fl : bounded fl (Some 44).
Proof. intros c [= <-]. unfold ascii_alnum, in_set, in_item, variants. destruct (ignorecase fl); reflexivity. Qed.
Lemma colon_bounded fl : bounded fl (Some 58).
Proof. intros c [= <-]. unfold ascii_alnum, in_set, in_item, variants. destruct (ignorecase fl); reflexivity. Qed.

Lemma join_standalone fl l id s : id ∈ l -> bounded fl (head s) -> standalone fl (str_join (u ", ") l ++ s) id.
Proof.
  intros Hin Hs. induction l as [|p l IH]; [by apply not_elem_of_nil in Hin|].
  destruct l as [|q l].
  - apply list_elem_of_singleton in Hin as ->. simpl. apply standalone_suffix; [done|apply standalone_refl].
  - change (str_join (u ", ") (p :: q :: l)) with (p ++ u ", " ++ str_join (u ", ") (q :: l)).
    apply elem_of_cons in Hin as [->|Hin].
    + rewrite <- app_assoc. apply standalone_suffix; [apply comma_bounded|apply standalone_refl].
    + rewrite <- !app_assoc, app_assoc. apply standalone_prefix; [|by apply IH].
      rewrite last_app. apply space_bounded.
Qed.

Lemma contains_standalone t id case_sensitive :
  contains_identifier t id case_sensitive = true <-> standalone (if case_sensitive then no_flags else re_I) t id.
Proof. apply identifier_found. Qed.

Lemma self_contained_spec accepted fact claim_text ids t :
  self_contained_text accepted fact claim_text ids = Ok t -> len claim_text <= 1200 ->
  Forall (standalone re_I t) (numeric_identifiers fact) /\ len t <= 1200 /\ occurs claim_text t.
Proof.
  unfold self_contained_text. cbv zeta. intros Ht Hlen. minv. rewrite Forall_forall.
  set (absent := base.filter _ (numeric_identifiers fact)) in *.
  assert (Hpresent : forall i, i ∈ numeric_identifiers fact -> i ∈ absent \/ standalone re_I claim_text i).
  { intros i Hi. destruct (contains_identifier claim_text i false) eqn:E2; [right; by apply contains_standalone in E2|].
    left. apply list_elem_of_filter. by rewrite E2. }
  case_bool_decide as Hm.
  - injection Ht as <-. ksplit; [|apply occurs_refl]. intros i Hi. destruct (Hpresent i Hi) as [Ha|]; [|done].
    exfalso. apply (not_elem_of_nil i). rewrite <- Hm. apply elem_of_dedupe, elem_of_app. by left.
  - apply res_bind_ok_inv in Ht as ([] & Hl%fail_if_ok_inv & Ht). match type of Ht with Ok ?x = _ => assert (t = x) as -> by congruence end.
    bools. ksplit.
    + intros i Hi. destruct (Hpresent i Hi) as [Ha|Hc].
      * apply join_standalone; [|apply colon_bounded]. apply elem_of_dedupe, elem_of_app. by left.
      * rewrite app_assoc. apply standalone_prefix; [|done]. rewrite last_app. apply space_bounded.
    + eexists _, []. rewrite app_nil_r, app_assoc. reflexivity.
Qed.
End Keep.

Section Parsed.
Context `{Unicode} `{PyText} `{JsonText} (facts : Facts) (evidence : list VerifiedEvidence).

(** What the parser lets through. *)
Definition claim_ok (p : ProposedClaim) : Prop := exists fact_id fact,
  pc_fact_requirement_id p = Some fact_id /\ dget fact_id facts = Some fact /\ pc_kind p = ClaimKind_FACTUAL /\
  pc_evidence_ids p <> [] /\ NoDup (pc_evidence_ids p) /\ len (pc_text p) <= 1200 /\ blank (pc_text p) = false /\
  Forall (fun i => exists e, e ∈ evidence /\ ve_id e = i /\ ve_verdict e = EvidenceVerdict_ACCEPTED /\
            ve_fact_requirement_id e = fact_id) (pc_evidence_ids p) /\
  Forall (standalone re_I (pc_text p)) (numeric_identifiers fact).

Lemma accepted_by_id_Some i e : dget i (accepted_by_id evidence) = Some e ->
  e ∈ evidence /\ ve_id e = i /\ ve_verdict e = EvidenceVerdict_ACCEPTED.
Proof.
  unfold accepted_by_id. intros [Hin Hid]%dict_by_Some. apply list_elem_of_filter in Hin as [Ha Hin].
  ksplit. unfold is_accepted in Ha. by apply bool_decide_unpack in Ha.
Qed.

Lemma parse_claim_sound seen raw p : parse_claim facts (accepted_by_id evidence) seen raw = Ok p ->
  claim_ok p /\ pc_claim_key p ∉ seen.
Proof.
  unfold parse_claim. intros Hp. minv. destruct (dget _ facts) as [fact|] eqn:Hf; [|done]. minv.
  unfold ProposedClaim_new in Hp. minv. bools. simpl in *. split; [|done].
  match goal with Hs : self_contained_text _ _ _ _ = Ok _ |- _ => apply self_contained_spec in Hs as (Hkeep & ? & _); [|done] end.
  exists a2, fact. simpl. ksplit; [apply NoDup_dedupe|]. rewrite Forall_forall. intros i Hi.
  match goal with Hc : existsb _ _ = false |- _ => rename Hc into Hcited end.
  apply not_true_iff_false in Hcited. rewrite existsb_exists in Hcited.
  destruct (bool_decide (ve_fact_requirement_id <$> dget i (accepted_by_id evidence) = Some a2)) eqn:Eb.
  - bools. apply fmap_Some in Eb as (e & He & ->). apply accepted_by_id_Some in He as (? & ? & ?). exists e. by ksplit.
  - destruct Hcited. exists i. split; [by apply list_elem_of_In|]. by rewrite Eb.
Qed.

Lemma parse_claims_sound seen raws ps : parse_claims facts (accepted_by_id evidence) seen raws = Ok ps ->
  Forall claim_ok ps /\ NoDup (map pc_claim_key ps) /\ (forall k, k ∈ map pc_claim_key ps -> k ∉ seen) /\
  length ps = length raws.
Proof.
  revert seen ps. induction raws as [|raw raws IH]; intros seen ps Hp; simpl in Hp; minv.
  { ksplit; try constructor. set_solver. }
  apply parse_claim_sound in E as [? Hk]. apply IH in E0 as (? & ? & Hseen & Hl). simpl. ksplit.
  - by constructor.
  - constructor; [|done]. intros Hin. apply (Hseen _ Hin). left.
  - intros k [->|Hin]%elem_of_cons; [done|]. intros Hs. apply (Hseen _ Hin). by right.
  - by rewrite Hl.
Qed.

(** Claim C4. A model's claims that pass the parser keep what their facts ask for: they are within bounds,
    each cites only accepted evidence of its own fact, names every number the fact asks for, alone
    between other characters, and no fact with accepted evidence is left without a claim. *)
Theorem parsed_claims_keep_facts text ps : NoDup (map ve_id evidence) ->
  ProposedClaimParser_parse facts evidence text = Ok ps ->
  Forall claim_ok ps /\ NoDup (map pc_claim_key ps) /\ (length ps <= 2 * length facts)%nat /\
  (forall e, e ∈ evidence -> ve_verdict e = EvidenceVerdict_ACCEPTED ->
     exists p, p ∈ ps /\ pc_fact_requirement_id p = Some (ve_fact_requirement_id e)).
Proof.
  intros Hnd. unfold ProposedClaimParser_parse. cbv zeta. intros Hp. minv. destruct a0 as [| | | | |l|]; minv. bools.
  match goal with Hc : parse_claims _ _ _ _ = Ok _ |- _ => apply parse_claims_sound in Hc as (? & ? & _ & Hl) end.
  ksplit; [lia|]. intros e He Ha.
  match goal with Hc : forallb _ _ = true |- _ => rewrite forallb_forall in Hc; rename Hc into Hcover end.
  assert (Hget : dget (ve_id e) (accepted_by_id evidence) = Some e).
  { apply dict_by_unique; [|apply list_elem_of_filter; split; [|done]; by apply bool_decide_pack].
    eapply sublist_NoDup; [exact Hnd|]. apply sublist_map, sublist_filter. }
  apply dget_elem in Hget. specialize (Hcover (ve_fact_requirement_id e)).
  assert (Hclaimed : ve_fact_requirement_id e ∈ claimed_fact_ids ps).
  { eapply bool_decide_eq_true_1, Hcover, in_map, in_map_iff. exists (ve_id e, e). split; [done|by apply list_elem_of_In]. }
  unfold claimed_fact_ids in Hclaimed. apply list_elem_of_omap in Hclaimed as (p & Hin & Hf).
  apply list_elem_of_filter in Hin as [_ Hin]. by exists p.
Qed.
End Parsed.
