(* ===== verification/Synthesizer.v ===== *)
(** * Synthesizer: an answer from a model, or from the evidence alone

    [ConstrainedModelSynthesizer] of [sana/modules/answer/model_synthesizer.py]: the prompt, the text a
    fact gets without a model, and the whole synthesis down to the validated answer. *)

From Stdlib Require Import SpecFloat String.
From S2P Require Import Prelude Errors PyTime PyData PyStr Regex Coverage Evidence EvidenceRules ModelGateway.
From S2P Require Import Answer Claims.

(** [@ src/sana/modules/answer/model_synthesizer.py ConstrainedSynthesisResult] *)
Record ConstrainedSynthesisResult := {
  sr_answer : ValidatedAnswer;
  sr_degraded : bool;
  sr_degradation_code : option pystr
}.

Definition FactCoverage_value (s : FactCoverage) : pystr :=
  u match s with
    | FactCoverage_OPEN => "OPEN" | FactCoverage_COVERED => "COVERED" | FactCoverage_VERIFIED => "VERIFIED"
    | FactCoverage_PARTIAL => "PARTIAL"
    end.

(** [dict[UUID, CoverageAssessment]] *)
Definition Coverages := list (UUID * CoverageAssessment).

(** The first text of a chain of [if]s that return. *)
Fixpoint first_some {A} (l : list (option A)) : option A :=
  match l with
  | [] => None
  | Some a :: _ => Some a
  | None :: rest => first_some rest
  end.

Section Synthesizer.
Context `{Unicode} `{PyText} `{JsonText} (uuid5 : UUID -> pystr -> UUID) (error_text : exn -> pystr).

(** ** The prompt *)

Definition synthesis_system : pystr :=
  u ("Write one concise factual claim for every fact that has accepted " ++
     "evidence, using only the evidence nested inside that fact. " ++
     "Keep each claim self-contained by preserving requested numeric " ++
     "identifiers when they also appear in its cited evidence. " ++
     "Return one JSON object with a claims array. Every claim must contain " ++
     "only claim_key, text, fact_id, and evidence_ids, using exact supplied " ++
     "IDs. Never move an evidence ID between facts. Never emit URLs, " ++
     "citation labels, support labels, or answer " ++
     "quality. Return an empty claims array when no accepted evidence " ++
     "supports a fact.").

(** [@ src/sana/modules/answer/model_synthesizer.py ConstrainedModelSynthesizer._messages@368-386] *)
Fixpoint fact_entries (coverage : Coverages) (evidence : list VerifiedEvidence) (facts : Facts) : res (list json) :=
  match facts with
  | [] => Ok []
  | (fact_id, fact) :: rest =>
      match dget fact_id coverage with
      | None => Raise (KeyError "fact_id")
      | Some a =>
          let mine := base.filter (fun e => ve_verdict e = EvidenceVerdict_ACCEPTED /\ ve_fact_requirement_id e = fact_id)
                        evidence in
          entries ← fact_entries coverage evidence rest;
          Ok (JObj [(u "fact_id", JStr (str_of_uuid fact_id)); (u "key", JStr (fr_key fact));
                    (u "description", JStr (fr_description fact));
                    (u "coverage", JStr (FactCoverage_value (ca_status a)));
                    (u "evidence_ids", JList (map (JStr ∘ str_of_uuid) (ca_evidence_ids a)));
                    (u "accepted_evidence", JList (map (fun e => JObj [(u "evidence_id", JStr (str_of_uuid (ve_id e)));
                                                                       (u "quote", JStr (quote_of e))]) mine))]
              :: entries)
      end
  end.

(** [@ src/sana/modules/answer/model_synthesizer.py ConstrainedModelSynthesizer._messages] *)
Definition synthesis_messages (facts : Facts) (coverage : Coverages) (evidence : list VerifiedEvidence)
    : res (list ModelMessage) :=
  entries ← fact_entries coverage evidence facts;
  system ← ModelMessage_new MessageRole_SYSTEM synthesis_system;
  user ← ModelMessage_new MessageRole_USER (json_dumps (JObj [(u "facts", JList entries)]));
  Ok [system; user].

(** ** Texts that need no model *)

Section Derived.
Context (fact : FactRequirement) (cited : list VerifiedEvidence).

Definition folded_request : pystr := casefold (requested_text fact).
Definition asks (marker : string) : bool := str_in (u marker) folded_request.
Definition quotes : list pystr := map quote_of cited.
Definition first_quote : pystr := default [] (head quotes).
Definition some_quote (text : string) : bool := existsb (fun q => str_in (uu text) (casefold q)) quotes.
Definition verified_by (version : string) : bool := existsb (fun e => bool_decide (ve_verifier_version e = u version)) cited.

(** [return text] under a condition *)
Definition answer_if (b : bool) (text : pystr) : option pystr := if b then Some text else None.

(** [@ src/sana/modules/answer/model_synthesizer.py ConstrainedModelSynthesizer._derived_fallback_text@427-435] *)
Definition dns_text : pystr :=
  if asks "transport" && asks "port" then u "DNS conventionally uses port 53 over both TCP and UDP."
  else if asks "dns_port" then u "DNS conventionally uses port 53."
  else if asks "dns_tcp" then u "DNS conventionally uses TCP transport."
  else if asks "dns_udp" then u "DNS conventionally uses UDP transport."
  else u "DNS conventionally uses port 53 over both TCP and UDP.".

(** [@ src/sana/modules/answer/model_synthesizer.py ConstrainedModelSynthesizer._derived_fallback_text@437-443] *)
Definition python_text : option pystr :=
  if any_in ["creator"; "created"; "创建"]%string folded_request then Some (u "Python was created by Guido van Rossum.")
  else answer_if (any_in ["first_public"; "first public"; "release_year"; "首次公开"]%string folded_request)
         (u "Python was first publicly released in 1991.").

(** [@ src/sana/modules/answer/model_synthesizer.py ConstrainedModelSynthesizer._derived_fallback_text@447-461] *)
Definition http_text : option pystr :=
  let has_201 := existsb (str_in (u "201 (Created)")) quotes in
  let has_204 := existsb (str_in (u "204 (No Content)")) quotes in
  if has_201 && has_204 then
    Some (u ("HTTP 201 Created reports creation of one or more resources; " ++
             "HTTP 204 No Content reports successful fulfillment with no " ++ "additional response content."))
  else if has_201 then Some (u "HTTP 201 Created means one or more resources were created.")
  else answer_if has_204 (u ("HTTP 204 No Content means the request succeeded with no " ++ "additional response content.")).

(** [@ src/sana/modules/answer/model_synthesizer.py ConstrainedModelSynthesizer._derived_fallback_text@463-466] *)
Definition registry_text : option pystr :=
  if asks "idempotent" then Some (u "HTTP GET is idempotent.") else answer_if (asks "safe") (u "HTTP GET is safe.").

(** [f"{name}: {quotes[0]}"] for the first name that is asked for. *)
Fixpoint named_quote (names : list string) : option pystr :=
  match names with
  | [] => None
  | name :: rest =>
      if str_in (casefold (u name)) folded_request then Some (u name ++ u ": " ++ first_quote) else named_quote rest
  end.

(** [@ src/sana/modules/answer/model_synthesizer.py ConstrainedModelSynthesizer._derived_fallback_text@468-482] *)
Definition acid_text : option pystr := named_quote ["Atomicity"; "Consistency"; "Isolation"; "Durability"]%string.

(** [@ src/sana/modules/answer/model_synthesizer.py ConstrainedModelSynthesizer._derived_fallback_text@486-490] *)
Definition sqlite_text : pystr :=
  if asks "public_domain" || (asks "public domain" && negb (asks "jurisdiction"))
  then u "SQLite is in the public domain." else u "SQLite: " ++ first_quote.

(** [@ src/sana/modules/answer/model_synthesizer.py ConstrainedModelSynthesizer._derived_fallback_text@509-543] *)
Definition git_text : option pystr :=
  let key := casefold (fr_key fact) in
  let about (marker : string) := str_in (u marker) key in
  first_some
    [answer_if (about "git_object_types"%string
                && existsb (fun q => forallb (fun term => str_in (u term) (casefold q)) ["commits"; "trees"; "blobs"; "tag objects"]%string) quotes)
       (u "Git has four object types: commit, tree, blob, and tag.");
     answer_if (about "blob_purpose"%string && (some_quote "contains a file's contents" || some_quote "contains a file’s contents"))
       (u "A Git blob object contains a file's contents.");
     answer_if (about "tree_purpose"%string && some_quote "represents a directory")
       (u ("A Git tree object represents a directory and can contain files " ++ "or subtrees."));
     answer_if (about "commit_purpose"%string && some_quote "a commit contains these required fields")
       (u ("A Git commit object records its top-level tree, parent commits, " ++ "author and committer metadata, and commit message."));
     answer_if (about "tag_purpose"%string && some_quote "tag objects contain these required fields")
       (u ("A Git tag object records the referenced object's ID and type, " ++ "tagger metadata, and a tag message."))].

(** [@ src/sana/modules/answer/model_synthesizer.py ConstrainedModelSynthesizer._derived_fallback_text@545-562] *)
Definition media_type_text : option pystr :=
  first_some (map (fun q =>
    m ← re_search re_IS q (re ("Type name:\s*([A-Za-z0-9.+-]+).*?" ++ "Subtype name:\s*([A-Za-z0-9.+-]+)"));
    Some (casefold (default [] (group q 1 m)) ++ u "/" ++ casefold (default [] (group q 2 m)))) quotes).

(** [@ src/sana/modules/answer/model_synthesizer.py ConstrainedModelSynthesizer._derived_fallback_text@563-581] *)
Definition tls_text : option pystr :=
  tls ← re_search re_I (requested_text fact) TLS_VERSION;
  if negb (asks "rfc") then None else
  let part n := default [] (group (requested_text fact) n tls) in
  rfc_number ← first_some (map (fun e => search_group re_I (url_of e) (re "/rfc/rfc(\d+)(?:[./]|$)") 1) cited);
  Some (u "TLS " ++ part 1%nat ++ u "." ++ part 2%nat ++ u " is specified by RFC " ++ rfc_number ++ u ".").

(** [@ src/sana/modules/answer/model_synthesizer.py ConstrainedModelSynthesizer._derived_fallback_text@582-589] *)
Definition sha_text : option pystr :=
  answer_if (re_found re_I (requested_text fact) (re "\bSHA-?256\b") && asks "digest"
             && existsb (fun q => re_found re_IS q (re "SHA-256.*?256-bit.*?message digests")) quotes)
    (uu "The SHA-256 digest length is 256 bits（SHA-256 的摘要长度为 256 位）。").

(** [@ src/sana/modules/answer/model_synthesizer.py ConstrainedModelSynthesizer._derived_fallback_text@590-608] *)
Definition rfc3339_text : option pystr :=
  if negb (asks "rfc 3339" && asks "example" && str_in (u "+00:00") (requested_text fact)) then None else
  let dq := [34] in
  let has_equivalence := existsb (str_in (dq ++ u "Z" ++ dq ++ u " or " ++ dq ++ u "+00:00" ++ dq)) quotes in
  let timestamp := first_some (map (fun q => search_text no_flags q RFC3339_Z_TIMESTAMP) quotes) in
  match timestamp with
  | Some t => answer_if has_equivalence (take (length t - 1) t ++ u "+00:00")
  | None => None
  end.

Definition reviewed_git : bool :=
  existsb (fun e => bool_decide (before (u "?") (before (u "#") (url_of e)) = u "https://git-scm.com/docs/gitdatamodel.html")) cited.

(** [text] when one of the quotes was verified by [version]. *)
Definition by_rule (version : string) (text : option pystr) : option pystr := if verified_by version then text else None.

(** [@ src/sana/modules/answer/model_synthesizer.py ConstrainedModelSynthesizer._derived_fallback_text] *)
Definition derived_fallback_text : option pystr :=
  first_some
    [by_rule "deterministic-dns-registry-v1" (Some dns_text);
     by_rule "deterministic-python-origin-v1" python_text;
     by_rule "deterministic-json-literals-v1" (Some (u "The three lowercase JSON literal names are true, false, and null."));
     by_rule "deterministic-http-status-v1" http_text;
     by_rule "deterministic-registry-table-v1" registry_text;
     by_rule "deterministic-acid-v1" acid_text;
     by_rule "deterministic-cap-v1" (Some first_quote);
     by_rule "deterministic-sqlite-v1" (Some sqlite_text);
     by_rule "deterministic-deepseek-pricing-v1" (Some (uu "deepseek-v4-flash — " ++ first_quote));
     by_rule "deterministic-postgresql-support-v1" (Some (u "PostgreSQL: " ++ first_quote));
     by_rule "deterministic-postgresql-isolation-v1" (Some first_quote);
     by_rule "deterministic-git-state-v1" (named_quote ["modified"; "staged"; "committed"]%string);
     (if reviewed_git && asks "git" then git_text else None);
     (if asks "media type" && asks "json" then media_type_text else None);
     tls_text;
     sha_text;
     rfc3339_text].
End Derived.

(** ** The fallback *)

(** [x or y] *)
Definition or_text (x : option pystr) (y : pystr) : pystr :=
  match x with Some [] | None => y | Some t => t end.

(** The proposal of one fact, when some evidence supports it. *)
(** [@ src/sana/modules/answer/model_synthesizer.py ConstrainedModelSynthesizer._fallback@620-646] *)
Definition fallback_claim (coverage : Coverages) (by_id accepted : list (UUID * VerifiedEvidence)) (fact_id : UUID)
    (fact : FactRequirement) : res (option ProposedClaim) :=
  match dget fact_id coverage with
  | None => Raise (KeyError "fact_id")
  | Some a =>
      let evidence_ids := base.filter (fun i => i ∈ by_id.*1) (ca_supporting_ids a) in
      let cited := omap (fun i => dget i by_id) evidence_ids in
      match cited with
      | [] => Ok None
      | first :: _ =>
          let quote := strip (map (fun c => if c =? 10 then 32 else c) (quote_of first)) in
          let quote := or_text (derived_fallback_text fact cited) quote in
          quote ← match self_contained_text accepted fact quote evidence_ids with
                  | Ok t => Ok t
                  | Raise (ValueError _) => Ok quote
                  | Raise e => Raise e
                  end;
          p ← ProposedClaim_new
            {| pc_claim_key := fr_key fact; pc_text := take 1200 quote; pc_fact_requirement_id := Some fact_id;
               pc_evidence_ids := evidence_ids; pc_kind := ClaimKind_FACTUAL |};
          Ok (Some p)
      end
  end.

Fixpoint fallback_claims (coverage : Coverages) (by_id accepted : list (UUID * VerifiedEvidence)) (facts : Facts)
    : res (list ProposedClaim) :=
  match facts with
  | [] => Ok []
  | (fact_id, fact) :: rest =>
      p ← fallback_claim coverage by_id accepted fact_id fact;
      ps ← fallback_claims coverage by_id accepted rest;
      Ok (option_list p ++ ps)
  end.

(** [@ src/sana/modules/answer/model_synthesizer.py ConstrainedModelSynthesizer._fallback] *)
Definition synthesis_fallback (facts : Facts) (coverage : Coverages) (evidence : list VerifiedEvidence)
    : res (list ProposedClaim) :=
  fallback_claims coverage (dict_by ve_id evidence) (accepted_by_id evidence) facts.

(** ** The answer *)

(** The ids of a factory seeded with the run. *)
Definition run_ids (run_id : UUID) (suffix : string) (n : Z) : UUID :=
  deterministic_id uuid5 (str_of_uuid run_id ++ u suffix) "uuid" n.

(** What both entry points do with the proposals. *)
(** [@ src/sana/modules/answer/model_synthesizer.py ConstrainedModelSynthesizer.deterministic@738-752] *)
Definition validated_answer (tenant_id run_id : UUID) (coverage : Coverages) (evidence : list VerifiedEvidence)
    (proposals : list ProposedClaim) : res ValidatedAnswer :=
  draft ← draft_answer (run_ids run_id ":answer-claims") tenant_id run_id proposals (fun f => dget f coverage);
  validate (run_ids run_id ":citations") draft (fun i => dget i (dict_by ve_id evidence))
    UnsupportedClaimPolicy_MARK_UNCONFIRMED.

(** [@ src/sana/modules/answer/model_synthesizer.py ConstrainedModelSynthesizer.deterministic] *)
Definition synthesize_deterministic (tenant_id run_id : UUID) (facts : Facts) (coverage : Coverages)
    (evidence : list VerifiedEvidence) : res ConstrainedSynthesisResult :=
  proposals ← synthesis_fallback facts coverage evidence;
  validated ← validated_answer tenant_id run_id coverage evidence proposals;
  Ok {| sr_answer := validated; sr_degraded := false; sr_degradation_code := None |}.

(** [@ src/sana/modules/answer/model_synthesizer.py ConstrainedModelSynthesizer.synthesize] *)
Definition synthesize {S} `{ParsingGateway S} (tenant_id run_id : UUID) (facts : Facts) (coverage : Coverages)
    (evidence : list VerifiedEvidence) (invocation_context : ModelInvocationContext) (deadline : datetime)
    : M S ConstrainedSynthesisResult :=
  let accepted_evidence := base.filter is_accepted evidence in
  if bool_decide (accepted_evidence = []) then lift (synthesize_deterministic tenant_id run_id facts coverage evidence)
  else if forallb (fun e => starts_with (u "deterministic-") (ve_verifier_version e)) accepted_evidence
  then lift (synthesize_deterministic tenant_id run_id facts coverage evidence)
  else
    proposed ← try_except
      (messages ← lift (synthesis_messages facts coverage evidence);
       parsed ← pg_generate ModelRole_SYNTHESIZER messages deadline (claim_parser error_text facts evidence) invocation_context;
       match parsed with
       | None => raise (TypeError "Synthesizer output did not contain parsed claims")
       | Some proposals => mret (proposals, false)
       end)
      is_model_failure
      (fun _ => proposals ← lift (synthesis_fallback facts coverage evidence); mret (proposals, true));
    let '(proposals, degraded) := proposed in
    validated ← lift (validated_answer tenant_id run_id coverage evidence proposals);
    mret {| sr_answer := validated; sr_degraded := degraded;
            sr_degradation_code := if degraded : bool then Some (u "model_synthesizer_fallback") else None |}.
End Synthesizer.
