(* ===== verification/AnswerFacts.v ===== *)
(** * AnswerFacts: every factual sentence of an answer can be traced

    The validator keeps no factual claim without a citation and no citation without accepted evidence
    of the same tenant, run and fact; together with the verifier, a citation cuts its quote out of the
    text of a stored document. Without a model the synthesis still answers every supported fact. *)

From Stdlib Require Import SpecFloat String.
From S2P Require Import Prelude Errors PyTime PyData PyStr PyUrl Regex Coverage Chunker Evidence EvidenceRules ModelGateway.
From S2P Require Import Verifier VerifierBatch Answer Claims ClaimsFacts Synthesizer.

(** The labels [[n+1]], [[n+2]], ... *)
Definition labels (n : Z) (k : nat) : list pystr := map (fun j => u "[" ++ str_of_Z (n + Z.of_nat j) ++ u "]") (seq 1 k).

Lemma labels_S n k : labels n (S k) = (u "[" ++ str_of_Z (n + 1) ++ u "]") :: labels (n + 1) k.
Proof.
  unfold labels. simpl. f_equal. rewrite <- (seq_shift k 1), map_map. apply map_ext. intros j.
  by replace (n + Z.of_nat (S j)) with (n + 1 + Z.of_nat j) by lia.
Qed.

Lemma labels_app n k l : labels n (k + l) = labels n k ++ labels (n + Z.of_nat k) l.
Proof.
  revert n. induction k as [|k IH]; intros n; [simpl; by rewrite Z.add_0_r|].
  simpl plus. rewrite !labels_S, IH. simpl app. by replace (n + Z.of_nat (S k)) with (n + 1 + Z.of_nat k) by lia.
Qed.

(** What [replace] keeps of a claim. *)
Lemma replace_claim_inv text kind support ids c c' : replace_claim text kind support ids c = Ok c' ->
  ac_id c' = ac_id c /\ ac_claim_key c' = ac_claim_key c /\ ac_fact_requirement_id c' = ac_fact_requirement_id c /\
  ac_kind c' = kind /\ ac_support c' = support /\ ac_evidence_ids c' = ids /\ ac_text c' = text.
Proof. unfold replace_claim, AnswerClaim_new. intros Hc. minv. by ksplit. Qed.

Section Validated.
Context (draft : DraftAnswer) (evidence_by_id : EvidenceById).

(** Evidence a claim may rest on. *)
Definition backs (claim : AnswerClaim) (e : VerifiedEvidence) : Prop :=
  evidence_by_id (ve_id e) = Some e /\ ve_verdict e = EvidenceVerdict_ACCEPTED /\
  ve_tenant_id e = da_tenant_id draft /\ ve_run_id e = da_run_id draft /\
  ac_fact_requirement_id claim = Some (ve_fact_requirement_id e).

(** A citation shows its evidence: the source and the span of the document version. *)
Definition shows (claim : AnswerClaim) (c : Citation) (e : VerifiedEvidence) : Prop :=
  ci_answer_claim_id c = ac_id claim /\ ci_verified_evidence_id c = ve_id e /\
  ci_tenant_id c = da_tenant_id draft /\ ci_run_id c = da_run_id draft /\
  ci_document_version_id c = es_document_version_id (ec_source (ve_candidate e)) /\
  ci_document_chunk_id c = es_document_chunk_id (ec_source (ve_candidate e)) /\
  ci_rendered_url c = es_url (ec_source (ve_candidate e)) /\ ci_quote c = ec_quote (ve_candidate e) /\
  ci_start_offset c = ec_start_offset (ve_candidate e) /\ ci_end_offset c = ec_end_offset (ve_candidate e).

(** A factual claim with the evidence it names, what follows from that evidence, and its citations. *)
Definition traced (citations : list Citation) (claim : AnswerClaim) : Prop := exists es,
  es <> [] /\ ac_evidence_ids claim = map ve_id es /\ Forall (backs claim) es /\
  ac_support claim = validated_support es /\ Forall (fun e => exists c, c ∈ citations /\ shows claim c e) es.

Definition justified (claims : list AnswerClaim) (c : Citation) : Prop := exists claim e,
  claim ∈ claims /\ ac_kind claim = ClaimKind_FACTUAL /\ backs claim e /\ shows claim c e /\
  ve_id e ∈ ac_evidence_ids claim.

Lemma valid_evidence_from_spec claim ids e :
  ac_tenant_id claim = da_tenant_id draft -> ac_run_id claim = da_run_id draft ->
  e ∈ valid_evidence_from claim evidence_by_id ids -> backs claim e /\ ve_id e ∈ ids.
Proof.
  intros Ht Hr. induction ids as [|i ids IH]; simpl; [set_solver|].
  assert (Hnext : e ∈ valid_evidence_from claim evidence_by_id ids -> backs claim e /\ ve_id e ∈ i :: ids)
    by (intros Hin; destruct (IH Hin); set_solver).
  destruct (evidence_by_id i) as [e0|] eqn:Ee; [|done].
  destruct (negb (ve_id e0 =? i)) eqn:E1; [done|]. destruct (ve_verdict e0 isnot _) eqn:E2; [done|].
  destruct (negb (ve_tenant_id e0 =? _) || _) eqn:E3; [done|]. destruct (negb (bool_decide (Some _ = _))) eqn:E4; [done|].
  bools. intros [->|Hin]%elem_of_cons; [|by apply Hnext]. unfold backs. subst i. split; [|set_solver]. ksplit; congruence.
Qed.

Context (new_uuid : Z -> UUID).

Lemma cite_spec claim ordinal label es cs : cite new_uuid draft claim ordinal label es = Ok cs ->
  Forall2 (shows claim) cs es /\ map ci_label cs = labels label (length cs).
Proof.
  revert ordinal label cs. induction es as [|e es IH]; intros ordinal label cs Hc; simpl in Hc; [by minv|].
  apply res_bind_ok_inv in Hc as (c & Hc1 & Hc). apply res_bind_ok_inv in Hc as (cs1 & Hc2 & Hc). simplify_eq.
  unfold Citation_new in Hc1. minv. apply IH in Hc2 as [Hs Hl]. split.
  - constructor; [|done]. unfold shows. by ksplit.
  - simpl. by rewrite labels_S, Hl.
Qed.

Definition is_fact (claim : AnswerClaim) : Prop := ac_kind claim = ClaimKind_FACTUAL.

(** The outcome of some claims: what was made of them, with their citations. *)
Definition outcome_ok (claims : list AnswerClaim) (citations : list Citation) (label : Z) : Prop :=
  Forall (fun claim => is_fact claim -> traced citations claim) claims /\
  Forall (justified claims) citations /\ map ci_label citations = labels label (length citations).

Lemma validate_claim_spec policy label claim cs cites notes :
  validate_claim new_uuid draft evidence_by_id policy label claim = Ok (cs, cites, notes) ->
  outcome_ok cs cites label /\ (policy <> UnsupportedClaimPolicy_DROP -> map ac_id cs = [ac_id claim]).
Proof.
  unfold validate_claim. cbv zeta. intros Hv. apply res_bind_ok_inv in Hv as ([] & Hsame%fail_if_ok_inv & Hv). bools.
  destruct (ac_kind claim isnot ClaimKind_FACTUAL) eqn:Ek.
  { simplify_eq. bools. split; [|done]. split; [|done]. constructor; [|done]. by intros ?. }
  assert (Hval : forall e, e ∈ valid_evidence claim evidence_by_id -> backs claim e)
    by (intros e He; by eapply valid_evidence_from_spec).
  destruct (valid_evidence claim evidence_by_id) as [|e0 es] eqn:Ev.
  - apply res_bind_ok_inv in Hv as ([note r] & Hr & Hv). simplify_eq. simpl in *. unfold handle_unsupported in Hr.
    destruct (policy is UnsupportedClaimPolicy_DROP) eqn:Ep; [simplify_eq; bools; by repeat split|].
    apply res_bind_ok_inv in Hr as (c & Hc & Hr). simplify_eq. apply replace_claim_inv in Hc as (Hid & _ & _ & Hk & _).
    simpl. split; [|by rewrite Hid]. split; [|done]. constructor; [|done]. unfold is_fact. by rewrite Hk.
  - apply res_bind_ok_inv in Hv as (c & Hc & Hv). apply res_bind_ok_inv in Hv as (cites0 & Hcite & Hv). simplify_eq.
    apply replace_claim_inv in Hc as (Hid & _ & Hf & Hk & Hs & Hids & _). apply cite_spec in Hcite as [Hshow Hlab].
    assert (Hne : valid_evidence claim evidence_by_id <> []) by congruence. rewrite <- Ev in *. clear Ev.
    assert (Hsh : Forall2 (shows c) cites (valid_evidence claim evidence_by_id)).
    { eapply Forall2_impl; [exact Hshow|]. unfold shows. by rewrite Hid. }
    assert (Hb : forall e, e ∈ valid_evidence claim evidence_by_id -> backs c e).
    { intros e He. destruct (Hval e He) as (? & ? & ? & ? & ?). unfold backs. rewrite Hf. by ksplit. }
    split; [|simpl; by rewrite Hid]. split; [|split; [|done]].
    + constructor; [|done]. intros _. exists (valid_evidence claim evidence_by_id). ksplit; [by apply Forall_forall|].
      apply Forall_forall. intros e He. apply list_elem_of_lookup in He as [k Hk'].
      apply (Forall2_lookup_r _ _ _ _ _ Hsh) in Hk' as (cit & Hcit & ?). exists cit. split; [by eapply list_elem_of_lookup_2|done].
    + apply Forall_forall. intros cit Hcit. apply list_elem_of_lookup in Hcit as [k Hk'].
      apply (Forall2_lookup_l _ _ _ _ _ Hsh) in Hk' as (e & He & ?). apply list_elem_of_lookup_2 in He.
      exists c, e. ksplit; [left| |by apply Hb|].
      * bools. congruence.
      * rewrite Hids. apply list_elem_of_In, in_map, list_elem_of_In, He.
Qed.

Lemma traced_mono claim cites cites' : cites ⊆ cites' -> traced cites claim -> traced cites' claim.
Proof.
  intros Hsub (es & ? & ? & ? & ? & Hall). exists es. ksplit. eapply Forall_impl; [exact Hall|].
  intros e (c & Hc & ?). exists c. split; [by apply Hsub|done].
Qed.

Lemma justified_mono c claims claims' : claims ⊆ claims' -> justified claims c -> justified claims' c.
Proof. intros Hsub (claim & e & Hin & Hrest). exists claim, e. split; [by apply Hsub|done]. Qed.

Lemma outcome_app claims1 cites1 claims2 cites2 label :
  outcome_ok claims1 cites1 label -> outcome_ok claims2 cites2 (label + len cites1) ->
  outcome_ok (claims1 ++ claims2) (cites1 ++ cites2) label.
Proof using.
  assert (Hl : forall A (l k : list A), l ⊆ l ++ k) by (intros A l k x Hx; apply elem_of_app; by left).
  assert (Hr : forall A (l k : list A), k ⊆ l ++ k) by (intros A l k x Hx; apply elem_of_app; by right).
  intros (Ht1 & Hj1 & Hl1) (Ht2 & Hj2 & Hl2). split; [|split].
  - apply Forall_app. split; (eapply Forall_impl; [eassumption|]); intros claim Hclaim Hf;
      (eapply traced_mono; [|by apply Hclaim]); auto.
  - apply Forall_app. split; (eapply Forall_impl; [eassumption|]); intros c Hc; (eapply justified_mono; [|exact Hc]); auto.
  - by rewrite map_app, Hl1, Hl2, length_app, labels_app.
Qed.

Lemma validate_from_spec policy label claims cs cites notes :
  validate_from new_uuid draft evidence_by_id policy label claims = Ok (cs, cites, notes) ->
  outcome_ok cs cites label /\ (policy <> UnsupportedClaimPolicy_DROP -> map ac_id cs = map ac_id claims).
Proof.
  revert label cs cites notes. induction claims as [|claim claims IH]; intros label cs cites notes Hv; simpl in Hv.
  { simplify_eq. split; [|done]. by split; [constructor|split; [constructor|]]. }
  apply res_bind_ok_inv in Hv as ([[cs1 cites1] notes1] & H1' & Hv). apply res_bind_ok_inv in Hv as ([[cs2 cites2] notes2] & H2' & Hv).
  simplify_eq. apply validate_claim_spec in H1' as [Ho1 Hid1]. apply IH in H2' as [Ho2 Hid2].
  split; [by apply outcome_app|]. intros Hp. simpl. rewrite map_app, Hid1, Hid2 by done. done.
Qed.

Lemma answer_traceable_facts policy answer : validate new_uuid draft evidence_by_id policy = Ok answer ->
  Forall (fun claim => is_fact claim -> traced (va_citations answer) claim) (va_claims answer) /\
  Forall (justified (va_claims answer)) (va_citations answer) /\
  map ci_label (va_citations answer) = labels 0 (length (va_citations answer)) /\
  (policy <> UnsupportedClaimPolicy_DROP -> map ac_id (va_claims answer) = map ac_id (da_claims draft)).
Proof.
  unfold validate. intros Hv. apply res_bind_ok_inv in Hv as ([[cs cites] notes] & Hv & Ha). simplify_eq.
  apply validate_from_spec in Hv as [(? & ? & ?) ?]. by ksplit.
Qed.
(** Every factual claim of a validated answer is traceable: it names evidence, each piece of it
    accepted for its tenant, run and fact and shown by a citation with the source and the span of the
    document; its support is what that evidence gives. No citation shows anything else, citations are
    numbered from one without a gap, and no claim is lost unless the policy drops it. *)
Theorem answer_traceable policy answer : validate new_uuid draft evidence_by_id policy = Ok answer ->
  Forall (fun claim => is_fact claim -> traced (va_citations answer) claim) (va_claims answer) /\
  Forall (justified (va_claims answer)) (va_citations answer) /\
  map ci_label (va_citations answer) = labels 0 (length (va_citations answer)) /\
  (policy <> UnsupportedClaimPolicy_DROP -> map ac_id (va_claims answer) = map ac_id (da_claims draft)).
Proof. apply answer_traceable_facts. Qed.
End Validated.

(** ** Answers without a model

    What the fallback makes of the facts: one claim for every fact that some evidence of the batch supports. *)

(** A fact that evidence of the batch supports. *)
Definition supported (coverage : Coverages) (evidence : list VerifiedEvidence) (kv : UUID * FactRequirement) : bool :=
  match dget kv.1 coverage with
  | Some a => existsb (fun i => bool_decide (i ∈ map ve_id evidence)) (ca_supporting_ids a)
  | None => false
  end.

Definition supported_facts (coverage : Coverages) (evidence : list VerifiedEvidence) (facts : list (UUID * FactRequirement))
    : list (UUID * FactRequirement) := base.filter (fun kv => supported coverage evidence kv = true) facts.

(** Evidence that the claim of a fact may name: it supports the fact, and was accepted for this run and this fact. *)
Definition admitted (tenant_id run_id : UUID) (coverage : Coverages) (evidence : list VerifiedEvidence) (fact_id i : UUID) : Prop :=
  exists a e, dget fact_id coverage = Some a /\ i ∈ ca_supporting_ids a /\ i ∈ ca_evidence_ids a /\
    dget i (dict_by ve_id evidence) = Some e /\ ve_verdict e = EvidenceVerdict_ACCEPTED /\
    ve_tenant_id e = tenant_id /\ ve_run_id e = run_id /\ ve_fact_requirement_id e = fact_id.

(** The claim of a fact: it names exactly that evidence; without any, it is marked as unconfirmed. *)
Definition claim_of_fact (tenant_id run_id : UUID) (coverage : Coverages) (evidence : list VerifiedEvidence)
    (kv : UUID * FactRequirement) (c : AnswerClaim) : Prop :=
  ac_claim_key c = fr_key kv.2 /\ ac_fact_requirement_id c = Some kv.1 /\
  (forall i, i ∈ ac_evidence_ids c <-> admitted tenant_id run_id coverage evidence kv.1 i) /\
  ac_kind c = if bool_decide (ac_evidence_ids c = []) then ClaimKind_UNCERTAINTY else ClaimKind_FACTUAL.

Section Fallback.
Context `{Unicode} (tenant_id run_id : UUID) (coverage : Coverages) (evidence : list VerifiedEvidence).

Lemma dict_by_is_Some i : is_Some (dget i (dict_by ve_id evidence)) <-> i ∈ map ve_id evidence.
Proof using.
  clear H. split.
  - intros [e [Hin <-]%dict_by_Some]. by apply list_elem_of_In, in_map, list_elem_of_In.
  - intros (e & <- & Hin)%list_elem_of_In%in_map_iff. by apply dict_by_total, list_elem_of_In.
Qed.

Lemma cited_nonempty ids :
  omap (fun i => dget i (dict_by ve_id evidence)) (base.filter (fun i => i ∈ (dict_by ve_id evidence).*1) ids) <> [] <->
  existsb (fun i => bool_decide (i ∈ map ve_id evidence)) ids = true.
Proof using.
  clear H. induction ids as [|i ids IH]; simpl; [done|]. rewrite filter_cons, orb_true_iff, bool_decide_eq_true, <- IH.
  pose proof (dict_by_is_Some i) as Hi. destruct (decide (i ∈ (dict_by ve_id evidence).*1)) as [He|Hn]; rewrite <- dget_is_Some in *.
  - destruct (He) as [e Hd]. simpl. rewrite Hd. split; [intros _; left; by apply Hi|done].
  - split; [by right|intros [?%Hi|?]; done].
Qed.

(** What the fallback proposes for a fact. *)
Definition proposal_of_fact (kv : UUID * FactRequirement) (p : ProposedClaim) : Prop := exists a,
  dget kv.1 coverage = Some a /\ pc_claim_key p = fr_key kv.2 /\ pc_fact_requirement_id p = Some kv.1 /\
  pc_kind p = ClaimKind_FACTUAL /\
  forall i, i ∈ pc_evidence_ids p <-> i ∈ ca_supporting_ids a /\ is_Some (dget i (dict_by ve_id evidence)).

Lemma fallback_claim_spec accepted fact_id fact o :
  fallback_claim coverage (dict_by ve_id evidence) accepted fact_id fact = Ok o ->
  supported coverage evidence (fact_id, fact) = negb (is_none o) /\
  forall p, o = Some p -> proposal_of_fact (fact_id, fact) p.
Proof.
  unfold fallback_claim, supported, proposal_of_fact. simpl. destruct (dget fact_id coverage) as [a|]; [|done]. cbv zeta.
  pose proof (cited_nonempty (ca_supporting_ids a)) as Hne. intros Hf.
  destruct (omap _ _) as [|e es]; [simplify_eq; split; [|done]; apply not_true_iff_false; naive_solver|].
  apply res_bind_ok_inv in Hf as (quote & _ & Hf). unfold ProposedClaim_new in Hf. minv. split; [by apply Hne|].
  intros p [= <-]. exists a. simpl. ksplit. intros i. rewrite list_elem_of_filter, dget_is_Some. naive_solver.
Qed.

Lemma synthesis_fallback_spec facts ps : synthesis_fallback facts coverage evidence = Ok ps ->
  Forall2 proposal_of_fact (supported_facts coverage evidence facts) ps.
Proof.
  unfold synthesis_fallback. revert ps. induction facts as [|[f r] facts IH]; intros ps Hp; simpl in Hp; [by minv|].
  apply res_bind_ok_inv in Hp as (o & Ho & Hp). apply res_bind_ok_inv in Hp as (ps' & Hps & Hp). simplify_eq.
  apply fallback_claim_spec in Ho as [Hs Ho]. apply IH in Hps.
  unfold supported_facts in *. rewrite filter_cons, Hs.
  destruct o as [p|]; simpl; [constructor; [by apply Ho|done]|done].
Qed.

(** What is drafted of a proposal. *)
Definition drafted (p : ProposedClaim) (c : AnswerClaim) : Prop :=
  ac_claim_key c = pc_claim_key p /\ ac_fact_requirement_id c = pc_fact_requirement_id p /\ ac_kind c = pc_kind p /\
  forall i, i ∈ ac_evidence_ids c <-> i ∈ pc_evidence_ids p /\
    exists f a, pc_fact_requirement_id p = Some f /\ dget f coverage = Some a /\ i ∈ ca_evidence_ids a.

Lemma claims_of_drafted new_uuid seen n ps cs :
  claims_of new_uuid tenant_id run_id (fun f => dget f coverage) seen n ps = Ok cs -> Forall2 drafted ps cs.
Proof using.
  clear H. revert seen n cs. induction ps as [|p ps IH]; intros seen n cs Hc; simpl in Hc; [by minv|].
  apply res_bind_ok_inv in Hc as ([] & _ & Hc). apply res_bind_ok_inv in Hc as ([] & _ & Hc).
  apply res_bind_ok_inv in Hc as (c & Hc1 & Hc). apply res_bind_ok_inv in Hc as (cs1 & Hc2 & Hc). simplify_eq.
  constructor; [|by eapply IH]. unfold AnswerClaim_new in Hc1. minv. unfold drafted. simpl. ksplit.
  intros i. rewrite list_elem_of_filter, elem_of_dedupe. destruct (pc_fact_requirement_id p) as [f|]; simpl; [|set_solver].
  destruct (dget f coverage) as [a|] eqn:Ea; [|set_solver]. split; [intros [? ?]; ksplit; by exists f, a|].
  intros [? (f' & a' & [= <-] & ? & ?)]. by simplify_eq.
Qed.

(** Evidence that the validator keeps. *)
Lemma valid_evidence_ids claim evidence_by_id i : i ∈ map ve_id (valid_evidence claim evidence_by_id) <->
  i ∈ ac_evidence_ids claim /\ exists e, evidence_by_id i = Some e /\ ve_id e = i /\ ve_verdict e = EvidenceVerdict_ACCEPTED /\
    ve_tenant_id e = ac_tenant_id claim /\ ve_run_id e = ac_run_id claim /\
    ac_fact_requirement_id claim = Some (ve_fact_requirement_id e).
Proof using.
  clear H. unfold valid_evidence. rewrite <- (elem_of_dedupe (ac_evidence_ids claim) i).
  match goal with |- _ <-> _ /\ ?Q => set (kept := Q) end.
  induction (dedupe (ac_evidence_ids claim)) as [|j ids IH]; simpl; [set_solver|]. rewrite elem_of_cons.
  destruct (evidence_by_id j) as [e|] eqn:Ee.
  2:{ rewrite IH. split; [tauto|]. intros [[->|?] Hk]; [|done]. destruct Hk as (? & ? & _). congruence. }
  assert (Hskip : ~ (i = j /\ kept) -> i ∈ map ve_id (valid_evidence_from claim evidence_by_id ids) <-> (i = j \/ i ∈ ids) /\ kept)
    by (rewrite IH; tauto).
  destruct (negb (ve_id e =? j)) eqn:E1; [bools; apply Hskip; intros (-> & e' & ? & ? & _); congruence|].
  destruct (ve_verdict e isnot EvidenceVerdict_ACCEPTED) eqn:E2; [bools; apply Hskip; intros (-> & e' & ? & ? & ? & _); congruence|].
  destruct (negb (ve_tenant_id e =? _) || _) eqn:E3.
  { apply Hskip. intros (-> & e' & ? & ? & ? & ? & ? & _). simplify_eq. apply orb_true_iff in E3 as [|]; bools; congruence. }
  destruct (negb (bool_decide (Some _ = _))) eqn:E4; [bools; apply Hskip; intros (-> & e' & ? & ? & ? & ? & ? & ?); congruence|].
  bools. simpl. rewrite elem_of_cons, IH. split; [|intros [[->|?] ?]; [by left|by right]].
  intros [->|[? ?]]; [|tauto]. subst j. split; [by left|]. exists e. by ksplit.
Qed.

Lemma validate_claim_marks new_uuid draft evidence_by_id label claim cs cites notes : ac_kind claim = ClaimKind_FACTUAL ->
  validate_claim new_uuid draft evidence_by_id UnsupportedClaimPolicy_MARK_UNCONFIRMED label claim = Ok (cs, cites, notes) ->
  exists c, cs = [c] /\ ac_claim_key c = ac_claim_key claim /\ ac_fact_requirement_id c = ac_fact_requirement_id claim /\
    ac_evidence_ids c = map ve_id (valid_evidence claim evidence_by_id) /\
    ac_kind c = if bool_decide (ac_evidence_ids c = []) then ClaimKind_UNCERTAINTY else ClaimKind_FACTUAL.
Proof using.
  clear H. unfold validate_claim. cbv zeta. intros Hk Hv. apply res_bind_ok_inv in Hv as ([] & _ & Hv). rewrite Hk in Hv. simpl in Hv.
  destruct (valid_evidence claim evidence_by_id) as [|e es].
  - apply res_bind_ok_inv in Hv as ([note r] & Hr & Hv). simplify_eq. unfold handle_unsupported in Hr. simpl in Hr.
    apply res_bind_ok_inv in Hr as (c & Hc & Hr). simplify_eq. apply replace_claim_inv in Hc as (_ & ? & ? & Hk' & _ & He & _).
    exists c. rewrite Hk', He. by ksplit.
  - apply res_bind_ok_inv in Hv as (c & Hc & Hv). apply res_bind_ok_inv in Hv as (cites0 & _ & Hv). simplify_eq.
    apply replace_claim_inv in Hc as (_ & ? & ? & Hk' & _ & He & _).
    exists c. rewrite Hk', He. by ksplit.
Qed.

Lemma validate_claim_same new_uuid draft evidence_by_id policy label claim r :
  validate_claim new_uuid draft evidence_by_id policy label claim = Ok r ->
  ac_tenant_id claim = da_tenant_id draft /\ ac_run_id claim = da_run_id draft.
Proof using.
  clear H. unfold validate_claim. intros Hv. apply res_bind_ok_inv in Hv as ([] & Hsame%fail_if_ok_inv & _). bools. by split.
Qed.

Lemma validated_fact new_uuid draft label kv p claim cs cites notes :
  da_tenant_id draft = tenant_id -> da_run_id draft = run_id -> proposal_of_fact kv p -> drafted p claim ->
  validate_claim new_uuid draft (fun i => dget i (dict_by ve_id evidence)) UnsupportedClaimPolicy_MARK_UNCONFIRMED label claim
    = Ok (cs, cites, notes) -> exists c, cs = [c] /\ claim_of_fact tenant_id run_id coverage evidence kv c.
Proof using.
  clear H. intros Ht Hr (a & Ha & Hpk & Hpf & Hpq & Hpe) (Hdk & Hdf & Hdq & Hde) Hv.
  pose proof (validate_claim_same _ _ _ _ _ _ _ Hv) as [Hct Hcr].
  apply validate_claim_marks in Hv as (c & -> & Hk & Hf & He & Hq); [|congruence]. exists c. split; [done|].
  unfold claim_of_fact. ksplit; try congruence. intros i. rewrite He, valid_evidence_ids, Hde, Hpe, Hpf. unfold admitted. split.
  - intros [[[Hs _] (f & a' & [= <-] & Ha' & Hin)] (e & Hg & _ & ? & ? & ? & Hfe)]. simplify_eq. eexists _, e. ksplit; congruence.
  - intros (a' & e & Ha' & Hs & Hin & Hg & Hacc & Het & Her & Hef). simplify_eq. apply dict_by_Some in Hg as Hid. split; [split|].
    + split; [done|by eexists].
    + by exists kv.1, a.
    + exists e. destruct Hid. ksplit; congruence.
Qed.

Lemma validated_facts new_uuid draft label kvs ps claims cs cites notes :
  da_tenant_id draft = tenant_id -> da_run_id draft = run_id -> Forall2 proposal_of_fact kvs ps -> Forall2 drafted ps claims ->
  validate_from new_uuid draft (fun i => dget i (dict_by ve_id evidence)) UnsupportedClaimPolicy_MARK_UNCONFIRMED label claims
    = Ok (cs, cites, notes) -> Forall2 (claim_of_fact tenant_id run_id coverage evidence) kvs cs.
Proof using.
  clear H. intros Ht Hr Hp. revert label claims cs cites notes.
  induction Hp as [|kv p kvs ps Hkp _ IH]; intros label claims cs cites notes Hd Hv.
  { apply Forall2_nil_inv_l in Hd as ->. simpl in Hv. by minv. }
  apply Forall2_cons_inv_l in Hd as (claim & claims' & Hdp & Hd & ->). simpl in Hv.
  apply res_bind_ok_inv in Hv as ([[cs1 cites1] notes1] & Hv1 & Hv). apply res_bind_ok_inv in Hv as ([[cs2 cites2] notes2] & Hv2 & Hv).
  injection Hv as <- _ _. eapply validated_fact in Hv1 as (c & -> & Hc); [|done..]. simpl. constructor; [done|]. by eapply IH.
Qed.
End Fallback.

(** ** The synthesis *)

Section Synthesized.
Context `{Unicode} `{PyText} `{JsonText} (uuid5 : UUID -> pystr -> UUID) (error_text : exn -> pystr)
  {S : Type} {gateway : ParsingGateway S}.

(** Whatever the way, the answer is what the validator makes of some proposals. *)
Lemma synthesize_validated tenant_id run_id facts coverage evidence x deadline s s' r :
  synthesize uuid5 error_text tenant_id run_id facts coverage evidence x deadline s = (s', Ok r) ->
  exists proposals, validated_answer uuid5 tenant_id run_id coverage evidence proposals = Ok (sr_answer r).
Proof.
  unfold synthesize, synthesize_deterministic. cbv zeta. intros Hs.
  case_bool_decide; [minv; eauto|]. destruct (forallb _ _); [minv; eauto|].
  apply bind_ok_inv in Hs as (s1 & [proposals degraded] & _ & Hs). minv. eauto.
Qed.

Lemma draft_answer_inv new_uuid tenant_id run_id proposals coverage d :
  draft_answer new_uuid tenant_id run_id proposals coverage = Ok d -> da_tenant_id d = tenant_id /\ da_run_id d = run_id.
Proof. unfold draft_answer. intros Hd. by minv. Qed.

(** An answer without a model states the supported facts, one claim each and in their order. *)
Lemma deterministic_facts tenant_id run_id facts coverage evidence r :
  synthesize_deterministic uuid5 tenant_id run_id facts coverage evidence = Ok r ->
  Forall2 (claim_of_fact tenant_id run_id coverage evidence)
    (supported_facts coverage evidence facts) (va_claims (sr_answer r)).
Proof.
  unfold synthesize_deterministic. intros Hs. apply res_bind_ok_inv in Hs as (ps & Hps & Hs).
  apply res_bind_ok_inv in Hs as (v & Hv & Hs). simplify_eq. simpl. unfold validated_answer in Hv.
  apply res_bind_ok_inv in Hv as (d & Hd & Hv). unfold draft_answer in Hd. apply res_bind_ok_inv in Hd as (claims & Hc & Hd).
  simplify_eq. unfold validate in Hv. apply res_bind_ok_inv in Hv as ([[cs cites] notes] & Hv & Ha). simplify_eq. simpl in *.
  eapply validated_facts; [| | |by eapply claims_of_drafted|exact Hv]; [done..|]. by apply synthesis_fallback_spec.
Qed.

(** A synthesis asks the model when some evidence was accepted, and not all of it by rules. *)
Definition asks_model (evidence : list VerifiedEvidence) : Prop :=
  exists e, e ∈ evidence /\ is_accepted e = true /\ starts_with (u "deterministic-") (ve_verifier_version e) = false.

Lemma asks_model_iff evidence : asks_model evidence <->
  base.filter is_accepted evidence <> [] /\
  forallb (fun e => starts_with (u "deterministic-") (ve_verifier_version e)) (base.filter is_accepted evidence) = false.
Proof using.
  unfold asks_model. rewrite <- not_true_iff_false, forallb_forall. split.
  - intros (e & Hin & Ha & Hv). assert (e ∈ base.filter is_accepted evidence) as Hf by (apply list_elem_of_filter; by rewrite Ha).
    split; [by intros E; rewrite E in Hf; set_solver|]. intros Hall. specialize (Hall e). rewrite Hv in Hall.
    discriminate Hall. by apply list_elem_of_In.
  - intros [_ Hn]. destruct (Forall_Exists_dec _ _ (fun e => decide (starts_with (u "deterministic-") (ve_verifier_version e) = true))
      (base.filter is_accepted evidence)) as [Hall|Hex].
    + destruct Hn. intros e He%list_elem_of_In. by apply (proj1 (Forall_forall _ _) Hall).
    + apply Exists_exists in Hex as (e & [Ha Hin]%list_elem_of_filter & Hv). exists e. ksplit; [by destruct (is_accepted e)|].
      by apply not_true_iff_false.
Qed.

(** What a synthesis does when it asks the model, by the outcome of the call. *)
Lemma synthesize_asks tenant_id run_id facts coverage evidence x deadline s messages s' answer : asks_model evidence ->
  synthesis_messages facts coverage evidence = Ok messages ->
  pg_generate ModelRole_SYNTHESIZER messages deadline (claim_parser error_text facts evidence) x s = (s', answer) ->
  synthesize uuid5 error_text tenant_id run_id facts coverage evidence x deadline s =
    match answer with
    | Ok (Some ps) => (s', (fun v => {| sr_answer := v; sr_degraded := false; sr_degradation_code := None |})
                             <$> validated_answer uuid5 tenant_id run_id coverage evidence ps)
    | Ok None => (s', (fun r => {| sr_answer := sr_answer r; sr_degraded := true;
                                   sr_degradation_code := Some (u "model_synthesizer_fallback") |})
                        <$> synthesize_deterministic uuid5 tenant_id run_id facts coverage evidence)
    | Raise e => if is_model_failure e
                 then (s', (fun r => {| sr_answer := sr_answer r; sr_degraded := true;
                                        sr_degradation_code := Some (u "model_synthesizer_fallback") |})
                             <$> synthesize_deterministic uuid5 tenant_id run_id facts coverage evidence)
                 else (s', Raise e)
    end.
Proof.
  intros [Hne Hdet]%asks_model_iff Hm Hg. unfold synthesize, synthesize_deterministic. cbv zeta.
  rewrite (bool_decide_eq_false_2 _ Hne), Hdet. unfold try_except. rewrite Hm. unfold mbind at 1, M_bind at 1.
  unfold mbind at 1, M_bind at 1. unfold lift at 1. unfold mbind at 1, M_bind at 1. rewrite Hg.
  destruct answer as [[ps|]|e]; simpl; [|destruct (synthesis_fallback _ _ _); [|done]; simpl|].
  - unfold mret, M_ret, mbind, M_bind, lift. by destruct (validated_answer _ _ _ _ _ ps).
  - unfold mret, M_ret, mbind, M_bind, lift. simpl. by destruct (validated_answer _ _ _ _ _ _).
  - destruct (is_model_failure e); [|done]. unfold mret, M_ret, mbind, M_bind, lift.
    destruct (synthesis_fallback _ _ _); [|done]. simpl. by destruct (validated_answer _ _ _ _ _ _).
Qed.

(** The call of the model in a synthesis fails; its prompt may fail before. *)
Definition synthesis_fails (facts : Facts) (coverage : Coverages) (evidence : list VerifiedEvidence)
    (x : ModelInvocationContext) (deadline : datetime) (s : S) : Prop :=
  match synthesis_messages facts coverage evidence with
  | Ok messages =>
      call_failed (pg_generate ModelRole_SYNTHESIZER messages deadline (claim_parser error_text facts evidence) x s).2
  | Raise e => model_error e
  end.

(** A synthesis is degraded exactly when it asked the model and that failed. *)
Lemma synthesize_degraded tenant_id run_id facts coverage evidence x deadline s s' r :
  synthesize uuid5 error_text tenant_id run_id facts coverage evidence x deadline s = (s', Ok r) ->
  sr_degraded r = true <-> asks_model evidence /\ synthesis_fails facts coverage evidence x deadline s.
Proof.
  rewrite asks_model_iff. intros Hs. destruct (decide (base.filter is_accepted evidence = [])) as [Hnil|Hne].
  { unfold synthesize, synthesize_deterministic in Hs. cbv zeta in Hs. rewrite bool_decide_eq_true_2 in Hs by done. minv.
    split; [done|]. by intros [[? _] _]. }
  destruct (forallb (fun e => starts_with (u "deterministic-") (ve_verifier_version e)) (base.filter is_accepted evidence)) eqn:Hdet.
  { unfold synthesize, synthesize_deterministic in Hs. cbv zeta in Hs. rewrite bool_decide_eq_false_2, Hdet in Hs by done. minv.
    split; [done|]. by intros [[_ ?] _]. }
  unfold synthesis_fails. destruct (synthesis_messages facts coverage evidence) as [messages|e] eqn:Hm.
  - destruct (pg_generate ModelRole_SYNTHESIZER messages deadline (claim_parser error_text facts evidence) x s) as [s1 answer] eqn:Hg.
    rewrite (synthesize_asks _ _ _ _ _ _ _ _ _ _ _ (proj2 (asks_model_iff _) (conj Hne Hdet)) Hm Hg) in Hs. simpl.
    destruct answer as [[ps|]|e]; simpl.
    + destruct (validated_answer _ _ _ _ _ ps); [|done]. simpl in Hs. injection Hs as _ <-. simpl. split; [done|by intros [_ []]].
    + destruct (synthesize_deterministic _ _ _ _ _ _); [|done]. simpl in Hs. by injection Hs as _ <-.
    + destruct (is_model_failure e) eqn:Ef; [|done]. apply is_model_failure_spec in Ef.
      destruct (synthesize_deterministic _ _ _ _ _ _); [|done]. simpl in Hs. by injection Hs as _ <-.
  - unfold synthesize in Hs. cbv zeta in Hs. rewrite bool_decide_eq_false_2, Hdet in Hs by done. unfold try_except in Hs.
    rewrite Hm in Hs. unfold mbind, M_bind, lift in Hs. destruct (is_model_failure e) eqn:Ef; [|done].
    apply is_model_failure_spec in Ef. destruct (synthesis_fallback _ _ _); [|done]. simpl in Hs.
    destruct (validated_answer _ _ _ _ _ _); [|done]. simpl in Hs. by injection Hs as _ <-.
Qed.

(** Claim C5. A failing model costs the answer its prose and nothing else. When the synthesis asks the
    model (some evidence was accepted, and not all of it by rules) and the call fails, with a typed,
    value, type or key error or without a parsed answer, the outcome is that of the synthesis that needs
    no model, and says that it is degraded and why: one claim for every fact that evidence of the batch
    supports, in the order of the facts, each naming exactly the evidence that supports it and was
    accepted for this run and this fact, and a factual statement exactly if there is some. If the call
    raises anything else, that goes to the caller; if it returns claims, the answer is not degraded. *)
Theorem failed_model_answers_from_evidence tenant_id run_id facts coverage evidence x deadline s messages s' answer :
  asks_model evidence -> synthesis_messages facts coverage evidence = Ok messages ->
  pg_generate ModelRole_SYNTHESIZER messages deadline (claim_parser error_text facts evidence) x s = (s', answer) ->
  let outcome := synthesize uuid5 error_text tenant_id run_id facts coverage evidence x deadline s in
  (call_failed answer -> match synthesize_deterministic uuid5 tenant_id run_id facts coverage evidence with
     | Ok d => exists r, outcome = (s', Ok r) /\ sr_answer r = sr_answer d /\
         sr_degraded r = true /\ sr_degradation_code r = Some (u "model_synthesizer_fallback") /\
         Forall2 (claim_of_fact tenant_id run_id coverage evidence)
           (supported_facts coverage evidence facts) (va_claims (sr_answer r))
     | Raise e => outcome = (s', Raise e)
     end) /\
  (forall e, answer = Raise e -> ~ model_error e -> outcome = (s', Raise e)) /\
  (forall ps r, answer = Ok (Some ps) -> snd outcome = Ok r -> sr_degraded r = false).
Proof.
  intros Hask Hm Hg outcome. subst outcome. rewrite (synthesize_asks _ _ _ _ _ _ _ _ _ _ _ Hask Hm Hg).
  pose proof (deterministic_facts tenant_id run_id facts coverage evidence) as Hfacts. split; [|split].
  - destruct answer as [[ps|]|e]; [done|intros _|intros ->%is_model_failure_spec];
      (destruct (synthesize_deterministic _ _ _ _ _ _) as [d|]; [|reflexivity]; eexists; split; [reflexivity|]; simpl; ksplit; by apply Hfacts).
  - intros e -> Hn. by apply is_model_failure_false in Hn as ->.
  - intros ps r ->. simpl. destruct (validated_answer _ _ _ _ _ ps); [|done]. by intros [= <-].
Qed.
End Synthesized.

(** ** From the documents to the answer *)

Section Whole.
Context `{Unicode} `{IpLiterals} `{PyText} `{JsonText} (sha256_utf8 : pystr -> pystr) (uuid5 : UUID -> pystr -> UUID)
  (error_text : exn -> pystr) {S : Type} {gateway : ParsingGateway S}.

(** A citation is cut out of the document of a candidate. *)
Definition cut_from (candidates : list SelectedCandidate) (c : Citation) : Prop := exists k,
  k ∈ candidates /\ ci_document_version_id c = dv_id (sc_version k) /\ ci_document_chunk_id c = sc_chunk_id k /\
  ci_rendered_url c = sc_url k /\ ci_tenant_id c = dv_tenant_id (sc_version k) /\
  0 <= ci_start_offset c < ci_end_offset c /\
  substrZ (ci_start_offset c) (ci_end_offset c) (dv_text (sc_version k)) = ci_quote c.

(** What an answer quotes is in the documents: when the evidence a batch of candidates was
    verified into is synthesized into an answer, with or without a model in either place, every citation
    is a span of the text of the document version it names, at the URL it shows. *)
Theorem answer_quotes_documents candidates x deadline deadline' verified_at tenant_id facts coverage s s1 s2 s3 batch r :
  NoDup (map sc_id candidates) ->
  verify sha256_utf8 uuid5 error_text candidates x deadline verified_at s = (s1, Ok batch) ->
  synthesize uuid5 error_text tenant_id (mx_run_id x) facts coverage (vb_evidence batch) x deadline' s2 = (s3, Ok r) ->
  Forall (cut_from candidates) (va_citations (sr_answer r)).
Proof.
  intros Hnd Hv Hs. apply (verified_batch_audited _ _ _ (mx_run_id x)) in Hv; [|done|done].
  apply synthesize_validated in Hs as [proposals Hs]. unfold validated_answer in Hs.
  apply res_bind_ok_inv in Hs as (d & Hd & Hs). apply answer_traceable_facts in Hs as (_ & Hj & _ & _).
  eapply Forall_impl; [exact Hj|]. intros c (claim & e & _ & _ & (Hget & _ & Het & _) & Hshow & _).
  apply dict_by_Some in Hget as [Hin _]. apply list_elem_of_lookup in Hin as [i Hi].
  apply (Forall2_lookup_r _ _ _ _ _ Hv) in Hi as (k & Hk & Hk').
  assert (Hg : grounded sha256_utf8 (mx_run_id x) k e) by (by destruct Hk' as [[? _]|[? _]]).
  destruct Hshow as (_ & _ & Ht & _ & Hver & Hch & Hurl & Hq & Hst & Hen). destruct Hg. exists k.
  ksplit; try congruence || lia. by eapply list_elem_of_lookup_2.
Qed.
End Whole.

(** ** Examples *)

Definition ex_batch : list VerifiedEvidence :=
  match snd (ex_verify ex_verdicts) with Ok b => vb_evidence b | Raise _ => [] end.
Definition ex_ids_of (fact : UUID) : list UUID :=
  map ve_id (base.filter (fun e => ve_fact_requirement_id e = fact) ex_batch).

Definition ex_coverage_of (fact : UUID) : UUID * CoverageAssessment :=
  (fact, {| ca_tenant_id := 2; ca_run_id := 9; ca_fact_requirement_id := fact; ca_fact_key := u "k";
            ca_status := FactCoverage_COVERED; ca_level := Some EvidenceLevel_L1_GROUNDED; ca_evidence_ids := ex_ids_of fact;
            ca_supporting_ids := ex_ids_of fact; ca_contradicting_ids := []; ca_reason_codes := []; ca_discovery_count := 0;
            ca_requires_research_upgrade := false |}).
Definition ex_coverages : Coverages := [ex_coverage_of 101; ex_coverage_of 102].
Definition ex_facts : Facts := [(101, sc_fact ex_git); (102, sc_fact ex_capital)].

Definition ex_claim (key text : string) (fact : UUID) : json :=
  JObj [(u "claim_key", JStr (u key)); (u "text", JStr (u text)); (u "fact_id", JInt fact);
        (u "evidence_ids", JList (map JInt (ex_ids_of fact)))].
Definition ex_claims : json := JObj [(u "claims", JList
  [ex_claim "capital" "The capital of France is Paris." 102; ex_claim "git" "A modified file is not committed yet." 101])].

Definition ex_synthesize (answer : JsonText) : unit * res ConstrainedSynthesisResult :=
  @synthesize ex_unicode ex_ids answer ex_uuid5 (fun _ => u "error") unit (scripted_gateway []) 2 9 ex_facts ex_coverages
    ex_batch ex_context (utc 5) tt.

(** Both claims are cited, in their order; an answer that is no JSON gives each fact its quote. *)
Example answer_example :
  (fun r => (map (fun c => (ac_text c, ac_support c)) (va_claims (sr_answer r)),
             map (fun c => (ci_label c, ci_quote c)) (va_citations (sr_answer r)), sr_degraded r)) <$> snd (ex_synthesize (ex_json ex_claims))
  = Ok ([(u "The capital of France is Paris.", ClaimSupport_VERIFIED); (u "A modified file is not committed yet.", ClaimSupport_VERIFIED)],
        [(u "[1]", u "Paris is the capital of France");
         (u "[2]", u ("Modified means that you have changed the file but have not committed it to your " ++ "database yet."))], false)
  /\ (fun r => (map ac_text (va_claims (sr_answer r)), sr_degraded r)) <$> snd (ex_synthesize ex_no_json)
  = Ok ([u ("modified: Modified means that you have changed the file but have not committed it to your " ++ "database yet.");
         u "Paris is the capital of France"], true).
Proof. by vm_compute. Qed.

Lemma parsed_claims_keep_facts_witness : exists ps,
  @ProposedClaimParser_parse ex_unicode ex_ids (ex_json ex_claims) ex_facts ex_batch [] = Ok ps /\
  length ps = 2%nat /\ Forall (@claim_ok ex_unicode ex_facts ex_batch) ps.
Proof.
  assert (Hnd : NoDup (map ve_id ex_batch)) by (apply (bool_decide_unpack _); vm_compute; done).
  assert (Hp : exists ps, @ProposedClaimParser_parse ex_unicode ex_ids (ex_json ex_claims) ex_facts ex_batch [] = Ok ps /\ length ps = 2%nat)
    by (eexists; split; vm_compute; reflexivity).
  destruct Hp as (ps & Hp & Hl). exists ps. split; [exact Hp|]. split; [exact Hl|].
  exact (proj1 (parsed_claims_keep_facts _ _ _ _ Hnd Hp)).
Defined.

Lemma failed_model_answers_from_evidence_witness : exists r, ex_synthesize ex_no_json = (tt, Ok r) /\
  sr_degraded r = true /\ map ac_claim_key (va_claims (sr_answer r)) = [u "git_modified"; u "capital"] /\
  Forall2 (claim_of_fact 2 9 ex_coverages ex_batch) ex_facts (va_claims (sr_answer r)).
Proof.
  assert (Hm : exists m, @synthesis_messages ex_no_json ex_facts ex_coverages ex_batch = Ok m) by (eexists; vm_compute; reflexivity).
  assert (Hask : asks_model ex_batch).
  { apply asks_model_iff. split; vm_compute; done. }
  assert (Hd : exists d, @synthesize_deterministic ex_unicode ex_uuid5 2 9 ex_facts ex_coverages ex_batch = Ok d /\
    map ac_claim_key (va_claims (sr_answer d)) = [u "git_modified"; u "capital"]) by (eexists; split; vm_compute; reflexivity).
  destruct Hm as [m Hm], Hd as (d & Hd & Hk).
  destruct (@failed_model_answers_from_evidence ex_unicode ex_ids ex_no_json ex_uuid5 (fun _ => u "error") unit (scripted_gateway [])
    2 9 ex_facts ex_coverages ex_batch ex_context (utc 5) tt m tt (Raise (ValueError "Expecting value")) Hask Hm eq_refl) as (Hf & _ & _).
  rewrite Hd in Hf. destruct Hf as (r & Hr & Ha & Hdeg & _ & Hall); [right; exists "Expecting value"%string; left; reflexivity|].
  exists r. split; [exact Hr|]. split; [exact Hdeg|]. split; [rewrite Ha; exact Hk|]. exact Hall.
Defined.

(** One JSON text that both parsers read. *)
Definition ex_both : json :=
  match ex_verdicts, ex_claims with JObj d, JObj d' => JObj (d ++ d') | _, _ => JNull end.

Lemma answer_quotes_documents_witness : exists batch r, ex_verify ex_both = (tt, Ok batch) /\
  ex_synthesize (ex_json ex_both) = (tt, Ok r) /\ length (va_citations (sr_answer r)) = 2%nat /\
  Forall (cut_from ex_candidates) (va_citations (sr_answer r)).
Proof.
  assert (Hnd : NoDup (map sc_id ex_candidates)) by (apply (bool_decide_unpack _); vm_compute; done).
  assert (Hv : exists batch, ex_verify ex_both = (tt, Ok batch) /\ ex_batch = vb_evidence batch)
    by (eexists; split; vm_compute; reflexivity).
  assert (Hs : exists r, ex_synthesize (ex_json ex_both) = (tt, Ok r) /\ length (va_citations (sr_answer r)) = 2%nat)
    by (eexists; split; vm_compute; reflexivity).
  destruct Hv as (batch & Hv & Hb), Hs as (r & Hs & Hl). exists batch, r. split; [exact Hv|]. split; [exact Hs|]. split; [exact Hl|].
  unfold ex_synthesize in Hs. rewrite Hb in Hs.
  exact (answer_quotes_documents _ _ _ _ _ _ _ _ _ _ _ _ _ _ _ _ _ Hnd Hv Hs).
Defined.

(** A draft with a claim whose evidence is accepted, and one whose evidence is unknown. *)
Definition ex_draft : DraftAnswer :=
  let claim id fact ids := {| ac_id := id; ac_tenant_id := 2; ac_run_id := 9; ac_claim_key := u "k"; ac_text := u "t";
                              ac_fact_requirement_id := Some fact; ac_kind := ClaimKind_FACTUAL;
                              ac_support := ClaimSupport_UNSUPPORTED; ac_evidence_ids := ids |} in
  {| da_tenant_id := 2; da_run_id := 9; da_claims := [claim 1 102 (ex_ids_of 102); claim 2 102 [77]] |}.

Lemma answer_traceable_witness : exists answer,
  validate id ex_draft (fun i => dget i (dict_by ve_id ex_batch)) UnsupportedClaimPolicy_MARK_UNCONFIRMED = Ok answer /\
  length (va_citations answer) = 1%nat /\ map ac_id (va_claims answer) = [1; 2] /\
  Forall (fun claim => is_fact claim -> traced ex_draft (fun i => dget i (dict_by ve_id ex_batch)) (va_citations answer) claim) (va_claims answer).
Proof.
  assert (Ha : exists answer,
    validate id ex_draft (fun i => dget i (dict_by ve_id ex_batch)) UnsupportedClaimPolicy_MARK_UNCONFIRMED = Ok answer
    /\ length (va_citations answer) = 1%nat /\ map ac_id (va_claims answer) = [1; 2])
    by (eexists; repeat split; vm_compute; reflexivity).
  destruct Ha as (answer & Ha & Hl & Hids). exists answer. repeat (split; [assumption|]).
  exact (proj1 (answer_traceable _ _ _ _ _ Ha)).
Defined.
