(* ===== verification/Answering.v ===== *)
(** * Answering: the steps from extracted documents to the answer

    The [verify] and [synthesize] steps of [sana/app/search_operations.py]: the documents are read back,
    candidates are selected and verified, and the answer is made of the stored evidence alone. Across
    both steps and the store between them, what an answer quotes is in a stored document, and an
    answer that calls itself complete is. *)

From Stdlib Require Import SpecFloat String.
From S2P Require Import Prelude Errors PyTime PyData PyStr Regex PyUrl Transitions Run Tables Step Policy Coverage Workflow Artifacts.
From S2P Require Import StepStore Completion Chunker Evidence Authority Selector EvidenceRules ModelGateway Verifier.
From S2P Require Import VerifierBatch SelectorFacts Operations Extraction Answer Claims Synthesizer AnswerFacts.

(** [claim.kind.value] *)
Definition ClaimKind_value (k : ClaimKind) : pystr :=
  u match k with
    | ClaimKind_FACTUAL => "FACTUAL" | ClaimKind_UNCERTAINTY => "UNCERTAINTY" | ClaimKind_COMMENTARY => "COMMENTARY"
    end.

Definition EvidenceLevel_value (l : EvidenceLevel) : pystr :=
  u match l with
    | EvidenceLevel_L0_DISCOVERY => "L0_DISCOVERY" | EvidenceLevel_L1_GROUNDED => "L1_GROUNDED"
    | EvidenceLevel_L2_VERIFIED => "L2_VERIFIED"
    end.

Section Answering.
Context {U : Unicode} {I : IpLiterals} {Psl : PublicSuffixes} {Text : PyText} {Json : JsonText} {Order : SetOrder}
  {Codec : Codecs}
  (sha256_utf8 : pystr -> pystr) (uuid5 : UUID -> pystr -> UUID) (error_text : exn -> pystr).
Context (get_json : UUID -> ArtifactRef -> res json) (get_bytes : UUID -> ArtifactRef -> res bytes).
Context {S : Type} {gateway : ParsingGateway S} (ports : StepPorts S) (o : SearchStepOperations) (x : StepExecutionContext).

(** ** Verification *)

Definition default_selector : CandidateSelector :=
  {| cs_authority := default_authority; cs_per_fact := 3; cs_total := 8; cs_quote_chars := 600 |}.

(** The extract step writes a text or null; another value is refused here, where Python would keep it. *)
Definition optional_text (v : json) : res (option pystr) :=
  match v with JNull => Ok None | JStr s => Ok (Some s) | _ => Raise (TypeError "language") end.

(** [@ src/sana/app/search_operations.py SearchStepOperations.verify@1050-1063] *)
Definition stored_chunk (raw_chunk : json) : res (UUID * DocumentChunk) :=
  chunk_id ← uuid_at raw_chunk "id";
  ordinal ← int_at raw_chunk "ordinal";
  text ← str_at raw_chunk "text";
  text_hash ← str_at raw_chunk "text_hash";
  tokens ← int_at raw_chunk "token_count";
  start ← int_at raw_chunk "start_offset";
  stop ← int_at raw_chunk "end_offset";
  chunk ← DocumentChunk_new sha256_utf8
    {| dk_ordinal := ordinal; dk_text := text; dk_text_hash := text_hash; dk_token_count := tokens;
       dk_start_offset := start; dk_end_offset := stop |};
  Ok (chunk_id, chunk).

(** The facts a page was found for. *)
(** [@ src/sana/app/search_operations.py SearchStepOperations.verify@1071-1077] *)
Definition mapped_facts (hit : json) : res (list UUID) :=
  values ← get_default hit "fact_ids" JNull;
  values ← (if truthy values then items values else fact_id ← subscript hit "fact_id"; Ok [fact_id]);
  traverse (fun v => uuid_of_text (to_str v)) values.

(** [@ src/sana/app/search_operations.py SearchStepOperations.verify@1033-1079] *)
Definition stored_document (extracted : json) : res CandidateDocument :=
  version ← subscript extracted "version";
  text_ref ← reference_at version "text_ref";
  encoded ← get_bytes (cx_tenant_id x) text_ref;
  text ← utf8_decode encoded;
  document ← subscript extracted "document";
  document_id ← uuid_at document "id";
  version_id ← uuid_at version "id";
  content_hash ← str_at version "content_hash";
  media_type ← str_at version "media_type";
  language ← get_default version "language" JNull;
  language ← optional_text language;
  fetched_at ← datetime_at version "fetched_at";
  version ← DocumentVersion_new sha256_utf8
    {| dv_id := version_id; dv_tenant_id := cx_tenant_id x; dv_document_id := document_id; dv_content_hash := content_hash;
       dv_text := text; dv_media_type := media_type; dv_language := language; dv_fetched_at := fetched_at |};
  raw_chunks ← list_at extracted "chunks";
  chunks ← traverse stored_chunk raw_chunks;
  url ← str_at document "canonical_url";
  title ← str_at document "title";
  hit ← subscript extracted "hit";
  mapped ← mapped_facts hit;
  CandidateDocument_new
    {| cd_document_id := document_id; cd_version := version; cd_chunks := chunks; cd_url := url; cd_title := title;
       cd_mapped_fact_ids := mapped |}.

(** [@ src/sana/app/search_operations.py SearchStepOperations.verify@1025-1079] *)
Fixpoint stored_documents (refs : list json) : res (list CandidateDocument) :=
  match refs with
  | [] => Ok []
  | raw_ref :: r =>
      d ← to_dict raw_ref;
      ref ← reference d;
      extracted ← get_json (cx_tenant_id x) ref;
      if is_object extracted
      then document ← stored_document extracted; documents ← stored_documents r; Ok (document :: documents)
      else stored_documents r
  end.

(** What verification reads: the plan, the facts and the candidates. *)
(** [@ src/sana/app/search_operations.py SearchStepOperations.verify@1016-1085] *)
Definition verify_input (payload : json) : res (json * Facts * list SelectedCandidate) :=
  ref ← reference_at payload "plan_ref";
  plan ← get_json (cx_tenant_id x) ref;
  facts ← plan_facts plan;
  refs ← list_at payload "extract_refs";
  documents ← stored_documents refs;
  intent ← subscript plan "intent";
  entity ← str_at intent "entity";
  candidates ← select sha256_utf8 uuid5 default_selector (cx_run_id x) entity facts documents;
  Ok (plan, facts, candidates).

(** The coverage of every fact. *)
Definition coverage_of (facts : Facts) (evidence : list VerifiedEvidence) : Coverages :=
  map (fun kv => (kv.1, CoverageEvaluator_evaluate (cx_tenant_id x) (cx_run_id x) kv.1 kv.2 evidence [])) facts.

(** [@ src/sana/app/search_operations.py SearchStepOperations.verify@1115-1133] *)
Definition coverage_dict (fact_id : UUID) (a : CoverageAssessment) : json :=
  obj [("fact_id", juuid fact_id); ("fact_key", JStr (ca_fact_key a)); ("status", JStr (FactCoverage_value (ca_status a)));
       ("level", jopt (fun l => JStr (EvidenceLevel_value l)) (ca_level a));
       ("evidence_ids", JList (map juuid (ca_evidence_ids a))); ("supporting_ids", JList (map juuid (ca_supporting_ids a)));
       ("contradicting_ids", JList (map juuid (ca_contradicting_ids a)));
       ("reason_codes", jstrs (ca_reason_codes a))]%string.

(** [@ src/sana/app/search_operations.py SearchStepOperations.verify@1109-1136] *)
Definition verification_dict (plan_ref : json) (facts : Facts) (batch : VerifiedBatch) : json :=
  obj [("schema", jstr "sana.verify.v2"); ("plan_ref", plan_ref);
       ("evidence", JList (map evidence_to_payload (vb_evidence batch)));
       ("coverage", JList (map (fun kv => coverage_dict kv.1 kv.2) (coverage_of facts (vb_evidence batch))));
       ("degraded", JBool (vb_degraded batch)); ("degradation_code", jopt JStr (vb_degradation_code batch))]%string.

(** [@ src/sana/app/search_operations.py SearchStepOperations.verify@1086-1098] *)
Definition verified_batch (candidates : list SelectedCandidate) : M S VerifiedBatch :=
  if so_model_verifier o then
    context ← lift (model_context x);
    now ← po_now ports;
    verify sha256_utf8 uuid5 error_text candidates context (cx_deadline_at x) now
  else
    now ← po_now ports;
    lift (verify_deterministic sha256_utf8 uuid5 (cx_run_id x) now candidates).

(** What the step writes, and what it spent. *)
(** [@ src/sana/app/search_operations.py SearchStepOperations.verify] *)
Definition verify_payload : M S (json * StepBudgetCost) :=
  payload ← lift (step_json get_json x);
  input ← lift (verify_input payload);
  let '(_, facts, candidates) := input in
  batch ← verified_batch candidates;
  plan_ref ← lift (subscript payload "plan_ref");
  actual ← lift (cost BudgetPhase_VERIFY 0 0 0 0);
  mret (verification_dict plan_ref facts batch, actual).

Definition verify_step : M S StepExecutionResult :=
  output ← verify_payload;
  step_result ports x output.1 output.2.

(** ** Synthesis *)

(** The verification artifact, or an empty one. *)
(** [@ src/sana/app/search_operations.py SearchStepOperations.synthesize@1146-1154] *)
Definition loaded_verification (payload : json) : res json :=
  raw ← get_default payload "verify_ref" JNull;
  match raw with
  | JNull => Ok (JObj [])
  | _ => d ← to_dict raw; ref ← reference d; v ← get_json (cx_tenant_id x) ref; Ok (if is_object v then v else JObj [])
  end.

(** What synthesis reads. *)
Record SynthesisInput := {
  si_plan : json;
  si_verification : json;
  si_facts : Facts;
  si_evidence : list VerifiedEvidence;
  si_pipeline_codes : list pystr
}.

(** [@ src/sana/app/search_operations.py SearchStepOperations.synthesize@1141-1181] *)
Definition synthesis_input (payload : json) : res SynthesisInput :=
  ref ← reference_at payload "plan_ref";
  plan ← get_json (cx_tenant_id x) ref;
  verification ← loaded_verification payload;
  facts ← plan_facts plan;
  raws ← list_at verification "evidence";
  evidence ← traverse (fun raw => d ← to_dict raw; evidence_from_payload sha256_utf8 (cx_tenant_id x) (cx_run_id x) d) raws;
  codes ← list_at payload "pipeline_degradation_codes";
  Ok {| si_plan := plan; si_verification := verification; si_facts := facts; si_evidence := evidence;
        si_pipeline_codes := map to_str (base.filter (fun v => truthy v = true) codes) |}.

(** [@ src/sana/app/search_operations.py SearchStepOperations.synthesize@1182-1199] *)
Definition synthesized (i : SynthesisInput) : M S ConstrainedSynthesisResult :=
  let coverage := coverage_of (si_facts i) (si_evidence i) in
  if so_model_synthesizer o then
    context ← lift (model_context x);
    synthesize uuid5 error_text (cx_tenant_id x) (cx_run_id x) (si_facts i) coverage (si_evidence i) context (cx_deadline_at x)
  else lift (synthesize_deterministic uuid5 (cx_tenant_id x) (cx_run_id x) (si_facts i) coverage (si_evidence i)).

Definition required_ids (facts : Facts) : list UUID := map fst (base.filter (fun kv => fr_required kv.2 = true) facts).

(** Facts that a claim with evidence states. *)
(** [@ src/sana/app/search_operations.py SearchStepOperations.synthesize@1209-1213] *)
Definition supported_fact_ids (answer : ValidatedAnswer) : list UUID :=
  omap ac_fact_requirement_id
    (base.filter (fun c => ac_kind c = ClaimKind_FACTUAL /\ ac_evidence_ids c <> []) (va_claims answer)).

(** [@ src/sana/app/search_operations.py SearchStepOperations.synthesize@1200-1204] *)
Definition model_degraded (i : SynthesisInput) (r : ConstrainedSynthesisResult) : res bool :=
  plan_degraded ← get_default (si_plan i) "degraded" JNull;
  verification_degraded ← get_default (si_verification i) "degraded" JNull;
  Ok (truthy plan_degraded || truthy verification_degraded || sr_degraded r).

(** [@ src/sana/app/search_operations.py SearchStepOperations.synthesize@1214-1217] *)
Definition is_complete (i : SynthesisInput) (answer : ValidatedAnswer) (degraded : bool) : bool :=
  let required := required_ids (si_facts i) in
  let supported := supported_fact_ids answer in
  negb (bool_decide (required = [])) && forallb (fun f => bool_decide (f ∈ supported)) required
  && forallb (fun f => match dget f (coverage_of (si_facts i) (si_evidence i)) with
                       | Some a => bool_decide (ca_status a ∈ [FactCoverage_COVERED; FactCoverage_VERIFIED])
                       | None => false
                       end) required
  && negb degraded.

Definition citations_of (answer : ValidatedAnswer) (claim : AnswerClaim) : list Citation :=
  base.filter (fun c => ci_answer_claim_id c = ac_id claim) (va_citations answer).

(** [@ src/sana/app/search_operations.py SearchStepOperations.synthesize@1247-1260] *)
Definition citation_dict (c : Citation) : json :=
  obj [("id", juuid (ci_id c)); ("evidence_id", juuid (ci_verified_evidence_id c)); ("ordinal", JInt (ci_ordinal c));
       ("label", JStr (ci_label c)); ("url", JStr (ci_rendered_url c));
       ("document_version_id", juuid (ci_document_version_id c)); ("document_chunk_id", juuid (ci_document_chunk_id c));
       ("quote", JStr (ci_quote c)); ("start_offset", JInt (ci_start_offset c)); ("end_offset", JInt (ci_end_offset c))]%string.

(** [@ src/sana/app/search_operations.py SearchStepOperations.synthesize@1233-1264] *)
Definition claim_dict (answer : ValidatedAnswer) (c : AnswerClaim) : json :=
  obj [("id", juuid (ac_id c)); ("claim_key", JStr (ac_claim_key c)); ("text", JStr (ac_text c));
       ("kind", JStr (ClaimKind_value (ac_kind c))); ("support_status", JStr (ClaimSupport_value (ac_support c)));
       ("fact_id", jopt juuid (ac_fact_requirement_id c)); ("evidence_ids", JList (map juuid (ac_evidence_ids c)));
       ("citations", JList (map citation_dict (citations_of answer c)))]%string.

(** [@ src/sana/app/search_operations.py SearchStepOperations.synthesize@1227-1232] *)
Definition claim_line (answer : ValidatedAnswer) (c : AnswerClaim) : pystr :=
  let links := str_join (u " ") (map (fun k => u "[" ++ ci_label k ++ u "](" ++ ci_rendered_url k ++ u ")") (citations_of answer c)) in
  u "- " ++ ac_text c ++ (if bool_decide (links = []) then [] else u " " ++ links).

(** The order of a set of identifiers is the interpreter's; [missing] is one of its orders. *)
(** [@ src/sana/app/search_operations.py SearchStepOperations.synthesize@1218-1273] *)
Definition answer_text (zh : bool) (facts : Facts) (answer : ValidatedAnswer) (missing : list UUID) : pystr :=
  let first := if zh then uu "我找到并核对了以下网页原文：" else u "I found and checked these source excerpts:" in
  let descriptions := map fr_description (omap (fun f => dget f facts) missing) in
  let lines := first :: map (claim_line answer) (va_claims answer)
    ++ (if bool_decide (descriptions = []) then []
        else [[10] ++ (if zh then uu "仍未获得足够证据" else u "Evidence is still insufficient") ++ uu "："
              ++ str_join (uu "、") descriptions]) in
  str_join [10] (if (Z.of_nat (length lines) =? 1)
                 then lines ++ [if zh then uu "- 暂无可验证的网页证据。" else u "- No verifiable web evidence is available."]
                 else lines).

(** Why an answer is partial. *)
(** [@ src/sana/app/search_operations.py SearchStepOperations.synthesize@1277-1287] *)
Definition partial_reason (payload : json) (pipeline_codes : list pystr) (model_pipeline_degraded no_claims : bool)
    (now : datetime) : res pystr :=
  late ← dt_le (cx_deadline_at x) now;
  if late || bool_decide (u "phase_deadline_exceeded" ∈ pipeline_codes) then Ok (u "TIME_BUDGET")
  else if model_pipeline_degraded then Ok (u "PROVIDER_FAILURE")
  else if negb no_claims then Ok (u "INSUFFICIENT_EVIDENCE")
  else
    failures ← get_default payload "provider_failures" (JInt 0);
    failures ← to_int failures;
    Ok (if 0 <? failures then u "PROVIDER_FAILURE" else u "INSUFFICIENT_EVIDENCE").

(** The verify step writes a text or null; another value is refused here, where Python would keep it. *)
(** [@ src/sana/app/search_operations.py SearchStepOperations.synthesize@1298-1308] *)
Definition degradation_codes (i : SynthesisInput) (r : ConstrainedSynthesisResult) : res (list pystr) :=
  raw ← get_default (si_verification i) "degradation_code" JNull;
  code ← optional_text raw;
  Ok (dedupe (base.filter (fun c => c <> [])
    (si_pipeline_codes i ++ option_list code ++ option_list (sr_degradation_code r)))).

(** What the answer says, how good it is and why. *)
Record AnswerArtifact := {
  aa_answer : pystr;
  aa_quality : pystr;
  aa_stop_reason : pystr;
  aa_claims : list json;
  aa_missing : list UUID;
  aa_degraded : bool;
  aa_codes : list pystr
}.

Definition answer_dict (a : AnswerArtifact) : json :=
  obj [("schema", jstr "sana.answer.v1"); ("answer", JStr (aa_answer a)); ("quality", JStr (aa_quality a));
       ("stop_reason", JStr (aa_stop_reason a)); ("claims", JList (aa_claims a));
       ("missing_fact_ids", JList (map juuid (aa_missing a))); ("degraded", JBool (aa_degraded a));
       ("degradation_codes", jstrs (aa_codes a))]%string.

Definition missing_ids (facts : Facts) (answer : ValidatedAnswer) : list UUID :=
  base.filter (fun f => f ∉ supported_fact_ids answer) (required_ids facts).

(** [@ src/sana/app/search_operations.py SearchStepOperations.synthesize@1200-1309] *)
Definition answer_artifact (id_order : list UUID -> list UUID) (payload : json) (i : SynthesisInput)
    (r : ConstrainedSynthesisResult) : M S AnswerArtifact :=
  let answer := sr_answer r in
  model_pipeline_degraded ← lift (model_degraded i r);
  let degraded := model_pipeline_degraded || negb (bool_decide (si_pipeline_codes i = [])) in
  let complete := is_complete i answer degraded in
  intent ← lift (subscript (si_plan i) "intent");
  locale ← lift (str_at intent "locale");
  let zh := starts_with (u "zh") (str_lower locale) in
  let missing := id_order (missing_ids (si_facts i) answer) in
  reason ← (if complete then mret (u "FACTS_COVERED")
            else now ← po_now ports;
                 lift (partial_reason payload (si_pipeline_codes i) model_pipeline_degraded
                         (bool_decide (length (va_claims answer) = 0%nat)) now));
  codes ← lift (degradation_codes i r);
  mret {| aa_answer := answer_text zh (si_facts i) answer missing;
          aa_quality := if complete then u "COMPLETE" else u "PARTIAL"; aa_stop_reason := reason;
          aa_claims := map (claim_dict answer) (va_claims answer); aa_missing := missing; aa_degraded := degraded;
          aa_codes := codes |}.

(** The answer before it is written. *)
(** [@ src/sana/app/search_operations.py SearchStepOperations.synthesize] *)
Definition synthesize_answer (id_order : list UUID -> list UUID) : M S (ValidatedAnswer * AnswerArtifact) :=
  payload ← lift (step_json get_json x);
  i ← lift (synthesis_input payload);
  r ← synthesized i;
  a ← answer_artifact id_order payload i r;
  mret (sr_answer r, a).

Definition synthesize_step (id_order : list UUID -> list UUID) : M S StepExecutionResult :=
  made ← synthesize_answer id_order;
  actual ← lift (cost BudgetPhase_SYNTHESIZE 0 0 0 0);
  step_result ports x (answer_dict made.2) actual.
End Answering.

(** ** Reading what was written with sorted keys *)

Section Sorted_keys.

Lemma dget_insert_sorted (k k' : pystr) (v : json) d :
  dget k (insert_sorted (fun a b : pystr * json => pystr_ltb a.1 b.1) (k', v) d) = if decide (k = k') then Some v else dget k d.
Proof.
  induction d as [|[k1 v1] d IH]; simpl; [done|]. destruct (pystr_ltb k1 k') eqn:E; simpl; [|done]. rewrite IH.
  destruct (decide (k = k1)) as [e1|], (decide (k = k')) as [e2|]; try done. subst. by rewrite pystr_ltb_irrefl in E.
Qed.

Lemma dget_sorted (k : pystr) (d : list (pystr * json)) : dget k (py_sorted (fun a b : pystr * json => pystr_ltb a.1 b.1) d) = dget k d.
Proof.
  induction d as [|[k1 v1] d IH]; [done|]. cbn [py_sorted foldr].
  change (foldr _ [] d) with (py_sorted (fun a b : pystr * json => pystr_ltb a.1 b.1) d). by rewrite dget_insert_sorted, IH.
Qed.

Lemma dget_map_values (k : pystr) (f : json -> json) d : dget k (map (fun '(k, x) => (k, f x)) d) = f <$> dget k d.
Proof. induction d as [|[k1 v1] d IH]; simpl; [done|]. by destruct (decide (k = k1)). Qed.

Lemma subscript_sorted v key : subscript (sorted_json v) key = sorted_json <$> subscript v key.
Proof. destruct v; try done. simpl. rewrite dget_sorted, dget_map_values. by destruct (dget (u key) d). Qed.

Lemma get_default_sorted v key fallback : get_default (sorted_json v) key (sorted_json fallback) = sorted_json <$> get_default v key fallback.
Proof. destruct v; try done. simpl. rewrite dget_sorted, dget_map_values. by destruct (dget (u key) d). Qed.
End Sorted_keys.

(** ** Every record of a batch quotes a candidate

    Two pages that lead to one document give candidates with the same id; this needs no distinct ids. *)

Section Grounded.
Context {U : Unicode} {I : IpLiterals} {Text : PyText} {Json : JsonText}
  (sha256_utf8 : pystr -> pystr) (uuid5 : UUID -> pystr -> UUID) (error_text : exn -> pystr)
  (run_id : UUID) (verified_at : datetime).

Abbreviation of_candidate candidates := (is_record_of candidates (grounded sha256_utf8 run_id)).

Lemma of_candidate_mono (l k : list SelectedCandidate) e : l ⊆ k -> of_candidate l e -> of_candidate k e.
Proof using. intros Hs (c & Hc & Hg). exists c. split; [by apply Hs|done]. Qed.

Lemma model_values_of judged parsed vs :
  model_values sha256_utf8 uuid5 run_id verified_at (dict_by sc_id judged) parsed = Ok vs -> Forall (of_candidate judged) vs.
Proof using.
  revert vs. induction parsed as [|p parsed IH]; intros vs Hv; simpl in Hv; minv; [constructor|].
  destruct (dget _ _) as [c|] eqn:Ec; [|done]. apply dict_by_Some in Ec as [Hc _].
  destruct (model_proposal_is_semantically_admissible c p); [|by apply IH]. minv. constructor; [|by apply IH].
  match goal with Hr : verifier_record _ _ _ _ _ _ _ _ = Ok _ |- _ => apply verifier_record_inv in Hr as (? & _) end. by exists c.
Qed.

Lemma audit_of version candidates accepted es : Forall (of_candidate candidates) accepted ->
  complete_candidate_audit sha256_utf8 uuid5 run_id verified_at version candidates accepted = Ok es ->
  Forall (of_candidate candidates) es.
Proof using.
  intros Hacc Hc. unfold complete_candidate_audit in Hc. minv. apply by_candidates_inv in Hc.
  apply Forall_forall. intros e He. apply list_elem_of_lookup in He as [i Hi].
  apply (Forall2_lookup_r _ _ _ _ _ Hc) in Hi as (c & _ & Hin & Hd).
  match goal with Ha : audit_rest _ _ _ _ _ _ _ = Ok _ |- _ =>
    destruct (audit_rest_inv _ _ _ _ _ _ _ _ Ha _ _ Hd) as [Hd'|(k & Hk & [Hr _])] end.
  - apply dict_by_Some in Hd' as [Hin' _]. rewrite Forall_forall in Hacc. by apply Hacc.
  - exists k. split; [done|]. by destruct Hr.
Qed.

Lemma deterministic_of candidates vs :
  deterministic_values sha256_utf8 uuid5 run_id verified_at candidates = Ok vs -> Forall (of_candidate candidates) vs.
Proof using.
  intros Hv%deterministic_values_inv. eapply Forall_impl; [exact Hv|]. intros e (c & Hc & [Ha _]). exists c. split; [done|]. by destruct Ha.
Qed.

Context {S : Type} {gateway : ParsingGateway S}.

Lemma verify_of candidates x deadline s s' batch : mx_run_id x = run_id ->
  verify sha256_utf8 uuid5 error_text candidates x deadline verified_at s = (s', Ok batch) ->
  Forall (of_candidate candidates) (vb_evidence batch).
Proof using.
  intros Hrun Hv. unfold verify in Hv. rewrite Hrun in Hv. clear Hrun. case_bool_decide; [minv; constructor|].
  minv. pose proof (deterministic_of _ _ E) as Hdet. case_bool_decide; [minv; by eapply audit_of|].
  apply try_except_ok_inv in Hv as [Hv|(s1 & e & _ & _ & Hv)]; minv; simpl;
    [|eapply audit_of; [|done]; unfold fail_closed_fallback; by rewrite app_nil_r].
  destruct a2 as [parsed|]; minv. eapply audit_of; [|done]. apply Forall_app_2; [done|].
  eapply Forall_impl; [by eapply model_values_of|]. intros e. apply of_candidate_mono. intros c Hc.
  by destruct (model_candidates_inv _ _ _ E0 c Hc).
Qed.
End Grounded.

(** ** Stored evidence *)

Section Reading.
Context {U : Unicode} {I : IpLiterals} {Psl : PublicSuffixes} {Text : PyText} {Json : JsonText} {Order : SetOrder}
  {Codec : Codecs}
  (sha256_utf8 : pystr -> pystr) (uuid5 : UUID -> pystr -> UUID) (error_text : exn -> pystr).
Context (get_json : UUID -> ArtifactRef -> res json) (get_bytes : UUID -> ArtifactRef -> res bytes).

(** An identifier that was read is read from its own text. *)
Context (Huuid : forall t i, uuid_of_text t = Ok i -> uuid_of_text (str_of_uuid i) = Ok i).

Definition same_span (e e' : VerifiedEvidence) : Prop :=
  let c := ve_candidate e in let c' := ve_candidate e' in
  es_document_version_id (ec_source c') = es_document_version_id (ec_source c) /\
  es_document_chunk_id (ec_source c') = es_document_chunk_id (ec_source c) /\
  es_url (ec_source c') = es_url (ec_source c) /\ ec_quote c' = ec_quote c /\
  ec_start_offset c' = ec_start_offset c /\ ec_end_offset c' = ec_end_offset c.

Lemma uuid_at_back p key i j : subscript p key = Ok (JStr (str_of_uuid i)) -> uuid_of_text (str_of_uuid i) = Ok i ->
  uuid_at p key = Ok j -> j = i.
Proof using. unfold uuid_at. intros -> Hi. simpl. rewrite Hi. by intros [= ->]. Qed.

Lemma evidence_read t r e e' :
  uuid_of_text (str_of_uuid (es_document_version_id (ec_source (ve_candidate e)))) = Ok (es_document_version_id (ec_source (ve_candidate e))) ->
  uuid_of_text (str_of_uuid (es_document_chunk_id (ec_source (ve_candidate e)))) = Ok (es_document_chunk_id (ec_source (ve_candidate e))) ->
  evidence_from_payload sha256_utf8 t r (sorted_json (evidence_to_payload e)) = Ok e' ->
  same_span e e' /\ ve_tenant_id e' = t /\ ve_run_id e' = r.
Proof using.
  clear Huuid. intros Hver Hchunk. set (p := sorted_json (evidence_to_payload e)).
  assert (Hp : forall key v, subscript (evidence_to_payload e) key = Ok v -> subscript p key = Ok (sorted_json v))
    by (intros key v Hk; unfold p; by rewrite subscript_sorted, Hk).
  assert (Ev : forall j, uuid_at p "document_version_id" = Ok j -> j = es_document_version_id (ec_source (ve_candidate e)))
    by (intros j; by apply (uuid_at_back p _ _ _ (Hp "document_version_id"%string (JStr (str_of_uuid (es_document_version_id (ec_source (ve_candidate e))))) eq_refl))).
  assert (Ec : forall j, uuid_at p "document_chunk_id" = Ok j -> j = es_document_chunk_id (ec_source (ve_candidate e)))
    by (intros j; by apply (uuid_at_back p _ _ _ (Hp "document_chunk_id"%string (JStr (str_of_uuid (es_document_chunk_id (ec_source (ve_candidate e))))) eq_refl))).
  assert (Eu : str_at p "url" = Ok (es_url (ec_source (ve_candidate e)))) by (unfold str_at; by rewrite (Hp "url"%string (JStr (es_url (ec_source (ve_candidate e)))) eq_refl)).
  assert (Eq : str_at p "quote" = Ok (ec_quote (ve_candidate e))) by (unfold str_at; by rewrite (Hp "quote"%string (JStr (ec_quote (ve_candidate e))) eq_refl)).
  assert (Es : int_at p "start_offset" = Ok (ec_start_offset (ve_candidate e))) by (unfold int_at; by rewrite (Hp "start_offset"%string (JInt (ec_start_offset (ve_candidate e))) eq_refl)).
  assert (Ee : int_at p "end_offset" = Ok (ec_end_offset (ve_candidate e))) by (unfold int_at; by rewrite (Hp "end_offset"%string (JInt (ec_end_offset (ve_candidate e))) eq_refl)).
  clearbody p. unfold evidence_from_payload. rewrite Eu, Eq, Es, Ee. intros E. minv.
  repeat match goal with H : uuid_at _ _ = Ok _ |- _ => first [apply Ev in H; subst | apply Ec in H; subst | clear H] end.
  match goal with Hs : EvidenceSource_new _ = Ok _ |- _ => apply EvidenceSource_new_inv in Hs as (_ & Hs2 & Hs3 & Hs4 & _) end.
  match goal with Hc : EvidenceCandidate_new _ _ = Ok _ |- _ => apply EvidenceCandidate_new_inv in Hc as (-> & _) end.
  apply VerifiedEvidence_new_inv in E as [-> _]. by repeat split.
Qed.

(** ** What the verify step reads *)

(** An extracted document of the list: its version, its address and its text. *)
Record stored (t : UUID) (refs : list json) (version_id : UUID) (url text : pystr) : Prop := {
  so_written : exists raw d ref extracted version document text_ref encoded,
    raw ∈ refs /\ to_dict raw = Ok d /\ reference d = Ok ref /\ get_json t ref = Ok extracted /\
    subscript extracted "version" = Ok version /\ subscript extracted "document" = Ok document /\
    uuid_at version "id" = Ok version_id /\ str_at document "canonical_url" = Ok url /\
    reference_at version "text_ref" = Ok text_ref /\ get_bytes t text_ref = Ok encoded /\ utf8_decode encoded = Ok text
}.

Definition read_back (i : UUID) : Prop := uuid_of_text (str_of_uuid i) = Ok i.

Lemma uuid_at_read p key i : uuid_at p key = Ok i -> read_back i.
Proof using Huuid. unfold uuid_at. intros E. apply res_bind_ok_inv in E as (v & _ & E). exact (Huuid _ _ E). Qed.

Lemma stored_chunk_read raw id chunk : stored_chunk sha256_utf8 raw = Ok (id, chunk) -> read_back id.
Proof using Huuid.
  unfold stored_chunk. intros E. apply res_bind_ok_inv in E as (i & Ei & E). minv. exact (uuid_at_read _ _ _ Ei).
Qed.

(** What a document that was read back is. *)
Definition is_stored (x : StepExecutionContext) (refs : list json) (d : CandidateDocument) : Prop :=
  stored (cx_tenant_id x) refs (dv_id (cd_version d)) (cd_url d) (dv_text (cd_version d)) /\
  read_back (dv_id (cd_version d)) /\ Forall (fun ic => read_back ic.1) (cd_chunks d).

Lemma stored_document_inv x raw d ref extracted document refs :
  raw ∈ refs -> to_dict raw = Ok d -> reference d = Ok ref -> get_json (cx_tenant_id x) ref = Ok extracted ->
  stored_document sha256_utf8 get_bytes x extracted = Ok document -> is_stored x refs document.
Proof using Huuid.
  intros Hin Hd Hr Hg E. unfold stored_document, CandidateDocument_new in E. minv.
  repeat match goal with Hv : DocumentVersion_new _ _ = Ok _ |- _ => unfold DocumentVersion_new in Hv; minv end.
  split; [|split].
  - constructor. do 8 eexists. ksplit; eassumption.
  - simpl. eapply uuid_at_read. eassumption.
  - cbn [cd_chunks]. match goal with Ht : traverse _ _ = Ok ?k |- Forall _ ?k => apply traverse_ok in Ht as Hf end.
    apply Forall_forall. intros [id chunk] Hc. apply list_elem_of_lookup in Hc as [n Hn].
    apply (Forall2_lookup_r _ _ _ _ _ Hf) in Hn as (raw_chunk & _ & Hs). by eapply stored_chunk_read.
Qed.

Lemma stored_documents_inv x refs all ds : refs ⊆ all -> stored_documents sha256_utf8 get_json get_bytes x refs = Ok ds ->
  Forall (is_stored x all) ds.
Proof using Huuid.
  revert ds. induction refs as [|raw refs IH]; intros ds Hsub E; cbn [stored_documents] in E; minv; [constructor|].
  destruct (is_object _); minv; [constructor|]; try (apply IH; [set_solver|done]).
  eapply stored_document_inv; [|done..]. apply Hsub. by left.
Qed.

Lemma facts_from_NoDup raws facts facts' : NoDup facts.*1 -> facts_from raws facts = Ok facts' -> NoDup facts'.*1.
Proof using.
  clear Huuid. revert facts. induction raws as [|raw raws IH]; intros facts Hnd E; cbn [facts_from] in E; minv; [done|].
  eapply IH; [|done]. by apply dset_NoDup.
Qed.

(** ** From the documents to the answer *)

(** A citation stands in a document: it is a span of the stored text of the version it names. *)
Definition stands (t : UUID) (refs : list json) (c : Citation) : Prop := exists text,
  stored t refs (ci_document_version_id c) (ci_rendered_url c) text /\
  0 <= ci_start_offset c < ci_end_offset c /\ substrZ (ci_start_offset c) (ci_end_offset c) text = ci_quote c.

(** The same, of evidence. *)
Definition evidence_stands (t : UUID) (refs : list json) (e : VerifiedEvidence) : Prop := exists text,
  stored t refs (es_document_version_id (ec_source (ve_candidate e))) (es_url (ec_source (ve_candidate e))) text /\
  0 <= ec_start_offset (ve_candidate e) < ec_end_offset (ve_candidate e) /\
  substrZ (ec_start_offset (ve_candidate e)) (ec_end_offset (ve_candidate e)) text = ec_quote (ve_candidate e) /\
  read_back (es_document_version_id (ec_source (ve_candidate e))) /\
  read_back (es_document_chunk_id (ec_source (ve_candidate e))).

(** A candidate quotes a document that was read back. *)
Definition quotes_stored (x : StepExecutionContext) (refs : list json) (c : SelectedCandidate) : Prop := exists d,
  is_stored x refs d /\ (sc_chunk_id c, sc_chunk c) ∈ cd_chunks d /\ sc_version c = cd_version d /\ sc_url c = cd_url d.

Lemma candidates_stored x payload plan facts candidates :
  verify_input sha256_utf8 uuid5 get_json get_bytes x payload = Ok (plan, facts, candidates) ->
  exists refs, list_at payload "extract_refs" = Ok refs /\ Forall (quotes_stored x refs) candidates.
Proof using Huuid.
  unfold verify_input, plan_facts. intros E. minv.
  match goal with Hl : list_at payload _ = Ok ?l |- _ => exists l; split; [exact Hl|] end.
  match goal with Hd : stored_documents _ _ _ _ ?l = Ok _ |- _ => apply (stored_documents_inv _ _ l) in Hd; [rename Hd into Hst|done] end.
  match goal with Hf : facts_from _ _ = Ok _ |- _ => apply facts_from_NoDup in Hf; [rename Hf into Hnd|constructor] end.
  match goal with Hs : select _ _ _ _ _ _ _ = Ok _ |- _ => apply selection_sound in Hs as (_ & _ & Hs); [|done..] end.
  eapply Forall_impl; [eassumption|]. intros c (d & Hd & Hc). rewrite Forall_forall in Hst. exists d.
  destruct Hc as [_ _ Hch _ (_ & Hv & Hu) _ _]. ksplit; auto.
Qed.

Lemma record_stands x refs candidates e : Forall (quotes_stored x refs) candidates ->
  is_record_of candidates (grounded sha256_utf8 (cx_run_id x)) e -> evidence_stands (cx_tenant_id x) refs e.
Proof using.
  clear Huuid. rewrite Forall_forall. intros Hall (c & Hc & Hg). destruct (Hall c Hc) as (d & (Hs & Hr & Hch) & Hin & Hv & Hu).
  rewrite Forall_forall in Hch. specialize (Hch _ Hin). destruct Hg. exists (dv_text (sc_version c)).
  rewrite gr_version, gr_url, gr_chunk, Hv, Hu. rewrite Hv in gr_exact. ksplit; done || lia.
Qed.

(** What a model context is of: the run of the step. *)
Lemma model_context_run x mx : model_context x = Ok mx -> mx_run_id mx = cx_run_id x.
Proof using. clear Huuid. unfold model_context, ModelInvocationContext_new. intros E. by minv. Qed.

(** Evidence that is read from the stored payload stands where the evidence that was written does. *)
Lemma loaded_stands t refs e e' r : evidence_stands t refs e ->
  evidence_from_payload sha256_utf8 t r (sorted_json (evidence_to_payload e)) = Ok e' -> evidence_stands t refs e'.
Proof using.
  clear Huuid. intros (text & Hs & Hb & Hq & Hv & Hc) E. apply evidence_read in E as [(E1 & E2 & E3 & E4 & E5 & E6) _]; [|done..].
  exists text. by rewrite E1, E2, E3, E4, E5, E6.
Qed.

(** The list of a stored verification. *)
Lemma stored_evidence x plan_ref facts batch :
  list_at (sorted_json (verification_dict x plan_ref facts batch)) "evidence"
  = Ok (map sorted_json (map evidence_to_payload (vb_evidence batch))).
Proof using. clear Huuid. unfold list_at. by rewrite (get_default_sorted _ _ (JList [])). Qed.

Lemma loaded_verification_at x payload ref v : reference_at payload "verify_ref" = Ok ref ->
  get_json (cx_tenant_id x) ref = Ok v -> is_object v = true -> loaded_verification get_json x payload = Ok v.
Proof using.
  clear Huuid. unfold reference_at, loaded_verification. intros E Hg Ho. minv.
  assert (get_default payload "verify_ref" JNull = Ok a) as ->.
  { destruct payload; try done. simpl in *. destruct (dget _ d); [by simplify_eq|done]. }
  cbn [mbind res_bind]. destruct a; try done; rewrite E1; cbn [mbind res_bind]; rewrite E; cbn [mbind res_bind]; rewrite Hg; cbn [mbind res_bind]; by rewrite Ho.
Qed.

Section Chain.
Context {S : Type} {gateway : ParsingGateway S} (ports : StepPorts S) (o : SearchStepOperations).

Lemma verified_batch_of x candidates s s' batch :
  verified_batch sha256_utf8 uuid5 error_text ports o x candidates s = (s', Ok batch) ->
  Forall (is_record_of candidates (grounded sha256_utf8 (cx_run_id x))) (vb_evidence batch).
Proof using.
  clear Huuid. unfold verified_batch, verify_deterministic. destruct (so_model_verifier o); intros E; minv.
  - match goal with Hm : model_context x = Ok _ |- _ => apply model_context_run in Hm end. by eapply verify_of.
  - simpl. eapply audit_of; [|done]. by eapply deterministic_of.
Qed.

Lemma verify_payload_stands x payload s s' v spent : step_json get_json x = Ok payload ->
  verify_payload sha256_utf8 uuid5 error_text get_json get_bytes ports o x s = (s', Ok (v, spent)) ->
  exists refs plan_ref facts batch, list_at payload "extract_refs" = Ok refs /\ v = verification_dict x plan_ref facts batch /\
    Forall (evidence_stands (cx_tenant_id x) refs) (vb_evidence batch).
Proof using Huuid.
  unfold verify_payload. intros Hp E. rewrite Hp in E. minv. simplify_eq.
  match goal with Hi : verify_input _ _ _ _ _ _ = Ok ?i |- _ => destruct i as [[plan facts] candidates] end. minv. simplify_eq.
  match goal with Hi : verify_input _ _ _ _ _ _ = Ok _ |- _ => apply candidates_stored in Hi as (refs & Hrefs & Hall) end.
  match goal with Hb : verified_batch _ _ _ _ _ _ _ _ = _ |- _ => apply verified_batch_of in Hb end.
  do 4 eexists. split; [done|]. split; [done|]. eapply Forall_impl; [eassumption|]. intros e. by apply record_stands.
Qed.

(** The evidence a synthesis reads was written by the verification it names. *)
Lemma synthesis_input_stands x refs payload ref plan_ref facts batch xv i : reference_at payload "verify_ref" = Ok ref ->
  get_json (cx_tenant_id x) ref = Ok (sorted_json (verification_dict xv plan_ref facts batch)) ->
  Forall (evidence_stands (cx_tenant_id x) refs) (vb_evidence batch) ->
  synthesis_input sha256_utf8 get_json x payload = Ok i -> Forall (evidence_stands (cx_tenant_id x) refs) (si_evidence i).
Proof using.
  clear Huuid. intros Hr Hg Hall E. unfold synthesis_input in E. minv.
  pose proof (loaded_verification_at x payload ref _ Hr Hg eq_refl) as Hload.
  match goal with Hl : loaded_verification _ _ _ = Ok ?v, Hs : list_at ?v _ = Ok _ |- _ =>
    assert (Hv : v = sorted_json (verification_dict xv plan_ref facts batch)) by congruence;
    rewrite Hv, stored_evidence in Hs; injection Hs as <- end. cbn [si_evidence].
  match goal with Ht : traverse _ _ = Ok ?k |- Forall _ ?k => apply traverse_ok in Ht as Hf end.
  apply Forall_forall. intros e He. apply list_elem_of_lookup in He as [n Hn].
  apply (Forall2_lookup_r _ _ _ _ _ Hf) in Hn as (raw & Hraw & E). rewrite map_map in Hraw.
  apply list_elem_of_lookup_2, list_elem_of_In, in_map_iff in Hraw as (e0 & <- & He0). apply list_elem_of_In in He0.
  rewrite Forall_forall in Hall. eapply loaded_stands; [by apply Hall|exact E].
Qed.

Lemma synthesized_validated x i s s' r : synthesized uuid5 error_text o x i s = (s', Ok r) ->
  exists proposals, validated_answer uuid5 (cx_tenant_id x) (cx_run_id x) (coverage_of x (si_facts i) (si_evidence i))
    (si_evidence i) proposals = Ok (sr_answer r).
Proof using.
  clear Huuid. unfold synthesized. cbv zeta. destruct (so_model_synthesizer o); intros E; minv; [by eapply synthesize_validated|].
  unfold synthesize_deterministic in E. minv. eauto.
Qed.

Lemma partial_reason_cases x payload codes degraded no_claims now reason :
  partial_reason x payload codes degraded no_claims now = Ok reason ->
  reason ∈ [u "TIME_BUDGET"; u "PROVIDER_FAILURE"; u "INSUFFICIENT_EVIDENCE"].
Proof using.
  clear Huuid. unfold partial_reason. intros E. apply res_bind_ok_inv in E as (late & _ & E). rewrite !elem_of_cons.
  destruct (late || _); [injection E as <-; auto|]. destruct degraded; [injection E as <-; auto|].
  destruct (negb no_claims); [injection E as <-; auto|]. minv. destruct (0 <? _); auto.
Qed.

(** What the artifact of an answer says. *)
Lemma answer_artifact_inv x id_order payload i r s s' a :
  answer_artifact ports x id_order payload i r s = (s', Ok a) ->
  let answer := sr_answer r in let complete := is_complete x i answer (aa_degraded a) in
  aa_claims a = map (claim_dict answer) (va_claims answer) /\ aa_missing a = id_order (missing_ids (si_facts i) answer) /\
  aa_quality a = (if complete then u "COMPLETE" else u "PARTIAL") /\
  (if complete then aa_stop_reason a = u "FACTS_COVERED"
   else aa_stop_reason a ∈ [u "TIME_BUDGET"; u "PROVIDER_FAILURE"; u "INSUFFICIENT_EVIDENCE"]) /\
  exists d, model_degraded i r = Ok d /\ aa_degraded a = d || negb (bool_decide (si_pipeline_codes i = [])).
Proof using.
  clear Huuid. unfold answer_artifact. cbv zeta. intros E. apply bind_ok_inv in E as (s1 & degraded & E1 & E). minv.
  simplify_eq. cbn [aa_claims aa_missing aa_quality aa_stop_reason aa_degraded]. ksplit; try done.
  - destruct (is_complete _ _ _ _); minv; [done|]. by eapply partial_reason_cases.
  - by exists degraded.
Qed.

(** An artifact that says it is degraded. *)
Definition says_degraded (artifact : json) : Prop := exists v, get_default artifact "degraded" JNull = Ok v /\ truthy v = true.

Lemma model_degraded_iff i r d : model_degraded i r = Ok d ->
  d = true <-> says_degraded (si_plan i) \/ says_degraded (si_verification i) \/ sr_degraded r = true.
Proof using.
  clear Huuid. unfold model_degraded. intros E. apply res_bind_ok_inv in E as (p & Hp & E). apply res_bind_ok_inv in E as (v & Hv & E).
  injection E as <-. rewrite !orb_true_iff. unfold says_degraded. rewrite Hp, Hv. naive_solver.
Qed.

(** The model that was asked to write the answer failed. *)
Definition model_failed (x : StepExecutionContext) (i : SynthesisInput) (s : S) : Prop :=
  so_model_synthesizer o = true /\ asks_model (si_evidence i) /\ exists context, model_context x = Ok context /\
    synthesis_fails error_text (si_facts i) (coverage_of x (si_facts i) (si_evidence i)) (si_evidence i) context (cx_deadline_at x) s.

Lemma synthesized_degraded x i s s' r : synthesized uuid5 error_text o x i s = (s', Ok r) ->
  sr_degraded r = true <-> model_failed x i s.
Proof using.
  clear Huuid. unfold synthesized, model_failed. cbv zeta. destruct (so_model_synthesizer o); intros E.
  - apply bind_ok_inv in E as (s1 & context & Hc & E). apply lift_ok_inv in Hc as [Hc ->].
    rewrite (synthesize_degraded _ _ _ _ _ _ _ _ _ _ _ _ E), Hc. naive_solver.
  - unfold synthesize_deterministic in E. minv. naive_solver.
Qed.

(** Something on the way to the answer was degraded: the plan, the verification, the pipeline or the model. *)
Definition degraded_on_the_way (x : StepExecutionContext) (i : SynthesisInput) (s : S) : Prop :=
  says_degraded (si_plan i) \/ says_degraded (si_verification i) \/ si_pipeline_codes i <> [] \/ model_failed x i s.

Lemma degraded_iff x i r s s' d : synthesized uuid5 error_text o x i s = (s', Ok r) -> model_degraded i r = Ok d ->
  d || negb (bool_decide (si_pipeline_codes i = [])) = true <-> degraded_on_the_way x i s.
Proof using.
  clear Huuid. intros Hr%synthesized_degraded Hd%model_degraded_iff. unfold degraded_on_the_way.
  rewrite orb_true_iff, negb_true_iff, bool_decide_eq_false, Hd, Hr. tauto.
Qed.

(** A fact is answered by a claim that a citation of the answer shows. *)
Definition answered (answer : ValidatedAnswer) (f : UUID) : Prop := exists claim c,
  claim ∈ va_claims answer /\ is_fact claim /\ ac_fact_requirement_id claim = Some f /\
  c ∈ va_citations answer /\ ci_answer_claim_id c = ac_id claim.

(** The evidence gives a fact the coverage that a complete answer needs. *)
Definition enough (x : StepExecutionContext) (i : SynthesisInput) (f : UUID) : Prop := exists a,
  dget f (coverage_of x (si_facts i) (si_evidence i)) = Some a /\
  (ca_status a = FactCoverage_COVERED \/ ca_status a = FactCoverage_VERIFIED).

Lemma supported_iff answer f : f ∈ supported_fact_ids answer <-> exists claim,
  claim ∈ va_claims answer /\ is_fact claim /\ ac_evidence_ids claim <> [] /\ ac_fact_requirement_id claim = Some f.
Proof using.
  clear Huuid. unfold supported_fact_ids. rewrite list_elem_of_omap. split.
  - intros (claim & [[? ?] ?]%list_elem_of_filter & ?). by exists claim.
  - intros (claim & ? & ? & ? & ?). exists claim. split; [|done]. by apply list_elem_of_filter.
Qed.

Lemma validated_supported tenant run coverage evidence proposals answer f :
  validated_answer uuid5 tenant run coverage evidence proposals = Ok answer ->
  f ∈ supported_fact_ids answer <-> answered answer f.
Proof using.
  clear Huuid. unfold validated_answer. intros E. apply res_bind_ok_inv in E as (d & _ & E).
  apply answer_traceable_facts in E as (Htr & _). rewrite Forall_forall in Htr. rewrite supported_iff. split.
  - intros (claim & Hc & Hk & _ & Hf). destruct (Htr _ Hc Hk) as (es & Hne & _ & _ & _ & Hshow).
    destruct es as [|e es]; [done|]. apply Forall_cons in Hshow as [(c & Hin & Hs) _]. exists claim, c. ksplit; try done. apply Hs.
  - intros (claim & c & Hc & Hk & Hf & _). exists claim. ksplit; try done.
    destruct (Htr _ Hc Hk) as (es & Hne & -> & _). by destruct es.
Qed.

Lemma is_complete_iff x i answer degraded : is_complete x i answer degraded = true <->
  required_ids (si_facts i) <> [] /\
  (forall f, f ∈ required_ids (si_facts i) -> f ∈ supported_fact_ids answer /\ enough x i f) /\ degraded = false.
Proof using.
  clear Huuid. unfold is_complete. cbv zeta. rewrite !andb_true_iff, !negb_true_iff, bool_decide_eq_false, !forallb_forall. split.
  - intros [[[Hne Hs] Hc] Hd]. ksplit; try done. intros f Hf%list_elem_of_In. split; [by eapply bool_decide_eq_true_1, Hs|].
    specialize (Hc f Hf). destruct (dget f _) as [a|] eqn:Ea; [|done]. exists a. split; [done|].
    apply bool_decide_eq_true_1 in Hc. rewrite !elem_of_cons, elem_of_nil in Hc.
    destruct Hc as [Hc|[Hc|[]]]; [by left|by right].
  - intros (Hne & Hall & Hd). repeat split; try done; intros f Hf%list_elem_of_In; apply Hall in Hf as [Hs (a & Ea & Hst)].
    + by apply bool_decide_eq_true_2.
    + rewrite Ea. apply bool_decide_eq_true_2. destruct Hst as [-> | ->]; [left|right; left].
Qed.

(** Claim C2. Across the verify step, the store and the synthesis step, with or without a model in either:
    every citation of the answer is a span of the text of an extracted document that the verify step was
    given, of the version and at the address the citation names; every factual claim has a citation; and
    the claims that are written are those of the answer. *)
Theorem answer_stands_in_documents xv xs id_order payload_v payload_s ref v spent sv sv' ss ss' answer a :
  cx_tenant_id xs = cx_tenant_id xv ->
  step_json get_json xv = Ok payload_v ->
  verify_payload sha256_utf8 uuid5 error_text get_json get_bytes ports o xv sv = (sv', Ok (v, spent)) ->
  step_json get_json xs = Ok payload_s -> reference_at payload_s "verify_ref" = Ok ref ->
  get_json (cx_tenant_id xs) ref = Ok (sorted_json v) ->
  synthesize_answer sha256_utf8 uuid5 error_text get_json ports o xs id_order ss = (ss', Ok (answer, a)) ->
  aa_claims a = map (claim_dict answer) (va_claims answer) /\
  (forall claim, claim ∈ va_claims answer -> is_fact claim ->
     exists c, c ∈ va_citations answer /\ ci_answer_claim_id c = ac_id claim) /\
  exists refs, list_at payload_v "extract_refs" = Ok refs /\ Forall (stands (cx_tenant_id xv) refs) (va_citations answer).
Proof using Huuid.
  intros Ht Hpv Hv Hps Hr Hg E. destruct (verify_payload_stands _ _ _ _ _ _ Hpv Hv) as (refs & plan_ref & facts & batch & Hrefs & -> & Hall).
  unfold synthesize_answer in E. rewrite Hps in E. minv. simplify_eq. rewrite <- Ht in Hall |- *.
  match goal with Hi : synthesis_input _ _ _ _ = Ok _ |- _ => pose proof (synthesis_input_stands _ _ _ _ _ _ _ _ _ Hr Hg Hall Hi) as Hev end.
  match goal with Hs : synthesized _ _ _ _ _ _ = _ |- _ => apply synthesized_validated in Hs as [proposals Hs]; rename Hs into Hval end.
  match goal with Ha : answer_artifact _ _ _ _ _ _ _ = _ |- _ => apply answer_artifact_inv in Ha as (Hclaims & _) end.
  unfold validated_answer in Hval. apply res_bind_ok_inv in Hval as (d & Hd & Hval). apply draft_answer_inv in Hd as [Hdt Hdr].
  apply answer_traceable_facts in Hval as (Htr & Hj & _). split; [exact Hclaims|split].
  - rewrite Forall_forall in Htr. intros claim Hc Hk. destruct (Htr _ Hc Hk) as (es & Hne & _ & _ & _ & Hshow).
    destruct es as [|e es]; [done|]. apply Forall_cons in Hshow as [(c & Hin & Hs) _]. exists c. split; [done|]. apply Hs.
  - exists refs. split; [done|]. eapply Forall_impl; [exact Hj|]. intros c (claim & e & _ & _ & (Hget & _) & Hs & _).
    apply dict_by_Some in Hget as [Hin _]. rewrite Forall_forall in Hev. destruct (Hev _ Hin) as (text & Hst & Hb & Hq & _).
    destruct Hs as (_ & _ & _ & _ & Ev & _ & Eu & Eq & Es & Ee). exists text. by rewrite Ev, Eu, Eq, Es, Ee.
Qed.

(** Claim C3. An answer is called complete exactly when it is: when there are required facts, each of them has
    evidence enough and is answered by a cited claim, and nothing on the way was degraded: neither the plan nor
    the verification says that it is, the pipeline hands no code of a degradation over, and the model, when
    it is asked to write the answer, does not fail. The answer says that it is degraded exactly when one of
    them was. An answer that is not complete is partial, with a reason; and the facts it lists as missing are
    the required ones that no cited claim answers. *)
Theorem complete_answer_sound x id_order payload i s s' answer a : (forall l, id_order l ≡ₚ l) ->
  step_json get_json x = Ok payload -> synthesis_input sha256_utf8 get_json x payload = Ok i ->
  synthesize_answer sha256_utf8 uuid5 error_text get_json ports o x id_order s = (s', Ok (answer, a)) ->
  (aa_quality a = u "COMPLETE" <-> required_ids (si_facts i) <> [] /\
     (forall f, f ∈ required_ids (si_facts i) -> answered answer f /\ enough x i f) /\
     ~ says_degraded (si_plan i) /\ ~ says_degraded (si_verification i) /\ si_pipeline_codes i = [] /\ ~ model_failed x i s) /\
  (aa_degraded a = true <-> degraded_on_the_way x i s) /\
  (aa_quality a = u "COMPLETE" -> aa_missing a = [] /\ aa_stop_reason a = u "FACTS_COVERED") /\
  (aa_quality a <> u "COMPLETE" -> aa_quality a = u "PARTIAL" /\
     aa_stop_reason a ∈ [u "TIME_BUDGET"; u "PROVIDER_FAILURE"; u "INSUFFICIENT_EVIDENCE"]) /\
  (forall f, f ∈ aa_missing a <-> f ∈ required_ids (si_facts i) /\ ~ answered answer f).
Proof using.
  clear Huuid. intros Horder Hp Hi E. unfold synthesize_answer in E. rewrite Hp in E. minv. simplify_eq.
  match goal with Hj : synthesis_input _ _ _ _ = Ok _ |- _ => rewrite Hi in Hj; injection Hj as <- end.
  match goal with Ha : answer_artifact _ _ _ _ _ _ _ = _ |- _ => apply answer_artifact_inv in Ha as (_ & Hm & Hq & Hstop & d & Hmd & Hd) end.
  match goal with Hs : synthesized _ _ _ _ _ _ = _ |- _ => pose proof (degraded_iff _ _ _ _ _ _ Hs Hmd) as Hdeg;
    apply synthesized_validated in Hs as [proposals Hs] end. rewrite <- Hd in Hdeg.
  match goal with Hs : validated_answer _ _ _ _ _ _ = Ok _ |- _ => pose proof (fun f => validated_supported _ _ _ _ _ _ f Hs) as Hsup end.
  match goal with |- context [sr_answer ?r] => set (answer := sr_answer r) in * end.
  pose proof (is_complete_iff x i answer (aa_degraded a)) as Hc. setoid_rewrite Hsup in Hc.
  assert (Hnot : aa_degraded a = false <->
    ~ says_degraded (si_plan i) /\ ~ says_degraded (si_verification i) /\ si_pipeline_codes i = [] /\ ~ model_failed x i s).
  { rewrite <- not_true_iff_false, Hdeg. unfold degraded_on_the_way. destruct (si_pipeline_codes i); [tauto|naive_solver]. }
  rewrite <- Hnot, <- Hc.
  assert (Hmiss : forall f, f ∈ aa_missing a <-> f ∈ required_ids (si_facts i) /\ ~ answered answer f).
  { intros f. rewrite Hm, Horder. unfold missing_ids. rewrite list_elem_of_filter, Hsup. by rewrite (comm and). }
  assert (Hpartial : u "PARTIAL" <> u "COMPLETE") by done.
  destruct (is_complete x i answer (aa_degraded a)); rewrite Hq; (split; [done|split; [exact Hdeg|split; [|split; [|exact Hmiss]]]]).
  - intros _. split; [|done]. destruct (proj1 Hc eq_refl) as (_ & Hall & _).
    destruct (aa_missing a) as [|f l]; [done|]. destruct (Hmiss f) as [Hf _]. destruct Hf as [Hf Hn]; [left|].
    destruct Hn. by apply Hall.
  - done.
  - done.
  - intros _. by split.
Qed.
End Chain.
End Reading.

(** ** Examples *)

(** Identifiers are read from their own texts only; every time is the same text. *)
Definition ex_uuid_of_text (t : pystr) : res UUID :=
  let n := foldl (fun n c => 16 * n + (if 97 <=? c then c - 87 else c - 48)) 0 (base.filter (fun c => c <> 45) t) in
  if bool_decide (str_of_uuid n = t) then Ok n else Raise (ValueError "badly formed hexadecimal UUID string").

Definition ex_reader : PyText := {|
  repr_text := fun _ => []; int_of_text := fun _ => Raise (ValueError "int"); float_of_text := fun _ => Raise (ValueError "float");
  uuid_of_text := ex_uuid_of_text; datetime_of_text := fun _ => Ok (utc 7)
|}.

Lemma ex_reader_back : forall t i, @uuid_of_text ex_reader t = Ok i -> @uuid_of_text ex_reader (str_of_uuid i) = Ok i.
Proof.
  intros t i E. assert (str_of_uuid i = t) as ->; [|exact E]. revert E. change (@uuid_of_text ex_reader t) with (ex_uuid_of_text t).
  unfold ex_uuid_of_text. cbv zeta. generalize (foldl (fun n c => 16 * n + (if 97 <=? c then c - 87 else c - 48)) 0 (base.filter (fun c => c <> 45) t)).
  intros n. case_bool_decide as Hn; [|done]. by intros [= <-].
Qed.

Definition ex_codecs : Codecs := {| utf8_encode := Ok; utf8_decode := Ok; utf8_replace := id |}.

Definition ex_ref (c : Z) : ArtifactRef := {| ar_uri := u "artifact://x"; ar_sha256 := repeat c 64 |}.
Definition ex_ref_dict (c : Z) : json := obj [("uri", JStr (ar_uri (ex_ref c))); ("sha256", JStr (ar_sha256 (ex_ref c)))]%string.

Definition ex_step (key : string) (type : StepType) (input : Z) : StepExecutionContext := {|
  cx_tenant_id := 2; cx_run_id := 9; cx_step_id := 4; cx_step_key := u key; cx_step_type := type; cx_attempt_id := 5;
  cx_attempt_no := 1;
  cx_trace_context := {| tc_trace_id := []; tc_span_id := []; tc_trace_flags := []; tc_baggage := [] |};
  cx_deadline_at := utc 100; cx_input_ref := ex_ref input
|}.
Definition ex_verify_step := ex_step "verify" StepType_VERIFY 49.
Definition ex_synthesize_step := ex_step "synthesize" StepType_SYNTHESIZE 52.

Definition ex_modified : FactRequirement :=
  {| fr_key := u "git_modified"; fr_fact_type := FactType_BACKGROUND; fr_description := u "What modified means in Git";
     fr_subject := u "Git"; fr_required := true; fr_freshness := Freshness_STABLE; fr_consequence := Consequence_LOW;
     fr_preferred_source_kinds := [] |}.
Definition ex_modified_id : UUID := ex_uuid5 9 (u "fact:" ++ fr_key ex_modified).

Definition ex_page : ExtractedContent := {|
  xc_canonical_url := u "https://git-scm.com/book/en/v2/Getting-Started-What-is-Git"; xc_title := u "What is Git?";
  xc_text := chunk_text ex_git; xc_media_type := u "text/html"; xc_language := None; xc_source_content_hash := u "h";
  xc_fetched_at := utc 7
|}.

(** What the extract step writes of the page. *)
Definition ex_extracted : json :=
  match @document_entries ex_unicode ex_ip (ex_json JNull) id (fun _ => 1) ex_uuid5 ex_verify_step ex_page (ex_ref 51) with
  | Ok entries => obj (("hit", obj [("fact_ids", JList [juuid ex_modified_id])]) :: entries)%string
  | Raise _ => JNull
  end.

(** The artifacts: the input of the verify step, the plan, the page, the input of the synthesis, and a verification. *)
Definition ex_artifacts (verification : json) (t : UUID) (ref : ArtifactRef) : res json :=
  match ar_sha256 ref with
  | 49 :: _ => Ok (obj [("plan_ref", ex_ref_dict 50); ("extract_refs", JList [ex_ref_dict 53])]%string)
  | 50 :: _ => Ok (obj [("facts", JList [fact_dict ex_uuid5 9 ex_modified]);
                        ("intent", obj [("entity", jstr "Git"); ("locale", jstr "en")])]%string)
  | 52 :: _ => Ok (obj [("plan_ref", ex_ref_dict 50); ("verify_ref", ex_ref_dict 54)]%string)
  | 53 :: _ => Ok ex_extracted
  | _ => Ok (sorted_json verification)
  end.
Definition ex_texts (t : UUID) (ref : ArtifactRef) : res bytes := Ok (chunk_text ex_git).

Definition ex_ports : StepPorts unit := {|
  po_now := mret (utc 7); po_put_json := fun _ _ _ => mret (ex_ref 48); po_put_bytes := fun _ _ _ => mret (ex_ref 48);
  po_plan := fun _ _ _ => raise (ValueError "plan"); po_discover := fun _ _ _ _ => mret [];
  po_fetch := fun _ => raise (ValueError "fetch")
|}.
Definition ex_operations : SearchStepOperations :=
  {| so_provider_names := [u "direct"]; so_max_selected_hits := 4; so_model_verifier := false; so_model_synthesizer := false |}.

Definition ex_verified (verification : json) : unit * res (json * StepBudgetCost) :=
  @verify_payload ex_unicode ex_ip ex_suffixes ex_reader (ex_json JNull) insertion_order ex_codecs id ex_uuid5 (fun _ => [])
    (ex_artifacts verification) ex_texts unit (scripted_gateway []) ex_ports ex_operations ex_verify_step tt.
Definition ex_verification : json := match snd (ex_verified JNull) with Ok (v, _) => v | Raise _ => JNull end.

Definition ex_answered : unit * res (ValidatedAnswer * AnswerArtifact) :=
  @synthesize_answer ex_unicode ex_ip ex_reader (ex_json JNull) id ex_uuid5 (fun _ => []) (ex_artifacts ex_verification) unit
    (scripted_gateway []) ex_ports ex_operations ex_synthesize_step id tt.

(** The page is verified by a rule, and the answer that quotes it is complete. *)
Lemma ex_verified_ok : exists spent, ex_verified ex_verification = (tt, Ok (ex_verification, spent)).
Proof. eexists. vm_compute. reflexivity. Qed.

Lemma ex_answered_ok : exists answer a, ex_answered = (tt, Ok (answer, a)) /\ length (va_citations answer) = 1%nat /\
  aa_quality a = u "COMPLETE".
Proof. do 2 eexists. split; [vm_compute; reflexivity|]. split; vm_compute; reflexivity. Qed.

Lemma answer_stands_in_documents_witness : exists answer a refs, ex_answered = (tt, Ok (answer, a)) /\
  length (va_citations answer) = 1%nat /\
  Forall (@stands ex_reader ex_codecs (ex_artifacts ex_verification) ex_texts 2 refs) (va_citations answer).
Proof.
  destruct ex_verified_ok as [spent Hv], ex_answered_ok as (answer & a & Ha & Hl & _).
  assert (Hpv : exists p, @step_json (ex_artifacts ex_verification) ex_verify_step = Ok p) by (eexists; reflexivity).
  assert (Hps : exists p, @step_json (ex_artifacts ex_verification) ex_synthesize_step = Ok p /\
    @reference_at ex_reader p "verify_ref"%string = Ok (ex_ref 54)) by (eexists; split; [reflexivity|vm_compute; reflexivity]).
  destruct Hpv as [pv Hpv], Hps as (ps & Hps & Hr).
  unfold ex_verified in Hv. unfold ex_answered in Ha.
  destruct (@answer_stands_in_documents ex_unicode ex_ip ex_suffixes ex_reader (ex_json JNull) insertion_order ex_codecs
    id ex_uuid5 (fun _ => []) (ex_artifacts ex_verification) ex_texts ex_reader_back unit (scripted_gateway []) ex_ports ex_operations ex_verify_step ex_synthesize_step id pv ps (ex_ref 54) ex_verification spent tt tt tt tt answer a
    eq_refl Hpv Hv Hps Hr eq_refl Ha) as (_ & _ & refs & _ & Hall).
  exists answer, a, refs. split; [exact Ha|]. split; [exact Hl|exact Hall].
Defined.

Lemma complete_answer_sound_witness : exists answer a i, ex_answered = (tt, Ok (answer, a)) /\
  aa_quality a = u "COMPLETE" /\ Forall (answered answer) (required_ids (si_facts i)) /\ aa_missing a = [] /\
  ~ says_degraded (si_plan i) /\ ~ says_degraded (si_verification i) /\ aa_degraded a = false.
Proof.
  destruct ex_answered_ok as (answer & a & Ha & _ & Hq).
  assert (Hi : exists p i, @step_json (ex_artifacts ex_verification) ex_synthesize_step = Ok p /\
    @synthesis_input ex_unicode ex_ip ex_reader id (ex_artifacts ex_verification) ex_synthesize_step p = Ok i)
    by (do 2 eexists; split; [reflexivity|vm_compute; reflexivity]).
  destruct Hi as (p & i & Hp & Hi).
  unfold ex_answered in Ha.
  destruct (@complete_answer_sound ex_unicode ex_ip ex_reader (ex_json JNull) id ex_uuid5 (fun _ => []) (ex_artifacts ex_verification)
    unit (scripted_gateway []) ex_ports ex_operations ex_synthesize_step id p i tt tt answer a (fun l => Permutation_refl l) Hp Hi Ha) as (Hc & Hdeg & Hm & _).
  exists answer, a, i. split; [exact Ha|]. split; [exact Hq|]. destruct Hc as [Hc _]. destruct (Hc Hq) as (_ & Hall & Hplan & Hver & Hcodes & Hmodel).
  split; [|split; [exact (proj1 (Hm Hq))|split; [exact Hplan|split; [exact Hver|]]]].
  2:{ apply not_true_iff_false. intros Hd. apply Hdeg in Hd as [Hd|[Hd|[Hd|Hd]]]; [exact (Hplan Hd)|exact (Hver Hd)|exact (Hd Hcodes)|exact (Hmodel Hd)]. }
  apply Forall_forall. intros f Hf. exact (proj1 (Hall f Hf)).
Defined.
