(* ===== verification/ModelGatewayFacts.v ===== *)
(** * ModelGatewayFacts: what a gateway does, call by call

    With an audit, a gateway's events follow a small automaton: a call is reserved, made once, and
    sealed before the next one, and only a failure that allows it is tried again. *)

From Stdlib Require Import SpecFloat String.
From S2P Require Import Prelude Errors PyTime ModelGateway.

(** ** The protocol of an audited gateway *)

Inductive gw_phase := Idle | Reserved (call_no : Z) | Called (call_no : Z) (o : provider_outcome) | Stopped.

(** May a call that ended this way be tried again? *)
Definition try_again (o : provider_outcome) : bool :=
  match o with
  | Responded _ => false
  | ProviderTimedOut => true
  | ProviderRaised e => retryable e
  end.

Definition gw_next (ph : gw_phase) (ev : gw_event) : option gw_phase :=
  match ph, ev with
  | Idle, GwReused _ => Some Idle
  | Idle, GwReserved n => Some (Reserved n)
  | Reserved n, GwInvoked n' _ _ o => if n =? n' then Some (Called n o) else None
  | Reserved n, GwFailed n' => if n =? n' then Some Stopped else None
  | Called n (Responded _), GwCompleted n' => if n =? n' then Some Idle else None
  | Called n o, GwFailed n' =>
      if n =? n' then Some (if try_again o then Idle else Stopped) else None
  | _, _ => None
  end.

Fixpoint gw_run (ph : gw_phase) (evs : list gw_event) : option gw_phase :=
  match evs with
  | [] => Some ph
  | ev :: evs => ph' ← gw_next ph ev; gw_run ph' evs
  end.

Lemma gw_run_app ph evs evs' : gw_run ph (evs ++ evs') = ph' ← gw_run ph evs; gw_run ph' evs'.
Proof.
  revert ph. induction evs as [|ev evs IH]; intros ph; simpl; [done|]. destruct (gw_next ph ev); simpl; [apply IH|done].
Qed.

(** The numbers of the calls reserved, and how many provider calls were made. *)
Definition reserved_nos (evs : list gw_event) : list Z :=
  omap (fun ev => match ev with GwReserved n => Some n | _ => None end) evs.

Definition invoked (evs : list gw_event) : Z :=
  sumZ (fun ev => match ev with GwInvoked _ _ _ _ => 1 | _ => 0 end) evs.

(** A provider call is given what remains before the deadline less the margin, or less. *)
Definition in_time (c : RoleConfig) (ev : gw_event) : Prop :=
  match ev with
  | GwInvoked _ remaining timeout _ =>
      fle remaining model_completion_margin_seconds = false /\
      timeout = fmin (rg_request_timeout_seconds c) (fsub remaining model_completion_margin_seconds)
  | _ => True
  end.

Section Events.
Context {W : Type} (clock_now : W -> W * datetime)
  (provider_invoke : pystr -> ModelRequest -> float -> W -> W * provider_outcome)
  (providers : list pystr) (call_digest : LogicalCall -> pystr).

(** [did s s' evs]: between [s] and [s'] the gateway did [evs]. *)
Definition did (s s' : Gw W) (evs : list gw_event) : Prop := gw_events s' = gw_events s ++ evs.

Lemma did_nil s : did s s [].
Proof. unfold did. by rewrite app_nil_r. Qed.

Lemma did_trans s s1 s' evs evs' : did s s1 evs -> did s1 s' evs' -> did s s' (evs ++ evs').
Proof. unfold did. intros H1 H2. by rewrite H2, H1, app_assoc. Qed.

Lemma on_world_did {A} (m : M W A) s s' r : on_world m s = (s', r) -> did s s' [].
Proof. unfold on_world. destruct (m _). intros; simplify_eq. unfold did. simpl. by rewrite app_nil_r. Qed.

Lemma on_budget_did f s s' r : on_budget f s = (s', r) -> did s s' [].
Proof. unfold on_budget. destruct (f _); intros; simplify_eq; unfold did; simpl; by rewrite app_nil_r. Qed.

Lemma emit_did ev (s s' : Gw W) r : emit ev s = (s', r) -> did s s' [ev] /\ r = Ok tt.
Proof. unfold emit, update, did. intros H. by simplify_eq. Qed.

Lemma remaining_seconds_did deadline s s' r : remaining_seconds clock_now deadline s = (s', r) ->
  did s s' [] /\ match r with
                 | Ok _ => True
                 | Raise e => retryable e = false
                 end.
Proof.
  unfold remaining_seconds, raise_if, fail_if, on_world, lift, mbind, M_bind. simpl.
  destruct (negb (dt_aware deadline)); [intros; simplify_eq; split; [apply did_nil|done]|].
  destruct (clock_now (gw_world s)) as [w now]. simpl.
  assert (did s (Build_Gw w (gw_budget s) (gw_events s)) []) as Hd by (unfold did; simpl; by rewrite app_nil_r).
  unfold dt_sub. destruct (Bool.eqb _ _); [|intros; simplify_eq; by split].
  destruct (fle _ fzero); unfold mret, M_ret; intros; simplify_eq; by split.
Qed.

(** ** One call *)

Section OneCall.
Context (sink : AuditSink W) (q : ModelRequest) (c : RoleConfig) (deadline : datetime)
  (x : option ModelInvocationContext).

Lemma open_call_did call_no s s' r :
  open_call (Some sink) call_digest q c deadline x call_no s = (s', r) ->
  match r with
  | Ok (AlreadyAnswered _) => did s s' [GwReused call_no]
  | Ok (Open v) => did s s' [GwReserved call_no] /\ is_Some v /\ is_Some x
  | Raise _ => did s s' []
  end.
Proof using Type.
  unfold open_call. destruct x as [x'|]; [|unfold raise; intros; simplify_eq; apply did_nil].
  intros H. unfold mbind at 1, M_bind at 1 in H.
  destruct (on_world _ s) as [s1 [[ru|]|e]] eqn:E1; apply on_world_did in E1.
  - unfold mbind, M_bind in H. destruct (emit _ s1) as [s2 r2] eqn:E2. apply emit_did in E2 as [E2 ->].
    unfold mret, M_ret in H. simplify_eq. exact (did_trans _ _ _ _ _ E1 E2).
  - unfold mbind at 1, M_bind at 1 in H. destruct (on_world _ s1) as [s2 [v|e]] eqn:E2; apply on_world_did in E2.
    + unfold mbind, M_bind in H. destruct (emit _ s2) as [s3 r3] eqn:E3. apply emit_did in E3 as [E3 ->].
      unfold mret, M_ret in H. simplify_eq. split; [|by split; eexists].
      exact (did_trans _ _ _ _ _ E1 (did_trans _ _ _ _ _ E2 E3)).
    + simplify_eq. exact (did_trans _ _ _ _ _ E1 E2).
  - by simplify_eq.
Qed.

Lemma try_provider_did call_no s s' r :
  try_provider clock_now provider_invoke q c deadline call_no s = (s', r) ->
  exists o, r = Ok o /\
    ((did s s' [] /\ exists e, o = ProviderRaised e /\ retryable e = false) \/
     exists remaining timeout, did s s' [GwInvoked call_no remaining timeout o] /\
       in_time c (GwInvoked call_no remaining timeout o)).
Proof using Type.
  unfold try_provider. unfold mbind at 1, M_bind at 1.
  destruct (remaining_seconds clock_now deadline s) as [s1 [rem|e]] eqn:E1; apply remaining_seconds_did in E1 as [E1 Hr].
  2:{ intros; simplify_eq. eexists. split; [reflexivity|]. left. eauto. }
  unfold mbind at 1, M_bind at 1, raise_if, fail_if. destruct (fle rem _) eqn:Ef.
  { intros; simplify_eq. eexists. split; [reflexivity|]. left. eauto. }
  unfold mbind at 1, M_bind at 1. destruct (on_world _ s1) as [s2 [o|e]] eqn:E2.
  2:{ unfold on_world in E2. destruct (provider_invoke _ _ _ _); simplify_eq. }
  apply on_world_did in E2. unfold mbind, M_bind. destruct (emit _ s2) as [s3 r3] eqn:E3.
  apply emit_did in E3 as [E3 ->]. unfold mret, M_ret. intros; simplify_eq.
  eexists. split; [reflexivity|]. right. do 2 eexists. split; [|by split].
  exact (did_trans _ _ _ _ _ E1 (did_trans _ _ _ _ _ E2 E3)).
Qed.

Lemma fail_call_did call_no v e s s' r : is_Some v -> is_Some x ->
  fail_call (Some sink) x call_no v e s = (s', r) ->
  match r with Ok _ => did s s' [GwFailed call_no] | Raise _ => did s s' [] end.
Proof using Type.
  intros [v' ->] [x' Ex]. rewrite Ex. unfold fail_call, mbind at 1, M_bind at 1, lift.
  destruct (RedactedInvocationError_from_exception e); [|intros; simplify_eq; apply did_nil].
  unfold mbind, M_bind. destruct (on_world _ s) as [s1 [[]|e']] eqn:E1; apply on_world_did in E1; intros H.
  - apply emit_did in H as [H ->]. exact (did_trans _ _ _ _ _ E1 H).
  - by simplify_eq.
Qed.

Lemma complete_call_did call_no v response s s' r : is_Some v -> is_Some x ->
  complete_call (Some sink) x call_no v response s = (s', r) ->
  match r with Ok _ => did s s' [GwCompleted call_no] | Raise _ => did s s' [] end.
Proof using Type.
  intros [v' ->] [x' Ex]. rewrite Ex. unfold complete_call, mbind, M_bind.
  destruct (on_world _ s) as [s1 [[]|e']] eqn:E1; apply on_world_did in E1; intros H.
  - apply emit_did in H as [H ->]. exact (did_trans _ _ _ _ _ E1 H).
  - by simplify_eq.
Qed.

(** ** The calls of one request *)

Context (Hx : is_Some x) (start : Z).

(** The events of a request whose first call is number [first]: [k] calls, reserved in order. *)
Record session (first : Z) (k : nat) (evs : list gw_event) (ph : gw_phase) : Prop := {
  ss_run : gw_run Idle evs = Some ph;
  ss_time : Forall (in_time c) evs;
  ss_nos : reserved_nos evs = seqZ first (Z.of_nat k);
  ss_invoked : 0 <= invoked evs <= Z.of_nat k
}.

Lemma session_nil first : session first 0 [] Idle.
Proof using Type. by split. Qed.

(** A call that is tried again, before the rest of the session. *)
Lemma session_cons first k evs ph rem t o : session (first + 1) k evs ph -> try_again o = true ->
  in_time c (GwInvoked first rem t o) ->
  session first (S k) ([GwReserved first; GwInvoked first rem t o; GwFailed first] ++ evs) ph.
Proof using Type.
  intros [H1 H2 H3 H4] Ho Ht. split.
  - simpl. rewrite !Z.eqb_refl. simpl. destruct o; simpl in *; [done|..]; rewrite Z.eqb_refl; [done|]. by rewrite Ho.
  - by repeat (constructor; [done|]).
  - simpl. rewrite H3, (seqZ_cons first) by lia. f_equal. f_equal; lia.
  - unfold invoked in *. simpl. lia.
Qed.

(** What a request returns with [k] calls made. *)
Definition returned (calls : Z) (k : nat) (evs : list gw_event) (ph : gw_phase) (r : res (ProviderResponse * Z)) : Prop :=
  match r with
  | Ok (_, calls') => ph = Idle /\ calls' = calls + Z.of_nat k /\ invoked evs = Z.of_nat k
  | Raise _ => True
  end.

(** A call that ends the session, with the events [last] after its reservation. *)
Lemma session_last first last ph : gw_run (Reserved first) last = Some ph -> Forall (in_time c) last ->
  reserved_nos last = [] -> 0 <= invoked last <= 1 -> session first 1 (GwReserved first :: last) ph.
Proof using Type.
  intros H1 H2 H3 H4. split; [done|by constructor|simpl; by rewrite H3|unfold invoked in *; simpl; lia].
Qed.

(** The exception a call that was not answered ends with. *)
Definition failure_of (o : provider_outcome) : option exn :=
  match o with
  | Responded _ => None
  | ProviderTimedOut => Some (Typed model_timeout_error)
  | ProviderRaised e => Some e
  end.

Lemma failure_again o e : failure_of o = Some e -> try_again o = retryable e.
Proof using Type. destruct o; intros [= <-]; done. Qed.

(** From the failure of a call on: it is sealed, and the session ends or goes on. *)
Lemma failed_call_did (again : M (Gw W) (ProviderResponse * Z)) calls n v e b o rem t s s3 s' r first :
  is_Some v -> failure_of o = Some e -> in_time c (GwInvoked first rem t o) ->
  did s s3 [GwReserved first; GwInvoked first rem t o] ->
  (fail_call (Some sink) x first v e ≫= (fun _ => if negb (retryable e) || b then raise e else again)) s3 = (s', r) ->
  (forall s4, again s4 = (s', r) -> exists k evs ph, did s4 s' evs /\ (k <= n)%nat /\
     session (first + 1) k evs ph /\ returned (calls + 1) k evs ph r) ->
  exists k evs ph, did s s' evs /\ (k <= S n)%nat /\ session first k evs ph /\ returned calls k evs ph r.
Proof using Hx.
  intros Hv Hf Ht D H IH. unfold mbind, M_bind in H. destruct (fail_call _ _ _ _ _ s3) as [s4 [[]|e']] eqn:E;
    apply fail_call_did in E; try done.
  2:{ simplify_eq. eexists 1%nat, _, _. split; [exact (did_trans _ _ _ _ _ D E)|]. split; [lia|]. split; [|done].
      apply (session_last first [GwInvoked first rem t o] (Called first o)); [simpl; by rewrite Z.eqb_refl|by repeat (constructor; [done|])|done|done]. }
  destruct (negb (retryable e) || b) eqn:Eb.
  - unfold raise in H. simplify_eq. eexists 1%nat, _, (if try_again o then Idle else Stopped).
    split; [exact (did_trans _ _ _ _ _ D E)|]. split; [lia|]. split; [|done].
    apply (session_last first [GwInvoked first rem t o; GwFailed first]);
      [|by repeat (constructor; [done|])|done|done].
    simpl. rewrite Z.eqb_refl. simpl. destruct o; [done|..]; by rewrite Z.eqb_refl.
  - apply orb_false_elim in Eb as [Er%negb_false_iff _].
    destruct (IH s4 H) as (k & evs & ph & D' & Hk & Hs & Hret).
    exists (S k), ([GwReserved first; GwInvoked first rem t o; GwFailed first] ++ evs), ph.
    split; [exact (did_trans _ _ _ _ _ (did_trans _ _ _ _ _ D E) D')|]. split; [lia|]. split.
    + apply session_cons; [done| |done]. by rewrite (failure_again o e).
    + destruct r as [[resp calls']|]; [|done]. destruct Hret as (-> & -> & Hi). split; [done|]. split; [lia|].
      unfold invoked in *. simpl. lia.
Qed.

Lemma loop_did n attempt calls s s' r :
  invoke_loop (Some sink) clock_now provider_invoke call_digest q c deadline x start n attempt calls s = (s', r) ->
  exists k evs ph, did s s' evs /\ (k <= n)%nat /\ session (start + calls + 1) k evs ph /\ returned calls k evs ph r.
Proof using Hx.
  revert attempt calls s. induction n as [|n IH]; intros attempt calls s H.
  { cbn [invoke_loop] in H. unfold raise in H. simplify_eq. exists 0%nat, [], Idle. by repeat split; try apply did_nil. }
  cbn [invoke_loop] in H. unfold mbind at 1, M_bind at 1 in H.
  destruct (remaining_seconds clock_now deadline s) as [s1 [rem|e]] eqn:E1; apply remaining_seconds_did in E1 as [E1 _];
    [|simplify_eq; exists 0%nat, [], Idle; split; [done|]; split; [lia|]; by split; [apply session_nil|]].
  unfold mbind at 1, M_bind at 1, raise_if, fail_if in H. destruct (fle rem _);
    [simplify_eq; exists 0%nat, [], Idle; split; [done|]; split; [lia|]; by split; [apply session_nil|]|].
  unfold mbind at 1, M_bind at 1 in H. set (no := start + calls + 1) in *.
  destruct (open_call _ _ _ _ _ _ _ s1) as [s2 [[resp|v]|e]] eqn:E2; apply open_call_did in E2.
  { unfold mret, M_ret in H. simplify_eq. exists 0%nat, [GwReused no], Idle.
    split; [exact (did_trans _ _ _ _ _ E1 E2)|]. split; [lia|]. split; [by split; repeat constructor|].
    split; [done|]. split; [lia|done]. }
  2:{ simplify_eq. exists 0%nat, [], Idle. split; [exact (did_trans _ _ _ _ _ E1 E2)|]. split; [lia|].
      by split; [apply session_nil|]. }
  destruct E2 as (E2 & Hv & _). pose proof (did_trans _ _ _ _ _ E1 E2) as D2. clear E1 E2.
  unfold mbind at 1, M_bind at 1 in H. destruct (try_provider _ _ _ _ _ _ s2) as [s3 r3] eqn:E3.
  apply try_provider_did in E3 as (o & -> & Ho). simpl app in D2.
  assert (forall s4, (fun s => invoke_loop (Some sink) clock_now provider_invoke call_digest q c deadline x start n
      (attempt + 1) (calls + 1) s) s4 = (s', r) -> exists k evs ph, did s4 s' evs /\ (k <= n)%nat /\
      session (no + 1) k evs ph /\ returned (calls + 1) k evs ph r) as IH'.
  { intros s4 H4. destruct (IH _ _ _ H4) as (k & evs & ph & Hr). exists k, evs, ph.
    by replace (no + 1) with (start + (calls + 1) + 1) by (unfold no; lia). }
  destruct Ho as [(D3 & e & -> & He)|(rem' & t & D3 & Ht)].
  - unfold mbind, M_bind in H. rewrite He in H. cbn [negb orb] in H. pose proof (did_trans _ _ _ _ _ D2 D3) as D.
    destruct (fail_call _ _ _ _ _ s3) as [s4 [[]|e']] eqn:E4; apply fail_call_did in E4; try done.
    + unfold raise in H. simplify_eq. eexists 1%nat, _, Stopped. split; [exact (did_trans _ _ _ _ _ D E4)|].
      split; [lia|]. split; [|done]. apply (session_last no [GwFailed no]); [simpl; by rewrite Z.eqb_refl|by repeat constructor|done|done].
    + simplify_eq. eexists 1%nat, _, (Reserved no). split; [exact (did_trans _ _ _ _ _ D E4)|].
      split; [lia|]. split; [|done]. by apply (session_last no []).
  - pose proof (did_trans _ _ _ _ _ D2 D3) as D. simpl app in D. destruct o as [resp| |e].
    + unfold mbind, M_bind in H. destruct (complete_call _ _ _ _ _ s3) as [s4 [[]|e']] eqn:E4;
        apply complete_call_did in E4; try done.
      * unfold mret, M_ret in H. simplify_eq. eexists 1%nat, _, Idle. split; [exact (did_trans _ _ _ _ _ D E4)|].
        split; [lia|]. split; [|done].
        apply (session_last no [GwInvoked no rem' t (Responded resp); GwCompleted no]);
          [simpl; by rewrite !Z.eqb_refl; simpl; rewrite ?Z.eqb_refl|by repeat (constructor; [done|])|done|done].
      * simplify_eq. eexists 1%nat, _, (Called no (Responded resp)). split; [exact (did_trans _ _ _ _ _ D E4)|].
        split; [lia|]. split; [|done].
        apply (session_last no [GwInvoked no rem' t (Responded resp)]);
          [simpl; by rewrite Z.eqb_refl|by repeat (constructor; [done|])|done|done].
    + by eapply (failed_call_did _ calls n v (Typed model_timeout_error) (rg_max_retries c <=? attempt)
                  ProviderTimedOut rem' t s s3 s' r no Hv eq_refl Ht D H IH').
    + by eapply (failed_call_did _ calls n v e (rg_max_retries c <=? attempt)
                  (ProviderRaised e) rem' t s s3 s' r no Hv eq_refl Ht D H IH').
Qed.
End OneCall.

(** ** A whole generation: one request and at most one repair *)

Section Generate.
Context {P : Type} (sink : AuditSink W) (roles : list (ModelRole * RoleConfig)).

Lemma gw_invoke_did q c deadline x start s s' r : is_Some x ->
  gw_invoke (Some sink) clock_now provider_invoke providers call_digest q c deadline x start s = (s', r) ->
  exists k evs ph, did s s' evs /\ (k <= Z.to_nat (rg_max_retries c + 1))%nat /\
    session c (start + 1) k evs ph /\ returned 0 k evs ph r.
Proof using Type.
  intros Hx H. unfold gw_invoke, raise_if, fail_if in H. unfold mbind, M_bind in H.
  destruct (negb _); [simplify_eq|].
  - exists 0%nat, [], Idle. split; [apply did_nil|]. split; [lia|]. split; [apply session_nil|done].
  - apply loop_did in H; [|done]. by replace (start + 0 + 1) with (start + 1) in H by lia.
Qed.

(** The events of a generation: a session of the request, then perhaps one of the repair. *)
Definition generation (c : RoleConfig) (evs : list gw_event) (ph : gw_phase) : Prop :=
  gw_run Idle evs = Some ph /\ Forall (in_time c) evs /\
  StronglySorted Z.lt (reserved_nos evs) /\ Forall (fun n => 1 <= n) (reserved_nos evs) /\
  0 <= invoked evs <= Z.of_nat (length (reserved_nos evs)) /\
  Z.of_nat (length (reserved_nos evs)) <= 2 * (rg_max_retries c + 1).

Lemma seqZ_sorted first n : StronglySorted Z.lt (seqZ first n).
Proof using Type.
  destruct (Z.le_gt_cases n 0) as [Hn|Hn]; [rewrite seqZ_nil by lia; constructor|]. replace n with (Z.of_nat (Z.to_nat n)) by lia.
  clear Hn. generalize (Z.to_nat n) as k. intros k. revert first. induction k as [|k IH]; intros first; [constructor|].
  rewrite seqZ_cons by lia. replace (Z.pred (Z.of_nat (S k))) with (Z.of_nat k) by lia. constructor; [apply IH|].
  apply Forall_seqZ. lia.
Qed.

Lemma one_session c k evs ph : 0 <= rg_max_retries c -> (k <= Z.to_nat (rg_max_retries c + 1))%nat ->
  session c 1 k evs ph -> generation c evs ph.
Proof using Type.
  intros Hc Hk [H1 H2 H3 H4]. unfold generation. rewrite H3, length_seqZ. split; [done|]. split; [done|].
  split; [apply seqZ_sorted|]. split; [apply Forall_seqZ; lia|]. split; lia.
Qed.

Lemma two_sessions c k1 evs1 k2 evs2 ph : 0 <= rg_max_retries c ->
  (k1 <= Z.to_nat (rg_max_retries c + 1))%nat -> (k2 <= Z.to_nat (rg_max_retries c + 1))%nat ->
  session c 1 k1 evs1 Idle -> session c (Z.max (Z.of_nat k1) 1 + 1) k2 evs2 ph ->
  generation c (evs1 ++ evs2) ph.
Proof using Type.
  intros Hc Hk1 Hk2 [A1 A2 A3 A4] [B1 B2 B3 B4].
  assert (reserved_nos (evs1 ++ evs2) = seqZ 1 (Z.of_nat k1) ++ seqZ (Z.max (Z.of_nat k1) 1 + 1) (Z.of_nat k2)) as En
    by (unfold reserved_nos in *; by rewrite omap_app, A3, B3).
  unfold generation. rewrite En, length_app, !length_seqZ, gw_run_app, A1.
  split; [done|]. split; [by apply Forall_app|]. split; [|split; [|split]].
  - apply StronglySorted_app_2; [|apply seqZ_sorted..]. intros a b Ha%elem_of_seqZ Hb%elem_of_seqZ. lia.
  - apply Forall_app. split; apply Forall_seqZ; lia.
  - unfold invoked in *. rewrite sumZ_app. lia.
  - lia.
Qed.

(** Claim C27. The protocol of an audited gateway. Whatever its clock, its providers, its parser
    and its audit answer, everything one [generate] does follows the protocol: a provider is only
    called under a reservation of its own, once, and that call is sealed (completed when it answered,
    failed when it did not) before anything else is reserved; after a failure only a retryable one
    is followed by another call; call numbers strictly increase from one; there are at most twice
    [max_retries + 1] calls, one session for the request and one for a repair; each call gets a
    timeout of at most the configured one and what remains before the deadline less the margin. When
    it returns, no reservation is open and the result's [provider_calls] is the number of provider
    calls made. *)
Theorem gateway_protocol role messages deadline (parser : option (StructuredOutputParser P)) x c s s' r :
  list_find (fun kv : ModelRole * RoleConfig => kv.1 = role) roles = Some c -> RoleConfig_new c.2.2 = Ok c.2.2 ->
  is_Some x ->
  gw_generate (Some sink) clock_now provider_invoke providers roles call_digest role messages deadline parser x s
    = (s', r) ->
  exists evs ph, did s s' evs /\
    gw_run Idle evs = Some ph /\ Forall (in_time c.2.2) evs /\
    StronglySorted Z.lt (reserved_nos evs) /\ Forall (fun n => 1 <= n) (reserved_nos evs) /\
    0 <= invoked evs <= Z.of_nat (length (reserved_nos evs)) /\
    Z.of_nat (length (reserved_nos evs)) <= 2 * (rg_max_retries c.2.2 + 1) /\
    match r with
    | Ok result => ph = Idle /\ mr_provider_calls result = invoked evs
    | Raise _ => True
    end.
Proof using Type.
  destruct c as [i [role' c]]. simpl. intros Hrole Hc Hx H. unfold gw_generate in H. rewrite Hrole in H.
  assert (0 <= rg_max_retries c) as Hmax by (unfold RoleConfig_new in Hc; minv; bools; lia).
  pose (post := fun evs ph (r : res (ModelResult P)) => generation c evs ph /\ match r with
    | Ok result => ph = Idle /\ mr_provider_calls result = invoked evs | Raise _ => True end).
  assert (exists evs ph, did s s' evs /\ post evs ph r) as (evs & ph & D & (G1 & G2 & G3 & G4 & G5 & G6) & Hr).
  2:{ by exists evs, ph. }
  unfold mbind at 1, M_bind at 1, lift at 1 in H. destruct (role_request role c messages _) as [q|e].
  2:{ simplify_eq. exists [], Idle. split; [apply did_nil|]. split; [apply (one_session c 0); [done|lia|apply session_nil]|done]. }
  unfold mbind at 1, M_bind at 1 in H.
  destruct (gw_invoke _ _ _ _ _ q c deadline x 0 s) as [s1 r1] eqn:E1. apply gw_invoke_did in E1; [|done].
  destruct E1 as (k1 & evs1 & ph1 & D1 & Hk1 & S1 & R1). simpl in S1.
  pose proof (one_session c k1 evs1 ph1 Hmax Hk1 S1) as G1.
  destruct r1 as [[response calls]|e]; [|simplify_eq; by exists evs1, ph1].
  destruct R1 as (-> & Hcalls & Hinv). rewrite Z.add_0_l in Hcalls. subst calls.
  assert (forall (o : res (ModelResult P)), match o with Ok v => mr_provider_calls v = Z.of_nat k1 | Raise _ => True end ->
    (s1, o) = (s', r) -> exists evs ph, did s s' evs /\ post evs ph r) as Hdone.
  { intros o Ho [= <- <-]. exists evs1, Idle. split; [done|]. split; [done|]. destruct o; [|done]. by rewrite Ho. }
  destruct parser as [parser|]; [|by refine (Hdone (Ok _) _ H)].
  destruct (so_parse parser (pr_text response)) as [v|e]; [by refine (Hdone (Ok _) _ H)|].
  destruct (negb (is_parse_error e)); [by refine (Hdone (Raise e) _ H)|].
  unfold mbind at 1, M_bind at 1, lift at 1 in H. destruct (repair_messages _ _ _) as [repair|e1]; [|by refine (Hdone (Raise e1) _ H)].
  unfold mbind at 1, M_bind at 1, lift at 1 in H. destruct (role_request role c repair _) as [q2|e1]; [|by refine (Hdone (Raise e1) _ H)].
  clear Hdone. unfold mbind at 1, M_bind at 1 in H.
  destruct (gw_invoke _ _ _ _ _ q2 c deadline x _ s1) as [s2 r2] eqn:E2. apply gw_invoke_did in E2; [|done].
  destruct E2 as (k2 & evs2 & ph2 & D2 & Hk2 & S2 & R2).
  pose proof (two_sessions c k1 evs1 k2 evs2 ph2 Hmax Hk1 Hk2 S1 S2) as G2. pose proof (did_trans _ _ _ _ _ D1 D2) as D.
  exists (evs1 ++ evs2), ph2. destruct r2 as [[repaired calls2]|e2]; [|simplify_eq; by repeat split; try apply G2].
  destruct R2 as (-> & Hc2 & Hi2). rewrite Z.add_0_l in Hc2. subst calls2.
  destruct (so_parse parser (pr_text repaired)); unfold mret, M_ret, raise in H; simplify_eq; split; try done; split; try done.
  split; [done|]. simpl. unfold invoked in *. rewrite sumZ_app. lia.
Qed.
End Generate.
End Events.

(** ** Examples *)

(** A sink that reserves everything, and a world that is what the provider will answer. *)
Definition plain_sink : AuditSink (list provider_outcome) := {|
  sink_reuse x q provider call_no key deadline := mret None;
  sink_start x q provider call_no key deadline :=
    mret {| mv_id := call_no; mv_call_no := call_no; mv_logical_call_key := key |};
  sink_complete v x response := mret tt;
  sink_fail v x error := mret tt
|}.

Definition plain_role : RoleConfig :=
  {| rg_provider := u "p"; rg_model := u "m"; rg_temperature := fzero; rg_max_output_tokens := 1024;
     rg_max_retries := 1; rg_request_timeout_seconds := float_of_Z 5;
     rg_output_format := OutputFormat_JSON_OBJECT; rg_thinking_mode := ThinkingMode_DISABLED;
     rg_prompt_template_version := u "v1"; rg_parser_schema_version := u "v1" |}.

Definition plain_context : ModelInvocationContext :=
  {| mx_tenant_id := 2; mx_run_id := 1; mx_step_id := 10; mx_step_key := u "route";
     mx_attempt_id := 100; mx_attempt_no := 1; mx_input_refs := [] |}.

Definition plain_answer (text : pystr) : provider_outcome :=
  Responded {| pr_text := text; pr_model := u "m"; pr_prompt_tokens := 7; pr_completion_tokens := 3;
               pr_response_id := None |}.

Definition plain_start (script : list provider_outcome) : Gw (list provider_outcome) :=
  Build_Gw script {| mb_max_calls := 0; mb_max_total_tokens := 0; mb_used_calls := 0;
                     mb_used_prompt_tokens := 0; mb_used_completion_tokens := 0 |} [].

Definition plain_generate (script : list provider_outcome)
    : Gw (list provider_outcome) * res (ModelResult unit) :=
  gw_generate (Some plain_sink) (fun w => (w, utc 0))
    (fun _ _ _ w => match w with [] => ([], ProviderTimedOut) | o :: rest => (rest, o) end)
    [u "p"] [(ModelRole_ROUTER, plain_role)] (fun lc => str_of_Z (lc_call_no lc))
    ModelRole_ROUTER [{| mm_role := MessageRole_USER; mm_content := u "q" |}] (utc 10000000)
    (Some {| so_parse text := if bool_decide (text = u "{}") then Ok tt else Raise (ValueError "not an object");
             so_repair_instruction _ := u "Return JSON." |})
    (Some plain_context) (plain_start script).

(** A call that hangs is tried again; an answer that does not parse is repaired. *)
Example plain_repair :
  match plain_generate [ProviderTimedOut; plain_answer (u "oops"); plain_answer (u "{}")] with
  | (s, Ok r) => mr_provider_calls r = 3 /\ mr_repaired r = true /\ mr_prompt_tokens r = 14 /\
                 reserved_nos (gw_events s) = [1; 2; 3]
  | _ => False
  end.
Proof. vm_compute. done. Qed.

(** An answer of blanks cannot be quoted in the repair request: the generation fails with the message
    constructor's error. *)
Lemma blank_answer_unrepaired :
  snd (plain_generate [plain_answer (u " "); plain_answer (u "{}")])
  = Raise (ValueError "Model message content cannot be empty").
Proof. vm_compute. reflexivity. Qed.

(** An exception the gateway does not know cannot be redacted: its call stays open in the audit. *)
Lemma untyped_error_leaves_call_open :
  let '(s, r) := plain_generate [ProviderRaised (ValueError "bad payload")] in
  r = Raise (AttributeError "INFRASTRUCTURE") /\
  gw_run Idle (gw_events s) = Some (Called 1 (ProviderRaised (ValueError "bad payload"))).
Proof. vm_compute. done. Qed.

Lemma gateway_protocol_witness :
  exists evs ph, did (plain_start [ProviderTimedOut; plain_answer (u "{}")])
      (fst (plain_generate [ProviderTimedOut; plain_answer (u "{}")])) evs /\
    gw_run Idle evs = Some ph /\ Forall (in_time plain_role) evs /\
    StronglySorted Z.lt (reserved_nos evs) /\ Forall (fun n => 1 <= n) (reserved_nos evs) /\
    0 <= invoked evs <= Z.of_nat (length (reserved_nos evs)) /\
    Z.of_nat (length (reserved_nos evs)) <= 2 * (rg_max_retries plain_role + 1) /\
    match snd (plain_generate [ProviderTimedOut; plain_answer (u "{}")]) with
    | Ok result => ph = Idle /\ mr_provider_calls result = invoked evs
    | Raise _ => True
    end.
Proof.
  eapply (gateway_protocol _ _ [u "p"] _ plain_sink [(ModelRole_ROUTER, plain_role)] ModelRole_ROUTER _ _ _
    (Some plain_context) (0%nat, (ModelRole_ROUTER, plain_role)));
    [reflexivity | reflexivity | by exists plain_context | apply surjective_pairing].
Defined.
