(* ===== verification/ModelAudit.v ===== *)
(** * ModelAudit: the durable record of model calls

    [SqlModelInvocationAuditSink] of [sana/platform/db/model_audit.py] over the rows of the step
    store, with the sealing of open calls by [sana/app/reconciliation.py]. Every provider call is a
    row, reserved against the run's budget before it is made and sealed once. A row keeps what
    identifies the call, its state and its tokens; trace ids and character counts are left out.
    What the artifact store answers, the clock and fresh ids are arguments. *)

From Stdlib Require Import SpecFloat String.
From S2P Require Import Prelude Errors PyTime Transitions Run Step Policy Lease StepStore ModelGateway.

(** ** Rows *)

(** [@ src/sana/modules/model_gateway/domain.py ModelInvocationStatus] *)
Inductive ModelInvocationStatus :=
| Invocation_STARTED | Invocation_COMPLETED | Invocation_FAILED | Invocation_ABANDONED | Invocation_REUSED.

#[export] Instance ModelInvocationStatus_eq_dec : EqDecision ModelInvocationStatus.
Proof. solve_decision. Defined.

(** [@ src/sana/modules/model_gateway/domain.py BillingDisposition] *)
Inductive BillingDisposition := Billing_NOT_BILLED | Billing_BILLED | Billing_POSSIBLY_BILLED.

#[export] Instance BillingDisposition_eq_dec : EqDecision BillingDisposition.
Proof. solve_decision. Defined.

(** [@ src/sana/platform/db/models/model_gateway.py ModelInvocationRecord] *)
Record ModelInvocation := {
  mi_id : UUID;
  mi_tenant_id : UUID;
  mi_run_id : UUID;
  mi_step_id : UUID;
  mi_attempt_id : UUID;
  mi_reused_from_id : option UUID;
  mi_role : ModelRole;
  mi_provider : pystr;
  mi_model : pystr;
  mi_call_no : Z;
  mi_logical_call_key : pystr;
  mi_status : ModelInvocationStatus;
  mi_billing : BillingDisposition;
  mi_provider_called : bool;
  mi_prompt_tokens : Z;
  mi_completion_tokens : Z;
  mi_output : option ArtifactRef;
  mi_response_id : option pystr;
  mi_error : option (pystr * pystr);
  mi_started_at : datetime;
  mi_completed_at : option datetime
}.

Record ModelDb := { md_db : Db; md_invocations : gmap Z ModelInvocation }.

Definition set_db (d : Db) (m : ModelDb) : ModelDb := {| md_db := d; md_invocations := md_invocations m |}.
Definition set_invocations (i : gmap Z ModelInvocation) (m : ModelDb) : ModelDb :=
  {| md_db := md_db m; md_invocations := i |}.

(** A call of the step store. *)
Definition on_db {A} (f : M Db A) : M ModelDb A := fun m =>
  let '(d, r) := f (md_db m) in (set_db d m, r).

(** A row sealed with a status, its billing, tokens, output and error. *)
Definition mi_seal (status : ModelInvocationStatus) (billing : BillingDisposition)
    (tokens : Z * Z) (output : option ArtifactRef) (response_id : option pystr)
    (error : option (pystr * pystr)) (at_ : datetime) (i : ModelInvocation) : ModelInvocation :=
  {| mi_id := mi_id i; mi_tenant_id := mi_tenant_id i; mi_run_id := mi_run_id i;
     mi_step_id := mi_step_id i; mi_attempt_id := mi_attempt_id i;
     mi_reused_from_id := mi_reused_from_id i; mi_role := mi_role i; mi_provider := mi_provider i;
     mi_model := mi_model i; mi_call_no := mi_call_no i;
     mi_logical_call_key := mi_logical_call_key i; mi_status := status; mi_billing := billing;
     mi_provider_called := mi_provider_called i; mi_prompt_tokens := tokens.1;
     mi_completion_tokens := tokens.2; mi_output := output; mi_response_id := response_id;
     mi_error := error; mi_started_at := mi_started_at i; mi_completed_at := Some at_ |}.

(** [INSERT INTO model_invocations]: the primary key and the key of an attempt's calls. *)
Definition same_call (a b : ModelInvocation) : bool :=
  (mi_attempt_id a =? mi_attempt_id b) && bool_decide (mi_role a = mi_role b)
  && (mi_call_no a =? mi_call_no b).

Definition invocations (m : ModelDb) : list ModelInvocation := (map_to_list (md_invocations m)).*2.

Definition add_invocation (i : ModelInvocation) : M ModelDb unit :=
  m ← self;
  _ ← raise_if (bool_decide (is_Some (md_invocations m !! mi_id i)) || existsb (same_call i) (invocations m))
        (DatabaseError "duplicate key value violates unique constraint");
  update (fun m => set_invocations (<[mi_id i := i]> (md_invocations m)) m).

Definition save_invocation (i : ModelInvocation) : M ModelDb unit :=
  update (fun m => set_invocations (<[mi_id i := i]> (md_invocations m)) m).

(** The usage counters of a run's row, and its version. *)
Definition run_add_usage (calls prompt completion : Z) (r : SearchRun) : SearchRun :=
  let w := run_usage r in
  {| run_id := run_id r; run_tenant_id := run_tenant_id r;
     run_conversation_id := run_conversation_id r; run_message_id := run_message_id r;
     run_response_run_id := run_response_run_id r; run_routing := run_routing r;
     run_budget := run_budget r; run_status := run_status r;
     run_answer_quality := run_answer_quality r; run_stop_reason := run_stop_reason r;
     run_usage := {| bu_query_count := bu_query_count w; bu_provider_count := bu_provider_count w;
                     bu_fetch_count := bu_fetch_count w;
                     bu_llm_call_count := bu_llm_call_count w + calls;
                     bu_prompt_token_count := bu_prompt_token_count w + prompt;
                     bu_completion_token_count := bu_completion_token_count w + completion;
                     bu_expansion_rounds := bu_expansion_rounds w;
                     bu_phase_seconds := bu_phase_seconds w |};
     run_started_at := run_started_at r; run_completed_at := run_completed_at r;
     run_version := run_version r + 1; run_persisted_version := run_version r + 1 |}.

Definition save_run_row (i : UUID) (r : SearchRun) : M ModelDb unit :=
  update (fun m => set_db (set_runs (<[i := r]> (db_runs (md_db m))) (md_db m)) m).

(** [select(SearchRunRecord).where(tenant, id)] *)
Definition find_run (tenant_id run_id : UUID) (d : Db) : option SearchRun :=
  match db_runs d !! run_id with
  | Some r => if run_tenant_id r =? tenant_id then Some r else None
  | None => None
  end.

(** ** The sink *)

(** [@ src/sana/platform/db/model_audit.py SqlModelInvocationAuditSink._reject] *)
Definition audit_reject (code message : string) : exn :=
  Typed {| te_category := ErrorCategory_PERMANENT; te_code := u code; te_message := u message;
           te_retryable := false |}.

Definition find_step (x : ModelInvocationContext) (d : Db) : option SearchStep :=
  match db_steps d !! mx_step_id x with
  | Some s => if (step_tenant_id s =? mx_tenant_id x) && (step_run_id s =? mx_run_id x)
              then Some s else None
  | None => None
  end.

Definition find_attempt (x : ModelInvocationContext) (d : Db) : option StepAttempt :=
  match db_attempts d !! mx_attempt_id x with
  | Some a => if (at_tenant_id a =? mx_tenant_id x) && (at_step_id a =? mx_step_id x)
                 && (at_run_id a =? mx_run_id x) then Some a else None
  | None => None
  end.

(** [ORDER BY attempt_no DESC LIMIT 1] over the attempts of the step. *)
Definition is_latest (x : ModelInvocationContext) (d : Db) : bool :=
  let own := base.filter (fun a => at_tenant_id a = mx_tenant_id x) (attempts_of (mx_step_id x) d) in
  existsb (fun a => at_attempt_no a =? mx_attempt_no x) own
  && forallb (fun a => at_attempt_no a <=? mx_attempt_no x) own.

(** [@ src/sana/platform/db/model_audit.py SqlModelInvocationAuditSink._lock_current] *)
Definition lock_current (x : ModelInvocationContext) (deadline now : datetime) : M ModelDb SearchRun :=
  _ ← raise_if (negb (dt_aware deadline))
        (ValueError "Model invocation deadline must be timezone-aware");
  late ← lift (dt_le deadline now);
  _ ← raise_if late
        (Typed {| te_category := ErrorCategory_BUDGET; te_code := u "model_deadline_exceeded";
                  te_message := u "Model call cannot start after the execution deadline";
                  te_retryable := false |});
  m ← self;
  let d := md_db m in
  match find_run (mx_tenant_id x) (mx_run_id x) d, find_step x d, find_attempt x d with
  | Some run, Some step, Some attempt =>
      _ ← raise_if (negb (bool_decide (run_status run ∈ [RunStatus_QUEUED; RunStatus_RUNNING; RunStatus_WAITING])))
            (audit_reject "model_invocation_run_terminal" "Model invocation run is already terminal");
      _ ← raise_if (step_status step isnot StepStatus_RUNNING)
            (audit_reject "model_invocation_step_not_running" "Model invocation step is not running");
      past ← lift (if negb (at_attempt_no attempt =? mx_attempt_no x)
                      || negb (is_none (at_completed_at attempt)) then Ok true
                   else dt_le (at_deadline_at attempt) now);
      _ ← raise_if past
            (audit_reject "model_invocation_attempt_stale" "Model invocation attempt is no longer current");
      _ ← raise_if (negb (is_latest x d))
            (audit_reject "model_invocation_attempt_superseded" "Model invocation attempt was superseded");
      mret run
  | _, _, _ => raise (audit_reject "model_invocation_context_stale" "Model invocation context no longer exists")
  end.

(** The row of a call of the attempt. *)
Definition existing_call (x : ModelInvocationContext) (q : ModelRequest) (call_no : Z) (m : ModelDb)
    : option ModelInvocation :=
  List.find (fun i => (mi_tenant_id i =? mx_tenant_id x) && (mi_attempt_id i =? mx_attempt_id x)
                      && bool_decide (mi_role i = mq_role q) && (mi_call_no i =? call_no)) (invocations m).

Definition call_conflict : exn :=
  audit_reject "model_invocation_call_conflict" "Model invocation call number is already reserved".

(** [completed_at DESC LIMIT 1]: of the completed rows with an output, one that ended last. *)
Definition later (a b : ModelInvocation) : bool :=
  match mi_completed_at a, mi_completed_at b with
  | Some t, Some t' => dt_us t' <? dt_us t
  | None, Some _ => true
  | _, None => false
  end.

Definition reusable (x : ModelInvocationContext) (key : pystr) (i : ModelInvocation) : bool :=
  (mi_tenant_id i =? mx_tenant_id x) && (mi_run_id i =? mx_run_id x)
  && bool_decide (mi_logical_call_key i = key) && (mi_status i is Invocation_COMPLETED)
  && negb (is_none (mi_output i)).

Definition reuse_source (x : ModelInvocationContext) (key : pystr) (m : ModelDb) : option ModelInvocation :=
  foldr (fun i best => if reusable x key i
                       then match best with
                            | Some b => if later b i then Some b else Some i
                            | None => Some i
                            end
                       else best) None (invocations m).

(** The transaction of [reuse] that records the reuse of [source]. *)
(** [@ src/sana/platform/db/model_audit.py SqlModelInvocationAuditSink.reuse@177-237] *)
Definition record_reuse (x : ModelInvocationContext) (q : ModelRequest) (provider : pystr)
    (call_no : Z) (key : pystr) (deadline : datetime) (source : ModelInvocation)
    (response : ProviderResponse) (now later_now : datetime) (new_id : UUID)
    : M ModelDb ReusedModelResponse := transact (
  _ ← lock_current x deadline now;
  m ← self;
  let answer := {| ru_response := response; ru_source_invocation_id := mi_id source |} in
  match existing_call x q call_no m with
  | Some existing =>
      if (mi_status existing is Invocation_REUSED)
         && bool_decide (mi_reused_from_id existing = Some (mi_id source)) then mret answer
      else raise call_conflict
  | None =>
      _ ← add_invocation
            {| mi_id := new_id; mi_tenant_id := mx_tenant_id x; mi_run_id := mx_run_id x;
               mi_step_id := mx_step_id x; mi_attempt_id := mx_attempt_id x;
               mi_reused_from_id := Some (mi_id source); mi_role := mq_role q;
               mi_provider := provider; mi_model := mq_model q; mi_call_no := call_no;
               mi_logical_call_key := key; mi_status := Invocation_REUSED;
               mi_billing := Billing_NOT_BILLED; mi_provider_called := false;
               mi_prompt_tokens := 0; mi_completion_tokens := 0; mi_output := mi_output source;
               mi_response_id := pr_response_id response; mi_error := None;
               mi_started_at := later_now; mi_completed_at := Some later_now |};
      mret answer
  end).

(** [load] is what the artifact store holds; a payload that is not a response is rejected. *)
(** [@ src/sana/platform/db/model_audit.py SqlModelInvocationAuditSink.reuse] *)
Definition audit_reuse (load : ArtifactRef -> res ProviderResponse) (x : ModelInvocationContext)
    (q : ModelRequest) (provider : pystr) (call_no : Z) (key : pystr) (deadline now later_now : datetime)
    (new_id : UUID) : M ModelDb (option ReusedModelResponse) :=
  m ← self;
  match reuse_source x key m with
  | None => mret None
  | Some source =>
      match mi_output source with
      | None => mret None
      | Some reference =>
          response ← lift (load reference);
          answer ← record_reuse x q provider call_no key deadline source response now later_now new_id;
          mret (Some answer)
      end
  end.

(** [@ src/sana/platform/db/model_audit.py SqlModelInvocationAuditSink.start] *)
Definition audit_start (x : ModelInvocationContext) (q : ModelRequest) (provider : pystr) (call_no : Z)
    (key : pystr) (deadline now later_now : datetime) (new_id : UUID)
    : M ModelDb ModelInvocationReservation :=
  _ ← transact (
    run ← lock_current x deadline now;
    m ← self;
    _ ← raise_if (negb (is_none (existing_call x q call_no m))) call_conflict;
    let maximum := bs_max_llm_calls (run_budget run) in
    let used := bu_llm_call_count (run_usage run) in
    _ ← raise_if (maximum <? used + 1) (ModelBudgetExceeded "calls");
    _ ← save_run_row (mx_run_id x) (run_add_usage 1 0 0 run);
    add_invocation
      {| mi_id := new_id; mi_tenant_id := mx_tenant_id x; mi_run_id := mx_run_id x;
         mi_step_id := mx_step_id x; mi_attempt_id := mx_attempt_id x; mi_reused_from_id := None;
         mi_role := mq_role q; mi_provider := provider; mi_model := mq_model q;
         mi_call_no := call_no; mi_logical_call_key := key; mi_status := Invocation_STARTED;
         mi_billing := Billing_POSSIBLY_BILLED; mi_provider_called := true; mi_prompt_tokens := 0;
         mi_completion_tokens := 0; mi_output := None; mi_response_id := None; mi_error := None;
         mi_started_at := later_now; mi_completed_at := None |});
  lift (ModelInvocationReservation_new new_id call_no key).

(** [select(ModelInvocationRecord).where(tenant, reservation.id, context.attempt_id)] *)
Definition reserved_row (v : ModelInvocationReservation) (x : ModelInvocationContext) (m : ModelDb)
    : option ModelInvocation :=
  match md_invocations m !! mv_id v with
  | Some i => if (mi_tenant_id i =? mx_tenant_id x) && (mi_attempt_id i =? mx_attempt_id x)
              then Some i else None
  | None => None
  end.

Definition reservation_missing : exn :=
  audit_reject "model_invocation_missing" "Model invocation audit reservation is missing".

(** [output_ref] is the reference under which the response was stored before the transaction. *)
(** [@ src/sana/platform/db/model_audit.py SqlModelInvocationAuditSink.complete] *)
Definition audit_complete (v : ModelInvocationReservation) (x : ModelInvocationContext)
    (response : ProviderResponse) (output_ref : ArtifactRef) (now : datetime) : M ModelDb unit := transact (
  m ← self;
  match reserved_row v x m with
  | None => raise reservation_missing
  | Some row =>
      if mi_status row is Invocation_COMPLETED then mret tt else
      _ ← raise_if (mi_status row isnot Invocation_STARTED)
            (audit_reject "model_invocation_not_open" "Model invocation audit reservation is already sealed");
      match find_run (mx_tenant_id x) (mx_run_id x) (md_db m) with
      | None => raise (audit_reject "model_invocation_run_missing" "Model invocation run is missing")
      | Some run =>
          _ ← save_run_row (mx_run_id x)
                (run_add_usage 0 (pr_prompt_tokens response) (pr_completion_tokens response) run);
          save_invocation (mi_seal Invocation_COMPLETED Billing_BILLED
            (pr_prompt_tokens response, pr_completion_tokens response) (Some output_ref)
            (pr_response_id response) (mi_error row) now row)
      end
  end).

(** A row that ends without an answer. *)
Definition mi_end (status : ModelInvocationStatus) (category code : pystr) (now : datetime)
    (i : ModelInvocation) : ModelInvocation :=
  mi_seal status Billing_POSSIBLY_BILLED (mi_prompt_tokens i, mi_completion_tokens i) (mi_output i)
    (mi_response_id i) (Some (category, code)) now i.

(** [@ src/sana/platform/db/model_audit.py SqlModelInvocationAuditSink.fail] *)
Definition audit_fail (v : ModelInvocationReservation) (x : ModelInvocationContext)
    (error : RedactedInvocationError) (now : datetime) : M ModelDb unit := transact (
  m ← self;
  match reserved_row v x m with
  | None => raise reservation_missing
  | Some row =>
      if mi_status row isnot Invocation_STARTED then mret tt else
      save_invocation (mi_end Invocation_FAILED (rv_category error) (rv_code error) now row)
  end).

(** [UPDATE model_invocations SET status = ABANDONED ... WHERE tenant, attempts, STARTED] *)
Definition abandon_where (p : ModelInvocation -> bool) (code : string) (now : datetime) (m : ModelDb) : ModelDb :=
  set_invocations ((fun i => if p i && (mi_status i is Invocation_STARTED)
                             then mi_end Invocation_ABANDONED (category_value ErrorCategory_TRANSIENT)
                                    (u code) now i
                             else i) <$> md_invocations m) m.

(** [@ src/sana/platform/db/model_audit.py SqlModelInvocationAuditSink.abandon_attempt] *)
Definition abandon_attempt (tenant_id attempt_id : UUID) (at_ : datetime) : M ModelDb Z := fun m =>
  let open_rows := List.filter (fun i => (mi_tenant_id i =? tenant_id) && (mi_attempt_id i =? attempt_id)
                                         && (mi_status i is Invocation_STARTED)) (invocations m) in
  (abandon_where (fun i => (mi_tenant_id i =? tenant_id) && (mi_attempt_id i =? attempt_id))
     "worker_lease_expired" at_ m, Ok (Z.of_nat (length open_rows))).

(** ** Sealing what workers left open *)

(** The attempt of an open call is over: complete, past its deadline, or without its lease. *)
Definition orphaned (tenant_id : UUID) (now : datetime) (d : Db) (i : ModelInvocation) : bool :=
  (mi_tenant_id i =? tenant_id) && (mi_status i is Invocation_STARTED)
  && match db_attempts d !! mi_attempt_id i with
     | Some a => (at_tenant_id a =? mi_tenant_id i)
                 && (negb (is_none (at_completed_at a)) || (dt_us (at_deadline_at a) <=? dt_us now)
                     || (dt_us (at_leased_until a) <=? dt_us now))
     | None => false
     end.

Definition started_before (a b : ModelInvocation) : bool := dt_us (mi_started_at a) <? dt_us (mi_started_at b).

(** [@ src/sana/app/reconciliation.py TenantReconciliationScanner.seal_orphaned_model_invocations] *)
Definition seal_orphaned_model_invocations (tenant_id : UUID) (now : datetime) (limit : Z)
    : M ModelDb Z := fun m =>
  let orphans := py_sorted started_before (List.filter (orphaned tenant_id now (md_db m)) (invocations m)) in
  let chosen := take (Z.to_nat limit) orphans in
  (abandon_where (fun i => existsb (fun j => mi_id j =? mi_id i) chosen) "model_invocation_orphaned" now m,
   Ok (Z.of_nat (length chosen))).

(** The attempts [make_ready] expires, when it recovers a running step. *)
Definition recovers (candidate : ReconcileCandidate) (now : datetime) (d : Db) : bool :=
  match db_steps d !! rc_step_id candidate, current_lease (rc_step_id candidate) d with
  | Some s, Some lease =>
      (step_tenant_id s =? rc_tenant_id candidate) && (rc_status candidate is StepStatus_RUNNING)
      && (step_status s is StepStatus_RUNNING) && (lease <=? dt_us now)
  | _, _ => false
  end.

Definition expiring (candidate : ReconcileCandidate) (now : datetime) (d : Db) (i : ModelInvocation) : bool :=
  (mi_tenant_id i =? rc_tenant_id candidate)
  && match db_attempts d !! mi_attempt_id i with
     | Some a => (at_step_id a =? rc_step_id candidate) && is_none (at_completed_at a)
                 && (dt_us (at_leased_until a) <=? dt_us now)
     | None => false
     end.

(** [make_ready] with the statement that abandons the calls of the attempts it expires. *)
(** [@ src/sana/app/reconciliation.py TenantReconciliationScanner.make_ready@239-262] *)
Definition make_ready_and_abandon (candidate : ReconcileCandidate) (now : datetime) : M ModelDb bool := fun m =>
  match on_db (scanner_make_ready candidate now) m with
  | (m', Ok r) =>
      (if recovers candidate now (md_db m)
       then abandon_where (expiring candidate now (md_db m)) "worker_lease_expired" now m' else m', Ok r)
  | (m', Raise e) => (m', Raise e)
  end.
