(* ===== verification/ModelAuditFacts.v ===== *)
(** * ModelAuditFacts: metering of model calls in every history

    Whatever workers, the reconciler and gateways do, in any interleaving, the usage counters of a
    run are the number and the tokens of its recorded calls, within the run's limit of calls, and a
    sealed call stays as it is. *)

From Stdlib Require Import SpecFloat String.
From S2P Require Import Prelude Errors PyTime Transitions Run RunFacts Step StepFacts Policy Lease Workflow.
From S2P Require Import PyData Tables StepStore StepStoreFacts Completion CompletionFacts ModelGateway ModelAudit.

(** ** What the step store leaves alone in a run *)

(** What a completion hook must promise for the metering: it may not touch the usage that the audit
    keeps, nor lower the limit of calls. *)
Class MeteredHook (Hook : CompletionHook) := {
  on_success_kept run step result d d' run' :
    on_success run step result d = Ok (d', run') -> run_kept run run';
  on_failure_kept run step error disposition d d' run' :
    on_failure run step error disposition d = Ok (d', run') -> run_kept run run'
}.

#[export] Instance quiet_metered : MeteredHook quiet_hook.
Proof. split; intros; simpl in *; simplify_eq; done. Qed.

(** The coordinator of the workflow only ends a run: by [succeed] and by [fail]. *)
#[export] Instance coordinator_metered `{PyText} uuid5 sha256_utf8 env : MeteredHook (coordinator uuid5 sha256_utf8 env).
Proof.
  split; [intros run step result d d' run'|intros run step error disposition d d' run']; simpl; apply run_hook_kept.
  - apply complete_success_lawful.
  - apply complete_failure_lawful.
Qed.

Definition runs_kept (d d' : Db) : Prop :=
  forall i, match db_runs d !! i, db_runs d' !! i with
            | Some r, Some r' => run_kept r r'
            | None, None => True
            | _, _ => False
            end.

#[export] Instance runs_kept_preorder : PreOrder runs_kept.
Proof.
  split.
  - intros d i. by destruct (db_runs d !! i).
  - intros d1 d2 d3 H12 H23 i. specialize (H12 i). specialize (H23 i).
    destruct (db_runs d1 !! i), (db_runs d2 !! i), (db_runs d3 !! i); try done. by etransitivity.
Qed.

Lemma runs_same d d' : db_runs d' = db_runs d -> runs_kept d d'.
Proof. intros E i. rewrite E. by destruct (db_runs d !! i). Qed.

(** ** The calls of the step store *)

Definition run_keys (d : Db) : Prop := forall i r, db_runs d !! i = Some r -> run_id r = i.


Lemma kept_usage c elapsed r usage r' : StepBudgetCost_apply c (run_usage r) elapsed = Ok usage ->
  SearchRun_record_usage usage r = (r', Ok tt) -> run_kept r r'.
Proof.
  intros Hu H. run_inv H. unfold StepBudgetCost_apply, BudgetUsage_add, BudgetUsage_new in Hu. minv.
  unfold run_kept, meter. simpl. ksplit. f_equal; [f_equal|]; lia.
Qed.

Lemma kept_admit now r d d' r' : admit_run now r d = (d', Ok r') -> d' = d /\ run_kept r r'.
Proof.
  unfold admit_run. case_match; intros Ha; minv; try done;
    apply call_ok_inv in Ha as [-> Ha]; split; try done; [by eapply kept_start|by eapply kept_resume].
Qed.

Lemma runs_get_row t i d d' r : runs_get_for_update t i d = (d', Ok (Some r)) ->
  d' = d /\ exists row, db_runs d !! i = Some row /\ run_kept row r.
Proof.
  unfold runs_get_for_update, run_from_record, SearchRun_reload, SearchRun_rehydrate, SearchRun_new.
  intros H. minv. destruct (db_runs d !! i) as [row|] eqn:E; [|by minv].
  destruct (run_tenant_id row =? t); [|by minv]. minv. simplify_eq.
  split; [done|]. exists row. split; [done|]. unfold run_kept, meter. by ksplit.
Qed.

Lemma runs_save_row row r d d' x : db_runs d !! run_id r = Some row -> run_kept row r ->
  runs_save r d = (d', Ok x) -> runs_kept d d'.
Proof.
  unfold runs_save. intros Hrow Hk H. minv. rewrite Hrow in H. minv.
  intros i. simpl. destruct (decide (i = run_id r)) as [->|Hi].
  - rewrite Hrow, lookup_insert_eq. destruct Hk as (E1 & E2 & E3 & E4). unfold run_kept, meter in *. by ksplit.
  - rewrite lookup_insert_ne by done. by destruct (db_runs d !! i).
Qed.

Lemma run_kept_trans r1 r2 r3 : run_kept r1 r2 -> run_kept r2 r3 -> run_kept r1 r3.
Proof. apply transitivity. Qed.

(** Everything but [runs_save] leaves the run rows alone. *)
Lemma steps_save_runs s d d' x : steps_save s d = (d', Ok x) -> db_runs d' = db_runs d.
Proof. unfold steps_save. intros H. minv. case_match; by minv. Qed.
Lemma attempts_add_runs a d d' x : attempts_add a d = (d', Ok x) -> db_runs d' = db_runs d.
Proof. unfold attempts_add. intros H. by minv. Qed.
Lemma attempts_complete_runs a d d' x : attempts_complete a d = (d', Ok x) -> db_runs d' = db_runs d.
Proof. unfold attempts_complete. intros H. minv. case_match; by minv. Qed.
Lemma attempts_renew_runs a d d' x : attempts_renew a d = (d', Ok x) -> db_runs d' = db_runs d.
Proof. unfold attempts_renew. intros H. minv. case_match; by minv. Qed.
Lemma add_event_runs r t d d' x : add_event r t d = (d', Ok x) -> db_runs d' = db_runs d.
Proof. unfold add_event. intros H. by minv. Qed.
Lemma running_step_runs c d d' o : running_step c d = (d', Ok o) -> d' = d.
Proof. unfold running_step. intros H. minv. by apply steps_get_ok_inv in E as [-> _]. Qed.

(** [kinv] inverts a transaction, keeping what it did to the run rows. *)
Ltac kinv :=
  repeat (tinv; match goal with
  | H : call _ _ _ = (_, Ok _) |- _ => apply call_ok_inv in H as [-> H]
  | H : transact _ _ = (_, Ok _) |- _ => apply transact_ok_inv in H
  | H : steps_get_for_update _ _ _ = (_, Ok _) |- _ => apply steps_get_ok_inv in H as [-> _]
  | H : running_step _ _ = (_, Ok _) |- _ => apply running_step_runs in H as ->
  | H : runs_get_for_update _ _ _ = (_, Ok (Some _)) |- _ =>
      apply runs_get_row in H as [-> (? & ? & ?)]
  | H : next_attempt_no _ _ = (_, Ok _) |- _ => apply next_attempt_no_ok_inv in H as [-> ->]
  | H : admit_run _ _ _ = (_, Ok _) |- _ => apply kept_admit in H as [-> ?]
  | H : steps_save _ _ = (_, Ok _) |- _ => apply steps_save_runs in H
  | H : attempts_add _ _ = (_, Ok _) |- _ => apply attempts_add_runs in H
  | H : attempts_complete _ _ = (_, Ok _) |- _ => apply attempts_complete_runs in H
  | H : attempts_renew _ _ = (_, Ok _) |- _ => apply attempts_renew_runs in H
  | H : add_event _ _ _ = (_, Ok _) |- _ => apply add_event_runs in H
  end); tinv.

(** A transaction that saved the run [r], kept from the row [row] it loaded. *)
Ltac saved_run :=
  lazymatch goal with
  | Hk : run_keys ?d, Hrow : db_runs ?d !! ?i = Some ?row, Hs : runs_save ?r ?d1 = (?d2, Ok ?x) |- runs_kept ?d ?d' =>
      assert (run_kept row r) as Hkept by (eauto using run_kept_trans);
      transitivity d2; [transitivity d1; [apply runs_same; congruence|]|apply runs_same; congruence];
      apply (runs_save_row row r d1 d2 x); [|done|exact Hs];
      replace (run_id r) with i by (symmetry; rewrite (proj1 Hkept); by apply Hk); congruence
  end.

Section StoreCalls.
Context `{Hook : CompletionHook} {Metered : MeteredHook Hook} (cf : StoreConfig).

Lemma claim_kept t i new_id w now d d' r : run_keys d ->
  store_claim cf t i new_id w now d = (d', r) -> runs_kept d d'.
Proof using All.
  intros Hk H. destruct r as [r|e].
  2:{ unfold store_claim in H. apply transact_raise_inv in H as ->. done. }
  unfold store_claim in H. kinv. destruct a as [step|]; [|by kinv].
  match type of H with (if ?b then _ else _) _ = _ => destruct b end; [by kinv|].
  kinv. destruct a as [run|]; [|kinv; by apply runs_get_ok_inv in E as ->].
  kinv. destruct (SearchRun_is_terminal run); [kinv; apply runs_same; congruence|].
  kinv. match type of H with (if ?b then _ else _) _ = _ => destruct b end.
  { kinv. match goal with Hf : SearchRun_fail _ _ _ = _ |- _ => apply kept_fail in Hf end. saved_run. }
  kinv. match type of H with (if ?b then _ else _) _ = _ => destruct b end.
  - unfold claim_past_phase in H. kinv. match goal with Hh : hook_call _ _ = _ |- _ =>
      apply hook_call_ok_inv in Hh; pose proof (on_failure_rows _ _ _ _ _ _ _ Hh) as [(Hr & _) _];
      apply on_failure_kept in Hh end. saved_run.
  - unfold claim_lease in H. kinv.
    match type of H with (match ?m with _ => _ end) _ = _ => destruct m as [s [att|e]] end; [|by kinv].
    kinv. saved_run.
Qed.

Lemma succeed_kept c result now d d' r : run_keys d ->
  store_succeed c result now d = (d', r) -> runs_kept d d'.
Proof using All.
  intros Hk H. destruct r as [r|e].
  2:{ unfold store_succeed in H. apply transact_raise_inv in H as ->. done. }
  unfold store_succeed in H. kinv. destruct a as [step|]; [|by kinv].
  kinv. destruct a as [run|]; [|kinv; by apply runs_get_ok_inv in E as ->].
  kinv. destruct (SearchRun_is_terminal run); [kinv; apply runs_same; congruence|].
  kinv. match goal with Hu : StepBudgetCost_apply _ _ _ = Ok ?usage, Hr : SearchRun_record_usage ?usage _ = _ |- _ =>
    apply (kept_usage _ _ _ _ _ Hu) in Hr end.
  match goal with Hh : hook_call _ _ = _ |- _ =>
    apply hook_call_ok_inv in Hh; pose proof (on_success_rows _ _ _ _ _ _ Hh) as [(Hr & _) _];
    apply on_success_kept in Hh end. saved_run.
Qed.

Lemma fail_kept c error now d d' r : run_keys d ->
  store_fail cf c error now d = (d', r) -> runs_kept d d'.
Proof using All.
  intros Hk H. destruct r as [r|e].
  2:{ unfold store_fail in H. apply transact_raise_inv in H as ->. done. }
  unfold store_fail in H. kinv. destruct a as [step|]; [|by kinv].
  kinv. destruct a as [run|]; [|kinv; by apply runs_get_ok_inv in E as ->].
  kinv. match goal with Ho : (if ?b then _ else retry_or_fail _ _ _ _ _ _) d = (?d1, Ok ?o) |- _ =>
    assert (d1 = d) as -> by (destruct b; [by kinv|destruct o as [[? ?] ?]; by apply retry_or_fail_ok_inv in Ho as [-> _]]);
    destruct o as [[s1 disp1] ev1]; clear Ho end.
  kinv. match goal with Hh : hook_call _ _ = _ |- _ =>
    apply hook_call_ok_inv in Hh; pose proof (on_failure_rows _ _ _ _ _ _ _ Hh) as [(Hr & _) _];
    apply on_failure_kept in Hh end. saved_run.
Qed.

Lemma renew_kept c now d d' r : store_renew cf c now d = (d', r) -> runs_kept d d'.
Proof using Type.
  intros H. destruct r as [r|e].
  2:{ unfold store_renew in H. apply transact_raise_inv in H as ->. done. }
  unfold store_renew in H. kinv. destruct a as [step|]; [|by kinv].
  kinv. match type of H with (if ?b then _ else _) _ = _ => destruct b end; [by kinv|].
  kinv. match type of H with (if ?b then _ else _) _ = _ => destruct b end; [by kinv|].
  kinv. apply runs_same; congruence.
Qed.

Lemma make_ready_kept cand now d d' r : scanner_make_ready cand now d = (d', r) -> runs_kept d d'.
Proof using Type.
  intros H. destruct r as [r|e].
  2:{ unfold scanner_make_ready in H. apply transact_raise_inv in H as ->. done. }
  unfold scanner_make_ready in H. kinv. destruct a as [step|]; [|by kinv].
  destruct (_ && _) in H.
  - destruct (step_retry_at step); [|by kinv]. kinv.
    match type of H with (if ?b then _ else _) _ = _ => destruct b end; [by kinv|].
    kinv. apply runs_same; congruence.
  - destruct (_ && _) in H; [|by kinv]. kinv. destruct (current_lease _ _); [|by kinv].
    match type of H with (if ?b then _ else _) _ = _ => destruct b end; [by kinv|].
    kinv. apply runs_same. etransitivity; [eassumption|done].
Qed.

Lemma db_step_kept d d' : run_keys d -> db_step cf d d' -> runs_kept d d'.
Proof using All.
  intros Hk [].
  - by eapply claim_kept.
  - by eapply succeed_kept.
  - by eapply renew_kept.
  - by eapply fail_kept.
  - by eapply make_ready_kept.
Qed.
End StoreCalls.

(** ** The books of model calls *)

(** What a row adds to its run's usage. *)
Definition row_meter (run : UUID) (i : ModelInvocation) : Z * Z * Z :=
  if mi_run_id i =? run then (one (mi_provider_called i), mi_prompt_tokens i, mi_completion_tokens i)
  else (0, 0, 0).

Definition calls_of (run : UUID) (m : gmap Z ModelInvocation) : Z := sum_map (fun i => (row_meter run i).1.1) m.
Definition prompt_of (run : UUID) (m : gmap Z ModelInvocation) : Z := sum_map (fun i => (row_meter run i).1.2) m.
Definition completion_of (run : UUID) (m : gmap Z ModelInvocation) : Z := sum_map (fun i => (row_meter run i).2) m.

Definition metered_usage (run : UUID) (m : gmap Z ModelInvocation) : Z * Z * Z :=
  (calls_of run m, prompt_of run m, completion_of run m).

(** Status, billing, tokens and times of a row agree. *)
Definition row_sound (i : ModelInvocation) : Prop :=
  0 <= mi_prompt_tokens i /\ 0 <= mi_completion_tokens i /\
  match mi_status i with
  | Invocation_STARTED =>
      mi_billing i = Billing_POSSIBLY_BILLED /\ mi_provider_called i = true /\ mi_prompt_tokens i = 0 /\
      mi_completion_tokens i = 0 /\ mi_output i = None /\ mi_completed_at i = None
  | Invocation_COMPLETED =>
      mi_billing i = Billing_BILLED /\ mi_provider_called i = true /\ is_Some (mi_output i) /\
      is_Some (mi_completed_at i)
  | Invocation_FAILED | Invocation_ABANDONED =>
      mi_billing i = Billing_POSSIBLY_BILLED /\ mi_provider_called i = true /\ mi_prompt_tokens i = 0 /\
      mi_completion_tokens i = 0 /\ is_Some (mi_error i) /\ is_Some (mi_completed_at i)
  | Invocation_REUSED =>
      mi_billing i = Billing_NOT_BILLED /\ mi_provider_called i = false /\ mi_prompt_tokens i = 0 /\
      mi_completion_tokens i = 0 /\ is_Some (mi_reused_from_id i) /\ is_Some (mi_completed_at i)
  end.

Record audit_inv (m : ModelDb) : Prop := {
  ai_db : db_inv (md_db m);
  ai_run_key : run_keys (md_db m);
  ai_row_key : forall k i, md_invocations m !! k = Some i -> mi_id i = k;
  ai_row_sound : forall k i, md_invocations m !! k = Some i -> row_sound i;
  ai_row_attempt : forall k i, md_invocations m !! k = Some i ->
    exists a, db_attempts (md_db m) !! mi_attempt_id i = Some a /\ at_run_id a = mi_run_id i;
  ai_one_call : forall k l i j, md_invocations m !! k = Some i -> md_invocations m !! l = Some j ->
    same_call i j = true -> k = l;
  ai_books : forall i r, db_runs (md_db m) !! i = Some r -> meter r = metered_usage i (md_invocations m);
  ai_limit : forall i r, db_runs (md_db m) !! i = Some r ->
    bu_llm_call_count (run_usage r) <= bs_max_llm_calls (run_budget r)
}.

(** A row is kept, or sealed from STARTED with the same identity. *)
Definition row_evolves_to (i i' : ModelInvocation) : Prop :=
  i' = i \/ (mi_status i = Invocation_STARTED /\ mi_status i' <> Invocation_STARTED /\
             mi_id i' = mi_id i /\ mi_tenant_id i' = mi_tenant_id i /\ mi_run_id i' = mi_run_id i /\
             mi_attempt_id i' = mi_attempt_id i /\ mi_role i' = mi_role i /\ mi_call_no i' = mi_call_no i /\
             mi_logical_call_key i' = mi_logical_call_key i /\ mi_provider_called i' = mi_provider_called i).

Definition rows_evolve (m m' : gmap Z ModelInvocation) : Prop :=
  forall k i, m !! k = Some i -> exists i', m' !! k = Some i' /\ row_evolves_to i i'.

#[export] Instance rows_evolve_preorder : PreOrder rows_evolve.
Proof.
  split; [intros m k i Hk; exists i; split; [done|by left]|].
  intros m1 m2 m3 H12 H23 k i Hk. destruct (H12 k i Hk) as (i2 & Hk2 & E2).
  destruct (H23 k i2 Hk2) as (i3 & Hk3 & E3). exists i3. split; [done|].
  destruct E2 as [->|(S & N & E2)]; [done|]. destruct E3 as [->|(S' & _)]; [by right|done].
Qed.

(** ** Steps of a history *)

(** The context a worker holds is that of an attempt of its run. *)
Definition context_held (d : Db) (x : ModelInvocationContext) : Prop :=
  exists a, db_attempts d !! mx_attempt_id x = Some a /\ at_run_id a = mx_run_id x.

(** The step store works with the coordinator as its hook, whatever its environment answers at each step. *)
Inductive audit_step `{Text : PyText} (uuid5 : UUID -> pystr -> UUID) (sha256_utf8 : pystr -> pystr) (cf : StoreConfig)
    (m m' : ModelDb) : Prop :=
| au_store env d' :
    db_step (Hook := coordinator uuid5 sha256_utf8 env) cf (md_db m) d' -> m' = set_db d' m -> audit_step uuid5 sha256_utf8 cf m m'
| au_make_ready cand now r : make_ready_and_abandon cand now m = (m', r) -> audit_step uuid5 sha256_utf8 cf m m'
| au_seal tenant_id now limit r :
    seal_orphaned_model_invocations tenant_id now limit m = (m', r) -> audit_step uuid5 sha256_utf8 cf m m'
| au_abandon tenant_id attempt_id at_ r : abandon_attempt tenant_id attempt_id at_ m = (m', r) -> audit_step uuid5 sha256_utf8 cf m m'
| au_reuse x q provider call_no key deadline source response now later_now new_id r :
    record_reuse x q provider call_no key deadline source response now later_now new_id m = (m', r) ->
    audit_step uuid5 sha256_utf8 cf m m'
| au_start x q provider call_no key deadline now later_now new_id r :
    audit_start x q provider call_no key deadline now later_now new_id m = (m', r) -> audit_step uuid5 sha256_utf8 cf m m'
| au_complete v x response ref now r :
    context_held (md_db m) x -> ProviderResponse_new response = Ok response ->
    audit_complete v x response ref now m = (m', r) -> audit_step uuid5 sha256_utf8 cf m m'
| au_fail v x error now r : audit_fail v x error now m = (m', r) -> audit_step uuid5 sha256_utf8 cf m m'.

(** ** Each step keeps the books *)

Definition attempts_kept (d d' : Db) : Prop :=
  forall k a, db_attempts d !! k = Some a -> exists a', db_attempts d' !! k = Some a' /\ same_attempt a a'.

(** The step store: run rows kept, attempts kept, calls untouched. *)
Lemma inv_store m d' : audit_inv m -> db_inv d' -> runs_kept (md_db m) d' -> attempts_kept (md_db m) d' ->
  audit_inv (set_db d' m).
Proof.
  intros [A1 A2 A3 A4 A5 A6 A7 A8] Hd HR HA.
  assert (forall i r', db_runs d' !! i = Some r' -> exists r, db_runs (md_db m) !! i = Some r /\ run_kept r r') as Hback.
  { intros i r' Hi. specialize (HR i). rewrite Hi in HR. destruct (db_runs (md_db m) !! i) as [r|]; [|done].
    by exists r. }
  split; simpl; try done.
  - intros i r' Hi. destruct (Hback i r' Hi) as (r & Hr & Hk & _). rewrite Hk. by apply A2.
  - intros k i Hi. destruct (A5 k i Hi) as (a & Ha & Hrun). destruct (HA _ _ Ha) as (a' & Ha' & Hs).
    exists a'. split; [done|]. rewrite <- Hrun. apply Hs.
  - intros i r' Hi. destruct (Hback i r' Hi) as (r & Hr & _ & _ & Hm & _). rewrite Hm. by apply A7.
  - intros i r' Hi. destruct (Hback i r' Hi) as (r & Hr & _ & _ & Hm & Hl). specialize (A8 i r Hr).
    unfold meter in Hm. simplify_eq. lia.
Qed.

Lemma metered_rel run m m' :
  (forall k, option_Forall2 (fun i j => row_meter run i = row_meter run j) (m !! k) (m' !! k)) ->
  metered_usage run m = metered_usage run m'.
Proof.
  intros HR. unfold metered_usage, calls_of, prompt_of, completion_of.
  f_equal; [f_equal|]; apply sum_map_rel; intros k; specialize (HR k); destruct HR as [i j E|]; constructor; by rewrite E.
Qed.

(** A row sealed with the same identity and the same tokens. *)
Definition sealed_as (i j : ModelInvocation) : Prop :=
  row_evolves_to i j /\ row_sound j /\ forall run, row_meter run i = row_meter run j.

Lemma sealed_ident i j : row_evolves_to i j ->
  mi_id j = mi_id i /\ mi_run_id j = mi_run_id i /\ mi_attempt_id j = mi_attempt_id i /\
  (forall x, same_call j x = same_call i x) /\ (forall x, same_call x j = same_call x i).
Proof.
  intros [->|(_ & _ & E1 & _ & E2 & E3 & E4 & E5 & _)]; [done|].
  unfold same_call. rewrite E3, E4, E5. done.
Qed.

(** Rows sealed one by one: keys, soundness, attempts and call numbers are kept. *)
Lemma rows_sealed m rows : audit_inv m ->
  (forall k, option_Forall2 (fun i j => row_evolves_to i j /\ row_sound j) (md_invocations m !! k) (rows !! k)) ->
  (forall k j, rows !! k = Some j -> mi_id j = k) /\
  (forall k j, rows !! k = Some j -> row_sound j) /\
  (forall k j, rows !! k = Some j -> exists b,
     db_attempts (md_db m) !! mi_attempt_id j = Some b /\ at_run_id b = mi_run_id j) /\
  (forall k l j1 j2, rows !! k = Some j1 -> rows !! l = Some j2 -> same_call j1 j2 = true -> k = l) /\
  rows_evolve (md_invocations m) rows.
Proof.
  intros [A1 A2 A3 A4 A5 A6 A7 A8] HR.
  assert (forall k j, rows !! k = Some j -> exists i, md_invocations m !! k = Some i /\
    row_evolves_to i j /\ row_sound j) as Hback.
  { intros k j Hj. specialize (HR k). rewrite Hj in HR. inversion HR; subst; eauto. }
  split; [|split; [|split; [|split]]].
  - intros k j Hj. destruct (Hback k j Hj) as (i & Hi & He & _). apply sealed_ident in He as (-> & _). by apply A3.
  - intros k j Hj. by destruct (Hback k j Hj) as (i & Hi & _ & Hs).
  - intros k j Hj. destruct (Hback k j Hj) as (i & Hi & He & _). apply sealed_ident in He as (_ & -> & -> & _).
    by eapply A5.
  - intros k l j1 j2 H1 H2 Hc. destruct (Hback k j1 H1) as (i1 & Hi1 & He1 & _), (Hback l j2 H2) as (i2 & Hi2 & He2 & _).
    apply (A6 k l i1 i2 Hi1 Hi2). apply sealed_ident in He1 as (_ & _ & _ & C1 & _), He2 as (_ & _ & _ & _ & C2).
    by rewrite <- C1, <- C2.
  - intros k i Hi. specialize (HR k). rewrite Hi in HR. inversion HR as [i0 j Hs E0 Ej|]; subst.
    exists j. split; [done|]. by destruct Hs.
Qed.

(** Rows sealed without tokens: the books are unchanged. *)
Lemma inv_sealed m rows : audit_inv m ->
  (forall k, option_Forall2 sealed_as (md_invocations m !! k) (rows !! k)) ->
  audit_inv (set_invocations rows m) /\ rows_evolve (md_invocations m) rows.
Proof.
  intros HI HR. destruct (rows_sealed m rows HI) as (R1 & R2 & R3 & R4 & R5).
  { intros k. specialize (HR k). destruct HR as [i j (He & Hs & _)|]; by constructor. }
  destruct HI as [A1 A2 A3 A4 A5 A6 A7 A8]. split; [split; simpl; try done|done].
  intros i r Hr. rewrite (A7 i r Hr). apply metered_rel. intros k. specialize (HR k).
  destruct HR as [x y (_ & _ & E)|]; constructor. apply E.
Qed.

Lemma sealed_refl i : row_sound i -> sealed_as i i.
Proof. intros. split; [by left|done]. Qed.

Lemma sealed_end status category code now i : row_sound i -> mi_status i = Invocation_STARTED ->
  status = Invocation_FAILED \/ status = Invocation_ABANDONED ->
  sealed_as i (mi_end status category code now i).
Proof.
  intros Hs Hst Hk. unfold row_sound in Hs. rewrite Hst in Hs. split; [|split].
  - right. simpl. ksplit. by destruct Hk as [-> | ->].
  - unfold row_sound. simpl. destruct Hk as [-> | ->]; simpl; ksplit; intuition eauto.
  - intros run. unfold row_meter. simpl. done.
Qed.

(** [UPDATE ... SET status = ABANDONED] *)
Lemma inv_abandon m p code now : audit_inv m ->
  audit_inv (abandon_where p code now m) /\
  rows_evolve (md_invocations m) (md_invocations (abandon_where p code now m)).
Proof.
  intros HI. refine (inv_sealed m _ HI _). intros k. simpl. rewrite lookup_fmap.
  destruct (md_invocations m !! k) as [i|] eqn:E; simpl; constructor.
  pose proof (ai_row_sound m HI k i E) as Hs.
  destruct (p i && _) eqn:Ep; [|by apply sealed_refl]. bools. apply sealed_end; auto.
Qed.

Lemma same_call_sym i j : same_call i j = same_call j i.
Proof.
  unfold same_call. rewrite (Z.eqb_sym (mi_attempt_id i)), (Z.eqb_sym (mi_call_no i)). do 2 f_equal.
  by apply bool_decide_ext.
Qed.

Lemma same_call_refl i : same_call i i = true.
Proof. unfold same_call. by rewrite !Z.eqb_refl, bool_decide_eq_true_2. Qed.

Lemma invocations_elem i m : i ∈ invocations m <-> exists k, md_invocations m !! k = Some i.
Proof.
  unfold invocations. rewrite list_elem_of_fmap. split.
  - intros ([k j] & -> & Hk). exists k. by apply elem_of_map_to_list.
  - intros [k Hk]. exists (k, i). split; [done|]. by apply elem_of_map_to_list.
Qed.

Lemma add_invocation_ok_inv i m m' x : add_invocation i m = (m', Ok x) ->
  m' = set_invocations (<[mi_id i := i]> (md_invocations m)) m /\ md_invocations m !! mi_id i = None /\
  forall k j, md_invocations m !! k = Some j -> same_call i j = false.
Proof.
  unfold add_invocation. intros H. minv. bools. split; [done|]. split.
  - match goal with Hn : ~ is_Some _ |- _ => by apply eq_None_not_Some end.
  - intros k j Hj. apply not_true_is_false. intros Hc.
    match goal with Hn : existsb _ _ = false |- _ => apply not_true_iff_false in Hn; apply Hn end.
    apply existsb_exists. exists j. split; [|done]. apply list_elem_of_In, invocations_elem. by exists k.
Qed.

(** A new row among sound rows. *)
Lemma rows_insert m i a : audit_inv m -> md_invocations m !! mi_id i = None ->
  (forall k j, md_invocations m !! k = Some j -> same_call i j = false) -> row_sound i ->
  db_attempts (md_db m) !! mi_attempt_id i = Some a -> at_run_id a = mi_run_id i ->
  let rows := <[mi_id i := i]> (md_invocations m) in
  (forall k j, rows !! k = Some j -> mi_id j = k) /\
  (forall k j, rows !! k = Some j -> row_sound j) /\
  (forall k j, rows !! k = Some j -> exists b,
     db_attempts (md_db m) !! mi_attempt_id j = Some b /\ at_run_id b = mi_run_id j) /\
  (forall k l j1 j2, rows !! k = Some j1 -> rows !! l = Some j2 -> same_call j1 j2 = true -> k = l) /\
  rows_evolve (md_invocations m) rows.
Proof.
  intros [A1 A2 A3 A4 A5 A6 A7 A8] Hf Hc Hs Ha Hr rows.
  assert (forall k j, rows !! k = Some j -> (k = mi_id i /\ j = i) \/ md_invocations m !! k = Some j) as Hcase.
  { intros k j. unfold rows. rewrite lookup_insert_Some. intuition. }
  split; [|split; [|split; [|split]]].
  - intros k j Hj. destruct (Hcase k j Hj) as [[-> ->]|?]; [done|by apply A3].
  - intros k j Hj. destruct (Hcase k j Hj) as [[-> ->]|?]; [done|by eapply A4].
  - intros k j Hj. destruct (Hcase k j Hj) as [[-> ->]|?]; [eauto|by eapply A5].
  - intros k l j1 j2 H1 H2 H12. destruct (Hcase k j1 H1) as [[-> ->]|?], (Hcase l j2 H2) as [[-> ->]|?]; [done|..].
    + by rewrite (Hc l j2) in H12.
    + rewrite same_call_sym, (Hc k j1) in H12 by done. done.
    + by apply (A6 k l j1 j2).
  - intros k j Hj. exists j. split; [|by left]. unfold rows. rewrite lookup_insert_ne; [done|]. intros <-. congruence.
Qed.

Lemma metered_insert run rows k i : rows !! k = None ->
  metered_usage run (<[k := i]> rows)
  = (calls_of run rows + (row_meter run i).1.1, prompt_of run rows + (row_meter run i).1.2,
     completion_of run rows + (row_meter run i).2).
Proof.
  intros Hk. unfold metered_usage, calls_of, prompt_of, completion_of. rewrite !sum_map_insert_new by done.
  f_equal; [f_equal|]; lia.
Qed.

Lemma metered_update run rows k i j : rows !! k = Some i ->
  metered_usage run (<[k := j]> rows)
  = (calls_of run rows + (row_meter run j).1.1 - (row_meter run i).1.1,
     prompt_of run rows + (row_meter run j).1.2 - (row_meter run i).1.2,
     completion_of run rows + (row_meter run j).2 - (row_meter run i).2).
Proof.
  intros Hk. unfold metered_usage, calls_of, prompt_of, completion_of.
  rewrite !(sum_map_update _ _ _ i) by done. f_equal; [f_equal|]; lia.
Qed.

Lemma db_inv_runs r d : db_inv d -> db_inv (set_runs r d).
Proof. intros [A1 A2 A3 A4 A5 A6 A7 A8]. by split. Qed.

Lemma lock_current_ok_inv x deadline now m m' run : lock_current x deadline now m = (m', Ok run) ->
  m' = m /\ db_runs (md_db m) !! mx_run_id x = Some run /\
  exists a, db_attempts (md_db m) !! mx_attempt_id x = Some a /\ at_run_id a = mx_run_id x /\
    at_completed_at a = None.
Proof.
  unfold lock_current, find_run, find_attempt. intros H. minv.
  destruct (db_runs _ !! _) as [row|] eqn:Er; [|by minv]. destruct (_ =? _); [|by minv].
  destruct (find_step _ _); [|by minv]. destruct (db_attempts _ !! _) as [a|] eqn:Ea; [|by minv].
  destruct (_ && _) eqn:Eb; [|by minv]. minv. bools. ksplit. exists a. ksplit.
  destruct (at_completed_at a); [|done]. exfalso.
  repeat match goal with H : context [if ?b then Ok true else _] |- _ => destruct b eqn:?; simplify_eq end.
  by match goal with H : _ || _ = false |- _ => apply orb_false_elim in H as [_ ?] end.
Qed.

(** What a step does to the state: the invariant is kept and rows only move forward. *)
Definition kept_books (m m' : ModelDb) : Prop :=
  audit_inv m' /\ rows_evolve (md_invocations m) (md_invocations m').

Lemma books_refl m : audit_inv m -> kept_books m m.
Proof. by split. Qed.

Lemma reuse_books x q provider call_no key deadline source response now later_now new_id m m' r :
  audit_inv m ->
  record_reuse x q provider call_no key deadline source response now later_now new_id m = (m', r) ->
  kept_books m m'.
Proof.
  intros HI H. destruct r as [r|e]; [|apply transact_raise_inv in H as ->; by apply books_refl].
  apply transact_ok_inv in H. minv. apply lock_current_ok_inv in E as (-> & Hrun & a0 & Ha & Har & _).
  cbv zeta in H. destruct (existing_call _ _ _ _).
  { destruct (_ && _); minv; by apply books_refl. }
  minv. apply add_invocation_ok_inv in E as (-> & Hf & Hc).
  match goal with |- kept_books _ (set_invocations (<[mi_id ?i := _]> _) _) =>
    destruct (rows_insert m i a0 HI Hf Hc) as (R1 & R2 & R3 & R4 & R5); try done end.
  destruct HI as [A1 A2 A3 A4 A5 A6 A7 A8]. split; [|done]. split; simpl; try done.
  intros i r0 Hi. rewrite metered_insert by done. rewrite (A7 i r0 Hi). unfold metered_usage, row_meter. simpl.
  destruct (_ =? _); simpl; (f_equal; [f_equal|]; lia).
Qed.

Lemma start_books x q provider call_no key deadline now later_now new_id m m' r :
  audit_inv m ->
  audit_start x q provider call_no key deadline now later_now new_id m = (m', r) ->
  kept_books m m'.
Proof.
  intros HI H. unfold audit_start in H. unfold mbind at 1, M_bind at 1 in H.
  match type of H with (match transact ?t m with _ => _ end) = _ => destruct (transact t m) as [m1 [y|e]] eqn:E end;
    [|apply transact_raise_inv in E; simplify_eq; by apply books_refl].
  assert (m' = m1) as ->.
  { unfold lift in H. by simplify_eq. }
  clear H. apply transact_ok_inv in E. minv. apply lock_current_ok_inv in E0 as (-> & Hrun & a0 & Ha & Har & _).
  unfold save_run_row in *. minv. apply add_invocation_ok_inv in E as (-> & Hf & Hc). simpl in Hf, Hc. bools.
  match goal with |- kept_books _ (set_invocations (<[mi_id ?i := _]> _) _) =>
    destruct (rows_insert m i a0 HI Hf Hc) as (R1 & R2 & R3 & R4 & R5); try done end.
  destruct HI as [A1 A2 A3 A4 A5 A6 A7 A8]. split; [|done]. split; simpl; try done.
  - by apply db_inv_runs.
  - intros i r0 Hi. simpl in Hi. apply lookup_insert_Some in Hi as [[<- <-]|[_ Hi]]; [by apply (A2 _ a)|by apply A2].
  - intros i r0 Hi. rewrite metered_insert by done. unfold row_meter. simpl.
    simpl in Hi. apply lookup_insert_Some in Hi as [[<- <-]|[Hne Hi]].
    + rewrite Z.eqb_refl. simpl. specialize (A7 _ a Hrun). unfold meter, metered_usage in *. simpl. simplify_eq.
      f_equal; [f_equal|]; lia.
    + replace (mx_run_id x =? i) with false by (symmetry; by apply Z.eqb_neq). simpl. rewrite (A7 i r0 Hi).
      unfold metered_usage. f_equal; [f_equal|]; lia.
  - intros i r0 Hi. simpl in Hi. apply lookup_insert_Some in Hi as [[<- <-]|[_ Hi]]; [simpl; lia|by apply (A8 i)].
Qed.

Lemma reserved_row_ok v x m i : reserved_row v x m = Some i ->
  md_invocations m !! mv_id v = Some i /\ mi_attempt_id i = mx_attempt_id x.
Proof.
  unfold reserved_row. destruct (md_invocations m !! mv_id v); [|done].
  destruct (_ && _) eqn:E; [|done]. intros [= ->]. by bools.
Qed.

Lemma single_sealed m i j : audit_inv m -> md_invocations m !! mi_id i = Some i -> sealed_as i j ->
  kept_books m (set_invocations (<[mi_id i := j]> (md_invocations m)) m).
Proof.
  intros HI Hi Hs. refine (inv_sealed m _ HI _). intros k. destruct (decide (k = mi_id i)) as [->|Hk].
  - rewrite lookup_insert_eq, Hi. by constructor.
  - rewrite lookup_insert_ne by done. destruct (md_invocations m !! k) as [i'|] eqn:E; constructor.
    apply sealed_refl. by apply (ai_row_sound m HI k).
Qed.

Lemma fail_books v x error now m m' r : audit_inv m -> audit_fail v x error now m = (m', r) -> kept_books m m'.
Proof.
  intros HI H. destruct r as [r|e]; [|apply transact_raise_inv in H as ->; by apply books_refl].
  apply transact_ok_inv in H. minv. destruct (reserved_row v x m) as [i|] eqn:Ei; [|by minv].
  apply reserved_row_ok in Ei as [Hi _]. destruct (decide (mi_status i = Invocation_STARTED)) as [Hst|Hst].
  - rewrite bool_decide_eq_true_2 in H by done. cbn [negb] in H. unfold save_invocation in H. minv.
    pose proof (ai_row_key m HI _ _ Hi) as Hkey. rewrite <- Hkey in Hi.
    apply (single_sealed m i); [done|done|]. apply sealed_end; auto. by apply (ai_row_sound m HI (mi_id i)).
  - rewrite bool_decide_eq_false_2 in H by done. cbn [negb] in H. minv. by apply books_refl.
Qed.

Lemma complete_books v x response ref now m m' r : audit_inv m -> context_held (md_db m) x ->
  ProviderResponse_new response = Ok response ->
  audit_complete v x response ref now m = (m', r) -> kept_books m m'.
Proof.
  intros HI (a0 & Ha & Har) Hresp H. destruct r as [r|e]; [|apply transact_raise_inv in H as ->; by apply books_refl].
  apply transact_ok_inv in H. minv. destruct (reserved_row v x m) as [i|] eqn:Ei; [|by minv].
  apply reserved_row_ok in Ei as [Hi Hatt]. destruct (_ is Invocation_COMPLETED); [minv; by apply books_refl|].
  minv. bools. unfold find_run in H. destruct (db_runs (md_db m) !! mx_run_id x) as [run|] eqn:Hrun; [|by minv].
  destruct (_ =? _); [|by minv]. unfold save_run_row, save_invocation in H. minv.
  pose proof (ai_row_key m HI _ _ Hi) as Hkey. pose proof (ai_row_sound m HI _ _ Hi) as Hs.
  destruct (ai_row_attempt m HI _ _ Hi) as (a1 & Ha1 & Hr1). rewrite Hatt, Ha in Ha1. simplify_eq.
  assert (mi_run_id i = mx_run_id x) as Hri by congruence.
  unfold ProviderResponse_new in Hresp. minv. bools.
  match goal with Est : mi_status i = Invocation_STARTED |- _ => unfold row_sound in Hs; rewrite Est in Hs end.
  match goal with |- kept_books _ (set_invocations (<[mi_id _ := ?j]> _) _) => set (row := j) end.
  change (mi_id row) with (mi_id i). rewrite Hkey. simpl.
  assert (row_evolves_to i row /\ row_sound row) as Hrow.
  { split; [right; by ksplit|unfold row_sound; simpl; ksplit; tauto || eauto]. }
  destruct (rows_sealed m (<[mv_id v := row]> (md_invocations m)) HI) as (R1 & R2 & R3 & R4 & R5).
  { intros k. destruct (decide (k = mv_id v)) as [->|Hk]; [rewrite lookup_insert_eq, Hi; by constructor|].
    rewrite lookup_insert_ne by done. destruct (md_invocations m !! k) as [i'|] eqn:Ek; constructor.
    split; [by left|by apply (ai_row_sound m HI k)]. }
  destruct HI as [A1 A2 A3 A4 A5 A6 A7 A8]. split; [|done]. split; simpl; try done.
  - by apply db_inv_runs.
  - intros k r0 Hr0. simpl in Hr0. apply lookup_insert_Some in Hr0 as [[<- <-]|[_ Hr0]];
      [by apply (A2 _ run)|by apply A2].
  - intros k r0 Hr0. simpl in Hr0. rewrite (metered_update k _ _ i row) by done. unfold row_meter. simpl.
    destruct Hs as (_ & _ & _ & Hpc & Hp & Hq & _).
    rewrite Hpc, Hp, Hq, Hri. apply lookup_insert_Some in Hr0 as [[<- <-]|[Hne Hr0]].
    + rewrite Z.eqb_refl. specialize (A7 _ run Hrun). unfold meter, metered_usage in *. simpl. simplify_eq.
      f_equal; [f_equal|]; lia.
    + replace (mx_run_id x =? k) with false by (symmetry; by apply Z.eqb_neq). simpl. rewrite (A7 k r0 Hr0).
      unfold metered_usage. f_equal; [f_equal|]; lia.
  - intros k r0 Hr0. simpl in Hr0. apply lookup_insert_Some in Hr0 as [[<- <-]|[_ Hr0]]; [|by apply (A8 k)].
    specialize (A8 _ run Hrun). simpl. lia.
Qed.

(** ** The theorems *)

(** The attempts an audit transaction leaves alone. *)
Lemma transact_attempts {A} (f : M ModelDb A) m m' r : transact f m = (m', r) ->
  (forall a, f m = (m', Ok a) -> db_attempts (md_db m') = db_attempts (md_db m)) ->
  db_attempts (md_db m') = db_attempts (md_db m).
Proof. destruct r as [a|e]; [intros H%transact_ok_inv Hf; by eapply Hf|by intros ->%transact_raise_inv]. Qed.

Lemma reuse_attempts x q provider call_no key deadline source response now later_now new_id m m' r :
  record_reuse x q provider call_no key deadline source response now later_now new_id m = (m', r) ->
  db_attempts (md_db m') = db_attempts (md_db m).
Proof.
  intros H. eapply transact_attempts; [exact H|]. clear H. intros a H. minv.
  apply lock_current_ok_inv in E as (-> & _). cbv zeta in H. destruct (existing_call _ _ _ _).
  - destruct (_ && _); by minv.
  - minv. by apply add_invocation_ok_inv in E as (-> & _).
Qed.

Lemma start_attempts x q provider call_no key deadline now later_now new_id m m' r :
  audit_start x q provider call_no key deadline now later_now new_id m = (m', r) ->
  db_attempts (md_db m') = db_attempts (md_db m).
Proof.
  intros H. unfold audit_start in H. unfold mbind at 1, M_bind at 1 in H.
  match type of H with (match ?t m with _ => _ end) = _ => destruct (t m) as [m1 o] eqn:E end.
  assert (m' = m1) as -> by (destruct o; unfold lift in H; by simplify_eq).
  eapply transact_attempts; [exact E|]. clear H E. intros a H. minv.
  apply lock_current_ok_inv in E as (-> & _). unfold save_run_row in *. minv.
  by apply add_invocation_ok_inv in H as (-> & _).
Qed.

Lemma complete_attempts v x response ref now m m' r : audit_complete v x response ref now m = (m', r) ->
  db_attempts (md_db m') = db_attempts (md_db m).
Proof.
  intros H. eapply transact_attempts; [exact H|]. clear H. intros a H. minv.
  destruct (reserved_row _ _ _); [|by minv]. destruct (_ is _); [by minv|]. minv.
  destruct (find_run _ _ _); [|by minv]. unfold save_run_row, save_invocation in H. by minv.
Qed.

Lemma fail_attempts v x error now m m' r : audit_fail v x error now m = (m', r) ->
  db_attempts (md_db m') = db_attempts (md_db m).
Proof.
  intros H. eapply transact_attempts; [exact H|]. clear H. intros a H. minv.
  destruct (reserved_row _ _ _); [|by minv]. destruct (_ isnot _); [by minv|]. unfold save_invocation in H. by minv.
Qed.

Lemma store_books `{Hook : CompletionHook} {Metered : MeteredHook Hook} (cf : StoreConfig) m d' :
  audit_inv m -> db_step cf (md_db m) d' -> kept_books m (set_db d' m).
Proof.
  intros HI Hs. pose proof (db_step_effect cf _ _ (ai_db m HI) Hs) as He. split; [|done].
  apply inv_store; [done|..].
  - by apply (effect_inv (md_db m)); [apply ai_db|].
  - apply (db_step_kept cf); [by apply ai_run_key|done].
  - intros k a Hk. apply effect_frozen in He as [_ Hf]. destruct (Hf k a Hk) as (a' & Hk' & Hsame & _). eauto.
Qed.

Section Theorems.
Context `{Text : PyText} (uuid5 : UUID -> pystr -> UUID) (sha256_utf8 : pystr -> pystr) (cf : StoreConfig).

Lemma kept_books_trans m1 m2 m3 : kept_books m1 m2 -> kept_books m2 m3 -> kept_books m1 m3.
Proof. intros [_ E1] [I2 E2]. split; [done|]. by transitivity (md_invocations m2). Qed.

Lemma audit_step_books m m' : audit_inv m -> audit_step uuid5 sha256_utf8 cf m m' -> kept_books m m'.
Proof using All.
  intros HI [env d' Hs ->|cand now r H|tenant_id now limit r H|tenant_id attempt_id at_ r H|? ? ? ? ? ? ? ? ? ? ? r H
            |? ? ? ? ? ? ? ? ? r H|v x response ref now r Hx Hp H|v x error now r H].
  - by apply (store_books (Hook := coordinator uuid5 sha256_utf8 env) cf).
  - unfold make_ready_and_abandon, on_db in H. destruct (scanner_make_ready cand now (md_db m)) as [d' o] eqn:E.
    pose proof (store_books (Hook := quiet_hook) cf m d' HI (ds_make_ready cf _ _ cand now o E)) as Hb.
    destruct o as [o|e]; [|by simplify_eq]. destruct (recovers _ _ _); simplify_eq; [|done].
    eapply kept_books_trans; [exact Hb|]. by apply inv_abandon; apply Hb.
  - unfold seal_orphaned_model_invocations in H. simplify_eq. by apply inv_abandon.
  - unfold abandon_attempt in H. simplify_eq. by apply inv_abandon.
  - by eapply reuse_books.
  - by eapply start_books.
  - by eapply complete_books.
  - by eapply fail_books.
Qed.

Lemma audit_star_books m m' : audit_inv m -> star (audit_step uuid5 sha256_utf8 cf) m m' -> kept_books m m'.
Proof using All.
  intros HI H. induction H as [m|m1 m2 m3 H12 _ IH]; [by apply books_refl|].
  pose proof (audit_step_books m1 m2 HI H12) as Hb. eapply kept_books_trans; [exact Hb|]. apply IH, Hb.
Qed.

Lemma audit_step_attempts m m' : audit_inv m -> audit_step uuid5 sha256_utf8 cf m m' -> attempts_kept (md_db m) (md_db m').
Proof using All.
  assert (forall d d', db_attempts d' = db_attempts d -> attempts_kept d d') as Hsame.
  { intros d d' E k a Hk. exists a. rewrite E. by repeat split. }
  assert (forall (Hook : CompletionHook) d, db_inv (md_db m) -> db_step (Hook := Hook) cf (md_db m) d ->
    attempts_kept (md_db m) d) as Hstep.
  { intros Hook d Hd Hs k a Hk. apply (db_step_effect cf _ _ Hd) in Hs as [_ Hf]%effect_frozen.
    destruct (Hf k a Hk) as (a' & ? & ? & _). eauto. }
  intros HI [env d' Hs ->|cand now r H|tenant_id now limit r H|tenant_id attempt_id at_ r H|? ? ? ? ? ? ? ? ? ? ? r H
            |? ? ? ? ? ? ? ? ? r H|v x response ref now r Hx Hp H|v x error now r H].
  - by eapply Hstep; [apply ai_db|].
  - unfold make_ready_and_abandon, on_db in H. destruct (scanner_make_ready cand now (md_db m)) as [d' o] eqn:E.
    assert (md_db m' = d') as -> by (destruct o; [destruct (recovers _ _ _)|]; by simplify_eq).
    apply (Hstep quiet_hook); [by apply ai_db|by eapply ds_make_ready].
  - unfold seal_orphaned_model_invocations in H. simplify_eq. by apply Hsame.
  - unfold abandon_attempt in H. simplify_eq. by apply Hsame.
  - apply Hsame. by eapply reuse_attempts.
  - apply Hsame. by eapply start_attempts.
  - apply Hsame. by eapply complete_attempts.
  - apply Hsame. by eapply fail_attempts.
Qed.

Lemma context_held_star m m' x : audit_inv m -> star (audit_step uuid5 sha256_utf8 cf) m m' ->
  context_held (md_db m) x -> context_held (md_db m') x.
Proof using All.
  intros HI H. induction H as [m|m1 m2 m3 H12 _ IH]; [done|]. intros (a & Ha & Hr).
  apply IH; [by apply (audit_step_books m1)|].
  destruct (audit_step_attempts m1 m2 HI H12 _ _ Ha) as (a' & Ha' & Hs). exists a'. split; [done|].
  rewrite <- Hr. apply Hs.
Qed.

(** Calls are never struck from the books. *)
Lemma calls_of_star m m' run : audit_inv m -> star (audit_step uuid5 sha256_utf8 cf) m m' ->
  calls_of run (md_invocations m) <= calls_of run (md_invocations m').
Proof using All.
  intros HI Hs. destruct (audit_star_books m m' HI Hs) as [_ He].
  apply sum_map_mono; [intros i; unfold row_meter; destruct (_ =? _); simpl; [apply one_nonneg|lia]|].
  intros k i Hk. destruct (He k i Hk) as (i' & Hk' & [-> |(_ & _ & _ & _ & E1 & _ & _ & _ & _ & E2)]); [by exists i|].
  exists i'. split; [done|]. unfold row_meter. rewrite E1, E2. destruct (_ =? _); simpl; lia.
Qed.

(** Claim C26. Model calls are metered. In every history of workers (whose store has the workflow's
    coordinator as its hook, whatever the coordinator's environment answers), of reconcilers and of
    gateways, in any interleaving of their transactions and whether or not they raise: the usage of a run is
    exactly what its recorded calls add up to (one call for each row whose provider was called, the
    tokens of the completed ones); the calls never exceed the run's limit; each row's status,
    billing, tokens and end agree (a call is billed exactly when completed, possibly billed while open
    or when it ended without an answer, and not billed when its answer was reused); and an attempt has
    at most one call of a role and number. *)
Theorem model_calls_metered m0 m : audit_inv m0 -> star (audit_step uuid5 sha256_utf8 cf) m0 m ->
  (forall i r, db_runs (md_db m) !! i = Some r ->
     bu_llm_call_count (run_usage r) = calls_of i (md_invocations m) /\
     bu_prompt_token_count (run_usage r) = prompt_of i (md_invocations m) /\
     bu_completion_token_count (run_usage r) = completion_of i (md_invocations m) /\
     calls_of i (md_invocations m) <= bs_max_llm_calls (run_budget r)) /\
  (forall k i, md_invocations m !! k = Some i -> row_sound i) /\
  (forall k l i j, md_invocations m !! k = Some i -> md_invocations m !! l = Some j ->
     same_call i j = true -> k = l).
Proof using All.
  intros HI Hs. destruct (audit_star_books m0 m HI Hs) as [[A1 A2 A3 A4 A5 A6 A7 A8] _].
  split; [|by split; [apply A4|apply A6]]. intros i r Hr. specialize (A7 i r Hr). specialize (A8 i r Hr).
  unfold meter, metered_usage in A7. simplify_eq. ksplit. congruence.
Qed.

(** A recorded call is sealed once. In every history, a call that was completed, failed,
    abandoned or reused keeps its row for ever, whatever its worker, another worker or the
    reconciler does afterwards; an open call keeps its identity, and its row disappears in no history. *)
Theorem sealed_call_final m m' k i : audit_inv m -> star (audit_step uuid5 sha256_utf8 cf) m m' ->
  md_invocations m !! k = Some i ->
  exists i', md_invocations m' !! k = Some i' /\
    (mi_status i <> Invocation_STARTED -> i' = i) /\
    mi_run_id i' = mi_run_id i /\ mi_attempt_id i' = mi_attempt_id i /\ same_call i i' = true.
Proof using All.
  intros HI Hs Hk. destruct (audit_star_books m m' HI Hs) as [_ He].
  destruct (He k i Hk) as (i' & Hk' & Hi). exists i'. pose proof (sealed_ident _ _ Hi) as (_ & E1 & E2 & _ & E3).
  ksplit; [|by rewrite E3, same_call_refl]. intros Hn. by destruct Hi as [|[? _]].
Qed.
End Theorems.

(** ** Examples *)

(** What the coordinator's collaborators answer. *)
Definition ex_hook_env : HookEnv :=
  {| he_id n := 1000 + Z.of_nat n; he_span _ := u "00f067aa0ba902b8"; he_now _ := utc 2000;
     he_get _ _ _ := Ok (JObj []); he_put _ _ _ _ := Ok {| ar_uri := u "artifact://1"; ar_sha256 := u "sha" |}; he_created := 5;
     he_trace := {| tc_trace_id := u "4bf92f3577b34da6a3ce929d0e0e4736"; tc_span_id := u "00f067aa0ba902b7";
                    tc_trace_flags := u "01"; tc_baggage := [] |} |}.
Definition ex_uuid5 (ns : UUID) (name : pystr) : UUID := ns + 10 ^ 6 * Z.of_nat (length name).
Abbreviation ex_audit_step := (audit_step (Text := ex_text) ex_uuid5 id ex_cf).

Lemma db1_reached : star (db_step (Hook := quiet_hook) ex_cf) ex_db db1.
Proof.
  apply star_one. by apply (ds_claim ex_cf ex_db db1 2 10 100 (u "w1") (utc 1000)
    (snd (store_claim (Hook := quiet_hook) ex_cf 2 10 100 (u "w1") (utc 1000) ex_db))), surjective_pairing.
Qed.

Definition ex_m0 : ModelDb := {| md_db := db1; md_invocations := ∅ |}.

Definition run1 : SearchRun := default ex_run (db_runs db1 !! 1).

Lemma db1_runs : db_runs db1 = {[ 1 := run1 ]}.
Proof. vm_compute. reflexivity. Qed.

Lemma ex_m0_inv : audit_inv ex_m0.
Proof.
  split; simpl; try (intros *; rewrite lookup_empty; done).
  - exact (star_inv (Hook := quiet_hook) ex_cf ex_db db1 ex_db_inv db1_reached).
  - intros i r. rewrite db1_runs. intros [<- <-]%lookup_singleton_Some. vm_compute. done.
  - intros i r. rewrite db1_runs. intros [<- <-]%lookup_singleton_Some.
    unfold metered_usage, calls_of, prompt_of, completion_of. rewrite !sum_map_empty. vm_compute. done.
  - intros i r. rewrite db1_runs. intros [<- <-]%lookup_singleton_Some. vm_compute. done.
Qed.

Definition ex_context (attempt_id attempt_no : Z) : ModelInvocationContext :=
  {| mx_tenant_id := 2; mx_run_id := 1; mx_step_id := 10; mx_step_key := u "route";
     mx_attempt_id := attempt_id; mx_attempt_no := attempt_no; mx_input_refs := [u "db://messages/4"] |}.

Definition ex_response (text : string) : ProviderResponse :=
  {| pr_text := u text; pr_model := u "m"; pr_prompt_tokens := 7; pr_completion_tokens := 3;
     pr_response_id := None |}.

Definition ex_request : ModelRequest :=
  {| mq_role := ModelRole_ROUTER; mq_model := u "m";
     mq_messages := [{| mm_role := MessageRole_USER; mm_content := u "q" |}]; mq_temperature := fzero;
     mq_max_output_tokens := 1024; mq_output_format := OutputFormat_TEXT;
     mq_thinking_mode := ThinkingMode_DISABLED; mq_prompt_template_version := u "v1";
     mq_parser_schema_version := u "v1" |}.

(** One call of the claimed attempt, reserved and completed. *)
Definition ex_start := audit_start (ex_context 100 1) ex_request (u "p") 1 (u "key") (utc 12000000) (utc 2000) (utc 2001) 1000.
Definition ex_reservation : ModelInvocationReservation :=
  {| mv_id := 1000; mv_call_no := 1; mv_logical_call_key := u "key" |}.
Definition ex_complete := audit_complete ex_reservation (ex_context 100 1) (ex_response "{}")
  {| ar_uri := u "artifact://1"; ar_sha256 := u "sha" |} (utc 3000).
Definition ex_m1 : ModelDb := fst (ex_start ex_m0).
Definition ex_m2 : ModelDb := fst (ex_complete ex_m1).

Lemma ex_context_held : context_held (md_db ex_m0) (ex_context 100 1).
Proof. exists (default ex_attempt (db_attempts db1 !! 100)). vm_compute. done. Qed.

Lemma ex_m1_reached : star ex_audit_step ex_m0 ex_m1.
Proof. apply star_one. eapply au_start. apply surjective_pairing. Qed.

Lemma ex_m2_reached : star ex_audit_step ex_m0 ex_m2.
Proof.
  eapply star_trans; [exact ex_m1_reached|]. apply star_one.
  eapply (au_complete _ _ _ _ _ ex_reservation (ex_context 100 1) (ex_response "{}")); [|reflexivity|apply surjective_pairing].
  apply (context_held_star (Text := ex_text) ex_uuid5 id ex_cf ex_m0 ex_m1); [apply ex_m0_inv|apply ex_m1_reached|apply ex_context_held].
Qed.

(** The worker then succeeds, and the coordinator adds the plan step. *)
Definition ex_result : StepExecutionResult := {| er_output_ref := ex_ref; er_actual_cost := ex_cost_zero |}.
Definition ex_succeeded := store_succeed (Hook := coordinator (H := ex_text) ex_uuid5 id ex_hook_env) claimed1 ex_result (utc 4000).
Definition ex_m4 : ModelDb := set_db (fst (ex_succeeded (md_db ex_m2))) ex_m2.

Lemma ex_m4_reached : star ex_audit_step ex_m0 ex_m4.
Proof.
  eapply star_trans; [exact ex_m2_reached|]. apply star_one. eapply (au_store _ _ _ _ _ ex_hook_env); [|reflexivity].
  eapply (ds_succeed (Hook := coordinator (H := ex_text) ex_uuid5 id ex_hook_env) ex_cf _ _ claimed1 ex_result (utc 4000));
    [|apply surjective_pairing].
  exists (default ex_attempt (db_attempts (md_db ex_m2) !! 100)). split; [vm_compute; reflexivity|].
  vm_compute. by repeat split.
Qed.

Lemma model_calls_metered_witness :
  calls_of 1 (md_invocations ex_m4) = 1 /\ size (db_steps (md_db ex_m4)) = 2%nat /\
  exists r, db_runs (md_db ex_m4) !! 1 = Some r /\
    bu_llm_call_count (run_usage r) = calls_of 1 (md_invocations ex_m4) /\
    bu_prompt_token_count (run_usage r) = prompt_of 1 (md_invocations ex_m4).
Proof.
  split; [vm_compute; reflexivity|]. split; [vm_compute; reflexivity|].
  destruct (model_calls_metered (Text := ex_text) ex_uuid5 id ex_cf ex_m0 ex_m4 ex_m0_inv ex_m4_reached) as [H _].
  exists (default ex_run (db_runs (md_db ex_m4) !! 1)). split; [vm_compute; reflexivity|].
  destruct (H 1 (default ex_run (db_runs (md_db ex_m4) !! 1))) as (H1 & H2 & _); [vm_compute; reflexivity|].
  split; [exact H1|exact H2].
Defined.

Lemma ex_m2_inv : audit_inv ex_m2.
Proof. apply (audit_star_books (Text := ex_text) ex_uuid5 id ex_cf ex_m0 ex_m2 ex_m0_inv ex_m2_reached). Qed.

(** A second completion, and a failure, find the call sealed. *)
Definition ex_m3 : ModelDb := fst (audit_fail ex_reservation (ex_context 100 1)
  {| rv_category := u "TRANSIENT"; rv_code := u "late"; rv_retryable := true |} (utc 4000) ex_m2).

Lemma sealed_call_final_witness :
  exists i i', md_invocations ex_m2 !! 1000 = Some i /\ mi_status i = Invocation_COMPLETED /\
    md_invocations ex_m3 !! 1000 = Some i' /\ (mi_status i <> Invocation_STARTED -> i' = i).
Proof.
  destruct (md_invocations ex_m2 !! 1000) as [i|] eqn:E; [|exfalso; revert E; vm_compute; discriminate].
  assert (star ex_audit_step ex_m2 ex_m3) as Hs
    by (apply star_one; eapply au_fail; apply surjective_pairing).
  destruct (sealed_call_final (Text := ex_text) ex_uuid5 id ex_cf ex_m2 ex_m3 1000 i ex_m2_inv Hs E) as (i' & Hi' & Hf & _).
  exists i, i'. split; [reflexivity|]. split; [|by split].
  revert E. vm_compute. intros E. injection E as <-. reflexivity.
Defined.
