(* ===== verification/ModelCalls.v ===== *)
(** * ModelCalls: gateways over the durable audit

    The gateway of ModelGateway is proved against an interface, [AuditLaws]: each call of the
    sink is a transaction of ModelAudit, and while a gateway waits others may do anything a history
    allows. [SqlAudit] discharges it. An example shows a repair that is never asked. *)

From Stdlib Require Import SpecFloat String.
From S2P Require Import Prelude Errors PyTime Transitions Run RunFacts Step StepFacts Policy Lease Workflow.
From S2P Require Import PyData StepStore StepStoreFacts ModelGateway ModelGatewayFacts ModelAudit ModelAuditFacts.

(** ** The interface *)

Section Interface.
Context `{Text : PyText} (uuid5 : UUID -> pystr -> UUID) (sha256_utf8 : pystr -> pystr) (cf : StoreConfig) {W : Type} (db : W -> ModelDb).

(** Between two worlds only steps of a history happened. *)
Definition moves (w w' : W) : Prop := star (audit_step uuid5 sha256_utf8 cf) (db w) (db w').

Class AuditLaws (sink : AuditSink W) := {
  law_reuse x q provider call_no key deadline w w' r :
    sink_reuse x q provider call_no key deadline w = (w', r) -> moves w w';
  law_start x q provider call_no key deadline w w' r :
    sink_start x q provider call_no key deadline w = (w', r) ->
    moves w w' /\
    match r with
    | Ok _ => calls_of (mx_run_id x) (md_invocations (db w)) + 1 <= calls_of (mx_run_id x) (md_invocations (db w'))
    | Raise _ => True
    end;
  law_complete v x response w w' r : context_held (md_db (db w)) x ->
    ProviderResponse_new response = Ok response -> sink_complete v x response w = (w', r) -> moves w w';
  law_fail v x error w w' r : sink_fail v x error w = (w', r) -> moves w w'
}.

(** Reading the clock and calling a provider take time, in which others act; a provider answers
    with a response its constructor accepts. *)
Record EnvironmentLaws (clock_now : W -> W * datetime)
    (provider_invoke : pystr -> ModelRequest -> float -> W -> W * provider_outcome) : Prop := {
  law_clock w : moves w (clock_now w).1;
  law_provider name q timeout w : moves w (provider_invoke name q timeout w).1;
  law_response name q timeout w response : (provider_invoke name q timeout w).2 = Responded response ->
    ProviderResponse_new response = Ok response
}.
End Interface.

(** ** What a gateway does to the database *)

Section Client.
Context `{Text : PyText} (uuid5 : UUID -> pystr -> UUID) (sha256_utf8 : pystr -> pystr) (cf : StoreConfig) {W P : Type} (db : W -> ModelDb)
  (sink : AuditSink W) {Laws : AuditLaws uuid5 sha256_utf8 cf db sink} (clock_now : W -> W * datetime)
  (provider_invoke : pystr -> ModelRequest -> float -> W -> W * provider_outcome)
  (Env : EnvironmentLaws uuid5 sha256_utf8 cf db clock_now provider_invoke)
  (providers : list pystr) (roles : list (ModelRole * RoleConfig)) (call_digest : LogicalCall -> pystr)
  (x : ModelInvocationContext).

Definition run_calls (w : W) : Z := calls_of (mx_run_id x) (md_invocations (db w)).
Definition reservations (s : Gw W) : Z := Z.of_nat (length (reserved_nos (gw_events s))).

(** A state whose books are in order and whose context is that of an attempt. *)
Definition sound (s : Gw W) : Prop :=
  audit_inv (db (gw_world s)) /\ context_held (md_db (db (gw_world s))) x.

(** From [s] to [s'] only steps of a history happened, and every reservation the gateway noted is
    one more call in the books. *)
Definition advances (s s' : Gw W) : Prop :=
  moves uuid5 sha256_utf8 cf db (gw_world s) (gw_world s') /\
  run_calls (gw_world s) - reservations s <= run_calls (gw_world s') - reservations s'.

#[export] Instance advances_preorder : PreOrder advances.
Proof using Type.
  split.
  - intros s. split; [constructor|lia].
  - intros s1 s2 s3 [M1 B1] [M2 B2]. split; [by eapply star_trans|lia].
Qed.

Definition frames {A} (m : M (Gw W) A) : Prop :=
  forall s s' r, m s = (s', r) -> sound s -> sound s' /\ advances s s'.

Lemma frames_bind {A B} (m : M (Gw W) A) (k : A -> M (Gw W) B) :
  frames m -> (forall a, frames (k a)) -> frames (m ≫= k).
Proof using Type.
  intros Hm Hk s s' r H Hs. unfold mbind, M_bind in H. destruct (m s) as [s1 [a|e]] eqn:E.
  - destruct (Hm _ _ _ E Hs) as [Hs1 A1]. destruct (Hk a _ _ _ H Hs1) as [Hs2 A2]. split; [done|]. by etransitivity.
  - simplify_eq. by eapply Hm.
Qed.

Lemma frames_pure {A} (r : res A) : frames (fun s => (s, r)).
Proof using Type. intros s s' r' H Hs. by simplify_eq. Qed.

Lemma sound_moves s s' : sound s -> moves uuid5 sha256_utf8 cf db (gw_world s) (gw_world s') -> sound s'.
Proof using Type.
  intros [HI Hx] Hm. split; [|by eapply context_held_star].
  apply (audit_star_books uuid5 sha256_utf8 cf (db (gw_world s))); [done|exact Hm].
Qed.

Lemma calls_moves w w' : audit_inv (db w) -> moves uuid5 sha256_utf8 cf db w w' -> run_calls w <= run_calls w'.
Proof using Type. intros HI Hm. by eapply calls_of_star. Qed.

(** A call of the world: the events are untouched. *)
Lemma frames_on_world {A} (m : M W A) :
  (forall s, sound s -> moves uuid5 sha256_utf8 cf db (gw_world s) (m (gw_world s)).1) -> frames (on_world m).
Proof using Type.
  intros Hm s s' r H Hs. unfold on_world in H. specialize (Hm s Hs). destruct (m (gw_world s)) as [w o]. simpl in Hm.
  simplify_eq. assert (moves uuid5 sha256_utf8 cf db (gw_world s) (gw_world (Build_Gw w (gw_budget s) (gw_events s)))) as Hmv by done.
  split; [by eapply sound_moves|]. split; [done|]. unfold reservations. simpl.
  pose proof (calls_moves (gw_world s) w (proj1 Hs) Hm). lia.
Qed.

Lemma frames_emit ev : (forall n, ev <> GwReserved n) -> frames (emit ev).
Proof using Type.
  intros Hev s s' r H Hs. unfold emit, update in H. simplify_eq. split; [done|]. split; [constructor|].
  unfold reservations. simpl. unfold reserved_nos. rewrite omap_app, length_app. destruct ev; simpl; try lia.
  by specialize (Hev call_no).
Qed.

Lemma frames_on_budget f : frames (on_budget f).
Proof using Type.
  intros s s' r H Hs. unfold on_budget in H. destruct (f _); simplify_eq; (split; [done|]); (split; [constructor|]); by unfold reservations.
Qed.

(** *** The calls of a gateway *)

Section OneRequest.
Context (q : ModelRequest) (c : RoleConfig) (deadline : datetime) (start : Z).

Lemma frames_remaining : frames (remaining_seconds clock_now deadline).
Proof using Env.
  unfold remaining_seconds. apply frames_bind; [apply frames_pure|intros _].
  apply frames_bind; [|intros now; apply frames_bind; [apply frames_pure|intros span]; cbv zeta;
                       apply frames_bind; [apply frames_pure|intros _; apply frames_pure]].
  apply frames_on_world. intros s _. pose proof (law_clock uuid5 sha256_utf8 cf db _ _ Env (gw_world s)) as H.
  by destruct (clock_now (gw_world s)).
Qed.

Lemma frames_open call_no :
  frames (open_call (Some sink) call_digest q c deadline (Some x) call_no).
Proof using Laws.
  unfold open_call. apply frames_bind.
  { apply frames_on_world. intros s _. destruct (sink_reuse _ _ _ _ _ _ _) as [w' r] eqn:E. exact (law_reuse uuid5 sha256_utf8 cf db _ _ _ _ _ _ _ _ _ E). }
  intros [ru|]; [apply frames_bind; [by apply frames_emit|intros _; apply frames_pure]|].
  intros s s' r H Hs. unfold mbind, M_bind, on_world in H.
  destruct (sink_start _ _ _ _ _ _ _) as [w o] eqn:E. apply (law_start uuid5 sha256_utf8 cf db) in E as [Hm Hc]. destruct o as [v|e].
  - unfold emit, update, mret, M_ret in H. simplify_eq.
    split; [by eapply sound_moves|]. split; [done|]. unfold reservations. simpl. unfold reserved_nos.
    rewrite omap_app, length_app. unfold run_calls. simpl. lia.
  - simplify_eq. assert (moves uuid5 sha256_utf8 cf db (gw_world s) (gw_world (Build_Gw w (gw_budget s) (gw_events s)))) as Hmv by done.
    split; [by eapply sound_moves|]. split; [done|]. unfold reservations. simpl.
    pose proof (calls_moves (gw_world s) w (proj1 Hs) Hm). lia.
Qed.

Lemma frames_try call_no : frames (try_provider clock_now provider_invoke q c deadline call_no).
Proof using Env.
  assert (forall m : M (Gw W) provider_outcome, frames m -> frames (fun s =>
    match m s with (s', Ok o) => (s', Ok o) | (s', Raise e) => (s', Ok (ProviderRaised e)) end)) as Hcatch.
  { intros m Hm s s' r H. destruct (m s) as [s1 [o|e]] eqn:E; simplify_eq; by eapply Hm. }
  apply Hcatch. apply frames_bind; [apply frames_remaining|intros rem].
  apply frames_bind; [apply frames_pure|intros _]. cbv zeta. apply frames_bind; [|intros o].
  - apply frames_on_world. intros s _.
    pose proof (law_provider uuid5 sha256_utf8 cf db _ _ Env (rg_provider c) q
      (fmin (rg_request_timeout_seconds c) (fsub rem model_completion_margin_seconds)) (gw_world s)) as H.
    by destruct (provider_invoke _ _ _ (gw_world s)).
  - apply frames_bind; [by apply frames_emit|intros _; apply frames_pure].
Qed.

Lemma frames_fail call_no v e : frames (fail_call (Some sink) (Some x) call_no v e).
Proof using Laws.
  unfold fail_call. destruct v as [v|]; [|apply frames_pure]. apply frames_bind; [apply frames_pure|intros error].
  apply frames_bind; [|intros _; by apply frames_emit]. apply frames_on_world. intros s _.
  destruct (sink_fail _ _ _ _) as [w r] eqn:E. exact (law_fail uuid5 sha256_utf8 cf db _ _ _ _ _ _ E).
Qed.

Lemma frames_complete call_no v response : ProviderResponse_new response = Ok response ->
  frames (complete_call (Some sink) (Some x) call_no v response).
Proof using Laws.
  intros Hr. unfold complete_call. destruct v as [v|]; [|apply frames_on_budget].
  apply frames_bind; [|intros _; by apply frames_emit]. apply frames_on_world. intros s [_ Hx].
  destruct (sink_complete _ _ _ _) as [w r] eqn:E. exact (law_complete uuid5 sha256_utf8 cf db _ _ _ _ _ _ Hx Hr E).
Qed.

(** The response of a provider call is one its constructor accepts. *)
Lemma try_response call_no s s' response :
  try_provider clock_now provider_invoke q c deadline call_no s = (s', Ok (Responded response)) ->
  ProviderResponse_new response = Ok response.
Proof using Env.
  unfold try_provider. intros H.
  match type of H with match ?m with _ => _ end = _ => destruct m as [s1 [o|e]] eqn:E end; simplify_eq.
  apply bind_ok_inv in E as (s2 & rem & _ & E). apply bind_ok_inv in E as (s3 & y & _ & E). cbv zeta in E.
  apply bind_ok_inv in E as (s4 & o & Eo & E). apply bind_ok_inv in E as (s5 & z & _ & E).
  unfold mret, M_ret in E. simplify_eq. unfold on_world in Eo.
  destruct (provider_invoke _ _ _ _) as [w o] eqn:Ep. simplify_eq.
  eapply (law_response uuid5 sha256_utf8 cf db _ _ Env). by rewrite Ep.
Qed.

Lemma frames_loop n attempt calls :
  frames (invoke_loop (Some sink) clock_now provider_invoke call_digest q c deadline (Some x) start n attempt calls).
Proof using Laws Env.
  revert attempt calls. induction n as [|n IH]; intros attempt calls; [apply frames_pure|]. cbn [invoke_loop].
  apply frames_bind; [apply frames_remaining|intros rem]. apply frames_bind; [apply frames_pure|intros _].
  cbv zeta. apply frames_bind; [apply frames_open|intros [response|v]]; [apply frames_pure|].
  intros s s' r H Hs. unfold mbind at 1, M_bind at 1 in H.
  destruct (try_provider _ _ _ _ _ _ s) as [s1 [o|e]] eqn:E.
  2:{ simplify_eq. by apply (frames_try _ _ _ _ E). }
  destruct (frames_try _ _ _ _ E Hs) as [Hs1 A1].
  assert (sound s' /\ advances s1 s') as [Hs' A2]; [|split; [done|]; by etransitivity].
  revert H Hs1. destruct o as [response| |e].
  - apply try_response in E. intros H Hs1. revert H Hs1.
    apply (frames_bind _ _ (frames_complete _ v response E)). intros _. apply frames_pure.
  - apply (frames_bind _ _ (frames_fail _ v _)). intros _. destruct (_ <=? _); [apply frames_pure|apply IH].
  - apply (frames_bind _ _ (frames_fail _ v _)). intros _. destruct (_ || _); [apply frames_pure|apply IH].
Qed.

End OneRequest.

Lemma frames_invoke q c deadline start :
  frames (gw_invoke (Some sink) clock_now provider_invoke providers call_digest q c deadline (Some x) start).
Proof using Laws Env.
  unfold gw_invoke. apply frames_bind; [apply frames_pure|intros _]. apply frames_loop.
Qed.

Lemma frames_generate role messages deadline (parser : option (StructuredOutputParser P)) :
  frames (gw_generate (Some sink) clock_now provider_invoke providers roles call_digest role messages deadline
            parser (Some x)).
Proof using Laws Env.
  unfold gw_generate. destruct (list_find _ roles) as [[i [role' c]]|]; [|apply frames_pure].
  apply frames_bind; [apply frames_pure|intros q]. apply frames_bind; [apply frames_invoke|intros [response calls]].
  destruct parser as [parser|]; [|apply frames_pure]. destruct (so_parse _ _); [apply frames_pure|].
  destruct (negb _); [apply frames_pure|]. apply frames_bind; [apply frames_pure|intros repair].
  apply frames_bind; [apply frames_pure|intros q2]. apply frames_bind; [apply frames_invoke|intros [repaired calls2]].
  destruct (so_parse _ _); apply frames_pure.
Qed.

(** Claim C28. Gateways over the audit refine its histories. Whatever the prompt, the parser and the
    answers, and whatever other workers (whose store has the workflow's coordinator as its hook),
    gateways and the reconciler do while this one waits, a
    [generate] through a sink with the audit's laws moves the database only by steps of a history;
    so the books stay in order, and the calls the run had before plus every call this generation
    reserved are at most the run's limit. *)
Theorem gateway_on_audit role messages deadline (parser : option (StructuredOutputParser P)) s s' r :
  audit_inv (db (gw_world s)) -> context_held (md_db (db (gw_world s))) x ->
  gw_generate (Some sink) clock_now provider_invoke providers roles call_digest role messages deadline
    parser (Some x) s = (s', r) ->
  star (audit_step uuid5 sha256_utf8 cf) (db (gw_world s)) (db (gw_world s')) /\
  audit_inv (db (gw_world s')) /\
  forall row, db_runs (md_db (db (gw_world s'))) !! mx_run_id x = Some row ->
    calls_of (mx_run_id x) (md_invocations (db (gw_world s)))
      + Z.of_nat (length (reserved_nos (gw_events s')) - length (reserved_nos (gw_events s)))
    <= bs_max_llm_calls (run_budget row).
Proof using Laws Env.
  intros HI Hx H. destruct (frames_generate _ _ _ _ _ _ _ H (conj HI Hx)) as [[HI' _] [Hm Hc]].
  split; [exact Hm|]. split; [done|]. intros row Hrow.
  pose proof (ai_books _ HI' _ _ Hrow) as Hb. pose proof (ai_limit _ HI' _ _ Hrow) as Hl.
  unfold meter, metered_usage in Hb. simplify_eq. unfold run_calls, reservations in Hc.
  pose proof (calls_moves (gw_world s) (gw_world s') HI Hm) as Hcm. unfold run_calls in Hcm. lia.
Qed.
End Client.

(** ** The database sink *)

(** A world with the database, a clock that ticks at every reading, fresh ids, the stored responses,
    and what the provider will answer. *)
Record AuditWorld := {
  aw_db : ModelDb;
  aw_now : Z;
  aw_next_id : Z;
  aw_artifacts : list (ArtifactRef * ProviderResponse);
  aw_script : list provider_outcome
}.

Definition aw_with (d : ModelDb) (artifacts : list (ArtifactRef * ProviderResponse)) (w : AuditWorld) : AuditWorld :=
  {| aw_db := d; aw_now := aw_now w + 3; aw_next_id := aw_next_id w + 1; aw_artifacts := artifacts;
     aw_script := aw_script w |}.

(** A transaction at the world's time, with its next id. *)
Definition aw_run {A} (f : datetime -> datetime -> UUID -> M ModelDb A) : M AuditWorld A := fun w =>
  let '(d, r) := f (utc (aw_now w + 1)) (utc (aw_now w + 2)) (aw_next_id w) (aw_db w) in
  (aw_with d (aw_artifacts w) w, r).

Definition aw_load (w : AuditWorld) (reference : ArtifactRef) : res ProviderResponse :=
  match list_find (fun kv => kv.1 = reference) (aw_artifacts w) with
  | Some (_, (_, response)) => Ok response
  | None => Raise (LookupError "artifact")
  end.

(** [put_json]: a response is stored under a fresh reference. *)
Definition aw_put (response : ProviderResponse) : M AuditWorld ArtifactRef := fun w =>
  let reference := {| ar_uri := u "artifact://" ++ str_of_Z (aw_next_id w); ar_sha256 := u "sha" |} in
  (aw_with (aw_db w) ((reference, response) :: aw_artifacts w) w, Ok reference).

#[export] Instance SqlAudit : AuditSink AuditWorld := {|
  sink_reuse x q provider call_no key deadline := w ← self;
    aw_run (audit_reuse (aw_load w) x q provider call_no key deadline);
  sink_start x q provider call_no key deadline := aw_run (audit_start x q provider call_no key deadline);
  sink_complete v x response := reference ← aw_put response;
    aw_run (fun now _ _ => audit_complete v x response reference now);
  sink_fail v x error := aw_run (fun now _ _ => audit_fail v x error now)
|}.

Definition aw_clock (w : AuditWorld) : AuditWorld * datetime :=
  (aw_with (aw_db w) (aw_artifacts w) w, utc (aw_now w)).

(** The adapter builds a response of what the provider sends; a provider out of answers hangs. *)
Definition aw_provider (name : pystr) (q : ModelRequest) (timeout : float) (w : AuditWorld)
    : AuditWorld * provider_outcome :=
  match aw_script w with
  | [] => (w, ProviderTimedOut)
  | o :: rest =>
      ({| aw_db := aw_db w; aw_now := aw_now w; aw_next_id := aw_next_id w; aw_artifacts := aw_artifacts w;
          aw_script := rest |},
       match o with
       | Responded r => match ProviderResponse_new r with Ok r => Responded r | Raise e => ProviderRaised e end
       | _ => o
       end)
  end.

Lemma reuse_step `{Text : PyText} uuid5 sha256_utf8 cf load x q provider call_no key deadline now later_now new_id m m' r :
  audit_reuse load x q provider call_no key deadline now later_now new_id m = (m', r) ->
  star (audit_step uuid5 sha256_utf8 cf) m m'.
Proof.
  unfold audit_reuse. unfold mbind at 1, M_bind at 1, self. destruct (reuse_source x key m) as [source|];
    [|unfold mret, M_ret; intros; simplify_eq; constructor].
  destruct (mi_output source) as [reference|]; [|unfold mret, M_ret; intros; simplify_eq; constructor].
  unfold mbind at 1, M_bind at 1, lift. destruct (load reference) as [response|e]; [|intros; simplify_eq; constructor].
  unfold mbind, M_bind. destruct (record_reuse _ _ _ _ _ _ _ _ _ _ _ m) as [m1 o] eqn:E. intros H.
  assert (m' = m1) as -> by (destruct o; unfold mret, M_ret in H; by simplify_eq).
  apply star_one. by eapply au_reuse.
Qed.

Lemma start_counts x q provider call_no key deadline now later_now new_id m m' v :
  audit_start x q provider call_no key deadline now later_now new_id m = (m', Ok v) ->
  calls_of (mx_run_id x) (md_invocations m') = calls_of (mx_run_id x) (md_invocations m) + 1.
Proof.
  intros H. unfold audit_start in H. minv. apply transact_ok_inv in E. minv.
  apply lock_current_ok_inv in E0 as (-> & _). unfold save_run_row in *. minv.
  apply add_invocation_ok_inv in E as (-> & Hf & _). simpl in Hf |- *.
  unfold calls_of. rewrite sum_map_insert_new by done. unfold row_meter at 1. simpl. rewrite Z.eqb_refl. simpl. lia.
Qed.

#[export] Instance SqlAudit_laws `{Text : PyText} uuid5 sha256_utf8 cf : AuditLaws uuid5 sha256_utf8 cf aw_db SqlAudit.
Proof.
  split; unfold moves; simpl.
  - intros x q provider call_no key deadline w w' r. unfold mbind, M_bind, self, aw_run.
    destruct (audit_reuse _ _ _ _ _ _ _ _ _ _ (aw_db w)) as [d o] eqn:E. intros [= <- <-]. simpl. by eapply reuse_step.
  - intros x q provider call_no key deadline w w' r. unfold aw_run.
    destruct (audit_start _ _ _ _ _ _ _ _ _ (aw_db w)) as [d o] eqn:E. intros [= <- <-]. simpl. split.
    + apply star_one. by eapply au_start.
    + destruct o as [v|]; [|done]. apply start_counts in E. lia.
  - intros v x response w w' r Hx Hr. unfold mbind, M_bind, aw_put, aw_run. simpl.
    destruct (audit_complete _ _ _ _ _ (aw_db w)) as [d o] eqn:E. intros [= <- <-]. simpl.
    apply star_one. by eapply au_complete.
  - intros v x error w w' r. unfold aw_run. destruct (audit_fail _ _ _ _ (aw_db w)) as [d o] eqn:E.
    intros [= <- <-]. simpl. apply star_one. by eapply au_fail.
Qed.

Lemma aw_environment `{Text : PyText} uuid5 sha256_utf8 cf : EnvironmentLaws uuid5 sha256_utf8 cf aw_db aw_clock aw_provider.
Proof.
  split; unfold moves, aw_clock, aw_provider; simpl.
  - constructor.
  - intros name q timeout w. destruct (aw_script w); constructor.
  - intros name q timeout w response. destruct (aw_script w) as [|o rest]; [done|]. destruct o as [r| |e]; simpl; try done.
    destruct (ProviderResponse_new r) as [r'|] eqn:E; [|done]. intros [= <-].
    assert (r' = r) as -> by (unfold ProviderResponse_new in E; by minv). done.
Qed.

(** ** Examples *)

Definition ex_role : RoleConfig :=
  {| rg_provider := u "p"; rg_model := u "m"; rg_temperature := fzero; rg_max_output_tokens := 1024;
     rg_max_retries := 1; rg_request_timeout_seconds := float_of_Z 5;
     rg_output_format := OutputFormat_JSON_OBJECT; rg_thinking_mode := ThinkingMode_DISABLED;
     rg_prompt_template_version := u "v1"; rg_parser_schema_version := u "v1" |}.

(** A parser that only takes an empty object, and a key of the call's number. *)
Definition ex_parser : StructuredOutputParser unit :=
  {| so_parse text := if bool_decide (text = u "{}") then Ok tt else Raise (ValueError "not an object");
     so_repair_instruction _ := u "Return JSON." |}.
Definition ex_digest (lc : LogicalCall) : pystr := u "call-" ++ str_of_Z (lc_call_no lc).

Definition ex_budget0 : ModelCallBudget :=
  {| mb_max_calls := 0; mb_max_total_tokens := 0; mb_used_calls := 0; mb_used_prompt_tokens := 0;
     mb_used_completion_tokens := 0 |}.
Definition ex_world (d : ModelDb) (now next_id : Z) (artifacts : list (ArtifactRef * ProviderResponse))
    (script : list provider_outcome) : Gw AuditWorld :=
  Build_Gw {| aw_db := d; aw_now := now; aw_next_id := next_id; aw_artifacts := artifacts;
              aw_script := script |} ex_budget0 [].

Definition ex_generate (x : ModelInvocationContext) : M (Gw AuditWorld) (ModelResult unit) :=
  gw_generate (Some SqlAudit) aw_clock aw_provider [u "p"] [(ModelRole_ROUTER, ex_role)] ex_digest
    ModelRole_ROUTER [{| mm_role := MessageRole_USER; mm_content := u "q" |}] (utc 12000000)
    (Some ex_parser) (Some x).

(** The first attempt: the first call hangs, the second answers no object, the repair is cancelled. *)
Definition ex_first : Gw AuditWorld * res (ModelResult unit) :=
  ex_generate (ex_context 100 1) (ex_world ex_m0 2000 1000 []
    [ProviderTimedOut; Responded (ex_response "oops"); ProviderRaised CancelledError]).

Example ex_first_events :
  snd ex_first = Raise CancelledError /\
  map (fun ev => match ev with GwReserved n => (1, n) | GwInvoked n _ _ _ => (2, n) | GwCompleted n => (3, n)
                 | GwFailed n => (4, n) | GwReused n => (5, n) end) (gw_events (fst ex_first))
  = [(1, 1); (2, 1); (4, 1); (1, 2); (2, 2); (3, 2); (1, 3); (2, 3); (4, 3)] /\
  calls_of 1 (md_invocations (aw_db (gw_world (fst ex_first)))) = 3.
Proof. vm_compute. done. Qed.

(** The step is retried: attempt 101. *)
Definition ex_retry_error : TypedError :=
  {| te_category := ErrorCategory_TRANSIENT; te_code := u "worker_stopped"; te_message := u "m"; te_retryable := true |}.
Definition ex_retried : ModelDb :=
  let m := aw_db (gw_world (fst ex_first)) in
  let d := fst (store_fail (Hook := quiet_hook) ex_cf claimed1 ex_retry_error (utc 100000) (md_db m)) in
  let d := fst (scanner_make_ready {| rc_tenant_id := 2; rc_step_id := 10; rc_status := StepStatus_RETRY_WAIT;
                  rc_retry_at := None; rc_leased_until := None |} (utc 2000000) d) in
  set_db (fst (store_claim (Hook := quiet_hook) ex_cf 2 10 101 (u "w2") (utc 2000000) d)) m.

(** The second attempt: the first call hangs again, the second is answered by the stored response,
    which is no object; the repair has call number two as well, and is answered by the same stored
    response: the provider, which would now answer well, is not asked. *)
Lemma repair_answered_by_reuse :
  let s := ex_world ex_retried 2000000 2000 (aw_artifacts (gw_world (fst ex_first)))
             [ProviderTimedOut; Responded (ex_response "{}")] in
  let '(s', r) := ex_generate (ex_context 101 2) s in
  r = Raise ModelOutputError /\
  map (fun ev => match ev with GwReserved n => (1, n) | GwInvoked n _ _ _ => (2, n) | GwCompleted n => (3, n)
                 | GwFailed n => (4, n) | GwReused n => (5, n) end) (gw_events s')
  = [(1, 1); (2, 1); (4, 1); (5, 2); (5, 2)] /\
  length (aw_script (gw_world s')) = 1%nat.
Proof. vm_compute. done. Qed.

Lemma gateway_on_audit_witness :
  let s := ex_world ex_m0 2000 1000 [] [ProviderTimedOut; Responded (ex_response "oops"); ProviderRaised CancelledError] in
  star ex_audit_step (aw_db (gw_world s)) (aw_db (gw_world (fst ex_first))) /\
  audit_inv (aw_db (gw_world (fst ex_first))) /\
  forall row, db_runs (md_db (aw_db (gw_world (fst ex_first)))) !! mx_run_id (ex_context 100 1) = Some row ->
    calls_of (mx_run_id (ex_context 100 1)) (md_invocations (aw_db (gw_world s)))
      + Z.of_nat (length (reserved_nos (gw_events (fst ex_first))) - length (reserved_nos (gw_events s)))
    <= bs_max_llm_calls (run_budget row).
Proof.
  refine (gateway_on_audit (Text := ex_text) (P := unit) ex_uuid5 id ex_cf aw_db SqlAudit aw_clock aw_provider (aw_environment ex_uuid5 id ex_cf) [u "p"]
    [(ModelRole_ROUTER, ex_role)] ex_digest (ex_context 100 1) ModelRole_ROUTER
    [{| mm_role := MessageRole_USER; mm_content := u "q" |}] (utc 12000000) (Some ex_parser)
    (ex_world ex_m0 2000 1000 [] [ProviderTimedOut; Responded (ex_response "oops"); ProviderRaised CancelledError])
    (fst ex_first) (snd ex_first) ex_m0_inv ex_context_held _).
  apply surjective_pairing.
Defined.
