(* ===== verification/Campaign.v ===== *)
(** * Campaign: the lifecycle of a shadow campaign

    [sana/modules/shadow_campaign/domain.py]: the vocabularies, the transition table and
    [CampaignLifecycle] with every method that changes it, its [Lifecycle] instance, and what holds
    of every campaign history. *)

From Stdlib Require Import String.
From S2P Require Import Prelude Errors PyTime Transitions.

(** ** Vocabularies *)

(** [@ src/sana/modules/shadow_campaign/domain.py CampaignStatus] *)
Inductive CampaignStatus :=
| CampaignStatus_CREATED | CampaignStatus_RUNNING | CampaignStatus_STOPPING
| CampaignStatus_PAUSED | CampaignStatus_AWAITING_REVIEW | CampaignStatus_COMPLETED
| CampaignStatus_ABORTED.

(** [@ src/sana/modules/shadow_campaign/domain.py GateStatus] *)
Inductive GateStatus :=
| GateStatus_PENDING | GateStatus_PASS | GateStatus_FAIL | GateStatus_INSUFFICIENT_SAMPLE.

(** [@ src/sana/modules/shadow_campaign/domain.py StopIntent] *)
Inductive StopIntent :=
| StopIntent_NONE | StopIntent_PAUSE | StopIntent_ABORT | StopIntent_FATAL | StopIntent_BUDGET
| StopIntent_CALL_CEILING.

(** [@ src/sana/modules/shadow_campaign/domain.py SchedulingState] *)
Inductive SchedulingState :=
| SchedulingState_PENDING | SchedulingState_CLAIMED | SchedulingState_CONVERSATION_BOUND
| SchedulingState_SUBMITTED | SchedulingState_COLLECTED | SchedulingState_FAILED
| SchedulingState_SKIPPED.

(** [@ src/sana/modules/shadow_campaign/domain.py ReservationState] *)
Inductive ReservationState :=
| ReservationState_NONE | ReservationState_ACTIVE | ReservationState_SETTLED
| ReservationState_RELEASED.

#[export] Instance CampaignStatus_eq_dec : EqDecision CampaignStatus.
Proof. solve_decision. Defined.
#[export] Instance GateStatus_eq_dec : EqDecision GateStatus.
Proof. solve_decision. Defined.
#[export] Instance StopIntent_eq_dec : EqDecision StopIntent.
Proof. solve_decision. Defined.
#[export] Instance SchedulingState_eq_dec : EqDecision SchedulingState.
Proof. solve_decision. Defined.
#[export] Instance ReservationState_eq_dec : EqDecision ReservationState.
Proof. solve_decision. Defined.

(** [@ src/sana/modules/shadow_campaign/domain.py _CAMPAIGN_TRANSITIONS] *)
Definition campaign_transitions (s : CampaignStatus) : list CampaignStatus :=
  match s with
  | CampaignStatus_CREATED => [CampaignStatus_RUNNING; CampaignStatus_ABORTED]
  | CampaignStatus_RUNNING =>
      [CampaignStatus_STOPPING; CampaignStatus_AWAITING_REVIEW; CampaignStatus_COMPLETED]
  | CampaignStatus_STOPPING =>
      [CampaignStatus_PAUSED; CampaignStatus_AWAITING_REVIEW; CampaignStatus_COMPLETED;
       CampaignStatus_ABORTED]
  | CampaignStatus_PAUSED => [CampaignStatus_RUNNING; CampaignStatus_ABORTED]
  | CampaignStatus_AWAITING_REVIEW => [CampaignStatus_COMPLETED; CampaignStatus_ABORTED]
  | CampaignStatus_COMPLETED => []
  | CampaignStatus_ABORTED => []
  end.

(** ** The aggregate *)

Record CampaignLifecycle := {
  cl_id : UUID;
  cl_tenant_id : UUID;
  cl_created_by_user_id : UUID;
  cl_max_runs : Z;
  cl_planned_count : Z;
  cl_status : CampaignStatus;
  cl_gate_status : GateStatus;
  cl_stop_intent : StopIntent;
  cl_stop_reason : option pystr;
  cl_started_at : option datetime;
  cl_review_deadline_at : option datetime;
  cl_completed_at : option datetime;
  cl_version : Z;
  cl_persisted_version : Z
}.

(** Assignments to groups of fields. *)
Definition cl_set_status (s : CampaignStatus) (c : CampaignLifecycle) : CampaignLifecycle :=
  {| cl_id := cl_id c; cl_tenant_id := cl_tenant_id c;
     cl_created_by_user_id := cl_created_by_user_id c; cl_max_runs := cl_max_runs c;
     cl_planned_count := cl_planned_count c; cl_status := s; cl_gate_status := cl_gate_status c;
     cl_stop_intent := cl_stop_intent c; cl_stop_reason := cl_stop_reason c;
     cl_started_at := cl_started_at c; cl_review_deadline_at := cl_review_deadline_at c;
     cl_completed_at := cl_completed_at c; cl_version := cl_version c + 1;
     cl_persisted_version := cl_persisted_version c |}.

Definition cl_set_stop (intent : StopIntent) (reason : option pystr) (c : CampaignLifecycle)
    : CampaignLifecycle :=
  {| cl_id := cl_id c; cl_tenant_id := cl_tenant_id c;
     cl_created_by_user_id := cl_created_by_user_id c; cl_max_runs := cl_max_runs c;
     cl_planned_count := cl_planned_count c; cl_status := cl_status c;
     cl_gate_status := cl_gate_status c; cl_stop_intent := intent; cl_stop_reason := reason;
     cl_started_at := cl_started_at c; cl_review_deadline_at := cl_review_deadline_at c;
     cl_completed_at := cl_completed_at c; cl_version := cl_version c;
     cl_persisted_version := cl_persisted_version c |}.

Definition cl_set_times (started review completed : option datetime) (c : CampaignLifecycle)
    : CampaignLifecycle :=
  {| cl_id := cl_id c; cl_tenant_id := cl_tenant_id c;
     cl_created_by_user_id := cl_created_by_user_id c; cl_max_runs := cl_max_runs c;
     cl_planned_count := cl_planned_count c; cl_status := cl_status c;
     cl_gate_status := cl_gate_status c; cl_stop_intent := cl_stop_intent c;
     cl_stop_reason := cl_stop_reason c; cl_started_at := started;
     cl_review_deadline_at := review; cl_completed_at := completed; cl_version := cl_version c;
     cl_persisted_version := cl_persisted_version c |}.

Definition cl_set_gate (g : GateStatus) (c : CampaignLifecycle) : CampaignLifecycle :=
  {| cl_id := cl_id c; cl_tenant_id := cl_tenant_id c;
     cl_created_by_user_id := cl_created_by_user_id c; cl_max_runs := cl_max_runs c;
     cl_planned_count := cl_planned_count c; cl_status := cl_status c; cl_gate_status := g;
     cl_stop_intent := cl_stop_intent c; cl_stop_reason := cl_stop_reason c;
     cl_started_at := cl_started_at c; cl_review_deadline_at := cl_review_deadline_at c;
     cl_completed_at := cl_completed_at c; cl_version := cl_version c;
     cl_persisted_version := cl_persisted_version c |}.

Definition cl_bump (c : CampaignLifecycle) : CampaignLifecycle := cl_set_status (cl_status c) c.

(** [@ src/sana/modules/shadow_campaign/domain.py CampaignLifecycle.is_terminal] *)
Definition Campaign_is_terminal (c : CampaignLifecycle) : bool :=
  bool_decide (cl_status c ∈ [CampaignStatus_COMPLETED; CampaignStatus_ABORTED]).

(** [@ src/sana/modules/shadow_campaign/domain.py CampaignLifecycle.mark_persisted] *)
Definition Campaign_mark_persisted : M CampaignLifecycle unit := update (fun c =>
  {| cl_id := cl_id c; cl_tenant_id := cl_tenant_id c;
     cl_created_by_user_id := cl_created_by_user_id c; cl_max_runs := cl_max_runs c;
     cl_planned_count := cl_planned_count c; cl_status := cl_status c;
     cl_gate_status := cl_gate_status c; cl_stop_intent := cl_stop_intent c;
     cl_stop_reason := cl_stop_reason c; cl_started_at := cl_started_at c;
     cl_review_deadline_at := cl_review_deadline_at c; cl_completed_at := cl_completed_at c;
     cl_version := cl_version c; cl_persisted_version := cl_version c |}).

(** [if value is not None: require_aware(value, name)] *)
Definition aware_opt (d : option datetime) : res unit :=
  match d with Some d => require_aware d | None => Ok tt end.

(** [@ src/sana/modules/shadow_campaign/domain.py CampaignLifecycle._validate_loaded_state] *)
Definition Campaign_validate_loaded_state (c : CampaignLifecycle) : res unit :=
  _ ← aware_opt (cl_started_at c);
  _ ← aware_opt (cl_review_deadline_at c);
  _ ← aware_opt (cl_completed_at c);
  _ ← fail_if ((cl_version c <? 0) || (cl_max_runs c <? 1)
               || negb ((0 <=? cl_planned_count c) && (cl_planned_count c <=? cl_max_runs c)))
        (InvariantViolation "Campaign planning counters are invalid");
  _ ← (if cl_status c is CampaignStatus_CREATED then
         fail_if (negb (is_none (cl_started_at c)) || negb (is_none (cl_completed_at c)))
           (InvariantViolation "Persisted CREATED campaign has run timestamps")
       else
         fail_if ((cl_status c isnot CampaignStatus_ABORTED) && is_none (cl_started_at c))
           (InvariantViolation "Persisted active campaign has no started_at"));
  _ ← fail_if ((cl_status c is CampaignStatus_STOPPING)
               && ((cl_stop_intent c is StopIntent_NONE) || blank (default [] (cl_stop_reason c))))
        (InvariantViolation "Persisted STOPPING campaign has no stop intent");
  _ ← fail_if ((cl_status c is CampaignStatus_AWAITING_REVIEW) && is_none (cl_review_deadline_at c))
        (InvariantViolation "Persisted review campaign has no deadline");
  _ ← fail_if (negb (Bool.eqb (Campaign_is_terminal c) (negb (is_none (cl_completed_at c)))))
        (InvariantViolation "Persisted campaign terminal timestamp is inconsistent");
  _ ← fail_if ((cl_status c is CampaignStatus_COMPLETED) && (cl_gate_status c is GateStatus_PENDING))
        (InvariantViolation "Persisted completed campaign has no gate decision");
  match cl_started_at c, cl_completed_at c with
  | Some started, Some completed =>
      back ← dt_lt completed started;
      fail_if back (InvariantViolation "Persisted campaign timestamps move backwards")
  | _, _ => Ok tt
  end.

(** [@ src/sana/modules/shadow_campaign/domain.py CampaignLifecycle.rehydrate] *)
Definition Campaign_rehydrate (id tenant_id created_by_user_id : UUID)
    (max_runs planned_count : Z) (status : CampaignStatus) (gate_status : GateStatus)
    (stop_intent : StopIntent) (stop_reason : option pystr)
    (started_at review_deadline_at completed_at : option datetime) (version : Z)
    : res CampaignLifecycle :=
  let campaign :=
    {| cl_id := id; cl_tenant_id := tenant_id; cl_created_by_user_id := created_by_user_id;
       cl_max_runs := max_runs; cl_planned_count := planned_count; cl_status := status;
       cl_gate_status := gate_status; cl_stop_intent := stop_intent;
       cl_stop_reason := stop_reason; cl_started_at := started_at;
       cl_review_deadline_at := review_deadline_at; cl_completed_at := completed_at;
       cl_version := version; cl_persisted_version := version |} in
  _ ← Campaign_validate_loaded_state campaign;
  Ok campaign.

(** [@ src/sana/modules/shadow_campaign/domain.py CampaignLifecycle._require_not_before_start] *)
Definition Campaign_require_not_before_start (at_ : datetime) : M CampaignLifecycle unit :=
  c ← self;
  match cl_started_at c with
  | Some started =>
      early ← lift (dt_lt at_ started);
      raise_if early (InvariantViolation "cannot precede campaign start")
  | None => mret tt
  end.

(** [@ src/sana/modules/shadow_campaign/domain.py CampaignLifecycle._transition] *)
Definition Campaign_transition (target : CampaignStatus) : M CampaignLifecycle unit :=
  c ← self;
  _ ← raise_if (negb (bool_decide (target ∈ campaign_transitions (cl_status c))))
        (InvariantViolation_code "Illegal campaign transition" "illegal_state_transition");
  update (cl_set_status target).

(** [@ src/sana/modules/shadow_campaign/domain.py CampaignLifecycle.start] *)
Definition Campaign_start (at_ : datetime) : M CampaignLifecycle unit :=
  _ ← lift (require_aware at_);
  _ ← Campaign_require_not_before_start at_;
  c ← self;
  _ ← raise_if (negb (cl_planned_count c =? cl_max_runs c))
        (InvariantViolation_code "Campaign cannot start before every planned run is materialized"
           "campaign_not_materialized");
  _ ← Campaign_transition CampaignStatus_RUNNING;
  _ ← update (fun c => cl_set_times
        (match cl_started_at c with Some t => Some t | None => Some at_ end)
        (cl_review_deadline_at c) (cl_completed_at c) c);
  update (cl_set_stop StopIntent_NONE None).

(** [@ src/sana/modules/shadow_campaign/domain.py CampaignLifecycle.resume] *)
Definition Campaign_resume (at_ : datetime) : M CampaignLifecycle unit :=
  _ ← lift (require_aware at_);
  _ ← Campaign_require_not_before_start at_;
  _ ← Campaign_transition CampaignStatus_RUNNING;
  _ ← update (cl_set_stop StopIntent_NONE None);
  update (fun c => cl_set_times (cl_started_at c) None (cl_completed_at c) c).

(** [@ src/sana/modules/shadow_campaign/domain.py CampaignLifecycle.request_stop] *)
Definition Campaign_request_stop (intent : StopIntent) (reason : pystr) : M CampaignLifecycle unit :=
  _ ← raise_if (intent is StopIntent_NONE)
        (InvariantViolation "Stopping a campaign requires a stop intent");
  _ ← raise_if (blank reason) (InvariantViolation "Stopping a campaign requires a reason");
  _ ← Campaign_transition CampaignStatus_STOPPING;
  update (cl_set_stop intent (Some (strip reason))).

(** [@ src/sana/modules/shadow_campaign/domain.py CampaignLifecycle.escalate_stop] *)
Definition Campaign_escalate_stop (intent : StopIntent) (reason : pystr) : M CampaignLifecycle unit :=
  c ← self;
  _ ← raise_if (cl_status c isnot CampaignStatus_STOPPING)
        (InvariantViolation_code "Only a STOPPING campaign can escalate its stop intent"
           "campaign_not_stopping");
  _ ← raise_if ((cl_stop_intent c isnot StopIntent_PAUSE)
                || bool_decide (intent ∈ [StopIntent_NONE; StopIntent_PAUSE]))
        (InvariantViolation_code "Campaign stop intent cannot be downgraded or replaced"
           "stop_intent_escalation_invalid");
  _ ← raise_if (blank reason) (InvariantViolation "Stop escalation requires a reason");
  _ ← update (cl_set_stop intent (Some (strip reason)));
  update cl_bump.

(** [@ src/sana/modules/shadow_campaign/domain.py CampaignLifecycle.settle_stop] *)
Definition Campaign_settle_stop (at_ : datetime) : M CampaignLifecycle unit :=
  _ ← lift (require_aware at_);
  _ ← Campaign_require_not_before_start at_;
  c ← self;
  let target := if cl_stop_intent c is StopIntent_PAUSE then CampaignStatus_PAUSED
                else CampaignStatus_ABORTED in
  _ ← Campaign_transition target;
  if target is CampaignStatus_ABORTED
  then update (fun c => cl_set_times (cl_started_at c) (cl_review_deadline_at c) (Some at_) c)
  else mret tt.

(** [@ src/sana/modules/shadow_campaign/domain.py CampaignLifecycle.await_review] *)
Definition Campaign_await_review (at_ deadline : datetime) : M CampaignLifecycle unit :=
  _ ← lift (require_aware at_);
  _ ← lift (require_aware deadline);
  _ ← Campaign_require_not_before_start at_;
  late ← lift (dt_le deadline at_);
  _ ← raise_if late (InvariantViolation "Review deadline must be after review start");
  _ ← Campaign_transition CampaignStatus_AWAITING_REVIEW;
  update (fun c => cl_set_times (cl_started_at c) (Some deadline) (cl_completed_at c) c).

(** [@ src/sana/modules/shadow_campaign/domain.py CampaignLifecycle.complete] *)
Definition Campaign_complete (decision : GateStatus) (at_ : datetime) : M CampaignLifecycle unit :=
  _ ← lift (require_aware at_);
  _ ← Campaign_require_not_before_start at_;
  _ ← raise_if (decision is GateStatus_PENDING)
        (InvariantViolation "Campaign completion requires a final gate decision");
  _ ← Campaign_transition CampaignStatus_COMPLETED;
  _ ← update (cl_set_gate decision);
  update (fun c => cl_set_times (cl_started_at c) (cl_review_deadline_at c) (Some at_) c).

(** [@ src/sana/modules/shadow_campaign/domain.py CampaignLifecycle.abort] *)
Definition Campaign_abort (reason : pystr) (at_ : datetime) : M CampaignLifecycle unit :=
  _ ← lift (require_aware at_);
  _ ← Campaign_require_not_before_start at_;
  _ ← raise_if (blank reason) (InvariantViolation "Campaign abort requires a reason");
  _ ← Campaign_transition CampaignStatus_ABORTED;
  _ ← update (cl_set_stop StopIntent_ABORT (Some (strip reason)));
  update (fun c => cl_set_times (cl_started_at c) (cl_review_deadline_at c) (Some at_) c).

(** ** The mutations of a campaign *)

Inductive campaign_op :=
| CampaignStart (at_ : datetime)
| CampaignResume (at_ : datetime)
| CampaignRequestStop (intent : StopIntent) (reason : pystr)
| CampaignEscalateStop (intent : StopIntent) (reason : pystr)
| CampaignSettleStop (at_ : datetime)
| CampaignAwaitReview (at_ deadline : datetime)
| CampaignComplete (decision : GateStatus) (at_ : datetime)
| CampaignAbort (reason : pystr) (at_ : datetime).

Definition campaign_exec (op : campaign_op) : M CampaignLifecycle unit :=
  match op with
  | CampaignStart at_ => Campaign_start at_
  | CampaignResume at_ => Campaign_resume at_
  | CampaignRequestStop intent reason => Campaign_request_stop intent reason
  | CampaignEscalateStop intent reason => Campaign_escalate_stop intent reason
  | CampaignSettleStop at_ => Campaign_settle_stop at_
  | CampaignAwaitReview at_ deadline => Campaign_await_review at_ deadline
  | CampaignComplete decision at_ => Campaign_complete decision at_
  | CampaignAbort reason at_ => Campaign_abort reason at_
  end.

Definition campaign_step (c c' : CampaignLifecycle) : Prop :=
  exists op, campaign_exec op c = (c', Ok tt).

(** The instant a start time does not follow. *)
Definition not_before_start (at_ : datetime) (c : CampaignLifecycle) : Prop :=
  forall t, cl_started_at c = Some t -> dt_us t <= dt_us at_.

Lemma campaign_transition_ok_inv target c c' x : Campaign_transition target c = (c', Ok x) ->
  target ∈ campaign_transitions (cl_status c) /\ c' = cl_set_status target c.
Proof. unfold Campaign_transition. intros H. minv. by bools. Qed.

Lemma not_before_start_ok_inv at_ c c' x :
  Campaign_require_not_before_start at_ c = (c', Ok x) -> c' = c /\ not_before_start at_ c.
Proof.
  unfold Campaign_require_not_before_start, not_before_start. intros H. minv.
  destruct (cl_started_at _) as [t|]; minv; [|done]. tinv. bools.
  split; [done|]. intros ? [= <-]. lia.
Qed.

Lemma bump_set_stop intent reason c :
  cl_bump (cl_set_stop intent reason c) = cl_set_stop intent reason (cl_set_status (cl_status c) c).
Proof. by destruct c. Qed.

(** [camp_inv H] opens a mutation that returned. *)
Ltac camp_inv H :=
  unfold Campaign_start, Campaign_resume, Campaign_request_stop, Campaign_escalate_stop,
    Campaign_settle_stop, Campaign_await_review, Campaign_complete, Campaign_abort in H;
  repeat (tinv; match goal with
  | E : Campaign_transition _ _ = (_, Ok _) |- _ => apply campaign_transition_ok_inv in E as [? ->]
  | E : Campaign_require_not_before_start _ _ = (_, Ok _) |- _ =>
      apply not_before_start_ok_inv in E as [-> ?]
  end); tinv; bools.

Lemma campaign_not_terminal c s :
  s ∈ campaign_transitions (cl_status c) -> Campaign_is_terminal c = false.
Proof. unfold Campaign_is_terminal. intros H. destruct (cl_status c); try done; set_solver. Qed.

Lemma campaign_step_edge c c' : campaign_step c c' ->
  (cl_status c' = cl_status c \/ cl_status c' ∈ campaign_transitions (cl_status c)) /\
  cl_version c' = cl_version c + 1 /\ Campaign_is_terminal c = false.
Proof.
  intros [op H]. destruct op; simpl in H; camp_inv H; try (case_match; minv); simpl;
    try (split; [by right|]; split; [done|]; by eapply campaign_not_terminal).
  split; [by left|]. split; [done|]. unfold Campaign_is_terminal. by match goal with E : cl_status _ = _ |- _ => rewrite E end.
Qed.

#[export] Program Instance campaign_lifecycle : Lifecycle CampaignLifecycle CampaignStatus := {|
  lc_status := cl_status;
  lc_version := cl_version;
  lc_terminal s := bool_decide (s ∈ [CampaignStatus_COMPLETED; CampaignStatus_ABORTED]);
  lc_allowed := campaign_transitions;
  lc_step := campaign_step
|}.
Next Obligation. intros s H. by destruct s. Qed.
Next Obligation. intros c c' H. by apply campaign_step_edge in H as (? & ? & ?). Qed.
Next Obligation. intros c c' H. by apply campaign_step_edge in H as (? & ? & ?). Qed.
Next Obligation. intros c c' H. by apply campaign_step_edge in H as (? & ? & ?). Qed.

Lemma campaign_steps_star n c c' : steps n c c' -> star campaign_step c c'.
Proof. induction 1; eauto using star. Qed.

(** ** What a history keeps *)

Definition campaign_evolves (c c' : CampaignLifecycle) : Prop :=
  cl_id c' = cl_id c /\ cl_tenant_id c' = cl_tenant_id c /\
  cl_created_by_user_id c' = cl_created_by_user_id c /\ cl_max_runs c' = cl_max_runs c /\
  cl_planned_count c' = cl_planned_count c /\
  cl_persisted_version c' = cl_persisted_version c /\
  (is_Some (cl_started_at c) -> cl_started_at c' = cl_started_at c) /\
  (cl_gate_status c' = cl_gate_status c \/ cl_status c' = CampaignStatus_COMPLETED).

Lemma campaign_step_evolves c c' : campaign_step c c' -> campaign_evolves c c'.
Proof.
  intros [op H]. destruct op; simpl in H; camp_inv H; try (case_match; minv);
    unfold campaign_evolves; simpl; ksplit; try (by left); try (by right).
  intros [? ?]. simpl in *. congruence.
Qed.

(** From a campaign that has no gate decision yet. *)
Lemma campaign_star_evolves c c' : star campaign_step c c' -> campaign_evolves c c'.
Proof.
  induction 1 as [c|c c1 c2 H1 H IH]; [unfold campaign_evolves; ksplit; by left|].
  pose proof (campaign_step_evolves _ _ H1) as (A1&A2&A3&A4&A5&A6&A7&A8).
  destruct IH as (B1&B2&B3&B4&B5&B6&B7&B8).
  unfold campaign_evolves. ksplit; try congruence.
  - intros Hs. rewrite B7 by (by rewrite (A7 Hs)). by apply A7.
  - destruct A8 as [A8|A8]; [destruct B8; [left; congruence|by right]|].
    right. inversion H as [|? c3 ? H2]; subst; [done|].
    apply campaign_step_edge in H2 as (_ & _ & HT). exfalso. revert HT.
    unfold Campaign_is_terminal. by rewrite A8.
Qed.

(** Along any sequence of [n] successful mutations of a campaign: the optimistic-lock version
    grows by exactly [n]; the statuses form a path of the transition table; a completed or aborted
    campaign accepts no mutation; identity, owner and planning counters never change; the first
    start time is kept by every later start and resume; and the gate decision changes only on
    completion. *)
Theorem campaign_history n (c c' : CampaignLifecycle) :
  steps n c c' ->
  cl_version c' = cl_version c + Z.of_nat n /\
  star (fun s s' => s' ∈ campaign_transitions s) (cl_status c) (cl_status c') /\
  (Campaign_is_terminal c = true -> n = 0%nat /\ c' = c) /\
  campaign_evolves c c'.
Proof.
  intros H. split; [|split; [|split]].
  - exact (steps_version _ _ _ H).
  - exact (steps_path _ _ _ H).
  - exact (steps_terminal _ _ _ H).
  - apply campaign_star_evolves. by apply (campaign_steps_star n).
Qed.

(** ** Stop intents *)

(** A campaign that drains for another reason than a pause. *)
Definition draining_for_good (c : CampaignLifecycle) : Prop :=
  cl_status c ∈ [CampaignStatus_STOPPING; CampaignStatus_AWAITING_REVIEW;
                 CampaignStatus_COMPLETED; CampaignStatus_ABORTED] /\
  cl_stop_intent c <> StopIntent_PAUSE.

Lemma draining_step c c' : draining_for_good c -> campaign_step c c' -> draining_for_good c'.
Proof.
  unfold draining_for_good. intros [Hs Hi] [op H].
  destruct op; simpl in H; camp_inv H;
    try (destruct (cl_stop_intent c is StopIntent_PAUSE) eqn:Ei; bools; [done|simpl in *; minv]);
    simpl in *; try (destruct (cl_status c); set_solver).
Qed.

(** A stop that is not a pause is irrevocable: once a campaign is STOPPING with an intent
    other than PAUSE (an abort, a fatal error, a spent budget or call ceiling, or a pause that was
    escalated to one of them), it never runs or pauses again, whatever is called on it; it can
    only be reviewed, completed or aborted. *)
Theorem stop_is_final n (c c' : CampaignLifecycle) :
  cl_status c = CampaignStatus_STOPPING -> cl_stop_intent c <> StopIntent_PAUSE ->
  steps n c c' ->
  cl_status c' ∈ [CampaignStatus_STOPPING; CampaignStatus_AWAITING_REVIEW;
                  CampaignStatus_COMPLETED; CampaignStatus_ABORTED].
Proof.
  intros Hs Hi H. eapply (star_invariant campaign_step draining_for_good).
  - apply draining_step.
  - by apply (campaign_steps_star n).
  - split; [rewrite Hs; set_solver|done].
Qed.

(** ** Persisted campaigns stay loadable *)

(** What [rehydrate] demands of a row. *)
Definition campaign_loadable (c : CampaignLifecycle) : Prop :=
  (forall d, cl_started_at c = Some d -> dt_aware d = true) /\
  (forall d, cl_review_deadline_at c = Some d -> dt_aware d = true) /\
  (forall d, cl_completed_at c = Some d -> dt_aware d = true) /\
  0 <= cl_version c /\ 1 <= cl_max_runs c /\ 0 <= cl_planned_count c <= cl_max_runs c /\
  (cl_status c = CampaignStatus_CREATED -> cl_started_at c = None) /\
  (cl_status c <> CampaignStatus_CREATED -> cl_status c <> CampaignStatus_ABORTED ->
     is_Some (cl_started_at c)) /\
  (cl_status c = CampaignStatus_STOPPING ->
     cl_stop_intent c <> StopIntent_NONE /\ blank (default [] (cl_stop_reason c)) = false) /\
  (cl_status c = CampaignStatus_AWAITING_REVIEW -> is_Some (cl_review_deadline_at c)) /\
  (Campaign_is_terminal c = true <-> is_Some (cl_completed_at c)) /\
  (cl_status c = CampaignStatus_COMPLETED -> cl_gate_status c <> GateStatus_PENDING) /\
  (forall s t, cl_started_at c = Some s -> cl_completed_at c = Some t -> dt_us s <= dt_us t).

Lemma aware_opt_ok d : aware_opt d = Ok tt <-> forall t, d = Some t -> dt_aware t = true.
Proof.
  unfold aware_opt, require_aware. destruct d as [d|]; simpl; [|done].
  destruct (dt_aware d) eqn:E; simpl; split; try done; [by intros _ ? [= <-]|].
  intros H. specialize (H d eq_refl). congruence.
Qed.

Lemma is_none_false {A} (x : option A) : is_none x = false <-> is_Some x.
Proof. destruct x; simpl; split; try done; intros []; done. Qed.

Lemma validate_loadable c : Campaign_validate_loaded_state c = Ok tt -> campaign_loadable c.
Proof.
  unfold Campaign_validate_loaded_state. intros H. minv.
  repeat match goal with E : aware_opt _ = Ok tt |- _ => rewrite aware_opt_ok in E end.
  destruct c as [id ten own mx pl st gate intent reason started review completed ver pver].
  unfold campaign_loadable, Campaign_is_terminal in *. simpl in *.
  destruct started as [s|], completed as [t|], st; simpl in *; try discriminate; bools; tinv;
    repeat split; auto; try lia; intros; simplify_eq; eauto; bools; try lia; try done.
  all: by destruct review.
Qed.

Lemma loadable_validate c : campaign_loadable c -> Campaign_validate_loaded_state c = Ok tt.
Proof.
  intros (H1 & H2 & H3 & H4 & H5 & H6 & H7 & H8 & H9 & H10 & H11 & H12 & H13).
  unfold Campaign_validate_loaded_state.
  rewrite !(proj2 (aware_opt_ok _)) by done. simpl.
  replace (cl_version c <? 0) with false by lia.
  replace (cl_max_runs c <? 1) with false by lia.
  replace (0 <=? cl_planned_count c) with true by lia.
  replace (cl_planned_count c <=? cl_max_runs c) with true by lia. simpl.
  destruct c as [id ten own mx pl st gate intent reason started review completed ver pver].
  unfold Campaign_is_terminal in *. simpl in *.
  destruct started as [s|], completed as [t|]; destruct st; simpl in *;
    try (by destruct (proj1 H11 eq_refl)); try (by discriminate (proj2 H11 ltac:(eauto)));
    try (by specialize (H7 eq_refl)); try (by destruct (H8 ltac:(done) ltac:(done))); try done;
    try (destruct (H9 eq_refl) as [Hi Hb]; rewrite Hb; destruct intent; done);
    try (destruct (H10 eq_refl) as [? ->]; done);
    unfold dt_lt; rewrite ?dt_cmp_aware by auto; simpl;
    try (replace (dt_us t <? dt_us s) with false by (specialize (H13 s t eq_refl eq_refl); lia));
    try done; specialize (H12 eq_refl); by destruct gate.
Qed.

Lemma campaign_edge s t : s ∈ campaign_transitions t ->
  bool_decide (s ∈ campaign_transitions t) = true.
Proof. apply bool_decide_eq_true_2. Qed.

(** A campaign is resumed only when it is paused, as the runner sees to it ([resume] itself does not
    test the status). *)
Definition resumes_paused (op : campaign_op) (c : CampaignLifecycle) : Prop :=
  match op with CampaignResume _ => cl_status c = CampaignStatus_PAUSED | _ => True end.

Definition campaign_step_ok (c c' : CampaignLifecycle) : Prop :=
  exists op, campaign_exec op c = (c', Ok tt) /\ resumes_paused op c.

Lemma campaign_step_ok_step c c' : campaign_step_ok c c' -> campaign_step c c'.
Proof. intros (op & H & _). by exists op. Qed.

Lemma campaign_step_loadable c c' :
  campaign_loadable c -> campaign_step_ok c c' -> campaign_loadable c'.
Proof.
  intros (H1 & H2 & H3 & H4 & H5 & H6 & H7 & H8 & H9 & H10 & H11 & H12 & H13) (op & H & HR).
  pose proof (campaign_step_edge c c' (ex_intro _ op H)) as (_ & _ & HT).
  assert (cl_completed_at c = None) as Hc.
  { destruct (cl_completed_at c) eqn:E; [|done].
    rewrite (proj2 H11 ltac:(eauto)) in HT. done. }
  destruct op; simpl in H; camp_inv H;
    try match goal with E : context [cl_stop_intent c is StopIntent_PAUSE] |- _ =>
      destruct (cl_stop_intent c is StopIntent_PAUSE); simpl in *; minv end;
    unfold not_before_start, campaign_loadable, Campaign_is_terminal in *;
    destruct c as [id ten own mx pl st gate intent' reason' [s|] review completed ver pver];
    simpl in *; subst; clear HT;
    try match goal with E : _ ∈ campaign_transitions st |- _ =>
      apply campaign_edge in E; destruct st; try discriminate E end;
    repeat split; intros; simplify_eq; eauto; try lia; try done; rewrite ?blank_strip; try done;
    try (by destruct H8); set_solver.
Qed.

Definition Campaign_reload (c : CampaignLifecycle) : res CampaignLifecycle :=
  Campaign_rehydrate (cl_id c) (cl_tenant_id c) (cl_created_by_user_id c) (cl_max_runs c)
    (cl_planned_count c) (cl_status c) (cl_gate_status c) (cl_stop_intent c) (cl_stop_reason c)
    (cl_started_at c) (cl_review_deadline_at c) (cl_completed_at c) (cl_version c).

Lemma reload_campaign c : campaign_loadable c ->
  Campaign_reload c = Ok (fst (Campaign_mark_persisted c)).
Proof.
  intros H. unfold Campaign_reload, Campaign_rehydrate.
  change (Campaign_validate_loaded_state _) with (Campaign_validate_loaded_state (fst (Campaign_mark_persisted c))).
  by rewrite loadable_validate.
Qed.

Lemma reload_campaign_inv c c' : Campaign_reload c = Ok c' ->
  campaign_loadable c /\ c' = fst (Campaign_mark_persisted c).
Proof.
  unfold Campaign_reload, Campaign_rehydrate. intros H. minv.
  split; [by apply validate_loadable|done].
Qed.

(** A campaign that was loadable stays loadable: after any sequence of successful
    mutations in which a resume is only applied to a paused campaign, the saved fields rehydrate to
    that very campaign. *)
Theorem campaign_history_reloads (c c' : CampaignLifecycle) :
  campaign_loadable c -> star campaign_step_ok c c' ->
  Campaign_reload c' = Ok (fst (Campaign_mark_persisted c')).
Proof.
  intros Hc H. apply reload_campaign.
  eapply (star_invariant campaign_step_ok campaign_loadable); [apply campaign_step_loadable|done..].
Qed.

(** The proviso is needed: [resume] accepts a CREATED campaign, even one whose runs are not planned;
    it is then RUNNING with no start time, and its row cannot be loaded again. *)
Lemma resume_created_unloadable c at_ :
  cl_status c = CampaignStatus_CREATED -> cl_started_at c = None -> dt_aware at_ = true ->
  exists c', Campaign_resume at_ c = (c', Ok tt) /\ forall x, Campaign_reload c' <> Ok x.
Proof.
  intros Hs Hn Ha. unfold Campaign_resume, Campaign_require_not_before_start, Campaign_transition,
    require_aware, mbind, M_bind, self, lift, raise_if, update. rewrite Ha, Hn. simpl.
  rewrite bool_decide_eq_true_2 by (rewrite Hs; set_solver). simpl.
  eexists. split; [reflexivity|]. intros x Hx. apply reload_campaign_inv in Hx as [Hl _].
  destruct Hl as (_&_&_&_&_&_&_&H8&_). simpl in H8. rewrite Hn in H8. by destruct H8.
Qed.

(** ** A campaign to evaluate the theorems on *)

Definition ex_campaign : CampaignLifecycle :=
  {| cl_id := 1; cl_tenant_id := 2; cl_created_by_user_id := 3; cl_max_runs := 4;
     cl_planned_count := 4; cl_status := CampaignStatus_CREATED;
     cl_gate_status := GateStatus_PENDING; cl_stop_intent := StopIntent_NONE;
     cl_stop_reason := None; cl_started_at := None; cl_review_deadline_at := None;
     cl_completed_at := None; cl_version := 1; cl_persisted_version := 1 |}.

Definition ex_campaign_ops : list campaign_op :=
  [CampaignStart (utc 10); CampaignRequestStop StopIntent_PAUSE (u " operator "); 
   CampaignSettleStop (utc 20); CampaignResume (utc 30);
   CampaignRequestStop StopIntent_PAUSE (u "again");
   CampaignEscalateStop StopIntent_FATAL (u "broken"); CampaignSettleStop (utc 40)].

Lemma campaign_after_steps ops c : all_ok campaign_exec ops c = true ->
  steps (length ops) c (after campaign_exec ops c).
Proof. apply after_steps. intros op o o' H. by exists op. Qed.

Lemma campaign_history_witness :
  cl_version (after campaign_exec ex_campaign_ops ex_campaign) = 8 /\
  cl_status (after campaign_exec ex_campaign_ops ex_campaign) = CampaignStatus_ABORTED.
Proof.
  split; [|reflexivity].
  exact (proj1 (campaign_history 7 ex_campaign _ (campaign_after_steps ex_campaign_ops ex_campaign eq_refl))).
Defined.

Definition ex_stopping : CampaignLifecycle := after campaign_exec (take 6 ex_campaign_ops) ex_campaign.

Lemma stop_is_final_witness :
  cl_status (after campaign_exec [CampaignSettleStop (utc 40)] ex_stopping)
    ∈ [CampaignStatus_STOPPING; CampaignStatus_AWAITING_REVIEW; CampaignStatus_COMPLETED;
       CampaignStatus_ABORTED].
Proof.
  apply (stop_is_final 1 ex_stopping); [reflexivity | discriminate |].
  exact (campaign_after_steps [CampaignSettleStop (utc 40)] ex_stopping eq_refl).
Defined.

Lemma ex_campaign_loadable : campaign_loadable ex_campaign.
Proof. apply validate_loadable. reflexivity. Qed.

Lemma campaign_history_reloads_witness :
  is_ok (Campaign_reload (after campaign_exec [CampaignStart (utc 10)] ex_campaign)) = true.
Proof.
  rewrite (campaign_history_reloads ex_campaign); [reflexivity | exact ex_campaign_loadable |].
  apply star_one. exists (CampaignStart (utc 10)). split; reflexivity || exact I.
Defined.
