(* ===== verification/CampaignBudget.v ===== *)
(** * CampaignBudget: decimal money and budget admission of shadow campaigns

    [sana/modules/shadow_campaign/budget.py]. A [Decimal] is a sign, a coefficient and an exponent.
    Once a value has passed [_nonnegative_decimal] it is a whole number of quanta of [1E-10]
    ([money]), and [normalize] only changes its exponent. Sums follow the default context: rounded
    half to even when they need more than 28 digits. *)

From Stdlib Require Import String.
From S2P Require Import Prelude Errors PyTime Campaign.

(** ** Decimals *)

Inductive Decimal :=
| Dec (negative : bool) (coefficient : N) (exponent : Z)
| DecInfinity (negative : bool)
| DecNaN.

(** Quanta of [1E-10]. *)
Abbreviation money := Z.

(** The magnitude in quanta, rounded half up. *)
Definition quanta_half_up (c : N) (e : Z) : Z :=
  if 0 <=? e + 10 then Z.of_N c * 10 ^ (e + 10)
  else (2 * Z.of_N c + 10 ^ (- (e + 10))) / (2 * 10 ^ (- (e + 10))).

(** [quantize] refuses a coefficient of more than 28 digits. *)
(** [@ src/sana/modules/shadow_campaign/budget.py _nonnegative_decimal] *)
Definition nonnegative_decimal (value : Decimal) : res money :=
  match value with
  | DecInfinity _ | DecNaN => Raise (ValueError "must be a finite non-negative Decimal")
  | Dec negative c e =>
      _ ← fail_if (negative && negb (N.eqb c 0)) (ValueError "must be a finite non-negative Decimal");
      let q := quanta_half_up c e in
      _ ← fail_if (10 ^ 28 <=? q) (ValueError "exceeds the campaign money precision");
      Ok q
  end.

(** The number of digits beyond 28. *)
Fixpoint excess_digits (fuel : nat) (q : Z) : Z :=
  match fuel with
  | O => 0
  | S fuel => if q <? 10 ^ 28 then 0 else 1 + excess_digits fuel (q / 10)
  end.

(** The context's rounding of an exact result. *)
Definition dec_fix (q : Z) : money :=
  let m := Z.abs q in
  let k := excess_digits (Z.to_nat (Z.log2 m)) m in
  if k =? 0 then q else Z.sgn q * (half_even m (10 ^ k) * 10 ^ k).

Definition dec_add (a b : money) : money := dec_fix (a + b).
Definition dec_sub (a b : money) : money := dec_fix (a - b).

#[global] Arguments dec_fix : simpl never.
#[global] Arguments dec_add : simpl never.
#[global] Arguments dec_sub : simpl never.

Lemma dec_fix_exact q : Z.abs q < 10 ^ 28 -> dec_fix q = q.
Proof.
  intros H. unfold dec_fix.
  replace (excess_digits _ _) with 0; [done|].
  destruct (Z.to_nat _); simpl; [done|]. by replace (Z.abs q <? 10 ^ 28) with true by lia.
Qed.

Lemma excess_digits_pos fuel q : 0 <= excess_digits fuel q.
Proof. revert q. induction fuel as [|n IH]; intros q; simpl; [lia|]. case_match; [lia|]. specialize (IH (q / 10)). lia. Qed.

(** The digits kept still need 28 places. *)
Lemma excess_digits_low fuel q : 10 ^ 28 <= q -> (0 < fuel)%nat ->
  10 ^ 27 * 10 ^ excess_digits fuel q <= q.
Proof.
  revert q. induction fuel as [|n IH]; intros q Hq Hf; [lia|]. cbn [excess_digits].
  replace (q <? 10 ^ 28) with false by lia.
  rewrite Z.pow_add_r by (pose proof (excess_digits_pos n (q / 10)); lia).
  destruct (decide (10 ^ 28 <= q / 10)) as [H|H]; [destruct n as [|n]|].
  - cbn [excess_digits]. lia.
  - specialize (IH (q / 10) H ltac:(lia)).
    pose proof (Z.mul_div_le q 10 ltac:(lia)). lia.
  - replace (excess_digits n (q / 10)) with 0; [lia|].
    destruct n; cbn [excess_digits]; [done|]. by replace (q / 10 <? 10 ^ 28) with true by lia.
Qed.

Lemma half_even_ge m d : 0 <= m -> 0 < d -> m / d <= half_even m d.
Proof. intros. unfold half_even. repeat case_match; lia. Qed.

(** Rounding never brings a large sum below [10 ^ 27] quanta, so a stored (smaller) sum is exact. *)
Lemma dec_fix_small q b : 0 <= q -> dec_fix q = b -> b < 10 ^ 27 -> q = b.
Proof.
  intros Hq Hb Hs. destruct (decide (q < 10 ^ 28)) as [H|H].
  - by rewrite dec_fix_exact in Hb by lia.
  - exfalso. revert Hb. unfold dec_fix. rewrite Z.abs_eq by lia.
    set (fuel := Z.to_nat (Z.log2 q)).
    assert (0 < fuel)%nat as Hf.
    { unfold fuel. assert (1 <= Z.log2 q); [|lia].
      change 1 with (Z.log2 2). apply Z.log2_le_mono. lia. }
    pose proof (excess_digits_low fuel q ltac:(lia) Hf) as Hl.
    pose proof (excess_digits_pos fuel q) as Hp.
    case_match; [lia|]. intros Hb. rewrite Z.sgn_pos in Hb by lia.
    set (k := excess_digits fuel q) in *. assert (0 < 10 ^ k) by (apply Z.pow_pos_nonneg; lia).
    pose proof (half_even_ge q (10 ^ k) ltac:(lia) ltac:(lia)).
    assert (10 ^ 27 <= q / 10 ^ k) by (apply Z.div_le_lower_bound; lia).
    nia.
Qed.

(** ** Admission *)

Record ReservationRequest := { rq_provider_calls : Z; rq_estimated_cost : money }.

(** [@ src/sana/modules/shadow_campaign/budget.py ReservationRequest] *)
Definition ReservationRequest_new (provider_calls : Z) (estimated_cost : Decimal)
    : res ReservationRequest :=
  _ ← fail_if (provider_calls <? 1) (ValueError "A run reservation must include provider calls");
  cost ← nonnegative_decimal estimated_cost;
  Ok {| rq_provider_calls := provider_calls; rq_estimated_cost := cost |}.

(** The six amounts of the ledger are already quantised where a snapshot is taken of a row. *)
Record CampaignBudgetSnapshot := {
  cb_admission_ceiling : Z;
  cb_structural_ceiling : Z;
  cb_cost_stop_threshold : money;
  cb_observed_calls : Z;
  cb_possibly_calls : Z;
  cb_reserved_calls : Z;
  cb_observed_cost : money;
  cb_possibly_cost : money;
  cb_reserved_cost : money
}.

(** A money column as a [Decimal]. *)
Definition money_decimal (q : money) : Decimal := Dec (q <? 0) (Z.to_N (Z.abs q)) (-10).

(** [@ src/sana/modules/shadow_campaign/budget.py CampaignBudgetSnapshot.__post_init__] *)
Definition CampaignBudgetSnapshot_new (s : CampaignBudgetSnapshot) : res CampaignBudgetSnapshot :=
  _ ← fail_if (existsb (fun v => v <? 0)
        [cb_admission_ceiling s; cb_structural_ceiling s; cb_observed_calls s;
         cb_possibly_calls s; cb_reserved_calls s])
        (ValueError "Campaign budget call counters cannot be negative");
  _ ← fail_if (negb ((0 <? cb_admission_ceiling s)
                     && (cb_admission_ceiling s <=? cb_structural_ceiling s)))
        (ValueError "Campaign call ceilings are invalid");
  threshold ← nonnegative_decimal (money_decimal (cb_cost_stop_threshold s));
  observed ← nonnegative_decimal (money_decimal (cb_observed_cost s));
  possibly ← nonnegative_decimal (money_decimal (cb_possibly_cost s));
  reserved ← nonnegative_decimal (money_decimal (cb_reserved_cost s));
  _ ← fail_if (threshold =? 0) (ValueError "Campaign cost stop threshold must be positive");
  Ok {| cb_admission_ceiling := cb_admission_ceiling s;
        cb_structural_ceiling := cb_structural_ceiling s; cb_cost_stop_threshold := threshold;
        cb_observed_calls := cb_observed_calls s; cb_possibly_calls := cb_possibly_calls s;
        cb_reserved_calls := cb_reserved_calls s; cb_observed_cost := observed;
        cb_possibly_cost := possibly; cb_reserved_cost := reserved |}.

Record BudgetAdmission := {
  ba_allowed : bool;
  ba_stop_intent : StopIntent;
  ba_reason : option pystr;
  ba_projected_calls : Z;
  ba_projected_cost : money
}.

(** [@ src/sana/modules/shadow_campaign/budget.py BudgetAdmission] *)
Definition BudgetAdmission_denied (intent : StopIntent) (reason : string) (calls : Z) (cost : money)
    : BudgetAdmission :=
  {| ba_allowed := false; ba_stop_intent := intent; ba_reason := Some (u reason);
     ba_projected_calls := calls; ba_projected_cost := cost |}.

(** [@ src/sana/modules/shadow_campaign/budget.py CampaignBudgetSnapshot.admit] *)
Definition budget_admit (s : CampaignBudgetSnapshot) (request : ReservationRequest) : BudgetAdmission :=
  let calls := cb_observed_calls s + cb_possibly_calls s + cb_reserved_calls s
               + rq_provider_calls request in
  let cost := dec_add (dec_add (dec_add (cb_observed_cost s) (cb_possibly_cost s))
                         (cb_reserved_cost s)) (rq_estimated_cost request) in
  if cb_structural_ceiling s <? calls then
    BudgetAdmission_denied StopIntent_CALL_CEILING "provider_call_structural_ceiling" calls cost
  else if cb_admission_ceiling s <? calls then
    BudgetAdmission_denied StopIntent_CALL_CEILING "provider_call_admission_ceiling" calls cost
  else if cb_cost_stop_threshold s <? cost then
    BudgetAdmission_denied StopIntent_BUDGET "estimated_cost_stop_threshold" calls cost
  else {| ba_allowed := true; ba_stop_intent := StopIntent_NONE; ba_reason := None;
          ba_projected_calls := calls; ba_projected_cost := cost |}.

(** [replace] runs the constructor's checks again. *)
(** [@ src/sana/modules/shadow_campaign/budget.py CampaignBudgetSnapshot.admit_after_active_reservations_settle] *)
Definition admit_after_active_reservations_settle (s : CampaignBudgetSnapshot)
    (request : ReservationRequest) : res BudgetAdmission :=
  s ← CampaignBudgetSnapshot_new
        {| cb_admission_ceiling := cb_admission_ceiling s;
           cb_structural_ceiling := cb_structural_ceiling s;
           cb_cost_stop_threshold := cb_cost_stop_threshold s;
           cb_observed_calls := cb_observed_calls s; cb_possibly_calls := cb_possibly_calls s;
           cb_reserved_calls := 0; cb_observed_cost := cb_observed_cost s;
           cb_possibly_cost := cb_possibly_cost s; cb_reserved_cost := 0 |};
  Ok (budget_admit s request).

(** ** Settlement *)

Record SettlementUsage := {
  su_observed_calls : Z;
  su_prompt_tokens : Z;
  su_completion_tokens : Z;
  su_observed_cost : money;
  su_possibly_calls : Z;
  su_possibly_cost : money
}.

(** [@ src/sana/modules/shadow_campaign/budget.py SettlementUsage/__post_init__] *)
Definition SettlementUsage_new (observed_calls prompt_tokens completion_tokens : Z)
    (observed_cost : Decimal) (possibly_calls : Z) (possibly_cost : Decimal) : res SettlementUsage :=
  _ ← fail_if (existsb (fun v => v <? 0)
        [observed_calls; prompt_tokens; completion_tokens; possibly_calls])
        (ValueError "Settlement counters cannot be negative");
  observed ← nonnegative_decimal observed_cost;
  possibly ← nonnegative_decimal possibly_cost;
  Ok {| su_observed_calls := observed_calls; su_prompt_tokens := prompt_tokens;
        su_completion_tokens := completion_tokens; su_observed_cost := observed;
        su_possibly_calls := possibly_calls; su_possibly_cost := possibly |}.

(** [@ src/sana/modules/shadow_campaign/budget.py SettlementUsage.exceeds] *)
Definition SettlementUsage_exceeds (usage : SettlementUsage) (request : ReservationRequest) : bool :=
  (rq_provider_calls request <? su_observed_calls usage + su_possibly_calls usage)
  || (rq_estimated_cost request <? dec_add (su_observed_cost usage) (su_possibly_cost usage)).

Record BudgetReservationReceipt := {
  br_allowed : bool;
  br_stop_intent : StopIntent;
  br_reason : option pystr;
  br_reserved_calls : Z;
  br_reserved_cost : money;
  br_deferred : bool
}.

(** [@ src/sana/modules/shadow_campaign/budget.py BudgetReservationReceipt] *)
Definition BudgetReservationReceipt_new (allowed : bool) (intent : StopIntent) (reason : option pystr)
    (calls : Z) (cost : money) (deferred : bool) : res BudgetReservationReceipt :=
  _ ← fail_if (allowed && deferred)
        (ValueError "An allowed budget reservation cannot be deferred");
  _ ← fail_if (deferred && (intent isnot StopIntent_NONE))
        (ValueError "Deferred capacity cannot carry a terminal stop intent");
  Ok {| br_allowed := allowed; br_stop_intent := intent; br_reason := reason;
        br_reserved_calls := calls; br_reserved_cost := cost; br_deferred := deferred |}.

(** [@ src/sana/modules/shadow_campaign/budget.py BudgetSettlementReceipt] *)
Record BudgetSettlementReceipt := {
  bt_result_id : UUID;
  bt_duplicate : bool;
  bt_budget_violation : bool
}.

(** [@ src/sana/modules/shadow_campaign/budget.py BudgetReleaseReceipt] *)
Record BudgetReleaseReceipt := { be_result_id : UUID; be_duplicate : bool }.

(** ** What admission decides *)

Lemma money_decimal_ok q : 0 <= q -> q < 10 ^ 28 -> nonnegative_decimal (money_decimal q) = Ok q.
Proof.
  intros H1 H2. unfold nonnegative_decimal, money_decimal, fail_if.
  replace (q <? 0) with false by lia. cbn [andb mbind res_bind].
  assert (quanta_half_up (Z.to_N (Z.abs q)) (-10) = q) as ->.
  { unfold quanta_half_up. rewrite Z.abs_eq, Z2N.id by lia.
    change (0 <=? -10 + 10) with true. cbv iota. change (10 ^ (-10 + 10)) with 1. lia. }
  by replace (10 ^ 28 <=? q) with false by lia.
Qed.

Lemma nonnegative_decimal_bounds d q : nonnegative_decimal d = Ok q -> 0 <= q < (10 ^ 28).
Proof.
  destruct d as [neg c e| |]; simpl; try done. intros H. minv. bools.
  split; [|lia]. unfold quanta_half_up. case_match; bools.
  - apply Z.mul_nonneg_nonneg; [lia|]. apply Z.pow_nonneg. lia.
  - assert (0 < 10 ^ (- (e + 10))) by (apply Z.pow_pos_nonneg; lia).
    apply Z.div_pos; lia.
Qed.

(** A snapshot whose amounts are in the range of the money columns. *)
Definition snapshot_wf (s : CampaignBudgetSnapshot) : Prop :=
  0 <= cb_observed_calls s /\ 0 <= cb_possibly_calls s /\ 0 <= cb_reserved_calls s /\
  0 < cb_admission_ceiling s <= cb_structural_ceiling s /\
  0 < cb_cost_stop_threshold s < 10 ^ 20 /\ 0 <= cb_observed_cost s < 10 ^ 20 /\
  0 <= cb_possibly_cost s < 10 ^ 20 /\ 0 <= cb_reserved_cost s < 10 ^ 20.

Lemma snapshot_new_ok s : snapshot_wf s -> CampaignBudgetSnapshot_new s = Ok s.
Proof.
  intros (H1 & H2 & H3 & H4 & H5 & H6 & H7 & H8). unfold CampaignBudgetSnapshot_new.
  rewrite !money_decimal_ok by lia. simpl.
  replace (cb_admission_ceiling s <? 0) with false by lia.
  replace (cb_structural_ceiling s <? 0) with false by lia.
  replace (cb_observed_calls s <? 0) with false by lia.
  replace (cb_possibly_calls s <? 0) with false by lia.
  replace (cb_reserved_calls s <? 0) with false by lia.
  replace (0 <? cb_admission_ceiling s) with true by lia.
  replace (cb_admission_ceiling s <=? cb_structural_ceiling s) with true by lia. simpl.
  replace (cb_cost_stop_threshold s =? 0) with false by lia. by destruct s.
Qed.

Definition projected_calls (s : CampaignBudgetSnapshot) (request : ReservationRequest) : Z :=
  cb_observed_calls s + cb_possibly_calls s + cb_reserved_calls s + rq_provider_calls request.

Definition projected_cost (s : CampaignBudgetSnapshot) (request : ReservationRequest) : money :=
  cb_observed_cost s + cb_possibly_cost s + cb_reserved_cost s + rq_estimated_cost request.

Lemma admit_cost_exact s request : snapshot_wf s -> 0 <= rq_estimated_cost request < 10 ^ 20 ->
  ba_projected_cost (budget_admit s request) = projected_cost s request.
Proof.
  intros (H1 & H2 & H3 & H4 & H5 & H6 & H7 & H8) Hr. unfold budget_admit, projected_cost, dec_add.
  rewrite (dec_fix_exact (cb_observed_cost s + _)) by lia.
  rewrite (dec_fix_exact (_ + cb_reserved_cost s)) by lia.
  rewrite dec_fix_exact by lia. by repeat case_match.
Qed.

(** Claim C36. Admission is fail-closed and explains itself: a run is admitted exactly when the
    observed, possibly billed and reserved calls plus its own stay within the admission ceiling
    and the corresponding money within the stop threshold; a refusal names the call ceiling
    when calls are the obstacle and the budget otherwise. The second, "after active reservations
    settle" test never raises, and accepts at least what the first accepts: it differs only
    by leaving out what is reserved at the moment. *)
Theorem admission_decision s request :
  snapshot_wf s -> 0 <= rq_estimated_cost request < 10 ^ 20 ->
  let a := budget_admit s request in
  (ba_allowed a = true <-> projected_calls s request <= cb_admission_ceiling s /\
                           projected_cost s request <= cb_cost_stop_threshold s) /\
  ba_stop_intent a = (if ba_allowed a then StopIntent_NONE
                      else if cb_admission_ceiling s <? projected_calls s request
                           then StopIntent_CALL_CEILING else StopIntent_BUDGET) /\
  exists later, admit_after_active_reservations_settle s request = Ok later /\
    (ba_allowed later = true <->
       projected_calls s request - cb_reserved_calls s <= cb_admission_ceiling s /\
       projected_cost s request - cb_reserved_cost s <= cb_cost_stop_threshold s).
Proof.
  intros Hw Hr a.
  assert (forall s, snapshot_wf s ->
    (ba_allowed (budget_admit s request) = true <->
       projected_calls s request <= cb_admission_ceiling s /\
       projected_cost s request <= cb_cost_stop_threshold s) /\
    ba_stop_intent (budget_admit s request) =
      (if ba_allowed (budget_admit s request) then StopIntent_NONE
       else if cb_admission_ceiling s <? projected_calls s request
            then StopIntent_CALL_CEILING else StopIntent_BUDGET)) as HA.
  { clear - Hr. intros s Hw. pose proof (admit_cost_exact s request Hw Hr) as HC.
    destruct Hw as (H1 & H2 & H3 & H4 & _). revert HC. unfold budget_admit.
    fold (projected_calls s request).
    destruct (cb_structural_ceiling s <? _) eqn:E1; simpl; bools.
    { intros _. replace (cb_admission_ceiling s <? projected_calls s request) with true by lia. split; [|done]. split; [done|lia]. }
    destruct (cb_admission_ceiling s <? _) eqn:E2; simpl; bools.
    { intros _. split; [|done]. split; [done|lia]. }
    destruct (cb_cost_stop_threshold s <? _) eqn:E3; simpl; intros HC; rewrite ?HC in E3; bools;
      (split; [|done]); split; try done; lia. }
  destruct (HA s Hw) as [A1 A2]. split; [exact A1|]. split; [exact A2|].
  set (s0 := {| cb_admission_ceiling := cb_admission_ceiling s; cb_reserved_calls := 0;
                cb_reserved_cost := 0; cb_structural_ceiling := cb_structural_ceiling s;
                cb_cost_stop_threshold := cb_cost_stop_threshold s;
                cb_observed_calls := cb_observed_calls s; cb_possibly_calls := cb_possibly_calls s;
                cb_observed_cost := cb_observed_cost s; cb_possibly_cost := cb_possibly_cost s |}).
  assert (snapshot_wf s0) as Hw0.
  { destruct Hw as (H1 & H2 & H3 & H4 & H5 & H6 & H7 & H8). unfold snapshot_wf. simpl. lia. }
  exists (budget_admit s0 request). unfold admit_after_active_reservations_settle. fold s0.
  rewrite snapshot_new_ok by done. split; [done|].
  rewrite (proj1 (HA s0 Hw0)). unfold projected_calls, projected_cost. simpl. lia.
Qed.

(** ** Examples *)

Definition ex_snapshot : CampaignBudgetSnapshot :=
  {| cb_admission_ceiling := 90; cb_structural_ceiling := 100;
     cb_cost_stop_threshold := 50000000000; cb_observed_calls := 40; cb_possibly_calls := 10;
     cb_reserved_calls := 20; cb_observed_cost := 10000000000; cb_possibly_cost := 0;
     cb_reserved_cost := 20000000000 |}.

Definition ex_request : ReservationRequest :=
  {| rq_provider_calls := 20; rq_estimated_cost := 30000000000 |}.

Lemma ex_snapshot_wf : snapshot_wf ex_snapshot.
Proof. unfold snapshot_wf. simpl. lia. Qed.

(** The calls fit, the money does not while the reservations are active. *)
Lemma admission_decision_witness :
  ba_allowed (budget_admit ex_snapshot ex_request) = false /\
  ba_stop_intent (budget_admit ex_snapshot ex_request) = StopIntent_BUDGET /\
  exists later, admit_after_active_reservations_settle ex_snapshot ex_request = Ok later /\
    (ba_allowed later = true <->
       projected_calls ex_snapshot ex_request - 20 <= 90 /\
       projected_cost ex_snapshot ex_request - 20000000000 <= 50000000000).
Proof.
  split; [reflexivity|]. split; [reflexivity|].
  assert (0 <= rq_estimated_cost ex_request < 10 ^ 20) as Hr by (simpl; lia).
  destruct (admission_decision ex_snapshot ex_request ex_snapshot_wf Hr) as (_ & _ & later & H1 & H2).
  exists later. split; [exact H1 | exact H2].
Defined.

Example half_up : nonnegative_decimal (Dec false 25 (-11)) = Ok 3.
Proof. reflexivity. Qed.
Example too_precise :
  nonnegative_decimal (Dec false 1 18) = Raise (ValueError "exceeds the campaign money precision").
Proof. reflexivity. Qed.
