(* ===== verification/CampaignPolicy.v ===== *)
(** * CampaignPolicy: profiles, gate policies and the locked catalog

    [sana/modules/shadow_campaign/policy.py]: the values a campaign is created from, each with the
    checks of its constructor, the standard profiles and gates, and the catalog that resolves
    them. The digests of rubrics and cost rates are parameters. *)

From Stdlib Require Import String.
From S2P Require Import Prelude Errors PyTime Campaign CampaignBudget.

(** ** Comparing decimals *)

(** Finite values compare exactly; a comparison with a NaN raises. *)
Definition dec_compare (a b : Decimal) : res comparison :=
  let signed (s : bool) (c : N) := if s then - Z.of_N c else Z.of_N c in
  match a, b with
  | DecNaN, _ | _, DecNaN => Raise (InvalidOperation "comparison involving NaN")
  | Dec s c e, Dec s' c' e' =>
      let m := Z.min e e' in
      Ok (Z.compare (signed s c * 10 ^ (e - m)) (signed s' c' * 10 ^ (e' - m)))
  | DecInfinity s, DecInfinity s' => Ok (if Bool.eqb s s' then Eq else if s then Lt else Gt)
  | DecInfinity s, Dec _ _ _ => Ok (if s then Lt else Gt)
  | Dec _ _ _, DecInfinity s => Ok (if s then Gt else Lt)
  end.

Definition dec_lt (a b : Decimal) : res bool :=
  c ← dec_compare a b; Ok (match c with Lt => true | _ => false end).
Definition dec_le (a b : Decimal) : res bool :=
  c ← dec_compare a b; Ok (match c with Gt => false | _ => true end).

Definition dec_is_finite (a : Decimal) : bool := match a with Dec _ _ _ => true | _ => false end.
Definition dec_zero : Decimal := Dec false 0 0.

(** [a or b] and [any(...)] of tests that may raise. *)
Definition or_else (a : res bool) (b : res bool) : res bool := x ← a; if (x : bool) then Ok true else b.

Fixpoint any_of {A} (p : A -> res bool) (l : list A) : res bool :=
  match l with
  | [] => Ok false
  | x :: r => or_else (p x) (any_of p r)
  end.

(** ** Profiles *)

(** [@ src/sana/modules/shadow_campaign/policy.py GateKind] *)
Inductive GateKind := GateKind_SMOKE | GateKind_FULL.

#[export] Instance GateKind_eq_dec : EqDecision GateKind.
Proof. solve_decision. Defined.

Record CampaignProfile := {
  pf_version : pystr;
  pf_max_runs : Z;
  pf_repetitions : Z;
  pf_max_concurrency : Z;
  pf_admission_ceiling : Z;
  pf_structural_ceiling : Z;
  pf_cost_stop_threshold : Decimal;
  pf_gate_policy_version : pystr;
  pf_smoke_only : bool
}.

(** [@ src/sana/modules/shadow_campaign/policy.py CampaignProfile/__post_init__] *)
Definition CampaignProfile_new (p : CampaignProfile) : res CampaignProfile :=
  _ ← fail_if (blank (pf_version p) || blank (pf_gate_policy_version p))
        (ValueError "Profile and gate policy versions cannot be empty");
  _ ← fail_if ((pf_max_runs p <? 1) || (pf_repetitions p <? 1))
        (ValueError "Profile run limits must be positive");
  _ ← fail_if (negb (pf_max_runs p mod pf_repetitions p =? 0))
        (ValueError "max_runs must be divisible by repetitions");
  _ ← fail_if (negb ((1 <=? pf_max_concurrency p) && (pf_max_concurrency p <=? 2)))
        (ValueError "Campaign concurrency must be between one and two");
  let expected_structural := pf_max_runs p * 8 in
  _ ← fail_if (negb (pf_structural_ceiling p =? expected_structural))
        (ValueError "Provider-call structural ceiling must equal max_runs times eight");
  _ ← fail_if (negb ((0 <? pf_admission_ceiling p) && (pf_admission_ceiling p <=? expected_structural)))
        (ValueError "Provider-call admission ceiling is invalid");
  bad ← or_else (Ok (negb (dec_is_finite (pf_cost_stop_threshold p))))
          (dec_le (pf_cost_stop_threshold p) dec_zero);
  _ ← fail_if bad (ValueError "Estimated cost stop threshold must be positive");
  Ok p.

(** ** Gate policies *)

Record GatePolicy := {
  gp_version : pystr;
  gp_kind : GateKind;
  gp_min_terminal_results : Z;
  gp_min_actual_fast_results : Z;
  gp_min_actual_research_results : Z;
  gp_min_distinct_cases : Z;
  gp_min_unanswerable_cases : Z;
  gp_min_unanswerable_results : Z;
  gp_required_reviews : Z;
  gp_required_gold_cases : Z;
  gp_fast_latency_p95_ms : Z;
  gp_research_latency_p95_ms : Z;
  gp_min_mode_accuracy_bps : Z;
  gp_min_coverage_macro_bps : Z;
  gp_min_coverage_stratum_bps : Z;
  gp_min_gold_pass_bps : Z;
  gp_min_review_correct_bps : Z;
  gp_min_review_citation_bps : Z;
  gp_min_review_source_bps : Z;
  gp_min_review_freshness_bps : Z;
  gp_min_review_completeness_bps : Z;
  gp_min_unanswerable_gap_bps : Z;
  gp_max_degraded_bps : Z;
  gp_max_infrastructure_failure_bps : Z;
  gp_max_projected_full_cost_usd : option Decimal;
  gp_require_every_run_within_deadline : bool;
  gp_require_exact_sample_counts : bool
}.

(** [@ src/sana/modules/shadow_campaign/policy.py GatePolicy/__post_init__] *)
Definition GatePolicy_new (g : GatePolicy) : res GatePolicy :=
  _ ← fail_if (blank (gp_version g)) (ValueError "Gate policy version cannot be empty");
  _ ← fail_if (existsb (fun v => v <? 0)
        [gp_min_terminal_results g; gp_min_actual_fast_results g; gp_min_actual_research_results g;
         gp_min_distinct_cases g; gp_min_unanswerable_cases g; gp_min_unanswerable_results g;
         gp_required_reviews g; gp_required_gold_cases g])
        (ValueError "Gate sample counts cannot be negative");
  _ ← fail_if ((gp_fast_latency_p95_ms g <=? 0) || (gp_research_latency_p95_ms g <=? 0))
        (ValueError "Gate latency thresholds must be positive");
  _ ← fail_if (existsb (fun v => negb ((0 <=? v) && (v <=? 10000)))
        [gp_min_mode_accuracy_bps g; gp_min_coverage_macro_bps g; gp_min_coverage_stratum_bps g;
         gp_min_gold_pass_bps g; gp_min_review_correct_bps g; gp_min_review_citation_bps g;
         gp_min_review_source_bps g; gp_min_review_freshness_bps g;
         gp_min_review_completeness_bps g; gp_min_unanswerable_gap_bps g; gp_max_degraded_bps g;
         gp_max_infrastructure_failure_bps g])
        (ValueError "Gate ratios must use basis points between zero and 10000");
  bad ← (match gp_max_projected_full_cost_usd g with
         | Some cost => dec_le cost dec_zero
         | None => Ok false
         end);
  _ ← fail_if bad (ValueError "Projected cost threshold must be positive");
  Ok g.

(** [@ src/sana/modules/shadow_campaign/policy.py GatePolicy.operational_only] *)
Definition operational_only (g : GatePolicy) : bool := gp_kind g is GateKind_SMOKE.

(** ** Cost rates and rubrics *)

Record CostRate := {
  cx_version : pystr;
  cx_prompt_per_million : Decimal;
  cx_completion_per_million : Decimal;
  cx_possibly_billed_run_reserve : Decimal;
  cx_run_reservation : option Decimal
}.

(** [@ src/sana/modules/shadow_campaign/policy.py CostRate/__post_init__] *)
Definition CostRate_new (r : CostRate) : res CostRate :=
  _ ← fail_if (blank (cx_version r)) (ValueError "Cost rate version cannot be empty");
  bad ← any_of (fun v => or_else (Ok (negb (dec_is_finite v))) (dec_lt v dec_zero))
          [cx_prompt_per_million r; cx_completion_per_million r; cx_possibly_billed_run_reserve r];
  _ ← fail_if bad (ValueError "Cost rates cannot be negative");
  bad ← (match cx_run_reservation r with
         | Some v => or_else (Ok (negb (dec_is_finite v)))
                       (or_else (dec_le v dec_zero) (dec_lt v (cx_possibly_billed_run_reserve r)))
         | None => Ok false
         end);
  _ ← fail_if bad (ValueError "Run reservation must cover possibly-billed exposure");
  Ok r.

Record ReviewRubric := { rub_version : pystr; rub_criteria : list pystr }.

(** [@ src/sana/modules/shadow_campaign/policy.py ReviewRubric/__post_init__] *)
Definition ReviewRubric_new (r : ReviewRubric) : res ReviewRubric :=
  _ ← fail_if (blank (rub_version r) || bool_decide (rub_criteria r = []))
        (ValueError "Review rubric requires a version and criteria");
  _ ← fail_if (negb (Nat.eqb (length (dedupe (rub_criteria r))) (length (rub_criteria r)))
               || existsb blank (rub_criteria r))
        (ValueError "Review rubric criteria must be unique and non-empty");
  Ok r.

(** ** The catalog *)

Record CampaignPolicyCatalog := {
  cg_profiles : list (pystr * CampaignProfile);
  cg_policies : list (pystr * GatePolicy);
  cg_review_rubrics : list (pystr * ReviewRubric);
  cg_cost_rates : list (pystr * CostRate)
}.

(** [{item.version: item for item in items}] *)
Definition by_version {A} (version : A -> pystr) (items : list A) : list (pystr * A) :=
  foldl (fun m item => dset (version item) item m) [] items.

(** [@ src/sana/modules/shadow_campaign/policy.py CampaignPolicyCatalog.__init__] *)
Definition CampaignPolicyCatalog_new (profiles : list CampaignProfile) (policies : list GatePolicy)
    (review_rubrics : list ReviewRubric) (cost_rates : list CostRate) : res CampaignPolicyCatalog :=
  let profile_map := by_version pf_version profiles in
  let policy_map := by_version gp_version policies in
  let rubric_map := by_version rub_version review_rubrics in
  let rate_map := by_version cx_version cost_rates in
  _ ← fail_if (Nat.eqb (length profile_map) 0 || Nat.eqb (length policy_map) 0
               || Nat.eqb (length rubric_map) 0 || Nat.eqb (length rate_map) 0)
        (ValueError "Campaign policy catalog cannot be empty");
  _ ← fail_if (negb (Nat.eqb (length profile_map) (length profiles))
               || negb (Nat.eqb (length policy_map) (length policies))
               || negb (Nat.eqb (length rubric_map) (length review_rubrics))
               || negb (Nat.eqb (length rate_map) (length cost_rates)))
        (ValueError "Campaign policy catalog versions must be unique");
  _ ← fail_if (existsb (fun p => is_none (dget (pf_gate_policy_version p) policy_map)) profile_map.*2)
        (ValueError "Profile references an unknown gate policy");
  Ok {| cg_profiles := profile_map; cg_policies := policy_map; cg_review_rubrics := rubric_map;
        cg_cost_rates := rate_map |}.

(** [@ src/sana/modules/shadow_campaign/policy.py CampaignPolicyCatalog.resolve] *)
Definition catalog_resolve (catalog : CampaignPolicyCatalog) (profile_version : pystr)
    : res (CampaignProfile * GatePolicy) :=
  match dget profile_version (cg_profiles catalog) with
  | None => Raise (InvariantViolation_code "Campaign profile is not in the locked policy catalog"
                     "unknown_campaign_profile")
  | Some profile =>
      match dget (pf_gate_policy_version profile) (cg_policies catalog) with
      | Some policy => Ok (profile, policy)
      | None => Raise (KeyError "gate_policy_version")
      end
  end.

Section Digests.
Context (rubric_sha256 : ReviewRubric -> pystr) (rate_sha256 : CostRate -> pystr).

(** [@ src/sana/modules/shadow_campaign/policy.py CampaignPolicyCatalog.resolve_evaluation_assets] *)
Definition resolve_evaluation_assets (catalog : CampaignPolicyCatalog) (review_rubric : ReviewRubric)
    (cost_rate : CostRate) : res (ReviewRubric * CostRate) :=
  match dget (rub_version review_rubric) (cg_review_rubrics catalog),
        dget (cx_version cost_rate) (cg_cost_rates catalog) with
  | Some registered_rubric, Some registered_rate =>
      _ ← fail_if (negb (bool_decide (rubric_sha256 registered_rubric = rubric_sha256 review_rubric))
                   || negb (bool_decide (rate_sha256 registered_rate = rate_sha256 cost_rate)))
            (InvariantViolation_code
               "Review rubric or cost rate is not in the locked policy catalog"
               "unapproved_evaluation_asset");
      Ok (registered_rubric, registered_rate)
  | _, _ => Raise (InvariantViolation_code
                     "Review rubric or cost rate is not in the locked policy catalog"
                     "unapproved_evaluation_asset")
  end.
End Digests.

(** ** The standard profiles and gates *)

(** [@ src/sana/modules/shadow_campaign/policy.py DOCKER_SMOKE_V1] *)
Definition DOCKER_SMOKE_V1 : CampaignProfile :=
  {| pf_version := u "docker-smoke-v1"; pf_max_runs := 6; pf_repetitions := 1;
     pf_max_concurrency := 2; pf_admission_ceiling := 32; pf_structural_ceiling := 48;
     pf_cost_stop_threshold := Dec false 1 (-2);
     pf_gate_policy_version := u "shadow-smoke-gate-v1"; pf_smoke_only := true |}.

(** [@ src/sana/modules/shadow_campaign/policy.py SHADOW_FULL_V1] *)
Definition SHADOW_FULL_V1 : CampaignProfile :=
  {| pf_version := u "shadow-full-v1"; pf_max_runs := 120; pf_repetitions := 3;
     pf_max_concurrency := 2; pf_admission_ceiling := 480; pf_structural_ceiling := 960;
     pf_cost_stop_threshold := Dec false 10 (-2);
     pf_gate_policy_version := u "shadow-gate-v2"; pf_smoke_only := false |}.

(** [@ src/sana/modules/shadow_campaign/policy.py SHADOW_SMOKE_GATE_V1] *)
Definition SHADOW_SMOKE_GATE_V1 : GatePolicy :=
  {| gp_version := u "shadow-smoke-gate-v1"; gp_kind := GateKind_SMOKE;
     gp_min_terminal_results := 6; gp_min_actual_fast_results := 3;
     gp_min_actual_research_results := 3; gp_min_distinct_cases := 6;
     gp_min_unanswerable_cases := 1; gp_min_unanswerable_results := 1; gp_required_reviews := 0;
     gp_required_gold_cases := 0; gp_fast_latency_p95_ms := 15000;
     gp_research_latency_p95_ms := 120000; gp_min_mode_accuracy_bps := 0;
     gp_min_coverage_macro_bps := 0; gp_min_coverage_stratum_bps := 0; gp_min_gold_pass_bps := 0;
     gp_min_review_correct_bps := 0; gp_min_review_citation_bps := 0;
     gp_min_review_source_bps := 0; gp_min_review_freshness_bps := 0;
     gp_min_review_completeness_bps := 0; gp_min_unanswerable_gap_bps := 0;
     gp_max_degraded_bps := 10000; gp_max_infrastructure_failure_bps := 0;
     gp_max_projected_full_cost_usd := Some (Dec false 10 (-2));
     gp_require_every_run_within_deadline := true; gp_require_exact_sample_counts := true |}.

(** [@ src/sana/modules/shadow_campaign/policy.py SHADOW_FULL_GATE_V2] *)
Definition SHADOW_FULL_GATE_V2 : GatePolicy :=
  {| gp_version := u "shadow-gate-v2"; gp_kind := GateKind_FULL;
     gp_min_terminal_results := 100; gp_min_actual_fast_results := 50;
     gp_min_actual_research_results := 50; gp_min_distinct_cases := 40;
     gp_min_unanswerable_cases := 8; gp_min_unanswerable_results := 20; gp_required_reviews := 20;
     gp_required_gold_cases := 16; gp_fast_latency_p95_ms := 15000;
     gp_research_latency_p95_ms := 120000; gp_min_mode_accuracy_bps := 9500;
     gp_min_coverage_macro_bps := 8000; gp_min_coverage_stratum_bps := 7000;
     gp_min_gold_pass_bps := 9500; gp_min_review_correct_bps := 9000;
     gp_min_review_citation_bps := 9500; gp_min_review_source_bps := 9500;
     gp_min_review_freshness_bps := 9500; gp_min_review_completeness_bps := 9000;
     gp_min_unanswerable_gap_bps := 10000; gp_max_degraded_bps := 1000;
     gp_max_infrastructure_failure_bps := 100; gp_max_projected_full_cost_usd := None;
     gp_require_every_run_within_deadline := false; gp_require_exact_sample_counts := false |}.

(** [@ src/sana/modules/shadow_campaign/policy.py CampaignPolicyCatalog.standard] *)
Definition CampaignPolicyCatalog_standard (review_rubrics : list ReviewRubric)
    (cost_rates : list CostRate) : res CampaignPolicyCatalog :=
  CampaignPolicyCatalog_new [DOCKER_SMOKE_V1; SHADOW_FULL_V1]
    [SHADOW_SMOKE_GATE_V1; SHADOW_FULL_GATE_V2] review_rubrics cost_rates.

(** The standard values pass their own constructors. *)
Example standard_profiles_valid :
  CampaignProfile_new DOCKER_SMOKE_V1 = Ok DOCKER_SMOKE_V1 /\
  CampaignProfile_new SHADOW_FULL_V1 = Ok SHADOW_FULL_V1.
Proof. split; vm_compute; reflexivity. Qed.

Example standard_gates_valid :
  GatePolicy_new SHADOW_SMOKE_GATE_V1 = Ok SHADOW_SMOKE_GATE_V1 /\
  GatePolicy_new SHADOW_FULL_GATE_V2 = Ok SHADOW_FULL_GATE_V2.
Proof. split; vm_compute; reflexivity. Qed.
