(* ===== verification/Gate.v ===== *)
(** * Gate: percentiles, campaign metrics and the release gate

    [nearest_rank_percentile], [CampaignMetrics] and [ReleaseGateEvaluator] of
    [sana/modules/shadow_campaign/evaluator.py]. The confidence interval of the report, which no
    rule reads, is not modelled; the text of a decimal in a rule is kept as the decimal. *)

From Stdlib Require Import SpecFloat String.
From S2P Require Import Prelude Errors PyTime Campaign CampaignBudget CampaignPolicy.

(** ** Percentiles *)

(** [a / b] of two positive ints, and [math.ceil]. *)
Definition true_div (a b : Z) : float :=
  match a, b with
  | Zpos p, Zpos q => fdiv (S754_finite false p 0) (S754_finite false q 0)
  | _, _ => fzero
  end.

Definition fceil (x : float) : res Z :=
  match x with
  | S754_zero _ => Ok 0
  | S754_infinity _ => Raise (OverflowError "cannot convert float infinity to integer")
  | S754_nan => Raise (ValueError "cannot convert float NaN to integer")
  | S754_finite s m e =>
      Ok (if 0 <=? e then signed s (Z.pos m * 2 ^ e) else - ((- signed s (Z.pos m)) / 2 ^ (- e)))
  end.

(** [@ src/sana/modules/shadow_campaign/evaluator.py nearest_rank_percentile] *)
Definition nearest_rank_percentile (values : list Z) (percentile : Z) : res Z :=
  _ ← fail_if (bool_decide (values = [])) (ValueError "Percentile requires at least one value");
  _ ← fail_if (negb ((1 <=? percentile) && (percentile <=? 100)))
        (ValueError "Percentile must be between 1 and 100");
  _ ← fail_if (existsb (fun v => v <? 0) values) (ValueError "Latency values cannot be negative");
  let ordered := py_sorted Z.ltb values in
  rank ← fceil (true_div (percentile * Z.of_nat (length ordered)) 100);
  match ordered !! Z.to_nat (rank - 1) with
  | Some v => Ok v
  | None => Raise (LookupError "list index out of range")
  end.

(** [@ src/sana/modules/shadow_campaign/evaluator.py _basis_points] *)
Definition basis_points (numerator denominator : Z) : res Z :=
  _ ← fail_if ((denominator <=? 0) || negb ((0 <=? numerator) && (numerator <=? denominator)))
        (ValueError "Ratio requires 0 <= numerator <= denominator and denominator > 0");
  Ok (numerator * 10000 / denominator).

(** ** Metrics *)

(** [@ src/sana/modules/shadow_campaign/evaluator.py CampaignMetrics@184-217] *)
Record CampaignMetrics := {
  mt_terminal_results : Z;
  mt_actual_fast_results : Z;
  mt_actual_research_results : Z;
  mt_distinct_case_count : Z;
  mt_unanswerable_case_count : Z;
  mt_unanswerable_terminal_results : Z;
  mt_completed_reviews : Z;
  mt_unreviewable_reviews : Z;
  mt_valid_gold_case_count : Z;
  mt_hard_violation_counts : list (pystr * Z);
  mt_fast_latency_ms : list Z;
  mt_research_latency_ms : list Z;
  mt_mode_match_count : Z;
  mt_mode_total_count : Z;
  mt_coverage_macro_bps : Z;
  mt_coverage_stratum_bps : list Z;
  mt_gold_pass_count : Z;
  mt_gold_total_count : Z;
  mt_gold_macro_bps : option Z;
  mt_review_correct_count : Z;
  mt_review_citation_relevance_pass_count : Z;
  mt_review_source_appropriateness_pass_count : Z;
  mt_review_freshness_pass_count : Z;
  mt_review_completeness_pass_count : Z;
  mt_review_total_count : Z;
  mt_unanswerable_gap_count : Z;
  mt_unanswerable_gap_total : Z;
  mt_degraded_count : Z;
  mt_infrastructure_failure_count : Z;
  mt_projected_full_cost_usd : option Decimal;
  mt_cost_stop_triggered : bool;
  mt_call_ceiling_triggered : bool
}.

Definition mt_counters (m : CampaignMetrics) : list Z :=
  [mt_terminal_results m; mt_actual_fast_results m; mt_actual_research_results m;
   mt_distinct_case_count m; mt_unanswerable_case_count m; mt_unanswerable_terminal_results m;
   mt_completed_reviews m; mt_unreviewable_reviews m; mt_valid_gold_case_count m;
   mt_mode_match_count m; mt_mode_total_count m; mt_gold_pass_count m; mt_gold_total_count m;
   mt_review_correct_count m; mt_review_citation_relevance_pass_count m;
   mt_review_source_appropriateness_pass_count m; mt_review_freshness_pass_count m;
   mt_review_completeness_pass_count m; mt_review_total_count m; mt_unanswerable_gap_count m;
   mt_unanswerable_gap_total m; mt_degraded_count m; mt_infrastructure_failure_count m].

(** [@ src/sana/modules/shadow_campaign/evaluator.py CampaignMetrics.__post_init__] *)
Definition CampaignMetrics_new (m : CampaignMetrics) : res CampaignMetrics :=
  _ ← fail_if (existsb (fun v => v <? 0) (mt_counters m))
        (ValueError "Campaign metric counters cannot be negative");
  _ ← fail_if (existsb (fun v => v <? 0) (mt_fast_latency_ms m ++ mt_research_latency_ms m))
        (ValueError "Campaign latencies cannot be negative");
  let ratios := (mt_coverage_macro_bps m :: mt_coverage_stratum_bps m)
                ++ match mt_gold_macro_bps m with Some v => [v] | None => [] end in
  _ ← fail_if (existsb (fun v => negb ((0 <=? v) && (v <=? 10000))) ratios)
        (ValueError "Campaign ratios must be basis points");
  _ ← fail_if (existsb (fun kv => blank kv.1 || (kv.2 <? 0)) (mt_hard_violation_counts m))
        (ValueError "Hard violation counts must be named and non-negative");
  bad ← (match mt_projected_full_cost_usd m with
         | Some cost => dec_lt cost dec_zero
         | None => Ok false
         end);
  _ ← fail_if bad (ValueError "Projected cost cannot be negative");
  Ok m.

(** ** Rules *)

Inductive rule_value := RInt (z : Z) | RDecimal (d : Decimal) | RText (s : pystr).

(** [@ src/sana/modules/shadow_campaign/evaluator.py GateRuleResult] *)
Record GateRuleResult := {
  gr_rule_id : pystr;
  gr_observed : rule_value;
  gr_threshold : rule_value;
  gr_sample_size : Z;
  gr_passed : bool;
  gr_reason_code : pystr
}.

(** [@ src/sana/modules/shadow_campaign/evaluator.py GateDecision] *)
Record GateDecision := {
  gd_status : GateStatus;
  gd_decision_state : pystr;
  gd_rules : list GateRuleResult
}.

(** [@ src/sana/modules/shadow_campaign/evaluator.py ReleaseGateEvaluator._rule] *)
Definition gate_rule (rule_id : pystr) (observed threshold : rule_value) (sample_size : Z)
    (passed : bool) : GateRuleResult :=
  {| gr_rule_id := rule_id; gr_observed := observed; gr_threshold := threshold;
     gr_sample_size := sample_size; gr_passed := passed;
     gr_reason_code := rule_id ++ (if passed then u "_passed" else u "_failed") |}.

Definition int_rule (rule_id : string) (observed threshold sample_size : Z) (passed : bool)
    : GateRuleResult := gate_rule (u rule_id) (RInt observed) (RInt threshold) sample_size passed.

(** [sum] of a tuple of tests. *)
Definition count_true (l : list bool) : Z := sumZ one l.

(** [@ src/sana/modules/shadow_campaign/evaluator.py ReleaseGateEvaluator.evaluate@305-327] *)
Definition basic_integrity_errors (m : CampaignMetrics) : Z :=
  count_true
    [mt_terminal_results m <? mt_actual_fast_results m + mt_actual_research_results m;
     mt_terminal_results m <? mt_distinct_case_count m;
     mt_distinct_case_count m <? mt_unanswerable_case_count m;
     mt_terminal_results m <? mt_unanswerable_terminal_results m;
     mt_distinct_case_count m <? mt_valid_gold_case_count m;
     mt_terminal_results m <? mt_completed_reviews m;
     mt_completed_reviews m <? mt_unreviewable_reviews m;
     mt_mode_total_count m <? mt_mode_match_count m;
     mt_gold_total_count m <? mt_gold_pass_count m;
     mt_completed_reviews m <? mt_review_total_count m;
     mt_review_total_count m <? mt_review_correct_count m;
     mt_review_total_count m <? mt_review_citation_relevance_pass_count m;
     mt_review_total_count m <? mt_review_source_appropriateness_pass_count m;
     mt_review_total_count m <? mt_review_freshness_pass_count m;
     mt_review_total_count m <? mt_review_completeness_pass_count m;
     mt_unanswerable_gap_total m <? mt_unanswerable_gap_count m;
     mt_terminal_results m <? mt_degraded_count m;
     mt_terminal_results m <? mt_infrastructure_failure_count m].

(** [@ src/sana/modules/shadow_campaign/evaluator.py ReleaseGateEvaluator.evaluate@328-328] *)
Definition hard_total (m : CampaignMetrics) : Z :=
  sumZ snd (mt_hard_violation_counts m) + basic_integrity_errors m.

(** [@ src/sana/modules/shadow_campaign/evaluator.py ReleaseGateEvaluator.evaluate@329-358] *)
Definition hard_rules (m : CampaignMetrics) : list GateRuleResult :=
  let n := mt_terminal_results m in
  let errors := basic_integrity_errors m in
  [int_rule "hard_safety" (hard_total m) 0 n (hard_total m =? 0)]
  ++ (if negb (errors =? 0) then [int_rule "metric_integrity" errors 0 n false] else [])
  ++ map (fun name => let count := default 0 (dget name (mt_hard_violation_counts m)) in
            gate_rule (u "hard_" ++ name) (RInt count) (RInt 0) n (count =? 0))
       (py_sorted pystr_ltb (map fst (mt_hard_violation_counts m))).

(** Exactly, or at least, the required number. *)
Definition sample_met (g : GatePolicy) (observed required : Z) : bool :=
  if gp_require_exact_sample_counts g then observed =? required else required <=? observed.

(** [@ src/sana/modules/shadow_campaign/evaluator.py ReleaseGateEvaluator.evaluate@362-440] *)
Definition sample_rules (m : CampaignMetrics) (g : GatePolicy) : list GateRuleResult :=
  let rule id observed required passed := int_rule id observed required observed passed in
  [rule "terminal_sample"%string (mt_terminal_results m) (gp_min_terminal_results g)
     (sample_met g (mt_terminal_results m) (gp_min_terminal_results g));
   rule "actual_fast_sample"%string (mt_actual_fast_results m) (gp_min_actual_fast_results g)
     (sample_met g (mt_actual_fast_results m) (gp_min_actual_fast_results g));
   rule "actual_research_sample"%string (mt_actual_research_results m) (gp_min_actual_research_results g)
     (sample_met g (mt_actual_research_results m) (gp_min_actual_research_results g));
   rule "distinct_case_sample"%string (mt_distinct_case_count m) (gp_min_distinct_cases g)
     (sample_met g (mt_distinct_case_count m) (gp_min_distinct_cases g));
   rule "unanswerable_case_sample"%string (mt_unanswerable_case_count m) (gp_min_unanswerable_cases g)
     (gp_min_unanswerable_cases g <=? mt_unanswerable_case_count m);
   rule "unanswerable_run_sample"%string (mt_unanswerable_terminal_results m)
     (gp_min_unanswerable_results g)
     (gp_min_unanswerable_results g <=? mt_unanswerable_terminal_results m);
   rule "review_sample"%string (mt_completed_reviews m) (gp_required_reviews g)
     ((gp_required_reviews g <=? mt_completed_reviews m) && (mt_unreviewable_reviews m =? 0));
   rule "gold_case_sample"%string (mt_valid_gold_case_count m) (gp_required_gold_cases g)
     (gp_required_gold_cases g <=? mt_valid_gold_case_count m)].

(** [@ src/sana/modules/shadow_campaign/evaluator.py ReleaseGateEvaluator.evaluate@447-457] *)
Definition quality_integrity_errors (m : CampaignMetrics) (g : GatePolicy) : Z :=
  let full := negb (operational_only g) in
  count_true
    [Z.of_nat (length (mt_fast_latency_ms m)) <? gp_min_actual_fast_results g;
     Z.of_nat (length (mt_research_latency_ms m)) <? gp_min_actual_research_results g;
     full && negb (Nat.eqb (length (mt_coverage_stratum_bps m)) 4);
     full && (mt_mode_total_count m <=? 0);
     full && (mt_gold_total_count m <=? 0);
     full && (mt_review_total_count m <=? 0);
     full && (mt_unanswerable_gap_total m <=? 0)].

Definition all_passed (l : list GateRuleResult) : bool := forallb gr_passed l.

(** How many values are above a threshold. *)
Definition count_above (threshold : Z) (values : list Z) : Z :=
  sumZ (fun v => one (threshold <? v)) values.

(** [@ src/sana/modules/shadow_campaign/evaluator.py ReleaseGateEvaluator.evaluate@470-517] *)
Definition latency_rules (m : CampaignMetrics) (g : GatePolicy) : res (list GateRuleResult) :=
  let n := mt_terminal_results m in
  let fast := mt_fast_latency_ms m in
  let research := mt_research_latency_ms m in
  fast_p95 ← nearest_rank_percentile fast 95;
  research_p95 ← nearest_rank_percentile research 95;
  Ok ([int_rule "fast_p95_ms" fast_p95 (gp_fast_latency_p95_ms g) (Z.of_nat (length fast))
         (fast_p95 <=? gp_fast_latency_p95_ms g);
       int_rule "research_p95_ms" research_p95 (gp_research_latency_p95_ms g)
         (Z.of_nat (length research)) (research_p95 <=? gp_research_latency_p95_ms g);
       int_rule "cost_stop_not_triggered" (one (mt_cost_stop_triggered m)) 0 n
         (negb (mt_cost_stop_triggered m));
       int_rule "call_ceiling_not_triggered" (one (mt_call_ceiling_triggered m)) 0 n
         (negb (mt_call_ceiling_triggered m))]
      ++ (if gp_require_every_run_within_deadline g then
            let breaches := count_above (gp_fast_latency_p95_ms g) fast
                            + count_above (gp_research_latency_p95_ms g) research in
            [int_rule "all_run_deadlines" breaches 0 (Z.of_nat (length fast) + Z.of_nat (length research))
               (breaches =? 0)]
          else [])).

(** [@ src/sana/modules/shadow_campaign/evaluator.py ReleaseGateEvaluator.evaluate@518-528] *)
Definition cost_rules (m : CampaignMetrics) (g : GatePolicy) : res (list GateRuleResult) :=
  match gp_max_projected_full_cost_usd g with
  | None => Ok []
  | Some maximum =>
      passed ← (match mt_projected_full_cost_usd m with
                | Some cost => dec_le cost maximum
                | None => Ok false
                end);
      Ok [gate_rule (u "projected_full_cost")
            (match mt_projected_full_cost_usd m with
             | Some cost => RDecimal cost | None => RText (u "MISSING") end)
            (RDecimal maximum) (mt_terminal_results m) passed]
  end.

(** [min] of a non-empty tuple. *)
Definition min_of (l : list Z) : res Z :=
  match l with
  | [] => Raise (ValueError "min() iterable argument is empty")
  | x :: r => Ok (foldl Z.min x r)
  end.

(** [@ src/sana/modules/shadow_campaign/evaluator.py ReleaseGateEvaluator.evaluate@531-648] *)
Definition ratio_rules (m : CampaignMetrics) (g : GatePolicy) : res (list GateRuleResult) :=
  let n := mt_terminal_results m in
  let reviews := mt_review_total_count m in
  let at_least id observed minimum size := int_rule id observed minimum size (minimum <=? observed) in
  let at_most id observed maximum size := int_rule id observed maximum size (observed <=? maximum) in
  mode_bps ← basis_points (mt_mode_match_count m) (mt_mode_total_count m);
  gold_bps ← (match mt_gold_macro_bps m with
              | Some v => Ok v
              | None => basis_points (mt_gold_pass_count m) (mt_gold_total_count m)
              end);
  correct_bps ← basis_points (mt_review_correct_count m) reviews;
  citation_bps ← basis_points (mt_review_citation_relevance_pass_count m) reviews;
  source_bps ← basis_points (mt_review_source_appropriateness_pass_count m) reviews;
  freshness_bps ← basis_points (mt_review_freshness_pass_count m) reviews;
  completeness_bps ← basis_points (mt_review_completeness_pass_count m) reviews;
  gap_bps ← basis_points (mt_unanswerable_gap_count m) (mt_unanswerable_gap_total m);
  degraded_bps ← basis_points (mt_degraded_count m) n;
  infrastructure_bps ← basis_points (mt_infrastructure_failure_count m) n;
  minimum_stratum ← min_of (mt_coverage_stratum_bps m);
  Ok [at_least "mode_accuracy"%string mode_bps (gp_min_mode_accuracy_bps g) (mt_mode_total_count m);
      at_least "coverage_macro"%string (mt_coverage_macro_bps m) (gp_min_coverage_macro_bps g)
        (mt_distinct_case_count m);
      at_least "coverage_stratum_min"%string minimum_stratum (gp_min_coverage_stratum_bps g)
        (Z.of_nat (length (mt_coverage_stratum_bps m)));
      at_least "gold_pass_rate"%string gold_bps (gp_min_gold_pass_bps g) (mt_gold_total_count m);
      at_least "review_correct"%string correct_bps (gp_min_review_correct_bps g) reviews;
      at_least "review_citation_relevance"%string citation_bps (gp_min_review_citation_bps g) reviews;
      at_least "review_source_appropriateness"%string source_bps (gp_min_review_source_bps g) reviews;
      at_least "review_freshness"%string freshness_bps (gp_min_review_freshness_bps g) reviews;
      at_least "review_completeness"%string completeness_bps (gp_min_review_completeness_bps g) reviews;
      at_least "unanswerable_explicit_gap"%string gap_bps (gp_min_unanswerable_gap_bps g)
        (mt_unanswerable_gap_total m);
      at_most "degraded_rate"%string degraded_bps (gp_max_degraded_bps g) n;
      at_most "infrastructure_failure_rate"%string infrastructure_bps
        (gp_max_infrastructure_failure_bps g) n].

(** [@ src/sana/modules/shadow_campaign/evaluator.py ReleaseGateEvaluator.evaluate@472-660] *)
Definition quality_rules (m : CampaignMetrics) (g : GatePolicy) : res (list GateRuleResult) :=
  latency ← latency_rules m g;
  cost ← cost_rules m g;
  rest ← (if negb (operational_only g) then ratio_rules m g
          else let n := mt_infrastructure_failure_count m in
               Ok [int_rule "infrastructure_failure_count" n 0 (mt_terminal_results m) (n =? 0)]);
  Ok (latency ++ cost ++ rest).

(** [@ src/sana/modules/shadow_campaign/evaluator.py ReleaseGateEvaluator.evaluate] *)
Definition gate_evaluate (m : CampaignMetrics) (g : GatePolicy) (final : bool) : res GateDecision :=
  let decide status state rules :=
    {| gd_status := status; gd_decision_state := u state; gd_rules := rules |} in
  let hard := hard_rules m in
  if negb (hard_total m =? 0) then Ok (decide GateStatus_FAIL "FINAL_FAIL"%string hard) else
  let rules := hard ++ sample_rules m g in
  if negb (all_passed (sample_rules m g)) then
    Ok (if final then decide GateStatus_INSUFFICIENT_SAMPLE "FINAL_INSUFFICIENT_SAMPLE"%string rules
        else decide GateStatus_PENDING "PENDING_SAMPLE"%string rules)
  else
  let errors := quality_integrity_errors m g in
  let rules := rules ++ [int_rule "metric_integrity" errors 0 (mt_terminal_results m) (errors =? 0)] in
  if negb (errors =? 0) then Ok (decide GateStatus_FAIL "FINAL_FAIL"%string rules) else
  quality ← quality_rules m g;
  Ok (if all_passed quality then decide GateStatus_PASS "FINAL_PASS"%string (rules ++ quality)
      else decide GateStatus_FAIL "FINAL_FAIL"%string (rules ++ quality)).
