(* ===== verification/GateFacts.v ===== *)
(** * GateFacts: what the release gate decides

    The nearest-rank percentile against its definition by counting, and the gate against a
    declarative list of release criteria. *)

From Stdlib Require Import SpecFloat String.
From S2P Require Import Prelude Errors PyTime Campaign CampaignBudget CampaignPolicy Gate.

(** ** Percentiles by counting *)

Definition count_at_most (t : Z) (l : list Z) : Z := sumZ (fun v => one (v <=? t)) l.

Lemma insert_sorted_sorted x l : StronglySorted Z.le l -> StronglySorted Z.le (insert_sorted Z.ltb x l).
Proof.
  induction 1 as [|y l Hl IH HF]; simpl; [repeat constructor|]. destruct (y <? x) eqn:E; bools.
  - constructor; [done|]. rewrite (insert_sorted_perm Z.ltb x l). by constructor; [lia|].
  - constructor; [by constructor|]. constructor; [done|]. eapply Forall_impl; [exact HF|]. simpl. lia.
Qed.

Lemma py_sorted_sorted l : StronglySorted Z.le (py_sorted Z.ltb l).
Proof. induction l as [|x l IH]; simpl; [constructor|by apply insert_sorted_sorted]. Qed.

(** In a sorted list, the element at an index is at most [t] exactly when more than that many are. *)
Lemma sorted_lookup l t k v : StronglySorted Z.le l -> l !! k = Some v ->
  (v <= t <-> Z.of_nat k < count_at_most t l).
Proof.
  intros HS. revert k. induction HS as [|x l Hl IH HF]; intros k Hk; [by rewrite lookup_nil in Hk|].
  assert (0 <= count_at_most t l) as Hn by (apply sumZ_nonneg; intros; apply one_nonneg).
  unfold count_at_most in *. simpl. rewrite Forall_forall in HF. destruct k as [|k]; simpl in Hk.
  - simplify_eq. destruct (v <=? t) eqn:E; bools; simpl; [lia|].
    rewrite (sumZ_zero _ l); [lia|]. intros y Hy. specialize (HF y Hy). by replace (y <=? t) with false by lia.
  - specialize (IH _ Hk). assert (x <= v) by (apply HF; by eapply list_elem_of_lookup_2).
    destruct (x <=? t) eqn:E; bools; simpl; [lia|].
    rewrite (sumZ_zero _ l) in *; [lia|..]; intros y Hy; specialize (HF y Hy); by replace (y <=? t) with false by lia.
Qed.

(** The rank of the 95th percentile: the float division and its ceiling are exact. *)
Definition exact_rank (n : Z) : bool :=
  match fceil (true_div (95 * n) 100) with Ok r => r =? (95 * n + 99) / 100 | Raise _ => false end.

Lemma rank_exact n : 1 <= n <= 1000 -> fceil (true_div (95 * n) 100) = Ok ((95 * n + 99) / 100).
Proof.
  intros Hn. assert (forallb exact_rank (seqZ 1 1000) = true) as H by (vm_compute; reflexivity).
  rewrite forallb_forall in H. specialize (H n). unfold exact_rank in H.
  destruct (fceil _) as [r|]; [f_equal; apply Z.eqb_eq, H|exfalso; discriminate H];
    apply list_elem_of_In, elem_of_seqZ; lia.
Qed.

Lemma nearest_rank_95 l : l <> [] -> Forall (fun v => 0 <= v) l -> (length l <= 1000)%nat ->
  exists v, nearest_rank_percentile l 95 = Ok v /\
    (forall t, v <= t <-> 95 * Z.of_nat (length l) <= 100 * count_at_most t l).
Proof.
  intros Hne HF HL. unfold nearest_rank_percentile. rewrite bool_decide_eq_false_2 by done. simpl.
  replace (existsb (fun v => v <? 0) l) with false.
  2: { symmetry. apply not_true_is_false. intros (v & Hv & E)%existsb_exists. bools.
       rewrite Forall_forall in HF. specialize (HF v). rewrite list_elem_of_In in HF. specialize (HF Hv). simpl in HF. lia. }
  simpl. assert (length (py_sorted Z.ltb l) = length l) as EL by apply Permutation_length, py_sorted_perm.
  assert (1 <= Z.of_nat (length l) <= 1000) as HN by (destruct l; simpl in *; [done|lia]).
  rewrite EL, rank_exact by done. simpl. set (n := Z.of_nat (length l)) in *.
  assert (1 <= (95 * n + 99) / 100 <= n) as HR
    by (split; [apply Z.div_le_lower_bound|apply Z.lt_succ_r, Z.div_lt_upper_bound]; lia).
  destruct (lookup_lt_is_Some_2 (py_sorted Z.ltb l) (Z.to_nat ((95 * n + 99) / 100 - 1))) as [v Hv]; [lia|].
  rewrite Hv. exists v. split; [done|]. intros t. rewrite (sorted_lookup _ t _ _ (py_sorted_sorted l) Hv).
  unfold count_at_most. rewrite (sumZ_perm _ _ _ (py_sorted_perm Z.ltb l)).
  fold (count_at_most t l). rewrite Z2Nat.id by lia.
  pose proof (Z.div_mod (95 * n + 99) 100 ltac:(lia)). pose proof (Z.mod_pos_bound (95 * n + 99) 100 ltac:(lia)). lia.
Qed.

(** ** Ratios, minima and costs *)

Lemma basis_points_ok num den : 0 < den -> 0 <= num <= den ->
  basis_points num den = Ok (num * 10000 / den).
Proof.
  intros Hd Hn. unfold basis_points. replace (den <=? 0) with false by lia.
  replace (0 <=? num) with true by lia. by replace (num <=? den) with true by lia.
Qed.

(** A ratio in basis points reaches a minimum exactly when the fraction does. *)
Lemma ratio_at_least num den least : 0 < den -> least <= num * 10000 / den <-> least * den <= 10000 * num.
Proof.
  intros Hd. split; intros H.
  - pose proof (Z.mul_div_le (num * 10000) den Hd). nia.
  - apply Z.div_le_lower_bound; lia.
Qed.

Lemma ratio_at_most num den most : 0 < den -> num * 10000 / den <= most <-> 10000 * num < (most + 1) * den.
Proof.
  intros Hd. rewrite <- Z.lt_succ_r. split; intros H.
  - pose proof (Z.mul_succ_div_gt (num * 10000) den Hd). nia.
  - apply Z.div_lt_upper_bound; lia.
Qed.

Lemma foldl_min_least l x b : b <= foldl Z.min x l <-> b <= x /\ Forall (fun v => b <= v) l.
Proof.
  revert x. induction l as [|y l IH]; intros x; simpl; [split; [by split|tauto]|].
  rewrite IH, Forall_cons, Z.min_glb_iff. tauto.
Qed.

Lemma dec_compare_number a b : a <> DecNaN -> b <> DecNaN -> exists c, dec_compare a b = Ok c.
Proof. destruct a, b; intros; try done; by eexists. Qed.

Lemma dec_le_number a b : a <> DecNaN -> b <> DecNaN -> exists r, dec_le a b = Ok r.
Proof. intros Ha Hb. unfold dec_le. destruct (dec_compare_number _ _ Ha Hb) as [c ->]. by eexists. Qed.

Lemma count_true_zero l : count_true l = 0 <-> Forall (fun b => b = false) l.
Proof.
  induction l as [|b l IH]; simpl; [by split|]. rewrite Forall_cons, <- IH. unfold count_true; simpl.
  pose proof (sumZ_nonneg one l (fun x _ => one_nonneg x)). destruct b; simpl; [split; [lia|by intros []]|].
  split; [done|by intros []].
Qed.

(** ** The release criteria *)

(** The counters of a consistent set of metrics: no part exceeds its whole. *)
Definition consistent (m : CampaignMetrics) : Prop :=
  mt_actual_fast_results m + mt_actual_research_results m <= mt_terminal_results m /\
  mt_distinct_case_count m <= mt_terminal_results m /\
  mt_unanswerable_case_count m <= mt_distinct_case_count m /\
  mt_unanswerable_terminal_results m <= mt_terminal_results m /\
  mt_valid_gold_case_count m <= mt_distinct_case_count m /\
  mt_completed_reviews m <= mt_terminal_results m /\
  mt_unreviewable_reviews m <= mt_completed_reviews m /\
  mt_mode_match_count m <= mt_mode_total_count m /\
  mt_gold_pass_count m <= mt_gold_total_count m /\
  mt_review_total_count m <= mt_completed_reviews m /\
  mt_review_correct_count m <= mt_review_total_count m /\
  mt_review_citation_relevance_pass_count m <= mt_review_total_count m /\
  mt_review_source_appropriateness_pass_count m <= mt_review_total_count m /\
  mt_review_freshness_pass_count m <= mt_review_total_count m /\
  mt_review_completeness_pass_count m <= mt_review_total_count m /\
  mt_unanswerable_gap_count m <= mt_unanswerable_gap_total m /\
  mt_degraded_count m <= mt_terminal_results m /\
  mt_infrastructure_failure_count m <= mt_terminal_results m.

(** No safety violation was counted and the counters agree. *)
Definition hard_clear (m : CampaignMetrics) : Prop :=
  Forall (fun kv => kv.2 = 0) (mt_hard_violation_counts m) /\ consistent m.

Definition reaches (g : GatePolicy) (observed required : Z) : Prop :=
  if gp_require_exact_sample_counts g then observed = required else required <= observed.

(** Enough runs, cases, reviews and gold answers were collected. *)
Definition samples_met (m : CampaignMetrics) (g : GatePolicy) : Prop :=
  reaches g (mt_terminal_results m) (gp_min_terminal_results g) /\
  reaches g (mt_actual_fast_results m) (gp_min_actual_fast_results g) /\
  reaches g (mt_actual_research_results m) (gp_min_actual_research_results g) /\
  reaches g (mt_distinct_case_count m) (gp_min_distinct_cases g) /\
  gp_min_unanswerable_cases g <= mt_unanswerable_case_count m /\
  gp_min_unanswerable_results g <= mt_unanswerable_terminal_results m /\
  gp_required_reviews g <= mt_completed_reviews m /\
  mt_unreviewable_reviews m = 0 /\
  gp_required_gold_cases g <= mt_valid_gold_case_count m.

(** Each run of the sample was measured, and each ratio of a full gate has something to divide. *)
Definition data_complete (m : CampaignMetrics) (g : GatePolicy) : Prop :=
  gp_min_actual_fast_results g <= Z.of_nat (length (mt_fast_latency_ms m)) /\
  gp_min_actual_research_results g <= Z.of_nat (length (mt_research_latency_ms m)) /\
  (gp_kind g = GateKind_FULL ->
   length (mt_coverage_stratum_bps m) = 4%nat /\ 0 < mt_mode_total_count m /\
   0 < mt_gold_total_count m /\ 0 < mt_review_total_count m /\ 0 < mt_unanswerable_gap_total m).

(** At least 95 percent of the values are within a threshold. *)
Definition p95_within (threshold : Z) (l : list Z) : Prop :=
  95 * Z.of_nat (length l) <= 100 * count_at_most threshold l.

Definition fraction_at_least (num den least : Z) : Prop := least * den <= 10000 * num.
Definition fraction_at_most (num den most : Z) : Prop := 10000 * num < (most + 1) * den.

(** Latencies, stops, deadlines and cost, for every kind of gate. *)
Definition limits_met (m : CampaignMetrics) (g : GatePolicy) : Prop :=
  p95_within (gp_fast_latency_p95_ms g) (mt_fast_latency_ms m) /\
  p95_within (gp_research_latency_p95_ms g) (mt_research_latency_ms m) /\
  mt_cost_stop_triggered m = false /\
  mt_call_ceiling_triggered m = false /\
  (gp_require_every_run_within_deadline g = true ->
   Forall (fun v => v <= gp_fast_latency_p95_ms g) (mt_fast_latency_ms m) /\
   Forall (fun v => v <= gp_research_latency_p95_ms g) (mt_research_latency_ms m)) /\
  (forall maximum, gp_max_projected_full_cost_usd g = Some maximum ->
   exists cost, mt_projected_full_cost_usd m = Some cost /\ dec_le cost maximum = Ok true).

Definition gold_reaches (m : CampaignMetrics) (least : Z) : Prop :=
  match mt_gold_macro_bps m with
  | Some v => least <= v
  | None => fraction_at_least (mt_gold_pass_count m) (mt_gold_total_count m) least
  end.

(** The quality ratios of a full gate. *)
Definition ratios_met (m : CampaignMetrics) (g : GatePolicy) : Prop :=
  let reviews := mt_review_total_count m in
  fraction_at_least (mt_mode_match_count m) (mt_mode_total_count m) (gp_min_mode_accuracy_bps g) /\
  gp_min_coverage_macro_bps g <= mt_coverage_macro_bps m /\
  Forall (fun v => gp_min_coverage_stratum_bps g <= v) (mt_coverage_stratum_bps m) /\
  gold_reaches m (gp_min_gold_pass_bps g) /\
  fraction_at_least (mt_review_correct_count m) reviews (gp_min_review_correct_bps g) /\
  fraction_at_least (mt_review_citation_relevance_pass_count m) reviews (gp_min_review_citation_bps g) /\
  fraction_at_least (mt_review_source_appropriateness_pass_count m) reviews (gp_min_review_source_bps g) /\
  fraction_at_least (mt_review_freshness_pass_count m) reviews (gp_min_review_freshness_bps g) /\
  fraction_at_least (mt_review_completeness_pass_count m) reviews (gp_min_review_completeness_bps g) /\
  fraction_at_least (mt_unanswerable_gap_count m) (mt_unanswerable_gap_total m)
    (gp_min_unanswerable_gap_bps g) /\
  fraction_at_most (mt_degraded_count m) (mt_terminal_results m) (gp_max_degraded_bps g) /\
  fraction_at_most (mt_infrastructure_failure_count m) (mt_terminal_results m)
    (gp_max_infrastructure_failure_bps g).

Definition quality_met (m : CampaignMetrics) (g : GatePolicy) : Prop :=
  limits_met m g /\
  (gp_kind g = GateKind_FULL -> ratios_met m g) /\
  (gp_kind g = GateKind_SMOKE -> mt_infrastructure_failure_count m = 0).

(** ** The rules against the criteria *)

Lemma existsb_false_Forall {A} (p : A -> bool) l : existsb p l = false <-> Forall (fun x => p x = false) l.
Proof.
  induction l as [|x l IH]; simpl; [by split|]. rewrite Forall_cons, orb_false_iff. by rewrite IH.
Qed.

Lemma sumZ_zero_iff {A} (f : A -> Z) l : Forall (fun x => 0 <= f x) l ->
  sumZ f l = 0 <-> Forall (fun x => f x = 0) l.
Proof.
  induction 1 as [|x l Hx Hl IH]; simpl; [by split|]. rewrite Forall_cons, <- IH.
  assert (0 <= sumZ f l) by (apply sumZ_nonneg; by apply Forall_forall). lia.
Qed.

Lemma basic_integrity_zero m : basic_integrity_errors m = 0 <-> consistent m.
Proof.
  unfold basic_integrity_errors, consistent. rewrite count_true_zero, !Forall_cons, Forall_nil_iff, !Z.ltb_ge.
  tauto.
Qed.

Lemma metrics_ok_inv m : CampaignMetrics_new m = Ok m ->
  Forall (fun v => 0 <= v) (mt_counters m) /\
  Forall (fun v => 0 <= v) (mt_fast_latency_ms m) /\
  Forall (fun v => 0 <= v) (mt_research_latency_ms m) /\
  Forall (fun kv => 0 <= kv.2) (mt_hard_violation_counts m) /\
  mt_projected_full_cost_usd m <> Some DecNaN.
Proof.
  unfold CampaignMetrics_new. intros H. minv.
  repeat match goal with H : existsb _ _ = false |- _ => apply existsb_false_Forall in H end.
  match goal with H : Forall _ (mt_fast_latency_ms m ++ _) |- _ => apply Forall_app in H as [? ?] end.
  repeat split;
    try match goal with H : Forall _ ?l |- Forall _ ?l =>
      eapply Forall_impl; [exact H|]; simpl; intros; bools; lia end.
  intros Hc. by rewrite Hc in *.
Qed.

Lemma hard_total_zero m : CampaignMetrics_new m = Ok m -> hard_total m = 0 <-> hard_clear m.
Proof.
  intros (_ & _ & _ & Hh & _)%metrics_ok_inv. unfold hard_total, hard_clear.
  rewrite <- basic_integrity_zero, <- (sumZ_zero_iff snd) by done.
  assert (0 <= sumZ snd (mt_hard_violation_counts m)) by (apply sumZ_nonneg; by apply Forall_forall).
  assert (0 <= basic_integrity_errors m) by (apply sumZ_nonneg; intros; apply one_nonneg). lia.
Qed.

Lemma reaches_met g observed required : sample_met g observed required = true <-> reaches g observed required.
Proof. unfold sample_met, reaches. destruct (gp_require_exact_sample_counts g); lia. Qed.

Lemma samples_passed m g : all_passed (sample_rules m g) = true <-> samples_met m g.
Proof.
  unfold all_passed, sample_rules, samples_met. simpl. rewrite !andb_true_iff, !reaches_met, !Z.leb_le, Z.eqb_eq.
  tauto.
Qed.

Lemma data_zero m g : quality_integrity_errors m g = 0 <-> data_complete m g.
Proof.
  unfold quality_integrity_errors, data_complete, operational_only.
  rewrite count_true_zero, !Forall_cons, Forall_nil_iff, !Z.ltb_ge.
  destruct (gp_kind g); simpl; [by intuition|].
  rewrite negb_false_iff, Nat.eqb_eq, !Z.leb_gt. intuition.
Qed.

Lemma policy_ok_inv g : GatePolicy_new g = Ok g -> gp_max_projected_full_cost_usd g <> Some DecNaN.
Proof. unfold GatePolicy_new. intros H. minv. intros Hc. by rewrite Hc in *. Qed.

Lemma count_above_zero t l : count_above t l = 0 <-> Forall (fun v => v <= t) l.
Proof.
  unfold count_above. rewrite sumZ_zero_iff; [|apply Forall_forall; intros; apply one_nonneg].
  split; intros H; (eapply Forall_impl; [exact H|]); intros v; simpl; destruct (t <? v) eqn:E; bools; simpl; lia.
Qed.

Lemma nonempty_of_length {A} (l : list A) k : 1 <= k -> k <= Z.of_nat (length l) -> l <> [].
Proof. destruct l; simpl; [lia|done]. Qed.

Definition within_deadlines (m : CampaignMetrics) (g : GatePolicy) : Prop :=
  gp_require_every_run_within_deadline g = true ->
  Forall (fun v => v <= gp_fast_latency_p95_ms g) (mt_fast_latency_ms m) /\
  Forall (fun v => v <= gp_research_latency_p95_ms g) (mt_research_latency_ms m).

Definition measured (l : list Z) : Prop :=
  l <> [] /\ Forall (fun v => 0 <= v) l /\ (length l <= 1000)%nat.

Lemma latency_rules_spec m g : measured (mt_fast_latency_ms m) -> measured (mt_research_latency_ms m) ->
  exists l, latency_rules m g = Ok l /\
    (all_passed l = true <->
     p95_within (gp_fast_latency_p95_ms g) (mt_fast_latency_ms m) /\
     p95_within (gp_research_latency_p95_ms g) (mt_research_latency_ms m) /\
     mt_cost_stop_triggered m = false /\ mt_call_ceiling_triggered m = false /\ within_deadlines m g).
Proof.
  intros (Hf & Hf0 & HfL) (Hr & Hr0 & HrL).
  destruct (nearest_rank_95 _ Hf Hf0 HfL) as (vf & Ef & Sf).
  destruct (nearest_rank_95 _ Hr Hr0 HrL) as (vr & Er & Sr).
  unfold latency_rules. rewrite Ef, Er. eexists; split; [reflexivity|].
  unfold all_passed, p95_within, within_deadlines. rewrite forallb_app, <- Sf, <- Sr. simpl.
  rewrite !andb_true_iff, !Z.leb_le, !negb_true_iff.
  destruct (gp_require_every_run_within_deadline g); simpl; [|by intuition].
  rewrite andb_true_iff, Z.eqb_eq.
  assert (forall t l, 0 <= count_above t l) as Hn by (intros; apply sumZ_nonneg; intros; apply one_nonneg).
  pose proof (Hn (gp_fast_latency_p95_ms g) (mt_fast_latency_ms m)).
  pose proof (Hn (gp_research_latency_p95_ms g) (mt_research_latency_ms m)).
  pose proof (count_above_zero (gp_fast_latency_p95_ms g) (mt_fast_latency_ms m)).
  pose proof (count_above_zero (gp_research_latency_p95_ms g) (mt_research_latency_ms m)).
  split; [intros [(? & ? & ? & ? & _) [? _]]; repeat split; tauto || (apply count_above_zero; lia)|].
  intros (? & ? & ? & ? & H5). destruct (H5 eq_refl). repeat split; tauto || intuition lia.
Qed.

Lemma cost_rules_spec m g :
  mt_projected_full_cost_usd m <> Some DecNaN -> gp_max_projected_full_cost_usd g <> Some DecNaN ->
  exists l, cost_rules m g = Ok l /\
    (all_passed l = true <->
     forall maximum, gp_max_projected_full_cost_usd g = Some maximum ->
       exists cost, mt_projected_full_cost_usd m = Some cost /\ dec_le cost maximum = Ok true).
Proof.
  intros Hm Hg. unfold cost_rules. destruct (gp_max_projected_full_cost_usd g) as [b|];
    [|eexists; split; [done|]; by split].
  destruct (mt_projected_full_cost_usd m) as [c|]; simpl.
  - destruct (dec_le_number c b) as [r Er]; [congruence..|]. rewrite Er. simpl.
    eexists; split; [reflexivity|]. simpl. rewrite andb_true_r. split.
    + intros -> ? [= <-]. eauto.
    + intros H. destruct (H _ eq_refl) as (? & [= <-] & E). congruence.
  - eexists; split; [reflexivity|]. simpl. split; [done|]. intros H. by destruct (H _ eq_refl) as (? & ? & _).
Qed.

(** A full gate has something to divide by everywhere. *)
Definition divisible (m : CampaignMetrics) : Prop :=
  0 < mt_terminal_results m /\ mt_coverage_stratum_bps m <> [] /\ 0 < mt_mode_total_count m /\
  0 < mt_gold_total_count m /\ 0 < mt_review_total_count m /\ 0 < mt_unanswerable_gap_total m.

Lemma gold_ratio m least : 0 < mt_gold_total_count m -> 0 <= mt_gold_pass_count m <= mt_gold_total_count m ->
  exists v, match mt_gold_macro_bps m with
            | Some v => Ok v
            | None => basis_points (mt_gold_pass_count m) (mt_gold_total_count m)
            end = Ok v /\ (least <= v <-> gold_reaches m least).
Proof.
  intros Hd Hn. unfold gold_reaches. destruct (mt_gold_macro_bps m) as [v|]; [by exists v|].
  eexists. split; [by apply basis_points_ok|]. by apply ratio_at_least.
Qed.

Lemma min_of_least l : l <> [] -> exists v, min_of l = Ok v /\ forall b, b <= v <-> Forall (fun x => b <= x) l.
Proof.
  destruct l as [|x l]; [done|]. intros _. eexists. split; [reflexivity|]. intros b.
  by rewrite foldl_min_least, Forall_cons.
Qed.

Lemma ratio_rules_spec m g : Forall (fun v => 0 <= v) (mt_counters m) -> consistent m -> divisible m ->
  exists l, ratio_rules m g = Ok l /\ (all_passed l = true <-> ratios_met m g).
Proof.
  intros HC HK (Ht & Hs & Hmo & Hgo & Hre & Hga). unfold mt_counters in HC. rewrite !Forall_cons in HC.
  unfold consistent in HK. destruct (min_of_least _ Hs) as (low & Elow & Slow).
  destruct (gold_ratio m (gp_min_gold_pass_bps g) Hgo) as (gold & Egold & Sgold); [tauto|].
  unfold ratio_rules. rewrite Egold, Elow, !basis_points_ok by tauto. simpl.
  eexists. split; [reflexivity|]. unfold all_passed, ratios_met, fraction_at_least, fraction_at_most. simpl.
  rewrite !andb_true_iff, !Z.leb_le, !ratio_at_least, !ratio_at_most, Sgold, Slow by done. tauto.
Qed.

Lemma quality_rules_spec m g : CampaignMetrics_new m = Ok m -> GatePolicy_new g = Ok g -> consistent m ->
  measured (mt_fast_latency_ms m) -> measured (mt_research_latency_ms m) ->
  (gp_kind g = GateKind_FULL -> divisible m) ->
  exists l, quality_rules m g = Ok l /\ (all_passed l = true <-> quality_met m g).
Proof.
  intros (HC & _ & _ & _ & Hcost)%metrics_ok_inv Hg%policy_ok_inv HK Hf Hr HD.
  destruct (latency_rules_spec m g Hf Hr) as (ll & El & Sl).
  destruct (cost_rules_spec m g Hcost Hg) as (lc & Ec & Sc).
  unfold quality_rules, quality_met, limits_met, operational_only. rewrite El, Ec. simpl.
  destruct (gp_kind g) eqn:Ek; simpl.
  - eexists. split; [reflexivity|]. unfold all_passed in *. rewrite !forallb_app, !andb_true_iff, Sl, Sc. simpl.
    rewrite andb_true_r, Z.eqb_eq. unfold within_deadlines. intuition discriminate.
  - destruct (ratio_rules_spec m g HC HK (HD eq_refl)) as (lr & Er & Sr). rewrite Er. simpl.
    eexists. split; [reflexivity|]. unfold all_passed in *. rewrite !forallb_app, !andb_true_iff, Sl, Sc, Sr.
    unfold within_deadlines. intuition discriminate.
Qed.

(** ** The decision *)

(** What the gate promises about its decision. *)
Definition decided (m : CampaignMetrics) (g : GatePolicy) (final : bool) (s : GateStatus) : Prop :=
  match s with
  | GateStatus_PASS => hard_clear m /\ samples_met m g /\ data_complete m g /\ quality_met m g
  | GateStatus_FAIL =>
      ~ hard_clear m \/ (samples_met m g /\ ~ (data_complete m g /\ quality_met m g))
  | GateStatus_INSUFFICIENT_SAMPLE => hard_clear m /\ ~ samples_met m g /\ final = true
  | GateStatus_PENDING => hard_clear m /\ ~ samples_met m g /\ final = false
  end.

Ltac status_case := eexists; split; [reflexivity|]; intros s; destruct s; simpl; intuition congruence.

Lemma ready_measured l need : 1 <= need -> need <= Z.of_nat (length l) ->
  Forall (fun v => 0 <= v) l -> (length l <= 1000)%nat -> measured l.
Proof. intros. split; [by eapply nonempty_of_length|done]. Qed.

Lemma reaches_least g observed required : reaches g observed required -> required <= observed.
Proof. unfold reaches. destruct (gp_require_exact_sample_counts g); lia. Qed.

(** A full gate with its samples reached and its data complete divides by nothing empty. *)
Lemma full_divisible m g : consistent m -> samples_met m g -> data_complete m g ->
  1 <= gp_min_actual_fast_results g -> 1 <= gp_min_actual_research_results g ->
  gp_kind g = GateKind_FULL -> divisible m.
Proof.
  intros HK (_ & Hf%reaches_least & Hr%reaches_least & _) (_ & _ & HD) ? ? Ek.
  destruct (HD Ek) as (HL & Hrest). destruct HK as (Hk & _).
  split; [lia|]. split; [by destruct (mt_coverage_stratum_bps m)|done].
Qed.

(** Claim C37. Equivalence of the release gate with its declarative criteria. For metrics and a
    policy their constructors accept, a policy that asks for runs of both modes and at most a thousand
    measured runs per mode, the gate always decides (no percentile of an empty list, no division by
    zero, no comparison with a NaN), and each status is given exactly in its case: PASS when no safety
    violation was counted, no counter exceeds its whole, every sample is reached, every run of the
    sample was measured, 95 percent of the latencies are within their threshold, no stop was
    triggered, the cost and the deadlines hold, and (full gate) every quality fraction reaches its
    basis points exactly, without a rounding gap; PENDING or INSUFFICIENT_SAMPLE when only samples
    are missing; FAIL otherwise. *)
Theorem gate_decision (m : CampaignMetrics) (g : GatePolicy) (final : bool) :
  CampaignMetrics_new m = Ok m -> GatePolicy_new g = Ok g ->
  1 <= gp_min_actual_fast_results g -> 1 <= gp_min_actual_research_results g ->
  (length (mt_fast_latency_ms m) <= 1000)%nat -> (length (mt_research_latency_ms m) <= 1000)%nat ->
  exists d, gate_evaluate m g final = Ok d /\
    forall s, gd_status d = s <-> decided m g final s.
Proof.
  intros Hm Hg Hf Hr HLf HLr. destruct (metrics_ok_inv m Hm) as (_ & Hf0 & Hr0 & _).
  pose proof (hard_total_zero m Hm) as SH. unfold gate_evaluate.
  destruct (hard_total m =? 0) eqn:Eh; bools; cbn [negb]; [apply SH in Eh|status_case].
  pose proof (samples_passed m g) as SS. destruct (all_passed (sample_rules m g)) eqn:Es; cbn [negb];
    [|destruct final; status_case].
  pose proof (data_zero m g) as SD. destruct (quality_integrity_errors m g =? 0) eqn:Ed; bools; cbn [negb];
    [|status_case].
  apply SD in Ed. assert (samples_met m g) as HS by tauto.
  destruct (quality_rules_spec m g Hm Hg) as (l & El & Sl); [apply Eh| | |by apply full_divisible; first [apply Eh|done]|].
  { apply ready_measured with (gp_min_actual_fast_results g); first [done|apply Ed]. }
  { apply ready_measured with (gp_min_actual_research_results g); first [done|apply Ed]. }
  rewrite El. cbn. destruct (all_passed l) eqn:Eq; status_case.
Qed.

(** A full campaign of 120 runs that passes the full gate. *)
Definition good_metrics : CampaignMetrics :=
  {| mt_terminal_results := 120; mt_actual_fast_results := 60; mt_actual_research_results := 60;
     mt_distinct_case_count := 40; mt_unanswerable_case_count := 8;
     mt_unanswerable_terminal_results := 24; mt_completed_reviews := 20; mt_unreviewable_reviews := 0;
     mt_valid_gold_case_count := 16; mt_hard_violation_counts := [(u "tenant_isolation", 0)];
     mt_fast_latency_ms := repeat 9000 57 ++ repeat 16000 3; mt_research_latency_ms := repeat 90000 60;
     mt_mode_match_count := 114; mt_mode_total_count := 120; mt_coverage_macro_bps := 8000;
     mt_coverage_stratum_bps := [8100; 7000; 8200; 8700]; mt_gold_pass_count := 46;
     mt_gold_total_count := 48; mt_gold_macro_bps := None; mt_review_correct_count := 18;
     mt_review_citation_relevance_pass_count := 19; mt_review_source_appropriateness_pass_count := 19;
     mt_review_freshness_pass_count := 20; mt_review_completeness_pass_count := 18;
     mt_review_total_count := 20; mt_unanswerable_gap_count := 24; mt_unanswerable_gap_total := 24;
     mt_degraded_count := 12; mt_infrastructure_failure_count := 1;
     mt_projected_full_cost_usd := None; mt_cost_stop_triggered := false;
     mt_call_ceiling_triggered := false |}.

Example good_metrics_pass :
  match gate_evaluate good_metrics SHADOW_FULL_GATE_V2 true with
  | Ok d => gd_status d = GateStatus_PASS /\ length (gd_rules d) = 27%nat
  | Raise _ => False
  end.
Proof. vm_compute. by split. Qed.

(** A policy that asks for no run at all is accepted, and its gate then takes the percentile of
    no latency: the evaluation raises instead of deciding. *)
Definition empty_gate : GatePolicy :=
  {| gp_version := u "empty"; gp_kind := GateKind_SMOKE;
     gp_min_terminal_results := 0; gp_min_actual_fast_results := 0;
     gp_min_actual_research_results := 0; gp_min_distinct_cases := 0;
     gp_min_unanswerable_cases := 0; gp_min_unanswerable_results := 0; gp_required_reviews := 0;
     gp_required_gold_cases := 0; gp_fast_latency_p95_ms := 15000;
     gp_research_latency_p95_ms := 120000; gp_min_mode_accuracy_bps := 0;
     gp_min_coverage_macro_bps := 0; gp_min_coverage_stratum_bps := 0; gp_min_gold_pass_bps := 0;
     gp_min_review_correct_bps := 0; gp_min_review_citation_bps := 0;
     gp_min_review_source_bps := 0; gp_min_review_freshness_bps := 0;
     gp_min_review_completeness_bps := 0; gp_min_unanswerable_gap_bps := 0;
     gp_max_degraded_bps := 10000; gp_max_infrastructure_failure_bps := 0;
     gp_max_projected_full_cost_usd := None;
     gp_require_every_run_within_deadline := true; gp_require_exact_sample_counts := false |}.

Definition unmeasured (m : CampaignMetrics) : CampaignMetrics :=
  {| mt_terminal_results := mt_terminal_results m; mt_actual_fast_results := 0;
     mt_actual_research_results := 0; mt_distinct_case_count := 0; mt_unanswerable_case_count := 0;
     mt_unanswerable_terminal_results := 0; mt_completed_reviews := 0; mt_unreviewable_reviews := 0;
     mt_valid_gold_case_count := 0; mt_hard_violation_counts := [];
     mt_fast_latency_ms := []; mt_research_latency_ms := [];
     mt_mode_match_count := 0; mt_mode_total_count := 0; mt_coverage_macro_bps := 0;
     mt_coverage_stratum_bps := []; mt_gold_pass_count := 0; mt_gold_total_count := 0;
     mt_gold_macro_bps := None; mt_review_correct_count := 0;
     mt_review_citation_relevance_pass_count := 0; mt_review_source_appropriateness_pass_count := 0;
     mt_review_freshness_pass_count := 0; mt_review_completeness_pass_count := 0;
     mt_review_total_count := 0; mt_unanswerable_gap_count := 0; mt_unanswerable_gap_total := 0;
     mt_degraded_count := 0; mt_infrastructure_failure_count := 0;
     mt_projected_full_cost_usd := None; mt_cost_stop_triggered := false;
     mt_call_ceiling_triggered := false |}.

Lemma empty_gate_raises :
  GatePolicy_new empty_gate = Ok empty_gate /\
  CampaignMetrics_new (unmeasured good_metrics) = Ok (unmeasured good_metrics) /\
  gate_evaluate (unmeasured good_metrics) empty_gate true
  = Raise (ValueError "Percentile requires at least one value").
Proof. repeat split; vm_compute; reflexivity. Qed.

Lemma gate_decision_witness :
  exists d, gate_evaluate good_metrics SHADOW_FULL_GATE_V2 true = Ok d /\
    forall s, gd_status d = s <-> decided good_metrics SHADOW_FULL_GATE_V2 true s.
Proof. apply gate_decision; solve [vm_compute; reflexivity | vm_compute; discriminate | simpl; lia]. Defined.
