(* ===== verification/CampaignPlan.v ===== *)
(** * CampaignPlan: manifests, and the run plan of a campaign

    The cases of [sana/modules/shadow_campaign/manifest.py] with the checks of their constructor
    and of [_validate_distribution] (parsing JSON lines into cases is not modelled);
    [select_review_units] of [evaluator.py] and [materialize_run_plans] of [scheduler.py] in the
    same package. SHA-256 digests and [uuid5] are parameters. *)

From Stdlib Require Import String.
From S2P Require Import Prelude Errors PyTime Run Coverage CampaignPolicy.

(** ** Cases *)

(** [@ src/sana/modules/shadow_campaign/manifest.py CaseCategory] *)
Inductive CaseCategory :=
| CaseCategory_VERSION | CaseCategory_BACKGROUND | CaseCategory_COMPARISON
| CaseCategory_MULTI_FACT | CaseCategory_CONFLICT | CaseCategory_NO_ANSWER
| CaseCategory_PROVIDER_RESILIENCE | CaseCategory_POLLUTION_REGRESSION.

(** [@ src/sana/modules/shadow_campaign/manifest.py Answerability] *)
Inductive Answerability := Answerability_ANSWERABLE | Answerability_INTENTIONALLY_UNANSWERABLE.

(** [@ src/sana/modules/shadow_campaign/manifest.py OracleType] *)
Inductive OracleType :=
| OracleType_DETERMINISTIC | OracleType_MANUAL_REQUIRED | OracleType_NOT_APPLICABLE.

#[export] Instance CaseCategory_eq_dec : EqDecision CaseCategory.
Proof. solve_decision. Defined.
#[export] Instance Answerability_eq_dec : EqDecision Answerability.
Proof. solve_decision. Defined.
#[export] Instance OracleType_eq_dec : EqDecision OracleType.
Proof. solve_decision. Defined.

(** Of its gold assertions, a case is only asked for their ids here. *)
Record ShadowCase := {
  sc_id : pystr;
  sc_prompt : pystr;
  sc_locale : pystr;
  sc_expected_mode : SearchMode;
  sc_category : CaseCategory;
  sc_answerability : Answerability;
  sc_minimum_required_facts : Z;
  sc_assertion_ids : list pystr;
  sc_oracle_type : OracleType;
  sc_valid_from : option datetime;
  sc_valid_until : option datetime;
  sc_required_source_classes : list SourceAuthority;
  sc_forbidden_query_terms : list pystr;
  sc_must_not_complete : bool;
  sc_tags : list pystr;
  sc_smoke : bool
}.

Definition id_head_char (c : Z) : bool := ((97 <=? c) && (c <=? 122)) || ((48 <=? c) && (c <=? 57)).
Definition id_char (c : Z) : bool := id_head_char c || bool_decide (c ∈ [46; 95; 45]).

(** [fullmatch] of [^[a-z0-9][a-z0-9._-]{0,79}$] *)
(** [@ src/sana/modules/shadow_campaign/manifest.py CASE_ID_PATTERN] *)
Definition case_id_matches (s : pystr) : bool :=
  match s with
  | [] => false
  | c :: r => id_head_char c && forallb id_char r && Nat.leb (length r) 79
  end.

Definition locale_zh : pystr := u "zh-CN".
Definition locale_en : pystr := u "en".
Definition answerable (c : ShadowCase) : bool := sc_answerability c is Answerability_ANSWERABLE.
Definition deterministic (c : ShadowCase) : bool := sc_oracle_type c is OracleType_DETERMINISTIC.

(** The oracle window of a deterministic case. *)
Definition check_window (c : ShadowCase) : res unit :=
  match sc_valid_from c, sc_valid_until c with
  | Some valid_from, Some valid_until =>
      _ ← require_aware valid_from;
      _ ← require_aware valid_until;
      bad ← dt_le valid_until valid_from;
      fail_if bad (ValueError "oracle window is invalid")
  | _, _ => Raise (ValueError "deterministic oracle requires a window")
  end.

(** [@ src/sana/modules/shadow_campaign/manifest.py ShadowCase/__post_init__] *)
Definition ShadowCase_new (c : ShadowCase) : res ShadowCase :=
  _ ← fail_if (negb (case_id_matches (sc_id c))) (ValueError "Invalid case ID");
  _ ← fail_if (blank (sc_prompt c) || (100000 <? Z.of_nat (length (sc_prompt c))))
        (ValueError "prompt length is invalid");
  _ ← fail_if (negb (bool_decide (sc_locale c ∈ [locale_zh; locale_en])))
        (ValueError "locale is unsupported");
  _ ← fail_if (negb ((1 <=? sc_minimum_required_facts c) && (sc_minimum_required_facts c <=? 50)))
        (ValueError "minimum_required_facts is invalid");
  _ ← fail_if (negb (Nat.eqb (length (sc_assertion_ids c)) (length (dedupe (sc_assertion_ids c)))))
        (ValueError "has duplicate gold assertion IDs");
  _ ← fail_if (existsb blank (sc_forbidden_query_terms c ++ sc_tags c))
        (ValueError "contains empty terms or tags");
  _ ← fail_if (Bool.eqb (sc_must_not_complete c) (answerable c))
        (ValueError "answerability/must_not_complete mismatch");
  _ ← (if deterministic c then
         _ ← fail_if (negb (answerable c) || bool_decide (sc_assertion_ids c = []))
               (ValueError "deterministic oracle requires assertions");
         check_window c
       else fail_if (negb (bool_decide (sc_assertion_ids c = [])) || negb (is_none (sc_valid_from c))
                     || negb (is_none (sc_valid_until c)))
              (ValueError "non-deterministic oracle must not carry assertions"));
  _ ← fail_if ((sc_oracle_type c is OracleType_MANUAL_REQUIRED) && negb (answerable c))
        (ValueError "manual oracle must be answerable");
  _ ← fail_if ((sc_oracle_type c is OracleType_NOT_APPLICABLE) && answerable c)
        (ValueError "answerable oracle cannot be not_applicable");
  Ok c.

Record ShadowManifest := { mf_version : pystr; mf_cases : list ShadowCase; mf_sha256 : pystr }.

(** [@ src/sana/modules/shadow_campaign/manifest.py ShadowManifest.smoke_cases] *)
Definition smoke_cases (m : ShadowManifest) : list ShadowCase :=
  base.filter (fun c => sc_smoke c = true) (mf_cases m).

(** ** Strata *)

Definition stratum (c : ShadowCase) : SearchMode * pystr := (sc_expected_mode c, sc_locale c).

(** [@ src/sana/modules/shadow_campaign/scheduler.py _STRATA] *)
Definition STRATA : list (SearchMode * pystr) :=
  [(SearchMode_FAST, locale_zh); (SearchMode_RESEARCH, locale_zh); (SearchMode_FAST, locale_en);
   (SearchMode_RESEARCH, locale_en)].

(** The number of cases that satisfy a test. *)
Definition count (p : ShadowCase -> bool) (cases : list ShadowCase) : Z :=
  sumZ (fun c => if p c then 1 else 0) cases.

Definition in_stratum (s : SearchMode * pystr) (c : ShadowCase) : bool := stratum c is s.

Fixpoint check_strata (cases : list ShadowCase) (strata : list (SearchMode * pystr)) : res unit :=
  match strata with
  | [] => Ok tt
  | s :: r =>
      _ ← fail_if (count (fun c => in_stratum s c && answerable c) cases <? 5)
            (ValueError "must contain at least 5 answerable cases");
      _ ← fail_if (count (fun c => in_stratum s c && deterministic c) cases <? 4)
            (ValueError "must contain at least 4 deterministic cases");
      check_strata cases r
  end.

(** The window of every deterministic case covers the campaign. *)
Fixpoint check_windows (now : datetime) (active_window : Z) (cases : list ShadowCase) : res unit :=
  match cases with
  | [] => Ok tt
  | c :: r =>
      _ ← (if deterministic c then
             match sc_valid_from c, sc_valid_until c with
             | Some valid_from, Some valid_until =>
                 bad ← or_else (dt_lt now valid_from) (dt_lt valid_until (dt_add now active_window));
                 fail_if bad (ValueError "oracle does not cover the active Campaign window")
             | _, _ => Raise (AssertionError "valid_from is not None and valid_until is not None")
             end
           else Ok tt);
      check_windows now active_window r
  end.

(** A [Counter] over an enum of two members equals [{FAST: n, RESEARCH: n}]; the counter of strata
    equals the expected one when its keys are those and each counts ten. [tag.casefold() == "apex"]
    holds of ASCII tags only. *)
(** [@ src/sana/modules/shadow_campaign/manifest.py _validate_distribution] *)
Definition validate_distribution (cases : list ShadowCase) (now : datetime) (active_window : Z)
    : res unit :=
  let mode m c := sc_expected_mode c is m in
  _ ← fail_if (negb (Nat.eqb (length cases) 40))
        (ValueError "Shadow manifest must contain exactly 40 cases");
  _ ← fail_if (negb (Nat.eqb (length cases) (length (dedupe (map sc_id cases)))))
        (ValueError "Shadow manifest contains a duplicate case ID");
  _ ← fail_if (negb ((count (mode SearchMode_FAST) cases =? 20)
                     && (count (mode SearchMode_RESEARCH) cases =? 20)))
        (ValueError "Shadow manifest must contain 20 FAST and 20 RESEARCH cases");
  _ ← fail_if (negb (forallb (fun s => count (in_stratum s) cases =? 10) STRATA
                     && forallb (fun c => bool_decide (stratum c ∈ STRATA)) cases))
        (ValueError "Each expected-mode/locale stratum must contain 10 cases");
  _ ← check_strata cases STRATA;
  _ ← fail_if (count (fun c => negb (answerable c)) cases <? 8)
        (ValueError "Shadow manifest requires at least 8 unanswerable/conflict cases");
  _ ← fail_if (count (fun c => (sc_category c is CaseCategory_POLLUTION_REGRESSION)
                 || existsb (fun t => bool_decide (ascii_lower t = u "apex")) (sc_tags c)) cases <? 6)
        (ValueError "Shadow manifest requires at least 6 Apex/pollution cases");
  let smoke := base.filter (fun c => sc_smoke c = true) cases in
  _ ← fail_if (negb (Nat.eqb (length smoke) 6))
        (ValueError "Shadow manifest must contain exactly 6 smoke cases");
  _ ← fail_if (negb ((count (mode SearchMode_FAST) smoke =? 3)
                     && (count (mode SearchMode_RESEARCH) smoke =? 3)))
        (ValueError "Smoke cases must contain 3 FAST and 3 RESEARCH cases");
  _ ← fail_if (negb (existsb (fun c => negb (answerable c)) smoke))
        (ValueError "Smoke cases require an intentionally unanswerable case");
  check_windows now active_window cases.

(** What [parse_manifest_bytes] does once every line is parsed: a version and a case each. *)
(** [@ src/sana/modules/shadow_campaign/manifest.py parse_manifest_bytes@419-431] *)
Definition manifest_of_cases (parsed : list (pystr * ShadowCase)) (now : datetime) (active_window : Z)
    (sha256 : pystr) : res ShadowManifest :=
  match dedupe parsed.*1 with
  | [] => Raise (ValueError "Shadow manifest is empty")
  | [version] =>
      _ ← validate_distribution parsed.*2 now active_window;
      Ok {| mf_version := version; mf_cases := parsed.*2; mf_sha256 := sha256 |}
  | _ => Raise (ValueError "All manifest cases must use one manifest_version")
  end.

(** ** The order of the cases *)

(** One element of every list, then the next of every list, and so on. *)
Definition interleave {A} (groups : list (list A)) : list A :=
  concat (map (fun index => omap (fun g => g !! index) groups)
            (seq 0 (foldr Nat.max 0%nat (map length groups)))).

(** The cases of a stratum, by id. *)
Definition stratum_group (cases : list ShadowCase) (s : SearchMode * pystr) : list ShadowCase :=
  py_sorted (fun a b => pystr_ltb (sc_id a) (sc_id b)) (base.filter (fun c => stratum c = s) cases).

(** [@ src/sana/modules/shadow_campaign/scheduler.py _ordered_cases] *)
Definition ordered_cases (cases : list ShadowCase) : res (list ShadowCase) :=
  let grouped := map (stratum_group cases) STRATA in
  _ ← fail_if (negb (Nat.eqb (length (concat grouped)) (length cases)))
        (ValueError "Campaign cases contain an unsupported mode/locale stratum");
  Ok (interleave grouped).

(** ** Review units *)

Section Digests.
Context (sort_digest : UUID -> pystr -> Z -> pystr) (content_sha256 : pystr -> pystr)
  (uuid5 : UUID -> pystr -> UUID).

(** [sort_digest campaign_id case_id repetition] is the SHA-256 of the canonical JSON of the three. *)
Record ReviewUnit := {
  ru_case_id : pystr;
  ru_repetition : Z;
  ru_expected_mode : SearchMode;
  ru_locale : pystr;
  ru_sort_digest : pystr
}.

Definition range (first last : Z) : list Z := seqZ first (last - first + 1).

Definition review_candidates (campaign_id : UUID) (cases : list ShadowCase) (repetitions : Z)
    (s : SearchMode * pystr) : list ReviewUnit :=
  flat_map (fun c => map (fun repetition =>
      {| ru_case_id := sc_id c; ru_repetition := repetition; ru_expected_mode := s.1;
         ru_locale := s.2; ru_sort_digest := sort_digest campaign_id (sc_id c) repetition |})
      (range 1 repetitions))
    (base.filter (fun c => stratum c = s /\ sc_answerability c = Answerability_ANSWERABLE) cases).

(** [(sort_digest, case_id, repetition)] in tuple order. *)
Definition review_ltb (a b : ReviewUnit) : bool :=
  pystr_ltb (ru_sort_digest a) (ru_sort_digest b)
  || (bool_decide (ru_sort_digest a = ru_sort_digest b)
      && (pystr_ltb (ru_case_id a) (ru_case_id b)
          || (bool_decide (ru_case_id a = ru_case_id b) && (ru_repetition a <? ru_repetition b)))).

(** The first unit of each case, until [missing] cases were chosen. *)
Fixpoint choose_units (missing : nat) (chosen : list pystr) (l : list ReviewUnit)
    : list ReviewUnit :=
  match missing, l with
  | O, _ | _, [] => []
  | S n, x :: r => if decide (ru_case_id x ∈ chosen) then choose_units missing chosen r
                   else x :: choose_units n (ru_case_id x :: chosen) r
  end.

(** The modes outside, the locales inside. *)
Definition REVIEW_STRATA : list (SearchMode * pystr) :=
  [(SearchMode_FAST, locale_zh); (SearchMode_FAST, locale_en); (SearchMode_RESEARCH, locale_zh);
   (SearchMode_RESEARCH, locale_en)].

Fixpoint select_strata (campaign_id : UUID) (cases : list ShadowCase) (repetitions : Z)
    (per_stratum : Z) (strata : list (SearchMode * pystr)) : res (list ReviewUnit) :=
  match strata with
  | [] => Ok []
  | s :: r =>
      let chosen := choose_units (Z.to_nat per_stratum) []
                      (py_sorted review_ltb (review_candidates campaign_id cases repetitions s)) in
      _ ← fail_if (negb (Z.of_nat (length chosen) =? per_stratum))
            (ValueError "Stratum cannot provide the review cases");
      rest ← select_strata campaign_id cases repetitions per_stratum r;
      Ok (chosen ++ rest)
  end.

(** [@ src/sana/modules/shadow_campaign/evaluator.py select_review_units] *)
Definition select_review_units (campaign_id : UUID) (m : ShadowManifest) (repetitions per_stratum : Z)
    : res (list ReviewUnit) :=
  _ ← fail_if ((repetitions <? 1) || (per_stratum <? 1))
        (ValueError "Review selection limits must be positive");
  select_strata campaign_id (mf_cases m) repetitions per_stratum REVIEW_STRATA.

(** ** The run plan *)

(** [@ src/sana/modules/conversation/domain.py normalized_content_sha256] *)
Definition normalized_content_sha256 (content : pystr) : res pystr :=
  let normalized := strip content in
  _ ← fail_if (bool_decide (normalized = [])) (ValueError "Message content cannot be empty");
  Ok (content_sha256 normalized).

(** [@ src/sana/modules/shadow_campaign/scheduler.py RunPlan] *)
Record RunPlan := {
  rp_id : UUID;
  rp_case_id : pystr;
  rp_repetition : Z;
  rp_schedule_ordinal : Z;
  rp_manual_review_selected : bool;
  rp_prompt : pystr;
  rp_locale : pystr;
  rp_category : CaseCategory;
  rp_answerability : Answerability;
  rp_expected_mode : SearchMode;
  rp_conversation_key : pystr;
  rp_message_key : pystr;
  rp_request_hash : pystr
}.

(** One unit: [done] units come before it. *)
Definition run_plan (campaign_id : UUID) (reviews : list (pystr * Z)) (done : nat)
    (unit_ : Z * ShadowCase) : res RunPlan :=
  let '(repetition, c) := unit_ in
  let suffix := str_of_uuid campaign_id ++ u ":" ++ sc_id c ++ u ":" ++ str_of_Z repetition in
  request_hash ← normalized_content_sha256 (sc_prompt c);
  Ok {| rp_id := uuid5 campaign_id (u "shadow-run-result:" ++ sc_id c ++ u ":" ++ str_of_Z repetition);
        rp_case_id := sc_id c; rp_repetition := repetition;
        rp_schedule_ordinal := Z.of_nat done + 1;
        rp_manual_review_selected := bool_decide ((sc_id c, repetition) ∈ reviews);
        rp_prompt := sc_prompt c; rp_locale := sc_locale c; rp_category := sc_category c;
        rp_answerability := sc_answerability c; rp_expected_mode := sc_expected_mode c;
        rp_conversation_key := u "shadow-conversation:" ++ suffix;
        rp_message_key := u "shadow:" ++ suffix; rp_request_hash := request_hash |}.

Fixpoint run_plans (campaign_id : UUID) (reviews : list (pystr * Z)) (done : nat)
    (units : list (Z * ShadowCase)) : res (list RunPlan) :=
  match units with
  | [] => Ok []
  | x :: r =>
      plan ← run_plan campaign_id reviews done x;
      rest ← run_plans campaign_id reviews (S done) r;
      Ok (plan :: rest)
  end.

(** The repetitions outside, the cases inside. *)
Definition plan_units (repetitions : Z) (cases : list ShadowCase) : list (Z * ShadowCase) :=
  flat_map (fun repetition => map (pair repetition) cases) (range 1 repetitions).

(** [@ src/sana/modules/shadow_campaign/scheduler.py materialize_run_plans] *)
Definition materialize_run_plans (campaign_id : UUID) (m : ShadowManifest) (profile : CampaignProfile)
    (required_reviews : Z) : res (list RunPlan) :=
  let selected_cases := if pf_smoke_only profile then smoke_cases m else mf_cases m in
  ordered ← ordered_cases selected_cases;
  _ ← fail_if (negb (Z.of_nat (length ordered) * pf_repetitions profile =? pf_max_runs profile))
        (InvariantViolation_code "Manifest selection does not match campaign max_runs"
           "manifest_profile_mismatch");
  _ ← fail_if ((required_reviews <? 0) || negb (required_reviews mod 4 =? 0))
        (InvariantViolation_code "Required manual reviews must divide evenly across four strata"
           "invalid_review_sample_size");
  reviews ← (if required_reviews =? 0 then Ok []
             else select_review_units campaign_id m (pf_repetitions profile) (required_reviews / 4));
  run_plans campaign_id (map (fun r => (ru_case_id r, ru_repetition r)) reviews) 0
    (plan_units (pf_repetitions profile) ordered).
End Digests.
