(* ===== verification/CampaignPlanFacts.v ===== *)
(** * CampaignPlanFacts: a validated manifest yields a complete and fair run plan *)

From Stdlib Require Import String.
From S2P Require Import Prelude Errors PyTime Run Coverage CampaignPolicy CampaignPlan.

(** ** Interleaving *)

Section Interleave.
Context {A : Type}.
Implicit Types (gs : list (list A)) (g : list A).

Definition columns (n : nat) gs : list A := concat (map (fun i => omap (.!! i) gs) (seq 0 n)).

Lemma columns_S n gs : columns (S n) gs = columns n gs ++ omap (.!! n) gs.
Proof. unfold columns. rewrite seq_S, map_app, concat_app. simpl. by rewrite app_nil_r. Qed.

Lemma take_column n gs :
  concat (map (take (S n)) gs) ≡ₚ concat (map (take n) gs) ++ omap (.!! n) gs.
Proof.
  induction gs as [|g gs IH]; [done|]. cbn [map concat]. rewrite IH. csimpl.
  destruct (g !! n) as [x|] eqn:E.
  - rewrite (take_S_r _ _ _ E). solve_Permutation.
  - rewrite (take_ge g (S n)), (take_ge g n); [solve_Permutation|..];
      apply lookup_ge_None in E; lia.
Qed.

Lemma columns_perm n gs : columns n gs ≡ₚ concat (map (take n) gs).
Proof.
  induction n as [|n IH].
  - unfold columns. simpl. induction gs; simpl; done.
  - rewrite columns_S, take_column. by rewrite IH.
Qed.

Lemma longest_bound gs g : g ∈ gs -> (length g <= foldr Nat.max 0 (map length gs))%nat.
Proof. induction gs as [|g' gs IH]; simpl; [set_solver|]. intros [->|H]%elem_of_cons; [lia|]. apply IH in H. lia. Qed.

Lemma interleave_columns gs :
  interleave gs = columns (foldr Nat.max 0%nat (map length gs)) gs.
Proof. done. Qed.

Lemma interleave_perm gs : interleave gs ≡ₚ concat gs.
Proof.
  rewrite interleave_columns, columns_perm.
  rewrite (map_ext_in _ id), map_id; [done|]. intros g Hg.
  apply take_ge, longest_bound. by apply list_elem_of_In.
Qed.

(** ** Fairness

    The groups are the classes of a key. *)

Context {K : Type} `{EqDecision K} (key : A -> K) (group : K -> list A).
Hypothesis group_key : forall k x, x ∈ group k -> key x = k.

(** How many elements have a key. *)
Definition tally (k : K) (l : list A) : nat := length (base.filter (fun x => key x = k) l).

Lemma tally_app k l l' : tally k (l ++ l') = (tally k l + tally k l')%nat.
Proof. unfold tally. by rewrite filter_app, length_app. Qed.

(** Of a column, each class has the element of its own list. *)
Lemma filter_column k ks n : NoDup ks -> k ∈ ks ->
  base.filter (fun x => key x = k) (omap (.!! n) (map group ks)) = option_list (group k !! n).
Proof using All.
  intros Hd Hk.
  assert (forall x k', group k' !! n = Some x -> key x = k') as HG.
  { intros x k' E. by apply group_key, list_elem_of_lookup_2 with n. }
  assert (forall ks, k ∉ ks -> base.filter (fun x => key x = k) (omap (.!! n) (map group ks)) = []) as H0.
  { clear ks Hd Hk. intros ks. induction ks as [|k' ks IH]; intros Hk; [done|]. csimpl.
    apply not_elem_of_cons in Hk as [Hne Hk]. destruct (group k' !! n) as [x|] eqn:E; [|by apply IH].
    rewrite filter_cons, decide_False; [by apply IH|]. apply HG in E. congruence. }
  induction ks as [|k' ks IH]; [set_solver|]. apply NoDup_cons in Hd as [Hn Hd]. csimpl.
  destruct (group k' !! n) as [x|] eqn:E; (destruct (decide (k = k')) as [<-|Hne]; [|assert (k ∈ ks) by set_solver]).
  - rewrite filter_cons, decide_True by eauto. by rewrite H0, E.
  - rewrite filter_cons, decide_False; [by apply IH|]. apply HG in E. congruence.
  - by rewrite H0, E.
  - by apply IH.
Qed.

Lemma filter_columns k ks n : NoDup ks -> k ∈ ks ->
  base.filter (fun x => key x = k) (columns n (map group ks)) = take n (group k).
Proof using All.
  intros Hd Hk. induction n as [|n IH]; [done|].
  rewrite columns_S, filter_app, IH, filter_column by done.
  destruct (group k !! n) as [x|] eqn:E; simpl.
  - by rewrite (take_S_r _ _ _ E).
  - apply lookup_ge_None in E. rewrite app_nil_r, !take_ge by lia. done.
Qed.

Lemma filter_interleave k ks : NoDup ks -> k ∈ ks ->
  base.filter (fun x => key x = k) (interleave (map group ks)) = group k.
Proof using All.
  intros Hd Hk. rewrite interleave_columns, filter_columns by done.
  apply take_ge, longest_bound. apply list_elem_of_fmap. eauto.
Qed.

Lemma tally_column k ks n : NoDup ks -> k ∈ ks ->
  tally k (omap (.!! n) (map group ks)) = (if (n <? length (group k))%nat then 1%nat else 0%nat).
Proof using All.
  intros Hd Hk. unfold tally. rewrite filter_column by done.
  destruct (Nat.ltb_spec n (length (group k))) as [H|H].
  - by apply lookup_lt_is_Some_2 in H as [x ->].
  - by apply lookup_ge_None_2 in H as ->.
Qed.

Lemma tally_columns k ks n : NoDup ks -> k ∈ ks ->
  tally k (columns n (map group ks)) = Nat.min n (length (group k)).
Proof using All. intros Hd Hk. unfold tally. by rewrite filter_columns, length_take. Qed.

(** A prefix is some whole columns and a part of the next. *)
Lemma columns_prefix gs n k : exists m part rest,
  take k (columns n gs) = columns m gs ++ part /\ omap (.!! m) gs = part ++ rest.
Proof.
  revert k. induction n as [|n IH]; intros k.
  - exists 0%nat, [], (omap (.!! 0%nat) gs). unfold columns. simpl. by rewrite take_nil.
  - rewrite columns_S. destruct (decide (k <= length (columns n gs))%nat) as [Hk|Hk].
    + rewrite take_app_le by done. apply IH.
    + exists n, (take (k - length (columns n gs)) (omap (.!! n) gs)),
        (drop (k - length (columns n gs)) (omap (.!! n) gs)).
      by rewrite take_app_ge, take_drop by lia.
Qed.

(** In every prefix no key is two ahead of another whose group is not exhausted. *)
Lemma interleave_fair ks k k' i : NoDup ks -> k ∈ ks -> k' ∈ ks ->
  let o := interleave (map group ks) in
  (tally k (take i o) <= S (tally k' (take i o)))%nat \/ tally k' (take i o) = length (group k').
Proof using All.
  intros Hd H1 H2. cbv zeta. rewrite interleave_columns.
  edestruct (columns_prefix (map group ks)) as (m & part & rest & -> & E).
  rewrite !tally_app, !tally_columns by done.
  pose proof (tally_column k ks m Hd H1) as T1. pose proof (tally_column k' ks m Hd H2) as T2.
  rewrite E in T1, T2. rewrite tally_app in T1, T2.
  destruct (Nat.ltb_spec m (length (group k))), (Nat.ltb_spec m (length (group k'))); lia.
Qed.
End Interleave.

(** ** The order of the cases *)

Lemma filter_full {A} (P : A -> Prop) `{forall x, Decision (P x)} l :
  length (base.filter P l) = length l -> Forall P l.
Proof.
  induction l as [|x l IH]; [constructor|]. rewrite filter_cons. case_decide; simpl; intros E.
  - constructor; [done|]. apply IH. lia.
  - pose proof (length_filter P l). lia.
Qed.

Lemma filter_all {A} (P : A -> Prop) `{forall x, Decision (P x)} l : Forall P l -> base.filter P l = l.
Proof. induction 1 as [|x l Hx _ IH]; [done|]. by rewrite filter_cons, decide_True, IH. Qed.

Lemma stratum_group_elem cases s c : c ∈ stratum_group cases s <-> stratum c = s /\ c ∈ cases.
Proof. unfold stratum_group. rewrite py_sorted_perm. by rewrite list_elem_of_filter. Qed.

Lemma stratum_group_length cases s :
  length (stratum_group cases s) = length (base.filter (fun c => stratum c = s) cases).
Proof. unfold stratum_group. by rewrite py_sorted_perm. Qed.

Lemma groups_perm cases ss : NoDup ss ->
  concat (map (stratum_group cases) ss) ≡ₚ base.filter (fun c => stratum c ∈ ss) cases.
Proof.
  induction ss as [|s ss IH]; simpl.
  - intros _. induction cases as [|c cases IH]; [done|]. by rewrite filter_cons, decide_False by set_solver.
  - intros [Hn Hd]%NoDup_cons. rewrite IH by done. unfold stratum_group. rewrite py_sorted_perm.
    clear IH. induction cases as [|c cases IH]; [done|]. rewrite !filter_cons.
    destruct (decide (stratum c = s)) as [<-|Hs].
    + rewrite (decide_True _ _ (P := stratum c ∈ stratum c :: ss)) by set_solver.
      rewrite decide_False by done. simpl. by rewrite IH.
    + destruct (decide (stratum c ∈ ss)).
      * rewrite decide_True by set_solver. rewrite <- IH. by rewrite Permutation_middle.
      * by rewrite decide_False by set_solver.
Qed.

Lemma STRATA_NoDup : NoDup STRATA.
Proof. apply (bool_decide_unpack _). vm_compute. exact I. Qed.

Lemma ordered_cases_ok_inv cases o : ordered_cases cases = Ok o ->
  o = interleave (map (stratum_group cases) STRATA) /\ o ≡ₚ cases /\
  Forall (fun c => stratum c ∈ STRATA) cases.
Proof.
  unfold ordered_cases. intros H. minv. apply negb_false_iff, Nat.eqb_eq in E. split; [done|].
  pose proof (groups_perm cases STRATA STRATA_NoDup) as HP. rewrite HP in E.
  apply filter_full in E. split; [|done]. rewrite interleave_perm, HP. by rewrite filter_all.
Qed.

Lemma ordered_cases_ok cases : Forall (fun c => stratum c ∈ STRATA) cases ->
  exists o, ordered_cases cases = Ok o.
Proof.
  intros H. unfold ordered_cases. cbv zeta.
  assert (length (concat (map (stratum_group cases) STRATA)) = length cases) as ->
    by (rewrite (groups_perm _ _ STRATA_NoDup); by rewrite filter_all).
  rewrite Nat.eqb_refl. simpl. eauto.
Qed.

(** The order of a campaign's cases is a rearrangement of them in which the cases of each
    mode and locale come in the order of their ids, and it is fair: in every prefix no stratum is
    more than one case ahead of another that still has cases to come. *)
Theorem ordered_cases_fair cases o : ordered_cases cases = Ok o ->
  o ≡ₚ cases /\
  (forall s, s ∈ STRATA -> base.filter (fun c => stratum c = s) o = stratum_group cases s) /\
  (forall s s' i, s ∈ STRATA -> s' ∈ STRATA ->
     (tally stratum s (take i o) <= S (tally stratum s' (take i o)))%nat \/
     tally stratum s' (take i o) = tally stratum s' o).
Proof.
  intros (-> & HP & _)%ordered_cases_ok_inv.
  assert (forall s c, c ∈ stratum_group cases s -> stratum c = s) as HK
    by (intros s c H%stratum_group_elem; apply H).
  assert (forall s, s ∈ STRATA -> base.filter (fun c => stratum c = s)
    (interleave (map (stratum_group cases) STRATA)) = stratum_group cases s) as HF
    by (intros s; by apply filter_interleave, STRATA_NoDup).
  split; [done|]. split; [done|]. intros s s' i H1 H2.
  destruct (interleave_fair stratum _ HK STRATA s s' i STRATA_NoDup H1 H2) as [H|H]; [by left|right].
  rewrite H. unfold tally. by rewrite HF.
Qed.

(** ** What a validated distribution gives *)

Lemma count_filter p cases :
  count p cases = Z.of_nat (length (base.filter (fun c => p c = true) cases)).
Proof.
  unfold count. induction cases as [|c cases IH]; [done|]. simpl. rewrite IH, filter_cons.
  destruct (p c) eqn:E; [rewrite decide_True by done|rewrite decide_False by congruence]; simpl; lia.
Qed.

Lemma check_strata_ok_inv cases ss x : check_strata cases ss = Ok x ->
  forall s, s ∈ ss -> 5 <= count (fun c => in_stratum s c && answerable c) cases.
Proof.
  induction ss as [|s' ss IH]; intros H s Hs; [set_solver|]. simpl in H. minv. bools.
  apply elem_of_cons in Hs as [->|Hs]; [done|auto].
Qed.

Record distributed (cases : list ShadowCase) : Prop := {
  db_length : length cases = 40%nat;
  db_ids : NoDup (map sc_id cases);
  db_strata : Forall (fun c => stratum c ∈ STRATA) cases;
  db_answerable s : s ∈ STRATA -> 5 <= count (fun c => in_stratum s c && answerable c) cases;
  db_smoke : length (base.filter (fun c => sc_smoke c = true) cases) = 6%nat
}.

Lemma validate_distribution_ok_inv cases now window x :
  validate_distribution cases now window = Ok x -> distributed cases.
Proof.
  unfold validate_distribution. intros H. minv.
  repeat match goal with H : negb (Nat.eqb _ _) = false |- _ =>
    apply negb_false_iff, Nat.eqb_eq in H end.
  match goal with H : negb (forallb _ STRATA && _) = false |- _ =>
    apply negb_false_iff, andb_prop in H as [_ HS] end.
  constructor; try done.
  - apply dedupe_length_NoDup. by rewrite length_map.
  - apply Forall_forall. intros c Hc. eapply forallb_forall in HS; [|by apply list_elem_of_In].
    by apply bool_decide_eq_true_1 in HS.
  - intros s. by eapply check_strata_ok_inv.
Qed.

(** ** Choosing the review units *)

Lemma case_of_id cases c c' : distributed cases -> c ∈ cases -> c' ∈ cases -> sc_id c = sc_id c' -> c = c'.
Proof.
  intros K Hc Hc' E. pose proof (db_ids _ K) as Hd. clear K. induction cases as [|x cases IH]; [set_solver|].
  simpl in Hd. apply NoDup_cons in Hd as [Hn Hd].
  apply elem_of_cons in Hc as [->|Hc]; apply elem_of_cons in Hc' as [->|Hc']; auto.
  - exfalso. apply Hn. rewrite E. by apply list_elem_of_fmap_2.
  - exfalso. apply Hn. rewrite <- E. by apply list_elem_of_fmap_2.
Qed.

Lemma filter_neq_length {A} `{EqDecision A} (x : A) l : NoDup l ->
  (length l <= S (length (base.filter (fun y => y <> x) l)))%nat.
Proof.
  induction 1 as [|y l Hy Hd IH]; [simpl; lia|]. rewrite filter_cons. case_decide as E; simpl; [lia|].
  destruct (decide (y = x)) as [->|]; [|done]. rewrite filter_all; [done|].
  apply Forall_forall. intros z Hz ->. done.
Qed.

Lemma choose_units_length n chosen l ids : NoDup ids -> (n <= length ids)%nat ->
  (forall i, i ∈ ids -> (i ∉ chosen) /\ i ∈ map ru_case_id l) ->
  length (choose_units n chosen l) = n.
Proof.
  revert n chosen ids. induction l as [|x l IH]; intros n chosen ids Hd Hn Hi.
  - destruct ids as [|i ids]; [simpl in Hn; destruct n; [done|lia]|].
    destruct (Hi i ltac:(set_solver)) as [_ H]. set_solver.
  - destruct n as [|n]; [done|]. cbn [choose_units]. case_decide as Hx.
    + apply IH with ids; [done..|]. intros i H. destruct (Hi i H) as [H1 H2]. split; [done|].
      simpl in H2. apply elem_of_cons in H2 as [->|H2]; done.
    + simpl. f_equal. apply IH with (base.filter (fun y => y <> ru_case_id x) ids).
      * by apply NoDup_filter.
      * pose proof (filter_neq_length (ru_case_id x) ids Hd). lia.
      * intros i [H1 H2]%list_elem_of_filter. destruct (Hi i H2) as [H3 H4].
        rewrite not_elem_of_cons. simpl in H4. apply elem_of_cons in H4 as [->|H4]; done.
Qed.

Lemma choose_units_ids n chosen l :
  NoDup (map ru_case_id (choose_units n chosen l)) /\
  (forall x, x ∈ choose_units n chosen l -> x ∈ l /\ ru_case_id x ∉ chosen).
Proof.
  revert n chosen. induction l as [|x l IH]; intros n chosen.
  - destruct n; simpl; split; try constructor; set_solver.
  - destruct n as [|n]; [simpl; split; [constructor|set_solver]|]. cbn [choose_units]. case_decide as Hx.
    + destruct (IH (S n) chosen) as [H1 H2]. split; [done|]. intros y Hy. apply H2 in Hy. set_solver.
    + destruct (IH n (ru_case_id x :: chosen)) as [H1 H2]. simpl. split.
      * constructor; [|done]. intros (y & E & Hy)%list_elem_of_fmap. apply H2 in Hy as [_ Hy].
        rewrite <- E in Hy. set_solver.
      * intros y [->|Hy]%elem_of_cons; [set_solver|]. apply H2 in Hy. set_solver.
Qed.

Section Digests.
Context (sort_digest : UUID -> pystr -> Z -> pystr) (campaign_id : UUID).

Lemma elem_of_range i n : i ∈ range 1 n <-> 1 <= i <= n.
Proof. unfold range. rewrite elem_of_seqZ. lia. Qed.

Lemma candidates_elem cases reps s x :
  x ∈ review_candidates sort_digest campaign_id cases reps s <->
  exists c i, c ∈ cases /\ stratum c = s /\ sc_answerability c = Answerability_ANSWERABLE /\
    1 <= i <= reps /\
    x = {| ru_case_id := sc_id c; ru_repetition := i; ru_expected_mode := s.1; ru_locale := s.2;
           ru_sort_digest := sort_digest campaign_id (sc_id c) i |}.
Proof.
  unfold review_candidates. rewrite list_elem_of_In, in_flat_map. split.
  - intros (c & Hc & Hx). apply list_elem_of_In, list_elem_of_filter in Hc as [[H1 H2] Hc].
    apply in_map_iff in Hx as (i & <- & Hi). apply list_elem_of_In, elem_of_range in Hi. by exists c, i.
  - intros (c & i & Hc & H1 & H2 & Hi & ->). exists c. split.
    + by apply list_elem_of_In, list_elem_of_filter.
    + apply in_map_iff. exists i. split; [done|]. by apply list_elem_of_In, elem_of_range.
Qed.
(** The pairs [(case_id, repetition)] of units. *)
Definition review_key (x : ReviewUnit) : pystr * Z := (ru_case_id x, ru_repetition x).

Definition stratum_ids (cases : list ShadowCase) (s : SearchMode * pystr) : list pystr :=
  map sc_id (base.filter (fun c => (in_stratum s c && answerable c) = true) cases).

Lemma stratum_ids_candidates cases reps s i : 1 <= reps -> i ∈ stratum_ids cases s ->
  i ∈ map ru_case_id (review_candidates sort_digest campaign_id cases reps s).
Proof.
  intros Hr (c & -> & Hc)%list_elem_of_fmap. apply list_elem_of_filter in Hc as [H Hc].
  unfold in_stratum, answerable in H. bools.
  apply list_elem_of_fmap. eexists. split; [|apply candidates_elem; exists c, 1; ksplit; lia]. done.
Qed.

(** Ids are unique, so the units of different strata differ. *)
Lemma select_strata_ok cases reps n ss : distributed cases -> 1 <= reps -> 1 <= n <= 5 ->
  NoDup ss -> (forall s, s ∈ ss -> s ∈ STRATA) ->
  exists l, select_strata sort_digest campaign_id cases reps n ss = Ok l /\
    Z.of_nat (length l) = n * Z.of_nat (length ss) /\ NoDup (map ru_case_id l) /\
    (forall x, x ∈ l -> exists s c, s ∈ ss /\ c ∈ cases /\ stratum c = s /\ ru_case_id x = sc_id c /\
       1 <= ru_repetition x <= reps).
Proof.
  intros K Hr Hn. induction ss as [|s ss IH]; intros Hd Hs.
  - exists []. split; [done|]. split; [simpl; lia|]. split; [constructor|set_solver].
  - apply NoDup_cons in Hd as [Hns Hd]. cbn [select_strata].
    set (l0 := py_sorted review_ltb _). set (chosen := choose_units _ _ l0).
    assert (length chosen = Z.to_nat n) as HL.
    { apply choose_units_length with (stratum_ids cases s).
      - unfold stratum_ids. eapply sublist_NoDup; [apply (db_ids _ K)|].
        apply fmap_sublist, sublist_filter.
      - unfold stratum_ids. rewrite length_map. pose proof (db_answerable _ K s (Hs s ltac:(set_solver))) as H5.
        rewrite count_filter in H5. lia.
      - intros i Hi. split; [set_solver|]. unfold l0. rewrite py_sorted_perm.
        by apply stratum_ids_candidates. }
    rewrite HL, Z2Nat.id, Z.eqb_refl by lia.
    destruct IH as (l & -> & L1 & L2 & L3); [done|set_solver|]. exists (chosen ++ l). simpl.
    destruct (choose_units_ids (Z.to_nat n) [] l0) as [C1 C2]. fold chosen in C1, C2.
    assert (forall x, x ∈ chosen -> exists c, c ∈ cases /\ stratum c = s /\ ru_case_id x = sc_id c /\
      1 <= ru_repetition x <= reps) as C3.
    { intros x [Hx _]%C2. unfold l0 in Hx. rewrite py_sorted_perm in Hx.
      apply candidates_elem in Hx as (c & i & ? & ? & _ & ? & ->). by exists c. }
    split; [done|]. split; [rewrite length_app; lia|]. split.
    + rewrite map_app. apply NoDup_app. ksplit.
      intros i (x & -> & Hx)%list_elem_of_fmap (y & E & Hy)%list_elem_of_fmap.
      apply C3 in Hx as (c & Hc & <- & Ex & _). apply L3 in Hy as (s' & c' & Hs' & Hc' & <- & Ey & _).
      apply Hns. rewrite Ex, Ey in E. by rewrite (case_of_id _ c c' K Hc Hc' E).
    + intros x [Hx|Hx]%elem_of_app.
      * apply C3 in Hx as (c & Hc & ? & ? & ?). exists s, c. ksplit; set_solver.
      * apply L3 in Hx as (s' & c & ? & ?). exists s', c. split; [set_solver|done].
Qed.

Context (content_sha256 : pystr -> pystr) (uuid5 : UUID -> pystr -> UUID).

(** ** The units of the plan *)

Lemma run_plans_ok reviews done units :
  (forall x, x ∈ units -> blank (sc_prompt x.2) = false) ->
  exists plans, run_plans content_sha256 uuid5 campaign_id reviews done units = Ok plans /\
    map rp_schedule_ordinal plans = seqZ (Z.of_nat done + 1) (Z.of_nat (length units)) /\
    map (fun p => (rp_case_id p, rp_repetition p)) plans = map (fun x => (sc_id x.2, x.1)) units /\
    Forall (fun p => rp_manual_review_selected p = bool_decide ((rp_case_id p, rp_repetition p) ∈ reviews)) plans.
Proof.
  revert done. induction units as [|[i c] units IH]; intros done Hb; [by exists []|].
  destruct (IH (S done)) as (plans & E & H1 & H2 & H3);
    [intros x Hx; apply Hb; by constructor|].
  pose proof (Hb (i, c) ltac:(constructor)) as Hp. unfold blank in Hp. simpl in Hp.
  cbn [run_plans run_plan]. unfold normalized_content_sha256. rewrite Hp. simpl. rewrite E. simpl.
  eexists. split; [reflexivity|]. simpl. rewrite H1, H2. split; [|split; [done|by constructor]].
  rewrite (seqZ_cons (Z.of_nat done + 1)) by lia. f_equal. f_equal; lia.
Qed.

Lemma plan_units_elem reps cases i c :
  (i, c) ∈ plan_units reps cases <-> 1 <= i <= reps /\ c ∈ cases.
Proof.
  unfold plan_units. rewrite list_elem_of_In, in_flat_map. split.
  - intros (j & Hj & (c' & [= <- <-] & Hc)%in_map_iff). apply list_elem_of_In, elem_of_range in Hj.
    by apply list_elem_of_In in Hc.
  - intros [Hi Hc]. exists i. split; [by apply list_elem_of_In, elem_of_range|].
    apply in_map_iff. exists c. split; [done|]. by apply list_elem_of_In.
Qed.

Lemma plan_units_length reps cases : 0 <= reps ->
  Z.of_nat (length (plan_units reps cases)) = reps * Z.of_nat (length cases).
Proof.
  intros H. unfold plan_units, range. replace (reps - 1 + 1) with reps by lia.
  rewrite <- (Z2Nat.id reps) at 2 by done. rewrite <- (length_seqZ 1 reps).
  induction (seqZ 1 reps) as [|i l IH]; [done|]. simpl flat_map. rewrite length_app, length_map.
  cbn [length]. lia.
Qed.

Lemma plan_units_NoDup reps cases : NoDup (map sc_id cases) ->
  NoDup (map (fun x => (sc_id x.2, x.1)) (plan_units reps cases)).
Proof.
  intros Hd. unfold plan_units, range. pose proof (NoDup_seqZ 1 (reps - 1 + 1)) as HR.
  induction (seqZ 1 (reps - 1 + 1)) as [|i l IH]; [constructor|]. apply NoDup_cons in HR as [Hn HR].
  cbn [flat_map]. rewrite map_app, map_map. simpl. apply NoDup_app. ksplit; [| |by apply IH].
  - clear -Hd. induction cases as [|c cases IH]; [constructor|]. simpl in *.
    apply NoDup_cons in Hd as [Hn Hd]. constructor; [|auto].
    intros (c' & E & Hc)%list_elem_of_fmap. apply Hn. apply list_elem_of_fmap. exists c'. split; congruence.
  - intros x (c & -> & Hc)%list_elem_of_fmap Hx. apply list_elem_of_fmap in Hx as ([j c'] & E & Hj).
    apply Hn. rewrite list_elem_of_In, in_flat_map in Hj. destruct Hj as (j' & Hj' & Hx).
    apply in_map_iff in Hx as (c2 & E2 & _). simplify_eq/=. by apply list_elem_of_In.
Qed.

Definition plan_key (p : RunPlan) : pystr * Z := (rp_case_id p, rp_repetition p).

Lemma selected_count plans reviews : NoDup (map plan_key plans) -> NoDup reviews ->
  (forall x, x ∈ reviews -> x ∈ map plan_key plans) ->
  Forall (fun p => rp_manual_review_selected p = bool_decide (plan_key p ∈ reviews)) plans ->
  length (base.filter (fun p => rp_manual_review_selected p = true) plans) = length reviews.
Proof.
  intros HP HR Hin HF. rewrite Forall_forall in HF.
  rewrite <- (length_map plan_key). apply Permutation_length, NoDup_Permutation; [|done|].
  - eapply sublist_NoDup; [exact HP|]. apply fmap_sublist, sublist_filter.
  - intros x. split.
    + intros (p & -> & [Hs Hp]%list_elem_of_filter)%list_elem_of_fmap. rewrite HF in Hs by done.
      by apply bool_decide_eq_true_1 in Hs.
    + intros Hx. apply Hin in Hx as Hk. apply list_elem_of_fmap in Hk as (p & -> & Hp).
      apply list_elem_of_fmap_2, list_elem_of_filter. split; [|done]. rewrite HF by done.
      by apply bool_decide_eq_true_2.
Qed.

Definition selected_cases (m : ShadowManifest) (profile : CampaignProfile) : list ShadowCase :=
  if pf_smoke_only profile then smoke_cases m else mf_cases m.

Lemma selected_distributed m profile : distributed (mf_cases m) ->
  Z.of_nat (length (selected_cases m profile)) = (if pf_smoke_only profile then 6 else 40) /\
  NoDup (map sc_id (selected_cases m profile)) /\
  Forall (fun c => stratum c ∈ STRATA) (selected_cases m profile) /\
  (forall c, c ∈ selected_cases m profile -> c ∈ mf_cases m).
Proof.
  intros K. unfold selected_cases, smoke_cases. destruct (pf_smoke_only profile).
  - rewrite (db_smoke _ K). ksplit.
    + eapply sublist_NoDup; [apply (db_ids _ K)|]. apply fmap_sublist, sublist_filter.
    + apply Forall_forall. intros c [_ Hc]%list_elem_of_filter.
      pose proof (db_strata _ K) as H. rewrite Forall_forall in H. auto.
    + by intros c [_ Hc]%list_elem_of_filter.
  - rewrite (db_length _ K). ksplit; apply K.
Qed.

#[local] Arguments select_strata : simpl never.

(** The review units of a validated manifest: as many as required, all different, all of its cases. *)
Lemma reviews_ok m reps required : distributed (mf_cases m) -> 1 <= reps ->
  0 <= required <= 20 -> required mod 4 = 0 ->
  exists l, (if required =? 0 then Ok [] else select_review_units sort_digest campaign_id m reps (required / 4))
              = Ok l /\ Z.of_nat (length l) = required /\ NoDup (map review_key l) /\
    (forall x, x ∈ l -> exists c, c ∈ mf_cases m /\ ru_case_id x = sc_id c /\ 1 <= ru_repetition x <= reps).
Proof.
  intros K Hr Hq Hm. destruct (required =? 0) eqn:E; bools.
  - exists []. split; [done|]. split; [done|]. split; [constructor|set_solver].
  - unfold select_review_units. pose proof (Z.div_mod required 4 ltac:(done)) as HD. rewrite Hm in HD.
    assert (1 <= required / 4 <= 5) as HQ by lia.
    replace ((reps <? 1) || (required / 4 <? 1)) with false by lia. simpl.
    destruct (select_strata_ok (mf_cases m) reps (required / 4) REVIEW_STRATA) as (l & -> & L1 & L2 & L3);
      try done.
    { apply (bool_decide_unpack _). vm_compute. exact I. }
    { intros s Hs. apply (proj1 (Forall_forall (fun s => s ∈ STRATA) REVIEW_STRATA)); [|done].
      apply (bool_decide_unpack _). vm_compute. exact I. }
    exists l. split; [done|]. split; [simpl in L1; lia|]. split.
    + eapply (NoDup_fmap_1 fst). by rewrite <- list_fmap_compose.
    + intros x Hx. apply L3 in Hx as (s & c & _ & ? & _ & ? & ?). by exists c.
Qed.

End Digests.

(** Claim C34. A manifest that passed validation always yields its run plan, for the smoke profile and
    for the full one: the plan has [max_runs] units, numbered from one in schedule order; it has
    every selected case exactly once per repetition and nothing else; and in a full campaign exactly
    the required number of units is selected for manual review. *)
Theorem validated_manifest_plans (sort_digest : UUID -> pystr -> Z -> pystr)
    (content_sha256 : pystr -> pystr) (uuid5 : UUID -> pystr -> UUID)
    campaign_id m now window profile required :
  validate_distribution (mf_cases m) now window = Ok tt ->
  Forall (fun c => ShadowCase_new c = Ok c) (mf_cases m) ->
  1 <= pf_repetitions profile ->
  pf_max_runs profile = (if pf_smoke_only profile then 6 else 40) * pf_repetitions profile ->
  0 <= required <= 20 -> required mod 4 = 0 ->
  exists plans,
    materialize_run_plans sort_digest content_sha256 uuid5 campaign_id m profile required = Ok plans /\
    Z.of_nat (length plans) = pf_max_runs profile /\
    map rp_schedule_ordinal plans = seqZ 1 (pf_max_runs profile) /\
    NoDup (map plan_key plans) /\
    (forall i n, (i, n) ∈ map plan_key plans <->
       i ∈ map sc_id (selected_cases m profile) /\ 1 <= n <= pf_repetitions profile) /\
    (pf_smoke_only profile = false ->
       Z.of_nat (length (base.filter (fun p => rp_manual_review_selected p = true) plans)) = required).
Proof.
  intros K%validate_distribution_ok_inv HC Hr Hmax Hq Hm.
  destruct (selected_distributed m profile K) as (SL & SD & SF & SI).
  destruct (ordered_cases_ok _ SF) as [o Eo]. apply ordered_cases_ok_inv in Eo as HO.
  destruct HO as (_ & HP & _).
  destruct (reviews_ok sort_digest campaign_id m _ required K Hr Hq Hm) as (l & El & L1 & L2 & L3).
  set (reviews := map (fun r => (ru_case_id r, ru_repetition r)) l).
  assert (Z.of_nat (length o) * pf_repetitions profile = pf_max_runs profile) as HN.
  { rewrite HP, SL, Hmax. destruct (pf_smoke_only profile); lia. }
  destruct (run_plans_ok campaign_id content_sha256 uuid5 reviews 0 (plan_units (pf_repetitions profile) o))
    as (plans & EP & P1 & P2 & P3).
  { intros [i c] [_ Hc]%plan_units_elem. rewrite HP in Hc. apply SI in Hc.
    rewrite Forall_forall in HC. pose proof (HC c Hc) as Hn. unfold ShadowCase_new in Hn. minv.
    simpl. match goal with B : blank (sc_prompt c) || _ = false |- _ => by apply orb_false_elim in B as [] end. }
  exists plans. change (map (fun p => _) plans) with (map plan_key plans) in P2.
  assert (length plans = length (plan_units (pf_repetitions profile) o)) as PL
    by (by rewrite <- (length_map plan_key), P2, length_map).
  assert (NoDup (map plan_key plans)) as PD.
  { rewrite P2. apply plan_units_NoDup. by rewrite HP. }
  assert (forall i n, (i, n) ∈ map plan_key plans <->
    i ∈ map sc_id (selected_cases m profile) /\ 1 <= n <= pf_repetitions profile) as PI.
  { intros i n. rewrite P2. rewrite !list_elem_of_fmap. split.
    - intros ([n' c] & [= -> ->] & [Hn Hc]%plan_units_elem). split; [|done].
      exists c. by rewrite <- HP.
    - intros [(c & -> & Hc) Hn]. exists (n, c). split; [done|]. apply plan_units_elem. by rewrite HP. }
  split; [|ksplit].
  - unfold materialize_run_plans. fold (selected_cases m profile). rewrite Eo. cbn [mbind res_bind].
    rewrite HN, Z.eqb_refl, Hm. replace (required <? 0) with false by lia. simpl. by rewrite El.
  - rewrite PL, plan_units_length by lia. lia.
  - rewrite P1. f_equal. rewrite plan_units_length by lia. lia.
  - intros Hf. rewrite (selected_count plans reviews); [by unfold reviews; rewrite length_map|done..| |done].
    intros [i n] (x & [= -> ->] & Hx)%list_elem_of_fmap. apply PI. apply L3 in Hx as (c & Hc & -> & Hn).
    split; [|done]. unfold selected_cases. rewrite Hf. by apply list_elem_of_fmap_2.
Qed.

(** ** A manifest *)

Lemma cases_valid cases : forallb (fun c => is_ok (ShadowCase_new c)) cases = true ->
  Forall (fun c => ShadowCase_new c = Ok c) cases.
Proof.
  intros H. apply Forall_forall. intros c Hc%list_elem_of_In.
  eapply forallb_forall in H; [|exact Hc]. destruct (ShadowCase_new c) as [c'|] eqn:E; [|done].
  unfold ShadowCase_new in E. by minv.
Qed.

Definition ex_case (n : nat) (mode : SearchMode) (locale : pystr) (smoke ok det apex : bool) : ShadowCase :=
  {| sc_id := u "case-" ++ str_of_Z (Z.of_nat n); sc_prompt := u "Who leads the table?";
     sc_locale := locale; sc_expected_mode := mode;
     sc_category := if apex then CaseCategory_POLLUTION_REGRESSION else CaseCategory_BACKGROUND;
     sc_answerability := if ok then Answerability_ANSWERABLE else Answerability_INTENTIONALLY_UNANSWERABLE;
     sc_minimum_required_facts := 1; sc_assertion_ids := if det then [u "a1"] else [];
     sc_oracle_type := if det then OracleType_DETERMINISTIC
                       else if ok then OracleType_MANUAL_REQUIRED else OracleType_NOT_APPLICABLE;
     sc_valid_from := if det then Some (utc 0) else None;
     sc_valid_until := if det then Some (utc 100000000000) else None;
     sc_required_source_classes := []; sc_forbidden_query_terms := [];
     sc_must_not_complete := negb ok; sc_tags := []; sc_smoke := smoke |}.

(** Ten cases of a stratum: two cannot be answered, four have an oracle. *)
Definition ex_stratum (base : nat) (s : SearchMode * pystr) (smoke : nat) : list ShadowCase :=
  map (fun i => ex_case (base + i) s.1 s.2 (i <? smoke)%nat (2 <=? i)%nat
                  (6 <=? i)%nat (i <? 2)%nat) (seq 0 10).

Definition ex_manifest : ShadowManifest :=
  {| mf_version := u "v1";
     mf_cases := ex_stratum 10 (SearchMode_RESEARCH, locale_en) 3
                 ++ ex_stratum 20 (SearchMode_FAST, locale_zh) 3
                 ++ ex_stratum 30 (SearchMode_RESEARCH, locale_zh) 0
                 ++ ex_stratum 40 (SearchMode_FAST, locale_en) 0;
     mf_sha256 := [] |}.

Lemma ordered_cases_fair_witness :
  exists o, ordered_cases (mf_cases ex_manifest) = Ok o /\
    map sc_id (take 5 o) = map u ["case-20"; "case-30"; "case-40"; "case-10"; "case-21"]%string /\
    o ≡ₚ mf_cases ex_manifest.
Proof.
  destruct (ordered_cases (mf_cases ex_manifest)) as [o|e] eqn:E; [|revert E; vm_compute; discriminate].
  exists o. split; [reflexivity|]. split; [|exact (proj1 (ordered_cases_fair _ _ E))].
  revert E. vm_compute. intros [= <-]. reflexivity.
Defined.

Lemma validated_manifest_plans_witness :
  exists plans, materialize_run_plans (fun _ i n => i ++ str_of_Z n) (fun s => s) (fun x _ => x) 7
      ex_manifest SHADOW_FULL_V1 (gp_required_reviews SHADOW_FULL_GATE_V2) = Ok plans /\
    Z.of_nat (length plans) = 120.
Proof.
  destruct (validated_manifest_plans (fun _ i n => i ++ str_of_Z n) (fun s => s) (fun x _ => x) 7
    ex_manifest (utc 1000) 21600000000 SHADOW_FULL_V1 20) as (plans & H1 & H2 & _).
  - vm_compute. reflexivity.
  - apply cases_valid. vm_compute. reflexivity.
  - discriminate.
  - reflexivity.
  - split; discriminate.
  - reflexivity.
  - exists plans. split; [exact H1|]. rewrite H2. reflexivity.
Defined.
