(* ===== verification/CampaignRows.v ===== *)
(** * CampaignRows: the rows and leases of a shadow campaign

    The columns of [shadow_campaigns] and [shadow_run_results] that execution writes, with the
    CHECK constraints and column ranges that guard every flush
    ([sana/platform/db/models/shadow_campaign.py]); the scheduling lease of
    [sana/modules/shadow_campaign/scheduler.py] and the collector lease of [collector.py] in the
    same package. Instants of these rows are [timestamptz], so always aware: they are microseconds
    here. *)

From Stdlib Require Import String.
From S2P Require Import Prelude Errors PyTime Transitions Campaign CampaignBudget.

(** ** Vocabularies *)

(** [@ src/sana/modules/shadow_campaign/domain.py ErrorClass] *)
Inductive ErrorClass :=
| ErrorClass_CANDIDATE_DEFECT | ErrorClass_PERMANENT_CONFIGURATION | ErrorClass_INFRASTRUCTURE
| ErrorClass_PROVIDER_TRANSIENT | ErrorClass_CONTENT_GAP.

#[export] Instance ErrorClass_eq_dec : EqDecision ErrorClass.
Proof. solve_decision. Defined.

Inductive GoldAssertionStatus := GoldAssertion_PASS | GoldAssertion_FAIL | GoldAssertion_NOT_APPLICABLE.

#[export] Instance GoldAssertionStatus_eq_dec : EqDecision GoldAssertionStatus.
Proof. solve_decision. Defined.

(** [@ src/sana/modules/shadow_campaign/collector.py GoldAssertionResult] *)
Record GoldAssertionResult := {
  ga_assertion_id : pystr;
  ga_critical : bool;
  ga_status : GoldAssertionStatus;
  ga_reason_code : pystr
}.

#[export] Instance GoldAssertionResult_eq_dec : EqDecision GoldAssertionResult.
Proof. solve_decision. Defined.

(** ** The campaign row *)

(** A value of the stored cost-rate snapshot: JSON null, or what [Decimal(str(value))] reads. *)
Inductive rate_value := RateNull | RateText (parsed : option Decimal).

Record CostRateSnapshot := {
  rate_prompt_per_million : option rate_value;
  rate_completion_per_million : option rate_value;
  rate_possibly_billed_run_reserve : option rate_value;
  rate_run_reservation : option rate_value
}.

Record CampaignLedger := {
  lg_observed_calls : Z;
  lg_possibly_calls : Z;
  lg_reserved_calls : Z;
  lg_prompt_tokens : Z;
  lg_completion_tokens : Z;
  lg_observed_cost : money;
  lg_possibly_cost : money;
  lg_reserved_cost : money
}.

Record CampaignCounts := {
  ct_submitted : Z;
  ct_collected : Z;
  ct_failed : Z;
  ct_skipped : Z;
  ct_degraded : Z;
  ct_possibly_billed : Z
}.

(** [@ src/sana/modules/shadow_campaign/service.py CampaignProvenance@60-72] *)
Record CampaignProvenance := {
  cv_candidate_commit_sha : pystr;
  cv_candidate_source_clean : bool;
  cv_candidate_image_id : pystr;
  cv_candidate_oci_revision : pystr;
  cv_alembic_head : pystr;
  cv_candidate_config_hash : pystr;
  cv_harness_commit_sha : pystr;
  cv_harness_source_clean : bool;
  cv_harness_fileset_hash : pystr;
  cv_collector_schema_version : pystr;
  cv_environment_identity_hash : pystr;
  cv_environment_snapshot : pystr
}.

#[export] Instance CampaignProvenance_eq_dec : EqDecision CampaignProvenance.
Proof. solve_decision. Defined.

(** What creation freezes. A JSON snapshot is its canonical text. *)
Record CampaignFrozen := {
  cz_creation_key : pystr;
  cz_creation_request_hash : pystr;
  cz_profile_version : pystr;
  cz_profile_hash : pystr;
  cz_profile_snapshot : pystr;
  cz_gate_policy_version : pystr;
  cz_gate_policy_hash : pystr;
  cz_gate_policy_snapshot : pystr;
  cz_manifest_version : pystr;
  cz_manifest_hash : pystr;
  cz_review_rubric_hash : pystr;
  cz_cost_rate_hash : pystr;
  cz_provenance : CampaignProvenance;
  cz_repetitions : Z;
  cz_parent_campaign_id : option UUID;
  cz_parent_decision_hash : option pystr;
  cz_decision_hash : option pystr
}.

(** [cr_life] holds the columns the lifecycle aggregate is built of, the version among them. *)
Record CampaignRow := {
  cr_life : CampaignLifecycle;
  cr_max_concurrency : Z;
  cr_admission_ceiling : Z;
  cr_structural_ceiling : Z;
  cr_cost_stop_threshold : money;
  cr_cost_rate : CostRateSnapshot;
  cr_schema_version : pystr;
  cr_frozen : CampaignFrozen;
  cr_ledger : CampaignLedger;
  cr_counts : CampaignCounts
}.

Definition cr_id (c : CampaignRow) : UUID := cl_id (cr_life c).
Definition cr_tenant_id (c : CampaignRow) : UUID := cl_tenant_id (cr_life c).
Definition cr_status (c : CampaignRow) : CampaignStatus := cl_status (cr_life c).

(** Assignments to the row: its ledger, its counters, its lifecycle columns; and [version += 1]. *)
Definition cr_set_ledger (l : CampaignLedger) (c : CampaignRow) : CampaignRow :=
  {| cr_life := cr_life c; cr_max_concurrency := cr_max_concurrency c;
     cr_admission_ceiling := cr_admission_ceiling c;
     cr_structural_ceiling := cr_structural_ceiling c;
     cr_cost_stop_threshold := cr_cost_stop_threshold c; cr_cost_rate := cr_cost_rate c;
     cr_schema_version := cr_schema_version c; cr_frozen := cr_frozen c; cr_ledger := l; cr_counts := cr_counts c |}.

Definition cr_set_counts (k : CampaignCounts) (c : CampaignRow) : CampaignRow :=
  {| cr_life := cr_life c; cr_max_concurrency := cr_max_concurrency c;
     cr_admission_ceiling := cr_admission_ceiling c;
     cr_structural_ceiling := cr_structural_ceiling c;
     cr_cost_stop_threshold := cr_cost_stop_threshold c; cr_cost_rate := cr_cost_rate c;
     cr_schema_version := cr_schema_version c; cr_frozen := cr_frozen c; cr_ledger := cr_ledger c; cr_counts := k |}.

Definition cr_set_life (l : CampaignLifecycle) (c : CampaignRow) : CampaignRow :=
  {| cr_life := l; cr_max_concurrency := cr_max_concurrency c;
     cr_admission_ceiling := cr_admission_ceiling c;
     cr_structural_ceiling := cr_structural_ceiling c;
     cr_cost_stop_threshold := cr_cost_stop_threshold c; cr_cost_rate := cr_cost_rate c;
     cr_schema_version := cr_schema_version c; cr_frozen := cr_frozen c; cr_ledger := cr_ledger c;
     cr_counts := cr_counts c |}.

Definition cr_bump (c : CampaignRow) : CampaignRow := cr_set_life (cl_bump (cr_life c)) c.

(** [status = STOPPING; stop_intent = intent; stop_reason = reason], written on the row itself. *)
Definition cr_stop (intent : StopIntent) (reason : pystr) (c : CampaignRow) : CampaignRow :=
  let l := cr_life c in
  cr_set_life (cl_set_stop intent (Some reason)
    {| cl_id := cl_id l; cl_tenant_id := cl_tenant_id l;
       cl_created_by_user_id := cl_created_by_user_id l; cl_max_runs := cl_max_runs l;
       cl_planned_count := cl_planned_count l; cl_status := CampaignStatus_STOPPING;
       cl_gate_status := cl_gate_status l; cl_stop_intent := cl_stop_intent l;
       cl_stop_reason := cl_stop_reason l; cl_started_at := cl_started_at l;
       cl_review_deadline_at := cl_review_deadline_at l; cl_completed_at := cl_completed_at l;
       cl_version := cl_version l; cl_persisted_version := cl_persisted_version l |}) c.

(** Column ranges: [Integer], [BigInteger] and [Numeric(20, 10)] in quanta. *)
Definition fits_int (z : Z) : bool := (- 2 ^ 31 <=? z) && (z <? 2 ^ 31).
Definition fits_bigint (z : Z) : bool := (- 2 ^ 63 <=? z) && (z <? 2 ^ 63).
Definition fits_money (q : money) : bool := (- 10 ^ 20 <? q) && (q <? 10 ^ 20).

(** [CheckConstraint]s [profile_limits] and [nonnegative_ledger], and the column ranges of what
    execution writes. *)
(** [@ src/sana/platform/db/models/shadow_campaign.py L77-99:ShadowCampaignRecord.__table_args__] *)
Definition campaign_checks (c : CampaignRow) : bool :=
  let l := cr_ledger c in
  let k := cr_counts c in
  let max := cl_max_runs (cr_life c) in
  let planned := cl_planned_count (cr_life c) in
  (0 <? max) && (1 <=? cr_max_concurrency c) && (cr_max_concurrency c <=? 2)
  && (0 <? cr_admission_ceiling c) && (cr_admission_ceiling c <=? cr_structural_ceiling c)
  && (0 <? cr_cost_stop_threshold c)
  && forallb (fun v => 0 <=? v)
       [planned; ct_submitted k; ct_collected k; ct_failed k; ct_skipped k; ct_degraded k;
        lg_observed_calls l; lg_possibly_calls l; lg_reserved_calls l; lg_prompt_tokens l;
        lg_completion_tokens l; lg_observed_cost l; lg_possibly_cost l; lg_reserved_cost l;
        ct_possibly_billed k]
  && forallb (fun v => v <=? max)
       [planned; ct_submitted k; ct_collected k; ct_failed k; ct_skipped k; ct_degraded k;
        ct_possibly_billed k]
  && (lg_reserved_calls l <=? cr_structural_ceiling c) && (0 <=? cl_version (cr_life c))
  && forallb fits_int
       [planned; max; lg_observed_calls l; lg_possibly_calls l; lg_reserved_calls l;
        cr_structural_ceiling c; cl_version (cr_life c)]
  && forallb fits_bigint [lg_prompt_tokens l; lg_completion_tokens l]
  && forallb fits_money
       [lg_observed_cost l; lg_possibly_cost l; lg_reserved_cost l; cr_cost_stop_threshold c].

(** ** The result row *)

(** What materialization fixes. *)
Record ResultKey := {
  rk_id : UUID;
  rk_tenant_id : UUID;
  rk_campaign_id : UUID;
  rk_case_id : pystr;
  rk_repetition : Z;
  rk_schedule_ordinal : Z;
  rk_conversation_key : pystr;
  rk_message_key : pystr;
  rk_request_hash : pystr
}.

(** The scheduling columns. *)
Record ResultSched := {
  rs_state : SchedulingState;
  rs_lease_owner : option pystr;
  rs_lease_expires_at : option Z;
  rs_conversation_attempts : Z;
  rs_submission_attempts : Z;
  rs_conversation_id : option UUID;
  rs_search_run_id : option UUID;
  rs_skip_reason : option pystr
}.

(** The budget columns. *)
Record ResultBudget := {
  rb_state : ReservationState;
  rb_reserved_calls : Z;
  rb_reserved_cost : money;
  rb_settled_calls : Z;
  rb_settled_cost : money;
  rb_possibly_calls : Z;
  rb_possibly_cost : money;
  rb_prompt_tokens : Z;
  rb_completion_tokens : Z;
  rb_reserved_at : option Z;
  rb_settled_at : option Z;
  rb_released_at : option Z;
  rb_violation : bool;
  rb_source_terminal_at : option Z;
  rb_source_digest : option pystr
}.

(** The measurements a collector copies from its outcome. *)
Record RunMetrics := {
  rm_actual_mode : option pystr;
  rm_run_status : option pystr;
  rm_answer_quality : option pystr;
  rm_run_stop_reason : option pystr;
  rm_latency_ms : option Z;
  rm_minimum_required_facts : Z;
  rm_fact_total : Z;
  rm_fact_covered : Z;
  rm_fact_gap : Z;
  rm_plan_completeness_failure : bool;
  rm_factual_claims : Z;
  rm_nonfactual_claims : Z;
  rm_cited_factual_claims : Z;
  rm_valid_citation_chains : Z;
  rm_traceability_violations : Z;
  rm_oracle_version : option pystr;
  rm_query_pollution : Z;
  rm_degraded : bool;
  rm_provider_successes : Z;
  rm_provider_failures : Z
}.

(** The collector's columns: its lease, what it measured, and how the run failed. *)
Record ResultCollected := {
  rc_lease_owner : option pystr;
  rc_lease_expires_at : option Z;
  rc_attempts : Z;
  rc_metrics : RunMetrics;
  rc_gold_total : Z;
  rc_gold_passed : Z;
  rc_gold_failed : Z;
  rc_gold_not_applicable : Z;
  rc_model_calls : Z;
  rc_error_class : option ErrorClass;
  rc_error_code : option pystr;
  rc_failed_phase : option pystr;
  rc_signal_flags : list pystr;
  rc_collected_at : option Z;
  rc_schema_version : option pystr
}.

Record ResultRow := {
  rr_key : ResultKey;
  rr_sched : ResultSched;
  rr_budget : ResultBudget;
  rr_collected : ResultCollected;
  rr_version : Z
}.

(** An assignment to a group of columns; [rr_bump] is [version += 1]. *)
Definition rr_set_sched (s : ResultSched) (r : ResultRow) : ResultRow :=
  {| rr_key := rr_key r; rr_sched := s; rr_budget := rr_budget r;
     rr_collected := rr_collected r; rr_version := rr_version r |}.
Definition rr_set_budget (b : ResultBudget) (r : ResultRow) : ResultRow :=
  {| rr_key := rr_key r; rr_sched := rr_sched r; rr_budget := b;
     rr_collected := rr_collected r; rr_version := rr_version r |}.
Definition rr_set_collected (k : ResultCollected) (r : ResultRow) : ResultRow :=
  {| rr_key := rr_key r; rr_sched := rr_sched r; rr_budget := rr_budget r;
     rr_collected := k; rr_version := rr_version r |}.
Definition rr_bump (r : ResultRow) : ResultRow :=
  {| rr_key := rr_key r; rr_sched := rr_sched r; rr_budget := rr_budget r;
     rr_collected := rr_collected r; rr_version := rr_version r + 1 |}.

Definition rr_id (r : ResultRow) : UUID := rk_id (rr_key r).
Definition rr_state (r : ResultRow) : SchedulingState := rs_state (rr_sched r).
Definition rr_reservation (r : ResultRow) : ReservationState := rb_state (rr_budget r).

(** [scheduling_state in {CLAIMED, CONVERSATION_BOUND}] *)
Definition leased_state (s : SchedulingState) : bool :=
  bool_decide (s ∈ [SchedulingState_CLAIMED; SchedulingState_CONVERSATION_BOUND]).

Definition no {A} (x : option A) : bool := is_none x.
Definition yes {A} (x : option A) : bool := negb (is_none x).

(** [CheckConstraint]s [state_bindings], [lease_binding], [collector_lease_binding] and
    [reservation_lifecycle], the signs of [nonnegative_metrics] and the ranges of the budget
    columns. *)
(** [@ src/sana/platform/db/models/shadow_campaign.py L270-325:ShadowRunResultRecord.__table_args__] *)
Definition result_checks (r : ResultRow) : bool :=
  let s := rr_sched r in
  let b := rr_budget r in
  let k := rr_collected r in
  (match rs_state s with
   | SchedulingState_PENDING => no (rs_conversation_id s) && no (rs_search_run_id s)
   | SchedulingState_CLAIMED => no (rs_search_run_id s)
   | SchedulingState_CONVERSATION_BOUND => yes (rs_conversation_id s) && no (rs_search_run_id s)
   | SchedulingState_SUBMITTED | SchedulingState_COLLECTED =>
       yes (rs_conversation_id s) && yes (rs_search_run_id s)
   | SchedulingState_FAILED => true
   | SchedulingState_SKIPPED => no (rs_search_run_id s)
   end)
  && (if leased_state (rs_state s)
      then yes (rs_lease_owner s) && yes (rs_lease_expires_at s)
      else no (rs_lease_owner s) && no (rs_lease_expires_at s))
  && ((no (rc_lease_owner k) && no (rc_lease_expires_at k))
      || ((rs_state s is SchedulingState_SUBMITTED)
          && yes (rc_lease_owner k) && yes (rc_lease_expires_at k)))
  && (match rb_state b with
      | ReservationState_NONE =>
          (rb_reserved_calls b =? 0) && (rb_reserved_cost b =? 0) && no (rb_reserved_at b)
          && no (rb_settled_at b) && no (rb_released_at b)
      | ReservationState_ACTIVE =>
          (0 <? rb_reserved_calls b) && yes (rb_reserved_at b) && no (rb_settled_at b)
          && no (rb_released_at b)
      | ReservationState_SETTLED =>
          yes (rb_reserved_at b) && yes (rb_settled_at b) && no (rb_released_at b)
          && yes (rb_source_terminal_at b) && yes (rb_source_digest b)
      | ReservationState_RELEASED =>
          yes (rb_reserved_at b) && no (rb_settled_at b) && yes (rb_released_at b)
      end)
  && forallb (fun v => 0 <=? v)
       [rs_conversation_attempts s; rs_submission_attempts s; rc_attempts k;
        rb_prompt_tokens b; rb_completion_tokens b; rb_reserved_calls b; rb_reserved_cost b;
        rb_settled_calls b; rb_settled_cost b; rb_possibly_calls b; rb_possibly_cost b;
        rc_model_calls k; rr_version r]
  && forallb fits_int
       [rb_reserved_calls b; rb_settled_calls b; rb_possibly_calls b; rc_model_calls k;
        rr_version r]
  && forallb fits_bigint [rb_prompt_tokens b; rb_completion_tokens b]
  && forallb fits_money [rb_reserved_cost b; rb_settled_cost b; rb_possibly_cost b].

#[global] Arguments campaign_checks : simpl never.
#[global] Arguments result_checks : simpl never.

(** ** The scheduling lease *)

Record RunLease := {
  rl_id : UUID;
  rl_tenant_id : UUID;
  rl_campaign_id : UUID;
  rl_case_id : pystr;
  rl_repetition : Z;
  rl_schedule_ordinal : Z;
  rl_state : SchedulingState;
  rl_lease_owner : pystr;
  rl_lease_expires_at : Z;
  rl_conversation_id : option UUID;
  rl_search_run_id : option UUID;
  rl_conversation_key : pystr;
  rl_message_key : pystr;
  rl_request_hash : pystr;
  rl_reservation_state : ReservationState;
  rl_version : Z;
  rl_persisted_version : Z;
  rl_conversation_attempts : Z;
  rl_submission_attempts : Z
}.

(** [@ src/sana/modules/shadow_campaign/scheduler.py RunLease/__post_init__] *)
Definition RunLease_new (l : RunLease) : res RunLease :=
  _ ← fail_if (negb (leased_state (rl_state l)))
        (ValueError "A scheduling lease must be CLAIMED or CONVERSATION_BOUND");
  _ ← fail_if (blank (rl_lease_owner l) || (rl_version l <? 1))
        (ValueError "A scheduling lease requires an owner and fencing version");
  _ ← fail_if ((rl_conversation_attempts l <? 0) || (rl_submission_attempts l <? 0))
        (ValueError "Scheduling attempt counters cannot be negative");
  _ ← fail_if (blank (rl_conversation_key l))
        (ValueError "A scheduling lease requires a Conversation key");
  _ ← fail_if (blank (rl_message_key l))
        (ValueError "A scheduling lease requires a Message key");
  _ ← fail_if (negb (Nat.eqb (length (rl_request_hash l)) 64)
               || existsb (fun c => negb (lower_hex_char c)) (rl_request_hash l))
        (ValueError "A scheduling lease requires a lowercase request SHA-256");
  Ok l.

Definition rl_set (state : SchedulingState) (conversation : option UUID) (expires version persisted : Z)
    (reservation : ReservationState) (l : RunLease) : RunLease :=
  {| rl_id := rl_id l; rl_tenant_id := rl_tenant_id l; rl_campaign_id := rl_campaign_id l;
     rl_case_id := rl_case_id l; rl_repetition := rl_repetition l;
     rl_schedule_ordinal := rl_schedule_ordinal l; rl_state := state;
     rl_lease_owner := rl_lease_owner l; rl_lease_expires_at := expires;
     rl_conversation_id := conversation; rl_search_run_id := rl_search_run_id l;
     rl_conversation_key := rl_conversation_key l; rl_message_key := rl_message_key l;
     rl_request_hash := rl_request_hash l; rl_reservation_state := reservation;
     rl_version := version; rl_persisted_version := persisted;
     rl_conversation_attempts := rl_conversation_attempts l;
     rl_submission_attempts := rl_submission_attempts l |}.

(** [@ src/sana/modules/shadow_campaign/scheduler.py RunLease.accept_budget_fence] *)
Definition accept_budget_fence (version : Z) (state : ReservationState) (l : RunLease) : res RunLease :=
  _ ← fail_if (version <=? rl_version l) (InvariantViolation "Budget fencing token must advance");
  Ok (rl_set (rl_state l) (rl_conversation_id l) (rl_lease_expires_at l) version version state l).

(** [@ src/sana/modules/shadow_campaign/scheduler.py RunLease.accept_attempt_fence] *)
Definition accept_attempt_fence (version : Z) (l : RunLease) : res RunLease :=
  _ ← fail_if (version <=? rl_version l) (InvariantViolation "Execution fencing token must advance");
  Ok (rl_set (rl_state l) (rl_conversation_id l) (rl_lease_expires_at l) version version
        (rl_reservation_state l) l).

(** [@ src/sana/modules/shadow_campaign/scheduler.py RunLease.accept_conversation_fence] *)
Definition accept_conversation_fence (version : Z) (conversation_id : UUID) (l : RunLease)
    : res RunLease :=
  l ← accept_attempt_fence version l;
  Ok (rl_set SchedulingState_CONVERSATION_BOUND (Some conversation_id) (rl_lease_expires_at l)
        (rl_version l) (rl_persisted_version l) (rl_reservation_state l) l).

(** [@ src/sana/modules/shadow_campaign/scheduler.py RunLease.renew] *)
Definition RunLease_renew (now expires : Z) (l : RunLease) : res RunLease :=
  _ ← fail_if (rl_lease_expires_at l <=? now)
        (InvariantViolation_code "Expired scheduling leases cannot be renewed"
           "scheduling_lease_expired");
  _ ← fail_if (expires <=? rl_lease_expires_at l)
        (InvariantViolation "Scheduling lease renewal must extend the lease");
  Ok (rl_set (rl_state l) (rl_conversation_id l) expires (rl_version l + 1)
        (rl_persisted_version l) (rl_reservation_state l) l).

(** [@ src/sana/modules/shadow_campaign/scheduler.py RunLease.mark_persisted] *)
Definition RunLease_mark_persisted (l : RunLease) : RunLease :=
  rl_set (rl_state l) (rl_conversation_id l) (rl_lease_expires_at l) (rl_version l) (rl_version l)
    (rl_reservation_state l) l.

(** ** The collector lease

    The frozen inputs it also carries (manifest, cost rate, retention) are not used here. *)

Record CollectorLease := {
  cw_id : UUID;
  cw_tenant_id : UUID;
  cw_campaign_id : UUID;
  cw_search_run_id : UUID;
  cw_lease_owner : pystr;
  cw_lease_expires_at : Z;
  cw_version : Z;
  cw_persisted_version : Z
}.

(** [@ src/sana/modules/shadow_campaign/collector.py CollectorLease.renew] *)
Definition CollectorLease_renew (expires version : Z) (l : CollectorLease) : res CollectorLease :=
  _ ← fail_if ((expires <=? cw_lease_expires_at l) || (version <=? cw_version l))
        (InvariantViolation_code "Collector lease renewal must advance expiry and fencing version"
           "collector_lease_renewal_invalid");
  Ok {| cw_id := cw_id l; cw_tenant_id := cw_tenant_id l; cw_campaign_id := cw_campaign_id l;
        cw_search_run_id := cw_search_run_id l; cw_lease_owner := cw_lease_owner l;
        cw_lease_expires_at := expires; cw_version := version; cw_persisted_version := version |}.

(** What a collection measured. *)
Record CollectionOutcome := {
  co_digest : pystr;
  co_schema_version : pystr;
  co_terminal_at : Z;
  co_metrics : RunMetrics;
  co_gold : list GoldAssertionResult;
  co_model_calls : Z;
  co_usage : SettlementUsage;
  co_error_class : option ErrorClass;
  co_error_code : option pystr;
  co_failed_phase : option pystr;
  co_signal_flags : list pystr
}.

Definition gold_count (s : GoldAssertionStatus) (gold : list GoldAssertionResult) : Z :=
  sumZ (fun g => if ga_status g is s then 1 else 0) gold.

(** ** The database *)

(** A candidate conversation, and a search run joined with its message and its model
    invocations: rows of other components, which campaigns only read. *)
Record CandidateConversation := {
  cc_tenant_id : UUID;
  cc_user_id : UUID;
  cc_creation_key : pystr;
  cc_creation_hash : option pystr;
  cc_title : option pystr
}.

Inductive BillingDisposition := Billing_BILLED | Billing_POSSIBLY_BILLED | Billing_NOT_BILLED.

#[export] Instance BillingDisposition_eq_dec : EqDecision BillingDisposition.
Proof. solve_decision. Defined.

Record Invocation := {
  iv_provider_called : bool;
  iv_disposition : BillingDisposition;
  iv_prompt_tokens : Z;
  iv_completion_tokens : Z
}.

Record CandidateRun := {
  cn_tenant_id : UUID;
  cn_message_id : UUID;
  cn_response_run_id : UUID;
  cn_conversation_id : UUID;
  cn_message_conversation_id : UUID;
  cn_author_user_id : option UUID;
  cn_message_key : pystr;
  cn_content : pystr;
  cn_terminal : bool;
  cn_completed_at : option Z;
  cn_invocations : list Invocation
}.

Record Sdb := {
  sd_campaigns : gmap Z CampaignRow;
  sd_results : gmap Z ResultRow;
  sd_gold : gmap (Z * pystr) GoldAssertionResult;
  sd_conversations : gmap Z CandidateConversation;
  sd_runs : gmap Z CandidateRun
}.

Definition set_campaigns (m : gmap Z CampaignRow) (d : Sdb) : Sdb :=
  {| sd_campaigns := m; sd_results := sd_results d; sd_gold := sd_gold d;
     sd_conversations := sd_conversations d; sd_runs := sd_runs d |}.
Definition set_results (m : gmap Z ResultRow) (d : Sdb) : Sdb :=
  {| sd_campaigns := sd_campaigns d; sd_results := m; sd_gold := sd_gold d;
     sd_conversations := sd_conversations d; sd_runs := sd_runs d |}.
Definition set_gold (m : gmap (Z * pystr) GoldAssertionResult) (d : Sdb) : Sdb :=
  {| sd_campaigns := sd_campaigns d; sd_results := sd_results d; sd_gold := m;
     sd_conversations := sd_conversations d; sd_runs := sd_runs d |}.
