(* ===== verification/CampaignStore.v ===== *)
(** * CampaignStore: the transactions of a shadow campaign

    [sana/platform/db/shadow_campaign_repository.py], [shadow_execution_repository.py],
    [shadow_runner.py] and [shadow_collector.py] in the same package, and the lifecycle mutations
    of [sana/modules/shadow_campaign/service.py]. Every method runs as one transaction that locks
    the campaign row first (only [renew_result_lease] updates a result without that lock); [now]
    is the database clock it reads, [scope] the tenant of its repository. A raise rolls the rows
    back; a lease object of the caller may have changed, and the theorems hold for any lease. *)

From Stdlib Require Import String.
From S2P Require Import Prelude Errors PyTime Transitions Campaign CampaignBudget CampaignPlan.
From S2P Require Import CampaignRows.

(** [async with uow: ...; await uow.commit()] *)
Definition transaction {A} (m : M Sdb A) : M Sdb A := fun d =>
  match m d with
  | (d', Ok a) => (d', Ok a)
  | (_, Raise e) => (d, Raise e)
  end.

(** A flush writes the dirty rows, or the database refuses them. *)
Definition flush_campaign (c : CampaignRow) : M Sdb unit :=
  _ ← raise_if (negb (campaign_checks c)) (DatabaseError "shadow_campaigns check constraint");
  update (fun d => set_campaigns (<[cr_id c := c]> (sd_campaigns d)) d).

Definition flush_result (r : ResultRow) : M Sdb unit :=
  _ ← raise_if (negb (result_checks r)) (DatabaseError "shadow_run_results check constraint");
  update (fun d => set_results (<[rr_id r := r]> (sd_results d)) d).

Definition not_found (what : string) : exn := InvariantViolation_code "does not exist" what.

(** ** Lookups *)

Definition find_campaign (tenant_id campaign_id : UUID) (d : Sdb) : option CampaignRow :=
  match sd_campaigns d !! campaign_id with
  | Some c => if cr_tenant_id c =? tenant_id then Some c else None
  | None => None
  end.

Definition find_result (tenant_id campaign_id result_id : UUID) (d : Sdb) : option ResultRow :=
  match sd_results d !! result_id with
  | Some r => if (rk_tenant_id (rr_key r) =? tenant_id) && (rk_campaign_id (rr_key r) =? campaign_id)
              then Some r else None
  | None => None
  end.

(** The results of a campaign. *)
Definition results_of (tenant_id campaign_id : UUID) (d : Sdb) : list ResultRow :=
  base.filter (fun r => rk_tenant_id (rr_key r) = tenant_id /\ rk_campaign_id (rr_key r) = campaign_id)
    (map_to_list (sd_results d)).*2.

Section Store.
Context (scope : UUID).

(** [@ src/sana/platform/db/shadow_campaign_repository.py SqlShadowCampaignRepository._assert_tenant] *)
Definition assert_tenant (tenant_id : UUID) : M Sdb unit :=
  raise_if (negb (tenant_id =? scope))
    (InvariantViolation_code "Repository cannot cross its tenant scope" "tenant_scope_mismatch").

(** The campaign and the result, locked. *)
(** [@ src/sana/platform/db/shadow_campaign_repository.py SqlShadowCampaignRepository._locked_budget_records] *)
Definition locked_budget_records (tenant_id campaign_id result_id : UUID)
    : M Sdb (CampaignRow * ResultRow) :=
  d ← self;
  match find_campaign tenant_id campaign_id d with
  | None => raise (not_found "campaign_not_found")
  | Some c =>
      match find_result tenant_id campaign_id result_id d with
      | None => raise (not_found "campaign_result_not_found")
      | Some r => mret (c, r)
      end
  end.

(** ** The lifecycle of the campaign *)

(** [@ src/sana/platform/db/shadow_campaign_repository.py SqlShadowCampaignRepository._lifecycle] *)
Definition lifecycle_of (c : CampaignRow) : res CampaignLifecycle := Campaign_reload (cr_life c).

(** [@ src/sana/platform/db/shadow_campaign_repository.py SqlShadowCampaignRepository.get_for_update] *)
Definition campaigns_get_for_update (tenant_id campaign_id : UUID) : M Sdb (option CampaignLifecycle) :=
  _ ← assert_tenant tenant_id;
  d ← self;
  match find_campaign tenant_id campaign_id d with
  | None => mret None
  | Some c => l ← lift (lifecycle_of c); mret (Some l)
  end.

(** The assigned columns of the UPDATE; then [mark_persisted]. *)
(** [@ src/sana/platform/db/shadow_campaign_repository.py SqlShadowCampaignRepository.save_lifecycle] *)
Definition save_lifecycle (l : CampaignLifecycle) : M Sdb CampaignLifecycle :=
  _ ← assert_tenant (cl_tenant_id l);
  d ← self;
  match find_campaign (cl_tenant_id l) (cl_id l) d with
  | Some c =>
      let row := cr_life c in
      _ ← raise_if (negb (cl_version row =? cl_persisted_version l))
            (InvariantViolation_code "Shadow campaign was modified concurrently"
               "optimistic_lock_failed");
      _ ← flush_campaign (cr_set_life
            {| cl_id := cl_id row; cl_tenant_id := cl_tenant_id row;
               cl_created_by_user_id := cl_created_by_user_id row;
               cl_max_runs := cl_max_runs row; cl_planned_count := cl_planned_count row;
               cl_status := cl_status l; cl_gate_status := cl_gate_status l;
               cl_stop_intent := cl_stop_intent l; cl_stop_reason := cl_stop_reason l;
               cl_started_at := cl_started_at l;
               cl_review_deadline_at := cl_review_deadline_at l;
               cl_completed_at := cl_completed_at l; cl_version := cl_version l;
               cl_persisted_version := cl_persisted_version row |} c);
      mret (fst (Campaign_mark_persisted l))
  | None => raise (InvariantViolation_code "Shadow campaign was modified concurrently"
                     "optimistic_lock_failed")
  end.

(** Loading, mutating and saving: [owner] is [None] for the system's mutations. *)
Definition mutate_campaign (owner : option UUID) (tenant_id campaign_id : UUID)
    (mutate : M CampaignLifecycle unit) : M Sdb (option CampaignLifecycle) := transaction (
  found ← campaigns_get_for_update tenant_id campaign_id;
  match found with
  | None => mret None
  | Some l =>
      if match owner with Some user => negb (cl_created_by_user_id l =? user) | None => false end
      then mret None
      else match mutate l with
           | (l, Ok _) => l ← save_lifecycle l; mret (Some l)
           | (_, Raise e) => raise e
           end
  end).

(** [@ src/sana/modules/shadow_campaign/service.py CampaignLifecycleService._owned_mutation] *)
Definition owned_mutation (tenant_id user_id campaign_id : UUID) (op : campaign_op)
    : M Sdb (option CampaignLifecycle) :=
  mutate_campaign (Some user_id) tenant_id campaign_id (campaign_exec op).

(** [@ src/sana/modules/shadow_campaign/service.py CampaignLifecycleService._system_mutation] *)
Definition system_mutation (tenant_id campaign_id : UUID) (op : campaign_op)
    : M Sdb (option CampaignLifecycle) :=
  mutate_campaign None tenant_id campaign_id (campaign_exec op).

(** ** Scheduling *)

(** A unit that occupies a slot: a submitted run whose reservation is active, or a lease that has
    not ended. A NULL expiry compares as unknown, so not as ended either way. *)
Definition expires_after (now : Z) (x : option Z) : bool :=
  match x with Some e => now <? e | None => false end.
Definition expires_by (now : Z) (x : option Z) : bool :=
  match x with Some e => e <=? now | None => false end.

Definition live_unit (now : Z) (r : ResultRow) : bool :=
  ((rr_state r is SchedulingState_SUBMITTED) && (rr_reservation r is ReservationState_ACTIVE))
  || (leased_state (rr_state r) && expires_after now (rs_lease_expires_at (rr_sched r))).

Definition active_units (tenant_id campaign_id : UUID) (now : Z) (d : Sdb) : Z :=
  sumZ (fun r => if live_unit now r then 1 else 0) (results_of tenant_id campaign_id d).

(** The scheduling predicate: while STOPPING, only units that crossed an outbound fence. *)
Definition claimable (status : CampaignStatus) (now : Z) (r : ResultRow) : bool :=
  let s := rr_sched r in
  let dead := leased_state (rs_state s) && expires_by now (rs_lease_expires_at s) in
  if status is CampaignStatus_STOPPING
  then dead && ((0 <? rs_conversation_attempts s) || (0 <? rs_submission_attempts s))
  else (rs_state s is SchedulingState_PENDING) || dead.

(** [ORDER BY schedule_ordinal LIMIT 1] *)
Definition first_by_ordinal (l : list ResultRow) : option ResultRow :=
  foldr (fun r best => match best with
                       | Some b => if rk_schedule_ordinal (rr_key b) <? rk_schedule_ordinal (rr_key r)
                                   then Some b else Some r
                       | None => Some r
                       end) None l.

Definition rs_set_lease (state : SchedulingState) (owner : option pystr) (expires : option Z)
    (s : ResultSched) : ResultSched :=
  {| rs_state := state; rs_lease_owner := owner; rs_lease_expires_at := expires;
     rs_conversation_attempts := rs_conversation_attempts s;
     rs_submission_attempts := rs_submission_attempts s;
     rs_conversation_id := rs_conversation_id s; rs_search_run_id := rs_search_run_id s;
     rs_skip_reason := rs_skip_reason s |}.

(** [@ src/sana/platform/db/shadow_campaign_repository.py SqlShadowCampaignRepository.claim_next_result] *)
Definition claim_next_result (tenant_id campaign_id : UUID) (worker_id : pystr) (lease_duration now : Z)
    : M Sdb (option RunLease) := transaction (
  _ ← assert_tenant tenant_id;
  let lease_expires_at := now + lease_duration in
  d ← self;
  match find_campaign tenant_id campaign_id d with
  | None => mret None
  | Some campaign =>
  if negb (bool_decide (cr_status campaign ∈ [CampaignStatus_RUNNING; CampaignStatus_STOPPING]))
  then mret None else
  if cr_max_concurrency campaign <=? active_units tenant_id campaign_id now d then mret None else
  match first_by_ordinal (base.filter (fun r => claimable (cr_status campaign) now r = true)
                            (results_of tenant_id campaign_id d)) with
  | None => mret None
  | Some candidate =>
      let s := rr_sched candidate in
      let claimed_state := if is_none (rs_conversation_id s) then SchedulingState_CLAIMED
                           else SchedulingState_CONVERSATION_BOUND in
      let next_version := rr_version candidate + 1 in
      _ ← flush_result (rr_bump (rr_set_sched
            (rs_set_lease claimed_state (Some worker_id) (Some lease_expires_at) s) candidate));
      lease ← lift (RunLease_new
        {| rl_id := rr_id candidate; rl_tenant_id := tenant_id; rl_campaign_id := campaign_id;
           rl_case_id := rk_case_id (rr_key candidate);
           rl_repetition := rk_repetition (rr_key candidate);
           rl_schedule_ordinal := rk_schedule_ordinal (rr_key candidate);
           rl_state := claimed_state; rl_lease_owner := worker_id;
           rl_lease_expires_at := lease_expires_at; rl_conversation_id := rs_conversation_id s;
           rl_search_run_id := rs_search_run_id s;
           rl_conversation_key := rk_conversation_key (rr_key candidate);
           rl_message_key := rk_message_key (rr_key candidate);
           rl_request_hash := rk_request_hash (rr_key candidate);
           rl_reservation_state := rr_reservation candidate; rl_version := next_version;
           rl_persisted_version := next_version;
           rl_conversation_attempts := rs_conversation_attempts s;
           rl_submission_attempts := rs_submission_attempts s |});
      mret (Some lease)
  end
  end).

(** The service around it: [lease_duration] is the configured one. *)
(** [@ src/sana/modules/shadow_campaign/scheduler.py CampaignSchedulingService.claim_next] *)
Definition scheduling_claim_next (tenant_id campaign_id : UUID) (worker_id : pystr)
    (lease_duration now : Z) : M Sdb (option RunLease) :=
  let normalized := strip worker_id in
  _ ← raise_if (bool_decide (normalized = []) || (200 <? Z.of_nat (length normalized)))
        (ValueError "worker_id must contain between 1 and 200 characters");
  claim_next_result tenant_id campaign_id normalized lease_duration now.

(** [@ src/sana/platform/db/shadow_campaign_repository.py SqlShadowCampaignRepository.renew_result_lease] *)
Definition renew_result_lease (lease : RunLease) (lease_duration now : Z) : M Sdb RunLease :=
  transaction (
  _ ← assert_tenant (rl_tenant_id lease);
  lease ← lift (RunLease_renew now (Z.max now (rl_lease_expires_at lease) + lease_duration) lease);
  d ← self;
  match find_result (rl_tenant_id lease) (rl_campaign_id lease) (rl_id lease) d with
  | Some r =>
      let s := rr_sched r in
      _ ← raise_if (negb (leased_state (rs_state s)
                          && bool_decide (rs_lease_owner s = Some (rl_lease_owner lease))
                          && (rr_version r =? rl_persisted_version lease)
                          && expires_after now (rs_lease_expires_at s)))
            (InvariantViolation_code "Scheduling lease fencing token is stale"
               "scheduling_lease_fence_lost");
      _ ← flush_result
            {| rr_key := rr_key r;
               rr_sched := rs_set_lease (rs_state s) (rs_lease_owner s)
                             (Some (rl_lease_expires_at lease)) s;
               rr_budget := rr_budget r; rr_collected := rr_collected r;
               rr_version := rl_version lease |};
      mret (RunLease_mark_persisted lease)
  | None => raise (InvariantViolation_code "Scheduling lease fencing token is stale"
                     "scheduling_lease_fence_lost")
  end).

(** The fencing test of the budget and execution repositories. *)
(** [@ src/sana/platform/db/shadow_campaign_repository.py SqlShadowCampaignRepository._assert_active_lease] *)
Definition assert_active_lease (r : ResultRow) (lease : RunLease) (now : Z) : M Sdb unit :=
  let s := rr_sched r in
  raise_if (negb (leased_state (rs_state s)) || (rs_state s isnot rl_state lease)
            || negb (bool_decide (rs_lease_owner s = Some (rl_lease_owner lease)))
            || negb (expires_after now (rs_lease_expires_at s))
            || negb (rr_version r =? rl_persisted_version lease))
    (InvariantViolation_code "Scheduling lease fencing token is stale" "scheduling_lease_fence_lost").

(** ** Budgets *)

(** [@ src/sana/platform/db/shadow_campaign_repository.py SqlShadowCampaignRepository._reservation_request] *)
Definition reservation_request (c : CampaignRow) : res ReservationRequest :=
  let calls := cr_structural_ceiling c / cl_max_runs (cr_life c) in
  let remainder := cr_structural_ceiling c mod cl_max_runs (cr_life c) in
  _ ← fail_if (negb (remainder =? 0) || (calls <? 1))
        (InvariantViolation_code "Campaign structural call envelope is corrupt"
           "campaign_budget_snapshot_invalid");
  let rate := cr_cost_rate c in
  match (match rate_run_reservation rate with
         | Some v => Some v
         | None => rate_possibly_billed_run_reserve rate
         end) with
  | None | Some RateNull =>
      Raise (InvariantViolation_code "Campaign cost-rate snapshot has no run reserve"
               "campaign_budget_snapshot_invalid")
  | Some (RateText parsed) =>
      match (match parsed with
             | Some cost => ReservationRequest_new calls cost
             | None => Raise (InvalidOperation "ConversionSyntax")
             end) with
      | Ok request => Ok request
      | Raise _ => Raise (InvariantViolation_code "Campaign cost-rate snapshot has an invalid run reserve"
                            "campaign_budget_snapshot_invalid")
      end
  end.

Definition rb_set_state (state : ReservationState) (reserved settled released : option Z)
    (violation : bool) (b : ResultBudget) : ResultBudget :=
  {| rb_state := state; rb_reserved_calls := rb_reserved_calls b;
     rb_reserved_cost := rb_reserved_cost b; rb_settled_calls := rb_settled_calls b;
     rb_settled_cost := rb_settled_cost b; rb_possibly_calls := rb_possibly_calls b;
     rb_possibly_cost := rb_possibly_cost b; rb_prompt_tokens := rb_prompt_tokens b;
     rb_completion_tokens := rb_completion_tokens b; rb_reserved_at := reserved;
     rb_settled_at := settled; rb_released_at := released; rb_violation := violation;
     rb_source_terminal_at := rb_source_terminal_at b; rb_source_digest := rb_source_digest b |}.

Definition rb_set_reserved (calls : Z) (cost : money) (b : ResultBudget) : ResultBudget :=
  {| rb_state := rb_state b; rb_reserved_calls := calls; rb_reserved_cost := cost;
     rb_settled_calls := rb_settled_calls b; rb_settled_cost := rb_settled_cost b;
     rb_possibly_calls := rb_possibly_calls b; rb_possibly_cost := rb_possibly_cost b;
     rb_prompt_tokens := rb_prompt_tokens b; rb_completion_tokens := rb_completion_tokens b;
     rb_reserved_at := rb_reserved_at b; rb_settled_at := rb_settled_at b;
     rb_released_at := rb_released_at b; rb_violation := rb_violation b;
     rb_source_terminal_at := rb_source_terminal_at b; rb_source_digest := rb_source_digest b |}.

Definition rb_set_source (terminal_at : option Z) (digest : option pystr) (b : ResultBudget)
    : ResultBudget :=
  {| rb_state := rb_state b; rb_reserved_calls := rb_reserved_calls b;
     rb_reserved_cost := rb_reserved_cost b; rb_settled_calls := rb_settled_calls b;
     rb_settled_cost := rb_settled_cost b; rb_possibly_calls := rb_possibly_calls b;
     rb_possibly_cost := rb_possibly_cost b; rb_prompt_tokens := rb_prompt_tokens b;
     rb_completion_tokens := rb_completion_tokens b; rb_reserved_at := rb_reserved_at b;
     rb_settled_at := rb_settled_at b; rb_released_at := rb_released_at b;
     rb_violation := rb_violation b; rb_source_terminal_at := terminal_at;
     rb_source_digest := digest |}.

Definition rb_set_usage (usage : SettlementUsage) (b : ResultBudget) : ResultBudget :=
  {| rb_state := rb_state b; rb_reserved_calls := rb_reserved_calls b;
     rb_reserved_cost := rb_reserved_cost b; rb_settled_calls := su_observed_calls usage;
     rb_settled_cost := su_observed_cost usage; rb_possibly_calls := su_possibly_calls usage;
     rb_possibly_cost := su_possibly_cost usage; rb_prompt_tokens := su_prompt_tokens usage;
     rb_completion_tokens := su_completion_tokens usage; rb_reserved_at := rb_reserved_at b;
     rb_settled_at := rb_settled_at b; rb_released_at := rb_released_at b;
     rb_violation := rb_violation b; rb_source_terminal_at := rb_source_terminal_at b;
     rb_source_digest := rb_source_digest b |}.

(** [campaign.reserved_... += calls, cost] *)
Definition lg_add_reserved (calls : Z) (cost : money) (l : CampaignLedger) : CampaignLedger :=
  {| lg_observed_calls := lg_observed_calls l; lg_possibly_calls := lg_possibly_calls l;
     lg_reserved_calls := lg_reserved_calls l + calls; lg_prompt_tokens := lg_prompt_tokens l;
     lg_completion_tokens := lg_completion_tokens l; lg_observed_cost := lg_observed_cost l;
     lg_possibly_cost := lg_possibly_cost l;
     lg_reserved_cost := dec_add (lg_reserved_cost l) cost |}.

Definition lg_sub_reserved (calls : Z) (cost : money) (l : CampaignLedger) : CampaignLedger :=
  {| lg_observed_calls := lg_observed_calls l; lg_possibly_calls := lg_possibly_calls l;
     lg_reserved_calls := lg_reserved_calls l - calls; lg_prompt_tokens := lg_prompt_tokens l;
     lg_completion_tokens := lg_completion_tokens l; lg_observed_cost := lg_observed_cost l;
     lg_possibly_cost := lg_possibly_cost l;
     lg_reserved_cost := dec_sub (lg_reserved_cost l) cost |}.

(** The six [+=] of a settlement. *)
Definition lg_add_usage (usage : SettlementUsage) (l : CampaignLedger) : CampaignLedger :=
  {| lg_observed_calls := lg_observed_calls l + su_observed_calls usage;
     lg_possibly_calls := lg_possibly_calls l + su_possibly_calls usage;
     lg_reserved_calls := lg_reserved_calls l;
     lg_prompt_tokens := lg_prompt_tokens l + su_prompt_tokens usage;
     lg_completion_tokens := lg_completion_tokens l + su_completion_tokens usage;
     lg_observed_cost := dec_add (lg_observed_cost l) (su_observed_cost usage);
     lg_possibly_cost := dec_add (lg_possibly_cost l) (su_possibly_cost usage);
     lg_reserved_cost := lg_reserved_cost l |}.

Definition ct_add (submitted collected failed skipped degraded possibly : Z) (k : CampaignCounts)
    : CampaignCounts :=
  {| ct_submitted := ct_submitted k + submitted; ct_collected := ct_collected k + collected;
     ct_failed := ct_failed k + failed; ct_skipped := ct_skipped k + skipped;
     ct_degraded := ct_degraded k + degraded; ct_possibly_billed := ct_possibly_billed k + possibly |}.

Definition snapshot_of (c : CampaignRow) : CampaignBudgetSnapshot :=
  let l := cr_ledger c in
  {| cb_admission_ceiling := cr_admission_ceiling c;
     cb_structural_ceiling := cr_structural_ceiling c;
     cb_cost_stop_threshold := cr_cost_stop_threshold c;
     cb_observed_calls := lg_observed_calls l; cb_possibly_calls := lg_possibly_calls l;
     cb_reserved_calls := lg_reserved_calls l; cb_observed_cost := lg_observed_cost l;
     cb_possibly_cost := lg_possibly_cost l; cb_reserved_cost := lg_reserved_cost l |}.

(** The refusal that stops the campaign: the lease is fenced forward. *)
Definition deny_reservation (c : CampaignRow) (r : ResultRow) (lease : RunLease)
    (admission : BudgetAdmission) : M Sdb (RunLease * BudgetReservationReceipt) :=
  _ ← flush_campaign (cr_bump (cr_stop (ba_stop_intent admission)
        (u "Budget admission denied: " ++ default (u "None") (ba_reason admission)) c));
  _ ← flush_result (rr_bump (rr_set_budget
        (rb_set_state (rr_reservation r) (rb_reserved_at (rr_budget r)) (rb_settled_at (rr_budget r))
           (rb_released_at (rr_budget r)) true (rr_budget r)) r));
  lease ← lift (accept_budget_fence (rr_version r + 1) ReservationState_NONE lease);
  receipt ← lift (BudgetReservationReceipt_new false (ba_stop_intent admission)
                    (ba_reason admission) 0 0 false);
  mret (lease, receipt).

(** The reservation itself. *)
Definition grant_reservation (c : CampaignRow) (r : ResultRow) (lease : RunLease)
    (request : ReservationRequest) (now : Z) : M Sdb (RunLease * BudgetReservationReceipt) :=
  let b := rr_budget r in
  _ ← flush_campaign (cr_bump (cr_set_ledger (lg_add_reserved (rq_provider_calls request)
        (rq_estimated_cost request) (cr_ledger c)) c));
  _ ← flush_result (rr_bump (rr_set_budget
        (rb_set_state ReservationState_ACTIVE (Some now) (rb_settled_at b) (rb_released_at b)
           (rb_violation b)
           (rb_set_reserved (rq_provider_calls request) (rq_estimated_cost request) b)) r));
  lease ← lift (accept_budget_fence (rr_version r + 1) ReservationState_ACTIVE lease);
  receipt ← lift (BudgetReservationReceipt_new true StopIntent_NONE None
                    (rq_provider_calls request) (rq_estimated_cost request) false);
  mret (lease, receipt).

(** [@ src/sana/platform/db/shadow_campaign_repository.py SqlShadowCampaignRepository.reserve_run_budget] *)
Definition reserve_run_budget (lease : RunLease) (now : Z)
    : M Sdb (RunLease * BudgetReservationReceipt) := transaction (
  _ ← assert_tenant (rl_tenant_id lease);
  records ← locked_budget_records (rl_tenant_id lease) (rl_campaign_id lease) (rl_id lease);
  let '(c, r) := records in
  _ ← assert_active_lease r lease now;
  if cr_status c isnot CampaignStatus_RUNNING then
    let intent := cl_stop_intent (cr_life c) in
    let reason := default [] (cl_stop_reason (cr_life c)) in
    receipt ← lift (BudgetReservationReceipt_new false
      (if intent is StopIntent_NONE then StopIntent_FATAL else intent)
      (Some (if bool_decide (reason = []) then u "campaign_not_running" else reason)) 0 0 false);
    mret (lease, receipt)
  else
  _ ← raise_if (rr_reservation r is ReservationState_ACTIVE)
        (InvariantViolation_code "An active reservation must be reconciled before retrying the run"
           "active_reservation_recovery_required");
  _ ← raise_if (rr_reservation r isnot ReservationState_NONE)
        (InvariantViolation_code "A terminal reservation cannot be reserved again"
           "reservation_already_terminal");
  request ← lift (reservation_request c);
  snapshot ← lift (CampaignBudgetSnapshot_new (snapshot_of c));
  let admission := budget_admit snapshot request in
  if ba_allowed admission then grant_reservation c r lease request now else
  later ← lift (admit_after_active_reservations_settle snapshot request);
  if ba_allowed later
     && (negb (lg_reserved_calls (cr_ledger c) =? 0) || negb (lg_reserved_cost (cr_ledger c) =? 0))
  then
    receipt ← lift (BudgetReservationReceipt_new false StopIntent_NONE
                      (Some (u "active_reservation_capacity")) 0 0 true);
    mret (lease, receipt)
  else deny_reservation c r lease admission).

(** [@ src/sana/platform/db/shadow_campaign_repository.py SqlShadowCampaignRepository._settlement_matches] *)
Definition settlement_matches (r : ResultRow) (digest : pystr) (usage : SettlementUsage) : bool :=
  let b := rr_budget r in
  bool_decide (rb_source_digest b = Some digest)
  && (rb_settled_calls b =? su_observed_calls usage)
  && (rb_prompt_tokens b =? su_prompt_tokens usage)
  && (rb_completion_tokens b =? su_completion_tokens usage)
  && (rb_settled_cost b =? su_observed_cost usage)
  && (rb_possibly_calls b =? su_possibly_calls usage)
  && (rb_possibly_cost b =? su_possibly_cost usage).

(** [@ src/sana/platform/db/shadow_campaign_repository.py SqlShadowCampaignRepository._budget_breach] *)
Definition budget_breach (c : CampaignRow) (reservation : ReservationRequest)
    (usage : SettlementUsage) : StopIntent * string :=
  let l := cr_ledger c in
  let total_calls := lg_observed_calls l + lg_possibly_calls l + lg_reserved_calls l in
  let total_cost := dec_add (dec_add (lg_observed_cost l) (lg_possibly_cost l)) (lg_reserved_cost l) in
  if cr_structural_ceiling c <? total_calls then
    (StopIntent_CALL_CEILING, "provider_call_structural_ceiling"%string)
  else if cr_admission_ceiling c <? total_calls then
    (StopIntent_CALL_CEILING, "provider_call_admission_ceiling"%string)
  else if rq_provider_calls reservation <? su_observed_calls usage + su_possibly_calls usage then
    (StopIntent_CALL_CEILING, "run_provider_call_reservation"%string)
  else if cr_cost_stop_threshold c <? total_cost then
    (StopIntent_BUDGET, "estimated_cost_stop_threshold"%string)
  else if rq_estimated_cost reservation <? dec_add (su_observed_cost usage) (su_possibly_cost usage) then
    (StopIntent_BUDGET, "run_estimated_cost_reservation"%string)
  else (StopIntent_NONE, ""%string).

(** [ReservationRequest(result.reserved_provider_calls, Decimal(result.reserved_estimated_cost))] *)
Definition stored_reservation (r : ResultRow) : res ReservationRequest :=
  ReservationRequest_new (rb_reserved_calls (rr_budget r))
    (money_decimal (rb_reserved_cost (rr_budget r))).

(** The row after the settlement of an active reservation. *)
Definition settled_campaign (c : CampaignRow) (reservation : ReservationRequest)
    (usage : SettlementUsage) : CampaignRow :=
  let c := cr_set_ledger (lg_add_usage usage (lg_sub_reserved (rq_provider_calls reservation)
             (rq_estimated_cost reservation) (cr_ledger c))) c in
  let c := if negb (su_possibly_calls usage =? 0) || negb (su_possibly_cost usage =? 0)
           then cr_set_counts (ct_add 0 0 0 0 0 1 (cr_counts c)) c else c in
  let breach := budget_breach c reservation usage in
  let c := if (breach.1 isnot StopIntent_NONE) && (cr_status c is CampaignStatus_RUNNING)
           then cr_stop breach.1 (u breach.2) c else c in
  cr_bump c.

Definition settled_result (r : ResultRow) (reservation : ReservationRequest) (digest : pystr)
    (usage : SettlementUsage) (now : Z) : ResultRow :=
  let b := rr_budget r in
  rr_bump (rr_set_budget
    (rb_set_source (rb_source_terminal_at b) (Some digest)
      (rb_set_state ReservationState_SETTLED (rb_reserved_at b) (Some now) (rb_released_at b)
         (SettlementUsage_exceeds usage reservation) (rb_set_usage usage b))) r).

(** [@ src/sana/platform/db/shadow_campaign_repository.py SqlShadowCampaignRepository.settle_run_budget] *)
Definition settle_run_budget (tenant_id campaign_id result_id : UUID)
    (source_snapshot_digest : pystr) (usage : SettlementUsage) (now : Z)
    : M Sdb BudgetSettlementReceipt :=
  _ ← assert_tenant tenant_id;
  let digest := strip source_snapshot_digest in
  _ ← raise_if (negb (Nat.eqb (length digest) 64)
                || existsb (fun c => negb (lower_hex_char c)) digest)
        (ValueError "source_snapshot_digest must be a lowercase SHA-256");
  records ← locked_budget_records tenant_id campaign_id result_id;
  let '(c, r) := records in
  let b := rr_budget r in
  if rr_reservation r is ReservationState_SETTLED then
    _ ← raise_if (negb (settlement_matches r digest usage))
          (InvariantViolation_code "A result budget was already settled from different source data"
             "settlement_conflict");
    mret {| bt_result_id := rr_id r; bt_duplicate := true; bt_budget_violation := rb_violation b |}
  else
  _ ← raise_if (rr_reservation r isnot ReservationState_ACTIVE)
        (InvariantViolation_code "Only active reservations can be settled" "reservation_not_active");
  _ ← raise_if (negb (bool_decide (rr_state r ∈ [SchedulingState_SUBMITTED;
                       SchedulingState_COLLECTED; SchedulingState_FAILED]))
                || is_none (rb_source_terminal_at b))
        (InvariantViolation_code "Budget settlement requires a terminal source snapshot"
           "source_not_terminal");
  _ ← raise_if (negb (is_none (rb_source_digest b) || bool_decide (rb_source_digest b = Some digest)))
        (InvariantViolation_code "The terminal source snapshot changed before settlement"
           "settlement_conflict");
  reservation ← lift (stored_reservation r);
  _ ← raise_if ((lg_reserved_calls (cr_ledger c) <? rq_provider_calls reservation)
                || (lg_reserved_cost (cr_ledger c) <? rq_estimated_cost reservation))
        (InvariantViolation_code "Campaign reservation ledgers are inconsistent"
           "reservation_ledger_underflow");
  _ ← flush_campaign (settled_campaign c reservation usage);
  _ ← flush_result (settled_result r reservation digest usage now);
  mret {| bt_result_id := rr_id r; bt_duplicate := false;
          bt_budget_violation := SettlementUsage_exceeds usage reservation |}.

(** [@ src/sana/modules/shadow_campaign/budget.py CampaignBudgetService.settle_result] *)
Definition settle_result (tenant_id campaign_id result_id : UUID) (digest : pystr)
    (usage : SettlementUsage) (now : Z) : M Sdb BudgetSettlementReceipt :=
  transaction (settle_run_budget tenant_id campaign_id result_id digest usage now).

(** [@ src/sana/platform/db/shadow_campaign_repository.py SqlShadowCampaignRepository.release_run_budget] *)
Definition release_run_budget (lease : RunLease) (now : Z)
    : M Sdb (RunLease * BudgetReleaseReceipt) := transaction (
  _ ← assert_tenant (rl_tenant_id lease);
  records ← locked_budget_records (rl_tenant_id lease) (rl_campaign_id lease) (rl_id lease);
  let '(c, r) := records in
  let b := rr_budget r in
  _ ← assert_active_lease r lease now;
  if rr_reservation r is ReservationState_RELEASED then
    mret (lease, {| be_result_id := rr_id r; be_duplicate := true |})
  else
  _ ← raise_if (rr_reservation r isnot ReservationState_ACTIVE)
        (InvariantViolation_code "Only active reservations can be released" "reservation_not_active");
  _ ← raise_if (negb (rs_submission_attempts (rr_sched r) =? 0)
                || negb (is_none (rb_source_terminal_at b)) || negb (is_none (rb_source_digest b)))
        (InvariantViolation_code "A reservation cannot be released after submission begins"
           "reservation_release_too_late");
  _ ← raise_if ((lg_reserved_calls (cr_ledger c) <? rb_reserved_calls b)
                || (lg_reserved_cost (cr_ledger c) <? rb_reserved_cost b))
        (InvariantViolation_code "Campaign reservation ledgers are inconsistent"
           "reservation_ledger_underflow");
  _ ← flush_campaign (cr_bump (cr_set_ledger
        (lg_sub_reserved (rb_reserved_calls b) (rb_reserved_cost b) (cr_ledger c)) c));
  _ ← flush_result (rr_bump (rr_set_budget
        (rb_set_state ReservationState_RELEASED (rb_reserved_at b) (rb_settled_at b) (Some now)
           (rb_violation b) b) r));
  lease ← lift (accept_budget_fence (rr_version r + 1) ReservationState_RELEASED lease);
  mret (lease, {| be_result_id := rr_id r; be_duplicate := false |})).

(** ** Binding a unit to the candidate API

    [content_sha256] is [hashlib.sha256] of the UTF-8 bytes, in hex. *)

Context (content_sha256 : pystr -> pystr).

(** [@ src/sana/modules/shadow_campaign/execution.py campaign_conversation_title] *)
Definition campaign_conversation_title (case_id : pystr) (repetition : Z) : pystr :=
  u "Shadow evaluation " ++ case_id ++ u " repetition " ++ str_of_Z repetition.

(** [@ src/sana/platform/db/shadow_execution_repository.py SqlShadowExecutionRepository._locked_records] *)
Definition locked_records (lease : RunLease) : M Sdb (CampaignRow * ResultRow) :=
  _ ← assert_tenant (rl_tenant_id lease);
  locked_budget_records (rl_tenant_id lease) (rl_campaign_id lease) (rl_id lease).

(** [@ src/sana/platform/db/shadow_execution_repository.py SqlShadowExecutionRepository._assert_active_reservation] *)
Definition assert_active_reservation (r : ResultRow) : M Sdb unit :=
  raise_if (rr_reservation r isnot ReservationState_ACTIVE)
    (InvariantViolation_code "Candidate API calls require an active budget reservation"
       "reservation_not_active").

(** [@ src/sana/platform/db/shadow_execution_repository.py SqlShadowExecutionRepository._assert_outbound_allowed] *)
Definition assert_outbound_allowed (c : CampaignRow) (r : ResultRow) (prior_attempt_count : Z)
    : M Sdb unit :=
  let recovery_replay := (cr_status c is CampaignStatus_STOPPING) && (0 <? prior_attempt_count) in
  _ ← raise_if ((cr_status c isnot CampaignStatus_RUNNING) && negb recovery_replay)
        (InvariantViolation_code "Campaign is not accepting a new candidate API attempt"
           "campaign_not_running");
  assert_active_reservation r.

Definition rs_set_attempts (conversation submission : Z) (s : ResultSched) : ResultSched :=
  {| rs_state := rs_state s; rs_lease_owner := rs_lease_owner s;
     rs_lease_expires_at := rs_lease_expires_at s; rs_conversation_attempts := conversation;
     rs_submission_attempts := submission; rs_conversation_id := rs_conversation_id s;
     rs_search_run_id := rs_search_run_id s; rs_skip_reason := rs_skip_reason s |}.

Definition rs_set_bindings (conversation search_run : option UUID) (s : ResultSched) : ResultSched :=
  {| rs_state := rs_state s; rs_lease_owner := rs_lease_owner s;
     rs_lease_expires_at := rs_lease_expires_at s;
     rs_conversation_attempts := rs_conversation_attempts s;
     rs_submission_attempts := rs_submission_attempts s; rs_conversation_id := conversation;
     rs_search_run_id := search_run; rs_skip_reason := rs_skip_reason s |}.

(** [@ src/sana/platform/db/shadow_execution_repository.py SqlShadowExecutionRepository.prepare_conversation_attempt] *)
Definition prepare_conversation_attempt (lease : RunLease) (now : Z) : M Sdb RunLease := transaction (
  records ← locked_records lease;
  let '(c, r) := records in
  let s := rr_sched r in
  _ ← assert_active_lease r lease now;
  _ ← assert_active_reservation r;
  _ ← assert_outbound_allowed c r (rs_conversation_attempts s);
  _ ← raise_if ((rs_state s isnot SchedulingState_CLAIMED) || negb (is_none (rs_conversation_id s))
                || negb (is_none (rs_search_run_id s)))
        (InvariantViolation_code "Conversation creation is not valid in the current Result state"
           "conversation_attempt_state_invalid");
  _ ← flush_result (rr_bump (rr_set_sched
        (rs_set_attempts (rs_conversation_attempts s + 1) (rs_submission_attempts s) s) r));
  lift (accept_attempt_fence (rr_version r + 1) lease)).

(** The conversation the candidate API reported is the one the unit asked for. *)
Definition conversation_authoritative (c : CampaignRow) (r : ResultRow) (conversation_id : UUID)
    (d : Sdb) : res bool :=
  let title := campaign_conversation_title (rk_case_id (rr_key r)) (rk_repetition (rr_key r)) in
  expected ← normalized_content_sha256 content_sha256 title;
  Ok match sd_conversations d !! conversation_id with
     | Some v =>
         (cc_tenant_id v =? cr_tenant_id c)
         && (cc_user_id v =? cl_created_by_user_id (cr_life c))
         && bool_decide (cc_creation_key v = rk_conversation_key (rr_key r))
         && bool_decide (cc_title v = Some title) && bool_decide (cc_creation_hash v = Some expected)
     | None => false
     end.

(** Another result of the tenant with the same binding. *)
Definition bound_elsewhere (binding : ResultSched -> option UUID) (tenant_id result_id x : UUID)
    (d : Sdb) : bool :=
  existsb (fun r => (rk_tenant_id (rr_key r) =? tenant_id) && negb (rr_id r =? result_id)
                    && bool_decide (binding (rr_sched r) = Some x))
    (map_to_list (sd_results d)).*2.

(** [@ src/sana/platform/db/shadow_execution_repository.py SqlShadowExecutionRepository.bind_conversation] *)
Definition bind_conversation (lease : RunLease) (conversation_id : UUID) (now : Z)
    : M Sdb RunLease := transaction (
  records ← locked_records lease;
  let '(c, r) := records in
  let s := rr_sched r in
  _ ← assert_active_lease r lease now;
  _ ← assert_active_reservation r;
  match rs_conversation_id s with
  | Some bound =>
      if (bound =? conversation_id) && (rs_state s is SchedulingState_CONVERSATION_BOUND)
      then mret lease
      else raise (InvariantViolation_code "A Result cannot replace its bound Conversation"
                    "conversation_binding_conflict")
  | None =>
  _ ← raise_if (rs_state s isnot SchedulingState_CLAIMED)
        (InvariantViolation_code "Conversation binding is not valid in the current Result state"
           "conversation_binding_state_invalid");
  d ← self;
  authoritative ← lift (conversation_authoritative c r conversation_id d);
  _ ← raise_if (negb authoritative)
        (InvariantViolation_code "Candidate Conversation receipt is not authoritative"
           "candidate_conversation_mismatch");
  _ ← raise_if (bound_elsewhere rs_conversation_id (rl_tenant_id lease) (rl_id lease) conversation_id d)
        (InvariantViolation_code "Candidate Conversation is already bound to another Result"
           "conversation_already_bound");
  _ ← flush_result (rr_bump (rr_set_sched
        (rs_set_lease SchedulingState_CONVERSATION_BOUND (rs_lease_owner s) (rs_lease_expires_at s)
           (rs_set_bindings (Some conversation_id) (rs_search_run_id s) s)) r));
  lift (accept_conversation_fence (rr_version r + 1) conversation_id lease)
  end).

(** [@ src/sana/platform/db/shadow_execution_repository.py SqlShadowExecutionRepository.prepare_submission_attempt] *)
Definition prepare_submission_attempt (lease : RunLease) (now : Z) : M Sdb RunLease := transaction (
  records ← locked_records lease;
  let '(c, r) := records in
  let s := rr_sched r in
  _ ← assert_active_lease r lease now;
  _ ← assert_outbound_allowed c r (rs_submission_attempts s);
  _ ← raise_if ((rs_state s isnot SchedulingState_CONVERSATION_BOUND)
                || is_none (rs_conversation_id s) || negb (is_none (rs_search_run_id s)))
        (InvariantViolation_code "Message submission is not valid in the current Result state"
           "submission_attempt_state_invalid");
  _ ← flush_result (rr_bump (rr_set_sched
        (rs_set_attempts (rs_conversation_attempts s) (rs_submission_attempts s + 1) s) r));
  lift (accept_attempt_fence (rr_version r + 1) lease)).

(** [@ src/sana/modules/shadow_campaign/execution.py CandidateSubmissionReceipt] *)
Record CandidateSubmissionReceipt := {
  cs_message_id : UUID;
  cs_response_run_id : UUID;
  cs_search_run_id : UUID
}.

(** [@ src/sana/modules/shadow_campaign/execution.py CampaignSubmissionReceipt] *)
Record CampaignSubmissionReceipt := {
  sr_result_id : UUID;
  sr_search_run_id : UUID;
  sr_duplicate : bool
}.

(** [@ src/sana/platform/db/shadow_execution_repository.py SqlShadowExecutionRepository._assert_authoritative_receipt] *)
Definition assert_authoritative_receipt (c : CampaignRow) (r : ResultRow)
    (receipt : CandidateSubmissionReceipt) : M Sdb unit :=
  d ← self;
  match sd_runs d !! cs_search_run_id receipt with
  | None => raise (InvariantViolation_code "Candidate SearchRun receipt is not authoritative"
                     "candidate_search_run_not_found")
  | Some n =>
      _ ← raise_if (negb (cn_tenant_id n =? rk_tenant_id (rr_key r)))
            (InvariantViolation_code "Candidate SearchRun receipt is not authoritative"
               "candidate_search_run_not_found");
      _ ← raise_if (negb (cn_message_id n =? cs_message_id receipt)
                    || negb (cn_response_run_id n =? cs_response_run_id receipt)
                    || negb (bool_decide (Some (cn_conversation_id n) = rs_conversation_id (rr_sched r)))
                    || negb (bool_decide (Some (cn_message_conversation_id n)
                                          = rs_conversation_id (rr_sched r)))
                    || negb (bool_decide (cn_author_user_id n
                                          = Some (cl_created_by_user_id (cr_life c))))
                    || negb (bool_decide (cn_message_key n = rk_message_key (rr_key r))))
            (InvariantViolation_code "Candidate SearchRun receipt does not match the Result binding"
               "candidate_receipt_mismatch");
      digest ← lift (normalized_content_sha256 content_sha256 (cn_content n));
      raise_if (negb (bool_decide (digest = rk_request_hash (rr_key r))))
        (InvariantViolation_code "Candidate Message content does not match the materialized request"
           "submission_payload_mismatch")
  end.

(** [@ src/sana/platform/db/shadow_execution_repository.py SqlShadowExecutionRepository.bind_submission] *)
Definition bind_submission (lease : RunLease) (receipt : CandidateSubmissionReceipt) (now : Z)
    : M Sdb CampaignSubmissionReceipt := transaction (
  records ← locked_records lease;
  let '(c, r) := records in
  let s := rr_sched r in
  match rs_search_run_id s with
  | Some bound =>
      _ ← raise_if (negb (bound =? cs_search_run_id receipt)
                    || (rs_state s isnot SchedulingState_SUBMITTED))
            (InvariantViolation_code "A Result cannot replace its bound SearchRun"
               "search_run_binding_conflict");
      _ ← assert_authoritative_receipt c r receipt;
      mret {| sr_result_id := rr_id r; sr_search_run_id := cs_search_run_id receipt;
              sr_duplicate := true |}
  | None =>
  _ ← assert_active_lease r lease now;
  _ ← assert_active_reservation r;
  _ ← raise_if ((rs_state s isnot SchedulingState_CONVERSATION_BOUND)
                || is_none (rs_conversation_id s))
        (InvariantViolation_code "SearchRun binding is not valid in the current Result state"
           "search_run_binding_state_invalid");
  _ ← assert_authoritative_receipt c r receipt;
  d ← self;
  _ ← raise_if (bound_elsewhere rs_search_run_id (rl_tenant_id lease) (rl_id lease)
                  (cs_search_run_id receipt) d)
        (InvariantViolation_code "Candidate SearchRun is already bound to another Result"
           "search_run_already_bound");
  _ ← raise_if (cl_max_runs (cr_life c) <=? ct_submitted (cr_counts c))
        (InvariantViolation_code "Campaign submitted counter cannot exceed max_runs"
           "campaign_ledger_mismatch");
  _ ← flush_campaign (cr_bump (cr_set_counts (ct_add 1 0 0 0 0 0 (cr_counts c)) c));
  _ ← flush_result (rr_bump (rr_set_sched
        (rs_set_lease SchedulingState_SUBMITTED None None
           (rs_set_bindings (rs_conversation_id s) (Some (cs_search_run_id receipt)) s)) r));
  mret {| sr_result_id := rr_id r; sr_search_run_id := cs_search_run_id receipt;
          sr_duplicate := false |}
  end).

(** ** Failures and skips *)

(** The identifier check of stable codes. *)
Definition stable_char (c : Z) : bool :=
  ((97 <=? c) && (c <=? 122)) || ((48 <=? c) && (c <=? 57)) || (c =? 95).

(** [@ src/sana/modules/shadow_campaign/runner.py _stable_code] *)
Definition stable_code (value : pystr) (maximum : Z) : res pystr :=
  let normalized := strip value in
  _ ← fail_if (bool_decide (normalized = []) || (maximum <? Z.of_nat (length normalized))
               || existsb (fun c => negb (stable_char c)) normalized)
        (ValueError "must be a stable lowercase identifier");
  Ok normalized.

Record RunnerFailure := {
  rf_error_class : ErrorClass;
  rf_error_code : pystr;
  rf_failed_phase : pystr;
  rf_possibly_billed : bool
}.

(** [@ src/sana/modules/shadow_campaign/runner.py RunnerFailure] *)
Definition RunnerFailure_new (error_class : ErrorClass) (error_code failed_phase : pystr)
    (possibly_billed : bool) : res RunnerFailure :=
  code ← stable_code error_code 200;
  phase ← stable_code failed_phase 100;
  Ok {| rf_error_class := error_class; rf_error_code := code; rf_failed_phase := phase;
        rf_possibly_billed := possibly_billed |}.

(** [@ src/sana/modules/shadow_campaign/runner.py RunnerFailureReceipt] *)
Record RunnerFailureReceipt := {
  rp_result_id : UUID;
  rp_possibly_billed : bool;
  rp_duplicate : bool
}.

Definition rc_set (owner : option pystr) (expires : option Z) (attempts model_calls : Z)
    (error_class : option ErrorClass) (error_code failed_phase : option pystr) (flags : list pystr)
    (k : ResultCollected) : ResultCollected :=
  {| rc_lease_owner := owner; rc_lease_expires_at := expires; rc_attempts := attempts;
     rc_metrics := rc_metrics k; rc_gold_total := rc_gold_total k;
     rc_gold_passed := rc_gold_passed k; rc_gold_failed := rc_gold_failed k;
     rc_gold_not_applicable := rc_gold_not_applicable k; rc_model_calls := model_calls;
     rc_error_class := error_class; rc_error_code := error_code; rc_failed_phase := failed_phase;
     rc_signal_flags := flags; rc_collected_at := rc_collected_at k;
     rc_schema_version := rc_schema_version k |}.

(** The failure columns. *)
Definition rc_fail (f : RunnerFailure) (k : ResultCollected) : ResultCollected :=
  rc_set (rc_lease_owner k) (rc_lease_expires_at k) (rc_attempts k) (rc_model_calls k)
    (Some (rf_error_class f)) (Some (rf_error_code f)) (Some (rf_failed_phase f))
    [rf_error_code f] k.

(** What an active reservation becomes when its run failed: charged as possibly billed, or
    released. [digest] is the SHA-256 of the canonical failure record. *)
Definition fail_reservation (c : CampaignRow) (r : ResultRow) (f : RunnerFailure) (digest : pystr)
    (now : Z) : M Sdb (CampaignRow * ResultRow) :=
  let b := rr_budget r in
  let l := cr_ledger c in
  if rr_reservation r is ReservationState_ACTIVE then
    let released := lg_sub_reserved (rb_reserved_calls b) (rb_reserved_cost b) l in
    if rf_possibly_billed f then
      mret (cr_set_counts (ct_add 0 0 0 0 0 1 (cr_counts c))
              (cr_set_ledger
                {| lg_observed_calls := lg_observed_calls released;
                   lg_possibly_calls := lg_possibly_calls released + rb_reserved_calls b;
                   lg_reserved_calls := lg_reserved_calls released;
                   lg_prompt_tokens := lg_prompt_tokens released;
                   lg_completion_tokens := lg_completion_tokens released;
                   lg_observed_cost := lg_observed_cost released;
                   lg_possibly_cost := dec_add (lg_possibly_cost released) (rb_reserved_cost b);
                   lg_reserved_cost := lg_reserved_cost released |} c),
            rr_set_budget
              (rb_set_source (Some now) (Some digest)
                (rb_set_state ReservationState_SETTLED (rb_reserved_at b) (Some now)
                   (rb_released_at b) (rb_violation b)
                   (rb_set_usage
                     {| su_observed_calls := rb_settled_calls b; su_prompt_tokens := rb_prompt_tokens b;
                        su_completion_tokens := rb_completion_tokens b;
                        su_observed_cost := rb_settled_cost b;
                        su_possibly_calls := rb_reserved_calls b;
                        su_possibly_cost := rb_reserved_cost b |} b))) r)
    else
      mret (cr_set_ledger released c,
            rr_set_budget (rb_set_state ReservationState_RELEASED (rb_reserved_at b)
                             (rb_settled_at b) (Some now) (rb_violation b) b) r)
  else
    _ ← raise_if (rr_reservation r isnot ReservationState_NONE)
          (InvariantViolation_code "A terminal reservation cannot be failed again"
             "reservation_already_terminal");
    mret (c, r).

(** [@ src/sana/platform/db/shadow_runner.py SqlShadowRunnerRepository.mark_failure] *)
Definition mark_failure (lease : RunLease) (f : RunnerFailure) (digest : pystr) (now : Z)
    : M Sdb RunnerFailureReceipt := transaction (
  records ← locked_records lease;
  let '(c, r) := records in
  let s := rr_sched r in
  if rs_state s is SchedulingState_FAILED then
    mret {| rp_result_id := rr_id r;
            rp_possibly_billed := negb (rb_possibly_calls (rr_budget r) =? 0);
            rp_duplicate := true |}
  else
  _ ← raise_if (negb (leased_state (rs_state s))
                || negb (bool_decide (rs_lease_owner s = Some (rl_lease_owner lease)))
                || negb (expires_after now (rs_lease_expires_at s))
                || negb (rr_version r =? rl_persisted_version lease))
        (InvariantViolation_code "Scheduling lease fencing token is stale"
           "scheduling_lease_fence_lost");
  _ ← raise_if (rf_possibly_billed f && (rr_reservation r isnot ReservationState_ACTIVE))
        (InvariantViolation_code "A possibly billed failure requires an active reservation"
           "possibly_billed_without_reservation");
  pair ← fail_reservation c r f digest now;
  let '(c, r) := pair in
  _ ← flush_campaign (cr_bump (cr_set_counts (ct_add 0 0 1 0 0 0 (cr_counts c)) c));
  _ ← flush_result (rr_bump (rr_set_collected (rc_fail f (rr_collected r))
        (rr_set_sched (rs_set_lease SchedulingState_FAILED None None s) r)));
  mret {| rp_result_id := rr_id r; rp_possibly_billed := rf_possibly_billed f;
          rp_duplicate := false |}).

(** Every pending result of the campaign becomes SKIPPED; the number of them. *)
Definition skip_results (tenant_id campaign_id : UUID) (reason : pystr) (d : Sdb) : gmap Z ResultRow :=
  (fun r => if (rk_tenant_id (rr_key r) =? tenant_id) && (rk_campaign_id (rr_key r) =? campaign_id)
               && (rr_state r is SchedulingState_PENDING)
            then rr_bump (rr_set_sched
                   {| rs_state := SchedulingState_SKIPPED;
                      rs_lease_owner := rs_lease_owner (rr_sched r);
                      rs_lease_expires_at := rs_lease_expires_at (rr_sched r);
                      rs_conversation_attempts := rs_conversation_attempts (rr_sched r);
                      rs_submission_attempts := rs_submission_attempts (rr_sched r);
                      rs_conversation_id := rs_conversation_id (rr_sched r);
                      rs_search_run_id := rs_search_run_id (rr_sched r);
                      rs_skip_reason := Some reason |} r)
            else r) <$> sd_results d.

(** [@ src/sana/platform/db/shadow_runner.py SqlShadowRunnerRepository.skip_pending] *)
Definition skip_pending (tenant_id campaign_id : UUID) (reason : pystr) : M Sdb Z := transaction (
  _ ← assert_tenant tenant_id;
  reason ← lift (stable_code reason 100);
  d ← self;
  match find_campaign tenant_id campaign_id d with
  | None => raise (not_found "campaign_not_found")
  | Some c =>
      _ ← raise_if (cr_status c isnot CampaignStatus_STOPPING)
            (InvariantViolation_code "Only a STOPPING campaign can seal pending units"
               "campaign_not_stopping");
      let skipped := sumZ (fun r => if rr_state r is SchedulingState_PENDING then 1 else 0)
                       (results_of tenant_id campaign_id d) in
      _ ← raise_if (negb (forallb result_checks (map_to_list (skip_results tenant_id campaign_id reason d)).*2))
            (DatabaseError "shadow_run_results check constraint");
      _ ← update (set_results (skip_results tenant_id campaign_id reason d));
      if skipped =? 0 then mret 0 else
      _ ← flush_campaign (cr_bump (cr_set_counts (ct_add 0 0 0 skipped 0 0 (cr_counts c)) c));
      mret skipped
  end).

(** ** Collection *)

(** [campaign.status not in _COLLECTABLE_CAMPAIGN_STATUSES] *)
(** [@ src/sana/platform/db/shadow_collector.py _COLLECTABLE_CAMPAIGN_STATUSES] *)
Definition collectable (s : CampaignStatus) : bool :=
  bool_decide (s ∈ [CampaignStatus_RUNNING; CampaignStatus_STOPPING; CampaignStatus_PAUSED]).

(** A live collector lease, and a unit that a collector may claim. *)
Definition collecting (now : Z) (r : ResultRow) : bool :=
  negb (is_none (rc_lease_owner (rr_collected r)))
  && expires_after now (rc_lease_expires_at (rr_collected r)).

Definition collectable_unit (now : Z) (d : Sdb) (r : ResultRow) : bool :=
  (rr_state r is SchedulingState_SUBMITTED)
  && bool_decide (rr_reservation r ∈ [ReservationState_ACTIVE; ReservationState_SETTLED])
  && (is_none (rc_lease_owner (rr_collected r))
      || expires_by now (rc_lease_expires_at (rr_collected r)))
  && match rs_search_run_id (rr_sched r) with
     | Some run => match sd_runs d !! run with
                   | Some n => (cn_tenant_id n =? rk_tenant_id (rr_key r)) && cn_terminal n
                   | None => false
                   end
     | None => false
     end.

Definition rc_set_lease (owner : option pystr) (expires : option Z) (attempts : Z)
    (k : ResultCollected) : ResultCollected :=
  rc_set owner expires attempts (rc_model_calls k) (rc_error_class k) (rc_error_code k)
    (rc_failed_phase k) (rc_signal_flags k) k.

(** The check of the frozen cost rate, which only reads, is not part of the claim here. *)
(** [@ src/sana/platform/db/shadow_collector.py SqlShadowCollectorRepository.claim_next] *)
Definition collector_claim_next (tenant_id campaign_id : UUID) (worker_id : pystr)
    (lease_duration now : Z) : M Sdb (option CollectorLease) := transaction (
  _ ← assert_tenant tenant_id;
  d ← self;
  match find_campaign tenant_id campaign_id d with
  | None => mret None
  | Some c =>
  if negb (collectable (cr_status c)) then mret None else
  let active := sumZ (fun r => if collecting now r then 1 else 0)
                  (results_of tenant_id campaign_id d) in
  if cr_max_concurrency c <=? active then mret None else
  match first_by_ordinal (base.filter (fun r => collectable_unit now d r = true)
                            (results_of tenant_id campaign_id d)) with
  | None => mret None
  | Some r =>
      let expires_at := now + lease_duration in
      let k := rr_collected r in
      _ ← flush_result (rr_bump (rr_set_collected
            (rc_set_lease (Some worker_id) (Some expires_at) (rc_attempts k + 1) k) r));
      match rs_conversation_id (rr_sched r), rs_search_run_id (rr_sched r) with
      | Some _, Some run =>
          mret (Some {| cw_id := rr_id r; cw_tenant_id := tenant_id; cw_campaign_id := campaign_id;
                        cw_search_run_id := run; cw_lease_owner := worker_id;
                        cw_lease_expires_at := expires_at; cw_version := rr_version r + 1;
                        cw_persisted_version := rr_version r + 1 |})
      | _, _ => raise (InvariantViolation_code "Submitted Result has no source binding"
                         "collector_source_binding_missing")
      end
  end end).

(** [@ src/sana/platform/db/shadow_collector.py SqlShadowCollectorRepository._locked_records] *)
Definition collector_locked_records (lease : CollectorLease) : M Sdb (CampaignRow * ResultRow) :=
  _ ← assert_tenant (cw_tenant_id lease);
  locked_budget_records (cw_tenant_id lease) (cw_campaign_id lease) (cw_id lease).

(** [@ src/sana/platform/db/shadow_collector.py SqlShadowCollectorRepository._assert_active_lease] *)
Definition assert_collector_lease (r : ResultRow) (lease : CollectorLease) (now : Z) : M Sdb unit :=
  let k := rr_collected r in
  raise_if ((rr_state r isnot SchedulingState_SUBMITTED)
            || negb (bool_decide (rc_lease_owner k = Some (cw_lease_owner lease)))
            || negb (expires_after now (rc_lease_expires_at k))
            || negb (rr_version r =? cw_persisted_version lease))
    (InvariantViolation_code "Collector lease fencing token is stale" "collector_lease_fence_lost").

(** [@ src/sana/platform/db/shadow_collector.py SqlShadowCollectorRepository.renew] *)
Definition collector_renew (lease : CollectorLease) (lease_duration now : Z)
    : M Sdb CollectorLease := transaction (
  records ← collector_locked_records lease;
  let '(_, r) := records in
  let k := rr_collected r in
  _ ← assert_collector_lease r lease now;
  _ ← flush_result (rr_bump (rr_set_collected
        (rc_set_lease (rc_lease_owner k) (Some (now + lease_duration)) (rc_attempts k) k) r));
  lift (CollectorLease_renew (now + lease_duration) (rr_version r + 1) lease)).

(** [@ src/sana/platform/db/shadow_collector.py SqlShadowCollectorRepository._matches] *)
Definition collection_matches (r : ResultRow) (o : CollectionOutcome) : bool :=
  let k := rr_collected r in
  let m := rc_metrics k in
  let n := co_metrics o in
  bool_decide (rb_source_digest (rr_budget r) = Some (co_digest o))
  && bool_decide (rc_schema_version k = Some (co_schema_version o))
  && bool_decide (rb_source_terminal_at (rr_budget r) = Some (co_terminal_at o))
  && bool_decide (rm_actual_mode m = rm_actual_mode n)
  && bool_decide (rm_run_status m = rm_run_status n)
  && bool_decide (rm_answer_quality m = rm_answer_quality n)
  && bool_decide (rm_latency_ms m = rm_latency_ms n)
  && (rm_fact_total m =? rm_fact_total n) && (rm_fact_covered m =? rm_fact_covered n)
  && (rm_traceability_violations m =? rm_traceability_violations n)
  && (rc_gold_total k =? Z.of_nat (length (co_gold o)))
  && (rm_query_pollution m =? rm_query_pollution n) && (rc_model_calls k =? co_model_calls o).

(** The audit rows of a result. *)
Definition gold_rows (result_id : UUID) (d : Sdb) : list GoldAssertionResult :=
  (base.filter (fun e => e.1.1 = result_id) (map_to_list (sd_gold d))).*2.

(** Equal as sets, and no more rows than distinct expected ones. *)
(** [@ src/sana/platform/db/shadow_collector.py SqlShadowCollectorRepository._verify_gold_assertions] *)
Definition verify_gold_assertions (result_id : UUID) (o : CollectionOutcome) : M Sdb unit :=
  d ← self;
  let rows := gold_rows result_id d in
  let expected := co_gold o in
  raise_if (negb (forallb (fun g => bool_decide (g ∈ expected)) rows
                  && forallb (fun g => bool_decide (g ∈ rows)) expected)
            || negb (Nat.eqb (length rows) (length (dedupe expected))))
    (InvariantViolation_code "Gold assertion audit rows conflict with Collector output"
       "gold_assertion_audit_mismatch").

(** [INSERT ... ON CONFLICT DO NOTHING] *)
Definition insert_gold (result_id : UUID) (gold : list GoldAssertionResult) (d : Sdb) : Sdb :=
  set_gold (foldl (fun m g => match m !! (result_id, ga_assertion_id g) with
                              | Some _ => m
                              | None => <[(result_id, ga_assertion_id g) := g]> m
                              end) (sd_gold d) gold) d.

(** [sorted] of a set of strings. *)
Definition sorted_set (l : list pystr) : list pystr := py_sorted pystr_ltb (dedupe l).

(** The columns a collection fills. *)
Definition collected_columns (o : CollectionOutcome) (violation : bool) (now : Z)
    (k : ResultCollected) : ResultCollected :=
  {| rc_lease_owner := None; rc_lease_expires_at := None; rc_attempts := rc_attempts k;
     rc_metrics := co_metrics o; rc_gold_total := Z.of_nat (length (co_gold o));
     rc_gold_passed := gold_count GoldAssertion_PASS (co_gold o);
     rc_gold_failed := gold_count GoldAssertion_FAIL (co_gold o);
     rc_gold_not_applicable := gold_count GoldAssertion_NOT_APPLICABLE (co_gold o);
     rc_model_calls := co_model_calls o;
     rc_error_class := if violation then Some ErrorClass_CANDIDATE_DEFECT else co_error_class o;
     rc_error_code := if violation then Some (u "budget_violation") else co_error_code o;
     rc_failed_phase := co_failed_phase o;
     rc_signal_flags := sorted_set (if violation then u "budget_violation" :: co_signal_flags o
                                    else co_signal_flags o);
     rc_collected_at := Some now; rc_schema_version := Some (co_schema_version o) |}.

Record CollectionReceipt := {
  cp_result_id : UUID;
  cp_digest : pystr;
  cp_duplicate : bool;
  cp_budget_violation : bool
}.

(** [@ src/sana/platform/db/shadow_collector.py SqlShadowCollectorRepository.persist] *)
Definition collector_persist (lease : CollectorLease) (o : CollectionOutcome) (now : Z)
    : M Sdb CollectionReceipt := transaction (
  records ← collector_locked_records lease;
  let '(c, r) := records in
  if rr_state r is SchedulingState_COLLECTED then
    _ ← raise_if (negb (collection_matches r o))
          (InvariantViolation_code "Collected Result conflicts with the source snapshot"
             "collection_conflict");
    _ ← verify_gold_assertions (rr_id r) o;
    mret {| cp_result_id := rr_id r; cp_digest := co_digest o; cp_duplicate := true;
            cp_budget_violation := rb_violation (rr_budget r) |}
  else
  _ ← assert_collector_lease r lease now;
  _ ← raise_if (negb (bool_decide (cr_schema_version c = co_schema_version o))
                || negb (bool_decide (rs_search_run_id (rr_sched r) = Some (cw_search_run_id lease))))
        (InvariantViolation_code "Collector frozen inputs no longer match the Result"
           "collector_snapshot_mismatch");
  _ ← flush_result (rr_set_budget (rb_set_source (Some (co_terminal_at o))
                                     (rb_source_digest (rr_budget r)) (rr_budget r)) r);
  settlement ← settle_run_budget (cw_tenant_id lease) (cw_campaign_id lease) (cw_id lease)
                 (co_digest o) (co_usage o) now;
  records ← collector_locked_records lease;
  let '(c, r) := records in
  _ ← flush_result (rr_bump (rr_set_collected
        (collected_columns o (bt_budget_violation settlement) now (rr_collected r))
        (rr_set_sched (rs_set_lease SchedulingState_COLLECTED (rs_lease_owner (rr_sched r))
                         (rs_lease_expires_at (rr_sched r)) (rr_sched r)) r)));
  _ ← update (insert_gold (rr_id r) (co_gold o));
  _ ← verify_gold_assertions (rr_id r) o;
  let counted := cr_set_counts (ct_add 0 1 0 0 (if rm_degraded (co_metrics o) then 1 else 0) 0
                                  (cr_counts c)) c in
  _ ← raise_if (cl_max_runs (cr_life c) <? ct_collected (cr_counts counted))
        (InvariantViolation_code "Campaign collected counter exceeds max_runs"
           "campaign_ledger_mismatch");
  _ ← flush_campaign (cr_bump counted);
  mret {| cp_result_id := rr_id r; cp_digest := co_digest o; cp_duplicate := false;
          cp_budget_violation := bt_budget_violation settlement |}).

(** The usage a failed collection settles from the durable invocations, given the observed cost. *)
Definition billed (l : list Invocation) : list Invocation :=
  base.filter (fun i => iv_provider_called i = true /\ iv_disposition i = Billing_BILLED) l.
Definition possibly_billed (l : list Invocation) : list Invocation :=
  base.filter (fun i => iv_provider_called i = true /\ iv_disposition i = Billing_POSSIBLY_BILLED) l.

(** [Decimal(str(rate[key]))] *)
Definition rate_decimal (v : option rate_value) : res Decimal :=
  match v with
  | None => Raise (KeyError "rate")
  | Some (RateText (Some x)) => Ok x
  | Some _ => Raise (InvalidOperation "ConversionSyntax")
  end.

(** Context arithmetic on finite decimals: the exact result rounded half even to 28 digits. *)
Definition dec_signed (negative : bool) (c : N) : Z := if negative then - Z.of_N c else Z.of_N c.
Definition dec_of (c e : Z) : Decimal :=
  let k := excess_digits (Z.to_nat (Z.log2 (Z.abs c))) (Z.abs c) in
  let m := if k =? 0 then Z.abs c else half_even (Z.abs c) (10 ^ k) in
  Dec (c <? 0) (Z.to_N m) (e + k).
Definition dec_times (n : Z) (d : Decimal) : res Decimal :=
  match d with
  | Dec s c e => Ok (dec_of (n * dec_signed s c) e)
  | DecInfinity s => if n =? 0 then Raise (InvalidOperation "0 * infinity") else Ok (DecInfinity s)
  | DecNaN => Ok DecNaN
  end.
Definition dec_plus (a b : Decimal) : res Decimal :=
  match a, b with
  | Dec s c e, Dec s' c' e' =>
      let m := Z.min e e' in
      Ok (dec_of (dec_signed s c * 10 ^ (e - m) + dec_signed s' c' * 10 ^ (e' - m)) m)
  | DecNaN, _ | _, DecNaN => Ok DecNaN
  | DecInfinity s, DecInfinity s' =>
      if Bool.eqb s s' then Ok (DecInfinity s) else Raise (InvalidOperation "-infinity + infinity")
  | DecInfinity s, _ | _, DecInfinity s => Ok (DecInfinity s)
  end.
Definition dec_per_million (d : Decimal) : Decimal :=
  match d with Dec s c e => Dec s c (e - 6) | _ => d end.

(** [@ src/sana/platform/db/shadow_runner.py SqlShadowRunnerRepository.mark_collector_failure@367-396] *)
Definition failure_usage (rate : CostRateSnapshot) (invocations : list Invocation)
    : res SettlementUsage :=
  let prompt_tokens := sumZ iv_prompt_tokens (billed invocations) in
  let completion_tokens := sumZ iv_completion_tokens (billed invocations) in
  prompt_rate ← rate_decimal (rate_prompt_per_million rate);
  prompt ← dec_times prompt_tokens prompt_rate;
  completion_rate ← rate_decimal (rate_completion_per_million rate);
  completion ← dec_times completion_tokens completion_rate;
  total ← dec_plus prompt completion;
  reserve ← (if Nat.eqb (length (possibly_billed invocations)) 0 then Ok (Dec false 0 0)
             else rate_decimal (rate_possibly_billed_run_reserve rate));
  SettlementUsage_new (Z.of_nat (length (billed invocations))) prompt_tokens completion_tokens
    (dec_per_million total) (Z.of_nat (length (possibly_billed invocations))) reserve.

(** [digest] is the SHA-256 of the canonical failure record. *)
(** [@ src/sana/platform/db/shadow_runner.py SqlShadowRunnerRepository.mark_collector_failure] *)
Definition mark_collector_failure (lease : CollectorLease) (f : RunnerFailure) (digest : pystr)
    (now : Z) : M Sdb RunnerFailureReceipt := transaction (
  _ ← assert_tenant (cw_tenant_id lease);
  records ← locked_budget_records (cw_tenant_id lease) (cw_campaign_id lease) (cw_id lease);
  let '(c, r) := records in
  let s := rr_sched r in
  let k := rr_collected r in
  if rs_state s is SchedulingState_FAILED then
    mret {| rp_result_id := rr_id r;
            rp_possibly_billed := negb (rb_possibly_calls (rr_budget r) =? 0);
            rp_duplicate := true |}
  else
  _ ← raise_if ((rs_state s isnot SchedulingState_SUBMITTED)
                || negb (bool_decide (rs_search_run_id s = Some (cw_search_run_id lease)))
                || negb (bool_decide (rc_lease_owner k = Some (cw_lease_owner lease)))
                || negb (expires_after now (rc_lease_expires_at k))
                || negb (rr_version r =? cw_persisted_version lease)
                || (rr_reservation r isnot ReservationState_ACTIVE))
        (InvariantViolation_code "Collector lease fencing token is stale"
           "collector_lease_fence_lost");
  d ← self;
  let source := match sd_runs d !! cw_search_run_id lease with
                | Some n => if cn_tenant_id n =? cw_tenant_id lease
                            then match cn_completed_at n with
                                 | Some t => Some (t, cn_invocations n)
                                 | None => None
                                 end
                            else None
                | None => None
                end in
  match source with
  | None => raise (InvariantViolation_code "Collector failure cannot seal a non-terminal source"
                     "source_not_terminal")
  | Some (completed_at, invocations) =>
      usage ← lift (failure_usage (cr_cost_rate c) invocations);
      let calls := Z.of_nat (length (base.filter (fun i => iv_provider_called i = true) invocations)) in
      _ ← flush_campaign (cr_bump (cr_set_counts (ct_add 0 0 1 0 0 0 (cr_counts c)) c));
      _ ← flush_result (rr_bump
            (rr_set_budget (rb_set_source (Some completed_at) (rb_source_digest (rr_budget r))
                              (rr_budget r))
            (rr_set_collected (rc_fail f (rc_set None None (rc_attempts k) calls (rc_error_class k)
                                 (rc_error_code k) (rc_failed_phase k) (rc_signal_flags k) k))
            (rr_set_sched (rs_set_lease SchedulingState_FAILED (rs_lease_owner s)
                             (rs_lease_expires_at s) s) r))));
      _ ← settle_run_budget (cw_tenant_id lease) (cw_campaign_id lease) (cw_id lease) digest usage now;
      mret {| rp_result_id := rr_id r;
              rp_possibly_billed := negb (Nat.eqb (length (possibly_billed invocations)) 0);
              rp_duplicate := false |}
  end).

End Store.
