(* ===== verification/CampaignCreate.v ===== *)
(** * CampaignCreate: creating a campaign and materializing its run plan

    [CampaignService] and the value checks of [sana/modules/shadow_campaign/service.py],
    [CampaignSchedulingService.materialize] of [scheduler.py] in the same package, and the inserts
    of [sana/platform/db/shadow_campaign_repository.py]. Canonical JSON texts, SHA-256, [uuid5] and
    fresh ids are parameters; instants that the database stores are microseconds. *)

From Stdlib Require Import String.
From S2P Require Import Prelude Errors PyTime Run Campaign CampaignBudget CampaignPolicy.
From S2P Require Import CampaignPlan CampaignRows CampaignStore.

(** ** Values of the command *)

(** [@ src/sana/modules/shadow_campaign/service.py _require_hex] *)
Definition require_hex (value : pystr) (lengths : list nat) : res pystr :=
  let normalized := ascii_lower (strip value) in
  _ ← fail_if (negb (bool_decide (length normalized ∈ lengths))
               || existsb (fun c => negb (hex_char c)) normalized)
        (ValueError "must be a hex digest");
  Ok normalized.

(** [@ src/sana/modules/shadow_campaign/service.py _require_text] *)
Definition require_text (value : pystr) (maximum : Z) : res pystr :=
  let normalized := strip value in
  _ ← fail_if (bool_decide (normalized = []) || (maximum <? Z.of_nat (length normalized)))
        (ValueError "must contain between 1 and maximum characters");
  Ok normalized.

(** [value.rsplit(separator, 1)[-1]]: what follows the last separator, or the whole value. *)
Fixpoint after_last (separator s : pystr) : option pystr :=
  match s with
  | [] => None
  | _ :: r => match after_last separator r with
              | Some x => Some x
              | None => if bool_decide (take (length separator) s = separator)
                        then Some (drop (length separator) s) else None
              end
  end.

Section Create.
Context (sha256 : pystr -> pystr).

(** [environment_snapshot] is the canonical text of a mapping; [None] is what [freeze_json] refuses
    or an empty one. *)
(** [@ src/sana/modules/shadow_campaign/service.py CampaignProvenance/__post_init__] *)
Definition CampaignProvenance_new (commit : pystr) (source_clean : bool)
    (image_id oci_revision alembic_head config_hash harness_commit : pystr) (harness_clean : bool)
    (fileset_hash schema_version environment_hash : pystr) (environment_snapshot : option pystr)
    : res CampaignProvenance :=
  commit ← require_hex commit [40; 64]%nat;
  harness_commit ← require_hex harness_commit [40; 64]%nat;
  config_hash ← require_hex config_hash [64]%nat;
  fileset_hash ← require_hex fileset_hash [64]%nat;
  environment_hash ← require_hex environment_hash [64]%nat;
  oci_revision ← require_hex oci_revision [40; 64]%nat;
  image_id ← require_text image_id 200;
  let image_digest := default image_id (after_last (u "sha256:") image_id) in
  _ ← fail_if (bool_decide (image_digest = image_id) || negb (Nat.eqb (length image_digest) 64)
               || existsb (fun c => negb (hex_char c)) image_digest)
        (ValueError "candidate_image_id must contain an immutable SHA-256 digest");
  _ ← fail_if (negb (bool_decide (oci_revision = commit)))
        (ValueError "candidate_oci_revision must equal candidate_commit_sha");
  alembic_head ← require_text alembic_head 100;
  schema_version ← require_text schema_version 100;
  match environment_snapshot with
  | None => Raise (ValueError "environment_snapshot must be a non-empty mapping")
  | Some environment =>
      _ ← fail_if (negb (bool_decide (sha256 environment = environment_hash)))
            (ValueError "environment_identity_hash must bind the canonical environment snapshot");
      Ok {| cv_candidate_commit_sha := commit; cv_candidate_source_clean := source_clean;
            cv_candidate_image_id := image_id; cv_candidate_oci_revision := oci_revision;
            cv_alembic_head := alembic_head; cv_candidate_config_hash := config_hash;
            cv_harness_commit_sha := harness_commit; cv_harness_source_clean := harness_clean;
            cv_harness_fileset_hash := fileset_hash;
            cv_collector_schema_version := schema_version;
            cv_environment_identity_hash := environment_hash;
            cv_environment_snapshot := environment |}
  end.

Record CreateCampaignCommand := {
  cq_tenant_id : UUID;
  cq_user_id : UUID;
  cq_name : pystr;
  cq_idempotency_key : pystr;
  cq_profile_version : pystr;
  cq_manifest : ShadowManifest;
  cq_review_rubric : ReviewRubric;
  cq_cost_rate : CostRate;
  cq_provenance : CampaignProvenance;
  cq_retention_until : datetime;
  cq_parent_smoke_campaign_id : option UUID
}.

(** [@ src/sana/modules/shadow_campaign/service.py CreateCampaignCommand/__post_init__] *)
Definition CreateCampaignCommand_new (q : CreateCampaignCommand) : res CreateCampaignCommand :=
  name ← require_text (cq_name q) 200;
  key ← require_text (cq_idempotency_key q) 100;
  profile_version ← require_text (cq_profile_version q) 100;
  _ ← require_aware (cq_retention_until q);
  _ ← fail_if (blank (mf_version (cq_manifest q))) (ValueError "Manifest version cannot be empty");
  _ ← require_hex (mf_sha256 (cq_manifest q)) [64]%nat;
  Ok {| cq_tenant_id := cq_tenant_id q; cq_user_id := cq_user_id q; cq_name := name;
        cq_idempotency_key := key; cq_profile_version := profile_version;
        cq_manifest := cq_manifest q; cq_review_rubric := cq_review_rubric q;
        cq_cost_rate := cq_cost_rate q; cq_provenance := cq_provenance q;
        cq_retention_until := cq_retention_until q;
        cq_parent_smoke_campaign_id := cq_parent_smoke_campaign_id q |}.

(** ** Digests of the assets

    [x.sha256] is the SHA-256 of the canonical text of [x.snapshot()]. *)

(** The payload of the request hash: everything but the idempotency key and the retention. *)
Record RequestIdentity := {
  ri_tenant_id : UUID;
  ri_user_id : UUID;
  ri_name : pystr;
  ri_profile : CampaignProfile;
  ri_profile_hash : pystr;
  ri_gate_policy : GatePolicy;
  ri_gate_policy_hash : pystr;
  ri_manifest : pystr * pystr * Z;
  ri_review_rubric : ReviewRubric;
  ri_review_rubric_hash : pystr;
  ri_cost_rate : CostRate;
  ri_cost_rate_hash : pystr;
  ri_provenance : CampaignProvenance;
  ri_parent_smoke_campaign_id : option UUID;
  ri_parent_smoke_decision_hash : option pystr
}.

Context (profile_text : CampaignProfile -> pystr) (policy_text : GatePolicy -> pystr)
  (rubric_text : ReviewRubric -> pystr) (rate_text : CostRate -> pystr)
  (request_text : RequestIdentity -> pystr).

(** [json.loads(text).get("smoke_only") is True] *)
Context (smoke_only_of : pystr -> bool).

Definition profile_hash (p : CampaignProfile) : pystr := sha256 (profile_text p).
Definition policy_hash (g : GatePolicy) : pystr := sha256 (policy_text g).
Definition rubric_hash (r : ReviewRubric) : pystr := sha256 (rubric_text r).
Definition rate_hash (r : CostRate) : pystr := sha256 (rate_text r).

(** [@ src/sana/modules/shadow_campaign/service.py CampaignService._request_hash] *)
Definition request_hash (q : CreateCampaignCommand) (profile : CampaignProfile) (policy : GatePolicy)
    (rubric : ReviewRubric) (rate : CostRate) (parent_decision_hash : option pystr) : pystr :=
  sha256 (request_text
    {| ri_tenant_id := cq_tenant_id q; ri_user_id := cq_user_id q; ri_name := cq_name q;
       ri_profile := profile; ri_profile_hash := profile_hash profile; ri_gate_policy := policy;
       ri_gate_policy_hash := policy_hash policy;
       ri_manifest := (mf_version (cq_manifest q), mf_sha256 (cq_manifest q),
                       Z.of_nat (length (mf_cases (cq_manifest q))));
       ri_review_rubric := rubric; ri_review_rubric_hash := rubric_hash rubric;
       ri_cost_rate := rate; ri_cost_rate_hash := rate_hash rate;
       ri_provenance := cq_provenance q;
       ri_parent_smoke_campaign_id := cq_parent_smoke_campaign_id q;
       ri_parent_smoke_decision_hash := parent_decision_hash |}).

(** ** The repository *)

Context (scope : UUID).

Definition created_by_key (tenant_id user_id : UUID) (key : pystr) (c : CampaignRow) : Prop :=
  cr_tenant_id c = tenant_id /\ cl_created_by_user_id (cr_life c) = user_id /\
  cz_creation_key (cr_frozen c) = key.

#[local] Instance created_by_key_dec t us k c : Decision (created_by_key t us k c).
Proof. unfold created_by_key. apply _. Defined.

Definition creations (tenant_id user_id : UUID) (key : pystr) (d : Sdb) : list CampaignRow :=
  base.filter (created_by_key tenant_id user_id key) (map_to_list (sd_campaigns d)).*2.

Record ExistingCampaign := {
  xc_id : UUID;
  xc_creation_request_hash : pystr;
  xc_status : CampaignStatus
}.

(** [@ src/sana/platform/db/shadow_campaign_repository.py SqlShadowCampaignRepository.find_creation] *)
Definition find_creation (tenant_id user_id : UUID) (key : pystr) : M Sdb (option ExistingCampaign) :=
  _ ← assert_tenant scope tenant_id;
  d ← self;
  match creations tenant_id user_id key d with
  | [] => mret None
  | [c] => mret (Some {| xc_id := cr_id c;
                         xc_creation_request_hash := cz_creation_request_hash (cr_frozen c);
                         xc_status := cr_status c |})
  | _ => raise (DatabaseError "MultipleResultsFound")
  end.

(** [@ src/sana/platform/db/shadow_campaign_repository.py SqlShadowCampaignRepository.parent_evidence] *)
Definition parent_evidence (tenant_id campaign_id : UUID) : M Sdb (option CampaignRow) :=
  _ ← assert_tenant scope tenant_id;
  d ← self;
  mret (find_campaign tenant_id campaign_id d).

(** A JSON decimal: [format(value, "f")], read back by [Decimal(str(...))]. *)
Definition dec_plain (d : Decimal) : Decimal :=
  match d with
  | Dec s c e => if 0 <? e then Dec s (c * 10 ^ Z.to_N e)%N 0 else d
  | _ => d
  end.
Definition rate_entry (d : Decimal) : option rate_value := Some (RateText (Some (dec_plain d))).

Definition rate_snapshot (r : CostRate) : CostRateSnapshot :=
  {| rate_prompt_per_million := rate_entry (cx_prompt_per_million r);
     rate_completion_per_million := rate_entry (cx_completion_per_million r);
     rate_possibly_billed_run_reserve := rate_entry (cx_possibly_billed_run_reserve r);
     rate_run_reservation := match cx_run_reservation r with
                             | Some v => rate_entry v
                             | None => None
                             end |}.

(** A finite positive amount stored in a [Numeric(20, 10)]. *)
Definition stored_money (d : Decimal) : money :=
  match d with Dec s c e => if s then - quanta_half_up c e else quanta_half_up c e | _ => 0 end.

Definition ledger_zero : CampaignLedger :=
  {| lg_observed_calls := 0; lg_possibly_calls := 0; lg_reserved_calls := 0; lg_prompt_tokens := 0;
     lg_completion_tokens := 0; lg_observed_cost := 0; lg_possibly_cost := 0; lg_reserved_cost := 0 |}.
Definition counts_zero : CampaignCounts :=
  {| ct_submitted := 0; ct_collected := 0; ct_failed := 0; ct_skipped := 0; ct_degraded := 0;
     ct_possibly_billed := 0 |}.

(** The fields of a creation that reach the row. *)
(** [@ src/sana/modules/shadow_campaign/service.py CampaignCreation] *)
Record CampaignCreation := {
  ca_id : UUID;
  ca_command : CreateCampaignCommand;
  ca_request_hash : pystr;
  ca_profile : CampaignProfile;
  ca_gate_policy : GatePolicy;
  ca_review_rubric : ReviewRubric;
  ca_cost_rate : CostRate;
  ca_parent_decision_hash : option pystr
}.

Definition created_row (x : CampaignCreation) : CampaignRow :=
  let q := ca_command x in
  {| cr_life := {| cl_id := ca_id x; cl_tenant_id := cq_tenant_id q;
                   cl_created_by_user_id := cq_user_id q; cl_max_runs := pf_max_runs (ca_profile x);
                   cl_planned_count := 0; cl_status := CampaignStatus_CREATED;
                   cl_gate_status := GateStatus_PENDING; cl_stop_intent := StopIntent_NONE;
                   cl_stop_reason := None; cl_started_at := None; cl_review_deadline_at := None;
                   cl_completed_at := None; cl_version := 0; cl_persisted_version := 0 |};
     cr_max_concurrency := pf_max_concurrency (ca_profile x);
     cr_admission_ceiling := pf_admission_ceiling (ca_profile x);
     cr_structural_ceiling := pf_structural_ceiling (ca_profile x);
     cr_cost_stop_threshold := stored_money (pf_cost_stop_threshold (ca_profile x));
     cr_cost_rate := rate_snapshot (ca_cost_rate x);
     cr_schema_version := cv_collector_schema_version (cq_provenance q);
     cr_frozen :=
       {| cz_creation_key := cq_idempotency_key q; cz_creation_request_hash := ca_request_hash x;
          cz_profile_version := pf_version (ca_profile x);
          cz_profile_hash := profile_hash (ca_profile x);
          cz_profile_snapshot := profile_text (ca_profile x);
          cz_gate_policy_version := gp_version (ca_gate_policy x);
          cz_gate_policy_hash := policy_hash (ca_gate_policy x);
          cz_gate_policy_snapshot := policy_text (ca_gate_policy x);
          cz_manifest_version := mf_version (cq_manifest q);
          cz_manifest_hash := mf_sha256 (cq_manifest q);
          cz_review_rubric_hash := rubric_hash (ca_review_rubric x);
          cz_cost_rate_hash := rate_hash (ca_cost_rate x);
          cz_provenance := cq_provenance q; cz_repetitions := pf_repetitions (ca_profile x);
          cz_parent_campaign_id := cq_parent_smoke_campaign_id q;
          cz_parent_decision_hash := ca_parent_decision_hash x; cz_decision_hash := None |};
     cr_ledger := ledger_zero; cr_counts := counts_zero |}.

(** [INSERT ... ON CONFLICT (tenant, owner, key) DO NOTHING]: [false] when the key is taken. *)
(** [@ src/sana/platform/db/shadow_campaign_repository.py SqlShadowCampaignRepository.add] *)
Definition campaigns_add (x : CampaignCreation) : M Sdb bool :=
  let q := ca_command x in
  let row := created_row x in
  _ ← assert_tenant scope (cq_tenant_id q);
  d ← self;
  if negb (bool_decide (creations (cq_tenant_id q) (cq_user_id q) (cq_idempotency_key q) d = []))
  then mret false else
  _ ← raise_if (negb (is_none (sd_campaigns d !! ca_id x))) (DatabaseError "shadow_campaigns_pkey");
  _ ← raise_if (negb (Bool.eqb (is_none (cq_parent_smoke_campaign_id q))
                        (is_none (ca_parent_decision_hash x))))
        (DatabaseError "parent_smoke_pair");
  _ ← flush_campaign row;
  mret true.

(** ** Creating *)

Record CampaignCreationReceipt := {
  cy_id : UUID;
  cy_status : CampaignStatus;
  cy_request_hash : pystr;
  cy_duplicate : bool
}.

(** [@ src/sana/modules/shadow_campaign/service.py CampaignService._duplicate_or_conflict] *)
Definition duplicate_or_conflict (existing : ExistingCampaign) (request_hash : pystr)
    : res CampaignCreationReceipt :=
  _ ← fail_if (negb (bool_decide (xc_creation_request_hash existing = request_hash)))
        (InvariantViolation_code
           "Idempotency-Key was already used with a different campaign payload"
           "idempotency_conflict");
  Ok {| cy_id := xc_id existing; cy_status := xc_status existing; cy_request_hash := request_hash;
        cy_duplicate := true |}.

(** [@ src/sana/modules/shadow_campaign/service.py CampaignService._validate_manifest_profile] *)
Definition validate_manifest_profile (m : ShadowManifest) (profile : CampaignProfile)
    (policy : GatePolicy) : res unit :=
  let expected_kind := if pf_smoke_only profile then GateKind_SMOKE else GateKind_FULL in
  _ ← fail_if (gp_kind policy isnot expected_kind)
        (InvariantViolation_code "Campaign profile and gate policy kind differ"
           "profile_policy_mismatch");
  let selected := Z.of_nat (length (if pf_smoke_only profile then smoke_cases m else mf_cases m)) in
  fail_if (negb (selected * pf_repetitions profile =? pf_max_runs profile))
    (InvariantViolation_code "Manifest selection does not match the locked campaign run count"
       "manifest_profile_mismatch").

(** The fields that a parent must share with the command: all of the provenance but the text of the
    environment, whose hash is compared. *)
Definition comparable (v : CampaignProvenance) :=
  (cv_candidate_commit_sha v, cv_candidate_source_clean v, cv_candidate_image_id v,
   cv_candidate_oci_revision v, cv_alembic_head v, cv_candidate_config_hash v,
   cv_harness_commit_sha v, cv_harness_source_clean v, cv_harness_fileset_hash v,
   cv_collector_schema_version v, cv_environment_identity_hash v).

(** [@ src/sana/modules/shadow_campaign/service.py CampaignService._resolve_parent] *)
Definition resolve_parent (q : CreateCampaignCommand) (profile : CampaignProfile)
    (rubric : ReviewRubric) (rate : CostRate) : M Sdb (option CampaignRow) :=
  if pf_smoke_only profile then
    _ ← raise_if (negb (is_none (cq_parent_smoke_campaign_id q)))
          (InvariantViolation_code "Smoke campaigns cannot have a parent campaign"
             "unexpected_parent_smoke");
    mret None
  else
  match cq_parent_smoke_campaign_id q with
  | None => raise (InvariantViolation_code "Full campaigns require a passed parent smoke campaign"
                     "parent_smoke_required")
  | Some parent_id =>
      _ ← raise_if (negb (cv_candidate_source_clean (cq_provenance q)
                          && cv_harness_source_clean (cq_provenance q)))
            (InvariantViolation_code "Full campaigns require clean source trees"
               "dirty_full_campaign_source");
      parent ← parent_evidence (cq_tenant_id q) parent_id;
      match parent with
      | None => raise (InvariantViolation_code "Parent smoke campaign was not found"
                         "parent_smoke_not_found")
      | Some p =>
          let z := cr_frozen p in
          _ ← raise_if ((cr_status p isnot CampaignStatus_COMPLETED)
                        || (cl_gate_status (cr_life p) isnot GateStatus_PASS)
                        || is_none (cz_decision_hash z)
                        || negb (smoke_only_of (cz_profile_snapshot z)))
                (InvariantViolation_code "Parent smoke campaign is not a completed PASS decision"
                   "parent_smoke_not_passed");
          _ ← raise_if (negb (bool_decide (cz_manifest_hash z = mf_sha256 (cq_manifest q))
                              && bool_decide (cz_review_rubric_hash z = rubric_hash rubric)
                              && bool_decide (cz_cost_rate_hash z = rate_hash rate)
                              && bool_decide (comparable (cz_provenance z)
                                              = comparable (cq_provenance q))))
                (InvariantViolation_code
                   "Parent smoke did not certify the exact candidate and harness"
                   "parent_smoke_provenance_mismatch");
          mret (Some p)
      end
  end.

(** [@ src/sana/modules/shadow_campaign/service.py CampaignService.create] *)
Definition campaign_create (catalog : CampaignPolicyCatalog) (q : CreateCampaignCommand)
    (now : datetime) (fresh_id : UUID) : M Sdb CampaignCreationReceipt :=
  _ ← lift (require_aware now);
  ended ← lift (dt_le (cq_retention_until q) now);
  _ ← raise_if ended (InvariantViolation "Campaign retention must end after creation");
  resolved ← lift (catalog_resolve catalog (cq_profile_version q));
  let '(profile, policy) := resolved in
  assets ← lift (resolve_evaluation_assets rubric_hash rate_hash catalog (cq_review_rubric q)
                   (cq_cost_rate q));
  let '(rubric, rate) := assets in
  _ ← lift (validate_manifest_profile (cq_manifest q) profile policy);
  transaction (
  parent ← resolve_parent q profile rubric rate;
  let parent_hash := p ← parent; cz_decision_hash (cr_frozen p) in
  let hash := request_hash q profile policy rubric rate parent_hash in
  existing ← find_creation (cq_tenant_id q) (cq_user_id q) (cq_idempotency_key q);
  match existing with
  | Some x => lift (duplicate_or_conflict x hash)
  | None =>
      inserted ← campaigns_add
        {| ca_id := fresh_id; ca_command := q; ca_request_hash := hash; ca_profile := profile;
           ca_gate_policy := policy; ca_review_rubric := rubric; ca_cost_rate := rate;
           ca_parent_decision_hash := parent_hash |};
      if negb inserted then
        winner ← find_creation (cq_tenant_id q) (cq_user_id q) (cq_idempotency_key q);
        match winner with
        | None => raise (InvariantViolation_code "Campaign idempotency winner was not visible"
                           "idempotency_race_unresolved")
        | Some x => lift (duplicate_or_conflict x hash)
        end
      else mret {| cy_id := fresh_id; cy_status := CampaignStatus_CREATED; cy_request_hash := hash;
                   cy_duplicate := false |}
  end).

(** ** Materializing *)

Definition metrics_zero (minimum_required_facts : Z) : RunMetrics :=
  {| rm_actual_mode := None; rm_run_status := None; rm_answer_quality := None;
     rm_run_stop_reason := None; rm_latency_ms := None;
     rm_minimum_required_facts := minimum_required_facts; rm_fact_total := 0; rm_fact_covered := 0;
     rm_fact_gap := 0; rm_plan_completeness_failure := false; rm_factual_claims := 0;
     rm_nonfactual_claims := 0; rm_cited_factual_claims := 0; rm_valid_citation_chains := 0;
     rm_traceability_violations := 0; rm_oracle_version := None; rm_query_pollution := 0;
     rm_degraded := false; rm_provider_successes := 0; rm_provider_failures := 0 |}.

(** The row inserted for a plan: the columns not listed take their defaults. *)
Definition planned_result (tenant_id campaign_id : UUID) (p : RunPlan) : ResultRow :=
  {| rr_key := {| rk_id := rp_id p; rk_tenant_id := tenant_id; rk_campaign_id := campaign_id;
                  rk_case_id := rp_case_id p; rk_repetition := rp_repetition p;
                  rk_schedule_ordinal := rp_schedule_ordinal p;
                  rk_conversation_key := rp_conversation_key p;
                  rk_message_key := rp_message_key p; rk_request_hash := rp_request_hash p |};
     rr_sched := {| rs_state := SchedulingState_PENDING; rs_lease_owner := None;
                    rs_lease_expires_at := None; rs_conversation_attempts := 0;
                    rs_submission_attempts := 0; rs_conversation_id := None;
                    rs_search_run_id := None; rs_skip_reason := None |};
     rr_budget := {| rb_state := ReservationState_NONE; rb_reserved_calls := 0;
                     rb_reserved_cost := 0; rb_settled_calls := 0; rb_settled_cost := 0;
                     rb_possibly_calls := 0; rb_possibly_cost := 0; rb_prompt_tokens := 0;
                     rb_completion_tokens := 0; rb_reserved_at := None; rb_settled_at := None;
                     rb_released_at := None; rb_violation := false; rb_source_terminal_at := None;
                     rb_source_digest := None |};
     rr_collected := {| rc_lease_owner := None; rc_lease_expires_at := None; rc_attempts := 0;
                        rc_metrics := metrics_zero 0; rc_gold_total := 0; rc_gold_passed := 0;
                        rc_gold_failed := 0; rc_gold_not_applicable := 0; rc_model_calls := 0;
                        rc_error_class := None; rc_error_code := None; rc_failed_phase := None;
                        rc_signal_flags := []; rc_collected_at := None;
                        rc_schema_version := None |};
     rr_version := 0 |}.

(** One [INSERT] of all the rows; a key that is taken, or taken twice, refuses it. *)
Definition results_taken (campaign_id : UUID) (p : RunPlan) (m : gmap Z ResultRow) : bool :=
  negb (is_none (m !! rp_id p))
  || existsb (fun r => (rk_campaign_id (rr_key r) =? campaign_id)
                       && bool_decide (rk_case_id (rr_key r) = rp_case_id p)
                       && (rk_repetition (rr_key r) =? rp_repetition p)) (map_to_list m).*2.

Fixpoint insert_results (tenant_id campaign_id : UUID) (plans : list RunPlan) (m : gmap Z ResultRow)
    : res (gmap Z ResultRow) :=
  match plans with
  | [] => Ok m
  | p :: r =>
      let row := planned_result tenant_id campaign_id p in
      _ ← fail_if (results_taken campaign_id p m) (DatabaseError "shadow_run_results unique");
      _ ← fail_if (negb (result_checks row && (0 <? rp_repetition p) && (0 <? rp_schedule_ordinal p)))
            (DatabaseError "shadow_run_results check constraint");
      insert_results tenant_id campaign_id r (<[rp_id p := row]> m)
  end.

Definition cr_plan (planned : Z) (c : CampaignRow) : CampaignRow :=
  let l := cr_life c in
  cr_set_life
    {| cl_id := cl_id l; cl_tenant_id := cl_tenant_id l;
       cl_created_by_user_id := cl_created_by_user_id l; cl_max_runs := cl_max_runs l;
       cl_planned_count := planned; cl_status := cl_status l; cl_gate_status := cl_gate_status l;
       cl_stop_intent := cl_stop_intent l; cl_stop_reason := cl_stop_reason l;
       cl_started_at := cl_started_at l; cl_review_deadline_at := cl_review_deadline_at l;
       cl_completed_at := cl_completed_at l; cl_version := cl_version l;
       cl_persisted_version := cl_persisted_version l |} c.

(** [evidence] is the row as it was loaded. The row count of a multi-row insert is their number. *)
(** [@ src/sana/platform/db/shadow_campaign_repository.py SqlShadowCampaignRepository.materialize_results] *)
Definition materialize_results (evidence : CampaignRow) (plans : list RunPlan) : M Sdb Z :=
  let tenant_id := cr_tenant_id evidence in
  let campaign_id := cr_id evidence in
  _ ← assert_tenant scope tenant_id;
  d ← self;
  m ← lift (insert_results tenant_id campaign_id plans (sd_results d));
  _ ← update (set_results m);
  d ← self;
  match find_campaign tenant_id campaign_id d with
  | None => raise (InvariantViolation_code "Campaign changed while its run plan was materialized"
                     "materialization_fence_lost")
  | Some c =>
      _ ← raise_if ((cr_status c isnot CampaignStatus_CREATED)
                    || negb (cl_version (cr_life c) =? cl_version (cr_life evidence))
                    || negb (cl_planned_count (cr_life c) =? 0))
            (InvariantViolation_code "Campaign changed while its run plan was materialized"
               "materialization_fence_lost");
      _ ← flush_campaign (cr_bump (cr_plan (Z.of_nat (length plans)) c));
      mret (Z.of_nat (length plans))
  end.

(** The row, and how many results it has. *)
(** [@ src/sana/platform/db/shadow_campaign_repository.py SqlShadowCampaignRepository.scheduling_evidence_for_update] *)
Definition scheduling_evidence_for_update (tenant_id campaign_id : UUID)
    : M Sdb (option (CampaignRow * Z)) :=
  _ ← assert_tenant scope tenant_id;
  d ← self;
  match find_campaign tenant_id campaign_id d with
  | None => mret None
  | Some c => mret (Some (c, Z.of_nat (length (results_of tenant_id campaign_id d))))
  end.

(** [@ src/sana/modules/shadow_campaign/scheduler.py CampaignSchedulingService._verify_frozen_inputs] *)
Definition verify_frozen_inputs (c : CampaignRow) (m : ShadowManifest) (profile : CampaignProfile)
    (policy : GatePolicy) : res unit :=
  let z := cr_frozen c in
  fail_if (negb (bool_decide (cz_profile_hash z = profile_hash profile)
                 && bool_decide (cz_profile_snapshot z = profile_text profile)
                 && bool_decide (cz_gate_policy_version z = gp_version policy)
                 && bool_decide (cz_gate_policy_hash z = policy_hash policy)
                 && bool_decide (cz_gate_policy_snapshot z = policy_text policy)
                 && bool_decide (cz_manifest_version z = mf_version m)
                 && bool_decide (cz_manifest_hash z = mf_sha256 m)
                 && (cz_repetitions z =? pf_repetitions profile)
                 && (cl_max_runs (cr_life c) =? pf_max_runs profile)
                 && (cr_max_concurrency c =? pf_max_concurrency profile)))
    (InvariantViolation_code "Campaign frozen inputs do not match the scheduling harness"
       "campaign_snapshot_mismatch").

Context (sort_digest : UUID -> pystr -> Z -> pystr) (content_sha256 : pystr -> pystr)
  (uuid5 : UUID -> pystr -> UUID).

Record CampaignMaterializationReceipt := {
  cm_campaign_id : UUID;
  cm_planned_count : Z;
  cm_duplicate : bool
}.

(** [@ src/sana/modules/shadow_campaign/scheduler.py CampaignSchedulingService.materialize] *)
Definition campaign_materialize (catalog : CampaignPolicyCatalog) (tenant_id user_id campaign_id : UUID)
    (m : ShadowManifest) (now : datetime) : M Sdb (option CampaignMaterializationReceipt) :=
  _ ← lift (require_aware now);
  transaction (
  evidence ← scheduling_evidence_for_update tenant_id campaign_id;
  match evidence with
  | None => mret None
  | Some (c, result_count) =>
  if negb (cl_created_by_user_id (cr_life c) =? user_id) then mret None else
  resolved ← lift (catalog_resolve catalog (cz_profile_version (cr_frozen c)));
  let '(profile, policy) := resolved in
  _ ← lift (verify_frozen_inputs c m profile policy);
  let planned := cl_planned_count (cr_life c) in
  let max_runs := cl_max_runs (cr_life c) in
  if (planned =? max_runs) && (result_count =? max_runs) then
    mret (Some {| cm_campaign_id := campaign_id; cm_planned_count := max_runs; cm_duplicate := true |})
  else
  _ ← raise_if (cr_status c isnot CampaignStatus_CREATED)
        (InvariantViolation_code "Campaign run plan can only be created before start"
           "campaign_already_started");
  _ ← raise_if (negb (planned =? 0) || negb (result_count =? 0))
        (InvariantViolation_code "Campaign has a partial or corrupt run plan"
           "materialization_state_corrupt");
  plans ← lift (materialize_run_plans sort_digest content_sha256 uuid5 campaign_id m profile
                  (gp_required_reviews policy));
  inserted ← materialize_results c plans;
  _ ← raise_if (negb (inserted =? Z.of_nat (length plans)))
        (InvariantViolation_code "Campaign run materialization was not atomic"
           "materialization_count_mismatch");
  mret (Some {| cm_campaign_id := campaign_id; cm_planned_count := inserted; cm_duplicate := false |})
  end).
End Create.
