(* ===== verification/Collector.v ===== *)
(** * Collector: what a finished run is measured to be

    [sana/modules/shadow_campaign/collector.py] with [evaluate_gold_assertion] of [evaluator.py]: a
    snapshot of the rows of a run is checked to be sealed, and one outcome is derived from it: facts,
    citation chains, gold assertions, usage and cost, and the class of its error. The columns of a
    snapshot are texts, as the database stores them. *)

From Stdlib Require Import SpecFloat String.
From S2P Require Import Prelude Errors PyTime PyData PyStr Regex Transitions Run Coverage Completion Evidence.
From S2P Require Import Campaign CampaignBudget CampaignPolicy CampaignPlan CampaignRows CampaignStore CampaignPlanFacts.

(** ** The rows of a run *)

(** [@ src/sana/modules/shadow_campaign/collector.py SourceFact] *)
Record SourceFact := { sf_id : UUID; sf_required : bool; sf_status : pystr; sf_freshness : pystr; sf_consequence : pystr }.

(** [@ src/sana/modules/shadow_campaign/collector.py SourceQuery] *)
Record SourceQuery := {
  sq_id : UUID;
  sq_fact_requirement_id : option UUID;
  sq_plan_revision : Z;
  sq_provider_class : pystr;
  sq_query_text : pystr
}.

(** [@ src/sana/modules/shadow_campaign/collector.py SourceProviderAttempt] *)
Record SourceProviderAttempt := {
  spa_id : UUID;
  spa_query_spec_id : UUID;
  spa_provider : pystr;
  spa_status : pystr;
  spa_started_at : datetime;
  spa_completed_at : option datetime;
  spa_error_type : option pystr
}.

(** [@ src/sana/modules/shadow_campaign/collector.py SourceStep] *)
Record SourceStep := {
  sst_id : UUID;
  sst_step_key : pystr;
  sst_step_type : pystr;
  sst_plan_revision : Z;
  sst_status : pystr;
  sst_output_bound : bool
}.

(** [@ src/sana/modules/shadow_campaign/collector.py SourceAttempt] *)
Record SourceAttempt := {
  sat_id : UUID;
  sat_step_id : UUID;
  sat_attempt_no : Z;
  sat_started_at : datetime;
  sat_completed_at : option datetime;
  sat_error_type : option pystr
}.

(** [@ src/sana/modules/shadow_campaign/collector.py SourceInvocation] *)
Record SourceInvocation := {
  sin_id : UUID;
  sin_step_id : UUID;
  sin_attempt_id : UUID;
  sin_role : pystr;
  sin_provider : pystr;
  sin_model : pystr;
  sin_call_no : Z;
  sin_status : pystr;
  sin_billing_disposition : pystr;
  sin_provider_called : bool;
  sin_prompt_tokens : Z;
  sin_completion_tokens : Z;
  sin_started_at : datetime;
  sin_completed_at : option datetime;
  sin_error_category : option pystr
}.

(** [@ src/sana/modules/shadow_campaign/collector.py SourceEvidence] *)
Record SourceEvidence := {
  sev_id : UUID;
  sev_candidate_id : UUID;
  sev_fact_requirement_id : UUID;
  sev_document_version_id : UUID;
  sev_document_chunk_id : UUID;
  sev_start_offset : Z;
  sev_end_offset : Z;
  sev_quote_length : Z;
  sev_support_type : pystr;
  sev_source_authority : pystr;
  sev_verdict : pystr;
  sev_confidence : float;
  sev_reason_codes : list pystr;
  sev_verifier_version : pystr;
  sev_verified_at : datetime;
  sev_document_chain_valid : bool
}.

(** [@ src/sana/modules/shadow_campaign/collector.py SourceClaim] *)
Record SourceClaim := {
  scl_id : UUID;
  scl_claim_kind : option pystr;
  scl_fact_requirement_id : option UUID;
  scl_support_status : pystr;
  scl_claim_text : pystr
}.

(** [@ src/sana/modules/shadow_campaign/collector.py SourceCitation] *)
Record SourceCitation := {
  sct_id : UUID;
  sct_answer_claim_id : UUID;
  sct_verified_evidence_id : UUID;
  sct_document_version_id : UUID;
  sct_document_chunk_id : UUID;
  sct_start_offset : Z;
  sct_end_offset : Z;
  sct_quote_length : Z;
  sct_quote_matches_evidence : bool
}.

(** [@ src/sana/modules/shadow_campaign/collector.py SourceOutbox] *)
Record SourceOutbox := {
  sob_id : UUID;
  sob_aggregate_type : pystr;
  sob_aggregate_id : UUID;
  sob_event_type : pystr;
  sob_created_at : datetime;
  sob_published_at : option datetime
}.

(** [@ src/sana/modules/shadow_campaign/collector.py RunSourceSnapshot] *)
Record RunSourceSnapshot := {
  sn_tenant_id : UUID;
  sn_run_id : UUID;
  sn_conversation_id : UUID;
  sn_response_run_id : UUID;
  sn_response_status : pystr;
  sn_output_message_id : option UUID;
  sn_output_message_role : option pystr;
  sn_output_message_conversation_id : option UUID;
  sn_answer_text : option pystr;
  sn_mode : pystr;
  sn_status : pystr;
  sn_answer_quality : pystr;
  sn_stop_reason : option pystr;
  sn_created_at : datetime;
  sn_hard_deadline_at : datetime;
  sn_completed_at : option datetime;
  sn_version : Z;
  sn_budget_max_llm_calls : Z;
  sn_recorded_llm_call_count : Z;
  sn_recorded_prompt_tokens : Z;
  sn_recorded_completion_tokens : Z;
  sn_facts : list SourceFact;
  sn_queries : list SourceQuery;
  sn_provider_attempts : list SourceProviderAttempt;
  sn_steps : list SourceStep;
  sn_attempts : list SourceAttempt;
  sn_invocations : list SourceInvocation;
  sn_evidence : list SourceEvidence;
  sn_claims : list SourceClaim;
  sn_citations : list SourceCitation;
  sn_outbox : list SourceOutbox
}.

(** ** Vocabularies *)

Definition schema_version : pystr := u "shadow-collector-v2".

Definition one_of (l : list string) (s : pystr) : bool := bool_decide (s ∈ map u l).
Definition is_text (s : string) (t : pystr) : bool := bool_decide (t = u s).

(** [@ src/sana/modules/shadow_campaign/collector.py _TERMINAL_RUN_STATUSES] *)
Definition terminal_run : pystr -> bool := one_of ["SUCCEEDED"; "FAILED"; "CANCELLED"]%string.
(** [@ src/sana/modules/shadow_campaign/collector.py _TERMINAL_STEP_STATUSES] *)
Definition terminal_step : pystr -> bool := one_of ["SUCCEEDED"; "FAILED"; "SKIPPED"; "CANCELLED"]%string.
(** [@ src/sana/modules/shadow_campaign/collector.py _TERMINAL_INVOCATION_STATUSES] *)
Definition terminal_invocation : pystr -> bool := one_of ["COMPLETED"; "FAILED"; "ABANDONED"; "REUSED"]%string.
(** [@ src/sana/modules/shadow_campaign/collector.py _TERMINAL_PROVIDER_STATUSES] *)
Definition terminal_provider : pystr -> bool := one_of ["SUCCEEDED"; "FAILED"]%string.
(** [@ src/sana/modules/shadow_campaign/collector.py _COVERED_FACT_STATUSES] *)
Definition covered_fact : pystr -> bool := one_of ["COVERED"; "VERIFIED"]%string.
(** [@ src/sana/modules/shadow_campaign/collector.py _VALID_CLAIM_KINDS] *)
Definition valid_claim_kind : pystr -> bool := one_of ["FACTUAL"; "UNCERTAINTY"; "COMMENTARY"]%string.
(** [@ src/sana/modules/shadow_campaign/collector.py _VALID_BILLING] *)
Definition valid_billing : pystr -> bool := one_of ["NOT_BILLED"; "BILLED"; "POSSIBLY_BILLED"]%string.

(** [_MODEL_LIMIT.get(mode)] *)
(** [@ src/sana/modules/shadow_campaign/collector.py _MODEL_LIMIT] *)
Definition model_limit (mode : pystr) : option Z :=
  if is_text "FAST" mode then Some 4 else if is_text "RESEARCH" mode then Some 8 else None.

(** [@ src/sana/modules/shadow_campaign/collector.py _ERROR_CATEGORY] *)
Definition error_categories : list string :=
  ["TRANSIENT"; "PERMANENT"; "BUDGET"; "CONTENT"; "MODEL_OUTPUT"; "CANCELLED"; "INTERNAL"; "INFRASTRUCTURE"]%string.

(** ** The check that a snapshot is sealed *)

(** [@ src/sana/modules/shadow_campaign/collector.py _not_ready] *)
Definition not_ready (message code : string) : exn := InvariantViolation_code message code.

(** [@ src/sana/modules/shadow_campaign/collector.py _validate_time] *)
Definition validate_time (value : datetime) : res unit :=
  match require_aware value with
  | Raise (ValueError _) => Raise (not_ready "Source timestamps are not sealed" "source_timestamp_invalid")
  | r => r
  end.

Definition validate_time_opt (value : option datetime) : res unit :=
  match value with Some t => validate_time t | None => Ok tt end.

Fixpoint for_each {A} (f : A -> res unit) (l : list A) : res unit :=
  match l with [] => Ok tt | x :: r => _ ← f x; for_each f r end.

Definition topology (message : string) : exn := not_ready message "source_topology_invalid".

(** [{item.id for item in items}] has as many members as there are items. *)
Definition distinct_ids {A} (id : A -> UUID) (l : list A) : bool :=
  Nat.eqb (length (dedupe (map id l))) (length l).

(** [@ src/sana/modules/shadow_campaign/collector.py _validate_snapshot@352-372] *)
Definition validate_run (s : RunSourceSnapshot) : res unit :=
  _ ← fail_if (negb (terminal_run (sn_status s))) (not_ready "SearchRun is not terminal" "source_not_terminal");
  _ ← validate_time (sn_created_at s);
  _ ← validate_time (sn_hard_deadline_at s);
  _ ← validate_time_opt (sn_completed_at s);
  bad ← dt_le (sn_hard_deadline_at s) (sn_created_at s);
  _ ← fail_if bad (not_ready "SearchRun deadline is invalid" "source_timestamp_invalid");
  _ ← fail_if (is_none (model_limit (sn_mode s))) (topology "SearchRun mode is invalid");
  fail_if (existsb (fun v => v <? 0)
             [sn_budget_max_llm_calls s; sn_recorded_llm_call_count s; sn_recorded_prompt_tokens s;
              sn_recorded_completion_tokens s])
    (topology "SearchRun usage ledger is invalid").

(** [@ src/sana/modules/shadow_campaign/collector.py _validate_snapshot@374-381] *)
Definition validate_steps (s : RunSourceSnapshot) : res unit :=
  _ ← fail_if (negb (distinct_ids sst_id (sn_steps s))) (topology "SearchRun contains duplicate Step IDs");
  for_each (fun step =>
    _ ← fail_if (negb (terminal_step (sst_status step))) (not_ready "SearchRun has an unsealed Step" "source_not_sealed");
    fail_if (negb (Bool.eqb (is_text "SUCCEEDED" (sst_status step)) (sst_output_bound step)))
      (topology "Step output binding is inconsistent")) (sn_steps s).

(** [@ src/sana/modules/shadow_campaign/collector.py _validate_snapshot@383-390] *)
Definition validate_attempts (s : RunSourceSnapshot) : res unit :=
  _ ← fail_if (negb (distinct_ids sat_id (sn_attempts s))) (topology "SearchRun contains duplicate Attempt IDs");
  for_each (fun attempt =>
    match bool_decide (sat_step_id attempt ∈ map sst_id (sn_steps s)), sat_completed_at attempt with
    | true, Some completed_at => _ ← validate_time (sat_started_at attempt); validate_time completed_at
    | _, _ => Raise (not_ready "SearchRun has an open or orphaned Attempt" "source_not_sealed")
    end) (sn_attempts s).

(** How a call was billed fits what happened to it. *)
(** [@ src/sana/modules/shadow_campaign/collector.py _validate_snapshot@407-428] *)
Definition billing_binds (i : SourceInvocation) : bool :=
  let billing := sin_billing_disposition i in
  negb ((sin_provider_called i && is_text "NOT_BILLED" billing)
        || (negb (sin_provider_called i) && negb (is_text "NOT_BILLED" billing))
        || (is_text "REUSED" (sin_status i) && (sin_provider_called i || negb (is_text "NOT_BILLED" billing)))
        || (is_text "BILLED" billing && negb (is_text "COMPLETED" (sin_status i)))
        || (is_text "POSSIBLY_BILLED" billing && negb (one_of ["FAILED"; "ABANDONED"]%string (sin_status i)))).

(** [attempt_by_id.get(id)] is the attempt of the id: ids are distinct here. *)
(** [@ src/sana/modules/shadow_campaign/collector.py _validate_snapshot@393-433] *)
Definition validate_invocation (s : RunSourceSnapshot) (i : SourceInvocation) : res unit :=
  let attempt := List.find (fun a => sat_id a =? sin_attempt_id i) (sn_attempts s) in
  _ ← fail_if (match attempt with Some a => negb (sat_step_id a =? sin_step_id i) | None => true end)
        (topology "ModelInvocation has an invalid Attempt chain");
  match terminal_invocation (sin_status i), sin_completed_at i with
  | true, Some completed_at =>
      _ ← fail_if (negb (valid_billing (sin_billing_disposition i))) (topology "ModelInvocation billing state is invalid");
      _ ← fail_if (negb (billing_binds i)) (topology "ModelInvocation billing binding is invalid");
      _ ← fail_if (existsb (fun v => v <? 0) [sin_prompt_tokens i; sin_completion_tokens i])
            (topology "ModelInvocation token usage is invalid");
      _ ← validate_time (sin_started_at i);
      validate_time completed_at
  | _, _ => Raise (not_ready "SearchRun has an unsealed ModelInvocation" "source_not_sealed")
  end.

(** [@ src/sana/modules/shadow_campaign/collector.py _validate_snapshot@392-433] *)
Fixpoint validate_invocations (s : RunSourceSnapshot) (seen : list UUID) (l : list SourceInvocation) : res unit :=
  match l with
  | [] => Ok tt
  | i :: r =>
      _ ← fail_if (bool_decide (sin_id i ∈ seen)) (topology "SearchRun contains duplicate Invocation IDs");
      _ ← validate_invocation s i;
      validate_invocations s (sin_id i :: seen) r
  end.

(** [@ src/sana/modules/shadow_campaign/collector.py _validate_snapshot@435-452] *)
Definition validate_planning (s : RunSourceSnapshot) : res unit :=
  _ ← fail_if (negb (distinct_ids sf_id (sn_facts s)) || negb (distinct_ids sq_id (sn_queries s)))
        (topology "SearchRun contains duplicate planning IDs");
  _ ← for_each (fun query =>
        _ ← fail_if (match sq_fact_requirement_id query with
                     | Some f => negb (bool_decide (f ∈ map sf_id (sn_facts s)))
                     | None => true
                     end) (topology "QuerySpec is not bound to a Run Fact");
        fail_if (sq_plan_revision query <? 1) (topology "QuerySpec plan revision is invalid")) (sn_queries s);
  for_each (fun a =>
    match bool_decide (spa_query_spec_id a ∈ map sq_id (sn_queries s)) && terminal_provider (spa_status a), spa_completed_at a with
    | true, Some completed_at => _ ← validate_time (spa_started_at a); validate_time completed_at
    | _, _ => Raise (not_ready "ProviderAttempt is open or orphaned" "source_not_sealed")
    end) (sn_provider_attempts s).

(** [@ src/sana/modules/shadow_campaign/collector.py _validate_snapshot@454-458] *)
Definition validate_outbox (s : RunSourceSnapshot) : res unit :=
  for_each (fun o =>
    match sob_published_at o with
    | None => Raise (not_ready "SearchRun has unpublished related outbox work" "source_outbox_unpublished")
    | Some published_at => _ ← validate_time (sob_created_at o); validate_time published_at
    end) (sn_outbox s).

(** [@ src/sana/modules/shadow_campaign/collector.py _validate_snapshot@471-479] *)
Fixpoint validate_claims (s : RunSourceSnapshot) (seen : list UUID) (l : list SourceClaim) : res unit :=
  match l with
  | [] => Ok tt
  | c :: r =>
      _ ← fail_if (bool_decide (scl_id c ∈ seen)) (topology "SearchRun contains duplicate Claim IDs");
      _ ← fail_if (match scl_claim_kind c with Some k => negb (valid_claim_kind k) | None => true end)
            (not_ready "Claim kind is null or invalid" "source_claim_kind_invalid");
      _ ← fail_if (bool_decide (scl_claim_kind c = Some (u "FACTUAL")) &&
                   match scl_fact_requirement_id c with
                   | Some f => negb (bool_decide (f ∈ map sf_id (sn_facts s)))
                   | None => true
                   end) (not_ready "Factual Claim has no valid Run Fact" "source_claim_fact_invalid");
      validate_claims s (scl_id c :: seen) r
  end.

Section Unicode.
Context `{Unicode}.

(** [@ src/sana/modules/shadow_campaign/collector.py _validate_snapshot@460-469] *)
Definition validate_output (s : RunSourceSnapshot) : res unit :=
  fail_if (is_text "SUCCEEDED" (sn_status s) &&
           negb (is_text "SUCCEEDED" (sn_response_status s) && negb (is_none (sn_output_message_id s))
                 && match sn_output_message_role s with Some r => is_text "assistant" (casefold r) | None => false end
                 && bool_decide (sn_output_message_conversation_id s = Some (sn_conversation_id s))
                 && negb (is_none (sn_answer_text s))))
    (not_ready "Successful SearchRun output is incomplete" "source_output_incomplete").

(** [@ src/sana/modules/shadow_campaign/collector.py _validate_snapshot] *)
Definition validate_snapshot (s : RunSourceSnapshot) : res unit :=
  _ ← validate_run s;
  _ ← validate_steps s;
  _ ← validate_attempts s;
  _ ← validate_invocations s [] (sn_invocations s);
  _ ← validate_planning s;
  _ ← validate_outbox s;
  _ ← validate_output s;
  validate_claims s [] (sn_claims s).

(** ** Gold assertions *)

(** What an assertion expects. A scalar is kept as its [str]; the bounds of a range are finite. *)
Inductive GoldExpectation :=
| NormalizedContainsAll (expected : list pystr)
| NormalizedEquals (expected : pystr)
| NumberInRange (minimum maximum : Decimal)
| SetContains (expected : list pystr)
| SourceClassAtLeast (expected : SourceAuthority).

(** [@ src/sana/modules/shadow_campaign/manifest.py GoldAssertion@96-100] *)
Record GoldAssertion := { gx_id : pystr; gx_expectation : GoldExpectation; gx_critical : bool }.

(** [@ src/sana/modules/shadow_campaign/manifest.py GoldAssertion.__post_init__] *)
Definition GoldAssertion_new (g : GoldAssertion) : res GoldAssertion :=
  let assertion_id := strip (gx_id g) in
  _ ← fail_if (bool_decide (assertion_id = []) || (100 <? len assertion_id))
        (ValueError "Gold assertion ID must contain between 1 and 100 characters");
  _ ← (match gx_expectation g with
       | NormalizedContainsAll l | SetContains l =>
           fail_if (bool_decide (l = []) || existsb blank l) (ValueError "expects non-empty string values")
       | NumberInRange minimum maximum =>
           _ ← fail_if (negb (dec_is_finite minimum)) (ValueError "number range min must be finite");
           _ ← fail_if (negb (dec_is_finite maximum)) (ValueError "number range max must be finite");
           bad ← dec_lt maximum minimum;
           fail_if bad (ValueError "number range min cannot exceed max")
       | NormalizedEquals _ | SourceClassAtLeast _ => Ok tt
       end);
  Ok {| gx_id := assertion_id; gx_expectation := gx_expectation g; gx_critical := gx_critical g |}.

(** What is compared: the joined texts, the texts, or a class of sources. *)
Inductive actual_value := ActualText (t : pystr) | ActualTexts (l : list pystr).

(** [@ src/sana/modules/shadow_campaign/evaluator.py _normalized_text] *)
Definition normalized_text (value : pystr) : pystr :=
  re_sub no_flags (strip (casefold (uni_nfkc value))) (re "\s+") (fun _ => u " ").

(** [SourceAuthority(value)], and its rank. *)
Definition authority_of (value : pystr) : option SourceAuthority :=
  List.find (fun a => bool_decide (SourceAuthority_value a = value)) all_authorities.
(** [@ src/sana/modules/shadow_campaign/evaluator.py evaluate_gold_assertion@104-108] *)
Definition source_rank (a : SourceAuthority) : Z :=
  match a with SourceAuthority_UNKNOWN => 0 | SourceAuthority_INDEPENDENT => 1 | SourceAuthority_OFFICIAL => 2 end.

(** [decimal_of_text] is [Decimal(text)], when the text is a number. *)
Context (decimal_of_text : pystr -> option Decimal).

(** [@ src/sana/modules/shadow_campaign/evaluator.py _decimal] *)
Definition gold_decimal (value : pystr) : res Decimal :=
  match decimal_of_text (strip value) with
  | None => Raise (ValueError "Gold assertion value is not numeric")
  | Some d => _ ← fail_if (negb (dec_is_finite d)) (ValueError "Gold assertion value must be finite"); Ok d
  end.

(** A sequence of texts has no use but in [set_contains]: the collector gives it to no other operator, and
    its [str] is left out. *)
(** [@ src/sana/modules/shadow_campaign/evaluator.py evaluate_gold_assertion] *)
Definition evaluate_gold_assertion (expected : GoldExpectation) (actual : actual_value) : res bool :=
  match expected, actual with
  | NormalizedContainsAll l, ActualText t => Ok (forallb (fun item => str_in (normalized_text item) (normalized_text t)) l)
  | NormalizedEquals e, ActualText t => Ok (bool_decide (normalized_text t = normalized_text e))
  | NumberInRange minimum maximum, ActualText t =>
      value ← gold_decimal t;
      low ← dec_le minimum value;
      match low with true => dec_le value maximum | false => Ok false end
  | SetContains _, ActualText _ => Ok false
  | SetContains l, ActualTexts texts =>
      Ok (forallb (fun item => bool_decide (normalized_text item ∈ map normalized_text texts)) l)
  | SourceClassAtLeast e, ActualText t =>
      Ok (match authority_of t with Some a => source_rank e <=? source_rank a | None => false end)
  | _, ActualTexts _ => Raise (TypeError "a sequence of texts")
  end.

(** ** Citation chains *)

(** [@ src/sana/modules/shadow_campaign/collector.py _valid_citation] *)
Definition valid_citation (citation : SourceCitation) (claim : SourceClaim) (evidence : option SourceEvidence) : bool :=
  match evidence with
  | None => false
  | Some e =>
      is_text "ACCEPTED" (sev_verdict e)
      && bool_decide (Some (sev_fact_requirement_id e) = scl_fact_requirement_id claim)
      && sev_document_chain_valid e
      && (sct_document_version_id citation =? sev_document_version_id e)
      && (sct_document_chunk_id citation =? sev_document_chunk_id e)
      && (sct_start_offset citation =? sev_start_offset e)
      && (sct_end_offset citation =? sev_end_offset e)
      && (sct_quote_length citation =? sev_quote_length e)
      && sct_quote_matches_evidence citation
      && (0 <=? sct_start_offset citation) && (sct_start_offset citation <? sct_end_offset citation)
      && (sct_end_offset citation - sct_start_offset citation =? sct_quote_length citation)
  end.

(** [{item.id: item for item in items}.get(id)]: the last of an id. *)
Definition last_of {A} (id : A -> UUID) (l : list A) (i : UUID) : option A := List.find (fun x => id x =? i) (rev l).

(** [valid_by_claim], [cited_claim_ids] and [invalid_chain_claim_ids]. *)
Record Chains := { ch_valid : list (UUID * list SourceEvidence); ch_cited : list UUID; ch_invalid : list UUID }.

(** [@ src/sana/modules/shadow_campaign/collector.py collect_run_snapshot@798-807] *)
Fixpoint trace_citations (s : RunSourceSnapshot) (l : list SourceCitation) (c : Chains) : res Chains :=
  match l with
  | [] => Ok c
  | citation :: r =>
      match last_of scl_id (sn_claims s) (sct_answer_claim_id citation) with
      | None => Raise (not_ready "Citation references an unknown Run Claim" "source_citation_claim_invalid")
      | Some claim =>
          let evidence := last_of sev_id (sn_evidence s) (sct_verified_evidence_id citation) in
          let cited := scl_id claim :: ch_cited c in
          trace_citations s r
            (match valid_citation citation claim evidence, evidence with
             | true, Some e =>
                 {| ch_valid := dset (scl_id claim) (default [] (dget (scl_id claim) (ch_valid c)) ++ [e]) (ch_valid c);
                    ch_cited := cited; ch_invalid := ch_invalid c |}
             | _, _ => {| ch_valid := ch_valid c; ch_cited := cited; ch_invalid := scl_id claim :: ch_invalid c |}
             end)
      end
  end.

Definition chains_of (c : Chains) (claim_id : UUID) : list SourceEvidence := default [] (dget claim_id (ch_valid c)).

Definition factual (c : SourceClaim) : bool := bool_decide (scl_claim_kind c = Some (u "FACTUAL")).
Definition factual_claims (s : RunSourceSnapshot) : list SourceClaim := base.filter (fun c => factual c = true) (sn_claims s).

Definition count {A} (f : A -> bool) (l : list A) : Z := Z.of_nat (length (base.filter (fun x => f x = true) l)).

(** [@ src/sana/modules/shadow_campaign/collector.py collect_run_snapshot@812-815] *)
Definition violates (c : Chains) (claim : SourceClaim) : bool :=
  bool_decide (chains_of c (scl_id claim) = []) || bool_decide (scl_id claim ∈ ch_invalid c).

(** [@ src/sana/modules/shadow_campaign/collector.py collect_run_snapshot@816-820] *)
Definition valid_evidence (s : RunSourceSnapshot) (c : Chains) : list SourceEvidence :=
  flat_map (fun claim => chains_of c (scl_id claim)) (factual_claims s).

(** ** Gold results *)

(** [max(values, key=rank, default="UNKNOWN")]: the first of the greatest rank. *)
Definition best_authority (values : list pystr) : pystr :=
  let rank v := match authority_of v with Some a => source_rank a | None => -1 end in
  match values with
  | [] => u "UNKNOWN"
  | x :: r => foldl (fun best v => if rank best <? rank v then v else best) x r
  end.

(** [@ src/sana/modules/shadow_campaign/collector.py _assertion_actual] *)
Definition assertion_actual (e : GoldExpectation) (claims : list SourceClaim) (valid : list SourceEvidence) : actual_value :=
  match e with
  | SetContains _ => ActualTexts (map scl_claim_text claims)
  | SourceClassAtLeast _ => ActualText (best_authority (map sev_source_authority valid))
  | _ => ActualText (str_join [10] (map scl_claim_text claims))
  end.

Definition gold_result (g : GoldAssertion) (status : GoldAssertionStatus) (reason : string) : GoldAssertionResult :=
  {| ga_assertion_id := gx_id g; ga_critical := gx_critical g; ga_status := status; ga_reason_code := u reason |}.

(** [except (TypeError, ValueError, ArithmeticError)] *)
(** [@ src/sana/modules/shadow_campaign/collector.py _gold_results@550-568] *)
Definition assertion_result (claims : list SourceClaim) (valid : list SourceEvidence) (g : GoldAssertion) : res GoldAssertionResult :=
  match evaluate_gold_assertion (gx_expectation g) (assertion_actual (gx_expectation g) claims valid) with
  | Ok true => Ok (gold_result g GoldAssertion_PASS "assertion_passed")
  | Ok false => Ok (gold_result g GoldAssertion_FAIL "actual_value_mismatch")
  | Raise (TypeError _ | ValueError _ | InvalidOperation _ | OverflowError _) =>
      Ok (gold_result g GoldAssertion_FAIL "actual_value_invalid")
  | Raise e => Raise e
  end.

(** The assertions of a case, of which [ShadowCase] keeps the ids, are the argument [assertions]. *)
(** [@ src/sana/modules/shadow_campaign/collector.py _gold_results] *)
Definition gold_results (case : ShadowCase) (assertions : list GoldAssertion) (claims : list SourceClaim)
    (valid : list SourceEvidence) (terminal_at : datetime) : res (list GoldAssertionResult) :=
  if negb (deterministic case) then Ok [] else
  inside ← (match sc_valid_from case, sc_valid_until case with
            | Some from, Some until =>
                after ← dt_le from terminal_at;
                match after with true => dt_le terminal_at until | false => Ok false end
            | _, _ => Ok false
            end);
  match inside with
  | true => traverse (assertion_result claims valid) assertions
  | false => Ok (map (fun g => gold_result g GoldAssertion_NOT_APPLICABLE "oracle_window_invalid") assertions)
  end.

(** ** The class of an error *)

Definition signal_if (b : bool) (s : string) : list pystr := if b then [u s] else [].

(** [@ src/sana/modules/shadow_campaign/collector.py _categories] *)
Definition categories (s : RunSourceSnapshot) : list pystr :=
  base.filter (fun c => one_of error_categories c = true)
    (omap spa_error_type (sn_provider_attempts s) ++ omap sat_error_type (sn_attempts s)
     ++ omap sin_error_category (sn_invocations s)).

(** [sorted(phases)[0]] *)
(** [@ src/sana/modules/shadow_campaign/collector.py _failed_phase] *)
Definition failed_phase (s : RunSourceSnapshot) : option pystr :=
  let type_of step_id := sst_step_type <$> last_of sst_id (sn_steps s) step_id in
  let phases :=
    omap (fun a => if is_none (sat_error_type a) then None else type_of (sat_step_id a)) (sn_attempts s)
    ++ omap (fun i => if is_none (sin_error_category i) then None else type_of (sin_step_id i)) (sn_invocations s)
    ++ signal_if (existsb (fun a => is_text "FAILED" (spa_status a)) (sn_provider_attempts s)) "DISCOVERY" in
  match py_sorted pystr_ltb phases with
  | phase :: _ => Some phase
  | [] => if is_text "SUCCEEDED" (sn_status s) then None else Some (u "RUN")
  end.

(** What a run can signal that is not the candidate's doing. *)
(** [@ src/sana/modules/shadow_campaign/collector.py _classification@634-646] *)
Definition soft_signals : list pystr := map u
  ["permanent_configuration"; "infrastructure_failure"; "provider_transient"; "content_gap"; "unclassified_terminal_failure";
   "source_terminal_timestamp_invalid"]%string.

Definition is_in (s : string) (l : list pystr) : bool := bool_decide (u s ∈ l).
Definition stopped (s : RunSourceSnapshot) (reason : string) : bool := bool_decide (sn_stop_reason s = Some (u reason)).

(** The signals of the rows, beside those of the measurement. *)
(** [@ src/sana/modules/shadow_campaign/collector.py _classification@607-632] *)
Definition run_signals (s : RunSourceSnapshot) (fact_gap : Z) (time_invalid : bool) : list pystr :=
  signal_if (is_in "PERMANENT" (categories s)) "permanent_configuration"
  ++ signal_if (is_in "INTERNAL" (categories s) || is_in "INFRASTRUCTURE" (categories s)) "infrastructure_failure"
  ++ signal_if (is_in "TRANSIENT" (categories s)) "provider_transient"
  ++ signal_if (is_in "CONTENT" (categories s) || negb (fact_gap =? 0)) "content_gap"
  ++ signal_if (is_in "MODEL_OUTPUT" (categories s) || is_in "BUDGET" (categories s)) "candidate_runtime_defect"
  ++ signal_if (stopped s "INFRASTRUCTURE_FAILURE") "infrastructure_failure"
  ++ signal_if (stopped s "PROVIDER_FAILURE") "provider_transient"
  ++ signal_if (stopped s "INSUFFICIENT_EVIDENCE") "content_gap"
  ++ signal_if (stopped s "POLICY_BLOCKED") "candidate_runtime_defect"
  ++ signal_if (is_text "CANCELLED" (sn_status s)) "unexpected_candidate_cancelled"
  ++ signal_if time_invalid "source_terminal_timestamp_invalid".

(** [@ src/sana/modules/shadow_campaign/collector.py _classification] *)
Definition classification (s : RunSourceSnapshot) (candidate_signals : list pystr) (fact_gap : Z) (time_invalid : bool)
    : option ErrorClass * option pystr * list pystr :=
  let signals := candidate_signals ++ run_signals s fact_gap time_invalid in
  let signals := signals ++ signal_if (is_text "FAILED" (sn_status s) && bool_decide (signals = []))
                              "unclassified_terminal_failure" in
  let ordered := py_sorted pystr_ltb (dedupe signals) in
  match base.filter (fun x => x ∉ soft_signals) ordered with
  | code :: _ => (Some ErrorClass_CANDIDATE_DEFECT, Some code, ordered)
  | [] =>
      if is_in "permanent_configuration" signals then (Some ErrorClass_PERMANENT_CONFIGURATION, Some (u "permanent_configuration_error"), ordered)
      else if is_in "infrastructure_failure" signals || is_in "unclassified_terminal_failure" signals || is_in "source_terminal_timestamp_invalid" signals
      then (Some ErrorClass_INFRASTRUCTURE, Some (u "infrastructure_error"), ordered)
      else if is_in "provider_transient" signals then (Some ErrorClass_PROVIDER_TRANSIENT, Some (u "provider_transient_error"), ordered)
      else if is_in "content_gap" signals then (Some ErrorClass_CONTENT_GAP, Some (u "content_gap"), ordered)
      else (None, None, ordered)
  end.

(** ** The digest of the sources *)

(** [canonical_time] is the ISO text of an instant in UTC, with a [Z]; [canonical_digest] is the SHA-256 of
    the sorted JSON text. *)
Context (canonical_time : datetime -> pystr) (canonical_digest : json -> res pystr).

Definition entry (key : string) (v : json) : res (pystr * json) := Ok (u key, v).
Definition text_of (key : string) (s : pystr) : res (pystr * json) := entry key (JStr s).
Definition id_entry (key : string) (i : UUID) : res (pystr * json) := entry key (JStr (str_of_uuid i)).
Definition int_entry (key : string) (n : Z) : res (pystr * json) := entry key (JInt n).
Definition flag (key : string) (b : bool) : res (pystr * json) := entry key (JBool b).
Definition or_null {A} (f : A -> json) (o : option A) : json := match o with Some x => f x | None => JNull end.
Definition id_or_null (key : string) (o : option UUID) : res (pystr * json) := entry key (or_null (fun i => JStr (str_of_uuid i)) o).
Definition text_or_null (key : string) (o : option pystr) : res (pystr * json) := entry key (or_null JStr o).
Definition time_entry (key : string) (d : datetime) : res (pystr * json) :=
  _ ← require_aware d; entry key (JStr (canonical_time d)).
Definition time_or_null (key : string) (o : option datetime) : res (pystr * json) :=
  match o with Some d => time_entry key d | None => entry key JNull end.
Definition object (entries : list (res (pystr * json))) : res json := JObj <$> traverse id entries.

(** [rows(items, fields)]: in the order of the texts of their ids. *)
Definition rows {A} (id : A -> UUID) (fields : A -> list (res (pystr * json))) (items : list A) : res json :=
  JList <$> traverse (fun x => object (fields x))
              (py_sorted (fun a b => pystr_ltb (str_of_uuid (id a)) (str_of_uuid (id b))) items).

(** [@ src/sana/modules/shadow_campaign/collector.py _digest_payload@677-695] *)
Definition run_entries (s : RunSourceSnapshot) : list (res (pystr * json)) :=
  [id_entry "id" (sn_run_id s); id_entry "conversation_id" (sn_conversation_id s);
   id_entry "response_run_id" (sn_response_run_id s); text_of "response_status" (sn_response_status s);
   id_or_null "output_message_id" (sn_output_message_id s); text_of "mode" (sn_mode s); text_of "status" (sn_status s);
   text_of "answer_quality" (sn_answer_quality s); text_or_null "stop_reason" (sn_stop_reason s);
   time_entry "created_at" (sn_created_at s); time_entry "hard_deadline_at" (sn_hard_deadline_at s);
   time_or_null "completed_at" (sn_completed_at s); int_entry "version" (sn_version s);
   int_entry "budget_max_llm_calls" (sn_budget_max_llm_calls s);
   int_entry "recorded_llm_call_count" (sn_recorded_llm_call_count s);
   int_entry "recorded_prompt_tokens" (sn_recorded_prompt_tokens s);
   int_entry "recorded_completion_tokens" (sn_recorded_completion_tokens s)].

Definition fact_entries (f : SourceFact) : list (res (pystr * json)) :=
  [id_entry "id" (sf_id f); flag "required" (sf_required f); text_of "status" (sf_status f);
   text_of "freshness" (sf_freshness f); text_of "consequence" (sf_consequence f)].

(** Without the text of the query. *)
Definition query_entries (q : SourceQuery) : list (res (pystr * json)) :=
  [id_entry "id" (sq_id q); id_or_null "fact_requirement_id" (sq_fact_requirement_id q);
   int_entry "plan_revision" (sq_plan_revision q); text_of "provider_class" (sq_provider_class q)].

Definition provider_entries (a : SourceProviderAttempt) : list (res (pystr * json)) :=
  [id_entry "id" (spa_id a); id_entry "query_spec_id" (spa_query_spec_id a); text_of "provider" (spa_provider a);
   text_of "status" (spa_status a); time_entry "started_at" (spa_started_at a);
   time_or_null "completed_at" (spa_completed_at a); text_or_null "error_type" (spa_error_type a)].

Definition step_entries (x : SourceStep) : list (res (pystr * json)) :=
  [id_entry "id" (sst_id x); text_of "step_key" (sst_step_key x); text_of "step_type" (sst_step_type x);
   int_entry "plan_revision" (sst_plan_revision x); text_of "status" (sst_status x); flag "output_bound" (sst_output_bound x)].

Definition attempt_entries (a : SourceAttempt) : list (res (pystr * json)) :=
  [id_entry "id" (sat_id a); id_entry "step_id" (sat_step_id a); int_entry "attempt_no" (sat_attempt_no a);
   time_entry "started_at" (sat_started_at a); time_or_null "completed_at" (sat_completed_at a);
   text_or_null "error_type" (sat_error_type a)].

Definition invocation_entries (i : SourceInvocation) : list (res (pystr * json)) :=
  [id_entry "id" (sin_id i); id_entry "step_id" (sin_step_id i); id_entry "attempt_id" (sin_attempt_id i);
   text_of "role" (sin_role i); text_of "provider" (sin_provider i); text_of "model" (sin_model i);
   int_entry "call_no" (sin_call_no i); text_of "status" (sin_status i);
   text_of "billing_disposition" (sin_billing_disposition i); flag "provider_called" (sin_provider_called i);
   int_entry "prompt_tokens" (sin_prompt_tokens i); int_entry "completion_tokens" (sin_completion_tokens i);
   time_entry "started_at" (sin_started_at i); time_or_null "completed_at" (sin_completed_at i);
   text_or_null "error_category" (sin_error_category i)].

(** [if not math.isfinite(value): raise ValueError] *)
Definition float_entry (key : string) (x : float) : res (pystr * json) :=
  match x with
  | S754_infinity _ | S754_nan => Raise (ValueError "Float values must be finite")
  | _ => entry key (JFloat x)
  end.

Definition evidence_entries (e : SourceEvidence) : list (res (pystr * json)) :=
  [id_entry "id" (sev_id e); id_entry "candidate_id" (sev_candidate_id e);
   id_entry "fact_requirement_id" (sev_fact_requirement_id e); id_entry "document_version_id" (sev_document_version_id e);
   id_entry "document_chunk_id" (sev_document_chunk_id e); int_entry "start_offset" (sev_start_offset e);
   int_entry "end_offset" (sev_end_offset e); int_entry "quote_length" (sev_quote_length e);
   text_of "support_type" (sev_support_type e); text_of "source_authority" (sev_source_authority e);
   text_of "verdict" (sev_verdict e); float_entry "confidence" (sev_confidence e);
   entry "reason_codes" (JList (map JStr (sev_reason_codes e))); text_of "verifier_version" (sev_verifier_version e);
   time_entry "verified_at" (sev_verified_at e); flag "document_chain_valid" (sev_document_chain_valid e)].

(** Without the text of the claim. *)
Definition claim_entries (c : SourceClaim) : list (res (pystr * json)) :=
  [id_entry "id" (scl_id c); text_or_null "claim_kind" (scl_claim_kind c);
   id_or_null "fact_requirement_id" (scl_fact_requirement_id c); text_of "support_status" (scl_support_status c)].

Definition citation_entries (c : SourceCitation) : list (res (pystr * json)) :=
  [id_entry "id" (sct_id c); id_entry "answer_claim_id" (sct_answer_claim_id c);
   id_entry "verified_evidence_id" (sct_verified_evidence_id c); id_entry "document_version_id" (sct_document_version_id c);
   id_entry "document_chunk_id" (sct_document_chunk_id c); int_entry "start_offset" (sct_start_offset c);
   int_entry "end_offset" (sct_end_offset c); int_entry "quote_length" (sct_quote_length c);
   flag "quote_matches_evidence" (sct_quote_matches_evidence c)].

Definition outbox_entries (o : SourceOutbox) : list (res (pystr * json)) :=
  [id_entry "id" (sob_id o); text_of "aggregate_type" (sob_aggregate_type o); id_entry "aggregate_id" (sob_aggregate_id o);
   text_of "event_type" (sob_event_type o); time_entry "created_at" (sob_created_at o);
   time_or_null "published_at" (sob_published_at o)].

Definition GoldAssertionStatus_value (s : GoldAssertionStatus) : pystr :=
  u match s with GoldAssertion_PASS => "PASS" | GoldAssertion_FAIL => "FAIL" | GoldAssertion_NOT_APPLICABLE => "NOT_APPLICABLE" end.

(** [@ src/sana/modules/shadow_campaign/collector.py _digest_payload@731-747] *)
Definition derived (pollution violations : Z) (gold : list GoldAssertionResult) (flags : list pystr) : json :=
  let gold_dict g := JObj [(u "assertion_id", JStr (ga_assertion_id g)); (u "critical", JBool (ga_critical g));
                           (u "status", JStr (GoldAssertionStatus_value (ga_status g)));
                           (u "reason_code", JStr (ga_reason_code g))] in
  JObj [(u "query_pollution_count", JInt pollution); (u "traceability_violation_count", JInt violations);
        (u "gold_assertions", JList (map gold_dict
           (py_sorted (fun a b => pystr_ltb (ga_assertion_id a) (ga_assertion_id b)) gold)));
        (u "error_signal_flags", JList (map JStr flags))].

(** [@ src/sana/modules/shadow_campaign/collector.py _digest_payload] *)
Definition digest_payload (s : RunSourceSnapshot) (o : CollectionOutcome) : res json :=
  let part (key : string) (r : res json) := v ← r; entry key v in
  object [text_of "schema" (co_schema_version o); id_entry "tenant_id" (sn_tenant_id s);
          part "run"%string (object (run_entries s)); part "facts"%string (rows sf_id fact_entries (sn_facts s));
          part "queries"%string (rows sq_id query_entries (sn_queries s));
          part "provider_attempts"%string (rows spa_id provider_entries (sn_provider_attempts s));
          part "steps"%string (rows sst_id step_entries (sn_steps s));
          part "attempts"%string (rows sat_id attempt_entries (sn_attempts s));
          part "invocations"%string (rows sin_id invocation_entries (sn_invocations s));
          part "evidence"%string (rows sev_id evidence_entries (sn_evidence s));
          part "claims"%string (rows scl_id claim_entries (sn_claims s));
          part "citations"%string (rows sct_id citation_entries (sn_citations s));
          part "outbox"%string (rows sob_id outbox_entries (sn_outbox s));
          entry "derived" (derived (rm_query_pollution (co_metrics o)) (rm_traceability_violations (co_metrics o))
                             (co_gold o) (co_signal_flags o))].

Definition schema_mismatch : exn :=
  InvariantViolation_code "Collector schema version is not implemented by this harness" "collector_schema_version_mismatch".

(** [@ src/sana/modules/shadow_campaign/collector.py source_snapshot_digest] *)
Definition source_snapshot_digest (s : RunSourceSnapshot) (o : CollectionOutcome) : res pystr :=
  _ ← fail_if (negb (bool_decide (co_schema_version o = schema_version))) schema_mismatch;
  payload ← digest_payload s o;
  canonical_digest payload.

(** ** The collection *)

(** [@ src/sana/modules/shadow_campaign/collector.py _normalize] *)
Definition normalize (value : pystr) : pystr :=
  strip (re_sub no_flags (casefold (uni_nfkc value)) (re "\s+") (fun _ => u " ")).

(** [@ src/sana/modules/shadow_campaign/collector.py collect_run_snapshot@822-826] *)
Definition polluted (case : ShadowCase) (q : SourceQuery) : bool :=
  existsb (fun term => let term := normalize term in
                       negb (bool_decide (term = [])) && str_in term (normalize (sq_query_text q)))
    (sc_forbidden_query_terms case).

Definition called_and (disposition : string) (i : SourceInvocation) : bool :=
  sin_provider_called i && is_text disposition (sin_billing_disposition i).
Definition sum_of {A} (f : A -> Z) (p : A -> bool) (l : list A) : Z := sumZ f (base.filter (fun x => p x = true) l).

(** [@ src/sana/modules/shadow_campaign/collector.py collect_run_snapshot@841-867] *)
Definition usage_of (rate : CostRate) (l : list SourceInvocation) : res SettlementUsage :=
  let prompt_tokens := sum_of sin_prompt_tokens (called_and "BILLED") l in
  let completion_tokens := sum_of sin_completion_tokens (called_and "BILLED") l in
  let possibly := count (called_and "POSSIBLY_BILLED") l in
  prompt ← dec_times prompt_tokens (cx_prompt_per_million rate);
  completion ← dec_times completion_tokens (cx_completion_per_million rate);
  total ← dec_plus prompt completion;
  SettlementUsage_new (count (called_and "BILLED") l) prompt_tokens completion_tokens (dec_per_million total) possibly
    (if possibly =? 0 then dec_zero else cx_possibly_billed_run_reserve rate).

Definition SearchMode_text (m : SearchMode) : pystr := u match m with SearchMode_FAST => "FAST" | SearchMode_RESEARCH => "RESEARCH" end.

(** [@ src/sana/modules/shadow_campaign/collector.py collect_run_snapshot@895-909] *)
Definition source_class_missing (case : ShadowCase) (s : RunSourceSnapshot) (valid : list SourceEvidence) : bool :=
  let pool := if answerable case then valid else base.filter (fun e => sev_document_chain_valid e = true) (sn_evidence s) in
  negb (forallb (fun required => existsb (fun e => bool_decide (sev_source_authority e = SourceAuthority_value required)) pool)
          (sc_required_source_classes case)).

(** The signals of what was measured. *)
(** [@ src/sana/modules/shadow_campaign/collector.py collect_run_snapshot@869-912] *)
Definition measured_signals (case : ShadowCase) (s : RunSourceSnapshot) (limit : Z) (plan_failure : bool)
    (violations pollution : Z) (valid : list SourceEvidence) (gold : list GoldAssertionResult) : list pystr :=
  let called := count sin_provider_called (sn_invocations s) in
  let billed f := sum_of f (called_and "BILLED") (sn_invocations s) in
  signal_if plan_failure "plan_completeness_failure"
  ++ signal_if (negb (violations =? 0)) "citation_traceability_violation"
  ++ signal_if (existsb (fun c => match last_of scl_id (sn_claims s) (sct_answer_claim_id c) with
                                  | Some claim => negb (factual claim)
                                  | None => true
                                  end) (sn_citations s)) "nonfactual_citation"
  ++ signal_if (negb (pollution =? 0)) "query_pollution"
  ++ signal_if (limit <? called) "model_call_budget_exceeded"
  ++ signal_if (negb (sn_budget_max_llm_calls s =? limit)) "run_budget_snapshot_mismatch"
  ++ signal_if (negb ((sn_recorded_llm_call_count s =? called) && (sn_recorded_prompt_tokens s =? billed sin_prompt_tokens)
                      && (sn_recorded_completion_tokens s =? billed sin_completion_tokens))) "model_invocation_ledger_mismatch"
  ++ signal_if (existsb (fun g => ga_status g is GoldAssertion_FAIL) gold) "gold_assertion_failure"
  ++ signal_if (sc_must_not_complete case && is_text "COMPLETE" (sn_answer_quality s)) "unanswerable_marked_complete"
  ++ signal_if (source_class_missing case s valid) "required_source_class_missing"
  ++ signal_if (negb (bool_decide (sn_mode s = SearchMode_text (sc_expected_mode case)))) "mode_mismatch".

(** [int(span.total_seconds() * 1000)] *)
Definition milliseconds (us : Z) : res Z := int_of_float (fmul (total_seconds us) (float_of_Z 1000)).

(** [@ src/sana/modules/shadow_campaign/collector.py collect_run_snapshot@928-947] *)
Definition latency (s : RunSourceSnapshot) (terminal_valid : bool) : res Z :=
  span ← dt_sub (sn_hard_deadline_at s) (sn_created_at s);
  ms ← milliseconds span;
  late ← match sn_completed_at s with Some c => dt_lt (sn_hard_deadline_at s) c | None => Ok false end;
  if negb (is_text "SUCCEEDED" (sn_status s)) && (negb terminal_valid || late) then Ok (ms + 1)
  else match sn_completed_at s, terminal_valid with
       | Some c, true => span ← dt_sub c (sn_created_at s); milliseconds span
       | _, _ => Ok (ms + 1)
       end.

(** The parts of an outcome that the digest is over, before the digest is known. *)
(** [@ src/sana/modules/shadow_campaign/collector.py collect_run_snapshot@786-979] *)
Definition preliminary (s : RunSourceSnapshot) (case : ShadowCase) (assertions : list GoldAssertion) (rate : CostRate)
    (oracle_version : option pystr) (limit : Z) : res CollectionOutcome :=
  let required := base.filter (fun f => sf_required f = true) (sn_facts s) in
  let fact_total := Z.of_nat (length required) in
  let fact_covered := count (fun f => covered_fact (sf_status f)) required in
  let minimum := sc_minimum_required_facts case in
  let fact_gap := Z.max fact_total minimum - fact_covered in
  let plan_failure := fact_total <? minimum in
  chains ← trace_citations s (sn_citations s) {| ch_valid := []; ch_cited := []; ch_invalid := [] |};
  let factuals := factual_claims s in
  let violations := count (violates chains) factuals in
  let valid := valid_evidence s chains in
  let pollution := count (polluted case) (sn_queries s) in
  terminal_valid ← match sn_completed_at s with Some c => dt_le (sn_created_at s) c | None => Ok false end;
  let terminal_at := match sn_completed_at s, terminal_valid with Some c, true => c | _, _ => sn_hard_deadline_at s end in
  gold ← gold_results case assertions (sn_claims s) valid terminal_at;
  usage ← usage_of rate (sn_invocations s);
  let signals := measured_signals case s limit plan_failure violations pollution valid gold in
  let '(error_class, error_code, flags) := classification s signals fact_gap (negb terminal_valid) in
  let successes := count (fun a => is_text "SUCCEEDED" (spa_status a)) (sn_provider_attempts s) in
  let failures := Z.of_nat (length (sn_provider_attempts s)) - successes in
  let degraded := negb (failures =? 0) || negb (su_possibly_calls usage =? 0)
                  || is_in "provider_transient" flags || is_in "infrastructure_failure" flags in
  latency_ms ← latency s terminal_valid;
  Ok {| co_digest := []; co_schema_version := schema_version; co_terminal_at := dt_us terminal_at;
        co_metrics :=
          {| rm_actual_mode := Some (sn_mode s); rm_run_status := Some (sn_status s);
             rm_answer_quality := Some (sn_answer_quality s); rm_run_stop_reason := sn_stop_reason s;
             rm_latency_ms := Some latency_ms; rm_minimum_required_facts := minimum; rm_fact_total := fact_total;
             rm_fact_covered := fact_covered; rm_fact_gap := fact_gap; rm_plan_completeness_failure := plan_failure;
             rm_factual_claims := Z.of_nat (length factuals);
             rm_nonfactual_claims := Z.of_nat (length (sn_claims s)) - Z.of_nat (length factuals);
             rm_cited_factual_claims := count (fun c => bool_decide (scl_id c ∈ ch_cited chains)) factuals;
             rm_valid_citation_chains := sumZ (fun kv => Z.of_nat (length kv.2)) (ch_valid chains);
             rm_traceability_violations := violations;
             rm_oracle_version := if bool_decide (gold = []) then None else oracle_version;
             rm_query_pollution := pollution; rm_degraded := degraded; rm_provider_successes := successes;
             rm_provider_failures := failures |};
        co_gold := gold; co_model_calls := count sin_provider_called (sn_invocations s); co_usage := usage;
        co_error_class := error_class; co_error_code := error_code; co_failed_phase := failed_phase s;
        co_signal_flags := flags |}.

Definition with_digest (digest : pystr) (o : CollectionOutcome) : CollectionOutcome :=
  {| co_digest := digest; co_schema_version := co_schema_version o; co_terminal_at := co_terminal_at o;
     co_metrics := co_metrics o; co_gold := co_gold o; co_model_calls := co_model_calls o; co_usage := co_usage o;
     co_error_class := co_error_class o; co_error_code := co_error_code o; co_failed_phase := co_failed_phase o;
     co_signal_flags := co_signal_flags o |}.

(** The mode of a validated snapshot has a limit, so the other branch does not happen. *)
(** [@ src/sana/modules/shadow_campaign/collector.py collect_run_snapshot] *)
Definition collect_run_snapshot (s : RunSourceSnapshot) (case : ShadowCase) (assertions : list GoldAssertion)
    (rate : CostRate) (oracle_version : option pystr) (collector_schema_version : pystr) : res CollectionOutcome :=
  _ ← validate_snapshot s;
  _ ← fail_if (negb (bool_decide (collector_schema_version = schema_version))) schema_mismatch;
  match model_limit (sn_mode s) with
  | None => Raise (KeyError "mode")
  | Some limit =>
      o ← preliminary s case assertions rate oracle_version limit;
      digest ← source_snapshot_digest s o;
      Ok (with_digest digest o)
  end.
End Unicode.

(** ** Counting *)

Lemma count_range {A} (f : A -> bool) (l : list A) : 0 <= count f l <= Z.of_nat (length l).
Proof. unfold count. pose proof (length_filter (fun x => f x = true) l). lia. Qed.

Lemma count_cons {A} (f : A -> bool) x (l : list A) : count f (x :: l) = (if f x then 1 else 0) + count f l.
Proof. unfold count. rewrite filter_cons. destruct (f x); simpl; [|done]. lia. Qed.

Lemma count_zero {A} (f : A -> bool) (l : list A) : count f l = 0 <-> forall x, x ∈ l -> f x = false.
Proof.
  induction l as [|x l IH]; [split; [intros _ x Hx; by apply elem_of_nil in Hx|done]|]. rewrite count_cons.
  pose proof (count_range f l). split.
  - destruct (f x) eqn:E; intros Hc; [lia|]. intros y [->|Hy]%elem_of_cons; [done|]. apply IH; [lia|done].
  - intros Hall. rewrite (Hall x) by left. apply IH. intros y Hy. apply Hall. by right.
Qed.

Lemma count_full {A} (f : A -> bool) (l : list A) : count f l = Z.of_nat (length l) -> forall x, x ∈ l -> f x = true.
Proof.
  induction l as [|x l IH]; [intros _ x Hx; by apply elem_of_nil in Hx|]. rewrite count_cons. pose proof (count_range f l).
  intros Hc y Hy. destruct (f x) eqn:E; [|simpl in Hc; lia].
  apply elem_of_cons in Hy as [->|Hy]; [done|]. apply IH; [simpl in Hc; lia|done].
Qed.

Lemma count_full_iff {A} (f : A -> bool) (l : list A) :
  count f l = Z.of_nat (length l) <-> forall x, x ∈ l -> f x = true.
Proof.
  split; [apply count_full|]. induction l as [|x l IH]; intros Hall; [done|].
  rewrite count_cons, (Hall x) by left. rewrite IH; [simpl; lia|]. intros y Hy. apply Hall. by right.
Qed.

Lemma count_ext {A} (f g : A -> bool) (l : list A) : (forall x, x ∈ l -> f x = g x) -> count f l = count g l.
Proof.
  induction l as [|x l IH]; intros Hall; [done|]. rewrite !count_cons, (Hall x) by left. f_equal. apply IH. intros y Hy.
  apply Hall. by right.
Qed.

(** Two tests that split a third. *)
Lemma count_split {A} (f g h : A -> bool) (l : list A) : (forall x, x ∈ l -> h x = xorb (f x) (g x)) ->
  (forall x, x ∈ l -> f x && g x = false) -> count f l + count g l = count h l.
Proof.
  induction l as [|x l IH]; intros Hh Hd; [done|]. rewrite !count_cons, (Hh x) by left.
  pose proof (Hd x ltac:(left)) as Hx. rewrite <- IH by (intros; (apply Hh || apply Hd); by right).
  destruct (f x), (g x); simpl in *; lia || done.
Qed.

(** Two tests of which one holds. *)
Lemma count_cover {A} (f g : A -> bool) (l : list A) : (forall x, x ∈ l -> f x || g x = true) ->
  Z.of_nat (length l) <= count f l + count g l.
Proof.
  induction l as [|x l IH]; intros Hor; [done|]. rewrite !count_cons. pose proof (Hor x ltac:(left)) as Hx.
  pose proof (IH (fun y Hy => Hor y ltac:(by right))). destruct (f x), (g x); simpl in *; lia || done.
Qed.

Lemma for_each_ok {A} (f : A -> res unit) l : for_each f l = Ok tt <-> forall x, x ∈ l -> f x = Ok tt.
Proof.
  induction l as [|x l IH]; simpl; [split; [intros _ x Hx; by apply elem_of_nil in Hx|done]|]. split.
  - intros E. apply res_bind_ok_inv in E as ([] & Ex & E). intros y [->|Hy]%elem_of_cons; [done|]. by apply IH.
  - intros Hall. rewrite (Hall x) by left. simpl. apply IH. intros y Hy. apply Hall. by right.
Qed.

Lemma signal_if_nil b s : signal_if b s = [] <-> b = false.
Proof. by destruct b. Qed.

Lemma is_text_spec s t : is_text s t = true <-> t = u s.
Proof. apply bool_decide_eq_true. Qed.

Lemma last_of_Some {A} (id : A -> UUID) l i x : last_of id l i = Some x -> x ∈ l /\ id x = i.
Proof.
  intros [Hin He]%find_some. split; [|by apply Z.eqb_eq]. apply list_elem_of_In. by apply in_rev.
Qed.

Lemma NoDup_key {A} (id : A -> UUID) l x y : NoDup (map id l) -> x ∈ l -> y ∈ l -> id x = id y -> x = y.
Proof.
  induction l as [|z l IH]; [by intros _ Hx%elem_of_nil|]. cbn [map]. intros [Hz Hnd]%NoDup_cons Hx Hy He.
  assert (Hin : forall w, w ∈ l -> id w ∈ map id l) by (intros w Hw; by apply list_elem_of_fmap_2).
  apply elem_of_cons in Hx as [->|Hx], Hy as [->|Hy]; [done| | |by apply IH].
  - destruct Hz. rewrite He. by apply Hin.
  - destruct Hz. rewrite <- He. by apply Hin.
Qed.

Lemma last_of_unique {A} (id : A -> UUID) l x : NoDup (map id l) -> x ∈ l -> last_of id l (id x) = Some x.
Proof.
  intros Hnd Hx. destruct (last_of id l (id x)) as [y|] eqn:E.
  - apply last_of_Some in E as [Hy Hid]. f_equal. by eapply NoDup_key.
  - unfold last_of in E. apply list_elem_of_In, in_rev in Hx. apply (find_none _ _ E) in Hx. by rewrite Z.eqb_refl in Hx.
Qed.

(** ** A sealed snapshot *)

Lemma validate_claims_ok s seen l : validate_claims s seen l = Ok tt ->
  NoDup (map scl_id l) /\ Forall (fun i => i ∉ seen) (map scl_id l).
Proof.
  revert seen. induction l as [|c l IH]; intros seen E; cbn [validate_claims map] in *; [by split; constructor|].
  apply res_bind_ok_inv in E as ([] & E1 & E). apply fail_if_ok_inv in E1. apply bool_decide_eq_false_1 in E1.
  apply res_bind_ok_inv in E as ([] & _ & E). apply res_bind_ok_inv in E as ([] & _ & E).
  apply IH in E as [Hnd Hs]. rewrite Forall_forall in Hs. split.
  - constructor; [|done]. intros Hin. apply Hs in Hin. apply Hin. left.
  - constructor; [done|]. apply Forall_forall. intros i Hi. apply Hs in Hi. intros Hx. apply Hi. by right.
Qed.

Lemma validate_invocations_ok s seen l : validate_invocations s seen l = Ok tt ->
  forall i, i ∈ l -> validate_invocation s i = Ok tt.
Proof.
  revert seen. induction l as [|x l IH]; intros seen E i Hi; [by apply elem_of_nil in Hi|]. cbn [validate_invocations] in E.
  apply res_bind_ok_inv in E as ([] & _ & E). apply res_bind_ok_inv in E as ([] & Ex & E).
  apply elem_of_cons in Hi as [->|Hi]; [done|]. by eapply IH.
Qed.

(** A call that reached its provider is billed or possibly billed, and no other. *)
Lemma validate_invocation_ok s i : validate_invocation s i = Ok tt ->
  sin_provider_called i = xorb (called_and "BILLED" i) (called_and "POSSIBLY_BILLED" i) /\
  called_and "BILLED" i && called_and "POSSIBLY_BILLED" i = false /\ 0 <= sin_prompt_tokens i /\ 0 <= sin_completion_tokens i.
Proof.
  unfold validate_invocation. intros E. apply res_bind_ok_inv in E as ([] & _ & E).
  destruct (terminal_invocation _), (sin_completed_at i) as [c|]; try done.
  apply res_bind_ok_inv in E as ([] & E1 & E). apply fail_if_ok_inv in E1.
  apply res_bind_ok_inv in E as ([] & E2 & E). apply fail_if_ok_inv in E2.
  apply res_bind_ok_inv in E as ([] & E3 & E). apply fail_if_ok_inv in E3. cbn [existsb] in E3.
  apply negb_false_iff in E1, E2. unfold valid_billing, one_of in E1. apply bool_decide_eq_true_1 in E1.
  unfold billing_binds in E2. unfold called_and. cbn [map] in E1. rewrite !elem_of_cons, elem_of_nil in E1.
  split; [|split; [|lia]].
  - destruct E1 as [E1|[E1|[E1|[]]]]; rewrite E1 in *; cbn in *; destruct (sin_provider_called i); cbn in *; done.
  - destruct E1 as [E1|[E1|[E1|[]]]]; rewrite E1 in *; cbn in *; destruct (sin_provider_called i); cbn in *; done.
Qed.

Section Sealed.
Context `{Unicode}.

(** What the theorems use of a sealed snapshot. *)
Record sealed (s : RunSourceSnapshot) : Prop := {
  sl_status : terminal_run (sn_status s) = true;
  sl_claims : NoDup (map scl_id (sn_claims s));
  sl_invocations : forall i, i ∈ sn_invocations s -> validate_invocation s i = Ok tt
}.

Lemma validate_snapshot_ok s : validate_snapshot s = Ok tt -> sealed s.
Proof.
  unfold validate_snapshot. intros E. apply res_bind_ok_inv in E as ([] & E1 & E).
  apply res_bind_ok_inv in E as ([] & _ & E). apply res_bind_ok_inv in E as ([] & _ & E).
  apply res_bind_ok_inv in E as ([] & E2 & E). apply res_bind_ok_inv in E as ([] & _ & E).
  apply res_bind_ok_inv in E as ([] & _ & E). apply res_bind_ok_inv in E as ([] & _ & E). constructor.
  - unfold validate_run in E1. apply res_bind_ok_inv in E1 as ([] & E1 & _). apply fail_if_ok_inv in E1. by apply negb_false_iff.
  - by apply validate_claims_ok in E as [? _].
  - by apply (validate_invocations_ok _ [] _ E2).
Qed.
End Sealed.

(** ** Chains *)

(** A citation whose chain is valid. *)
Definition citation_ok (s : RunSourceSnapshot) (ct : SourceCitation) : bool :=
  match last_of scl_id (sn_claims s) (sct_answer_claim_id ct) with
  | Some claim => valid_citation ct claim (last_of sev_id (sn_evidence s) (sct_verified_evidence_id ct))
  | None => false
  end.

Lemma trace_citations_ok s l c c' : trace_citations s l c = Ok c' ->
  (forall k, k ∈ ch_cited c' <-> k ∈ ch_cited c \/ exists ct, ct ∈ l /\ sct_answer_claim_id ct = k) /\
  (forall k, chains_of c' k = [] <-> chains_of c k = [] /\ forall ct, ct ∈ l -> sct_answer_claim_id ct = k -> citation_ok s ct = false) /\
  (forall k, k ∈ ch_invalid c' <-> k ∈ ch_invalid c \/ exists ct, ct ∈ l /\ sct_answer_claim_id ct = k /\ citation_ok s ct = false).
Proof.
  revert c. induction l as [|ct l IH]; intros c E; cbn [trace_citations] in E.
  { injection E as <-. split; [|split]; intros k; split.
    - by left. - intros [|(ct & Hc & _)]; [done|by apply elem_of_nil in Hc].
    - intros Hk. split; [done|]. intros ct Hc. by apply elem_of_nil in Hc. - by intros [? _].
    - by left. - intros [|(ct & Hc & _)]; [done|by apply elem_of_nil in Hc]. }
  destruct (last_of scl_id (sn_claims s) (sct_answer_claim_id ct)) as [claim|] eqn:Ec; [|done].
  assert (Hok : citation_ok s ct = valid_citation ct claim (last_of sev_id (sn_evidence s) (sct_verified_evidence_id ct)))
    by (unfold citation_ok; by rewrite Ec).
  apply last_of_Some in Ec as [_ Hid]. rewrite Hid in E. revert E Hok.
  set (ev := last_of sev_id (sn_evidence s) (sct_verified_evidence_id ct)). intros E Hok.
  assert (Hsome : valid_citation ct claim ev = true -> exists e, ev = Some e) by (destruct ev; [eauto|done]).
  apply IH in E as (I1 & I2 & I3). clear IH. split; [|split]; intros k.
  - rewrite I1. assert (forall b : bool, ch_cited (if b then c else c) = ch_cited c) as _ by (by intros []).
    destruct (valid_citation ct claim ev) eqn:Ev; [destruct (Hsome eq_refl) as [e ->]|]; cbn [ch_cited];
      rewrite elem_of_cons; split.
    + intros [[->|Hk]|(x & Hx & Hk)]; [right; exists ct; split; [left|done]|by left|right; exists x; split; [by right|done]].
    + intros [Hk|(x & [->|Hx]%elem_of_cons & Hk)]; [left; by right|left; by left|right; by exists x].
    + intros [[->|Hk]|(x & Hx & Hk)]; [right; exists ct; split; [left|done]|by left|right; exists x; split; [by right|done]].
    + intros [Hk|(x & [->|Hx]%elem_of_cons & Hk)]; [left; by right|left; by left|right; by exists x].
  - rewrite I2. destruct (valid_citation ct claim ev) eqn:Ev; [destruct (Hsome eq_refl) as [e ->]|].
    + unfold chains_of. cbn [ch_valid]. destruct (decide (sct_answer_claim_id ct = k)) as [<-|Hne].
      * rewrite dget_dset_eq. cbn [default]. split; [intros [Ha _]; by destruct (default [] _)|].
        intros [_ Hall]. specialize (Hall ct ltac:(left) eq_refl). congruence.
      * rewrite dget_dset_ne by done. split; intros [Hk Hall]; (split; [done|]); intros x Hx Hxk.
        -- apply elem_of_cons in Hx as [->|Hx]; [done|by apply Hall].
        -- apply Hall; [by right|done].
    + unfold chains_of. cbn [ch_valid]. split; intros [Hk Hall]; (split; [done|]); intros x Hx Hxk.
      * apply elem_of_cons in Hx as [->|Hx]; [done|by apply Hall].
      * apply Hall; [by right|done].
  - rewrite I3. destruct (valid_citation ct claim ev) eqn:Ev; [destruct (Hsome eq_refl) as [e ->]|]; cbn [ch_invalid].
    + split; intros [Hk|(x & Hx & Hk & Hf)]; [by left|right; exists x; split; [by right|done]|by left|].
      apply elem_of_cons in Hx as [->|Hx]; [congruence|right; by exists x].
    + rewrite elem_of_cons. split.
      * intros [[->|Hk]|(x & Hx & Hk)]; [right; exists ct; split; [left|done]|by left|right; exists x; split; [by right|done]].
      * intros [Hk|(x & [->|Hx]%elem_of_cons & Hk & Hf)]; [left; by right|left; by left|right; by exists x].
Qed.

(** ** What an outcome says *)

Section Collected.
Context `{Unicode} (decimal_of_text : pystr -> option Decimal) (canonical_time : datetime -> pystr)
  (canonical_digest : json -> res pystr).

Abbreviation collected s case assertions rate oracle version :=
  (collect_run_snapshot decimal_of_text canonical_time canonical_digest s case assertions rate oracle version).

Lemma usage_of_inv rate l us : usage_of rate l = Ok us ->
  su_observed_calls us = count (called_and "BILLED") l /\ su_possibly_calls us = count (called_and "POSSIBLY_BILLED") l /\
  su_prompt_tokens us = sum_of sin_prompt_tokens (called_and "BILLED") l /\
  su_completion_tokens us = sum_of sin_completion_tokens (called_and "BILLED") l.
Proof. unfold usage_of, SettlementUsage_new. cbv zeta. intros E. minv. done. Qed.

Lemma gold_results_length case assertions claims valid at_ gold :
  gold_results decimal_of_text case assertions claims valid at_ = Ok gold ->
  gold = [] \/ length gold = length assertions.
Proof.
  unfold gold_results. destruct (negb (deterministic case)); [intros [= <-]; by left|]. intros E.
  apply res_bind_ok_inv in E as (inside & _ & E). destruct inside.
  - apply traverse_ok, Forall2_length in E. by right.
  - injection E as <-. right. by rewrite length_map.
Qed.

(** How the parts of an outcome come about. *)
Record made_of (s : RunSourceSnapshot) (case : ShadowCase) (assertions : list GoldAssertion) (limit : Z) (o : CollectionOutcome)
    (chains : Chains) (signals : list pystr) (time_invalid : bool) : Prop := {
  mo_chains : trace_citations s (sn_citations s) {| ch_valid := []; ch_cited := []; ch_invalid := [] |} = Ok chains;
  mo_limit : model_limit (sn_mode s) = Some limit;
  mo_sealed : sealed s;
  mo_total : rm_fact_total (co_metrics o) = Z.of_nat (length (base.filter (fun f => sf_required f = true) (sn_facts s)));
  mo_covered : rm_fact_covered (co_metrics o)
    = count (fun f => covered_fact (sf_status f)) (base.filter (fun f => sf_required f = true) (sn_facts s));
  mo_minimum : rm_minimum_required_facts (co_metrics o) = sc_minimum_required_facts case;
  mo_gap : rm_fact_gap (co_metrics o)
    = Z.max (rm_fact_total (co_metrics o)) (sc_minimum_required_facts case) - rm_fact_covered (co_metrics o);
  mo_plan : rm_plan_completeness_failure (co_metrics o) = (rm_fact_total (co_metrics o) <? sc_minimum_required_facts case);
  mo_factual : rm_factual_claims (co_metrics o) = Z.of_nat (length (factual_claims s));
  mo_nonfactual : rm_nonfactual_claims (co_metrics o)
    = Z.of_nat (length (sn_claims s)) - Z.of_nat (length (factual_claims s));
  mo_cited : rm_cited_factual_claims (co_metrics o)
    = count (fun c => bool_decide (scl_id c ∈ ch_cited chains)) (factual_claims s);
  mo_violations : rm_traceability_violations (co_metrics o) = count (violates chains) (factual_claims s);
  mo_pollution : rm_query_pollution (co_metrics o) = count (polluted case) (sn_queries s);
  mo_successes : rm_provider_successes (co_metrics o)
    = count (fun a => is_text "SUCCEEDED" (spa_status a)) (sn_provider_attempts s);
  mo_failures : rm_provider_failures (co_metrics o)
    = Z.of_nat (length (sn_provider_attempts s)) - rm_provider_successes (co_metrics o);
  mo_gold : co_gold o = [] \/ length (co_gold o) = length assertions;
  mo_calls : co_model_calls o = count sin_provider_called (sn_invocations s);
  mo_observed : su_observed_calls (co_usage o) = count (called_and "BILLED") (sn_invocations s);
  mo_possibly : su_possibly_calls (co_usage o) = count (called_and "POSSIBLY_BILLED") (sn_invocations s);
  mo_prompt : su_prompt_tokens (co_usage o) = sum_of sin_prompt_tokens (called_and "BILLED") (sn_invocations s);
  mo_completion : su_completion_tokens (co_usage o) = sum_of sin_completion_tokens (called_and "BILLED") (sn_invocations s);
  mo_time : time_invalid = false <-> exists c, sn_completed_at s = Some c /\ dt_le (sn_created_at s) c = Ok true;
  mo_signals : signals = measured_signals case s limit (rm_plan_completeness_failure (co_metrics o))
    (rm_traceability_violations (co_metrics o)) (rm_query_pollution (co_metrics o)) (valid_evidence s chains) (co_gold o);
  mo_class : (co_error_class o, co_error_code o, co_signal_flags o)
    = classification s signals (rm_fact_gap (co_metrics o)) time_invalid
}.

Lemma collected_inv s case assertions rate oracle version o : collected s case assertions rate oracle version = Ok o ->
  exists limit chains signals time_invalid, made_of s case assertions limit o chains signals time_invalid.
Proof.
  unfold collect_run_snapshot. intros E. apply res_bind_ok_inv in E as ([] & Ev & E). apply validate_snapshot_ok in Ev.
  apply res_bind_ok_inv in E as ([] & _ & E). destruct (model_limit (sn_mode s)) as [limit|] eqn:El; [|done].
  apply res_bind_ok_inv in E as (p & Ep & E). apply res_bind_ok_inv in E as (digest & _ & E). injection E as <-.
  unfold preliminary in Ep. cbv zeta in Ep. apply res_bind_ok_inv in Ep as (chains & Ech & Ep).
  apply res_bind_ok_inv in Ep as (valid & Et & Ep). apply res_bind_ok_inv in Ep as (gold & Eg & Ep).
  apply res_bind_ok_inv in Ep as (usage & Eu & Ep).
  destruct (classification s _ _ (negb valid)) as [[class code] flags] eqn:Ecl.
  apply res_bind_ok_inv in Ep as (ms & _ & Ep). injection Ep as <-. apply usage_of_inv in Eu as (U1 & U2 & U3 & U4).
  apply gold_results_length in Eg. eexists limit, chains, _, (negb valid).
  constructor; cbn [with_digest co_metrics co_gold co_model_calls co_usage co_error_class co_error_code co_signal_flags
    rm_fact_total rm_fact_covered rm_minimum_required_facts rm_fact_gap rm_plan_completeness_failure rm_factual_claims
    rm_nonfactual_claims rm_cited_factual_claims rm_traceability_violations rm_query_pollution rm_provider_successes
    rm_provider_failures]; try done.
  destruct (sn_completed_at s) as [c|]; [|injection Et as <-; split; [done|by intros (c & ? & _)]].
  split; [intros Hv; exists c; split; [done|]; by destruct valid|]. intros (c' & [= <-] & Hc). rewrite Et in Hc. by injection Hc as ->.
Qed.

(** ** The class of a clean run *)

Lemma filter_nil_iff {A} (P : A -> Prop) `{forall x, Decision (P x)} (l : list A) :
  base.filter P l = [] <-> forall x, x ∈ l -> ~ P x.
Proof.
  split.
  - intros E x Hx HP. apply (elem_of_nil x). rewrite <- E. by apply list_elem_of_filter.
  - intros Hall. destruct (base.filter P l) as [|x r] eqn:E; [done|].
    assert (Hx : x ∈ base.filter P l) by (rewrite E; left). apply list_elem_of_filter in Hx as [HP Hx].
    by apply Hall in Hx.
Qed.

(** No class, no signal: the six soft signals have a class each, and any other is a defect. *)
Lemma classification_none s cs gap ti class code flags : classification s cs gap ti = (class, code, flags) ->
  class = None <-> cs = [] /\ run_signals s gap ti = [] /\ is_text "FAILED" (sn_status s) = false.
Proof using.
  clear decimal_of_text canonical_time canonical_digest. intros Hc. symmetry. split.
  - intros (-> & Hr & Hf). unfold classification in Hc. rewrite Hr, Hf in Hc. simpl in Hc. by injection Hc as <- _ _.
  - intros ->. unfold classification in Hc. revert Hc. set (signals := cs ++ run_signals s gap ti).
    set (all := signals ++ _). intros Hc.
    destruct (base.filter (fun x => x ∉ soft_signals) (py_sorted pystr_ltb (dedupe all))) as [|x r] eqn:E; [|done].
    pose proof (proj1 (filter_nil_iff _ _) E) as Hsoft. clear E.
    assert (Hall : all = []).
    { destruct all as [|y r] eqn:Eall; [done|]. exfalso.
      assert (Hy : y ∈ all) by (rewrite Eall; left). rewrite <- Eall in Hc, Hsoft. clear Eall.
      assert (Hs : y ∈ soft_signals).
      { destruct (decide (y ∈ soft_signals)) as [Hin|Hn]; [done|]. exfalso. apply (Hsoft y); [|done].
        rewrite py_sorted_perm. by apply elem_of_dedupe. }
      clear Hsoft. unfold is_in in Hc. clearbody all.
      repeat match type of Hc with context [bool_decide ?P] => destruct (bool_decide_reflect P) as [?|?] end;
        cbn [orb] in Hc; try done.
      unfold soft_signals in Hs. cbn [map] in Hs. rewrite !elem_of_cons, elem_of_nil in Hs.
      destruct Hs as [->|[->|[->|[->|[->|[->|[]]]]]]]; done. }
    subst all. apply app_eq_nil in Hall as [Hs Hf]. subst signals. rewrite Hs in Hf. apply app_eq_nil in Hs as [-> Hr].
    split; [done|]. split; [done|]. apply signal_if_nil in Hf. by destruct (is_text "FAILED" (sn_status s)).
Qed.

(** What [run_signals] is silent about. *)
Lemma run_signals_nil s gap ti : run_signals s gap ti = [] <->
  (forall c, c ∈ categories s -> c = u "CANCELLED") /\ gap = 0 /\ ti = false /\ is_text "CANCELLED" (sn_status s) = false /\
  (forall reason, sn_stop_reason s = Some reason ->
     one_of ["INFRASTRUCTURE_FAILURE"; "PROVIDER_FAILURE"; "INSUFFICIENT_EVIDENCE"; "POLICY_BLOCKED"]%string reason = false).
Proof using.
  clear decimal_of_text canonical_time canonical_digest. unfold run_signals. rewrite !app_nil, !signal_if_nil, !orb_false_iff.
  unfold is_in, stopped. rewrite !bool_decide_eq_false, negb_false_iff, Z.eqb_eq.
  assert (Hcat : (forall c, c ∈ categories s -> c = u "CANCELLED") <->
    u "PERMANENT" ∉ categories s /\ u "INTERNAL" ∉ categories s /\ u "INFRASTRUCTURE" ∉ categories s /\
    u "TRANSIENT" ∉ categories s /\ u "CONTENT" ∉ categories s /\ u "MODEL_OUTPUT" ∉ categories s /\ u "BUDGET" ∉ categories s).
  { split; [intros Hall; repeat split; by intros Hin%Hall|]. intros (P & I & F & T & C & M & B) c Hc.
    assert (Hone : one_of error_categories c = true) by (unfold categories in Hc; by apply list_elem_of_filter in Hc as [Hc _]).
    unfold one_of, error_categories in Hone. apply bool_decide_eq_true in Hone. cbn [map] in Hone.
    rewrite !elem_of_cons, elem_of_nil in Hone. by destruct Hone as [->|[->|[->|[->|[->|[->|[->|[->|[]]]]]]]]]. }
  assert (Hstop : (forall reason, sn_stop_reason s = Some reason ->
      one_of ["INFRASTRUCTURE_FAILURE"; "PROVIDER_FAILURE"; "INSUFFICIENT_EVIDENCE"; "POLICY_BLOCKED"]%string reason = false) <->
    sn_stop_reason s <> Some (u "INFRASTRUCTURE_FAILURE") /\ sn_stop_reason s <> Some (u "PROVIDER_FAILURE") /\
    sn_stop_reason s <> Some (u "INSUFFICIENT_EVIDENCE") /\ sn_stop_reason s <> Some (u "POLICY_BLOCKED")).
  { destruct (sn_stop_reason s) as [r|]; [|by split]. unfold one_of. cbn [map].
    split; [intros Hall; specialize (Hall r eq_refl); apply bool_decide_eq_false in Hall;
            repeat split; intros [= ->]; apply Hall; set_solver|].
    intros (A & B & C & D) r' [= <-]. apply bool_decide_eq_false. rewrite !elem_of_cons, elem_of_nil.
    by intros [->|[->|[->|[->|[]]]]]. }
  rewrite Hcat, Hstop. tauto.
Qed.

(** The run of an outcome is clean: it ended well, all it was to find is found and traced, its ledgers
    agree, and the case has nothing against it. *)
Record clean_run (s : RunSourceSnapshot) (case : ShadowCase) (limit : Z) (o : CollectionOutcome) : Prop := {
  cl_status : sn_status s = u "SUCCEEDED";
  cl_time : exists c, sn_completed_at s = Some c /\ dt_le (sn_created_at s) c = Ok true;
  cl_covered : forall f, f ∈ sn_facts s -> sf_required f = true -> covered_fact (sf_status f) = true;
  cl_enough : sc_minimum_required_facts case <= rm_fact_total (co_metrics o);
  cl_traced : rm_traceability_violations (co_metrics o) = 0;
  cl_factual : forall ct, ct ∈ sn_citations s -> exists claim,
    last_of scl_id (sn_claims s) (sct_answer_claim_id ct) = Some claim /\ factual claim = true;
  cl_pollution : forall q, q ∈ sn_queries s -> polluted case q = false;
  cl_calls : co_model_calls o <= limit /\ sn_budget_max_llm_calls s = limit;
  cl_ledger : sn_recorded_llm_call_count s = co_model_calls o /\ sn_recorded_prompt_tokens s = su_prompt_tokens (co_usage o) /\
    sn_recorded_completion_tokens s = su_completion_tokens (co_usage o);
  cl_gold : forall g, g ∈ co_gold o -> ga_status g <> GoldAssertion_FAIL;
  cl_complete : sc_must_not_complete case = true -> sn_answer_quality s <> u "COMPLETE";
  cl_mode : sn_mode s = SearchMode_text (sc_expected_mode case);
  cl_categories : forall c, c ∈ categories s -> c = u "CANCELLED";
  cl_stop : forall reason, sn_stop_reason s = Some reason ->
    one_of ["INFRASTRUCTURE_FAILURE"; "PROVIDER_FAILURE"; "INSUFFICIENT_EVIDENCE"; "POLICY_BLOCKED"]%string reason = false
}.

Lemma existsb_none {A} (f : A -> bool) l : existsb f l = false <-> forall x, x ∈ l -> f x = false.
Proof.
  rewrite <- not_true_iff_false, existsb_exists. split.
  - intros Hn x Hx. apply not_true_iff_false. intros Hf. apply Hn. exists x. by rewrite <- list_elem_of_In.
  - intros Hall (x & Hx%list_elem_of_In & Hf). by rewrite (Hall x Hx) in Hf.
Qed.

Lemma ended_well s : sealed s -> sn_status s = u "SUCCEEDED" <->
  is_text "FAILED" (sn_status s) = false /\ is_text "CANCELLED" (sn_status s) = false.
Proof using.
  clear decimal_of_text canonical_time canonical_digest. intros [Ht _ _]. split; [by intros ->|].
  unfold terminal_run, one_of in Ht. apply bool_decide_eq_true in Ht. cbn [map] in Ht.
  rewrite !elem_of_cons, elem_of_nil in Ht. by destruct Ht as [->|[->|[->|[]]]]; intros [? ?].
Qed.

(** The parts of a gap: facts that are not covered, and facts that are not planned. *)
Lemma no_gap (l : list SourceFact) minimum :
  let required := base.filter (fun f => sf_required f = true) l in
  Z.max (Z.of_nat (length required)) minimum - count (fun f => covered_fact (sf_status f)) required = 0 <->
  (forall f, f ∈ l -> sf_required f = true -> covered_fact (sf_status f) = true) /\ minimum <= Z.of_nat (length required).
Proof using.
  clear decimal_of_text canonical_time canonical_digest. intros required.
  pose proof (count_range (fun f => covered_fact (sf_status f)) required) as Hr. split.
  - intros Hg. split; [|lia]. intros f Hf Hq. apply (count_full (fun f => covered_fact (sf_status f)) required); [lia|]. by apply list_elem_of_filter.
  - intros [Hall Hm]. rewrite (proj2 (count_full_iff _ required)); [lia|]. intros f Hf.
    apply list_elem_of_filter in Hf as [Hq Hf]. by apply Hall.
Qed.

Lemma measured_signals_nil case s limit plan violations pollution valid gold :
  measured_signals case s limit plan violations pollution valid gold = [] <->
  plan = false /\ violations = 0 /\
  (forall ct, ct ∈ sn_citations s -> exists claim,
     last_of scl_id (sn_claims s) (sct_answer_claim_id ct) = Some claim /\ factual claim = true) /\
  pollution = 0 /\ count sin_provider_called (sn_invocations s) <= limit /\ sn_budget_max_llm_calls s = limit /\
  sn_recorded_llm_call_count s = count sin_provider_called (sn_invocations s) /\
  sn_recorded_prompt_tokens s = sum_of sin_prompt_tokens (called_and "BILLED") (sn_invocations s) /\
  sn_recorded_completion_tokens s = sum_of sin_completion_tokens (called_and "BILLED") (sn_invocations s) /\
  (forall g, g ∈ gold -> ga_status g <> GoldAssertion_FAIL) /\
  (sc_must_not_complete case = true -> sn_answer_quality s <> u "COMPLETE") /\
  source_class_missing case s valid = false /\ sn_mode s = SearchMode_text (sc_expected_mode case).
Proof using.
  clear decimal_of_text canonical_time canonical_digest. unfold measured_signals.
  rewrite !app_nil, !signal_if_nil, !negb_false_iff, !andb_true_iff, !Z.eqb_eq, Z.ltb_ge, !existsb_none,
    andb_false_iff, bool_decide_eq_true.
  assert (H1 : (forall c, c ∈ sn_citations s -> match last_of scl_id (sn_claims s) (sct_answer_claim_id c) with
      Some claim => negb (factual claim) | None => true end = false) <->
    forall ct, ct ∈ sn_citations s -> exists claim,
      last_of scl_id (sn_claims s) (sct_answer_claim_id ct) = Some claim /\ factual claim = true).
  { split; intros Hall ct Hct; specialize (Hall ct Hct); destruct (last_of _ _ _) as [claim|]; try done.
    - exists claim. split; [done|]. by apply negb_false_iff.
    - destruct Hall as (? & [= <-] & ->). done. - by destruct Hall as (? & ? & _). }
  assert (H2 : (forall g, g ∈ gold -> (ga_status g is GoldAssertion_FAIL) = false) <->
    forall g, g ∈ gold -> ga_status g <> GoldAssertion_FAIL)
    by (split; intros Hall g Hg; specialize (Hall g Hg); by destruct (ga_status g)).
  assert (H3 : (sc_must_not_complete case = false \/ is_text "COMPLETE" (sn_answer_quality s) = false) <->
    (sc_must_not_complete case = true -> sn_answer_quality s <> u "COMPLETE")).
  { unfold is_text. rewrite bool_decide_eq_false. destruct (sc_must_not_complete case); naive_solver. }
  rewrite H1, H2, H3. tauto.
Qed.

(** Claim C10. [clean_result]: a collected run has no error class exactly when it is clean and its evidence has a source
    of every class the case requires: it succeeded at a valid time, every required fact is covered and there are as many
    as the case asks for, every factual claim is traced and no other claim is cited, no query is polluted, the model was
    called within the limit of its mode and as often, and with as many tokens, as the run recorded, no gold assertion
    failed, an unanswerable case was not answered completely, the mode is the expected one, and no attempt, call or stop
    reason reports an error other than a cancellation. *)
Theorem clean_result s case assertions rate oracle version o : collected s case assertions rate oracle version = Ok o ->
  exists limit chains, model_limit (sn_mode s) = Some limit /\
    trace_citations s (sn_citations s) {| ch_valid := []; ch_cited := []; ch_invalid := [] |} = Ok chains /\
    (co_error_class o = None <->
     clean_run s case limit o /\ source_class_missing case s (valid_evidence s chains) = false).
Proof.
  intros (limit & chains & signals & ti & M)%collected_inv. destruct M. exists limit, chains. split; [done|]. split; [done|].
  destruct (classification s signals (rm_fact_gap (co_metrics o)) ti) as [[class code] flags] eqn:Ec.
  injection mo_class0 as -> _ _. rewrite (classification_none _ _ _ _ _ _ _ Ec). clear Ec class code flags.
  rewrite run_signals_nil, mo_signals0, measured_signals_nil, mo_gap0, mo_plan0, Z.ltb_ge, mo_pollution0, count_zero, mo_covered0,
    mo_total0, no_gap, <- mo_calls0, <- mo_prompt0, <- mo_completion0.
  pose proof (ended_well s mo_sealed0) as Hend. split.
  - intros ((P & V & F & Q & C & B & R1 & R2 & R3 & G & U & S & Mo) & (Ca & (Gc & Gm) & T & Nc & St) & Nf).
    split; [|done]. constructor; try done; [by apply Hend|by apply mo_time0|by rewrite mo_total0].
  - intros [[St T Co En Tr Fa Po [C B] (R1 & R2 & R3) G U Mo Ca Sr] S]. apply Hend in St as [Nf Nc]. rewrite mo_total0 in En.
    apply mo_time0 in T. tauto.
Qed.

(** ** Traced claims *)

(** A claim is traced when it has a citation and all of them stand. *)
Definition traced (s : RunSourceSnapshot) (c : SourceClaim) : bool :=
  let own := base.filter (fun ct => sct_answer_claim_id ct = scl_id c) (sn_citations s) in
  negb (bool_decide (own = [])) && forallb (citation_ok s) own.

Lemma traced_spec s c : traced s c = true <->
  (exists ct, ct ∈ sn_citations s /\ sct_answer_claim_id ct = scl_id c) /\
  (forall ct, ct ∈ sn_citations s -> sct_answer_claim_id ct = scl_id c -> citation_ok s ct = true).
Proof using.
  clear decimal_of_text canonical_time canonical_digest. unfold traced. cbv zeta.
  rewrite andb_true_iff, negb_true_iff, bool_decide_eq_false, forallb_forall, filter_nil_iff. split.
  - intros [Hn Hall]. split.
    + destruct (base.filter (fun ct => sct_answer_claim_id ct = scl_id c) (sn_citations s)) as [|x r] eqn:E.
      { destruct Hn. by apply (filter_nil_iff (fun ct => sct_answer_claim_id ct = scl_id c)). }
      exists x. assert (Hx : x ∈ base.filter (fun ct => sct_answer_claim_id ct = scl_id c) (sn_citations s)) by (rewrite E; left).
      by apply list_elem_of_filter in Hx as [? ?].
    + intros ct Hct He. apply Hall, list_elem_of_In, list_elem_of_filter. by split.
  - intros [(x & Hx & He) Hall]. split; [intros Hn; by apply (Hn x)|].
    intros ct Hct%list_elem_of_In. apply list_elem_of_filter in Hct as [He' Hct]. by apply Hall.
Qed.

Lemma citation_ok_of s ct c : NoDup (map scl_id (sn_claims s)) -> c ∈ sn_claims s -> sct_answer_claim_id ct = scl_id c ->
  citation_ok s ct = valid_citation ct c (last_of sev_id (sn_evidence s) (sct_verified_evidence_id ct)).
Proof using. intros Hnd Hc He. unfold citation_ok. rewrite He. by rewrite last_of_unique. Qed.

Lemma violates_traced s chains c :
  trace_citations s (sn_citations s) {| ch_valid := []; ch_cited := []; ch_invalid := [] |} = Ok chains ->
  violates chains c = negb (traced s c).
Proof using.
  clear decimal_of_text canonical_time canonical_digest. intros (_ & Hv & Hi)%trace_citations_ok.
  apply eq_true_iff_eq. rewrite negb_true_iff, <- not_true_iff_false, traced_spec. unfold violates.
  rewrite orb_true_iff, !bool_decide_eq_true, Hv, Hi. split.
  - intros [[_ Hn]|[Hx|(ct & Hct & He & Hf)]] [(x & Hx' & He') Hall].
    + specialize (Hn x Hx' He'). specialize (Hall x Hx' He'). congruence.
    + by apply elem_of_nil in Hx.
    + by rewrite (Hall ct Hct He) in Hf.
  - intros Hn. destruct (existsb (fun ct => (sct_answer_claim_id ct =? scl_id c) && citation_ok s ct) (sn_citations s)) eqn:E.
    + right. right. destruct (existsb (fun ct => (sct_answer_claim_id ct =? scl_id c) && negb (citation_ok s ct)) (sn_citations s)) eqn:E'.
      * apply existsb_exists in E' as (ct & Hct%list_elem_of_In & [He%Z.eqb_eq Hf%negb_true_iff]%andb_true_iff). by exists ct.
      * exfalso. apply Hn. apply existsb_exists in E as (x & Hx%list_elem_of_In & [He%Z.eqb_eq _]%andb_true_iff).
        split; [by exists x|]. intros ct Hct Hc. rewrite existsb_none in E'. specialize (E' ct Hct).
        apply andb_false_iff in E' as [E'|E']; [by apply Z.eqb_neq in E'|by apply negb_false_iff].
    + left. split; [done|]. intros ct Hct He. rewrite existsb_none in E. specialize (E ct Hct).
      apply andb_false_iff in E as [E|E]; [by apply Z.eqb_neq in E|done].
Qed.

Lemma uncited_violate s chains :
  trace_citations s (sn_citations s) {| ch_valid := []; ch_cited := []; ch_invalid := [] |} = Ok chains ->
  Z.of_nat (length (factual_claims s))
    <= count (fun c => bool_decide (scl_id c ∈ ch_cited chains)) (factual_claims s) + count (violates chains) (factual_claims s).
Proof using.
  clear decimal_of_text canonical_time canonical_digest. intros Ht. apply count_cover. intros c _.
  rewrite (violates_traced _ _ _ Ht). apply trace_citations_ok in Ht as (Hc & _ & _).
  destruct (traced s c) eqn:E; [|by rewrite orb_true_r]. apply traced_spec in E as [Hx _].
  rewrite orb_false_r. apply bool_decide_eq_true, Hc. by right.
Qed.

(** The counts of a collected run balance. Covered facts are among the required ones,
    and the gap is what is missing of them, or of the case's minimum, and never negative; factual and other claims make
    up the claims; the cited factual claims are among the factual ones, and every factual claim that is not cited is a
    violation; provider successes and failures make up the attempts; billed and possibly billed calls make up the calls,
    which are among the invocations; tokens are not negative; there is a gold result per assertion, or none at all. *)
Theorem collection_balanced s case assertions rate oracle version o : collected s case assertions rate oracle version = Ok o ->
  let m := co_metrics o in
  0 <= rm_fact_covered m <= rm_fact_total m /\ rm_fact_total m <= Z.of_nat (length (sn_facts s)) /\
  rm_fact_covered m + rm_fact_gap m = Z.max (rm_fact_total m) (rm_minimum_required_facts m) /\ 0 <= rm_fact_gap m /\
  rm_factual_claims m + rm_nonfactual_claims m = Z.of_nat (length (sn_claims s)) /\ 0 <= rm_nonfactual_claims m /\
  0 <= rm_cited_factual_claims m <= rm_factual_claims m /\
  rm_factual_claims m - rm_cited_factual_claims m <= rm_traceability_violations m <= rm_factual_claims m /\
  rm_provider_successes m + rm_provider_failures m = Z.of_nat (length (sn_provider_attempts s)) /\
  0 <= rm_provider_successes m /\ 0 <= rm_provider_failures m /\
  su_observed_calls (co_usage o) + su_possibly_calls (co_usage o) = co_model_calls o /\
  0 <= co_model_calls o <= Z.of_nat (length (sn_invocations s)) /\
  0 <= su_prompt_tokens (co_usage o) /\ 0 <= su_completion_tokens (co_usage o) /\
  (co_gold o = [] \/ length (co_gold o) = length assertions).
Proof.
  intros (limit & chains & signals & ti & M)%collected_inv. destruct M.
  pose proof (count_range (fun f => covered_fact (sf_status f)) (base.filter (fun f => sf_required f = true) (sn_facts s))) as H1.
  pose proof (length_filter (fun f => sf_required f = true) (sn_facts s)) as H2.
  pose proof (length_filter (fun c => factual c = true) (sn_claims s)) as H3. fold (factual_claims s) in H3.
  pose proof (count_range (fun c => bool_decide (scl_id c ∈ ch_cited chains)) (factual_claims s)) as H4.
  pose proof (count_range (violates chains) (factual_claims s)) as H5.
  pose proof (count_range (fun a => is_text "SUCCEEDED" (spa_status a)) (sn_provider_attempts s)) as H6.
  pose proof (count_range sin_provider_called (sn_invocations s)) as H7.
  pose proof (uncited_violate s chains mo_chains0) as H8.
  pose proof (fun i Hi => validate_invocation_ok s i (sl_invocations _ mo_sealed0 i Hi)) as Hi.
  assert (H9 : count (called_and "BILLED") (sn_invocations s) + count (called_and "POSSIBLY_BILLED") (sn_invocations s)
               = count sin_provider_called (sn_invocations s)) by (apply count_split; intros x Hx; by apply Hi in Hx as (? & ? & _)).
  assert (Hsum : forall f, (forall i, i ∈ sn_invocations s -> 0 <= f i) -> 0 <= sum_of f (called_and "BILLED") (sn_invocations s)).
  { intros f Hf. apply sumZ_nonneg. intros i Hx. apply list_elem_of_filter in Hx as [_ Hx]. by apply Hf. }
  assert (H10 : 0 <= su_prompt_tokens (co_usage o)) by (rewrite mo_prompt0; apply Hsum; intros i Hx; by apply Hi in Hx as (_ & _ & ? & _)).
  assert (H11 : 0 <= su_completion_tokens (co_usage o)) by (rewrite mo_completion0; apply Hsum; intros i Hx; by apply Hi in Hx as (_ & _ & _ & ?)).
  cbv zeta. repeat split; try done; lia.
Qed.

(** Claim C9. [traceability_exact]: in a collected run, a factual claim counts as a violation exactly when it has no
    citation, or a citation of it does not stand: one whose evidence is unknown, was not accepted, is about another fact,
    has a document chain that does not hold, or whose version, chunk, offsets or quotation differ. No violation is left
    exactly when every factual claim has a citation and all its citations stand. *)
Theorem traceability_exact s case assertions rate oracle version o : collected s case assertions rate oracle version = Ok o ->
  rm_traceability_violations (co_metrics o) = count (fun c => negb (traced s c)) (factual_claims s) /\
  (rm_traceability_violations (co_metrics o) = 0 <-> forall c, c ∈ sn_claims s -> factual c = true ->
     (exists ct, ct ∈ sn_citations s /\ sct_answer_claim_id ct = scl_id c) /\
     (forall ct, ct ∈ sn_citations s -> sct_answer_claim_id ct = scl_id c ->
        valid_citation ct c (last_of sev_id (sn_evidence s) (sct_verified_evidence_id ct)) = true)).
Proof.
  intros (limit & chains & signals & ti & M)%collected_inv. destruct M. pose proof (sl_claims _ mo_sealed0) as Hnd.
  assert (Hc : rm_traceability_violations (co_metrics o) = count (fun c => negb (traced s c)) (factual_claims s)).
  { rewrite mo_violations0. apply count_ext. intros c _. by apply violates_traced. }
  split; [done|]. rewrite Hc, count_zero. split.
  - intros Hall c Hin Hf. assert (Hx : c ∈ factual_claims s) by (by apply list_elem_of_filter).
    apply Hall, negb_false_iff, traced_spec in Hx as [Hx Hok]. split; [done|]. intros ct Hct He.
    rewrite <- (citation_ok_of s ct c Hnd Hin He). by apply Hok.
  - intros Hall c [Hf Hin]%list_elem_of_filter. apply negb_false_iff, traced_spec. destruct (Hall c Hin Hf) as [Hx Hok].
    split; [done|]. intros ct Hct He. rewrite (citation_ok_of s ct c Hnd Hin He). by apply Hok.
Qed.
End Collected.

(** ** A run of one fact *)

Definition ex_citation (offset : Z) : SourceCitation :=
  {| sct_id := 60; sct_answer_claim_id := 50; sct_verified_evidence_id := 40; sct_document_version_id := 41;
     sct_document_chunk_id := 42; sct_start_offset := offset; sct_end_offset := 12; sct_quote_length := 12 - offset;
     sct_quote_matches_evidence := true |}.
Definition ex_evidence : SourceEvidence :=
  {| sev_id := 40; sev_candidate_id := 43; sev_fact_requirement_id := 10; sev_document_version_id := 41;
     sev_document_chunk_id := 42; sev_start_offset := 2; sev_end_offset := 12; sev_quote_length := 10;
     sev_support_type := u "SUPPORTS"; sev_source_authority := u "OFFICIAL"; sev_verdict := u "ACCEPTED";
     sev_confidence := float_of_Z 1; sev_reason_codes := [u "verified"]; sev_verifier_version := u "v1";
     sev_verified_at := utc 5; sev_document_chain_valid := true |}.
Definition ex_invocation : SourceInvocation :=
  {| sin_id := 70; sin_step_id := 30; sin_attempt_id := 31; sin_role := u "ANSWER"; sin_provider := u "p"; sin_model := u "m";
     sin_call_no := 1; sin_status := u "COMPLETED"; sin_billing_disposition := u "BILLED"; sin_provider_called := true;
     sin_prompt_tokens := 100; sin_completion_tokens := 20; sin_started_at := utc 3; sin_completed_at := Some (utc 4);
     sin_error_category := None |}.

(** The citation starts at [offset], which is 2 in its evidence. *)
Definition ex_snapshot (offset : Z) : RunSourceSnapshot :=
  {| sn_tenant_id := 1; sn_run_id := 2; sn_conversation_id := 3; sn_response_run_id := 4; sn_response_status := u "SUCCEEDED";
     sn_output_message_id := Some 5; sn_output_message_role := Some (u "assistant");
     sn_output_message_conversation_id := Some 3; sn_answer_text := Some (u "Ada leads."); sn_mode := u "FAST";
     sn_status := u "SUCCEEDED"; sn_answer_quality := u "COMPLETE"; sn_stop_reason := None; sn_created_at := utc 1;
     sn_hard_deadline_at := utc 1000; sn_completed_at := Some (utc 900); sn_version := 1; sn_budget_max_llm_calls := 4;
     sn_recorded_llm_call_count := 1; sn_recorded_prompt_tokens := 100; sn_recorded_completion_tokens := 20;
     sn_facts := [{| sf_id := 10; sf_required := true; sf_status := u "COVERED"; sf_freshness := u "STABLE"; sf_consequence := u "LOW" |}];
     sn_queries := [{| sq_id := 20; sq_fact_requirement_id := Some 10; sq_plan_revision := 1; sq_provider_class := u "WEB";
                       sq_query_text := u "who leads" |}];
     sn_provider_attempts := [{| spa_id := 21; spa_query_spec_id := 20; spa_provider := u "web"; spa_status := u "SUCCEEDED";
                                 spa_started_at := utc 2; spa_completed_at := Some (utc 3); spa_error_type := None |}];
     sn_steps := [{| sst_id := 30; sst_step_key := u "answer"; sst_step_type := u "ANSWER"; sst_plan_revision := 1;
                     sst_status := u "SUCCEEDED"; sst_output_bound := true |}];
     sn_attempts := [{| sat_id := 31; sat_step_id := 30; sat_attempt_no := 1; sat_started_at := utc 2;
                        sat_completed_at := Some (utc 5); sat_error_type := None |}];
     sn_invocations := [ex_invocation]; sn_evidence := [ex_evidence];
     sn_claims := [{| scl_id := 50; scl_claim_kind := Some (u "FACTUAL"); scl_fact_requirement_id := Some 10;
                      scl_support_status := u "SUPPORTED"; scl_claim_text := u "Ada leads." |}];
     sn_citations := [ex_citation offset]; sn_outbox := [] |}.

Definition ex_gold : list GoldAssertion :=
  [{| gx_id := u "a1"; gx_expectation := NormalizedContainsAll [u "ada"]; gx_critical := true |}].
Definition ex_cost_rate : CostRate :=
  {| cx_version := u "rate-v1"; cx_prompt_per_million := Dec false 1 (-1); cx_completion_per_million := Dec false 4 (-1);
     cx_possibly_billed_run_reserve := Dec false 1 (-3); cx_run_reservation := None |}.
Definition ex_fast_case : ShadowCase := ex_case 1 SearchMode_FAST locale_en true true true false.
Definition ex_collected (offset : Z) : res CollectionOutcome :=
  @collect_run_snapshot ex_unicode (fun _ => None) (fun _ => []) (fun _ => Ok (u "digest")) (ex_snapshot offset)
    ex_fast_case ex_gold ex_cost_rate (Some (u "v1")) schema_version.

(** The run is clean. *)
Lemma clean_result_witness :
  exists o limit chains, ex_collected 2 = Ok o /\ co_error_class o = None /\
    trace_citations (ex_snapshot 2) (sn_citations (ex_snapshot 2)) {| ch_valid := []; ch_cited := []; ch_invalid := [] |} = Ok chains /\
    @clean_run ex_unicode (ex_snapshot 2) ex_fast_case limit o.
Proof.
  destruct (ex_collected 2) as [o|e] eqn:E; [|revert E; vm_compute; discriminate].
  assert (Hn : co_error_class o = None).
  { enough (Hr : co_error_class <$> ex_collected 2 = Ok None) by (rewrite E in Hr; by injection Hr). vm_compute. reflexivity. }
  destruct (@clean_result ex_unicode (fun _ => None) (fun _ => []) (fun _ => Ok (u "digest")) (ex_snapshot 2)
      ex_fast_case ex_gold ex_cost_rate (Some (u "v1")) schema_version o E)
    as (limit & chains & _ & Ht & Hc). exists o, limit, chains. split; [done|]. split; [done|]. split; [exact Ht|].
  exact (proj1 (proj1 Hc Hn)).
Defined.

(** A citation of other offsets is a violation, and the counts still balance. *)
Lemma collection_balanced_witness :
  exists o, ex_collected 3 = Ok o /\ co_error_class o = Some ErrorClass_CANDIDATE_DEFECT /\
    rm_fact_covered (co_metrics o) + rm_fact_gap (co_metrics o) = 1 /\
    rm_traceability_violations (co_metrics o) <= rm_factual_claims (co_metrics o).
Proof.
  destruct (ex_collected 3) as [o|e] eqn:E; [|revert E; vm_compute; discriminate].
  assert (Hn : co_error_class o = Some ErrorClass_CANDIDATE_DEFECT /\
      Z.max (rm_fact_total (co_metrics o)) (rm_minimum_required_facts (co_metrics o)) = 1).
  { enough (Hr : (fun o => (co_error_class o, Z.max (rm_fact_total (co_metrics o)) (rm_minimum_required_facts (co_metrics o))))
        <$> ex_collected 3 = Ok (Some ErrorClass_CANDIDATE_DEFECT, 1)) by (rewrite E in Hr; by injection Hr).
    vm_compute. reflexivity. }
  destruct Hn as [Hn Hm]. exists o. split; [done|]. split; [done|].
  destruct (@collection_balanced ex_unicode (fun _ => None) (fun _ => []) (fun _ => Ok (u "digest")) (ex_snapshot 3)
      ex_fast_case ex_gold ex_cost_rate (Some (u "v1")) schema_version o E)
    as (_ & _ & Hg & _ & _ & _ & _ & [_ Hv] & _). split; [lia|exact Hv].
Defined.

(** The claim is traced at the offsets of its evidence, and violated at others. *)
Lemma traceability_exact_witness :
  exists o o', ex_collected 2 = Ok o /\ ex_collected 3 = Ok o' /\
    rm_traceability_violations (co_metrics o) = 0 /\ rm_traceability_violations (co_metrics o') = 1.
Proof.
  destruct (ex_collected 2) as [o|e] eqn:E; [|revert E; vm_compute; discriminate].
  destruct (ex_collected 3) as [o'|e'] eqn:E'; [|revert E'; vm_compute; discriminate].
  exists o, o'. split; [done|]. split; [done|].
  destruct (@traceability_exact ex_unicode (fun _ => None) (fun _ => []) (fun _ => Ok (u "digest")) (ex_snapshot 2)
      ex_fast_case ex_gold ex_cost_rate (Some (u "v1")) schema_version o E) as [-> _].
  destruct (@traceability_exact ex_unicode (fun _ => None) (fun _ => []) (fun _ => Ok (u "digest")) (ex_snapshot 3)
      ex_fast_case ex_gold ex_cost_rate (Some (u "v1")) schema_version o' E') as [-> _].
  split; vm_compute; reflexivity.
Defined.
