(* ===== verification/CampaignLedger.v ===== *)
(** * CampaignLedger: the campaign's counters are the sums over its results

    Every transaction of [CampaignStore] either leaves the rows alone or moves one unit: a campaign
    row and one of its results. [moved] states what such a move may do; the invariants of the whole
    database (ledger totals, call and cost ceilings, the concurrency bound, fencing versions)
    follow from it. *)

From Stdlib Require Import String.
From S2P Require Import Prelude Errors PyTime Transitions Campaign CampaignBudget CampaignRows.
From S2P Require Import CampaignStore.

(** ** Ledger entries *)

(** A column of the campaign, and what one result contributes to it. *)
Inductive entry :=
| EPlanned | ESubmitted | ECollected | EFailed | ESkipped | EDegraded | EPossiblyBilled
| EReservedCalls | EReservedCost | EObservedCalls | EObservedCost | EPossiblyCalls | EPossiblyCost
| EPromptTokens | ECompletionTokens.

Definition total (e : entry) (c : CampaignRow) : Z :=
  match e with
  | EPlanned => cl_planned_count (cr_life c)
  | ESubmitted => ct_submitted (cr_counts c)
  | ECollected => ct_collected (cr_counts c)
  | EFailed => ct_failed (cr_counts c)
  | ESkipped => ct_skipped (cr_counts c)
  | EDegraded => ct_degraded (cr_counts c)
  | EPossiblyBilled => ct_possibly_billed (cr_counts c)
  | EReservedCalls => lg_reserved_calls (cr_ledger c)
  | EReservedCost => lg_reserved_cost (cr_ledger c)
  | EObservedCalls => lg_observed_calls (cr_ledger c)
  | EObservedCost => lg_observed_cost (cr_ledger c)
  | EPossiblyCalls => lg_possibly_calls (cr_ledger c)
  | EPossiblyCost => lg_possibly_cost (cr_ledger c)
  | EPromptTokens => lg_prompt_tokens (cr_ledger c)
  | ECompletionTokens => lg_completion_tokens (cr_ledger c)
  end.

Definition when (b : bool) (z : Z) : Z := if b then z else 0.

Definition reserved (r : ResultRow) : bool := rr_reservation r is ReservationState_ACTIVE.
Definition settled (r : ResultRow) : bool := rr_reservation r is ReservationState_SETTLED.

Definition share (e : entry) (r : ResultRow) : Z :=
  let b := rr_budget r in
  match e with
  | EPlanned => 1
  | ESubmitted => one (negb (is_none (rs_search_run_id (rr_sched r))))
  | ECollected => one (rr_state r is SchedulingState_COLLECTED)
  | EFailed => one (rr_state r is SchedulingState_FAILED)
  | ESkipped => one (rr_state r is SchedulingState_SKIPPED)
  | EDegraded => one ((rr_state r is SchedulingState_COLLECTED)
                      && rm_degraded (rc_metrics (rr_collected r)))
  | EPossiblyBilled => one (settled r && (negb (rb_possibly_calls b =? 0)
                                          || negb (rb_possibly_cost b =? 0)))
  | EReservedCalls => when (reserved r) (rb_reserved_calls b)
  | EReservedCost => when (reserved r) (rb_reserved_cost b)
  | EObservedCalls => when (settled r) (rb_settled_calls b)
  | EObservedCost => when (settled r) (rb_settled_cost b)
  | EPossiblyCalls => when (settled r) (rb_possibly_calls b)
  | EPossiblyCost => when (settled r) (rb_possibly_cost b)
  | EPromptTokens => when (settled r) (rb_prompt_tokens b)
  | ECompletionTokens => when (settled r) (rb_completion_tokens b)
  end.

(** A result that is not settled has no settlement figures. *)
Definition unsettled_clear (r : ResultRow) : Prop :=
  settled r = false ->
  rb_settled_calls (rr_budget r) = 0 /\ rb_settled_cost (rr_budget r) = 0 /\
  rb_possibly_calls (rr_budget r) = 0 /\ rb_possibly_cost (rr_budget r) = 0 /\
  rb_prompt_tokens (rr_budget r) = 0 /\ rb_completion_tokens (rr_budget r) = 0.

(** ** Sums over the results of a campaign *)

Definition member (tenant_id campaign_id : UUID) (r : ResultRow) : Prop :=
  rk_tenant_id (rr_key r) = tenant_id /\ rk_campaign_id (rr_key r) = campaign_id.

#[export] Instance member_dec t c r : Decision (member t c r).
Proof. unfold member. apply _. Defined.

Definition mine (t c : UUID) (r : ResultRow) : bool := bool_decide (member t c r).

(** [sum_results f m t c] is the sum of [f] over the rows of [m] that belong to campaign [c]. *)
Definition sum_results (f : ResultRow -> Z) (m : gmap Z ResultRow) (t c : UUID) : Z :=
  sumZ (fun r => when (mine t c r) (f r)) (map_to_list m).*2.

Lemma sum_results_of f t c d :
  sumZ f (results_of t c d) = sum_results f (sd_results d) t c.
Proof.
  unfold results_of, sum_results, mine, when. induction (map_to_list (sd_results d)).*2 as [|r l IH]; [done|].
  rewrite filter_cons. simpl. unfold member. case_decide as Hd.
  - rewrite bool_decide_eq_true_2 by done. simpl. by rewrite IH.
  - rewrite bool_decide_eq_false_2 by done. simpl. by rewrite IH.
Qed.

Lemma sum_results_insert f m i r r' t c :
  m !! i = Some r -> mine t c r' = mine t c r ->
  sum_results f (<[i:=r']> m) t c = sum_results f m t c + when (mine t c r) (f r' - f r).
Proof.
  intros Hi Hm. unfold sum_results.
  assert (map_to_list m ≡ₚ (i, r) :: map_to_list (delete i m)) as E1.
  { rewrite <- (insert_id m i r Hi) at 1. rewrite <- insert_delete_eq.
    apply map_to_list_insert. apply lookup_delete_eq. }
  assert (map_to_list (<[i:=r']> m) ≡ₚ (i, r') :: map_to_list (delete i m)) as E2.
  { rewrite <- insert_delete_eq. apply map_to_list_insert. apply lookup_delete_eq. }
  rewrite (sumZ_perm _ _ _ (fmap_Permutation snd _ _ E1)).
  rewrite (sumZ_perm _ _ _ (fmap_Permutation snd _ _ E2)). csimpl. rewrite Hm.
  unfold when. destruct (mine t c r); lia.
Qed.

Lemma sum_results_fmap f g m t c :
  (forall r, mine t c (g r) = mine t c r) ->
  sum_results f (g <$> m) t c = sum_results (fun r => f (g r)) m t c.
Proof.
  intros Hg. unfold sum_results. rewrite map_to_list_fmap.
  induction (map_to_list m) as [|[i r] l IH]; [done|]. csimpl. by rewrite Hg, IH.
Qed.

Lemma sum_results_ext f g m t c :
  (forall i r, m !! i = Some r -> mine t c r = true -> f r = g r) ->
  sum_results f m t c = sum_results g m t c.
Proof.
  intros H. apply sumZ_ext. intros r Hr. apply list_elem_of_fmap in Hr as ([i r'] & -> & Hr).
  apply elem_of_map_to_list in Hr. unfold when. simpl. destruct (mine t c r') eqn:E; [|done]. by eapply H.
Qed.

Lemma sum_results_le f g m t c :
  (forall i r, m !! i = Some r -> mine t c r = true -> f r <= g r) ->
  sum_results f m t c <= sum_results g m t c.
Proof.
  intros H. unfold sum_results.
  assert (forall r, r ∈ (map_to_list m).*2 -> when (mine t c r) (f r) <= when (mine t c r) (g r)) as HL.
  { intros r Hr. apply list_elem_of_fmap in Hr as ([i r'] & -> & Hr).
    apply elem_of_map_to_list in Hr. unfold when. simpl. destruct (mine t c r') eqn:E; [|lia]. by eapply H. }
  revert HL. induction (map_to_list m).*2 as [|r l IH]; simpl; intros HL; [lia|].
  pose proof (HL r ltac:(set_solver)). specialize (IH ltac:(set_solver)). lia.
Qed.

Lemma sum_results_nonneg f m t c : (forall r, 0 <= f r) -> 0 <= sum_results f m t c.
Proof. intros H. apply sumZ_nonneg. intros r _. unfold when. case_match; [apply H|lia]. Qed.

(** ** Moves *)

(** Calls and money committed: observed, possibly billed and reserved; and by how much a settled
    result exceeded what it had reserved. *)
Definition committed_calls (c : CampaignRow) : Z :=
  total EObservedCalls c + total EPossiblyCalls c + total EReservedCalls c.
Definition committed_cost (c : CampaignRow) : money :=
  total EObservedCost c + total EPossiblyCost c + total EReservedCost c.

Definition overrun_calls (r : ResultRow) : Z :=
  let b := rr_budget r in
  when (settled r) (Z.max 0 (rb_settled_calls b + rb_possibly_calls b - rb_reserved_calls b)).
Definition overrun_cost (r : ResultRow) : money :=
  let b := rr_budget r in
  when (settled r) (Z.max 0 (rb_settled_cost b + rb_possibly_cost b - rb_reserved_cost b)).

(** The identity and the limits of the campaign; the identities of both rows. *)
Definition same_limits (c c' : CampaignRow) : Prop :=
  cr_id c' = cr_id c /\ cr_tenant_id c' = cr_tenant_id c /\
  cr_max_concurrency c' = cr_max_concurrency c /\
  cr_admission_ceiling c' = cr_admission_ceiling c /\
  cr_structural_ceiling c' = cr_structural_ceiling c /\
  cr_cost_stop_threshold c' = cr_cost_stop_threshold c.

Definition same_unit (c : CampaignRow) (r : ResultRow) (c' : CampaignRow) (r' : ResultRow) : Prop :=
  rr_key r' = rr_key r /\ same_limits c c'.

(** A unit still goes live only when there is room. *)
Definition stays_live (now : Z) (room : Prop) (r r' : ResultRow) : Prop :=
  (live_unit now r' = true -> live_unit now r = true) \/ room.

Definition moved (now : Z) (room : Prop) (c : CampaignRow) (r : ResultRow) (c' : CampaignRow)
    (r' : ResultRow) : Prop :=
  same_unit c r c' r' /\
  campaign_checks c' = true /\ result_checks r' = true /\ unsettled_clear r' /\
  rr_version r <= rr_version r' /\
  (forall e, total e c' - total e c = share e r' - share e r) /\
  (committed_calls c' - committed_calls c <= overrun_calls r' - overrun_calls r \/
   committed_calls c' <= cr_admission_ceiling c /\ overrun_calls r' = overrun_calls r) /\
  (committed_cost c' - committed_cost c <= overrun_cost r' - overrun_cost r \/
   committed_cost c' <= cr_cost_stop_threshold c /\ overrun_cost r' = overrun_cost r) /\
  stays_live now room r r'.

(** One unit of the database moved. *)
Definition db_move (now : Z) (d d' : Sdb) : Prop :=
  exists c r c' r',
    sd_campaigns d !! cr_id c = Some c /\ sd_results d !! rr_id r = Some r /\
    member (cr_tenant_id c) (cr_id c) r /\
    moved now (active_units (cr_tenant_id c) (cr_id c) now d < cr_max_concurrency c) c r c' r' /\
    sd_campaigns d' = <[cr_id c := c']> (sd_campaigns d) /\
    sd_results d' = <[rr_id r := r']> (sd_results d).

(** ** The invariant of the database *)

Definition overruns (f : ResultRow -> Z) (c : CampaignRow) (d : Sdb) : Z :=
  sum_results f (sd_results d) (cr_tenant_id c) (cr_id c).

Record db_ok (d : Sdb) : Prop := {
  ok_campaign i c : sd_campaigns d !! i = Some c -> cr_id c = i /\ campaign_checks c = true;
  ok_result i r : sd_results d !! i = Some r ->
    rr_id r = i /\ result_checks r = true /\ unsettled_clear r;
  ok_owner i r : sd_results d !! i = Some r ->
    exists c, sd_campaigns d !! rk_campaign_id (rr_key r) = Some c /\
      cr_tenant_id c = rk_tenant_id (rr_key r);
  ok_totals i c e : sd_campaigns d !! i = Some c ->
    total e c = sum_results (share e) (sd_results d) (cr_tenant_id c) (cr_id c);
  ok_calls i c : sd_campaigns d !! i = Some c ->
    committed_calls c <= cr_admission_ceiling c + overruns overrun_calls c d;
  ok_cost i c : sd_campaigns d !! i = Some c ->
    committed_cost c <= cr_cost_stop_threshold c + overruns overrun_cost c d
}.

Lemma overrun_calls_nonneg r : 0 <= overrun_calls r.
Proof. unfold overrun_calls, when. case_match; lia. Qed.
Lemma overrun_cost_nonneg r : 0 <= overrun_cost r.
Proof. unfold overrun_cost, when. case_match; lia. Qed.

Lemma mine_key t c r r' : rr_key r' = rr_key r -> mine t c r' = mine t c r.
Proof. intros H. apply bool_decide_ext. unfold member. by rewrite H. Qed.

Lemma mine_true t c r : member t c r -> mine t c r = true.
Proof. apply bool_decide_eq_true_2. Qed.

Lemma mine_other t c t' c' r : member t c r -> (t', c') <> (t, c) -> mine t' c' r = false.
Proof. intros [<- <-] H. apply bool_decide_eq_false_2. intros [? ?]. congruence. Qed.

Lemma db_move_ok now d d' : db_ok d -> db_move now d d' -> db_ok d'.
Proof.
  intros [K1 K2 K0 K3 K4 K5] (c & r & c' & r' & Hc & Hr & Hm & HM & Ec & Er).
  destruct HM as ((S1 & S2 & S3 & S4 & S5 & S6 & S7) & HC & HR & HU & _ & HD & HB1 & HB2 & _).
  assert (forall f i x, sd_campaigns d' !! i = Some x ->
    exists y, sd_campaigns d !! i = Some y /\ cr_tenant_id x = cr_tenant_id y /\ cr_id x = cr_id y /\
      ((y = c /\ x = c' /\
        sum_results f (sd_results d') (cr_tenant_id x) (cr_id x)
          = sum_results f (sd_results d) (cr_tenant_id x) (cr_id x) + (f r' - f r)) \/
       (y = x /\
        sum_results f (sd_results d') (cr_tenant_id x) (cr_id x)
          = sum_results f (sd_results d) (cr_tenant_id x) (cr_id x)))) as HX.
  { intros f i x Hx. rewrite Ec in Hx. rewrite Er.
    rewrite (sum_results_insert _ _ _ r) by first [done | by apply mine_key].
    apply lookup_insert_Some in Hx as [[<- <-]|[Hne Hx]].
    - exists c. ksplit. left. ksplit. rewrite S2, S3, mine_true by done. unfold when. lia.
    - exists x. ksplit. right. split; [done|].
      rewrite (mine_other _ _ _ _ _ Hm); [unfold when; lia|].
      intros [= _ E2]. apply Hne. rewrite <- E2. by apply K1 in Hx as [-> _]. }
  constructor.
  - intros i x. rewrite Ec. intros [[<- <-]|[_ Hx]]%lookup_insert_Some; [done|by apply K1].
  - intros i x. rewrite Er. intros [[<- <-]|[_ Hx]]%lookup_insert_Some; [|by apply K2].
    split; [|done]. unfold rr_id. by rewrite S1.
  - intros i x. rewrite Er, Ec. intros Hx.
    assert (exists y j, sd_results d !! j = Some y /\ rr_key x = rr_key y) as (y & j & Hy & ->).
    { apply lookup_insert_Some in Hx as [[<- <-]|[_ Hx]]; eauto. }
    destruct (K0 _ _ Hy) as (z & Hz & Ez).
    destruct (decide (cr_id c = rk_campaign_id (rr_key y))) as [E|E].
    + exists c'. rewrite E, lookup_insert_eq, S3. split; [done|]. congruence.
    + exists z. by rewrite lookup_insert_ne.
  - intros i x e Hx. destruct (HX (share e) i x Hx) as (y & Hy & Et & Ei & [(-> & -> & ->)|(-> & ->)]).
    + rewrite Et, Ei, <- (K3 _ _ e Hy). specialize (HD e). lia.
    + by apply (K3 i).
  - intros i x Hx. unfold overruns.
    destruct (HX overrun_calls i x Hx) as (y & Hy & Et & Ei & [(-> & -> & ->)|(-> & ->)]).
    + pose proof (K4 _ _ Hy) as HK. unfold overruns in HK. rewrite Et, Ei, S5.
      pose proof (sum_results_nonneg overrun_calls (sd_results d) (cr_tenant_id c) (cr_id c) overrun_calls_nonneg).
      lia.
    + by apply (K4 i).
  - intros i x Hx. unfold overruns.
    destruct (HX overrun_cost i x Hx) as (y & Hy & Et & Ei & [(-> & -> & ->)|(-> & ->)]).
    + pose proof (K5 _ _ Hy) as HK. unfold overruns in HK. rewrite Et, Ei, S7.
      pose proof (sum_results_nonneg overrun_cost (sd_results d) (cr_tenant_id c) (cr_id c) overrun_cost_nonneg).
      lia.
    + by apply (K5 i).
Qed.

(** ** Inverting the store's calls *)

Lemma transaction_case {A} (m : M Sdb A) (P : Sdb -> Prop) d d' r :
  transaction m d = (d', r) -> P d -> (forall d1 a, m d = (d1, Ok a) -> P d1) -> P d'.
Proof.
  unfold transaction. destruct (m d) as [d1 [a|e]] eqn:E; intros; simplify_eq; eauto.
Qed.

Lemma flush_campaign_ok_inv c d d' x : flush_campaign c d = (d', Ok x) ->
  campaign_checks c = true /\ d' = set_campaigns (<[cr_id c := c]> (sd_campaigns d)) d.
Proof. unfold flush_campaign. intros H. minv. by bools. Qed.

Lemma flush_result_ok_inv r d d' x : flush_result r d = (d', Ok x) ->
  result_checks r = true /\ d' = set_results (<[rr_id r := r]> (sd_results d)) d.
Proof. unfold flush_result. intros H. minv. by bools. Qed.

Lemma find_campaign_inv t i d c : find_campaign t i d = Some c ->
  sd_campaigns d !! i = Some c /\ cr_tenant_id c = t.
Proof.
  unfold find_campaign. destruct (sd_campaigns d !! i); [|done]. case_match; [|done].
  intros; simplify_eq. by bools.
Qed.

Lemma find_result_inv t c i d r : find_result t c i d = Some r ->
  sd_results d !! i = Some r /\ member t c r.
Proof.
  unfold find_result. destruct (sd_results d !! i); [|done]. case_match; [|done].
  intros; simplify_eq. by bools.
Qed.

(** What locking the two rows returns. *)
Definition unit_at (t ci ri : UUID) (d : Sdb) (c : CampaignRow) (r : ResultRow) : Prop :=
  sd_campaigns d !! cr_id c = Some c /\ sd_results d !! rr_id r = Some r /\
  cr_id c = ci /\ rr_id r = ri /\ cr_tenant_id c = t /\ member (cr_tenant_id c) (cr_id c) r /\
  campaign_checks c = true /\ result_checks r = true /\ unsettled_clear r.

Lemma locked_ok_inv t ci ri d d' p : db_ok d -> locked_budget_records t ci ri d = (d', Ok p) ->
  d' = d /\ unit_at t ci ri d p.1 p.2.
Proof.
  intros K. unfold locked_budget_records. intros H. minv.
  destruct (find_campaign t ci d) as [c|] eqn:Ec; [|minv].
  destruct (find_result t ci ri d) as [r|] eqn:Er; minv.
  apply find_campaign_inv in Ec as [Ec Et]. apply find_result_inv in Er as [Er Em].
  destruct (ok_campaign _ K _ _ Ec) as [Ei ?]. destruct (ok_result _ K _ _ Er) as (Ej & ? & ?).
  split; [done|]. unfold unit_at. simpl. rewrite Ei, Ej, Et. ksplit.
Qed.

Lemma records_ok_inv scope lease d d' p : db_ok d -> locked_records scope lease d = (d', Ok p) ->
  d' = d /\ unit_at (rl_tenant_id lease) (rl_campaign_id lease) (rl_id lease) d p.1 p.2.
Proof.
  intros K. unfold locked_records, assert_tenant. intros H. minv. by apply locked_ok_inv.
Qed.

Lemma collector_records_ok_inv scope lease d d' p :
  db_ok d -> collector_locked_records scope lease d = (d', Ok p) ->
  d' = d /\ unit_at (cw_tenant_id lease) (cw_campaign_id lease) (cw_id lease) d p.1 p.2.
Proof.
  intros K. unfold collector_locked_records, assert_tenant. intros H. minv. by apply locked_ok_inv.
Qed.

(** The fence let the lease through: it names the state, the owner and the version of the row, and
    the lease has not ended. *)
Definition lease_fits (lease : RunLease) (now : Z) (r : ResultRow) : Prop :=
  leased_state (rr_state r) = true /\ rr_state r = rl_state lease /\
  rs_lease_owner (rr_sched r) = Some (rl_lease_owner lease) /\
  expires_after now (rs_lease_expires_at (rr_sched r)) = true /\
  rr_version r = rl_persisted_version lease.

Lemma active_lease_ok_inv r lease now d d' x : assert_active_lease r lease now d = (d', Ok x) ->
  d' = d /\ lease_fits lease now r.
Proof. unfold assert_active_lease. intros H. minv. bools. done. Qed.

Lemma outbound_ok_inv c r n d d' x : assert_outbound_allowed c r n d = (d', Ok x) ->
  d' = d /\ rr_reservation r = ReservationState_ACTIVE /\
  (cr_status c = CampaignStatus_RUNNING \/ cr_status c = CampaignStatus_STOPPING /\ 0 < n).
Proof.
  unfold assert_outbound_allowed, assert_active_reservation. intros H. minv. bools. ksplit.
  destruct (decide (cr_status c = CampaignStatus_RUNNING)) as [|Hs]; [by left|].
  rewrite (bool_decide_eq_false_2 (cr_status c = CampaignStatus_RUNNING)) in * by done.
  simpl in *. bools. by right.
Qed.

Lemma reads_receipt h c r receipt : reads (assert_authoritative_receipt h c r receipt).
Proof.
  unfold assert_authoritative_receipt. apply reads_bind; [done|]. intros d.
  case_match; [|done]. apply reads_bind; [done|]. intros []. apply reads_bind; [done|].
  intros []. apply reads_bind; done.
Qed.

Lemma reads_ok_inv {S A} (m : M S A) s s' a : reads m -> m s = (s', Ok a) -> s' = s.
Proof. intros H E. specialize (H s). by rewrite E in H. Qed.

Lemma verify_gold_ok_inv i o d d' x : verify_gold_assertions i o d = (d', Ok x) -> d' = d.
Proof. unfold verify_gold_assertions. intros H. minv. done. Qed.

Lemma stored_reservation_ok r q : result_checks r = true -> stored_reservation r = Ok q ->
  q = {| rq_provider_calls := rb_reserved_calls (rr_budget r);
         rq_estimated_cost := rb_reserved_cost (rr_budget r) |}.
Proof.
  unfold stored_reservation, ReservationRequest_new, result_checks. intros HC H. minv.
  simpl in HC. bools. unfold fits_money in *. bools.
  rewrite money_decimal_ok in E0 by lia. by simplify_eq.
Qed.

(** [sinv] opens the calls of a transaction that returned, from a sound database. *)
Ltac sinv :=
  repeat (minv; match goal with
  | H : _ = (_, Ok _) |- _ => progress cbv beta iota zeta in H
  | K : db_ok ?d, H : locked_budget_records _ _ _ ?d = (_, Ok _) |- _ =>
      apply (locked_ok_inv _ _ _ _ _ _ K) in H as [-> H]
  | K : db_ok ?d, H : locked_records _ _ ?d = (_, Ok _) |- _ =>
      apply (records_ok_inv _ _ _ _ _ K) in H as [-> H]
  | K : db_ok ?d, H : collector_locked_records _ _ ?d = (_, Ok _) |- _ =>
      apply (collector_records_ok_inv _ _ _ _ _ K) in H as [-> H]
  | H : assert_tenant _ _ _ = (_, Ok _) |- _ => unfold assert_tenant in H
  | H : assert_active_reservation _ _ = (_, Ok _) |- _ => unfold assert_active_reservation in H
  | H : assert_active_lease _ _ _ _ = (_, Ok _) |- _ => apply active_lease_ok_inv in H as [-> H]
  | H : assert_outbound_allowed _ _ _ _ = (_, Ok _) |- _ => apply outbound_ok_inv in H as [-> H]
  | H : assert_collector_lease _ _ _ _ = (_, Ok _) |- _ => unfold assert_collector_lease in H
  | H : assert_authoritative_receipt _ _ _ _ _ = (_, Ok _) |- _ =>
      apply (reads_ok_inv _ _ _ _ (reads_receipt _ _ _ _)) in H as ->
  | H : verify_gold_assertions _ _ _ = (_, Ok _) |- _ => apply verify_gold_ok_inv in H as ->
  | H : flush_campaign _ _ = (_, Ok _) |- _ => apply flush_campaign_ok_inv in H as [? ->]
  | H : flush_result _ _ = (_, Ok _) |- _ => apply flush_result_ok_inv in H as [? ->]
  | p : (CampaignRow * ResultRow)%type |- _ => destruct p; simpl in *
  end); minv.

(** ** Moves of one row *)

Definition open_state (s : SchedulingState) : bool :=
  bool_decide (s ∈ [SchedulingState_PENDING; SchedulingState_CLAIMED;
                    SchedulingState_CONVERSATION_BOUND; SchedulingState_SUBMITTED]).

Lemma leased_open s : leased_state s = true -> open_state s = true.
Proof. by destruct s. Qed.

(** The columns of the budget that the ledger counts. *)
Definition figures (b : ResultBudget) :=
  (rb_state b, (rb_reserved_calls b, rb_reserved_cost b), (rb_settled_calls b, rb_settled_cost b),
   (rb_possibly_calls b, rb_possibly_cost b), (rb_prompt_tokens b, rb_completion_tokens b)).

Lemma share_open e r r' :
  figures (rr_budget r') = figures (rr_budget r) -> open_state (rr_state r) = true -> open_state (rr_state r') = true ->
  rs_search_run_id (rr_sched r') = rs_search_run_id (rr_sched r) ->
  share e r' = share e r.
Proof.
  intros Hb H1 H2 Hs. unfold share, settled, reserved, rr_reservation.
  injection Hb as -> -> -> -> -> -> -> -> ->. rewrite Hs.
  destruct e; try done; destruct (rr_state r), (rr_state r'); done.
Qed.

Lemma same_unit_refl c r r' : rr_key r' = rr_key r -> same_unit c r c r'.
Proof. by unfold same_unit. Qed.

Lemma figures_overruns r r' : figures (rr_budget r') = figures (rr_budget r) ->
  (unsettled_clear r -> unsettled_clear r') /\
  overrun_calls r' = overrun_calls r /\ overrun_cost r' = overrun_cost r.
Proof.
  intros Hb. injection Hb as E1 E2 E3 E4 E5 E6 E7 E8 E9.
  unfold unsettled_clear, overrun_calls, overrun_cost, settled, rr_reservation.
  by rewrite E1, E2, E3, E4, E5, E6, E7, E8, E9.
Qed.

(** A move that touches neither the budget nor the counters. *)
Lemma moved_open now room c r r' :
  campaign_checks c = true -> result_checks r' = true -> unsettled_clear r ->
  rr_key r' = rr_key r -> figures (rr_budget r') = figures (rr_budget r) ->
  open_state (rr_state r) = true -> open_state (rr_state r') = true ->
  rs_search_run_id (rr_sched r') = rs_search_run_id (rr_sched r) ->
  rr_version r <= rr_version r' -> stays_live now room r r' ->
  moved now room c r c r'.
Proof.
  intros HC HR HU Hk Hb H1 H2 Hs Hv HL. pose proof (figures_overruns _ _ Hb) as (B1 & B2 & B3).
  unfold moved. ksplit.
  - by apply B1.
  - intros e. rewrite (share_open e r r') by done. lia.
  - left. rewrite B2. lia.
  - left. rewrite B3. lia.
Qed.

(** A move that leaves the budget alone but counts. *)
Lemma moved_counts now room c r c' r' :
  same_unit c r c' r' -> campaign_checks c' = true -> result_checks r' = true ->
  unsettled_clear r -> rr_version r <= rr_version r' ->
  cr_ledger c' = cr_ledger c -> figures (rr_budget r') = figures (rr_budget r) ->
  (forall e, total e c' - total e c = share e r' - share e r) ->
  stays_live now room r r' -> moved now room c r c' r'.
Proof.
  intros HS HC HR HU Hv Hl Hb HD HL. pose proof (figures_overruns _ _ Hb) as (B1 & B2 & B3).
  unfold moved. ksplit.
  - by apply B1.
  - left. unfold committed_calls, total. rewrite Hl, B2. lia.
  - left. unfold committed_cost, total. rewrite Hl, B3. lia.
Qed.

(** A unit that ends up out of every live state. *)
Lemma live_not now room r r' : live_unit now r' = false -> stays_live now room r r'.
Proof. intros H. left. by rewrite H. Qed.

Lemma move_one now d c r c' r' d' t ci ri :
  unit_at t ci ri d c r ->
  moved now (active_units (cr_tenant_id c) (cr_id c) now d < cr_max_concurrency c) c r c' r' ->
  sd_campaigns d' = <[cr_id c := c']> (sd_campaigns d) ->
  sd_results d' = <[rr_id r := r']> (sd_results d) ->
  star (db_move now) d d'.
Proof.
  intros (H1 & H2 & _ & _ & _ & H3 & _) HM E1 E2. apply star_one. by exists c, r, c', r'.
Qed.

Lemma move_result now d c r r' t ci ri :
  unit_at t ci ri d c r ->
  moved now (active_units (cr_tenant_id c) (cr_id c) now d < cr_max_concurrency c) c r c r' ->
  star (db_move now) d (set_results (<[rr_id r' := r']> (sd_results d)) d).
Proof.
  intros HU HM. eapply move_one; [done..| |].
  - simpl. symmetry. apply insert_id. apply HU.
  - simpl. destruct HM as ((Hk & _) & _). unfold rr_id. by rewrite Hk.
Qed.

(** Liveness is kept by a move that keeps the lease. *)
Lemma live_same now room r r' :
  rr_state r' = rr_state r -> rr_reservation r' = rr_reservation r ->
  rs_lease_expires_at (rr_sched r') = rs_lease_expires_at (rr_sched r) ->
  stays_live now room r r'.
Proof. intros H1 H2 H3. left. unfold live_unit. by rewrite H1, H2, H3. Qed.

(** ** Every transaction is made of moves *)

(** A fact that was already used. *)
Definition marker (b : bool) : Prop := True.

Section Moves.
Context (scope : UUID) (hash : pystr -> pystr).

Lemma claimable_open status now r : claimable status now r = true -> open_state (rr_state r) = true.
Proof.
  unfold claimable, rr_state. destruct (rs_state (rr_sched r)); try done;
    case_match; simpl; try done; by rewrite ?andb_false_l.
Qed.

Lemma first_by_ordinal_in l r : first_by_ordinal l = Some r -> r ∈ l.
Proof.
  revert r. induction l as [|x l IH]; simpl; [done|]. intros r.
  destruct (first_by_ordinal l) as [b|] eqn:E; [case_match|]; intros; simplify_eq; set_solver.
Qed.

Lemma first_result_inv (P : ResultRow -> Prop) `{HDec : forall r, Decision (P r)} t ci d r :
  db_ok d -> first_by_ordinal (base.filter P (results_of t ci d)) = Some r ->
  P r /\ sd_results d !! rr_id r = Some r /\ member t ci r /\ unsettled_clear r /\
  result_checks r = true.
Proof.
  intros K H%first_by_ordinal_in. apply list_elem_of_filter in H as [HP H].
  unfold results_of in H. apply list_elem_of_filter in H as [Hm H].
  apply list_elem_of_fmap in H as ([i r'] & -> & H). apply elem_of_map_to_list in H. simpl in *.
  destruct (ok_result _ K _ _ H) as (E & ? & ?). rewrite E. done.
Qed.

Lemma claim_moves t ci w dur now d d' a : db_ok d ->
  claim_next_result scope t ci w dur now d = (d', a) -> star (db_move now) d d'.
Proof.
  intros K H. apply (transaction_case _ _ _ _ _ H); [apply star_refl|]. clear dependent a. intros d1 b H.
  sinv. destruct (find_campaign t ci d) as [c|] eqn:Ec; [|sinv; apply star_refl].
  destruct (negb (bool_decide (cr_status c ∈ _))) eqn:Es; [sinv; apply star_refl|].
  destruct (cr_max_concurrency c <=? active_units t ci now d) eqn:Ea; [sinv; apply star_refl|]. bools.
  destruct (first_by_ordinal _) as [r|] eqn:Er; [|sinv; apply star_refl].
  apply find_campaign_inv in Ec as [Ec <-]. destruct (ok_campaign _ K _ _ Ec) as [<- HC].
  apply first_result_inv in Er as (Hcl & Hr & Hm & HU & HR); [|done].
  sinv. eapply (move_result now d c r); [by unfold unit_at|].
  apply moved_open; try done; simpl.
  - by eapply claimable_open.
  - unfold rr_state. simpl. by case_match.
  - lia.
  - by right.
Qed.

Lemma renew_ok_inv now expires l l' : RunLease_renew now expires l = Ok l' ->
  rl_version l' = rl_version l + 1 /\ rl_persisted_version l' = rl_persisted_version l /\
  rl_tenant_id l' = rl_tenant_id l /\ rl_campaign_id l' = rl_campaign_id l /\
  rl_id l' = rl_id l /\ rl_lease_owner l' = rl_lease_owner l.
Proof. unfold RunLease_renew. intros H. minv. done. Qed.

Lemma renew_moves lease dur now d d' a : db_ok d -> rl_persisted_version lease <= rl_version lease ->
  renew_result_lease scope lease dur now d = (d', a) -> star (db_move now) d d'.
Proof.
  intros K HL H. apply (transaction_case _ _ _ _ _ H); [apply star_refl|]. clear dependent a. intros d1 b H.
  sinv. destruct (find_result _ _ _ d) as [r|] eqn:Er; [|sinv].
  apply find_result_inv in Er as [Er Hm]. destruct (ok_result _ K _ _ Er) as (Ei & HR & HU).
  destruct (ok_owner _ K _ _ Er) as (c & Ec & Et). destruct (ok_campaign _ K _ _ Ec) as [Ej HC].
  match goal with E : RunLease_renew _ _ _ = Ok _ |- _ =>
    apply renew_ok_inv in E as (V1 & V2 & V3 & V4 & V5 & V6) end. sinv. bools.
  eapply (move_result now d c r); [unfold unit_at, member; rewrite Ei, Ej, Et; by ksplit|].
  apply moved_open; try done; simpl; try (by apply leased_open); [lia|].
  left. intros _. unfold live_unit, rr_state. apply orb_true_iff. right. apply andb_true_iff.
  by split.
Qed.

(** [start_move H] opens a transaction down to its body. *)
Ltac start_move K H :=
  apply (transaction_case _ _ _ _ _ H); [apply star_refl|];
  match type of H with _ = (_, ?a) => clear dependent a end;
  let d1 := fresh "d1" in let b := fresh "b" in intros d1 b H; sinv.

Lemma unit_parts t ci ri d c r : unit_at t ci ri d c r ->
  campaign_checks c = true /\ result_checks r = true /\ unsettled_clear r.
Proof. intros H. apply H. Qed.

Lemma fits_parts lease now r : lease_fits lease now r ->
  leased_state (rr_state r) = true /\ open_state (rr_state r) = true /\ live_unit now r = true.
Proof.
  intros (H1 & _ & _ & H2 & _). split; [done|]. split; [by apply leased_open|].
  unfold live_unit. rewrite H1, H2. by rewrite orb_true_r.
Qed.

(** The facts about the unit the transaction locked. *)
Ltac unit_facts :=
  match goal with U : unit_at _ _ _ _ _ _ |- _ =>
    destruct (unit_parts _ _ _ _ _ _ U) as (HC & HR & HU) end;
  try match goal with L : lease_fits _ _ _ |- _ =>
    pose proof (fits_parts _ _ _ L) as (L1 & L2 & L3) end.

Lemma prepare_conversation_moves lease now d d' a : db_ok d ->
  prepare_conversation_attempt scope lease now d = (d', a) -> star (db_move now) d d'.
Proof.
  intros K H. start_move K H. unit_facts. eapply move_result; [eassumption|].
  apply moved_open; try done; simpl; [lia|]. by apply live_same.
Qed.

Lemma prepare_submission_moves lease now d d' a : db_ok d ->
  prepare_submission_attempt scope lease now d = (d', a) -> star (db_move now) d d'.
Proof.
  intros K H. start_move K H. unit_facts. eapply move_result; [eassumption|].
  apply moved_open; try done; simpl; [lia|]. by apply live_same.
Qed.

Lemma bind_conversation_moves lease conversation now d d' a : db_ok d ->
  bind_conversation scope hash lease conversation now d = (d', a) -> star (db_move now) d d'.
Proof.
  intros K H. start_move K H. unit_facts.
  destruct (rs_conversation_id _) as [bound|].
  - destruct (_ && _); sinv. apply star_refl.
  - sinv. bools. eapply move_result; [eassumption|].
    apply moved_open; try done; simpl; [lia|]. by left.
Qed.

Lemma bind_submission_moves lease receipt now d d' a : db_ok d ->
  bind_submission scope hash lease receipt now d = (d', a) -> star (db_move now) d d'.
Proof.
  intros K H. start_move K H. destruct (rs_search_run_id _) as [bound|] eqn:Eb; sinv.
  - apply star_refl.
  - unit_facts. bools. eapply move_one; [eassumption| |reflexivity|reflexivity].
    apply moved_counts; try done; simpl; [lia| |by left].
    intros e. destruct e; unfold share, settled, reserved, rr_reservation, rr_state; simpl;
      rewrite ?H1, ?Eb; simpl; lia.
Qed.

(** ** Reservations *)

Lemma dec_add_exact a b : 0 <= a -> 0 <= b -> dec_add a b < 10 ^ 20 -> dec_add a b = a + b.
Proof. intros Ha Hb H. symmetry. apply dec_fix_small; [lia|done|lia]. Qed.

Lemma dec_sub_exact a b : 0 <= a < 10 ^ 20 -> 0 <= b < 10 ^ 20 -> dec_sub a b = a - b.
Proof. intros Ha Hb. apply dec_fix_exact. lia. Qed.

(** What the constraints say of a campaign's amounts. *)
Lemma campaign_amounts c : campaign_checks c = true ->
  0 < cr_admission_ceiling c <= cr_structural_ceiling c /\
  0 < cr_cost_stop_threshold c < 10 ^ 20 /\
  0 <= lg_observed_calls (cr_ledger c) /\ 0 <= lg_possibly_calls (cr_ledger c) /\
  0 <= lg_reserved_calls (cr_ledger c) /\
  0 <= lg_observed_cost (cr_ledger c) < 10 ^ 20 /\
  0 <= lg_possibly_cost (cr_ledger c) < 10 ^ 20 /\
  0 <= lg_reserved_cost (cr_ledger c) < 10 ^ 20.
Proof. unfold campaign_checks, fits_money. intros H. simpl in H. bools. lia. Qed.

Lemma result_amounts r : result_checks r = true ->
  0 <= rb_reserved_calls (rr_budget r) /\ 0 <= rb_reserved_cost (rr_budget r) < 10 ^ 20 /\
  0 <= rb_settled_calls (rr_budget r) /\ 0 <= rb_settled_cost (rr_budget r) < 10 ^ 20 /\
  0 <= rb_possibly_calls (rr_budget r) /\ 0 <= rb_possibly_cost (rr_budget r) < 10 ^ 20.
Proof. unfold result_checks, fits_money. intros H. simpl in H. bools. lia. Qed.

Lemma result_reserved r : result_checks r = true -> rr_reservation r = ReservationState_ACTIVE ->
  0 < rb_reserved_calls (rr_budget r).
Proof.
  unfold result_checks, rr_reservation. intros H E. rewrite E in H.
  do 4 apply andb_prop in H as [H _]. apply andb_prop in H as [_ H]. by bools.
Qed.

Lemma snapshot_of_wf c : campaign_checks c = true -> snapshot_wf (snapshot_of c).
Proof. intros H%campaign_amounts. unfold snapshot_wf. simpl. lia. Qed.

Lemma request_ok_inv c q : reservation_request c = Ok q ->
  0 < rq_provider_calls q /\ 0 <= rq_estimated_cost q.
Proof.
  unfold reservation_request, ReservationRequest_new. intros H. minv.
  repeat case_match; simplify_eq; minv; bools;
    match goal with E : nonnegative_decimal _ = Ok _ |- _ => apply nonnegative_decimal_bounds in E end;
    simpl; lia.
Qed.

Ltac open_unit :=
  unfold unsettled_clear, committed_calls, committed_cost, overrun_calls, overrun_cost, settled,
    reserved, rr_reservation, rr_state in *.

(** The amounts of the rows before and after. *)
Ltac amounts :=
  repeat match goal with
  | H : campaign_checks ?c = true |- _ =>
      lazymatch goal with
      | _ : marker (campaign_checks c) |- _ => fail
      | _ => assert (marker (campaign_checks c)) by exact I;
             pose proof (campaign_amounts c H)
      end
  | H : result_checks ?r = true |- _ =>
      lazymatch goal with
      | _ : marker (result_checks r) |- _ => fail
      | _ => assert (marker (result_checks r)) by exact I;
             pose proof (result_amounts r H)
      end
  end.

Lemma grant_moves c r lease q now d d' a t ci ri :
  unit_at t ci ri d c r -> leased_state (rr_state r) = true ->
  rr_reservation r = ReservationState_NONE -> reservation_request c = Ok q ->
  ba_allowed (budget_admit (snapshot_of c) q) = true ->
  grant_reservation c r lease q now d = (d', Ok a) -> star (db_move now) d d'.
Proof.
  intros HU HL HN HQ HA H. unfold grant_reservation in H. sinv.
  destruct (unit_parts _ _ _ _ _ _ HU) as (HC & HR & HUC).
  amounts. simpl in *.
  destruct (request_ok_inv _ _ HQ) as [Q1 Q2].
  eapply move_one; [eassumption| |reflexivity|reflexivity].
  assert (dec_add (lg_reserved_cost (cr_ledger c)) (rq_estimated_cost q)
          = lg_reserved_cost (cr_ledger c) + rq_estimated_cost q) as EX by (apply dec_add_exact; lia).
  destruct (admission_decision (snapshot_of c) q (snapshot_of_wf _ HC) ltac:(lia)) as [[AD _] _].
  specialize (AD HA) as [AD1 AD2]. unfold projected_calls, projected_cost in *. simpl in *.
  unfold moved. ksplit; open_unit; simpl.
  - rewrite HN in HUC. intros _. by apply HUC.
  - lia.
  - intros e. destruct e; unfold share, settled, reserved, rr_reservation, rr_state; simpl;
      rewrite ?HN; simpl; lia.
  - right. rewrite HN. simpl. lia.
  - right. rewrite HN. simpl. lia.
  - left. unfold live_unit, rr_state. simpl. by destruct (rs_state (rr_sched r)).
Qed.

Lemma total_stop e intent reason c : total e (cr_bump (cr_stop intent reason c)) = total e c.
Proof. by destruct e. Qed.

Lemma deny_moves c r lease admission now d d' a t ci ri :
  unit_at t ci ri d c r -> leased_state (rr_state r) = true ->
  rr_reservation r = ReservationState_NONE ->
  deny_reservation c r lease admission d = (d', Ok a) -> star (db_move now) d d'.
Proof.
  intros HU HL HN H. unfold deny_reservation in H. sinv.
  destruct (unit_parts _ _ _ _ _ _ HU) as (HC & HR & HUC).
  eapply move_one; [eassumption| |reflexivity|reflexivity].
  unfold moved. ksplit; try (intros e; rewrite total_stop); open_unit; simpl.
  - lia.
  - unfold share. open_unit. destruct e; simpl; rewrite ?HN; simpl; lia.
  - left. rewrite HN. simpl. lia.
  - left. rewrite HN. simpl. lia.
  - left. unfold live_unit. open_unit. simpl. by destruct (rs_state (rr_sched r)).
Qed.

Lemma reserve_moves lease now d d' a : db_ok d ->
  reserve_run_budget scope lease now d = (d', a) -> star (db_move now) d d'.
Proof.
  intros K H. start_move K H. unit_facts.
  destruct (cr_status c isnot CampaignStatus_RUNNING); sinv; [apply star_refl|]. bools.
  match goal with E : CampaignBudgetSnapshot_new _ = Ok _ |- _ =>
    rewrite snapshot_new_ok in E by (by apply snapshot_of_wf) end. simplify_eq.
  destruct (ba_allowed (budget_admit _ _)) eqn:EA; [by eapply grant_moves|]. sinv.
  destruct (ba_allowed _ && _); sinv; [apply star_refl|]. by eapply deny_moves.
Qed.

Lemma release_moves lease now d d' a : db_ok d ->
  release_run_budget scope lease now d = (d', a) -> star (db_move now) d d'.
Proof.
  intros K H. start_move K H. unit_facts.
  destruct (rr_reservation r is ReservationState_RELEASED); sinv; [apply star_refl|]. bools.
  assert (rr_reservation r = ReservationState_ACTIVE) as HN by done.
  eapply move_one; [eassumption| |reflexivity|reflexivity]. amounts. simpl in *.
  assert (dec_sub (lg_reserved_cost (cr_ledger c)) (rb_reserved_cost (rr_budget r))
          = lg_reserved_cost (cr_ledger c) - rb_reserved_cost (rr_budget r)) as EX
    by (apply dec_sub_exact; lia).
  unfold moved. ksplit; open_unit; simpl.
  - rewrite HN in HU. intros _. by apply HU.
  - lia.
  - intros e. unfold share. open_unit. destruct e; simpl; rewrite ?HN; simpl; lia.
  - left. rewrite HN. simpl. lia.
  - left. rewrite HN. simpl. lia.
  - left. unfold live_unit. open_unit. simpl. rewrite HN. by destruct (rs_state (rr_sched r)).
Qed.

(** ** Settlement *)

Lemma total_settled e c q usage :
  total e (settled_campaign c q usage) =
  match e with
  | EPossiblyBilled => total e c + one (negb (su_possibly_calls usage =? 0)
                                        || negb (su_possibly_cost usage =? 0))
  | EReservedCalls => total e c - rq_provider_calls q
  | EReservedCost => dec_sub (total e c) (rq_estimated_cost q)
  | EObservedCalls => total e c + su_observed_calls usage
  | EObservedCost => dec_add (total e c) (su_observed_cost usage)
  | EPossiblyCalls => total e c + su_possibly_calls usage
  | EPossiblyCost => dec_add (total e c) (su_possibly_cost usage)
  | EPromptTokens => total e c + su_prompt_tokens usage
  | ECompletionTokens => total e c + su_completion_tokens usage
  | _ => total e c
  end.
Proof.
  unfold settled_campaign, one. destruct (negb _ || negb _) eqn:E; destruct (_ && _); destruct e; simpl; lia.
Qed.

Lemma settled_same c r q usage r' : rr_key r' = rr_key r ->
  same_unit c r (settled_campaign c q usage) r'.
Proof.
  intros H. unfold same_unit, settled_campaign. destruct (_ || _); destruct (_ && _); done.
Qed.

Lemma settled_id c q usage : cr_id (settled_campaign c q usage) = cr_id c.
Proof. unfold settled_campaign. destruct (_ || _); destruct (_ && _); done. Qed.

#[local] Arguments settled_campaign : simpl never.

Lemma settled_moved now room c r q digest usage :
  campaign_checks c = true -> result_checks r = true -> unsettled_clear r ->
  rr_reservation r = ReservationState_ACTIVE ->
  q = {| rq_provider_calls := rb_reserved_calls (rr_budget r);
         rq_estimated_cost := rb_reserved_cost (rr_budget r) |} ->
  campaign_checks (settled_campaign c q usage) = true ->
  result_checks (settled_result r q digest usage now) = true ->
  moved now room c r (settled_campaign c q usage) (settled_result r q digest usage now).
Proof.
  intros HC HR HU HN -> HC' HR'. set (q := Build_ReservationRequest _ _) in *.
  pose proof (campaign_amounts _ HC) as A. pose proof (campaign_amounts _ HC') as A'.
  pose proof (result_amounts _ HR) as B. pose proof (result_amounts _ HR') as B'.
  fold (total EObservedCost (settled_campaign c q usage))
    (total EPossiblyCost (settled_campaign c q usage))
    (total EReservedCost (settled_campaign c q usage)) in A'.
  rewrite !total_settled in A'. simpl in *.
  assert (dec_sub (lg_reserved_cost (cr_ledger c)) (rb_reserved_cost (rr_budget r))
          = lg_reserved_cost (cr_ledger c) - rb_reserved_cost (rr_budget r)) as X1
    by (apply dec_sub_exact; lia).
  assert (dec_add (lg_observed_cost (cr_ledger c)) (su_observed_cost usage)
          = lg_observed_cost (cr_ledger c) + su_observed_cost usage) as X2 by (apply dec_add_exact; lia).
  assert (dec_add (lg_possibly_cost (cr_ledger c)) (su_possibly_cost usage)
          = lg_possibly_cost (cr_ledger c) + su_possibly_cost usage) as X3 by (apply dec_add_exact; lia).
  unfold moved. split; [by apply settled_same|]. ksplit; open_unit; rewrite ?total_settled; simpl.
  - lia.
  - intros e. rewrite total_settled. unfold share. open_unit. destruct e; simpl; rewrite ?HN; simpl; try lia.
  - left. rewrite HN. simpl. lia.
  - left. rewrite HN. simpl. lia.
  - left. unfold live_unit. open_unit. simpl. rewrite HN. by destruct (rs_state (rr_sched r)).
Qed.

Lemma settle_moves t ci ri digest usage now d d' a : db_ok d ->
  settle_run_budget scope t ci ri digest usage now d = (d', Ok a) -> star (db_move now) d d'.
Proof.
  intros K H. unfold settle_run_budget in H. sinv. unit_facts.
  destruct (rr_reservation r is ReservationState_SETTLED); sinv; [apply star_refl|]. bools.
  match goal with E : stored_reservation _ = Ok _ |- _ => apply stored_reservation_ok in E; [|done] end.
  eapply move_one; [eassumption|apply settled_moved; eassumption| |reflexivity].
  simpl. by rewrite settled_id.
Qed.

Lemma settle_result_moves t ci ri digest usage now d d' a : db_ok d ->
  settle_result scope t ci ri digest usage now d = (d', a) -> star (db_move now) d d'.
Proof. intros K H. start_move K H. by eapply settle_moves. Qed.

(** ** Failures *)

Definition failed_count (c : CampaignRow) : CampaignRow :=
  cr_bump (cr_set_counts (ct_add 0 0 1 0 0 0 (cr_counts c)) c).
Definition failed_row (f : RunnerFailure) (r : ResultRow) : ResultRow :=
  rr_bump (rr_set_collected (rc_fail f (rr_collected r))
    (rr_set_sched (rs_set_lease SchedulingState_FAILED None None (rr_sched r)) r)).

Lemma live_failed now f r : live_unit now (failed_row f r) = false.
Proof. done. Qed.

(** Charged as possibly billed. *)
Lemma fail_moved_charged now room c r f digest c2 r2 d d' :
  campaign_checks c = true -> result_checks r = true -> unsettled_clear r ->
  leased_state (rr_state r) = true -> rr_reservation r = ReservationState_ACTIVE ->
  rf_possibly_billed f = true -> fail_reservation c r f digest now d = (d', Ok (c2, r2)) ->
  campaign_checks (failed_count c2) = true -> result_checks (failed_row f r2) = true ->
  d' = d /\ rr_sched r2 = rr_sched r /\ cr_id c2 = cr_id c /\ rr_id r2 = rr_id r /\
  moved now room c r (failed_count c2) (failed_row f r2).
Proof.
  intros HC HR HU HL HN Hp H. unfold fail_reservation in H. rewrite HN, Hp in H. simpl in H. sinv.
  intros HC' HR'. amounts. pose proof (result_reserved _ HR HN) as P.
  open_unit. destruct (HU ltac:(by rewrite HN)) as (U1 & U2 & U3 & U4 & U5 & U6). simpl in *.
  assert (dec_sub (lg_reserved_cost (cr_ledger c)) (rb_reserved_cost (rr_budget r))
          = lg_reserved_cost (cr_ledger c) - rb_reserved_cost (rr_budget r)) as X1
    by (apply dec_sub_exact; lia).
  assert (dec_add (lg_possibly_cost (cr_ledger c)) (rb_reserved_cost (rr_budget r))
          = lg_possibly_cost (cr_ledger c) + rb_reserved_cost (rr_budget r)) as X2
    by (apply dec_add_exact; lia).
  ksplit. unfold moved. ksplit; open_unit; simpl.
  - lia.
  - intros e. unfold share. open_unit.
    destruct e; simpl; rewrite ?HN; simpl; rewrite ?U1, ?U2, ?U3, ?U4, ?U5, ?U6; simpl; try lia;
      try (destruct (rs_state (rr_sched r)); try discriminate HL; simpl; lia).
    replace (rb_reserved_calls (rr_budget r) =? 0) with false by lia. simpl. lia.
  - left. rewrite HN. simpl. lia.
  - left. rewrite HN. simpl. lia.
  - by apply live_not.
Qed.

(** Released, or never reserved. *)
Lemma fail_moved_free now room c r f digest c2 r2 d d' :
  campaign_checks c = true -> result_checks r = true -> unsettled_clear r ->
  leased_state (rr_state r) = true -> rf_possibly_billed f = false ->
  fail_reservation c r f digest now d = (d', Ok (c2, r2)) ->
  campaign_checks (failed_count c2) = true -> result_checks (failed_row f r2) = true ->
  d' = d /\ rr_sched r2 = rr_sched r /\ cr_id c2 = cr_id c /\ rr_id r2 = rr_id r /\
  moved now room c r (failed_count c2) (failed_row f r2).
Proof.
  intros HC HR HU HL Hp H. unfold fail_reservation in H. rewrite Hp in H.
  destruct (rr_reservation r is ReservationState_ACTIVE) eqn:EN; sinv; bools; intros HC' HR'.
  - amounts. simpl in *.
    assert (dec_sub (lg_reserved_cost (cr_ledger c)) (rb_reserved_cost (rr_budget r))
            = lg_reserved_cost (cr_ledger c) - rb_reserved_cost (rr_budget r)) as X1
      by (apply dec_sub_exact; lia).
    ksplit. unfold moved. open_unit. ksplit; open_unit; simpl; rewrite ?EN in *; simpl.
    + intros _. by apply HU.
    + lia.
    + intros e. unfold share. open_unit.
      destruct e; simpl; rewrite ?EN; simpl; try lia;
        destruct (rs_state (rr_sched r)); try discriminate HL; simpl; lia.
    + left. lia.
    + left. lia.
    + by apply live_not.
  - ksplit. apply moved_counts; try done; open_unit; simpl; [lia| |by apply live_not].
    intros e. unfold share. open_unit.
    destruct e; simpl; try lia; destruct (rs_state (rr_sched r2)); try discriminate HL; simpl; lia.
Qed.

Lemma fail_reservation_sched c r f digest now d d' c2 r2 :
  fail_reservation c r f digest now d = (d', Ok (c2, r2)) -> rr_sched r2 = rr_sched r.
Proof. unfold fail_reservation. intros H. repeat case_match; sinv; done. Qed.

Lemma mark_failure_moves lease f digest now d d' a : db_ok d ->
  mark_failure scope lease f digest now d = (d', a) -> star (db_move now) d d'.
Proof.
  intros K H. start_move K H. unit_facts.
  destruct (rs_state (rr_sched r) is SchedulingState_FAILED); sinv; [apply star_refl|]. bools.
  match goal with E : fail_reservation _ _ _ _ _ _ = (_, Ok (?c2, ?r2)) |- _ =>
    pose proof (fail_reservation_sched _ _ _ _ _ _ _ _ _ E) as ES; rewrite <- ES in *;
    fold (failed_count c2) in *; fold (failed_row f r2) in *;
    assert (s1 = d /\ rr_sched r2 = rr_sched r /\ cr_id c2 = cr_id c /\ rr_id r2 = rr_id r /\
      moved now (active_units (cr_tenant_id c) (cr_id c) now d < cr_max_concurrency c) c r
        (failed_count c2) (failed_row f r2)) as (-> & _ & EC & ER & HM) end.
  { rewrite ES in H1. destruct (rf_possibly_billed f) eqn:Ef;
      [eapply fail_moved_charged|eapply fail_moved_free]; try eassumption; by (simpl in *; bools). }
  eapply move_one; [eassumption|exact HM| |]; simpl; [by rewrite <- EC|by rewrite <- ER].
Qed.

(** ** Collection *)

Lemma collector_claim_moves t ci w dur now d d' a : db_ok d ->
  collector_claim_next scope t ci w dur now d = (d', a) -> star (db_move now) d d'.
Proof.
  intros K H. start_move K H. destruct (find_campaign t ci d) as [c|] eqn:Ec; [|sinv; apply star_refl].
  destruct (negb (collectable (cr_status c))); [sinv; apply star_refl|].
  destruct (cr_max_concurrency c <=? _); [sinv; apply star_refl|].
  destruct (first_by_ordinal _) as [r|] eqn:Er; [|sinv; apply star_refl].
  apply find_campaign_inv in Ec as [Ec <-]. destruct (ok_campaign _ K _ _ Ec) as [<- HC].
  apply first_result_inv in Er as (Hcl & Hr & Hm & HU & HR); [|done].
  unfold collectable_unit in Hcl. bools. sinv. repeat case_match; sinv.
  eapply (move_result now d c r); [by unfold unit_at|].
  assert (open_state (rr_state r) = true) as HO by (destruct (rr_state r); done).
  apply moved_open; try done; simpl; [lia|by apply live_same].
Qed.

Lemma collector_renew_moves lease dur now d d' a : db_ok d ->
  collector_renew scope lease dur now d = (d', a) -> star (db_move now) d d'.
Proof.
  intros K H. start_move K H. unit_facts. bools. eapply move_result; [eassumption|].
  assert (open_state (rr_state r) = true) as HO by (destruct (rr_state r); done).
  apply moved_open; try done; simpl; [lia|]. by apply live_same.
Qed.

Lemma star_ok now d d' : db_ok d -> star (db_move now) d d' -> db_ok d'.
Proof. intros K H. induction H; [done|]. eauto using db_move_ok. Qed.

(** A settlement leaves the scheduling columns of every result alone. *)
Lemma settle_sched t ci ri digest usage now d d' a i r' : db_ok d ->
  settle_run_budget scope t ci ri digest usage now d = (d', Ok a) ->
  sd_results d' !! i = Some r' -> exists r, sd_results d !! i = Some r /\ rr_sched r' = rr_sched r.
Proof.
  intros K H Hi. unfold settle_run_budget in H. sinv.
  destruct (rr_reservation r is ReservationState_SETTLED); sinv; [by eauto|]. simpl in Hi.
  apply lookup_insert_Some in Hi as [[<- <-]|[_ Hi]]; [|by eauto].
  exists r. split; [|done]. match goal with U : unit_at _ _ _ _ _ _ |- _ => apply U end.
Qed.

Lemma source_moves t ci ri d c r at_ digest now r1 :
  unit_at t ci ri d c r -> r1 = rr_set_budget (rb_set_source at_ digest (rr_budget r)) r ->
  result_checks r1 = true -> open_state (rr_state r) = true ->
  star (db_move now) d (set_results (<[rr_id r1 := r1]> (sd_results d)) d).
Proof.
  intros U -> HR1 HO. unit_facts. eapply move_result; [eassumption|].
  apply moved_open; try done. by apply live_same.
Qed.

Definition collected_count (o : CollectionOutcome) (c : CampaignRow) : CampaignRow :=
  cr_bump (cr_set_counts
    (ct_add 0 1 0 0 (if rm_degraded (co_metrics o) then 1 else 0) 0 (cr_counts c)) c).
Definition collected_row (o : CollectionOutcome) (violation : bool) (now : Z) (r : ResultRow) : ResultRow :=
  rr_bump (rr_set_collected (collected_columns o violation now (rr_collected r))
    (rr_set_sched (rs_set_lease SchedulingState_COLLECTED (rs_lease_owner (rr_sched r))
       (rs_lease_expires_at (rr_sched r)) (rr_sched r)) r)).

Lemma collected_moves t ci ri d c r o v now d' :
  unit_at t ci ri d c r -> rr_state r = SchedulingState_SUBMITTED ->
  campaign_checks (collected_count o c) = true -> result_checks (collected_row o v now r) = true ->
  sd_campaigns d' = <[cr_id c := collected_count o c]> (sd_campaigns d) ->
  sd_results d' = <[rr_id r := collected_row o v now r]> (sd_results d) ->
  star (db_move now) d d'.
Proof.
  intros U HS HC' HR' E1 E2. unit_facts. eapply move_one; [eassumption| |exact E1|exact E2].
  apply moved_counts; try done; simpl; [lia| |by apply live_not]. intros e.
  unfold share, settled, reserved, rr_reservation. rewrite HS.
  destruct e; simpl; try lia. destruct (rm_degraded (co_metrics o)); simpl; lia.
Qed.

(** A settlement inside a longer transaction: what it leads to. *)
Lemma settle_inside t ci ri digest usage now d d1 r1 d2 a : db_ok d ->
  star (db_move now) d d1 -> sd_results d1 !! ri = Some r1 ->
  settle_run_budget scope t ci ri digest usage now d1 = (d2, Ok a) ->
  star (db_move now) d d2 /\ db_ok d2 /\
  forall r2, sd_results d2 !! ri = Some r2 -> rr_sched r2 = rr_sched r1.
Proof.
  intros K S1 H1 HS. pose proof (star_ok _ _ _ K S1) as K1.
  assert (star (db_move now) d d2) as S2 by (eapply star_trans; [exact S1|by eapply settle_moves]).
  split; [done|]. split; [exact (star_ok _ _ _ K S2)|]. intros r2 H2.
  destruct (settle_sched _ _ _ _ _ _ _ _ _ _ _ K1 HS H2) as (r & Hr & E). congruence.
Qed.

Lemma collector_persist_moves lease o now d d' a : db_ok d ->
  collector_persist scope lease o now d = (d', a) -> star (db_move now) d d'.
Proof.
  intros K H. start_move K H. unit_facts.
  destruct (rr_state r is SchedulingState_COLLECTED); sinv; [apply star_refl|]. bools.
  match goal with U : unit_at _ _ _ d c r, R : result_checks (rr_set_budget ?b r) = true,
      S : settle_run_budget _ _ _ _ _ _ _ _ = (_, Ok _) |- _ =>
    assert (open_state (rr_state r) = true) as HO by (destruct (rr_state r); done);
    pose proof (source_moves _ _ _ _ _ _ _ _ now (rr_set_budget b r) U eq_refl R HO) as S1;
    assert (rr_id r = cw_id lease) as EI by apply U;
    apply (settle_inside _ _ _ _ _ _ d _ (rr_set_budget b r)) in S as (S2 & K2 & HS);
      [|done|done|by rewrite <- EI; apply lookup_insert_eq] end.
  sinv. match goal with U : unit_at _ _ _ s2 _ _ |- _ => simpl in U end.
  match goal with U : unit_at _ _ _ s2 ?c ?r |- _ =>
    fold (collected_count o c) in *; fold (collected_row o (bt_budget_violation a2) now r) in *;
    eapply star_trans; [exact S2|]; eapply (collected_moves _ _ _ _ c r o); try eassumption; try done;
    destruct U as (_ & UR & _ & UI & _) end.
  rewrite UI in UR. apply HS in UR. unfold rr_state in *. by rewrite UR.
Qed.

(** A submitted unit that fails under its collector: counted at once, settled afterwards. *)
Definition collector_failed_row (k : ResultCollected) (at_ : Z) (r : ResultRow) : ResultRow :=
  rr_bump (rr_set_budget (rb_set_source (Some at_) (rb_source_digest (rr_budget r)) (rr_budget r))
    (rr_set_collected k
      (rr_set_sched (rs_set_lease SchedulingState_FAILED (rs_lease_owner (rr_sched r))
         (rs_lease_expires_at (rr_sched r)) (rr_sched r)) r))).

Lemma collector_failed_moves t ci ri d c r k at_ now d' :
  unit_at t ci ri d c r -> rr_state r = SchedulingState_SUBMITTED ->
  campaign_checks (failed_count c) = true -> result_checks (collector_failed_row k at_ r) = true ->
  sd_campaigns d' = <[cr_id c := failed_count c]> (sd_campaigns d) ->
  sd_results d' = <[rr_id r := collector_failed_row k at_ r]> (sd_results d) ->
  star (db_move now) d d'.
Proof.
  intros U HS HC' HR' E1 E2. unit_facts. eapply move_one; [eassumption| |exact E1|exact E2].
  apply moved_counts; try done; simpl; [lia| |by apply live_not]. intros e.
  unfold share, settled, reserved, rr_reservation. rewrite HS. destruct e; simpl; lia.
Qed.

Lemma mark_collector_failure_moves lease f digest now d d' a : db_ok d ->
  mark_collector_failure scope lease f digest now d = (d', a) -> star (db_move now) d d'.
Proof.
  intros K H. start_move K H. unit_facts.
  match goal with T : negb (_ =? scope) = false |- _ => clear T end.
  destruct (rs_state (rr_sched r) is SchedulingState_FAILED); sinv; [apply star_refl|]. bools.
  destruct (match sd_runs _ !! _ with Some _ => _ | None => _ end) as [[at_ l]|]; sinv.
  match goal with S : settle_run_budget _ _ _ _ _ _ _ ?x = (_, Ok _), U : unit_at _ _ _ d c r |- _ =>
    assert (star (db_move now) d x) as S1 by (eapply collector_failed_moves; try eassumption; done);
    assert (rr_id r = cw_id lease) as EI by apply U;
    eapply settle_inside in S as (S2 & _);
      [exact S2|done|done|simpl; rewrite <- EI; apply lookup_insert_eq] end.
Qed.

(** ** The transactions that move no unit *)

(** Only the lifecycle columns of a campaign change. *)
Definition life_move (d d' : Sdb) : Prop :=
  exists c c', sd_campaigns d !! cr_id c = Some c /\ same_limits c c' /\
    campaign_checks c' = true /\ (forall e, total e c' = total e c) /\
    sd_campaigns d' = <[cr_id c := c']> (sd_campaigns d) /\ sd_results d' = sd_results d.

Lemma life_move_ok d d' : db_ok d -> life_move d d' -> db_ok d'.
Proof.
  intros [K1 K2 K0 K3 K4 K5] (c & c' & Hc & (S1 & S2 & S3 & S4 & S5 & S6) & HC & HT & Ec & Er).
  assert (forall i x, sd_campaigns d' !! i = Some x -> exists y, sd_campaigns d !! i = Some y /\
    cr_id x = cr_id y /\ cr_tenant_id x = cr_tenant_id y /\ campaign_checks x = true /\
    (forall e, total e x = total e y) /\ cr_admission_ceiling x = cr_admission_ceiling y /\
    cr_cost_stop_threshold x = cr_cost_stop_threshold y) as HX.
  { intros i x. rewrite Ec. intros [[<- <-]|[_ Hx]]%lookup_insert_Some; [by exists c|].
    exists x. destruct (K1 _ _ Hx). done. }
  constructor.
  - intros i x Hx. destruct (HX _ _ Hx) as (y & Hy & -> & _ & ? & _). split; [by apply K1 in Hy as []|done].
  - intros i x. rewrite Er. apply K2.
  - intros i x. rewrite Er. intros Hx. destruct (K0 _ _ Hx) as (z & Hz & Ez). rewrite Ec.
    destruct (decide (cr_id c = rk_campaign_id (rr_key x))) as [E|E].
    + exists c'. rewrite E, lookup_insert_eq, S2. split; [done|]. congruence.
    + exists z. by rewrite lookup_insert_ne.
  - intros i x e Hx. destruct (HX _ _ Hx) as (y & Hy & -> & -> & _ & -> & _). rewrite Er. by apply (K3 i).
  - intros i x Hx. destruct (HX _ _ Hx) as (y & Hy & E1 & E2 & _ & ET & E3 & _).
    unfold committed_calls, overruns. rewrite !ET, E1, E2, E3, Er. by apply (K4 i).
  - intros i x Hx. destruct (HX _ _ Hx) as (y & Hy & E1 & E2 & _ & ET & _ & E3).
    unfold committed_cost, overruns. rewrite !ET, E1, E2, E3, Er. by apply (K5 i).
Qed.

Lemma save_lifecycle_moves l d d' a : db_ok d ->
  save_lifecycle scope l d = (d', Ok a) -> life_move d d'.
Proof.
  intros K H. unfold save_lifecycle in H. sinv.
  destruct (find_campaign _ _ d) as [c|] eqn:Ec; sinv. apply find_campaign_inv in Ec as [Ec _].
  destruct (ok_campaign _ K _ _ Ec) as [Ei _]. rewrite <- Ei in Ec. exists c. eexists. split; [done|].
  split; [|split; [eassumption|split; [|done]]]; [done|]. by intros [].
Qed.

Lemma mutate_campaign_moves owner t ci mutate d d' a : db_ok d ->
  mutate_campaign scope owner t ci mutate d = (d', a) -> star life_move d d'.
Proof.
  intros K H. start_move K H. unfold campaigns_get_for_update in *. sinv.
  destruct (find_campaign t ci d) as [c|] eqn:Ec; sinv; [|apply star_refl].
  destruct (match owner with Some _ => _ | None => _ end); sinv; [apply star_refl|].
  destruct (mutate _) as [l2 [[]|e]]; sinv. apply star_one. by eapply save_lifecycle_moves.
Qed.

(** Every pending unit of a campaign is skipped at once: [g] is what happens to a row, [n] the
    number the campaign counts. *)
Definition skip_row (reason : pystr) (r : ResultRow) : ResultRow :=
  let s := rr_sched r in
  rr_bump (rr_set_sched
    {| rs_state := SchedulingState_SKIPPED; rs_lease_owner := rs_lease_owner s;
       rs_lease_expires_at := rs_lease_expires_at s;
       rs_conversation_attempts := rs_conversation_attempts s;
       rs_submission_attempts := rs_submission_attempts s;
       rs_conversation_id := rs_conversation_id s; rs_search_run_id := rs_search_run_id s;
       rs_skip_reason := Some reason |} r).

Definition pending (r : ResultRow) : bool := rr_state r is SchedulingState_PENDING.

Definition skip_in (t ci : UUID) (reason : pystr) (r : ResultRow) : ResultRow :=
  if mine t ci r && pending r then skip_row reason r else r.

Lemma mine_eqb t ci r :
  mine t ci r = (rk_tenant_id (rr_key r) =? t) && (rk_campaign_id (rr_key r) =? ci).
Proof.
  unfold mine, member. destruct (Z.eqb_spec (rk_tenant_id (rr_key r)) t),
    (Z.eqb_spec (rk_campaign_id (rr_key r)) ci); simpl;
    [apply bool_decide_eq_true_2|apply bool_decide_eq_false_2..]; intuition.
Qed.

Lemma skip_results_in t ci reason d : skip_results t ci reason d = skip_in t ci reason <$> sd_results d.
Proof.
  unfold skip_results. apply map_fmap_ext. intros i r _. unfold skip_in, pending. by rewrite mine_eqb.
Qed.

Definition skip_move (t ci : UUID) (d d' : Sdb) : Prop :=
  exists c c' reason,
    sd_campaigns d !! cr_id c = Some c /\ cr_tenant_id c = t /\ cr_id c = ci /\
    same_limits c c' /\ campaign_checks c' = true /\ cr_ledger c' = cr_ledger c /\
    (forall e, total e c' = total e c
       + match e with ESkipped => sum_results (fun r => one (pending r)) (sd_results d) t ci | _ => 0 end) /\
    (forall i r, sd_results d' !! i = Some r -> result_checks r = true) /\
    sd_campaigns d' = <[ci := c']> (sd_campaigns d) /\
    sd_results d' = skip_in t ci reason <$> sd_results d.

Lemma skip_in_same t ci reason r :
  rr_key (skip_in t ci reason r) = rr_key r /\
  figures (rr_budget (skip_in t ci reason r)) = figures (rr_budget r) /\
  rr_version r <= rr_version (skip_in t ci reason r).
Proof. unfold skip_in. destruct (_ && _); simpl; repeat split; lia. Qed.

Lemma skip_in_share t ci reason r e : mine t ci r = true ->
  share e (skip_in t ci reason r)
  = share e r + match e with ESkipped => one (pending r) | _ => 0 end.
Proof.
  intros Hm. unfold skip_in. rewrite Hm. simpl. unfold pending.
  destruct (rr_state r is SchedulingState_PENDING) eqn:E; [|destruct e; simpl; lia].
  unfold share, settled, reserved, rr_reservation. bools. rewrite E. destruct e; simpl; lia.
Qed.

Lemma sum_results_plus f g m t c :
  sum_results (fun r => f r + g r) m t c = sum_results f m t c + sum_results g m t c.
Proof.
  unfold sum_results. induction (map_to_list m).*2 as [|r l IH]; simpl; [lia|].
  unfold when in *. destruct (mine t c r); lia.
Qed.

Lemma sum_results_zero m t c : sum_results (fun _ => 0) m t c = 0.
Proof.
  unfold sum_results. induction (map_to_list m).*2 as [|r l IH]; simpl; [done|].
  unfold when in *. destruct (mine t c r); lia.
Qed.

Lemma skip_sum t ci reason m t' c' f :
  (forall r, mine t' c' r = true -> f (skip_in t ci reason r) = f r) ->
  sum_results f (skip_in t ci reason <$> m) t' c' = sum_results f m t' c'.
Proof.
  intros H. rewrite sum_results_fmap by (intros r; by apply mine_key, skip_in_same).
  apply sum_results_ext. intros i r _ Hm. by apply H.
Qed.

Lemma skip_in_other t ci reason r t' c' : (t', c') <> (t, ci) -> mine t' c' r = true ->
  skip_in t ci reason r = r.
Proof.
  intros H Hm. unfold mine in Hm. apply bool_decide_eq_true_1 in Hm. unfold skip_in.
  rewrite (mine_other _ _ _ _ _ Hm); [done|]. intros E. by apply H.
Qed.

Lemma skip_move_ok t ci d d' : db_ok d -> skip_move t ci d d' -> db_ok d'.
Proof.
  intros [K1 K2 K0 K3 K4 K5] (c & c' & reason & Hc & <- & <- & (S1 & S2 & S3 & S4 & S5 & S6) & HC & HL
    & HT & HR & Ec & Er).
  set (t := cr_tenant_id c) in *. set (ci := cr_id c) in *.
  assert (forall i x, sd_campaigns d' !! i = Some x -> exists y, sd_campaigns d !! i = Some y /\
    cr_id x = cr_id y /\ cr_tenant_id x = cr_tenant_id y /\ campaign_checks x = true /\
    cr_ledger x = cr_ledger y /\ cr_admission_ceiling x = cr_admission_ceiling y /\
    cr_cost_stop_threshold x = cr_cost_stop_threshold y /\
    (x = c' /\ y = c \/ x = y /\ (cr_tenant_id x, cr_id x) <> (t, ci))) as HX.
  { intros i x. rewrite Ec. intros [[<- <-]|[Hi Hx]]%lookup_insert_Some; [exists c; ksplit; by left|].
    exists x. destruct (K1 _ _ Hx) as [E ?]. ksplit. right. split; [done|]. congruence. }
  assert (forall f t' c2, (forall r, f (skip_in t ci reason r) = f r) ->
    sum_results f (sd_results d') t' c2 = sum_results f (sd_results d) t' c2) as HS.
  { intros f t' c2 Hf. rewrite Er. by apply skip_sum. }
  constructor.
  - intros i x Hx. destruct (HX _ _ Hx) as (y & Hy & -> & _ & ? & _). split; [by apply K1 in Hy as []|done].
  - intros i x Hx. pose proof (HR _ _ Hx) as HR'. rewrite Er in Hx.
    apply lookup_fmap_Some in Hx as (r & <- & Hr). destruct (K2 _ _ Hr) as (<- & _ & HU).
    destruct (skip_in_same t ci reason r) as (E1 & E2 & _). ksplit.
    + unfold rr_id. by rewrite E1.
    + by apply (figures_overruns r).
  - intros i x Hx. rewrite Er in Hx. apply lookup_fmap_Some in Hx as (r & <- & Hr).
    destruct (skip_in_same t ci reason r) as (-> & _ & _). destruct (K0 _ _ Hr) as (z & Hz & Ez).
    rewrite Ec. destruct (decide (ci = rk_campaign_id (rr_key r))) as [E|E].
    + exists c'. rewrite E, lookup_insert_eq, S2. split; [done|]. subst t. congruence.
    + exists z. by rewrite lookup_insert_ne.
  - intros i x e Hx. destruct (HX _ _ Hx) as (y & Hy & Ei & Et & _ & _ & _ & _ & [(-> & ->)|(-> & Hne)]).
    + rewrite Er, S1, S2, HT, (K3 _ _ e Hy), sum_results_fmap by (intros r; by apply mine_key, skip_in_same).
      fold t ci. rewrite (sum_results_ext _ _ _ _ _ (fun _ r _ Hm => skip_in_share t ci reason r e Hm)).
      rewrite sum_results_plus. f_equal. destruct e; try done; by rewrite sum_results_zero.
    + rewrite Er, skip_sum; [by apply (K3 i)|]. intros r Hm. by rewrite (skip_in_other _ _ _ _ _ _ Hne Hm).
  - intros i x Hx. destruct (HX _ _ Hx) as (y & Hy & Ei & Et & _ & El & Ea & _). unfold overruns.
    rewrite HS by (intros r; apply figures_overruns, skip_in_same).
    unfold committed_calls, total. rewrite Ei, Et, El, Ea. by apply (K4 i).
  - intros i x Hx. destruct (HX _ _ Hx) as (y & Hy & Ei & Et & _ & El & _ & Ea & _). unfold overruns.
    rewrite HS by (intros r; apply figures_overruns, skip_in_same).
    unfold committed_cost, total. rewrite Ei, Et, El, Ea. by apply (K5 i).
Qed.

Lemma skip_pending_moves t ci reason d d' a : db_ok d ->
  skip_pending scope t ci reason d = (d', a) -> star (skip_move t ci) d d'.
Proof.
  intros K H. start_move K H. destruct (find_campaign t ci d) as [c|] eqn:Ec; sinv.
  match goal with V : negb (forallb _ _) = false |- _ => rename V into HV end.
  apply find_campaign_inv in Ec as [Ec <-]. destruct (ok_campaign _ K _ _ Ec) as [<- HC].
  rewrite skip_results_in in *. rewrite sum_results_of in *.
  assert (forall i r, (skip_in (cr_tenant_id c) (cr_id c) a0 <$> sd_results d) !! i = Some r ->
    result_checks r = true) as HR.
  { intros i r Hi. apply negb_false_iff, forallb_forall with (x := r) in HV; [done|].
    apply list_elem_of_In, list_elem_of_fmap. exists (i, r). split; [done|]. by apply elem_of_map_to_list. }
  change (fun r => if rr_state r is SchedulingState_PENDING then 1 else 0)
    with (fun r => one (pending r)) in *.
  set (n := sum_results _ _ _ _) in *.
  destruct (n =? 0) eqn:En; sinv; apply star_one.
  - exists c, c, a0. ksplit; [by intros []; simpl; try lia|by rewrite insert_id].
  - match goal with V : campaign_checks ?c' = true |- context [set_campaigns (<[_ := ?c']> _)] =>
      exists c, c', a0; split; [done|]; split; [done|]; split; [done|]; split; [done|];
      split; [exact V|] end.
    ksplit. by intros []; simpl; try lia.
Qed.

End Moves.
