(* ===== verification/CampaignFacts.v ===== *)
(** * CampaignFacts: what holds of every history of the campaign store

    The calls of the store as one labelled step, its abstract specification (the ledger machine of
    [CampaignLedger]: one unit moves, a campaign or its run plan appears, pending units are skipped,
    a lifecycle changes), the refinement between the two, and the invariants of every reachable
    database. *)

From Stdlib Require Import String.
From S2P Require Import Prelude Errors PyTime Transitions Run Campaign CampaignBudget CampaignPolicy.
From S2P Require Import CampaignPlan CampaignRows CampaignStore CampaignCreate CampaignLedger.

(** ** Rows that appear *)

Lemma sum_results_new f m i r t c : m !! i = None ->
  sum_results f (<[i:=r]> m) t c = sum_results f m t c + when (mine t c r) (f r).
Proof.
  intros Hi. unfold sum_results.
  rewrite (sumZ_perm _ _ _ (fmap_Permutation snd _ _ (map_to_list_insert m i r Hi))). csimpl. lia.
Qed.

(** A campaign with empty counters appears. *)
Definition create_move (d d' : Sdb) : Prop :=
  exists c, sd_campaigns d !! cr_id c = None /\ campaign_checks c = true /\
    (forall e, total e c = 0) /\
    sd_campaigns d' = <[cr_id c := c]> (sd_campaigns d) /\ sd_results d' = sd_results d.

Lemma create_move_ok d d' : db_ok d -> create_move d d' -> db_ok d'.
Proof.
  intros [K1 K2 K0 K3 K4 K5] (c & Hc & HC & HT & Ec & Er).
  assert (forall f, sum_results f (sd_results d) (cr_tenant_id c) (cr_id c) = 0) as H0.
  { intros f. rewrite (sum_results_ext _ (fun _ => 0)); [apply sum_results_zero|].
    intros i r Hr Hm. exfalso. apply bool_decide_eq_true_1 in Hm as [_ Hm].
    destruct (K0 _ _ Hr) as (z & Hz & _). rewrite Hm in Hz. congruence. }
  pose proof (campaign_amounts c HC) as A.
  assert (committed_calls c = 0 /\ committed_cost c = 0) as [Z1 Z2]
    by (unfold committed_calls, committed_cost; by rewrite !HT).
  constructor.
  - intros i x. rewrite Ec. intros [[<- <-]|[_ Hx]]%lookup_insert_Some; [done|by apply K1].
  - intros i x. rewrite Er. apply K2.
  - intros i x. rewrite Er, Ec. intros Hx. destruct (K0 _ _ Hx) as (z & Hz & Ez). exists z.
    rewrite lookup_insert_ne; [done|]. intros E. rewrite E in Hc. congruence.
  - intros i x e. rewrite Er, Ec. intros [[<- <-]|[_ Hx]]%lookup_insert_Some; [|by apply (K3 i)].
    by rewrite HT, H0.
  - intros i x. unfold overruns. rewrite Er, Ec.
    intros [[<- <-]|[_ Hx]]%lookup_insert_Some; [rewrite H0; lia|by apply (K4 i)].
  - intros i x. unfold overruns. rewrite Er, Ec.
    intros [[<- <-]|[_ Hx]]%lookup_insert_Some; [rewrite H0; lia|by apply (K5 i)].
Qed.

(** A campaign without results gets its run plan. *)
Definition plan_move (d d' : Sdb) : Prop :=
  exists c c' plans,
    sd_campaigns d !! cr_id c = Some c /\ same_limits c c' /\ campaign_checks c' = true /\
    cr_ledger c' = cr_ledger c /\
    (forall e, total e c' = total e c
       + match e with EPlanned => Z.of_nat (length plans) | _ => 0 end) /\
    insert_results (cr_tenant_id c) (cr_id c) plans (sd_results d) = Ok (sd_results d') /\
    sd_campaigns d' = <[cr_id c := c']> (sd_campaigns d).

Lemma planned_share t ci p e :
  share e (planned_result t ci p) = match e with EPlanned => 1 | _ => 0 end.
Proof. by destruct e. Qed.

Lemma insert_results_sum t ci plans m m' f t' c' : insert_results t ci plans m = Ok m' ->
  sum_results f m' t' c' = sum_results f m t' c'
    + (if decide ((t', c') = (t, ci)) then sumZ (fun p => f (planned_result t ci p)) plans else 0).
Proof.
  revert m. induction plans as [|p plans IH]; intros m H; simpl in H; minv; [case_decide; simpl; lia|].
  apply orb_false_elim in E as [E _]. apply negb_false_iff in E. destruct (m !! rp_id p) eqn:Em; [done|].
  rewrite (IH _ H), sum_results_new by done. simpl. unfold mine, when. simpl.
  destruct (decide ((t', c') = (t, ci))) as [[= -> ->]|Hne].
  - rewrite bool_decide_eq_true_2 by done. lia.
  - rewrite bool_decide_eq_false_2; [lia|]. intros [E1 E2]. simpl in *. congruence.
Qed.

Lemma insert_results_lookup t ci plans m m' i r : insert_results t ci plans m = Ok m' ->
  m' !! i = Some r -> m !! i = Some r \/
    exists p, r = planned_result t ci p /\ i = rp_id p /\ result_checks r = true.
Proof.
  revert m. induction plans as [|p plans IH]; intros m H Hi; simpl in H; minv; [by left|].
  destruct (IH _ H Hi) as [Hm|?]; [|by right].
  apply lookup_insert_Some in Hm as [[<- <-]|[_ Hm]]; [right|by left].
  exists p. repeat split.
Qed.

Lemma insert_results_keeps t ci plans m m' i r : insert_results t ci plans m = Ok m' ->
  m !! i = Some r -> m' !! i = Some r.
Proof.
  revert m. induction plans as [|p plans IH]; intros m H Hi; simpl in H; minv; [done|].
  apply orb_false_elim in E as [E _]. apply negb_false_iff in E. destruct (m !! rp_id p) eqn:Em; [done|].
  apply (IH _ H). rewrite lookup_insert_ne; [done|]. intros Ei. congruence.
Qed.

Lemma plan_move_ok d d' : db_ok d -> plan_move d d' -> db_ok d'.
Proof.
  intros [K1 K2 K0 K3 K4 K5] (c & c' & plans & Hc & (S1 & S2 & S3 & S4 & S5 & S6) & HC & HL & HT & HI & Ec).
  assert (forall i x, sd_campaigns d' !! i = Some x -> exists y, sd_campaigns d !! i = Some y /\
    cr_id x = cr_id y /\ cr_tenant_id x = cr_tenant_id y /\ campaign_checks x = true /\
    cr_ledger x = cr_ledger y /\ cr_admission_ceiling x = cr_admission_ceiling y /\
    cr_cost_stop_threshold x = cr_cost_stop_threshold y /\
    (x = c' /\ y = c \/ x = y /\ (cr_tenant_id x, cr_id x) <> (cr_tenant_id c, cr_id c))) as HX.
  { intros i x. rewrite Ec. intros [[<- <-]|[Hi Hx]]%lookup_insert_Some; [exists c; ksplit; by left|].
    exists x. destruct (K1 _ _ Hx) as [E ?]. ksplit. right. split; [done|]. congruence. }
  assert (forall f t' c2, (forall p, f (planned_result (cr_tenant_id c) (cr_id c) p) = 0) ->
    sum_results f (sd_results d') t' c2 = sum_results f (sd_results d) t' c2) as HS.
  { intros f t' c2 Hf. rewrite (insert_results_sum _ _ _ _ _ f t' c2 HI).
    rewrite (sumZ_zero _ plans) by (intros; apply Hf). case_decide; lia. }
  constructor.
  - intros i x Hx. destruct (HX _ _ Hx) as (y & Hy & -> & _ & ? & _). split; [by apply K1 in Hy as []|done].
  - intros i x Hx. destruct (insert_results_lookup _ _ _ _ _ _ _ HI Hx) as [Hm|(p & -> & -> & ?)]; [by apply K2|].
    by ksplit.
  - intros i x Hx. rewrite Ec.
    assert (exists z, sd_campaigns d !! rk_campaign_id (rr_key x) = Some z /\
      cr_tenant_id z = rk_tenant_id (rr_key x)) as (z & Hz & Ez).
    { destruct (insert_results_lookup _ _ _ _ _ _ _ HI Hx) as [Hm|(p & -> & -> & _)]; [by eapply K0|].
      simpl. eauto. }
    destruct (decide (cr_id c = rk_campaign_id (rr_key x))) as [E|E].
    + exists c'. rewrite E, lookup_insert_eq, S2. split; [done|]. congruence.
    + exists z. by rewrite lookup_insert_ne.
  - intros i x e Hx. destruct (HX _ _ Hx) as (y & Hy & Ei & Et & _ & _ & _ & _ & [(-> & ->)|(-> & Hne)]).
    + rewrite S1, S2, HT, (K3 _ _ e Hy), (insert_results_sum _ _ _ _ _ _ _ _ HI), decide_True by done.
      f_equal. rewrite (sumZ_ext _ (fun _ => match e with EPlanned => 1 | _ => 0 end))
        by (intros; apply planned_share).
      clear. induction plans as [|p plans IH]; [by destruct e|]. cbn [sumZ foldr length].
      fold (sumZ (fun _ : RunPlan => match e with EPlanned => 1 | _ => 0 end) plans). destruct e; lia.
    + rewrite (insert_results_sum _ _ _ _ _ _ _ _ HI), decide_False, Z.add_0_r by done. by apply (K3 i).
  - intros i x Hx. destruct (HX _ _ Hx) as (y & Hy & Ei & Et & _ & El & Ea & _). unfold overruns.
    rewrite HS by done. unfold committed_calls, total. rewrite Ei, Et, El, Ea. by apply (K4 i).
  - intros i x Hx. destruct (HX _ _ Hx) as (y & Hy & Ei & Et & _ & El & _ & Ea & _). unfold overruns.
    rewrite HS by done. unfold committed_cost, total. rewrite Ei, Et, El, Ea. by apply (K5 i).
Qed.

(** ** Creation and materialization *)

Section Creation.
Context (sha256 : pystr -> pystr) (profile_text : CampaignProfile -> pystr)
  (policy_text : GatePolicy -> pystr) (rubric_text : ReviewRubric -> pystr)
  (rate_text : CostRate -> pystr) (request_text : RequestIdentity -> pystr)
  (smoke_only_of : pystr -> bool) (sort_digest : UUID -> pystr -> Z -> pystr)
  (content_sha256 : pystr -> pystr) (uuid5 : UUID -> pystr -> UUID) (scope : UUID).

Lemma reads_assert_tenant t : reads (assert_tenant scope t).
Proof. apply reads_raise_if. Qed.

Lemma reads_find_creation t us k : reads (find_creation scope t us k).
Proof.
  unfold find_creation. apply reads_bind; [apply reads_assert_tenant|]. intros []. apply reads_bind; [done|].
  intros d. by destruct (creations _ _ _ _) as [|? [|]].
Qed.

Lemma find_creation_ok_inv t us k d d' x : find_creation scope t us k d = (d', Ok x) ->
  d' = d /\ match x with
            | None => creations t us k d = []
            | Some y => exists c, creations t us k d = [c] /\ xc_id y = cr_id c /\
                xc_creation_request_hash y = cz_creation_request_hash (cr_frozen c) /\
                xc_status y = cr_status c
            end.
Proof.
  unfold find_creation, assert_tenant. intros H. minv.
  destruct (creations _ _ _ _) as [|c [|]]; minv; [done|]. split; [done|]. by exists c.
Qed.

Lemma reads_resolve_parent q profile rubric rate :
  reads (resolve_parent sha256 rubric_text rate_text smoke_only_of scope q profile rubric rate).
Proof.
  unfold resolve_parent, parent_evidence. case_match; [by apply reads_bind|]. case_match; [|done].
  apply reads_bind; [done|]. intros _. apply reads_bind.
  - apply reads_bind; [apply reads_assert_tenant|]. intros []. by apply reads_bind.
  - intros [p|]; [|done]. apply reads_bind; [done|]. intros _. by apply reads_bind.
Qed.

Lemma campaigns_add_ok_inv x d d' b :
  campaigns_add sha256 profile_text policy_text rubric_text rate_text scope x d = (d', Ok b) ->
  let row := created_row sha256 profile_text policy_text rubric_text rate_text x in
  if b then creations (cq_tenant_id (ca_command x)) (cq_user_id (ca_command x))
              (cq_idempotency_key (ca_command x)) d = [] /\
            sd_campaigns d !! ca_id x = None /\ campaign_checks row = true /\
            d' = set_campaigns (<[ca_id x := row]> (sd_campaigns d)) d
  else d' = d.
Proof.
  unfold campaigns_add, assert_tenant. intros H. minv. case_match; minv; [done|].
  match goal with F : flush_campaign _ _ = _ |- _ => apply flush_campaign_ok_inv in F as [? ->] end.
  bools. destruct (sd_campaigns d !! ca_id x); done.
Qed.

(** A call that raises leaves the rows alone. *)
Lemma atomic_transaction {A} (m : M Sdb A) : atomic (transaction m).
Proof. intros s s' e. unfold transaction. destruct (m s) as [s1 [a|e']]; intros; by simplify_eq. Qed.

Lemma transaction_ok_inv {A} (m : M Sdb A) d d' a : transaction m d = (d', Ok a) -> m d = (d', Ok a).
Proof. unfold transaction. destruct (m d) as [s1 [x|e]]; intros; by simplify_eq. Qed.

Lemma atomic_create catalog q now id :
  atomic (campaign_create sha256 profile_text policy_text rubric_text rate_text request_text
            smoke_only_of scope catalog q now id).
Proof.
  unfold campaign_create. do 2 (apply atomic_bind; [done|]; intros ?).
  apply atomic_bind; [done|]. intros []. apply atomic_bind; [done|]. intros [profile policy].
  apply atomic_bind; [done|]. intros [rubric rate]. apply atomic_bind; [done|]. intros [].
  apply atomic_transaction.
Qed.

Lemma bind_lift_case {A B} (r : res A) (k : A -> M Sdb B) d d' b : (x ← lift r; k x) d = (d', b) ->
  (d' = d /\ exists e, b = Raise e) \/ exists x, r = Ok x /\ k x d = (d', b).
Proof.
  unfold mbind, M_bind, lift. destruct r as [x|e]; intros H; [right; eauto|left].
  simplify_eq. eauto.
Qed.

(** What a creation that returned did. *)
Lemma create_ok_inv catalog q now id d d' receipt :
  campaign_create sha256 profile_text policy_text rubric_text rate_text request_text smoke_only_of scope
    catalog q now id d = (d', Ok receipt) ->
  if cy_duplicate receipt then
    d' = d /\ exists c, creations (cq_tenant_id q) (cq_user_id q) (cq_idempotency_key q) d = [c] /\
      cy_id receipt = cr_id c /\ cy_status receipt = cr_status c /\
      cz_creation_request_hash (cr_frozen c) = cy_request_hash receipt
  else exists c, creations (cq_tenant_id q) (cq_user_id q) (cq_idempotency_key q) d = [] /\
    cy_id receipt = id /\ sd_campaigns d !! id = None /\ campaign_checks c = true /\
    cr_id c = id /\ cr_tenant_id c = cq_tenant_id q /\
    cl_created_by_user_id (cr_life c) = cq_user_id q /\
    cz_creation_key (cr_frozen c) = cq_idempotency_key q /\
    cz_creation_request_hash (cr_frozen c) = cy_request_hash receipt /\
    cr_status c = CampaignStatus_CREATED /\ (forall e, total e c = 0) /\
    d' = set_campaigns (<[id := c]> (sd_campaigns d)) d.
Proof.
  unfold campaign_create. intros H. minv.
  repeat match goal with p : (_ * _)%type |- _ => destruct p; minv end.
  match goal with T : transaction _ _ = _ |- _ => apply transaction_ok_inv in T end. minv.
  match goal with R : resolve_parent _ _ _ _ _ _ _ _ _ _ = _ |- _ =>
    apply (reads_ok_inv _ _ _ _ (reads_resolve_parent _ _ _ _)) in R as -> end.
  match goal with F : find_creation _ _ _ _ _ = _ |- _ => apply find_creation_ok_inv in F as [-> F] end.
  destruct a1 as [x|]; minv.
  - unfold duplicate_or_conflict in *. minv. bools. simpl.
    match goal with F : ex _ |- _ => destruct F as (row & R1 & R2 & R3 & R4) end.
    split; [done|]. exists row. ksplit. congruence.
  - match goal with A : campaigns_add _ _ _ _ _ _ _ _ = (_, Ok ?b) |- _ =>
      apply campaigns_add_ok_inv in A; destruct b; simpl in A; minv end.
    + match goal with A : _ /\ _ |- _ => destruct A as (A0 & A1 & A2 & ->) end.
      cbn [negb] in *. minv. eexists. ksplit; try exact A2; try done. by intros [].
    + subst. cbn [negb] in *. minv. match goal with F : find_creation _ _ _ _ _ = _ |- _ =>
        apply find_creation_ok_inv in F as [-> F] end.
      match goal with w : option ExistingCampaign |- _ => destruct w; minv end.
      match goal with F : ex _ |- _ => destruct F as (row & R1 & _) end. congruence.
Qed.

Lemma create_moves catalog q now id d d' a :
  campaign_create sha256 profile_text policy_text rubric_text rate_text request_text smoke_only_of scope
    catalog q now id d = (d', a) -> star create_move d d'.
Proof.
  intros H. destruct a as [receipt|e]; [|apply atomic_create in H as ->; apply star_refl].
  apply create_ok_inv in H. destruct (cy_duplicate receipt); [destruct H as [-> _]; apply star_refl|].
  destruct H as (c & _ & _ & Hid & HC & Ei & _ & _ & _ & _ & _ & HT & ->).
  apply star_one. exists c. by rewrite Ei.
Qed.

Lemma materialize_results_ok_inv evidence plans d d' n : db_ok d ->
  materialize_results scope evidence plans d = (d', Ok n) ->
  n = Z.of_nat (length plans) /\ plan_move d d' /\
  exists c, sd_campaigns d !! cr_id evidence = Some c /\ cr_tenant_id c = cr_tenant_id evidence /\
    insert_results (cr_tenant_id evidence) (cr_id evidence) plans (sd_results d) = Ok (sd_results d') /\
    sd_campaigns d' = <[cr_id evidence := cr_bump (cr_plan n c)]> (sd_campaigns d).
Proof.
  intros K. unfold materialize_results, assert_tenant. intros H. minv.
  destruct (find_campaign _ _ _) as [c|] eqn:Ec; minv.
  match goal with F : flush_campaign _ _ = _ |- _ => apply flush_campaign_ok_inv in F as [HC ->] end.
  apply find_campaign_inv in Ec as [Ec Et]. simpl in Ec. destruct (ok_campaign _ K _ _ Ec) as [Ei _].
  bools. split; [done|]. split.
  - eexists c, _, plans. split; [by rewrite Ei|]. split; [|split; [exact HC|]].
    + done.
    + ksplit; [|by rewrite Ei, Et]. intros e. destruct e; simpl; lia.
  - exists c. ksplit. simpl. f_equal. exact Ei.
Qed.

Lemma materialize_moves catalog t us ci m now d d' a : db_ok d ->
  campaign_materialize sha256 profile_text policy_text scope sort_digest content_sha256 uuid5
    catalog t us ci m now d = (d', a) -> star plan_move d d'.
Proof.
  intros K H. unfold campaign_materialize in H. apply bind_lift_case in H as [[-> _]|(x & _ & H)];
    [apply star_refl|].
  apply (transaction_case _ _ _ _ _ H); [apply star_refl|]. clear dependent a. intros d1 b H.
  unfold scheduling_evidence_for_update, assert_tenant in H. minv.
  destruct (find_campaign t ci d) as [c|] eqn:Ec; minv; [|apply star_refl].
  case_match; minv; [apply star_refl|].
  repeat match goal with p : (_ * _)%type |- _ => destruct p; minv end.
  case_match; minv; [apply star_refl|].
  match goal with F : materialize_results _ _ _ _ = _ |- _ =>
    apply materialize_results_ok_inv in F as (_ & F & _); [|done] end.
  by apply star_one.
Qed.
End Creation.

(** ** The calls of the store *)

(** What stands for hashing, canonical JSON and [uuid5]. *)
Record Digests := {
  dg_sha256 : pystr -> pystr;
  dg_profile_text : CampaignProfile -> pystr;
  dg_policy_text : GatePolicy -> pystr;
  dg_rubric_text : ReviewRubric -> pystr;
  dg_rate_text : CostRate -> pystr;
  dg_request_text : RequestIdentity -> pystr;
  dg_smoke_only_of : pystr -> bool;
  dg_sort_digest : UUID -> pystr -> Z -> pystr;
  dg_uuid5 : UUID -> pystr -> UUID
}.

(** The calls that hold a scheduling lease. *)
Inductive lease_call :=
| Renew (lease_duration : Z)
| Reserve
| Release
| PrepareConversation
| BindConversation (conversation_id : UUID)
| PrepareSubmission
| BindSubmission (receipt : CandidateSubmissionReceipt)
| MarkFailure (f : RunnerFailure) (digest : pystr).

Inductive store_call :=
| Create (catalog : CampaignPolicyCatalog) (q : CreateCampaignCommand) (fresh_id : UUID)
| Materialize (catalog : CampaignPolicyCatalog) (tenant_id user_id campaign_id : UUID) (m : ShadowManifest)
| Owned (tenant_id user_id campaign_id : UUID) (op : campaign_op)
| System (tenant_id campaign_id : UUID) (op : campaign_op)
| Claim (tenant_id campaign_id : UUID) (worker_id : pystr) (lease_duration : Z)
| Leased (lease : RunLease) (x : lease_call)
| Settle (tenant_id campaign_id result_id : UUID) (digest : pystr) (usage : SettlementUsage)
| SkipPending (tenant_id campaign_id : UUID) (reason : pystr)
| CollectorClaim (tenant_id campaign_id : UUID) (worker_id : pystr) (lease_duration : Z)
| CollectorRenew (lease : CollectorLease) (lease_duration : Z)
| CollectorPersist (lease : CollectorLease) (o : CollectionOutcome)
| CollectorFailure (lease : CollectorLease) (f : RunnerFailure) (digest : pystr)
| Candidate (conversations : gmap Z CandidateConversation) (runs : gmap Z CandidateRun).

Section Calls.
Context (dg : Digests).

Definition perform_leased (scope now : Z) (lease : RunLease) (x : lease_call) (d : Sdb) : Sdb :=
  match x with
  | Renew dur => (renew_result_lease scope lease dur now d).1
  | Reserve => (reserve_run_budget scope lease now d).1
  | Release => (release_run_budget scope lease now d).1
  | PrepareConversation => (prepare_conversation_attempt scope lease now d).1
  | BindConversation i => (bind_conversation scope (dg_sha256 dg) lease i now d).1
  | PrepareSubmission => (prepare_submission_attempt scope lease now d).1
  | BindSubmission receipt => (bind_submission scope (dg_sha256 dg) lease receipt now d).1
  | MarkFailure f digest => (mark_failure scope lease f digest now d).1
  end.

(** The rows after a call by the tenant [scope] at the clock reading [now], whether it returned or
    raised. [Candidate] is what other components do to the rows that campaigns only read. *)
Definition perform (scope now : Z) (x : store_call) (d : Sdb) : Sdb :=
  match x with
  | Create catalog q id =>
      (campaign_create (dg_sha256 dg) (dg_profile_text dg) (dg_policy_text dg) (dg_rubric_text dg)
         (dg_rate_text dg) (dg_request_text dg) (dg_smoke_only_of dg) scope catalog q (utc now) id d).1
  | Materialize catalog t us ci m =>
      (campaign_materialize (dg_sha256 dg) (dg_profile_text dg) (dg_policy_text dg) scope
         (dg_sort_digest dg) (dg_sha256 dg) (dg_uuid5 dg) catalog t us ci m (utc now) d).1
  | Owned t us ci op => (owned_mutation scope t us ci op d).1
  | System t ci op => (system_mutation scope t ci op d).1
  | Claim t ci w dur => (scheduling_claim_next scope t ci w dur now d).1
  | Leased lease x => perform_leased scope now lease x d
  | Settle t ci ri digest usage => (settle_result scope t ci ri digest usage now d).1
  | SkipPending t ci reason => (skip_pending scope t ci reason d).1
  | CollectorClaim t ci w dur => (collector_claim_next scope t ci w dur now d).1
  | CollectorRenew lease dur => (collector_renew scope lease dur now d).1
  | CollectorPersist lease o => (collector_persist scope lease o now d).1
  | CollectorFailure lease f digest => (mark_collector_failure scope lease f digest now d).1
  | Candidate conversations runs =>
      {| sd_campaigns := sd_campaigns d; sd_results := sd_results d; sd_gold := sd_gold d;
         sd_conversations := conversations; sd_runs := runs |}
  end.

(** A lease that is renewed was handed out: its version is not behind the persisted one. *)
Definition call_ok (x : store_call) : Prop :=
  match x with Leased lease _ => rl_persisted_version lease <= rl_version lease | _ => True end.

(** ** The ledger machine *)

Inductive ledger_step (now : Z) (d d' : Sdb) : Prop :=
| LedgerMove : db_move now d d' -> ledger_step now d d'
| LedgerLife : life_move d d' -> ledger_step now d d'
| LedgerSkip t ci : skip_move t ci d d' -> ledger_step now d d'
| LedgerCreate : create_move d d' -> ledger_step now d d'
| LedgerPlan : plan_move d d' -> ledger_step now d d'
| LedgerQuiet : sd_campaigns d' = sd_campaigns d -> sd_results d' = sd_results d ->
    ledger_step now d d'.

Lemma star_mono {A} (R R' : A -> A -> Prop) : (forall a b, R a b -> R' a b) ->
  forall a b, star R a b -> star R' a b.
Proof. intros H a b HS. induction HS; eauto using star. Qed.

Lemma quiet_ok d d' : sd_campaigns d' = sd_campaigns d -> sd_results d' = sd_results d ->
  db_ok d -> db_ok d'.
Proof.
  intros E1 E2 [K1 K2 K0 K3 K4 K5]. constructor; unfold overruns; rewrite ?E1, ?E2; done.
Qed.

Lemma ledger_step_ok now d d' : db_ok d -> ledger_step now d d' -> db_ok d'.
Proof.
  intros K [H|H|t ci H|H|H|H1 H2].
  - by eapply db_move_ok.
  - by eapply life_move_ok.
  - by eapply skip_move_ok.
  - by eapply create_move_ok.
  - by eapply plan_move_ok.
  - by eapply quiet_ok.
Qed.

Lemma leased_moves scope now lease x d : db_ok d -> rl_persisted_version lease <= rl_version lease ->
  star (db_move now) d (perform_leased scope now lease x d).
Proof.
  intros K HL. destruct x; simpl; match goal with |- context [fst ?m] => destruct m eqn:E end; simpl.
  - by eapply renew_moves.
  - by eapply reserve_moves.
  - by eapply release_moves.
  - by eapply prepare_conversation_moves.
  - by eapply bind_conversation_moves.
  - by eapply prepare_submission_moves.
  - by eapply bind_submission_moves.
  - by eapply mark_failure_moves.
Qed.

Lemma perform_steps scope now x d : db_ok d -> call_ok x ->
  star (ledger_step now) d (perform scope now x d).
Proof.
  intros K HL. destruct x; simpl;
    try match goal with |- context [fst ?m] => destruct m eqn:E end; simpl.
  - eapply star_mono; [|by eapply create_moves]. by constructor.
  - eapply star_mono; [|by eapply materialize_moves]. by constructor.
  - eapply star_mono; [|by eapply mutate_campaign_moves]. by constructor.
  - eapply star_mono; [|by eapply mutate_campaign_moves]. by constructor.
  - unfold scheduling_claim_next in E. eapply (star_mono (db_move now)); [by constructor|].
    unfold raise_if, fail_if, mbind, M_bind in E. case_match; [|simplify_eq; apply star_refl].
    by eapply claim_moves.
  - eapply star_mono; [|by apply leased_moves]. by constructor.
  - eapply star_mono; [|by eapply settle_result_moves]. by constructor.
  - eapply star_mono; [|by eapply skip_pending_moves]. intros. by eapply LedgerSkip.
  - eapply star_mono; [|by eapply collector_claim_moves]. by constructor.
  - eapply star_mono; [|by eapply collector_renew_moves]. by constructor.
  - eapply star_mono; [|by eapply collector_persist_moves]. by constructor.
  - eapply star_mono; [|by eapply mark_collector_failure_moves]. by constructor.
  - apply star_one. by apply LedgerQuiet.
Qed.
End Calls.
