(* ===== verification/CampaignHistory.v ===== *)
(** * CampaignHistory: every history of the campaign store

    From the empty database, through any sequence of calls by any tenants: the counters are the
    sums over the results, the committed calls and money stay within the ceilings, no more units
    are live than the campaign allows, a settlement is applied once, and a lease that was fenced
    changes nothing. *)

From Stdlib Require Import String.
From S2P Require Import Prelude Errors PyTime Transitions Run Campaign CampaignBudget CampaignPolicy.
From S2P Require Import CampaignPlan CampaignRows CampaignStore CampaignCreate CampaignLedger.
From S2P Require Import CampaignPlanFacts CampaignFacts.

Definition empty_db : Sdb :=
  {| sd_campaigns := ∅; sd_results := ∅; sd_gold := ∅; sd_conversations := ∅; sd_runs := ∅ |}.

Lemma empty_ok : db_ok empty_db.
Proof. constructor; intros i x; simpl; intros; by rewrite lookup_empty in *. Qed.

Section History.
Context (dg : Digests).

Definition store_step (d d' : Sdb) : Prop :=
  exists scope now x, call_ok x /\ d' = perform dg scope now x d.

Definition reachable (d : Sdb) : Prop := star store_step empty_db d.

Lemma store_step_ok d d' : db_ok d -> store_step d d' -> db_ok d'.
Proof.
  intros K (scope & now & x & Hx & ->). eapply star_invariant; [|by apply perform_steps|done].
  intros. by eapply ledger_step_ok.
Qed.

Lemma reachable_ok d : reachable d -> db_ok d.
Proof. intros H. eapply star_invariant; [apply store_step_ok|exact H|apply empty_ok]. Qed.

(** Claim C30. Every call of the campaign store, whoever makes it, whether it returns or raises,
    implements a sequence of steps of the ledger machine: one unit moves with its campaign under
    the rules of [moved], a campaign with empty counters appears, an empty campaign gets its run
    plan, the pending units of a campaign are skipped and counted, or only lifecycle columns
    change. So every history of calls is a history of the machine. *)
Theorem store_refines_ledger d : reachable d ->
  star (fun a b => exists now, ledger_step now a b) empty_db d.
Proof.
  unfold reachable. intros H. pose proof empty_ok as K. induction H as [|a b c Hs _ IH]; [apply star_refl|].
  eapply star_trans; [|by apply IH; eapply store_step_ok].
  destruct Hs as (scope & now & x & Hx & ->). eapply star_mono; [|by apply perform_steps].
  intros. by exists now.
Qed.

(** Claim C1. In every reachable database each counter and each ledger column of a campaign is the
    sum, over the results of that campaign, of what the result contributes to it: planned,
    submitted, collected, failed, skipped, degraded and possibly billed units; reserved, observed
    and possibly billed calls and money; tokens. *)
Theorem campaign_ledger d i c e : reachable d -> sd_campaigns d !! i = Some c ->
  total e c = sumZ (share e) (results_of (cr_tenant_id c) (cr_id c) d).
Proof. intros H%reachable_ok Hc. rewrite sum_results_of. by apply (ok_totals _ H i). Qed.

(** Claim C19. In every reachable database the calls a campaign has committed (observed, possibly
    billed and reserved) exceed its admission ceiling by no more than what settled runs used above
    their reservation, and the money exceeds the stop threshold by no more than that either; so a
    campaign none of whose runs overran is within both limits. *)
Theorem campaign_within_ceilings d i c : reachable d -> sd_campaigns d !! i = Some c ->
  let results := results_of (cr_tenant_id c) (cr_id c) d in
  committed_calls c <= cr_admission_ceiling c + sumZ overrun_calls results /\
  committed_cost c <= cr_cost_stop_threshold c + sumZ overrun_cost results /\
  ((forall r, r ∈ results -> overrun_calls r = 0 /\ overrun_cost r = 0) ->
   committed_calls c <= cr_admission_ceiling c /\ committed_cost c <= cr_cost_stop_threshold c).
Proof.
  intros H%reachable_ok Hc results. pose proof (ok_calls _ H _ _ Hc) as H1.
  pose proof (ok_cost _ H _ _ Hc) as H2. unfold overruns in *. rewrite <- sum_results_of in H1, H2.
  fold results in H1, H2. ksplit. intros H0.
  rewrite (sumZ_zero overrun_calls) in H1 by (intros r Hr; by apply H0).
  rewrite (sumZ_zero overrun_cost) in H2 by (intros r Hr; by apply H0). lia.
Qed.

(** ** Concurrency

    A history with the clock: the readings do not go back. *)

Definition timed_step (a b : Z * Sdb) : Prop :=
  a.1 <= b.1 /\ exists scope x, call_ok x /\ b.2 = perform dg scope b.1 x a.2.

Definition live_count (now : Z) (t ci : UUID) (d : Sdb) : Z :=
  sum_results (fun r => one (live_unit now r)) (sd_results d) t ci.

Lemma active_units_live now t ci d : active_units t ci now d = live_count now t ci d.
Proof. unfold active_units. by rewrite sum_results_of. Qed.

(** Time only ends leases. *)
Lemma live_later now now' r : now <= now' -> live_unit now' r = true -> live_unit now r = true.
Proof.
  intros H. unfold live_unit, expires_after. destruct (_ && _); [done|]. simpl.
  destruct (rs_lease_expires_at _) as [x|]; [|by rewrite andb_false_r].
  intros [-> HX]%andb_prop. simpl. bools. apply Z.ltb_lt. lia.
Qed.

Definition bounded (a : Z * Sdb) : Prop :=
  forall i c, sd_campaigns a.2 !! i = Some c ->
    live_count a.1 (cr_tenant_id c) (cr_id c) a.2 <= cr_max_concurrency c.

Lemma bounded_later now now' d : now <= now' -> bounded (now, d) -> bounded (now', d).
Proof.
  intros H HB i c Hc. specialize (HB i c Hc). simpl in *. etransitivity; [|exact HB].
  apply sum_results_le. intros j r _ _. apply one_mono. by apply live_later.
Qed.

Lemma move_bounded now d d' : db_ok d -> db_move now d d' -> bounded (now, d) -> bounded (now, d').
Proof.
  intros K (c & r & c' & r' & Hc & Hr & Hm & HM & Ec & Er) HB i x Hx.
  destruct HM as ((Hk & S1 & S2 & S3 & _) & _ & _ & _ & _ & _ & _ & _ & HL). simpl in *.
  unfold live_count. rewrite Er, (sum_results_insert _ _ _ r) by first [done | by apply mine_key].
  rewrite Ec in Hx. apply lookup_insert_Some in Hx as [[<- <-]|[Hne Hx]].
  - rewrite S1, S2, S3, mine_true by done. simpl. specialize (HB _ _ Hc). simpl in HB.
    destruct HL as [HL|HL].
    + pose proof (one_mono _ _ HL). unfold live_count in HB. lia.
    + rewrite active_units_live in HL. unfold live_count in *.
      destruct (live_unit now r'), (live_unit now r); simpl; lia.
  - rewrite (mine_other _ _ _ _ _ Hm); [specialize (HB _ _ Hx); unfold live_count in HB; simpl in *; lia|].
    intros [= _ E]. apply Hne. rewrite <- E. by apply (ok_campaign _ K) in Hx as [-> _].
Qed.

Lemma life_bounded now d d' : life_move d d' -> bounded (now, d) -> bounded (now, d').
Proof.
  intros (c & c' & Hc & (S1 & S2 & S3 & _) & _ & _ & Ec & Er) HB i x. simpl. rewrite Ec. unfold live_count.
  rewrite Er. intros [[<- <-]|[_ Hx]]%lookup_insert_Some; [|by apply (HB i)].
  rewrite S1, S2, S3. by apply (HB (cr_id c)).
Qed.

Lemma skip_bounded now t ci d d' : skip_move t ci d d' -> bounded (now, d) -> bounded (now, d').
Proof.
  intros (c & c' & reason & Hc & Et & Ei & (S1 & S2 & S3 & _) & _ & _ & _ & _ & Ec & Er) HB i x Hx.
  simpl in *. unfold live_count. rewrite Er, sum_results_fmap by (intros r; by apply mine_key, skip_in_same).
  assert (exists y, sd_campaigns d !! i = Some y /\ cr_tenant_id x = cr_tenant_id y /\ cr_id x = cr_id y /\
    cr_max_concurrency x = cr_max_concurrency y) as (y & Hy & -> & -> & ->).
  { rewrite Ec in Hx. apply lookup_insert_Some in Hx as [[<- <-]|[_ Hx]]; [|by exists x].
    exists c. by rewrite <- Ei. }
  etransitivity; [|exact (HB i y Hy)]. apply sum_results_le. intros j r _ _. apply one_mono.
  unfold skip_in. by destruct (mine t ci r && pending r).
Qed.

Lemma create_bounded now d d' : db_ok d -> create_move d d' -> bounded (now, d) -> bounded (now, d').
Proof.
  intros K (c & Hc & HC & _ & Ec & Er) HB i x. simpl. rewrite Ec. unfold live_count. rewrite Er.
  intros [[<- <-]|[_ Hx]]%lookup_insert_Some; [|by apply (HB i)].
  rewrite (sum_results_ext _ (fun _ => 0)), sum_results_zero.
  - unfold campaign_checks in HC. simpl in HC. bools. lia.
  - intros j r Hr Hm. exfalso. apply bool_decide_eq_true_1 in Hm as [_ Hm].
    destruct (ok_owner _ K _ _ Hr) as (z & Hz & _). rewrite Hm in Hz. congruence.
Qed.

Lemma plan_bounded now d d' : plan_move d d' -> bounded (now, d) -> bounded (now, d').
Proof.
  intros (c & c' & plans & Hc & (S1 & S2 & S3 & _) & _ & _ & _ & HI & Ec) HB i x Hx. simpl in *.
  unfold live_count. rewrite (insert_results_sum _ _ _ _ _ _ _ _ HI).
  rewrite (sumZ_zero _ plans) by done.
  assert (exists y, sd_campaigns d !! i = Some y /\ cr_tenant_id x = cr_tenant_id y /\ cr_id x = cr_id y /\
    cr_max_concurrency x = cr_max_concurrency y) as (y & Hy & -> & -> & ->).
  { rewrite Ec in Hx. apply lookup_insert_Some in Hx as [[<- <-]|[_ Hx]]; [by exists c|by exists x]. }
  specialize (HB i y Hy). unfold live_count in HB. simpl in HB. case_decide; lia.
Qed.

Lemma ledger_bounded now d d' : db_ok d -> ledger_step now d d' -> bounded (now, d) -> bounded (now, d').
Proof.
  intros K [H|H|t ci H|H|H|H1 H2].
  - by apply move_bounded.
  - by apply life_bounded.
  - by apply (skip_bounded _ t ci).
  - by apply create_bounded.
  - by apply plan_bounded.
  - intros HB i c. simpl. rewrite H1. unfold live_count. rewrite H2. apply HB.
Qed.

(** Claim C20. While the clock does not go back, a campaign never has more live units (submitted runs
    whose reservation is active, and leases that have not ended) than its concurrency limit,
    whatever the workers, the collectors and the campaign's owner do. *)
Theorem concurrency_bound start now d i c : star timed_step (start, empty_db) (now, d) ->
  sd_campaigns d !! i = Some c ->
  active_units (cr_tenant_id c) (cr_id c) now d <= cr_max_concurrency c.
Proof.
  intros H Hc. rewrite active_units_live.
  assert (db_ok d /\ bounded (now, d)) as [_ HB]; [|by apply (HB i)].
  change d with (now, d).2 at 1. eapply (star_invariant timed_step (fun a => db_ok a.2 /\ bounded a));
    [|exact H|split; [apply empty_ok|intros j x; simpl; by rewrite lookup_empty]].
  intros [n1 d1] [n2 d2] [K HB] (Hle & scope & x & Hx & E). simpl in *. subst d2.
  apply (bounded_later n1 n2 d1 Hle) in HB. pose proof (perform_steps dg scope n2 x d1 K Hx) as HS.
  clear H Hc Hle Hx. induction HS as [|a b e H1 _ IH]; [done|].
  apply IH; [by eapply ledger_step_ok|by eapply ledger_bounded].
Qed.

(** ** Settlement *)

Definition digest_ok (digest : pystr) : bool :=
  Nat.eqb (length (strip digest)) 64 && forallb lower_hex_char (strip digest).

Definition duplicate_of (x : BudgetSettlementReceipt) : BudgetSettlementReceipt :=
  {| bt_result_id := bt_result_id x; bt_duplicate := true;
     bt_budget_violation := bt_budget_violation x |}.

Lemma digest_ok_guard digest : digest_ok digest = true ->
  negb (Nat.eqb (length (strip digest)) 64) || existsb (fun c => negb (lower_hex_char c)) (strip digest) = false.
Proof.
  unfold digest_ok. intros [-> H]%andb_prop. simpl. apply not_true_is_false.
  intros (c & Hc & E)%existsb_exists. eapply forallb_forall in H; [|exact Hc]. by rewrite H in E.
Qed.

Lemma locked_eq t ci ri d c r : find_campaign t ci d = Some c -> find_result t ci ri d = Some r ->
  locked_budget_records t ci ri d = (d, Ok (c, r)).
Proof. intros Hc Hr. unfold locked_budget_records. rewrite (bind_ok _ _ d d d) by done. by rewrite Hc, Hr. Qed.

(** A unit that is settled: its figures decide. *)
Lemma settle_settled scope ci ri digest usage now d c r :
  find_campaign scope ci d = Some c -> find_result scope ci ri d = Some r ->
  rr_reservation r = ReservationState_SETTLED -> digest_ok digest = true ->
  settle_result scope scope ci ri digest usage now d =
    (d, if settlement_matches r (strip digest) usage
        then Ok {| bt_result_id := rr_id r; bt_duplicate := true;
                   bt_budget_violation := rb_violation (rr_budget r) |}
        else Raise (InvariantViolation_code
               "A result budget was already settled from different source data" "settlement_conflict")).
Proof.
  intros Hc Hr HS HD. unfold settle_result, transaction, settle_run_budget.
  rewrite (bind_ok _ _ d d tt) by (unfold assert_tenant, raise_if; by rewrite Z.eqb_refl).
  rewrite (bind_ok _ _ d d tt) by (unfold raise_if; by rewrite (digest_ok_guard _ HD)).
  rewrite (bind_ok _ _ _ _ _ (locked_eq _ _ _ _ _ _ Hc Hr)).
  rewrite HS, bool_decide_eq_true_2 by done. destruct (settlement_matches r (strip digest) usage).
  - by rewrite (bind_ok _ _ d d tt).
  - by erewrite bind_raise.
Qed.

Lemma unit_found t ci ri d c r : unit_at t ci ri d c r ->
  find_campaign t ci d = Some c /\ find_result t ci ri d = Some r.
Proof.
  intros (H1 & H2 & <- & <- & <- & [E1 E2] & _). unfold find_campaign, find_result.
  by rewrite H1, H2, E1, E2, !Z.eqb_refl.
Qed.

Lemma settled_member c q usage : cr_tenant_id (settled_campaign c q usage) = cr_tenant_id c.
Proof. unfold settled_campaign. destruct (_ || _); destruct (_ && _); done. Qed.

(** What a settlement that returned left behind. *)
Lemma settle_left scope t ci ri digest usage now d d' x : db_ok d ->
  settle_result scope t ci ri digest usage now d = (d', Ok x) ->
  t = scope /\ exists c r, find_campaign t ci d' = Some c /\ find_result t ci ri d' = Some r /\
    rr_reservation r = ReservationState_SETTLED /\ bt_result_id x = rr_id r /\
    bt_budget_violation x = rb_violation (rr_budget r) /\
    settlement_matches r (strip digest) usage = true.
Proof.
  intros K H. apply transaction_ok_inv in H. unfold settle_run_budget in H. sinv.
  match goal with T : negb (t =? scope) = false |- _ => apply negb_false_iff, Z.eqb_eq in T as HT end.
  split; [done|]. match goal with U : unit_at _ _ _ _ ?c ?r |- _ =>
    destruct (unit_found _ _ _ _ _ _ U) as [F1 F2]; destruct U as (U1 & U2 & U3 & U4 & U5 & [U6 U7] & _) end.
  destruct (rr_reservation r is ReservationState_SETTLED) eqn:ES; sinv.
  - apply bool_decide_eq_true_1 in ES. exists c, r. ksplit.
    match goal with V : negb (settlement_matches _ _ _) = false |- _ => by apply negb_false_iff in V end.
  - match goal with R : stored_reservation r = Ok ?q |- _ =>
      pose proof (settled_id c q usage) as I1; pose proof (settled_member c q usage) as I2;
      set (c2 := settled_campaign c q usage) in *; set (r2 := settled_result r q _ usage now) end.
    exists c2, r2. unfold find_campaign, find_result. simpl. rewrite I1. change (rr_id r2) with (rr_id r).
    rewrite !lookup_insert_eq, I2. change (rr_key r2) with (rr_key r). rewrite U6, U7, !Z.eqb_refl. ksplit.
    unfold settlement_matches, r2. simpl. by rewrite bool_decide_eq_true_2, !Z.eqb_refl.
Qed.

Lemma settlement_matches_inv r digest usage : settlement_matches r digest usage = true ->
  rb_source_digest (rr_budget r) = Some digest /\
  usage = {| su_observed_calls := rb_settled_calls (rr_budget r);
             su_prompt_tokens := rb_prompt_tokens (rr_budget r);
             su_completion_tokens := rb_completion_tokens (rr_budget r);
             su_observed_cost := rb_settled_cost (rr_budget r);
             su_possibly_calls := rb_possibly_calls (rr_budget r);
             su_possibly_cost := rb_possibly_cost (rr_budget r) |}.
Proof. unfold settlement_matches. intros H. bools. split; [done|]. destruct usage; simpl in *; congruence. Qed.

(** A settlement that returned is final: calling again with the same digest and figures
    changes nothing and reports a duplicate with the first call's verdict, and a well-formed digest
    or a usage that differs is refused as a conflict, also leaving every row as it was. *)
Theorem settlement_applied_once scope t ci ri digest usage now d d1 x :
  reachable d -> settle_result scope t ci ri digest usage now d = (d1, Ok x) ->
  (forall now', settle_result scope t ci ri digest usage now' d1 = (d1, Ok (duplicate_of x))) /\
  (forall digest' usage' now', digest_ok digest' = true ->
     strip digest' <> strip digest \/ usage' <> usage ->
     settle_result scope t ci ri digest' usage' now' d1 =
       (d1, Raise (InvariantViolation_code
          "A result budget was already settled from different source data" "settlement_conflict"))).
Proof.
  intros K%reachable_ok H.
  assert (digest_ok digest = true) as HD.
  { pose proof H as H'. apply transaction_ok_inv in H'. unfold settle_run_budget in H'. minv. bools.
    unfold digest_ok. rewrite H0. simpl. apply forallb_forall. intros c Hc.
    destruct (lower_hex_char c) eqn:E'; [done|]. exfalso. revert H1. apply not_false_iff_true.
    apply existsb_exists. exists c. by rewrite E'. }
  destruct (settle_left _ _ _ _ _ _ _ _ _ _ K H) as (-> & c & r & Hc & Hr & HS & E1 & E2 & HM).
  split.
  - intros now'. rewrite (settle_settled _ _ _ _ _ _ _ c r), HM by done. unfold duplicate_of. by rewrite E1, E2.
  - intros digest' usage' now' HD' Hne. rewrite (settle_settled _ _ _ _ _ _ _ c r) by done.
    destruct (settlement_matches r (strip digest') usage') eqn:HM'; [exfalso|done].
    apply settlement_matches_inv in HM as [HA HB], HM' as [HA' HB']. destruct Hne as [[]|[]]; congruence.
Qed.

(** ** Fencing *)

(** Rows stay, under their key, and their versions do not go back. *)
Definition later_rows (d0 d : Sdb) : Prop :=
  forall i r, sd_results d0 !! i = Some r ->
    exists r', sd_results d !! i = Some r' /\ rr_version r <= rr_version r'.

Lemma later_refl d : later_rows d d.
Proof. intros i r H. exists r. by split. Qed.

Lemma later_trans a b c : later_rows a b -> later_rows b c -> later_rows a c.
Proof.
  intros H1 H2 i r Hr. destruct (H1 _ _ Hr) as (r1 & Hr1 & ?). destruct (H2 _ _ Hr1) as (r2 & Hr2 & ?).
  exists r2. split; [done|lia].
Qed.

Lemma ledger_later now d d' : ledger_step now d d' -> later_rows d d'.
Proof.
  intros [(c & r & c' & r' & _ & Hr & _ & HM & _ & E)|(c & c' & _ & _ & _ & _ & _ & E)
         |t ci (c & c' & reason & _ & _ & _ & _ & _ & _ & _ & _ & _ & E)|(c & _ & _ & _ & _ & E)
         |(c & c' & plans & _ & _ & _ & _ & _ & HI & _)|_ E] i x Hx; rewrite ?E.
  - destruct (decide (rr_id r = i)) as [<-|Hne].
    + rewrite Hx in Hr. injection Hr as ->. exists r'. rewrite lookup_insert_eq. split; [done|].
      by destruct HM as (_ & _ & _ & _ & ? & _).
    + exists x. by rewrite lookup_insert_ne.
  - by exists x.
  - exists (skip_in t ci reason x). rewrite lookup_fmap, Hx. split; [done|].
    by destruct (skip_in_same t ci reason x) as (_ & _ & ?).
  - by exists x.
  - exists x. split; [by eapply insert_results_keeps|done].
  - by exists x.
Qed.

Lemma store_later d d' : db_ok d -> star store_step d d' -> later_rows d d'.
Proof.
  intros K H. induction H as [|a b c Hs _ IH]; [apply later_refl|].
  eapply later_trans; [|by apply IH; eapply store_step_ok].
  destruct Hs as (scope & now & x & Hx & ->). pose proof (perform_steps dg scope now x a K Hx) as HS.
  clear IH. induction HS as [|a b e H1 _ IH]; [apply later_refl|].
  eapply later_trans; [by eapply ledger_later|]. apply IH. by eapply ledger_step_ok.
Qed.

(** A call with a lease changes the rows only while its version is the row's. *)
Definition fenced (lease : RunLease) (d d' : Sdb) : Prop :=
  d' = d \/ exists r, sd_results d !! rl_id lease = Some r /\ rr_version r = rl_persisted_version lease.

Lemma fits_fenced lease now t ci ri d c r d' : unit_at t ci ri d c r -> ri = rl_id lease ->
  lease_fits lease now r -> fenced lease d d'.
Proof. intros (_ & Hr & _ & E & _) Ei (_ & _ & _ & _ & HV). right. exists r. by rewrite <- Ei, <- E. Qed.

Ltac fenced_call :=
  let H := fresh in intros H; eapply (transaction_case _ (fenced _ _) _ _ _ H);
  [by left|clear H; intros; sinv; try (by left)];
  try (match goal with U : unit_at _ _ _ _ _ _ |- _ => by eapply (fits_fenced _ _ _ _ _ _ _ _ _ U) end).

Lemma leased_fenced scope now lease x d : db_ok d -> fenced lease d (perform_leased dg scope now lease x d).
Proof.
  intros K. destruct x; simpl; match goal with |- context [fst ?m] => destruct m eqn:E end; simpl; revert E.
  1: fenced_call; destruct (find_result _ _ _ d) as [r0|] eqn:Er; sinv; apply find_result_inv in Er as [Er _];
     bools; right; exists r0; match goal with R : RunLease_renew _ _ _ = Ok _ |- _ =>
       apply renew_ok_inv in R as (_ & <- & _ & _ & <- & _) end; by split.
  6: fenced_call; destruct (rs_search_run_id _); sinv; try (by left);
     by eapply (fits_fenced lease now _ _ _ _ _ _ _ E).
  6: fenced_call; case_match; sinv; [by left|]; bools; right; exists r0; destruct E as (_ & Hr & _ & <- & _); by split.
  all: fenced_call.
Qed.

(** Claim C29. A lease whose version is behind the row's when it is fenced stays fenced for good: after
    any further calls by anybody, whatever its holder then calls with it (renewing, reserving,
    releasing, preparing, binding or failing the unit) leaves every row as it is. *)
Theorem stale_lease_fenced d0 d lease r scope now x :
  reachable d0 -> sd_results d0 !! rl_id lease = Some r -> rl_persisted_version lease < rr_version r ->
  star store_step d0 d ->
  perform dg scope now (Leased lease x) d = d.
Proof.
  intros K%reachable_ok Hr HV HS. pose proof (star_invariant _ _ store_step_ok _ _ HS K) as K'.
  destruct (store_later _ _ K HS _ _ Hr) as (r' & Hr' & HV').
  destruct (leased_fenced scope now lease x d K') as [|(r2 & Hr2 & E)]; [done|].
  rewrite Hr' in Hr2. injection Hr2 as ->. lia.
Qed.
End History.

(** ** A campaign from creation to a settled failure *)

(** Calls in order, each with its tenant and its clock reading. *)
Definition run_calls (dg : Digests) (l : list (UUID * Z * store_call)) : Sdb :=
  foldl (fun d e => perform dg e.1.1 e.1.2 e.2 d) empty_db l.

Lemma run_calls_reachable dg l : Forall (fun e => call_ok e.2) l -> reachable dg (run_calls dg l).
Proof.
  unfold run_calls, reachable. intros HL. generalize (star_refl (store_step dg) empty_db).
  generalize empty_db at 2 4. induction HL as [|[[s n] x] l Hx _ IH]; intros d Hd; [done|].
  apply IH. eapply star_trans; [exact Hd|]. apply star_one. by exists s, n, x.
Qed.

Definition ex_digests : Digests :=
  {| dg_sha256 := fun _ => repeat 48 64; dg_profile_text := fun _ => []; dg_policy_text := fun _ => [];
     dg_rubric_text := fun _ => []; dg_rate_text := fun _ => []; dg_request_text := fun _ => [];
     dg_smoke_only_of := fun _ => true; dg_sort_digest := fun _ i n => i ++ str_of_Z n;
     dg_uuid5 := fun n s => foldl (fun a c => a * 256 + c) n s |}.

Definition ex_rubric : ReviewRubric := {| rub_version := u "rubric-v1"; rub_criteria := [u "correct"] |}.
Definition ex_rate : CostRate :=
  {| cx_version := u "rate-v1"; cx_prompt_per_million := Dec false 1 (-1);
     cx_completion_per_million := Dec false 4 (-1); cx_possibly_billed_run_reserve := Dec false 1 (-3);
     cx_run_reservation := None |}.
Definition ex_provenance : CampaignProvenance :=
  {| cv_candidate_commit_sha := repeat 97 40; cv_candidate_source_clean := true;
     cv_candidate_image_id := u "sha256:" ++ repeat 97 64; cv_candidate_oci_revision := repeat 97 40;
     cv_alembic_head := u "head"; cv_candidate_config_hash := repeat 97 64;
     cv_harness_commit_sha := repeat 98 40; cv_harness_source_clean := true;
     cv_harness_fileset_hash := repeat 98 64; cv_collector_schema_version := u "collector-v1";
     cv_environment_identity_hash := repeat 48 64; cv_environment_snapshot := u "{}" |}.
Definition ex_command : CreateCampaignCommand :=
  {| cq_tenant_id := 1; cq_user_id := 2; cq_name := u "smoke"; cq_idempotency_key := u "k1";
     cq_profile_version := u "docker-smoke-v1"; cq_manifest := ex_manifest; cq_review_rubric := ex_rubric;
     cq_cost_rate := ex_rate; cq_provenance := ex_provenance; cq_retention_until := utc 1000000;
     cq_parent_smoke_campaign_id := None |}.
Definition ex_catalog : CampaignPolicyCatalog :=
  match CampaignPolicyCatalog_standard [ex_rubric] [ex_rate] with
  | Ok x => x
  | Raise _ => {| cg_profiles := []; cg_policies := []; cg_review_rubrics := []; cg_cost_rates := [] |}
  end.

Definition ex_start : list (UUID * Z * store_call) :=
  [(1, 10, Create ex_catalog ex_command 7); (1, 20, Materialize ex_catalog 1 2 7 ex_manifest);
   (1, 30, Owned 1 2 7 (CampaignStart (utc 30))); (1, 40, Claim 1 7 (u "w1") 1000)].

(** The lease that the claim returns, and the one its reservation leaves. *)
Definition ex_claimed : option RunLease :=
  match (scheduling_claim_next 1 1 7 (u "w1") 1000 40 (run_calls ex_digests (take 3 ex_start))).2 with
  | Ok x => x
  | Raise _ => None
  end.
Definition ex_reserved : option RunLease :=
  lease ← ex_claimed;
  match (reserve_run_budget 1 lease 50 (run_calls ex_digests ex_start)).2 with
  | Ok (x, _) => Some x
  | Raise _ => None
  end.

Definition ex_failure : RunnerFailure :=
  {| rf_error_class := ErrorClass_INFRASTRUCTURE; rf_error_code := u "transport_error";
     rf_failed_phase := u "submission"; rf_possibly_billed := true |}.

(** The unit is claimed, reserved, and failed as possibly billed. *)
Definition ex_calls : list (UUID * Z * store_call) :=
  ex_start
  ++ match ex_claimed with Some l => [(1, 50, Leased l Reserve)] | None => [] end
  ++ match ex_reserved with Some l => [(1, 60, Leased l (MarkFailure ex_failure (repeat 99 64)))] | None => [] end.

Definition ex_db : Sdb := run_calls ex_digests ex_calls.

Lemma ex_calls_ok : Forall (fun e => call_ok e.2) ex_calls.
Proof. vm_compute. repeat constructor; discriminate. Qed.

Lemma ex_db_reachable : reachable ex_digests ex_db.
Proof. apply run_calls_reachable, ex_calls_ok. Qed.

(** With readings that do not go back, the calls are a timed history. *)
Lemma run_calls_timed dg l now d : Forall (fun e => call_ok e.2) l ->
  (fix ordered n l := match l with [] => True | e :: r => n <= e.1.2 /\ ordered e.1.2 r end) now l ->
  star (timed_step dg) (now, d)
    (foldl (fun n e => e.1.2) now l, foldl (fun d e => perform dg e.1.1 e.1.2 e.2 d) d l).
Proof.
  intros HL. revert now d. induction HL as [|[[s n] x] l Hx _ IH]; intros now d HO; [apply star_refl|].
  destruct HO as [Hn HO]. eapply star_trans; [|by apply IH]. apply star_one. split; [done|]. by exists s, x.
Qed.

Lemma store_refines_ledger_witness :
  star (fun a b => exists now, ledger_step now a b) empty_db ex_db /\ size (sd_results ex_db) = 6%nat.
Proof. split; [apply (store_refines_ledger ex_digests), ex_db_reachable|vm_compute; reflexivity]. Defined.

Lemma campaign_ledger_witness : exists c, sd_campaigns ex_db !! 7 = Some c /\
  total EPossiblyCalls c = 8 /\ total EFailed c = 1 /\
  total EPossiblyCalls c = sumZ (share EPossiblyCalls) (results_of 1 7 ex_db).
Proof.
  destruct (sd_campaigns ex_db !! 7) as [c|] eqn:E; [|exfalso; revert E; vm_compute; discriminate]. exists c.
  pose proof (campaign_ledger ex_digests ex_db 7 c EPossiblyCalls ex_db_reachable E) as H.
  revert E H. vm_compute. intros [= <-] H. repeat split; try reflexivity; exact H.
Defined.

Lemma campaign_within_ceilings_witness : exists c, sd_campaigns ex_db !! 7 = Some c /\
  committed_calls c = 8 /\ cr_admission_ceiling c = 32 /\
  committed_calls c <= cr_admission_ceiling c
    + sumZ overrun_calls (results_of (cr_tenant_id c) (cr_id c) ex_db).
Proof.
  destruct (sd_campaigns ex_db !! 7) as [c|] eqn:E; [|exfalso; revert E; vm_compute; discriminate].
  exists c. split; [reflexivity|].
  assert (committed_calls c = 8 /\ cr_admission_ceiling c = 32) as [H1 H2].
  { revert E. vm_compute. by intros [= <-]. }
  split; [exact H1|]. split; [exact H2|].
  exact (proj1 (campaign_within_ceilings ex_digests ex_db 7 c ex_db_reachable E)).
Defined.

Lemma concurrency_bound_witness : exists c, sd_campaigns ex_db !! 7 = Some c /\
  active_units (cr_tenant_id c) (cr_id c) 60 ex_db <= 2.
Proof.
  destruct (sd_campaigns ex_db !! 7) as [c|] eqn:E; [|exfalso; revert E; vm_compute; discriminate]. exists c.
  split; [reflexivity|]. replace 2 with (cr_max_concurrency c) by (revert E; vm_compute; by intros [= <-]).
  refine (concurrency_bound ex_digests 0 60 ex_db 7 c _ E).
  refine (run_calls_timed ex_digests ex_calls 0 empty_db ex_calls_ok _). vm_compute. repeat split; discriminate.
Defined.

Definition ex_usage : SettlementUsage :=
  {| su_observed_calls := 0; su_prompt_tokens := 0; su_completion_tokens := 0; su_observed_cost := 0;
     su_possibly_calls := 8; su_possibly_cost := 10000000 |}.

Definition ex_unit : UUID := match ex_claimed with Some l => rl_id l | None => 0 end.

Lemma settlement_applied_once_witness : exists d1 x,
  settle_result 1 1 7 ex_unit (repeat 99 64) ex_usage 70 ex_db = (d1, Ok x) /\
  settle_result 1 1 7 ex_unit (repeat 99 64) ex_usage 80 d1 = (d1, Ok (duplicate_of x)) /\
  (settle_result 1 1 7 ex_unit (repeat 98 64) ex_usage 80 d1).1 = d1.
Proof.
  destruct (settle_result 1 1 7 ex_unit (repeat 99 64) ex_usage 70 ex_db) as [d1 [x|e]] eqn:E;
    [|exfalso; apply (f_equal (fun p => is_ok p.2)) in E; revert E; vm_compute; discriminate].
  exists d1, x. split; [reflexivity|].
  destruct (settlement_applied_once ex_digests _ _ _ _ _ _ _ _ _ _ ex_db_reachable E) as [H1 H2].
  split; [apply H1|]. rewrite H2; [reflexivity|vm_compute; reflexivity|left; vm_compute; discriminate].
Defined.

Lemma stale_lease_fenced_witness : exists lease, ex_claimed = Some lease /\
  perform ex_digests 1 70 (Leased lease (Renew 1000)) ex_db = ex_db.
Proof.
  destruct ex_claimed as [lease|] eqn:E; [|exfalso; revert E; vm_compute; discriminate]. exists lease.
  split; [reflexivity|]. destruct (sd_results ex_db !! rl_id lease) as [r|] eqn:Er;
    [|exfalso; revert E Er; vm_compute; intros [= <-]; discriminate].
  refine (stale_lease_fenced ex_digests ex_db ex_db lease r 1 70 (Renew 1000) ex_db_reachable Er _ _);
    [|apply star_refl].
  revert E Er. vm_compute. intros [= <-] [= <-]. reflexivity.
Defined.

(** ** A drain that does not end

    The worker that claimed the unit is gone, the campaign is being stopped, and the lease has
    ended: the unit counts as work in flight, but a STOPPING campaign hands out only units that
    crossed an outbound fence, only pending ones are skipped, and the lost lease is fenced. *)
Definition ex_stopping : Sdb :=
  run_calls ex_digests
    (ex_start ++ [(1, 45, Owned 1 2 7 (CampaignRequestStop StopIntent_ABORT (u "operator_abort")))]).

Definition in_flight (d : Sdb) : list (SchedulingState * Z) :=
  map (fun r => (rr_state r, rr_version r))
    (base.filter (fun r => leased_state (rr_state r) = true) (results_of 1 7 d)).

Example abandoned_claim_stuck :
  in_flight ex_stopping = [(SchedulingState_CLAIMED, 1)] /\
  (scheduling_claim_next 1 1 7 (u "w2") 1000 1000000 ex_stopping).2 = Ok None /\
  in_flight (perform ex_digests 1 1000000 (SkipPending 1 7 (u "campaign_abort")) ex_stopping)
    = [(SchedulingState_CLAIMED, 1)] /\
  match ex_claimed with
  | Some l => in_flight (perform ex_digests 1 1000000 (Leased l (MarkFailure ex_failure (repeat 99 64))) ex_stopping)
                = [(SchedulingState_CLAIMED, 1)]
  | None => False
  end.
Proof. vm_compute. repeat split. Qed.
